(* ===== verification/_CoqProject ===== *)
-Q . S2P
Prelude.v
Hoare.v
Sha256.v
Sha256Facts.v
PyTime.v
PyTimeFacts.v
PyDecimal.v
DecimalFacts.v
PyFloat.v
PyFloatFacts.v
Json.v
DecimalText.v
DecimalContext.v
JsonRead.v
Domain.v
Weights.v
WeightsFacts.v
ThemeMetrics.v
PublicViews.v
Turnover.v
Attention.v
EventModels.v
Outbox.v
EventReaders.v
EventStore.v
EventWriter.v
EventHistory.v
InfostockModels.v
PyText.v
PyUnicode.v
PyRegex.v
Vocabulary.v
CauseText.v
HistoricalMatching.v
HistoricalFacts.v
ReferenceModels.v
ReferenceCalendar.v
FreeFloat.v
FreeFloatFacts.v
Reconciliation.v
RealtimeModels.v
HotState.v
HotCheckpoint.v
Hysteresis.v
Aggregation.v
Snapshots.v
RealtimeReaders.v
KiwoomEvents.v
KiwoomNormalizer.v
Subscriptions.v
Reconnect.v
OrderFence.v
Gateway.v
FixtureAdapter.v
LiveRunner.v
Hub.v
TradingDay.v
News.v
Catalyst.v
MarketThemes.v
MarketFeed.v
MarketBoard.v
MarketBaseline.v
History.v
Market.v
MarketClose.v
MarketRunner.v
Operator.v
IdentityModels.v
ReturnTo.v
Identity.v
