(* ===== verification/Prelude.v ===== *)
(** * DayJaView: the event, market and account core

    DayJaView watches the Korean stock market by theme.  During the day stock updates
    arrive, move the weighted numbers of the themes that hold the stock, start and end
    theme events, and reach browsers as numbered snapshots; after the close the events are
    compared with confirmed articles.  Users log in through Google and save items;
    operators retry jobs and settle reviews.  This development models the packages that
    decide (under [src/packages], and [src/apps/api/realtime.py]) and proves what they
    promise.  Comments of the form [(* @ path first-last symbol *)] name the code a
    definition translates.

    ** How the code is read

    - A call that may raise is a [res]: [Ok] or [Raise] of the exception's class.  A
      method of a mutable object is an [M S A]: from a state to an outcome and a
      state, so what a method did before it raised stays visible.  A lock is the
      atomicity of the call that holds it; histories are lists of such calls, in any
      order, so every interleaving of calls is covered.
    - [dict] is an association list in insertion order ([dget], [dset], [ddel]); [sorted]
      is the stable [sorted_by] over the ordering class [PyOrd]; [set] is a list without
      duplicates where its order is never seen.
    - [str] is its UTF-8 bytes; [len] counts characters ([py_len]); a lone surrogate is the
      three bytes of its number, and [PyUnicode] finds it where a text is encoded.
    - [datetime] is a local microsecond count with its offset, compared by instant;
      overflow at year 9999 is modelled in the normalizer of the feed alone.  [Decimal] is
      sign, coefficient and exponent with the rounding of a context written out
      ([PyDecimal], facts in [DecimalFacts]); the range of exponents is written out where
      numbers are read as they come ([DecimalContext], for the normalizer), and elsewhere
      theorems that exclude every other failure ask for [ordinary] numbers;
      [float] is an integer number of units of 2^-1074 ([PyFloat]).
    - A dataclass is a [Record]; its [__post_init__] is the [..._check] or [..._init] that
      builds it, and [dataclasses.replace] runs it again.
    - Fingerprints and hashes are computed: [Json] prints the canonical text and [Sha256]
      hashes it, so a concrete run evaluates to the digests of the code.  Where a theorem
      needs that digests do not collide, this is a hypothesis about the inputs at hand that
      its comment names: the ids of the accepted publications ([ids_distinct] of
      [Snapshots]), the event ids of the day's themes ([events_follow_themes]) and the two
      snapshot ids of a publication ([publish_shows_one_board]).  Elsewhere digests are
      compared where the code compares them.
    - A stored record is the JSON value of its [to_dict] after [json.dumps] with sorted keys
      and [json.loads] ([normalize]).  [PyTimeFacts] and [DecimalText] prove that dates,
      times and decimals are read from the text they print, [JsonRead] has the readers the
      [from_dict]s are made of and the class [Stored] of records that survive their text.
    - [Hoare] has triples for methods: what holds when one returns, and when it raises.

    ** The parts, and how they interact

    - [Domain] ([packages/domain]): membership snapshots and the selection of the one in
      force, references, observations, coverage, the three state axes of an event.
      [Weights], [ThemeMetrics], [Turnover], [Attention] ([packages/calculations]) are the
      calculations over them, and [WeightsFacts] bounds the rounding of the weights; [PublicViews] is what of them leaves the program, with the
      text [repr] gives a float.
    - [EventModels], [Outbox], [EventStore], [EventWriter] ([packages/events]): commands
      and records; the outbox and its publisher, written against the class
      [OutboxDeliveryStore]; the store protocol (class [EventStore]) and the in-memory
      store with its rollback; the single writer, written against the protocol.
      [MemStore] is the record of the six collections of
      [memory.py] and the failpoint.  [EventHistory] closes the loop: what holds of every
      store that writer, publisher and callers can reach.
    - [InfostockModels], [Reconciliation] ([packages/infostock/models.py],
      [packages/events/reconciliation.py]): a day's confirmations and the run that plans
      and submits commands to the writer.
    - [RealtimeModels], [HotState], [HotCheckpoint] ([packages/realtime]): the latest
      state of every stock, its cursors and fingerprints, and its checkpoints.
      [Aggregation] reads it: marking themes dirty and draining them through
      [ThemeMetrics].  [Hysteresis] turns a theme's ordered evaluations into lifecycle
      transitions.  [Snapshots] numbers and stores what readers see, and [Hub]
      ([apps/api/realtime.py]) sends it to WebSocket clients.
    - [EventReaders], [RealtimeReaders]: the [from_dict]s of the events and of [realtime].
    - The market day ([packages/pipeline]): [TradingDay] has the trading days and the
      session's bounds; [MarketThemes] the life of a theme, where every metric update goes
      through [Hysteresis] and what it decides is written to the event store by
      [EventWriter]; [MarketFeed] the updates on their way to [HotState] and [Aggregation];
      [MarketBoard] the ranking with its rank history; [MarketBaseline] the baselines, over
      the interface [IntradayHistory] that [History] implements with the files of a day.
      [Market] joins them in [MarketDataPipeline]: publication, close and what readers ask
      for; [MarketClose] is about its close.  [MarketRunner] has the loop that ticks a day
      and the loop over days, written against the interface [DayPipeline].
    - The Kiwoom feed ([packages/adapters/kiwoom]): [KiwoomEvents] has the envelopes of the
      brokerage's messages and the canonical events, [KiwoomNormalizer] turns one into the
      other; [Subscriptions] plans which stocks to subscribe, [Reconnect] when to try again;
      [OrderFence] admits events in order and has the market state and its coverage;
      [Gateway] joins them over the class [KiwoomPort], the boundary to the brokerage.
      [KiwoomPortLaws] is what is asked of a port: that the envelopes it returns were built
      by their constructor.  [FixtureAdapter] is the port that replays recordings and meets
      the laws.  [LiveRunner] ([pipeline/live.py]) polls the gateway and hands its
      observations to the pipeline as the updates [MarketFeed] takes.
    - [PyText], [PyUnicode], [PyRegex]: a [str] as its code points; digits, upper case and
      surrogates beyond ASCII; and a backtracking matcher for the patterns of [re] the code
      uses, sound and complete for the relation [matches].
      [Vocabulary], [CauseText] ([packages/ontology/vocabulary.py], [transform.py]): the
      catalyst types with their keywords, and the classification of the sentence that says
      why a theme moved.  [HistoricalMatching] ([packages/historical_matching]) reads past
      events of a theme out of the records of [InfostockModels] with it, ranks those that
      resemble today's and groups them by type, over the classes [OutcomeSource] and
      [SameDaySource] of the price corpus; [HistoricalFacts] has what it promises.
    - [ReferenceModels], [ReferenceCalendar], [FreeFloat] ([packages/reference-data]): the
      reference records with what each knows of its source; the trading days and the
      adjusted close of the day before, as known when a decision was made; the free float as
      issued shares less what holders that do not trade disclosed.  [FreeFloatFacts] has what
      it promises.
    - [News], [Catalyst] ([packages/news], [packages/catalyst]): news items, the poller of
      the sources, the in-memory store; matching news to themes, what an event's evidence
      says, its revisions, and the gate of the supplemental search.
    - [Operator] ([packages/operator]): the console over a repository (class
      [OperatorRepository]), receipts, audit trail and paged lists.
    - [IdentityModels], [ReturnTo], [Identity] ([packages/identity]): accounts and the
      in-memory repository; the redirect test on bytes; the service, whose [World] is the
      repository, the catalog and how often clock and token source were used.

    ** What the theorems show

    - Events: the log of an event replays to its state without gaps
      ([event_log_replays]); a repeated command answers alike and changes nothing, a
      reused id is refused, a failed transaction leaves no trace, and each applied command
      changes exactly what it says ([write_replay], [write_conflict], [write_atomic],
      [write_effect]); source order, forward-only life cycles and one event per identity
      ([write_in_source_order], [events_only_move_forward], [one_event_per_identity]).
      The publisher settles each claimed message once ([publish_pending_settles]).
    - Reconciliation: a run settles every eligible event as the articles say and a rerun
      writes nothing ([reconcile_settles], [reconcile_answers_each_event],
      [confirmations_complete_once]).
    - Realtime: the hot state is the greatest update whatever the arrival order
      ([latest_observation_wins]), moves forward, and survives its checkpoint; a drain
      answers every pending theme or changes nothing, the pending set survives its
      checkpoint; hysteresis consumes evaluations in order, moves only with the configured
      evidence and fails only for the stated reasons.
    - Pipeline: as long as its steps succeed, each evaluated theme has its event of the
      day, standing where the hysteresis does ([events_follow_themes]); a failed write
      parts them for good ([failed_write_strands_event]); base prices only fill gaps
      ([base_prices_fill_gaps]); the board ranks the public themes, and its rank history
      answers like the full log ([board_ranks_themes], [rank_history_refines_log]); a
      publication shows one board ([publish_shows_one_board]); a close is final
      ([close_is_final]), and the loop applies it once, at its time ([close_applied_once]);
      only today is published, and sessions are built with patience
      ([publishes_only_today], [sessions_built_patiently]); the history keeps what was
      recorded last ([history_keeps_last]); the next trading day is the first
      ([next_trading_day_is_first]).
    - Kiwoom: a message is normalized or refused as a whole, and each error but the expected
      one has its cause in the message ([normalize_or_refuse]); the
      fence judges an event as the list of accepted events says, which is in order
      ([fence_refines_log], [accepted_in_order]); health is what is received
      ([health_is_reception]); subscriptions go to the top demands and are kept for their
      cooldown ([plan_serves_top_demands], [dropped_after_cooldown]); the backoff stays
      within its bounds until its power overflows ([backoff_wears_out]); each accepted
      observation is handed on once ([updates_are_accepted_once]), and an interrupted
      recovery is not finished ([interrupted_recovery_stays_delayed]).
    - Texts: checkpoints, snapshots, events, write results and messages survive their text
      ([checkpoint_survives_text], [snapshot_survives_text], [event_records_survive_text]).
    - Evidence: revisions are an append-only history ([revisions_append_only]), the two
      directions of matching agree ([match_directions_agree]), and the supplemental search
      stays within its cooldown and quota ([gate_limits_rate]).
    - Past events: a text is always classified and quotes its evidence
      ([classification_quotes_text]), its types read leftmost and longest
      ([types_leftmost_longest]); scores are bounded ([score_bounds]), the best cases are the
      ones shown ([rank_cases_best]), chosen without knowing the future
      ([similar_events_point_in_time]); the groups split the cases ([groups_partition]), and
      their ids are read back ([catalyst_id_round_trip]).
    - Reference data: the trading day before is the nearest one, the days between two dates
      are exactly the trading ones ([previous_trading_day_is_nearest],
      [trading_days_between_exact]); an adjusted close is never made up
      ([adjusted_close_sound]); the free float is an account of the issued shares
      ([free_float_accounts]); neither sees what was not known by then
      ([adjusted_close_point_in_time], [free_float_point_in_time]).
    - Snapshots and hub: the repository refines an append-only log
      ([snapshots_are_a_log]); publishing answers on every path; what the socket carries
      under a subscription are the messages of a subsequence of the hub's snapshots, and a
      client catches up with one pass ([clients_move_forward], [pending_catches_up]).
    - Calculations: with room under the cap, capped weights are non-negative and total
      exactly 1 in spite of the rounding ([capped_weights_sum_to_one]); without it the code
      raises exactly when a residual fits no weight ([capped_weights_total], with twelve
      equal stocks as an example), and then the theme metrics and a drain raise, and for no
      other reason ([calculate_theme_metrics_total], [drain_all_or_nothing]); the metrics
      see only records of the day known by then; turnover results satisfy their
      contract; the attention timeline is the specified one; the newest membership
      snapshot is selected.
    - Operator: a command takes effect once, the audit trail is complete, and the version
      an operator saw guards the target.
    - Identity: changes need a live session, the site's origin and the CSRF token
      ([changes_are_guarded]); a ticket admits once per issue; deletion leaves nothing; the
      repository stays well formed; following the saved list's cursors shows every item
      once; a redirect stays on the site.

    ** Fuel

    Loops that are not structural take fuel, and a theorem gives the amount: the capping
    loop ends within one pass per stock ([capped_weights_total]); following a list's pages
    ends within one page per item ([saved_list_pages_through], [lists_page_through]).
    A poll of the live runner takes its own limit of messages.
    [OutOfFuel] is not an exception of the code, and these theorems exclude it.  The loops
    over a text take its length, which each pass shortens.

    ** Arguments that stand for what is not under [src]

    The OAuth client's answers, the clock and the tokens drawn; [str.casefold] (saved items,
    news and matching); the standard library's host checks inside [urlsplit] ([ReturnTo]);
    the projection of a message to its public form and [datetime.fromisoformat] on a
    client's text ([Hub]); the transport of the publisher ([Outbox]); the port to the
    brokerage ([KiwoomPort]) and the clock of the live runner; the price corpus
    ([OutcomeSource], [SameDaySource]).  The theorems hold
    for all of them, and the concrete runs at the end of the files instantiate them.

    ** Not modelled

    The PostgreSQL adapters (their atomicity is the server's; the in-memory repositories
    with the same contract are modelled); network clients, HTTP handling, command-line
    workers and scripts; parsers of third-party pages; the signed text of the saved list's cursors (a cursor
    is held decoded) and the URL checks of [IdentityPolicy]; JSON text and scheduling of
    the WebSocket loop; message texts of exceptions.  The live adapter of Kiwoom is web
    socket and HTTP sessions in threads: it is any [KiwoomPort].  [str.isdigit] beyond ASCII
    (Unicode 15) is modelled in the Kiwoom packages and not in the group ids of
    [HistoricalMatching]; [str.upper] leaves letters beyond ASCII, but for the two with an
    ASCII capital, which is all its comparisons can see; [repr] keeps characters beyond
    ASCII.  The limits of the interpreter (recursion, memory, 4300 digits of an [int] text)
    are not modelled.  The power of the backoff is the exact power of two its default policy
    needs.  Of [pipeline] the
    input files of a day, of [news] the ingestion of feed texts, and
    the packages [historical_data], [llm], the parsers of [reference-data], the replay adapter and the
    increment planner of [infostock] are not; of [ontology] the classification of
    catalysts is modelled, the rules for companies, events and questions are not. *)

(** Shared vocabulary: Python exceptions and the result and state monads, the
    ordering protocol behind [sorted], stable sorting, insertion-ordered
    dictionaries, blank-text tests, and the tactics the components use. *)
From stdpp Require Export base gmap sets list strings numbers sorting.
From Stdlib Require Export ZArith Lia.
From Stdlib Require Export Ascii.
From stdpp Require Export strings list.

#[global] Open Scope Z_scope.
Create HintDb pyord.
Declare Scope py_scope.
Delimit Scope py_scope with py.

(** ** Exceptions *)

(** The exception classes the modelled code raises.  Message texts are not
    modelled: a [raise] is identified by its class. *)
Inductive exn :=
  | ValueError
  | TypeError
  | KeyError
  | IndexError
  | ArithmeticError
  (** The signals of [decimal] and of [float], subclasses of [ArithmeticError]: each stands
      for itself, so that [ArithmeticError] is only what the code raises under this name. *)
  | DecimalDivisionByZero
  | DecimalInvalidOperation
  | DecimalOverflow
  | OverflowError
  | AssertionError
  | InvalidStateTransition
  | HysteresisInputConflict
  | HotStateIdempotencyConflict
  | SnapshotIdempotencyConflict
  | StaleSnapshotPublication
  | SnapshotCommitFailure
  | EventNotFoundError
  | EventIdentityConflictError
  | IdempotencyConflictError
  | ConcurrentEventWriteError
  | SimulatedCommitFailure
  | TransportError
  | OperatorTargetNotFound
  | UnknownOperatorCursor
  (** Raised with this code. *)
  | OperatorCommandRejected (code : string)
  | InvalidSubscription
  | RuntimeError
  | AuthenticationRequired
  | CsrfValidationFailed
  | FeatureNotEntitled
  | InvalidCursor
  | InvalidRequest
  | OAuthCallbackRejected
  | RecentAuthenticationRequired
  | ResourceNotFound
  (** Raised with these messages. *)
  | KiwoomConnectionError (reason : string)
  | KiwoomConnectionLost (reason : string)
  | NormalizationError
  (** A lone surrogate does not encode; a subclass of [ValueError]. *)
  | UnicodeEncodeError
  | ReconnectNotDue
  | FixtureContractError
  (** Not a Python exception: a loop of the model ran out of fuel. *)
  | OutOfFuel.

#[export] Instance exn_eq_dec : EqDecision exn.
Proof. solve_decision. Defined.

(** The outcome of a Python call: a value or a raised exception. *)
Inductive res (A : Type) :=
  | Ok (a : A)
  | Raise (e : exn).
Arguments Ok {_} _.
Arguments Raise {_} _.

#[export] Instance res_ret : MRet res := fun _ a => Ok a.
#[export] Instance res_bind : MBind res := fun _ _ f r =>
  match r with Ok a => f a | Raise e => Raise e end.
#[export] Instance res_fmap : FMap res := fun _ _ f r =>
  match r with Ok a => Ok (f a) | Raise e => Raise e end.

#[export] Instance res_eq_dec `{EqDecision A} : EqDecision (res A).
Proof. solve_decision. Defined.

(** [if c: raise e] *)
Definition raise_if (c : bool) (e : exn) : res unit :=
  if c then Raise e else Ok tt.

Definition is_ok {A} (r : res A) : bool :=
  match r with Ok _ => true | Raise _ => false end.

(** A loop over a list that may raise, threading an accumulator. *)
Fixpoint foldM {A S} (f : S -> A -> res S) (s : S) (l : list A) : res S :=
  match l with
  | [] => Ok s
  | a :: l' => s' ← f s a; foldM f s' l'
  end.

(** A comprehension whose element expression may raise. *)
Fixpoint mapM_res {A B} (f : A -> res B) (l : list A) : res (list B) :=
  match l with
  | [] => Ok []
  | a :: l' => b ← f a; bs ← mapM_res f l'; Ok (b :: bs)
  end.

(** A method of a mutable object: it returns or raises, and leaves a state in
    both cases. *)
Definition M (S A : Type) : Type := S -> res A * S.

#[export] Instance M_ret {S} : MRet (M S) := fun _ a s => (Ok a, s).
#[export] Instance M_bind {S} : MBind (M S) := fun _ _ f m s =>
  match m s with
  | (Ok a, s') => f a s'
  | (Raise e, s') => (Raise e, s')
  end.

Definition get_st {S} : M S S := fun s => (Ok s, s).
Definition put_st {S} (s : S) : M S unit := fun _ => (Ok tt, s).
Definition throw {S A} (e : exn) : M S A := fun s => (Raise e, s).
Definition lift {S A} (r : res A) : M S A := fun s => (r, s).

(** ** Tactics *)

Ltac res_step :=
  match goal with
  | H : Ok _ = Ok _ |- _ => injection H as H; try subst
  | H : Raise _ = Raise _ |- _ => injection H as H; try subst
  | H : Ok _ = Raise _ |- _ => discriminate H
  | H : Raise _ = Ok _ |- _ => discriminate H
  | H : (_, _) = (_, _) |- _ => injection H as ? ?; try subst
  end.

(** Splits the innermost scrutinee of a match in a hypothesis. *)
Ltac case_in H :=
  match type of H with
  | context [match ?x with _ => _ end] =>
      lazymatch x with
      | context [match _ with _ => _ end] => fail
      | _ => let E := fresh "E" in destruct x eqn:E
      end
  end.

(** Splits the innermost scrutinee of a match in the goal. *)
Ltac case_goal :=
  match goal with
  | |- context [match ?x with _ => _ end] =>
      lazymatch x with
      | context [match _ with _ => _ end] => fail
      | _ => let E := fresh "E" in destruct x eqn:E
      end
  end.

(** Inverts a successful chain of binds. *)
Ltac inv_ok H :=
  repeat (unfold mbind, res_bind, mret, res_ret, fmap, res_fmap, raise_if in H;
          case_in H; try discriminate H);
  repeat res_step.

Lemma res_bind_ok {A B} (r : res A) (f : A -> res B) b :
  (r ≫= f) = Ok b <-> exists a, r = Ok a /\ f a = Ok b.
Proof.
  destruct r as [a|e]; split; cbn; [eauto|by intros (?&[= ->]&?)|done|by intros (?&?&?)].
Qed.

Lemma raise_if_ok c e u : raise_if c e = Ok u <-> c = false.
Proof. destruct c, u; cbn; split; congruence. Qed.

Lemma foldM_app {A S} (f : S -> A -> res S) s l1 l2 :
  foldM f s (l1 ++ l2) = (s' ← foldM f s l1; foldM f s' l2).
Proof.
  revert s; induction l1 as [|a l1 IH]; intros s; [done|].
  simpl. destruct (f s a); cbn; [apply IH|done].
Qed.

(** Invariants of a raising loop. *)
Lemma foldM_ind {A S} (P : S -> Prop) (f : S -> A -> res S) l s s' :
  P s ->
  (forall x s1 s2, x ∈ l -> P s1 -> f s1 x = Ok s2 -> P s2) ->
  foldM f s l = Ok s' -> P s'.
Proof.
  revert s; induction l as [|a l IH]; simpl; intros s Hs Hf H; [by res_step|].
  destruct (f s a) as [s1|e] eqn:E; cbn in H; [|done].
  eapply IH; [| |exact H].
  - eapply Hf; [left|exact Hs|exact E].
  - intros x ???; apply Hf. by right.
Qed.

Lemma mapM_res_Forall2 {A B} (f : A -> res B) l k :
  mapM_res f l = Ok k <-> Forall2 (fun a b => f a = Ok b) l k.
Proof.
  revert k; induction l as [|a l IH]; intros k; simpl.
  - split; [intros; res_step; constructor|by inversion 1].
  - split.
    + intros H. inv_ok H. constructor; [done|]. by apply IH.
    + inversion 1 as [|? b ? k' Hb Hk]; subst. cbn. rewrite Hb. cbn.
      by rewrite (proj2 (IH _) Hk).
Qed.

Lemma mapM_res_length {A B} (f : A -> res B) l k :
  mapM_res f l = Ok k -> length k = length l.
Proof. intros H%mapM_res_Forall2. symmetry. by eapply Forall2_length. Qed.

(** ** The ordering protocol *)

(** Three-way comparison behind [<], [<=], [sorted], [min] and [max].  It is a
    total preorder: two datetimes at the same instant compare [Eq] without
    being the same value. *)
Class PyOrd (A : Type) := pycmp : A -> A -> comparison.

Class PyOrdLaws (A : Type) `{PyOrd A} : Prop := {
  pycmp_opp : forall x y : A, pycmp y x = CompOpp (pycmp x y);
  pycmp_trans : forall x y z : A, pycmp x y <> Gt -> pycmp y z <> Gt -> pycmp x z <> Gt
}.

Class PyOrdAntisym (A : Type) `{PyOrd A} : Prop :=
  pycmp_eq : forall x y : A, pycmp x y = Eq -> x = y.

Definition pyle `{PyOrd A} (x y : A) : bool :=
  match pycmp x y with Gt => false | _ => true end.
Definition pylt `{PyOrd A} (x y : A) : bool :=
  match pycmp x y with Lt => true | _ => false end.

(** [max(x, y)]: the first argument wins ties. *)
Definition pymax `{PyOrd A} (x y : A) : A := if pylt x y then y else x.
Definition pymin `{PyOrd A} (x y : A) : A := if pylt y x then y else x.

Section ord_facts.
Context `{PyOrdLaws A}.
Implicit Types x y z : A.

Lemma pycmp_refl x : pycmp x x = Eq.
Proof. pose proof (pycmp_opp x x) as E. by destruct (pycmp x x). Qed.

Lemma pyle_refl x : pyle x x = true.
Proof. unfold pyle. by rewrite pycmp_refl. Qed.

Lemma pyle_total x y : pyle x y = true \/ pyle y x = true.
Proof. unfold pyle. rewrite (pycmp_opp x y). destruct (pycmp x y); auto. Qed.

Lemma pyle_trans x y z : pyle x y = true -> pyle y z = true -> pyle x z = true.
Proof.
  unfold pyle. intros Hxy Hyz. pose proof (pycmp_trans x y z).
  destruct (pycmp x y), (pycmp y z), (pycmp x z); naive_solver.
Qed.

Lemma pylt_pyle x y : pylt x y = negb (pyle y x).
Proof. unfold pylt, pyle. rewrite (pycmp_opp x y). by destruct (pycmp x y). Qed.

Lemma pylt_le x y : pylt x y = true -> pyle x y = true.
Proof. unfold pylt, pyle. by destruct (pycmp x y). Qed.

Lemma pyle_lt_false x y : pyle x y = false -> pylt y x = true.
Proof. rewrite pylt_pyle. by intros ->. Qed.

Lemma pylt_irrefl x : pylt x x = false.
Proof. unfold pylt. by rewrite pycmp_refl. Qed.

Lemma pyle_lt_trans x y z : pyle x y = true -> pylt y z = true -> pylt x z = true.
Proof.
  rewrite !pylt_pyle, !negb_true_iff. intros Hxy Hyz.
  apply not_true_iff_false. intros Hzx. apply not_true_iff_false in Hyz.
  apply Hyz. by eapply pyle_trans.
Qed.

Lemma pylt_le_trans x y z : pylt x y = true -> pyle y z = true -> pylt x z = true.
Proof.
  rewrite !pylt_pyle, !negb_true_iff. intros Hxy Hyz.
  apply not_true_iff_false. intros Hzx. apply not_true_iff_false in Hxy.
  apply Hxy. by eapply pyle_trans.
Qed.

Lemma pylt_trans x y z : pylt x y = true -> pylt y z = true -> pylt x z = true.
Proof. intros ? ?%pylt_le. by eapply pylt_le_trans. Qed.

Lemma pycmp_eq_trans x y z : pycmp x y = Eq -> pycmp x z = pycmp y z.
Proof.
  intros Exy. pose proof (pycmp_opp x y) as Eyx. rewrite Exy in Eyx. simpl in Eyx.
  pose proof (pycmp_trans x y z). pose proof (pycmp_trans y x z).
  pose proof (pycmp_trans z x y). pose proof (pycmp_trans z y x).
  rewrite (pycmp_opp x z) in *. rewrite (pycmp_opp y z) in *.
  rewrite Exy, Eyx in *.
  destruct (pycmp x z), (pycmp y z); simpl in *; try done; exfalso; naive_solver.
Qed.

Lemma pymax_le_l x y : pyle x (pymax x y) = true.
Proof. unfold pymax. case_match; [by apply pylt_le|apply pyle_refl]. Qed.

Lemma pymax_le_r x y : pyle y (pymax x y) = true.
Proof.
  unfold pymax. case_match eqn:E; [apply pyle_refl|].
  rewrite pylt_pyle in E. by apply negb_false_iff in E.
Qed.

Lemma pymax_cases x y : pymax x y = x \/ pymax x y = y.
Proof. unfold pymax. case_match; auto. Qed.
End ord_facts.

#[export] Hint Resolve pyle_refl pyle_trans pylt_le pymax_le_l pymax_le_r : pyord.

(** *** Instances: integers, booleans, text, tuples and sequences *)

#[export] Instance Z_pyord : PyOrd Z := Z.compare.
#[export] Instance Z_pyord_laws : PyOrdLaws Z.
Proof.
  split; unfold pycmp, Z_pyord.
  - intros x y. by rewrite Z.compare_antisym.
  - intros x y z. rewrite !Z.compare_ngt_iff. lia.
Qed.
#[export] Instance Z_pyord_antisym : PyOrdAntisym Z.
Proof. intros x y. apply Z.compare_eq. Qed.

Lemma pyle_Z x y : pyle x y = (x <=? y)%Z.
Proof. reflexivity. Qed.
Lemma pylt_Z x y : pylt x y = (x <? y)%Z.
Proof. reflexivity. Qed.

#[export] Instance ascii_pyord : PyOrd ascii :=
  fun a b => N.compare (Ascii.N_of_ascii a) (Ascii.N_of_ascii b).
#[export] Instance ascii_pyord_laws : PyOrdLaws ascii.
Proof.
  split; unfold pycmp, ascii_pyord.
  - intros x y. by rewrite N.compare_antisym.
  - intros x y z. rewrite !N.compare_ngt_iff. lia.
Qed.
#[export] Instance ascii_pyord_antisym : PyOrdAntisym ascii.
Proof.
  intros x y E%N.compare_eq.
  by rewrite <-(Ascii.ascii_N_embedding x), <-(Ascii.ascii_N_embedding y), E.
Qed.

(** Tuples compare lexicographically. *)
Definition lex (c d : comparison) : comparison := match c with Eq => d | _ => c end.

#[export] Instance prod_pyord `{PyOrd A, PyOrd B} : PyOrd (A * B) :=
  fun x y => lex (pycmp x.1 y.1) (pycmp x.2 y.2).
#[export] Instance prod_pyord_laws `{PyOrdLaws A, PyOrdLaws B} : PyOrdLaws (A * B).
Proof.
  split; unfold pycmp, prod_pyord, lex.
  - intros [x1 x2] [y1 y2]; simpl. rewrite (pycmp_opp x1 y1), (pycmp_opp x2 y2).
    by destruct (pycmp x1 y1).
  - intros [x1 x2] [y1 y2] [z1 z2]; simpl. intros Hxy Hyz.
    pose proof (pycmp_trans x1 y1 z1) as T1. pose proof (pycmp_trans x2 y2 z2) as T2.
    pose proof (pycmp_trans y1 z1 x1) as T3. pose proof (pycmp_trans z1 x1 y1) as T4.
    rewrite (pycmp_opp x1 z1), (pycmp_opp x1 y1) in *. rewrite (pycmp_opp y1 z1) in *.
    destruct (pycmp x1 y1), (pycmp y1 z1), (pycmp x1 z1); simpl in *; naive_solver.
Qed.
#[export] Instance prod_pyord_antisym `{PyOrdAntisym A, PyOrdAntisym B} :
  PyOrdAntisym (A * B).
Proof.
  intros [x1 x2] [y1 y2]. unfold pycmp, prod_pyord, lex; simpl.
  destruct (pycmp x1 y1) eqn:E1; try done. intros E2.
  by apply pycmp_eq in E1 as ->; apply pycmp_eq in E2 as ->.
Qed.

#[export] Instance list_pyord `{PyOrd A} : PyOrd (list A) :=
  fix go l k :=
    match l, k with
    | [], [] => Eq
    | [], _ :: _ => Lt
    | _ :: _, [] => Gt
    | x :: l', y :: k' => lex (pycmp x y) (go l' k')
    end.
#[export] Instance list_pyord_laws `{PyOrdLaws A} : PyOrdLaws (list A).
Proof.
  split.
  - induction x as [|a x IH]; intros [|b y]; try done. cbn. unfold lex.
    rewrite (pycmp_opp a b). destruct (pycmp a b); try done. apply IH.
  - induction x as [|a x IH]; intros [|b y] [|c z]; try done. cbn. unfold lex.
    specialize (IH y z). unfold pycmp in IH at 1 2 3.
    destruct (pycmp a b) eqn:Eab.
    + rewrite (pycmp_eq_trans a b c Eab). by destruct (pycmp b c).
    + intros _ Hbc. destruct (pycmp b c) eqn:Ebc; try done.
      * pose proof (pycmp_opp b c) as Ecb. rewrite Ebc in Ecb. simpl in Ecb.
        pose proof (pycmp_eq_trans c b a Ecb) as E.
        rewrite (pycmp_opp a c), (pycmp_opp a b), Eab in E. simpl in E.
        by destruct (pycmp a c).
      * assert (pylt a c = true) as Hac.
        { eapply pylt_trans; [|]; unfold pylt; [by rewrite Eab|by rewrite Ebc]. }
        unfold pylt in Hac. by destruct (pycmp a c).
    + done.
Qed.
#[export] Instance list_pyord_antisym `{PyOrdAntisym A} : PyOrdAntisym (list A).
Proof.
  intros l; induction l as [|a l IH]; intros [|b k]; try done. cbn. unfold lex.
  destruct (pycmp a b) eqn:E; try done. intros Hk.
  apply pycmp_eq in E as ->. f_equal. by apply IH.
Qed.

(** [str] is held as its UTF-8 bytes, whose lexicographic order is the code
    point order Python compares by. *)
#[export] Instance string_pyord : PyOrd string :=
  fun s t => pycmp (String.list_ascii_of_string s) (String.list_ascii_of_string t).
#[export] Instance string_pyord_laws : PyOrdLaws string.
Proof.
  split; unfold pycmp, string_pyord; intros; [apply pycmp_opp|by eapply pycmp_trans].
Qed.
#[export] Instance string_pyord_antisym : PyOrdAntisym string.
Proof.
  intros s t E. unfold pycmp, string_pyord in E. apply pycmp_eq in E.
  by rewrite <-(String.string_of_list_ascii_of_string s), E,
    String.string_of_list_ascii_of_string.
Qed.

(** ** [sorted]: a stable sort by key *)

Section sort.
Context {A K : Type} `{PyOrdLaws K} (key : A -> K).

Fixpoint insert_by (x : A) (l : list A) : list A :=
  match l with
  | [] => [x]
  | y :: l' => if pyle (key x) (key y) then x :: l else y :: insert_by x l'
  end.

Fixpoint sorted_by (l : list A) : list A :=
  match l with
  | [] => []
  | x :: l' => insert_by x (sorted_by l')
  end.

Definition key_le (x y : A) : Prop := pyle (key x) (key y) = true.

Lemma insert_by_perm x l : insert_by x l ≡ₚ x :: l.
Proof.
  induction l as [|y l IH]; simpl; [done|]. case_match; [done|].
  rewrite IH. apply Permutation_swap.
Qed.

Lemma sorted_by_perm l : sorted_by l ≡ₚ l.
Proof. induction l as [|x l IH]; simpl; [done|]. by rewrite insert_by_perm, IH. Qed.

Lemma insert_by_sorted x l :
  StronglySorted key_le l -> StronglySorted key_le (insert_by x l).
Proof.
  induction 1 as [|y l Hl IH Hy]; simpl; [repeat constructor|].
  case_match eqn:E.
  - constructor; [by constructor|]. constructor; [done|].
    eapply Forall_impl; [exact Hy|]. intros z Hz. unfold key_le in *.
    by eapply pyle_trans.
  - constructor; [done|]. rewrite insert_by_perm. constructor; [|done].
    unfold key_le. by apply pylt_le, pyle_lt_false.
Qed.

Lemma sorted_by_sorted l : StronglySorted key_le (sorted_by l).
Proof. induction l; simpl; [constructor|by apply insert_by_sorted]. Qed.

Lemma elem_of_sorted_by x l : x ∈ sorted_by l <-> x ∈ l.
Proof. by rewrite sorted_by_perm. Qed.

Lemma length_sorted_by l : length (sorted_by l) = length l.
Proof. by rewrite sorted_by_perm. Qed.

Lemma insert_by_head x l : Forall (key_le x) l -> insert_by x l = x :: l.
Proof. destruct 1 as [|y l Hy]; simpl; [done|]. by rewrite Hy. Qed.

(** Sorting a sorted list changes nothing. *)
Lemma sorted_by_id l : StronglySorted key_le l -> sorted_by l = l.
Proof.
  induction 1 as [|x l Hl IH Hx]; simpl; [done|]. rewrite IH. by apply insert_by_head.
Qed.

(** Two sorted permutations agree when equal keys mean equal elements. *)
Lemma sorted_unique l k :
  (forall x y, x ∈ l -> y ∈ l -> pycmp (key x) (key y) = Eq -> x = y) ->
  l ≡ₚ k -> StronglySorted key_le l -> StronglySorted key_le k -> l = k.
Proof.
  intros Hinj Hp Hl; revert k Hp. induction Hl as [|x l Hl IH Hx]; intros k Hp Hk.
  { by apply Permutation_nil_l in Hp. }
  destruct Hk as [|y k Hk Hy]; [by apply Permutation_nil_r in Hp|].
  assert (x = y) as ->.
  { assert (y ∈ x :: l) as [->|Hyl]%elem_of_cons by (rewrite Hp; left); [done|].
    assert (x ∈ y :: k) as [->|Hxk]%elem_of_cons by (rewrite <-Hp; left); [done|].
    apply Hinj; [left|by right|].
    rewrite Forall_forall in Hx, Hy. specialize (Hx _ Hyl). specialize (Hy _ Hxk).
    unfold key_le, pyle in *. rewrite (pycmp_opp (key x) (key y)) in Hy.
    by destruct (pycmp (key x) (key y)). }
  f_equal. apply IH; [|by apply (inj _) in Hp|done].
  intros ????. apply Hinj; by right.
Qed.

(** The order in which the elements arrive does not matter. *)
Lemma sorted_by_perm_eq l k :
  (forall x y, x ∈ l -> y ∈ l -> pycmp (key x) (key y) = Eq -> x = y) ->
  l ≡ₚ k -> sorted_by l = sorted_by k.
Proof.
  intros Hinj Hp. apply sorted_unique; [| |apply sorted_by_sorted..].
  - intros x y ??. apply Hinj; by rewrite <-elem_of_sorted_by.
  - by rewrite !sorted_by_perm.
Qed.

Lemma StronglySorted_last l x y :
  StronglySorted key_le l -> last l = Some x -> y ∈ l -> key_le y x.
Proof.
  induction 1 as [|z l Hl IH Hz]; simpl; intros Hlast Hy; [done|].
  destruct l as [|w l].
  - cbn in Hlast. simplify_eq. apply list_elem_of_singleton in Hy as ->.
    apply pyle_refl.
  - apply elem_of_cons in Hy as [->|Hy]; [|by apply IH].
    rewrite Forall_forall in Hz. apply Hz. by apply last_Some_elem_of.
Qed.

(** [sorted(l)[-1]] is a maximum. *)
Lemma sorted_by_last_max l x y :
  last (sorted_by l) = Some x -> y ∈ l -> pyle (key y) (key x) = true.
Proof.
  intros Hx Hy. eapply StronglySorted_last; eauto using sorted_by_sorted.
  by rewrite elem_of_sorted_by.
Qed.
End sort.

Arguments key_le {A K _} key x y.

(** Plain [sorted(l)]. *)
Abbreviation sorted_list := (sorted_by id).

(** ** Insertion-ordered dictionaries *)

(** A Python [dict]: assignment to a present key keeps its position, to a new
    key appends. *)
Abbreviation dict K V := (list (K * V)).

Section dict.
Context {K V : Type} `{EqDecision K}.
Implicit Types (d : dict K V) (k : K) (v : V).

Fixpoint dget k d : option V :=
  match d with
  | [] => None
  | (k', v) :: d' => if decide (k = k') then Some v else dget k d'
  end.

Fixpoint dset k v d : dict K V :=
  match d with
  | [] => [(k, v)]
  | (k', v') :: d' => if decide (k = k') then (k', v) :: d' else (k', v') :: dset k v d'
  end.

Fixpoint ddel k d : dict K V :=
  match d with
  | [] => []
  | (k', v') :: d' => if decide (k = k') then d' else (k', v') :: ddel k d'
  end.

Definition dkeys d : list K := d.*1.
Definition dvalues d : list V := d.*2.
Definition dmem k d : bool := match dget k d with Some _ => true | None => false end.

Lemma dkeys_cons k v d : dkeys ((k, v) :: d) = k :: dkeys d.
Proof. done. Qed.

Lemma dvalues_cons k v d : dvalues ((k, v) :: d) = v :: dvalues d.
Proof. done. Qed.

Lemma dget_dset_eq k v d : dget k (dset k v d) = Some v.
Proof. induction d as [|[k' v'] d IH]; simpl; repeat (case_decide; simpl); done. Qed.

Lemma dget_dset_ne k k' v d : k <> k' -> dget k' (dset k v d) = dget k' d.
Proof.
  intros Hne. induction d as [|[k2 v2] d IH]; simpl; repeat (case_decide; simpl); congruence.
Qed.

Lemma dget_dset k k' v d :
  dget k' (dset k v d) = if decide (k = k') then Some v else dget k' d.
Proof. case_decide; [subst; apply dget_dset_eq|by apply dget_dset_ne]. Qed.

Lemma elem_of_dkeys k d : k ∈ dkeys d <-> is_Some (dget k d).
Proof.
  unfold dkeys. induction d as [|[k' v'] d IH]; simpl.
  - split; [by intros ?%not_elem_of_nil|by intros []].
  - rewrite elem_of_cons, IH. case_decide; naive_solver.
Qed.

Lemma dget_None k d : dget k d = None <-> k ∉ dkeys d.
Proof. rewrite elem_of_dkeys, <-not_eq_None_Some. destruct (dget k d); naive_solver. Qed.

Lemma dget_elem k v d : dget k d = Some v -> (k, v) ∈ d.
Proof.
  induction d as [|[k' v'] d IH]; simpl; [done|]. case_decide; intros; simplify_eq; [left|].
  right. auto.
Qed.

Lemma elem_dget k v d : NoDup (dkeys d) -> (k, v) ∈ d -> dget k d = Some v.
Proof.
  unfold dkeys. induction d as [|[k' v'] d IH]; simpl; [by intros _ ?%not_elem_of_nil|].
  intros [Hk Hd]%NoDup_cons [E|E]%elem_of_cons; [simplify_eq; by rewrite decide_True|].
  rewrite decide_False; [by apply IH|]. intros ->. apply Hk.
  apply list_elem_of_fmap. by exists (k', v).
Qed.

Lemma dkeys_dset k v d : dkeys (dset k v d) = if dmem k d then dkeys d else dkeys d ++ [k].
Proof.
  unfold dmem. induction d as [|[k' v'] d IH]; simpl; [done|].
  case_decide; [done|]. rewrite !dkeys_cons, IH. by destruct (dget k d).
Qed.

Lemma NoDup_dkeys_dset k v d : NoDup (dkeys d) -> NoDup (dkeys (dset k v d)).
Proof.
  intros Hd. rewrite dkeys_dset. unfold dmem. destruct (dget k d) eqn:E; [done|].
  apply NoDup_app. split_and!; [done| |apply NoDup_singleton].
  intros k' Hk' ->%list_elem_of_singleton. by apply dget_None in E.
Qed.

Lemma dget_ddel_ne k k' d : k <> k' -> dget k' (ddel k d) = dget k' d.
Proof.
  intros Hne. induction d as [|[k2 v2] d IH]; simpl; repeat (case_decide; simpl); congruence.
Qed.

Lemma dget_ddel_eq k d : NoDup (dkeys d) -> dget k (ddel k d) = None.
Proof.
  unfold dkeys. induction d as [|[k2 v2] d IH]; simpl; [done|].
  intros [Hk Hd]%NoDup_cons. case_decide; subst.
  - by apply dget_None.
  - simpl. rewrite decide_False by done. auto.
Qed.

Lemma ddel_sublist k d : ddel k d `sublist_of` d.
Proof.
  induction d as [|[k2 v2] d IH]; simpl; [done|]. case_decide.
  - by apply sublist_cons.
  - by apply sublist_skip.
Qed.

Lemma NoDup_dkeys_ddel k d : NoDup (dkeys d) -> NoDup (dkeys (ddel k d)).
Proof.
  intros Hd. eapply sublist_NoDup; [exact Hd|].
  apply fmap_sublist, ddel_sublist.
Qed.
End dict.

(** Two dictionaries that answer every lookup alike; insertion order apart. *)
Definition dict_equiv {K V} `{EqDecision K} (d d' : dict K V) : Prop :=
  forall k, dget k d = dget k d'.
Infix "≡ᵈ" := dict_equiv (at level 70, no associativity) : stdpp_scope.

#[export] Instance dict_equiv_equivalence {K V} `{EqDecision K} :
  Equivalence (@dict_equiv K V _).
Proof. split; red; unfold dict_equiv; [done|congruence|congruence]. Qed.

#[export] Instance dget_proper {K V} `{EqDecision K} (k : K) :
  Proper (dict_equiv ==> eq) (@dget K V _ k).
Proof. intros d d' E. apply E. Qed.

#[export] Instance dset_proper {K V} `{EqDecision K} (k : K) (v : V) :
  Proper (dict_equiv ==> dict_equiv) (dset k v).
Proof. intros d d' E k'. rewrite !dget_dset. by rewrite (E k'). Qed.

#[export] Instance dmem_proper {K V} `{EqDecision K} (k : K) :
  Proper (dict_equiv ==> eq) (@dmem K V _ k).
Proof. intros d d' E. unfold dmem. by rewrite (E k). Qed.

(** Equal key lists and equal lookups make equal dictionaries. *)
Lemma dict_perm {K V} `{EqDecision K} (d d' : dict K V) :
  NoDup (dkeys d) -> NoDup (dkeys d') -> d ≡ᵈ d' -> d ≡ₚ d'.
Proof.
  intros Hd Hd' E. apply NoDup_Permutation.
  - by eapply NoDup_fmap_1.
  - by eapply NoDup_fmap_1.
  - intros [k v]. split; intros Hin%elem_dget; try done; apply dget_elem.
    + by rewrite <-(E k).
    + by rewrite (E k).
Qed.

Lemma perm_dict {K V} `{EqDecision K} (d d' : dict K V) :
  NoDup (dkeys d) -> d ≡ₚ d' -> d ≡ᵈ d'.
Proof.
  intros Hd Hp k. assert (NoDup (dkeys d')) as Hd'.
  { unfold dkeys in *. by rewrite <-Hp. }
  apply option_eq. intros v. split; intros E%dget_elem; apply elem_dget; try done.
  - by rewrite <-Hp.
  - by rewrite Hp.
Qed.

(** ** Text *)

(** [str.strip()] removes Unicode white space.  [skip_blank] drops one leading
    white-space character of a UTF-8 string, if there is one. *)
Definition is_ascii_space (n : N) : bool :=
  ((9 <=? n) && (n <=? 13) || (28 <=? n) && (n <=? 32))%N.

Definition skip_blank (bytes : list N) : option (list N) :=
  match bytes with
  | b :: r0 =>
      if is_ascii_space b then Some r0
      else match b, r0 with
           | 194%N, c :: r1 => if (c =? 133)%N || (c =? 160)%N then Some r1 else None
           | 225%N, 154%N :: 128%N :: r2 => Some r2
           | 226%N, 128%N :: c :: r2 =>
               if ((128 <=? c) && (c <=? 138))%N || (c =? 168)%N || (c =? 169)%N
                  || (c =? 175)%N
               then Some r2 else None
           | 226%N, 129%N :: 159%N :: r2 => Some r2
           | 227%N, 128%N :: 128%N :: r2 => Some r2
           | _, _ => None
           end
  | [] => None
  end.

Fixpoint all_blank (fuel : nat) (bytes : list N) : bool :=
  match bytes, fuel with
  | [], _ => true
  | _, O => false
  | _, S fuel' =>
      match skip_blank bytes with
      | Some rest => all_blank fuel' rest
      | None => false
      end
  end.

Definition bytes_of (s : string) : list N :=
  N_of_ascii <$> String.list_ascii_of_string s.

(** [not s.strip()] *)
Definition is_blank (s : string) : bool :=
  all_blank (String.length s) (bytes_of s).

(** [not s] *)
Definition is_empty (s : string) : bool :=
  match s with EmptyString => true | _ => false end.

(** [if not value.strip(): raise ValueError] *)
Definition require_text (s : string) : res unit := raise_if (is_blank s) ValueError.

(** U+3000 is three bytes. *)
Definition ideographic_space : string :=
  String.string_of_list_ascii (Ascii.ascii_of_N <$> [227%N; 128%N; 128%N]).
Example is_blank_ideographic : is_blank (ideographic_space ++ " ") = true.
Proof. reflexivity. Qed.
Example is_blank_text : is_blank " x " = false.
Proof. reflexivity. Qed.

(** [len(s)]: the bytes of a UTF-8 string that start a character. *)
Definition py_len (s : string) : Z :=
  Z.of_nat (length (List.filter (fun b => negb ((128 <=? b) && (b <? 192)))%N (bytes_of s))).

(** The string starts, or ends, with a white-space character. *)
Definition starts_blank (s : string) : bool :=
  match skip_blank (bytes_of s) with Some _ => true | None => false end.
Definition blank_suffix (bytes : list N) : option nat :=
  list_find (fun k => skip_blank (drop (length bytes - k) bytes) = Some []) [1; 2; 3]%nat ≫= fun '(_, k) => Some k.
Definition ends_blank (s : string) : bool :=
  match blank_suffix (bytes_of s) with Some _ => true | None => false end.

(** [any(ord(c) < 0x20 or ord(c) == 0x7F for c in s)] *)
Definition has_control (s : string) : bool :=
  existsb (fun b => (b <? 32) || (b =? 127))%N (bytes_of s).

(** [any(c.isspace() for c in s)] *)
Fixpoint has_space_bytes (bytes : list N) : bool :=
  match bytes with
  | [] => false
  | _ :: rest => match skip_blank bytes with Some _ => true | None => has_space_bytes rest end
  end.
Definition has_space (s : string) : bool := has_space_bytes (bytes_of s).

(** [s.strip()] *)
Fixpoint lstrip_bytes (fuel : nat) (bytes : list N) : list N :=
  match fuel, skip_blank bytes with
  | S fuel, Some rest => lstrip_bytes fuel rest
  | _, _ => bytes
  end.
Fixpoint rstrip_bytes (fuel : nat) (bytes : list N) : list N :=
  match fuel, blank_suffix bytes with
  | S fuel, Some k => rstrip_bytes fuel (take (length bytes - k) bytes)
  | _, _ => bytes
  end.
Definition strip (s : string) : string :=
  let n := String.length s in
  String.string_of_list_ascii (ascii_of_N <$> rstrip_bytes n (lstrip_bytes n (bytes_of s))).

Example strip_ex : strip ("  a b" +:+ ideographic_space +:+ " ") = "a b".
Proof. vm_compute. reflexivity. Qed.
Example py_len_ex : py_len ("ab" +:+ ideographic_space) = 3%Z.
Proof. vm_compute. reflexivity. Qed.

(** [sorted(set(l))] *)
Definition sorted_set `{PyOrd A, EqDecision A} (l : list A) : list A :=
  sorted_by id (remove_dups l).

Section sorted_set.
Context `{PyOrdLaws A, !PyOrdAntisym A, !EqDecision A}.

Lemma elem_of_sorted_set (x : A) l : x ∈ sorted_set l <-> x ∈ l.
Proof. unfold sorted_set. by rewrite elem_of_sorted_by, elem_of_remove_dups. Qed.

Lemma NoDup_sorted_set (l : list A) : NoDup (sorted_set l).
Proof. unfold sorted_set. rewrite sorted_by_perm. apply NoDup_remove_dups. Qed.

(** The result depends on the elements only. *)
Lemma sorted_set_ext (l k : list A) : (forall x, x ∈ l <-> x ∈ k) -> sorted_set l = sorted_set k.
Proof.
  intros E. apply sorted_by_perm_eq.
  - intros x y _ _. apply pycmp_eq.
  - apply NoDup_Permutation; [apply NoDup_remove_dups..|].
    intros x. by rewrite !elem_of_remove_dups.
Qed.
End sorted_set.

(** [s.removeprefix(prefix)] *)
Definition remove_prefix (p s : string) : string :=
  if String.prefix p s then String.substring (String.length p) (String.length s - String.length p) s else s.

(** [value.partition(sep)]: what is before the first [sep], whether there is one, and
    what is after it. *)
Fixpoint partition (sep : ascii) (s : list ascii) : list ascii * bool * list ascii :=
  match s with
  | [] => ([], false, [])
  | a :: s' => if decide (a = sep) then ([], true, s')
               else let '(before, found, after) := partition sep s' in (a :: before, found, after)
  end.

(** [min], [max] of values that are there. *)
Definition min_of {A} `{PyOrd A} (x : A) (l : list A) : A := fold_left pymin l x.
Definition max_of {A} `{PyOrd A} (x : A) (l : list A) : A := fold_left pymax l x.
(** [max(l, key=key)]: the first greatest. *)
Definition max_by {A B} `{PyOrd B} (key : A -> B) (x : A) (l : list A) : A :=
  fold_left (fun best y => if pylt (key best) (key y) then y else best) l x.

Lemma fold_pymax_in {A} `{PyOrd A} x (l : list A) : max_of x l ∈ x :: l.
Proof.
  unfold max_of. revert x; induction l as [|y l IH]; intros x; [by left|]. cbn [fold_left].
  specialize (IH (pymax x y)). apply elem_of_cons in IH as [->|]; [|by do 2 right].
  unfold pymax. destruct (pylt x y); [right; left|left].
Qed.

Lemma fold_pymin_in {A} `{PyOrd A} x (l : list A) : min_of x l ∈ x :: l.
Proof.
  unfold min_of. revert x; induction l as [|y l IH]; intros x; [by left|]. cbn [fold_left].
  specialize (IH (pymin x y)). apply elem_of_cons in IH as [->|]; [|by do 2 right].
  unfold pymin. destruct (pylt y x); [right; left|left].
Qed.

Lemma max_by_in {A B} `{PyOrd B} (key : A -> B) x (l : list A) : max_by key x l ∈ x :: l.
Proof.
  unfold max_by. revert x; induction l as [|y l IH]; intros x; [by left|]. cbn [fold_left].
  specialize (IH (if pylt (key x) (key y) then y else x)). apply elem_of_cons in IH as [->|]; [|by do 2 right].
  destruct (pylt (key x) (key y)); [right; left|left].
Qed.

(** ** Boolean filters *)

Lemma elem_of_filterb {A} (f : A -> bool) l x :
  x ∈ List.filter f l <-> x ∈ l /\ f x = true.
Proof. by rewrite !list_elem_of_In, filter_In. Qed.

Lemma filterb_length_lt {A} (f : A -> bool) l x :
  x ∈ l -> f x = false -> (length (List.filter f l) < length l)%nat.
Proof.
  intros Hx Hf. induction l as [|y l IH]; [by apply not_elem_of_nil in Hx|].
  simpl. apply elem_of_cons in Hx as [<-|Hx].
  - rewrite Hf. pose proof (filter_length_le f l). lia.
  - specialize (IH Hx). destruct (f y); simpl; lia.
Qed.

Lemma NoDup_filterb {A} (f : A -> bool) l : NoDup l -> NoDup (List.filter f l).
Proof. rewrite !NoDup_ListNoDup. apply List.NoDup_filter. Qed.

Lemma filterb_ext {A} (f g : A -> bool) l :
  (forall x, x ∈ l -> f x = g x) -> List.filter f l = List.filter g l.
Proof. intros H. apply filter_ext_in. intros x Hx. by apply H, list_elem_of_In. Qed.

Lemma filterb_none {A} (f : A -> bool) l :
  (forall x, x ∈ l -> f x = false) -> List.filter f l = [].
Proof.
  intros H. induction l as [|x l IH]; simpl; [done|].
  rewrite (H x) by left. apply IH. intros y Hy. apply H. by right.
Qed.

Lemma filterb_all {A} (f : A -> bool) l :
  (forall x, x ∈ l -> f x = true) -> List.filter f l = l.
Proof.
  intros H. induction l as [|x l IH]; simpl; [done|].
  rewrite (H x) by left. f_equal. apply IH. intros y Hy. apply H. by right.
Qed.

Lemma filterb_sublist {A} (f : A -> bool) l : List.filter f l `sublist_of` l.
Proof.
  induction l as [|x l IH]; simpl; [constructor|].
  destruct (f x); [by apply sublist_skip|by apply sublist_cons].
Qed.

Lemma filterb_perm {A} (f : A -> bool) l k :
  l ≡ₚ k -> List.filter f l ≡ₚ List.filter f k.
Proof.
  induction 1; simpl; repeat case_match; auto.
  - apply Permutation_swap.
  - by etransitivity.
Qed.

(** ** Comprehensions over distinct keys *)

Lemma dset_absent {K V} `{EqDecision K} (k : K) (v : V) d :
  dget k d = None -> dset k v d = d ++ [(k, v)].
Proof.
  induction d as [|[k' v'] d IH]; simpl; [done|]. case_decide; [done|].
  intros Hd. by rewrite IH.
Qed.

Lemma dget_app {K V} `{EqDecision K} (k : K) (d d' : dict K V) :
  dget k (d ++ d') = match dget k d with Some v => Some v | None => dget k d' end.
Proof. induction d as [|[k' v'] d IH]; simpl; [done|]. by case_decide. Qed.

(** [{key(x): val(x) for x in l if val(x) is not None}] *)
Definition dict_of {A K V} (key : A -> K) (val : A -> option V) (l : list A) : dict K V :=
  omap (fun x => pair (key x) <$> val x) l.

Section dict_of.
Context {A K V : Type} `{EqDecision K} (key : A -> K) (val : A -> option V).

Lemma dict_of_cons x l :
  dict_of key val (x :: l) =
  match val x with Some v => (key x, v) :: dict_of key val l | None => dict_of key val l end.
Proof. unfold dict_of. simpl. by destruct (val x). Qed.

Lemma dict_of_app l k : dict_of key val (l ++ k) = dict_of key val l ++ dict_of key val k.
Proof. apply omap_app. Qed.

Lemma dkeys_dict_of l : dkeys (dict_of key val l) `sublist_of` (key <$> l).
Proof.
  induction l as [|x l IH]; [done|]. rewrite dict_of_cons. simpl.
  destruct (val x); simpl; [by apply sublist_skip|by apply sublist_cons].
Qed.

Lemma NoDup_dict_of l : NoDup (key <$> l) -> NoDup (dkeys (dict_of key val l)).
Proof. intros H. eapply sublist_NoDup; [exact H|apply dkeys_dict_of]. Qed.

Lemma dget_dict_of l x :
  NoDup (key <$> l) -> x ∈ l -> dget (key x) (dict_of key val l) = val x.
Proof.
  induction l as [|y l IH]; [by intros _ ?%not_elem_of_nil|].
  intros [Hy Hl]%NoDup_cons Hx. rewrite dict_of_cons.
  assert (dget (key y) (dict_of key val l) = None) as Hnone.
  { apply dget_None. intros Hin. apply Hy. eapply elem_of_sublist; [exact Hin|].
    apply dkeys_dict_of. }
  apply elem_of_cons in Hx as [->|Hx].
  - destruct (val y); simpl; [by rewrite decide_True|done].
  - assert (key x <> key y) as Hne.
    { intros E. apply Hy. rewrite <-E. by apply list_elem_of_fmap_2. }
    destruct (val y); simpl; [rewrite decide_False by done|]; by apply IH.
Qed.

Lemma dget_dict_of_None l k : k ∉ (key <$> l) -> dget k (dict_of key val l) = None.
Proof.
  intros Hk. apply dget_None. intros Hin. apply Hk. eapply elem_of_sublist; [exact Hin|].
  apply dkeys_dict_of.
Qed.

(** One more pass of the loop that builds the dictionary. *)
Lemma dict_of_snoc pre x rest :
  NoDup (key <$> pre ++ x :: rest) ->
  dget (key x) (dict_of key val pre) = None /\
  dict_of key val (pre ++ [x]) =
  match val x with
  | Some v => dset (key x) v (dict_of key val pre)
  | None => dict_of key val pre
  end.
Proof.
  intros Hnd. assert (dget (key x) (dict_of key val pre) = None) as Hx.
  { apply dget_dict_of_None. rewrite fmap_app in Hnd. apply NoDup_app in Hnd as (_&Hd&_).
    intros Hin. apply (Hd _ Hin). by left. }
  split; [done|]. rewrite dict_of_app, dict_of_cons.
  destruct (val x); [by rewrite dset_absent|apply app_nil_r].
Qed.

Lemma dict_of_length l : (length (dict_of key val l) <= length l)%nat.
Proof.
  pose proof (sublist_length _ _ (dkeys_dict_of l)) as H. unfold dkeys in H.
  by rewrite !length_fmap in H.
Qed.
End dict_of.

(** Looking up the records that pass a test instead of all of them. *)
Lemma dget_visible {R K} `{EqDecision K} (key : R -> K) (vis : R -> bool) records i :
  NoDup (key <$> records) ->
  dget i (dict_of key Some (List.filter vis records)) =
  match dget i (dict_of key Some records) with
  | Some r => if vis r then Some r else None
  | None => None
  end.
Proof.
  induction records as [|r records IH]; [done|]. intros [Hr Hnd]%NoDup_cons.
  rewrite dict_of_cons. cbn [List.filter dget].
  destruct (decide (i = key r)) as [->|Hne].
  - destruct (vis r) eqn:E; [by rewrite dict_of_cons; simpl; rewrite decide_True|].
    rewrite IH by done. by rewrite (dget_dict_of_None key Some records (key r) Hr).
  - destruct (vis r); [rewrite dict_of_cons; simpl; rewrite decide_False by done|]; by apply IH.
Qed.

Lemma dict_of_lookup_perm {R K} `{EqDecision K} (key : R -> K) l k i :
  NoDup (key <$> l) -> l ≡ₚ k -> dget i (dict_of key Some l) = dget i (dict_of key Some k).
Proof.
  intros Hnd Hp. apply perm_dict; [by apply NoDup_dict_of|]. unfold dict_of.
  by apply omap_Permutation.
Qed.

Lemma dict_of_ext {A K V} (key : A -> K) (val val' : A -> option V) l :
  (forall x, val x = val' x) -> dict_of key val l = dict_of key val' l.
Proof.
  intros H. induction l as [|x l IH]; [done|]. rewrite !dict_of_cons, H. by rewrite IH.
Qed.

(** ** Loops that agree, and sorted lists by position *)

Lemma foldM_ext {A S} (f g : S -> A -> res S) s l :
  (forall s a, a ∈ l -> f s a = g s a) -> foldM f s l = foldM g s l.
Proof.
  revert s; induction l as [|a l IH]; intros s H; [done|]. simpl.
  rewrite (H s a) by left. destruct (g s a); [|done]. cbn. apply IH. intros; apply H. by right.
Qed.

Lemma mapM_res_ext {A B} (f g : A -> res B) l :
  (forall a, a ∈ l -> f a = g a) -> mapM_res f l = mapM_res g l.
Proof.
  induction l as [|a l IH]; intros H; [done|]. simpl. rewrite (H a) by left.
  rewrite IH; [done|]. intros; apply H. by right.
Qed.

Lemma StronglySorted_lookup {A} (R : A -> A -> Prop) l i j x y :
  StronglySorted R l -> (i < j)%nat -> l !! i = Some x -> l !! j = Some y -> R x y.
Proof.
  intros Hl; revert i j. induction Hl as [|z l Hl IH Hz]; intros i j Hij Hi Hj; [done|].
  destruct i as [|i], j as [|j]; simpl in *; [lia| |lia|].
  - simplify_eq. rewrite Forall_forall in Hz. apply Hz. by eapply list_elem_of_lookup_2.
  - by apply (IH i j); [lia| |].
Qed.

Lemma omap_id_length {A} (l : list (option A)) : (length (omap id l) <= length l)%nat.
Proof.
  induction l as [|x l IH]; [done|]. simpl. unfold id at 1.
  destruct x; simpl; [apply le_n_S|apply le_S]; exact IH.
Qed.

(** Sorted distinct integers increase. *)
Lemma StronglySorted_lt (l : list Z) :
  StronglySorted (key_le id) l -> NoDup l -> StronglySorted Z.lt l.
Proof.
  induction 1 as [|x l Hl IH Hx]; [constructor|]. intros [Hnot Hnd]%NoDup_cons.
  constructor; [by apply IH|]. rewrite Forall_forall in Hx |- *. intros y Hy.
  specialize (Hx y Hy). unfold key_le, id in Hx. rewrite pyle_Z in Hx.
  assert (x <> y) by (by intros ->). lia.
Qed.

(** ** Inverting runs of the state-exception monad *)

Lemma M_bind_ok {S A B} (m : M S A) (f : A -> M S B) s b s' :
  (m ≫= f) s = (Ok b, s') <-> exists a s1, m s = (Ok a, s1) /\ f a s1 = (Ok b, s').
Proof.
  unfold mbind, M_bind. destruct (m s) as [[a|e] s1]; split; [|naive_solver|done|naive_solver].
  intros H. by exists a, s1.
Qed.

Lemma lift_ok {S A} (r : res A) (s : S) a s' : lift r s = (Ok a, s') <-> r = Ok a /\ s' = s.
Proof. unfold lift. naive_solver. Qed.

Lemma mret_ok {S A} (x : A) (s : S) a s' :
  (mret x : M S A) s = (Ok a, s') <-> a = x /\ s' = s.
Proof. unfold mret, M_ret. naive_solver. Qed.

(** Members of a list with distinct keys are told apart by them. *)
Lemma NoDup_key_inj {A K} `{EqDecision K} (key : A -> K) l x y :
  NoDup (key <$> l) -> x ∈ l -> y ∈ l -> key x = key y -> x = y.
Proof.
  intros Hnd Hx Hy E. pose proof (dget_dict_of key Some l x Hnd Hx) as H1.
  pose proof (dget_dict_of key Some l y Hnd Hy) as H2. rewrite E in H1. congruence.
Qed.

(** Sorting by a key the members do not share forgets the order of the list. *)
Lemma sorted_by_key_perm {A K} `{PyOrdLaws K, !PyOrdAntisym K, !EqDecision K} (key : A -> K) l k :
  NoDup (key <$> l) -> l ≡ₚ k -> sorted_by key l = sorted_by key k.
Proof.
  intros Hnd Hp. apply sorted_by_perm_eq; [|done]. intros x y Hx Hy E.
  apply pycmp_eq in E. exact (NoDup_key_inj key l x y Hnd Hx Hy E).
Qed.

Lemma NoDup_key_filterb {A K} (key : A -> K) (f : A -> bool) l :
  NoDup (key <$> l) -> NoDup (key <$> List.filter f l).
Proof. intros H. eapply sublist_NoDup; [exact H|]. apply fmap_sublist, filterb_sublist. Qed.

(** ** Dictionaries filed under the keys of their values *)

Section keyed.
Context {K V : Type} `{EqDecision K} (key : V -> K).
Implicit Types d : dict K V.

Definition keyed d : Prop := NoDup (dkeys d) /\ forall k v, dget k d = Some v -> key v = k.

Lemma keyed_nil : keyed [].
Proof. split; [apply NoDup_nil_2|done]. Qed.

Lemma keyed_dset d v : keyed d -> keyed (dset (key v) v d).
Proof.
  intros [Hnd Hk]. split; [by apply NoDup_dkeys_dset|]. intros k x. rewrite dget_dset.
  case_decide; [by intros [= <-]|apply Hk].
Qed.

Lemma keyed_ddel d k : keyed d -> keyed (ddel k d).
Proof.
  intros [Hnd Hk]. split; [by apply NoDup_dkeys_ddel|]. intros k' v.
  destruct (decide (k = k')) as [<-|Hne]; [by rewrite dget_ddel_eq|]. rewrite dget_ddel_ne by done. apply Hk.
Qed.

Lemma keyed_values d : keyed d -> key <$> dvalues d = dkeys d.
Proof.
  intros [Hnd Hk]. assert (forall kv, kv ∈ d -> key kv.2 = kv.1) as H.
  { intros [k v] Hin. apply Hk. by apply elem_dget. }
  unfold dkeys, dvalues. rewrite <-list_fmap_compose. apply list_fmap_ext.
  intros i kv Hi. apply H. by eapply list_elem_of_lookup_2.
Qed.

Lemma keyed_NoDup d : keyed d -> NoDup (key <$> dvalues d).
Proof. intros Hd. rewrite keyed_values by done. apply Hd. Qed.

Lemma elem_keyed d v : keyed d -> v ∈ dvalues d <-> dget (key v) d = Some v.
Proof.
  intros [Hnd Hk]. unfold dvalues. rewrite list_elem_of_fmap. split.
  - intros ([k w]&->&Hin). apply elem_dget in Hin as Hg; [|done]. simpl. by rewrite (Hk _ _ Hg).
  - intros Hg. exists (key v, v). split; [done|]. by apply dget_elem.
Qed.

Lemma keyed_fold (l : list V) d : keyed d -> keyed (fold_left (fun d v => dset (key v) v d) l d).
Proof. revert d; induction l as [|v l IH]; intros d Hd; [done|]. simpl. apply IH. by apply keyed_dset. Qed.
End keyed.

(** ** Two stable sorts in a row *)

(** Sorting by one key a list sorted by another sorts by the pair. *)
Section sort_twice.
Context {A K1 K2 : Type} `{PyOrdLaws K1, PyOrdLaws K2} (k1 : A -> K1) (k2 : A -> K2).

Lemma key_le_pair x y :
  key_le (fun x => (k2 x, k1 x)) x y <-> pylt (k2 x) (k2 y) = true \/ (pyle (k2 x) (k2 y) = true /\ key_le k1 x y).
Proof.
  unfold key_le, pyle, pylt. change (pycmp (k2 x, k1 x) (k2 y, k1 y)) with (lex (pycmp (k2 x) (k2 y)) (pycmp (k1 x) (k1 y))).
  destruct (pycmp (k2 x) (k2 y)), (pycmp (k1 x) (k1 y)); simpl; naive_solver.
Qed.

Lemma insert_by_pair x l :
  Forall (key_le k1 x) l -> StronglySorted (key_le (fun x => (k2 x, k1 x))) l ->
  StronglySorted (key_le (fun x => (k2 x, k1 x))) (insert_by k2 x l).
Proof.
  intros Hx. induction 1 as [|y l Hl IH Hy]; [by repeat constructor|]. apply Forall_cons in Hx as [Hxy Hx]. simpl.
  destruct (pyle (k2 x) (k2 y)) eqn:E.
  - assert (key_le (fun x => (k2 x, k1 x)) x y) as Hp by (apply key_le_pair; by right).
    constructor; [by constructor|]. constructor; [done|]. eapply Forall_impl; [exact Hy|].
    intros z Hyz. unfold key_le in *. by eapply pyle_trans.
  - constructor; [by apply IH|]. apply pyle_lt_false in E.
    rewrite insert_by_perm. constructor; [|done]. apply key_le_pair. by left.
Qed.

Lemma sorted_by_pair l :
  StronglySorted (key_le k1) l -> StronglySorted (key_le (fun x => (k2 x, k1 x))) (sorted_by k2 l).
Proof.
  induction 1 as [|x l Hl IH Hx]; [constructor|]. simpl. apply insert_by_pair; [|done].
  by rewrite sorted_by_perm.
Qed.

Lemma sorted_by_twice l :
  (forall x y, x ∈ l -> y ∈ l -> pycmp (k2 x, k1 x) (k2 y, k1 y) = Eq -> x = y) ->
  sorted_by k2 (sorted_by k1 l) = sorted_by (fun x => (k2 x, k1 x)) l.
Proof.
  intros Hinj. apply (sorted_unique (fun x => (k2 x, k1 x))).
  - intros x y Hx%elem_of_sorted_by Hy%elem_of_sorted_by. apply elem_of_sorted_by in Hx, Hy. by apply Hinj.
  - by rewrite !sorted_by_perm.
  - apply sorted_by_pair, sorted_by_sorted.
  - apply sorted_by_sorted.
Qed.
End sort_twice.
