(* ===== verification/Hoare.v ===== *)
(** Hoare triples for methods: what holds when a method returns, and what holds when it
    raises, of the state it leaves. *)
From S2P Require Import Prelude.

Section triple.
Context {S : Type}.

(** From a state with [P], [m] returns [a] in a state with [Q a] or raises in one with [E]. *)
Definition triple {A} (P : S -> Prop) (m : M S A) (Q : A -> S -> Prop) (E : S -> Prop) : Prop :=
  forall s, P s -> match m s with (Ok a, s') => Q a s' | (Raise _, s') => E s' end.

(** An invariant kept on every path. *)
Definition preserves {A} (P : S -> Prop) (m : M S A) : Prop := triple P m (fun _ => P) P.

Lemma triple_weaken {A} (P P' : S -> Prop) (m : M S A) (Q Q' : A -> S -> Prop) (E E' : S -> Prop) :
  triple P m Q E -> (forall s, P' s -> P s) -> (forall a s, Q a s -> Q' a s) ->
  (forall s, E s -> E' s) -> triple P' m Q' E'.
Proof. intros H HP HQ HE s Hs. specialize (H s (HP s Hs)). destruct (m s) as [[a|e] s']; auto. Qed.

Lemma triple_bind {A B} P (m : M S A) Q (f : A -> M S B) R E :
  triple P m Q E -> (forall a, triple (Q a) (f a) R E) -> triple P (m ≫= f) R E.
Proof.
  intros Hm Hf s Hs. unfold mbind, M_bind. specialize (Hm s Hs).
  destruct (m s) as [[a|e] s']; [by apply Hf|done].
Qed.

Lemma triple_ret {A} P (a : A) (Q : A -> S -> Prop) E : (forall s, P s -> Q a s) -> triple P (mret a) Q E.
Proof. intros H s Hs. by apply H. Qed.

Lemma triple_throw {A} P e (Q : A -> S -> Prop) (E : S -> Prop) :
  (forall s, P s -> E s) -> triple P (throw e) Q E.
Proof. intros H s Hs. by apply H. Qed.

Lemma triple_lift {A} P (r : res A) (Q : A -> S -> Prop) (E : S -> Prop) :
  (forall a s, r = Ok a -> P s -> Q a s) -> (forall s, P s -> E s) -> triple P (lift r) Q E.
Proof. intros HQ HE s Hs. unfold lift. destruct r; auto. Qed.

Lemma triple_get (P : S -> Prop) E : triple P get_st (fun a s => a = s /\ P s) E.
Proof. by intros s Hs. Qed.

Lemma triple_get_bind {A} P (f : S -> M S A) Q E :
  (forall a, triple P (f a) Q E) -> triple P (get_st ≫= f) Q E.
Proof. intros Hf s Hs. unfold mbind, M_bind, get_st. by apply Hf. Qed.

(** A computation that cannot raise and changes the state by [g]. *)
Lemma triple_step {A} (P : S -> Prop) (m : M S A) a (g : S -> S) (Q : A -> S -> Prop) E :
  (forall s, m s = (Ok a, g s)) -> (forall s, P s -> Q a (g s)) -> triple P m Q E.
Proof. intros Hm HQ s Hs. rewrite Hm. by apply HQ. Qed.

(** Facts that do not depend on the state. *)
Lemma triple_pure {A} (F : Prop) P (m : M S A) Q E :
  (F -> triple P m Q E) -> triple (fun s => F /\ P s) m Q E.
Proof. intros H s [HF Hs]. by apply H. Qed.

Lemma preserves_bind {A B} P (m : M S A) (f : A -> M S B) :
  preserves P m -> (forall a, preserves P (f a)) -> preserves P (m ≫= f).
Proof. intros Hm Hf. by eapply triple_bind. Qed.

Lemma preserves_get_bind {A} P (f : S -> M S A) : (forall s, preserves P (f s)) -> preserves P (get_st ≫= f).
Proof. intros Hf. by apply triple_get_bind. Qed.

Lemma preserves_ret {A} P (a : A) : preserves P (mret a).
Proof. by apply triple_ret. Qed.

Lemma preserves_lift {A} P (r : res A) : preserves P (lift r).
Proof. by apply triple_lift. Qed.

Lemma preserves_throw {A} P e : preserves P (throw (A:=A) e).
Proof. by apply triple_throw. Qed.

Lemma preserves_run {A} P (m : M S A) s : preserves P m -> P s -> P (m s).2.
Proof. intros Hm Hs. specialize (Hm s Hs). by destruct (m s) as [[a|e] s']. Qed.

(** A method that leaves [P] alone whatever it does. *)
Lemma preserves_frame {A} (P : S -> Prop) (m : M S A) :
  (forall s r s', m s = (r, s') -> P s -> P s') -> preserves P m.
Proof. intros H s Hs. destruct (m s) as [[a|e] s'] eqn:E; by eapply H. Qed.
End triple.

(** The start of a chain of binds. *)
Ltac triple_bind := eapply triple_bind; [|intros].

(** ** Methods that append to a log *)

Section log.
Context {S X : Type} (I : S -> Prop) (log : S -> list X).

(** From a state with [I], [m] leaves one with [I] and appends some [xs] to its log: with
    [Q a xs] if it returns [a], with [E e xs] if it raises [e]. *)
Definition adds {A} (m : M S A) (Q : A -> list X -> Prop) (E : exn -> list X -> Prop) : Prop :=
  forall s, I s -> exists xs, I (m s).2 /\ log (m s).2 = log s ++ xs /\
    match (m s).1 with Ok a => Q a xs | Raise e => E e xs end.

(** A method that keeps [I] and the log. *)
Definition keeps {A} (m : M S A) : Prop := forall s, I s -> I (m s).2 /\ log (m s).2 = log s.

Lemma keeps_adds {A} (m : M S A) (Q : A -> list X -> Prop) (E : exn -> list X -> Prop) :
  keeps m -> (forall a, Q a []) -> (forall e, E e []) -> adds m Q E.
Proof.
  intros Hm HQ HE s Hs. destruct (Hm s Hs) as [H1 H2]. exists []. rewrite app_nil_r.
  do 2 (split; [done|]). by destruct (m s).1.
Qed.

Lemma adds_weaken {A} (m : M S A) (Q Q' : A -> list X -> Prop) (E E' : exn -> list X -> Prop) :
  adds m Q E -> (forall a xs, Q a xs -> Q' a xs) -> (forall e xs, E e xs -> E' e xs) -> adds m Q' E'.
Proof.
  intros Hm HQ HE s Hs. destruct (Hm s Hs) as (xs&H1&H2&H3). exists xs. do 2 (split; [done|]).
  destruct (m s).1; auto.
Qed.

Lemma adds_try {A B} (m : M S A) (k : res A -> M S B) n Q R E (E' : exn -> list X -> Prop) :
  (forall s, n s = let '(r, s') := m s in k r s') -> adds m Q E ->
  (forall a, adds (k (Ok a)) (fun b xs => forall before, Q a before -> R b (before ++ xs))
                             (fun x xs => forall before, Q a before -> E' x (before ++ xs))) ->
  (forall e, adds (k (Raise e)) (fun b xs => forall before, E e before -> R b (before ++ xs))
                                (fun x xs => forall before, E e before -> E' x (before ++ xs))) ->
  adds n R E'.
Proof.
  intros Hn Hm Hok Hraise s Hs. rewrite Hn. destruct (Hm s Hs) as (xs&HI&Hlog&Hm').
  destruct (m s) as [r s1]. cbn [fst snd] in *.
  assert (exists ys, I (k r s1).2 /\ log (k r s1).2 = log s1 ++ ys /\
            match (k r s1).1 with Ok b => R b (xs ++ ys) | Raise x => E' x (xs ++ ys) end) as (ys&HI'&Hlog'&Hk').
  { destruct r as [a|e].
    - destruct (Hok a s1 HI) as (ys&?&?&Hk). exists ys. do 2 (split; [done|]).
      destruct (k (Ok a) s1).1; by apply Hk.
    - destruct (Hraise e s1 HI) as (ys&?&?&Hk). exists ys. do 2 (split; [done|]).
      destruct (k (Raise e) s1).1; by apply Hk. }
  exists (xs ++ ys). rewrite Hlog', Hlog, app_assoc. by do 2 (split; [done|]).
Qed.

Lemma adds_bind {A B} (m : M S A) (f : A -> M S B) Q R E :
  adds m Q E ->
  (forall a, adds (f a) (fun b xs => forall before, Q a before -> R b (before ++ xs))
                        (fun x xs => forall before, Q a before -> E x (before ++ xs))) ->
  adds (m ≫= f) R E.
Proof.
  intros Hm Hf.
  apply (adds_try m (fun r => match r with Ok a => f a | Raise e => throw e end) _ Q R E); [|exact Hm|exact Hf|].
  - intros s. unfold mbind, M_bind. by destruct (m s) as [[a|e] s'].
  - intros e s Hs. exists []. rewrite app_nil_r. do 2 (split; [done|]). intros before. by rewrite app_nil_r.
Qed.

(** A first step that adds nothing, a last one, and the steps that only look. *)
Lemma adds_first {A B} (m : M S A) (f : A -> M S B) R (E : exn -> list X -> Prop) :
  keeps m -> (forall x, E x []) -> (forall a, adds (f a) R E) -> adds (m ≫= f) R E.
Proof.
  intros Hm HE Hf. apply (adds_bind _ _ (fun _ xs => xs = [])).
  - by apply keeps_adds.
  - intros a. eapply adds_weaken; [apply Hf|..]; intros ? xs H0 before ->; exact H0.
Qed.

Lemma adds_then {A B} (m : M S A) (f : A -> M S B) (Q : A -> list X -> Prop) R E :
  adds m Q E -> (forall a, keeps (f a)) ->
  (forall a s xs, Q a xs -> match (f a s).1 with Ok b => R b xs | Raise x => E x xs end) ->
  adds (m ≫= f) R E.
Proof.
  intros Hm Hf HR s Hs. destruct (Hm s Hs) as (xs&H0&H1&H2). exists xs. unfold mbind, M_bind.
  destruct (m s) as [[a|x] s1]; cbn [fst snd] in *; [|done]. destruct (Hf a s1 H0) as [? ->].
  do 2 (split; [done|]). by apply HR.
Qed.

Lemma adds_lift {A B} (r : res A) (f : A -> M S B) R (E : exn -> list X -> Prop) :
  (forall a, r = Ok a -> adds (f a) R E) -> (forall x, E x []) -> adds (lift r ≫= f) R E.
Proof.
  intros Hf HE. destruct r as [a|x]; [by apply Hf|]. intros s Hs. exists []. rewrite app_nil_r.
  do 2 (split; [done|]). exact (HE x).
Qed.

Lemma adds_ok {A B} (a : A) (f : A -> M S B) R E : adds (f a) R E -> adds (lift (Ok a) ≫= f) R E.
Proof. intros H. exact H. Qed.

Lemma adds_get {B} (f : S -> M S B) R E : (forall s, I s -> adds (f s) R E) -> adds (get_st ≫= f) R E.
Proof. intros Hf s Hs. by apply Hf. Qed.

Lemma adds_ret {A} (a : A) (Q : A -> list X -> Prop) (E : exn -> list X -> Prop) : Q a [] -> adds (mret a) Q E.
Proof. intros HQ s Hs. exists []. by rewrite app_nil_r. Qed.

Lemma adds_throw {A} e (Q : A -> list X -> Prop) (E : exn -> list X -> Prop) : E e [] -> adds (throw e) Q E.
Proof. intros HE s Hs. exists []. by rewrite app_nil_r. Qed.

Lemma adds_return {A} (r : res A) (Q : A -> list X -> Prop) (E : exn -> list X -> Prop) :
  (forall a, r = Ok a -> Q a []) -> (forall x, r = Raise x -> E x []) -> adds (lift r) Q E.
Proof.
  intros HQ HE s Hs. exists []. rewrite app_nil_r. do 2 (split; [done|]). cbn. destruct r; auto.
Qed.

Lemma keeps_bind {A B} (m : M S A) (f : A -> M S B) : keeps m -> (forall a, keeps (f a)) -> keeps (m ≫= f).
Proof.
  intros Hm Hf s Hs. unfold mbind, M_bind. destruct (Hm s Hs) as [H1 H2]. destruct (m s) as [[a|x] s']; [|done].
  destruct (Hf a s' H1) as [? ->]. done.
Qed.

Lemma keeps_lift {A} (r : res A) : keeps (lift r).
Proof. by intros s Hs. Qed.
Lemma keeps_ret {A} (a : A) : keeps (mret a).
Proof. by intros s Hs. Qed.
Lemma keeps_throw {A} e : keeps (throw (A:=A) e).
Proof. by intros s Hs. Qed.
Lemma keeps_get : keeps get_st.
Proof. by intros s Hs. Qed.
End log.
