(* ===== verification/Sha256.v ===== *)
(** SHA-256 as [hashlib.sha256(data).hexdigest()] computes it, on byte strings:
    the digests behind the opaque ids and command fingerprints. *)
From S2P Require Import Prelude.
#[local] Open Scope N_scope.

Definition mask32 : N := 4294967295.
Definition add32 (a b : N) : N := N.land (a + b) mask32.
Definition rotr (n x : N) : N := N.lor (N.shiftr x n) (N.land (N.shiftl x (32 - n)) mask32).
Definition shr (n x : N) : N := N.shiftr x n.
Definition not32 (x : N) : N := N.lxor x mask32.

Definition ch (x y z : N) : N := N.lxor (N.land x y) (N.land (not32 x) z).
Definition maj (x y z : N) : N := N.lxor (N.lxor (N.land x y) (N.land x z)) (N.land y z).
Definition big_sigma0 (x : N) : N := N.lxor (N.lxor (rotr 2 x) (rotr 13 x)) (rotr 22 x).
Definition big_sigma1 (x : N) : N := N.lxor (N.lxor (rotr 6 x) (rotr 11 x)) (rotr 25 x).
Definition small_sigma0 (x : N) : N := N.lxor (N.lxor (rotr 7 x) (rotr 18 x)) (shr 3 x).
Definition small_sigma1 (x : N) : N := N.lxor (N.lxor (rotr 17 x) (rotr 19 x)) (shr 10 x).

(** The first 32 bits of the fractional parts of the cube roots of the first 64
    primes, and of the square roots of the first 8. *)
Definition round_constants : list N :=
  [
   1116352408; 1899447441; 3049323471; 3921009573; 961987163; 1508970993;
   2453635748; 2870763221; 3624381080; 310598401; 607225278; 1426881987;
   1925078388; 2162078206; 2614888103; 3248222580; 3835390401; 4022224774;
   264347078; 604807628; 770255983; 1249150122; 1555081692; 1996064986;
   2554220882; 2821834349; 2952996808; 3210313671; 3336571891; 3584528711;
   113926993; 338241895; 666307205; 773529912; 1294757372; 1396182291;
   1695183700; 1986661051; 2177026350; 2456956037; 2730485921; 2820302411;
   3259730800; 3345764771; 3516065817; 3600352804; 4094571909; 275423344;
   430227734; 506948616; 659060556; 883997877; 958139571; 1322822218;
   1537002063; 1747873779; 1955562222; 2024104815; 2227730452; 2361852424;
   2428436474; 2756734187; 3204031479; 3329325298].
Definition initial_hash : list N :=
  [
   1779033703; 3144134277; 1013904242; 2773480762; 1359893119; 2600822924;
   528734635; 1541459225].

(** [[a; b; c; d; e; f; g; h]] after one round with word [w] and constant [k]. *)
Definition sha_round (v : list N) (wk : N * N) : list N :=
  match v with
  | [a; b; c; d; e; f; g; h] =>
      let t1 := add32 h (add32 (big_sigma1 e) (add32 (ch e f g) (add32 wk.1 wk.2))) in
      let t2 := add32 (big_sigma0 a) (maj a b c) in
      [add32 t1 t2; a; b; c; add32 d t1; e; f; g]
  | _ => v
  end.

(** The message schedule: the last 16 words, newest first, and [n] words to come. *)
Fixpoint schedule (n : nat) (recent : list N) : list N :=
  match n with
  | O => []
  | S n' =>
      let at_ i := nth i recent 0 in
      let w := add32 (small_sigma1 (at_ 1%nat))
                 (add32 (at_ 6%nat) (add32 (small_sigma0 (at_ 14%nat)) (at_ 15%nat))) in
      w :: schedule n' (w :: take 15 recent)
  end.

Definition compress (hash block : list N) : list N :=
  let words := block ++ schedule 48 (reverse block) in
  zip_with add32 hash (foldl sha_round hash (zip words round_constants)).

Fixpoint words_of (bytes : list N) : list N :=
  match bytes with
  | a :: b :: c :: d :: rest =>
      N.lor (N.shiftl a 24) (N.lor (N.shiftl b 16) (N.lor (N.shiftl c 8) d)) :: words_of rest
  | _ => []
  end.

(** The [k] low bytes of [n], most significant first. *)
Fixpoint bytes_be (k : nat) (n : N) : list N :=
  match k with
  | O => []
  | S k' => bytes_be k' (N.shiftr n 8) ++ [N.land n 255]
  end.

(** A one bit, zeros up to 56 modulo 64 bytes, and the length in bits. *)
Definition pad_message (bytes : list N) : list N :=
  let n := length bytes in
  let zeros := ((119 - n mod 64) mod 64)%nat in
  bytes ++ [128] ++ replicate zeros 0 ++ bytes_be 8 (8 * N.of_nat n).

Fixpoint sha_blocks (fuel : nat) (hash words : list N) : list N :=
  match fuel, words with
  | S fuel', _ :: _ => sha_blocks fuel' (compress hash (take 16 words)) (drop 16 words)
  | _, _ => hash
  end.

Definition sha256 (bytes : list N) : list N :=
  let words := words_of (pad_message bytes) in
  sha_blocks (length words) initial_hash words.

Definition hex_digit (n : N) : ascii := ascii_of_N (if n <? 10 then 48 + n else 87 + n).
Definition hex_byte (b : N) : list ascii := [hex_digit (N.shiftr b 4); hex_digit (N.land b 15)].

(** [hashlib.sha256(s.encode("utf-8")).hexdigest()] *)
Definition sha256_hex (s : string) : string :=
  String.string_of_list_ascii
    (mjoin (hex_byte <$> mjoin (bytes_be 4 <$> sha256 (bytes_of s)))).

(** [s[:n]] of an ASCII string. *)
Definition str_take (n : nat) (s : string) : string := String.substring 0 n s.

Example sha256_abc :
  sha256_hex "abc" = "ba7816bf8f01cfea414140de5dae2223b00361a396177a9cb410ff61f20015ad".
Proof. vm_compute. reflexivity. Qed.
Example sha256_empty :
  sha256_hex "" = "e3b0c44298fc1c149afbf4c8996fb92427ae41e4649b934ca495991b7852b855".
Proof. vm_compute. reflexivity. Qed.
Example sha256_two_blocks :
  sha256_hex "abcdbcdecdefdefgefghfghighijhijkijkljklmklmnlmnomnopnopq"
  = "248d6a61d20638b8e5c026930c3e6039a33ce45964ff2167f6ecedd419db06c1".
Proof. vm_compute. reflexivity. Qed.
