(* ===== verification/Sha256Facts.v ===== *)
(** The digests of [Sha256] have 32 bytes and print as 64 characters. *)
From S2P Require Import Prelude Sha256.
#[local] Open Scope Z_scope.

Lemma bytes_be_small k n : Forall (fun b => (b < 256)%N) (bytes_be k n).
Proof.
  revert n; induction k as [|k IH]; intros n; [apply Forall_nil_2|]. cbn [bytes_be].
  apply Forall_app. split; [apply IH|]. apply Forall_singleton. change 255%N with (N.ones 8).
  rewrite N.land_ones. by apply N.mod_lt.
Qed.

(** A digest has 64 characters. *)
Lemma length_sha_round v wk : length v = 8%nat -> length (sha_round v wk) = 8%nat.
Proof. intros H. do 9 (destruct v as [|? v]; [done|]); done. Qed.

Lemma length_compress h b : length h = 8%nat -> length (compress h b) = 8%nat.
Proof.
  intros Hh. unfold compress. rewrite length_zip_with.
  assert (forall l v, length v = 8%nat -> length (foldl sha_round v l) = 8%nat) as Hfold
    by (induction l as [|x l IH]; intros v Hv; [done|]; cbn; by apply IH, length_sha_round).
  rewrite Hfold by done. lia.
Qed.

Lemma length_sha256 bytes : length (sha256 bytes) = 8%nat.
Proof.
  unfold sha256. generalize (words_of (pad_message bytes)). intros w. generalize (length w). intros fuel.
  assert (forall h w, length h = 8%nat -> length (sha_blocks fuel h w) = 8%nat) as H; [|by apply H].
  induction fuel as [|fuel IH]; intros h w' Hh; [done|]. cbn. destruct w'; [done|]. by apply IH, length_compress.
Qed.

Lemma length_bytes_be k n : length (bytes_be k n) = k.
Proof. revert n; induction k as [|k IH]; intros n; [done|]. cbn. rewrite length_app, IH. cbn. lia. Qed.

Lemma hex_digit_ascii n : (n < 16)%N -> (N_of_ascii (hex_digit n) < 128)%N.
Proof. intros Hn. unfold hex_digit. rewrite N_ascii_embedding; destruct (N.ltb_spec n 10); lia. Qed.

Lemma hex_byte_ascii b : (b < 256)%N -> Forall (fun a => (N_of_ascii a < 128)%N) (hex_byte b).
Proof.
  intros Hb. unfold hex_byte. apply Forall_cons. split; [|apply Forall_singleton]; apply hex_digit_ascii.
  - rewrite N.shiftr_div_pow2. apply N.Div0.div_lt_upper_bound. lia.
  - change 15%N with (N.ones 4). rewrite N.land_ones. by apply N.mod_lt.
Qed.

(** Plain ASCII texts are counted by bytes. *)
Lemma py_len_ascii l :
  Forall (fun a => (N_of_ascii a < 128)%N) l -> py_len (String.string_of_list_ascii l) = Z.of_nat (length l).
Proof.
  intros H. unfold py_len. f_equal. unfold bytes_of. rewrite String.list_ascii_of_string_of_list_ascii.
  rewrite filterb_all; [by rewrite length_fmap|]. intros b (a&->&Ha)%list_elem_of_fmap.
  rewrite Forall_forall in H. specialize (H a Ha). destruct (N.leb_spec 128 (N_of_ascii a)); [lia|done].
Qed.

Lemma length_mjoin {A} (k : nat) (ls : list (list A)) :
  Forall (fun l => length l = k) ls -> length (mjoin ls) = (length ls * k)%nat.
Proof.
  induction 1 as [|l ls Hl _ IH]; [done|].
  change (mjoin (l :: ls)) with (l ++ mjoin ls). rewrite length_app, Hl, IH. cbn [length]. lia.
Qed.

Lemma Forall_mjoin {A} (P : A -> Prop) (ls : list (list A)) : Forall (Forall P) ls -> Forall P (mjoin ls).
Proof.
  induction 1 as [|l ls Hl _ IH]; [apply Forall_nil_2|].
  change (mjoin (l :: ls)) with (l ++ mjoin ls). by apply Forall_app.
Qed.

(** [hashlib.sha256(text.encode()).digest()] *)
Definition sha256_digest (s : string) : list N := mjoin (bytes_be 4 <$> sha256 (bytes_of s)).

Lemma digest_small s : Forall (fun b => (b < 256)%N) (sha256_digest s).
Proof. apply Forall_mjoin, Forall_fmap, Forall_true. intros n. apply bytes_be_small. Qed.

Lemma length_digest s : length (sha256_digest s) = 32%nat.
Proof.
  unfold sha256_digest. rewrite (length_mjoin 4); [by rewrite length_fmap, length_sha256|].
  apply Forall_fmap, Forall_true. intros n. apply length_bytes_be.
Qed.

Lemma sha256_hex_chars s :
  exists l, sha256_hex s = String.string_of_list_ascii l /\ length l = 64%nat /\
            Forall (fun a => (N_of_ascii a < 128)%N) l.
Proof.
  exists (mjoin (hex_byte <$> sha256_digest s)). split; [done|]. split.
  - rewrite (length_mjoin 2); [by rewrite length_fmap, length_digest|]. by apply Forall_fmap, Forall_true.
  - apply Forall_mjoin, Forall_fmap. eapply Forall_impl; [apply digest_small|]. intros b. apply hex_byte_ascii.
Qed.

Lemma py_len_sha256 s : py_len (sha256_hex s) = 64.
Proof. destruct (sha256_hex_chars s) as (l&->&Hl&Ha). by rewrite py_len_ascii, Hl. Qed.
