(* ===== verification/PyTime.v ===== *)
(** Python's [datetime.date], [datetime.datetime] and [timedelta]: comparison
    and subtraction by instant, and [isoformat]/[fromisoformat].

    A date is its proleptic ordinal ([date.toordinal]).  A datetime is its
    local microsecond count since 0001-01-01T00:00 and its UTC offset, [None]
    for a naive value; a timedelta is a number of microseconds.  Offsets are
    constant: no daylight saving rule is modelled. *)
From S2P Require Import Prelude.

Abbreviation date := Z.
Abbreviation timedelta := Z.

Record datetime := mk_datetime { dt_local : Z; dt_offset : option Z }.

#[export] Instance datetime_eq_dec : EqDecision datetime.
Proof. solve_decision. Defined.

Definition us_per_day : Z := 86400000000.
Definition seconds (n : Z) : timedelta := n * 1000000.
Definition minutes (n : Z) : timedelta := seconds (60 * n).
Definition hours (n : Z) : timedelta := minutes (60 * n).

(** [value.tzinfo is not None and value.utcoffset() is not None] *)
Definition is_aware (d : datetime) : bool :=
  match dt_offset d with Some _ => true | None => false end.

(** The UTC instant of an aware datetime. *)
Definition instant (d : datetime) : Z := dt_local d - default 0 (dt_offset d).

(** Aware datetimes compare by instant. *)
#[export] Instance datetime_pyord : PyOrd datetime := fun a b => pycmp (instant a) (instant b).
#[export] Instance datetime_pyord_laws : PyOrdLaws datetime.
Proof.
  split; unfold pycmp, datetime_pyord; intros; [apply pycmp_opp|by eapply pycmp_trans].
Qed.

Definition dt_le (a b : datetime) : bool := pyle a b.
Definition dt_lt (a b : datetime) : bool := pylt a b.
(** [a == b] *)
Definition dt_eqb (a b : datetime) : bool := instant a =? instant b.

Definition dt_sub (a b : datetime) : timedelta := instant a - instant b.
Definition dt_add (a : datetime) (t : timedelta) : datetime :=
  mk_datetime (dt_local a + t) (dt_offset a).

(** [int(value.timestamp())]: whole seconds since 1970-01-01T00:00Z, truncated
    toward zero. *)
Definition epoch_us : Z := 719162 * us_per_day.
Definition int_timestamp (d : datetime) : Z := Z.quot (instant d - epoch_us) 1000000.

Lemma dt_le_Z a b : dt_le a b = (instant a <=? instant b).
Proof. reflexivity. Qed.
Lemma dt_lt_Z a b : dt_lt a b = (instant a <? instant b).
Proof. reflexivity. Qed.
Lemma pyle_dt a b : pyle a b = (instant a <=? instant b).
Proof. reflexivity. Qed.
Lemma pylt_dt a b : pylt a b = (instant a <? instant b).
Proof. reflexivity. Qed.
Lemma instant_add a t : instant (dt_add a t) = instant a + t.
Proof. unfold instant, dt_add; simpl. lia. Qed.

(** ** Calendar *)

Definition is_leap (y : Z) : bool :=
  (y mod 4 =? 0) && (negb (y mod 100 =? 0) || (y mod 400 =? 0)).

Definition days_before_year (y : Z) : Z :=
  let y := y - 1 in y * 365 + y / 4 - y / 100 + y / 400.

Definition days_before_month_table : list Z :=
  [0; 31; 59; 90; 120; 151; 181; 212; 243; 273; 304; 334].

Definition days_before_month (y m : Z) : Z :=
  default 0 (days_before_month_table !! Z.to_nat (m - 1)) +
  (if (2 <? m) && is_leap y then 1 else 0).

(** [date.toordinal] *)
Definition ymd2ord (y m d : Z) : Z := days_before_year y + days_before_month y m + d.

(** [date.fromordinal] *)
Definition ord2ymd (ordinal : Z) : Z * Z * Z :=
  let n := ordinal - 1 in
  let n400 := n / 146097 in let n := n mod 146097 in
  let n100 := n / 36524 in let n := n mod 36524 in
  let n4 := n / 1461 in let n := n mod 1461 in
  let n1 := n / 365 in let n := n mod 365 in
  let year := n400 * 400 + 1 + n100 * 100 + n4 * 4 + n1 in
  if (n1 =? 4) || (n100 =? 4) then (year - 1, 12, 31)
  else
    let leap := (n1 =? 3) && (negb (n4 =? 24) || (n100 =? 3)) in
    let month := (n + 50) / 32 in
    let before m := default 0 (days_before_month_table !! Z.to_nat (m - 1)) +
                    (if (2 <? m) && leap then 1 else 0) in
    let month := if n <? before month then month - 1 else month in
    (year, month, n - before month + 1).

(** ** Digits *)

Definition digit (n : Z) : Ascii.ascii := ascii_of_N (48 + Z.to_N (n mod 10)).

(** [%0kd] of a non-negative number below [10^k]. *)
Fixpoint pad (k : nat) (n : Z) : list Ascii.ascii :=
  match k with
  | O => []
  | S k' => pad k' (n / 10) ++ [digit n]
  end.

Definition digit_val (a : Ascii.ascii) : option Z :=
  let n := Z.of_N (N_of_ascii a) - 48 in
  if (0 <=? n) && (n <? 10) then Some n else None.

(** [text.isdigit()] of a text that is not empty; digits beyond ASCII are not modelled. *)
Definition is_digits (s : string) : bool := forallb (fun a => match digit_val a with Some _ => true | None => false end) (String.list_ascii_of_string s).

(** Reads exactly [k] digits. *)
Fixpoint read_digits (k : nat) (acc : Z) (s : list Ascii.ascii) : option (Z * list Ascii.ascii) :=
  match k, s with
  | O, _ => Some (acc, s)
  | S k', a :: s' => d ← digit_val a; read_digits k' (10 * acc + d) s'
  | S _, [] => None
  end.

Definition read_char (c : Ascii.ascii) (s : list Ascii.ascii) : option (list Ascii.ascii) :=
  match s with a :: s' => if decide (a = c) then Some s' else None | [] => None end.

Definition chr (n : N) : Ascii.ascii := ascii_of_N n.
Definition c_dash := chr 45.
Definition c_colon := chr 58.
Definition c_dot := chr 46.
Definition c_plus := chr 43.
Definition c_T := chr 84.
Definition c_Z := chr 90.

(** ** [isoformat] *)

Definition iso_date_chars (d : date) : list Ascii.ascii :=
  let '(y, m, dd) := ord2ymd d in
  pad 4 y ++ [c_dash] ++ pad 2 m ++ [c_dash] ++ pad 2 dd.

(** [HH:MM:SS[.ffffff]] of a time of day in microseconds. *)
Definition iso_time_chars (us : Z) : list Ascii.ascii :=
  let s := us / 1000000 in
  let f := us mod 1000000 in
  pad 2 (s / 3600) ++ [c_colon] ++ pad 2 (s / 60 mod 60) ++ [c_colon] ++ pad 2 (s mod 60) ++
  (if f =? 0 then [] else [c_dot] ++ pad 6 f).

(** [+HH:MM[:SS[.ffffff]]] *)
Definition iso_offset_chars (off : Z) : list Ascii.ascii :=
  let us := Z.abs off in
  let s := us / 1000000 in
  let f := us mod 1000000 in
  [if off <? 0 then c_dash else c_plus] ++
  pad 2 (s / 3600) ++ [c_colon] ++ pad 2 (s / 60 mod 60) ++
  (if (s mod 60 =? 0) && (f =? 0) then []
   else [c_colon] ++ pad 2 (s mod 60) ++ (if f =? 0 then [] else [c_dot] ++ pad 6 f)).

Definition iso_datetime_chars (d : datetime) : list Ascii.ascii :=
  iso_date_chars (dt_local d / us_per_day + 1) ++ [c_T] ++
  iso_time_chars (dt_local d mod us_per_day) ++
  match dt_offset d with Some off => iso_offset_chars off | None => [] end.

Definition date_isoformat (d : date) : string := String.string_of_list_ascii (iso_date_chars d).
Definition isoformat (d : datetime) : string := String.string_of_list_ascii (iso_datetime_chars d).

(** [value.astimezone(UTC).isoformat().replace("+00:00", "Z")] *)
Definition utc_iso (d : datetime) : string :=
  String.string_of_list_ascii
    (iso_date_chars (instant d / us_per_day + 1) ++ [c_T] ++
     iso_time_chars (instant d mod us_per_day) ++ [c_Z]).

Example iso_ex :
  isoformat (mk_datetime ((ymd2ord 2026 8 14 - 1) * us_per_day + 32400000000) (Some (hours 9)))
  = "2026-08-14T09:00:00+09:00".
Proof. reflexivity. Qed.
Example utc_iso_ex :
  utc_iso (mk_datetime ((ymd2ord 2026 8 14 - 1) * us_per_day + 32400000001) (Some (hours 9)))
  = "2026-08-14T00:00:00.000001Z".
Proof. reflexivity. Qed.
Example leap_day : ord2ymd (ymd2ord 2024 2 29) = (2024, 2, 29).
Proof. reflexivity. Qed.

(** ** [fromisoformat] *)

(** The formats [isoformat] and [_utc_iso] print are read; the other ISO 8601
    spellings Python accepts are not modelled and raise [ValueError] here. *)
Definition read_date (s : list Ascii.ascii) : option (date * list Ascii.ascii) :=
  '(y, s) ← read_digits 4 0 s; s ← read_char c_dash s;
  '(m, s) ← read_digits 2 0 s; s ← read_char c_dash s;
  '(d, s) ← read_digits 2 0 s;
  let o := ymd2ord y m d in
  if decide (ord2ymd o = (y, m, d) /\ 1 <= y) then Some (o, s) else None.

(** [.ffffff], or nothing. *)
Definition read_fraction (s : list Ascii.ascii) : option (Z * list Ascii.ascii) :=
  match read_char c_dot s with
  | Some s' => read_digits 6 0 s'
  | None => Some (0, s)
  end.

Definition read_time (s : list Ascii.ascii) : option (Z * list Ascii.ascii) :=
  '(h, s) ← read_digits 2 0 s; s ← read_char c_colon s;
  '(m, s) ← read_digits 2 0 s; s ← read_char c_colon s;
  '(sec, s) ← read_digits 2 0 s;
  '(f, s) ← read_fraction s;
  if (h <? 24) && (m <? 60) && (sec <? 60)
  then Some (((h * 60 + m) * 60 + sec) * 1000000 + f, s) else None.

Definition read_offset_magnitude (s : list Ascii.ascii) : option (Z * list Ascii.ascii) :=
  '(h, s) ← read_digits 2 0 s; s ← read_char c_colon s;
  '(m, s) ← read_digits 2 0 s;
  match read_char c_colon s with
  | None => Some ((h * 60 + m) * 60 * 1000000, s)
  | Some s => '(sec, s) ← read_digits 2 0 s; '(f, s) ← read_fraction s;
              Some (((h * 60 + m) * 60 + sec) * 1000000 + f, s)
  end.

Definition read_offset (s : list Ascii.ascii) : option (option Z * list Ascii.ascii) :=
  match s with
  | [] => Some (None, [])
  | c :: s' =>
      if decide (c = c_Z) then Some (Some 0, s')
      else if decide (c = c_plus) then
        '(o, r) ← read_offset_magnitude s';
        if o <? us_per_day then Some (Some o, r) else None
      else if decide (c = c_dash) then
        '(o, r) ← read_offset_magnitude s';
        if o <? us_per_day then Some (Some (- o), r) else None
      else None
  end.

Definition parse_date (s : string) : res date :=
  match read_date (String.list_ascii_of_string s) with
  | Some (d, []) => Ok d
  | _ => Raise ValueError
  end.

Definition read_datetime (s : list Ascii.ascii) : option (datetime * list Ascii.ascii) :=
  '(d, s) ← read_date s; s ← read_char c_T s;
  '(t, s) ← read_time s; '(o, s) ← read_offset s;
  Some (mk_datetime ((d - 1) * us_per_day + t) o, s).

Definition fromisoformat (s : string) : res datetime :=
  match read_datetime (String.list_ascii_of_string s) with
  | Some (d, []) => Ok d
  | _ => Raise ValueError
  end.

(** [_require_aware] *)
Definition require_aware (d : datetime) : res unit := raise_if (negb (is_aware d)) ValueError.

Lemma require_aware_ok d u : require_aware d = Ok u <-> is_aware d = true.
Proof. unfold require_aware. rewrite raise_if_ok, negb_false_iff. done. Qed.
