(* ===== verification/PyTimeFacts.v ===== *)
(** The calendar and the texts of dates and times: a day is read back from its year, month
    and day of month, and [fromisoformat] reads what [isoformat] printed. *)
From S2P Require Import Prelude PyTime.
#[local] Open Scope Z_scope.

(** ** Days and years *)

(** [date.max.toordinal()] *)
Definition max_ordinal : Z := 3652059.

Definition is_date (d : date) : Prop := 1 <= d <= max_ordinal.

(** The month and the day of month of the [n]th day of a year, from 0. *)
Definition month_day (leap : bool) (n : Z) : Z * Z :=
  let month := (n + 50) / 32 in
  let before m := default 0 (days_before_month_table !! Z.to_nat (m - 1)) +
                  (if (2 <? m) && leap then 1 else 0) in
  let month := if n <? before month then month - 1 else month in
  (month, n - before month + 1).

Definition year_length (leap : bool) : Z := if leap then 366 else 365.

Definition day_ok (leap : bool) (n : Z) : bool :=
  let '(m, d) := month_day leap n in
  (1 <=? m) && (m <=? 12) && (1 <=? d) && (d <=? 31) &&
  (default 0 (days_before_month_table !! Z.to_nat (m - 1)) + (if (2 <? m) && leap then 1 else 0) + d =? n + 1).

Lemma month_day_ok leap n :
  0 <= n < year_length leap ->
  let '(m, d) := month_day leap n in
  1 <= m <= 12 /\ 1 <= d <= 31 /\
  default 0 (days_before_month_table !! Z.to_nat (m - 1)) + (if (2 <? m) && leap then 1 else 0) + d = n + 1.
Proof.
  intros Hn. assert (day_ok leap n = true) as H.
  { assert (forallb (day_ok leap) (Z.of_nat <$> seq 0 (Z.to_nat (year_length leap))) = true) as H
      by (destruct leap; vm_compute; reflexivity).
    rewrite forallb_forall in H. apply H, list_elem_of_In, list_elem_of_fmap.
    exists (Z.to_nat n). split; [lia|]. apply elem_of_seq. destruct leap; cbn in *; lia. }
  unfold day_ok in H. destruct (month_day leap n) as [m d].
  rewrite !andb_true_iff, !Z.leb_le, Z.eqb_eq in H. lia.
Qed.

(** A year in its cycle of 400. *)
Lemma year_parts a b c e :
  0 <= b <= 3 -> 0 <= c <= 24 -> 0 <= e <= 3 ->
  let y := a * 400 + 1 + b * 100 + c * 4 + e in
  days_before_year y = a * 146097 + b * 36524 + c * 1461 + e * 365 /\
  is_leap y = (e =? 3) && (negb (c =? 24) || (b =? 3)).
Proof.
  intros Hb Hc He y. split.
  - unfold days_before_year, y. cbv zeta.
    replace (a * 400 + 1 + b * 100 + c * 4 + e - 1) with (400 * a + 100 * b + 4 * c + e) by lia.
    rewrite <-(Z.div_unique (400 * a + 100 * b + 4 * c + e) 4 (100 * a + 25 * b + c) e) by lia.
    rewrite <-(Z.div_unique (400 * a + 100 * b + 4 * c + e) 100 (4 * a + b) (4 * c + e)) by lia.
    rewrite <-(Z.div_unique (400 * a + 100 * b + 4 * c + e) 400 a (100 * b + 4 * c + e)) by lia. lia.
  - unfold is_leap. rewrite eq_iff_eq_true.
    rewrite !andb_true_iff, !orb_true_iff, !negb_true_iff, !Z.eqb_eq, !Z.eqb_neq.
    pose proof (Z.div_mod y 4 ltac:(lia)). pose proof (Z.div_mod y 100 ltac:(lia)).
    pose proof (Z.div_mod y 400 ltac:(lia)). pose proof (Z.mod_pos_bound y 4 ltac:(lia)).
    pose proof (Z.mod_pos_bound y 100 ltac:(lia)). pose proof (Z.mod_pos_bound y 400 ltac:(lia)).
    unfold y in *. lia.
Qed.

(** [date.fromordinal] inverts [date.toordinal]. *)
Lemma ord2ymd_ok o :
  1 <= o -> let '(y, m, d) := ord2ymd o in
  ymd2ord y m d = o /\ 1 <= m <= 12 /\ 1 <= d <= 31 /\ 1 <= y /\ 365 * (y - 1) < o.
Proof.
  intros Ho. unfold ord2ymd. cbv zeta.
  set (n := o - 1). set (a := n / 146097). set (r := n mod 146097).
  set (b := r / 36524). set (r2 := r mod 36524). set (c := r2 / 1461). set (r3 := r2 mod 1461).
  set (e := r3 / 365). set (r4 := r3 mod 365).
  assert (n = 146097 * a + r /\ 0 <= r < 146097 /\ r = 36524 * b + r2 /\ 0 <= r2 < 36524 /\
          r2 = 1461 * c + r3 /\ 0 <= r3 < 1461 /\ r3 = 365 * e + r4 /\ 0 <= r4 < 365)
    as (E1&B1&E2&B2&E3&B3&E4&B4).
  { split_and!; first [apply Z.div_mod; lia | apply Z.mod_pos_bound; lia]. }
  assert (n = o - 1) as Eo by done. assert (0 <= a /\ 0 <= b <= 4 /\ 0 <= c <= 24 /\ 0 <= e <= 4) as (Ha&Hb&Hc&He) by lia.
  clearbody n a r b r2 c r3 e r4.
  destruct ((e =? 4) || (b =? 4)) eqn:Elast.
  - apply orb_true_iff in Elast. rewrite !Z.eqb_eq in Elast. unfold ymd2ord.
    assert (exists b' c', 0 <= b' <= 3 /\ 0 <= c' <= 24 /\ (c' = 24 -> b' = 3) /\
              a * 400 + 1 + b * 100 + c * 4 + e - 1 = a * 400 + 1 + b' * 100 + c' * 4 + 3 /\
              n = a * 146097 + b' * 36524 + c' * 1461 + 3 * 365 + 365) as (b'&c'&Hb'&Hc'&Hbc&Ey&En).
    { destruct (decide (b = 4)) as [->|]; [exists 3, 24|exists b, c]; lia. }
    rewrite Ey. destruct (year_parts a b' c' 3 Hb' Hc' ltac:(lia)) as [Ed El]. rewrite Ed.
    unfold days_before_month. rewrite El.
    assert ((3 =? 3) && (negb (c' =? 24) || (b' =? 3)) = true) as ->.
    { cbn. rewrite orb_true_iff, negb_true_iff, Z.eqb_neq, Z.eqb_eq. lia. }
    replace (default 0 (days_before_month_table !! Z.to_nat (12 - 1))) with 334 by reflexivity. change ((2 <? 12) && true) with true. cbv iota. lia.
  - apply orb_false_iff in Elast as [H1%Z.eqb_neq H2%Z.eqb_neq].
    destruct (year_parts a b c e ltac:(lia) ltac:(lia) ltac:(lia)) as [Ed El].
    set (leap := (e =? 3) && (negb (c =? 24) || (b =? 3))) in *.
    pose proof (month_day_ok leap r4) as Hm.
    assert (0 <= r4 < year_length leap) as Hr4 by (unfold year_length; destruct leap; lia).
    specialize (Hm Hr4). unfold month_day in Hm. cbv zeta in Hm.
    set (m := if r4 <? _ then _ else _) in Hm |- *. clearbody m.
    destruct Hm as (Hm&Hd&Hsum). unfold ymd2ord, days_before_month. rewrite Ed, El. lia.
Qed.

Lemma ymd_of_date d :
  is_date d -> let '(y, m, dd) := ord2ymd d in
  ymd2ord y m dd = d /\ 0 <= y < 10 ^ 4 /\ 0 <= m < 10 ^ 2 /\ 0 <= dd < 10 ^ 2 /\ 1 <= y.
Proof.
  intros [H1 H2]. pose proof (ord2ymd_ok d H1) as H. destruct (ord2ymd d) as [[y m] dd].
  destruct H as (E&Hm&Hd&Hy&Hlt). split_and!; try lia. unfold max_ordinal in H2.
  destruct (Z_lt_le_dec y 10000); [done|]. exfalso.
  unfold ymd2ord, days_before_year, days_before_month in E. cbv zeta in E.
  pose proof (Z.div_mod (y - 1) 4 ltac:(lia)). pose proof (Z.div_mod (y - 1) 100 ltac:(lia)).
  pose proof (Z.div_mod (y - 1) 400 ltac:(lia)). pose proof (Z.mod_pos_bound (y - 1) 4 ltac:(lia)).
  pose proof (Z.mod_pos_bound (y - 1) 100 ltac:(lia)). pose proof (Z.mod_pos_bound (y - 1) 400 ltac:(lia)).
  assert (0 <= default 0 (days_before_month_table !! Z.to_nat (m - 1))).
  { destruct (days_before_month_table !! _) as [k|] eqn:Ek; cbn; [|done].
    assert (Forall (fun k => 0 <= k) days_before_month_table) as Hall by (repeat constructor; lia).
    by eapply Forall_lookup_1. }
  destruct ((2 <? m) && is_leap y); lia.
Qed.

(** ** Digits *)

Lemma digit_val_digit n : digit_val (digit n) = Some (n mod 10).
Proof.
  unfold digit_val, digit. pose proof (Z.mod_pos_bound n 10 ltac:(lia)) as Hr.
  rewrite N_ascii_embedding by lia.
  replace (Z.of_N (48 + Z.to_N (n mod 10)) - 48) with (n mod 10) by lia.
  assert ((0 <=? n mod 10) && (n mod 10 <? 10) = true) as ->; [|done].
  rewrite andb_true_iff, Z.leb_le, Z.ltb_lt. lia.
Qed.

Lemma read_digits_app k j acc l rest :
  read_digits (k + j) acc (l ++ rest) =
  match read_digits k acc l with
  | Some (x, []) => read_digits j x rest
  | _ => read_digits (k + j) acc (l ++ rest)
  end.
Proof.
  revert acc l. induction k as [|k IH]; intros acc [|a l]; cbn; try done.
  destruct (digit_val a) as [d|]; cbn; [|done]. rewrite IH. by destruct (read_digits k _ l) as [[x [|]]|].
Qed.

Lemma read_digits_pad k n acc rest :
  0 <= n < 10 ^ Z.of_nat k -> read_digits k acc (pad k n ++ rest) = Some (acc * 10 ^ Z.of_nat k + n, rest).
Proof.
  revert n acc rest. induction k as [|k IH]; intros n acc rest Hn; cbn [pad].
  - cbn in Hn |- *. f_equal. f_equal. lia.
  - rewrite Nat2Z.inj_succ, Z.pow_succ_r in Hn |- * by lia.
    pose proof (Z.div_mod n 10 ltac:(lia)) as E. pose proof (Z.mod_pos_bound n 10 ltac:(lia)) as Hr.
    assert (0 <= n / 10 < 10 ^ Z.of_nat k) as Hq by lia.
    assert (forall r, read_digits k acc (pad k (n / 10) ++ r) = Some (acc * 10 ^ Z.of_nat k + n / 10, r)) as Hk
      by (intros r; by apply IH).
    replace (S k) with (k + 1)%nat by lia. rewrite <-(app_assoc _ [digit n]). cbn [app].
    rewrite read_digits_app. specialize (Hk []). rewrite app_nil_r in Hk. rewrite Hk.
    cbn. rewrite digit_val_digit. cbn. f_equal. f_equal. lia.
Qed.

Lemma read_pad k n rest :
  0 <= n < 10 ^ Z.of_nat k -> read_digits k 0 (pad k n ++ rest) = Some (n, rest).
Proof. intros Hn. rewrite read_digits_pad by done. f_equal. Qed.

(** Fixed-width numbers can be told apart, and from what follows. *)
Lemma pad_app_inj k n n' rest rest' :
  0 <= n < 10 ^ Z.of_nat k -> 0 <= n' < 10 ^ Z.of_nat k ->
  pad k n ++ rest = pad k n' ++ rest' -> n = n' /\ rest = rest'.
Proof.
  intros Hn Hn' E. apply (f_equal (read_digits k 0)) in E. rewrite !read_pad in E by done.
  by injection E as -> ->.
Qed.

Lemma read_char_same c rest : read_char c (c :: rest) = Some rest.
Proof. unfold read_char. by rewrite decide_True. Qed.

(** ** Dates *)

Lemma read_iso_date d rest : is_date d -> read_date (iso_date_chars d ++ rest) = Some (d, rest).
Proof.
  intros Hd. pose proof (ymd_of_date d Hd) as H. unfold read_date, iso_date_chars.
  destruct (ord2ymd d) as [[y m] dd] eqn:E. destruct H as (Eo&Hy&Hm&Hdd&Hy1).
  rewrite <-!app_assoc. rewrite (read_pad 4) by done. cbn [app]. cbn [mbind option_bind].
  rewrite read_char_same. cbn [mbind option_bind]. rewrite (read_pad 2) by done.
  cbn [mbind option_bind app]. rewrite read_char_same. cbn [mbind option_bind].
  rewrite (read_pad 2) by done. cbn [mbind option_bind]. rewrite Eo, decide_True; done.
Qed.

Lemma list_of_string_of l : String.list_ascii_of_string (String.string_of_list_ascii l) = l.
Proof. apply String.list_ascii_of_string_of_list_ascii. Qed.

(** [date.fromisoformat] reads what [date.isoformat] printed. *)
Lemma parse_date_iso d : is_date d -> parse_date (date_isoformat d) = Ok d.
Proof.
  intros Hd. unfold parse_date, date_isoformat. rewrite list_of_string_of.
  rewrite <-(app_nil_r (iso_date_chars d)), read_iso_date by done. done.
Qed.

(** ** Times *)

Lemma read_fraction_pad f rest :
  0 <= f < 1000000 -> read_char c_dot rest = None ->
  read_fraction ((if f =? 0 then [] else [c_dot] ++ pad 6 f) ++ rest) = Some (f, rest).
Proof.
  intros Hf Hrest. unfold read_fraction. destruct (Z.eqb_spec f 0) as [->|Hne]; cbn [app].
  - by rewrite Hrest.
  - rewrite read_char_same. by apply read_pad.
Qed.

(** Hours, minutes, seconds and microseconds. *)
Lemma clock_parts us (s := us / 1000000) (f := us mod 1000000) :
  0 <= us < us_per_day ->
  0 <= f < 1000000 /\ 0 <= s / 3600 < 24 /\ 0 <= s / 60 mod 60 < 60 /\ 0 <= s mod 60 < 60 /\
  us = ((s / 3600 * 60 + s / 60 mod 60) * 60 + s mod 60) * 1000000 + f.
Proof.
  intros Hus. unfold us_per_day in Hus.
  pose proof (Z.div_mod us 1000000 ltac:(lia)) as E1. fold s f in E1.
  pose proof (Z.mod_pos_bound us 1000000 ltac:(lia)) as B1. fold f in B1.
  pose proof (Z.div_mod s 60 ltac:(lia)) as E2. pose proof (Z.mod_pos_bound s 60 ltac:(lia)) as B2.
  pose proof (Z.div_mod (s / 60) 60 ltac:(lia)) as E3. pose proof (Z.mod_pos_bound (s / 60) 60 ltac:(lia)) as B3.
  rewrite Z.div_div in E3 by lia. change (60 * 60) with 3600 in E3. lia.
Qed.

Lemma read_iso_time us rest :
  0 <= us < us_per_day -> read_char c_dot rest = None ->
  read_time (iso_time_chars us ++ rest) = Some (us, rest).
Proof.
  intros Hus Hrest. destruct (clock_parts us Hus) as (Hf&Hh&Hm&Hs&E).
  unfold read_time, iso_time_chars. cbv zeta. rewrite <-!app_assoc.
  rewrite (read_pad 2) by (cbn; lia). cbn [app]. cbn [mbind option_bind]. rewrite read_char_same.
  cbn [mbind option_bind]. rewrite (read_pad 2) by (cbn; lia). cbn [mbind option_bind]. rewrite read_char_same.
  cbn [mbind option_bind]. rewrite (read_pad 2) by (cbn; lia). cbn [mbind option_bind].
  rewrite read_fraction_pad by done. cbn [mbind option_bind].
  assert ((us / 1000000 / 3600 <? 24) && (us / 1000000 / 60 mod 60 <? 60) && (us / 1000000 mod 60 <? 60) = true)
    as -> by (rewrite !andb_true_iff, !Z.ltb_lt; lia).
  by rewrite <-E.
Qed.

Lemma read_magnitude_iso us (s := us / 1000000) (f := us mod 1000000) :
  0 <= us < us_per_day ->
  read_offset_magnitude
    (pad 2 (s / 3600) ++ [c_colon] ++ pad 2 (s / 60 mod 60) ++
     (if (s mod 60 =? 0) && (f =? 0) then []
      else [c_colon] ++ pad 2 (s mod 60) ++ (if f =? 0 then [] else [c_dot] ++ pad 6 f))) = Some (us, []).
Proof.
  intros Hus. destruct (clock_parts us Hus) as (Hf&Hh&Hm&Hs&E). fold s f in Hf, Hh, Hm, Hs, E.
  unfold read_offset_magnitude. rewrite (read_pad 2) by (cbn; lia). cbn [app].
  cbn [mbind option_bind]. rewrite read_char_same. cbn [mbind option_bind].
  rewrite (read_pad 2) by (cbn; lia). cbn [mbind option_bind].
  destruct ((s mod 60 =? 0) && (f =? 0)) eqn:Ez.
  - apply andb_true_iff in Ez as [E1%Z.eqb_eq E2%Z.eqb_eq]. cbn. do 2 f_equal. lia.
  - rewrite read_char_same. rewrite (read_pad 2) by (cbn; lia). cbn [mbind option_bind].
    rewrite <-(app_nil_r (if f =? 0 then _ else _)), read_fraction_pad by done. cbn. by rewrite <-E.
Qed.

(** Offsets Python allows. *)
Definition is_offset (off : Z) : Prop := - us_per_day < off < us_per_day.

Lemma read_iso_offset off : is_offset off -> read_offset (iso_offset_chars off) = Some (Some off, []).
Proof.
  intros Hoff. unfold iso_offset_chars. cbv zeta. cbn [app]. unfold read_offset.
  unfold is_offset in Hoff. rewrite decide_False by (by destruct (off <? 0)).
  rewrite read_magnitude_iso by lia. cbn [mbind option_bind].
  assert (Z.abs off <? us_per_day = true) as -> by (rewrite Z.ltb_lt; lia).
  destruct (Z.ltb_spec off 0).
  - rewrite decide_False, decide_True by done. do 2 f_equal. f_equal. lia.
  - rewrite decide_True by done. do 2 f_equal. f_equal. lia.
Qed.

(** The datetimes Python has. *)
Record is_datetime (d : datetime) : Prop := {
  id_local : 0 <= dt_local d < max_ordinal * us_per_day;
  id_offset : forall off, dt_offset d = Some off -> is_offset off
}.

Lemma read_offset_chars (o : option Z) :
  (forall off, o = Some off -> is_offset off) ->
  read_char c_dot (match o with Some off => iso_offset_chars off | None => [] end) = None /\
  read_offset (match o with Some off => iso_offset_chars off | None => [] end) = Some (o, []).
Proof.
  intros Ho. destruct o as [off|]; [|done]. split; [|by apply read_iso_offset, Ho].
  unfold iso_offset_chars. cbn [app]. unfold read_char. by destruct (off <? 0).
Qed.

Lemma local_parts local :
  0 <= local < max_ordinal * us_per_day ->
  is_date (local / us_per_day + 1) /\ 0 <= local mod us_per_day < us_per_day /\
  (local / us_per_day + 1 - 1) * us_per_day + local mod us_per_day = local.
Proof.
  intros Hl. assert (0 < us_per_day) as Hu by done.
  pose proof (Z.div_mod local us_per_day ltac:(lia)). pose proof (Z.mod_pos_bound local us_per_day Hu).
  assert (0 <= local / us_per_day < max_ordinal) by (unfold max_ordinal, us_per_day in *; lia).
  unfold is_date. lia.
Qed.

(** [datetime.fromisoformat] reads what [datetime.isoformat] printed. *)
Lemma fromisoformat_iso d : is_datetime d -> fromisoformat (isoformat d) = Ok d.
Proof.
  intros [Hl Ho]. unfold fromisoformat, isoformat. rewrite list_of_string_of.
  unfold read_datetime, iso_datetime_chars. destruct (local_parts _ Hl) as (Hd&Ht&E).
  rewrite read_iso_date by done. cbn [app]. cbn [mbind option_bind].
  rewrite read_char_same. cbn [mbind option_bind].
  destruct (read_offset_chars (dt_offset d) Ho) as [Hdot Hread].
  rewrite read_iso_time by done. cbn [mbind option_bind]. rewrite Hread. cbn [mbind option_bind].
  rewrite E. by destruct d.
Qed.

(** The [Z] form names the same instant. *)
Definition in_utc (d : datetime) : datetime := mk_datetime (instant d) (Some 0).

Lemma fromisoformat_utc d :
  0 <= instant d < max_ordinal * us_per_day -> fromisoformat (utc_iso d) = Ok (in_utc d).
Proof.
  intros Hl. unfold fromisoformat, utc_iso. rewrite list_of_string_of.
  unfold read_datetime. destruct (local_parts _ Hl) as (Hd&Ht&E).
  rewrite read_iso_date by done. cbn [app]. cbn [mbind option_bind].
  rewrite read_char_same. cbn [mbind option_bind].
  rewrite read_iso_time by done. cbn [mbind option_bind].
  unfold in_utc. rewrite E. reflexivity.
Qed.

Lemma instant_utc d : instant (in_utc d) = instant d.
Proof. unfold in_utc, instant. cbn. lia. Qed.
