(* ===== verification/DecimalFacts.v ===== *)
(** The value of a [dec] as a rational number, and what rounding to a context
    precision does to it: the result is the nearest multiple of the last digit,
    so rounding is monotone, exact on representable values and keeps signs. *)
From S2P Require Import Prelude PyDecimal.
From Stdlib Require Import QArith Qpower Qabs Lqa.
#[local] Open Scope Z_scope.

(** ** Powers of ten *)

Definition p10 (k : Z) : Q := (10 # 1) ^ k.

Lemma p10_pos k : (0 < p10 k)%Q.
Proof. apply Qpower_0_lt. reflexivity. Qed.

Lemma p10_add a b : (p10 (a + b) == p10 a * p10 b)%Q.
Proof. apply Qpower_plus. discriminate. Qed.

Lemma p10_nonneg_Z k : 0 <= k -> (p10 k == inject_Z (10 ^ k))%Q.
Proof. intros H. unfold p10. by rewrite Zpower_Qpower. Qed.

Lemma p10_0 : (p10 0 == 1)%Q.
Proof. reflexivity. Qed.

Lemma p10_le a b : a <= b -> (p10 a <= p10 b)%Q.
Proof.
  intros Hab. replace b with (a + (b - a)) by lia.
  rewrite p10_add, (p10_nonneg_Z (b - a)) by lia.
  assert (1 <= inject_Z (10 ^ (b - a)))%Q.
  { change 1%Q with (inject_Z 1). rewrite <-Zle_Qle.
    assert (0 < 10 ^ (b - a)) by (apply Z.pow_pos_nonneg; lia). lia. }
  pose proof (p10_pos a). nra.
Qed.

Lemma p10_succ a : (p10 (a + 1) == 10 * p10 a)%Q.
Proof. rewrite p10_add. change (p10 1) with (10 # 1)%Q. ring. Qed.

Lemma p10_lt_inv a b : (p10 a < p10 b)%Q -> a < b.
Proof.
  intros H. destruct (Z.lt_ge_cases a b) as [|Hba]; [done|].
  apply p10_le in Hba. lra.
Qed.

Lemma p10N_Z k : 0 <= k -> Z.of_N (p10N k) = 10 ^ k.
Proof. intros H. unfold p10N. rewrite N2Z.inj_pow, Z2N.id by done. done. Qed.

Lemma p10N_pos k : (0 < p10N k)%N.
Proof. unfold p10N. apply N.neq_0_lt_0, N.pow_nonzero. done. Qed.

Lemma p10N_Q k : 0 <= k -> (inject_Z (Z.of_N (p10N k)) == p10 k)%Q.
Proof. intros H. by rewrite p10N_Z, p10_nonneg_Z. Qed.

(** ** The value *)

Definition cval (c : N) (e : Z) : Q := (inject_Z (Z.of_N c) * p10 e)%Q.
Definition dval (d : dec) : Q := (inject_Z (dZ d) * p10 (dexp d))%Q.

Lemma cval_nonneg c e : (0 <= cval c e)%Q.
Proof.
  unfold cval. apply Qmult_le_0_compat; [|apply Qlt_le_weak, p10_pos].
  change 0%Q with (inject_Z 0). rewrite <-Zle_Qle. lia.
Qed.

Lemma dval_cval d :
  (dval d == if dneg d then - cval (dcoef d) (dexp d) else cval (dcoef d) (dexp d))%Q.
Proof.
  unfold dval, dZ, cval. destruct (dneg d); [|reflexivity].
  rewrite inject_Z_opp. ring.
Qed.

Lemma align_vals a b x y :
  align a b = (x, y) ->
  let e := Z.min (dexp a) (dexp b) in
  (dval a == inject_Z x * p10 e /\ dval b == inject_Z y * p10 e)%Q.
Proof.
  unfold align. intros [= <- <-]. cbn zeta. set (e := Z.min _ _). unfold dval.
  rewrite !inject_Z_mult, <-!p10_nonneg_Z by lia.
  rewrite <-!Qmult_assoc, <-!p10_add.
  replace (dexp a - e + e) with (dexp a) by lia.
  replace (dexp b - e + e) with (dexp b) by lia. split; reflexivity.
Qed.

(** Comparison of decimals is comparison of values. *)
Lemma dec_cmp_val a b : pycmp a b = (dval a ?= dval b)%Q.
Proof.
  unfold pycmp, dec_pyord. destruct (align a b) as [x y] eqn:E.
  apply align_vals in E as [Ea Eb]. symmetry.
  rewrite Ea, Eb. pose proof (p10_pos (Z.min (dexp a) (dexp b))) as Hp.
  destruct (Z.compare_spec x y) as [->|H|H].
  - apply Qeq_alt. reflexivity.
  - rewrite Zlt_Qlt in H. apply Qlt_alt. by apply Qmult_lt_compat_r.
  - rewrite Zlt_Qlt in H. apply Qgt_alt. by apply Qmult_lt_compat_r.
Qed.

Lemma dle_val a b : dle a b = true <-> (dval a <= dval b)%Q.
Proof.
  unfold dle, pyle. rewrite dec_cmp_val, Qle_alt. destruct (_ ?= _)%Q; naive_solver.
Qed.
Lemma dlt_val a b : dlt a b = true <-> (dval a < dval b)%Q.
Proof.
  unfold dlt, pylt. rewrite dec_cmp_val, Qlt_alt. destruct (_ ?= _)%Q; naive_solver.
Qed.
Lemma deq_val a b : deq a b = true <-> (dval a == dval b)%Q.
Proof.
  unfold deq. rewrite dec_cmp_val, Qeq_alt. destruct (_ ?= _)%Q; naive_solver.
Qed.
Lemma dle_false a b : dle a b = false <-> (dval b < dval a)%Q.
Proof. rewrite <-not_true_iff_false, dle_val. split; [apply Qnot_le_lt|apply Qlt_not_le]. Qed.
Lemma dlt_false a b : dlt a b = false <-> (dval b <= dval a)%Q.
Proof. rewrite <-not_true_iff_false, dlt_val. split; [apply Qnot_lt_le|apply Qle_not_lt]. Qed.

#[export] Instance dec_pyord_laws : PyOrdLaws dec.
Proof.
  split; intros *; rewrite !dec_cmp_val.
  - symmetry. apply Qcompare_antisym.
  - rewrite <-!Qle_alt. lra.
Qed.

Lemma dval_dec_of_Z z : (dval (dec_of_Z z) == inject_Z z)%Q.
Proof.
  unfold dval, dec_of_Z, dZ; simpl dneg; simpl dcoef; simpl dexp.
  rewrite p10_0, N2Z.inj_abs_N.
  destruct (Z.ltb_spec z 0).
  - replace (- Z.abs z) with z by lia. ring.
  - replace (Z.abs z) with z by lia. ring.
Qed.

Lemma dlt_false_dle x : (0 < dval x)%Q -> dle x dzero = false.
Proof. intros H. by apply dle_false. Qed.

Lemma dec_of_Z_nonzero z : z <> 0 -> ~ (dval (dec_of_Z z) == 0)%Q.
Proof. rewrite dval_dec_of_Z. intros Hz H. apply Hz. by apply (inject_Z_injective z 0). Qed.

Lemma dval_neg_of d : (dval (dneg_of d) == - dval d)%Q.
Proof. rewrite !dval_cval. unfold dneg_of; simpl. destruct (dneg d); simpl; ring. Qed.

(** ** Digits *)

Lemma ndigits_fuel_bounds fuel c :
  (c < 2 ^ N.of_nat fuel)%N -> (0 < c)%N ->
  1 <= ndigits_fuel fuel c /\
  10 ^ (ndigits_fuel fuel c - 1) <= Z.of_N c < 10 ^ ndigits_fuel fuel c.
Proof.
  revert c; induction fuel as [|f IH]; intros c Hc Hpos.
  { simpl in Hc. lia. }
  simpl ndigits_fuel. destruct (N.ltb_spec c 10) as [Hlt|Hge].
  { change (10 ^ (1 - 1)) with 1. change (10 ^ 1) with 10. lia. }
  assert (c / 10 < 2 ^ N.of_nat f)%N as Hq.
  { rewrite Nat2N.inj_succ, N.pow_succ_r' in Hc. apply N.Div0.div_lt_upper_bound. lia. }
  assert (0 < c / 10)%N as Hq0 by (apply N.div_str_pos; lia).
  destruct (IH _ Hq Hq0) as (Hd & Hlo & Hhi). set (k := ndigits_fuel f (c / 10)) in *.
  replace (1 + k - 1) with (k - 1 + 1) by lia.
  replace (1 + k) with (k + 1) by lia.
  rewrite (Z.pow_add_r _ (k - 1) 1), (Z.pow_add_r _ k 1) by lia. change (10 ^ 1) with 10.
  assert (Z.of_N (c / 10) = Z.of_N c / 10) as Eq by apply N2Z.inj_div.
  rewrite Eq in Hlo, Hhi. clear Hc Hq IH Eq Hq0.
  revert Hlo Hhi. generalize (10 ^ (k - 1)) (10 ^ k). intros lo hi Hlo Hhi.
  pose proof (Z.div_mod (Z.of_N c) 10 ltac:(done)).
  pose proof (Z.mod_pos_bound (Z.of_N c) 10 ltac:(done)). lia.
Qed.

Lemma ndigits_pos c : 1 <= ndigits c.
Proof.
  unfold ndigits. generalize (N.size_nat c) as f. intros f; revert c.
  induction f as [|f IH]; intros c; simpl; [lia|]. case_match; [lia|].
  specialize (IH (c / 10)%N). lia.
Qed.

Lemma ndigits_bounds c :
  (0 < c)%N -> 10 ^ (ndigits c - 1) <= Z.of_N c < 10 ^ ndigits c.
Proof.
  intros H. apply ndigits_fuel_bounds; [|done].
  destruct c as [|p]; [lia|]. unfold N.size_nat. clear.
  induction p as [p IH|p IH|]; simpl Pos.size_nat.
  - rewrite Nat2N.inj_succ, N.pow_succ_r'. lia.
  - rewrite Nat2N.inj_succ, N.pow_succ_r'. lia.
  - simpl. lia.
Qed.

Lemma ndigits_bounds_Q c e :
  (0 < c)%N -> (p10 (ndigits c - 1 + e) <= cval c e < p10 (ndigits c + e))%Q.
Proof.
  intros Hc. pose proof (ndigits_pos c). destruct (ndigits_bounds c Hc) as [Hlo Hhi].
  rewrite Zle_Qle, <-p10_nonneg_Z in Hlo by lia.
  rewrite Zlt_Qlt, <-p10_nonneg_Z in Hhi by lia.
  unfold cval. rewrite !p10_add. pose proof (p10_pos e).
  split; [apply Qmult_le_compat_r; lra|apply Qmult_lt_compat_r; lra].
Qed.

(** ** Rounding to nearest, ties to even *)

(** [z] times [u] is a multiple of the unit [u] nearest to [x]; a tie goes to
    the even multiple. *)
Definition nearest (u x : Q) (z : Z) : Prop :=
  (inject_Z z * u - (1 # 2) * u < x /\ x < inject_Z z * u + (1 # 2) * u)%Q \/
  ((x == inject_Z z * u - (1 # 2) * u \/ x == inject_Z z * u + (1 # 2) * u)%Q /\
   Z.even z = true).

#[export] Instance nearest_proper u : Proper (Qeq ==> eq ==> iff) (nearest u).
Proof.
  intros x y E z ? <-. unfold nearest. split; intros [[? ?]|[[?|?] ?]].
  1, 4: left; split; lra.
  all: right; split; [|done]; first [left; lra|right; lra].
Qed.

Lemma nearest_exact u z : (0 < u)%Q -> nearest u (inject_Z z * u) z.
Proof. intros Hu. left. split; lra. Qed.

Lemma nearest_bounds u x z :
  (0 < u)%Q -> nearest u x z ->
  (inject_Z z * u - (1 # 2) * u <= x <= inject_Z z * u + (1 # 2) * u)%Q.
Proof. intros Hu [[H1 H2]|[[H|H] _]]; split; lra. Qed.

(** Rounding at one unit is monotone. *)
Lemma nearest_mono u x y a b :
  (0 < u)%Q -> (x <= y)%Q -> nearest u x a -> nearest u y b -> a <= b.
Proof.
  intros Hu Hxy Ha Hb. destruct (Z.le_gt_cases a b) as [|Hba]; [done|exfalso].
  assert (inject_Z (b + 1) <= inject_Z a)%Q as Hab by (rewrite <-Zle_Qle; lia).
  rewrite inject_Z_plus in Hab.
  assert ((inject_Z b + 1) * u <= inject_Z a * u)%Q as Hu'.
  { apply Qmult_le_compat_r; [exact Hab|lra]. }
  pose proof (nearest_bounds _ _ _ Hu Ha) as [Ha1 Ha2].
  pose proof (nearest_bounds _ _ _ Hu Hb) as [Hb1 Hb2].
  assert (inject_Z a * u == (inject_Z b + 1) * u)%Q as Heq by lra.
  assert (inject_Z a == inject_Z (b + 1))%Q as Eab.
  { rewrite inject_Z_plus. apply (Qmult_inj_r _ _ u); [lra|exact Heq]. }
  assert (a = b + 1) as -> by by apply inject_Z_injective.
  destruct Ha as [[? ?]|[_ Ea]]; [lra|]. destruct Hb as [[? ?]|[_ Eb]]; [lra|].
  rewrite Z.add_1_r, Z.even_succ, <-Z.negb_even, Eb in Ea. done.
Qed.

Lemma nearest_unique u x y a b :
  (0 < u)%Q -> (x == y)%Q -> nearest u x a -> nearest u y b -> a = b.
Proof.
  intros Hu E Ha Hb. apply Z.le_antisymm; eapply nearest_mono; eauto; rewrite E; apply Qle_refl.
Qed.

(** [y] is the non-negative [x] rounded to [p] significant digits. *)
Definition rounds_to (p : Z) (x y : Q) : Prop :=
  (x == 0 /\ y == 0)%Q \/
  exists g z, (p10 (p - 1 + g) <= x)%Q /\ (x < p10 (p + g))%Q /\
              nearest (p10 g) x z /\ (y == inject_Z z * p10 g)%Q.

#[export] Instance rounds_to_proper p : Proper (Qeq ==> Qeq ==> iff) (rounds_to p).
Proof.
  assert (forall x x' y y', (x == x')%Q -> (y == y')%Q -> rounds_to p x y -> rounds_to p x' y')
    as Himp.
  { intros x x' y y' Ex Ey [[H1 H2]|(g&z&H1&H2&H3&H4)]; [left; split; lra|right].
    exists g, z. split_and!; [lra|lra| |lra].
    destruct H3 as [[? ?]|[[?|?] ?]]; [left; split; lra|right; split; [left; lra|done]|].
    right; split; [right; lra|done]. }
  intros x x' Ex y y' Ey. split; apply Himp; (done || by apply Qeq_sym).
Qed.

Section rounding.
Context (p : Z) (Hp : 1 <= p).

(** The rounded value stays within its decade. *)
Lemma rounds_to_decade x y g z :
  (p10 (p - 1 + g) <= x)%Q -> (x < p10 (p + g))%Q -> nearest (p10 g) x z ->
  (y == inject_Z z * p10 g)%Q -> (p10 (p - 1 + g) <= y <= p10 (p + g))%Q.
Proof.
  intros Hlo Hhi Hn ->. pose proof (p10_pos g) as Hg.
  assert (forall k, 0 <= k -> (p10 (k + g) == inject_Z (10 ^ k) * p10 g)%Q) as E.
  { intros k Hk. by rewrite p10_add, p10_nonneg_Z by done. }
  rewrite (E (p - 1)), (E p) in * by lia. split.
  - apply Qmult_le_compat_r; [|lra]. rewrite <-Zle_Qle.
    eapply nearest_mono; [exact Hg|exact Hlo|by apply nearest_exact|done].
  - apply Qmult_le_compat_r; [|lra]. rewrite <-Zle_Qle.
    eapply nearest_mono; [exact Hg|apply Qlt_le_weak, Hhi|done|by apply nearest_exact].
Qed.

Lemma rounds_to_nonneg x y : rounds_to p x y -> (0 <= y)%Q.
Proof.
  intros [[_ E]|(g&z&H1&H2&H3&H4)]; [lra|].
  pose proof (rounds_to_decade x y g z H1 H2 H3 H4). pose proof (p10_pos (p - 1 + g)). lra.
Qed.

Lemma rounds_to_pos x y : rounds_to p x y -> (0 < x)%Q -> (0 < y)%Q.
Proof.
  intros [[E _]|(g&z&H1&H2&H3&H4)]; [lra|].
  pose proof (rounds_to_decade x y g z H1 H2 H3 H4). pose proof (p10_pos (p - 1 + g)). lra.
Qed.

(** Rounding is monotone. *)
Lemma rounds_to_mono x x' y y' :
  rounds_to p x y -> rounds_to p x' y' -> (x <= x')%Q -> (y <= y')%Q.
Proof.
  intros Hx Hx' Hle. pose proof (rounds_to_nonneg _ _ Hx') as Hy'.
  destruct Hx as [[_ E]|(g&z&H1&H2&H3&H4)]; [lra|].
  destruct Hx' as [[E _]|(g'&z'&H1'&H2'&H3'&H4')].
  { pose proof (p10_pos (p - 1 + g)). lra. }
  pose proof (rounds_to_decade x y g z H1 H2 H3 H4) as [_ Hhi].
  pose proof (rounds_to_decade x' y' g' z' H1' H2' H3' H4') as [Hlo _].
  assert (p - 1 + g < p + g') as Hg by (apply p10_lt_inv; lra).
  destruct (Z.eq_dec g g') as [<-|Hne].
  - rewrite H4, H4'. pose proof (p10_pos g).
    apply Qmult_le_compat_r; [|lra]. rewrite <-Zle_Qle.
    exact (nearest_mono _ _ _ _ _ (p10_pos g) Hle H3 H3').
  - assert (p10 (p + g) <= p10 (p - 1 + g'))%Q by (apply p10_le; lia). lra.
Qed.

Lemma rounds_to_unique x y y' : rounds_to p x y -> rounds_to p x y' -> (y == y')%Q.
Proof.
  intros H H'. apply Qle_antisym; eapply rounds_to_mono; eauto; apply Qle_refl.
Qed.

(** A value with at most [p] significant digits rounds to itself. *)
Lemma rounds_to_exact c e :
  ndigits c <= p -> rounds_to p (cval c e) (cval c e).
Proof.
  intros Hc. destruct (N.eq_dec c 0%N) as [->|Hnz].
  { left. unfold cval. simpl Z.of_N. split; ring. }
  destruct (ndigits_bounds_Q c e) as [Hlo Hhi]; [lia|].
  set (g := e + ndigits c - p). right.
  exists g, (Z.of_N c * 10 ^ (e - g)).
  assert (cval c e == inject_Z (Z.of_N c * 10 ^ (e - g)) * p10 g)%Q as E.
  { unfold cval. rewrite inject_Z_mult, <-p10_nonneg_Z, <-Qmult_assoc, <-p10_add by lia.
    by replace (e - g + g) with e by lia. }
  replace (p - 1 + g) with (ndigits c - 1 + e) by lia.
  replace (p + g) with (ndigits c + e) by lia.
  split_and!; try done. rewrite E. apply nearest_exact, p10_pos.
Qed.
End rounding.

(** ** The operations round correctly *)

Lemma even_of_N q : Z.even (Z.of_N q) = N.even q.
Proof. by destruct q as [|[]]. Qed.

Lemma div_half_even_nearest n d u :
  (0 < d)%N -> (0 < u)%Q ->
  nearest u (inject_Z (Z.of_N n) / inject_Z (Z.of_N d) * u) (Z.of_N (div_half_even n d)).
Proof.
  intros Hd Hu. unfold div_half_even.
  pose proof (N.div_mod n d ltac:(lia)) as En. pose proof (N.mod_lt n d ltac:(lia)) as Hr.
  set (q := (n / d)%N) in *. set (r := (n mod d)%N) in *.
  set (D := inject_Z (Z.of_N d)). set (R := inject_Z (Z.of_N r)).
  assert (0 < D)%Q as HD by (unfold D; change 0%Q with (inject_Z 0); rewrite <-Zlt_Qlt; lia).
  set (f := (R / D)%Q).
  assert (R == f * D)%Q as Ef by (unfold f; field; lra).
  assert (inject_Z (Z.of_N n) / D == inject_Z (Z.of_N q) + f)%Q as E.
  { assert (inject_Z (Z.of_N n) == D * inject_Z (Z.of_N q) + R)%Q as ->.
    { unfold D, R. rewrite <-inject_Z_mult, <-inject_Z_plus. f_equiv. lia. }
    unfold f. field. lra. }
  assert (0 <= R)%Q as HR0 by (unfold R; change 0%Q with (inject_Z 0); rewrite <-Zle_Qle; lia).
  assert (0 <= f)%Q as Hf0 by (unfold f; apply Qle_shift_div_l; lra).
  destruct (N.compare_spec (2 * r) d) as [C|C|C].
  - assert (2 * R == D)%Q as C'.
    { unfold R, D. change 2%Q with (inject_Z 2). rewrite <-inject_Z_mult. f_equiv. lia. }
    assert (f == 1 # 2)%Q as Ef2 by (apply (Qmult_inj_r _ _ D); lra).
    destruct (N.even q) eqn:Eq; right.
    + split; [right|by rewrite even_of_N]. rewrite E, Ef2. ring.
    + split; [left|].
      * rewrite E, Ef2, N2Z.inj_add, inject_Z_plus. change (inject_Z (Z.of_N 1)) with 1%Q. ring.
      * rewrite N2Z.inj_add, Z.even_add, even_of_N, Eq. done.
  - assert (2 * R < D)%Q as C'.
    { unfold R, D. change 2%Q with (inject_Z 2). rewrite <-inject_Z_mult, <-Zlt_Qlt. lia. }
    assert (f < 1 # 2)%Q by nra.
    left. rewrite E. split; nra.
  - assert (D < 2 * R)%Q as C'.
    { unfold R, D. change 2%Q with (inject_Z 2). rewrite <-inject_Z_mult, <-Zlt_Qlt. lia. }
    assert (R < D)%Q by (unfold R, D; rewrite <-Zlt_Qlt; lia).
    assert (1 # 2 < f)%Q by nra. assert (f < 1)%Q by nra.
    assert ((1 # 2) * u < f * u)%Q by by apply Qmult_lt_compat_r.
    assert (f * u < 1 * u)%Q by by apply Qmult_lt_compat_r.
    left. rewrite E, N2Z.inj_add, inject_Z_plus. change (inject_Z (Z.of_N 1)) with 1%Q.
    split; lra.
Qed.

Lemma cval_carry p q g :
  0 <= p - 1 -> (q =? p10N p)%N = true -> (cval (p10N (p - 1)) (g + 1) == cval q g)%Q.
Proof.
  intros Hp ->%N.eqb_eq. unfold cval. rewrite !p10N_Q, <-!p10_add by lia.
  by replace (p - 1 + (g + 1)) with (p + g) by lia.
Qed.

Lemma fix_coef_rounds p c e :
  1 <= p -> let '(c', e') := fix_coef p c e in rounds_to p (cval c e) (cval c' e').
Proof.
  intros Hp. unfold fix_coef. destruct (Z.leb_spec (ndigits c - p) 0) as [Hk|Hk].
  { apply rounds_to_exact; lia. }
  set (k := ndigits c - p) in *.
  assert (0 < c)%N as Hc.
  { destruct c; [|done]. exfalso. unfold k in Hk. change (ndigits 0) with 1 in Hk. lia. }
  assert (rounds_to p (cval c e) (cval (div_half_even c (p10N k)) (e + k))) as Hr.
  { destruct (ndigits_bounds_Q c e Hc) as [Hlo Hhi]. right.
    exists (e + k), (Z.of_N (div_half_even c (p10N k))).
    replace (p - 1 + (e + k)) with (ndigits c - 1 + e) by lia.
    replace (p + (e + k)) with (ndigits c + e) by lia.
    split_and!; try done.
    assert (cval c e == inject_Z (Z.of_N c) / inject_Z (Z.of_N (p10N k)) * p10 (e + k))%Q as ->.
    { unfold cval. rewrite p10N_Q, (p10_add e k) by lia. field.
      pose proof (p10_pos k). lra. }
    apply div_half_even_nearest; [apply p10N_pos|apply p10_pos]. }
  destruct (_ =? _)%N eqn:Ec; [|done].
  rewrite (cval_carry p (div_half_even c (p10N k)) (e + k)); [done|lia|done].
Qed.

(** The magnitude of [n / d * 10^e]. *)
Definition qval (n d : N) (e : Z) : Q :=
  (inject_Z (Z.of_N n) / inject_Z (Z.of_N d) * p10 e)%Q.

Lemma inject_N_pos d : (0 < d)%N -> (0 < inject_Z (Z.of_N d))%Q.
Proof. intros. change 0%Q with (inject_Z 0). rewrite <-Zlt_Qlt. lia. Qed.

Lemma scale_div_val n d k e n' d' :
  (0 < n)%N -> (0 < d)%N -> scale_div n d k = (n', d') ->
  (0 < n')%N /\ (0 < d')%N /\ (qval n' d' (e + k) == qval n d e)%Q.
Proof.
  intros Hn Hd. unfold scale_div. pose proof (p10N_pos k). pose proof (p10N_pos (- k)).
  pose proof (inject_N_pos d Hd). pose proof (p10_pos k). pose proof (p10_pos (-k)).
  destruct (Z.leb_spec k 0); intros [= <- <-]; (split; [lia|split; [lia|]]); unfold qval.
  - rewrite N2Z.inj_mul, inject_Z_mult, p10N_Q, (p10_add e k) by lia.
    assert (p10 (- k) * p10 k == 1)%Q as E.
    { rewrite <-p10_add. by replace (- k + k) with 0 by lia. }
    transitivity (inject_Z (Z.of_N n) / inject_Z (Z.of_N d) * p10 e * (p10 (- k) * p10 k))%Q.
    + field. lra.
    + rewrite E. ring.
  - rewrite N2Z.inj_mul, inject_Z_mult, p10N_Q, (p10_add e k) by lia. field. split; lra.
Qed.

(** Size of a quotient of coefficients. *)
Lemma qval_bounds n d e :
  (0 < n)%N -> (0 < d)%N ->
  (p10 (ndigits n - ndigits d - 1 + e) < qval n d e < p10 (ndigits n - ndigits d + 1 + e))%Q.
Proof.
  intros Hn Hd. destruct (ndigits_bounds_Q n e Hn) as [Hn1 Hn2].
  destruct (ndigits_bounds_Q d 0 Hd) as [Hd1 Hd2].
  pose proof (inject_N_pos d Hd) as HD. unfold qval, cval in *.
  rewrite p10_0, Qmult_1_r in Hd1, Hd2. rewrite Z.add_0_r in Hd1, Hd2.
  set (N := inject_Z (Z.of_N n)) in *. set (D := inject_Z (Z.of_N d)) in *.
  assert (N / D * p10 e == N * p10 e / D)%Q as -> by (field; lra).
  split.
  - apply Qlt_shift_div_l; [done|].
    replace (ndigits n - 1 + e) with (ndigits n - ndigits d - 1 + e + ndigits d) in Hn1 by lia.
    rewrite (p10_add _ (ndigits d)) in Hn1.
    eapply Qlt_le_trans; [|exact Hn1]. apply Qmult_lt_l; [apply p10_pos|done].
  - apply Qlt_shift_div_r; [done|].
    replace (ndigits n + e) with (ndigits n - ndigits d + 1 + e + (ndigits d - 1)) in Hn2 by lia.
    rewrite (p10_add _ (ndigits d - 1)) in Hn2.
    eapply Qlt_le_trans; [exact Hn2|]. apply Qmult_le_l; [apply p10_pos|done].
Qed.

(** Comparing an integer quotient with a power of ten compares the value. *)
Lemma div_lt_p10N n d p g :
  (0 < d)%N -> 0 <= p ->
  (n / d <? p10N p)%N = true <-> (qval n d g < p10 (p + g))%Q.
Proof.
  intros Hd Hp. pose proof (inject_N_pos d Hd) as HD. pose proof (p10_pos g) as Hg.
  rewrite N.ltb_lt. unfold qval. rewrite p10_add, <-(p10N_Q p) by done.
  transitivity (n < d * p10N p)%N.
  { split; intros H; [|by apply N.Div0.div_lt_upper_bound].
    pose proof (N.div_mod n d ltac:(lia)). pose proof (N.mod_lt n d ltac:(lia)). nia. }
  transitivity (inject_Z (Z.of_N n) < inject_Z (Z.of_N (p10N p)) * inject_Z (Z.of_N d))%Q.
  { rewrite <-inject_Z_mult, <-Zlt_Qlt. lia. }
  split; intros H.
  - apply Qmult_lt_compat_r; [done|]. by apply Qlt_shift_div_r.
  - apply Qmult_lt_r in H; [|done]. apply (Qmult_lt_compat_r _ _ _ HD) in H.
    eapply Qle_lt_trans; [|exact H]. apply Qle_lteq. right. field. lra.
Qed.

Lemma strip_zeros_val fuel ideal c e :
  let '(c', e') := strip_zeros fuel ideal c e in (cval c' e' == cval c e)%Q.
Proof.
  revert c e; induction fuel as [|f IH]; intros c e; simpl; [reflexivity|].
  destruct ((e <? ideal) && (c mod 10 =? 0)%N) eqn:E; [|reflexivity].
  apply andb_true_iff in E as [_ E%N.eqb_eq]. specialize (IH (c / 10)%N (e + 1)).
  destruct (strip_zeros f ideal (c / 10) (e + 1)) as [c' e']. rewrite IH. unfold cval.
  rewrite p10_succ. pose proof (N.div_mod c 10 ltac:(done)) as Hc. rewrite E, N.add_0_r in Hc.
  rewrite Hc at 2. rewrite N2Z.inj_mul, inject_Z_mult. change (inject_Z (Z.of_N 10)) with 10%Q.
  ring.
Qed.

Lemma div_coef_rounds p n d e :
  1 <= p -> (0 < n)%N -> (0 < d)%N ->
  let '(c', e') := div_coef p n d e in rounds_to p (qval n d e) (cval c' e').
Proof.
  intros Hp Hn Hd. unfold div_coef.
  set (k0 := ndigits n - ndigits d - p).
  destruct (scale_div n d k0) as [n0 d0] eqn:E0.
  destruct (scale_div_val n d k0 e n0 d0 Hn Hd E0) as (Hn0&Hd0&V0).
  set (k := if (n0 / d0 <? p10N p)%N then k0 else k0 + 1).
  assert (p10 (p - 1 + (e + k)) <= qval n d e < p10 (p + (e + k)))%Q as [Hlo Hhi].
  { destruct (qval_bounds n d e Hn Hd) as [Hlo Hhi].
    pose proof (div_lt_p10N n0 d0 p (e + k0) Hd0 ltac:(lia)) as Hk. rewrite V0 in Hk.
    unfold k. destruct (n0 / d0 <? p10N p)%N.
    - replace (p - 1 + (e + k0)) with (ndigits n - ndigits d - 1 + e) by lia.
      split; [lra|by apply Hk].
    - replace (p - 1 + (e + (k0 + 1))) with (p + (e + k0)) by lia.
      replace (p + (e + (k0 + 1))) with (ndigits n - ndigits d + 1 + e) by lia.
      split; [|lra]. apply Qnot_lt_le. by intros ?%Hk. }
  clearbody k. destruct (scale_div n d k) as [n1 d1] eqn:E1.
  destruct (scale_div_val n d k e n1 d1 Hn Hd E1) as (Hn1&Hd1&V1).
  pose proof (p10_pos (e + k)) as Hu.
  assert (forall q, nearest (p10 (e + k)) (qval n d e) (Z.of_N q) ->
                    rounds_to p (qval n d e) (cval q (e + k))) as Hr.
  { intros q Hq. right. exists (e + k), (Z.of_N q). done. }
  destruct (n1 mod d1 =? 0)%N eqn:Em.
  - pose proof (strip_zeros_val (Z.to_nat (e - (e + k))) e (n1 / d1)%N (e + k)) as Hs.
    destruct (strip_zeros _ _ _ _) as [c' e']. cbv beta iota in Hs |- *. rewrite Hs.
    apply Hr.
    rewrite <-V1. unfold qval. apply N.eqb_eq in Em.
    pose proof (N.div_mod n1 d1 ltac:(lia)) as Hdm. rewrite Em, N.add_0_r in Hdm.
    pose proof (inject_N_pos d1 Hd1).
    assert (inject_Z (Z.of_N n1) / inject_Z (Z.of_N d1) == inject_Z (Z.of_N (n1 / d1)))%Q
      as ->; [|by apply nearest_exact].
    rewrite Hdm at 1. rewrite N2Z.inj_mul, inject_Z_mult. field. lra.
  - assert (rounds_to p (qval n d e) (cval (div_half_even n1 d1) (e + k))) as Hq.
    { apply Hr. rewrite <-V1. by apply div_half_even_nearest. }
    cbv beta iota zeta. destruct (div_half_even n1 d1 =? p10N p)%N eqn:Ec; [|exact Hq].
    rewrite (cval_carry p (div_half_even n1 d1) (e + k)); [done|lia|done].
Qed.

(** ** Signed values *)

(** [y] is [x] rounded to [p] significant digits. *)
Definition rounded (p : Z) (x y : Q) : Prop := rounds_to p x y \/ rounds_to p (- x) (- y).

(** A value the precision [p] represents. *)
Definition fits (p : Z) (x : Q) : Prop := rounded p x x.

#[export] Instance rounded_proper p : Proper (Qeq ==> Qeq ==> iff) (rounded p).
Proof. intros x x' Ex y y' Ey. unfold rounded. by rewrite Ex, Ey. Qed.

#[export] Instance fits_proper p : Proper (Qeq ==> iff) (fits p).
Proof. intros x x' Ex. unfold fits. by rewrite Ex. Qed.

Lemma ndigits_1 : ndigits 1 = 1.
Proof. reflexivity. Qed.

Section signed.
Context (p : Z) (Hp : 1 <= p).

Lemma rounds_to_src_nonneg x y : rounds_to p x y -> (0 <= x)%Q.
Proof.
  intros [[E _]|(g&z&H1&_)]; [lra|]. pose proof (p10_pos (p - 1 + g)). lra.
Qed.

Lemma rounds_to_idem x y : rounds_to p x y -> rounds_to p y y.
Proof.
  intros [[_ E]|(g&z&H1&H2&H3&H4)]; [by left|].
  destruct (rounds_to_decade p Hp x y g z H1 H2 H3 H4) as [Hlo Hhi].
  destruct (Qlt_le_dec y (p10 (p + g))) as [Hlt|Hge].
  - right. exists g, z. split_and!; [done|done| |done].
    rewrite H4. apply nearest_exact, p10_pos.
  - assert (y == cval 1 (p + g))%Q as ->.
    { unfold cval. change (inject_Z (Z.of_N 1)) with 1%Q. lra. }
    apply rounds_to_exact. rewrite ndigits_1. lia.
Qed.

Lemma rounded_fits x y : rounded p x y -> fits p y.
Proof. intros [H|H]; [left|right]; by eapply rounds_to_idem. Qed.

Lemma rounded_mono x x' y y' :
  rounded p x y -> rounded p x' y' -> (x <= x')%Q -> (y <= y')%Q.
Proof.
  intros [H|H] [H'|H'] Hle.
  - by eapply rounds_to_mono.
  - pose proof (rounds_to_src_nonneg _ _ H). pose proof (rounds_to_src_nonneg _ _ H').
    assert (- x' <= x)%Q as Hx by lra. assert (x <= - x')%Q as Hx' by lra.
    pose proof (rounds_to_nonneg p Hp _ _ H). pose proof (rounds_to_nonneg p Hp _ _ H').
    assert (x' == x)%Q as E by lra. rewrite E in H'. assert (x == 0)%Q as E0 by lra.
    rewrite E0 in *. destruct H as [[_ ?]|(g&?&Hg&_)];
      [|pose proof (p10_pos (p - 1 + g)); lra].
    destruct H' as [[_ ?]|(g&?&Hg&_)]; [lra|pose proof (p10_pos (p - 1 + g)); lra].
  - pose proof (rounds_to_nonneg p Hp _ _ H). pose proof (rounds_to_nonneg p Hp _ _ H'). lra.
  - assert (- y' <= - y)%Q; [|lra]. eapply rounds_to_mono; [done|exact H'|exact H|lra].
Qed.

Lemma rounded_unique x y y' : rounded p x y -> rounded p x y' -> (y == y')%Q.
Proof.
  intros H H'. apply Qle_antisym; eapply rounded_mono; eauto; apply Qle_refl.
Qed.

Lemma rounded_exact x y : rounded p x y -> fits p x -> (y == x)%Q.
Proof. apply rounded_unique. Qed.

Lemma fits_dec d : ndigits (dcoef d) <= p -> fits p (dval d).
Proof.
  intros H. unfold fits, rounded. rewrite dval_cval. destruct (dneg d); [right|left].
  - rewrite Qopp_involutive. by apply rounds_to_exact.
  - by apply rounds_to_exact.
Qed.

Lemma fits_0 : fits p 0.
Proof. left; left; split; reflexivity. Qed.

Lemma fits_1 : fits p 1.
Proof.
  assert (1 == dval done_)%Q as -> by reflexivity. apply fits_dec. simpl.
  rewrite ndigits_1. lia.
Qed.

Lemma rounded_nonneg x y : rounded p x y -> (0 <= x)%Q -> (0 <= y)%Q.
Proof. intros H Hx. eapply rounded_mono; [apply fits_0|exact H|exact Hx]. Qed.

Lemma rounded_nonpos x y : rounded p x y -> (x <= 0)%Q -> (y <= 0)%Q.
Proof. intros H Hx. eapply rounded_mono; [exact H|apply fits_0|exact Hx]. Qed.

Lemma rounded_pos x y : rounded p x y -> (0 < x)%Q -> (0 < y)%Q.
Proof.
  intros [H|H] Hx; [by eapply rounds_to_pos|].
  apply rounds_to_src_nonneg in H. lra.
Qed.

Lemma fix_dec_rounded d : rounded p (dval d) (dval (fix_dec p d)).
Proof.
  unfold fix_dec. pose proof (fix_coef_rounds p (dcoef d) (dexp d) Hp) as H.
  destruct (fix_coef p (dcoef d) (dexp d)) as [c e]. cbv beta iota in H.
  rewrite !dval_cval. simpl dneg; simpl dcoef; simpl dexp.
  destruct (dneg d); [right|left]; rewrite ?Qopp_involutive; done.
Qed.

Lemma dval_abs_N neg s e :
  (s <> 0 -> neg = (s <? 0)) -> (dval (mk_dec neg (Z.abs_N s) e) == inject_Z s * p10 e)%Q.
Proof.
  intros Hneg. unfold dval, dZ; simpl. rewrite N2Z.inj_abs_N.
  destruct (Z.eq_dec s 0) as [->|Hs]; [by destruct neg|].
  rewrite Hneg by done. destruct (Z.ltb_spec s 0).
  - by replace (- Z.abs s) with s by lia.
  - by replace (Z.abs s) with s by lia.
Qed.

(** Addition rounds the exact sum. *)
Lemma dadd_rounded a b : rounded p (dval a + dval b) (dval (dadd p a b)).
Proof.
  unfold dadd. destruct (align a b) as [x y] eqn:E. apply align_vals in E as [Ea Eb].
  set (e := Z.min _ _) in *. set (neg := if _ =? _ then _ else _).
  assert (dval a + dval b == dval (mk_dec neg (Z.abs_N (x + y)) e))%Q as ->.
  { rewrite dval_abs_N, Ea, Eb, inject_Z_plus; [ring|].
    intros Hs. unfold neg. destruct (Z.eqb_spec (x + y) 0); done. }
  apply fix_dec_rounded.
Qed.

Lemma dsub_rounded a b : rounded p (dval a - dval b) (dval (dsub p a b)).
Proof. unfold dsub, Qminus. rewrite <-dval_neg_of. apply dadd_rounded. Qed.

(** Multiplication rounds the exact product. *)
Lemma dmul_rounded a b : rounded p (dval a * dval b) (dval (dmul p a b)).
Proof.
  unfold dmul. set (d := mk_dec _ _ _).
  assert (dval a * dval b == dval d)%Q as ->; [|apply fix_dec_rounded].
  rewrite !dval_cval. unfold cval, d.
  destruct (dneg a), (dneg b); cbn [dneg dcoef dexp xorb];
    rewrite N2Z.inj_mul, inject_Z_mult, p10_add; ring.
Qed.

Lemma dval_0 d : dcoef d = 0%N -> (dval d == 0)%Q.
Proof.
  intros E. unfold dval, dZ. rewrite E. destruct (dneg d); change (inject_Z _) with 0%Q; ring.
Qed.

Lemma dcoef_nonzero d : ~ (dval d == 0)%Q -> (0 < dcoef d)%N.
Proof. intros H. apply N.neq_0_lt_0. by intros ?%dval_0. Qed.

Lemma ddiv_zero a b : (dval b == 0)%Q -> exists e, ddiv p a b = Raise e.
Proof.
  intros H. unfold ddiv. destruct (N.eqb_spec (dcoef b) 0) as [|Hne]; [by eexists|exfalso].
  rewrite dval_cval in H. unfold cval in H. pose proof (p10_pos (dexp b)).
  pose proof (inject_N_pos (dcoef b) ltac:(lia)). destruct (dneg b); nra.
Qed.

(** Division rounds the exact quotient. *)
Lemma ddiv_rounded a b :
  ~ (dval b == 0)%Q ->
  exists q, ddiv p a b = Ok q /\ rounded p (dval a / dval b) (dval q).
Proof.
  intros Hb. pose proof (dcoef_nonzero b Hb) as Hbc. unfold ddiv.
  destruct (N.eqb_spec (dcoef b) 0) as [|_]; [lia|].
  destruct (N.eqb_spec (dcoef a) 0) as [Ea|Ea].
  { eexists; split; [done|]. rewrite (dval_0 a Ea), (dval_0 (mk_dec _ 0 _) eq_refl).
    unfold Qdiv. rewrite Qmult_0_l. apply fits_0. }
  pose proof (div_coef_rounds p (dcoef a) (dcoef b) (dexp a - dexp b) Hp
                ltac:(lia) Hbc) as H.
  destruct (div_coef _ _ _ _) as [c e]. cbv beta iota in H. eexists; split; [done|].
  pose proof (inject_N_pos _ Hbc). pose proof (p10_pos (dexp b)) as Hpb.
  assert (qval (dcoef a) (dcoef b) (dexp a - dexp b) ==
          cval (dcoef a) (dexp a) / cval (dcoef b) (dexp b))%Q as E.
  { unfold qval, cval. replace (dexp a) with (dexp a - dexp b + dexp b) at 2 by lia.
    rewrite p10_add. field. split; lra. }
  rewrite E in H. rewrite !dval_cval. simpl dneg; simpl dcoef; simpl dexp.
  assert (~ (cval (dcoef b) (dexp b) == 0)%Q).
  { unfold cval. intros Ez. nra. }
  assert (forall x y, rounds_to p x y -> rounded p x y) as HL by (intros; by left).
  assert (forall x y, rounds_to p x y -> rounded p (- x) (- y)) as HR.
  { intros; right. by rewrite !Qopp_involutive. }
  destruct (dneg a), (dneg b); simpl.
  - apply HL. eapply rounds_to_proper; [| |exact H]; [field; done|reflexivity].
  - eapply rounded_proper; [| |exact (HR _ _ H)]; [field; done|reflexivity].
  - eapply rounded_proper; [| |exact (HR _ _ H)]; [field; done|reflexivity].
  - by apply HL.
Qed.

Lemma ddiv_ok a b q :
  ddiv p a b = Ok q -> ~ (dval b == 0)%Q /\ rounded p (dval a / dval b) (dval q).
Proof.
  intros H. assert (~ (dval b == 0)%Q) as Hb.
  { intros Hb. destruct (ddiv_zero a b Hb) as [e E]. by rewrite E in H. }
  split; [done|]. destruct (ddiv_rounded a b Hb) as (q'&Hq'&Hr). congruence.
Qed.
End signed.

(** A value with few digits also fits a larger precision. *)
Lemma rounds_to_fits_le p p' x : 1 <= p -> p <= p' -> rounds_to p x x -> rounds_to p' x x.
Proof.
  intros Hp Hle [H|(g&z&H1&H2&H3&H4)]; [by left|right].
  exists (g - (p' - p)), (z * 10 ^ (p' - p)).
  assert (x == inject_Z (z * 10 ^ (p' - p)) * p10 (g - (p' - p)))%Q as E.
  { rewrite H4, inject_Z_mult, <-p10_nonneg_Z, <-Qmult_assoc, <-p10_add by lia.
    by replace (p' - p + (g - (p' - p))) with g by lia. }
  replace (p' - 1 + (g - (p' - p))) with (p - 1 + g) by lia.
  replace (p' + (g - (p' - p))) with (p + g) by lia.
  split_and!; [done|done| |done]. rewrite E. apply nearest_exact, p10_pos.
Qed.

Lemma fits_le p p' x : 1 <= p -> p <= p' -> fits p x -> fits p' x.
Proof. intros Hp Hle [H|H]; [left|right]; by eapply rounds_to_fits_le. Qed.

(** An integer multiple of [10^e] below [10^(p+e)] fits. *)
Lemma fits_grid p z e : 1 <= p -> Z.abs z < 10 ^ p -> fits p (inject_Z z * p10 e).
Proof.
  intros Hp Hz. pose proof (fits_dec p (mk_dec (z <? 0) (Z.abs_N z) e)) as H.
  rewrite dval_abs_N in H by done. apply H. simpl dcoef.
  destruct (N.eq_dec (Z.abs_N z) 0%N) as [->|Hnz]; [by rewrite (eq_refl : ndigits 0 = 1)|].
  destruct (ndigits_bounds (Z.abs_N z) ltac:(lia)) as [Hlo _].
  rewrite N2Z.inj_abs_N in Hlo.
  assert (10 ^ (ndigits (Z.abs_N z) - 1) < 10 ^ p) as Hlt by lia.
  apply Z.pow_lt_mono_r_iff in Hlt; lia.
Qed.

Section sums.
Context (p : Z) (Hp : 1 <= p).

Definition dsum_from (a : dec) (l : list dec) : dec := fold_left (dadd p) l a.

Lemma dsum_fits l : fits p (dval (dsum p l)).
Proof.
  unfold dsum. assert (fits p (dval dzero)) as H by apply (fits_0 p).
  revert H. generalize dzero. induction l as [|x l IH]; intros a Ha; simpl; [done|].
  apply IH. eapply rounded_fits; [done|]. by apply dadd_rounded.
Qed.

(** A sum of non-negative terms dominates its partial sums. *)
Lemma dsum_from_ge a l :
  fits p (dval a) -> Forall (fun x => 0 <= dval x)%Q l -> (dval a <= dval (dsum_from a l))%Q.
Proof.
  intros Ha Hl; revert a Ha. induction Hl as [|x l Hx Hl IH]; intros a Ha; simpl.
  { apply Qle_refl. }
  pose proof (dadd_rounded p Hp a x) as Hr.
  apply Qle_trans with (dval (dadd p a x)).
  - eapply rounded_mono; [done|exact Ha|exact Hr|lra].
  - apply IH. by eapply rounded_fits.
Qed.

Lemma dsum_nonneg l : Forall (fun x => 0 <= dval x)%Q l -> (0 <= dval (dsum p l))%Q.
Proof. intros Hl. apply (dsum_from_ge dzero l); [apply fits_0|done]. Qed.

Lemma dsum_from_pos a l :
  (0 <= dval a)%Q -> Forall (fun x => 0 < dval x)%Q l -> l <> [] ->
  (0 < dval (dsum_from a l))%Q.
Proof.
  intros Ha Hl. destruct Hl as [|x l Hx Hl]; [done|intros _]. simpl.
  pose proof (dadd_rounded p Hp a x) as Hr.
  apply Qlt_le_trans with (dval (dadd p a x)).
  - eapply rounded_pos; [done|exact Hr|lra].
  - apply dsum_from_ge; [by eapply rounded_fits|].
    eapply Forall_impl; [exact Hl|]. intros; by apply Qlt_le_weak.
Qed.

Lemma dsum_pos l :
  Forall (fun x => 0 < dval x)%Q l -> l <> [] -> (0 < dval (dsum p l))%Q.
Proof. intros. apply (dsum_from_pos dzero); [apply Qle_refl|done|done]. Qed.

(** Dropping non-negative terms from a sum never makes it larger, rounding
    included. *)
Lemma dsum_from_sublist a b l k :
  (dval a <= dval b)%Q -> fits p (dval b) ->
  Forall (fun x => 0 <= dval x)%Q k -> l `sublist_of` k ->
  (dval (dsum_from a l) <= dval (dsum_from b k))%Q.
Proof.
  intros Hab Hb Hk Hs; revert a b Hab Hb. induction Hs as [|x l k Hs IH|x l k Hs IH];
    intros a b Hab Hb; simpl.
  - done.
  - apply Forall_cons in Hk as [Hx Hk]. apply IH; [done| |].
    + eapply rounded_mono; [done|by apply dadd_rounded|by apply dadd_rounded|lra].
    + eapply rounded_fits; [done|]. by apply dadd_rounded.
  - apply Forall_cons in Hk as [Hx Hk]. apply IH; [done| |].
    + apply Qle_trans with (dval b); [done|].
      eapply rounded_mono; [done|exact Hb|by apply dadd_rounded|lra].
    + eapply rounded_fits; [done|]. by apply dadd_rounded.
Qed.

Lemma dsum_sublist l k :
  Forall (fun x => 0 <= dval x)%Q k -> l `sublist_of` k ->
  (dval (dsum p l) <= dval (dsum p k))%Q.
Proof. apply dsum_from_sublist; [apply Qle_refl|apply fits_0]. Qed.

(** The exact sum. *)
Definition qsum (l : list dec) : Q := fold_right (fun x s => dval x + s)%Q 0%Q l.

Lemma qsum_cons x l : qsum (x :: l) = (dval x + qsum l)%Q.
Proof. done. Qed.

(** A sum whose partial sums all lie on one grid of [p] digits is exact. *)
Lemma dsum_from_exact e (zs : list Z) a l :
  Forall2 (fun x z => dval x == inject_Z z * p10 e)%Q l zs ->
  Forall (fun z => 0 <= z) zs ->
  forall za, (dval a == inject_Z za * p10 e)%Q -> 0 <= za ->
  za + foldr Z.add 0 zs < 10 ^ p ->
  (dval (dsum_from a l) == dval a + qsum l)%Q.
Proof.
  intros Hl; revert a. induction Hl as [|x z l zs Hx Hl IH]; intros a Hz za Ha Hza Hlt; simpl in *.
  { ring. }
  apply Forall_cons in Hz as [Hz Hzs].
  assert (0 <= foldr Z.add 0 zs) as Hsum.
  { clear -Hzs. induction Hzs; simpl; lia. }
  assert (dval (dadd p a x) == dval a + dval x)%Q as E.
  { eapply rounded_exact; [done|by apply dadd_rounded|].
    assert (dval a + dval x == inject_Z (za + z) * p10 e)%Q as ->.
    { rewrite Ha, Hx, inject_Z_plus. ring. }
    apply fits_grid; lia. }
  rewrite (IH (dadd p a x) Hzs (za + z)); [rewrite E; ring| |lia|lia].
  rewrite E, Ha, Hx, inject_Z_plus. ring.
Qed.
End sums.
