(* ===== verification/PyFloat.v ===== *)
(** Python's [float] (an IEEE 754 double) where the code uses it: rounded arithmetic on
    finite values, [/] of integers, [float(Decimal)], [round(x, n)], [timestamp()] and
    [statistics.median].  A double is the integer number of units of 2^-1074 it is worth,
    so comparison is that of [Z] and each operation rounds an exact quotient once.
    Overflow, the infinities and the sign of zero do not occur in the code modelled. *)
From S2P Require Import Prelude PyTime PyDecimal.
#[local] Open Scope Z_scope.

Definition double : Type := Z.
Definition double_unit : Z := 2 ^ 1074.

(** [n/d] to the nearest integer, ties to even, for [0 <= n] and [0 < d]. *)
Definition div_half_even (n d : Z) : Z :=
  let q := n / d in
  let r := n mod d in
  match 2 * r ?= d with
  | Lt => q
  | Gt => q + 1
  | Eq => if Z.even q then q else q + 1
  end.

(** The double nearest to [n/d] units: 53 significant bits, or whole units below that. *)
Definition nearest (n d : Z) : double :=
  let a := Z.abs n in
  let s := Z.max 0 (Z.log2 (a / d) - 52) in
  Z.sgn n * (div_half_even a (d * 2 ^ s) * 2 ^ s).

(** [p / q] of integers, and the literal [p/q]. *)
Definition of_ratio (p q : Z) : double := nearest (p * double_unit) q.
Definition of_int (n : Z) : double := of_ratio n 1.
Definition fadd (x y : double) : double := nearest (x + y) 1.
Definition fmul (x y : double) : double := nearest (x * y) double_unit.
Definition fdiv (x y : double) : double := nearest (Z.sgn y * x * double_unit) (Z.abs y).

(** [float(d)] *)
Definition of_dec (d : dec) : double :=
  let c := (if dneg d then -1 else 1) * Z.of_N (dcoef d) in
  if 0 <=? dexp d then of_ratio (c * 10 ^ dexp d) 1 else of_ratio c (10 ^ (- dexp d)).

(** [round(x, n)] *)
Definition fround (x : double) (n : Z) : double :=
  of_ratio (Z.sgn x * div_half_even (Z.abs x * 10 ^ n) double_unit) (10 ^ n).

(** [d.timestamp()] of an aware [d]. *)
Definition timestamp (d : datetime) : double := of_ratio (instant d - epoch_us) 1000000.

(** [statistics.median] of a non-empty list. *)
Definition median (l : list double) : double :=
  let s := sorted_by id l in
  let n := length s in
  if Nat.odd n then nth (n / 2) s 0
  else fdiv (fadd (nth (n / 2 - 1) s 0) (nth (n / 2) s 0)) (of_int 2).

Example fadd_rounds :
  fadd (of_ratio 1 10) (of_ratio 2 10) = of_ratio 30000000000000004 100000000000000000.
Proof. vm_compute. reflexivity. Qed.
Example fadd_inexact : bool_decide (fadd (of_ratio 1 10) (of_ratio 2 10) = of_ratio 3 10) = false.
Proof. vm_compute. reflexivity. Qed.
(** 2.675 is stored as a little less. *)
Example fround_ex : fround (of_ratio 2675 1000) 2 = of_ratio 267 100.
Proof. vm_compute. reflexivity. Qed.
Example median_even : median [of_int 4; of_int 1; of_int 2; of_int 9] = of_int 3.
Proof. vm_compute. reflexivity. Qed.

(** ** Rounding is monotone *)

Lemma div_half_even_spec n d q :
  0 < d -> q = div_half_even n d -> 2 * n - d <= 2 * d * q <= 2 * n + d.
Proof.
  intros Hd ->. unfold div_half_even.
  pose proof (Z.div_mod n d ltac:(lia)) as E. pose proof (Z.mod_pos_bound n d Hd) as Hr.
  destruct (Z.compare_spec (2 * (n mod d)) d); [destruct (Z.even (n / d))| |]; nia.
Qed.

Lemma div_half_even_mono n m d : 0 < d -> n <= m -> div_half_even n d <= div_half_even m d.
Proof.
  intros Hd Hle. pose proof (Z.div_le_mono n m d Hd Hle) as Hq.
  destruct (Z.eq_dec (n / d) (m / d)) as [E|Hne].
  - assert (n mod d <= m mod d) as Hr
      by (pose proof (Z.div_mod n d ltac:(lia)); pose proof (Z.div_mod m d ltac:(lia)); nia).
    unfold div_half_even. rewrite E.
    destruct (Z.compare_spec (2 * (n mod d)) d), (Z.compare_spec (2 * (m mod d)) d);
      try destruct (Z.even (m / d)); lia.
  - unfold div_half_even.
    destruct (2 * (n mod d) ?= d), (2 * (m mod d) ?= d); try destruct (Z.even (n / d));
      try destruct (Z.even (m / d)); lia.
Qed.
