(* ===== verification/PyFloatFacts.v ===== *)
(** Rounding of doubles: it keeps what a double can hold, is monotone, and stays on its side of
    every representable value. *)
From S2P Require Import Prelude PyTime PyDecimal PyFloat.
#[local] Open Scope Z_scope.

Lemma div_half_even_le n d k : 0 < d -> n <= k * d -> div_half_even n d <= k.
Proof. intros Hd Hle. pose proof (div_half_even_spec n d _ Hd eq_refl). nia. Qed.

Lemma div_half_even_ge n d k : 0 < d -> k * d <= n -> k <= div_half_even n d.
Proof. intros Hd Hle. pose proof (div_half_even_spec n d _ Hd eq_refl). nia. Qed.

Lemma div_half_even_scale n d k : 0 < d -> 0 < k -> div_half_even (n * k) (d * k) = div_half_even n d.
Proof.
  intros Hd Hk. unfold div_half_even. rewrite Z.div_mul_cancel_r, Z.mul_mod_distr_r by lia.
  replace (2 * (n mod d * k)) with (2 * (n mod d) * k) by lia.
  destruct (Z.compare_spec (2 * (n mod d)) d), (Z.compare_spec (2 * (n mod d) * k) (d * k)); done || nia.
Qed.

Lemma div_half_even_mono2 n d n' d' :
  0 < d -> 0 < d' -> n * d' <= n' * d -> div_half_even n d <= div_half_even n' d'.
Proof.
  intros Hd Hd' Hle. rewrite <-(div_half_even_scale n d d'), <-(div_half_even_scale n' d' d) by lia.
  rewrite (Z.mul_comm d' d). apply div_half_even_mono; nia.
Qed.

(** ** Representable values *)

(** A value of at most 53 significant bits. *)
Definition representable (y : double) : Prop := exists j g, 0 <= g /\ 0 <= j <= 2 ^ 53 /\ y = j * 2 ^ g.

(** The exponent [nearest] rounds at. *)
Definition grain (n d : Z) : Z := Z.max 0 (Z.log2 (n / d) - 52).

Lemma grain_nonneg n d : 0 <= grain n d.
Proof. unfold grain. lia. Qed.

Lemma nearest_pos n d : 0 <= n -> 0 < d -> nearest n d = div_half_even n (d * 2 ^ grain n d) * 2 ^ grain n d.
Proof.
  intros Hn Hd. unfold nearest. rewrite Z.abs_eq by done. fold (grain n d).
  destruct (Z.eq_dec n 0) as [->|Hne]; [|rewrite Z.sgn_pos by lia; lia].
  assert (0 < d * 2 ^ grain 0 d) as HD by (apply Z.mul_pos_pos; [done|]; apply Z.pow_pos_nonneg; [lia|apply grain_nonneg]).
  pose proof (div_half_even_le 0 _ 0 HD ltac:(lia)). pose proof (div_half_even_ge 0 _ 0 HD ltac:(lia)).
  assert (div_half_even 0 (d * 2 ^ grain 0 d) = 0) as -> by lia. lia.
Qed.

(** Above the smallest grain a value has all of its 53 bits. *)
Lemma grain_bounds n d :
  0 <= n -> 0 < d -> n < 2 ^ 53 * 2 ^ grain n d * d /\ (0 < grain n d -> 2 ^ 52 * 2 ^ grain n d * d <= n).
Proof.
  intros Hn Hd. pose proof (Z.div_mod n d ltac:(lia)) as E. pose proof (Z.mod_pos_bound n d Hd) as Hr.
  assert (0 <= n / d) as Hq by by apply Z.div_pos.
  rewrite <-!Z.pow_add_r by (try lia; apply grain_nonneg). unfold grain in *.
  destruct (Z.eq_dec (n / d) 0) as [E0|Hne].
  { rewrite E0. cbn. split; [nia|lia]. }
  pose proof (Z.log2_spec (n / d) ltac:(lia)) as [Hlo Hhi]. split.
  - assert (2 ^ Z.succ (Z.log2 (n / d)) <= 2 ^ (53 + Z.max 0 (Z.log2 (n / d) - 52))) by (apply Z.pow_le_mono_r; lia). nia.
  - intros Hg. assert (2 ^ (52 + Z.max 0 (Z.log2 (n / d) - 52)) = 2 ^ Z.log2 (n / d)) as -> by (f_equal; lia). nia.
Qed.

Section side.
Context (n d : Z) (Hn : 0 <= n) (Hd : 0 < d).

Lemma nearest_below y : representable y -> n <= y * d -> nearest n d <= y.
Proof.
  intros (j&g&Hg&Hj&->) Hle. rewrite nearest_pos by done. pose proof (grain_nonneg n d) as Hs.
  destruct (grain_bounds n d Hn Hd) as [_ Hfull]. set (s := grain n d) in *.
  assert (0 < 2 ^ s) by (apply Z.pow_pos_nonneg; lia).
  destruct (Z.le_gt_cases s g) as [Hsg|Hgs].
  - replace (2 ^ g) with (2 ^ (g - s) * 2 ^ s) in * by (rewrite <-Z.pow_add_r by lia; f_equal; lia).
    rewrite Z.mul_assoc in *. apply Z.mul_le_mono_nonneg_r; [lia|]. apply div_half_even_le; nia.
  - specialize (Hfull ltac:(lia)).
    assert (j * 2 ^ g <= 2 ^ 52 * 2 ^ s) as Hy.
    { transitivity (2 ^ 53 * 2 ^ g); [apply Z.mul_le_mono_nonneg_r; [apply Z.pow_nonneg; lia|lia]|].
      rewrite <-!Z.pow_add_r by lia. apply Z.pow_le_mono_r; lia. }
    assert (j * 2 ^ g = 2 ^ 52 * 2 ^ s) as -> by nia.
    apply Z.mul_le_mono_nonneg_r; [lia|]. apply div_half_even_le; nia.
Qed.

Lemma nearest_above y : representable y -> y * d <= n -> y <= nearest n d.
Proof.
  intros (j&g&Hg&Hj&->) Hle. rewrite nearest_pos by done. pose proof (grain_nonneg n d) as Hs.
  destruct (grain_bounds n d Hn Hd) as [_ Hfull]. set (s := grain n d) in *.
  assert (0 < 2 ^ s) by (apply Z.pow_pos_nonneg; lia).
  destruct (Z.le_gt_cases s g) as [Hsg|Hgs].
  - replace (2 ^ g) with (2 ^ (g - s) * 2 ^ s) in * by (rewrite <-Z.pow_add_r by lia; f_equal; lia).
    rewrite Z.mul_assoc in *. apply Z.mul_le_mono_nonneg_r; [lia|]. apply div_half_even_ge; nia.
  - specialize (Hfull ltac:(lia)). transitivity (2 ^ 53 * 2 ^ g); [apply Z.mul_le_mono_nonneg_r; [apply Z.pow_nonneg; lia|lia]|].
    transitivity (2 ^ 52 * 2 ^ s); [rewrite <-!Z.pow_add_r by lia; apply Z.pow_le_mono_r; lia|].
    apply Z.mul_le_mono_nonneg_r; [lia|]. apply div_half_even_ge; nia.
Qed.

Lemma nearest_representable : representable (nearest n d).
Proof.
  rewrite nearest_pos by done. exists (div_half_even n (d * 2 ^ grain n d)), (grain n d).
  pose proof (grain_nonneg n d) as Hs. assert (0 < 2 ^ grain n d) by (apply Z.pow_pos_nonneg; lia).
  split; [done|]. split; [|done]. destruct (grain_bounds n d Hn Hd) as [Hlt _].
  split; [apply div_half_even_ge; nia|apply div_half_even_le; nia].
Qed.

Lemma nearest_nonneg : 0 <= nearest n d.
Proof. destruct nearest_representable as (j&g&Hg&Hj&->). apply Z.mul_nonneg_nonneg; [lia|apply Z.pow_nonneg; lia]. Qed.
End side.

Lemma nearest_id y : representable y -> nearest y 1 = y.
Proof.
  intros Hy. assert (0 <= y) as Hpos
    by (destruct Hy as (j&g&Hg&Hj&->); apply Z.mul_nonneg_nonneg; [lia|apply Z.pow_nonneg; lia]).
  apply Z.le_antisymm; [apply nearest_below|apply nearest_above]; try done; lia.
Qed.

Lemma grain_full_representable g : 0 <= g -> representable (2 ^ 52 * 2 ^ g).
Proof. intros Hg. exists (2 ^ 52), g. done. Qed.

Lemma nearest_mono_ratio n d n' d' :
  0 <= n -> 0 < d -> 0 < d' -> n * d' <= n' * d -> nearest n d <= nearest n' d'.
Proof.
  intros Hn Hd Hd' Hle. assert (0 <= n') as Hn' by nia.
  assert (n / d <= n' / d') as Hq.
  { apply Z.div_le_lower_bound; [done|]. apply (Z.mul_le_mono_pos_l _ _ d); [done|].
    pose proof (Z.mul_div_le n d Hd). transitivity (n * d'); [|lia].
    replace (d * (d' * (n / d))) with (d * (n / d) * d') by lia. apply Z.mul_le_mono_nonneg_r; lia. }
  assert (grain n d <= grain n' d') as Hg.
  { unfold grain. pose proof (Z.log2_le_mono _ _ Hq). lia. }
  pose proof (grain_nonneg n d) as Hs. destruct (Z.eq_dec (grain n d) (grain n' d')) as [E|Hne].
  - rewrite !nearest_pos by done. rewrite E. assert (0 < 2 ^ grain n' d') by (apply Z.pow_pos_nonneg; lia).
    apply Z.mul_le_mono_nonneg_r; [lia|]. apply div_half_even_mono2; nia.
  - destruct (grain_bounds n d Hn Hd) as [Hlt _]. destruct (grain_bounds n' d' Hn' Hd') as [_ Hfull].
    specialize (Hfull ltac:(lia)).
    assert (2 ^ 53 * 2 ^ grain n d <= 2 ^ 52 * 2 ^ grain n' d') as Hpow
      by (rewrite <-!Z.pow_add_r by lia; apply Z.pow_le_mono_r; lia).
    transitivity (2 ^ 52 * 2 ^ grain n' d').
    + apply nearest_below; [done..|apply grain_full_representable; lia|nia].
    + apply nearest_above; [done..|apply grain_full_representable; lia|done].
Qed.

(** ** Operations *)

Definition one : double := of_int 1.

Lemma one_unit : one = double_unit.
Proof. vm_compute. reflexivity. Qed.

Lemma double_unit_pos : 0 < double_unit.
Proof. by vm_compute. Qed.

Lemma fmul_mono x y x' y' : 0 <= x <= x' -> 0 <= y <= y' -> fmul x y <= fmul x' y'.
Proof.
  intros Hx Hy. pose proof double_unit_pos. unfold fmul. apply nearest_mono_ratio; [nia|lia|lia|].
  apply Z.mul_le_mono_nonneg_r; [lia|]. apply Z.mul_le_mono_nonneg; lia.
Qed.

Lemma fadd_mono x y x' y' : 0 <= x + y -> x + y <= x' + y' -> fadd x y <= fadd x' y'.
Proof. intros H0 Hle. unfold fadd. apply nearest_mono_ratio; lia. Qed.

(** A factor of at most one does not enlarge. *)
Lemma fmul_shrinks x y : representable x -> 0 <= y <= one -> fmul x y <= x.
Proof.
  intros Hx Hy. assert (0 <= x) by (destruct Hx as (j&g&Hg&Hj&->); apply Z.mul_nonneg_nonneg; [lia|apply Z.pow_nonneg; lia]).
  pose proof double_unit_pos. rewrite one_unit in Hy. unfold fmul.
  apply nearest_below; [nia|lia|done|]. apply Z.mul_le_mono_nonneg_l; lia.
Qed.

Lemma fmul_nonneg x y : 0 <= x -> 0 <= y -> 0 <= fmul x y.
Proof. intros. unfold fmul. apply nearest_nonneg; [nia|apply double_unit_pos]. Qed.

Lemma of_ratio_mono p q p' q' : 0 <= p -> 0 < q -> 0 < q' -> p * q' <= p' * q -> of_ratio p q <= of_ratio p' q'.
Proof.
  intros. pose proof double_unit_pos. unfold of_ratio. apply nearest_mono_ratio; [nia|done|done|].
  replace (p * double_unit * q') with (p * q' * double_unit) by lia.
  replace (p' * double_unit * q) with (p' * q * double_unit) by lia. apply Z.mul_le_mono_nonneg_r; lia.
Qed.

Lemma of_ratio_representable p q : 0 <= p -> 0 < q -> representable (of_ratio p q).
Proof. intros. pose proof double_unit_pos. unfold of_ratio. apply nearest_representable; nia. Qed.
