(* ===== verification/Json.v ===== *)
(** [json.dumps] with [sort_keys=True] and [separators=(",", ":")] on the values
    the code builds: canonical text for fingerprints, and the sorted copy
    [json.loads(json.dumps(value))] makes.  Also [str] of [int] and [Decimal]. *)
From stdpp Require Import pretty.
From S2P Require Import Prelude PyDecimal Sha256.
#[local] Open Scope Z_scope.

(** JSON values.  A finite float is held as its [repr], which is how it is printed
    and which identifies it. *)
Inductive json :=
  | JNull
  | JBool (b : bool)
  | JNum (n : Z)
  | JFloat (repr : string)
  | JStr (s : string)
  | JList (l : list json)
  | JObj (fields : list (string * json)).

Definition JOpt (s : option string) : json := match s with Some s => JStr s | None => JNull end.

(** [str(n)] of an [int]. *)
Definition str_Z (n : Z) : string := pretty n.

(** ** Strings *)

Definition chr_N (n : N) : ascii := ascii_of_N n.
Definition hex4 (n : N) : list ascii :=
  [hex_digit (N.land (N.shiftr n 12) 15); hex_digit (N.land (N.shiftr n 8) 15);
   hex_digit (N.land (N.shiftr n 4) 15); hex_digit (N.land n 15)].
(** A backslash, [u] and four hexadecimal digits. *)
Definition unicode_escape (n : N) : list ascii := chr_N 92 :: chr_N 117 :: hex4 n.

(** The escapes both modes share: quote, backslash and control characters. *)
Definition escape_ascii (b : N) : list ascii :=
  if (b =? 34)%N then [chr_N 92; chr_N 34]
  else if (b =? 92)%N then [chr_N 92; chr_N 92]
  else if (b =? 10)%N then [chr_N 92; chr_N 110]
  else if (b =? 13)%N then [chr_N 92; chr_N 114]
  else if (b =? 9)%N then [chr_N 92; chr_N 116]
  else if (b =? 8)%N then [chr_N 92; chr_N 98]
  else if (b =? 12)%N then [chr_N 92; chr_N 102]
  else if (b <? 32)%N then unicode_escape b
  else [chr_N b].

(** A code point beyond ASCII: one escape, or a surrogate pair. *)
Definition escape_code_point (c : N) : list ascii :=
  if (c <? 65536)%N then unicode_escape c
  else
    let v := (c - 65536)%N in
    unicode_escape (N.lor 55296 (N.land (N.shiftr v 10) 1023)) ++
    unicode_escape (N.lor 56320 (N.land v 1023)).

(** [ensure_ascii=False] keeps the UTF-8 bytes; [ensure_ascii=True] escapes every
    code point beyond ASCII (DEL, 127, is printed as it is). *)
Fixpoint escape_bytes (ensure_ascii : bool) (bytes : list N) : list ascii :=
  match bytes with
  | [] => []
  | b :: rest =>
      if (b <? 128)%N then escape_ascii b ++ escape_bytes ensure_ascii rest
      else if negb ensure_ascii then chr_N b :: escape_bytes ensure_ascii rest
      else
        match rest with
        | c :: rest2 =>
            if (b <? 224)%N then
              escape_code_point (N.lor (N.shiftl (N.land b 31) 6) (N.land c 63)) ++
              escape_bytes ensure_ascii rest2
            else
              match rest2 with
              | d :: rest3 =>
                  if (b <? 240)%N then
                    escape_code_point
                      (N.lor (N.shiftl (N.land b 15) 12)
                         (N.lor (N.shiftl (N.land c 63) 6) (N.land d 63))) ++
                    escape_bytes ensure_ascii rest3
                  else
                    match rest3 with
                    | e :: rest4 =>
                        escape_code_point
                          (N.lor (N.shiftl (N.land b 7) 18)
                             (N.lor (N.shiftl (N.land c 63) 12)
                                (N.lor (N.shiftl (N.land d 63) 6) (N.land e 63)))) ++
                        escape_bytes ensure_ascii rest4
                    | [] => []
                    end
              | [] => []
              end
        | [] => []
        end
  end.

Definition quote (ensure_ascii : bool) (s : string) : string :=
  let q := String.String (chr_N 34) EmptyString in
  q +:+ String.string_of_list_ascii (escape_bytes ensure_ascii (bytes_of s)) +:+ q.

(** ** Values *)

(** Keys sorted at every level; [json.loads] of the text gives this order. *)
Fixpoint normalize (j : json) : json :=
  match j with
  | JList l => JList (List.map normalize l)
  | JObj fields =>
      JObj (sorted_by fst (List.map (fun kv => (kv.1, normalize kv.2)) fields))
  | _ => j
  end.

Fixpoint print_json (ensure_ascii : bool) (j : json) : string :=
  match j with
  | JNull => "null"
  | JBool true => "true"
  | JBool false => "false"
  | JNum n => str_Z n
  | JFloat repr => repr
  | JStr s => quote ensure_ascii s
  | JList l => "[" +:+ String.concat "," (List.map (print_json ensure_ascii) l) +:+ "]"
  | JObj fields =>
      "{" +:+
      String.concat ","
        (List.map (fun kv => quote ensure_ascii kv.1 +:+ ":" +:+ print_json ensure_ascii kv.2)
           fields) +:+ "}"
  end.

(** [json.dumps(value, ensure_ascii=..., sort_keys=True, separators=(",", ":"))] *)
Definition dumps (ensure_ascii : bool) (j : json) : string :=
  print_json ensure_ascii (normalize j).

Example dumps_ex :
  dumps false (JObj [("b", JList [JNum (-7); JNull]); ("a", JObj [("y", JBool true); ("x", JStr "1")])])
  = "{" +:+ quote false "a" +:+ ":{" +:+ quote false "x" +:+ ":" +:+ quote false "1" +:+ "," +:+
    quote false "y" +:+ ":true}," +:+ quote false "b" +:+ ":[-7,null]}".
Proof. vm_compute. reflexivity. Qed.

Lemma json_ind' (P : json -> Prop) :
  P JNull -> (forall b, P (JBool b)) -> (forall n, P (JNum n)) -> (forall r, P (JFloat r)) ->
  (forall s, P (JStr s)) ->
  (forall l, Forall P l -> P (JList l)) ->
  (forall fields, Forall (fun kv => P kv.2) fields -> P (JObj fields)) ->
  forall j, P j.
Proof.
  intros H1 H2 H3 H5 H4 HL HO. fix IH 1. intros [|b|n|r|s|l|fields].
  - exact H1.
  - apply H2.
  - apply H3.
  - apply H5.
  - apply H4.
  - apply HL. induction l; constructor; [apply IH|assumption].
  - apply HO. induction fields; constructor; [apply IH|assumption].
Defined.

Fixpoint json_eqb (x y : json) : bool :=
  match x, y with
  | JNull, JNull => true
  | JBool a, JBool b => Bool.eqb a b
  | JNum a, JNum b => a =? b
  | JFloat a, JFloat b => bool_decide (a = b)
  | JStr a, JStr b => bool_decide (a = b)
  | JList l, JList k =>
      (fix go l k := match l, k with
                     | [], [] => true
                     | a :: l, b :: k => json_eqb a b && go l k
                     | _, _ => false
                     end) l k
  | JObj l, JObj k =>
      (fix go l k := match l, k with
                     | [], [] => true
                     | (i, a) :: l, (j, b) :: k => bool_decide (i = j) && json_eqb a b && go l k
                     | _, _ => false
                     end) l k
  | _, _ => false
  end.

Lemma json_eqb_eq x y : json_eqb x y = true <-> x = y.
Proof.
  revert y. induction x as [|b|n|r|s|l IH|fields IH] using json_ind';
    intros [|b'|n'|r'|s'|l'|fields']; simpl; try done;
    [|by rewrite Z.eqb_eq; naive_solver|by rewrite bool_decide_eq_true; naive_solver
     |by rewrite bool_decide_eq_true; naive_solver| |].
  - rewrite eqb_true_iff. naive_solver.
  - revert l'. induction IH as [|x l Hx _ IHl]; intros [|y l']; try done.
    rewrite andb_true_iff, Hx, IHl. naive_solver.
  - revert fields'. induction IH as [|[i x] l Hx _ IHl]; intros [|[j y] l']; try done.
    simpl in Hx. rewrite !andb_true_iff, Hx, IHl, bool_decide_eq_true. naive_solver.
Qed.

#[export] Instance json_eq_dec : EqDecision json.
Proof.
  intros x y. destruct (json_eqb x y) eqn:E.
  - left. by apply json_eqb_eq.
  - right. intros H%json_eqb_eq. congruence.
Defined.

(** ** [str(Decimal)] *)

Definition str_dec (d : dec) : string :=
  let digits := str_Z (Z.of_N (dcoef d)) in
  let n := Z.of_nat (String.length digits) in
  let leftdigits := dexp d + n in
  let dotplace := if (dexp d <=? 0) && (-6 <? leftdigits) then leftdigits else 1 in
  let zeros k := String.string_of_list_ascii (replicate (Z.to_nat k) (chr_N 48)) in
  let '(intpart, fracpart) :=
    if dotplace <=? 0 then ("0", "." +:+ zeros (- dotplace) +:+ digits)
    else if n <=? dotplace then (digits +:+ zeros (dotplace - n), "")
    else (String.substring 0 (Z.to_nat dotplace) digits,
          "." +:+ String.substring (Z.to_nat dotplace) (Z.to_nat (n - dotplace)) digits) in
  let e := leftdigits - dotplace in
  let exponent := if e =? 0 then "" else "E" +:+ (if 0 <? e then "+" else "") +:+ str_Z e in
  (if dneg d then "-" else "") +:+ intpart +:+ fracpart +:+ exponent.

Example str_dec_plain : str_dec (mk_dec false 12345 (-2)) = "123.45".
Proof. vm_compute. reflexivity. Qed.
Example str_dec_small : str_dec (mk_dec true 5 (-3)) = "-0.005".
Proof. vm_compute. reflexivity. Qed.
Example str_dec_sci : str_dec (mk_dec false 15 3) = "1.5E+4".
Proof. vm_compute. reflexivity. Qed.
Example str_dec_tiny : str_dec (mk_dec false 1 (-9)) = "1E-9".
Proof. vm_compute. reflexivity. Qed.

Definition JDec (d : option dec) : json := match d with Some d => JStr (str_dec d) | None => JNull end.
