(* ===== verification/DecimalText.v ===== *)
(** [Decimal(text)]: the numeric strings Python reads, and that it reads what [str] of a
    decimal printed. *)
From stdpp Require Import pretty.
From S2P Require Import Prelude PyTime PyTimeFacts PyDecimal Json.
#[local] Open Scope Z_scope.

(** ** Reading *)

(** The digits at the start. *)
Fixpoint span_digits (s : list ascii) : list ascii * list ascii :=
  match s with
  | a :: s' => match digit_val a with
               | Some _ => let '(d, r) := span_digits s' in (a :: d, r)
               | None => ([], s)
               end
  | [] => ([], [])
  end.

Definition digits_value (acc : Z) (s : list ascii) : Z :=
  fold_left (fun acc a => 10 * acc + default 0 (digit_val a)) s acc.

Definition lower (a : ascii) : ascii :=
  let n := N_of_ascii a in if ((65 <=? n) && (n <=? 90))%N then ascii_of_N (n + 32) else a.

(** An optional sign. *)
Definition read_sign (s : list ascii) : bool * list ascii :=
  match s with
  | a :: s' => if decide (a = c_dash) then (true, s') else if decide (a = c_plus) then (false, s') else (false, s)
  | [] => (false, [])
  end.

(** The exponent, or nothing: the text ends here. *)
Definition read_exponent (s : list ascii) : option Z :=
  match s with
  | [] => Some 0
  | a :: s' =>
      if decide (lower a = chr 101) then
        let '(neg, s') := read_sign s' in
        match span_digits s' with
        | ([], _) | (_, _ :: _) => None
        | (ds, []) => Some (if neg : bool then - digits_value 0 ds else digits_value 0 ds)
        end
      else None
  end.

(** The digits after the point; no point, no digits. *)
Definition read_decimals (s : list ascii) : list ascii * list ascii :=
  match read_char c_dot s with Some s' => span_digits s' | None => ([], s) end.

Definition read_finite (neg : bool) (s : list ascii) : option decimal :=
  let '(int_, s) := span_digits s in
  let '(frac, s) := read_decimals s in
  match int_ ++ frac with
  | [] => None
  | ds => e ← read_exponent s;
          Some (Finite (mk_dec neg (Z.to_N (digits_value 0 ds)) (e - Z.of_nat (length frac))))
  end.

(** A NaN may be signalling and may carry digits. *)
Definition read_nan (s : list ascii) : option decimal :=
  let s := match s with a :: s' => if decide (a = chr 115) then s' else s | [] => s end in
  if decide (take 3 s = [chr 110; chr 97; chr 110]) then
    match span_digits (drop 3 s) with (_, []) => Some NaN | _ => None end
  else None.

Definition inf_text : list ascii := [chr 105; chr 110; chr 102].
Definition infinity_text : list ascii := inf_text ++ [chr 105; chr 110; chr 105; chr 116; chr 121].

Definition read_decimal (s : list ascii) : option decimal :=
  let '(neg, s) := read_sign s in
  match read_finite neg s with
  | Some d => Some d
  | None =>
      let s := lower <$> s in
      if bool_decide (s = inf_text) || bool_decide (s = infinity_text) then Some (Infinity neg) else read_nan s
  end.

(** [Decimal(text)]; other texts raise [InvalidOperation].  Digits
    beyond ASCII are not modelled. *)
Definition parse_decimal (s : string) : res decimal :=
  match read_decimal (List.filter (fun a => negb (bool_decide (a = chr 95))) (String.list_ascii_of_string (strip s))) with
  | Some d => Ok d
  | None => Raise DecimalInvalidOperation
  end.

Example parse_plain : parse_decimal "-12.50" = Ok (Finite (mk_dec true 1250 (-2))).
Proof. vm_compute. reflexivity. Qed.
Example parse_sci : parse_decimal " 1.5e+4" = Ok (Finite (mk_dec false 15 3)).
Proof. vm_compute. reflexivity. Qed.
Example parse_infinity : parse_decimal "-Infinity" = Ok (Infinity true).
Proof. vm_compute. reflexivity. Qed.
Example parse_bad : parse_decimal "1.2.3" = Raise DecimalInvalidOperation.
Proof. vm_compute. reflexivity. Qed.
Example parse_dot : parse_decimal "." = Raise DecimalInvalidOperation.
Proof. vm_compute. reflexivity. Qed.

(** ** Digits *)

Abbreviation chars := String.list_ascii_of_string.

Lemma chars_app s t : chars (s +:+ t) = chars s ++ chars t.
Proof. induction s as [|a s IH]; [done|]. change (a :: chars (s +:+ t) = a :: chars s ++ chars t). by rewrite IH. Qed.

Lemma chars_length s : length (chars s) = String.length s.
Proof. induction s as [|a s IH]; [done|]. cbn. by rewrite IH. Qed.

Lemma chars_substring n m s : chars (String.substring n m s) = take m (drop n (chars s)).
Proof.
  revert n m; induction s as [|a s IH]; intros [|n] [|m]; cbn; rewrite ?IH, ?drop_0; done.
Qed.

Lemma prefix_app p s : String.prefix p (p +:+ s) = true.
Proof.
  induction p as [|a p IH]; [by destruct s|].
  change (String.prefix (String.String a p) (String.String a (p +:+ s)) = true). cbn [String.prefix].
  destruct (ascii_dec a a); [exact IH|done].
Qed.

Lemma prefix_split p s : String.prefix p s = true -> exists r, s = p +:+ r.
Proof.
  revert s; induction p as [|a p IH]; intros s Hp; [by exists s|]. destruct s as [|b s]; [done|].
  cbn [String.prefix] in Hp. destruct (ascii_dec a b) as [->|]; [|done]. destruct (IH s Hp) as [r ->]. by exists r.
Qed.

Lemma string_of_chars s : String.string_of_list_ascii (chars s) = s.
Proof. apply String.string_of_list_ascii_of_string. Qed.
Lemma chars_of_list l : chars (String.string_of_list_ascii l) = l.
Proof. apply String.list_ascii_of_string_of_list_ascii. Qed.

Lemma chars_inj s t : chars s = chars t -> s = t.
Proof. intros E. by rewrite <-(string_of_chars s), E, string_of_chars. Qed.

Lemma string_app_assoc (a b c : string) : a +:+ (b +:+ c) = (a +:+ b) +:+ c.
Proof. apply chars_inj. by rewrite !chars_app, app_assoc. Qed.

Lemma string_of_list_app (a b : list ascii) :
  String.string_of_list_ascii (a ++ b) = String.string_of_list_ascii a +:+ String.string_of_list_ascii b.
Proof. apply chars_inj. by rewrite chars_app, !chars_of_list. Qed.

Lemma remove_prefix_app p s : remove_prefix p (p +:+ s) = s.
Proof.
  unfold remove_prefix. rewrite prefix_app. apply chars_inj. rewrite chars_substring, chars_app, <-(chars_length p), drop_app_length.
  apply take_ge. rewrite <-!chars_length, chars_app, length_app. lia.
Qed.

Definition is_digit (a : ascii) : Prop := exists d, digit_val a = Some d.

Lemma digits_value_app acc s t : digits_value acc (s ++ t) = digits_value (digits_value acc s) t.
Proof. unfold digits_value. by rewrite fold_left_app. Qed.

Lemma pretty_char n : (n < 10)%N -> digit_val (pretty_N_char n) = Some (Z.of_N n).
Proof.
  intros Hn. assert (n ∈ N.of_nat <$> seq 0 10) as Hin.
  { apply list_elem_of_fmap. exists (N.to_nat n). split; [lia|]. apply elem_of_seq. lia. }
  cbn in Hin. repeat (apply elem_of_cons in Hin as [->|Hin]; [reflexivity|]). by apply not_elem_of_nil in Hin.
Qed.

(** The digits of a number. *)
Record digits_of (n : N) (ds : list ascii) : Prop := {
  do_digits : Forall is_digit ds;
  do_value : digits_value 0 ds = Z.of_N n;
  do_some : ds <> []
}.

Lemma pretty_go_digits n s :
  exists ds, chars (pretty_N_go n s) = ds ++ chars s /\ Forall is_digit ds /\ digits_value 0 ds = Z.of_N n /\
             ((0 < n)%N -> ds <> []).
Proof.
  revert s. induction (N.lt_wf_0 n) as [n _ IH]. intros s.
  destruct (N.eq_0_gt_0_cases n) as [->|Hn].
  { exists []. rewrite pretty_N_go_0. by split_and!; [|constructor| |]. }
  rewrite pretty_N_go_step by done.
  destruct (IH (n / 10)%N (N.div_lt n 10 Hn ltac:(lia)) (String.String (pretty_N_char (n mod 10)) s)) as (ds&E&Hd&Hv&_).
  assert (n mod 10 < 10)%N as Hr by (by apply N.mod_lt).
  exists (ds ++ [pretty_N_char (n mod 10)]). split_and!.
  - rewrite E. by rewrite <-app_assoc.
  - apply Forall_app. split; [done|]. constructor; [|done]. eexists. by apply pretty_char.
  - rewrite digits_value_app, Hv. unfold digits_value. cbn. rewrite pretty_char by done. cbn [default id].
    pose proof (N.div_mod n 10 ltac:(lia)). lia.
  - intros _. by destruct ds.
Qed.

Lemma str_digits n : digits_of n (chars (str_Z (Z.of_N n))).
Proof.
  destruct n as [|p]; [by split; [repeat constructor; by eexists| |]|].
  change (str_Z (Z.of_N (N.pos p))) with (pretty_N_go (N.pos p) "").
  destruct (pretty_go_digits (N.pos p) "") as (ds&->&Hd&Hv&Hne). cbn [chars]. rewrite app_nil_r.
  split; [done|done|by apply Hne].
Qed.

Lemma span_digits_app ds rest :
  Forall is_digit ds -> match rest with a :: _ => digit_val a = None | [] => True end ->
  span_digits (ds ++ rest) = (ds, rest).
Proof.
  intros Hd Hrest. induction Hd as [|a ds [d Ha] _ IH]; cbn.
  - destruct rest as [|a rest]; [done|]. cbn. by rewrite Hrest.
  - by rewrite Ha, IH.
Qed.

Lemma zeros_digits k : Forall is_digit (replicate k (chr_N 48)).
Proof. apply Forall_replicate. by eexists. Qed.

Lemma zeros_value k : digits_value 0 (replicate k (chr_N 48)) = 0.
Proof. unfold digits_value. induction k as [|k IH]; [done|]. exact IH. Qed.

(** ** Reading what [str] printed *)

Lemma str_sign s : read_sign (chars (str_Z s)) =
  (s <? 0, chars (str_Z (Z.abs s))).
Proof.
  destruct s as [|p|p].
  - reflexivity.
  - pose proof (str_digits (N.pos p)) as [Hd _ Hne]. change (Z.of_N (N.pos p)) with (Z.pos p) in *.
    change (Z.abs (Z.pos p)) with (Z.pos p). destruct (chars (str_Z (Z.pos p))) as [|a l]; [done|].
    apply Forall_cons in Hd as [[d Ha] _]. cbn.
    rewrite !decide_False; [done|intros ->; discriminate Ha|intros ->; discriminate Ha].
  - reflexivity.
Qed.

Lemma read_exponent_str e :
  read_exponent (chars (if e =? 0 then "" else "E" +:+ (if 0 <? e then "+" else "") +:+ str_Z e)) = Some e.
Proof.
  destruct (Z.eqb_spec e 0) as [->|Hne]; [done|]. rewrite !chars_app. cbn [chars app]. unfold read_exponent.
  rewrite decide_True by done.
  assert (read_sign (chars (if 0 <? e then "+" else "") ++ chars (str_Z e)) =
          (e <? 0, chars (str_Z (Z.of_N (Z.abs_N e))))) as ->.
  { rewrite N2Z.inj_abs_N. destruct (Z.ltb_spec 0 e).
    - cbn. rewrite Z.abs_eq by lia. by destruct (Z.ltb_spec e 0); [lia|].
    - apply str_sign. }
  destruct (str_digits (Z.abs_N e)) as [Hd Hv Hn]. rewrite <-(app_nil_r (chars _)), span_digits_app by done.
  destruct (chars (str_Z _)) as [|a l]; [done|]. rewrite Hv, N2Z.inj_abs_N.
  f_equal. destruct (Z.ltb_spec e 0); lia.
Qed.

(** An exponent starts with no digit and no point. *)
Lemma exponent_start e :
  match chars (if e =? 0 then "" else "E" +:+ (if 0 <? e then "+" else "") +:+ str_Z e) with
  | a :: _ => digit_val a = None /\ a <> c_dot
  | [] => True
  end.
Proof. by destruct (e =? 0). Qed.

Lemma read_finite_parts neg int_ frac e c exp :
  Forall is_digit int_ -> Forall is_digit frac -> int_ <> [] -> digits_value 0 (int_ ++ frac) = Z.of_N c ->
  e - Z.of_nat (length frac) = exp ->
  read_finite neg (int_ ++ (match frac with [] => [] | _ => c_dot :: frac end) ++
                   chars (if e =? 0 then "" else "E" +:+ (if 0 <? e then "+" else "") +:+ str_Z e)) =
  Some (Finite (mk_dec neg c exp)).
Proof.
  intros Hi Hf Hne Hv <-. pose proof (exponent_start e) as Hs. pose proof (read_exponent_str e) as He.
  set (t := chars _) in *. unfold read_finite. rewrite span_digits_app; [|done|].
  2: { destruct frac; [|done]. cbn. destruct t as [|a t]; [done|]. by destruct Hs. }
  assert (read_decimals ((match frac with [] => [] | _ => c_dot :: frac end) ++ t) = (frac, t)) as ->.
  { unfold read_decimals. destruct frac as [|f frac].
    - cbn. destruct t as [|a t]; [done|]. cbn. by rewrite decide_False by apply Hs.
    - cbn [app]. rewrite read_char_same. apply (span_digits_app (f :: frac)); [done|].
      destruct t as [|a t]; [done|]. by destruct Hs. }
  destruct (int_ ++ frac) as [|a l] eqn:E; [by apply app_eq_nil in E as [-> _]|]. rewrite Hv, He.
  cbn [mbind option_bind]. by rewrite N2Z.id.
Qed.

(** The text of a decimal: sign, digits with at most one point, exponent. *)
Lemma str_dec_parts d :
  exists int_ frac e,
    chars (str_dec d) = (if dneg d then [c_dash] else []) ++ int_ ++ (match frac with [] => [] | _ => c_dot :: frac end) ++
      chars (if e =? 0 then "" else "E" +:+ (if 0 <? e then "+" else "") +:+ str_Z e) /\
    Forall is_digit int_ /\ Forall is_digit frac /\ int_ <> [] /\
    digits_value 0 (int_ ++ frac) = Z.of_N (dcoef d) /\ e - Z.of_nat (length frac) = dexp d.
Proof.
  destruct d as [neg c ex]. unfold str_dec. cbn [dneg dcoef dexp].
  destruct (str_digits c) as [Hd Hv Hne]. set (digits := str_Z (Z.of_N c)) in *. clearbody digits.
  rewrite <-chars_length. set (n := Z.of_nat (length (chars digits))).
  assert (0 < n) as Hn by (unfold n; destruct (chars digits); [done|cbn; lia]).
  set (left := ex + n). set (dot := if (ex <=? 0) && (-6 <? left) then left else 1).
  assert (chars (if neg : bool then "-" else "") = (if neg then [c_dash] else [])) as Hneg by by destruct neg.
  destruct (Z.leb_spec dot 0) as [Hdot|Hdot].
  - assert (dot = left) as Edot by (unfold dot in *; destruct ((ex <=? 0) && (-6 <? left)); lia).
    exists (chars "0"), (replicate (Z.to_nat (- dot)) (chr_N 48) ++ chars digits), (left - dot).
    assert (replicate (Z.to_nat (- dot)) (chr_N 48) ++ chars digits <> []) as Hfrac
      by (destruct (chars digits); [done|by destruct (replicate _ _)]).
    split_and!.
    + rewrite !chars_app, Hneg, list_of_string_of. f_equal. cbn [chars app].
      destruct (_ ++ chars digits) as [|a l] eqn:E; [done|]. reflexivity.
    + repeat constructor. by eexists.
    + apply Forall_app. split; [apply zeros_digits|done].
    + done.
    + rewrite app_assoc, digits_value_app. rewrite digits_value_app, zeros_value. done.
    + rewrite length_app, length_replicate. unfold left in *. lia.
  - destruct (Z.leb_spec n dot) as [Hnd|Hnd].
    + assert (dot = n /\ left - dot = ex) as [Edot Ee].
      { unfold dot in *. destruct ((ex <=? 0) && (-6 <? left)) eqn:Ec; [|unfold left; lia].
        apply andb_true_iff in Ec as [Ec%Z.leb_le _]. unfold left in *. lia. }
      exists (chars digits), [], (left - dot). rewrite app_nil_r. split_and!; try done.
      * rewrite !chars_app, Hneg, list_of_string_of. f_equal.
        replace (Z.to_nat (dot - n)) with 0%nat by lia. cbn [replicate chars app]. by rewrite app_nil_r.
      * cbn. lia.
    + exists (take (Z.to_nat dot) (chars digits)), (drop (Z.to_nat dot) (chars digits)), (left - dot).
      assert (length (drop (Z.to_nat dot) (chars digits)) = Z.to_nat (n - dot)) as Hlen
        by (rewrite length_drop; unfold n; lia).
      split_and!.
      * rewrite !chars_app, Hneg, !chars_substring, drop_0. f_equal. f_equal. cbn [chars app].
        rewrite take_ge by lia. by destruct (drop _ _); [cbn in Hlen; lia|].
      * by apply Forall_take.
      * by apply Forall_drop.
      * destruct (chars digits) as [|a l]; [done|]. by replace (Z.to_nat dot) with (S (Z.to_nat (dot - 1))) by lia.
      * by rewrite take_drop.
      * rewrite Hlen. unfold left. lia.
Qed.

(** Visible ASCII characters. *)
Definition visible (a : ascii) : Prop := (32 < N_of_ascii a < 128)%N.

Lemma visible_not_blank bytes :
  Forall (fun b => 32 < b < 128)%N bytes -> skip_blank bytes = None.
Proof.
  destruct bytes as [|b bytes]; [done|]. intros [Hb _]%Forall_cons. unfold skip_blank.
  assert (is_ascii_space b = false) as ->.
  { unfold is_ascii_space. rewrite orb_false_iff, !andb_false_iff, !N.leb_gt. lia. }
  destruct b as [|p]; [done|].
  do 8 (destruct p as [p|p|]; try reflexivity); exfalso; lia.
Qed.

Lemma strip_visible s : Forall visible (chars s) -> strip s = s.
Proof.
  intros Hs. unfold strip.
  assert (Forall (fun b => 32 < b < 128)%N (bytes_of s)) as Hb
    by (unfold bytes_of; apply Forall_fmap; exact Hs).
  assert (lstrip_bytes (String.length s) (bytes_of s) = bytes_of s) as ->.
  { destruct (String.length s); [done|]. cbn. by rewrite visible_not_blank. }
  assert (blank_suffix (bytes_of s) = None) as Hsuf.
  { unfold blank_suffix. assert (forall k, skip_blank (drop k (bytes_of s)) <> Some []) as Hk
      by (intros k; rewrite visible_not_blank; [done|by apply Forall_drop]).
    cbn. by rewrite !decide_False by apply Hk. }
  assert (rstrip_bytes (String.length s) (bytes_of s) = bytes_of s) as ->.
  { destruct (String.length s); [done|]. cbn [rstrip_bytes]. by rewrite Hsuf. }
  assert (ascii_of_N <$> bytes_of s = chars s) as ->.
  { unfold bytes_of. clear. induction (chars s) as [|a l IH]; [done|]. cbn. rewrite ascii_N_embedding. f_equal. exact IH. }
  apply String.string_of_list_ascii_of_string.
Qed.

Lemma visible_digit a : is_digit a -> visible a /\ a <> chr 95.
Proof.
  intros [d Hd]. unfold digit_val in Hd. destruct (_ && _) eqn:E; [|done].
  apply andb_true_iff in E as [E1%Z.leb_le E2%Z.ltb_lt]. unfold visible. split; [lia|].
  intros ->. cbn in E2. lia.
Qed.

Lemma exponent_visible e :
  Forall (fun a => visible a /\ a <> chr 95)
    (chars (if e =? 0 then "" else "E" +:+ (if 0 <? e then "+" else "") +:+ str_Z e)).
Proof.
  destruct (e =? 0); [constructor|]. rewrite !chars_app. apply Forall_app. split; [by repeat constructor|].
  apply Forall_app. split; [by destruct (0 <? e); repeat constructor|].
  destruct e as [|p|p].
  - by repeat constructor.
  - eapply Forall_impl; [apply (do_digits _ _ (str_digits (N.pos p)))|]. apply visible_digit.
  - change (str_Z (Zneg p)) with ("-" +:+ str_Z (Z.of_N (N.pos p))). rewrite chars_app.
    apply Forall_app. split; [by repeat constructor|].
    eapply Forall_impl; [apply (do_digits _ _ (str_digits (N.pos p)))|]. apply visible_digit.
Qed.

(** [Decimal] reads what [str] of a decimal printed: sign, coefficient and exponent. *)
Lemma parse_str_dec d : parse_decimal (str_dec d) = Ok (Finite d).
Proof.
  destruct (str_dec_parts d) as (int_ & frac & e & Et & Hi & Hf & Hne & Hv & He).
  assert (Forall (fun a => visible a /\ a <> chr 95) (chars (str_dec d))) as Hvis.
  { rewrite Et. assert (forall l, Forall is_digit l -> Forall (fun a => visible a /\ a <> chr 95) l) as Hl
      by (intros l Hl; eapply Forall_impl; [exact Hl|apply visible_digit]).
    rewrite !Forall_app. split_and!; [by destruct (dneg d); repeat constructor|by apply Hl| |apply exponent_visible].
    destruct frac as [|a frac]; [constructor|]. constructor; [done|by apply Hl]. }
  unfold parse_decimal. rewrite strip_visible by (eapply Forall_impl; [exact Hvis|by intros a []]).
  rewrite filterb_all.
  2: { intros a Ha. rewrite Forall_forall in Hvis. apply negb_true_iff, bool_decide_eq_false. by apply Hvis. }
  rewrite Et. unfold read_decimal.
  assert (read_sign ((if dneg d then [c_dash] else []) ++ int_ ++ (match frac with [] => [] | _ => c_dot :: frac end) ++
    chars (if e =? 0 then "" else "E" +:+ (if 0 <? e then "+" else "") +:+ str_Z e)) =
    (dneg d, int_ ++ (match frac with [] => [] | _ => c_dot :: frac end) ++
    chars (if e =? 0 then "" else "E" +:+ (if 0 <? e then "+" else "") +:+ str_Z e))) as ->.
  { destruct (dneg d); [done|]. cbn [app]. destruct int_ as [|a int_]; [done|].
    apply Forall_cons in Hi as [[x Ha] _]. cbn.
    rewrite !decide_False; [done|intros ->; discriminate Ha|intros ->; discriminate Ha]. }
  rewrite (read_finite_parts (dneg d) int_ frac e (dcoef d) (dexp d)) by done. by destruct d.
Qed.
