(* ===== verification/DecimalContext.v ===== *)
(** The limits of [decimal]: which exponents [Decimal(text)] admits, and what the default
    context makes of the exact result of an operation ([PyDecimal] has the rounding to its
    precision alone): zeros are clamped, numbers below the range of exponents are rounded at
    its end, and numbers beyond it raise [Overflow].  The code that reads numbers from
    outside as they come uses these; elsewhere the numbers are far from the limits. *)
From S2P Require Import Prelude PyDecimal DecimalFacts DecimalText.
#[local] Open Scope Z_scope.

(** ** The range of exponents *)

(** [decimal.DefaultContext] *)
Definition Emax : Z := 999999.
Definition Emin : Z := -999999.
(** The exponent of the last digit of the smallest numbers. *)
Definition Etiny : Z := Emin - (default_prec - 1).

(** [decimal.MAX_EMAX] and [decimal.MIN_ETINY] *)
Definition MAX_EMAX : Z := 999999999999999999.
Definition MIN_ETINY : Z := -1999999999999999997.

(** [d.adjusted()]: the exponent of the first digit. *)
Definition adjusted (d : dec) : Z := dexp d + ndigits (dcoef d) - 1.

(** ** Reading *)

(** [Decimal(text)] reads exactly, or not at all. *)
Definition decimal_of_text (text : string) : res decimal :=
  d ← parse_decimal text;
  match d with
  | Finite x => if (adjusted x <=? MAX_EMAX) && (MIN_ETINY <=? dexp x) then Ok d
                else Raise DecimalInvalidOperation
  | _ => Ok d
  end.

Example reads_largest : is_ok (decimal_of_text "1E+999999999999999999") = true.
Proof. vm_compute. reflexivity. Qed.
Example reads_no_larger : decimal_of_text "10E+999999999999999999" = Raise DecimalInvalidOperation.
Proof. vm_compute. reflexivity. Qed.
Example reads_smallest : is_ok (decimal_of_text "1.0000000E-1999999999999999990") = true.
Proof. vm_compute. reflexivity. Qed.
Example reads_no_smaller : decimal_of_text "1.0000000E-1999999999999999991" = Raise DecimalInvalidOperation.
Proof. vm_compute. reflexivity. Qed.

(** ** Finishing an operation *)

(** The exact result [d] in the default context.  A coefficient with fewer digits than are
    cut off is less than half of the unit it is rounded to. *)
Definition finalize (d : dec) : res dec :=
  if (dcoef d =? 0)%N then Ok (mk_dec (dneg d) 0 (Z.max Etiny (Z.min Emax (dexp d))))
  else if Emax <? adjusted d then Raise DecimalOverflow
  else if (adjusted d <? Emin) && (dexp d <? Etiny) then
    let cut := Etiny - dexp d in
    Ok (mk_dec (dneg d) (if ndigits (dcoef d) <? cut then 0%N else div_half_even (dcoef d) (p10N cut)) Etiny)
  else
    let r := fix_dec default_prec d in
    if Emax <? adjusted r then Raise DecimalOverflow else Ok r.

(** [abs(d)] *)
Definition dabs (d : dec) : res dec := finalize (mk_dec false (dcoef d) (dexp d)).

(** [a - b] *)
Definition exact_sub (a b : dec) : dec :=
  let '(x, y) := align a (dneg_of b) in
  let s := x + y in
  mk_dec (if s =? 0 then dneg a && negb (dneg b) else s <? 0) (Z.abs_N s) (Z.min (dexp a) (dexp b)).
Definition dminus (a b : dec) : res dec := finalize (exact_sub a b).

Example abs_overflows : dabs (mk_dec true 1 1000000) = Raise DecimalOverflow.
Proof. vm_compute. reflexivity. Qed.
Example abs_clamps : dabs (mk_dec true 0 1000001) = Ok (mk_dec false 0 999999).
Proof. vm_compute. reflexivity. Qed.
Example abs_subnormal : dabs (mk_dec true 15 (-1000027)) = Ok (mk_dec false 2 (-1000026)).
Proof. vm_compute. reflexivity. Qed.
Example abs_vanishes : dabs (mk_dec false 1 (-1999999999999999997)) = Ok (mk_dec false 0 (-1000026)).
Proof. vm_compute. reflexivity. Qed.
Example minus_prices : dminus (dec_of_Z 71500) (dec_of_Z (-500)) = Ok (dec_of_Z 72000).
Proof. vm_compute. reflexivity. Qed.

(** ** When it overflows *)

Lemma div_half_even_at_most n d : (div_half_even n d <= n / d + 1)%N.
Proof. unfold div_half_even. destruct (_ ?= _)%N; [destruct (N.even _)| |]; lia. Qed.

(** A coefficient that loses [k] digits keeps the others, and rounding may carry. *)
Lemma div_half_even_digits c k n :
  0 <= k -> 0 <= n -> ndigits c <= k + n -> Z.of_N (div_half_even c (p10N k)) <= 10 ^ n.
Proof.
  intros Hk Hn Hd. destruct (N.eq_dec c 0%N) as [->|Hc].
  { assert (div_half_even 0%N (p10N k) = 0%N) as ->; [|apply Z.pow_nonneg; lia].
    pose proof (p10N_pos k). unfold div_half_even. rewrite N.Div0.div_0_l, N.Div0.mod_0_l.
    by destruct (p10N k). }
  destruct (ndigits_bounds c) as [_ Hhi]; [lia|].
  assert (Z.of_N c / 10 ^ k < 10 ^ n) as Hq.
  { apply Z.div_lt_upper_bound; [apply Z.pow_pos_nonneg; lia|]. rewrite <-Z.pow_add_r by lia.
    eapply Z.lt_le_trans; [exact Hhi|]. apply Z.pow_le_mono_r; lia. }
  pose proof (div_half_even_at_most c (p10N k)) as Hle.
  assert (Z.of_N (div_half_even c (p10N k)) <= Z.of_N (c / p10N k) + 1) as Hle' by lia.
  rewrite N2Z.inj_div, p10N_Z in Hle' by done. lia.
Qed.

Lemma ndigits_le c n : 0 <= n -> Z.of_N c <= 10 ^ n -> ndigits c <= n + 1.
Proof.
  intros Hn Hc. destruct (N.eq_dec c 0%N) as [->|Hc0]; [change (ndigits 0) with 1; lia|].
  destruct (ndigits_bounds c) as [Hlo _]; [lia|]. pose proof (ndigits_pos c).
  assert (10 ^ (ndigits c - 1) <= 10 ^ n) as Hpow by lia. apply Z.pow_le_mono_r_iff in Hpow; lia.
Qed.

Lemma ndigits_lt c n : 1 <= n -> Z.of_N c < 10 ^ n -> ndigits c <= n.
Proof.
  intros Hn Hc. destruct (N.eq_dec c 0%N) as [->|Hc0]; [change (ndigits 0) with 1; lia|].
  destruct (ndigits_bounds c) as [Hlo _]; [lia|]. pose proof (ndigits_pos c).
  assert (10 ^ (ndigits c - 1) < 10 ^ n) as Hpow by lia. apply Z.pow_lt_mono_r_iff in Hpow; lia.
Qed.

(** Rounding raises the exponent of the first digit by one at most. *)
Lemma adjusted_fix p d : 1 <= p -> adjusted (fix_dec p d) <= adjusted d + 1.
Proof.
  intros Hp. unfold adjusted, fix_dec, fix_coef.
  destruct (Z.leb_spec (ndigits (dcoef d) - p) 0) as [Hk|Hk]; [cbn; lia|].
  set (c := dcoef d) in *. set (k := ndigits c - p) in *.
  assert (Z.of_N (div_half_even c (p10N k)) <= 10 ^ p) as Hq by (apply div_half_even_digits; lia).
  destruct (N.eqb_spec (div_half_even c (p10N k)) (p10N p)) as [Eq|Hne]; cbn [dcoef dexp].
  - pose proof (ndigits_le (p10N (p - 1)) (p - 1)) as Hn. rewrite p10N_Z in Hn by lia. lia.
  - assert (ndigits (div_half_even c (p10N k)) <= p) as Hn; [|lia]. apply ndigits_lt; [lia|].
    assert (Z.of_N (div_half_even c (p10N k)) <> 10 ^ p) as H0; [|lia].
    rewrite <-p10N_Z by lia. intros E%N2Z.inj. done.
Qed.

(** A number of at least [10^k]. *)
Definition reaches (k : Z) (d : dec) : Prop := dcoef d <> 0%N /\ k <= adjusted d.

Lemma dneg_fix p d : dneg (fix_dec p d) = dneg d.
Proof. unfold fix_dec. by destruct (fix_coef _ _ _). Qed.

Lemma finalize_answers d :
  match finalize d with
  | Ok r => dneg r = dneg d /\ forall k, Emin < k -> reaches k r -> reaches (k - 1) d
  | Raise x => x = DecimalOverflow /\ reaches (Emax - 1) d
  end.
Proof.
  unfold finalize, reaches. destruct (N.eqb_spec (dcoef d) 0) as [E|Hne]; [split; [done|by intros k _ [[] _]]|].
  destruct (Z.ltb_spec Emax (adjusted d)); [split; [done|]; split; [done|lia]|].
  destruct (_ && _) eqn:Esub.
  - apply andb_true_iff in Esub as [Hsub%Z.ltb_lt Hcut%Z.ltb_lt]. split; [done|].
    intros k Hk [Hc Ha]. exfalso. unfold adjusted in *. cbn [dcoef dexp] in *.
    destruct (Z.ltb_spec (ndigits (dcoef d)) (Etiny - dexp d)); [done|].
    assert (ndigits (div_half_even (dcoef d) (p10N (Etiny - dexp d))) <= default_prec) as Hn.
    { change default_prec with (27 + 1). apply ndigits_le; [done|]. apply div_half_even_digits; [lia|done|].
      unfold Etiny, default_prec in *. lia. }
    unfold Etiny in *. lia.
  - pose proof (adjusted_fix default_prec d ltac:(done)) as Hadj.
    destruct (Z.ltb_spec Emax (adjusted (fix_dec default_prec d))) as [Hover|Hover].
    + split; [done|]. split; [done|lia].
    + split; [apply dneg_fix|]. intros k _ [_ Hk]. split; [done|lia].
Qed.

(** The exact difference is no larger than twice the larger operand. *)
Lemma exact_sub_reaches k a b : reaches k (exact_sub a b) -> reaches (k - 1) a \/ reaches (k - 1) b.
Proof.
  intros [Hc Hk]. unfold reaches.
  destruct (decide (dcoef a <> 0%N /\ k - 1 <= adjusted a)) as [?|Ha]; [by left|].
  destruct (decide (dcoef b <> 0%N /\ k - 1 <= adjusted b)) as [?|Hb]; [by right|]. exfalso.
  unfold exact_sub, align, adjusted in *. set (e := Z.min (dexp a) (dexp b)) in *.
  assert (forall d, dexp d >= e -> ~ (dcoef d <> 0%N /\ k - 1 <= dexp d + ndigits (dcoef d) - 1) ->
            Z.abs (dZ d) * 10 ^ (dexp d - e) = 0 \/
            k - 1 - e > 0 /\ Z.abs (dZ d) * 10 ^ (dexp d - e) <= 10 ^ (k - 1 - e)) as Hterm.
  { intros d He Hd. assert (Z.abs (dZ d) = Z.of_N (dcoef d)) as -> by (unfold dZ; destruct (dneg d); lia).
    destruct (N.eq_dec (dcoef d) 0%N) as [->|H0]; [by left|]. right.
    assert (dexp d + ndigits (dcoef d) - 1 < k - 1) as Hlt by lia. pose proof (ndigits_pos (dcoef d)).
    split; [lia|]. destruct (ndigits_bounds (dcoef d)) as [_ Hhi]; [lia|].
    transitivity (10 ^ ndigits (dcoef d) * 10 ^ (dexp d - e)).
    - apply Z.mul_le_mono_nonneg_r; [apply Z.pow_nonneg; lia|lia].
    - rewrite <-Z.pow_add_r by lia. apply Z.pow_le_mono_r; lia. }
  pose proof (Hterm a ltac:(lia) Ha) as H1. pose proof (Hterm b ltac:(lia) Hb) as H2. clear Hterm Ha Hb.
  assert (dZ (dneg_of b) = - dZ b) as Eb by (unfold dZ, dneg_of; cbn; destruct (dneg b); cbn; lia).
  cbn [dcoef dexp dneg_of] in *. rewrite Eb in *. fold e in Hc, Hk |- *.
  set (x := dZ a * 10 ^ (dexp a - e)) in *. set (y := - dZ b * 10 ^ (dexp b - e)) in *.
  assert (Z.abs x = Z.abs (dZ a) * 10 ^ (dexp a - e)) as Ex.
  { unfold x. rewrite Z.abs_mul, (Z.abs_eq (10 ^ _)); [done|apply Z.pow_nonneg; lia]. }
  assert (Z.abs y = Z.abs (dZ b) * 10 ^ (dexp b - e)) as Ey.
  { unfold y. rewrite Z.abs_mul, Z.abs_opp, (Z.abs_eq (10 ^ _)); [done|apply Z.pow_nonneg; lia]. }
  rewrite <-Ex in H1. rewrite <-Ey in H2.
  destruct (ndigits_bounds (Z.abs_N (x + y))) as [Hlo _]; [lia|]. rewrite N2Z.inj_abs_N in Hlo.
  assert (k - 1 - e > 0 /\ Z.abs (x + y) <= 2 * 10 ^ (k - 1 - e)) as [Hpos Hup].
  { assert (x + y <> 0) by (intros E; apply Hc; by rewrite E).
    assert (0 <= 10 ^ (k - 1 - e)) by (apply Z.pow_nonneg; lia). lia. }
  assert (10 ^ (k - e) <= 10 ^ (ndigits (Z.abs_N (x + y)) - 1)) as Hpow by (apply Z.pow_le_mono_r; lia).
  replace (k - e) with (Z.succ (k - 1 - e)) in Hpow by lia. rewrite Z.pow_succ_r in Hpow by lia.
  assert (0 < 10 ^ (k - 1 - e)) by (apply Z.pow_pos_nonneg; lia). lia.
Qed.

(** What [abs] and the difference answer. *)
Lemma dabs_answers d :
  match dabs d with
  | Ok r => dneg r = false /\ forall k, Emin < k -> reaches k r -> reaches (k - 1) d
  | Raise x => x = DecimalOverflow /\ reaches (Emax - 1) d
  end.
Proof. apply (finalize_answers (mk_dec false (dcoef d) (dexp d))). Qed.

Lemma dminus_raises a b x :
  dminus a b = Raise x -> x = DecimalOverflow /\ (reaches (Emax - 2) a \/ reaches (Emax - 2) b).
Proof.
  intros E. pose proof (finalize_answers (exact_sub a b)) as H. unfold dminus in E. rewrite E in H.
  destruct H as [-> H]. split; [done|]. apply (exact_sub_reaches (Emax - 1)) in H. exact H.
Qed.
