(* ===== verification/JsonRead.v ===== *)
(** Reading records back from JSON values: [value["key"]], [value.get("key")], [str], [int],
    [bool] and the [fromisoformat]s the [from_dict]s are made of.  A value that was written
    with [json.dumps(..., sort_keys=True)] comes back normalized; the lemmas say that each
    reader finds in it what was written.  [Stored] is the interface of a record that can be
    written and read. *)
From S2P Require Import Prelude PyTime PyTimeFacts PyDecimal Json DecimalText.
#[local] Open Scope Z_scope.

(** ** Texts of values *)

Definition hex2 (n : N) : list ascii :=
  [Sha256.hex_digit (N.land (N.shiftr n 4) 15); Sha256.hex_digit (N.land n 15)].

(** [repr] of a text escapes its quote, backslashes and control characters; which of the
    characters beyond ASCII it escapes is not modelled: it keeps them. *)
Definition repr_char (q b : N) : list ascii :=
  if (b =? q)%N || (b =? 92)%N then [chr 92; ascii_of_N b]
  else if (b =? 10)%N then [chr 92; chr 110]
  else if (b =? 13)%N then [chr 92; chr 114]
  else if (b =? 9)%N then [chr 92; chr 116]
  else if (b <? 32)%N || (b =? 127)%N then [chr 92; chr 120] ++ hex2 b
  else [ascii_of_N b].

Definition repr_str (s : string) : string :=
  let bytes := bytes_of s in
  let q := if existsb (N.eqb 39) bytes && negb (existsb (N.eqb 34) bytes) then 34%N else 39%N in
  String.string_of_list_ascii ([ascii_of_N q] ++ mjoin (repr_char q <$> bytes) ++ [ascii_of_N q]).

Fixpoint py_repr (j : json) : string :=
  match j with
  | JNull => "None"
  | JBool true => "True"
  | JBool false => "False"
  | JNum n => str_Z n
  | JFloat repr => repr
  | JStr s => repr_str s
  | JList l => "[" +:+ String.concat ", " (List.map py_repr l) +:+ "]"
  | JObj fields =>
      "{" +:+ String.concat ", " (List.map (fun kv => repr_str kv.1 +:+ ": " +:+ py_repr kv.2) fields) +:+ "}"
  end.

(** [str(value)] *)
Definition py_str (j : json) : string := match j with JStr s => s | _ => py_repr j end.

Example py_str_list : py_str (JList [JStr "a'b"; JNum 1; JNull; JObj [("k", JBool true)]]) =
  "[" +:+ String.string_of_list_ascii [chr 34] +:+ "a'b" +:+ String.string_of_list_ascii [chr 34] +:+ ", 1, None, {'k': True}]".
Proof. vm_compute. reflexivity. Qed.

(** [bool(value)] *)
Definition truthy (j : json) : bool :=
  match j with
  | JNull => false
  | JBool b => b
  | JNum n => negb (n =? 0)
  | JFloat repr => negb (bool_decide (repr = "0.0") || bool_decide (repr = "-0.0"))
  | JStr s => negb (is_empty s)
  | JList l => negb (bool_decide (l = []))
  | JObj fields => negb (bool_decide (fields = []))
  end.

(** [int(text)]; underscores between digits and digits beyond ASCII are not modelled. *)
Definition parse_int (s : string) : res Z :=
  let '(neg, s) := read_sign (chars (strip s)) in
  match span_digits s with
  | ([], _) | (_, _ :: _) => Raise ValueError
  | (ds, []) => Ok (if neg : bool then - digits_value 0 ds else digits_value 0 ds)
  end.

Example parse_int_signed : parse_int " -042 " = Ok (-42).
Proof. vm_compute. reflexivity. Qed.
Example parse_int_bad : parse_int "1.0" = Raise ValueError.
Proof. vm_compute. reflexivity. Qed.

(** [Enum(text)]: the member with this value. *)
Definition enum_of {A} (value : A -> string) (members : list A) (text : string) : res A :=
  match List.find (fun a => bool_decide (value a = text)) members with
  | Some a => Ok a
  | None => Raise ValueError
  end.

(** ** Fields *)

Lemma res_bind_eq {A B} (r : res A) a (K : A -> res B) : r = Ok a -> (r ≫= K) = K a.
Proof. by intros ->. Qed.

(** [d[key]] *)
Definition item_get {V} (k : string) (d : dict string V) : res V :=
  match dget k d with Some v => Ok v | None => Raise KeyError end.

(** A text key of a value that is not a dict. *)
Definition as_dict (j : json) : res (dict string json) :=
  match j with JObj fields => Ok fields | _ => Raise TypeError end.
(** [if not isinstance(value, list): raise TypeError] *)
Definition as_list (j : json) : res (list json) :=
  match j with JList l => Ok l | _ => Raise TypeError end.

Definition read_text (j : json) : res string := Ok (py_str j).
Definition read_int (j : json) : res Z := parse_int (py_str j).
Definition read_bool (j : json) : res bool := Ok (truthy j).
Definition read_day (j : json) : res date := parse_date (py_str j).
Definition read_stamp (j : json) : res datetime := fromisoformat (py_str j).
Definition read_enum {A} (value : A -> string) (members : list A) (j : json) : res A :=
  enum_of value members (py_str j).
(** [Decimal(str(value))] *)
Definition read_dec (j : json) : res decimal := parse_decimal (py_str j).
Definition read_list {A} (f : json -> res A) (j : json) : res (list A) :=
  l ← as_list j; mapM_res f l.
(** [None if value is None else f(value)] *)
Definition read_opt {A} (f : json -> res A) (j : json) : res (option A) :=
  match j with JNull => Ok None | _ => a ← f j; Ok (Some a) end.

(** [f(value[key])], and [f] of [value.get(key)]. *)
Definition field {A} (k : string) (f : json -> res A) (d : dict string json) : res A :=
  v ← item_get k d; f v.
Definition field_or_none {A} (k : string) (f : json -> res A) (d : dict string json) : res A :=
  f (default JNull (dget k d)).

(** ** What was written is found *)

Lemma parse_int_str n : parse_int (str_Z n) = Ok n.
Proof.
  unfold parse_int.
  assert (Forall visible (chars (str_Z n))) as Hvis.
  { assert (forall k, Forall visible (chars (str_Z (Z.of_N k)))) as Hpos.
    { intros k. eapply Forall_impl; [apply (do_digits _ _ (str_digits k))|]. intros a Ha. by apply visible_digit. }
    destruct n as [|p|p]; [apply (Hpos 0%N)|apply (Hpos (N.pos p))|].
    change (str_Z (Zneg p)) with ("-" +:+ str_Z (Z.of_N (N.pos p))). rewrite chars_app.
    apply Forall_app. split; [by repeat constructor|apply Hpos]. }
  rewrite strip_visible, str_sign by done.
  assert (Z.abs n = Z.of_N (Z.abs_N n)) as -> by lia. destruct (str_digits (Z.abs_N n)) as [Hd Hv Hne].
  rewrite <-(app_nil_r (chars _)), span_digits_app by done.
  destruct (chars (str_Z (Z.of_N _))) as [|a l]; [done|]. rewrite Hv. f_equal. destruct (Z.ltb_spec n 0); lia.
Qed.

Lemma enum_of_value {A} (value : A -> string) members a :
  a ∈ members -> (forall b, b ∈ members -> value b = value a -> b = a) -> enum_of value members (value a) = Ok a.
Proof.
  intros Hin Hinj. unfold enum_of. destruct (List.find _ members) as [b|] eqn:E.
  - apply List.find_some in E as [Hb%list_elem_of_In E%bool_decide_eq_true]. f_equal. by apply Hinj.
  - apply list_elem_of_In in Hin. pose proof (List.find_none _ _ E _ Hin) as Hn.
    cbn in Hn. by rewrite bool_decide_eq_true_2 in Hn by done.
Qed.

(** The fields of a written dict: the keys sorted, the values normalized. *)
Lemma dget_normalized (k : string) (fields : dict string json) :
  NoDup (dkeys fields) ->
  dget k (sorted_by fst (List.map (fun kv => (kv.1, normalize kv.2)) fields)) = normalize <$> dget k fields.
Proof.
  intros Hnd. set (mapped := List.map (fun kv => (kv.1, normalize kv.2)) fields).
  assert (dkeys mapped = dkeys fields) as Hkeys.
  { subst mapped. unfold dkeys. induction fields as [|[i v] l IH]; [done|].
    apply NoDup_cons in Hnd as [_ Hnd]. cbn. f_equal. by apply IH. }
  assert (dget k mapped = normalize <$> dget k fields) as <-.
  { subst mapped. clear. induction fields as [|[i v] l IH]; [done|]. cbn. by case_decide. }
  assert (NoDup (dkeys mapped)) as Hm by by rewrite Hkeys.
  apply option_eq. intros v. pose proof (sorted_by_perm fst mapped) as Hp.
  assert (NoDup (dkeys (sorted_by fst mapped))) as Hs by (unfold dkeys; by rewrite Hp).
  split; intros E; apply elem_dget; try done; apply dget_elem in E; [by rewrite <-Hp|by rewrite Hp].
Qed.

Lemma normalize_idem j : normalize (normalize j) = normalize j.
Proof.
  induction j as [| | | | |l IH|fields IH] using json_ind'; try done; cbn [normalize].
  - f_equal. rewrite List.map_map. induction IH as [|x l Hx _ IHl]; [done|]. simpl. by rewrite Hx, IHl.
  - f_equal.
    assert (forall l, (forall kv, kv ∈ l -> normalize kv.2 = kv.2) ->
              List.map (fun kv : string * json => (kv.1, normalize kv.2)) l = l) as Hmap.
    { induction l as [|[k v] l IHl]; intros H; [done|]. simpl. f_equal.
      - f_equal. apply (H (k, v)). left.
      - apply IHl. intros kv Hkv. apply H. by right. }
    rewrite Hmap.
    + apply sorted_by_id, sorted_by_sorted.
    + intros kv Hkv%elem_of_sorted_by. apply list_elem_of_In, in_map_iff in Hkv as (x&<-&Hx).
      rewrite Forall_forall in IH. apply IH. by apply list_elem_of_In.
Qed.

(** What [json.loads] makes of a written dict. *)
Definition written (fields : dict string json) : dict string json :=
  sorted_by fst (List.map (fun kv => (kv.1, normalize kv.2)) fields).

Definition fields_of (j : json) : dict string json := match j with JObj fields => fields | _ => [] end.

Lemma normalize_dict fields : normalize (JObj fields) = JObj (written fields).
Proof. done. Qed.

Lemma field_written {A B} k (f : json -> res A) fields v a (K : A -> res B) :
  NoDup (dkeys fields) -> dget k fields = Some v -> f (normalize v) = Ok a ->
  (field k f (written fields) ≫= K) = K a.
Proof. intros Hnd E Ha. unfold field, item_get, written. rewrite dget_normalized, E by done. cbn. by rewrite Ha. Qed.

Lemma field_or_none_written {A B} k (f : json -> res A) fields v a (K : A -> res B) :
  NoDup (dkeys fields) -> dget k fields = Some v -> f (normalize v) = Ok a ->
  (field_or_none k f (written fields) ≫= K) = K a.
Proof. intros Hnd E Ha. unfold field_or_none, written. rewrite dget_normalized, E by done. cbn. by rewrite Ha. Qed.

Lemma read_text_written s : read_text (normalize (JStr s)) = Ok s.
Proof. done. Qed.
Lemma read_int_written n : read_int (normalize (JNum n)) = Ok n.
Proof. apply parse_int_str. Qed.
Lemma read_bool_written b : read_bool (normalize (JBool b)) = Ok b.
Proof. done. Qed.
Lemma read_day_written d : is_date d -> read_day (normalize (JStr (date_isoformat d))) = Ok d.
Proof. apply parse_date_iso. Qed.
Lemma read_stamp_written t : is_datetime t -> read_stamp (normalize (JStr (isoformat t))) = Ok t.
Proof. apply fromisoformat_iso. Qed.
Lemma read_opt_text_written s : read_opt read_text (normalize (JOpt s)) = Ok s.
Proof. by destruct s. Qed.
Lemma read_opt_dec_written (d : option dec) :
  read_opt read_dec (normalize (JDec d)) = Ok (Finite <$> d).
Proof. destruct d as [d|]; [|done]. cbn. unfold read_dec. cbn [py_str]. by rewrite parse_str_dec. Qed.

Lemma read_list_written {A B} (f : json -> res B) (put : A -> json) (g : A -> B) l :
  Forall (fun a => f (normalize (put a)) = Ok (g a)) l ->
  read_list f (normalize (JList (put <$> l))) = Ok (g <$> l).
Proof.
  intros Hl. unfold read_list. cbn. change (List.map normalize (put <$> l)) with (normalize <$> (put <$> l)).
  induction Hl as [|a l Ha _ IH]; [done|]. cbn. rewrite Ha. cbn. by rewrite IH.
Qed.

(** ** Records that are stored *)

(** A record written as a dict and read back from one. *)
Class Stored (A : Type) := {
  to_json : A -> json;
  from_json : json -> res A;
  storable : A -> Prop
}.

(** What is written is read. *)
Class StoredLaws (A : Type) `{Stored A} : Prop :=
  stored_read (a : A) : storable a -> from_json (normalize (to_json a)) = Ok a.

Lemma read_stored_list {A} `{StoredLaws A} (l : list A) :
  Forall storable l -> read_list from_json (normalize (JList (to_json <$> l))) = Ok l.
Proof.
  intros Hl. rewrite (read_list_written from_json to_json id), list_fmap_id; [done|].
  eapply Forall_impl; [exact Hl|]. apply stored_read.
Qed.

Lemma item_written {B} k fields v (K : json -> res B) :
  NoDup (dkeys fields) -> dget k fields = Some v -> (item_get k (written fields) ≫= K) = K (normalize v).
Proof. intros Hnd E. unfold item_get, written. by rewrite dget_normalized, E. Qed.

Create HintDb stored.
#[export] Hint Resolve read_text_written read_int_written read_bool_written read_day_written read_stamp_written
  read_opt_text_written read_opt_dec_written read_stored_list : stored.
#[export] Hint Extern 1 (from_json (normalize (to_json _)) = Ok _) => apply stored_read : stored.

(** The keys of a literal dict are distinct. *)
Ltac keys_distinct := apply (bool_decide_unpack _); vm_compute; reflexivity.

(** Reads the next field of a written dict. *)
Ltac read_field :=
  etrans; [first [eapply field_written | eapply field_or_none_written];
           [keys_distinct | reflexivity | eauto with stored] |]; cbv beta.
(** Takes the next value of a written dict, to be read later. *)
Ltac take_item := etrans; [eapply item_written; [keys_distinct | reflexivity] |]; cbv beta.
(** The value taken is a dict, or a list, as it should be. *)
Ltac read_shape := etrans; [eapply res_bind_eq; reflexivity |]; cbv beta.
(** Takes a step whose outcome is known. *)
Ltac read_step H := etrans; [eapply res_bind_eq; exact H |]; cbv beta.
