(* ===== verification/Domain.v ===== *)
(** [packages/domain]: membership snapshots and their point-in-time selection,
    stock references and observations, coverage, and the three event state
    axes.  Records are built through their [..._init] constructors, which are
    the dataclasses' [__post_init__] checks. *)
From S2P Require Import Prelude PyTime PyDecimal DecimalFacts.
From Stdlib Require Import QArith.
#[local] Open Scope Z_scope.

(** ** [packages/domain/models.py] *)

(* @ packages/domain/models.py 10-12 MembershipRole *)
Inductive MembershipRole := CORE | RELATED.
#[export] Instance MembershipRole_eq_dec : EqDecision MembershipRole.
Proof. solve_decision. Defined.
(* @ packages/domain/models.py 10-12 MembershipRole *)
Definition MembershipRole_value (r : MembershipRole) : string :=
  match r with CORE => "CORE" | RELATED => "RELATED" end.

(* @ packages/domain/models.py 15-20 DataStatus *)
Inductive DataStatus := PREOPEN | LIVE | DELAYED | DEGRADED | DATA_CLOSED.
#[export] Instance DataStatus_eq_dec : EqDecision DataStatus.
Proof. solve_decision. Defined.

(** The [.value] of a [StrEnum] member. *)
(* @ packages/domain/models.py 15-20 DataStatus *)
Definition DataStatus_value (s : DataStatus) : string :=
  match s with
  | PREOPEN => "PREOPEN" | LIVE => "LIVE" | DELAYED => "DELAYED"
  | DEGRADED => "DEGRADED" | DATA_CLOSED => "CLOSED"
  end.

(* @ packages/domain/models.py 23-37 QualityFlag *)
Inductive QualityFlag :=
  | PARTIAL_COVERAGE | QF_INSUFFICIENT_COVERAGE | STALE_MARKET_DATA
  | FREE_FLOAT_UNAVAILABLE | PROVISIONAL_BASELINE | QF_MEMBERSHIP_VERSION_MISMATCH
  | SOURCE_DEGRADED | REFERENCE_PRICE_UNAVAILABLE | MARKET_PRICE_UNAVAILABLE
  | QF_TRADING_HALTED | QF_CORPORATE_ACTION_UNRESOLVED | QF_INSUFFICIENT_OBSERVATIONS
  | QF_ZERO_BASELINE | POINT_IN_TIME_VIOLATION.

(* @ packages/domain/models.py 23-37 QualityFlag *)
Definition QualityFlag_value (f : QualityFlag) : string :=
  match f with
  | PARTIAL_COVERAGE => "PARTIAL_COVERAGE"
  | QF_INSUFFICIENT_COVERAGE => "INSUFFICIENT_COVERAGE"
  | STALE_MARKET_DATA => "STALE_MARKET_DATA"
  | FREE_FLOAT_UNAVAILABLE => "FREE_FLOAT_UNAVAILABLE"
  | PROVISIONAL_BASELINE => "PROVISIONAL_BASELINE"
  | QF_MEMBERSHIP_VERSION_MISMATCH => "MEMBERSHIP_VERSION_MISMATCH"
  | SOURCE_DEGRADED => "SOURCE_DEGRADED"
  | REFERENCE_PRICE_UNAVAILABLE => "REFERENCE_PRICE_UNAVAILABLE"
  | MARKET_PRICE_UNAVAILABLE => "MARKET_PRICE_UNAVAILABLE"
  | QF_TRADING_HALTED => "TRADING_HALTED"
  | QF_CORPORATE_ACTION_UNRESOLVED => "CORPORATE_ACTION_UNRESOLVED"
  | QF_INSUFFICIENT_OBSERVATIONS => "INSUFFICIENT_OBSERVATIONS"
  | QF_ZERO_BASELINE => "ZERO_BASELINE"
  | POINT_IN_TIME_VIOLATION => "POINT_IN_TIME_VIOLATION"
  end.

(* @ packages/domain/models.py 40-53 UnavailableReason *)
Inductive UnavailableReason :=
  | EMPTY_MEMBERSHIP | INSUFFICIENT_COVERAGE | MISSING_REFERENCE_DATA
  | MISSING_MARKET_DATA | TRADING_HALTED | CORPORATE_ACTION_UNRESOLVED
  | INSUFFICIENT_OBSERVATIONS | ZERO_BASELINE | NO_PRIOR_ATTENTION_INTERVAL
  | NO_CURRENT_ATTENTION_INTERVAL | MEMBERSHIP_HISTORY_UNAVAILABLE
  | MEMBERSHIP_VERSION_MISMATCH | INCOMPLETE_ATTENTION_HISTORY.
#[export] Instance UnavailableReason_eq_dec : EqDecision UnavailableReason.
Proof. solve_decision. Defined.

(* @ packages/domain/models.py 40-53 UnavailableReason *)
Definition UnavailableReason_value (r : UnavailableReason) : string :=
  match r with
  | EMPTY_MEMBERSHIP => "EMPTY_MEMBERSHIP"
  | INSUFFICIENT_COVERAGE => "INSUFFICIENT_COVERAGE"
  | MISSING_REFERENCE_DATA => "MISSING_REFERENCE_DATA"
  | MISSING_MARKET_DATA => "MISSING_MARKET_DATA"
  | TRADING_HALTED => "TRADING_HALTED"
  | CORPORATE_ACTION_UNRESOLVED => "CORPORATE_ACTION_UNRESOLVED"
  | INSUFFICIENT_OBSERVATIONS => "INSUFFICIENT_OBSERVATIONS"
  | ZERO_BASELINE => "ZERO_BASELINE"
  | NO_PRIOR_ATTENTION_INTERVAL => "NO_PRIOR_ATTENTION_INTERVAL"
  | NO_CURRENT_ATTENTION_INTERVAL => "NO_CURRENT_ATTENTION_INTERVAL"
  | MEMBERSHIP_HISTORY_UNAVAILABLE => "MEMBERSHIP_HISTORY_UNAVAILABLE"
  | MEMBERSHIP_VERSION_MISMATCH => "MEMBERSHIP_VERSION_MISMATCH"
  | INCOMPLETE_ATTENTION_HISTORY => "INCOMPLETE_ATTENTION_HISTORY"
  end.

(* @ packages/domain/models.py 61-63 require_finite *)
Definition require_finite (x : decimal) : res dec :=
  match x with Finite d => Ok d | _ => Raise ValueError end.

(** [if value is not None: require_finite(value); if value < 0: raise] *)
Definition finite_nonneg (x : option decimal) : res (option dec) :=
  match x with
  | None => Ok None
  | Some x => d ← require_finite x; _ ← raise_if (dlt d dzero) ValueError; Ok (Some d)
  end.

(** The same with the bounds 0 and 1. *)
Definition finite_unit (x : option decimal) : res (option dec) :=
  match x with
  | None => Ok None
  | Some x => d ← require_finite x;
              _ ← raise_if (negb (dle dzero d && dle d done_)) ValueError; Ok (Some d)
  end.

(* @ packages/domain/models.py 70-73 ThemeMember *)
Record ThemeMember := mk_ThemeMember { tm_stock_id : string; tm_role : MembershipRole }.
#[export] Instance ThemeMember_eq_dec : EqDecision ThemeMember.
Proof. solve_decision. Defined.

(* @ packages/domain/models.py 75-77 ThemeMember.__post_init__ *)
Definition ThemeMember_init (stock_id : string) (role : MembershipRole) : res ThemeMember :=
  _ ← raise_if (is_empty stock_id) ValueError; Ok (mk_ThemeMember stock_id role).

(* @ packages/domain/models.py 80-86 ThemeMembershipSnapshot *)
Record ThemeMembershipSnapshot := mk_ThemeMembershipSnapshot {
  ms_theme_id : string;
  ms_version : string;
  ms_effective_from : date;
  ms_known_at : datetime;
  ms_members : list ThemeMember
}.
#[export] Instance ThemeMembershipSnapshot_eq_dec : EqDecision ThemeMembershipSnapshot.
Proof. solve_decision. Defined.

Definition ms_stock_ids (s : ThemeMembershipSnapshot) : list string :=
  tm_stock_id <$> ms_members s.

(* @ packages/domain/models.py 88-96 ThemeMembershipSnapshot.__post_init__ *)
Definition ThemeMembershipSnapshot_init (theme_id version : string) (effective_from : date)
    (known_at : datetime) (members : list ThemeMember) : res ThemeMembershipSnapshot :=
  _ ← raise_if (is_empty theme_id) ValueError;
  _ ← raise_if (is_empty version) ValueError;
  _ ← require_aware known_at;
  _ ← raise_if (negb (bool_decide (NoDup (tm_stock_id <$> members)))) ValueError;
  Ok (mk_ThemeMembershipSnapshot theme_id version effective_from known_at members).

(* @ packages/domain/models.py 98-99 ThemeMembershipSnapshot.contains *)
Definition ms_contains (s : ThemeMembershipSnapshot) (stock_id : string) : bool :=
  existsb (fun m => bool_decide (tm_stock_id m = stock_id)) (ms_members s).

Definition ms_eligible (theme_id : string) (market_date : date) (decision_at : datetime)
    (s : ThemeMembershipSnapshot) : bool :=
  bool_decide (ms_theme_id s = theme_id) && (ms_effective_from s <=? market_date) &&
  dt_le (ms_known_at s) decision_at.

(** The sort key [(effective_from, known_at, version)] and its date part. *)
Definition ms_key (s : ThemeMembershipSnapshot) : date * datetime * string :=
  (ms_effective_from s, ms_known_at s, ms_version s).
Definition ms_date_eqb (s t : ThemeMembershipSnapshot) : bool :=
  (ms_effective_from s =? ms_effective_from t) && dt_eqb (ms_known_at s) (ms_known_at t).

(* @ packages/domain/models.py 102-135 select_membership_snapshot *)
Definition select_membership_snapshot (snapshots : list ThemeMembershipSnapshot)
    (theme_id : string) (market_date : date) (decision_at : datetime)
    : res (option ThemeMembershipSnapshot) :=
  _ ← require_aware decision_at;
  let eligible := List.filter (ms_eligible theme_id market_date decision_at) snapshots in
  match last (sorted_by ms_key eligible) with
  | None => Ok None
  | Some selected =>
      _ ← raise_if (1 <? Z.of_nat (length (List.filter (ms_date_eqb selected) eligible)))
            ValueError;
      Ok (Some selected)
  end.

(* @ packages/domain/models.py 138-148 StockReference *)
Record StockReference := mk_StockReference {
  sr_stock_id : string;
  sr_effective_for : date;
  sr_known_at : datetime;
  sr_previous_adjusted_close : option dec;
  sr_listed_shares : option Z;
  sr_free_float_ratio : option dec;
  sr_free_float_validated : bool;
  sr_version : string;
  sr_corporate_action_resolved : bool
}.
#[export] Instance StockReference_eq_dec : EqDecision StockReference.
Proof. solve_decision. Defined.
(** Its numbers are [ordinary]. *)
Definition ordinary_reference (r : StockReference) : bool :=
  ordinary_opt (sr_previous_adjusted_close r) && ordinary_opt (sr_free_float_ratio r) &&
  ordinary_opt (dec_of_Z <$> sr_listed_shares r).

(* @ packages/domain/models.py 150-165 StockReference.__post_init__ *)
Definition StockReference_init (stock_id : string) (effective_for : date) (known_at : datetime)
    (previous_adjusted_close : option decimal) (listed_shares : option Z)
    (free_float_ratio : option decimal) (free_float_validated : bool) (version : string)
    (corporate_action_resolved : bool) : res StockReference :=
  _ ← raise_if (is_empty stock_id) ValueError;
  _ ← raise_if (is_empty version) ValueError;
  _ ← require_aware known_at;
  previous_adjusted_close ← finite_nonneg previous_adjusted_close;
  _ ← raise_if (match listed_shares with Some n => n <? 0 | None => false end) ValueError;
  free_float_ratio ← finite_unit free_float_ratio;
  Ok (mk_StockReference stock_id effective_for known_at previous_adjusted_close
        listed_shares free_float_ratio free_float_validated version
        corporate_action_resolved).

(* @ packages/domain/models.py 167-176 StockReference.adjusted_return_reference *)
Definition adjusted_return_reference (r : StockReference) (market_date : date)
    (as_of : datetime) : option dec :=
  if negb (sr_effective_for r =? market_date) || dt_lt as_of (sr_known_at r)
     || negb (sr_corporate_action_resolved r)
  then None
  else match sr_previous_adjusted_close r with
       | None => None
       | Some close => if dle close dzero then None else Some close
       end.

(** The products are taken in the default context. *)
(* @ packages/domain/models.py 178-192 StockReference.free_float_market_cap *)
Definition free_float_market_cap (r : StockReference) (market_date : date)
    (as_of : datetime) : option dec :=
  match adjusted_return_reference r market_date as_of, sr_listed_shares r,
        sr_free_float_ratio r with
  | Some previous_close, Some shares, Some ratio =>
      if (shares <=? 0) || dle ratio dzero || negb (sr_free_float_validated r) then None
      else Some (dmul default_prec (dmul default_prec previous_close (dec_of_Z shares)) ratio)
  | _, _, _ => None
  end.

(* @ packages/domain/models.py 195-204 StockMarketObservation *)
Record StockMarketObservation := mk_StockMarketObservation {
  mo_stock_id : string;
  mo_market_date : date;
  mo_observed_at : datetime;
  mo_current_price : option dec;
  mo_cumulative_trading_value : option dec;
  mo_fresh : bool;
  mo_trading_halted : bool;
  mo_corporate_action_unresolved : bool
}.
#[export] Instance StockMarketObservation_eq_dec : EqDecision StockMarketObservation.
Proof. solve_decision. Defined.
Definition ordinary_observation (o : StockMarketObservation) : bool :=
  ordinary_opt (mo_current_price o) && ordinary_opt (mo_cumulative_trading_value o).

(* @ packages/domain/models.py 206-220 StockMarketObservation.__post_init__ *)
Definition StockMarketObservation_init (stock_id : string) (market_date : date)
    (observed_at : datetime) (current_price cumulative_trading_value : option decimal)
    (fresh trading_halted corporate_action_unresolved : bool) : res StockMarketObservation :=
  _ ← raise_if (is_empty stock_id) ValueError;
  _ ← require_aware observed_at;
  current_price ← finite_nonneg current_price;
  cumulative_trading_value ← finite_nonneg cumulative_trading_value;
  Ok (mk_StockMarketObservation stock_id market_date observed_at current_price
        cumulative_trading_value fresh trading_halted corporate_action_unresolved).

(** A time of day in microseconds since midnight. *)
Abbreviation time := Z.

(* @ packages/domain/models.py 223-233 StockTradingValueObservation *)
Record StockTradingValueObservation := mk_StockTradingValueObservation {
  tv_stock_id : string;
  tv_market_date : date;
  tv_observed_at : datetime;
  tv_time_bucket : time;
  tv_cumulative_trading_value : option dec;
  tv_comparable : bool;
  tv_fresh : bool;
  tv_trading_halted : bool;
  tv_corporate_action_unresolved : bool
}.
#[export] Instance StockTradingValueObservation_eq_dec :
  EqDecision StockTradingValueObservation.
Proof. solve_decision. Defined.

(** A bucket with seconds or microseconds is refused. *)
(* @ packages/domain/models.py 235-247 StockTradingValueObservation.__post_init__ *)
Definition StockTradingValueObservation_init (stock_id : string) (market_date : date)
    (observed_at : datetime) (time_bucket : time) (cumulative_trading_value : option decimal)
    (comparable fresh trading_halted corporate_action_unresolved : bool)
    : res StockTradingValueObservation :=
  _ ← raise_if (is_empty stock_id) ValueError;
  _ ← require_aware observed_at;
  _ ← raise_if (negb (time_bucket mod minutes 1 =? 0)) ValueError;
  cumulative_trading_value ← finite_nonneg cumulative_trading_value;
  Ok (mk_StockTradingValueObservation stock_id market_date observed_at time_bucket
        cumulative_trading_value comparable fresh trading_halted
        corporate_action_unresolved).

(** ** [packages/domain/coverage.py] *)

(* @ packages/domain/coverage.py 10-13 CoverageStatus *)
Inductive CoverageStatus := SUFFICIENT | PARTIAL | INSUFFICIENT.
#[export] Instance CoverageStatus_eq_dec : EqDecision CoverageStatus.
Proof. solve_decision. Defined.

(* @ packages/domain/coverage.py 10-13 CoverageStatus *)
Definition CoverageStatus_value (s : CoverageStatus) : string :=
  match s with
  | SUFFICIENT => "SUFFICIENT" | PARTIAL => "PARTIAL" | INSUFFICIENT => "INSUFFICIENT"
  end.

(* @ packages/domain/coverage.py 16-21 CoveragePart *)
Record CoveragePart := mk_CoveragePart {
  cp_observed_count : Z;
  cp_total_count : Z;
  cp_count_ratio : option dec;
  cp_observed_weight_ratio : option dec
}.

(* @ packages/domain/coverage.py 51-57 CoveragePart._ratio *)
Definition coverage_ratio (numerator denominator : Z) : res (option dec) :=
  if denominator =? 0 then Ok None
  else q ← ddiv 50 (dec_of_Z numerator) (dec_of_Z denominator); Ok (Some q).

(** [a != b] on optional decimals. *)
Definition opt_dec_eqb (a b : option dec) : bool :=
  match a, b with
  | Some x, Some y => deq x y
  | None, None => true
  | _, _ => false
  end.

(* @ packages/domain/coverage.py 23-34 CoveragePart.__post_init__ *)
Definition CoveragePart_init (observed_count total_count : Z) (count_ratio : option decimal)
    (observed_weight_ratio : option decimal) : res CoveragePart :=
  _ ← raise_if ((observed_count <? 0) || (total_count <? 0)) ValueError;
  _ ← raise_if (total_count <? observed_count) ValueError;
  expected_ratio ← coverage_ratio observed_count total_count;
  match count_ratio with
  | Some (Infinity _) | Some NaN => Raise ValueError
  | _ =>
      let ratio := match count_ratio with Some (Finite d) => Some d | _ => None end in
      _ ← raise_if (negb (opt_dec_eqb ratio expected_ratio)) ValueError;
      observed_weight_ratio ← finite_unit observed_weight_ratio;
      Ok (mk_CoveragePart observed_count total_count ratio observed_weight_ratio)
  end.

(* @ packages/domain/coverage.py 36-49 CoveragePart.from_counts *)
Definition CoveragePart_from_counts (observed_count total_count : Z)
    (observed_weight_ratio : option decimal) : res CoveragePart :=
  ratio ← coverage_ratio observed_count total_count;
  CoveragePart_init observed_count total_count (Finite <$> ratio) observed_weight_ratio.

(* @ packages/domain/coverage.py 72-76 Coverage *)
Record Coverage := mk_Coverage {
  cov_status : CoverageStatus;
  cov_core : CoveragePart;
  cov_related : CoveragePart
}.

(** ** [packages/domain/state.py] *)

(* @ packages/domain/state.py 9-14 LifecycleStatus *)
Inductive LifecycleStatus := CANDIDATE | ACTIVE | WEAKENING | CLOSED | DISCARDED.
#[export] Instance LifecycleStatus_eq_dec : EqDecision LifecycleStatus.
Proof. solve_decision. Defined.

(* @ packages/domain/state.py 9-14 LifecycleStatus *)
Definition LifecycleStatus_value (s : LifecycleStatus) : string :=
  match s with
  | CANDIDATE => "CANDIDATE" | ACTIVE => "ACTIVE" | WEAKENING => "WEAKENING"
  | CLOSED => "CLOSED" | DISCARDED => "DISCARDED"
  end.

(* @ packages/domain/state.py 17-20 ReconciliationStatus *)
Inductive ReconciliationStatus := REC_PENDING | MATCHED | UNMATCHED.
#[export] Instance ReconciliationStatus_eq_dec : EqDecision ReconciliationStatus.
Proof. solve_decision. Defined.

(* @ packages/domain/state.py 17-20 ReconciliationStatus *)
Definition ReconciliationStatus_value (s : ReconciliationStatus) : string :=
  match s with
  | REC_PENDING => "PENDING" | MATCHED => "MATCHED" | UNMATCHED => "UNMATCHED"
  end.

(* @ packages/domain/state.py 23-25 ReviewStatus *)
Inductive ReviewStatus := REV_PENDING | RESOLVED.
#[export] Instance ReviewStatus_eq_dec : EqDecision ReviewStatus.
Proof. solve_decision. Defined.

(* @ packages/domain/state.py 23-25 ReviewStatus *)
Definition ReviewStatus_value (s : ReviewStatus) : string :=
  match s with REV_PENDING => "PENDING" | RESOLVED => "RESOLVED" end.

(* @ packages/domain/state.py 28-31 StateAxis *)
Inductive StateAxis := AXIS_LIFECYCLE | AXIS_RECONCILIATION | AXIS_REVIEW.
#[export] Instance StateAxis_eq_dec : EqDecision StateAxis.
Proof. solve_decision. Defined.

(* @ packages/domain/state.py 38-53 _LIFECYCLE_TARGETS *)
Definition lifecycle_targets (s : LifecycleStatus) : list LifecycleStatus :=
  match s with
  | CANDIDATE => [ACTIVE; DISCARDED]
  | ACTIVE => [WEAKENING; CLOSED]
  | WEAKENING => [ACTIVE; CLOSED]
  | CLOSED => []
  | DISCARDED => []
  end.

(* @ packages/domain/state.py 55-64 _RECONCILIATION_TARGETS *)
Definition reconciliation_targets (s : ReconciliationStatus) : list ReconciliationStatus :=
  match s with
  | REC_PENDING => [MATCHED; UNMATCHED]
  | MATCHED => []
  | UNMATCHED => [MATCHED]
  end.

(* @ packages/domain/state.py 66-70 _REVIEW_TARGETS *)
Definition review_targets (s : option ReviewStatus) : list ReviewStatus :=
  match s with
  | None => [REV_PENDING]
  | Some REV_PENDING => [RESOLVED]
  | Some RESOLVED => []
  end.

(* @ packages/domain/state.py 72-77 StateTransition *)
Record StateTransition := mk_StateTransition {
  st_axis : StateAxis;
  st_from_status : option string;
  st_to_status : string;
  st_policy_version : string
}.

(* @ packages/domain/state.py 79-81 StateTransition.__post_init__ *)
Definition StateTransition_init (axis : StateAxis) (from_status : option string)
    (to_status policy_version : string) : res StateTransition :=
  _ ← raise_if (is_empty policy_version) ValueError;
  Ok (mk_StateTransition axis from_status to_status policy_version).

(* @ packages/domain/state.py 84-102 _require_transition *)
Definition require_transition {S} `{EqDecision S} (value : S -> string) (axis : StateAxis)
    (current : option S) (target : S) (allowed_targets : list S) (policy_version : string)
    : res StateTransition :=
  _ ← raise_if (negb (bool_decide (target ∈ allowed_targets))) InvalidStateTransition;
  StateTransition_init axis (value <$> current) (value target) policy_version.

(* @ packages/domain/state.py 105-108 allowed_lifecycle_targets *)
Definition allowed_lifecycle_targets (s : LifecycleStatus) : list LifecycleStatus :=
  lifecycle_targets s.

(* @ packages/domain/state.py 111-123 transition_lifecycle *)
Definition transition_lifecycle (current target : LifecycleStatus) (policy_version : string)
    : res StateTransition :=
  require_transition LifecycleStatus_value AXIS_LIFECYCLE (Some current) target
    (lifecycle_targets current) policy_version.

(* @ packages/domain/state.py 126-138 transition_reconciliation *)
Definition transition_reconciliation (current target : ReconciliationStatus)
    (policy_version : string) : res StateTransition :=
  require_transition ReconciliationStatus_value AXIS_RECONCILIATION (Some current) target
    (reconciliation_targets current) policy_version.

(* @ packages/domain/state.py 141-153 transition_review *)
Definition transition_review (current : option ReviewStatus) (target : ReviewStatus)
    (policy_version : string) : res StateTransition :=
  require_transition ReviewStatus_value AXIS_REVIEW current target
    (review_targets current) policy_version.

(** ** Selecting the membership in force *)

(** [t] was superseded by [s]: it took effect earlier, or on the same day with
    earlier knowledge. *)
Definition ms_before (t s : ThemeMembershipSnapshot) : Prop :=
  ms_effective_from t < ms_effective_from s \/
  ms_effective_from t = ms_effective_from s /\
  instant (ms_known_at t) < instant (ms_known_at s).

(** [s] is in [l] once and supersedes everything else in it. *)
Definition newest_of (l : list ThemeMembershipSnapshot) (s : ThemeMembershipSnapshot) : Prop :=
  exists rest, l ≡ₚ s :: rest /\ Forall (fun t => ms_before t s) rest.

Lemma ms_key_le_cases t s :
  pyle (ms_key t) (ms_key s) = true ->
  ms_before t s \/ ms_date_eqb s t = true.
Proof.
  unfold ms_key, pyle, ms_before, ms_date_eqb, dt_eqb, pycmp, prod_pyord, pycmp, prod_pyord,
    lex, Z_pyord, pycmp, datetime_pyord, pycmp, Z_pyord; simpl.
  destruct (Z.compare_spec (ms_effective_from t) (ms_effective_from s));
    destruct (Z.compare_spec (instant (ms_known_at t)) (instant (ms_known_at s)));
    rewrite andb_true_iff, !Z.eqb_eq; intros; try done; lia.
Qed.

Lemma ms_before_not_eqb t s : ms_before t s -> ms_date_eqb s t = false.
Proof.
  unfold ms_before, ms_date_eqb, dt_eqb. rewrite andb_false_iff, !Z.eqb_neq. lia.
Qed.

Lemma ms_before_not_le t s : ms_before t s -> pyle (ms_key s) (ms_key t) = false.
Proof.
  intros H. destruct (pyle (ms_key s) (ms_key t)) eqn:E; [|done].
  apply ms_key_le_cases in E as [E|E]; unfold ms_before, ms_date_eqb, dt_eqb in *;
    rewrite ?andb_true_iff, ?Z.eqb_eq in *; lia.
Qed.

Lemma ms_date_eqb_refl s : ms_date_eqb s s = true.
Proof. unfold ms_date_eqb, dt_eqb. by rewrite !Z.eqb_refl. Qed.

Lemma newest_of_last l s :
  newest_of l s -> last (sorted_by ms_key l) = Some s /\
  length (List.filter (ms_date_eqb s) l) = 1%nat.
Proof.
  intros (rest&Hp&Hrest). rewrite Forall_forall in Hrest. split.
  - destruct (last (sorted_by ms_key l)) as [s'|] eqn:E.
    + assert (s' ∈ s :: rest) as Hin.
      { rewrite <-Hp, <-(elem_of_sorted_by ms_key). by apply last_Some_elem_of. }
      apply elem_of_cons in Hin as [->|Hin]; [done|].
      pose proof (sorted_by_last_max ms_key l s' s E ltac:(rewrite Hp; left)) as Hle.
      by rewrite (ms_before_not_le s' s (Hrest _ Hin)) in Hle.
    + apply last_None in E. pose proof (length_sorted_by ms_key l) as El.
      rewrite E, Hp in El. done.
  - rewrite (filterb_perm _ _ _ Hp). simpl. rewrite ms_date_eqb_refl. simpl. f_equal.
    rewrite filterb_none; [done|].
    intros t Ht. by apply ms_before_not_eqb, Hrest.
Qed.

Lemma last_newest_of l s :
  last (sorted_by ms_key l) = Some s ->
  Z.of_nat (length (List.filter (ms_date_eqb s) l)) <= 1 -> newest_of l s.
Proof.
  intros Hlast Hlen. assert (s ∈ l) as Hs.
  { rewrite <-(elem_of_sorted_by ms_key). by apply last_Some_elem_of. }
  apply elem_of_Permutation in Hs as (rest&Hp). exists rest. split; [done|].
  apply Forall_forall. intros t Ht.
  pose proof (sorted_by_last_max ms_key l s t Hlast ltac:(rewrite Hp; by right)) as Hle.
  apply ms_key_le_cases in Hle as [?|Heq]; [done|]. exfalso.
  rewrite (filterb_perm _ _ _ Hp) in Hlen. simpl in Hlen. rewrite ms_date_eqb_refl in Hlen.
  assert (t ∈ List.filter (ms_date_eqb s) rest) as Hin by (by apply elem_of_filterb).
  destruct (List.filter _ rest); [by apply not_elem_of_nil in Hin|simpl in Hlen; lia].
Qed.

Section select.
Context (theme_id : string) (market_date : date) (decision_at : datetime).
Context (Haware : is_aware decision_at = true).

Let eligible := List.filter (ms_eligible theme_id market_date decision_at).

Lemma select_unfold snapshots :
  select_membership_snapshot snapshots theme_id market_date decision_at =
  match last (sorted_by ms_key (eligible snapshots)) with
  | None => Ok None
  | Some s => if 1 <? Z.of_nat (length (List.filter (ms_date_eqb s) (eligible snapshots)))
              then Raise ValueError else Ok (Some s)
  end.
Proof.
  unfold select_membership_snapshot, require_aware. rewrite Haware. simpl.
  fold eligible. case_match; [|done]. unfold raise_if. by case_match.
Qed.

Lemma select_Some snapshots s :
  select_membership_snapshot snapshots theme_id market_date decision_at = Ok (Some s) <->
  newest_of (eligible snapshots) s.
Proof.
  rewrite select_unfold. split.
  - destruct (last _) as [s'|] eqn:E; [|done].
    destruct (Z.ltb_spec 1 (Z.of_nat (length (List.filter (ms_date_eqb s')
      (eligible snapshots))))); intros [= <-]. by apply last_newest_of.
  - intros [-> H]%newest_of_last. rewrite H. done.
Qed.

Lemma select_None snapshots :
  select_membership_snapshot snapshots theme_id market_date decision_at = Ok None <->
  eligible snapshots = [].
Proof.
  rewrite select_unfold. split; [|by intros ->].
  destruct (last _) eqn:E; [by case_match|]. intros _.
  apply last_None in E. apply Permutation_nil_r. rewrite <-E. symmetry.
  apply sorted_by_perm.
Qed.

Lemma select_total snapshots :
  (exists o, select_membership_snapshot snapshots theme_id market_date decision_at = Ok o) \/
  select_membership_snapshot snapshots theme_id market_date decision_at = Raise ValueError.
Proof. rewrite select_unfold. repeat case_match; eauto. Qed.
End select.

(** [select_membership_snapshot] returns [s] exactly when [s] is eligible
    (its theme, in effect by the market date, known by the decision) and
    supersedes every other eligible snapshot, returns [None] exactly when
    nothing is eligible, and raises [ValueError] in every other case. *)
Theorem select_membership_snapshot_newest snapshots theme_id market_date decision_at :
  is_aware decision_at = true ->
  let r := select_membership_snapshot snapshots theme_id market_date decision_at in
  let eligible := List.filter (ms_eligible theme_id market_date decision_at) snapshots in
  (forall s, r = Ok (Some s) <-> newest_of eligible s) /\
  (r = Ok None <-> eligible = []) /\
  (r = Raise ValueError <-> eligible <> [] /\ forall s, ~ newest_of eligible s).
Proof.
  intros Ha r eligible.
  assert (forall s, r = Ok (Some s) <-> newest_of eligible s) as HS
    by (intros; by apply select_Some).
  assert (r = Ok None <-> eligible = []) as HN by (by apply select_None).
  split_and!; [done|done|]. split.
  - intros E. split; [rewrite <-HN; congruence|]. intros s. rewrite <-HS. congruence.
  - intros [Hne Hno]. destruct (select_total theme_id market_date decision_at Ha snapshots)
      as [[[s|] E]|E]; [by destruct (Hno s); apply HS|by destruct Hne; apply HN|done].
Qed.

(** The selection is point in time: adding snapshots that are not eligible
    (another theme, effective later, or known only after the decision) and
    reordering the input never changes the outcome. *)
Theorem select_membership_snapshot_pit snapshots snapshots' extra theme_id market_date decision_at :
  snapshots' ≡ₚ snapshots ++ extra ->
  Forall (fun s => ms_eligible theme_id market_date decision_at s = false) extra ->
  select_membership_snapshot snapshots' theme_id market_date decision_at =
  select_membership_snapshot snapshots theme_id market_date decision_at.
Proof.
  intros Hp Hextra. unfold select_membership_snapshot at 1 2.
  destruct (is_aware decision_at) eqn:Ha; [|unfold require_aware; by rewrite Ha].
  fold (select_membership_snapshot snapshots' theme_id market_date decision_at).
  fold (select_membership_snapshot snapshots theme_id market_date decision_at).
  set (el := List.filter (ms_eligible theme_id market_date decision_at)).
  assert (el snapshots' ≡ₚ el snapshots) as Hel.
  { unfold el. rewrite (filterb_perm _ _ _ Hp), List.filter_app.
    rewrite (filterb_none _ extra) by (by rewrite Forall_forall in Hextra).
    by rewrite app_nil_r. }
  destruct (select_total theme_id market_date decision_at Ha snapshots) as [[[s|] E]|E].
  - rewrite E. apply select_Some in E as (rest&Hs&Hr); [|done]. apply select_Some; [done|].
    exists rest. by rewrite <-Hs.
  - rewrite E. apply select_None in E; [|done]. apply select_None; [done|]. fold el in E |- *.
    rewrite E in Hel. by apply Permutation_nil_r in Hel.
  - rewrite E. destruct (select_total theme_id market_date decision_at Ha snapshots')
      as [[[s|] E']|E']; [| |done]; exfalso.
    + apply select_Some in E' as (rest&Hs&Hr); [|done].
      assert (newest_of (el snapshots) s) as Hn by (exists rest; by rewrite <-Hel).
      apply select_Some in Hn; [|done]. congruence.
    + apply select_None in E'; [|done]. fold el in E'. rewrite E' in Hel.
      apply Permutation_nil_l in Hel. symmetry in Hel.
      apply select_None in Hel; [|done]. congruence.
Qed.

(** *** Concrete membership history *)

Definition ex_at (h : Z) : datetime := mk_datetime (730000 * us_per_day + hours h) (Some (hours 9)).
Definition ex_snapshot (version : string) (from : date) (h : Z) : ThemeMembershipSnapshot :=
  mk_ThemeMembershipSnapshot "battery" version from (ex_at h)
    [mk_ThemeMember "005930" CORE; mk_ThemeMember "000660" RELATED].

(** The second snapshot supersedes the first; the third is not known yet. *)
Lemma select_membership_snapshot_newest_witness :
  select_membership_snapshot [ex_snapshot "v1" 730000 1; ex_snapshot "v2" 730001 8]
    "battery" 730001 (ex_at 9) = Ok (Some (ex_snapshot "v2" 730001 8)).
Proof.
  apply (select_membership_snapshot_newest
           [ex_snapshot "v1" 730000 1; ex_snapshot "v2" 730001 8] "battery" 730001 (ex_at 9)
           ltac:(reflexivity)).
  exists [ex_snapshot "v1" 730000 1]. split; [apply Permutation_swap|].
  constructor; [left; reflexivity|constructor].
Defined.

Lemma select_membership_snapshot_pit_witness :
  select_membership_snapshot
    [ex_snapshot "v3" 730001 10; ex_snapshot "v1" 730000 1; ex_snapshot "v2" 730001 8]
    "battery" 730001 (ex_at 9) =
  select_membership_snapshot [ex_snapshot "v1" 730000 1; ex_snapshot "v2" 730001 8]
    "battery" 730001 (ex_at 9).
Proof.
  apply (select_membership_snapshot_pit _ _ [ex_snapshot "v3" 730001 10]).
  - apply (Permutation_cons_append [ex_snapshot "v1" 730000 1; ex_snapshot "v2" 730001 8]).
  - constructor; [reflexivity|constructor].
Defined.
