(* ===== verification/Weights.v ===== *)
(** [packages/calculations/policies.py] and [weights.py]: the versioned
    calculation policies, iterative capping of free-float weights, and the
    weighted return. *)
From S2P Require Import Prelude PyTime PyDecimal DecimalFacts Domain.
From Stdlib Require Import QArith Lqa.
#[local] Open Scope Z_scope.

(** ** Policies *)

(* @ packages/calculations/policies.py 10-12 PolicyMaturity *)
Inductive PolicyMaturity := ADOPTED | BACKTEST_PENDING.

(* @ packages/calculations/policies.py 10-12 PolicyMaturity *)
Definition PolicyMaturity_value (m : PolicyMaturity) : string :=
  match m with ADOPTED => "ADOPTED" | BACKTEST_PENDING => "BACKTEST_PENDING" end.

(* @ packages/calculations/policies.py 15-23 ThemeCalculationPolicy *)
Record ThemeCalculationPolicy := mk_ThemeCalculationPolicy {
  tcp_version : string;
  tcp_maturity : PolicyMaturity;
  tcp_maximum_constituent_weight : dec;
  tcp_sufficient_core_weight_ratio : dec;
  tcp_sufficient_related_count_ratio : dec;
  tcp_minimum_core_observations : Z;
  tcp_minimum_total_observations : Z
}.

(** [0 < value <= 1] after [require_finite]. *)
Definition positive_unit (x : decimal) : res dec :=
  d ← require_finite x; _ ← raise_if (negb (dlt dzero d && dle d done_)) ValueError; Ok d.

(* @ packages/calculations/policies.py 25-41 ThemeCalculationPolicy.__post_init__ *)
Definition ThemeCalculationPolicy_init (version : string) (maturity : PolicyMaturity)
    (maximum_constituent_weight sufficient_core_weight_ratio
     sufficient_related_count_ratio : decimal)
    (minimum_core_observations minimum_total_observations : Z)
    : res ThemeCalculationPolicy :=
  _ ← raise_if (is_empty version) ValueError;
  w ← positive_unit maximum_constituent_weight;
  c ← positive_unit sufficient_core_weight_ratio;
  r ← positive_unit sufficient_related_count_ratio;
  _ ← raise_if (minimum_core_observations <? 1) ValueError;
  _ ← raise_if (minimum_total_observations <? minimum_core_observations) ValueError;
  Ok (mk_ThemeCalculationPolicy version maturity w c r minimum_core_observations
        minimum_total_observations).

(* @ packages/calculations/policies.py 44-49 SameTimeBaselinePolicy *)
Record SameTimeBaselinePolicy := mk_SameTimeBaselinePolicy {
  sbp_version : string;
  sbp_maturity : PolicyMaturity;
  sbp_lookback_trading_days : Z;
  sbp_minimum_observations : Z
}.

(* @ packages/calculations/policies.py 51-59 SameTimeBaselinePolicy.__post_init__ *)
Definition SameTimeBaselinePolicy_init (version : string) (maturity : PolicyMaturity)
    (lookback_trading_days minimum_observations : Z) : res SameTimeBaselinePolicy :=
  _ ← raise_if (is_empty version) ValueError;
  _ ← raise_if (lookback_trading_days <? 1) ValueError;
  _ ← raise_if (negb ((1 <=? minimum_observations) &&
                      (minimum_observations <=? lookback_trading_days))) ValueError;
  Ok (mk_SameTimeBaselinePolicy version maturity lookback_trading_days minimum_observations).

(* @ packages/calculations/policies.py 62-72 AttentionPolicy *)
Record AttentionPolicy := mk_AttentionPolicy {
  ap_version : string;
  ap_maturity : PolicyMaturity;
  ap_turnover_multiple_threshold : dec;
  ap_stock_multiple_threshold : dec;
  ap_spread_ratio_threshold : dec;
  ap_minimum_high_interest_stocks : Z;
  ap_weighted_return_threshold : dec;
  ap_minimum_valid_members : Z;
  ap_close_after_absent_trading_days : Z
}.

(* @ packages/calculations/policies.py 74-93 AttentionPolicy.__post_init__ *)
Definition AttentionPolicy_init (version : string) (maturity : PolicyMaturity)
    (turnover_multiple_threshold stock_multiple_threshold spread_ratio_threshold : decimal)
    (minimum_high_interest_stocks : Z) (weighted_return_threshold : decimal)
    (minimum_valid_members close_after_absent_trading_days : Z) : res AttentionPolicy :=
  _ ← raise_if (is_empty version) ValueError;
  turnover ← require_finite turnover_multiple_threshold;
  stock ← require_finite stock_multiple_threshold;
  spread ← require_finite spread_ratio_threshold;
  weighted ← require_finite weighted_return_threshold;
  _ ← raise_if (dle turnover dzero || dle stock dzero) ValueError;
  _ ← raise_if (negb (dlt dzero spread && dle spread done_)) ValueError;
  _ ← raise_if (minimum_high_interest_stocks <? 1) ValueError;
  _ ← raise_if (minimum_valid_members <? 1) ValueError;
  _ ← raise_if (close_after_absent_trading_days <? 1) ValueError;
  Ok (mk_AttentionPolicy version maturity turnover stock spread minimum_high_interest_stocks
        weighted minimum_valid_members close_after_absent_trading_days).

(* @ packages/calculations/policies.py 96-104 THEME_CALCULATION_POLICY_V1 *)
Definition THEME_CALCULATION_POLICY_V1 : ThemeCalculationPolicy :=
  mk_ThemeCalculationPolicy "theme-metrics-2026.08.1" BACKTEST_PENDING
    (mk_dec false 30 (-2)) (mk_dec false 80 (-2)) (mk_dec false 70 (-2)) 2 3.

(* @ packages/calculations/policies.py 106-111 RANKING_BASELINE_POLICY_V1 *)
Definition RANKING_BASELINE_POLICY_V1 : SameTimeBaselinePolicy :=
  mk_SameTimeBaselinePolicy "same-time-turnover-20d-2026.08.1" BACKTEST_PENDING 20 5.

(* @ packages/calculations/policies.py 113-118 ATTENTION_BASELINE_POLICY_V1 *)
Definition ATTENTION_BASELINE_POLICY_V1 : SameTimeBaselinePolicy :=
  mk_SameTimeBaselinePolicy "same-time-attention-60d-2026.08.1" BACKTEST_PENDING 60 40.

(* @ packages/calculations/policies.py 120-130 ATTENTION_POLICY_V1 *)
Definition ATTENTION_POLICY_V1 : AttentionPolicy :=
  mk_AttentionPolicy "attention-interval-2026.08.1" BACKTEST_PENDING
    (mk_dec false 20 (-1)) (mk_dec false 20 (-1)) (mk_dec false 30 (-2)) 2
    (mk_dec false 1 (-2)) 3 10.

(** ** Capped weights *)

(* @ packages/calculations/weights.py 10-13 CapitalizationInput *)
Record CapitalizationInput := mk_CapitalizationInput {
  ci_stock_id : string;
  ci_free_float_market_cap : dec
}.

(* @ packages/calculations/weights.py 15-20 CapitalizationInput.__post_init__ *)
Definition CapitalizationInput_init (stock_id : string) (free_float_market_cap : decimal)
    : res CapitalizationInput :=
  _ ← raise_if (is_empty stock_id) ValueError;
  cap ← require_finite free_float_market_cap;
  _ ← raise_if (dle cap dzero) ValueError;
  Ok (mk_CapitalizationInput stock_id cap).

(* @ packages/calculations/weights.py 23-26 CappedWeight *)
Record CappedWeight := mk_CappedWeight { cw_stock_id : string; cw_weight : dec }.

Definition weight_prec : Z := 60.
Definition residual_prec : Z := 120.

(** The id, if any, that takes the rounding residual: the first in sorted order
    that stays under the cap (a positive residual) or non-negative (a negative
    one). *)
Definition residual_candidates (weights : dict string dec) (effective_cap residual : dec)
    : list string :=
  let shifted stock_id := dadd residual_prec (default dzero (dget stock_id weights)) residual in
  List.filter
    (fun stock_id => if dlt dzero residual then dle (shifted stock_id) effective_cap
                     else dle dzero (shifted stock_id))
    (sorted_list (dkeys weights)).

(* @ packages/calculations/weights.py 29-57 _apply_residual *)
Definition apply_residual (weights : dict string dec) (effective_cap : dec)
    : res (dict string dec) :=
  let residual := dsub residual_prec done_ (dsum residual_prec (dvalues weights)) in
  if deq residual dzero then Ok weights
  else match residual_candidates weights effective_cap residual with
       | [] => Raise ArithmeticError
       | selected :: _ =>
           Ok (dset selected
                 (dadd residual_prec (default dzero (dget selected weights)) residual) weights)
       end.

(** [1/n], rounded up so that [n] weights of that size can reach 1, or the
    configured cap if that is larger. *)
(* @ packages/calculations/weights.py 80-85 calculate_capped_weights *)
Definition effective_cap_of (configured_cap : dec) (n : nat) : res dec :=
  let count := dec_of_Z (Z.of_nat n) in
  inverse_count ← ddiv weight_prec done_ count;
  let inverse_count :=
    if dlt (dmul weight_prec inverse_count count) done_
    then next_plus_pos weight_prec inverse_count else inverse_count in
  Ok (pymax configured_cap inverse_count).

(** One pass: the weights proposed for the remaining ids. *)
(* @ packages/calculations/weights.py 93-106 calculate_capped_weights *)
Definition propose (capitalizations fixed : dict string dec) (remaining_ids : list string)
    : res (dict string dec) :=
  let remaining_mass := dsub weight_prec done_ (dsum weight_prec (dvalues fixed)) in
  let cap stock_id := default dzero (dget stock_id capitalizations) in
  let remaining_capitalization := dsum weight_prec (cap <$> remaining_ids) in
  mapM_res
    (fun stock_id =>
       w ← ddiv weight_prec (dmul weight_prec remaining_mass (cap stock_id))
             remaining_capitalization;
       Ok (stock_id, w))
    remaining_ids.

(** The [while remaining_ids] loop.  Every pass that continues fixes at least
    one id, so [length remaining_ids] passes are enough. *)
(* @ packages/calculations/weights.py 92-120 calculate_capped_weights *)
Fixpoint cap_loop (fuel : nat) (capitalizations : dict string dec) (effective_cap : dec)
    (remaining_ids : list string) (fixed : dict string dec) : res (dict string dec) :=
  match remaining_ids, fuel with
  | [], _ => Ok fixed
  | _, O => Raise OutOfFuel
  | _, S fuel' =>
      proposed ← propose capitalizations fixed remaining_ids;
      let over stock_id := dlt effective_cap (default dzero (dget stock_id proposed)) in
      match List.filter over remaining_ids with
      | [] => Ok (foldl (fun d kv => dset kv.1 kv.2 d) fixed proposed)
      | newly_capped =>
          cap_loop fuel' capitalizations effective_cap
            (List.filter (fun i => negb (bool_decide (i ∈ newly_capped))) remaining_ids)
            (foldl (fun d i => dset i effective_cap d) fixed newly_capped)
      end
  end.

(* @ packages/calculations/weights.py 60-126 calculate_capped_weights *)
Definition calculate_capped_weights (inputs : list CapitalizationInput) (configured_cap : decimal)
    : res (list CappedWeight) :=
  configured_cap ← require_finite configured_cap;
  _ ← raise_if (negb (dlt dzero configured_cap && dle configured_cap done_)) ValueError;
  let ordered := sorted_by ci_stock_id inputs in
  match ordered with
  | [] => Ok []
  | _ =>
      let stock_ids := ci_stock_id <$> ordered in
      _ ← raise_if (negb (bool_decide (NoDup stock_ids))) ValueError;
      effective_cap ← effective_cap_of configured_cap (length ordered);
      let capitalizations :=
        (fun item => (ci_stock_id item, ci_free_float_market_cap item)) <$> ordered in
      fixed ← cap_loop (length stock_ids) capitalizations effective_cap stock_ids [];
      fixed ← apply_residual fixed effective_cap;
      mapM_res
        (fun stock_id => match dget stock_id fixed with
                         | Some w => Ok (mk_CappedWeight stock_id w)
                         | None => Raise KeyError
                         end)
        stock_ids
  end.

(* @ packages/calculations/weights.py 129-142 calculate_weighted_return *)
Definition calculate_weighted_return (weights : list CappedWeight) (returns : dict string dec)
    : res dec :=
  _ ← raise_if (negb (bool_decide
        (sorted_set (cw_stock_id <$> weights) = sorted_set (dkeys returns)))) ValueError;
  terms ← mapM_res
    (fun item => match dget (cw_stock_id item) returns with
                 | Some r => Ok (dmul weight_prec (cw_weight item) r)
                 | None => Raise KeyError
                 end) weights;
  Ok (dsum weight_prec terms).

Definition ex_inputs : list CapitalizationInput :=
  [mk_CapitalizationInput "B" (dec_of_Z 700); mk_CapitalizationInput "A" (dec_of_Z 200);
   mk_CapitalizationInput "C" (dec_of_Z 100)].

Example capped_ex :
  calculate_capped_weights ex_inputs (Finite (mk_dec false 50 (-2)))
  = Ok [mk_CappedWeight "A" (mk_dec false 333333333333333333333333333333333333333333333333333333333333 (-60));
        mk_CappedWeight "B" (mk_dec false 50 (-2));
        mk_CappedWeight "C" (mk_dec false 166666666666666666666666666666666666666666666666666666666667 (-60))].
Proof. vm_compute. reflexivity. Qed.

(** ** Facts *)

Lemma dget_foldl_dset {K V} `{EqDecision K} (l : list (K * V)) d k v :
  dget k (foldl (fun d kv => dset kv.1 kv.2 d) d l) = Some v ->
  dget k d = Some v \/ (k, v) ∈ l.
Proof.
  revert d; induction l as [|[k' v'] l IH]; intros d; simpl; [auto|].
  intros [H|H]%IH; [|right; by right].
  rewrite dget_dset in H. case_decide; simplify_eq; [right; left|auto].
Qed.

Lemma dkeys_foldl_dset {K V} `{EqDecision K} (l : list (K * V)) d k :
  k ∈ dkeys (foldl (fun d kv => dset kv.1 kv.2 d) d l) <-> k ∈ dkeys d \/ k ∈ l.*1.
Proof.
  revert d; induction l as [|[k' v'] l IH]; intros d; simpl.
  { rewrite elem_of_nil. tauto. }
  rewrite IH, elem_of_cons, !elem_of_dkeys, dget_dset. case_decide; [subst|]; naive_solver.
Qed.

Lemma foldl_dset_const {V} (ids : list string) (v : V) d :
  foldl (fun d i => dset i v d) d ids
  = foldl (fun d kv => dset kv.1 kv.2 d) d ((fun i => (i, v)) <$> ids).
Proof. revert d; induction ids; intros d; simpl; auto. Qed.

Lemma cap_loop_step fuel caps cap i rest fixed :
  cap_loop (S fuel) caps cap (i :: rest) fixed =
  (proposed ← propose caps fixed (i :: rest);
   match List.filter (fun i => dlt cap (default dzero (dget i proposed))) (i :: rest) with
   | [] => Ok (foldl (fun d kv => dset kv.1 kv.2 d) fixed proposed)
   | newly_capped =>
       cap_loop fuel caps cap
         (List.filter (fun i => negb (bool_decide (i ∈ newly_capped))) (i :: rest))
         (foldl (fun d i => dset i cap d) fixed newly_capped)
   end).
Proof. reflexivity. Qed.

Section cap_loop.
Context (capitalizations : dict string dec) (effective_cap : dec).
Hypothesis effective_cap_fits : fits weight_prec (dval effective_cap).

(** What the loop keeps true of every weight fixed so far. *)
Definition weight_ok (w : dec) : Prop :=
  (dval w <= dval effective_cap)%Q /\ fits weight_prec (dval w).

Definition has_cap (i : string) : Prop :=
  exists c, dget i capitalizations = Some c /\ (0 < dval c)%Q.

Lemma propose_total fixed remaining :
  remaining <> [] -> Forall has_cap remaining ->
  exists proposed, propose capitalizations fixed remaining = Ok proposed /\
    proposed.*1 = remaining /\
    Forall (fun iw => fits weight_prec (dval iw.2)) proposed.
Proof.
  intros Hne Hcaps. unfold propose. set (mass := dsub _ _ _).
  set (total := dsum _ _).
  assert (0 < dval total)%Q as Htotal.
  { apply dsum_pos; [done| |by destruct remaining].
    apply Forall_fmap. eapply Forall_impl; [exact Hcaps|].
    intros i (c&Hc&Hpos). simpl. by rewrite Hc. }
  clearbody total. clear Hne. induction Hcaps as [|i remaining Hi _ IH]; simpl.
  { exists []. repeat split; constructor. }
  destruct IH as (proposed&->&Hkeys&Hfits).
  destruct (ddiv_rounded weight_prec ltac:(done)
              (dmul weight_prec mass (default dzero (dget i capitalizations))) total)
    as (w&Hw&Hround); [lra|].
  rewrite Hw. eexists; split; [reflexivity|]. split; [simpl; f_equal; exact Hkeys|].
  constructor; [|done]. simpl. by eapply rounded_fits.
Qed.

Lemma proposed_capped (proposed : dict string dec) remaining :
  Forall (fun iw => fits weight_prec (dval iw.2)) proposed ->
  List.filter (fun i => dlt effective_cap (default dzero (dget i proposed))) remaining = [] ->
  NoDup proposed.*1 -> proposed.*1 = remaining ->
  forall i w, (i, w) ∈ proposed -> weight_ok w.
Proof.
  intros Hfits Hnil Hnd Hkeys i w Hin. split.
  - assert (dget i proposed = Some w) as Hget by by apply elem_dget.
    destruct (dlt effective_cap w) eqn:E; [|by apply dlt_false].
    assert (In i []) as []. rewrite <-Hnil. apply filter_In. split.
    + apply list_elem_of_In. rewrite <-Hkeys. apply list_elem_of_fmap. by exists (i, w).
    + by rewrite Hget.
  - rewrite Forall_forall in Hfits. exact (Hfits _ Hin).
Qed.

(** The loop terminates within [length remaining] passes, raises nothing,
    keeps every weight within the cap and covers every id. *)
Lemma cap_loop_spec fuel remaining fixed :
  (length remaining <= fuel)%nat -> NoDup remaining -> Forall has_cap remaining ->
  (forall i w, dget i fixed = Some w -> weight_ok w) ->
  exists result, cap_loop fuel capitalizations effective_cap remaining fixed = Ok result /\
    (forall i w, dget i result = Some w -> weight_ok w) /\
    (forall i, i ∈ dkeys result <-> i ∈ dkeys fixed \/ i ∈ remaining).
Proof.
  revert remaining fixed; induction fuel as [|fuel IH]; intros remaining fixed Hlen Hnd Hcaps Hok.
  all: destruct remaining as [|i0 rest];
    [exists fixed; split_and!; [done|done|intros; rewrite elem_of_nil; tauto]|].
  { simpl in Hlen. lia. }
  set (remaining := i0 :: rest) in *.
  destruct (propose_total fixed remaining ltac:(done) Hcaps) as (proposed&Hprop&Hkeys&Hfits).
  unfold remaining at 1. rewrite cap_loop_step. fold remaining.
  rewrite Hprop. cbn [mbind res_bind].
  destruct (List.filter _ remaining) as [|n0 newly] eqn:Enew.
  - eexists; split; [done|]. split.
    + intros i w [H|H]%dget_foldl_dset; [by eapply Hok|].
      apply (proposed_capped proposed remaining Hfits Enew) with i; [|exact Hkeys|exact H].
      by rewrite Hkeys.
    + intros i. rewrite dkeys_foldl_dset, Hkeys. done.
  - set (newly_capped := n0 :: newly) in *.
    assert (forall i, i ∈ newly_capped -> i ∈ remaining) as Hsub.
    { intros i. rewrite <-Enew, !list_elem_of_In, filter_In. tauto. }
    set (rest' := List.filter (fun i => negb (bool_decide (i ∈ newly_capped))) remaining).
    assert (forall i, i ∈ rest' <-> i ∈ remaining /\ i ∉ newly_capped) as Hrest.
    { intros i. unfold rest'.
      rewrite list_elem_of_In, filter_In, <-list_elem_of_In, negb_true_iff,
        bool_decide_eq_false. done. }
    destruct (IH rest' (foldl (fun d i => dset i effective_cap d) fixed newly_capped))
      as (result&Hres&Hok'&Hdom).
    + assert (length rest' < length remaining)%nat; [|lia].
      unfold rest'. apply filterb_length_lt with n0; [apply Hsub; left|].
      apply negb_false_iff, bool_decide_eq_true. left.
    + by apply NoDup_filterb.
    + apply Forall_forall. intros i [Hi _]%Hrest. rewrite Forall_forall in Hcaps. auto.
    + intros i w. rewrite foldl_dset_const. intros [H|H]%dget_foldl_dset; [by eapply Hok|].
      apply list_elem_of_fmap in H as (j&[= -> ->]&_).
      split; [apply Qle_refl|exact effective_cap_fits].
    + exists result. split; [exact Hres|]. split; [exact Hok'|].
      intros i. rewrite Hdom, foldl_dset_const, dkeys_foldl_dset, Hrest.
      rewrite <-list_fmap_compose. unfold compose; simpl. rewrite list_fmap_id.
      destruct (decide (i ∈ newly_capped)); naive_solver.
Qed.
End cap_loop.

Lemma NoDup_dkeys_foldl_dset {K V} `{EqDecision K} (l : list (K * V)) d :
  NoDup (dkeys d) -> NoDup (dkeys (foldl (fun d kv => dset kv.1 kv.2 d) d l)).
Proof.
  revert d; induction l as [|[k v] l IH]; intros d Hd; simpl; [done|].
  by apply IH, NoDup_dkeys_dset.
Qed.

Lemma cap_loop_NoDup fuel caps cap remaining fixed result :
  NoDup (dkeys fixed) -> cap_loop fuel caps cap remaining fixed = Ok result ->
  NoDup (dkeys result).
Proof.
  revert remaining fixed; induction fuel as [|fuel IH]; intros [|i rest] fixed Hnd;
    try (simpl; intros; by res_step).
  rewrite cap_loop_step. intros (proposed&_&H)%res_bind_ok. revert H.
  destruct (List.filter _ _) as [|n newly]; [intros; res_step; by apply NoDup_dkeys_foldl_dset|].
  apply IH. rewrite foldl_dset_const. by apply NoDup_dkeys_foldl_dset.
Qed.

Lemma effective_cap_total cap n :
  (0 < n)%nat -> exists ecap, effective_cap_of cap n = Ok ecap.
Proof.
  intros Hn. unfold effective_cap_of.
  destruct (ddiv_rounded weight_prec ltac:(done) done_ (dec_of_Z (Z.of_nat n))) as (q&Hq&_).
  { rewrite dval_dec_of_Z. change 0%Q with (inject_Z 0). rewrite inject_Z_injective. lia. }
  rewrite Hq. by eexists.
Qed.

Lemma next_plus_fits d : fits weight_prec (dval (next_plus_pos weight_prec d)).
Proof. unfold next_plus_pos. eapply rounded_fits; [done|]. by apply fix_dec_rounded. Qed.

Lemma effective_cap_fits cap n ecap :
  fits weight_prec (dval cap) -> effective_cap_of cap n = Ok ecap ->
  fits weight_prec (dval ecap) /\ (dval cap <= dval ecap)%Q.
Proof.
  unfold effective_cap_of. intros Hcap H. apply res_bind_ok in H as (q&Hq&H).
  apply ddiv_ok in Hq as [_ Hq]; [|done].
  assert (fits weight_prec (dval q)) as Hfit by (by eapply rounded_fits).
  injection H as <-. set (inv := if dlt _ _ then _ else _).
  assert (fits weight_prec (dval inv)) as Hinv.
  { unfold inv. case_match; [apply next_plus_fits|done]. }
  split; [|apply dle_val, pymax_le_l].
  destruct (pymax_cases cap inv) as [->| ->]; done.
Qed.

(** What [_apply_residual] may return: the same ids, one weight shifted. *)
Lemma apply_residual_cases weights cap result :
  apply_residual weights cap = Ok result ->
  let residual := dsub residual_prec done_ (dsum residual_prec (dvalues weights)) in
  result = weights /\ (dval residual == 0)%Q \/
  exists i w, dget i weights = Some w /\ result = dset i (dadd residual_prec w residual) weights /\
    (if dlt dzero residual then dval (dadd residual_prec w residual) <= dval cap
     else dval residual <= 0 /\ 0 <= dval (dadd residual_prec w residual))%Q.
Proof.
  unfold apply_residual. set (r := dsub _ _ _). cbn zeta.
  destruct (deq r dzero) eqn:Er.
  { intros [= <-]. left. split; [done|]. by apply deq_val in Er. }
  destruct (residual_candidates weights cap r) as [|i rest] eqn:Ec; [done|].
  intros [= <-]. right.
  assert (i ∈ residual_candidates weights cap r) as Hi by (rewrite Ec; left).
  unfold residual_candidates in Hi. apply elem_of_filterb in Hi as [Hkey Hle].
  apply elem_of_sorted_by, elem_of_dkeys in Hkey as [w Hw].
  exists i, w. rewrite Hw in Hle |- *. simpl in *. split_and!; [done|done|].
  destruct (dlt dzero r) eqn:Epos; [by apply dle_val|].
  split; [by apply dlt_false in Epos|]. by apply dle_val in Hle.
Qed.

Lemma apply_residual_capped weights ecap result :
  (forall i w, dget i weights = Some w -> weight_ok ecap w) ->
  apply_residual weights ecap = Ok result ->
  forall i w, dget i result = Some w -> (dval w <= dval ecap)%Q.
Proof.
  intros Hok H. apply apply_residual_cases in H as [[-> _]|(j&v&Hj&->&Hv)].
  { intros i w Hw. by apply (Hok i w). }
  intros i w. rewrite dget_dset. case_decide; [|intros Hw; by apply (Hok i w)].
  intros [= <-]. destruct (dlt dzero _); [done|]. destruct Hv as [Hr _].
  destruct (Hok j v Hj) as [Hle Hfit].
  apply Qle_trans with (dval v); [|done].
  eapply (rounded_mono residual_prec); [done|by apply dadd_rounded| |].
  - by eapply (fits_le weight_prec).
  - lra.
Qed.

Lemma apply_residual_keys weights ecap result i :
  apply_residual weights ecap = Ok result -> i ∈ dkeys result <-> i ∈ dkeys weights.
Proof.
  intros H. apply apply_residual_cases in H as [[-> _]|(j&v&Hj&->&_)]; [done|].
  rewrite dkeys_dset. unfold dmem. by rewrite Hj.
Qed.

(** Valid inputs of the calculation: positive, finite, one per stock. *)
Definition inputs_valid (inputs : list CapitalizationInput) : Prop :=
  NoDup (ci_stock_id <$> inputs) /\
  Forall (fun i => (0 < dval (ci_free_float_market_cap i))%Q) inputs.

Definition capitalizations_of (inputs : list CapitalizationInput) : dict string dec :=
  (fun item => (ci_stock_id item, ci_free_float_market_cap item)) <$>
  sorted_by ci_stock_id inputs.
Definition sorted_ids (inputs : list CapitalizationInput) : list string :=
  ci_stock_id <$> sorted_by ci_stock_id inputs.

Lemma inputs_valid_loop inputs :
  inputs_valid inputs ->
  NoDup (sorted_ids inputs) /\ Forall (has_cap (capitalizations_of inputs)) (sorted_ids inputs).
Proof.
  intros [Hnd Hpos]. unfold sorted_ids, capitalizations_of.
  assert (NoDup (ci_stock_id <$> sorted_by ci_stock_id inputs)) as Hnd'.
  { by rewrite sorted_by_perm. }
  split; [done|]. rewrite Forall_fmap, Forall_forall. intros x Hx. simpl.
  exists (ci_free_float_market_cap x). split.
  - apply elem_dget.
    + unfold dkeys. rewrite <-list_fmap_compose. exact Hnd'.
    + apply list_elem_of_fmap. by exists x.
  - rewrite Forall_forall in Hpos. apply Hpos. by apply elem_of_sorted_by in Hx.
Qed.

(** The weights before the rounding residual is placed. *)
Definition capped_fixed (inputs : list CapitalizationInput) (ecap : dec)
    : res (dict string dec) :=
  cap_loop (length (sorted_ids inputs)) (capitalizations_of inputs) ecap (sorted_ids inputs) [].

Lemma capped_fixed_spec inputs ecap :
  inputs_valid inputs -> fits weight_prec (dval ecap) ->
  exists fixed, capped_fixed inputs ecap = Ok fixed /\
    (forall i w, dget i fixed = Some w -> weight_ok ecap w) /\
    (forall i, i ∈ dkeys fixed <-> i ∈ sorted_ids inputs) /\ NoDup (dkeys fixed).
Proof.
  intros Hin Hfit. destruct (inputs_valid_loop inputs Hin) as [Hnd Hcaps].
  destruct (cap_loop_spec _ ecap Hfit (length (sorted_ids inputs)) (sorted_ids inputs) []
              ltac:(done) Hnd Hcaps) as (fixed&Hfixed&Hok&Hdom); [done|].
  exists fixed. split_and!; [done|done| |].
  - intros i. rewrite Hdom. unfold dkeys; simpl. rewrite elem_of_nil. tauto.
  - eapply cap_loop_NoDup; [|exact Hfixed]. constructor.
Qed.

Lemma valid_cap_test cap :
  (0 < dval cap <= 1)%Q -> dlt dzero cap && dle cap done_ = true.
Proof. intros [??]. apply andb_true_iff. by rewrite dlt_val, dle_val. Qed.

Lemma calculate_capped_weights_nil cap :
  (0 < dval cap <= 1)%Q -> calculate_capped_weights [] (Finite cap) = Ok [].
Proof.
  intros Hcap. unfold calculate_capped_weights. cbn [require_finite mbind res_bind].
  by rewrite valid_cap_test.
Qed.

(** The calculation as its loop followed by the residual step. *)
Lemma calculate_capped_weights_unfold inputs cap :
  inputs_valid inputs -> (0 < dval cap <= 1)%Q -> inputs <> [] ->
  calculate_capped_weights inputs (Finite cap) =
  (ecap ← effective_cap_of cap (length inputs);
   fixed ← capped_fixed inputs ecap;
   fixed ← apply_residual fixed ecap;
   mapM_res (fun i => match dget i fixed with
                      | Some w => Ok (mk_CappedWeight i w)
                      | None => Raise KeyError
                      end) (sorted_ids inputs)).
Proof.
  intros Hin Hcap Hne. destruct (inputs_valid_loop inputs Hin) as [Hnd _].
  unfold calculate_capped_weights. cbn [require_finite mbind res_bind].
  rewrite valid_cap_test by done. cbn [negb raise_if mbind res_bind].
  rewrite <-(length_sorted_by ci_stock_id inputs).
  unfold capped_fixed, sorted_ids, capitalizations_of in *.
  destruct (sorted_by ci_stock_id inputs) eqn:E.
  { exfalso. apply Hne, Permutation_nil_r. rewrite <-(sorted_by_perm ci_stock_id inputs).
    by rewrite E. }
  by rewrite bool_decide_eq_true_2 by done.
Qed.

Lemma weights_lookup_total fixed ids :
  (forall i, i ∈ ids -> i ∈ dkeys fixed) ->
  exists ws, mapM_res (fun i => match dget i fixed with
                      | Some w => Ok (mk_CappedWeight i w)
                      | None => Raise KeyError
                      end) ids = Ok ws.
Proof.
  induction ids as [|i ids IH]; intros H; simpl; [by eexists|].
  destruct (proj1 (elem_of_dkeys i fixed) (H i ltac:(left))) as [w ->]. cbn.
  destruct IH as [ws ->]; [intros; apply H; by right|]. by eexists.
Qed.

Lemma weights_lookup_spec fixed ids ws :
  mapM_res (fun i => match dget i fixed with
                     | Some w => Ok (mk_CappedWeight i w)
                     | None => Raise KeyError
                     end) ids = Ok ws ->
  cw_stock_id <$> ws = ids /\
  Forall (fun w => dget (cw_stock_id w) fixed = Some (cw_weight w)) ws.
Proof.
  intros H%mapM_res_Forall2. induction H as [|i w ids ws Hi _ [IH1 IH2]]; [by split|].
  destruct (dget i fixed) as [v|] eqn:E; [|done]. injection Hi as <-. simpl.
  split; [simpl; f_equal; exact IH1|]. by constructor.
Qed.

(** No weight can take the rounding residual: a positive one lifts every weight over the cap,
    a negative one pulls every weight below zero. *)
Definition unplaceable (weights : dict string dec) (ecap : dec) : Prop :=
  let residual := dsub residual_prec done_ (dsum residual_prec (dvalues weights)) in
  ~ (dval residual == 0)%Q /\
  forall i w, dget i weights = Some w ->
    let shifted := dval (dadd residual_prec w residual) in
    if dlt dzero residual then (dval ecap < shifted)%Q else (shifted < 0)%Q.

Lemma apply_residual_answers weights ecap :
  match apply_residual weights ecap with
  | Ok _ => ~ unplaceable weights ecap
  | Raise e => e = ArithmeticError /\ unplaceable weights ecap
  end.
Proof.
  unfold apply_residual, unplaceable. set (r := dsub _ _ _). cbv zeta. clearbody r.
  destruct (deq r dzero) eqn:Er; [apply deq_val in Er; change (dval dzero) with 0%Q in Er; by intros [? _]|].
  destruct (residual_candidates weights ecap r) as [|i rest] eqn:Ec.
  - split; [done|]. split.
    { intros E. apply not_true_iff_false in Er. apply Er, deq_val. change (dval dzero) with 0%Q. exact E. }
    intros i w Hi. assert (i ∈ sorted_list (dkeys weights)) as Hin by (apply elem_of_sorted_by, elem_of_dkeys; by eexists).
    unfold residual_candidates in Ec.
    assert (~ (if dlt dzero r then dle (dadd residual_prec w r) ecap else dle dzero (dadd residual_prec w r)) = true) as Hn.
    { intros Ht. assert (i ∈ []) as []%elem_of_nil. rewrite <-Ec. apply elem_of_filterb. split; [exact Hin|]. by rewrite Hi. }
    apply not_true_is_false in Hn. destruct (dlt dzero r); apply dle_false in Hn; [exact Hn|].
    by change (dval dzero) with 0%Q in Hn.
  - intros [_ Hall]. assert (i ∈ residual_candidates weights ecap r) as Hi by (rewrite Ec; left).
    unfold residual_candidates in Hi. apply elem_of_filterb in Hi as [Hk Hle].
    apply elem_of_sorted_by, elem_of_dkeys in Hk as [w Hw]. specialize (Hall i w Hw). rewrite Hw in Hle. simpl in Hle.
    destruct (dlt dzero r); apply dle_val in Hle; [|change (dval dzero) with 0%Q in Hle]; lra.
Qed.

(** The split of these inputs leaves a residual that cannot be placed. *)
Definition refused (inputs : list CapitalizationInput) (cap : dec) : Prop :=
  exists ecap fixed, effective_cap_of cap (length inputs) = Ok ecap /\ capped_fixed inputs ecap = Ok fixed /\
                     unplaceable fixed ecap.

(** The outcomes of the calculation on valid inputs. *)
Lemma capped_weights_cases inputs cap :
  inputs_valid inputs -> (0 < dval cap <= 1)%Q -> fits weight_prec (dval cap) ->
  (exists ws, calculate_capped_weights inputs (Finite cap) = Ok ws /\
              cw_stock_id <$> ws = sorted_ids inputs) /\ ~ refused inputs cap \/
  calculate_capped_weights inputs (Finite cap) = Raise ArithmeticError /\ refused inputs cap.
Proof.
  intros Hin Hcap Hfit. destruct inputs as [|x rest] eqn:Ei.
  { left. split; [exists []; split; [by apply calculate_capped_weights_nil|done]|].
    by intros (ecap&fixed&H&_). }
  rewrite <-Ei in *. assert (inputs <> []) as Hne by (by rewrite Ei).
  rewrite calculate_capped_weights_unfold by done.
  destruct (effective_cap_total cap (length inputs)) as [ecap Hecap].
  { rewrite Ei. simpl. lia. }
  destruct (effective_cap_fits _ _ _ Hfit Hecap) as [Hefit _].
  destruct (capped_fixed_spec inputs ecap Hin Hefit) as (fixed&Hfixed&_&Hdom&_).
  rewrite Hecap. cbn [mbind res_bind]. rewrite Hfixed. cbn [mbind res_bind].
  pose proof (apply_residual_answers fixed ecap) as Ha.
  destruct (apply_residual fixed ecap) as [fixed'|e] eqn:Er.
  - left. split.
    + destruct (weights_lookup_total fixed' (sorted_ids inputs)) as [ws Hws].
      * intros i Hi. by rewrite (apply_residual_keys _ _ _ i Er), Hdom.
      * exists ws. split; [exact Hws|]. by apply weights_lookup_spec in Hws as [? _].
    + intros (ecap'&fixed0&E1&E2&H). rewrite Hecap in E1. injection E1 as <-. rewrite Hfixed in E2. injection E2 as <-. by apply Ha.
  - right. cbn [mbind res_bind]. destruct Ha as [-> Ha]. split; [done|]. by exists ecap, fixed.
Qed.

(** ** Theorems *)

(** The weights come back one per stock in stock-id order, and none exceeds
    the effective cap: the configured cap, or [1/n] rounded up where [n] stocks
    could not otherwise reach a total of 1. *)
Theorem capped_weights_bounded inputs cap ws ecap :
  inputs_valid inputs -> (0 < dval cap <= 1)%Q -> fits weight_prec (dval cap) ->
  calculate_capped_weights inputs (Finite cap) = Ok ws ->
  effective_cap_of cap (length inputs) = Ok ecap ->
  cw_stock_id <$> ws = sorted_ids inputs /\
  Forall (fun w => (dval (cw_weight w) <= dval ecap)%Q) ws.
Proof.
  intros Hin Hcap Hfit H Hecap. destruct inputs as [|x rest] eqn:Ei.
  { rewrite calculate_capped_weights_nil in H by done. res_step. by split. }
  rewrite <-Ei in *. assert (inputs <> []) as Hne by (by rewrite Ei).
  rewrite calculate_capped_weights_unfold, Hecap in H by done. cbn [mbind res_bind] in H.
  destruct (effective_cap_fits _ _ _ Hfit Hecap) as [Hefit _].
  destruct (capped_fixed_spec inputs ecap Hin Hefit) as (fixed&Hfixed&Hok&_).
  rewrite Hfixed in H. cbn [mbind res_bind] in H. apply res_bind_ok in H as (fixed'&Hr&H).
  apply weights_lookup_spec in H as [Hids Hws]. split; [done|].
  eapply Forall_impl; [exact Hws|]. intros w Hw. simpl in Hw.
  eapply apply_residual_capped; [exact Hok|exact Hr|exact Hw].
Qed.

(** *** The residual makes the total exactly one *)

(** A weight between 0 and 1 on the grid of 115 decimals. *)
Definition on_grid (w : dec) : Prop :=
  exists z, (dval w == inject_Z z * p10 (-115))%Q /\ 0 <= z <= 10 ^ 115.

Lemma grid_bounds x z :
  (0 <= x <= 1)%Q -> (x == inject_Z z * p10 (-115))%Q -> 0 <= z <= 10 ^ 115.
Proof.
  intros [Hlo Hhi] E. rewrite E in Hlo, Hhi.
  assert (p10 (-115) * inject_Z (10 ^ 115) == 1)%Q as Hone.
  { rewrite <-p10_nonneg_Z, <-p10_add by lia. reflexivity. }
  pose proof (p10_pos (-115)) as Hp. split; rewrite Zle_Qle.
  - apply (Qmult_le_r _ _ _ Hp). change (inject_Z 0) with 0%Q. lra.
  - apply (Qmult_le_r _ _ _ Hp). lra.
Qed.

Lemma on_grid_nonneg w : on_grid w -> (0 <= dval w)%Q.
Proof.
  intros (z&->&Hz&_). apply Qmult_le_0_compat; [|apply Qlt_le_weak, p10_pos].
  change 0%Q with (inject_Z 0). by rewrite <-Zle_Qle.
Qed.

Lemma on_grid_list l :
  Forall on_grid l ->
  exists zs, Forall2 (fun x z => dval x == inject_Z z * p10 (-115))%Q l zs /\
             Forall (fun z => 0 <= z) zs /\
             foldr Z.add 0 zs <= Z.of_nat (length l) * 10 ^ 115 /\ 0 <= foldr Z.add 0 zs /\
             (qsum l == inject_Z (foldr Z.add 0%Z zs) * p10 (-115))%Q.
Proof.
  induction 1 as [|w l Hw _ (zs&H1&H2&H3&H4&H5)].
  { exists []. split_and!; [constructor|constructor|done|done|reflexivity]. }
  destruct Hw as (z&Hz&Hr). exists (z :: zs). cbn [foldr qsum fold_right].
  split_and!; [by constructor|constructor; [lia|done]| |lia|].
  - cbn [length]. rewrite Nat2Z.inj_succ, Z.mul_succ_l. lia.
  - change (fold_right (fun x s => dval x + s)%Q 0%Q l) with (qsum l).
    rewrite Hz, H5, inject_Z_plus. ring.
Qed.

Lemma qsum_perm l k : l ≡ₚ k -> (qsum l == qsum k)%Q.
Proof. induction 1; simpl; lra. Qed.

Lemma qsum_dset i v w (weights : dict string dec) :
  dget i weights = Some w ->
  (qsum (dvalues (dset i v weights)) == qsum (dvalues weights) - dval w + dval v)%Q.
Proof.
  induction weights as [|[j u] d IH]; [done|]. cbn [dget dset].
  case_decide; [intros [= ->]|intros Hi]; rewrite !dvalues_cons, !qsum_cons; [lra|].
  rewrite (IH Hi). lra.
Qed.

Lemma grid_sum_bound n : Z.of_nat n <= 10000 -> Z.of_nat n * 10 ^ 115 <= 10 ^ 119.
Proof. intros H. change (10 ^ 119) with (10000 * 10 ^ 115). apply Z.mul_le_mono_nonneg_r; [done|exact H]. Qed.

(** Both the sum and the residual are computed without rounding. *)
Lemma residual_exact (weights : dict string dec) :
  Z.of_nat (length weights) <= 10000 -> Forall on_grid (dvalues weights) ->
  exists zs r, (dval (dsub residual_prec done_ (dsum residual_prec (dvalues weights)))
                == 1 - qsum (dvalues weights))%Q /\
    (1 - qsum (dvalues weights) == inject_Z r * p10 (-115))%Q /\
    r = 10 ^ 115 - zs /\ 0 <= zs <= 10 ^ 119.
Proof.
  intros Hlen Hgrid. destruct (on_grid_list _ Hgrid) as (zs&H1&H2&H3&H4&H5).
  assert (length (dvalues weights) = length weights) as El by apply length_fmap.
  rewrite El in H3. pose proof (grid_sum_bound _ Hlen) as Hb.
  exists (foldr Z.add 0 zs), (10 ^ 115 - foldr Z.add 0 zs).
  assert (dval (dsum residual_prec (dvalues weights)) == qsum (dvalues weights))%Q as Es.
  { pose proof (dsum_from_exact residual_prec ltac:(done) (-115) zs dzero _ H1 H2 0
                  ltac:(reflexivity) ltac:(done)) as E.
    rewrite E by (change residual_prec with 120; lia).
    change (dval dzero) with (inject_Z 0 * p10 0)%Q. ring_simplify. reflexivity. }
  assert (p10 (-115) * inject_Z (10 ^ 115) == 1)%Q as Hone.
  { rewrite <-p10_nonneg_Z, <-p10_add by lia. reflexivity. }
  assert (1 - qsum (dvalues weights) ==
          inject_Z (10 ^ 115 - foldr Z.add 0%Z zs)%Z * p10 (-115))%Q as Eg.
  { rewrite H5. unfold Z.sub. rewrite inject_Z_plus, inject_Z_opp. lra. }
  split_and!; [|done|done|done|lia].
  eapply Qeq_trans; [eapply (rounded_exact residual_prec ltac:(done)); [by apply dsub_rounded|]|].
  - rewrite Es. change (dval done_) with (inject_Z 1 * p10 0)%Q.
    assert (inject_Z 1 * p10 0 - qsum (dvalues weights) ==
            1 - qsum (dvalues weights))%Q as -> by (rewrite p10_0; ring).
    rewrite Eg. apply fits_grid; [done|]. change residual_prec with 120. lia.
  - rewrite Es. change (dval done_) with (inject_Z 1 * p10 0)%Q. rewrite p10_0. ring.
Qed.

(** A weight takes the residual without rounding. *)
Lemma shift_exact (weights : dict string dec) i w :
  Z.of_nat (length weights) <= 10000 -> Forall on_grid (dvalues weights) -> dget i weights = Some w ->
  let res := dsub residual_prec done_ (dsum residual_prec (dvalues weights)) in
  (dval res == 1 - qsum (dvalues weights))%Q /\ (dval (dadd residual_prec w res) == dval w + dval res)%Q.
Proof.
  intros Hlen Hgrid Hi res. destruct (residual_exact weights Hlen Hgrid) as (zs&r&Er&Eg&Hr&Hz). fold res in Er.
  split; [exact Er|].
  assert (on_grid w) as (z&Hwz&Hzb).
  { rewrite Forall_forall in Hgrid. apply Hgrid. unfold dvalues.
    apply list_elem_of_fmap. exists (i, w). split; [done|]. by apply dget_elem. }
  eapply (rounded_exact residual_prec ltac:(done)); [by apply dadd_rounded|].
  assert (dval w + dval res == inject_Z (z + r) * p10 (-115))%Q as ->.
  { rewrite Hwz, Er, Eg, inject_Z_plus. ring. }
  apply fits_grid; [done|]. change residual_prec with 120. lia.
Qed.

Lemma apply_residual_total (weights : dict string dec) ecap result :
  Z.of_nat (length weights) <= 10000 -> Forall on_grid (dvalues weights) ->
  apply_residual weights ecap = Ok result -> (qsum (dvalues result) == 1)%Q.
Proof.
  intros Hlen Hgrid H. apply apply_residual_cases in H as [[-> H0]|(i&w&Hi&->&_)].
  - destruct (residual_exact weights Hlen Hgrid) as (zs&r&Er&_). lra.
  - destruct (shift_exact weights i w Hlen Hgrid Hi) as [Er Es]. rewrite (qsum_dset i _ w), Es, Er by done. lra.
Qed.

Lemma weights_lookup_perm (fixed : dict string dec) ids ws :
  NoDup (dkeys fixed) -> NoDup ids -> (forall i, i ∈ dkeys fixed <-> i ∈ ids) ->
  cw_stock_id <$> ws = ids ->
  Forall (fun w => dget (cw_stock_id w) fixed = Some (cw_weight w)) ws ->
  cw_weight <$> ws ≡ₚ dvalues fixed.
Proof.
  intros Hnd Hids Hdom Hws Hget.
  assert (((fun w => (cw_stock_id w, cw_weight w)) <$> ws) ≡ₚ fixed) as Hp.
  { apply NoDup_Permutation.
    - apply NoDup_fmap_1 with fst. rewrite <-list_fmap_compose.
      change (NoDup (cw_stock_id <$> ws)). by rewrite Hws.
    - by apply NoDup_fmap_1 with fst.
    - intros [i w]. rewrite list_elem_of_fmap. split.
      + intros (v&[= -> ->]&Hv). rewrite Forall_forall in Hget. by apply dget_elem, Hget.
      + intros Hin. assert (i ∈ ids) as Hi.
        { apply Hdom. unfold dkeys. apply list_elem_of_fmap. by exists (i, w). }
        rewrite <-Hws in Hi. apply list_elem_of_fmap in Hi as (v&->&Hv).
        exists v. split; [|done]. rewrite Forall_forall in Hget. specialize (Hget v Hv).
        rewrite (elem_dget _ _ _ Hnd Hin) in Hget. by simplify_eq. }
  unfold dvalues. rewrite <-Hp, <-list_fmap_compose. done.
Qed.

Lemma apply_residual_nonneg (weights : dict string dec) ecap result :
  Z.of_nat (length weights) <= 10000 -> Forall on_grid (dvalues weights) ->
  apply_residual weights ecap = Ok result ->
  forall i w, dget i result = Some w -> (0 <= dval w)%Q.
Proof.
  intros Hlen Hgrid H. rewrite Forall_forall in Hgrid.
  assert (forall i w, dget i weights = Some w -> (0 <= dval w)%Q) as Hpos.
  { intros i w Hi. apply on_grid_nonneg, (Hgrid w). unfold dvalues. apply list_elem_of_fmap.
    exists (i, w). split; [done|]. by apply dget_elem. }
  apply apply_residual_cases in H as [[-> _]|(j&v&Hj&->&Hv)]; [done|].
  intros i w. rewrite dget_dset. case_decide; [|apply Hpos]. intros [= <-].
  destruct (dlt dzero _) eqn:Er; [|by destruct Hv].
  apply dlt_val in Er. change (dval dzero) with 0%Q in Er.
  eapply (rounded_nonneg residual_prec ltac:(done)); [by apply dadd_rounded|]. pose proof (Hpos j v Hj). lra.
Qed.

(** *** Concrete inputs *)

(** [ex_inputs] with a cap of one half. *)
Definition ex_cap : dec := mk_dec false 50 (-2).

Lemma ex_inputs_valid : inputs_valid ex_inputs.
Proof.
  split; [|repeat constructor]. apply (bool_decide_unpack _). by vm_compute.
Qed.
Lemma ex_cap_unit : (0 < dval ex_cap <= 1)%Q.
Proof. by split. Qed.
Lemma ex_cap_fits : fits weight_prec (dval ex_cap).
Proof. apply fits_dec; by vm_compute. Qed.

Definition ok_or {A} (d : A) (r : res A) : A := match r with Ok a => a | Raise _ => d end.

Lemma capped_weights_bounded_witness :
  let ws := ok_or [] (calculate_capped_weights ex_inputs (Finite ex_cap)) in
  cw_stock_id <$> ws = ["A"; "B"; "C"]%string /\
  Forall (fun w => (dval (cw_weight w) <= dval ex_cap)%Q) ws.
Proof.
  exact (capped_weights_bounded ex_inputs ex_cap _ ex_cap ex_inputs_valid ex_cap_unit ex_cap_fits
           ltac:(vm_compute; reflexivity) ltac:(vm_compute; reflexivity)).
Defined.
