(* ===== verification/WeightsFacts.v ===== *)
(** That the capped weights of [Weights] total exactly 1, and when they cannot: how far the
    60-digit arithmetic of the split strays, and that the residual step makes up for it. *)
From S2P Require Import Prelude PyTime PyDecimal DecimalFacts Domain Weights.
From Stdlib Require Import QArith Lqa.
#[local] Open Scope Z_scope.

(** ** How far rounding moves a value *)

Lemma rounds_to_near p x y : 1 <= p -> rounds_to p x y -> (x - p10 (1 - p) * x <= y <= x + p10 (1 - p) * x)%Q.
Proof.
  intros Hp [[E1 E2]|(g&z&Hlo&_&Hn&E)]; [rewrite E1, E2; split; lra|].
  pose proof (nearest_bounds _ _ _ (p10_pos g) Hn) as [H1 H2]. rewrite E.
  assert (p10 g <= p10 (1 - p) * x)%Q as Hu.
  { assert (p10 g == p10 (1 - p) * p10 (p - 1 + g))%Q as -> by (rewrite <-p10_add; by replace (1 - p + (p - 1 + g)) with g by lia).
    pose proof (p10_pos (1 - p)). nra. }
  pose proof (p10_pos g). split; lra.
Qed.

Lemma rounded_near p x y : 1 <= p -> (0 <= x)%Q -> rounded p x y -> (x - p10 (1 - p) * x <= y <= x + p10 (1 - p) * x)%Q.
Proof.
  intros Hp Hx [H|H]; [by apply rounds_to_near|].
  pose proof (rounds_to_src_nonneg p _ _ H). assert (x == 0)%Q as E by lra.
  apply rounds_to_near in H; [|done]. rewrite E in *. split; lra.
Qed.

(** The relative error of one operation of 60 digits, and a bound of that of a sum of up to
    10000 terms. *)
Definition eps : Q := p10 (-59).
Definition eta : Q := p10 (-54).

Lemma eps_eta : (0 < eps /\ eta == 100000 * eps /\ eta * inject_Z (10 ^ 54) == 1)%Q.
Proof. by split_and!. Qed.

Lemma small_errors : (1000 * eps <= eta /\ 100000000000000000000 * eta <= 1 /\ eps * 200000 <= 1)%Q.
Proof. split_and!; vm_compute; discriminate. Qed.
Lemma eta_pos : (0 < eta)%Q.
Proof. reflexivity. Qed.
#[local] Opaque eps eta.

Lemma weight_near x y : (0 <= x)%Q -> rounded weight_prec x y -> (x - eps * x <= y <= x + eps * x)%Q.
Proof. by apply rounded_near. Qed.

Lemma qsum_nonneg l : Forall (fun x => 0 <= dval x)%Q l -> (0 <= qsum l)%Q.
Proof. induction 1 as [|x l Hx _ IH]; [apply Qle_refl|]. rewrite qsum_cons. lra. Qed.

(** [d] is [s] up to [t * s]. *)
Definition within (t s d : Q) : Prop := (s - t * s <= d <= s + t * s)%Q.

Lemma within_step t e s b d q : (0 <= q -> 0 <= s -> 0 <= t <= 1 -> 0 < e <= 1 ->
  within e s b -> within t (b + q) d -> within (t + 2 * e) (s + q) d)%Q.
Proof. unfold within. 
  intros Hq Hs Ht He [H1 H2] [H3 H4].
  assert (0 <= e * s)%Q as P1 by (apply Qmult_le_0_compat; lra). assert (0 <= e * q)%Q as P2 by (apply Qmult_le_0_compat; lra).
  assert (0 <= (e * s) * t)%Q as P3 by (apply Qmult_le_0_compat; lra).
  assert (0 <= (e * s) * (1 - t))%Q as P4 by (apply Qmult_le_0_compat; lra).
  assert (0 <= (1 - t) * (b - (s - e * s)))%Q as P5 by (apply Qmult_le_0_compat; lra).
  assert (0 <= (1 + t) * ((s + e * s) - b))%Q as P6 by (apply Qmult_le_0_compat; lra).
  split; lra.
Qed.

Lemma dsum_from_near l a :
  (0 <= dval a)%Q -> Forall (fun x => 0 <= dval x)%Q l -> Z.of_nat (length l) <= 10000 ->
  within (inject_Z (Z.of_nat (length l)) * (2 * eps)) (dval a + qsum l) (dval (dsum_from weight_prec a l)).
Proof.
  intros Ha Hl; revert a Ha. induction Hl as [|x l Hx Hl IH]; intros a Ha Hlen.
  { unfold within. cbn [dsum_from fold_left length qsum fold_right]. change (inject_Z (Z.of_nat 0)) with 0%Q.
    assert (0 * (2 * eps) * (dval a + 0) == 0)%Q as -> by ring. clear Hlen. split; lra. }
  cbn [length] in *. rewrite Nat2Z.inj_succ in *. rewrite qsum_cons. unfold dsum_from. cbn [fold_left].
  pose proof (weight_near (dval a + dval x) _ ltac:(lra) (dadd_rounded weight_prec ltac:(done) a x)) as Hb.
  assert (0 <= dval (dadd weight_prec a x))%Q as Hb0.
  { apply (rounded_nonneg weight_prec ltac:(done) (dval a + dval x)); [by apply dadd_rounded|lra]. }
  pose proof (IH _ Hb0 ltac:(lia)) as Hd. pose proof eps_eta as (He&Heta&Hone).
  pose proof (qsum_nonneg l Hl) as Hq.
  assert (inject_Z (Z.of_nat (length l)) <= 10000)%Q as Hk by (change 10000%Q with (inject_Z 10000); rewrite <-Zle_Qle; lia).
  assert (0 <= inject_Z (Z.of_nat (length l)))%Q as Hk0 by (change 0%Q with (inject_Z 0); rewrite <-Zle_Qle; lia).
  destruct small_errors as (_&_&Hsmall).
  pose proof (within_step (inject_Z (Z.of_nat (length l)) * (2 * eps)) eps (dval a + dval x) _ _ (qsum l)
                Hq ltac:(lra) ltac:(split; nra) ltac:(lra) Hb Hd) as Hw.
  unfold within, dsum_from in *. unfold Z.succ. rewrite inject_Z_plus. change (inject_Z 1) with 1%Q.
  destruct Hw as [Hw1 Hw2]. split; lra.
Qed.

Lemma dsum_near l :
  Forall (fun x => 0 <= dval x)%Q l -> Z.of_nat (length l) <= 10000 -> within eta (qsum l) (dval (dsum weight_prec l)).
Proof.
  intros Hl Hlen. pose proof (dsum_from_near l dzero (Qle_refl _) Hl Hlen) as [H1 H2].
  change (dval dzero) with 0%Q in *. pose proof eps_eta as (He&Heta&_). pose proof (qsum_nonneg l Hl) as Hq.
  assert (inject_Z (Z.of_nat (length l)) <= 10000)%Q as Hk by (change 10000%Q with (inject_Z 10000); rewrite <-Zle_Qle; lia).
  assert (inject_Z (Z.of_nat (length l)) * (2 * eps) * qsum l <= eta * qsum l)%Q as Hle.
  { apply Qmult_le_compat_r; [|done]. rewrite Heta. nra. }
  unfold within, dsum, dsum_from in *. split; lra.
Qed.

(** ** One pass of the split *)

(** The mass is given out in proportion: a share is [m * c / C] up to a few roundings. *)
Lemma share_near (e h x a w C T : Q) :
  (0 < e -> 1000 * e <= h -> 1000 * h <= 1 -> 0 <= x -> 0 <= w -> 0 < C ->
   x - e * x <= a <= x + e * x -> C - h * C <= T <= C + h * C ->
   a - e * a <= w * T <= a + e * a ->
   x - 2 * h * x <= w * C <= x + 2 * h * x)%Q.
Proof.
  intros He Hh Hh1 Hx Hw HC [Ha1 Ha2] [HT1 HT2] [Hw1 Hw2].
  assert (0 <= e * e * x)%Q as P0 by (apply Qmult_le_0_compat; [apply Qmult_le_0_compat|]; lra).
  assert (0 <= e * (x + e * x - a))%Q as P1 by (apply Qmult_le_0_compat; lra).
  assert (0 <= (1 - e) * (a - (x - e * x)))%Q as P2 by (apply Qmult_le_0_compat; lra).
  assert (0 <= w * (T - (C - h * C)))%Q as P3 by (apply Qmult_le_0_compat; lra).
  assert (0 <= w * (C + h * C - T))%Q as P4 by (apply Qmult_le_0_compat; lra).
  assert (0 <= x * (h - 1000 * e))%Q as P5 by (apply Qmult_le_0_compat; lra).
  assert (0 <= (x * h) * (1 - 1000 * h))%Q as P6 by (apply Qmult_le_0_compat; [apply Qmult_le_0_compat|]; lra).
  assert (0 <= (x * e) * (1 - 1000 * e))%Q as P7 by (apply Qmult_le_0_compat; [apply Qmult_le_0_compat|]; lra).
  assert (0 <= x * e)%Q as P8 by (apply Qmult_le_0_compat; lra).
  assert (0 <= x * h)%Q as P9 by (apply Qmult_le_0_compat; lra).
  assert (0 <= (x * h) * h)%Q as P10 by (apply Qmult_le_0_compat; lra).
  split.
  - assert ((x - 2 * h * x) * (1 + h) <= (w * C) * (1 + h))%Q as Hle by lra.
    apply Qmult_le_r in Hle; [exact Hle|lra].
  - assert ((w * C) * (1 - h) <= (x + 2 * h * x) * (1 - h))%Q as Hle by lra.
    apply Qmult_le_r in Hle; [exact Hle|lra].
Qed.

Section split.
Context (capitalizations : dict string dec) (ecap : dec).

Definition cap_of (i : string) : dec := default dzero (dget i capitalizations).

(** What is given out in a pass. *)
Definition mass_of (fixed : dict string dec) : Q := dval (dsub weight_prec done_ (dsum weight_prec (dvalues fixed))).

Lemma propose_near fixed remaining proposed :
  propose capitalizations fixed remaining = Ok proposed -> (0 <= mass_of fixed)%Q ->
  Forall (fun i => 1 <= dval (cap_of i))%Q remaining -> remaining <> [] -> Z.of_nat (length remaining) <= 10000 ->
  proposed.*1 = remaining /\
  let total := qsum (cap_of <$> remaining) in
  forall i w, (i, w) ∈ proposed ->
    let share := (mass_of fixed * dval (cap_of i))%Q in
    (share - 2 * eta * share <= dval w * total <= share + 2 * eta * share)%Q.
Proof.
  intros H Hm Hcaps Hne Hlen. cbv zeta. unfold propose in H. fold (mass_of fixed) in *.
  change (fun stock_id => default dzero (dget stock_id capitalizations)) with cap_of in H.
  set (T := dsum weight_prec (cap_of <$> remaining)) in H.
  assert (Forall (fun x => 0 <= dval x)%Q (cap_of <$> remaining)) as Hpos.
  { apply Forall_fmap. eapply Forall_impl; [exact Hcaps|]. intros i Hi. cbn in *. lra. }
  pose proof (dsum_near (cap_of <$> remaining) Hpos ltac:(by rewrite length_fmap)) as HT. fold T in HT.
  set (C := qsum (cap_of <$> remaining)) in *.
  assert (1 <= C)%Q as HC.
  { unfold C. destruct remaining as [|i rest]; [done|]. rewrite fmap_cons, qsum_cons.
    apply Forall_cons in Hcaps as [Hi _]. rewrite fmap_cons in Hpos. apply Forall_cons in Hpos as [_ Hr].
    pose proof (qsum_nonneg _ Hr). lra. }
  clearbody C T. clear Hpos Hne Hlen.
  revert proposed H. induction Hcaps as [|i l Hi _ IH]; intros proposed H.
  { injection H as <-. split; [done|]. by intros ? ? ?%elem_of_nil. }
  cbn [mapM_res mbind res_bind] in H. apply res_bind_ok in H as (iw&Hw&H). apply res_bind_ok in H as (rest&Hr&[= <-]).
  apply res_bind_ok in Hw as (w&Hw&[= <-]). destruct (IH rest Hr) as [Hk Hall].
  split; [by rewrite fmap_cons, Hk|]. intros j v [[= -> ->]|Hj]%elem_of_cons; [|by apply Hall].
  apply (ddiv_ok weight_prec) in Hw as [HTne Hw]; [|done].
  pose proof (dmul_rounded weight_prec ltac:(done) (dsub weight_prec done_ (dsum weight_prec (dvalues fixed))) (cap_of i)) as Ha.
  fold (mass_of fixed) in Ha. set (a := dval (dmul _ _ _)) in *. cbn in Hi.
  assert (0 <= mass_of fixed * dval (cap_of i))%Q as Hx by (apply Qmult_le_0_compat; lra).
  pose proof eps_eta as (He&_&_). destruct small_errors as (Heh&Hh'&_). assert (1000 * eta <= 1)%Q as Hh by lra.
  assert (0 < dval T)%Q as HTpos by (destruct HT; nra).
  assert (0 <= a)%Q as Ha0 by (eapply (rounded_nonneg weight_prec ltac:(done)); [exact Ha|exact Hx]).
  assert (0 <= a / dval T)%Q as Hq by (apply Qle_shift_div_l; lra).
  assert (0 <= dval w)%Q as Hw0 by (eapply (rounded_nonneg weight_prec ltac:(done)); [exact Hw|exact Hq]).
  apply weight_near in Ha; [|exact Hx]. apply weight_near in Hw as [Hw1 Hw2]; [|exact Hq].
  assert (a / dval T * dval T == a)%Q as Ea by (field; lra).
  assert (eps * (a / dval T) * dval T == eps * a)%Q as Eb by (field; lra).
  set (q := (a / dval T)%Q) in *. clearbody q.
  apply (share_near eps eta _ a (dval w) C (dval T) He Heh Hh Hx Hw0 ltac:(lra) Ha HT). split.
  - apply (Qmult_le_r _ _ (dval T) HTpos) in Hw1. lra.
  - apply (Qmult_le_r _ _ (dval T) HTpos) in Hw2. lra.
Qed.

(** ** The whole split *)

Lemma foldl_fresh {V} (l d : dict string V) :
  NoDup (dkeys d ++ l.*1) -> foldl (fun d kv => dset kv.1 kv.2 d) d l = d ++ l.
Proof.
  revert d; induction l as [|[k v] l IH]; intros d Hnd; [by rewrite app_nil_r|]. cbn [foldl fst snd fmap list_fmap] in *.
  assert (dget k d = None) as Hk.
  { destruct (dget k d) as [x|] eqn:Ex; [|done]. exfalso. apply NoDup_app in Hnd as (_&Hdis&_).
    apply (Hdis k); [apply elem_of_dkeys; by eexists|by left]. }
  rewrite dset_absent by done. rewrite IH; [by rewrite <-app_assoc|].
  unfold dkeys in *. by rewrite fmap_app, <-app_assoc.
Qed.

Lemma qsum_app l k : (qsum (l ++ k) == qsum l + qsum k)%Q.
Proof. induction l as [|x l IH]; cbn [app]; [change (qsum []) with 0%Q; lra|]. rewrite !qsum_cons, IH. lra. Qed.

Lemma qsum_partition (f : string -> dec) (P : string -> bool) l :
  (qsum (f <$> l) == qsum (f <$> List.filter P l) + qsum (f <$> List.filter (fun i => negb (P i)) l))%Q.
Proof.
  induction l as [|i l IH]; [change (qsum (f <$> [])) with 0%Q; cbn [List.filter fmap list_fmap]; change (qsum []) with 0%Q; lra|]. cbn [List.filter]. destruct (P i); cbn [negb]; rewrite !fmap_cons, !qsum_cons, IH; lra.
Qed.

Lemma qsum_const (b : Q) l : Forall (fun w => dval w == b)%Q l -> (qsum l == inject_Z (Z.of_nat (length l)) * b)%Q.
Proof.
  induction 1 as [|x l Hx _ IH]; [change (0 == 0 * b)%Q; ring|]. rewrite qsum_cons, Hx, IH. cbn [length].
  rewrite Nat2Z.inj_succ. unfold Z.succ. rewrite inject_Z_plus. change (inject_Z 1) with 1%Q. ring.
Qed.

Lemma qsum_below (f : string -> dec) (b k : Q) l :
  (forall i, i ∈ l -> (b <= k * dval (f i))%Q) -> (inject_Z (Z.of_nat (length l)) * b <= k * qsum (f <$> l))%Q.
Proof.
  induction l as [|i l IH]; intros H; [change (0 * b <= k * 0)%Q; lra|]. rewrite fmap_cons, qsum_cons. cbn [length].
  rewrite Nat2Z.inj_succ. unfold Z.succ. rewrite inject_Z_plus. change (inject_Z 1) with 1%Q.
  pose proof (H i ltac:(left)). specialize (IH ltac:(intros; apply H; by right)). lra.
Qed.

Lemma qsum_shares (lo hi C : Q) (proposed : dict string dec) :
  (forall i w, (i, w) ∈ proposed -> lo * dval (cap_of i) <= dval w * C <= hi * dval (cap_of i))%Q ->
  (lo * qsum (cap_of <$> proposed.*1) <= qsum (dvalues proposed) * C <= hi * qsum (cap_of <$> proposed.*1))%Q.
Proof.
  induction proposed as [|[i w] l IH]; intros H; [change (lo * 0 <= 0 * C <= hi * 0)%Q; split; lra|].
  rewrite dvalues_cons, !fmap_cons, !qsum_cons. cbn [fst snd].
  destruct (H i w ltac:(left)) as [Hi1 Hi2]. destruct IH as [IH1 IH2]; [intros; apply H; by right|]. split; lra.
Qed.

Lemma count_Q n : Z.of_nat n <= 10000 -> (0 <= inject_Z (Z.of_nat n) <= 10000)%Q.
Proof.
  intros H. change 0%Q with (inject_Z 0). change 10000%Q with (inject_Z 10000). rewrite <-!Zle_Qle. lia.
Qed.
Lemma count_app n k : (inject_Z (Z.of_nat (n + k)) == inject_Z (Z.of_nat n) + inject_Z (Z.of_nat k))%Q.
Proof. by rewrite Nat2Z.inj_add, inject_Z_plus. Qed.

(** What is left after [k] stocks took the cap. *)
Definition left_over (k : nat) : Q := (1 - inject_Z (Z.of_nat k) * dval ecap)%Q.

Lemma mass_near fixed :
  (0 <= dval ecap)%Q -> Forall (fun w => dval w == dval ecap)%Q (dvalues fixed) -> Z.of_nat (length fixed) <= 10000 ->
  (2 * eta <= left_over (length fixed))%Q ->
  (left_over (length fixed) - 2 * eta <= mass_of fixed <= left_over (length fixed) + 2 * eta)%Q.
Proof.
  intros HE Hall Hlen Hm.
  assert (Forall (fun w => 0 <= dval w)%Q (dvalues fixed)) as Hpos by (eapply Forall_impl; [exact Hall|]; intros w Hw; cbn in Hw; lra).
  assert (length (dvalues fixed) = length fixed) as El by apply length_fmap.
  pose proof (dsum_near _ Hpos ltac:(by rewrite El)) as [Hs1 Hs2]. rewrite (qsum_const (dval ecap)), El in Hs1, Hs2 by done.
  pose proof (count_Q _ Hlen) as Hk. unfold left_over, mass_of in *. set (k := inject_Z (Z.of_nat (length fixed))) in *.
  pose proof (dsub_rounded weight_prec ltac:(done) done_ (dsum weight_prec (dvalues fixed))) as Hr.
  set (F := dval (dsum weight_prec (dvalues fixed))) in *. change (dval done_) with (inject_Z 1 * p10 0)%Q in Hr.
  assert (inject_Z 1 * p10 0 - F == 1 - F)%Q as E1 by (rewrite p10_0; ring). rewrite E1 in Hr.
  destruct small_errors as (Heh&Hh&_). pose proof eps_eta as (He&Heta&_).
  assert (0 <= k * dval ecap)%Q as HkE by (apply Qmult_le_0_compat; lra).
  assert (0 <= eta * (1 - k * dval ecap))%Q as Hp by (apply Qmult_le_0_compat; lra).
  assert (0 <= 1 - F)%Q as HF by lra. apply weight_near in Hr; [|exact HF].
  assert (0 <= F)%Q as HF0 by (assert (0 <= (1 - eta) * (k * dval ecap))%Q by (apply Qmult_le_0_compat; lra); lra).
  assert (0 <= eps * F)%Q as Hp2 by (apply Qmult_le_0_compat; lra). lra.
Qed.

(** In a pass the stocks still in play hold at least this share of what is left, per unit of
    capitalization: a little less with every stock that took the cap. *)
Definition least_rate (k : nat) : Q := ((10000000000 - 10 * inject_Z (Z.of_nat k)) * eta)%Q.

Lemma least_rate_bounds k : Z.of_nat k <= 10000 -> (9000000000 * eta <= least_rate k <= 10000000000 * eta)%Q.
Proof.
  intros Hk. pose proof (count_Q _ Hk) as [H1 H2]. pose proof eta_pos as Heta. unfold least_rate.
  assert (0 <= eta * inject_Z (Z.of_nat k))%Q by (apply Qmult_le_0_compat; lra).
  assert (0 <= eta * (10000 - inject_Z (Z.of_nat k)))%Q by (apply Qmult_le_0_compat; lra). split; lra.
Qed.

(** When the [K] of a pass with mass [M] exceed the cap, what they take is no more than their
    part, so the rest keeps its rate. *)
Lemma rate_kept (m M CK C' n E h s : Q) :
  (0 < h -> 1000 * h <= 1 -> 0 <= m <= 1 -> M <= m + 2 * h -> 1 <= CK + C' -> 0 <= CK -> 0 <= C' -> 0 <= M ->
   s * (CK + C') <= m -> n * (E * (CK + C')) <= (M + 2 * h * M) * CK -> s * C' - 5 * h <= m - n * E)%Q.
Proof.
  intros Hh Hh1 [Hm0 Hm1] HM HC HK HC' HM0 Hs Htake.
  assert (0 <= h * (m + 2 * h - M))%Q as P1 by (apply Qmult_le_0_compat; lra).
  assert (0 <= h * (1 - m))%Q as P2 by (apply Qmult_le_0_compat; lra).
  assert (0 <= h * (1 - 1000 * h))%Q as P3 by (apply Qmult_le_0_compat; lra).
  assert (M + 2 * h * M <= m + 5 * h)%Q as P4 by lra.
  assert (0 <= (m + 5 * h - (M + 2 * h * M)) * CK)%Q as P5 by (apply Qmult_le_0_compat; lra).
  assert (0 <= (m - s * (CK + C')) * C')%Q as P6 by (apply Qmult_le_0_compat; lra).
  assert (0 <= h * C')%Q as P7 by (apply Qmult_le_0_compat; lra).
  assert ((s * C' - 5 * h) * (CK + C') <= (m - n * E) * (CK + C'))%Q as Hle by lra.
  apply Qmult_le_r in Hle; [exact Hle|lra].
Qed.

(** The last pass gives everybody a real weight, and all of them 1 but for the rounding. *)
Lemma last_pass (m M C W h s : Q) :
  (0 < h -> 1000 * h <= 1 -> 0 <= m <= 1 -> m - 2 * h <= M <= m + 2 * h -> 1 <= C -> 0 <= M ->
   (M - 2 * h * M) * C <= W * C <= (M + 2 * h * M) * C -> m - 5 * h <= W <= m + 5 * h)%Q.
Proof.
  intros Hh Hh1 [Hm0 Hm1] [HM1 HM2] HC HM0 [H1 H2].
  apply Qmult_le_r in H1; [|lra]. apply Qmult_le_r in H2; [|lra].
  assert (0 <= h * (m + 2 * h - M))%Q as P1 by (apply Qmult_le_0_compat; lra).
  assert (0 <= h * (1 - m))%Q as P2 by (apply Qmult_le_0_compat; lra).
  assert (0 <= h * (1 - 1000 * h))%Q as P3 by (apply Qmult_le_0_compat; lra).
  split; lra.
Qed.

Lemma real_weight (m M C w h s : Q) :
  (0 < h -> 1000 * h <= 1 -> m - 2 * h <= M -> 1 <= C -> s * C <= m -> 9000000000 * h <= s ->
   M - 2 * h * M <= w * C -> 1000000000 * h <= w)%Q.
Proof.
  intros Hh Hh1 HM HC Hs Hs0 Hw.
  assert (0 <= (1 - 2 * h) * (M - (m - 2 * h)))%Q as P1 by (apply Qmult_le_0_compat; lra).
  assert (0 <= (1 - 2 * h) * (m - s * C))%Q as P2 by (apply Qmult_le_0_compat; lra).
  assert (0 <= (s - 9000000000 * h) * C)%Q as P3 by (apply Qmult_le_0_compat; lra).
  assert (0 <= (1 - 2 * h) * ((s - 9000000000 * h) * C))%Q as P4 by (apply Qmult_le_0_compat; lra).
  assert (0 <= h * (C - 1))%Q as P5 by (apply Qmult_le_0_compat; lra).
  assert (0 <= h * h * C)%Q as P6 by (apply Qmult_le_0_compat; [apply Qmult_le_0_compat|]; lra).
  assert (0 <= (h * (1 - 1000 * h)) * C)%Q as P7 by (apply Qmult_le_0_compat; [apply Qmult_le_0_compat|]; lra).
  assert (0 <= h * h)%Q as P8 by (apply Qmult_le_0_compat; lra).
  assert ((1000000000 * h) * C <= w * C)%Q as Hle by lra.
  apply Qmult_le_r in Hle; [exact Hle|lra].
Qed.

(** What the loop keeps true while stocks [remaining] are in play. *)
Record in_play (fixed : dict string dec) (remaining : list string) : Prop := {
  ip_keys : NoDup (dkeys fixed ++ remaining);
  ip_count : Z.of_nat (length fixed + length remaining) <= 10000;
  ip_caps : Forall (fun i => 1 <= dval (cap_of i))%Q remaining;
  ip_fixed : Forall (fun w => dval w == dval ecap)%Q (dvalues fixed);
  ip_room : (1 + 5 * eta < inject_Z (Z.of_nat (length fixed + length remaining)) * dval ecap)%Q;
  ip_rate : (least_rate (length fixed) * qsum (cap_of <$> remaining) <= left_over (length fixed))%Q
}.

(** Weights that a residual can be added to: real ones, 1 together but for the rounding. *)
Record nearly_one (n : nat) (result : dict string dec) : Prop := {
  no_count : length result = n;
  no_real : Forall (fun w => 1000000000 * eta <= dval w)%Q (dvalues result);
  no_sum : (1 - 5 * eta <= qsum (dvalues result) <= 1 + 5 * eta)%Q
}.

Lemma caps_total remaining :
  Forall (fun i => 1 <= dval (cap_of i))%Q remaining ->
  (0 <= qsum (cap_of <$> remaining))%Q /\ (remaining <> [] -> 1 <= qsum (cap_of <$> remaining))%Q.
Proof.
  induction 1 as [|i l Hi Hl [IH _]]; [split; [apply Qle_refl|done]|]. rewrite fmap_cons, qsum_cons. split; [lra|intros _; lra].
Qed.

Lemma cap_positive fixed remaining : in_play fixed remaining -> (1000000000 * eta <= dval ecap)%Q.
Proof.
  intros [_ Hc _ _ Hr _]. pose proof (count_Q _ Hc) as [Hn0 Hn]. destruct small_errors as (_&Hh&_). pose proof eta_pos as Heta.
  set (n := inject_Z _) in *. destruct (Qlt_le_dec (dval ecap) (1000000000 * eta)) as [Hlt|]; [|done]. exfalso.
  assert (0 <= n * (1000000000 * eta - dval ecap))%Q as P1 by (apply Qmult_le_0_compat; lra).
  assert (0 <= (10000 - n) * eta)%Q as P2 by (apply Qmult_le_0_compat; lra). lra.
Qed.

(** The state of a pass: what is left is real, and the mass is it up to the rounding. *)
Lemma pass_facts fixed remaining :
  in_play fixed remaining -> remaining <> [] ->
  let m := left_over (length fixed) in
  (9000000000 * eta <= least_rate (length fixed) /\ 1 <= qsum (cap_of <$> remaining) /\
   9000000000 * eta <= m <= 1 /\ m - 2 * eta <= mass_of fixed <= m + 2 * eta)%Q.
Proof.
  intros Hip Hne. pose proof (cap_positive _ _ Hip) as Hcap. destruct Hip as [_ Hcount Hcaps Hfixed _ Hrate]. cbv zeta.
  destruct small_errors as (_&Hh&_). pose proof eta_pos as Heta.
  pose proof (least_rate_bounds (length fixed) ltac:(lia)) as [Hl _]. pose proof (proj2 (caps_total _ Hcaps) Hne) as HC.
  set (s := least_rate _) in *. set (C := qsum _) in *.
  assert (0 <= s * (C - 1))%Q as P1 by (apply Qmult_le_0_compat; lra).
  pose proof (count_Q (length fixed) ltac:(lia)) as [Hk0 _].
  assert (0 <= inject_Z (Z.of_nat (length fixed)) * dval ecap)%Q as P2 by (apply Qmult_le_0_compat; lra).
  assert (left_over (length fixed) <= 1)%Q as Hm1 by (unfold left_over; lra).
  assert (9000000000 * eta <= left_over (length fixed))%Q as Hm by lra.
  split; [exact Hl|]. split; [exact HC|]. split; [split; assumption|]. apply mass_near; [lra|exact Hfixed|lia|lra].
Qed.

Lemma last_step fixed remaining proposed :
  in_play fixed remaining -> remaining <> [] -> propose capitalizations fixed remaining = Ok proposed ->
  nearly_one (length fixed + length remaining) (foldl (fun d kv => dset kv.1 kv.2 d) fixed proposed).
Proof.
  intros Hip Hne Hp. pose proof (cap_positive _ _ Hip) as Hcap.
  destruct (pass_facts _ _ Hip Hne) as (Hs&HC&[Hm0 Hm1]&HM1&HM2). destruct Hip as [Hkeys Hcount Hcaps Hfixed _ Hrate].
  destruct small_errors as (_&Hh'&_). pose proof eta_pos as Heta. assert (1000 * eta <= 1)%Q as Hh by lra.
  set (m := left_over (length fixed)) in *. set (s := least_rate (length fixed)) in *.
  destruct (propose_near fixed remaining proposed Hp ltac:(lra) Hcaps Hne ltac:(lia)) as [Hids Hshares].
  set (M := mass_of fixed) in *. set (C := qsum (cap_of <$> remaining)) in *.
  assert (forall i w, (i, w) ∈ proposed -> (M - 2 * eta * M) * dval (cap_of i) <= dval w * C <= (M + 2 * eta * M) * dval (cap_of i))%Q as Hsh.
  { intros i w Hi. destruct (Hshares i w Hi) as [H1 H2]. split; lra. }
  pose proof (qsum_shares _ _ C proposed Hsh) as Hsum. rewrite Hids in Hsum. fold C in Hsum.
  rewrite foldl_fresh by by rewrite Hids. split.
  - by rewrite length_app, <-Hids, length_fmap.
  - unfold dvalues. rewrite fmap_app. apply Forall_app. split.
    + eapply Forall_impl; [exact Hfixed|]. intros w Hw. cbn in *. lra.
    + apply Forall_forall. intros w ([i v]&->&Hi)%list_elem_of_fmap. destruct (Hsh i v Hi) as [H1 _]. cbn.
      assert (1 <= dval (cap_of i))%Q as Hci.
      { rewrite Forall_forall in Hcaps. apply Hcaps. rewrite <-Hids. apply list_elem_of_fmap. exists (i, v). split; [reflexivity|exact Hi]. }
      apply (real_weight m M C _ eta s Heta Hh HM1 HC Hrate Hs).
      assert (0 <= (1 - 2 * eta) * (M - (m - 2 * eta)))%Q as P1 by (apply Qmult_le_0_compat; lra).
      assert (0 <= (M - 2 * eta * M) * (dval (cap_of i) - 1))%Q as P2.
      { apply Qmult_le_0_compat; [|lra]. assert (0 <= M * (1 - 2 * eta))%Q by (apply Qmult_le_0_compat; lra). lra. }
      lra.
  - assert (0 <= m <= 1 /\ 0 <= M)%Q as [Hm HM] by (clear -Hm0 Hm1 HM1 Heta; clearbody m M; split; [split|]; lra).
    pose proof (last_pass m M C (qsum (dvalues proposed)) eta s Heta Hh Hm (conj HM1 HM2) HC HM Hsum) as [H1 H2].
    unfold dvalues in *. rewrite fmap_app, qsum_app, (qsum_const (dval ecap) (fixed.*2)), length_fmap by exact Hfixed.
    unfold m, left_over in H1, H2. split; lra.
Qed.

Section capped.
Context (fixed : dict string dec) (remaining : list string) (proposed : dict string dec).
Context (Hip : in_play fixed remaining) (Hne : remaining <> []) (Hp : propose capitalizations fixed remaining = Ok proposed).
Let over (i : string) : bool := dlt ecap (default dzero (dget i proposed)).

(** The stocks over the cap take no more than their part. *)
Lemma capped_take :
  let newly := List.filter over remaining in
  let M := mass_of fixed in
  (inject_Z (Z.of_nat (length newly)) * (dval ecap * qsum (cap_of <$> remaining)) <= (M + 2 * eta * M) * qsum (cap_of <$> newly))%Q.
Proof.
  cbv zeta. destruct (pass_facts _ _ Hip Hne) as (_&HC&[Hm0 Hm1]&HM1&_). destruct Hip as [Hkeys Hcount Hcaps _ _ _].
  destruct small_errors as (_&Hh&_). pose proof eta_pos as Heta.
  destruct (propose_near fixed remaining proposed Hp ltac:(lra) Hcaps Hne ltac:(lia)) as [Hids Hshares].
  apply qsum_below. intros i [Hi Hover]%elem_of_filterb. unfold over in Hover.
  assert (is_Some (dget i proposed)) as [w Hw] by (apply elem_of_dkeys; unfold dkeys; by rewrite Hids).
  rewrite Hw in Hover. change (dlt ecap w = true) in Hover. apply dlt_val in Hover.
  destruct (Hshares i w (dget_elem _ _ _ Hw)) as [_ H2].
  assert (0 <= (dval w - dval ecap) * qsum (cap_of <$> remaining))%Q as P1 by (apply Qmult_le_0_compat; lra). lra.
Qed.

Lemma capped_step n0 newly :
  List.filter over remaining = n0 :: newly ->
  let rest := List.filter (fun i => negb (bool_decide (i ∈ n0 :: newly))) remaining in
  let fixed' := foldl (fun d i => dset i ecap d) fixed (n0 :: newly) in
  in_play fixed' rest /\ rest <> [] /\ (length fixed' + length rest = length fixed + length remaining)%nat.
Proof.
  intros Hnew. cbv zeta. pose proof capped_take as Htake. cbv zeta in Htake.
  destruct (pass_facts _ _ Hip Hne) as (Hs&HC&[Hm0 Hm1]&HM1&HM2). destruct Hip as [Hkeys Hcount Hcaps Hfixed Hroom Hrate].
  destruct small_errors as (_&Hh'&_). pose proof eta_pos as Heta. assert (1000 * eta <= 1)%Q as Hh by lra.
  rewrite <-Hnew. set (K := List.filter over remaining) in *.
  assert (List.filter (fun i => negb (bool_decide (i ∈ K))) remaining = List.filter (fun i => negb (over i)) remaining) as ->.
  { apply filterb_ext. intros i Hi. f_equal. apply eq_true_iff_eq. rewrite bool_decide_eq_true. unfold K. rewrite elem_of_filterb. naive_solver. }
  set (rest := List.filter _ remaining).
  assert (remaining ≡ₚ K ++ rest) as Hsplit.
  { unfold K, rest. clear. induction remaining as [|i l IH]; [done|]. cbn [List.filter]. destruct (over i); cbn [negb app]; [by rewrite <-IH|].
    rewrite <-Permutation_middle. by rewrite <-IH. }
  assert (length remaining = length K + length rest)%nat as Hlen by by rewrite Hsplit, length_app.
  rewrite foldl_dset_const.
  assert (((fun i => (i, ecap)) <$> K).*1 = K) as EK by (rewrite <-list_fmap_compose; apply list_fmap_id).
  assert (NoDup (dkeys fixed ++ K ++ rest)) as Hnd by by rewrite <-Hsplit.
  rewrite foldl_fresh by (rewrite EK; rewrite app_assoc in Hnd; by apply NoDup_app in Hnd as [? _]).
  set (fixed' := fixed ++ _).
  assert (length fixed' = length fixed + length K)%nat as Hl' by (unfold fixed'; by rewrite length_app, length_fmap).
  assert (length fixed' + length rest = length fixed + length remaining)%nat as Htot by lia.
  assert (Forall (fun i => 1 <= dval (cap_of i))%Q rest) as Hcaps'.
  { apply Forall_forall. intros i [Hi _]%elem_of_filterb. rewrite Forall_forall in Hcaps. by apply Hcaps. }
  assert (1 <= length K)%nat as HK1 by (rewrite Hnew; cbn; lia).
  pose proof (qsum_partition cap_of over remaining) as HCsum. fold K rest in HCsum.
  destruct (caps_total K) as [HCK _].
  { apply Forall_forall. intros i [Hi _]%elem_of_filterb. rewrite Forall_forall in Hcaps. by apply Hcaps. }
  destruct (caps_total rest Hcaps') as [HCR HCR1].
  set (CK := qsum (cap_of <$> K)) in *. set (CR := qsum (cap_of <$> rest)) in *.
  rewrite HCsum in HC, Hrate, Htake.
  assert (left_over (length fixed') == left_over (length fixed) - inject_Z (Z.of_nat (length K)) * dval ecap)%Q as Eleft.
  { unfold left_over. rewrite Hl', count_app. ring. }
  pose proof (rate_kept (left_over (length fixed)) (mass_of fixed) CK CR (inject_Z (Z.of_nat (length K))) (dval ecap) eta
                (least_rate (length fixed)) Heta Hh ltac:(split; lra) HM2 HC HCK HCR ltac:(lra) Hrate Htake) as Hkept.
  rewrite <-Eleft in Hkept.
  assert (rest <> []) as Hrest.
  { intros Er. unfold left_over in Hkept. assert (CR == 0)%Q as E0 by (unfold CR; by rewrite Er).
    rewrite Er in Htot. cbn [length] in Htot. rewrite Nat.add_0_r in Htot. rewrite Htot in Hkept.
    assert (least_rate (length fixed) * CR == 0)%Q as E1 by (rewrite E0; ring). lra. }
  split; [|done]. split; try done.
  - unfold dkeys, fixed' in *. by rewrite fmap_app, EK, <-app_assoc.
  - by rewrite Htot.
  - unfold dvalues, fixed' in *. rewrite fmap_app. apply Forall_app. split; [done|].
    rewrite <-list_fmap_compose. apply Forall_fmap, Forall_forall. intros i _. cbn. reflexivity.
  - by rewrite Htot.
  - eapply Qle_trans; [|exact Hkept]. fold CR. specialize (HCR1 Hrest).
    assert (least_rate (length fixed') == least_rate (length fixed) - 10 * inject_Z (Z.of_nat (length K)) * eta)%Q as ->.
    { unfold least_rate. rewrite Hl', count_app. ring. }
    assert (1 <= inject_Z (Z.of_nat (length K)))%Q as HKQ by (change 1%Q with (inject_Z 1); rewrite <-Zle_Qle; lia).
    set (kq := inject_Z _) in *. assert (0 <= eta * (kq - 1) * CR)%Q as P1 by (apply Qmult_le_0_compat; [apply Qmult_le_0_compat|]; lra).
    assert (0 <= eta * (CR - 1))%Q as P2 by (apply Qmult_le_0_compat; lra). lra.
Qed.
End capped.

Lemma cap_loop_near fuel remaining fixed result :
  cap_loop fuel capitalizations ecap remaining fixed = Ok result -> in_play fixed remaining -> remaining <> [] ->
  nearly_one (length fixed + length remaining) result.
Proof.
  revert remaining fixed; induction fuel as [|fuel IH]; intros [|i l] fixed H Hip Hne; try done.
  rewrite cap_loop_step in H. apply res_bind_ok in H as (proposed&Hp&H).
  destruct (List.filter _ (i :: l)) as [|n0 newly] eqn:Enew.
  - injection H as <-. by apply last_step.
  - destruct (capped_step fixed (i :: l) proposed Hip Hne Hp n0 newly Enew) as (Hip'&Hne'&<-). by apply IH.
Qed.
End split.

(** ** The residual finds a place *)

Lemma p10_eta : (p10 (-45) == 1000000000 * eta /\ p10 40 * (100000000000000 * eta) == 1)%Q.
Proof. split; vm_compute; reflexivity. Qed.

(** A real weight of at most 60 digits is on the grid. *)
Lemma real_on_grid w :
  fits weight_prec (dval w) -> (1000000000 * eta <= dval w <= 1)%Q -> on_grid w.
Proof.
  intros Hfit [Hlo Hhi]. pose proof eta_pos as Heta. destruct p10_eta as [E45 _].
  assert (rounds_to weight_prec (dval w) (dval w)) as Hr.
  { destruct Hfit as [H|H]; [exact H|]. apply (rounds_to_src_nonneg weight_prec) in H. lra. }
  destruct Hr as [[E _]|(g&z&_&Hlt&_&E)]; [lra|].
  assert (-45 < weight_prec + g) as Hg by (apply p10_lt_inv; lra). change weight_prec with 60 in Hg.
  assert (dval w == inject_Z (z * 10 ^ (g + 115)) * p10 (-115))%Q as E'.
  { rewrite E, inject_Z_mult, <-p10_nonneg_Z, <-Qmult_assoc, <-p10_add by lia. by replace (g + 115 + -115) with g by lia. }
  exists (z * 10 ^ (g + 115)). split; [exact E'|]. apply (grid_bounds (dval w)); [split; lra|exact E'].
Qed.

Lemma qsum_elem (b : Q) l w :
  (0 <= b)%Q -> Forall (fun x => b <= dval x)%Q l -> w ∈ l -> (2 <= length l)%nat -> (dval w + b <= qsum l)%Q.
Proof.
  intros Hb Hall Hw Hl.
  assert (forall k, Forall (fun x => b <= dval x)%Q k -> 0 <= qsum k /\ (k <> [] -> b <= qsum k))%Q as Hk.
  { induction 1 as [|x k Hx _ [IH _]]; [split; [apply Qle_refl|done]|]. rewrite qsum_cons. split; [lra|intros _; lra]. }
  apply list_elem_of_split in Hw as (l1&l2&->). apply Forall_app in Hall as [H1 H2]. apply Forall_cons in H2 as [_ H2].
  rewrite length_app in Hl. cbn [length] in Hl. destruct (Hk l1 H1) as [P1 P2], (Hk l2 H2) as [P3 P4].
  rewrite qsum_app, qsum_cons. destruct l1 as [|x l1]; [|specialize (P2 ltac:(done)); lra].
  destruct l2 as [|y l2]; [cbn in Hl; lia|]. specialize (P4 ltac:(done)). lra.
Qed.

(** Lifting each weight by [r] lifts their sum by [r] each. *)
Lemma qsum_lift (b r : Q) l :
  Forall (fun x => b < dval x + r)%Q l -> (inject_Z (Z.of_nat (length l)) * b <= qsum l + inject_Z (Z.of_nat (length l)) * r)%Q.
Proof.
  induction 1 as [|x l Hx _ IH]; [change (0 * b <= 0 + 0 * r)%Q; lra|]. rewrite qsum_cons. cbn [length].
  rewrite Nat2Z.inj_succ. unfold Z.succ. rewrite inject_Z_plus. change (inject_Z 1) with 1%Q. lra.
Qed.

Lemma nearly_one_placed n weights ecap :
  (2 <= n)%nat -> Z.of_nat n <= 10000 -> nearly_one n weights -> Forall on_grid (dvalues weights) -> NoDup (dkeys weights) ->
  (1 + 1000000000 * eta <= inject_Z (Z.of_nat n) * dval ecap)%Q -> ~ unplaceable weights ecap.
Proof.
  intros Hn2 Hn [Hlen Hreal [Hs1 Hs2]] Hgrid Hnd Hroom. unfold unplaceable. cbv zeta. intros [Hne Hall]. pose proof eta_pos as Heta. destruct small_errors as (_&Hh&_).
  assert (Z.of_nat (length weights) <= 10000) as Hlen' by lia.
  assert (forall w, w ∈ dvalues weights -> exists i, dget i weights = Some w) as Hkey.
  { intros w ([i v]&->&Hi)%list_elem_of_fmap. exists i. by apply elem_dget. }
  assert (length (dvalues weights) = n) as El by (unfold dvalues; by rewrite length_fmap).
  assert (exists w0, w0 ∈ dvalues weights) as [w0 Hw0in].
  { destruct (dvalues weights) as [|w0 ws]; [cbn in El; lia|]. exists w0. left. }
  destruct (Hkey w0 Hw0in) as [i0 Hi0].
  destruct (shift_exact weights i0 w0 Hlen' Hgrid Hi0) as [Er Es]. set (r := dsub _ _ _) in *.
  destruct (dlt dzero r) eqn:Epos.
  - assert (Forall (fun x => dval ecap < dval x + dval r)%Q (dvalues weights)) as Hlift.
    { apply Forall_forall. intros w Hw. destruct (Hkey w Hw) as [i Hi]. specialize (Hall i w Hi). destruct (shift_exact weights i w Hlen' Hgrid Hi) as [_ E]. fold r in E. lra. }
    apply qsum_lift in Hlift. rewrite El in Hlift. pose proof (count_Q n Hn) as [Hq0 Hq].
    set (nq := inject_Z (Z.of_nat n)) in *. apply dlt_val in Epos. change (dval dzero) with 0%Q in Epos.
    assert (0 <= (10000 - nq) * dval r)%Q as P1 by (apply Qmult_le_0_compat; lra). lra.
  - specialize (Hall i0 w0 Hi0).
    rewrite Forall_forall in Hreal. pose proof (Hreal w0 Hw0in) as Hw0. lra.
Qed.

(** ** What the inputs promise *)

(** Room under the cap: up to 10000 stocks, capitalizations between 1 and 10^40, and a cap that
    is above an equal share by 10^-45 in all. *)
Definition roomy (inputs : list CapitalizationInput) (cap : dec) : Prop :=
  Z.of_nat (length inputs) <= 10000 /\
  Forall (fun i => 1 <= dval (ci_free_float_market_cap i) <= p10 40)%Q inputs /\
  (1 + p10 (-45) <= inject_Z (Z.of_nat (length inputs)) * dval cap)%Q.

Lemma length_sorted_ids inputs : length (sorted_ids inputs) = length inputs.
Proof. unfold sorted_ids. by rewrite length_fmap, length_sorted_by. Qed.

Lemma roomy_caps inputs i :
  inputs_valid inputs -> i ∈ sorted_ids inputs ->
  exists x, x ∈ inputs /\ cap_of (capitalizations_of inputs) i = ci_free_float_market_cap x.
Proof.
  intros Hin (x&->&Hx)%list_elem_of_fmap. exists x. split; [by apply elem_of_sorted_by in Hx|].
  unfold cap_of, capitalizations_of. rewrite (elem_dget (ci_stock_id x) (ci_free_float_market_cap x)); [done| |].
  - unfold dkeys. rewrite <-list_fmap_compose. by apply inputs_valid_loop in Hin as [? _].
  - apply list_elem_of_fmap. by exists x.
Qed.

Lemma qsum_above (f : string -> dec) (b : Q) l :
  (forall i, i ∈ l -> (dval (f i) <= b)%Q) -> (qsum (f <$> l) <= inject_Z (Z.of_nat (length l)) * b)%Q.
Proof.
  induction l as [|i l IH]; intros H; [change (0 <= 0 * b)%Q; lra|]. rewrite fmap_cons, qsum_cons. cbn [length].
  rewrite Nat2Z.inj_succ. unfold Z.succ. rewrite inject_Z_plus. change (inject_Z 1) with 1%Q.
  pose proof (H i ltac:(left)). specialize (IH ltac:(intros; apply H; by right)). lra.
Qed.

Lemma roomy_in_play inputs cap ecap :
  inputs_valid inputs -> roomy inputs cap -> (0 < dval cap <= dval ecap)%Q ->
  in_play (capitalizations_of inputs) ecap [] (sorted_ids inputs).
Proof.
  intros Hin (Hn&Hcaps&Hroom) [Hc0 Hc]. pose proof eta_pos as Heta. destruct p10_eta as [E45 E40]. rewrite Forall_forall in Hcaps.
  pose proof (count_Q _ Hn) as [Hq0 Hq]. split.
  - by apply inputs_valid_loop in Hin as [? _].
  - by rewrite length_sorted_ids.
  - apply Forall_forall. intros i Hi. destruct (roomy_caps inputs i Hin Hi) as (x&Hx&->). by apply Hcaps.
  - constructor.
  - rewrite length_sorted_ids. cbn [length Nat.add]. set (nq := inject_Z _) in *.
    assert (0 <= nq * (dval ecap - dval cap))%Q as P1 by (apply Qmult_le_0_compat; lra). lra.
  - pose proof (qsum_above (cap_of (capitalizations_of inputs)) (p10 40) (sorted_ids inputs)) as Habove.
    rewrite length_sorted_ids in Habove. set (C := qsum _) in *.
    assert (C <= inject_Z (Z.of_nat (length inputs)) * p10 40)%Q as HC.
    { apply Habove. intros i Hi. destruct (roomy_caps inputs i Hin Hi) as (x&Hx&->). by apply Hcaps. }
    unfold least_rate, left_over. cbn [length]. change (inject_Z (Z.of_nat 0)) with 0%Q. set (nq := inject_Z _) in *.
    pose proof (p10_pos 40) as H40.
    assert (0 <= (10000 - nq) * p10 40)%Q as P1 by (apply Qmult_le_0_compat; lra).
    assert (0 <= eta * (10000 * p10 40 - C))%Q as P2 by (apply Qmult_le_0_compat; lra). lra.
Qed.

Lemma roomy_two inputs cap : (dval cap <= 1)%Q -> roomy inputs cap -> (2 <= length inputs)%nat.
Proof.
  intros Hc (_&_&Hroom). pose proof (p10_pos (-45)) as Hp. destruct inputs as [|x [|y l]]; cbn [length] in *; [| |lia]; exfalso.
  - change (inject_Z (Z.of_nat 0)) with 0%Q in Hroom. lra.
  - change (inject_Z (Z.of_nat 1)) with 1%Q in Hroom. lra.
Qed.

Lemma roomy_fixed inputs cap ecap fixed :
  inputs_valid inputs -> (0 < dval cap <= 1)%Q -> fits weight_prec (dval cap) -> roomy inputs cap ->
  effective_cap_of cap (length inputs) = Ok ecap -> capped_fixed inputs ecap = Ok fixed ->
  nearly_one (length inputs) fixed /\ Forall on_grid (dvalues fixed) /\ NoDup (dkeys fixed) /\ ~ unplaceable fixed ecap.
Proof.
  intros Hin [Hc0 Hc1] Hfit Hroom Hecap Hfixed. destruct (effective_cap_fits _ _ _ Hfit Hecap) as [Hefit Hec].
  pose proof (roomy_two inputs cap Hc1 Hroom) as Hn2. pose proof eta_pos as Heta. destruct small_errors as (_&Hh&_).
  pose proof (roomy_in_play inputs cap ecap Hin Hroom (conj Hc0 Hec)) as Hip. destruct Hroom as (Hn&_&Hroom).
  assert (nearly_one (length inputs) fixed) as Hone.
  { pose proof (cap_loop_near _ _ _ _ _ _ Hfixed Hip) as H. cbn [length Nat.add] in H. rewrite length_sorted_ids in H. apply H.
    intros E. apply (f_equal length) in E. rewrite length_sorted_ids in E. cbn in E. lia. }
  destruct (capped_fixed_spec inputs ecap Hin Hefit) as (fixed0&Hf0&Hok&_&Hnd). rewrite Hfixed in Hf0. injection Hf0 as <-.
  assert (Forall on_grid (dvalues fixed)) as Hgrid.
  { destruct Hone as [Hlen Hreal [_ Hs]]. apply Forall_forall. intros w Hw.
    pose proof (qsum_elem (1000000000 * eta) (dvalues fixed) w ltac:(lra) Hreal Hw) as He.
    unfold dvalues in He at 1. rewrite length_fmap, Hlen in He. specialize (He Hn2).
    rewrite Forall_forall in Hreal. pose proof (Hreal w Hw) as Hw1.
    pose proof Hw as Hw'. apply list_elem_of_fmap in Hw' as ([i v]&->&Hi). apply real_on_grid.
    - by apply (Hok i), elem_dget.
    - split; lra. }
  split; [exact Hone|]. split; [exact Hgrid|]. split; [exact Hnd|].
  destruct p10_eta as [E45 _]. pose proof (count_Q _ Hn) as [Hq0 _].
  apply (nearly_one_placed (length inputs) fixed ecap Hn2 Hn Hone Hgrid Hnd). set (nq := inject_Z _) in *.
  assert (0 <= nq * (dval ecap - dval cap))%Q as P1 by (apply Qmult_le_0_compat; lra). lra.
Qed.

Lemma roomy_not_refused inputs cap :
  inputs_valid inputs -> (0 < dval cap <= 1)%Q -> fits weight_prec (dval cap) -> roomy inputs cap -> ~ refused inputs cap.
Proof.
  intros Hin Hcap Hfit Hroom (ecap&fixed&Hecap&Hfixed&Hun).
  by destruct (roomy_fixed inputs cap ecap fixed Hin Hcap Hfit Hroom Hecap Hfixed) as (_&_&_&?).
Qed.

(** ** Theorems *)

(** C33: With room under the cap the weights total exactly 1.  Up to 10000 stocks with distinct
    ids and capitalizations between 1 and 10^40, and a cap of at most 60 digits in (0, 1] that
    exceeds an equal share by 10^-45 in all, always get weights: one per stock in order of
    id, non-negative, none above the effective cap, together exactly 1.  The 60-digit split
    strays by no more than 10^-53, and the 120-digit residual step repairs all of it. *)
Theorem capped_weights_sum_to_one inputs cap :
  inputs_valid inputs -> (0 < dval cap <= 1)%Q -> fits weight_prec (dval cap) -> roomy inputs cap ->
  exists ecap ws, effective_cap_of cap (length inputs) = Ok ecap /\
    calculate_capped_weights inputs (Finite cap) = Ok ws /\ cw_stock_id <$> ws = sorted_ids inputs /\
    Forall (fun w => 0 <= dval (cw_weight w) <= dval ecap)%Q ws /\ (qsum (cw_weight <$> ws) == 1)%Q.
Proof.
  intros Hin Hcap Hfit Hroom. pose proof (roomy_two inputs cap (proj2 Hcap) Hroom) as Hn2.
  assert (inputs <> []) as Hne by (intros ->; cbn in Hn2; lia). destruct (effective_cap_total cap (length inputs) ltac:(lia)) as [ecap Hecap].
  destruct (effective_cap_fits _ _ _ Hfit Hecap) as [Hefit _].
  destruct (capped_fixed_spec inputs ecap Hin Hefit) as (fixed&Hfixed&Hok&Hdom&Hnd).
  destruct (roomy_fixed inputs cap ecap fixed Hin Hcap Hfit Hroom Hecap Hfixed) as (Hone&Hgrid&_&Hun).
  assert (Z.of_nat (length fixed) <= 10000) as Hlen by (rewrite (no_count _ _ Hone); apply Hroom).
  destruct (capped_weights_cases inputs cap Hin Hcap Hfit) as [[(ws&Hws&Hids) _]|[_ Href]];
    [|by destruct (roomy_not_refused inputs cap Hin Hcap Hfit Hroom)].
  exists ecap, ws. split; [exact Hecap|]. split; [exact Hws|]. split; [exact Hids|].
  rewrite calculate_capped_weights_unfold, Hecap in Hws by done. cbn [mbind res_bind] in Hws. rewrite Hfixed in Hws.
  cbn [mbind res_bind] in Hws. apply res_bind_ok in Hws as (fixed'&Hr&Hws). apply weights_lookup_spec in Hws as [_ Hget].
  split.
  - eapply Forall_impl; [exact Hget|]. intros w Hw. cbn beta in Hw. split.
    + exact (apply_residual_nonneg fixed ecap fixed' Hlen Hgrid Hr _ _ Hw).
    + exact (apply_residual_capped fixed ecap fixed' Hok Hr _ _ Hw).
  - rewrite (qsum_perm _ (dvalues fixed')); [by eapply apply_residual_total|].
    apply (weights_lookup_perm fixed' (sorted_ids inputs)); [|by apply inputs_valid_loop in Hin as [? _]| |exact Hids|exact Hget].
    + clear -Hr Hnd. apply apply_residual_cases in Hr as [[-> _]|(?&?&?&->&_)]; [done|]. by apply NoDup_dkeys_dset.
    + intros i. by rewrite (apply_residual_keys _ _ _ i Hr).
Qed.

(** C34: [calculate_capped_weights] terminates.  For a cap of at most 60 digits in (0, 1] and
    positive capitalizations of distinct stocks, far within the exponents of the context
    ([ordinary]), its loop ends within one pass per stock, and
    nothing can go wrong on the way: no division by zero, no missing key.  It answers with
    one weight per stock in order of id, except, and only then, when the residual of the
    split is one that no weight can take, which is the [ArithmeticError] the code raises. *)
Theorem capped_weights_total inputs cap :
  inputs_valid inputs -> Forall (fun i => ordinary (ci_free_float_market_cap i) = true) inputs ->
  (0 < dval cap <= 1)%Q -> fits weight_prec (dval cap) ->
  match calculate_capped_weights inputs (Finite cap) with
  | Ok ws => cw_stock_id <$> ws = sorted_ids inputs /\ ~ refused inputs cap
  | Raise e => e = ArithmeticError /\ refused inputs cap
  end.
Proof.
  intros Hin _ Hcap Hfit. by destruct (capped_weights_cases inputs cap Hin Hcap Hfit) as [[(ws&->&Hids) Href]|[-> Href]].
Qed.

(** *** Concrete inputs *)

(** Twelve equal stocks and a cap of 5%.  The equal share 1/12 is rounded down to 60 digits, and
    twelve times that rounds up to 1, so the code does not take the next number up: its
    effective cap leaves no room for a total of 1. *)
Definition twelve : list CapitalizationInput :=
  (fun i => mk_CapitalizationInput i (dec_of_Z 1)) <$> ["A"; "B"; "C"; "D"; "E"; "F"; "G"; "H"; "I"; "J"; "K"; "L"]%string.
Definition five_percent : dec := mk_dec false 5 (-2).

Lemma twelve_raises : calculate_capped_weights twelve (Finite five_percent) = Raise ArithmeticError.
Proof. vm_compute. reflexivity. Qed.
Lemma twelve_valid : inputs_valid twelve.
Proof. split; [apply (bool_decide_unpack _); by vm_compute|repeat constructor]. Qed.
Lemma five_percent_unit : (0 < dval five_percent <= 1)%Q.
Proof. split; vm_compute; [reflexivity|discriminate]. Qed.
Lemma five_percent_fits : fits weight_prec (dval five_percent).
Proof. apply fits_dec. vm_compute. discriminate. Qed.

Lemma ex_answers : is_ok (calculate_capped_weights ex_inputs (Finite ex_cap)) = true.
Proof. vm_compute. reflexivity. Qed.

(** Both outcomes happen. *)
Lemma capped_weights_total_witness :
  (exists ws, calculate_capped_weights ex_inputs (Finite ex_cap) = Ok ws /\ cw_stock_id <$> ws = sorted_ids ex_inputs /\
              ~ refused ex_inputs ex_cap) /\
  refused twelve five_percent.
Proof.
  split.
  - pose proof (capped_weights_total ex_inputs ex_cap ex_inputs_valid ltac:(repeat constructor) ex_cap_unit ex_cap_fits) as H. pose proof ex_answers as Hok.
    destruct (calculate_capped_weights ex_inputs (Finite ex_cap)) as [ws|]; [|discriminate Hok].
    exists ws. split; [reflexivity|exact H].
  - pose proof (capped_weights_total twelve five_percent twelve_valid ltac:(repeat constructor) five_percent_unit five_percent_fits) as H.
    rewrite twelve_raises in H. exact (proj2 H).
Defined.

Lemma ex_roomy : roomy ex_inputs ex_cap.
Proof.
  split; [vm_compute; discriminate|]. split; [|vm_compute; discriminate].
  repeat (apply Forall_cons; split; [split; vm_compute; discriminate|]). apply Forall_nil_2.
Qed.

Lemma capped_weights_sum_to_one_witness :
  inputs_valid ex_inputs /\ roomy ex_inputs ex_cap /\
  exists ws, calculate_capped_weights ex_inputs (Finite ex_cap) = Ok ws /\ (qsum (cw_weight <$> ws) == 1)%Q.
Proof.
  split; [exact ex_inputs_valid|]. split; [exact ex_roomy|].
  destruct (capped_weights_sum_to_one ex_inputs ex_cap ex_inputs_valid ex_cap_unit ex_cap_fits ex_roomy) as (ecap&ws&_&H&_&_&Hs).
  exists ws. split; [exact H|exact Hs].
Defined.
