(* ===== verification/ThemeMetrics.v ===== *)
(** [packages/calculations/theme_metrics.py]: the current metrics of a theme from
    a membership snapshot, stock references and market observations. *)
From S2P Require Import Prelude PyTime PyDecimal DecimalFacts Domain Weights WeightsFacts.
From Stdlib Require Import QArith Lqa.
#[local] Open Scope Z_scope.

(* @ packages/calculations/theme_metrics.py 29-33 MetricIssue *)
Record MetricIssue := mk_MetricIssue {
  mi_metric : string;
  mi_reason : UnavailableReason;
  mi_stock_ids : list string
}.

(* @ packages/calculations/theme_metrics.py 36-50 ThemeMetrics *)
Record ThemeMetrics := mk_ThemeMetrics {
  tmx_calculation_version : string;
  tmx_policy_maturity : string;
  tmx_membership_version : string;
  tmx_weighted_return : option dec;
  tmx_median_return : option dec;
  tmx_advancing_count : option Z;
  tmx_valid_count : option Z;
  tmx_advancing_ratio : option dec;
  tmx_coverage : Coverage;
  tmx_capped_weights : list CappedWeight;
  tmx_quality_flags : list string;
  tmx_issues : list MetricIssue;
  tmx_reference_versions : list string
}.

Definition is_some {A} (o : option A) : bool := match o with Some _ => true | None => false end.

(* @ packages/calculations/theme_metrics.py 52-60 ThemeMetrics.rank_eligible *)
Definition rank_eligible (m : ThemeMetrics) : bool :=
  bool_decide (cov_status (tmx_coverage m) = SUFFICIENT) && is_some (tmx_weighted_return m) &&
  is_some (tmx_median_return m) && is_some (tmx_advancing_count m) &&
  is_some (tmx_valid_count m).

(* @ packages/calculations/theme_metrics.py 97-107 _index_unique *)
Definition index_unique {R} (stock_id : R -> string) (records : list R) : res (dict string R) :=
  foldM
    (fun result record =>
       if dmem (stock_id record) result then Raise ValueError
       else Ok (dset (stock_id record) record result))
    [] records.

(** The arithmetic of a [localcontext] with [prec = 60]. *)
Definition metric_prec : Z := 60.

(* @ packages/calculations/theme_metrics.py 110-119 _median *)
Definition median (values : list dec) : res (option dec) :=
  let ordered := sorted_list values in
  let n := length ordered in
  let middle := (n / 2)%nat in
  match ordered with
  | [] => Ok None
  | _ =>
      if Nat.odd n then Ok (ordered !! middle)
      else match ordered !! (middle - 1)%nat, ordered !! middle with
           | Some a, Some b =>
               q ← ddiv metric_prec (dadd metric_prec a b) (dec_of_Z 2); Ok (Some q)
           | _, _ => Ok None
           end
  end.

(** The two sets [_stock_return] writes to. *)
Record Collector := mk_Collector {
  col_quality_flags : list QualityFlag;
  col_issue_stock_ids : dict UnavailableReason (list string)
}.

(** [issue_stock_ids.setdefault(reason, set()).update(ids)] *)
Definition note_issue (reason : UnavailableReason) (ids : list string) (c : Collector)
    : Collector :=
  mk_Collector (col_quality_flags c)
    (dset reason (default [] (dget reason (col_issue_stock_ids c)) ++ ids)
       (col_issue_stock_ids c)).
Definition note_flag (flag : QualityFlag) (c : Collector) : Collector :=
  mk_Collector (col_quality_flags c ++ [flag]) (col_issue_stock_ids c).

(** Why a stock has no return, or its return: the guards of [_stock_return] in
    their order. *)
(* @ packages/calculations/theme_metrics.py 132-206 _stock_return *)
Definition stock_return_outcome (market_date : date) (as_of : datetime)
    (reference : option StockReference) (observation : option StockMarketObservation)
    : res (dec + QualityFlag * UnavailableReason) :=
  match reference with
  | None => Ok (inr (REFERENCE_PRICE_UNAVAILABLE, MISSING_REFERENCE_DATA))
  | Some reference =>
      if negb (sr_corporate_action_resolved reference)
      then Ok (inr (QF_CORPORATE_ACTION_UNRESOLVED, CORPORATE_ACTION_UNRESOLVED))
      else if negb (sr_effective_for reference =? market_date)
              || dt_lt as_of (sr_known_at reference)
      then Ok (inr (POINT_IN_TIME_VIOLATION, MISSING_REFERENCE_DATA))
      else match sr_previous_adjusted_close reference with
      | None => Ok (inr (REFERENCE_PRICE_UNAVAILABLE, MISSING_REFERENCE_DATA))
      | Some previous_close =>
          if dle previous_close dzero
          then Ok (inr (REFERENCE_PRICE_UNAVAILABLE, MISSING_REFERENCE_DATA))
          else match observation with
          | None => Ok (inr (MARKET_PRICE_UNAVAILABLE, MISSING_MARKET_DATA))
          | Some observation =>
              if negb (mo_market_date observation =? market_date)
                 || dt_lt as_of (mo_observed_at observation)
              then Ok (inr (POINT_IN_TIME_VIOLATION, MISSING_MARKET_DATA))
              else if mo_trading_halted observation
              then Ok (inr (QF_TRADING_HALTED, TRADING_HALTED))
              else if mo_corporate_action_unresolved observation
              then Ok (inr (QF_CORPORATE_ACTION_UNRESOLVED, CORPORATE_ACTION_UNRESOLVED))
              else if negb (mo_fresh observation)
              then Ok (inr (STALE_MARKET_DATA, MISSING_MARKET_DATA))
              else match mo_current_price observation with
              | None => Ok (inr (MARKET_PRICE_UNAVAILABLE, MISSING_MARKET_DATA))
              | Some price =>
                  if dle price dzero
                  then Ok (inr (MARKET_PRICE_UNAVAILABLE, MISSING_MARKET_DATA))
                  else q ← ddiv metric_prec price previous_close;
                       Ok (inl (dsub metric_prec q done_))
              end
          end
      end
  end.

(* @ packages/calculations/theme_metrics.py 122-206 _stock_return *)
Definition stock_return (stock_id : string) (market_date : date) (as_of : datetime)
    (references : dict string StockReference)
    (observations : dict string StockMarketObservation) (c : Collector)
    : res (option dec * Collector) :=
  outcome ← stock_return_outcome market_date as_of (dget stock_id references)
              (dget stock_id observations);
  match outcome with
  | inl r => Ok (Some r, c)
  | inr (flag, reason) => Ok (None, note_issue reason [stock_id] (note_flag flag c))
  end.

(* @ packages/calculations/theme_metrics.py 209-230 determine_coverage_status *)
Definition determine_coverage_status (core related : CoveragePart) (total_valid_count : Z)
    (policy : ThemeCalculationPolicy) : CoverageStatus :=
  match cp_observed_weight_ratio core, cp_count_ratio related with
  | Some weight_ratio, Some count_ratio =>
      if (cp_observed_count core <? tcp_minimum_core_observations policy)
         || (total_valid_count <? tcp_minimum_total_observations policy)
      then INSUFFICIENT
      else if dle (tcp_sufficient_core_weight_ratio policy) weight_ratio
              && dle (tcp_sufficient_related_count_ratio policy) count_ratio
      then SUFFICIENT else PARTIAL
  | _, _ => INSUFFICIENT
  end.

(** The loop over [ordered_members]. *)
(* @ packages/calculations/theme_metrics.py 255-269 calculate_theme_metrics *)
Definition returns_pass (market_date : date) (as_of : datetime)
    (references : dict string StockReference)
    (observations : dict string StockMarketObservation) (ordered_members : list ThemeMember)
    : res (dict string dec * Collector) :=
  foldM
    (fun '(returns_by_stock, c) member =>
       '(stock_return, c) ← stock_return (tm_stock_id member) market_date as_of references
                              observations c;
       match stock_return with
       | Some r => Ok (dset (tm_stock_id member) r returns_by_stock, c)
       | None => Ok (returns_by_stock, c)
       end)
    ([], mk_Collector [] []) ordered_members.

(** The loop over [core_members]: capitalizations, and the ids without one. *)
(* @ packages/calculations/theme_metrics.py 271-286 calculate_theme_metrics *)
Definition capitalization_pass (market_date : date) (as_of : datetime)
    (references : dict string StockReference) (core_members : list ThemeMember)
    : dict string dec * list string :=
  foldl
    (fun '(caps, missing) member =>
       let stock_id := tm_stock_id member in
       match r ← dget stock_id references; free_float_market_cap r market_date as_of with
       | None => (caps, missing ++ [stock_id])
       | Some capitalization => (dset stock_id capitalization caps, missing)
       end)
    ([], []) core_members.

(* @ packages/calculations/theme_metrics.py 301-318 calculate_theme_metrics *)
Definition observed_weight_ratio_of (core_members : list ThemeMember)
    (missing_cap_stock_ids : list string) (capitalization_by_stock : dict string dec)
    (observed_core_ids : list string) : res (option dec) :=
  match core_members, missing_cap_stock_ids with
  | _ :: _, [] =>
      let total_capitalization := dsum metric_prec (dvalues capitalization_by_stock) in
      if dlt dzero total_capitalization then
        q ← ddiv metric_prec
              (dsum metric_prec
                 ((fun i => default dzero (dget i capitalization_by_stock)) <$>
                  observed_core_ids))
              total_capitalization;
        Ok (Some q)
      else Ok None
  | _, _ => Ok None
  end.

(* @ packages/calculations/theme_metrics.py 355-374 calculate_theme_metrics *)
Definition weighted_return_of (policy : ThemeCalculationPolicy)
    (missing_cap_stock_ids observed_core_ids : list string)
    (capitalization_by_stock returns_by_stock : dict string dec)
    : res (list CappedWeight * option dec) :=
  match missing_cap_stock_ids with
  | [] =>
      if tcp_minimum_core_observations policy <=? Z.of_nat (length observed_core_ids) then
        inputs ← mapM_res
          (fun i => CapitalizationInput_init i
                      (Finite (default dzero (dget i capitalization_by_stock))))
          observed_core_ids;
        weights ← calculate_capped_weights inputs
                    (Finite (tcp_maximum_constituent_weight policy));
        r ← calculate_weighted_return weights
              (foldl (fun d i => dset i (default dzero (dget i returns_by_stock)) d) []
                 observed_core_ids);
        Ok (weights, Some r)
      else Ok ([], None)
  | _ => Ok ([], None)
  end.

(* @ packages/calculations/theme_metrics.py 377-392 calculate_theme_metrics *)
Definition advancing_of (returns_by_stock : dict string dec)
    : res (option Z * option Z * option dec) :=
  match returns_by_stock with
  | [] => Ok (None, None, None)
  | _ =>
      let advancing := Z.of_nat (length (List.filter (dlt dzero) (dvalues returns_by_stock))) in
      let valid := Z.of_nat (length returns_by_stock) in
      ratio ← ddiv metric_prec (dec_of_Z advancing) (dec_of_Z valid);
      Ok (Some advancing, Some valid, Some ratio)
  end.

(* @ packages/calculations/theme_metrics.py 394-416 calculate_theme_metrics *)
Definition issues_of (issue_stock_ids : dict UnavailableReason (list string))
    (core_members : list ThemeMember) (weighted_return median_return : option dec)
    : list MetricIssue :=
  ((fun kv => mk_MetricIssue "constituentData" kv.1 (sorted_set kv.2)) <$>
   List.filter (fun kv => negb (bool_decide (kv.2 = []))) issue_stock_ids) ++
  (if is_some weighted_return then []
   else [mk_MetricIssue "weightedReturn"
           (if bool_decide (core_members = []) then EMPTY_MEMBERSHIP
            else INSUFFICIENT_COVERAGE) []]) ++
  (if is_some median_return then []
   else [mk_MetricIssue "medianReturn" INSUFFICIENT_OBSERVATIONS []]).

Definition issue_key (i : MetricIssue) : string * string * list string :=
  (mi_metric i, UnavailableReason_value (mi_reason i), mi_stock_ids i).
Definition observed_core (core_members : list ThemeMember)
    (returns_by_stock capitalization_by_stock : dict string dec) : list string :=
  List.filter (fun i => dmem i returns_by_stock && dmem i capitalization_by_stock)
    (tm_stock_id <$> core_members).

(* @ packages/calculations/theme_metrics.py 320-339 calculate_theme_metrics *)
Definition coverage_of (policy : ThemeCalculationPolicy) (observed_core_count core_count
    valid_count member_count : Z) (observed_weight_ratio : option dec) : res Coverage :=
  core_coverage ← CoveragePart_from_counts observed_core_count core_count
                    (Finite <$> observed_weight_ratio);
  related_coverage ← CoveragePart_from_counts valid_count member_count None;
  Ok (mk_Coverage (determine_coverage_status core_coverage related_coverage valid_count policy)
        core_coverage related_coverage).

(* @ packages/calculations/theme_metrics.py 340-353 calculate_theme_metrics *)
Definition note_coverage (policy : ThemeCalculationPolicy) (status : CoverageStatus)
    (observed_core_count valid_count : Z) (c : Collector) : Collector :=
  let c := match status with
           | PARTIAL => note_flag PARTIAL_COVERAGE c
           | INSUFFICIENT => note_flag QF_INSUFFICIENT_COVERAGE c
           | SUFFICIENT => c
           end in
  if (observed_core_count <? tcp_minimum_core_observations policy)
     || (valid_count <? tcp_minimum_total_observations policy)
  then note_issue INSUFFICIENT_OBSERVATIONS [] (note_flag QF_INSUFFICIENT_OBSERVATIONS c)
  else c.

(* @ packages/calculations/theme_metrics.py 233-450 calculate_theme_metrics *)
Definition calculate_theme_metrics (market_date : date) (as_of : datetime)
    (membership : ThemeMembershipSnapshot) (references : list StockReference)
    (observations : list StockMarketObservation) (policy : ThemeCalculationPolicy)
    : res ThemeMetrics :=
  _ ← require_aware as_of;
  _ ← raise_if ((market_date <? ms_effective_from membership)
                || dt_lt as_of (ms_known_at membership)) ValueError;
  reference_by_stock ← index_unique sr_stock_id references;
  observation_by_stock ← index_unique mo_stock_id observations;
  let ordered_members := sorted_by tm_stock_id (ms_members membership) in
  let core_members :=
    List.filter (fun m => bool_decide (tm_role m = CORE)) ordered_members in
  '(returns_by_stock, c) ← returns_pass market_date as_of reference_by_stock
                             observation_by_stock ordered_members;
  let '(capitalization_by_stock, missing_cap_stock_ids) :=
    capitalization_pass market_date as_of reference_by_stock core_members in
  let c := match missing_cap_stock_ids with
           | [] => c
           | ids => note_issue MISSING_REFERENCE_DATA ids (note_flag FREE_FLOAT_UNAVAILABLE c)
           end in
  let observed_core_ids := observed_core core_members returns_by_stock
                             capitalization_by_stock in
  observed_weight_ratio ← observed_weight_ratio_of core_members missing_cap_stock_ids
                            capitalization_by_stock observed_core_ids;
  coverage ← coverage_of policy (Z.of_nat (length observed_core_ids))
               (Z.of_nat (length core_members)) (Z.of_nat (length returns_by_stock))
               (Z.of_nat (length ordered_members)) observed_weight_ratio;
  let c := note_coverage policy (cov_status coverage) (Z.of_nat (length observed_core_ids))
             (Z.of_nat (length returns_by_stock)) c in
  '(capped_weights, weighted_return) ← weighted_return_of policy missing_cap_stock_ids
                     observed_core_ids capitalization_by_stock returns_by_stock;
  median_return ← median (dvalues returns_by_stock);
  '(advancing_count, valid_count, advancing_ratio) ← advancing_of returns_by_stock;
  Ok (mk_ThemeMetrics (tcp_version policy) (PolicyMaturity_value (tcp_maturity policy))
        (ms_version membership) weighted_return median_return advancing_count valid_count
        advancing_ratio coverage capped_weights
        (sorted_set (QualityFlag_value <$> col_quality_flags c))
        (sorted_by issue_key
           (issues_of (col_issue_stock_ids c) core_members weighted_return median_return))
        (sorted_set (omap (fun m => sr_version <$> dget (tm_stock_id m) reference_by_stock)
                       ordered_members))).

(** ** The passes in closed form *)

Lemma index_unique_dict {R} (stock_id : R -> string) records :
  NoDup (stock_id <$> records) ->
  index_unique stock_id records = Ok (dict_of stock_id Some records).
Proof.
  unfold index_unique. change (@nil (string * R)) with (dict_of stock_id Some []).
  rewrite <-(app_nil_l records) at 1 3. generalize (@nil R) as pre.
  induction records as [|r records IH]; intros pre Hnd; cbn [foldM].
  { by rewrite app_nil_r. }
  destruct (dict_of_snoc stock_id Some pre r records Hnd) as [Hr Hs].
  assert (dmem (stock_id r) (dict_of stock_id Some pre) = false) as -> by
    (unfold dmem; by rewrite Hr).
  cbn [mbind res_bind]. rewrite <-Hs.
  rewrite IH by (by rewrite <-app_assoc). by rewrite <-app_assoc.
Qed.

Lemma index_unique_cases {R} (stock_id : R -> string) records :
  NoDup (stock_id <$> records) \/ index_unique stock_id records = Raise ValueError.
Proof.
  destruct (decide (NoDup (stock_id <$> records))) as [|Hnd]; [by left|right].
  unfold index_unique.
  assert (forall d, (forall k, k ∈ dkeys d -> True) ->
    ~ (NoDup (stock_id <$> records) /\ forall r, r ∈ records -> stock_id r ∉ dkeys d) ->
    foldM (fun result record => if dmem (stock_id record) result then Raise ValueError
                                else Ok (dset (stock_id record) record result)) d records
    = Raise ValueError) as H; [|apply H; [done|tauto]].
  clear Hnd. induction records as [|r records IH]; intros d _ Hno; simpl.
  { destruct Hno. split; [constructor|]. by intros ? ?%not_elem_of_nil. }
  unfold dmem. destruct (dget (stock_id r) d) eqn:E; [done|]. cbn [mbind res_bind].
  apply IH; [done|]. intros [Hnd Hfresh]. apply Hno. apply dget_None in E. split.
  - simpl. apply NoDup_cons. split; [|done]. intros (r'&Hr'&Hin)%list_elem_of_fmap.
    apply (Hfresh r' Hin). rewrite <-Hr'. apply elem_of_dkeys. by rewrite dget_dset_eq.
  - intros r' [->|Hin]%elem_of_cons; [done|]. intros Hd. apply (Hfresh r' Hin).
    apply elem_of_dkeys. rewrite dget_dset. case_decide; [done|]. by apply elem_of_dkeys.
Qed.

Lemma stock_return_outcome_total market_date as_of r o :
  exists out, stock_return_outcome market_date as_of r o = Ok out.
Proof.
  unfold stock_return_outcome. repeat (case_match; eauto).
  match goal with H : dle ?c dzero = false |- context [ddiv _ _ ?c] =>
    apply dle_false in H; destruct (ddiv_rounded metric_prec ltac:(done) d0 c) as (q&->&_)
  end; [|cbn; eauto].
  change (dval dzero) with 0%Q in *. lra.
Qed.

Section passes.
Context (market_date : date) (as_of : datetime).
Context (references : dict string StockReference).
Context (observations : dict string StockMarketObservation).

(** The return of a stock, if it has one. *)
Definition return_of (m : ThemeMember) : option dec :=
  match stock_return_outcome market_date as_of (dget (tm_stock_id m) references)
          (dget (tm_stock_id m) observations) with
  | Ok (inl r) => Some r
  | _ => None
  end.

(** Its free-float capitalization, if it is known. *)
Definition capitalization_of (m : ThemeMember) : option dec :=
  r ← dget (tm_stock_id m) references; free_float_market_cap r market_date as_of.

Lemma stock_return_of m c :
  exists c', stock_return (tm_stock_id m) market_date as_of references observations c =
             Ok (return_of m, c').
Proof.
  unfold stock_return, return_of.
  destruct (stock_return_outcome_total market_date as_of (dget (tm_stock_id m) references)
              (dget (tm_stock_id m) observations)) as [[r|[flag reason]] ->]; by eexists.
Qed.

Lemma returns_pass_dict members :
  NoDup (tm_stock_id <$> members) ->
  exists c, returns_pass market_date as_of references observations members =
            Ok (dict_of tm_stock_id return_of members, c).
Proof.
  unfold returns_pass. change (@nil (string * dec)) with (dict_of tm_stock_id return_of []).
  rewrite <-(app_nil_l members) at 1. intros Hnd.
  change members with ([] ++ members) at 2. revert Hnd.
  generalize (mk_Collector [] []) as c. generalize (@nil ThemeMember) as pre.
  induction members as [|m members IH]; intros pre c Hnd; cbn [foldM].
  { exists c. by rewrite app_nil_r. }
  destruct (dict_of_snoc tm_stock_id return_of pre m members Hnd) as [_ Hs].
  destruct (stock_return_of m c) as [c' ->].
  rewrite (cons_middle m pre members) in Hnd |- *. rewrite app_assoc in Hnd |- *.
  cbn [mbind res_bind]. destruct (return_of m); rewrite <-Hs; by apply IH.
Qed.

Lemma capitalization_pass_dict members :
  NoDup (tm_stock_id <$> members) ->
  capitalization_pass market_date as_of references members =
  (dict_of tm_stock_id capitalization_of members,
   tm_stock_id <$> List.filter (fun m => negb (is_some (capitalization_of m))) members).
Proof.
  unfold capitalization_pass. set (missing := fun l => tm_stock_id <$> List.filter
    (fun m => negb (is_some (capitalization_of m))) l).
  match goal with |- _ -> foldl ?f _ _ = _ => set (step := f) end.
  assert (forall pre, NoDup (tm_stock_id <$> (pre ++ members)) ->
    foldl step (dict_of tm_stock_id capitalization_of pre, missing pre) members =
    (dict_of tm_stock_id capitalization_of (pre ++ members), missing (pre ++ members))) as H;
    [|apply (H [])].
  induction members as [|m members IH]; intros pre Hnd; [by rewrite app_nil_r|].
  destruct (dict_of_snoc tm_stock_id capitalization_of pre m members Hnd) as [_ Hs].
  rewrite (cons_middle m pre members) in Hnd |- *. rewrite app_assoc in Hnd |- *.
  rewrite <-IH by done. cbn [foldl]. f_equal. rewrite Hs. unfold missing, step.
  rewrite List.filter_app, fmap_app. simpl.
  fold (capitalization_of m). destruct (capitalization_of m); simpl; [|done].
  by rewrite app_nil_r.
Qed.
End passes.

(** ** The numbers of the result *)

(** The part of the metrics that is computed from the returns and the
    capitalizations; the rest is explanation (flags, issues, versions). *)
Definition metric_numbers (m : ThemeMetrics) :=
  (tmx_coverage m, tmx_capped_weights m, tmx_weighted_return m, tmx_median_return m,
   (tmx_advancing_count m, tmx_valid_count m, tmx_advancing_ratio m)).

Definition core_of (members : list ThemeMember) : list ThemeMember :=
  List.filter (fun m => bool_decide (tm_role m = CORE)) members.

Section numbers.
Context (policy : ThemeCalculationPolicy) (ret cap : ThemeMember -> option dec).
Context (members : list ThemeMember).

Definition nm_returns : dict string dec := dict_of tm_stock_id ret members.
Definition nm_core : list ThemeMember := core_of members.
Definition nm_caps : dict string dec := dict_of tm_stock_id cap nm_core.
Definition nm_missing : list string :=
  tm_stock_id <$> List.filter (fun m => negb (is_some (cap m))) nm_core.
Definition nm_observed : list string := observed_core nm_core nm_returns nm_caps.

(** The pipeline without its explanations. *)
Definition numbers :=
  w ← observed_weight_ratio_of nm_core nm_missing nm_caps nm_observed;
  coverage ← coverage_of policy (Z.of_nat (length nm_observed)) (Z.of_nat (length nm_core))
               (Z.of_nat (length nm_returns)) (Z.of_nat (length members)) w;
  '(weights, weighted) ← weighted_return_of policy nm_missing nm_observed nm_caps nm_returns;
  med ← median (dvalues nm_returns);
  '(advancing, valid, ratio) ← advancing_of nm_returns;
  Ok (coverage, weights, weighted, med, (advancing, valid, ratio)).
End numbers.

(** What a call needs for its inputs to be accepted. *)
Definition call_valid (market_date : date) (as_of : datetime)
    (membership : ThemeMembershipSnapshot) (references : list StockReference)
    (observations : list StockMarketObservation) : Prop :=
  is_aware as_of = true /\ ms_effective_from membership <= market_date /\
  dt_le (ms_known_at membership) as_of = true /\
  NoDup (tm_stock_id <$> ms_members membership) /\
  NoDup (sr_stock_id <$> references) /\ NoDup (mo_stock_id <$> observations).

Definition ref_dict (references : list StockReference) : dict string StockReference :=
  dict_of sr_stock_id Some references.
Definition obs_dict (observations : list StockMarketObservation)
    : dict string StockMarketObservation := dict_of mo_stock_id Some observations.

Lemma calculate_theme_metrics_numbers market_date as_of membership references observations policy :
  call_valid market_date as_of membership references observations ->
  metric_numbers <$>
    calculate_theme_metrics market_date as_of membership references observations policy =
  numbers policy
    (return_of market_date as_of (ref_dict references) (obs_dict observations))
    (capitalization_of market_date as_of (ref_dict references))
    (sorted_by tm_stock_id (ms_members membership)).
Proof.
  intros (Ha&Hm&Hk&Hnd&Hr&Ho). unfold calculate_theme_metrics, require_aware.
  rewrite Ha. cbn [negb raise_if mbind res_bind].
  replace ((market_date <? ms_effective_from membership) || dt_lt as_of (ms_known_at membership))
    with false.
  2: { symmetry. apply orb_false_iff. split; [lia|].
       unfold dt_le, dt_lt in *. by rewrite pylt_pyle, Hk. }
  cbn [raise_if mbind res_bind]. rewrite !index_unique_dict by done. cbn [mbind res_bind].
  assert (NoDup (tm_stock_id <$> sorted_by tm_stock_id (ms_members membership))) as Hnd'
    by (by rewrite sorted_by_perm).
  set (members := sorted_by _ _) in *.
  destruct (returns_pass_dict market_date as_of (dict_of sr_stock_id Some references)
              (dict_of mo_stock_id Some observations) members Hnd') as [c ->].
  cbn [mbind res_bind].
  rewrite (capitalization_pass_dict market_date as_of (dict_of sr_stock_id Some references)
             (List.filter _ members)).
  2: { eapply sublist_NoDup; [exact Hnd'|]. apply fmap_sublist, filterb_sublist. }
  cbv beta iota zeta. unfold numbers, nm_observed, nm_caps, nm_missing, nm_returns, nm_core,
    core_of, ref_dict, obs_dict.
  destruct (observed_weight_ratio_of _ _ _ _); [|done]. cbn [mbind res_bind].
  destruct (coverage_of _ _ _ _ _ _); [|done]. cbn [mbind res_bind].
  destruct (weighted_return_of _ _ _ _ _) as [[??]|]; [|done]. cbn [mbind res_bind].
  destruct (median _); [|done]. cbn [mbind res_bind].
  destruct (advancing_of _) as [[[??]?]|]; done.
Qed.

(** ** Totality *)

Lemma coverage_ratio_total n d :
  exists q, coverage_ratio n d = Ok q.
Proof.
  unfold coverage_ratio. destruct (Z.eqb_spec d 0); [by eexists|].
  destruct (ddiv_rounded 50 ltac:(done) (dec_of_Z n) (dec_of_Z d)) as (q&->&_); [|by eexists].
  by apply dec_of_Z_nonzero.
Qed.

Definition unit_dec (w : dec) : Prop := (0 <= dval w <= 1)%Q.

Lemma CoveragePart_from_counts_ok observed total w :
  0 <= observed <= total -> (forall d, w = Some d -> unit_dec d) ->
  exists r, coverage_ratio observed total = Ok r /\
    CoveragePart_from_counts observed total (Finite <$> w) =
    Ok (mk_CoveragePart observed total r w).
Proof.
  intros Hn Hw. destruct (coverage_ratio_total observed total) as [r Hr].
  exists r. split; [done|]. unfold CoveragePart_from_counts, CoveragePart_init.
  rewrite Hr. cbn [mbind res_bind].
  replace ((observed <? 0) || (total <? 0)) with false by (symmetry; apply orb_false_iff; lia).
  replace (total <? observed) with false by (symmetry; lia).
  cbn [raise_if mbind res_bind].
  assert (finite_unit (Finite <$> w) = Ok w) as Hu.
  { destruct w as [d|]; [|done]. cbn. destruct (Hw d eq_refl) as [Hlo Hhi].
    assert (dle dzero d = true) as -> by (by apply dle_val).
    assert (dle d done_ = true) as -> by (by apply dle_val). done. }
  destruct r as [q|]; cbn.
  - assert (deq q q = true) as -> by (by apply deq_val). cbn. by rewrite Hu.
  - by rewrite Hu.
Qed.

Lemma observed_core_sublist core rets caps :
  observed_core core rets caps `sublist_of` tm_stock_id <$> core.
Proof. apply filterb_sublist. Qed.

Lemma missing_nil_caps (cap : ThemeMember -> option dec) core :
  tm_stock_id <$> List.filter (fun m => negb (is_some (cap m))) core = [] ->
  dict_of tm_stock_id cap core =
  (fun m => (tm_stock_id m, default dzero (cap m))) <$> core.
Proof.
  induction core as [|m core IH]; [done|]. rewrite dict_of_cons. cbn [List.filter].
  destruct (cap m) eqn:E; cbn [is_some negb]; [|done]. intros H. rewrite IH by done. simpl.
  by rewrite E.
Qed.

(** The observed share of the capitalization is between 0 and 1, rounding
    included: numerator and denominator are summed at the same precision. *)
Lemma observed_weight_ratio_unit (cap : ThemeMember -> option dec) core rets :
  NoDup (tm_stock_id <$> core) ->
  (forall m c, cap m = Some c -> (0 <= dval c)%Q) ->
  let caps := dict_of tm_stock_id cap core in
  exists w, observed_weight_ratio_of core
              (tm_stock_id <$> List.filter (fun m => negb (is_some (cap m))) core) caps
              (observed_core core rets caps) = Ok w /\ (forall d, w = Some d -> unit_dec d).
Proof.
  intros Hnd Hpos. cbv zeta. unfold observed_weight_ratio_of.
  destruct core as [|m0 core0] eqn:Ec; [by exists None|].
  destruct (tm_stock_id <$> List.filter _ _) eqn:Em; [|by exists None].
  destruct (dlt dzero _) eqn:Et; [|by exists None]. apply dlt_val in Et.
  rewrite <-Ec in *. set (caps := dict_of tm_stock_id cap core) in *.
  change (dval dzero) with 0%Q in Et. set (total := dsum _ (dvalues caps)) in *.
  set (part := dsum _ _). destruct (ddiv_rounded metric_prec ltac:(done) part total)
    as (q&Hq&Hr); [lra|].
  rewrite Hq. exists (Some q). split; [done|]. intros d [= <-].
  assert (dvalues caps = (fun m => default dzero (cap m)) <$> core) as Hv.
  { unfold caps. rewrite (missing_nil_caps cap core Em). unfold dvalues.
    by rewrite <-list_fmap_compose. }
  assert (Forall (fun x => 0 <= dval x)%Q (dvalues caps)) as Hnn.
  { rewrite Hv, Forall_fmap. apply Forall_forall. intros m _. simpl.
    destruct (cap m) eqn:E; simpl; [by eapply Hpos|done]. }
  assert (((fun i => default dzero (dget i caps)) <$> observed_core core rets caps)
            `sublist_of` dvalues caps) as Hsub.
  { rewrite Hv. transitivity ((fun i => default dzero (dget i caps)) <$> (tm_stock_id <$> core)).
    - apply fmap_sublist, observed_core_sublist.
    - rewrite <-list_fmap_compose. match goal with |- ?a `sublist_of` ?b => assert (a = b) as ->; [|done] end.
      apply list_fmap_ext. intros i m Hm.
      unfold compose, caps. rewrite dget_dict_of; [done|done|].
      by eapply list_elem_of_lookup_2. }
  assert (dval part <= dval total)%Q as Hle by (by apply dsum_sublist).
  assert (0 <= dval part)%Q as H0.
  { apply dsum_nonneg; [done|]. rewrite Forall_forall in Hnn |- *. intros x Hx. apply Hnn.
    eapply elem_of_sublist; [exact Hx|exact Hsub]. }
  assert (0 <= dval part / dval total <= 1)%Q as [Hlo Hhi].
  { split; [apply Qle_shift_div_l; lra|apply Qle_shift_div_r; lra]. }
  split.
  - eapply rounded_nonneg; [|exact Hr|exact Hlo]. done.
  - eapply rounded_mono; [|exact Hr|apply fits_1|exact Hhi]; done.
Qed.

Lemma free_float_market_cap_pos r market_date as_of c :
  free_float_market_cap r market_date as_of = Some c -> (0 < dval c)%Q.
Proof.
  unfold free_float_market_cap, adjusted_return_reference. intros H.
  repeat case_match; simplify_eq.
  repeat match goal with
    | E : _ || _ = false |- _ => apply orb_false_iff in E as [? ?]
    | E : dle _ _ = false |- _ => apply dle_false in E
    end.
  change (dval dzero) with 0%Q in *.
  eapply (rounded_pos default_prec ltac:(done)); [by apply dmul_rounded|].
  apply Qmult_lt_0_compat; [|done].
  eapply (rounded_pos default_prec ltac:(done)); [by apply dmul_rounded|].
  apply Qmult_lt_0_compat; [done|]. rewrite dval_dec_of_Z. change 0%Q with (inject_Z 0).
  rewrite <-Zlt_Qlt. lia.
Qed.

Lemma median_total values : exists m, median values = Ok m /\ (m = None <-> values = []).
Proof.
  unfold median. pose proof (length_sorted_by id values) as Hlen.
  destruct (sorted_list values) as [|x l] eqn:E.
  { exists None. split; [done|]. destruct values; [done|simpl in Hlen; lia]. }
  assert (values <> []) as Hne by (intros ->; done).
  set (n := length (x :: l)) in *.
  assert (0 < n)%nat by (unfold n; simpl; lia).
  destruct (Nat.odd n) eqn:Eo.
  - destruct (lookup_lt_is_Some_2 (x :: l) (n / 2)) as [v Hv].
    { apply Nat.div_lt; [fold n; lia|lia]. }
    exists (Some v). rewrite Hv. split; [done|]. by split.
  - assert (n <> 1)%nat as H1 by (intros ->; done).
    assert (n / 2 < n)%nat by (apply Nat.div_lt; lia).
    destruct (lookup_lt_is_Some_2 (x :: l) (n / 2)) as [v ->]; [fold n; lia|].
    destruct (lookup_lt_is_Some_2 (x :: l) (n / 2 - 1)) as [u ->]; [fold n; lia|].
    destruct (ddiv_rounded metric_prec ltac:(done) (dadd metric_prec u v) (dec_of_Z 2))
      as (q&->&_); [done|].
    exists (Some q). split; [done|]. by split.
Qed.

Lemma advancing_total rets :
  exists a v r, advancing_of rets = Ok (a, v, r) /\ (rets <> [] -> is_some a = true /\ is_some v = true).
Proof.
  unfold advancing_of. destruct rets as [|kv rets0] eqn:E; [by exists None, None, None|].
  rewrite <-E. destruct (ddiv_rounded metric_prec ltac:(done)
    (dec_of_Z (Z.of_nat (length (List.filter (dlt dzero) (dvalues rets)))))
    (dec_of_Z (Z.of_nat (length rets)))) as (q&->&_).
  - apply dec_of_Z_nonzero. rewrite E. simpl. lia.
  - eexists _, _, _. split; [done|]. done.
Qed.

(** A policy whose cap is a weight of the 60-digit context. *)
Definition policy_valid (policy : ThemeCalculationPolicy) : Prop :=
  (0 < dval (tcp_maximum_constituent_weight policy) <= 1)%Q /\
  fits weight_prec (dval (tcp_maximum_constituent_weight policy)) /\
  1 <= tcp_minimum_core_observations policy <= tcp_minimum_total_observations policy.

Definition default_cap (caps : dict string dec) (i : string) : dec := default dzero (dget i caps).

(** The stocks that are weighed, with their capitalizations. *)
Definition inputs_of (caps : dict string dec) (ids : list string) : list CapitalizationInput :=
  (fun i => mk_CapitalizationInput i (default_cap caps i)) <$> ids.

Lemma inputs_of_valid caps ids :
  NoDup ids -> Forall (fun i => is_empty i = false /\ (0 < dval (default_cap caps i))%Q) ids -> inputs_valid (inputs_of caps ids).
Proof.
  intros Hnd Hall. unfold inputs_of. split.
  - rewrite <-list_fmap_compose. unfold compose. cbn. by rewrite list_fmap_id.
  - rewrite Forall_fmap. eapply Forall_impl; [exact Hall|]. by intros i [_ ?].
Qed.

Lemma CapitalizationInputs_ok caps ids :
  Forall (fun i => is_empty i = false /\ (0 < dval (default_cap caps i))%Q) ids ->
  mapM_res (fun i => CapitalizationInput_init i (Finite (default dzero (dget i caps)))) ids =
  Ok (inputs_of caps ids).
Proof.
  intros H. apply mapM_res_Forall2, Forall2_fmap_r, Forall_Forall2_diag.
  eapply Forall_impl; [exact H|]. intros i [He Hc]. unfold CapitalizationInput_init.
  rewrite He. cbn [raise_if require_finite mbind res_bind]. fold (default_cap caps i).
  by rewrite (dlt_false_dle _ Hc).
Qed.

Lemma dict_by_ids (val : string -> dec) ids d k :
  dget k (foldl (fun d i => dset i (val i) d) d ids) =
  if decide (k ∈ ids) then Some (val k) else dget k d.
Proof.
  revert d; induction ids as [|i ids IH]; intros d; cbn [foldl].
  { by rewrite decide_False by apply not_elem_of_nil. }
  rewrite IH, dget_dset. destruct (decide (k ∈ ids)) as [Hk|Hk].
  { by rewrite decide_True by (by right). }
  destruct (decide (i = k)) as [->|Hne].
  - by rewrite decide_True by left.
  - rewrite decide_False; [done|]. rewrite elem_of_cons. naive_solver.
Qed.

Lemma calculate_weighted_return_total weights returns :
  (forall i, i ∈ cw_stock_id <$> weights <-> i ∈ dkeys returns) ->
  exists r, calculate_weighted_return weights returns = Ok r.
Proof.
  intros H. unfold calculate_weighted_return.
  rewrite bool_decide_eq_true_2 by (by apply sorted_set_ext). cbn [negb raise_if mbind res_bind].
  match goal with |- exists r, mbind _ (mapM_res ?f _) = _ =>
    assert (exists terms, mapM_res f weights = Ok terms) as [terms ->]; [|by eexists]
  end.
  assert (forall w, w ∈ weights -> is_Some (dget (cw_stock_id w) returns)) as Hall.
  { intros w Hw. apply elem_of_dkeys, H, list_elem_of_fmap. by exists w. }
  clear H. induction weights as [|w weights IH]; [by exists []|]. simpl.
  destruct (Hall w ltac:(left)) as [r ->]. cbn [mbind res_bind].
  destruct IH as [terms ->]; [intros; apply Hall; by right|]. by eexists.
Qed.

Lemma weighted_return_total policy missing observed caps rets :
  policy_valid policy -> NoDup observed ->
  Forall (fun i => is_empty i = false /\ (0 < dval (default_cap caps i))%Q) observed ->
  let refusal := missing = [] /\ tcp_minimum_core_observations policy <= Z.of_nat (length observed) /\
                 refused (inputs_of caps observed) (tcp_maximum_constituent_weight policy) in
  (exists ws r, weighted_return_of policy missing observed caps rets = Ok (ws, r) /\
     (missing = [] -> tcp_minimum_core_observations policy <= Z.of_nat (length observed) ->
      is_some r = true)) /\ ~ refusal \/
  weighted_return_of policy missing observed caps rets = Raise ArithmeticError /\ refusal.
Proof.
  cbv zeta.
  intros (Hcap&Hfit&_) Hnd Hobs. unfold weighted_return_of.
  destruct missing; [|left; split; [exists [], None; by split|by intros [? _]]].
  destruct (Z.leb_spec (tcp_minimum_core_observations policy) (Z.of_nat (length observed)));
    [|left; split; [exists [], None; split; [done|lia]|intros (_&?&_); lia]].
  rewrite CapitalizationInputs_ok by done. cbn [mbind res_bind]. set (inputs := inputs_of caps observed).
  assert (ci_stock_id <$> inputs = observed) as Hids.
  { unfold inputs, inputs_of. rewrite <-list_fmap_compose. apply list_fmap_id. }
  pose proof (inputs_of_valid caps observed Hnd Hobs) as Hin. fold inputs in Hin.
  destruct (capped_weights_cases inputs (tcp_maximum_constituent_weight policy) Hin Hcap Hfit)
    as [[(ws&->&Hws) Href]|[-> Href]]; [left|by right]. cbn [mbind res_bind]. split; [|by intros (_&_&?)].
  destruct (calculate_weighted_return_total ws
              (foldl (fun d i => dset i (default dzero (dget i rets)) d) [] observed))
    as [r ->]; [|by exists ws, (Some r)].
  intros i. rewrite Hws, elem_of_dkeys, (dict_by_ids (fun i => default dzero (dget i rets))).
  unfold sorted_ids. rewrite (sorted_by_perm ci_stock_id inputs), Hids.
  destruct (decide (i ∈ observed)); [by split|]. simpl. split; [done|by intros []].
Qed.

(** What the members' returns and capitalizations satisfy. *)
Definition members_valid (members : list ThemeMember) : Prop :=
  NoDup (tm_stock_id <$> members) /\ Forall (fun m => is_empty (tm_stock_id m) = false) members.

Lemma members_valid_core members : members_valid members -> members_valid (core_of members).
Proof.
  intros [Hnd Hne]. split.
  - eapply sublist_NoDup; [exact Hnd|]. apply fmap_sublist, filterb_sublist.
  - rewrite Forall_forall in Hne |- *. intros m [Hm _]%elem_of_filterb. by apply Hne.
Qed.

Lemma observed_core_facts (cap : ThemeMember -> option dec) core rets :
  members_valid core -> (forall m c, cap m = Some c -> (0 < dval c)%Q) ->
  let caps := dict_of tm_stock_id cap core in
  NoDup (observed_core core rets caps) /\
  Forall (fun i => is_empty i = false /\ (0 < dval (default_cap caps i))%Q)
    (observed_core core rets caps).
Proof.
  intros [Hnd Hne] Hpos caps. split.
  - eapply sublist_NoDup; [exact Hnd|apply observed_core_sublist].
  - apply Forall_forall. intros i [Hi Hmem]%elem_of_filterb.
    apply list_elem_of_fmap in Hi as (m&->&Hm). rewrite Forall_forall in Hne.
    split; [by apply Hne|]. apply andb_true_iff in Hmem as [_ Hc].
    unfold dmem, default_cap, caps in *. rewrite dget_dict_of in * by done.
    destruct (cap m) eqn:E; [|done]. by eapply Hpos.
Qed.

(** A theme is weighed when no capitalization is missing and enough of its core is observed, and
    [calculate_capped_weights] refuses it when no weight can take the residual. *)
Definition weighed_inputs (ret cap : ThemeMember -> option dec) (members : list ThemeMember) : list CapitalizationInput :=
  inputs_of (nm_caps cap members) (nm_observed ret cap members).
Definition weights_refuse (policy : ThemeCalculationPolicy) (ret cap : ThemeMember -> option dec) (members : list ThemeMember) : Prop :=
  nm_missing cap members = [] /\
  tcp_minimum_core_observations policy <= Z.of_nat (length (nm_observed ret cap members)) /\
  refused (weighed_inputs ret cap members) (tcp_maximum_constituent_weight policy).

Lemma weighed_inputs_valid ret cap members :
  members_valid members -> (forall m c, cap m = Some c -> (0 < dval c)%Q) -> inputs_valid (weighed_inputs ret cap members).
Proof.
  intros Hmem Hpos. destruct (observed_core_facts cap _ (nm_returns ret members) (members_valid_core _ Hmem) Hpos) as [Hnd Hall].
  by apply inputs_of_valid.
Qed.

Lemma numbers_total policy ret cap members :
  policy_valid policy -> members_valid members ->
  (forall m c, cap m = Some c -> (0 < dval c)%Q) ->
  (exists n, numbers policy ret cap members = Ok n) /\ ~ weights_refuse policy ret cap members \/
  numbers policy ret cap members = Raise ArithmeticError /\ weights_refuse policy ret cap members.
Proof.
  intros Hpol Hmem Hpos. unfold weights_refuse, weighed_inputs, numbers.
  pose proof (members_valid_core _ Hmem) as Hcore. fold (nm_core members) in Hcore.
  destruct (observed_weight_ratio_unit cap (nm_core members) (nm_returns ret members))
    as (w&Hw&Hunit); [apply Hcore|intros; apply Qlt_le_weak; by eapply Hpos|].
  unfold nm_missing, nm_caps, nm_observed, nm_caps in *. rewrite Hw. cbn [mbind res_bind].
  set (caps := dict_of tm_stock_id cap (nm_core members)) in *.
  set (obs := observed_core _ _ _) in *.
  assert (length obs <= length (nm_core members))%nat as Hlc.
  { pose proof (sublist_length _ _ (observed_core_sublist (nm_core members)
      (nm_returns ret members) caps)) as Hl. by rewrite length_fmap in Hl. }
  assert (length (nm_returns ret members) <= length members)%nat as Hlr by apply dict_of_length.
  destruct (CoveragePart_from_counts_ok (Z.of_nat (length obs))
              (Z.of_nat (length (nm_core members))) w ltac:(lia) Hunit) as (r1&_&Hc1).
  destruct (CoveragePart_from_counts_ok (Z.of_nat (length (nm_returns ret members)))
              (Z.of_nat (length members)) None ltac:(lia) ltac:(done)) as (r2&_&Hc2).
  unfold coverage_of. rewrite Hc1. cbn [mbind res_bind]. cbn [fmap option_fmap option_map] in Hc2.
  rewrite Hc2. cbn [mbind res_bind].
  destruct (observed_core_facts cap _ (nm_returns ret members) Hcore Hpos) as [Hnd Hall].
  destruct (weighted_return_total policy
    (tm_stock_id <$> List.filter (fun m => negb (is_some (cap m))) (nm_core members))
    obs caps (nm_returns ret members) Hpol Hnd Hall) as [[(ws&r&->&_) Href]|[-> Href]]; [|by right].
  cbn [mbind res_bind]. destruct (median_total (dvalues (nm_returns ret members))) as (m&->&_).
  cbn [mbind res_bind]. destruct (advancing_total (nm_returns ret members)) as (a&v&x&->&_).
  left. split; [by eexists|exact Href].
Qed.

(** ** Point in time *)

Definition ref_visible (market_date : date) (as_of : datetime) (r : StockReference) : bool :=
  (sr_effective_for r =? market_date) && dt_le (sr_known_at r) as_of.
Definition obs_visible (market_date : date) (as_of : datetime) (o : StockMarketObservation)
    : bool := (mo_market_date o =? market_date) && dt_le (mo_observed_at o) as_of.

Lemma dt_lt_le a b : dt_lt a b = negb (dt_le b a).
Proof. apply pylt_pyle. Qed.

Section visible.
Context (market_date : date) (as_of : datetime).

Let vr := ref_visible market_date as_of.
Let vo := obs_visible market_date as_of.

Lemma adjusted_return_reference_visible r :
  vr r = false -> adjusted_return_reference r market_date as_of = None.
Proof.
  unfold vr, ref_visible, adjusted_return_reference. rewrite dt_lt_le.
  intros [->| ->]%andb_false_iff; [done|]. by rewrite orb_true_r.
Qed.

Lemma capitalization_of_visible refs m :
  NoDup (sr_stock_id <$> refs) ->
  capitalization_of market_date as_of (ref_dict (List.filter vr refs)) m =
  capitalization_of market_date as_of (ref_dict refs) m.
Proof.
  intros Hnd. unfold capitalization_of, ref_dict. rewrite dget_visible by done.
  destruct (dget _ _) as [r|]; [|done]. destruct (vr r) eqn:E; [done|]. cbn.
  unfold free_float_market_cap. by rewrite adjusted_return_reference_visible.
Qed.

Lemma return_of_visible refs obs m :
  NoDup (sr_stock_id <$> refs) -> NoDup (mo_stock_id <$> obs) ->
  return_of market_date as_of (ref_dict (List.filter vr refs)) (obs_dict (List.filter vo obs)) m =
  return_of market_date as_of (ref_dict refs) (obs_dict obs) m.
Proof.
  intros Hr Ho. unfold return_of, ref_dict, obs_dict. rewrite !dget_visible by done.
  unfold stock_return_outcome. destruct (dget _ (dict_of sr_stock_id Some refs)) as [r|]; [|done].
  destruct (vr r) eqn:Er.
  - destruct (dget _ (dict_of mo_stock_id Some obs)) as [o|]; [|done].
    destruct (vo o) eqn:Eo; [done|].
    unfold vo, obs_visible in Eo. rewrite (dt_lt_le as_of (mo_observed_at o)).
    assert (negb (mo_market_date o =? market_date) || negb (dt_le (mo_observed_at o) as_of) = true)
      as -> by (by rewrite <-negb_andb, Eo).
    by repeat case_match.
  - unfold vr, ref_visible in Er. rewrite (dt_lt_le as_of (sr_known_at r)).
    assert (negb (sr_effective_for r =? market_date) || negb (dt_le (sr_known_at r) as_of) = true)
      as -> by (by rewrite <-negb_andb, Er).
    by repeat case_match.
Qed.
End visible.

Lemma return_of_ext market_date as_of r r' o o' m :
  dget (tm_stock_id m) r = dget (tm_stock_id m) r' ->
  dget (tm_stock_id m) o = dget (tm_stock_id m) o' ->
  return_of market_date as_of r o m = return_of market_date as_of r' o' m.
Proof. intros E1 E2. unfold return_of. by rewrite E1, E2. Qed.

Lemma numbers_ext policy ret ret' cap cap' members :
  (forall m, ret m = ret' m) -> (forall m, cap m = cap' m) ->
  numbers policy ret cap members = numbers policy ret' cap' members.
Proof.
  intros Hr Hc. unfold numbers, nm_observed, nm_caps, nm_returns, nm_missing.
  rewrite (dict_of_ext _ _ _ members Hr), (dict_of_ext _ _ _ (nm_core members) Hc).
  by rewrite (filterb_ext _ (fun m => negb (is_some (cap' m)))) by (intros; by rewrite Hc).
Qed.

Lemma sorted_members_perm members members' :
  NoDup (tm_stock_id <$> members) -> members ≡ₚ members' ->
  sorted_by tm_stock_id members = sorted_by tm_stock_id members'.
Proof.
  intros Hnd Hp. apply sorted_by_perm_eq; [|done]. intros x y Hx Hy E%pycmp_eq.
  apply list_elem_of_lookup_1 in Hx as [i Hi]. apply list_elem_of_lookup_1 in Hy as [j Hj].
  assert (i = j) as <-; [|congruence].
  eapply (NoDup_lookup (tm_stock_id <$> members)); [done| |]; rewrite list_lookup_fmap;
    [by rewrite Hi|by rewrite Hj, E].
Qed.

(** ** Theorems *)

(** The weights refuse the theme of this call. *)
Definition call_refused (market_date : date) (as_of : datetime) (membership : ThemeMembershipSnapshot)
    (references : list StockReference) (observations : list StockMarketObservation) (policy : ThemeCalculationPolicy) : Prop :=
  weights_refuse policy (return_of market_date as_of (ref_dict references) (obs_dict observations))
    (capitalization_of market_date as_of (ref_dict references)) (sorted_by tm_stock_id (ms_members membership)).

(** The observed core stocks of this call, with their capitalizations. *)
Definition call_inputs (market_date : date) (as_of : datetime) (membership : ThemeMembershipSnapshot)
    (references : list StockReference) (observations : list StockMarketObservation) : list CapitalizationInput :=
  weighed_inputs (return_of market_date as_of (ref_dict references) (obs_dict observations))
    (capitalization_of market_date as_of (ref_dict references)) (sorted_by tm_stock_id (ms_members membership)).

Lemma capitalization_pos market_date as_of references m c :
  capitalization_of market_date as_of references m = Some c -> (0 < dval c)%Q.
Proof.
  unfold capitalization_of. destruct (dget _ _) as [ref|]; [|done]. by apply free_float_market_cap_pos.
Qed.

Lemma call_members market_date as_of membership references observations :
  call_valid market_date as_of membership references observations ->
  Forall (fun m => is_empty (tm_stock_id m) = false) (ms_members membership) ->
  members_valid (sorted_by tm_stock_id (ms_members membership)).
Proof. intros (_&_&_&Hnd&_) Hne. split; by rewrite sorted_by_perm. Qed.

(** An accepted call is answered, or the weights refuse it. *)
Lemma metrics_answer market_date as_of membership references observations policy :
  call_valid market_date as_of membership references observations ->
  Forall (fun m => is_empty (tm_stock_id m) = false) (ms_members membership) ->
  policy_valid policy ->
  let refusal := call_refused market_date as_of membership references observations policy in
  (exists m, calculate_theme_metrics market_date as_of membership references observations policy = Ok m) /\ ~ refusal \/
  calculate_theme_metrics market_date as_of membership references observations policy =
    Raise ArithmeticError /\ refusal.
Proof.
  intros Hcall Hne Hpol. cbv zeta.
  set (r := calculate_theme_metrics _ _ _ _ _ _).
  pose proof (calculate_theme_metrics_numbers _ _ _ _ _ policy Hcall) as E. fold r in E.
  pose proof (call_members _ _ _ _ _ Hcall Hne) as Hmem.
  destruct (numbers_total policy
    (return_of market_date as_of (ref_dict references) (obs_dict observations))
    (capitalization_of market_date as_of (ref_dict references)) _ Hpol Hmem) as [[[n Hn] Href]|[Hn Href]].
  - intros m c. apply capitalization_pos.
  - rewrite Hn in E. left. split; [destruct r; [by eexists|done]|exact Href].
  - rewrite Hn in E. right. split; [|exact Href]. destruct r; [done|]. cbn in E. congruence.
Qed.

Lemma call_refused_no_room market_date as_of membership references observations policy :
  call_valid market_date as_of membership references observations ->
  Forall (fun m => is_empty (tm_stock_id m) = false) (ms_members membership) -> policy_valid policy ->
  call_refused market_date as_of membership references observations policy ->
  ~ roomy (call_inputs market_date as_of membership references observations) (tcp_maximum_constituent_weight policy).
Proof.
  intros Hcall Hne (Hcap&Hfit&_) (_&_&Href) Hroom. revert Href. apply roomy_not_refused; [|exact Hcap|exact Hfit|exact Hroom].
  apply weighed_inputs_valid; [by eapply call_members|]. intros m c. apply capitalization_pos.
Qed.

(** C35: On an accepted call (aware time, membership in force and known, distinct non-empty ids,
    valid policy), with numbers far within the exponents of the context ([ordinary]),
    [calculate_theme_metrics] never fails for a reason of its own: the coverage
    ratios are within [0, 1] in spite of rounding, so [Coverage] is never rejected, and no
    division by zero or missing key occurs.  It answers, except, and only then, when the theme
    is weighed and its capped weights leave a residual that no weight can take, which is the
    [ArithmeticError] of the weights; that never happens with room under the cap. *)
Theorem calculate_theme_metrics_total market_date as_of membership references observations policy :
  call_valid market_date as_of membership references observations ->
  Forall (fun m => is_empty (tm_stock_id m) = false) (ms_members membership) ->
  policy_valid policy ->
  Forall (fun r => ordinary_reference r = true) references ->
  Forall (fun o => ordinary_observation o = true) observations ->
  let refusal := call_refused market_date as_of membership references observations policy in
  match calculate_theme_metrics market_date as_of membership references observations policy with
  | Ok _ => ~ refusal
  | Raise e => e = ArithmeticError /\ refusal /\
      ~ roomy (call_inputs market_date as_of membership references observations) (tcp_maximum_constituent_weight policy)
  end.
Proof.
  intros Hcall Hne Hpol _ _. cbv zeta. destruct (metrics_answer _ _ _ _ _ _ Hcall Hne Hpol) as [[[m ->] H]|[-> H]]; [exact H|].
  split; [done|]. split; [exact H|by apply call_refused_no_room].
Qed.

(** The numbers are point in time and independent of input order: coverage,
    weights, weighted and median return and the advancing counts (or the
    exception) depend only on the members as a set and on the references and
    observations that are of the market date and known by [as_of]. *)
Theorem theme_metrics_point_in_time market_date as_of membership membership'
    references references' observations observations' policy :
  call_valid market_date as_of membership references observations ->
  call_valid market_date as_of membership' references' observations' ->
  ms_members membership ≡ₚ ms_members membership' ->
  List.filter (ref_visible market_date as_of) references ≡ₚ
    List.filter (ref_visible market_date as_of) references' ->
  List.filter (obs_visible market_date as_of) observations ≡ₚ
    List.filter (obs_visible market_date as_of) observations' ->
  metric_numbers <$>
    calculate_theme_metrics market_date as_of membership references observations policy =
  metric_numbers <$>
    calculate_theme_metrics market_date as_of membership' references' observations' policy.
Proof.
  intros Hc Hc' Hm Hr Ho. rewrite !calculate_theme_metrics_numbers by done.
  destruct Hc as (_&_&_&Hnd&Hrn&Hon), Hc' as (_&_&_&_&Hrn'&Hon').
  rewrite <-(sorted_members_perm _ _ Hnd Hm).
  assert (forall i, dget i (ref_dict (List.filter (ref_visible market_date as_of) references)) =
    dget i (ref_dict (List.filter (ref_visible market_date as_of) references'))) as ER.
  { intros i. apply dict_of_lookup_perm; [|done].
    eapply sublist_NoDup; [exact Hrn|]. apply fmap_sublist, filterb_sublist. }
  assert (forall i, dget i (obs_dict (List.filter (obs_visible market_date as_of) observations)) =
    dget i (obs_dict (List.filter (obs_visible market_date as_of) observations'))) as EO.
  { intros i. apply dict_of_lookup_perm; [|done].
    eapply sublist_NoDup; [exact Hon|]. apply fmap_sublist, filterb_sublist. }
  apply numbers_ext; intros m.
  - rewrite <-(return_of_visible _ _ references observations) by done.
    rewrite <-(return_of_visible _ _ references' observations') by done.
    by apply return_of_ext.
  - rewrite <-(capitalization_of_visible _ _ references) by done.
    rewrite <-(capitalization_of_visible _ _ references') by done.
    unfold capitalization_of. by rewrite ER.
Qed.

Lemma sufficient_observed policy core related valid :
  determine_coverage_status core related valid policy = SUFFICIENT ->
  is_some (cp_observed_weight_ratio core) = true /\
  tcp_minimum_core_observations policy <= cp_observed_count core /\
  tcp_minimum_total_observations policy <= valid.
Proof.
  unfold determine_coverage_status. intros H. repeat case_match; try done.
  apply orb_false_iff in H2 as [??]. split; [done|lia].
Qed.

Lemma weight_ratio_complete core missing caps observed w :
  observed_weight_ratio_of core missing caps observed = Ok w -> is_some w = true -> missing = [].
Proof. unfold observed_weight_ratio_of. intros H Hw. repeat case_match; naive_solver. Qed.

Lemma CoveragePart_from_counts_fields n t w part :
  CoveragePart_from_counts n t (Finite <$> w) = Ok part ->
  cp_observed_count part = n /\ cp_observed_weight_ratio part = w.
Proof.
  unfold CoveragePart_from_counts, CoveragePart_init. intros H.
  apply res_bind_ok in H as (r&_&H). do 2 apply res_bind_ok in H as (?&_&H).
  apply res_bind_ok in H as (r'&_&H).
  assert (forall k, (_ ← raise_if k ValueError; w' ← finite_unit (Finite <$> w);
                     Ok (mk_CoveragePart n t r w')) = Ok part ->
            cp_observed_count part = n /\ cp_observed_weight_ratio part = w) as Hk.
  { intros k Hk. apply res_bind_ok in Hk as (?&_&Hk). apply res_bind_ok in Hk as (w'&Hw&Hk).
    injection Hk as <-. split; [done|]. simpl. destruct w as [d|]; cbn in Hw; [|congruence].
    destruct (_ && _); cbn in Hw; congruence. }
  destruct r; exact (Hk _ H).
Qed.

(** A theme is rankable exactly when its coverage is sufficient: sufficient
    coverage already guarantees the weighted return, the median and the counts. *)
Theorem rank_eligible_iff_sufficient market_date as_of membership references observations policy m :
  call_valid market_date as_of membership references observations ->
  Forall (fun m => is_empty (tm_stock_id m) = false) (ms_members membership) ->
  policy_valid policy ->
  calculate_theme_metrics market_date as_of membership references observations policy = Ok m ->
  rank_eligible m = bool_decide (cov_status (tmx_coverage m) = SUFFICIENT).
Proof.
  intros Hcall Hne Hpol Hm.
  pose proof (calculate_theme_metrics_numbers _ _ _ _ _ policy Hcall) as E. rewrite Hm in E.
  set (members := sorted_by _ _) in E. set (ret := return_of _ _ _ _) in E.
  set (cap := capitalization_of _ _ _) in E.
  unfold rank_eligible. case_bool_decide as Hs; [simpl|done].
  symmetry in E. unfold numbers, coverage_of in E. cbn [fmap res_fmap] in E.
  apply res_bind_ok in E as (w&Hw&E). apply res_bind_ok in E as (cov&Hcov&E).
  apply res_bind_ok in Hcov as (core&Hcore&Hcov).
  apply res_bind_ok in Hcov as (related&_&Hcov). injection Hcov as <-.
  apply res_bind_ok in E as ([ws wr]&Hwr&E). apply res_bind_ok in E as (med&Hmed&E).
  apply res_bind_ok in E as ([[adv val] ratio]&Hadv&E).
  injection E as Ecov _ <- <- <- <- _. rewrite <-Ecov in Hs. simpl in Hs.
  apply sufficient_observed in Hs as (Hsome&Hmin&Htotal).
  apply CoveragePart_from_counts_fields in Hcore as [Hcount Hweight].
  rewrite Hcount in Hmin. rewrite Hweight in Hsome.
  apply weight_ratio_complete in Hw as Hmissing; [|done].
  assert (is_some wr = true) as ->.
  { rewrite Hmissing in Hwr. clear -Hwr Hmin. unfold weighted_return_of in Hwr.
    apply Z.leb_le in Hmin. rewrite Hmin in Hwr. inv_ok Hwr. by subst. }
  assert (nm_returns ret members <> []) as Hrets.
  { intros E. rewrite E in Htotal. simpl in Htotal. destruct Hpol as (_&_&?). lia. }
  destruct (median_total (dvalues (nm_returns ret members))) as (med'&Hmed'&Hnone).
  destruct (advancing_total (nm_returns ret members)) as (a&v&r&Ha&Hav).
  rewrite Hmed in Hmed'. rewrite Hadv in Ha. simplify_eq. destruct (Hav Hrets) as [-> ->].
  destruct med'; [done|]. pose proof (proj1 Hnone eq_refl) as Hv.
  by destruct (nm_returns ret members).
Qed.

(** *** A concrete theme *)

Definition ex_day : date := 730001.
Definition ex_members : list ThemeMember :=
  [mk_ThemeMember "C" RELATED; mk_ThemeMember "A" CORE; mk_ThemeMember "B" CORE].
Definition ex_membership : ThemeMembershipSnapshot :=
  mk_ThemeMembershipSnapshot "battery" "v1" 730000 (ex_at 1) ex_members.
Definition ex_ref (id : string) (close shares : Z) (known : Z) : StockReference :=
  mk_StockReference id ex_day (ex_at known) (Some (dec_of_Z close)) (Some shares)
    (Some (mk_dec false 5 (-1))) true "r1" true.
Definition ex_obs (id : string) (price : Z) (at_ : Z) : StockMarketObservation :=
  mk_StockMarketObservation id ex_day (ex_at at_) (Some (dec_of_Z price)) None true false false.
Definition ex_refs : list StockReference :=
  [ex_ref "A" 100 1000 5; ex_ref "B" 200 500 5; ex_ref "C" 300 10 5].
Definition ex_obss : list StockMarketObservation :=
  [ex_obs "A" 110 9; ex_obs "B" 190 9; ex_obs "C" 330 9].

Lemma call_valid_dec md t membership refs obs :
  is_aware t && (ms_effective_from membership <=? md) && dt_le (ms_known_at membership) t &&
  bool_decide (NoDup (tm_stock_id <$> ms_members membership)) &&
  bool_decide (NoDup (sr_stock_id <$> refs)) && bool_decide (NoDup (mo_stock_id <$> obs)) = true ->
  call_valid md t membership refs obs.
Proof. rewrite !andb_true_iff, !bool_decide_eq_true, Z.leb_le. intros. by destruct_and!. Qed.

Lemma policy_v1_valid : policy_valid THEME_CALCULATION_POLICY_V1.
Proof. split_and!; [done|done|apply fits_dec; by vm_compute|done|done]. Qed.

Lemma ex_call_valid :
  call_valid ex_day (ex_at 10) ex_membership ex_refs ex_obss.
Proof. by apply call_valid_dec; vm_compute. Qed.

Definition late_refs : list StockReference :=
  [ex_ref "B" 200 500 5; ex_ref "A" 100 1000 20; ex_ref "C" 300 10 5].
Definition few_refs : list StockReference := [ex_ref "C" 300 10 5; ex_ref "B" 200 500 5].
Definition late_obss : list StockMarketObservation := ex_obs "D" 9 11 :: ex_obss.

Lemma late_call_valid :
  call_valid ex_day (ex_at 10) ex_membership late_refs ex_obss.
Proof. by apply call_valid_dec; vm_compute. Qed.
Lemma few_call_valid :
  call_valid ex_day (ex_at 10) ex_membership few_refs late_obss.
Proof. by apply call_valid_dec; vm_compute. Qed.

Lemma ex_metrics_answer :
  is_ok (calculate_theme_metrics ex_day (ex_at 10) ex_membership ex_refs ex_obss THEME_CALCULATION_POLICY_V1) = true.
Proof. vm_compute. reflexivity. Qed.

Lemma calculate_theme_metrics_total_witness :
  exists m, calculate_theme_metrics ex_day (ex_at 10) ex_membership ex_refs ex_obss THEME_CALCULATION_POLICY_V1 = Ok m /\
    ~ call_refused ex_day (ex_at 10) ex_membership ex_refs ex_obss THEME_CALCULATION_POLICY_V1.
Proof.
  pose proof (calculate_theme_metrics_total ex_day (ex_at 10) ex_membership ex_refs ex_obss
                THEME_CALCULATION_POLICY_V1 ex_call_valid ltac:(repeat constructor) policy_v1_valid
                ltac:(repeat constructor) ltac:(repeat constructor)) as H.
  pose proof ex_metrics_answer as Hok.
  destruct (calculate_theme_metrics ex_day (ex_at 10) ex_membership ex_refs ex_obss THEME_CALCULATION_POLICY_V1) as [m|];
    [|discriminate Hok]. exists m. split; [reflexivity|exact H].
Defined.

(** A later reference and a later observation of [A] change nothing. *)
Lemma theme_metrics_point_in_time_witness :
  metric_numbers <$> calculate_theme_metrics ex_day (ex_at 10) ex_membership
    late_refs ex_obss THEME_CALCULATION_POLICY_V1 =
  metric_numbers <$> calculate_theme_metrics ex_day (ex_at 10) ex_membership
    few_refs late_obss THEME_CALCULATION_POLICY_V1.
Proof.
  refine (theme_metrics_point_in_time ex_day (ex_at 10) ex_membership ex_membership _ _ _ _
            THEME_CALCULATION_POLICY_V1
            late_call_valid few_call_valid _ _ _).
  - reflexivity.
  - apply Permutation_swap.
  - reflexivity.
Defined.

Definition ex_metrics : ThemeMetrics :=
  match calculate_theme_metrics ex_day (ex_at 10) ex_membership ex_refs ex_obss
          THEME_CALCULATION_POLICY_V1 with
  | Ok m => m
  | Raise _ => mk_ThemeMetrics "" "" "" None None None None None
      (mk_Coverage INSUFFICIENT (mk_CoveragePart 0 0 None None) (mk_CoveragePart 0 0 None None))
      [] [] [] []
  end.

Lemma rank_eligible_iff_sufficient_witness :
  rank_eligible ex_metrics = bool_decide (cov_status (tmx_coverage ex_metrics) = SUFFICIENT) /\
  rank_eligible ex_metrics = true.
Proof.
  split; [|by vm_compute].
  exact (rank_eligible_iff_sufficient ex_day (ex_at 10) ex_membership ex_refs ex_obss
           THEME_CALCULATION_POLICY_V1 ex_metrics
           ex_call_valid ltac:(repeat constructor) policy_v1_valid ltac:(vm_compute; reflexivity)).
Defined.
