(* ===== verification/PublicViews.v ===== *)
(** The public JSON views of numbers, coverage and theme metrics
    ([packages/domain/models.py], [coverage.py], [calculations/theme_metrics.py]), with the
    text [repr(float)] gives a double. *)
From S2P Require Import Prelude PyDecimal PyFloat Json Domain Weights ThemeMetrics.
#[local] Open Scope Z_scope.

(** ** [repr(float)] *)

(** The exponent [e] with [10^e <= x < 10^(e+1)], for a positive double. *)
Definition decimal_exponent (x : double) : Z :=
  if double_unit <=? x then ndigits (Z.to_N (x / double_unit)) - 1
  else - ndigits (Z.to_N (- (- double_unit / x) - 1)).

(** The double nearest to [c * 10^-k]. *)
Definition of_scaled (c k : Z) : double :=
  if 0 <=? k then of_ratio c (10 ^ k) else of_ratio (c * 10 ^ (- k)) 1.

(** [x * 10^k] as a quotient of integers. *)
Definition scaled (x : double) (k : Z) : Z * Z :=
  if 0 <=? k then (x * 10 ^ k, double_unit) else (x, double_unit * 10 ^ (- k)).

(** The decimal of [n] digits nearest to [x], or the one on its other side, if it reads
    back as [x]. *)
Definition digits_of_length (x : double) (n : Z) : option (Z * Z) :=
  let k := n - 1 - decimal_exponent x in
  let '(p, q) := scaled x k in
  let c := PyFloat.div_half_even p q in
  let other := if p <? c * q then c - 1 else c + 1 in
  if of_scaled c k =? x then Some (c, k)
  else if of_scaled other k =? x then Some (other, k)
  else None.

(** The fewest digits that read back as [x]; 17 always do. *)
Fixpoint shortest_digits (fuel : nat) (x : double) (n : Z) : Z * Z :=
  match digits_of_length x n, fuel with
  | Some r, _ => r
  | None, O => let '(p, q) := scaled x (n - 1 - decimal_exponent x) in
               (PyFloat.div_half_even p q, n - 1 - decimal_exponent x)
  | None, S fuel => shortest_digits fuel x (n + 1)
  end.

Definition zeros (n : Z) : string :=
  String.string_of_list_ascii (replicate (Z.to_nat n) (chr_N 48)).

(** A positive double as text: plain from 1e-4 up to 1e16, scientific beyond. *)
Definition positive_repr (x : double) : string :=
  let '(c, k) := shortest_digits 16 x 1 in
  let digits := str_Z c in
  let n := Z.of_nat (String.length digits) in
  let point := n - k in
  if (-4 <? point) && (point <=? 16) then
    if point <=? 0 then "0." +:+ zeros (- point) +:+ digits
    else if n <=? point then digits +:+ zeros (point - n) +:+ ".0"
    else String.substring 0 (Z.to_nat point) digits +:+ "." +:+
         String.substring (Z.to_nat point) (Z.to_nat (n - point)) digits
  else
    let e := point - 1 in
    String.substring 0 1 digits +:+
    (if n =? 1 then "" else "." +:+ String.substring 1 (Z.to_nat (n - 1)) digits) +:+
    "e" +:+ (if e <? 0 then "-" else "+") +:+ (if Z.abs e <? 10 then "0" else "") +:+ str_Z (Z.abs e).

(** The text of [float(d)]; a negative zero keeps its sign. *)
Definition float_repr (d : dec) : string :=
  let x := of_dec d in
  (if dneg d then "-" else "") +:+ (if x =? 0 then "0.0" else positive_repr (Z.abs x)).

Example repr_tenth : float_repr (mk_dec false 1 (-1)) = "0.1".
Proof. vm_compute. reflexivity. Qed.
Example repr_int : float_repr (mk_dec false 123 0) = "123.0".
Proof. vm_compute. reflexivity. Qed.
Example repr_small : float_repr (mk_dec false 15 (-6)) = "1.5e-05".
Proof. vm_compute. reflexivity. Qed.
Example repr_large : float_repr (mk_dec false 1 16) = "1e+16".
Proof. vm_compute. reflexivity. Qed.
Example repr_least : positive_repr 1 = "5e-324".
Proof. vm_compute. reflexivity. Qed.

(** ** Views *)

(* @ packages/domain/models.py 66-67 decimal_to_number *)
Definition decimal_to_number (value : option dec) : json :=
  match value with None => JNull | Some d => JFloat (float_repr d) end.

Definition JInt (n : option Z) : json := match n with Some n => JNum n | None => JNull end.

(* @ packages/domain/coverage.py 59-69 CoveragePart.to_public_dict *)
Definition CoveragePart_to_public_dict (p : CoveragePart) (include_weight : bool) : json :=
  JObj ([("observedCount", JNum (cp_observed_count p)); ("totalCount", JNum (cp_total_count p));
         ("countRatio", decimal_to_number (cp_count_ratio p))] ++
        if include_weight
        then [("observedWeightRatio", decimal_to_number (cp_observed_weight_ratio p))] else []).

(* @ packages/domain/coverage.py 78-83 Coverage.to_public_dict *)
Definition Coverage_to_public_dict (c : Coverage) : json :=
  JObj [("status", JStr (CoverageStatus_value (cov_status c)));
        ("core", CoveragePart_to_public_dict (cov_core c) true);
        ("related", CoveragePart_to_public_dict (cov_related c) false)].

(** No additional flags are passed by the callers modelled. *)
(* @ packages/calculations/theme_metrics.py 62-77 ThemeMetrics.to_public_ranking_fields *)
Definition to_public_ranking_fields (additional_quality_flags : list string) (m : ThemeMetrics)
    : dict string json :=
  [("weightedReturn", decimal_to_number (tmx_weighted_return m));
   ("weightMethod", JStr "FREE_FLOAT_CAPPED");
   ("advancingCount", JInt (tmx_advancing_count m));
   ("validCount", JInt (tmx_valid_count m));
   ("coverage", Coverage_to_public_dict (tmx_coverage m));
   ("qualityFlags", JList (JStr <$> sorted_set (tmx_quality_flags m ++ additional_quality_flags)))].

(* @ packages/calculations/theme_metrics.py 79-94 ThemeMetrics.to_public_current_reaction *)
Definition to_public_current_reaction (turnover_multiple : option dec)
    (attention_gap_trading_days : option Z) (m : ThemeMetrics) : res json :=
  _ ← raise_if (match attention_gap_trading_days with Some g => g <? 0 | None => false end) ValueError;
  Ok (JObj
    [("weightedReturn", decimal_to_number (tmx_weighted_return m));
     ("weightMethod", JStr "FREE_FLOAT_CAPPED");
     ("advancingCount", JInt (tmx_advancing_count m));
     ("validCount", JInt (tmx_valid_count m));
     ("turnoverMultiple", decimal_to_number turnover_multiple);
     ("attentionGapTradingDays", JInt attention_gap_trading_days)]).
