(* ===== verification/Turnover.v ===== *)
(** [packages/calculations/turnover.py]: the turnover multiple of a theme against
    the same minute of its previous trading days. *)
From S2P Require Import Prelude PyTime PyDecimal DecimalFacts Domain Weights.
From Stdlib Require Import QArith Lqa.
#[local] Open Scope Z_scope.

(* @ packages/calculations/turnover.py 21-24 BaselineStatus *)
Inductive BaselineStatus := FULL | PROVISIONAL | BASELINE_INSUFFICIENT.
#[export] Instance BaselineStatus_eq_dec : EqDecision BaselineStatus.
Proof. solve_decision. Defined.

(* @ packages/calculations/turnover.py 27-33 StockTurnoverMetric *)
Record StockTurnoverMetric := mk_StockTurnoverMetric {
  stm_stock_id : string;
  stm_current_trading_value : dec;
  stm_baseline_median : dec;
  stm_multiple : dec;
  stm_observation_count : Z
}.

(* @ packages/calculations/turnover.py 36-47 ThemeTurnoverResult *)
Record ThemeTurnoverResult := mk_ThemeTurnoverResult {
  tt_baseline_version : string;
  tt_policy_maturity : string;
  tt_membership_version : option string;
  tt_turnover_multiple : option dec;
  tt_valid_count : Z;
  tt_total_count : Z;
  tt_baseline_status : BaselineStatus;
  tt_stock_metrics : list StockTurnoverMetric;
  tt_quality_flags : list string;
  tt_unavailable_reason : option UnavailableReason
}.

(** The arithmetic of a [localcontext] with [prec = 60]. *)
Definition turnover_prec : Z := 60.

(** Only called on a non-empty list; indexing an empty one is an [IndexError],
    which no caller can reach. *)
(* @ packages/calculations/turnover.py 50-57 _median *)
Definition median_of (values : list dec) : res dec :=
  let ordered := sorted_list values in
  let n := length ordered in
  let middle := (n / 2)%nat in
  if Nat.odd n then
    match ordered !! middle with Some v => Ok v | None => Raise AssertionError end
  else
    match ordered !! (middle - 1)%nat, ordered !! middle with
    | Some a, Some b => ddiv turnover_prec (dadd turnover_prec a b) (dec_of_Z 2)
    | _, _ => Raise AssertionError
    end.

(** The position of [d] in the list; [tuple.index]. *)
Fixpoint index_of (d : date) (days : list date) : option nat :=
  match days with
  | [] => None
  | x :: days' => if decide (x = d) then Some O else S <$> index_of d days'
  end.

(* @ packages/calculations/turnover.py 60-72 _validate_trading_days *)
Definition validate_trading_days (trading_days : list date) (evaluation_date : date)
    (lookback : Z) : res (list date) :=
  _ ← raise_if (negb (bool_decide (sorted_set trading_days = trading_days))) ValueError;
  match index_of evaluation_date trading_days with
  | None => Raise ValueError
  | Some position =>
      let start := (position - Z.to_nat lookback)%nat in
      Ok (take (position - start) (drop start trading_days))
  end.

(* @ packages/calculations/turnover.py 75-90 _index_observations *)
Definition index_observations (observations : list StockTradingValueObservation)
    (time_bucket : time) : res (dict (string * date) StockTradingValueObservation) :=
  foldM
    (fun result observation =>
       if negb (tv_time_bucket observation =? time_bucket) then Ok result
       else
         let key := (tv_stock_id observation, tv_market_date observation) in
         if dmem key result then Raise ValueError else Ok (dset key observation result))
    [] observations.

(** [_is_usable]: the value of a usable observation. *)
(* @ packages/calculations/turnover.py 93-106 _is_usable *)
Definition usable_value (observation : option StockTradingValueObservation)
    (decision_at : datetime) : option dec :=
  match observation with
  | Some o =>
      if dt_le (tv_observed_at o) decision_at && tv_comparable o && tv_fresh o &&
         negb (tv_trading_halted o) && negb (tv_corporate_action_unresolved o)
      then tv_cumulative_trading_value o else None
  | None => None
  end.

(* @ packages/calculations/turnover.py 157-164 calculate_theme_turnover *)
Definition unusable_flag (current : option StockTradingValueObservation) : QualityFlag :=
  match current with
  | None => SOURCE_DEGRADED
  | Some o =>
      if tv_trading_halted o then QF_TRADING_HALTED
      else if tv_corporate_action_unresolved o then QF_CORPORATE_ACTION_UNRESOLVED
      else if negb (tv_fresh o) then STALE_MARKET_DATA
      else SOURCE_DEGRADED
  end.

Section turnover.
Context (theme_id : string) (snapshots : list ThemeMembershipSnapshot).
Context (indexed : dict (string * date) StockTradingValueObservation).

(** The value a previous day contributes, if the stock was a member then. *)
(* @ packages/calculations/turnover.py 170-188 calculate_theme_turnover *)
Definition historical_value (stock_id : string) (history_date : date) : res (option dec) :=
  match dget (stock_id, history_date) indexed with
  | None => Ok None
  | Some historical =>
      membership ← select_membership_snapshot snapshots theme_id history_date
                     (tv_observed_at historical);
      match membership with
      | None => Ok None
      | Some membership =>
          if negb (ms_contains membership stock_id) then Ok None
          else Ok (usable_value (Some historical) (tv_observed_at historical))
      end
  end.

(** The outcome of one member: a flag, or its metric. *)
(* @ packages/calculations/turnover.py 155-208 calculate_theme_turnover *)
Definition member_metric (evaluation_date : date) (evaluation_at : datetime)
    (history_dates : list date) (policy : SameTimeBaselinePolicy) (member : ThemeMember)
    : res (QualityFlag + StockTurnoverMetric) :=
  let stock_id := tm_stock_id member in
  let current := dget (stock_id, evaluation_date) indexed in
  match usable_value current evaluation_at with
  | None => Ok (inl (unusable_flag current))
  | Some value =>
      historical ← mapM_res (historical_value stock_id) history_dates;
      let historical_values := omap id historical in
      let count := Z.of_nat (length historical_values) in
      if count <? sbp_minimum_observations policy then Ok (inl QF_INSUFFICIENT_OBSERVATIONS)
      else
        baseline_median ← median_of historical_values;
        if dle baseline_median dzero then Ok (inl QF_ZERO_BASELINE)
        else
          multiple ← ddiv turnover_prec value baseline_median;
          Ok (inr (mk_StockTurnoverMetric stock_id value baseline_median multiple count))
  end.

(* @ packages/calculations/turnover.py 151-208 calculate_theme_turnover *)
Definition members_pass (evaluation_date : date) (evaluation_at : datetime)
    (history_dates : list date) (policy : SameTimeBaselinePolicy)
    (members : list ThemeMember) : res (list QualityFlag * list StockTurnoverMetric) :=
  foldM
    (fun '(flags, metrics) member =>
       outcome ← member_metric evaluation_date evaluation_at history_dates policy member;
       match outcome with
       | inl flag => Ok (flags ++ [flag], metrics)
       | inr metric => Ok (flags, metrics ++ [metric])
       end)
    ([], []) members.
End turnover.

(** The sums run in the default context, the quotient in the 60-digit one. *)
(* @ packages/calculations/turnover.py 210-264 calculate_theme_turnover *)
Definition turnover_result (policy : SameTimeBaselinePolicy) (membership_version : string)
    (total_count : Z) (flags : list QualityFlag) (metrics : list StockTurnoverMetric)
    : res ThemeTurnoverResult :=
  let stock_metrics := sorted_by stm_stock_id metrics in
  let result multiple status metrics flags reason :=
    mk_ThemeTurnoverResult (sbp_version policy) (PolicyMaturity_value (sbp_maturity policy))
      (Some membership_version) multiple (Z.of_nat (length metrics)) total_count status metrics
      (sorted_set (QualityFlag_value <$> flags)) reason in
  match stock_metrics with
  | [] => Ok (result None BASELINE_INSUFFICIENT [] flags (Some INSUFFICIENT_OBSERVATIONS))
  | _ =>
      let denominator := dsum default_prec (stm_baseline_median <$> stock_metrics) in
      let numerator := dsum default_prec (stm_current_trading_value <$> stock_metrics) in
      if dle denominator dzero
      then Ok (result None BASELINE_INSUFFICIENT stock_metrics (flags ++ [QF_ZERO_BASELINE])
                 (Some ZERO_BASELINE))
      else
        turnover_multiple ← ddiv turnover_prec numerator denominator;
        if (Z.of_nat (length stock_metrics) =? total_count) &&
           forallb (fun m => stm_observation_count m =? sbp_lookback_trading_days policy)
             stock_metrics
        then Ok (result (Some turnover_multiple) FULL stock_metrics flags None)
        else Ok (result (Some turnover_multiple) PROVISIONAL stock_metrics
                   (flags ++ [PROVISIONAL_BASELINE]) None)
  end.

(* @ packages/calculations/turnover.py 109-264 calculate_theme_turnover *)
Definition calculate_theme_turnover (theme_id : string) (evaluation_date : date)
    (evaluation_at : datetime) (time_bucket : time) (trading_days : list date)
    (snapshots : list ThemeMembershipSnapshot)
    (observations : list StockTradingValueObservation) (policy : SameTimeBaselinePolicy)
    : res ThemeTurnoverResult :=
  _ ← require_aware evaluation_at;
  history_dates ← validate_trading_days trading_days evaluation_date
                    (sbp_lookback_trading_days policy);
  indexed ← index_observations observations time_bucket;
  current_membership ← select_membership_snapshot snapshots theme_id evaluation_date
                         evaluation_at;
  match current_membership with
  | None =>
      Ok (mk_ThemeTurnoverResult (sbp_version policy)
            (PolicyMaturity_value (sbp_maturity policy)) None None 0 0 BASELINE_INSUFFICIENT []
            [QualityFlag_value QF_MEMBERSHIP_VERSION_MISMATCH]
            (Some MEMBERSHIP_HISTORY_UNAVAILABLE))
  | Some membership =>
      let members := sorted_by tm_stock_id (ms_members membership) in
      '(flags, metrics) ← members_pass theme_id snapshots indexed evaluation_date evaluation_at
                            history_dates policy members;
      turnover_result policy (ms_version membership) (Z.of_nat (length members)) flags metrics
  end.

(** ** Facts *)

Lemma index_of_lookup d days n : index_of d days = Some n -> days !! n = Some d.
Proof.
  revert n; induction days as [|x days IH]; intros n; simpl; [done|].
  case_decide; [intros [= <-]; by subst|]. destruct (index_of d days) eqn:E; [|done].
  intros [= <-]. by apply IH.
Qed.

Lemma index_of_Some d days : d ∈ days -> is_Some (index_of d days).
Proof.
  induction days as [|x days IH]; [by intros ?%not_elem_of_nil|]. simpl.
  intros [->|H]%elem_of_cons; [by rewrite decide_True|]. case_decide; [done|].
  destruct (IH H) as [n ->]. by eexists.
Qed.

(** The history is at most [lookback] days, all before the evaluation date. *)
Lemma validate_trading_days_ok days d lookback hist :
  validate_trading_days days d lookback = Ok hist ->
  (length hist <= Z.to_nat lookback)%nat /\ Forall (fun h => h < d) hist.
Proof.
  unfold validate_trading_days. intros H. apply res_bind_ok in H as (?&Hs&H).
  apply raise_if_ok, negb_false_iff, bool_decide_eq_true in Hs.
  destruct (index_of d days) as [n|] eqn:En; [|done]. injection H as <-.
  apply index_of_lookup in En. split; [rewrite length_take; lia|].
  assert (StronglySorted (key_le id) days) as Hss by (rewrite <-Hs; apply sorted_by_sorted).
  assert (NoDup days) as Hnd by (rewrite <-Hs; apply NoDup_sorted_set).
  apply Forall_forall. intros h Hh. apply list_elem_of_lookup_1 in Hh as [i Hi].
  apply lookup_take_Some in Hi as [Hi Hlt]. rewrite lookup_drop in Hi.
  set (j := (n - Z.to_nat lookback + i)%nat) in *. assert (j < n)%nat as Hjn by (unfold j; lia).
  pose proof (StronglySorted_lookup _ _ _ _ _ _ Hss Hjn Hi En) as Hle.
  unfold key_le, id in Hle. rewrite pyle_Z in Hle.
  assert (h <> d) as Hne; [|lia]. intros ->.
  pose proof (NoDup_lookup _ _ _ _ Hnd Hi En). lia.
Qed.

Definition tv_key (o : StockTradingValueObservation) : string * date :=
  (tv_stock_id o, tv_market_date o).
Definition in_bucket (b : time) (o : StockTradingValueObservation) : bool :=
  tv_time_bucket o =? b.

Lemma index_observations_dict b observations :
  NoDup (tv_key <$> List.filter (in_bucket b) observations) ->
  index_observations observations b =
  Ok (dict_of tv_key Some (List.filter (in_bucket b) observations)).
Proof.
  unfold index_observations. match goal with |- _ -> foldM ?f _ _ = _ => set (step := f) end.
  assert (forall pre, NoDup (tv_key <$> (pre ++ List.filter (in_bucket b) observations)) ->
    foldM step (dict_of tv_key Some pre) observations =
    Ok (dict_of tv_key Some (pre ++ List.filter (in_bucket b) observations))) as H;
    [|exact (H [])].
  induction observations as [|o observations IH]; intros pre Hnd; [by rewrite app_nil_r|].
  assert (forall d, step d o = if negb (in_bucket b o) then Ok d
            else if dmem (tv_key o) d then Raise ValueError else Ok (dset (tv_key o) o d))
    as Hstep by done.
  cbn [foldM List.filter] in *. rewrite Hstep. destruct (in_bucket b o); cbn [negb]; [|by apply IH].
  destruct (dict_of_snoc tv_key Some pre o _ Hnd) as [Hn Hs].
  assert (dmem (tv_key o) (dict_of tv_key Some pre) = false) as -> by (unfold dmem; by rewrite Hn).
  cbn [mbind res_bind]. rewrite <-Hs. rewrite (cons_middle o pre (List.filter (in_bucket b) observations)) in Hnd |- *.
  rewrite app_assoc in Hnd |- *. by apply IH.
Qed.

(** Only the lookups of the evaluation date and of the history matter. *)
Lemma members_pass_ext theme_id snapshots d d' day at_ hist policy members :
  (forall i h, h = day \/ h ∈ hist -> dget (i, h) d = dget (i, h) d') ->
  members_pass theme_id snapshots d day at_ hist policy members =
  members_pass theme_id snapshots d' day at_ hist policy members.
Proof.
  intros E. apply foldM_ext. intros [flags metrics] m _. unfold member_metric.
  rewrite (E _ day) by (by left).
  destruct (usable_value _ _); [|done].
  rewrite (mapM_res_ext _ (historical_value theme_id snapshots d' (tm_stock_id m))); [done|].
  intros h Hh. unfold historical_value. by rewrite (E _ h) by (by right).
Qed.

(** What every metric of the result satisfies. *)
Definition metric_ok (policy : SameTimeBaselinePolicy) (lookback : nat) (m : StockTurnoverMetric)
    : Prop :=
  (0 < dval (stm_baseline_median m))%Q /\
  rounded turnover_prec (dval (stm_current_trading_value m) / dval (stm_baseline_median m))
    (dval (stm_multiple m)) /\
  sbp_minimum_observations policy <= stm_observation_count m <= Z.of_nat lookback.

Lemma member_metric_ok theme_id snapshots d day at_ hist policy m metric :
  member_metric theme_id snapshots d day at_ hist policy m = Ok (inr metric) ->
  stm_stock_id metric = tm_stock_id m /\ metric_ok policy (length hist) metric.
Proof.
  unfold member_metric. intros H. destruct (usable_value _ _) as [v|]; [|done].
  apply res_bind_ok in H as (vals&Hvals&H). apply mapM_res_length in Hvals.
  case_in H; [done|]. apply res_bind_ok in H as (base&Hb&H). case_in H; [done|].
  apply res_bind_ok in H as (q&Hq&H). injection H as <-. split; [done|].
  apply ddiv_ok in Hq as [_ Hq]; [|done]. apply dle_false in E0.
  unfold metric_ok; simpl. split_and!; [exact E0|done|lia|].
  pose proof (omap_id_length vals). lia.
Qed.

Lemma members_pass_ok theme_id snapshots d day at_ hist policy members flags metrics :
  members_pass theme_id snapshots d day at_ hist policy members = Ok (flags, metrics) ->
  (stm_stock_id <$> metrics) `sublist_of` (tm_stock_id <$> members) /\
  Forall (metric_ok policy (length hist)) metrics.
Proof.
  unfold members_pass. match goal with |- foldM ?f _ _ = _ -> _ => set (step := f) end.
  assert (forall pre fl ms, Forall (metric_ok policy (length hist)) ms ->
    (stm_stock_id <$> ms) `sublist_of` (tm_stock_id <$> pre) ->
    foldM step (fl, ms) members = Ok (flags, metrics) ->
    (stm_stock_id <$> metrics) `sublist_of` (tm_stock_id <$> (pre ++ members)) /\
    Forall (metric_ok policy (length hist)) metrics) as H;
    [|intros H1; by apply (H [] [] [])].
  induction members as [|m members IH]; intros pre fl ms Hms Hsub H; cbn [foldM] in H.
  { res_step. rewrite app_nil_r. by simplify_eq. }
  apply res_bind_ok in H as ([fl' ms']&Hstep&H). unfold step in Hstep.
  apply res_bind_ok in Hstep as ([flag|metric]&Hm&Hstep); injection Hstep as <- <-;
    rewrite (cons_middle m pre), app_assoc.
  - eapply IH; [exact Hms| |exact H]. rewrite fmap_app. by apply sublist_inserts_r.
  - apply member_metric_ok in Hm as [Hid Hok]. eapply IH; [| |exact H].
    + apply Forall_app. by split; [|constructor].
    + rewrite !fmap_app. simpl. rewrite Hid. by apply sublist_app.
Qed.

(** The contract of a result: one metric per measured member in id order, each
    against a positive median of enough days; a multiple exactly when something
    was measured, and full only when every member was measured on every day. *)
Definition turnover_ok (policy : SameTimeBaselinePolicy) (r : ThemeTurnoverResult) : Prop :=
  let metrics := tt_stock_metrics r in
  tt_valid_count r = Z.of_nat (length metrics) /\ tt_valid_count r <= tt_total_count r /\
  StronglySorted (key_le stm_stock_id) metrics /\ NoDup (stm_stock_id <$> metrics) /\
  Forall (metric_ok policy (Z.to_nat (sbp_lookback_trading_days policy))) metrics /\
  match tt_turnover_multiple r with
  | None =>
      metrics = [] /\ tt_baseline_status r = BASELINE_INSUFFICIENT /\
      (tt_unavailable_reason r = Some MEMBERSHIP_HISTORY_UNAVAILABLE \/
       tt_unavailable_reason r = Some INSUFFICIENT_OBSERVATIONS)
  | Some multiple =>
      metrics <> [] /\ tt_unavailable_reason r = None /\
      rounded turnover_prec
        (dval (dsum default_prec (stm_current_trading_value <$> metrics)) /
         dval (dsum default_prec (stm_baseline_median <$> metrics))) (dval multiple) /\
      tt_baseline_status r =
        (if decide (tt_valid_count r = tt_total_count r /\
                    Forall (fun m => stm_observation_count m = sbp_lookback_trading_days policy)
                      metrics)
         then FULL else PROVISIONAL)
  end.

Lemma metric_ok_mono policy a b m : (a <= b)%nat -> metric_ok policy a m -> metric_ok policy b m.
Proof. intros Hab (?&?&?&?). split_and!; [done|done|done|lia]. Qed.

Lemma turnover_result_ok policy version total flags metrics r :
  Forall (metric_ok policy (Z.to_nat (sbp_lookback_trading_days policy))) metrics ->
  NoDup (stm_stock_id <$> metrics) -> Z.of_nat (length metrics) <= total ->
  turnover_result policy version total flags metrics = Ok r -> turnover_ok policy r.
Proof.
  intros Hok Hnd Hlen H. unfold turnover_result in H.
  rewrite <-(sorted_by_perm stm_stock_id metrics) in Hok, Hnd.
  pose proof (sorted_by_sorted stm_stock_id metrics) as Hss.
  rewrite <-(length_sorted_by stm_stock_id metrics) in Hlen.
  set (ms := sorted_by stm_stock_id metrics) in *.
  destruct ms as [|m0 ms0] eqn:Ems.
  { injection H as <-. unfold turnover_ok; simpl. split_and!; try done; first [by right|constructor]. }
  rewrite <-Ems in *. assert (ms <> []) as Hne by (by rewrite Ems). clear Ems m0 ms0.
  assert (0 < dval (dsum default_prec (stm_baseline_median <$> ms)))%Q as Hden.
  { apply dsum_pos; [done| |by destruct ms]. rewrite Forall_fmap.
    eapply Forall_impl; [exact Hok|]. by intros m [? _]. }
  assert (dle (dsum default_prec (stm_baseline_median <$> ms)) dzero = false) as Hd
    by (by apply dle_false).
  rewrite Hd in H. apply res_bind_ok in H as (q&Hq&H). apply ddiv_ok in Hq as [_ Hq]; [|done].
  assert ((Z.of_nat (length ms) =? total) &&
          forallb (fun m => stm_observation_count m =? sbp_lookback_trading_days policy) ms =
          bool_decide (Z.of_nat (length ms) = total /\
            Forall (fun m => stm_observation_count m = sbp_lookback_trading_days policy) ms))
    as Hfull.
  { apply eq_true_iff_eq. rewrite andb_true_iff, Z.eqb_eq, bool_decide_eq_true, forallb_forall,
      List.Forall_forall. by setoid_rewrite Z.eqb_eq. }
  rewrite Hfull in H. case_bool_decide as Hall; injection H as <-; unfold turnover_ok; simpl;
    (split_and!; try done); by case_decide.
Qed.

(** Every result of [calculate_theme_turnover] satisfies the contract
    [turnover_ok]; in particular the zero-denominator branch can not be taken. *)
Theorem theme_turnover_contract theme_id day at_ bucket days snapshots observations policy r :
  Forall (fun s => NoDup (ms_stock_ids s)) snapshots ->
  calculate_theme_turnover theme_id day at_ bucket days snapshots observations policy = Ok r ->
  turnover_ok policy r.
Proof.
  intros Hsn H. unfold calculate_theme_turnover in H.
  apply res_bind_ok in H as (?&Ha&H). apply require_aware_ok in Ha.
  apply res_bind_ok in H as (hist&Hh&H). apply validate_trading_days_ok in Hh as [Hh _].
  apply res_bind_ok in H as (indexed&_&H). apply res_bind_ok in H as ([s|]&Hs&H).
  2: { injection H as <-. unfold turnover_ok; simpl.
       split_and!; try done; first [by left|constructor]. }
  apply select_Some in Hs as (rest&Hp&_); [|done].
  assert (NoDup (ms_stock_ids s)) as Hnd.
  { rewrite Forall_forall in Hsn. apply Hsn.
    eapply elem_of_sublist; [|apply filterb_sublist]. rewrite Hp. by left. }
  apply res_bind_ok in H as ([flags metrics]&Hm&H). cbv beta iota in H.
  apply members_pass_ok in Hm as [Hsub Hok]. eapply turnover_result_ok; [| | |exact H].
  - eapply Forall_impl; [exact Hok|]. intros m. by apply metric_ok_mono.
  - eapply sublist_NoDup; [|exact Hsub]. by rewrite sorted_by_perm.
  - apply sublist_length in Hsub. rewrite !length_fmap in Hsub. lia.
Qed.

(** No look-ahead and no other minute: two inputs whose observations of the
    bucket up to the evaluation date are the same, in any order, give the same
    result, whatever they hold for later days or other minutes. *)
Theorem theme_turnover_no_lookahead theme_id day at_ bucket days snapshots obs obs' policy :
  let seen o := in_bucket bucket o && (tv_market_date o <=? day) in
  NoDup (tv_key <$> List.filter (in_bucket bucket) obs) ->
  NoDup (tv_key <$> List.filter (in_bucket bucket) obs') ->
  List.filter seen obs ≡ₚ List.filter seen obs' ->
  calculate_theme_turnover theme_id day at_ bucket days snapshots obs policy =
  calculate_theme_turnover theme_id day at_ bucket days snapshots obs' policy.
Proof.
  intros seen Hnd Hnd' Hp. unfold calculate_theme_turnover.
  destruct (require_aware at_); [|done]. cbn [mbind res_bind].
  destruct (validate_trading_days _ _ _) as [hist|] eqn:Hh; [|done]. cbn [mbind res_bind].
  apply validate_trading_days_ok in Hh as [_ Hh].
  rewrite !index_observations_dict by done. cbn [mbind res_bind].
  destruct (select_membership_snapshot _ _ _ _) as [[s|]|]; [|done|done].
  cbn [mbind res_bind]. erewrite members_pass_ext; [done|].
  intros i h Hday.
  assert (h <= day) as Hle.
  { destruct Hday as [->|Hin]; [lia|]. rewrite Forall_forall in Hh. specialize (Hh h Hin). lia. }
  assert (forall l, NoDup (tv_key <$> List.filter (in_bucket bucket) l) ->
    dget (i, h) (dict_of tv_key Some (List.filter (in_bucket bucket) l)) =
    dget (i, h) (dict_of tv_key Some (List.filter seen l))) as Hcut.
  { intros l Hl. replace (List.filter seen l) with
      (List.filter (fun o => tv_market_date o <=? day) (List.filter (in_bucket bucket) l)).
    - rewrite (dget_visible tv_key (fun o => tv_market_date o <=? day)
        (List.filter (in_bucket bucket) l)) by done. destruct (dget _ _) as [o|] eqn:Eo; [|done].
      apply dget_elem, list_elem_of_omap in Eo as (o'&_&Eo'). simpl in Eo'.
      injection Eo' as Ei Eh <-. by rewrite (proj2 (Z.leb_le _ _)) by lia.
    - induction l as [|o l IH]; [done|]. unfold seen at 1. simpl in Hl |- *.
      destruct (in_bucket bucket o); simpl; [|by apply IH].
      apply NoDup_cons in Hl as [_ Hl]. fold (seen o).
      destruct (tv_market_date o <=? day); [f_equal|]; by apply IH. }
  rewrite !Hcut by done. apply dict_of_lookup_perm; [|done].
  eapply sublist_NoDup; [exact Hnd|]. apply fmap_sublist. unfold seen.
  clear. induction obs as [|o obs IH]; [done|]. simpl.
  destruct (in_bucket bucket o), (tv_market_date o <=? day); simpl;
    [by apply sublist_skip|by apply sublist_cons|done|done].
Qed.

(** *** A concrete theme *)

Definition ex_day : date := 730003.
Definition ex_days : list date := [730000; 730001; 730002; 730003].
Definition ex_policy : SameTimeBaselinePolicy :=
  mk_SameTimeBaselinePolicy "p" ADOPTED 3 2.
Definition ex_now : datetime := mk_datetime (ex_day * us_per_day + hours 10) (Some (hours 9)).
Definition ex_tv (id : string) (day : date) (value : Z) (bucket : time)
    : StockTradingValueObservation :=
  mk_StockTradingValueObservation id day (mk_datetime (day * us_per_day + hours 9) (Some (hours 9)))
    bucket (Some (dec_of_Z value)) true true false false.
Definition ex_snapshots : list ThemeMembershipSnapshot :=
  [mk_ThemeMembershipSnapshot "battery" "v1" 729000 (mk_datetime 0 (Some 0))
     [mk_ThemeMember "B" CORE; mk_ThemeMember "A" CORE]].
Definition ex_observations : list StockTradingValueObservation :=
  [ex_tv "A" 730000 10 0; ex_tv "A" 730001 20 0; ex_tv "A" 730002 30 0; ex_tv "A" 730003 40 0;
   ex_tv "B" 730001 5 0; ex_tv "B" 730002 7 0; ex_tv "B" 730003 12 0].
Definition ex_result : res ThemeTurnoverResult :=
  calculate_theme_turnover "battery" ex_day ex_now 0 ex_days ex_snapshots ex_observations ex_policy.

Lemma theme_turnover_contract_witness :
  match ex_result with
  | Ok r => turnover_ok ex_policy r /\ tt_valid_count r = 2 /\ tt_baseline_status r = PROVISIONAL
  | Raise _ => False
  end.
Proof.
  destruct ex_result as [r|e] eqn:E; [|vm_compute in E; discriminate E].
  split.
  - refine (theme_turnover_contract "battery" ex_day ex_now 0 ex_days ex_snapshots
              ex_observations ex_policy r _ E).
    repeat constructor; apply (bool_decide_unpack _); by vm_compute.
  - vm_compute in E. injection E as <-. by split.
Defined.

Lemma theme_turnover_no_lookahead_witness :
  calculate_theme_turnover "battery" ex_day ex_now 0 ex_days ex_snapshots
    (ex_tv "A" 730004 99 0 :: ex_tv "A" 730003 1 60000000 :: ex_observations) ex_policy =
  calculate_theme_turnover "battery" ex_day ex_now 0 ex_days ex_snapshots ex_observations ex_policy.
Proof.
  apply (theme_turnover_no_lookahead "battery" ex_day ex_now 0 ex_days ex_snapshots
           (ex_tv "A" 730004 99 0 :: ex_tv "A" 730003 1 60000000 :: ex_observations)
           ex_observations ex_policy).
  - apply (bool_decide_unpack _); by vm_compute.
  - apply (bool_decide_unpack _); by vm_compute.
  - reflexivity.
Defined.
