(* ===== verification/Attention.v ===== *)
(** [packages/calculations/attention.py]: the attention signal of a day and the
    timeline of attention intervals over a trading calendar. *)
From S2P Require Import Prelude PyTime PyDecimal DecimalFacts Domain Weights.
From S2P Require Import ThemeMetrics Turnover.
#[local] Open Scope Z_scope.

(* @ packages/calculations/attention.py 16-29 AttentionDaySignal *)
Record AttentionDaySignal := mk_AttentionDaySignal {
  as_market_date : date;
  as_is_attention : option bool;
  as_membership_version : option string;
  as_calculation_version : string;
  as_baseline_version : string;
  as_attention_policy_version : string;
  as_turnover_multiple : option dec;
  as_high_interest_count : option Z;
  as_valid_count : option Z;
  as_high_interest_ratio : option dec;
  as_weighted_return : option dec;
  as_unavailable_reason : option UnavailableReason
}.

(* @ packages/calculations/attention.py 32-42 AttentionInterval *)
Record AttentionInterval := mk_AttentionInterval {
  ai_first_attention_date : date;
  ai_last_attention_date : date;
  ai_closed_confirmation_date : option date;
  ai_gap_trading_days : option Z;
  ai_gap_unavailable_reason : option UnavailableReason;
  ai_membership_versions : list string;
  ai_calculation_versions : list string;
  ai_baseline_versions : list string;
  ai_attention_policy_version : string
}.

(* @ packages/calculations/attention.py 44-46 AttentionInterval.is_open *)
Definition is_open (i : AttentionInterval) : bool :=
  match ai_closed_confirmation_date i with None => true | Some _ => false end.

(* @ packages/calculations/attention.py 49-53 AttentionTimeline *)
Record AttentionTimeline := mk_AttentionTimeline {
  at_policy_version : string;
  at_policy_maturity : string;
  at_intervals : list AttentionInterval
}.

(* @ packages/calculations/attention.py 55-59 AttentionTimeline.current_interval *)
Definition current_interval (t : AttentionTimeline) : option AttentionInterval :=
  match last (at_intervals t) with
  | Some i => if is_open i then Some i else None
  | None => None
  end.

(* @ packages/calculations/attention.py 61-64 AttentionTimeline.current_gap_trading_days *)
Definition current_gap_trading_days (t : AttentionTimeline) : option Z :=
  match current_interval t with None => None | Some i => ai_gap_trading_days i end.

(* @ packages/calculations/attention.py 66-71 AttentionTimeline.current_gap_unavailable_reason *)
Definition current_gap_unavailable_reason (t : AttentionTimeline) : option UnavailableReason :=
  match current_interval t with
  | None => Some NO_CURRENT_ATTENTION_INTERVAL
  | Some i => ai_gap_unavailable_reason i
  end.

(** The version sets are lists, read only through [sorted(set(...))]. *)
(* @ packages/calculations/attention.py 74-84 _MutableInterval *)
Record MutableInterval := mk_MutableInterval {
  mi_first_attention_date : date;
  mi_last_attention_date : date;
  mi_gap_trading_days : option Z;
  mi_gap_unavailable_reason : option UnavailableReason;
  mi_membership_versions : list string;
  mi_calculation_versions : list string;
  mi_baseline_versions : list string;
  mi_attention_policy_version : string;
  mi_closed_confirmation_date : option date
}.

(* @ packages/calculations/attention.py 86-97 _MutableInterval.freeze *)
Definition freeze (m : MutableInterval) : AttentionInterval :=
  mk_AttentionInterval (mi_first_attention_date m) (mi_last_attention_date m)
    (mi_closed_confirmation_date m) (mi_gap_trading_days m) (mi_gap_unavailable_reason m)
    (sorted_set (mi_membership_versions m)) (sorted_set (mi_calculation_versions m))
    (sorted_set (mi_baseline_versions m)) (mi_attention_policy_version m).

(* @ packages/calculations/attention.py 107-118 evaluate_attention_day *)
Definition attention_unavailable (metrics : ThemeMetrics) (turnover : ThemeTurnoverResult)
    (policy : AttentionPolicy) : option UnavailableReason :=
  if negb (bool_decide (tt_membership_version turnover = Some (tmx_membership_version metrics)))
  then Some MEMBERSHIP_VERSION_MISMATCH
  else if negb (bool_decide (cov_status (tmx_coverage metrics) = SUFFICIENT))
  then Some INSUFFICIENT_COVERAGE
  else if negb (is_some (tt_turnover_multiple turnover))
          || negb (is_some (tmx_weighted_return metrics))
          || (tt_valid_count turnover <? ap_minimum_valid_members policy)
  then Some INSUFFICIENT_OBSERVATIONS
  else None.

(* @ packages/calculations/attention.py 100-166 evaluate_attention_day *)
Definition evaluate_attention_day (market_date : date) (metrics : ThemeMetrics)
    (turnover : ThemeTurnoverResult) (policy : AttentionPolicy) : res AttentionDaySignal :=
  match attention_unavailable metrics turnover policy with
  | Some reason =>
      Ok (mk_AttentionDaySignal market_date None (tt_membership_version turnover)
            (tmx_calculation_version metrics) (tt_baseline_version turnover) (ap_version policy)
            (tt_turnover_multiple turnover) None
            (if tt_valid_count turnover =? 0 then None else Some (tt_valid_count turnover))
            None (tmx_weighted_return metrics) (Some reason))
  | None =>
      match tt_turnover_multiple turnover, tmx_weighted_return metrics with
      | Some multiple, Some weighted =>
          let high := Z.of_nat (length (List.filter
            (fun m => dle (ap_stock_multiple_threshold policy) (stm_multiple m))
            (tt_stock_metrics turnover))) in
          ratio ← ddiv turnover_prec (dec_of_Z high) (dec_of_Z (tt_valid_count turnover));
          let is_attention :=
            dle (ap_turnover_multiple_threshold policy) multiple &&
            (ap_minimum_high_interest_stocks policy <=? high) &&
            dle (ap_spread_ratio_threshold policy) ratio &&
            dle (ap_weighted_return_threshold policy) weighted in
          Ok (mk_AttentionDaySignal market_date (Some is_attention)
                (tt_membership_version turnover) (tmx_calculation_version metrics)
                (tt_baseline_version turnover) (ap_version policy) (Some multiple) (Some high)
                (Some (tt_valid_count turnover)) (Some ratio) (Some weighted) None)
      | _, _ => Raise AssertionError
      end
  end.

(* @ packages/calculations/attention.py 169-173 _validate_calendar *)
Definition validate_calendar (trading_days : list date) : res (list date) :=
  _ ← raise_if (negb (bool_decide (sorted_set trading_days = trading_days))) ValueError;
  Ok trading_days.

(* @ packages/calculations/attention.py 176-194 _new_interval *)
Definition new_interval (signal : AttentionDaySignal) (gap : option Z)
    (gap_reason : option UnavailableReason) : MutableInterval :=
  mk_MutableInterval (as_market_date signal) (as_market_date signal) gap gap_reason
    (match as_membership_version signal with None => [] | Some v => [v] end)
    [as_calculation_version signal] [as_baseline_version signal]
    (as_attention_policy_version signal) None.

(* @ packages/calculations/attention.py 255-261 build_attention_timeline *)
Definition extend_interval (m : MutableInterval) (market_date : date)
    (signal : AttentionDaySignal) : MutableInterval :=
  mk_MutableInterval (mi_first_attention_date m) market_date (mi_gap_trading_days m)
    (mi_gap_unavailable_reason m)
    (match as_membership_version signal with
     | None => mi_membership_versions m
     | Some v => mi_membership_versions m ++ [v]
     end)
    (mi_calculation_versions m ++ [as_calculation_version signal])
    (mi_baseline_versions m ++ [as_baseline_version signal])
    (mi_attention_policy_version m) (mi_closed_confirmation_date m).

(* @ packages/calculations/attention.py 266-267 build_attention_timeline *)
Definition close_interval (m : MutableInterval) (market_date : date) : AttentionInterval :=
  freeze (mk_MutableInterval (mi_first_attention_date m) (mi_last_attention_date m)
    (mi_gap_trading_days m) (mi_gap_unavailable_reason m) (mi_membership_versions m)
    (mi_calculation_versions m) (mi_baseline_versions m) (mi_attention_policy_version m)
    (Some market_date)).

(** The calendar and signals the loop reads, and its three variables. *)
Section timeline.
Context (calendar : list date) (signal_by_date : dict date AttentionDaySignal).
Context (policy : AttentionPolicy).

Definition state_on (d : date) : option bool := s ← dget d signal_by_date; as_is_attention s.

(* @ packages/calculations/attention.py 227-245 build_attention_timeline *)
Definition gap_since (previous : option AttentionInterval) (market_date : date)
    : option Z * option UnavailableReason :=
  match previous with
  | None => (None, Some NO_PRIOR_ATTENTION_INTERVAL)
  | Some previous =>
      let p := default O (index_of (ai_last_attention_date previous) calendar) in
      let c := default O (index_of market_date calendar) in
      let between := take (c - S p) (drop (S p) calendar) in
      if forallb (fun d => bool_decide (state_on d = Some false)) between
      then (Some (Z.of_nat (length between)), None)
      else (None, Some INCOMPLETE_ATTENTION_HISTORY)
  end.

Record LoopState := mk_LoopState {
  ls_completed : list AttentionInterval;
  ls_active : option MutableInterval;
  ls_absent_streak : Z
}.

(* @ packages/calculations/attention.py 221-272 build_attention_timeline *)
Definition timeline_step (st : LoopState) (market_date : date) : LoopState :=
  let day_signal := dget market_date signal_by_date in
  match ls_active st with
  | None =>
      match state_on market_date, day_signal with
      | Some true, Some signal =>
          let '(gap, reason) := gap_since (last (ls_completed st)) market_date in
          mk_LoopState (ls_completed st) (Some (new_interval signal gap reason)) 0
      | _, _ => st
      end
  | Some active =>
      match state_on market_date, day_signal with
      | Some true, Some signal =>
          mk_LoopState (ls_completed st) (Some (extend_interval active market_date signal)) 0
      | Some false, _ =>
          let streak := ls_absent_streak st + 1 in
          if ap_close_after_absent_trading_days policy <=? streak
          then mk_LoopState (ls_completed st ++ [close_interval active market_date]) None 0
          else mk_LoopState (ls_completed st) (Some active) streak
      | _, _ => mk_LoopState (ls_completed st) (Some active) 0
      end
  end.

Definition timeline_loop (days : list date) : LoopState :=
  foldl timeline_step (mk_LoopState [] None 0) days.

(* @ packages/calculations/attention.py 274-281 build_attention_timeline *)
Definition timeline_result : AttentionTimeline :=
  let st := timeline_loop calendar in
  mk_AttentionTimeline (ap_version policy) (PolicyMaturity_value (ap_maturity policy))
    (ls_completed st ++ match ls_active st with Some m => [freeze m] | None => [] end).
End timeline.

(* @ packages/calculations/attention.py 207-215 build_attention_timeline *)
Definition index_signals (calendar : list date) (policy : AttentionPolicy)
    (signals : list AttentionDaySignal) : res (dict date AttentionDaySignal) :=
  foldM
    (fun d signal =>
       _ ← raise_if (negb (bool_decide (as_market_date signal ∈ calendar))) ValueError;
       _ ← raise_if (dmem (as_market_date signal) d) ValueError;
       _ ← raise_if (negb (bool_decide (as_attention_policy_version signal = ap_version policy)))
             ValueError;
       Ok (dset (as_market_date signal) signal d))
    [] signals.

(* @ packages/calculations/attention.py 197-281 build_attention_timeline *)
Definition build_attention_timeline (signals : list AttentionDaySignal)
    (trading_days : list date) (policy : AttentionPolicy) : res AttentionTimeline :=
  calendar ← validate_calendar trading_days;
  signal_by_date ← index_signals calendar policy signals;
  Ok (timeline_result calendar signal_by_date policy).

(** ** What a timeline is *)

Section spec.
Context (calendar : list date) (signal_by_date : dict date AttentionDaySignal).
Context (policy : AttentionPolicy).

Let state := state_on signal_by_date.

(** The explicit absences that follow one another at the end of [days], after
    the attention date [l]. *)
Definition absences (l : date) (days : list date) : Z :=
  foldl (fun n d => if bool_decide (state d = Some false) && (l <? d) then n + 1 else 0) 0 days.

Let required := ap_close_after_absent_trading_days policy.

(** An interval starts and ends on attention days.  It is closed on the first
    day that completes the required run of explicit absences after its last
    attention day, and open as long as no such day has come. *)
Definition interval_ok (days : list date) (i : AttentionInterval) : Prop :=
  let first := ai_first_attention_date i in
  let last := ai_last_attention_date i in
  first ∈ days /\ last ∈ days /\ first <= last /\
  state first = Some true /\ state last = Some true /\
  match ai_closed_confirmation_date i with
  | None => forall p, p `prefix_of` days -> absences last p < required
  | Some c =>
      last < c /\
      exists p, (p ++ [c]) `prefix_of` days /\ required <= absences last (p ++ [c]) /\
                forall p', p' `prefix_of` p -> absences last p' < required
  end.

(** [i] was closed before [j] began. *)
Definition closed_before (i j : AttentionInterval) : Prop :=
  exists c, ai_closed_confirmation_date i = Some c /\ c < ai_first_attention_date j.

(** The trading days strictly between two dates. *)
Definition days_between (a b : date) : list date :=
  List.filter (fun d => (a <? d) && (d <? b)) calendar.

(** The gap counts the days since the previous interval, and is given only if
    every one of them is an explicit absence. *)
Definition gap_ok (previous : option AttentionInterval) (i : AttentionInterval) : Prop :=
  match previous with
  | None => ai_gap_trading_days i = None /\
            ai_gap_unavailable_reason i = Some NO_PRIOR_ATTENTION_INTERVAL
  | Some p =>
      let between := days_between (ai_last_attention_date p) (ai_first_attention_date i) in
      if decide (Forall (fun d => state d = Some false) between)
      then ai_gap_trading_days i = Some (Z.of_nat (length between)) /\
           ai_gap_unavailable_reason i = None
      else ai_gap_trading_days i = None /\
           ai_gap_unavailable_reason i = Some INCOMPLETE_ATTENTION_HISTORY
  end.

Fixpoint gaps_ok (previous : option AttentionInterval) (l : list AttentionInterval) : Prop :=
  match l with
  | [] => True
  | i :: l' => gap_ok previous i /\ gaps_ok (Some i) l'
  end.

Definition timeline_ok (days : list date) (l : list AttentionInterval) : Prop :=
  Forall (interval_ok days) l /\ StronglySorted closed_before l /\ gaps_ok None l /\
  (forall d, d ∈ days -> state d = Some true ->
     exists i, i ∈ l /\ ai_first_attention_date i <= d <= ai_last_attention_date i).
End spec.

(** ** The loop keeps it *)

Section loop.
Context (calendar : list date) (signal_by_date : dict date AttentionDaySignal).
Context (policy : AttentionPolicy).
Context (Hcal : StronglySorted Z.lt calendar).
Context (Hreq : 1 <= ap_close_after_absent_trading_days policy).
Context (Hdates : forall d s, dget d signal_by_date = Some s -> as_market_date s = d).

Let state := state_on signal_by_date.
Let abs := absences signal_by_date.
Let ok := interval_ok signal_by_date policy.
Let spec := timeline_ok calendar signal_by_date policy.
Let required := ap_close_after_absent_trading_days policy.

Lemma absences_snoc l days d :
  abs l (days ++ [d]) =
  if bool_decide (state d = Some false) && (l <? d) then abs l days + 1 else 0.
Proof. unfold abs, absences. by rewrite foldl_app. Qed.

Lemma absences_none l days : Forall (fun d => d <= l) days -> abs l days = 0.
Proof.
  induction days as [|d days IH] using rev_ind; [done|]. intros [_ Hd]%Forall_app.
  rewrite absences_snoc. apply Forall_cons in Hd as [Hd _].
  rewrite (proj2 (Z.ltb_ge l d) Hd). by rewrite andb_false_r.
Qed.

Lemma prefix_snoc (p : list date) days d :
  p `prefix_of` days ++ [d] -> p `prefix_of` days \/ p = days ++ [d].
Proof.
  intros [k Hk]. destruct k as [|x k _] using rev_ind; [right; by rewrite app_nil_r in Hk|].
  left. rewrite app_assoc in Hk. apply app_inj_tail in Hk as [-> _]. by exists k.
Qed.

Lemma prefix_Forall (P : date -> Prop) p days : p `prefix_of` days -> Forall P days -> Forall P p.
Proof. intros [k ->] H. by apply Forall_app in H as [? _]. Qed.

(** A closed interval stays as it is when days are added. *)
Lemma interval_ok_closed_mono days d i :
  is_open i = false -> ok days i -> ok (days ++ [d]) i.
Proof.
  unfold ok, interval_ok, is_open. intros Ho (?&?&?&?&?&Hc).
  destruct (ai_closed_confirmation_date i) as [c|]; [|done].
  destruct Hc as (Hlt&p&Hp&Hn&Hmin).
  split_and!; try done; [apply elem_of_app; by left..|].
  exists p. split_and!; [|done|done]. by apply prefix_app_r.
Qed.

(** An open one stays open on a day that does not complete the run. *)
Lemma interval_ok_open_mono days d i :
  is_open i = true -> abs (ai_last_attention_date i) (days ++ [d]) < required ->
  ok days i -> ok (days ++ [d]) i.
Proof.
  unfold ok, interval_ok, is_open. intros Ho Hlt (?&?&?&?&?&Hc).
  destruct (ai_closed_confirmation_date i) as [c|]; [done|].
  split_and!; try done; [apply elem_of_app; by left..|].
  intros p [Hp| ->]%prefix_snoc; [by apply Hc|done].
Qed.

Lemma gaps_ok_snoc prev l x :
  gaps_ok calendar signal_by_date prev (l ++ [x]) <->
  gaps_ok calendar signal_by_date prev l /\
  gap_ok calendar signal_by_date (match last l with Some y => Some y | None => prev end) x.
Proof.
  revert prev; induction l as [|y l IH]; intros prev; simpl; [tauto|].
  rewrite IH. destruct l as [|z l]; [simpl; tauto|]. cbn [last].
  destruct (last (z :: l)) eqn:E; [tauto|]. by apply last_None in E.
Qed.

Lemma closed_before_snoc l x :
  StronglySorted closed_before (l ++ [x]) <->
  StronglySorted closed_before l /\ Forall (fun i => closed_before i x) l.
Proof.
  induction l as [|y l IH]; simpl.
  - split; [by split; constructor|]. repeat constructor.
  - split.
    + inversion 1 as [|? ? Hs Hy]; subst. apply IH in Hs as [Hs Hx].
      apply Forall_app in Hy as [Hy Hyx]. apply Forall_cons in Hyx as [Hyx _].
      split; constructor; done.
    + intros [Hs Hx]. inversion Hs; subst. apply Forall_cons in Hx as [Hyx Hx].
      constructor; [by apply IH|]. apply Forall_app. by split; [|constructor].
Qed.

Lemma spec_snoc days l x :
  spec days (l ++ [x]) <->
  Forall (ok days) l /\ ok days x /\ StronglySorted closed_before l /\
  Forall (fun i => closed_before i x) l /\ gaps_ok calendar signal_by_date None l /\
  gap_ok calendar signal_by_date (last l) x /\
  (forall d, d ∈ days -> state d = Some true -> exists i, i ∈ l ++ [x] /\
     ai_first_attention_date i <= d <= ai_last_attention_date i).
Proof.
  unfold spec, timeline_ok. rewrite Forall_app, Forall_singleton, closed_before_snoc,
    gaps_ok_snoc. replace (match last l with Some y => Some y | None => None end) with (last l)
    by (by destruct (last l)). unfold ok, state. tauto.
Qed.

Lemma Forall_lt_prefix pre d : (pre ++ [d]) `prefix_of` calendar -> Forall (fun x => x < d) pre.
Proof.
  intros [k Hk]. rewrite Hk, <-app_assoc in Hcal. clear Hk.
  induction pre as [|x pre IH]; [constructor|]. inversion Hcal as [|? ? Hs Hx]; subst.
  constructor; [|by apply IH]. rewrite Forall_forall in Hx. apply Hx. apply elem_of_app.
  right. by left.
Qed.

(** The slice the code takes is the days in between. *)
Lemma slice_between p c a b :
  calendar !! p = Some a -> calendar !! c = Some b -> (p < c)%nat ->
  take (c - S p) (drop (S p) calendar) = days_between calendar a b.
Proof.
  intros Ha Hb Hpc. unfold days_between.
  assert (calendar = take (S p) calendar ++ take (c - S p) (drop (S p) calendar) ++
                     drop c calendar) as E.
  { rewrite <-(take_drop (S p) calendar) at 1. f_equal.
    rewrite <-(take_drop (c - S p) (drop (S p) calendar)) at 1. f_equal.
    rewrite drop_drop. by replace (S p + (c - S p))%nat with c by lia. }
  rewrite E at 2. rewrite !List.filter_app.
  rewrite (filterb_none _ (take (S p) calendar)), (filterb_none _ (drop c calendar)),
    (filterb_all _ (take _ (drop _ _))); [by rewrite app_nil_r| | |].
  - intros x Hx. apply list_elem_of_lookup_1 in Hx as [i Hi].
    apply lookup_take_Some in Hi as [Hi Hlt]. rewrite lookup_drop in Hi.
    pose proof (StronglySorted_lookup _ _ _ _ _ _ Hcal (ltac:(lia) : (p < S p + i)%nat) Ha Hi).
    pose proof (StronglySorted_lookup _ _ _ _ _ _ Hcal (ltac:(lia) : (S p + i < c)%nat) Hi Hb).
    apply andb_true_iff. lia.
  - intros x Hx. apply list_elem_of_lookup_1 in Hx as [i Hi]. rewrite lookup_drop in Hi.
    apply andb_false_iff. right. apply Z.ltb_ge. destruct i as [|i].
    { rewrite Nat.add_0_r in Hi. simplify_eq. lia. }
    pose proof (StronglySorted_lookup _ _ _ _ _ _ Hcal (ltac:(lia) : (c < c + S i)%nat) Hb Hi). lia.
  - intros x Hx. apply list_elem_of_lookup_1 in Hx as [i Hi].
    apply lookup_take_Some in Hi as [Hi Hlt]. apply andb_false_iff. left. apply Z.ltb_ge.
    destruct (decide (i = p)) as [->|Hne]; [simplify_eq; lia|].
    pose proof (StronglySorted_lookup _ _ _ _ _ _ Hcal (ltac:(lia) : (i < p)%nat) Hi Ha). lia.
Qed.

Lemma gap_since_ok previous d i gap reason :
  d ∈ calendar ->
  (forall p, previous = Some p -> ai_last_attention_date p ∈ calendar /\
                                 ai_last_attention_date p < d) ->
  gap_since calendar signal_by_date previous d = (gap, reason) ->
  ai_first_attention_date i = d -> ai_gap_trading_days i = gap ->
  ai_gap_unavailable_reason i = reason ->
  gap_ok calendar signal_by_date previous i.
Proof.
  intros Hd Hprev H Hfirst Hgap Hreason. unfold gap_since in H. unfold gap_ok.
  destruct previous as [p|]; [|by simplify_eq]. destruct (Hprev p eq_refl) as [Hp Hlt].
  destruct (index_of_Some _ _ Hp) as [np Ep]. destruct (index_of_Some _ _ Hd) as [nd Ed].
  rewrite Ep, Ed in H. simpl default in H. apply index_of_lookup in Ep, Ed.
  assert (np < nd)%nat as Hn.
  { destruct (Nat.lt_trichotomy np nd) as [?|[->|Hgt]]; [done|simplify_eq; lia|].
    pose proof (StronglySorted_lookup _ _ _ _ _ _ Hcal Hgt Ed Ep). lia. }
  rewrite (slice_between _ _ _ _ Ep Ed Hn) in H. rewrite Hfirst, Hgap, Hreason.
  set (between := days_between _ _ _) in *.
  assert (forallb (fun d => bool_decide (state_on signal_by_date d = Some false)) between =
          bool_decide (Forall (fun d => state_on signal_by_date d = Some false) between)) as E.
  { apply eq_true_iff_eq. rewrite forallb_forall, bool_decide_eq_true, List.Forall_forall.
    by setoid_rewrite bool_decide_eq_true. }
  rewrite E in H. case_bool_decide; [rewrite decide_True by done|rewrite decide_False by done];
    by simplify_eq.
Qed.

Definition covered (days : list date) (l : list AttentionInterval) : Prop :=
  forall d, d ∈ days -> state d = Some true ->
    exists i, i ∈ l /\ ai_first_attention_date i <= d <= ai_last_attention_date i.

Lemma covered_replace pre d l x x' :
  covered pre (l ++ [x]) -> ai_first_attention_date x' = ai_first_attention_date x ->
  ai_last_attention_date x <= ai_last_attention_date x' ->
  (state d = Some true -> ai_first_attention_date x' <= d <= ai_last_attention_date x') ->
  covered (pre ++ [d]) (l ++ [x']).
Proof.
  intros Hc Hf Hl Hd d0 [Hin| ->%list_elem_of_singleton]%elem_of_app Hs.
  - destruct (Hc d0 Hin Hs) as (i&[Hi| ->%list_elem_of_singleton]%elem_of_app&Hr).
    + exists i. split; [apply elem_of_app; by left|done].
    + exists x'. split; [apply elem_of_app; right; by left|lia].
  - exists x'. split; [apply elem_of_app; right; by left|by apply Hd].
Qed.

Lemma covered_more pre d l :
  covered pre l -> state d <> Some true -> covered (pre ++ [d]) l.
Proof.
  intros Hc Hd d0 [Hin| ->%list_elem_of_singleton]%elem_of_app Hs; [by apply Hc|done].
Qed.

(** An open interval whose last attention day is the last day seen. *)
Lemma ok_open_at pre d i :
  Forall (fun x => x < d) pre -> ai_first_attention_date i ∈ pre ++ [d] ->
  ai_first_attention_date i <= d -> state (ai_first_attention_date i) = Some true ->
  ai_last_attention_date i = d -> state d = Some true ->
  ai_closed_confirmation_date i = None -> ok (pre ++ [d]) i.
Proof.
  intros Hlt Hf Hle Hsf Hl Hs Hc. unfold ok, interval_ok. rewrite Hl, Hc.
  split_and!; try done; [apply elem_of_app; right; by left|].
  intros p Hp. fold abs. rewrite absences_none; [unfold required; lia|].
  eapply prefix_Forall; [exact Hp|]. apply Forall_app. split; [|by constructor].
  eapply Forall_impl; [exact Hlt|]. simpl. lia.
Qed.

Lemma ok_closed_before pre d l x :
  Forall (fun x => x < d) pre -> Forall (ok pre) l -> Forall (fun i => is_open i = false) l ->
  ai_first_attention_date x = d -> Forall (fun i => closed_before i x) l.
Proof.
  intros Hlt Hok Hcl Hx. rewrite Forall_forall in Hlt. rewrite Forall_forall in Hok. rewrite Forall_forall in Hcl.
  apply Forall_forall. intros i Hi.
  specialize (Hok i Hi). specialize (Hcl i Hi). unfold ok, interval_ok, is_open in *.
  destruct Hok as (_&_&_&_&_&Hok). destruct (ai_closed_confirmation_date i) as [c|] eqn:Ec; [|done].
  exists c. split; [done|]. destruct Hok as (_&p&[k Hp]&_). rewrite Hx. apply Hlt. rewrite Hp.
  rewrite !elem_of_app. left. right. by left.
Qed.

(** The state of the loop after the days [pre]. *)
Definition loop_inv (pre : list date) (st : LoopState) : Prop :=
  Forall (fun i => is_open i = false) (ls_completed st) /\
  match ls_active st with
  | None => spec pre (ls_completed st)
  | Some m => mi_closed_confirmation_date m = None /\
              ls_absent_streak st = abs (mi_last_attention_date m) pre /\
              spec pre (ls_completed st ++ [freeze m])
  end.

Lemma closed_mono pre d l :
  Forall (fun i => is_open i = false) l -> Forall (ok pre) l -> Forall (ok (pre ++ [d])) l.
Proof.
  intros Hcl Hok. rewrite Forall_forall in Hcl. rewrite Forall_forall in Hok.
  apply Forall_forall. intros i Hi. apply interval_ok_closed_mono; auto.
Qed.

(** The attention days of [pre] are those of the intervals kept so far. *)
Lemma loop_step_start pre d st signal :
  (pre ++ [d]) `prefix_of` calendar -> loop_inv pre st -> ls_active st = None ->
  state d = Some true -> dget d signal_by_date = Some signal ->
  loop_inv (pre ++ [d]) (timeline_step calendar signal_by_date policy st d).
Proof.
  intros Hpre [Hcl Hinv] Ha Hs Hsig. rewrite Ha in Hinv. unfold timeline_step.
  rewrite Ha, Hsig. fold state. rewrite Hs.
  destruct (gap_since _ _ _ _) as [gap reason] eqn:Eg.
  pose proof (Forall_lt_prefix _ _ Hpre) as Hlt. pose proof (Hdates _ _ Hsig) as Hd.
  destruct Hinv as (Hok&Hss&Hg&Hcov). split; [exact Hcl|]. cbn [ls_active ls_completed].
  assert (d ∈ calendar) as Hdc.
  { destruct Hpre as [k ->]. rewrite !elem_of_app. left. right. by left. }
  split_and!; [done| |].
  { cbn. rewrite Hd, absences_none; [done|]. apply Forall_app. split; [|by constructor].
    eapply Forall_impl; [exact Hlt|]. simpl. lia. }
  apply spec_snoc. split_and!; [by apply closed_mono| |done| |done| |].
  - apply ok_open_at; cbn; rewrite ?Hd; try done. apply elem_of_app. right. by left.
  - by eapply ok_closed_before.
  - eapply gap_since_ok; [exact Hdc| |exact Eg|exact Hd|done|done].
    intros p Hp. assert (p ∈ ls_completed st) as Hin by (by apply last_Some_elem_of).
    rewrite Forall_forall in Hok. destruct (Hok p Hin) as (_&Hl&_). split.
    + destruct Hpre as [k ->]. rewrite !elem_of_app. left. by left.
    + rewrite Forall_forall in Hlt. by apply Hlt.
  - intros d0 [Hin| ->%list_elem_of_singleton]%elem_of_app Hs0.
    + destruct (Hcov d0 Hin Hs0) as (i&Hi&Hr). exists i. split; [|done].
      apply elem_of_app. by left.
    + eexists. split; [apply elem_of_app; right; by left|]. cbn. rewrite Hd. lia.
Qed.

Lemma loop_step_extend pre d st m signal :
  (pre ++ [d]) `prefix_of` calendar -> loop_inv pre st -> ls_active st = Some m ->
  state d = Some true -> dget d signal_by_date = Some signal ->
  loop_inv (pre ++ [d]) (timeline_step calendar signal_by_date policy st d).
Proof.
  intros Hpre [Hcl Hinv] Ha Hs Hsig. rewrite Ha in Hinv. unfold timeline_step.
  rewrite Ha, Hsig. fold state. rewrite Hs.
  pose proof (Forall_lt_prefix _ _ Hpre) as Hlt. destruct Hinv as (Hopen&_&Hinv).
  apply spec_snoc in Hinv as (Hok&Hm&Hss&Hbef&Hg&Hgm&Hcov).
  destruct Hm as (Hf&Hl&Hfl&Hsf&_&_). cbn in Hf, Hl, Hfl, Hsf.
  assert (mi_first_attention_date m < d) as Hfd by (rewrite Forall_forall in Hlt; by apply Hlt).
  assert (mi_last_attention_date m < d) as Hld by (rewrite Forall_forall in Hlt; by apply Hlt).
  split; [exact Hcl|]. cbn [ls_active ls_completed]. split_and!; [done| |].
  { cbn. rewrite absences_none; [done|]. apply Forall_app. split; [|by constructor].
    eapply Forall_impl; [exact Hlt|]. simpl. lia. }
  apply spec_snoc. split_and!; [by apply closed_mono| |done|done|done|done|].
  - apply ok_open_at; cbn; try done; [apply elem_of_app; by left|lia].
  - eapply (covered_replace pre d _ (freeze m)); [exact Hcov|done|cbn; lia|].
    intros _. cbn. lia.
Qed.

Lemma loop_step_absent pre d st m :
  (pre ++ [d]) `prefix_of` calendar -> loop_inv pre st -> ls_active st = Some m ->
  state d <> Some true ->
  loop_inv (pre ++ [d]) (timeline_step calendar signal_by_date policy st d).
Proof.
  intros Hpre [Hcl Hinv] Ha Hs. rewrite Ha in Hinv. unfold timeline_step. rewrite Ha.
  pose proof (Forall_lt_prefix _ _ Hpre) as Hlt. destruct Hinv as (Hopen&Hstreak&Hinv).
  apply spec_snoc in Hinv as (Hok&Hm&Hss&Hbef&Hg&Hgm&Hcov).
  assert (mi_last_attention_date m < d) as Hld.
  { destruct Hm as (_&Hl&_). rewrite Forall_forall in Hlt. by apply Hlt. }
  assert (forall n, n = abs (mi_last_attention_date m) (pre ++ [d]) -> n < required ->
    loop_inv (pre ++ [d]) (mk_LoopState (ls_completed st) (Some m) n)) as Hstay.
  { intros n Hn Hlt'. split; [exact Hcl|]. split_and!; [done|done|].
    apply spec_snoc. split_and!; [by apply closed_mono| |done|done|done|done|].
    - apply interval_ok_open_mono; [unfold is_open; cbn; by rewrite Hopen| |done].
      cbn. fold abs. by rewrite <-Hn.
    - by apply covered_more. }
  assert (abs (mi_last_attention_date m) (pre ++ [d]) =
          if bool_decide (state d = Some false) then ls_absent_streak st + 1 else 0) as Hab.
  { rewrite absences_snoc, (proj2 (Z.ltb_lt _ _) Hld), andb_true_r. by case_bool_decide;
      rewrite ?Hstreak. }
  destruct (state d) as [[|]|] eqn:Es; [done| |].
  - rewrite bool_decide_eq_true_2 in Hab by done. unfold state in Es. rewrite Es.
    destruct (dget d signal_by_date) eqn:Ed.
    2: { unfold state_on in Es. by rewrite Ed in Es. }
    fold required. destruct (Z.leb_spec required (ls_absent_streak st + 1)) as [Hge|Hlt'];
      [|by apply Hstay].
    split; [apply Forall_app; split; [done|by constructor]|]. cbn [ls_active ls_completed].
    apply spec_snoc. split_and!; [by apply closed_mono| |done|done|done|done|].
    + destruct Hm as (Hf&Hl&Hfl&Hsf&Hsl&Hc). cbn in *. rewrite Hopen in Hc.
      split; [apply elem_of_app; by left|]. split; [apply elem_of_app; by left|].
      split; [exact Hfl|]. split; [exact Hsf|]. split; [exact Hsl|]. split; [exact Hld|].
      exists pre. split; [done|]. split; [|exact Hc].
      change (required <= abs (mi_last_attention_date m) (pre ++ [d])). by rewrite Hab.
    + eapply (covered_replace pre d _ (freeze m)); [exact Hcov|done|cbn; lia|].
      unfold state. congruence.
  - rewrite bool_decide_eq_false_2 in Hab by done. unfold state in Es. rewrite Es.
    destruct (dget d signal_by_date); apply Hstay; try done; unfold required; lia.
Qed.

Lemma timeline_step_ok pre d st :
  (pre ++ [d]) `prefix_of` calendar -> loop_inv pre st ->
  loop_inv (pre ++ [d]) (timeline_step calendar signal_by_date policy st d).
Proof.
  intros Hpre Hinv. destruct (ls_active st) as [m|] eqn:Ha.
  - destruct (decide (state d = Some true)) as [Hs|Hs]; [|by eapply loop_step_absent].
    destruct (dget d signal_by_date) as [signal|] eqn:Ed; [by eapply loop_step_extend|].
    unfold state, state_on in Hs. by rewrite Ed in Hs.
  - destruct (decide (state d = Some true)) as [Hs|Hs].
    + destruct (dget d signal_by_date) as [signal|] eqn:Ed; [by eapply loop_step_start|].
      unfold state, state_on in Hs. by rewrite Ed in Hs.
    + assert (timeline_step calendar signal_by_date policy st d = st) as ->.
      { unfold timeline_step. rewrite Ha. unfold state in Hs.
        destruct (state_on _ _) as [[|]|]; done. }
      destruct Hinv as [Hcl Hinv]. split; [done|]. rewrite Ha in Hinv |- *.
      destruct Hinv as (Hok&Hss&Hg&Hcov).
      split_and!; [by apply closed_mono|done|done|by apply covered_more].
Qed.

Lemma timeline_result_ok :
  timeline_ok calendar signal_by_date policy calendar
    (at_intervals (timeline_result calendar signal_by_date policy)).
Proof.
  assert (forall pre rest st, calendar = pre ++ rest -> loop_inv pre st ->
    loop_inv calendar (foldl (timeline_step calendar signal_by_date policy) st rest)) as H.
  { intros pre rest; revert pre. induction rest as [|d rest IH]; intros pre st E Hinv; simpl.
    { rewrite E at 1. by rewrite app_nil_r. }
    rewrite cons_middle, app_assoc in E. eapply IH; [exact E|].
    apply timeline_step_ok; [|done]. by exists rest. }
  specialize (H [] calendar (mk_LoopState [] None 0) eq_refl).
  unfold timeline_result, timeline_loop; cbn [at_intervals].
  destruct H as [_ Hinv].
  { split; [constructor|]. split_and!; [constructor|constructor|done|].
    intros d Hd. by apply not_elem_of_nil in Hd. }
  destruct (ls_active _); [by destruct Hinv as (_&_&?)|]. by rewrite app_nil_r.
Qed.
End loop.

(** ** The signals by date *)

Lemma index_signals_dict calendar policy signals d :
  index_signals calendar policy signals = Ok d ->
  NoDup (as_market_date <$> signals) /\ d = dict_of as_market_date Some signals /\
  Forall (fun s => as_market_date s ∈ calendar /\
                   as_attention_policy_version s = ap_version policy) signals.
Proof.
  unfold index_signals. match goal with |- foldM ?f _ _ = _ -> _ => set (step := f) end.
  set (good := fun s => as_market_date s ∈ calendar /\
                        as_attention_policy_version s = ap_version policy).
  assert (forall pre, NoDup (as_market_date <$> pre) -> Forall good pre ->
    foldM step (dict_of as_market_date Some pre) signals = Ok d ->
    NoDup (as_market_date <$> (pre ++ signals)) /\
    d = dict_of as_market_date Some (pre ++ signals) /\ Forall good (pre ++ signals)) as H;
    [|intros; apply (H []); [constructor|constructor|done]].
  induction signals as [|s signals IH]; intros pre Hnd Hgood H; cbn [foldM] in H.
  { res_step. by rewrite app_nil_r. }
  apply res_bind_ok in H as (d1&Hstep&H). unfold step in Hstep.
  apply res_bind_ok in Hstep as (?&Hc&Hstep). apply res_bind_ok in Hstep as (?&Hm&Hstep).
  apply res_bind_ok in Hstep as (?&Hv&Hstep). injection Hstep as <-.
  apply raise_if_ok in Hc, Hm, Hv. apply negb_false_iff, bool_decide_eq_true in Hc, Hv.
  unfold dmem in Hm.
  destruct (dget (as_market_date s) (dict_of as_market_date Some pre)) eqn:E; [done|].
  assert (as_market_date s ∉ as_market_date <$> pre) as Hfresh.
  { intros Hin. apply list_elem_of_fmap in Hin as (s'&Hs'&Hin). rewrite Hs' in E.
    by rewrite (dget_dict_of as_market_date Some pre s' Hnd Hin) in E. }
  assert (NoDup (as_market_date <$> (pre ++ [s]))) as Hnd'.
  { rewrite fmap_app. apply NoDup_app. split_and!; [done| |apply NoDup_singleton].
    by intros y Hy ->%list_elem_of_singleton. }
  rewrite (cons_middle s pre signals), app_assoc. apply IH; [done| |].
  - apply Forall_app. split; [done|]. by constructor.
  - destruct (dict_of_snoc as_market_date Some pre s [] Hnd') as [_ ->]. exact H.
Qed.

(** [build_attention_timeline] returns exactly the attention intervals of the
    calendar: every attention day is in one of them, they are ordered and
    disjoint, each is closed on the first day that completes the required run
    of explicit absences (unknown or missing days never count), only the last
    may be open, and a gap is the number of trading days since the previous
    interval when all of them are known absences, and unavailable otherwise. *)
Theorem build_attention_timeline_ok signals trading_days policy t :
  1 <= ap_close_after_absent_trading_days policy ->
  build_attention_timeline signals trading_days policy = Ok t ->
  timeline_ok trading_days (dict_of as_market_date Some signals) policy trading_days
    (at_intervals t).
Proof.
  intros Hreq H. unfold build_attention_timeline, validate_calendar in H.
  apply res_bind_ok in H as (cal&Hc&H). apply res_bind_ok in Hc as (?&Hs&Hc).
  injection Hc as <-. apply raise_if_ok, negb_false_iff, bool_decide_eq_true in Hs.
  apply res_bind_ok in H as (d&Hd&H). injection H as <-.
  apply index_signals_dict in Hd as (Hnd&->&_).
  apply timeline_result_ok; [|done|].
  - apply StronglySorted_lt.
    + rewrite <-Hs. apply sorted_by_sorted.
    + rewrite <-Hs. apply NoDup_sorted_set.
  - intros day s Hday. apply dget_elem, list_elem_of_omap in Hday as (s'&_&E).
    simpl in E. by injection E as <- <-.
Qed.

(** *** A concrete calendar *)

Definition ex_signal (day : date) (attention : option bool) : AttentionDaySignal :=
  mk_AttentionDaySignal day attention (Some "m1") "c1" "b1" "p1" None None None None None None.
Definition ex_attention_policy : AttentionPolicy :=
  mk_AttentionPolicy "p1" ADOPTED dzero dzero done_ 1 dzero 1 2.
Definition ex_calendar : list date := [1; 2; 3; 6; 7; 8; 9; 10].
(** Attention on days 2 and 3, closed on day 7, attention again on day 9. *)
Definition ex_signals : list AttentionDaySignal :=
  [ex_signal 2 (Some true); ex_signal 3 (Some true); ex_signal 6 (Some false);
   ex_signal 7 (Some false); ex_signal 8 (Some false); ex_signal 9 (Some true);
   ex_signal 10 None].

Lemma build_attention_timeline_ok_witness :
  match build_attention_timeline ex_signals ex_calendar ex_attention_policy with
  | Ok t =>
      timeline_ok ex_calendar (dict_of as_market_date Some ex_signals) ex_attention_policy
        ex_calendar (at_intervals t) /\
      current_gap_trading_days t = Some 3
  | Raise _ => False
  end.
Proof.
  destruct (build_attention_timeline ex_signals ex_calendar ex_attention_policy) as [t|e] eqn:E;
    [|vm_compute in E; discriminate E].
  split; [|vm_compute in E; injection E as <-; reflexivity].
  exact (build_attention_timeline_ok ex_signals ex_calendar ex_attention_policy t
           ltac:(vm_compute; discriminate) E).
Defined.
