(* ===== verification/EventModels.v ===== *)
(** [packages/events/models.py]: commands, lineage, identities, persisted events,
    receipts and state logs.  A record's [..._check] is its [__post_init__]: it
    returns the record or raises; [dataclasses.replace] runs it again. *)
From S2P Require Import Prelude Sha256 PyTime PyDecimal Json Domain.
#[local] Open Scope Z_scope.

(* @ packages/events/models.py 13-15 EVENT_COMMAND_SCHEMA_VERSION *)
Definition EVENT_COMMAND_SCHEMA_VERSION : string := "event-command-2026.08.1".
Definition EVENT_DOMAIN_EVENT_VERSION : string := "1".
Definition EVENT_PRODUCER : string := "dayjaview.events".

(* @ packages/events/models.py 28-34 _canonical_json *)
Definition canonical_json (value : json) : string := dumps false value.

(* @ packages/events/models.py 37-39 _opaque_id *)
Definition opaque_id (prefix value : string) : string :=
  prefix +:+ "_" +:+ str_take 32 (sha256_hex value).

(** [if value is not None: _require_text(value)] *)
Definition require_opt_text (value : option string) : res unit :=
  match value with Some s => require_text s | None => Ok tt end.

Definition require_texts (values : list string) : res unit :=
  foldM (fun _ s => require_text s) tt values.

(* @ packages/events/models.py 42-49 LineageRef *)
Record LineageRef := mk_LineageRef {
  lr_kind : string;
  lr_identifier : string;
  lr_version : option string;
  lr_content_hash : option string
}.
#[export] Instance LineageRef_eq_dec : EqDecision LineageRef.
Proof. solve_decision. Defined.

(* @ packages/events/models.py 51-57 LineageRef.__post_init__ *)
Definition LineageRef_check (r : LineageRef) : res LineageRef :=
  _ ← require_text (lr_kind r);
  _ ← require_text (lr_identifier r);
  _ ← require_opt_text (lr_version r);
  _ ← require_opt_text (lr_content_hash r);
  Ok r.

(* @ packages/events/models.py 59-65 LineageRef.to_dict *)
Definition LineageRef_to_dict (r : LineageRef) : json :=
  JObj [("kind", JStr (lr_kind r)); ("identifier", JStr (lr_identifier r));
        ("version", JOpt (lr_version r)); ("contentHash", JOpt (lr_content_hash r))].

(* @ packages/events/models.py 79-90 EventInputMetadata *)
Record EventInputMetadata := mk_EventInputMetadata {
  im_message_id : string;
  im_source : string;
  im_source_sequence : Z;
  im_occurred_at : datetime;
  im_received_at : datetime;
  im_correlation_id : string;
  im_causation_id : option string;
  im_lineage : list LineageRef
}.
#[export] Instance EventInputMetadata_eq_dec : EqDecision EventInputMetadata.
Proof. solve_decision. Defined.

Definition lineage_key (r : LineageRef) : string * string * option string :=
  (lr_kind r, lr_identifier r, lr_version r).

(* @ packages/events/models.py 92-111 EventInputMetadata.__post_init__ *)
Definition EventInputMetadata_check (m : EventInputMetadata) : res EventInputMetadata :=
  _ ← require_texts [im_message_id m; im_source m; im_correlation_id m];
  _ ← require_opt_text (im_causation_id m);
  _ ← raise_if (im_source_sequence m <? 0) ValueError;
  _ ← require_aware (im_occurred_at m);
  _ ← require_aware (im_received_at m);
  _ ← raise_if (dt_lt (im_received_at m) (im_occurred_at m)) ValueError;
  _ ← raise_if (negb (bool_decide (NoDup (lineage_key <$> im_lineage m)))) ValueError;
  Ok m.

(* @ packages/events/models.py 113-123 EventInputMetadata.to_dict *)
Definition EventInputMetadata_to_dict (m : EventInputMetadata) : json :=
  JObj [("messageId", JStr (im_message_id m)); ("source", JStr (im_source m));
        ("sourceSequence", JNum (im_source_sequence m));
        ("occurredAt", JStr (isoformat (im_occurred_at m)));
        ("receivedAt", JStr (isoformat (im_received_at m)));
        ("correlationId", JStr (im_correlation_id m));
        ("causationId", JOpt (im_causation_id m));
        ("lineage", JList (LineageRef_to_dict <$> im_lineage m))].

(* @ packages/events/models.py 126-132 CanonicalEventIdentity *)
Record CanonicalEventIdentity := mk_CanonicalEventIdentity {
  ci_market_date : date;
  ci_canonical_theme_id : string;
  ci_catalyst_key : string
}.
#[export] Instance CanonicalEventIdentity_eq_dec : EqDecision CanonicalEventIdentity.
Proof. solve_decision. Defined.

(* @ packages/events/models.py 134-136 CanonicalEventIdentity.__post_init__ *)
Definition CanonicalEventIdentity_check (i : CanonicalEventIdentity)
    : res CanonicalEventIdentity :=
  _ ← require_texts [ci_canonical_theme_id i; ci_catalyst_key i]; Ok i.

(* @ packages/events/models.py 138-147 CanonicalEventIdentity.identity_key *)
Definition identity_key (i : CanonicalEventIdentity) : string :=
  opaque_id "eventkey"
    (canonical_json
       (JObj [("marketDate", JStr (date_isoformat (ci_market_date i)));
              ("canonicalThemeId", JStr (ci_canonical_theme_id i));
              ("catalystKey", JStr (ci_catalyst_key i))])).

(** The event id is derived from the identity key alone. *)
Definition event_id_of_key (key : string) : string := opaque_id "evt" key.

(* @ packages/events/models.py 149-151 CanonicalEventIdentity.event_id *)
Definition identity_event_id (i : CanonicalEventIdentity) : string :=
  event_id_of_key (identity_key i).

(* @ packages/events/models.py 153-159 CanonicalEventIdentity.to_dict *)
Definition CanonicalEventIdentity_to_dict (i : CanonicalEventIdentity) : json :=
  JObj [("marketDate", JStr (date_isoformat (ci_market_date i)));
        ("canonicalThemeId", JStr (ci_canonical_theme_id i));
        ("catalystKey", JStr (ci_catalyst_key i));
        ("identityKey", JStr (identity_key i))].

(* @ packages/events/models.py 162-167 EventVersions *)
Record EventVersions := mk_EventVersions {
  ev_calculation_version : string;
  ev_ranking_model_version : string;
  ev_membership_version : string;
  ev_baseline_version : option string
}.
#[export] Instance EventVersions_eq_dec : EqDecision EventVersions.
Proof. solve_decision. Defined.

(* @ packages/events/models.py 169-177 EventVersions.__post_init__ *)
Definition EventVersions_check (v : EventVersions) : res EventVersions :=
  _ ← require_texts [ev_calculation_version v; ev_ranking_model_version v;
                     ev_membership_version v];
  _ ← require_opt_text (ev_baseline_version v);
  Ok v.

(* @ packages/events/models.py 179-185 EventVersions.to_dict *)
Definition EventVersions_to_dict (v : EventVersions) : json :=
  JObj [("calculationVersion", JStr (ev_calculation_version v));
        ("rankingModelVersion", JStr (ev_ranking_model_version v));
        ("membershipVersion", JStr (ev_membership_version v));
        ("baselineVersion", JOpt (ev_baseline_version v))].

(* @ packages/events/models.py 201-204 ClassificationKind *)
Inductive ClassificationKind := INFOSTOCK_THEME | UNCLASSIFIED_CLUSTER | TEMPORARY_THEME.
#[export] Instance ClassificationKind_eq_dec : EqDecision ClassificationKind.
Proof. solve_decision. Defined.
(* @ packages/events/models.py 207-209 ClassificationCertainty *)
Inductive ClassificationCertainty := CERT_PROVISIONAL | CONFIRMED.
#[export] Instance ClassificationCertainty_eq_dec : EqDecision ClassificationCertainty.
Proof. solve_decision. Defined.
(* @ packages/events/models.py 212-215 ClassificationSource *)
Inductive ClassificationSource := LIVE_ENGINE | OPERATOR | INFOSTOCK.
#[export] Instance ClassificationSource_eq_dec : EqDecision ClassificationSource.
Proof. solve_decision. Defined.

(* @ packages/events/models.py 201-204 ClassificationKind *)
Definition ClassificationKind_value (k : ClassificationKind) : string :=
  match k with
  | INFOSTOCK_THEME => "INFOSTOCK_THEME"
  | UNCLASSIFIED_CLUSTER => "UNCLASSIFIED_CLUSTER"
  | TEMPORARY_THEME => "TEMPORARY_THEME"
  end.
(* @ packages/events/models.py 207-209 ClassificationCertainty *)
Definition ClassificationCertainty_value (c : ClassificationCertainty) : string :=
  match c with CERT_PROVISIONAL => "PROVISIONAL" | CONFIRMED => "CONFIRMED" end.
(* @ packages/events/models.py 212-215 ClassificationSource *)
Definition ClassificationSource_value (s : ClassificationSource) : string :=
  match s with
  | LIVE_ENGINE => "LIVE_ENGINE" | OPERATOR => "OPERATOR" | INFOSTOCK => "INFOSTOCK"
  end.

(* @ packages/events/models.py 218-226 EventClassification *)
Record EventClassification := mk_EventClassification {
  ec_classification_version : Z;
  ec_theme_id : string;
  ec_display_name : string;
  ec_kind : ClassificationKind;
  ec_certainty : ClassificationCertainty;
  ec_source : ClassificationSource;
  ec_changed_at : datetime
}.
#[export] Instance EventClassification_eq_dec : EqDecision EventClassification.
Proof. solve_decision. Defined.

(* @ packages/events/models.py 228-233 EventClassification.__post_init__ *)
Definition EventClassification_check (c : EventClassification) : res EventClassification :=
  _ ← raise_if (ec_classification_version c <? 1) ValueError;
  _ ← require_texts [ec_theme_id c; ec_display_name c];
  _ ← require_aware (ec_changed_at c);
  Ok c.

(* @ packages/events/models.py 235-244 EventClassification.to_public_dict *)
Definition EventClassification_to_public_dict (c : EventClassification) : json :=
  JObj [("classificationVersion", JNum (ec_classification_version c));
        ("themeId", JStr (ec_theme_id c)); ("displayName", JStr (ec_display_name c));
        ("kind", JStr (ClassificationKind_value (ec_kind c)));
        ("certainty", JStr (ClassificationCertainty_value (ec_certainty c)));
        ("source", JStr (ClassificationSource_value (ec_source c)));
        ("changedAt", JStr (isoformat (ec_changed_at c)))].

(* @ packages/events/models.py 259-277 CanonicalEvent *)
Record CanonicalEvent := mk_CanonicalEvent {
  ce_event_id : string;
  ce_identity_key : string;
  ce_market_date : date;
  ce_canonical_theme_id : string;
  ce_catalyst_key : string;
  ce_lifecycle_status : LifecycleStatus;
  ce_reconciliation_status : ReconciliationStatus;
  ce_state_version : Z;
  ce_state_policy_version : string;
  ce_classification : EventClassification;
  ce_first_detected_at : datetime;
  ce_changed_at : datetime;
  ce_last_source : string;
  ce_last_source_sequence : Z;
  ce_last_received_at : datetime;
  ce_lineage : list LineageRef;
  ce_versions : EventVersions
}.
#[export] Instance CanonicalEvent_eq_dec : EqDecision CanonicalEvent.
Proof. solve_decision. Defined.

(* @ packages/events/models.py 279-300 CanonicalEvent.__post_init__ *)
Definition CanonicalEvent_check (e : CanonicalEvent) : res CanonicalEvent :=
  _ ← require_texts [ce_event_id e; ce_identity_key e; ce_canonical_theme_id e;
                     ce_catalyst_key e; ce_state_policy_version e; ce_last_source e];
  _ ← raise_if (ce_state_version e <? 1) ValueError;
  _ ← raise_if (ce_last_source_sequence e <? 0) ValueError;
  _ ← require_aware (ce_first_detected_at e);
  _ ← require_aware (ce_changed_at e);
  _ ← require_aware (ce_last_received_at e);
  _ ← raise_if (dt_lt (ce_changed_at e) (ce_first_detected_at e)) ValueError;
  Ok e.

(* @ packages/events/models.py 302-321 CanonicalEvent.to_dict *)
Definition CanonicalEvent_to_dict (e : CanonicalEvent) : json :=
  JObj [("eventId", JStr (ce_event_id e)); ("identityKey", JStr (ce_identity_key e));
        ("marketDate", JStr (date_isoformat (ce_market_date e)));
        ("canonicalThemeId", JStr (ce_canonical_theme_id e));
        ("catalystKey", JStr (ce_catalyst_key e));
        ("lifecycleStatus", JStr (LifecycleStatus_value (ce_lifecycle_status e)));
        ("reconciliationStatus", JStr (ReconciliationStatus_value (ce_reconciliation_status e)));
        ("stateVersion", JNum (ce_state_version e));
        ("statePolicyVersion", JStr (ce_state_policy_version e));
        ("classification", EventClassification_to_public_dict (ce_classification e));
        ("firstDetectedAt", JStr (isoformat (ce_first_detected_at e)));
        ("changedAt", JStr (isoformat (ce_changed_at e)));
        ("lastSource", JStr (ce_last_source e));
        ("lastSourceSequence", JNum (ce_last_source_sequence e));
        ("lastReceivedAt", JStr (isoformat (ce_last_received_at e)));
        ("lineage", JList (LineageRef_to_dict <$> ce_lineage e));
        ("versions", EventVersions_to_dict (ce_versions e))].

(** ** Commands *)

(* @ packages/events/models.py 357-367 CreateEventCommand *)
Record CreateEventCommand := mk_CreateEventCommand {
  cc_metadata : EventInputMetadata;
  cc_identity : CanonicalEventIdentity;
  cc_display_name : string;
  cc_versions : EventVersions;
  cc_classification_kind : ClassificationKind;
  cc_classification_certainty : ClassificationCertainty;
  cc_classification_source : ClassificationSource
}.
#[export] Instance CreateEventCommand_eq_dec : EqDecision CreateEventCommand.
Proof. solve_decision. Defined.

(* @ packages/events/models.py 386-393 TransitionLifecycleCommand *)
Record TransitionLifecycleCommand := mk_TransitionLifecycleCommand {
  tc_metadata : EventInputMetadata;
  tc_event_id : string;
  tc_target : LifecycleStatus;
  tc_expected_state_version : Z;
  tc_reason : string;
  tc_policy_version : string
}.
#[export] Instance TransitionLifecycleCommand_eq_dec : EqDecision TransitionLifecycleCommand.
Proof. solve_decision. Defined.

(* @ packages/events/models.py 415-424 ReconcileEventCommand *)
Record ReconcileEventCommand := mk_ReconcileEventCommand {
  rc_metadata : EventInputMetadata;
  rc_event_id : string;
  rc_target : ReconciliationStatus;
  rc_expected_state_version : Z;
  rc_reason : string;
  rc_policy_version : string
}.
#[export] Instance ReconcileEventCommand_eq_dec : EqDecision ReconcileEventCommand.
Proof. solve_decision. Defined.

(* @ packages/events/models.py 369-370 CreateEventCommand.__post_init__ *)
Definition CreateEventCommand_check (c : CreateEventCommand) : res CreateEventCommand :=
  _ ← require_text (cc_display_name c); Ok c.

(* @ packages/events/models.py 395-400 TransitionLifecycleCommand.__post_init__ *)
Definition TransitionLifecycleCommand_check (c : TransitionLifecycleCommand)
    : res TransitionLifecycleCommand :=
  _ ← require_texts [tc_event_id c; tc_reason c; tc_policy_version c];
  _ ← raise_if (tc_expected_state_version c <? 1) ValueError;
  Ok c.

(* @ packages/events/models.py 426-433 ReconcileEventCommand.__post_init__ *)
Definition ReconcileEventCommand_check (c : ReconcileEventCommand) : res ReconcileEventCommand :=
  _ ← require_texts [rc_event_id c; rc_reason c; rc_policy_version c];
  _ ← raise_if (bool_decide (rc_target c = REC_PENDING)) ValueError;
  _ ← raise_if (rc_expected_state_version c <? 1) ValueError;
  Ok c.

(* @ packages/events/models.py 372-383 CreateEventCommand.to_dict *)
Definition CreateEventCommand_to_dict (c : CreateEventCommand) : json :=
  JObj [("commandType", JStr "CREATE_EVENT");
        ("schemaVersion", JStr EVENT_COMMAND_SCHEMA_VERSION);
        ("metadata", EventInputMetadata_to_dict (cc_metadata c));
        ("identity", CanonicalEventIdentity_to_dict (cc_identity c));
        ("displayName", JStr (cc_display_name c));
        ("versions", EventVersions_to_dict (cc_versions c));
        ("classificationKind", JStr (ClassificationKind_value (cc_classification_kind c)));
        ("classificationCertainty",
          JStr (ClassificationCertainty_value (cc_classification_certainty c)));
        ("classificationSource",
          JStr (ClassificationSource_value (cc_classification_source c)))].

(* @ packages/events/models.py 402-412 TransitionLifecycleCommand.to_dict *)
Definition TransitionLifecycleCommand_to_dict (c : TransitionLifecycleCommand) : json :=
  JObj [("commandType", JStr "TRANSITION_LIFECYCLE");
        ("schemaVersion", JStr EVENT_COMMAND_SCHEMA_VERSION);
        ("metadata", EventInputMetadata_to_dict (tc_metadata c));
        ("eventId", JStr (tc_event_id c));
        ("target", JStr (LifecycleStatus_value (tc_target c)));
        ("expectedStateVersion", JNum (tc_expected_state_version c));
        ("reason", JStr (tc_reason c)); ("policyVersion", JStr (tc_policy_version c))].

(* @ packages/events/models.py 435-445 ReconcileEventCommand.to_dict *)
Definition ReconcileEventCommand_to_dict (c : ReconcileEventCommand) : json :=
  JObj [("commandType", JStr "RECONCILE_EVENT");
        ("schemaVersion", JStr EVENT_COMMAND_SCHEMA_VERSION);
        ("metadata", EventInputMetadata_to_dict (rc_metadata c));
        ("eventId", JStr (rc_event_id c));
        ("target", JStr (ReconciliationStatus_value (rc_target c)));
        ("expectedStateVersion", JNum (rc_expected_state_version c));
        ("reason", JStr (rc_reason c)); ("policyVersion", JStr (rc_policy_version c))].

(* @ packages/events/models.py 448-450 EventCommand *)
Inductive EventCommand :=
  | CmdCreate (c : CreateEventCommand)
  | CmdTransition (c : TransitionLifecycleCommand)
  | CmdReconcile (c : ReconcileEventCommand).

Definition command_metadata (c : EventCommand) : EventInputMetadata :=
  match c with
  | CmdCreate c => cc_metadata c
  | CmdTransition c => tc_metadata c
  | CmdReconcile c => rc_metadata c
  end.

Definition command_to_dict (c : EventCommand) : json :=
  match c with
  | CmdCreate c => CreateEventCommand_to_dict c
  | CmdTransition c => TransitionLifecycleCommand_to_dict c
  | CmdReconcile c => ReconcileEventCommand_to_dict c
  end.

(* @ packages/events/models.py 453-456 command_fingerprint *)
Definition command_fingerprint (c : EventCommand) : string :=
  sha256_hex (canonical_json (command_to_dict c)).

(** ** Results and logs *)

(* @ packages/events/models.py 459-465 EventWriteDisposition *)
Inductive EventWriteDisposition :=
  | APPLIED | DUPLICATE_IDENTITY | ALREADY_IN_STATE | STALE_SOURCE_SEQUENCE
  | STALE_STATE_VERSION | STALE_OCCURRED_AT.
#[export] Instance EventWriteDisposition_eq_dec : EqDecision EventWriteDisposition.
Proof. solve_decision. Defined.

(* @ packages/events/models.py 468-472 EventWriteResult *)
Record EventWriteResult := mk_EventWriteResult {
  wr_event : CanonicalEvent;
  wr_disposition : EventWriteDisposition;
  wr_outbox_message_id : option string
}.
#[export] Instance EventWriteResult_eq_dec : EqDecision EventWriteResult.
Proof. solve_decision. Defined.

(* @ packages/events/models.py 474-476 EventWriteResult.applied *)
Definition wr_applied (r : EventWriteResult) : bool := bool_decide (wr_disposition r = APPLIED).

(* @ packages/events/models.py 501-509 CommandReceipt *)
Record CommandReceipt := mk_CommandReceipt {
  rcp_message_id : string;
  rcp_command_fingerprint : string;
  rcp_event_id : string;
  rcp_source : string;
  rcp_source_sequence : Z;
  rcp_received_at : datetime;
  rcp_result : EventWriteResult
}.
#[export] Instance CommandReceipt_eq_dec : EqDecision CommandReceipt.
Proof. solve_decision. Defined.

(** [LifecycleStatus | ReconciliationStatus] *)
Inductive LogStatus :=
  | LogLifecycle (s : LifecycleStatus)
  | LogReconciliation (s : ReconciliationStatus).
#[export] Instance LogStatus_eq_dec : EqDecision LogStatus.
Proof. solve_decision. Defined.

(* @ packages/events/models.py 512-526 EventStateLog *)
Record EventStateLog := mk_EventStateLog {
  sl_event_id : string;
  sl_state_version : Z;
  sl_from_status : option LogStatus;
  sl_to_status : LogStatus;
  sl_policy_version : string;
  sl_reason : string;
  sl_occurred_at : datetime;
  sl_received_at : datetime;
  sl_source : string;
  sl_source_sequence : Z;
  sl_command_message_id : string;
  sl_lineage : list LineageRef;
  sl_axis : StateAxis
}.
#[export] Instance EventStateLog_eq_dec : EqDecision EventStateLog.
Proof. solve_decision. Defined.

(* @ packages/events/models.py 529-530 outbox_message_id *)
Definition outbox_message_id (command_message_id event_type : string) : string :=
  opaque_id "msg" (command_message_id +:+ ":" +:+ event_type).

(** Commands as their constructors leave them. *)
Definition command_valid (c : EventCommand) : Prop :=
  is_ok (EventInputMetadata_check (command_metadata c)) = true /\
  match c with
  | CmdCreate c => is_ok (CreateEventCommand_check c) = true /\
                   is_ok (CanonicalEventIdentity_check (cc_identity c)) = true /\
                   is_ok (EventVersions_check (cc_versions c)) = true
  | CmdTransition c => is_ok (TransitionLifecycleCommand_check c) = true
  | CmdReconcile c => is_ok (ReconcileEventCommand_check c) = true
  end.
