(* ===== verification/Outbox.v ===== *)
(** [packages/events/outbox.py]: outbox messages and records, the delivery
    protocol, and the at-least-once publisher, proved against the protocol. *)
From S2P Require Import Prelude PyTime PyDecimal Json EventModels.
#[local] Open Scope Z_scope.

(* @ packages/events/outbox.py 14-17 OutboxStatus *)
Inductive OutboxStatus := OB_PENDING | CLAIMED | PUBLISHED.
#[export] Instance OutboxStatus_eq_dec : EqDecision OutboxStatus.
Proof. solve_decision. Defined.

(* @ packages/events/outbox.py 20-31 OutboxMessage *)
Record OutboxMessage := mk_OutboxMessage {
  om_message_id : string;
  om_event_type : string;
  om_event_version : string;
  om_aggregate_id : string;
  om_occurred_at : datetime;
  om_received_at : datetime;
  om_producer : string;
  om_correlation_id : string;
  om_causation_id : option string;
  om_payload : json
}.
#[export] Instance OutboxMessage_eq_dec : EqDecision OutboxMessage.
Proof. solve_decision. Defined.

(** The payload is replaced by its sorted copy, so that structural equality of
    messages is Python's order-blind equality of dicts. *)
(* @ packages/events/outbox.py 33-62 OutboxMessage.__post_init__ *)
Definition OutboxMessage_check (m : OutboxMessage) : res OutboxMessage :=
  _ ← require_texts [om_message_id m; om_event_type m; om_event_version m; om_aggregate_id m;
                     om_producer m; om_correlation_id m];
  _ ← require_opt_text (om_causation_id m);
  _ ← require_aware (om_occurred_at m);
  _ ← require_aware (om_received_at m);
  _ ← raise_if (dt_lt (om_received_at m) (om_occurred_at m)) ValueError;
  match normalize (om_payload m) with
  | JObj fields =>
      Ok (mk_OutboxMessage (om_message_id m) (om_event_type m) (om_event_version m)
            (om_aggregate_id m) (om_occurred_at m) (om_received_at m) (om_producer m)
            (om_correlation_id m) (om_causation_id m) (JObj fields))
  | _ => Raise TypeError
  end.

(** [a == b]: datetimes compare by instant. *)
Definition OutboxMessage_eqb (a b : OutboxMessage) : bool :=
  bool_decide (om_message_id a = om_message_id b /\ om_event_type a = om_event_type b /\
               om_event_version a = om_event_version b /\
               om_aggregate_id a = om_aggregate_id b /\ om_producer a = om_producer b /\
               om_correlation_id a = om_correlation_id b /\
               om_causation_id a = om_causation_id b /\ om_payload a = om_payload b) &&
  dt_eqb (om_occurred_at a) (om_occurred_at b) && dt_eqb (om_received_at a) (om_received_at b).

(* @ packages/events/outbox.py 64-76 OutboxMessage.to_dict *)
Definition OutboxMessage_to_dict (m : OutboxMessage) : json :=
  JObj [("eventType", JStr (om_event_type m)); ("eventVersion", JStr (om_event_version m));
        ("messageId", JStr (om_message_id m));
        ("occurredAt", JStr (isoformat (om_occurred_at m)));
        ("receivedAt", JStr (isoformat (om_received_at m)));
        ("producer", JStr (om_producer m)); ("correlationId", JStr (om_correlation_id m));
        ("causationId", JOpt (om_causation_id m)); ("aggregateId", JStr (om_aggregate_id m));
        ("payload", om_payload m)].

(* @ packages/events/outbox.py 99-107 OutboxRecord *)
Record OutboxRecord := mk_OutboxRecord {
  or_message : OutboxMessage;
  or_status : OutboxStatus;
  or_attempts : Z;
  or_available_at : datetime;
  or_claimed_until : option datetime;
  or_published_at : option datetime;
  or_last_error : option string
}.
#[export] Instance OutboxRecord_eq_dec : EqDecision OutboxRecord.
Proof. solve_decision. Defined.

Definition require_opt_aware (d : option datetime) : res unit :=
  match d with Some d => require_aware d | None => Ok tt end.

(* @ packages/events/outbox.py 109-116 OutboxRecord.__post_init__ *)
Definition OutboxRecord_check (r : OutboxRecord) : res OutboxRecord :=
  _ ← raise_if (or_attempts r <? 0) ValueError;
  _ ← require_aware (or_available_at r);
  _ ← require_opt_aware (or_claimed_until r);
  _ ← require_opt_aware (or_published_at r);
  Ok r.

Definition or_id (r : OutboxRecord) : string := om_message_id (or_message r).

(** ** The delivery protocol *)

(** A claimed record and the two ways a delivery ends. *)
Definition claimed_record (now : datetime) (lease : timedelta) (r : OutboxRecord)
    : OutboxRecord :=
  mk_OutboxRecord (or_message r) CLAIMED (or_attempts r + 1) (or_available_at r)
    (Some (dt_add now lease)) (or_published_at r) None.
Definition published_record (published_at : datetime) (r : OutboxRecord) : OutboxRecord :=
  mk_OutboxRecord (or_message r) PUBLISHED (or_attempts r) (or_available_at r) None
    (Some published_at) None.
Definition released_record (retry_at : datetime) (error : string) (r : OutboxRecord)
    : OutboxRecord :=
  mk_OutboxRecord (or_message r) OB_PENDING (or_attempts r) retry_at None
    (or_published_at r) (Some error).

(* @ packages/events/outbox.py 119-136 OutboxDeliveryStore *)
Class OutboxDeliveryStore (S : Type) := {
  claim_pending : datetime -> Z -> timedelta -> M S (list OutboxRecord);
  mark_published : string -> datetime -> M S unit;
  release_after_failure : string -> datetime -> string -> M S unit
}.

(** Which records may be claimed at [now]: unpublished, available, and not under
    a lease that is still running. *)
Definition claimable (now : datetime) (r : OutboxRecord) : bool :=
  negb (bool_decide (or_status r = PUBLISHED)) && dt_le (or_available_at r) now &&
  (bool_decide (or_status r = OB_PENDING) ||
   match or_claimed_until r with None => true | Some u => dt_le u now end).

(** Records are claimed in this order. *)
Definition delivery_key (r : OutboxRecord) : datetime * string := (or_available_at r, or_id r).

(** What a delivery store promises, through the records it holds by message id. *)
Class OutboxDeliveryLaws (S : Type) `{OutboxDeliveryStore S} := {
  view : S -> string -> option OutboxRecord;
  store_ok : S -> Prop;
  view_id : forall s i r, store_ok s -> view s i = Some r -> or_id r = i;
  (** The records returned are those claimed, the first [limit] claimable ones,
      each now under a lease; nothing else changes. *)
  claim_law : forall s now limit lease,
    store_ok s -> is_aware now = true -> 1 <= limit ->
    exists claimed s',
      claim_pending now limit lease s = (Ok (claimed_record now lease <$> claimed), s') /\
      store_ok s' /\ NoDup (or_id <$> claimed) /\ Z.of_nat (length claimed) <= limit /\
      Forall (fun r => view s (or_id r) = Some r /\ claimable now r = true) claimed /\
      (forall i r, view s i = Some r -> claimable now r = true -> r ∉ claimed ->
         Z.of_nat (length claimed) = limit /\
         Forall (fun c => pyle (delivery_key c) (delivery_key r) = true) claimed) /\
      (forall i, view s' i = match view s i with
                             | Some r => if decide (r ∈ claimed)
                                         then Some (claimed_record now lease r) else Some r
                             | None => None
                             end);
  (** Ending a delivery changes that record only, and never a published one. *)
  mark_law : forall s i at_ r,
    store_ok s -> is_aware at_ = true -> view s i = Some r -> or_status r <> PUBLISHED ->
    exists s', mark_published i at_ s = (Ok tt, s') /\ store_ok s' /\
      (forall j, view s' j = if decide (j = i) then Some (published_record at_ r) else view s j);
  release_law : forall s i at_ err r,
    store_ok s -> is_aware at_ = true -> view s i = Some r -> or_status r <> PUBLISHED ->
    exists s', release_after_failure i at_ err s = (Ok tt, s') /\ store_ok s' /\
      (forall j, view s' j = if decide (j = i) then Some (released_record at_ err r) else view s j)
}.

(** The transport: it delivers a message or raises. *)
(* @ packages/events/outbox.py 139-142 IdempotentOutboxTransport *)
Class OutboxTransport (T : Type) := {
  transport_publish : OutboxMessage -> M T unit;
  error_text : exn -> string
}.

(* @ packages/events/outbox.py 145-149 PublishBatchResult *)
Record PublishBatchResult := mk_PublishBatchResult {
  pb_claimed : Z; pb_published : Z; pb_failed : Z
}.

(** ** The publisher *)

(* @ packages/events/outbox.py 155-170 OutboxPublisher.__init__ *)
Record OutboxPublisher := mk_OutboxPublisher { op_lease : timedelta; op_retry_delay : timedelta }.

(* @ packages/events/outbox.py 155-170 OutboxPublisher.__init__ *)
Definition OutboxPublisher_init (lease retry_delay : timedelta) : res OutboxPublisher :=
  _ ← raise_if (lease <=? 0) ValueError;
  _ ← raise_if (retry_delay <? 0) ValueError;
  Ok (mk_OutboxPublisher lease retry_delay).

Section publisher.
Context {S T : Type} `{OutboxDeliveryStore S, OutboxTransport T}.

Definition on_store {A} (m : M S A) : M (S * T) A :=
  fun '(s, t) => let '(r, s') := m s in (r, (s', t)).

(** [try: transport.publish(message) except Exception as error] *)
Definition try_publish (message : OutboxMessage) : M (S * T) (option exn) :=
  fun '(s, t) =>
    match transport_publish message t with
    | (Ok _, t') => (Ok None, (s, t'))
    | (Raise e, t') => (Ok (Some e), (s, t'))
    end.

(** One record: the counts of published and failed deliveries so far. *)
(* @ packages/events/outbox.py 188-203 OutboxPublisher.publish_pending *)
Definition publish_one (p : OutboxPublisher) (now : datetime) (counts : Z * Z)
    (record : OutboxRecord) : M (S * T) (Z * Z) :=
  failure ← try_publish (or_message record);
  match failure with
  | Some e =>
      _ ← on_store (release_after_failure (or_id record) (dt_add now (op_retry_delay p))
                      (error_text e));
      mret (counts.1, counts.2 + 1)
  | None =>
      _ ← on_store (mark_published (or_id record) now);
      mret (counts.1 + 1, counts.2)
  end.

Fixpoint publish_all (p : OutboxPublisher) (now : datetime) (counts : Z * Z)
    (records : list OutboxRecord) : M (S * T) (Z * Z) :=
  match records with
  | [] => mret counts
  | r :: records' =>
      counts' ← publish_one p now counts r;
      publish_all p now counts' records'
  end.

(* @ packages/events/outbox.py 172-208 OutboxPublisher.publish_pending *)
Definition publish_pending (p : OutboxPublisher) (now : datetime) (limit : Z)
    : M (S * T) PublishBatchResult :=
  _ ← lift (require_aware now);
  _ ← lift (raise_if (limit <? 1) ValueError);
  records ← on_store (claim_pending now limit (op_lease p));
  counts ← publish_all p now (0, 0) records;
  mret (mk_PublishBatchResult (Z.of_nat (length records)) counts.1 counts.2).

(** ** What the publisher does *)

(** The attempts on the transport, in order, with their outcomes. *)
Fixpoint attempts (messages : list OutboxMessage) (t : T) : list (option exn) * T :=
  match messages with
  | [] => ([], t)
  | m :: messages' =>
      let '(r, t1) := transport_publish m t in
      let '(outcomes, t2) := attempts messages' t1 in
      (match r with Ok _ => None | Raise e => Some e end :: outcomes, t2)
  end.

(** The record after its delivery attempt. *)
Definition settled (p : OutboxPublisher) (now : datetime) (r : OutboxRecord) (o : option exn)
    : OutboxRecord :=
  match o with
  | None => published_record now r
  | Some e => released_record (dt_add now (op_retry_delay p)) (error_text e) r
  end.

Definition delivered (o : option exn) : bool := match o with None => true | Some _ => false end.

Context `{!OutboxDeliveryLaws S}.

Lemma aware_add d t : is_aware (dt_add d t) = is_aware d.
Proof. done. Qed.

Lemma attempts_length messages t : length (attempts messages t).1 = length messages.
Proof.
  revert t; induction messages as [|m messages IH]; intros t; simpl; [done|].
  destruct (transport_publish m t) as [r t1]. specialize (IH t1).
  destruct (attempts messages t1). simpl in *. by f_equal.
Qed.

Lemma publish_one_ok p now counts r s t :
  store_ok s -> is_aware now = true -> view s (or_id r) = Some r -> or_status r <> PUBLISHED ->
  let '(result, t') := transport_publish (or_message r) t in
  let o := match result with Ok _ => None | Raise e => Some e end in
  exists s', publish_one p now counts r (s, t) =
    (Ok (if delivered o then (counts.1 + 1, counts.2) else (counts.1, counts.2 + 1)), (s', t')) /\
    store_ok s' /\
    forall j, view s' j = if decide (j = or_id r) then Some (settled p now r o) else view s j.
Proof.
  intros Hs Hnow Hv Hst. destruct (transport_publish (or_message r) t) as [result t'] eqn:Et.
  unfold publish_one, try_publish, mbind, M_bind. rewrite Et.
  destruct result as [u|e]; unfold on_store.
  - destruct (mark_law s (or_id r) now r Hs Hnow Hv Hst) as (s'&Hm&Hs'&Hview).
    exists s'. by rewrite Hm.
  - destruct (release_law s (or_id r) (dt_add now (op_retry_delay p)) (error_text e) r Hs
                ltac:(by rewrite aware_add) Hv Hst) as (s'&Hm&Hs'&Hview).
    exists s'. by rewrite Hm.
Qed.

Lemma publish_all_ok p now counts records s t :
  store_ok s -> is_aware now = true -> NoDup (or_id <$> records) ->
  Forall (fun r => view s (or_id r) = Some r /\ or_status r <> PUBLISHED) records ->
  let '(outcomes, t') := attempts (or_message <$> records) t in
  exists s', publish_all p now counts records (s, t) =
    (Ok (counts.1 + Z.of_nat (length (List.filter delivered outcomes)),
         counts.2 + Z.of_nat (length (List.filter (fun o => negb (delivered o)) outcomes))),
     (s', t')) /\
    store_ok s' /\
    Forall2 (fun r o => view s' (or_id r) = Some (settled p now r o)) records outcomes /\
    forall j, j ∉ or_id <$> records -> view s' j = view s j.
Proof.
  revert counts s t; induction records as [|r records IH]; intros [a b] s t Hs Hnow Hnd Hrec.
  { exists s. simpl. rewrite !Z.add_0_r. split_and!; [done|done|constructor|done]. }
  rewrite fmap_cons in Hnd. rewrite fmap_cons. cbn [publish_all attempts].
  apply NoDup_cons in Hnd as [Hr Hnd]. apply Forall_cons in Hrec as [[Hv Hst] Hrec].
  pose proof (publish_one_ok p now (a, b) r s t Hs Hnow Hv Hst) as H1.
  revert H1. destruct (transport_publish (or_message r) t) as [result t1]. intros H1.
  set (o := match result with Ok _ => None | Raise e => Some e end) in *.
  destruct H1 as (s1&H1&Hs1&Hv1).
  assert (Forall (fun r => view s1 (or_id r) = Some r /\ or_status r <> PUBLISHED) records) as Hrec1.
  { rewrite Forall_forall in Hrec |- *. intros r' Hr'. rewrite Hv1, decide_False; [by apply Hrec|].
    intros E. apply Hr. rewrite <-E. by apply list_elem_of_fmap_2. }
  unfold mbind, M_bind. rewrite H1.
  specialize (IH (if delivered o then ((a, b).1 + 1, (a, b).2) else ((a, b).1, (a, b).2 + 1)) s1 t1 Hs1 Hnow Hnd Hrec1).
  revert IH. destruct (attempts (or_message <$> records) t1) as [outcomes t2]. intros IH.
  destruct IH as (s2&Hp&Hs2&Hall&Hrest). exists s2. rewrite Hp.
  split_and!; [|done| |].
  - simpl. destruct (delivered o); simpl; rewrite ?Nat2Z.inj_succ; do 3 f_equal; lia.
  - constructor; [|done]. by rewrite Hrest, Hv1, decide_True.
  - intros j Hj. rewrite fmap_cons, not_elem_of_cons in Hj. destruct Hj as [Hj1 Hj2].
    by rewrite Hrest, Hv1, decide_False.
Qed.

Lemma filter_split_length {A} (f : A -> bool) l :
  (length (List.filter f l) + length (List.filter (fun x => negb (f x)) l))%nat = length l.
Proof. induction l as [|x l IH]; simpl; [done|]. destruct (f x); simpl; lia. Qed.

(** C9: One [publish_pending] batch claims the first claimable records, attempts
    each claimed message exactly once in that order, and settles it: a record is
    published if and only if the transport accepted its message, a refused one
    is pending again after the retry delay with the attempt counted, every
    other record is untouched, and the counts add up. *)
Theorem publish_pending_settles p now limit s t :
  store_ok s -> is_aware now = true -> 1 <= limit ->
  exists (claimed : list OutboxRecord) s',
    let records := claimed_record now (op_lease p) <$> claimed in
    let '(outcomes, t') := attempts (or_message <$> records) t in
    publish_pending p now limit (s, t) =
      (Ok (mk_PublishBatchResult (Z.of_nat (length claimed))
             (Z.of_nat (length (List.filter delivered outcomes)))
             (Z.of_nat (length (List.filter (fun o => negb (delivered o)) outcomes)))),
       (s', t')) /\
    Z.of_nat (length (List.filter delivered outcomes)) +
    Z.of_nat (length (List.filter (fun o => negb (delivered o)) outcomes)) =
      Z.of_nat (length claimed) /\
    Z.of_nat (length claimed) <= limit /\
    Forall (fun r => view s (or_id r) = Some r /\ claimable now r = true) claimed /\
    Forall2 (fun r o => view s' (or_id r) = Some (settled p now r o)) records outcomes /\
    (forall j, j ∉ or_id <$> claimed -> view s' j = view s j) /\ store_ok s'.
Proof.
  intros Hs Hnow Hlim.
  destruct (claim_law s now limit (op_lease p) Hs Hnow Hlim)
    as (claimed&s1&Hc&Hs1&Hnd&Hlen&Hall&_&Hview).
  exists claimed. cbv zeta. set (records := claimed_record now (op_lease p) <$> claimed).
  assert (or_id <$> records = or_id <$> claimed) as Hids.
  { unfold records. by rewrite <-list_fmap_compose. }
  assert (Forall (fun r => view s1 (or_id r) = Some r /\ or_status r <> PUBLISHED) records) as Hrec.
  { unfold records. rewrite Forall_fmap, Forall_forall. intros r Hr. simpl. split; [|done].
    rewrite Forall_forall in Hall. change (or_id (claimed_record _ _ r)) with (or_id r).
    by rewrite Hview, (proj1 (Hall r Hr)), decide_True. }
  pose proof (publish_all_ok p now (0, 0) records s1 t Hs1 Hnow ltac:(by rewrite Hids) Hrec) as Hp.
  pose proof (attempts_length (or_message <$> records) t) as Ha.
  revert Hp Ha. destruct (attempts (or_message <$> records) t) as [outcomes t'].
  intros Hp Ha. destruct Hp as (s2&Hp&Hs2&Hset&Hrest). exists s2.
  simpl in Ha. unfold records in Ha. rewrite !length_fmap in Ha.
  pose proof (filter_split_length delivered outcomes) as Hsplit.
  split_and!; [|lia|lia|done|done| |done].
  - unfold publish_pending, lift, mbind, M_bind, on_store.
    unfold require_aware. rewrite Hnow. simpl.
    replace (limit <? 1) with false by (symmetry; lia). simpl. rewrite Hc.
    unfold records in Hp. rewrite Hp. simpl. unfold mret, M_ret. by rewrite length_fmap.
  - intros j Hj. rewrite Hrest by (by rewrite Hids). rewrite Hview.
    destruct (view s j) as [r|] eqn:Ej; [|done]. rewrite decide_False; [done|].
    intros Hin. apply Hj. rewrite Forall_forall in Hall. apply list_elem_of_fmap.
    exists r. split; [|done]. by rewrite (view_id s j r Hs Ej).
Qed.
End publisher.
