(* ===== verification/EventReaders.v ===== *)
(** [packages/events/models.py] and [outbox.py], the [from_dict]s: what a store wrote with
    [to_dict] is read back as the same record. *)
From S2P Require Import Prelude PyTime PyTimeFacts PyDecimal Json JsonRead Domain EventModels Outbox.
#[local] Open Scope Z_scope.

(** ** Readers *)

(* @ packages/events/models.py 67-76 LineageRef.from_dict *)
Definition LineageRef_from_dict (value : dict string json) : res LineageRef :=
  kind ← field "kind" read_text value;
  identifier ← field "identifier" read_text value;
  version ← field_or_none "version" (read_opt read_text) value;
  content_hash ← field_or_none "contentHash" (read_opt read_text) value;
  LineageRef_check (mk_LineageRef kind identifier version content_hash).

#[export] Instance LineageRef_stored : Stored LineageRef := {
  to_json := LineageRef_to_dict;
  from_json j := d ← as_dict j; LineageRef_from_dict d;
  storable r := LineageRef_check r = Ok r
}.

#[export] Instance LineageRef_laws : StoredLaws LineageRef.
Proof.
  intros r Hr. change (storable r) with (LineageRef_check r = Ok r) in Hr.
  change (LineageRef_from_dict (written (fields_of (LineageRef_to_dict r))) = Ok r).
  unfold LineageRef_from_dict. do 4 read_field. by destruct r.
Qed.

(* @ packages/events/models.py 187-198 EventVersions.from_dict *)
Definition EventVersions_from_dict (value : dict string json) : res EventVersions :=
  calculation_version ← field "calculationVersion" read_text value;
  ranking_model_version ← field "rankingModelVersion" read_text value;
  membership_version ← field "membershipVersion" read_text value;
  baseline_version ← field_or_none "baselineVersion" (read_opt read_text) value;
  EventVersions_check
    (mk_EventVersions calculation_version ranking_model_version membership_version baseline_version).

(** The members of the enumerations. *)
Definition ClassificationKind_members := [INFOSTOCK_THEME; UNCLASSIFIED_CLUSTER; TEMPORARY_THEME].
Definition ClassificationCertainty_members := [CERT_PROVISIONAL; CONFIRMED].
Definition ClassificationSource_members := [LIVE_ENGINE; OPERATOR; INFOSTOCK].
Definition LifecycleStatus_members := [CANDIDATE; ACTIVE; WEAKENING; CLOSED; DISCARDED].
Definition ReconciliationStatus_members := [REC_PENDING; MATCHED; UNMATCHED].

(* @ packages/events/models.py 246-256 EventClassification.from_dict *)
Definition EventClassification_from_dict (value : dict string json) : res EventClassification :=
  classification_version ← field "classificationVersion" read_int value;
  theme_id ← field "themeId" read_text value;
  display_name ← field "displayName" read_text value;
  kind ← field "kind" (read_enum ClassificationKind_value ClassificationKind_members) value;
  certainty ← field "certainty" (read_enum ClassificationCertainty_value ClassificationCertainty_members) value;
  source ← field "source" (read_enum ClassificationSource_value ClassificationSource_members) value;
  changed_at ← field "changedAt" read_stamp value;
  EventClassification_check
    (mk_EventClassification classification_version theme_id display_name kind certainty source changed_at).

(* @ packages/events/models.py 323-354 CanonicalEvent.from_dict *)
Definition CanonicalEvent_from_dict (value : dict string json) : res CanonicalEvent :=
  classification ← item_get "classification" value;
  versions ← item_get "versions" value;
  lineage ← item_get "lineage" value;
  classification ← as_dict classification;
  versions ← as_dict versions;
  lineage ← as_list lineage;
  event_id ← field "eventId" read_text value;
  identity_key ← field "identityKey" read_text value;
  market_date ← field "marketDate" read_day value;
  canonical_theme_id ← field "canonicalThemeId" read_text value;
  catalyst_key ← field "catalystKey" read_text value;
  lifecycle_status ← field "lifecycleStatus" (read_enum LifecycleStatus_value LifecycleStatus_members) value;
  reconciliation_status ←
    field "reconciliationStatus" (read_enum ReconciliationStatus_value ReconciliationStatus_members) value;
  state_version ← field "stateVersion" read_int value;
  state_policy_version ← field "statePolicyVersion" read_text value;
  classification ← EventClassification_from_dict classification;
  first_detected_at ← field "firstDetectedAt" read_stamp value;
  changed_at ← field "changedAt" read_stamp value;
  last_source ← field "lastSource" read_text value;
  last_source_sequence ← field "lastSourceSequence" read_int value;
  last_received_at ← field "lastReceivedAt" read_stamp value;
  lineage ← mapM_res from_json lineage;
  versions ← EventVersions_from_dict versions;
  CanonicalEvent_check
    (mk_CanonicalEvent event_id identity_key market_date canonical_theme_id catalyst_key
       lifecycle_status reconciliation_status state_version state_policy_version classification
       first_detected_at changed_at last_source last_source_sequence last_received_at lineage versions).

(* @ packages/events/models.py 459-465 EventWriteDisposition *)
Definition EventWriteDisposition_value (d : EventWriteDisposition) : string :=
  match d with
  | APPLIED => "APPLIED" | DUPLICATE_IDENTITY => "DUPLICATE_IDENTITY"
  | ALREADY_IN_STATE => "ALREADY_IN_STATE" | STALE_SOURCE_SEQUENCE => "STALE_SOURCE_SEQUENCE"
  | STALE_STATE_VERSION => "STALE_STATE_VERSION" | STALE_OCCURRED_AT => "STALE_OCCURRED_AT"
  end.
Definition EventWriteDisposition_members :=
  [APPLIED; DUPLICATE_IDENTITY; ALREADY_IN_STATE; STALE_SOURCE_SEQUENCE; STALE_STATE_VERSION; STALE_OCCURRED_AT].

(* @ packages/events/models.py 478-483 EventWriteResult.to_dict *)
Definition EventWriteResult_to_dict (r : EventWriteResult) : json :=
  JObj [("event", CanonicalEvent_to_dict (wr_event r));
        ("disposition", JStr (EventWriteDisposition_value (wr_disposition r)));
        ("outboxMessageId", JOpt (wr_outbox_message_id r))].

(* @ packages/events/models.py 485-498 EventWriteResult.from_dict *)
Definition EventWriteResult_from_dict (value : dict string json) : res EventWriteResult :=
  event ← item_get "event" value;
  event ← as_dict event;
  event ← CanonicalEvent_from_dict event;
  disposition ← field "disposition" (read_enum EventWriteDisposition_value EventWriteDisposition_members) value;
  outbox_message_id ← field_or_none "outboxMessageId" (read_opt read_text) value;
  Ok (mk_EventWriteResult event disposition outbox_message_id).

(* @ packages/events/outbox.py 78-96 OutboxMessage.from_dict *)
Definition OutboxMessage_from_dict (value : dict string json) : res OutboxMessage :=
  payload ← item_get "payload" value;
  payload ← as_dict payload;
  message_id ← field "messageId" read_text value;
  event_type ← field "eventType" read_text value;
  event_version ← field "eventVersion" read_text value;
  aggregate_id ← field "aggregateId" read_text value;
  occurred_at ← field "occurredAt" read_stamp value;
  received_at ← field "receivedAt" read_stamp value;
  producer ← field "producer" read_text value;
  correlation_id ← field "correlationId" read_text value;
  causation_id ← field_or_none "causationId" (read_opt read_text) value;
  OutboxMessage_check
    (mk_OutboxMessage message_id event_type event_version aggregate_id occurred_at received_at
       producer correlation_id causation_id (JObj payload)).

(** ** What was written is read *)

(** Records as their constructors accept them, with the days and times Python has. *)
Record storable_classification (c : EventClassification) : Prop := {
  sc_check : EventClassification_check c = Ok c;
  sc_changed_at : is_datetime (ec_changed_at c)
}.

Record storable_event (e : CanonicalEvent) : Prop := {
  se_check : CanonicalEvent_check e = Ok e;
  se_market_date : is_date (ce_market_date e);
  se_first_detected_at : is_datetime (ce_first_detected_at e);
  se_changed_at : is_datetime (ce_changed_at e);
  se_last_received_at : is_datetime (ce_last_received_at e);
  se_classification : storable_classification (ce_classification e);
  se_lineage : Forall storable (ce_lineage e);
  se_versions : EventVersions_check (ce_versions e) = Ok (ce_versions e)
}.

Record storable_message (m : OutboxMessage) : Prop := {
  sm_check : OutboxMessage_check m = Ok m;
  sm_occurred_at : is_datetime (om_occurred_at m);
  sm_received_at : is_datetime (om_received_at m)
}.

#[export] Instance EventVersions_stored : Stored EventVersions := {
  to_json := EventVersions_to_dict;
  from_json j := d ← as_dict j; EventVersions_from_dict d;
  storable v := EventVersions_check v = Ok v
}.
#[export] Instance EventClassification_stored : Stored EventClassification := {
  to_json := EventClassification_to_public_dict;
  from_json j := d ← as_dict j; EventClassification_from_dict d;
  storable := storable_classification
}.
#[export] Instance CanonicalEvent_stored : Stored CanonicalEvent := {
  to_json := CanonicalEvent_to_dict;
  from_json j := d ← as_dict j; CanonicalEvent_from_dict d;
  storable := storable_event
}.
#[export] Instance EventWriteResult_stored : Stored EventWriteResult := {
  to_json := EventWriteResult_to_dict;
  from_json j := d ← as_dict j; EventWriteResult_from_dict d;
  storable r := storable_event (wr_event r)
}.
#[export] Instance OutboxMessage_stored : Stored OutboxMessage := {
  to_json := OutboxMessage_to_dict;
  from_json j := d ← as_dict j; OutboxMessage_from_dict d;
  storable := storable_message
}.

Lemma read_kind k :
  read_enum ClassificationKind_value ClassificationKind_members (normalize (JStr (ClassificationKind_value k))) = Ok k.
Proof. by destruct k. Qed.
Lemma read_certainty c :
  read_enum ClassificationCertainty_value ClassificationCertainty_members
    (normalize (JStr (ClassificationCertainty_value c))) = Ok c.
Proof. by destruct c. Qed.
Lemma read_source s :
  read_enum ClassificationSource_value ClassificationSource_members
    (normalize (JStr (ClassificationSource_value s))) = Ok s.
Proof. by destruct s. Qed.
Lemma read_lifecycle s :
  read_enum LifecycleStatus_value LifecycleStatus_members (normalize (JStr (LifecycleStatus_value s))) = Ok s.
Proof. by destruct s. Qed.
Lemma read_reconciliation s :
  read_enum ReconciliationStatus_value ReconciliationStatus_members
    (normalize (JStr (ReconciliationStatus_value s))) = Ok s.
Proof. by destruct s. Qed.
Lemma read_disposition d :
  read_enum EventWriteDisposition_value EventWriteDisposition_members
    (normalize (JStr (EventWriteDisposition_value d))) = Ok d.
Proof. by destruct d. Qed.
#[export] Hint Resolve read_kind read_certainty read_source read_lifecycle read_reconciliation read_disposition : stored.

Lemma EventVersions_read v :
  EventVersions_check v = Ok v -> EventVersions_from_dict (written (fields_of (EventVersions_to_dict v))) = Ok v.
Proof. intros Hv. unfold EventVersions_from_dict. do 4 read_field. by destruct v. Qed.
#[export] Instance EventVersions_laws : StoredLaws EventVersions.
Proof. intros v Hv. by apply EventVersions_read. Qed.

Lemma EventClassification_read c :
  storable_classification c ->
  EventClassification_from_dict (written (fields_of (EventClassification_to_public_dict c))) = Ok c.
Proof. intros [Hc Ht]. unfold EventClassification_from_dict. do 7 read_field. by destruct c. Qed.
#[export] Instance EventClassification_laws : StoredLaws EventClassification.
Proof. intros c Hc. by apply EventClassification_read. Qed.

Lemma mapM_stored {A} `{StoredLaws A} (l : list A) :
  Forall storable l -> mapM_res from_json (List.map normalize (to_json <$> l)) = Ok l.
Proof. apply read_stored_list. Qed.

Lemma CanonicalEvent_read e :
  storable_event e -> CanonicalEvent_from_dict (written (fields_of (CanonicalEvent_to_dict e))) = Ok e.
Proof.
  intros [Hc Hd H1 H2 H3 Hcl Hl Hv]. unfold CanonicalEvent_from_dict. do 3 take_item.
  do 3 read_shape. do 9 read_field. read_step (EventClassification_read _ Hcl).
  do 5 read_field. read_step (mapM_stored _ Hl). read_step (EventVersions_read _ Hv). by destruct e.
Qed.
#[export] Instance CanonicalEvent_laws : StoredLaws CanonicalEvent.
Proof. intros e He. by apply CanonicalEvent_read. Qed.

#[export] Instance EventWriteResult_laws : StoredLaws EventWriteResult.
Proof.
  intros r Hr. change (storable_event (wr_event r)) in Hr.
  change (EventWriteResult_from_dict (written (fields_of (EventWriteResult_to_dict r))) = Ok r).
  unfold EventWriteResult_from_dict. take_item. read_shape. read_step (CanonicalEvent_read _ Hr). do 2 read_field. by destruct r.
Qed.

#[export] Instance OutboxMessage_laws : StoredLaws OutboxMessage.
Proof.
  intros m [Hc Ho Hr]. change (OutboxMessage_from_dict (written (fields_of (OutboxMessage_to_dict m))) = Ok m).
  assert (exists fields, om_payload m = JObj fields /\ normalize (om_payload m) = om_payload m) as (fields&E&Hn).
  { unfold OutboxMessage_check in Hc. repeat apply res_bind_ok in Hc as (?&_&Hc).
    destruct (normalize (om_payload m)) as [| | | | | |fields] eqn:E; try done.
    exists fields. injection Hc as Ep. apply (f_equal om_payload) in Ep. cbn in Ep. by rewrite <-Ep. }
  unfold OutboxMessage_from_dict. take_item. etrans; [eapply res_bind_eq; by rewrite Hn, E|]. cbv beta.
  do 9 read_field. rewrite <-E. by destruct m.
Qed.
