(* ===== verification/EventStore.v ===== *)
(** [packages/events/store.py] and [memory.py]: the transaction protocol of the
    event writer, the in-memory store that implements it with rollback, and its
    outbox as a delivery store. *)
From S2P Require Import Prelude PyTime PyDecimal Json Domain EventModels Outbox.
#[local] Open Scope Z_scope.

(** ** The protocol *)

(* @ packages/events/store.py 32-56 EventTransaction *)
Class EventTransaction (S : Type) := {
  get_receipt : string -> M S (option CommandReceipt);
  get_event : string -> M S (option CanonicalEvent);
  get_event_by_identity : string -> M S (option CanonicalEvent);
  latest_source_sequence : string -> string -> M S (option Z);
  insert_event : CanonicalEvent -> M S unit;
  update_event : CanonicalEvent -> Z -> M S unit;
  append_state_log : EventStateLog -> M S unit;
  save_receipt : CommandReceipt -> M S unit;
  enqueue_outbox : OutboxMessage -> M S unit
}.

(* @ packages/events/store.py 59-64 EventStore *)
Class EventStore (S : Type) `{EventTransaction S, OutboxDeliveryStore S} := {
  transaction : forall A, M S A -> M S A;
  read_event : string -> M S (option CanonicalEvent);
  read_outbox : string -> M S (option OutboxMessage)
}.
Arguments transaction {_ _ _ _ _} _.

(** ** The in-memory store *)

(* @ packages/events/memory.py 28-36 InMemoryEventStore.__init__ *)
Record MemStore := mk_MemStore {
  es_events : dict string CanonicalEvent;
  es_identities : dict string string;
  es_receipts : dict string CommandReceipt;
  es_source_sequences : dict (string * string) Z;
  es_state_logs : list EventStateLog;
  es_outbox : dict string OutboxRecord;
  es_fail_next_commit : bool
}.

(* @ packages/events/memory.py 28-36 InMemoryEventStore.__init__ *)
Definition empty_store : MemStore := mk_MemStore [] [] [] [] [] [] false.

Definition set_events x s := mk_MemStore x (es_identities s) (es_receipts s)
  (es_source_sequences s) (es_state_logs s) (es_outbox s) (es_fail_next_commit s).
Definition set_identities x s := mk_MemStore (es_events s) x (es_receipts s)
  (es_source_sequences s) (es_state_logs s) (es_outbox s) (es_fail_next_commit s).
Definition set_receipts x s := mk_MemStore (es_events s) (es_identities s) x
  (es_source_sequences s) (es_state_logs s) (es_outbox s) (es_fail_next_commit s).
Definition set_source_sequences x s := mk_MemStore (es_events s) (es_identities s)
  (es_receipts s) x (es_state_logs s) (es_outbox s) (es_fail_next_commit s).
Definition set_state_logs x s := mk_MemStore (es_events s) (es_identities s) (es_receipts s)
  (es_source_sequences s) x (es_outbox s) (es_fail_next_commit s).
Definition set_outbox x s := mk_MemStore (es_events s) (es_identities s) (es_receipts s)
  (es_source_sequences s) (es_state_logs s) x (es_fail_next_commit s).
Definition set_fail x s := mk_MemStore (es_events s) (es_identities s) (es_receipts s)
  (es_source_sequences s) (es_state_logs s) (es_outbox s) x.

Definition gets {A} (f : MemStore -> A) : M MemStore A := fun s => (Ok (f s), s).
Definition modify (f : MemStore -> MemStore) : M MemStore unit := fun s => (Ok tt, f s).
Definition throw_if (c : bool) (e : exn) : M MemStore unit := lift (raise_if c e).

(* @ packages/events/memory.py 38-40 InMemoryEventStore.fail_next_commit *)
Definition fail_next_commit : M MemStore unit := modify (set_fail true).

(** The body runs on the store itself; an exception, or the failpoint, puts the
    six collections back.  The failpoint flag is not part of the backup. *)
(* @ packages/events/memory.py 42-70 InMemoryEventStore.transaction *)
Definition mem_transaction A (body : M MemStore A) : M MemStore A := fun backup =>
  let restore s := set_fail (es_fail_next_commit s) backup in
  match body backup with
  | (Ok a, s) =>
      if es_fail_next_commit s then (Raise SimulatedCommitFailure, restore (set_fail false s))
      else (Ok a, s)
  | (Raise e, s) => (Raise e, restore s)
  end.

(* @ packages/events/memory.py 72-74 InMemoryEventStore.read_event *)
Definition mem_read_event (event_id : string) : M MemStore (option CanonicalEvent) :=
  gets (fun s => dget event_id (es_events s)).

(* @ packages/events/memory.py 76-79 InMemoryEventStore.read_outbox *)
Definition mem_read_outbox (message_id : string) : M MemStore (option OutboxMessage) :=
  gets (fun s => or_message <$> dget message_id (es_outbox s)).

(* @ packages/events/memory.py 81-87 InMemoryEventStore.state_logs *)
Definition state_logs (event_id : option string) (s : MemStore) : list EventStateLog :=
  List.filter
    (fun item => match event_id with
                 | None => true
                 | Some i => bool_decide (sl_event_id item = i)
                 end)
    (es_state_logs s).

(* @ packages/events/memory.py 89-91 InMemoryEventStore.outbox_records *)
Definition outbox_records (s : MemStore) : list OutboxRecord :=
  omap (fun key => dget key (es_outbox s)) (sorted_list (dkeys (es_outbox s))).

(* @ packages/events/memory.py 121-130 InMemoryEventStore.claim_pending *)
Fixpoint claim_all (now : datetime) (lease : timedelta) (records : list OutboxRecord)
    : M MemStore (list OutboxRecord) :=
  match records with
  | [] => mret []
  | record :: records' =>
      updated ← lift (OutboxRecord_check (claimed_record now lease record));
      _ ← modify (fun s => set_outbox (dset (or_id record) updated (es_outbox s)) s);
      claimed ← claim_all now lease records';
      mret (updated :: claimed)
  end.

(* @ packages/events/memory.py 93-131 InMemoryEventStore.claim_pending *)
Definition mem_claim_pending (now : datetime) (limit : Z) (lease : timedelta)
    : M MemStore (list OutboxRecord) :=
  _ ← throw_if (limit <? 1) ValueError;
  eligible ← gets (fun s => List.filter (claimable now) (dvalues (es_outbox s)));
  claim_all now lease (take (Z.to_nat limit) (sorted_by delivery_key eligible)).

(** A change of one outbox record that is not yet published. *)
Definition update_unpublished (message_id : string) (f : OutboxRecord -> OutboxRecord)
    : M MemStore unit :=
  record ← gets (fun s => dget message_id (es_outbox s));
  match record with
  | None => throw KeyError
  | Some record =>
      if decide (or_status record = PUBLISHED) then mret tt
      else
        updated ← lift (OutboxRecord_check (f record));
        modify (fun s => set_outbox (dset message_id updated (es_outbox s)) s)
  end.

(* @ packages/events/memory.py 133-146 InMemoryEventStore.mark_published *)
Definition mem_mark_published (message_id : string) (published_at : datetime)
    : M MemStore unit :=
  update_unpublished message_id (published_record published_at).

(* @ packages/events/memory.py 148-167 InMemoryEventStore.release_after_failure *)
Definition mem_release_after_failure (message_id : string) (retry_at : datetime)
    (error : string) : M MemStore unit :=
  update_unpublished message_id (released_record retry_at error).

(** *** The transaction's methods *)

(* @ packages/events/memory.py 174-175 _MemoryEventTransaction.get_receipt *)
Definition mem_get_receipt (message_id : string) : M MemStore (option CommandReceipt) :=
  gets (fun s => dget message_id (es_receipts s)).

(* @ packages/events/memory.py 177-178 _MemoryEventTransaction.get_event *)
Definition mem_get_event (event_id : string) : M MemStore (option CanonicalEvent) :=
  gets (fun s => dget event_id (es_events s)).

(* @ packages/events/memory.py 180-182 _MemoryEventTransaction.get_event_by_identity *)
Definition mem_get_event_by_identity (key : string) : M MemStore (option CanonicalEvent) :=
  event_id ← gets (fun s => dget key (es_identities s));
  match event_id with
  | None => mret None
  | Some event_id =>
      event ← gets (fun s => dget event_id (es_events s));
      match event with Some e => mret (Some e) | None => throw KeyError end
  end.

(* @ packages/events/memory.py 184-185 _MemoryEventTransaction.latest_source_sequence *)
Definition mem_latest_source_sequence (event_id source : string) : M MemStore (option Z) :=
  gets (fun s => dget (event_id, source) (es_source_sequences s)).

(* @ packages/events/memory.py 187-193 _MemoryEventTransaction.insert_event *)
Definition mem_insert_event (event : CanonicalEvent) : M MemStore unit :=
  s ← get_st;
  _ ← throw_if (dmem (ce_event_id event) (es_events s)) EventIdentityConflictError;
  _ ← throw_if (dmem (ce_identity_key event) (es_identities s)) EventIdentityConflictError;
  _ ← modify (fun s => set_events (dset (ce_event_id event) event (es_events s)) s);
  modify (fun s => set_identities (dset (ce_identity_key event) (ce_event_id event)
                                     (es_identities s)) s).

(* @ packages/events/memory.py 195-210 _MemoryEventTransaction.update_event *)
Definition mem_update_event (event : CanonicalEvent) (expected_state_version : Z)
    : M MemStore unit :=
  current ← gets (fun s => dget (ce_event_id event) (es_events s));
  _ ← throw_if (match current with
                | None => true
                | Some c => negb (ce_state_version c =? expected_state_version)
                end) ConcurrentEventWriteError;
  _ ← throw_if (negb (ce_state_version event =? expected_state_version + 1))
        ConcurrentEventWriteError;
  modify (fun s => set_events (dset (ce_event_id event) event (es_events s)) s).

(* @ packages/events/memory.py 212-219 _MemoryEventTransaction.append_state_log *)
Definition mem_append_state_log (log : EventStateLog) : M MemStore unit :=
  s ← get_st;
  _ ← throw_if (existsb (fun item => bool_decide (sl_event_id item = sl_event_id log) &&
                                     (sl_state_version item =? sl_state_version log))
                  (es_state_logs s)) ConcurrentEventWriteError;
  modify (fun s => set_state_logs (es_state_logs s ++ [log]) s).

(* @ packages/events/memory.py 221-233 _MemoryEventTransaction.save_receipt *)
Definition mem_save_receipt (receipt : CommandReceipt) : M MemStore unit :=
  existing ← gets (fun s => dget (rcp_message_id receipt) (es_receipts s));
  match existing with
  | Some existing =>
      throw_if (negb (bool_decide (rcp_command_fingerprint existing =
                                   rcp_command_fingerprint receipt))) IdempotencyConflictError
  | None =>
      _ ← modify (fun s => set_receipts (dset (rcp_message_id receipt) receipt
                                           (es_receipts s)) s);
      let key := (rcp_event_id receipt, rcp_source receipt) in
      previous ← gets (fun s => dget key (es_source_sequences s));
      if match previous with None => true | Some p => p <? rcp_source_sequence receipt end
      then modify (fun s => set_source_sequences
                              (dset key (rcp_source_sequence receipt) (es_source_sequences s)) s)
      else mret tt
  end.

(* @ packages/events/memory.py 235-248 _MemoryEventTransaction.enqueue_outbox *)
Definition mem_enqueue_outbox (message : OutboxMessage) : M MemStore unit :=
  existing ← gets (fun s => dget (om_message_id message) (es_outbox s));
  match existing with
  | Some existing => throw_if (negb (OutboxMessage_eqb (or_message existing) message))
                       IdempotencyConflictError
  | None =>
      record ← lift (OutboxRecord_check
                       (mk_OutboxRecord message OB_PENDING 0 (om_received_at message)
                          None None None));
      modify (fun s => set_outbox (dset (om_message_id message) record (es_outbox s)) s)
  end.

#[export] Instance mem_tx : EventTransaction MemStore := {
  get_receipt := mem_get_receipt;
  get_event := mem_get_event;
  get_event_by_identity := mem_get_event_by_identity;
  latest_source_sequence := mem_latest_source_sequence;
  insert_event := mem_insert_event;
  update_event := mem_update_event;
  append_state_log := mem_append_state_log;
  save_receipt := mem_save_receipt;
  enqueue_outbox := mem_enqueue_outbox
}.

#[export] Instance mem_delivery : OutboxDeliveryStore MemStore := {
  claim_pending := mem_claim_pending;
  mark_published := mem_mark_published;
  release_after_failure := mem_release_after_failure
}.

#[export] Instance mem_store : EventStore MemStore := {
  transaction := mem_transaction;
  read_event := mem_read_event;
  read_outbox := mem_read_outbox
}.

(** ** The outbox of the store keeps the delivery protocol *)

Definition record_ok (r : OutboxRecord) : Prop := OutboxRecord_check r = Ok r.

(** Records are filed under their message id and satisfy their own checks. *)
Definition outbox_ok (d : dict string OutboxRecord) : Prop :=
  NoDup (dkeys d) /\ forall i r, dget i d = Some r -> or_id r = i /\ record_ok r.

Lemma OutboxRecord_check_ok r :
  0 <= or_attempts r -> is_aware (or_available_at r) = true ->
  (forall d, or_claimed_until r = Some d -> is_aware d = true) ->
  (forall d, or_published_at r = Some d -> is_aware d = true) -> record_ok r.
Proof.
  intros H1 H2 H3 H4. unfold record_ok, OutboxRecord_check, require_opt_aware, require_aware.
  replace (or_attempts r <? 0) with false by (symmetry; lia). rewrite H2. cbn.
  destruct (or_claimed_until r) as [d|]; [rewrite (H3 d eq_refl)|]; cbn;
    (destruct (or_published_at r) as [d'|]; [rewrite (H4 d' eq_refl)|]); done.
Qed.

Lemma OutboxRecord_check_id r r' : OutboxRecord_check r = Ok r' -> r' = r.
Proof.
  unfold OutboxRecord_check. intros H. do 4 apply res_bind_ok in H as (?&_&H). congruence.
Qed.

Lemma record_ok_facts r :
  record_ok r -> 0 <= or_attempts r /\ is_aware (or_available_at r) = true /\
  (forall d, or_published_at r = Some d -> is_aware d = true).
Proof.
  unfold record_ok, OutboxRecord_check. intros H.
  apply res_bind_ok in H as (?&H1&H). apply raise_if_ok in H1.
  apply res_bind_ok in H as (?&H2&H). apply require_aware_ok in H2.
  apply res_bind_ok in H as (?&_&H). apply res_bind_ok in H as (u&H3&_).
  split_and!; [lia|done|]. intros d Hd. rewrite Hd in H3. by eapply require_aware_ok.
Qed.

Lemma claimed_record_ok now lease r :
  is_aware now = true -> record_ok r -> record_ok (claimed_record now lease r).
Proof.
  intros Hn (?&?&?)%record_ok_facts. apply OutboxRecord_check_ok; simpl; [lia|done| |done].
  by intros d [= <-].
Qed.
Lemma published_record_ok at_ r :
  is_aware at_ = true -> record_ok r -> record_ok (published_record at_ r).
Proof.
  intros Hn (?&?&?)%record_ok_facts. apply OutboxRecord_check_ok; simpl; [lia|done|done|].
  by intros d [= <-].
Qed.
Lemma released_record_ok at_ err r :
  is_aware at_ = true -> record_ok r -> record_ok (released_record at_ err r).
Proof. intros Hn (?&?&?)%record_ok_facts. by apply OutboxRecord_check_ok. Qed.

Lemma outbox_ok_dset d r : outbox_ok d -> record_ok r -> outbox_ok (dset (or_id r) r d).
Proof.
  intros [Hnd Hd] Hr. split; [by apply NoDup_dkeys_dset|]. intros i r'. rewrite dget_dset.
  case_decide; [intros [= <-]; by split|apply Hd].
Qed.

Lemma claim_all_ok now lease records s :
  is_aware now = true -> outbox_ok (es_outbox s) -> NoDup (or_id <$> records) ->
  Forall (fun r => dget (or_id r) (es_outbox s) = Some r) records ->
  exists d, claim_all now lease records s =
    (Ok (claimed_record now lease <$> records), set_outbox d s) /\ outbox_ok d /\
    forall i, dget i d = match dget i (es_outbox s) with
                         | Some r => if decide (r ∈ records)
                                     then Some (claimed_record now lease r) else Some r
                         | None => None
                         end.
Proof.
  revert s; induction records as [|r records IH]; intros s Hn Hok Hnd Hall.
  { exists (es_outbox s). split; [by destruct s|]. split; [done|]. intros i.
    destruct (dget i (es_outbox s)); [|done]. by rewrite decide_False by apply not_elem_of_nil. }
  rewrite fmap_cons in Hnd. apply NoDup_cons in Hnd as [Hr Hnd].
  apply Forall_cons in Hall as [Hgr Hall]. destruct (proj2 Hok _ _ Hgr) as [_ Hrok].
  pose proof (claimed_record_ok now lease r Hn Hrok) as Hc.
  set (s1 := set_outbox (dset (or_id r) (claimed_record now lease r) (es_outbox s)) s).
  destruct (IH s1) as (d&Hd&Hdok&Hget); [done|by apply (outbox_ok_dset _ (claimed_record now lease r))|done| |].
  { rewrite Forall_forall in Hall |- *. intros r' Hr'. unfold s1; simpl.
    rewrite dget_dset_ne; [by apply Hall|]. intros E. apply Hr. rewrite E.
    by apply list_elem_of_fmap_2. }
  exists d. split_and!; [|done|].
  - cbn [claim_all]. unfold mbind, M_bind, lift. rewrite Hc. unfold modify. fold s1. by rewrite Hd.
  - intros i. rewrite Hget. unfold s1; simpl. rewrite dget_dset.
    destruct (decide (or_id r = i)) as [<-|Hne].
    + rewrite Hgr. assert (claimed_record now lease r ∉ records) as Hnot.
      { intros Hin. apply Hr. change (or_id r) with (or_id (claimed_record now lease r)).
        by apply list_elem_of_fmap_2. }
      rewrite decide_False by done. by rewrite decide_True by left.
    + destruct (dget i (es_outbox s)) as [r'|] eqn:E; [|done].
      assert (r' <> r) as Hne'.
      { intros ->. by destruct (proj2 Hok _ _ E). }
      destruct (decide (r' ∈ records)); [by rewrite decide_True by (by right)|].
      rewrite decide_False; [done|]. by intros [|]%elem_of_cons.
Qed.

(** The first [n] of a sorted list are no larger than the others. *)
Lemma take_sorted_le {A K} `{PyOrdLaws K} (key : A -> K) n l x y :
  x ∈ take n (sorted_by key l) -> y ∈ l -> y ∉ take n (sorted_by key l) ->
  pyle (key x) (key y) = true.
Proof.
  intros Hx Hy Hny. pose proof (sorted_by_sorted key l) as Hs.
  rewrite <-(elem_of_sorted_by key), <-(take_drop n (sorted_by key l)) in Hy.
  apply elem_of_app in Hy as [?|Hy]; [done|]. rewrite <-(take_drop n (sorted_by key l)) in Hs.
  revert Hx Hy Hs. generalize (take n (sorted_by key l)) (drop n (sorted_by key l)). clear.
  intros a b Hx Hy. induction a as [|z a IH]; [by apply not_elem_of_nil in Hx|].
  intros Hs. inversion Hs as [|? ? Hs' Hz]; subst.
  apply elem_of_cons in Hx as [->|Hx]; [|by apply IH].
  rewrite Forall_forall in Hz. apply Hz. apply elem_of_app. by right.
Qed.

Lemma dvalues_view (d : dict string OutboxRecord) i r : dget i d = Some r -> r ∈ dvalues d.
Proof.
  intros E%dget_elem. unfold dvalues. apply list_elem_of_fmap. by exists (i, r).
Qed.

Lemma elem_dvalues (d : dict string OutboxRecord) r :
  outbox_ok d -> r ∈ dvalues d -> dget (or_id r) d = Some r.
Proof.
  intros [Hnd Hok] Hr. unfold dvalues in Hr. apply list_elem_of_fmap in Hr as ([i r']&->&Hr).
  pose proof (elem_dget _ _ _ Hnd Hr) as E. simpl. by destruct (Hok _ _ E) as [-> _].
Qed.

Lemma NoDup_ids (d : dict string OutboxRecord) : outbox_ok d -> NoDup (or_id <$> dvalues d).
Proof.
  intros [Hnd Hok]. assert (or_id <$> dvalues d = dkeys d) as ->; [|done].
  unfold dvalues, dkeys in *. rewrite <-list_fmap_compose. apply list_fmap_ext.
  intros n [i r] Hn. apply list_elem_of_lookup_2 in Hn. apply (elem_dget _ _ _ Hnd) in Hn.
  by destruct (Hok _ _ Hn).
Qed.

Lemma mem_claim_ok s now limit lease :
  outbox_ok (es_outbox s) -> is_aware now = true -> 1 <= limit ->
  exists claimed d,
    mem_claim_pending now limit lease s =
      (Ok (claimed_record now lease <$> claimed), set_outbox d s) /\
    outbox_ok d /\ NoDup (or_id <$> claimed) /\ Z.of_nat (length claimed) <= limit /\
    Forall (fun r => dget (or_id r) (es_outbox s) = Some r /\ claimable now r = true) claimed /\
    (forall i r, dget i (es_outbox s) = Some r -> claimable now r = true -> r ∉ claimed ->
       Z.of_nat (length claimed) = limit /\
       Forall (fun c => pyle (delivery_key c) (delivery_key r) = true) claimed) /\
    (forall i, dget i d = match dget i (es_outbox s) with
                          | Some r => if decide (r ∈ claimed)
                                      then Some (claimed_record now lease r) else Some r
                          | None => None
                          end).
Proof.
  intros Hok Hn Hlim. set (el := List.filter (claimable now) (dvalues (es_outbox s))).
  set (claimed := take (Z.to_nat limit) (sorted_by delivery_key el)).
  assert (forall r, r ∈ claimed -> r ∈ el) as Hsub.
  { intros r Hr. rewrite <-(elem_of_sorted_by delivery_key).
    rewrite <-(take_drop (Z.to_nat limit) (sorted_by delivery_key el)). apply elem_of_app. by left. }
  assert (Forall (fun r => dget (or_id r) (es_outbox s) = Some r /\ claimable now r = true) claimed)
    as Hall.
  { apply Forall_forall. intros r [Hr Hc]%Hsub%elem_of_filterb. split; [|done].
    by apply elem_dvalues. }
  assert (NoDup (or_id <$> claimed)) as Hnd.
  { apply (sublist_NoDup _ (or_id <$> sorted_by delivery_key el)).
    - rewrite (sorted_by_perm delivery_key el).
      eapply sublist_NoDup; [by apply NoDup_ids|]. apply fmap_sublist, filterb_sublist.
    - apply fmap_sublist, sublist_take. }
  destruct (claim_all_ok now lease claimed s Hn Hok Hnd) as (d&Hd&Hdok&Hget).
  { eapply Forall_impl; [exact Hall|]. by intros r [? _]. }
  exists claimed, d. split_and!; try done.
  - unfold mem_claim_pending, throw_if, lift, gets, mbind, M_bind.
    replace (limit <? 1) with false by (symmetry; lia). cbn [raise_if]. exact Hd.
  - unfold claimed. rewrite length_take. lia.
  - intros i r Hr Hc Hnot. assert (r ∈ el) as Hel.
    { apply elem_of_filterb. split; [|done]. by eapply dvalues_view. }
    split.
    + unfold claimed in *. rewrite length_take.
      assert (Z.to_nat limit < length (sorted_by delivery_key el))%nat; [|lia].
      apply Nat.nle_gt. intros Hle. rewrite take_ge in Hnot by done. apply Hnot.
      by apply elem_of_sorted_by.
    + apply Forall_forall. intros c Hcin. by apply (take_sorted_le delivery_key (Z.to_nat limit) el).
Qed.

Lemma update_unpublished_ok s i f r :
  outbox_ok (es_outbox s) -> dget i (es_outbox s) = Some r -> or_status r <> PUBLISHED ->
  record_ok (f r) -> or_id (f r) = or_id r ->
  update_unpublished i f s = (Ok tt, set_outbox (dset i (f r) (es_outbox s)) s) /\
  outbox_ok (dset i (f r) (es_outbox s)).
Proof.
  intros Hok Hr Hst Hf Hid. split.
  - unfold update_unpublished, gets, mbind, M_bind. rewrite Hr, decide_False by done.
    unfold lift. by rewrite Hf.
  - destruct (proj2 Hok _ _ Hr) as [<- _]. rewrite <-Hid. by apply outbox_ok_dset.
Qed.

#[export] Instance mem_delivery_laws : OutboxDeliveryLaws MemStore.
Proof.
  refine (Build_OutboxDeliveryLaws MemStore _ (fun s i => dget i (es_outbox s))
            (fun s => outbox_ok (es_outbox s)) _ _ _ _).
  - intros s i r [_ Hok] Hr. by destruct (Hok _ _ Hr).
  - intros s now limit lease Hok Hn Hlim.
    destruct (mem_claim_ok s now limit lease Hok Hn Hlim) as (claimed&d&Hc&?&?&?&?&?&?).
    by exists claimed, (set_outbox d s).
  - intros s i at_ r Hok Hn Hr Hst.
    destruct (update_unpublished_ok s i (published_record at_) r Hok Hr Hst) as [Hu Hd];
      [by apply published_record_ok; [|destruct (proj2 Hok _ _ Hr)]|done|].
    eexists. split; [exact Hu|]. split; [exact Hd|]. intros j. simpl. rewrite dget_dset.
    destruct (decide (j = i)) as [->|]; [by rewrite decide_True|by rewrite decide_False].
  - intros s i at_ err r Hok Hn Hr Hst.
    destruct (update_unpublished_ok s i (released_record at_ err) r Hok Hr Hst) as [Hu Hd];
      [by apply released_record_ok; [|destruct (proj2 Hok _ _ Hr)]|done|].
    eexists. split; [exact Hu|]. split; [exact Hd|]. intros j. simpl. rewrite dget_dset.
    destruct (decide (j = i)) as [->|]; [by rewrite decide_True|by rewrite decide_False].
Defined.

(** ** Inverting the store's methods *)

Lemma gets_ok {A} (f : MemStore -> A) s a s' : gets f s = (Ok a, s') <-> a = f s /\ s' = s.
Proof. unfold gets. naive_solver. Qed.

Lemma modify_ok f s u s' : modify f s = (Ok u, s') <-> s' = f s.
Proof. unfold modify. destruct u. naive_solver. Qed.

Lemma throw_if_ok c e s u s' : throw_if c e s = (Ok u, s') <-> c = false /\ s' = s.
Proof. unfold throw_if. by rewrite lift_ok, raise_if_ok. Qed.

Lemma get_st_ok (s a s' : MemStore) : get_st s = (Ok a, s') <-> a = s /\ s' = s.
Proof. unfold get_st. naive_solver. Qed.

(** Inverts a successful run in a hypothesis, down to its next test. *)
Ltac m_inv H :=
  cbv beta in H;
  lazymatch type of H with
  | (mbind _ _) _ = (Ok _, _) =>
      let H' := fresh "Hm" in
      apply M_bind_ok in H as (?&?&H'&H); m_inv H'; m_inv H
  | gets _ _ = _ => apply gets_ok in H as [-> ->]
  | modify _ _ = _ => apply modify_ok in H as ->
  | throw_if _ _ _ = _ => apply throw_if_ok in H as [H ->]
  | lift _ _ = _ => apply lift_ok in H as [H ->]
  | get_st _ = _ => apply get_st_ok in H as [-> ->]
  | mret _ _ = _ => apply mret_ok in H as [-> ->]
  | _ => idtac
  end.

Lemma insert_event_ok event s u s' :
  mem_insert_event event s = (Ok u, s') <->
  dget (ce_event_id event) (es_events s) = None /\
  dget (ce_identity_key event) (es_identities s) = None /\
  s' = set_identities (dset (ce_identity_key event) (ce_event_id event) (es_identities s))
         (set_events (dset (ce_event_id event) event (es_events s)) s).
Proof.
  unfold mem_insert_event. split.
  - intros H. m_inv H. unfold dmem in *. repeat case_match; done.
  - intros (H1&H2&->). unfold mbind, M_bind, get_st, throw_if, lift, modify, dmem.
    rewrite H1, H2. by destruct u.
Qed.

Lemma update_event_ok event v s u s' :
  mem_update_event event v s = (Ok u, s') <->
  (exists current, dget (ce_event_id event) (es_events s) = Some current /\
                   ce_state_version current = v) /\
  ce_state_version event = v + 1 /\
  s' = set_events (dset (ce_event_id event) event (es_events s)) s.
Proof.
  unfold mem_update_event. split.
  - intros H. m_inv H. destruct (dget _ _) as [c|]; [|done].
    repeat match goal with
      | Hn : negb (_ =? _) = false |- _ => apply negb_false_iff, Z.eqb_eq in Hn
      end.
    split_and!; [by exists c|done|done].
  - intros ((c&Hc&Hv)&Hv'&->). unfold mbind, M_bind, gets, throw_if, lift, modify.
    rewrite Hc, Hv, Hv', !Z.eqb_refl. by destruct u.
Qed.

Lemma append_state_log_ok log s u s' :
  mem_append_state_log log s = (Ok u, s') <->
  Forall (fun l => ~ (sl_event_id l = sl_event_id log /\
                      sl_state_version l = sl_state_version log)) (es_state_logs s) /\
  s' = set_state_logs (es_state_logs s ++ [log]) s.
Proof.
  assert (existsb (fun item => bool_decide (sl_event_id item = sl_event_id log) &&
            (sl_state_version item =? sl_state_version log)) (es_state_logs s) = false <->
          Forall (fun l => ~ (sl_event_id l = sl_event_id log /\
                      sl_state_version l = sl_state_version log)) (es_state_logs s)) as E.
  { induction (es_state_logs s) as [|l logs IH]; simpl; [by split|].
    rewrite orb_false_iff, IH, Forall_cons, <-not_true_iff_false, andb_true_iff,
      bool_decide_eq_true, Z.eqb_eq. done. }
  unfold mem_append_state_log. split.
  - intros H. m_inv H. split; [|done]. by apply E.
  - intros [H ->]. unfold mbind, M_bind, get_st, throw_if, lift, modify.
    rewrite (proj2 E H). by destruct u.
Qed.

(** After [enqueue_outbox] the message is in the outbox, whatever else is. *)
Lemma enqueue_outbox_ok message s u s' :
  mem_enqueue_outbox message s = (Ok u, s') ->
  exists record d, s' = set_outbox d s /\
    dget (om_message_id message) d = Some record /\
    OutboxMessage_eqb (or_message record) message = true /\
    (forall i, i <> om_message_id message -> dget i d = dget i (es_outbox s)) /\
    (forall r, dget (om_message_id message) (es_outbox s) = Some r -> r = record) /\
    (outbox_ok (es_outbox s) -> outbox_ok d).
Proof.
  unfold mem_enqueue_outbox. intros H. m_inv H.
  destruct (dget _ (es_outbox s)) as [r|] eqn:E; m_inv H.
  - apply negb_false_iff in H. exists r, (es_outbox s).
    split_and!; try done; [by destruct s|naive_solver].
  - set (record := mk_OutboxRecord _ _ _ _ _ _ _) in *.
    match goal with Hc : OutboxRecord_check record = Ok ?x |- _ =>
      assert (x = record) as ->; [by apply OutboxRecord_check_id|]; rename Hc into H1 end.
    eexists record, _. split_and!; [done|apply dget_dset_eq| | |done|].
    + unfold OutboxMessage_eqb, record, dt_eqb; simpl. rewrite !Z.eqb_refl.
      rewrite bool_decide_eq_true_2; [done|]. by split_and!.
    + intros i Hi. by apply dget_dset_ne.
    + intros Hok. by apply (outbox_ok_dset _ record).
Qed.

Lemma save_receipt_fresh receipt s u s' :
  mem_save_receipt receipt s = (Ok u, s') ->
  dget (rcp_message_id receipt) (es_receipts s) = None ->
  exists seqs,
    s' = set_source_sequences seqs
           (set_receipts (dset (rcp_message_id receipt) receipt (es_receipts s)) s) /\
    (forall k, k <> (rcp_event_id receipt, rcp_source receipt) ->
               dget k seqs = dget k (es_source_sequences s)) /\
    dget (rcp_event_id receipt, rcp_source receipt) seqs =
      Some (match dget (rcp_event_id receipt, rcp_source receipt) (es_source_sequences s) with
            | Some p => Z.max p (rcp_source_sequence receipt)
            | None => rcp_source_sequence receipt
            end).
Proof.
  unfold mem_save_receipt. intros H Hnone. m_inv H. rewrite Hnone in H. m_inv H.
  cbn [es_source_sequences set_receipts] in H.
  set (key := (rcp_event_id receipt, rcp_source receipt)) in *.
  destruct (dget key (es_source_sequences s)) as [p|] eqn:E.
  - destruct (Z.ltb_spec p (rcp_source_sequence receipt)); m_inv H.
    + eexists. split; [done|]. split; [intros; by apply dget_dset_ne|].
      rewrite dget_dset_eq. f_equal. lia.
    + exists (es_source_sequences s). split; [by destruct s|]. split; [done|].
      rewrite E. f_equal. lia.
  - m_inv H. eexists. split; [done|]. split; [intros; by apply dget_dset_ne|].
    by rewrite dget_dset_eq.
Qed.
