(* ===== verification/EventWriter.v ===== *)
(** [packages/events/writer.py]: the single writer of canonical events, written
    against the store protocol, and what it guarantees on the in-memory store. *)
From S2P Require Import Prelude Sha256 PyTime PyDecimal Json Domain EventModels Outbox EventStore.
#[local] Open Scope Z_scope.

(* @ packages/events/writer.py 360-380 EventWriter._event_message *)
Definition event_message (event : CanonicalEvent) (metadata : EventInputMetadata)
    (event_type : string) (payload : json) : res OutboxMessage :=
  OutboxMessage_check
    (mk_OutboxMessage (outbox_message_id (im_message_id metadata) event_type) event_type
       EVENT_DOMAIN_EVENT_VERSION (ce_event_id event) (im_occurred_at metadata)
       (im_received_at metadata) EVENT_PRODUCER (im_correlation_id metadata)
       (im_causation_id metadata) payload).

(* @ packages/events/writer.py 101-119 EventWriter._create *)
Definition new_event (command : CreateEventCommand) (classification : EventClassification)
    : CanonicalEvent :=
  let metadata := cc_metadata command in
  let identity := cc_identity command in
  mk_CanonicalEvent (identity_event_id identity) (identity_key identity)
    (ci_market_date identity) (ci_canonical_theme_id identity) (ci_catalyst_key identity)
    CANDIDATE REC_PENDING 1 (ev_ranking_model_version (cc_versions command)) classification
    (im_occurred_at metadata) (im_occurred_at metadata) (im_source metadata)
    (im_source_sequence metadata) (im_received_at metadata) (im_lineage metadata)
    (cc_versions command).

(* @ packages/events/writer.py 92-100 EventWriter._create *)
Definition new_classification (command : CreateEventCommand) : EventClassification :=
  mk_EventClassification 1 (ci_canonical_theme_id (cc_identity command))
    (cc_display_name command) (cc_classification_kind command)
    (cc_classification_certainty command) (cc_classification_source command)
    (im_occurred_at (cc_metadata command)).

(** A state log whose command fields come from the metadata. *)
Definition state_log (event : CanonicalEvent) (from : option LogStatus) (to : LogStatus)
    (policy_version reason : string) (metadata : EventInputMetadata) (axis : StateAxis)
    : EventStateLog :=
  mk_EventStateLog (ce_event_id event) (ce_state_version event) from to policy_version reason
    (im_occurred_at metadata) (im_received_at metadata) (im_source metadata)
    (im_source_sequence metadata) (im_message_id metadata) (im_lineage metadata) axis.

(* @ packages/events/writer.py 141-147 EventWriter._create *)
Definition created_payload (event : CanonicalEvent) : json :=
  JObj [("eventId", JStr (ce_event_id event));
        ("lifecycleStatus", JStr (LifecycleStatus_value (ce_lifecycle_status event)));
        ("stateVersion", JNum (ce_state_version event));
        ("classificationVersion",
          JNum (ec_classification_version (ce_classification event)));
        ("versions", EventVersions_to_dict (ce_versions event))].

(* @ packages/events/writer.py 235-242 EventWriter._transition *)
Definition lifecycle_payload (event updated : CanonicalEvent)
    (command : TransitionLifecycleCommand) : json :=
  JObj [("eventId", JStr (ce_event_id updated));
        ("fromLifecycleStatus", JStr (LifecycleStatus_value (ce_lifecycle_status event)));
        ("lifecycleStatus", JStr (LifecycleStatus_value (ce_lifecycle_status updated)));
        ("stateVersion", JNum (ce_state_version updated));
        ("policyVersion", JStr (tc_policy_version command));
        ("reason", JStr (tc_reason command))].

(* @ packages/events/writer.py 343-351 EventWriter._reconcile *)
Definition reconciled_payload (event updated : CanonicalEvent)
    (command : ReconcileEventCommand) : json :=
  JObj [("eventId", JStr (ce_event_id updated));
        ("fromReconciliationStatus",
          JStr (ReconciliationStatus_value (ce_reconciliation_status event)));
        ("reconciliationStatus",
          JStr (ReconciliationStatus_value (ce_reconciliation_status updated)));
        ("stateVersion", JNum (ce_state_version updated));
        ("classificationVersion",
          JNum (ec_classification_version (ce_classification updated)));
        ("policyVersion", JStr (rc_policy_version command));
        ("reason", JStr (rc_reason command))].

(** [replace(event, lifecycle_status=..., ...)] before its checks. *)
(* @ packages/events/writer.py 203-213 EventWriter._transition *)
Definition transitioned (event : CanonicalEvent) (command : TransitionLifecycleCommand)
    : CanonicalEvent :=
  let metadata := tc_metadata command in
  mk_CanonicalEvent (ce_event_id event) (ce_identity_key event) (ce_market_date event)
    (ce_canonical_theme_id event) (ce_catalyst_key event) (tc_target command)
    (ce_reconciliation_status event) (ce_state_version event + 1) (tc_policy_version command)
    (ce_classification event) (ce_first_detected_at event) (im_occurred_at metadata)
    (im_source metadata) (im_source_sequence metadata) (im_received_at metadata)
    (im_lineage metadata) (ce_versions event).

(** Only a match promotes the classification to confirmed. *)
(* @ packages/events/writer.py 298-308 EventWriter._reconcile *)
Definition promoted (event : CanonicalEvent) (command : ReconcileEventCommand)
    : res EventClassification :=
  let c := ce_classification event in
  if decide (rc_target command = MATCHED) then
    EventClassification_check
      (mk_EventClassification (ec_classification_version c + 1) (ec_theme_id c)
         (ec_display_name c) (ec_kind c) CONFIRMED INFOSTOCK
         (im_occurred_at (rc_metadata command)))
  else Ok c.

(* @ packages/events/writer.py 309-320 EventWriter._reconcile *)
Definition reconciled (event : CanonicalEvent) (classification : EventClassification)
    (command : ReconcileEventCommand) : CanonicalEvent :=
  let metadata := rc_metadata command in
  mk_CanonicalEvent (ce_event_id event) (ce_identity_key event) (ce_market_date event)
    (ce_canonical_theme_id event) (ce_catalyst_key event) (ce_lifecycle_status event)
    (rc_target command) (ce_state_version event + 1) (rc_policy_version command)
    classification (ce_first_detected_at event) (im_occurred_at metadata)
    (im_source metadata) (im_source_sequence metadata) (im_received_at metadata)
    (im_lineage metadata) (ce_versions event).

(** The guards [_transition] and [_reconcile] share: the disposition of a command
    that is not to be applied.  [same] tells that the event already is in the
    target state. *)
(* @ packages/events/writer.py 165-196 EventWriter._transition *)
Definition stale_disposition (event : CanonicalEvent) (metadata : EventInputMetadata)
    (latest_sequence : option Z) (expected_state_version : Z) (same : bool)
    : res (option EventWriteDisposition) :=
  if match latest_sequence with
     | Some latest => im_source_sequence metadata <=? latest
     | None => false
     end
  then Ok (Some STALE_SOURCE_SEQUENCE)
  else if expected_state_version <? ce_state_version event then Ok (Some STALE_STATE_VERSION)
  else if ce_state_version event <? expected_state_version then Raise ConcurrentEventWriteError
  else if dt_lt (im_occurred_at metadata) (ce_changed_at event)
  then Ok (Some STALE_OCCURRED_AT)
  else if same then Ok (Some ALREADY_IN_STATE)
  else Ok None.

(* @ packages/events/writer.py 65-74 EventWriter.write *)
Definition receipt_of (command : EventCommand) (result : EventWriteResult) : CommandReceipt :=
  let metadata := command_metadata command in
  mk_CommandReceipt (im_message_id metadata) (command_fingerprint command)
    (ce_event_id (wr_event result)) (im_source metadata) (im_source_sequence metadata)
    (im_received_at metadata) result.

Section writer.
Context {S : Type} `{EventTransaction S}.

(* @ packages/events/writer.py 78-154 EventWriter._create *)
Definition create (command : CreateEventCommand) : M S EventWriteResult :=
  existing ← get_event_by_identity (identity_key (cc_identity command));
  match existing with
  | Some existing => mret (mk_EventWriteResult existing DUPLICATE_IDENTITY None)
  | None =>
      classification ← lift (EventClassification_check (new_classification command));
      event ← lift (CanonicalEvent_check (new_event command classification));
      _ ← insert_event event;
      _ ← append_state_log
            (state_log event None (LogLifecycle CANDIDATE) (ce_state_policy_version event)
               "최초 후보 탐지" (cc_metadata command) AXIS_LIFECYCLE);
      message ← lift (event_message event (cc_metadata command) "canonical_event.created"
                        (created_payload event));
      _ ← enqueue_outbox message;
      mret (mk_EventWriteResult event APPLIED (Some (om_message_id message)))
  end.

(** The tail both updates share: write, log, message. *)
Definition apply_update (event updated : CanonicalEvent) (log : EventStateLog)
    (metadata : EventInputMetadata) (event_type : string) (payload : json)
    : M S EventWriteResult :=
  _ ← update_event updated (ce_state_version event);
  _ ← append_state_log log;
  message ← lift (event_message updated metadata event_type payload);
  _ ← enqueue_outbox message;
  mret (mk_EventWriteResult updated APPLIED (Some (om_message_id message))).

(* @ packages/events/writer.py 156-249 EventWriter._transition *)
Definition transition (command : TransitionLifecycleCommand) : M S EventWriteResult :=
  event ← get_event (tc_event_id command);
  match event with
  | None => throw EventNotFoundError
  | Some event =>
      let metadata := tc_metadata command in
      latest ← latest_source_sequence (ce_event_id event) (im_source metadata);
      stale ← lift (stale_disposition event metadata latest (tc_expected_state_version command)
                      (bool_decide (tc_target command = ce_lifecycle_status event)));
      match stale with
      | Some disposition => mret (mk_EventWriteResult event disposition None)
      | None =>
          _ ← lift (transition_lifecycle (ce_lifecycle_status event) (tc_target command)
                      (tc_policy_version command));
          updated ← lift (CanonicalEvent_check (transitioned event command));
          apply_update event updated
            (state_log updated (Some (LogLifecycle (ce_lifecycle_status event)))
               (LogLifecycle (ce_lifecycle_status updated)) (tc_policy_version command)
               (tc_reason command) metadata AXIS_LIFECYCLE)
            metadata "canonical_event.lifecycle_changed"
            (lifecycle_payload event updated command)
      end
  end.

(* @ packages/events/writer.py 251-358 EventWriter._reconcile *)
Definition reconcile (command : ReconcileEventCommand) : M S EventWriteResult :=
  event ← get_event (rc_event_id command);
  match event with
  | None => throw EventNotFoundError
  | Some event =>
      let metadata := rc_metadata command in
      latest ← latest_source_sequence (ce_event_id event) (im_source metadata);
      stale ← lift (stale_disposition event metadata latest (rc_expected_state_version command)
                      (bool_decide (rc_target command = ce_reconciliation_status event)));
      match stale with
      | Some disposition => mret (mk_EventWriteResult event disposition None)
      | None =>
          _ ← lift (transition_reconciliation (ce_reconciliation_status event)
                      (rc_target command) (rc_policy_version command));
          classification ← lift (promoted event command);
          updated ← lift (CanonicalEvent_check (reconciled event classification command));
          apply_update event updated
            (state_log updated (Some (LogReconciliation (ce_reconciliation_status event)))
               (LogReconciliation (rc_target command)) (rc_policy_version command)
               (rc_reason command) metadata AXIS_RECONCILIATION)
            metadata "canonical_event.reconciled" (reconciled_payload event updated command)
      end
  end.

Definition dispatch (command : EventCommand) : M S EventWriteResult :=
  match command with
  | CmdCreate c => create c
  | CmdTransition c => transition c
  | CmdReconcile c => reconcile c
  end.

(* @ packages/events/writer.py 49-76 EventWriter.write *)
Definition write_body (command : EventCommand) : M S EventWriteResult :=
  let fingerprint := command_fingerprint command in
  let metadata := command_metadata command in
  receipt ← get_receipt (im_message_id metadata);
  match receipt with
  | Some receipt =>
      _ ← lift (raise_if (negb (bool_decide (rcp_command_fingerprint receipt = fingerprint)))
                  IdempotencyConflictError);
      mret (rcp_result receipt)
  | None =>
      result ← dispatch command;
      _ ← save_receipt (receipt_of command result);
      mret result
  end.

(* @ packages/events/writer.py 49-76 EventWriter.write *)
Definition write `{!OutboxDeliveryStore S, !EventStore S} (command : EventCommand)
    : M S EventWriteResult :=
  transaction (write_body command).
End writer.

(** ** What one decision changes *)

(** The part of an event its state log determines. *)
Definition event_state (e : CanonicalEvent) : LifecycleStatus * ReconciliationStatus * Z :=
  (ce_lifecycle_status e, ce_reconciliation_status e, ce_state_version e).

(** Replaying one log entry: creation, or a legal step along one axis that starts
    where the event is and counts the version up by one. *)
Definition log_step (st : option (LifecycleStatus * ReconciliationStatus * Z))
    (log : EventStateLog) : res (option (LifecycleStatus * ReconciliationStatus * Z)) :=
  match st, sl_from_status log, sl_to_status log, sl_axis log with
  | None, None, LogLifecycle CANDIDATE, AXIS_LIFECYCLE =>
      _ ← raise_if (negb (sl_state_version log =? 1)) InvalidStateTransition;
      Ok (Some (CANDIDATE, REC_PENDING, 1))
  | Some (lc, rc, v), Some (LogLifecycle from), LogLifecycle to, AXIS_LIFECYCLE =>
      _ ← raise_if (negb (bool_decide (from = lc /\ to ∈ lifecycle_targets lc /\
                                       sl_state_version log = v + 1))) InvalidStateTransition;
      Ok (Some (to, rc, v + 1))
  | Some (lc, rc, v), Some (LogReconciliation from), LogReconciliation to,
    AXIS_RECONCILIATION =>
      _ ← raise_if (negb (bool_decide (from = rc /\ to ∈ reconciliation_targets rc /\
                                       sl_state_version log = v + 1))) InvalidStateTransition;
      Ok (Some (lc, to, v + 1))
  | _, _, _, _ => Raise InvalidStateTransition
  end.

Definition replay_logs (logs : list EventStateLog) := foldM log_step None logs.

(** A member of a JSON object. *)
Definition field (k : string) (j : json) : option json :=
  match j with JObj fields => dget k fields | _ => None end.

(** The message that announces state [v] of event [i]. *)
Definition announces (m : OutboxMessage) (i : string) (v : Z) : Prop :=
  om_aggregate_id m = i /\ field "stateVersion" (om_payload m) = Some (JNum v).

(** Confirmed by the after-close source exactly when matched. *)
Definition classification_ok (e : CanonicalEvent) : Prop :=
  if decide (ce_reconciliation_status e = MATCHED)
  then ec_certainty (ce_classification e) = CONFIRMED /\
       ec_source (ce_classification e) = INFOSTOCK /\
       ec_classification_version (ce_classification e) = 2
  else ec_classification_version (ce_classification e) = 1.

(** The identity an event was created for. *)
Definition event_identity (e : CanonicalEvent) : CanonicalEventIdentity :=
  mk_CanonicalEventIdentity (ce_market_date e) (ce_canonical_theme_id e) (ce_catalyst_key e).

(** What never changes after creation. *)
Definition same_event (e e' : CanonicalEvent) : Prop :=
  ce_event_id e' = ce_event_id e /\ ce_identity_key e' = ce_identity_key e /\
  ce_market_date e' = ce_market_date e /\ ce_canonical_theme_id e' = ce_canonical_theme_id e /\
  ce_catalyst_key e' = ce_catalyst_key e /\ ce_first_detected_at e' = ce_first_detected_at e /\
  ce_versions e' = ce_versions e.

(** An applied decision: the event, its identity, its log entry and its message
    in the outbox; receipts and sequences are untouched at this point. *)
Definition applied_change (s : MemStore) (metadata : EventInputMetadata) (r : EventWriteResult)
    (s1 : MemStore) : Prop :=
  let e := wr_event r in
  exists log message record ids outbox,
    s1 = mk_MemStore (dset (ce_event_id e) e (es_events s)) ids (es_receipts s)
           (es_source_sequences s) (es_state_logs s ++ [log]) outbox (es_fail_next_commit s) /\
    wr_disposition r = APPLIED /\ wr_outbox_message_id r = Some (om_message_id message) /\
    (** the event *)
    match dget (ce_event_id e) (es_events s) with
    | None =>
        dget (ce_identity_key e) (es_identities s) = None /\
        ids = dset (ce_identity_key e) (ce_event_id e) (es_identities s) /\
        ce_event_id e = event_id_of_key (ce_identity_key e) /\
        ce_identity_key e = identity_key (event_identity e) /\ classification_ok e
    | Some old =>
        ids = es_identities s /\ same_event old e /\
        dt_le (ce_changed_at old) (ce_changed_at e) = true /\
        (classification_ok old -> classification_ok e) /\
        (forall q, dget (ce_event_id e, im_source metadata) (es_source_sequences s) = Some q ->
                   q < im_source_sequence metadata)
    end /\
    (** its log entry *)
    sl_event_id log = ce_event_id e /\
    log_step (event_state <$> dget (ce_event_id e) (es_events s)) log =
      Ok (Some (event_state e)) /\
    (** its message *)
    announces message (ce_event_id e) (ce_state_version e) /\
    dget (om_message_id message) outbox = Some record /\
    OutboxMessage_eqb (or_message record) message = true /\
    (forall i rec, dget i (es_outbox s) = Some rec -> dget i outbox = Some rec) /\
    (outbox_ok (es_outbox s) -> outbox_ok outbox).

Lemma event_message_ok event metadata type fields message :
  event_message event metadata type (JObj fields) = Ok message ->
  om_aggregate_id message = ce_event_id event /\
  om_payload message = normalize (JObj fields).
Proof.
  unfold event_message, OutboxMessage_check. intros H.
  do 5 apply res_bind_ok in H as (?&_&H). cbn [om_payload normalize] in *.
  injection H as <-. by split.
Qed.

Lemma CanonicalEvent_check_id e e' : CanonicalEvent_check e = Ok e' -> e' = e.
Proof.
  unfold CanonicalEvent_check. intros H. do 7 apply res_bind_ok in H as (?&_&H). congruence.
Qed.

Lemma EventClassification_check_id c c' : EventClassification_check c = Ok c' -> c' = c.
Proof.
  unfold EventClassification_check. intros H. do 3 apply res_bind_ok in H as (?&_&H). congruence.
Qed.

(** Outbox entries survive [enqueue_outbox]. *)
Lemma enqueue_keeps message s u s' :
  mem_enqueue_outbox message s = (Ok u, s') ->
  exists record d, s' = set_outbox d s /\
    dget (om_message_id message) d = Some record /\
    OutboxMessage_eqb (or_message record) message = true /\
    (forall i rec, dget i (es_outbox s) = Some rec -> dget i d = Some rec) /\
    (outbox_ok (es_outbox s) -> outbox_ok d).
Proof.
  intros (record&d&->&Hd&He&Hother&Hsame&Hok)%enqueue_outbox_ok. exists record, d.
  split_and!; [done|done|done| |done]. intros i rec Hi.
  destruct (decide (i = om_message_id message)) as [->|Hne]; [|by rewrite Hother].
  by rewrite Hd, (Hsame _ Hi).
Qed.

Lemma create_ok command s r s1 :
  create command s = (Ok r, s1) ->
  (s1 = s /\ wr_disposition r = DUPLICATE_IDENTITY /\ wr_outbox_message_id r = None /\
   exists i, dget (identity_key (cc_identity command)) (es_identities s) = Some i /\
             dget i (es_events s) = Some (wr_event r)) \/
  applied_change s (cc_metadata command) r s1.
Proof.
  unfold create, get_event_by_identity, mem_tx, mem_get_event_by_identity. intros H.
  apply M_bind_ok in H as (existing&s0&Hget&H). m_inv Hget.
  destruct (dget _ (es_identities s)) as [i|] eqn:Ei.
  - m_inv Hget. destruct (dget i (es_events s)) as [e|] eqn:Ee; [|done]. m_inv Hget.
    m_inv H. left. split_and!; try done. by exists i.
  - m_inv Hget. right. m_inv H.
    repeat match goal with
      | Hc : EventClassification_check _ = Ok _ |- _ =>
          apply EventClassification_check_id in Hc as ->
      | Hc : CanonicalEvent_check _ = Ok _ |- _ => apply CanonicalEvent_check_id in Hc as ->
      end.
    set (e := new_event command (new_classification command)) in *.
    match goal with Hi : insert_event _ _ = _ |- _ =>
      apply insert_event_ok in Hi as (Hnew&Hnk&->) end.
    match goal with Hl : append_state_log _ _ = _ |- _ =>
      apply append_state_log_ok in Hl as [_ ->] end.
    match goal with Hm : event_message _ _ _ _ = Ok ?m |- _ =>
      rename m into message; apply event_message_ok in Hm as [Hagg Hpay] end.
    match goal with Hq : enqueue_outbox _ _ = _ |- _ =>
      apply enqueue_keeps in Hq as (record&d&->&Hd&He&Hkeep&Hok) end.
    unfold applied_change. cbn [wr_event wr_disposition wr_outbox_message_id].
    eexists _, message, record, _, d. split; [reflexivity|]. rewrite Hnew.
    split_and!; try done.
    split; [exact Hagg|by rewrite Hpay].
Qed.

(** Both updates share their tail: given the guards, a run that returns applied
    the change. *)
Lemma apply_update_ok event updated log metadata event_type fields s r s1 :
  apply_update event updated log metadata event_type (JObj fields) s = (Ok r, s1) ->
  dget (ce_event_id event) (es_events s) = Some event ->
  same_event event updated ->
  dt_le (ce_changed_at event) (ce_changed_at updated) = true ->
  (classification_ok event -> classification_ok updated) ->
  (forall q, dget (ce_event_id event, im_source metadata) (es_source_sequences s) = Some q ->
             q < im_source_sequence metadata) ->
  sl_event_id log = ce_event_id event ->
  log_step (Some (event_state event)) log = Ok (Some (event_state updated)) ->
  field "stateVersion" (normalize (JObj fields)) = Some (JNum (ce_state_version updated)) ->
  applied_change s metadata r s1 /\ wr_event r = updated.
Proof.
  intros H Hev Hsame Hat Hcl Hseq Hlog Hstep Hfield.
  assert (ce_event_id updated = ce_event_id event) as Hid by apply Hsame.
  unfold apply_update in H. m_inv H.
  match goal with Hi : update_event _ _ _ = _ |- _ =>
    apply update_event_ok in Hi as (_&_&->) end.
  match goal with Hl : append_state_log _ _ = _ |- _ =>
    apply append_state_log_ok in Hl as [_ ->] end.
  match goal with Hm : event_message _ _ _ _ = Ok ?m |- _ =>
    rename m into message; apply event_message_ok in Hm as [Hagg Hpay] end.
  match goal with Hq : enqueue_outbox _ _ = _ |- _ =>
    apply enqueue_keeps in Hq as (record&d&->&Hd&He&Hkeep&Hok) end.
  split; [|done]. unfold applied_change. cbn [wr_event wr_disposition wr_outbox_message_id].
  eexists log, message, record, _, d. split; [reflexivity|]. rewrite Hid, Hev.
  split_and!; try done.
  split; [by rewrite <-Hid|by rewrite Hpay].
Qed.

(** Which guard of an update let it through, or turned it away. *)
Lemma stale_disposition_ok event metadata latest expected same d :
  stale_disposition event metadata latest expected same = Ok d ->
  match d with
  | Some x => x <> APPLIED /\ x <> DUPLICATE_IDENTITY
  | None =>
      ce_state_version event = expected /\ same = false /\
      dt_le (ce_changed_at event) (im_occurred_at metadata) = true /\
      (forall q, latest = Some q -> q < im_source_sequence metadata)
  end.
Proof.
  unfold stale_disposition. intros H.
  destruct (match latest with Some l => _ | None => false end) eqn:El;
    [injection H as <-; by split|].
  destruct (Z.ltb_spec expected (ce_state_version event)); [injection H as <-; by split|].
  destruct (Z.ltb_spec (ce_state_version event) expected); [done|].
  rewrite dt_lt_Z in H. rewrite dt_le_Z.
  destruct (Z.ltb_spec (instant (im_occurred_at metadata)) (instant (ce_changed_at event)));
    [injection H as <-; by split|].
  destruct same; injection H as <-; [by split|]. split_and!; [lia|done|lia|].
  intros q ->. lia.
Qed.

(** An update that is turned away answers with the stored event. *)
Definition turned_away (s : MemStore) (i : string) (r : EventWriteResult) (s1 : MemStore) : Prop :=
  s1 = s /\ wr_disposition r <> APPLIED /\ wr_outbox_message_id r = None /\
  dget i (es_events s) = Some (wr_event r).

Lemma require_transition_ok {A} `{EqDecision A} v axis (c : option A) t allowed policy x :
  require_transition v axis c t allowed policy = Ok x -> t ∈ allowed.
Proof.
  unfold require_transition. intros H. apply res_bind_ok in H as (?&H&_).
  apply raise_if_ok, negb_false_iff, bool_decide_eq_true in H. done.
Qed.

Lemma transition_ok command s r s1 :
  transition command s = (Ok r, s1) ->
  (forall e, dget (tc_event_id command) (es_events s) = Some e ->
             ce_event_id e = tc_event_id command) ->
  turned_away s (tc_event_id command) r s1 \/ applied_change s (tc_metadata command) r s1.
Proof.
  unfold transition, get_event, mem_tx, mem_get_event. intros H Hkey.
  apply M_bind_ok in H as (x&s0&Hget&H). m_inv Hget.
  destruct (dget _ _) as [event|] eqn:Ee; [|done]. pose proof (Hkey _ eq_refl) as Hid.
  unfold latest_source_sequence, mem_latest_source_sequence in H.
  apply M_bind_ok in H as (latest&s0&Hlat&H). m_inv Hlat.
  apply M_bind_ok in H as (stale&s0&Hst&H). m_inv Hst. apply stale_disposition_ok in Hst.
  destruct stale as [d|]; m_inv H; [left; by split_and!; try apply Hst|right].
  destruct Hst as (Hv&Hsame&Hat&Hseq). apply bool_decide_eq_false in Hsame.
  match goal with Ht : transition_lifecycle _ _ _ = _ |- _ => apply require_transition_ok in Ht end.
  match goal with Hc : CanonicalEvent_check _ = Ok _ |- _ => apply CanonicalEvent_check_id in Hc as -> end.
  unfold lifecycle_payload in H. apply apply_update_ok in H; try done; [by destruct H|by rewrite Hid|].
  unfold log_step, event_state, state_log. cbn. rewrite bool_decide_eq_true_2; done.
Qed.

Lemma promoted_ok event command c :
  promoted event command = Ok c ->
  rc_target command ∈ reconciliation_targets (ce_reconciliation_status event) ->
  classification_ok event -> classification_ok (reconciled event c command).
Proof.
  unfold promoted, classification_ok. intros H Ht Hok. cbn [ce_reconciliation_status reconciled].
  rewrite decide_False in Hok by (intros E; rewrite E in Ht; by apply not_elem_of_nil in Ht).
  destruct (decide (rc_target command = MATCHED)).
  - apply EventClassification_check_id in H as ->. cbn.
    split_and!; [done..|]. lia.
  - by injection H as <-.
Qed.

Lemma reconcile_ok command s r s1 :
  reconcile command s = (Ok r, s1) ->
  (forall e, dget (rc_event_id command) (es_events s) = Some e ->
             ce_event_id e = rc_event_id command) ->
  turned_away s (rc_event_id command) r s1 \/
  applied_change s (rc_metadata command) r s1 /\
  exists event c, dget (rc_event_id command) (es_events s) = Some event /\
                  wr_event r = reconciled event c command.
Proof.
  unfold reconcile, get_event, mem_tx, mem_get_event. intros H Hkey.
  apply M_bind_ok in H as (x&s0&Hget&H). m_inv Hget.
  destruct (dget _ _) as [event|] eqn:Ee; [|done]. pose proof (Hkey _ eq_refl) as Hid.
  unfold latest_source_sequence, mem_latest_source_sequence in H.
  apply M_bind_ok in H as (latest&s0&Hlat&H). m_inv Hlat.
  apply M_bind_ok in H as (stale&s0&Hst&H). m_inv Hst. apply stale_disposition_ok in Hst.
  destruct stale as [d|]; m_inv H; [left; by split_and!; try apply Hst|right].
  destruct Hst as (Hv&Hsame&Hat&Hseq). apply bool_decide_eq_false in Hsame.
  match goal with Ht : transition_reconciliation _ _ _ = _ |- _ => apply require_transition_ok in Ht end.
  match goal with Hc : CanonicalEvent_check _ = Ok _ |- _ => apply CanonicalEvent_check_id in Hc as -> end.
  unfold reconciled_payload in H. apply apply_update_ok in H; try done;
    [destruct H as [H E]; split; [done|by eexists _, _]|by rewrite Hid| |].
  - by eapply promoted_ok.
  - unfold log_step, event_state, state_log. cbn. rewrite bool_decide_eq_true_2; done.
Qed.

(** What one command that is not a replay does. *)
Lemma dispatch_ok command s r s1 :
  dispatch command s = (Ok r, s1) ->
  (forall i e, dget i (es_events s) = Some e -> ce_event_id e = i) ->
  (exists i, s1 = s /\ wr_disposition r <> APPLIED /\ wr_outbox_message_id r = None /\
             dget i (es_events s) = Some (wr_event r)) \/
  applied_change s (command_metadata command) r s1.
Proof.
  intros H Hkey. destruct command as [c|c|c]; simpl in *.
  - apply create_ok in H as [(->&Hd&Ho&i&_&Hi)|H]; [left|by right].
    exists i. split_and!; try done. by rewrite Hd.
  - apply transition_ok in H as [H|H]; [left|by right|by apply Hkey]. by eexists.
  - apply reconcile_ok in H as [H|[H _]]; [left|by right|by apply Hkey]. by eexists.
Qed.

Definition command_id (command : EventCommand) : string :=
  im_message_id (command_metadata command).

(** A command that is answered is a replay, or its decision and its receipt are
    committed together. *)
Lemma write_ok command s r s' :
  write command s = (Ok r, s') ->
  (exists receipt, dget (command_id command) (es_receipts s) = Some receipt /\
     rcp_command_fingerprint receipt = command_fingerprint command /\
     r = rcp_result receipt /\ s' = s) \/
  (dget (command_id command) (es_receipts s) = None /\
   exists s1, dispatch command s = (Ok r, s1) /\
     mem_save_receipt (receipt_of command r) s1 = (Ok tt, s')).
Proof.
  unfold write, transaction, mem_store, mem_transaction. intros H.
  destruct (write_body command s) as [[r0|e] s0] eqn:Hb; [|done].
  destruct (es_fail_next_commit s0); [done|]. injection H as <- <-.
  unfold write_body, get_receipt, mem_tx, mem_get_receipt in Hb.
  apply M_bind_ok in Hb as (x&sx&Hg&Hb). m_inv Hg. unfold command_id.
  destruct (dget _ _) as [receipt|].
  - m_inv Hb. left. match goal with Hr : raise_if _ _ = Ok _ |- _ =>
      apply raise_if_ok, negb_false_iff, bool_decide_eq_true in Hr end.
    by exists receipt.
  - right. split; [done|]. apply M_bind_ok in Hb as (r1&s1&Hd&Hb).
    apply M_bind_ok in Hb as ([]&s2&Hs&Hb). m_inv Hb. by exists s1.
Qed.
