(* ===== verification/EventHistory.v ===== *)
(** What holds of the event store whatever the writer, the publisher and their
    callers did before: a step relation over the store's operations, the
    invariant of the reachable stores, and the guarantees of [EventWriter.write]
    that follow: replay, conflict, atomicity, source order and terminal states. *)
From S2P Require Import Prelude Sha256 PyTime PyDecimal Json Domain EventModels Outbox EventStore EventWriter.
#[local] Open Scope Z_scope.

(** ** Histories *)

(** One operation on the store.  A failed operation is a step as well. *)
Inductive step : MemStore -> MemStore -> Prop :=
  | step_write command r s s' :
      command_valid command -> write command s = (r, s') -> step s s'
  | step_claim now limit lease r s s' :
      is_aware now = true -> claim_pending now limit lease s = (r, s') -> step s s'
  | step_mark i published_at r s s' :
      is_aware published_at = true -> mark_published i published_at s = (r, s') -> step s s'
  | step_release i retry_at error r s s' :
      is_aware retry_at = true -> release_after_failure i retry_at error s = (r, s') -> step s s'
  | step_fail_next_commit r s s' : fail_next_commit s = (r, s') -> step s s'.

Definition steps : MemStore -> MemStore -> Prop := rtc step.
Definition reachable (s : MemStore) : Prop := steps empty_store s.

(** ** The invariant *)

Record store_inv (s : MemStore) : Prop := {
  inv_events : forall i e, dget i (es_events s) = Some e ->
    ce_event_id e = i /\ i = event_id_of_key (ce_identity_key e) /\
    ce_identity_key e = identity_key (event_identity e) /\
    dget (ce_identity_key e) (es_identities s) = Some i;
  inv_classification : forall i e, dget i (es_events s) = Some e -> classification_ok e;
  inv_logs : forall i,
    replay_logs (state_logs (Some i) s) = Ok (event_state <$> dget i (es_events s));
  inv_outbox : outbox_ok (es_outbox s);
  inv_announced : forall log, log ∈ es_state_logs s ->
    exists i record, dget i (es_outbox s) = Some record /\
      announces (or_message record) (sl_event_id log) (sl_state_version log);
  inv_receipts : forall m receipt, dget m (es_receipts s) = Some receipt ->
    exists e q, dget (rcp_event_id receipt) (es_events s) = Some e /\
      ce_state_version (wr_event (rcp_result receipt)) <= ce_state_version e /\
      dget (rcp_event_id receipt, rcp_source receipt) (es_source_sequences s) = Some q /\
      rcp_source_sequence receipt <= q
}.

Lemma store_inv_empty : store_inv empty_store.
Proof.
  split; try done; [|by intros ? ?%not_elem_of_nil]. split; [apply NoDup_nil_2|done].
Qed.

(** Stores that differ in outbox bookkeeping only. *)
Definition redelivered (s s' : MemStore) : Prop :=
  exists d, s' = set_outbox d s /\ (outbox_ok (es_outbox s) -> outbox_ok d) /\
    forall i r, dget i (es_outbox s) = Some r ->
      exists r', dget i d = Some r' /\ or_message r' = or_message r.

Lemma redelivered_refl s : redelivered s s.
Proof. exists (es_outbox s). split_and!; [by destruct s|done|by eauto]. Qed.

Lemma redelivered_inv s s' : redelivered s s' -> store_inv s -> store_inv s'.
Proof.
  intros (d&->&Hok&Hkeep) [H1 H2 H3 H4 H5 H6]. split; try done; [by apply Hok|].
  intros log (i&r&Hr&Ha)%H5. destruct (Hkeep _ _ Hr) as (r'&Hr'&E).
  exists i, r'. by rewrite E.
Qed.

Lemma claim_redelivers now limit lease s r s' :
  outbox_ok (es_outbox s) -> is_aware now = true ->
  claim_pending now limit lease s = (r, s') -> redelivered s s'.
Proof.
  intros Hok Hn H. destruct (Z.ltb_spec limit 1) as [Hl|Hl].
  - unfold claim_pending, mem_delivery, mem_claim_pending, throw_if, lift, mbind, M_bind in H.
    rewrite (proj2 (Z.ltb_lt _ _) Hl) in H. injection H as <- <-. apply redelivered_refl.
  - destruct (mem_claim_ok s now limit lease Hok Hn Hl) as (cl&d&E&Hd&_&_&_&_&Hget).
    unfold claim_pending, mem_delivery in H. rewrite E in H. injection H as <- <-.
    exists d. split_and!; [done|done|]. intros i x Hx. rewrite Hget, Hx.
    case_decide; by eexists.
Qed.

Lemma update_redelivers i f s r s' :
  (forall x, or_message (f x) = or_message x) -> (forall x, record_ok x -> record_ok (f x)) ->
  outbox_ok (es_outbox s) -> update_unpublished i f s = (r, s') -> redelivered s s'.
Proof.
  intros Hm Hf Hok. unfold update_unpublished, gets, mbind, M_bind.
  destruct (dget i (es_outbox s)) as [x|] eqn:E;
    [|intros [= <- <-]; apply redelivered_refl].
  destruct (decide _); [intros [= <- <-]; apply redelivered_refl|].
  destruct (proj2 Hok _ _ E) as [Hid Hx]. unfold lift. rewrite (Hf _ Hx). intros [= <- <-].
  eexists. split_and!; [done| |].
  - intros _. rewrite <-Hid, <-(f_equal om_message_id (Hm x) : or_id (f x) = or_id x).
    by apply outbox_ok_dset, Hf.
  - intros j y Hy. rewrite dget_dset. case_decide as Ej; [|by eexists].
    subst j. rewrite E in Hy. injection Hy as <-. by eexists.
Qed.

(** ** One applied decision *)

Lemma log_step_version old log e :
  log_step (event_state <$> old) log = Ok (Some (event_state e)) ->
  sl_state_version log = ce_state_version e /\
  ce_state_version e = match old with Some o => ce_state_version o + 1 | None => 1 end.
Proof.
  unfold log_step, event_state. intros H. destruct old as [o|]; simpl in H.
  - destruct (sl_from_status log) as [[]|], (sl_to_status log), (sl_axis log); try done;
      apply res_bind_ok in H as (?&Hc&H);
      apply raise_if_ok, negb_false_iff, bool_decide_eq_true in Hc as (_&_&Hv);
      injection H as _ _ <-; by rewrite Hv.
  - destruct (sl_from_status log) as [[]|], (sl_to_status log) as [[]|], (sl_axis log); try done.
    apply res_bind_ok in H as (?&Hc&H). apply raise_if_ok, negb_false_iff, Z.eqb_eq in Hc.
    injection H as _ _ <-. by rewrite Hc.
Qed.

Lemma state_logs_snoc i logs log :
  List.filter (fun item => bool_decide (sl_event_id item = i)) (logs ++ [log]) =
  List.filter (fun item => bool_decide (sl_event_id item = i)) logs ++
  (if decide (sl_event_id log = i) then [log] else []).
Proof.
  rewrite List.filter_app. simpl. case_decide as E; [by rewrite bool_decide_eq_true_2|].
  by rewrite bool_decide_eq_false_2.
Qed.

Lemma OutboxMessage_eqb_announces a b i v :
  OutboxMessage_eqb a b = true -> announces b i v -> announces a i v.
Proof.
  unfold OutboxMessage_eqb, announces. rewrite !andb_true_iff, bool_decide_eq_true.
  intros [[(_&_&_&->&_&_&_&->) _] _]. done.
Qed.

Lemma applied_inv s metadata r s1 :
  applied_change s metadata r s1 -> store_inv s -> store_inv s1.
Proof.
  intros (log&message&record&ids&outbox&->&_&_&Hev&Hlog&Hstep&Hann&Hrec&Heq&Hkeep&Hok)
    [H1 H2 H3 H4 H5 H6].
  set (e := wr_event r) in *. pose proof (log_step_version _ _ _ Hstep) as [Hlv Hv].
  split; cbn [es_events es_identities es_receipts es_source_sequences es_state_logs es_outbox].
  - intros i x. rewrite dget_dset. case_decide as Ei; [intros [= <-]; subst i|].
    + destruct (dget (ce_event_id e) (es_events s)) as [old|] eqn:Eold.
      * destruct Hev as (->&Hsame&_). destruct (H1 _ _ Eold) as (_&Hi&Hk&Hd).
        destruct Hsame as (E1&E2&E3&E4&E5&_). unfold event_identity in *.
        rewrite E2, E3, E4, E5. split_and!; [done|congruence|done|congruence].
      * destruct Hev as (_&->&Hi&Hk&_). split_and!; try done. apply dget_dset_eq.
    + intros Hx. destruct (H1 _ _ Hx) as (?&?&?&Hd). split_and!; [done..|].
      destruct (dget (ce_event_id e) (es_events s)) as [old|] eqn:Eold;
        [by destruct Hev as (->&_)|].
      destruct Hev as (Hnone&->&_). rewrite dget_dset_ne; [done|].
      intros E. by rewrite E, Hd in Hnone.
  - intros i x. rewrite dget_dset. case_decide as Ei; [intros [= <-]; subst i|apply H2].
    destruct (dget (ce_event_id e) (es_events s)) as [old|] eqn:Eold.
    + by apply Hev, (H2 (ce_event_id e)).
    + by apply Hev.
  - intros i. unfold state_logs. cbn [es_state_logs]. rewrite state_logs_snoc.
    specialize (H3 i). unfold state_logs in H3. unfold replay_logs in *.
    rewrite foldM_app, H3, dget_dset, Hlog. cbn [mbind res_bind].
    case_decide as Ei; [subst i|done]. cbn [foldM]. by rewrite Hstep.
  - by apply Hok.
  - intros l [Hl| ->%list_elem_of_singleton]%elem_of_app.
    + destruct (H5 _ Hl) as (i&x&Hx&Ha). exists i, x. by rewrite (Hkeep _ _ Hx).
    + exists (om_message_id message), record. split; [done|].
      apply (OutboxMessage_eqb_announces _ message); [done|]. by rewrite Hlog, Hlv.
  - intros m receipt Hm. destruct (H6 _ _ Hm) as (x&q&Hx&Hver&Hq&Hle).
    rewrite dget_dset. case_decide as Ei; [|by exists x, q].
    exists e, q. split_and!; [done| |done|done].
    rewrite Ei, Hx in Hv. lia.
Qed.

(** ** Reachable stores keep the invariant *)

Lemma applied_stored s metadata r s1 :
  applied_change s metadata r s1 ->
  dget (ce_event_id (wr_event r)) (es_events s1) = Some (wr_event r) /\
  es_receipts s1 = es_receipts s /\ es_source_sequences s1 = es_source_sequences s.
Proof. intros (log&m&rec&ids&ob&->&_). simpl. by rewrite dget_dset_eq. Qed.

Lemma dispatch_inv command s r s1 :
  store_inv s -> dispatch command s = (Ok r, s1) ->
  store_inv s1 /\ dget (ce_event_id (wr_event r)) (es_events s1) = Some (wr_event r) /\
  es_receipts s1 = es_receipts s /\ es_source_sequences s1 = es_source_sequences s.
Proof.
  intros Hs H. apply dispatch_ok in H as [(i&->&_&_&Hi)|H].
  - split; [done|]. by destruct (inv_events _ Hs _ _ Hi) as [-> _].
  - split; [by eapply applied_inv|by eapply applied_stored].
  - intros i e He. by apply (inv_events _ Hs).
Qed.

Lemma receipt_inv command s1 r s' :
  store_inv s1 -> dget (ce_event_id (wr_event r)) (es_events s1) = Some (wr_event r) ->
  dget (command_id command) (es_receipts s1) = None ->
  mem_save_receipt (receipt_of command r) s1 = (Ok tt, s') -> store_inv s'.
Proof.
  intros [H1 H2 H3 H4 H5 H6] Hr Hfresh Hsave.
  apply save_receipt_fresh in Hsave as (seqs&->&Hother&Hkey); [|done].
  split; try done. cbn [es_receipts es_events es_source_sequences set_receipts
    set_source_sequences]. intros m receipt. rewrite dget_dset. case_decide.
  - intros [= <-]. eexists _, _. split_and!; [exact Hr|done|exact Hkey|].
    case_match; [|done]. lia.
  - intros Hm. destruct (H6 _ _ Hm) as (e&q&He&Hv&Hq&Hle).
    destruct (decide ((rcp_event_id receipt, rcp_source receipt) =
                      (rcp_event_id (receipt_of command r), rcp_source (receipt_of command r))))
      as [E|E].
    + rewrite E in *. eexists e, _. split_and!; [done|done|exact Hkey|].
      rewrite Hq. lia.
    + exists e, q. by rewrite (Hother _ E).
Qed.

(** A write that fails leaves the store as it was, but for a consumed failpoint. *)
Lemma write_raises command s e s' :
  write command s = (Raise e, s') ->
  s' = set_fail (es_fail_next_commit s') s.
Proof.
  unfold write, transaction, mem_store, mem_transaction. intros H.
  destruct (write_body command s) as [[r0|e0] s0]; [|by injection H as _ <-].
  destruct (es_fail_next_commit s0); [|done]. by injection H as _ <-.
Qed.

Lemma set_fail_inv b s : store_inv s -> store_inv (set_fail b s).
Proof. by intros []. Qed.

Lemma write_inv command s r s' : store_inv s -> write command s = (r, s') -> store_inv s'.
Proof.
  intros Hs H. destruct r as [r|e].
  - apply write_ok in H as [(?&_&_&_&->)|(Hfresh&s1&Hd&Hsave)]; [done|].
    apply dispatch_inv in Hd as (Hs1&Hr&Hrec&_); [|done].
    eapply receipt_inv; [exact Hs1|exact Hr| |exact Hsave]. by rewrite Hrec.
  - apply write_raises in H as ->. by apply set_fail_inv.
Qed.

Lemma step_inv s s' : store_inv s -> step s s' -> store_inv s'.
Proof.
  intros Hs Hstep. pose proof (inv_outbox _ Hs) as Hok.
  destruct Hstep as [c r s s' _ H|now limit lease r s s' Hn H|i at_ r s s' Ha H
                    |i at_ err r s s' Ha H|r s s' H].
  - by eapply write_inv.
  - eapply redelivered_inv; [by eapply claim_redelivers|done].
  - eapply redelivered_inv; [|done].
    eapply (update_redelivers i (published_record at_)); try done.
    intros x. by apply published_record_ok.
  - eapply redelivered_inv; [|done].
    eapply (update_redelivers i (released_record at_ err)); try done.
    intros x. by apply released_record_ok.
  - injection H as _ <-. by apply set_fail_inv.
Qed.

Lemma reachable_inv s : reachable s -> store_inv s.
Proof.
  intros H. unfold reachable, steps in H. pose proof store_inv_empty as Hs. revert Hs.
  induction H as [s|s1 s2 s3 Hstep _ IH]; [done|]. intros Hs. apply IH. by eapply step_inv.
Qed.

(** ** The failpoint is not seen by the body *)

Definition ignores_fail {A} (m : M MemStore A) : Prop :=
  forall b s, m (set_fail b s) = ((m s).1, set_fail b (m s).2).

Lemma ignores_fail_bind {A B} (m : M MemStore A) (f : A -> M MemStore B) :
  ignores_fail m -> (forall a, ignores_fail (f a)) -> ignores_fail (m ≫= f).
Proof.
  intros Hm Hf b s. unfold mbind, M_bind. rewrite Hm.
  destruct (m s) as [[a|e] s1]; simpl; [apply Hf|done].
Qed.
Lemma ignores_fail_mret {A} (a : A) : ignores_fail (mret a).
Proof. by intros b s. Qed.
Lemma ignores_fail_throw {A} e : ignores_fail (throw e : M MemStore A).
Proof. by intros b s. Qed.
Lemma ignores_fail_lift {A} (r : res A) : ignores_fail (lift r).
Proof. by intros b s. Qed.
Lemma ignores_fail_throw_if c e : ignores_fail (throw_if c e).
Proof. by intros b s. Qed.
Lemma ignores_fail_gets {A} (f : MemStore -> A) :
  (forall b s, f (set_fail b s) = f s) -> ignores_fail (gets f).
Proof. intros H b s. unfold gets. by rewrite H. Qed.
Lemma ignores_fail_modify f :
  (forall b s, f (set_fail b s) = set_fail b (f s)) -> ignores_fail (modify f).
Proof. intros H b s. unfold modify. by rewrite H. Qed.

Create HintDb frame.
#[local] Hint Resolve ignores_fail_mret ignores_fail_throw ignores_fail_lift
  ignores_fail_throw_if : frame.

(** Decomposes a method into the primitives that ignore the flag. *)
Ltac frame :=
  repeat first [ match goal with |- forall _, _ => intro end
               | solve [auto 1 with frame nocore] | apply ignores_fail_bind
               | apply ignores_fail_gets; by intros | apply ignores_fail_modify; by intros
               | case_match ].

Lemma ignores_fail_insert event : ignores_fail (mem_insert_event event).
Proof.
  intros b s. unfold mem_insert_event, get_st, throw_if, lift, modify, mbind, M_bind, raise_if.
  cbn [es_events es_identities set_fail]. by repeat case_match.
Qed.
Lemma ignores_fail_log log : ignores_fail (mem_append_state_log log).
Proof.
  intros b s. unfold mem_append_state_log, get_st, throw_if, lift, modify, mbind, M_bind, raise_if.
  cbn [es_state_logs set_fail]. by case_match.
Qed.
Lemma ignores_fail_update event v : ignores_fail (mem_update_event event v).
Proof. unfold mem_update_event. frame. Qed.
Lemma ignores_fail_save receipt : ignores_fail (mem_save_receipt receipt).
Proof. unfold mem_save_receipt. frame. Qed.
Lemma ignores_fail_enqueue message : ignores_fail (mem_enqueue_outbox message).
Proof. unfold mem_enqueue_outbox. frame. Qed.
Lemma ignores_fail_by_identity key : ignores_fail (mem_get_event_by_identity key).
Proof. unfold mem_get_event_by_identity. frame. Qed.

#[local] Hint Resolve ignores_fail_insert ignores_fail_log ignores_fail_update ignores_fail_save
  ignores_fail_enqueue ignores_fail_by_identity : frame.

Lemma ignores_fail_apply_update event updated log metadata event_type payload :
  ignores_fail (apply_update event updated log metadata event_type payload).
Proof. unfold apply_update. frame. Qed.
#[local] Hint Resolve ignores_fail_apply_update : frame.

Lemma ignores_fail_dispatch command : ignores_fail (dispatch command).
Proof.
  destruct command as [c|c|c]; simpl; [unfold create|unfold transition|unfold reconcile]; frame.
Qed.
#[local] Hint Resolve ignores_fail_dispatch : frame.

Lemma ignores_fail_write_body command : ignores_fail (write_body command).
Proof. unfold write_body. frame. Qed.

(** ** How stores evolve *)

Definition lifecycle_move (a b : LifecycleStatus) : Prop := b ∈ lifecycle_targets a.
Definition reconciliation_move (a b : ReconciliationStatus) : Prop :=
  b ∈ reconciliation_targets a.

(** An event and a later state of it. *)
Definition evolves (e e' : CanonicalEvent) : Prop :=
  same_event e e' /\
  rtc lifecycle_move (ce_lifecycle_status e) (ce_lifecycle_status e') /\
  rtc reconciliation_move (ce_reconciliation_status e) (ce_reconciliation_status e') /\
  ce_state_version e <= ce_state_version e' /\
  dt_le (ce_changed_at e) (ce_changed_at e') = true.

Lemma same_event_refl e : same_event e e.
Proof. by repeat split. Qed.
Lemma same_event_trans a b c : same_event a b -> same_event b c -> same_event a c.
Proof. unfold same_event. intuition congruence. Qed.

Lemma evolves_refl e : evolves e e.
Proof.
  split_and!; [apply same_event_refl|apply rtc_refl|apply rtc_refl|lia|apply pyle_refl].
Qed.
Lemma evolves_trans a b c : evolves a b -> evolves b c -> evolves a c.
Proof.
  intros (A1&A2&A3&A4&A5) (B1&B2&B3&B4&B5). split_and!.
  - by eapply same_event_trans.
  - by etrans.
  - by etrans.
  - lia.
  - by eapply pyle_trans.
Qed.

Lemma log_step_evolves old log e :
  log_step (Some (event_state old)) log = Ok (Some (event_state e)) ->
  rtc lifecycle_move (ce_lifecycle_status old) (ce_lifecycle_status e) /\
  rtc reconciliation_move (ce_reconciliation_status old) (ce_reconciliation_status e).
Proof.
  unfold log_step, event_state. intros H.
  destruct (sl_from_status log) as [[]|], (sl_to_status log), (sl_axis log); try done;
    apply res_bind_ok in H as (?&Hc&H);
    apply raise_if_ok, negb_false_iff, bool_decide_eq_true in Hc as (_&Ht&_);
    injection H as <- <- _; split; try apply rtc_refl; by apply rtc_once.
Qed.

(** What survives every operation: events evolve, receipts stay. *)
Definition grows (s s' : MemStore) : Prop :=
  (forall i e, dget i (es_events s) = Some e ->
     exists e', dget i (es_events s') = Some e' /\ evolves e e') /\
  (forall m receipt, dget m (es_receipts s) = Some receipt ->
     dget m (es_receipts s') = Some receipt).

Lemma grows_same s s' :
  es_events s' = es_events s -> es_receipts s' = es_receipts s -> grows s s'.
Proof.
  intros E1 E2. split; rewrite ?E1, ?E2; [|done]. intros i e He. exists e.
  split; [done|apply evolves_refl].
Qed.

Lemma grows_trans s1 s2 s3 : grows s1 s2 -> grows s2 s3 -> grows s1 s3.
Proof.
  intros [A1 A2] [B1 B2]. split; [|by eauto]. intros i e (e'&He'&E)%A1.
  apply B1 in He' as (e''&He''&E'). exists e''. split; [done|by eapply evolves_trans].
Qed.

Lemma applied_grows s metadata r s1 : applied_change s metadata r s1 -> grows s s1.
Proof.
  intros (log&message&record&ids&outbox&->&_&_&Hev&Hlog&Hstep&_).
  set (e := wr_event r) in *. split; [|done]. intros i x Hx. cbn [es_events].
  rewrite dget_dset. case_decide as Ei; [|exists x; split; [done|apply evolves_refl]].
  subst i. rewrite Hx in Hev, Hstep. destruct Hev as (_&Hsame&Hat&_&_).
  exists e. split; [done|]. pose proof (log_step_version (Some x) _ _ Hstep) as [_ Hv].
  pose proof (log_step_evolves _ _ _ Hstep) as [? ?]. split_and!; try done. lia.
Qed.

Lemma dispatch_grows command s r s1 :
  store_inv s -> dispatch command s = (Ok r, s1) -> grows s s1.
Proof.
  intros Hs [(i&->&_)|H]%dispatch_ok; [by apply grows_same|by eapply applied_grows|].
  intros i e He. by apply (inv_events _ Hs).
Qed.

Lemma write_grows command s r s' : store_inv s -> write command s = (r, s') -> grows s s'.
Proof.
  intros Hs H. destruct r as [r|e].
  - apply write_ok in H as [(?&_&_&_&->)|(Hfresh&s1&Hd&Hsave)]; [by apply grows_same|].
    pose proof (dispatch_grows _ _ _ _ Hs Hd) as Hg.
    apply dispatch_inv in Hd as (_&_&Hrec&_); [|done].
    apply save_receipt_fresh in Hsave as (seqs&->&_); [|by rewrite Hrec].
    eapply grows_trans; [exact Hg|]. split; simpl.
    + intros i e He. exists e. split; [done|apply evolves_refl].
    + intros m receipt Hm. rewrite dget_dset_ne; [done|]. intros <-. rewrite Hrec in Hm.
      unfold command_id in Hfresh. congruence.
  - apply write_raises in H as ->. by apply grows_same.
Qed.

Lemma step_grows s s' : store_inv s -> step s s' -> grows s s'.
Proof.
  intros Hs Hstep. pose proof (inv_outbox _ Hs) as Hok.
  assert (redelivered s s' -> grows s s') as Hr by (intros (d&->&_); by apply grows_same).
  destruct Hstep as [c r s s' _ H|now limit lease r s s' Hn H|i at_ r s s' Ha H
                    |i at_ err r s s' Ha H|r s s' H].
  - by eapply write_grows.
  - apply Hr. by eapply claim_redelivers.
  - apply Hr. eapply (update_redelivers i (published_record at_)); try done.
    intros x. by apply published_record_ok.
  - apply Hr. eapply (update_redelivers i (released_record at_ err)); try done.
    intros x. by apply released_record_ok.
  - injection H as _ <-. by apply grows_same.
Qed.

Lemma steps_grow s s' : store_inv s -> steps s s' -> grows s s' /\ store_inv s'.
Proof.
  intros Hs H. unfold steps in H. revert Hs.
  induction H as [s|s1 s2 s3 Hstep _ IH]; intros Hs; [split; [by apply grows_same|done]|].
  destruct (IH (step_inv _ _ Hs Hstep)) as [Hg Hi]. split; [|done].
  eapply grows_trans; [by apply step_grows|done].
Qed.

(** ** Guarantees *)

Lemma replay_versions logs st v0 v lc rc :
  foldM log_step st logs = Ok (Some (lc, rc, v)) ->
  v0 = match st with Some (_, _, n) => n | None => 0 end ->
  sl_state_version <$> logs = seqZ (v0 + 1) (v - v0) /\ v0 <= v.
Proof.
  revert st v0; induction logs as [|log logs IH]; intros st v0 H ->.
  - injection H as ->. rewrite Z.sub_diag. split; [done|lia].
  - simpl in H. apply res_bind_ok in H as (st'&Hs&H).
    assert (exists a b n, st' = Some (a, b, n) /\ sl_state_version log = n /\
              n = match st with Some (_, _, k) => k | None => 0 end + 1) as (a&b&n&->&Hn&Hk).
    { unfold log_step in Hs. destruct st as [[[lc0 rc0] n0]|];
        destruct (sl_from_status log) as [[]|], (sl_to_status log) as [[]|], (sl_axis log);
        try done; apply res_bind_ok in Hs as (?&Hc&Hs); injection Hs as <-;
        apply raise_if_ok, negb_false_iff in Hc;
        (apply bool_decide_eq_true in Hc as (_&_&Hc) || apply Z.eqb_eq in Hc);
        eexists _, _, _; split_and!; done || lia. }
    destruct (IH _ n H eq_refl) as [IHl Hle]. split; [|lia]. rewrite fmap_cons, IHl, Hn.
    replace (v - match st with Some (_, _, k) => k | None => 0 end) with (Z.succ (v - n)) by lia.
    rewrite (seqZ_cons _ (Z.succ (v - n))) by lia. rewrite <-Hk. f_equal. f_equal; lia.
Qed.

(** C1: In every reachable store the state log of an event is complete: replaying
    it gives the event's lifecycle, reconciliation status and version, its versions
    are 1, 2, ... up to the event's, an absent event has no log, and each entry has
    been announced by a message in the outbox. *)
Theorem event_log_replays s i :
  reachable s ->
  let logs := state_logs (Some i) s in
  replay_logs logs = Ok (event_state <$> dget i (es_events s)) /\
  sl_state_version <$> logs = seqZ 1 (default 0 (ce_state_version <$> dget i (es_events s))) /\
  Forall (fun log => exists j record, dget j (es_outbox s) = Some record /\
                     announces (or_message record) i (sl_state_version log)) logs.
Proof.
  intros Hs%reachable_inv logs. pose proof (inv_logs _ Hs i) as Hrep. split_and!; [done| |].
  - fold logs in Hrep. unfold replay_logs in Hrep.
    destruct (dget i (es_events s)) as [e|]; simpl in Hrep |- *.
    + apply (replay_versions _ _ 0) in Hrep as [-> _]; [|done]. by rewrite Z.sub_0_r.
    + destruct logs as [|log logs' _] using rev_ind; [done|]. rewrite foldM_app in Hrep.
      apply res_bind_ok in Hrep as (st&_&Hrep). simpl in Hrep.
      apply res_bind_ok in Hrep as (st'&Hstep&[= ->]).
      unfold log_step in Hstep.
      repeat case_match; try done; by apply res_bind_ok in Hstep as (?&_&?).
  - apply Forall_forall. intros log [Hin Hi]%elem_of_filterb.
    apply bool_decide_eq_true in Hi as <-. by apply (inv_announced _ Hs).
Qed.

(** C5: In every reachable store an identity has at most one event, filed under the
    id derived from that identity and found through the identity index. *)
Theorem one_event_per_identity s i e :
  reachable s -> dget i (es_events s) = Some e ->
  ce_event_id e = i /\ i = identity_event_id (event_identity e) /\
  get_event_by_identity (identity_key (event_identity e)) s = (Ok (Some e), s) /\
  (forall j f, dget j (es_events s) = Some f -> event_identity f = event_identity e ->
               j = i /\ f = e).
Proof.
  intros Hs%reachable_inv He. destruct (inv_events _ Hs _ _ He) as (H1&H2&H3&H4).
  split_and!; [done|by rewrite H2, H3| |].
  - unfold get_event_by_identity, mem_tx, mem_get_event_by_identity, gets, mbind, M_bind.
    by rewrite <-H3, H4, He.
  - intros j f Hf E. destruct (inv_events _ Hs _ _ Hf) as (_&G2&G3&_).
    assert (j = i) as -> by congruence. split; [done|congruence].
Qed.

(** In every reachable store an event's classification is confirmed by the
    after-close source at version 2 when the event is matched, and is still the
    first version otherwise. *)
Theorem matched_is_confirmed s i e :
  reachable s -> dget i (es_events s) = Some e ->
  let c := ce_classification e in
  match ce_reconciliation_status e with
  | MATCHED => ec_certainty c = CONFIRMED /\ ec_source c = INFOSTOCK /\
               ec_classification_version c = 2
  | REC_PENDING | UNMATCHED => ec_classification_version c = 1
  end.
Proof.
  intros Hs%reachable_inv He. pose proof (inv_classification _ Hs _ _ He) as H.
  unfold classification_ok in H. cbv zeta. by destruct (ce_reconciliation_status e).
Qed.

(** Along every history an event keeps its identity and creation facts, moves
    only along the allowed transitions of each axis, and its version and change
    time never go back; so closed and discarded events, and matches, are final. *)
Theorem events_only_move_forward s s' i e :
  reachable s -> steps s s' -> dget i (es_events s) = Some e ->
  exists e', dget i (es_events s') = Some e' /\ evolves e e' /\
    (lifecycle_targets (ce_lifecycle_status e) = [] ->
       ce_lifecycle_status e' = ce_lifecycle_status e) /\
    (ce_reconciliation_status e = MATCHED -> ce_reconciliation_status e' = MATCHED).
Proof.
  intros Hs%reachable_inv Hsteps He.
  destruct (steps_grow _ _ Hs Hsteps) as [[Hg _] _]. apply Hg in He as (e'&He'&Hev).
  exists e'. split_and!; [done|done| |]; destruct Hev as (_&Hl&Hr&_).
  - intros Ht. inversion Hl as [|a b c Hab _]; [done|]. subst.
    unfold lifecycle_move in Hab. rewrite Ht in Hab. by apply not_elem_of_nil in Hab.
  - intros Em. rewrite Em in Hr. inversion Hr as [|a b c Hab _]; [done|]. subst.
    by apply not_elem_of_nil in Hab.
Qed.

Lemma write_body_flag command s :
  es_fail_next_commit (write_body command s).2 = es_fail_next_commit s.
Proof.
  assert (s = set_fail (es_fail_next_commit s) s) as E by by destruct s.
  rewrite E at 1. by rewrite ignores_fail_write_body.
Qed.

(** C3: A write that raises leaves the six collections of the store as they were; and a
    write whose commit is made to fail, submitted again, does exactly what the first
    attempt would have done. *)
Theorem write_atomic command s :
  (forall e s', write command s = (Raise e, s') ->
     s' = s \/ e = SimulatedCommitFailure /\ es_fail_next_commit s = true /\
               s' = set_fail false s) /\
  (forall r s1, write command (set_fail false s) = (Ok r, s1) ->
     exists s', write command (set_fail true s) = (Raise SimulatedCommitFailure, s') /\
                write command s' = (Ok r, s1)).
Proof.
  split.
  - intros e s'. pose proof (write_body_flag command s) as Hflag.
    unfold write, transaction, mem_store, mem_transaction.
    destruct (write_body command s) as [[r0|e0] s0]; simpl in Hflag; rewrite Hflag.
    + destruct (es_fail_next_commit s); [|done]. intros [= <- <-]. right. by split_and!.
    + intros [= <- <-]. left. by destruct s.
  - intros r s1 H1. exists (set_fail false s). split; [|done]. revert H1.
    unfold write, transaction, mem_store, mem_transaction.
    rewrite !ignores_fail_write_body. by destruct (write_body command s).1.
Qed.

Lemma write_receipt command s r s1 :
  store_inv s -> write command s = (Ok r, s1) ->
  exists receipt, dget (command_id command) (es_receipts s1) = Some receipt /\
    rcp_command_fingerprint receipt = command_fingerprint command /\ rcp_result receipt = r.
Proof.
  intros Hs [(receipt&Hr&Hf&->&->)|(Hfresh&s0&Hd&Hsave)]%write_ok; [by exists receipt|].
  apply dispatch_inv in Hd as (_&_&Hrec&_); [|done].
  apply save_receipt_fresh in Hsave as (seqs&->&_); [|by rewrite Hrec].
  exists (receipt_of command r). split; [apply dget_dset_eq|done].
Qed.

(** A receipt in the store decides the answer. *)
Lemma write_with_receipt command s receipt :
  dget (command_id command) (es_receipts s) = Some receipt ->
  write command s =
    if decide (rcp_command_fingerprint receipt = command_fingerprint command)
    then if es_fail_next_commit s then (Raise SimulatedCommitFailure, set_fail false s)
         else (Ok (rcp_result receipt), s)
    else (Raise IdempotencyConflictError, s).
Proof.
  intros H. unfold write, transaction, mem_store, mem_transaction, write_body, get_receipt,
    mem_tx, mem_get_receipt, gets, mbind, M_bind, lift. unfold command_id in H. rewrite H.
  case_decide as E.
  - rewrite bool_decide_eq_true_2 by done. simpl. destruct s as [???????]; simpl. by case_match.
  - rewrite bool_decide_eq_false_2 by done. simpl. by destruct s.
Qed.

(** C2: An answered command is answered the same way ever after: whatever happens
    in between, submitting it again returns the same result and changes nothing. *)
Theorem write_replay command s r s1 s2 :
  reachable s -> write command s = (Ok r, s1) -> steps s1 s2 ->
  es_fail_next_commit s2 = false ->
  write command s2 = (Ok r, s2).
Proof.
  intros Hs%reachable_inv Hw Hsteps Hfail. pose proof (write_inv _ _ _ _ Hs Hw) as Hs1.
  apply write_receipt in Hw as (receipt&Hr&Hf&<-); [|done].
  destruct (steps_grow _ _ Hs1 Hsteps) as [[_ Hg] _].
  rewrite (write_with_receipt _ _ receipt) by by apply Hg. by rewrite decide_True, Hfail.
Qed.

(** A message id belongs to the first command answered under it: a command with
    the same id and another fingerprint is refused, and nothing changes. *)
Theorem write_conflict command command' s r s1 s2 :
  reachable s -> write command s = (Ok r, s1) -> steps s1 s2 ->
  command_id command' = command_id command ->
  command_fingerprint command' <> command_fingerprint command ->
  write command' s2 = (Raise IdempotencyConflictError, s2).
Proof.
  intros Hs%reachable_inv Hw Hsteps Hid Hne. pose proof (write_inv _ _ _ _ Hs Hw) as Hs1.
  apply write_receipt in Hw as (receipt&Hr&Hf&_); [|done].
  destruct (steps_grow _ _ Hs1 Hsteps) as [[_ Hg] _].
  rewrite (write_with_receipt _ _ receipt) by (rewrite Hid; by apply Hg).
  by rewrite decide_False by congruence.
Qed.

(** What a new command changes: its receipt is recorded, and either it is applied,
    the event is stored with its version up by one, one log entry is appended and one
    message is in the outbox; or it is not, and the answer carries the stored event
    while events, identities, logs and outbox stay as they were. *)
Theorem write_effect command s r s' :
  reachable s -> dget (command_id command) (es_receipts s) = None ->
  write command s = (Ok r, s') ->
  let e := wr_event r in
  let i := ce_event_id e in
  es_receipts s' = dset (command_id command) (receipt_of command r) (es_receipts s) /\
  if wr_applied r
  then es_events s' = dset i e (es_events s) /\
       ce_state_version e = default 0 (ce_state_version <$> dget i (es_events s)) + 1 /\
       (exists log, es_state_logs s' = es_state_logs s ++ [log] /\ sl_event_id log = i /\
                    sl_state_version log = ce_state_version e) /\
       (exists m record, wr_outbox_message_id r = Some m /\
          dget m (es_outbox s') = Some record /\
          announces (or_message record) i (ce_state_version e))
  else dget i (es_events s) = Some e /\ wr_outbox_message_id r = None /\
       es_events s' = es_events s /\ es_identities s' = es_identities s /\
       es_state_logs s' = es_state_logs s /\ es_outbox s' = es_outbox s.
Proof.
  intros Hs%reachable_inv Hfresh [(receipt&Hr&_)|(_&s1&Hd&Hsave)]%write_ok; [congruence|].
  pose proof (dispatch_inv _ _ _ _ Hs Hd) as (_&_&Hrec&_).
  apply save_receipt_fresh in Hsave as (seqs&->&_); [|by rewrite Hrec]. cbn.
  split; [by rewrite Hrec|].
  apply dispatch_ok in Hd as [(i&->&Hna&Hno&Hi)|Hd].
  - unfold wr_applied. rewrite bool_decide_eq_false_2 by done.
    split_and!; try done. by destruct (inv_events _ Hs _ _ Hi) as [-> _].
  - destruct Hd as (log&message&record&ids&outbox&->&Hap&Hm&_&Hlog&Hstep&Hann&Hrec'&Heq&_).
    apply log_step_version in Hstep as [Hlv Hv].
    unfold wr_applied. rewrite bool_decide_eq_true_2 by done. cbn. split_and!; [done| | |].
    + rewrite Hv. by destruct (dget (ce_event_id (wr_event r)) (es_events s)).
    + by exists log.
    + exists (om_message_id message), record. split_and!; [done|done|].
      by eapply OutboxMessage_eqb_announces.
  - intros j x Hx. by apply (inv_events _ Hs).
Qed.

(** C4: Commands of one source are applied to an event in source order: after an
    answered command, a new command of the same source that concerns the same event
    with the same or an earlier sequence number is never applied. *)
Theorem write_in_source_order command command' s s1 s2 s3 r r' :
  reachable s -> dget (command_id command) (es_receipts s) = None ->
  write command s = (Ok r, s1) -> steps s1 s2 ->
  dget (command_id command') (es_receipts s2) = None ->
  write command' s2 = (Ok r', s3) ->
  ce_event_id (wr_event r') = ce_event_id (wr_event r) ->
  im_source (command_metadata command') = im_source (command_metadata command) ->
  im_source_sequence (command_metadata command') <=
    im_source_sequence (command_metadata command) ->
  wr_disposition r' <> APPLIED.
Proof.
  intros Hs%reachable_inv Hfresh Hw Hsteps Hfresh' Hw' Hid Hsrc Hle Happ.
  pose proof (write_inv _ _ _ _ Hs Hw) as Hs1.
  assert (dget (command_id command) (es_receipts s1) = Some (receipt_of command r)) as Hr.
  { apply write_ok in Hw as [(?&?&_)|(_&s0&Hd&Hsave)]; [congruence|].
    apply dispatch_inv in Hd as (_&_&Hrec&_); [|done].
    apply save_receipt_fresh in Hsave as (seqs&->&_); [apply dget_dset_eq|by rewrite Hrec]. }
  destruct (steps_grow _ _ Hs1 Hsteps) as [[_ Hg] Hs2]. apply Hg in Hr.
  destruct (inv_receipts _ Hs2 _ _ Hr) as (e&q&He&_&Hq&Hlq). simpl in He, Hq, Hlq.
  apply write_ok in Hw' as [(?&?&_)|(_&s0&Hd&_)]; [congruence|].
  apply dispatch_ok in Hd as [(i&_&Hna&_)|Hd]; [done| |].
  - destruct Hd as (log&message&record&ids&outbox&_&_&_&Hev&_).
    rewrite Hid, He in Hev. destruct Hev as (_&_&_&_&Hseq).
    rewrite Hsrc in Hseq. specialize (Hseq _ Hq). lia.
  - intros i x Hx. by apply (inv_events _ Hs2).
Qed.

(** ** The guarantees on a concrete history *)

Definition demo_time (minute : Z) : datetime :=
  mk_datetime ((ymd2ord 2026 8 14 - 1) * us_per_day + hours 9 + minutes minute) (Some (hours 9)).
Definition demo_metadata (id : string) (sequence minute : Z) : EventInputMetadata :=
  mk_EventInputMetadata id "realtime" sequence (demo_time minute) (demo_time minute) "corr-1"
    None [mk_LineageRef "snapshot" "snap-1" (Some "1") None].
Definition demo_identity : CanonicalEventIdentity :=
  mk_CanonicalEventIdentity (ymd2ord 2026 8 14) "theme-1" "intraday".
Definition demo_create : EventCommand :=
  CmdCreate (mk_CreateEventCommand (demo_metadata "cmd-1" 1 5) demo_identity "반도체"
    (mk_EventVersions "calc-1" "rank-1" "members-1" None) INFOSTOCK_THEME CERT_PROVISIONAL
    LIVE_ENGINE).
Definition demo_activate (id : string) (sequence : Z) : EventCommand :=
  CmdTransition (mk_TransitionLifecycleCommand (demo_metadata id sequence 9)
    (identity_event_id demo_identity) ACTIVE 1 "sustained" "policy-1").
Definition demo_match : EventCommand :=
  CmdReconcile (mk_ReconcileEventCommand (demo_metadata "cmd-3" 3 400)
    (identity_event_id demo_identity) MATCHED 2 "confirmed" "policy-1").

Definition demo_store1 : MemStore := (write demo_create empty_store).2.
Definition demo_store2 : MemStore := (write (demo_activate "cmd-2" 2) demo_store1).2.
Definition demo_store3 : MemStore := (write demo_match demo_store2).2.

Lemma demo_write_step command s :
  command_valid command -> steps s (write command s).2.
Proof.
  intros H. apply rtc_once. eapply (step_write command (write command s).1); [done|].
  by destruct (write command s).
Qed.

Ltac demo_valid := by repeat split; vm_compute.

Lemma demo_reachable1 : reachable demo_store1.
Proof. apply demo_write_step. demo_valid. Qed.
Lemma demo_steps2 : steps demo_store1 demo_store2.
Proof. apply demo_write_step. demo_valid. Qed.
Lemma demo_steps3 : steps demo_store2 demo_store3.
Proof. apply demo_write_step. demo_valid. Qed.
Lemma demo_reachable3 : reachable demo_store3.
Proof.
  unfold reachable, steps. etrans; [apply demo_reachable1|].
  etrans; [apply demo_steps2|apply demo_steps3].
Qed.

Definition demo_event (s : MemStore) : CanonicalEvent :=
  match dvalues (es_events s) with
  | e :: _ => e
  | [] => new_event
            (mk_CreateEventCommand (demo_metadata "" 0 0) demo_identity ""
               (mk_EventVersions "" "" "" None) INFOSTOCK_THEME CERT_PROVISIONAL LIVE_ENGINE)
            (mk_EventClassification 0 "" "" INFOSTOCK_THEME CERT_PROVISIONAL LIVE_ENGINE
               (demo_time 0))
  end.
Definition demo_id : string := ce_event_id (demo_event demo_store3).

(** Created, activated and matched: version 3 of the event, active and matched. *)
Example demo_state : event_state (demo_event demo_store3) = (ACTIVE, MATCHED, 3).
Proof. vm_compute. reflexivity. Qed.

Lemma event_log_replays_witness :
  replay_logs (state_logs (Some demo_id) demo_store3) = Ok (Some (ACTIVE, MATCHED, 3)) /\
  sl_state_version <$> state_logs (Some demo_id) demo_store3 = [1; 2; 3].
Proof.
  destruct (event_log_replays demo_store3 demo_id demo_reachable3) as (H1&H2&_).
  split; [rewrite H1|rewrite H2]; vm_compute; reflexivity.
Defined.

Lemma one_event_per_identity_witness :
  get_event_by_identity (identity_key demo_identity) demo_store3 =
    (Ok (Some (demo_event demo_store3)), demo_store3).
Proof.
  destruct (one_event_per_identity demo_store3 demo_id (demo_event demo_store3)
              demo_reachable3) as (_&_&H&_); [vm_compute; reflexivity|].
  assert (event_identity (demo_event demo_store3) = demo_identity) as E
    by (vm_compute; reflexivity).
  rewrite E in H. exact H.
Defined.

Lemma matched_is_confirmed_witness :
  ec_classification_version (ce_classification (demo_event demo_store3)) = 2.
Proof.
  pose proof (matched_is_confirmed demo_store3 demo_id (demo_event demo_store3)
                demo_reachable3) as H.
  destruct (ce_reconciliation_status (demo_event demo_store3)) eqn:E;
    [vm_compute in E; discriminate E| |vm_compute in E; discriminate E].
  apply H. vm_compute. reflexivity.
Defined.

Lemma events_only_move_forward_witness :
  exists e', dget demo_id (es_events demo_store3) = Some e' /\
             evolves (demo_event demo_store2) e'.
Proof.
  destruct (events_only_move_forward demo_store2 demo_store3 demo_id (demo_event demo_store2))
    as (e'&He'&Hev&_).
  - unfold reachable, steps. etrans; [apply demo_reachable1|apply demo_steps2].
  - apply demo_steps3.
  - vm_compute. reflexivity.
  - exists e'. split; assumption.
Defined.

Lemma write_atomic_witness :
  exists s', write demo_create (set_fail true empty_store) = (Raise SimulatedCommitFailure, s') /\
             (write demo_create s').2 = demo_store1.
Proof.
  destruct (write_atomic demo_create empty_store) as [_ H].
  destruct (H _ demo_store1 ltac:(vm_compute; reflexivity)) as (s'&H1&H2).
  exists s'. split; [exact H1|by rewrite H2].
Defined.

Lemma write_replay_witness :
  exists r, write demo_create demo_store3 = (Ok r, demo_store3) /\ wr_disposition r = APPLIED.
Proof.
  eexists. split.
  - eapply (write_replay demo_create empty_store _ demo_store1 demo_store3).
    + apply rtc_refl.
    + vm_compute. reflexivity.
    + unfold steps. etrans; [apply demo_steps2|apply demo_steps3].
    + vm_compute. reflexivity.
  - reflexivity.
Defined.

Lemma write_conflict_witness :
  write (demo_activate "cmd-1" 2) demo_store3 = (Raise IdempotencyConflictError, demo_store3).
Proof.
  eapply (write_conflict demo_create (demo_activate "cmd-1" 2) empty_store _ demo_store1).
  - apply rtc_refl.
  - vm_compute. reflexivity.
  - unfold steps. etrans; [apply demo_steps2|apply demo_steps3].
  - reflexivity.
  - vm_compute. discriminate.
Defined.

Lemma write_effect_witness :
  exists r, write (demo_activate "cmd-2" 2) demo_store1 = (Ok r, demo_store2) /\
            es_events demo_store2 =
              dset (ce_event_id (wr_event r)) (wr_event r) (es_events demo_store1).
Proof.
  eexists. split; [vm_compute; reflexivity|].
  destruct (write_effect (demo_activate "cmd-2" 2) demo_store1 _ demo_store2 demo_reachable1
              ltac:(vm_compute; reflexivity) ltac:(vm_compute; reflexivity)) as (_&H&_).
  exact H.
Defined.

(** A second activation with the sequence number of the creation is stale. *)
Lemma write_in_source_order_witness :
  exists r, write (demo_activate "cmd-9" 1) demo_store1 =
              (Ok r, (write (demo_activate "cmd-9" 1) demo_store1).2) /\
            wr_disposition r <> APPLIED.
Proof.
  eexists. split; [vm_compute; reflexivity|].
  eapply (write_in_source_order demo_create (demo_activate "cmd-9" 1) empty_store demo_store1
            demo_store1).
  - apply rtc_refl.
  - reflexivity.
  - vm_compute. reflexivity.
  - apply rtc_refl.
  - vm_compute. reflexivity.
  - vm_compute. reflexivity.
  - vm_compute. reflexivity.
  - reflexivity.
  - vm_compute. discriminate.
Defined.

(** A transport that refuses reconciliations and records what it delivered. *)
#[local] Instance demo_transport : OutboxTransport (list string) := {
  transport_publish m delivered :=
    if decide (om_event_type m = "canonical_event.reconciled")
    then (Raise TransportError, delivered)
    else (Ok tt, om_message_id m :: delivered);
  error_text _ := "refused"
}.

Lemma publish_pending_settles_witness :
  let p := mk_OutboxPublisher (minutes 1) (minutes 5) in
  exists s' t', publish_pending p (demo_time 500) 10 (demo_store3, []) =
                  (Ok (mk_PublishBatchResult 3 2 1), (s', t')) /\ store_ok s'.
Proof.
  cbv zeta.
  destruct (publish_pending_settles (mk_OutboxPublisher (minutes 1) (minutes 5))
              (demo_time 500) 10 demo_store3 []) as (claimed&s'&H).
  - exact (inv_outbox _ (reachable_inv _ demo_reachable3)).
  - reflexivity.
  - vm_compute. discriminate.
  - cbv zeta in H. destruct (attempts _ _) as [outcomes t']. destruct H as (Hp&_&_&_&_&_&Hok).
    exists s', t'. split; [|exact Hok]. rewrite Hp. f_equal.
    assert ((publish_pending (mk_OutboxPublisher (minutes 1) (minutes 5)) (demo_time 500) 10
               (demo_store3, [] : list string)).1 = Ok (mk_PublishBatchResult 3 2 1)) as E
      by (vm_compute; reflexivity).
    rewrite Hp in E. exact E.
Defined.
