(* ===== verification/InfostockModels.v ===== *)
(** [packages/infostock/models.py]: the theme pages the after-close
    reconciliation reads.  [Literal] types are the strings they stand for. *)
From S2P Require Import Prelude PyTime.

(* @ packages/infostock/models.py 32-47 RawSnapshot *)
Record RawSnapshot := mk_RawSnapshot {
  rs_page_type : string;
  rs_source_entity_id : option string;
  rs_source_url : string;
  rs_collected_at : datetime;
  rs_as_of : datetime;
  rs_raw_hash : string;
  rs_source_content_hash : option string;
  rs_raw_payload_text : string;
  rs_raw_format : string;
  rs_is_complete : bool;
  rs_quality_status : string;
  rs_parser_version : option string
}.

(* @ packages/infostock/models.py 58-65 StockReference *)
Record StockReference := mk_StockReference {
  sr_source_order : Z;
  sr_name : string;
  sr_stock_code : option string;
  sr_source_url : option string;
  sr_display_value : string;
  sr_quality_status : string
}.

(* @ packages/infostock/models.py 68-85 ThemeHistory *)
Record ThemeHistory := mk_ThemeHistory {
  th_source_order : Z;
  th_source_history_id : option string;
  th_source_history_key : string;
  th_event_date : option date;
  th_source_date : option string;
  th_source_created_at : option datetime;
  th_source_updated_at : option datetime;
  th_raw_text : string;
  th_direction : string;
  th_leaders : list StockReference;
  th_member_stocks : list StockReference;
  th_author : option string;
  th_chart_flag : option string;
  th_source_fingerprint : string;
  th_quality_status : string;
  th_content_hash : string
}.

(* @ packages/infostock/models.py 88-96 ThemeMembership *)
Record ThemeMembership := mk_ThemeMembership {
  tm_source_order : Z;
  tm_stock_code : option string;
  tm_stock_name : string;
  tm_rationale : string;
  tm_source_index : option string;
  tm_content_hash : string;
  tm_quality_status : string
}.

(* @ packages/infostock/models.py 127-135 ThemeDetail *)
Record ThemeDetail := mk_ThemeDetail {
  td_source_theme_id : string;
  td_theme_name : string;
  td_description : string;
  td_theme_revision_hash : string;
  td_history : list ThemeHistory;
  td_memberships : list ThemeMembership;
  td_snapshot : RawSnapshot
}.
