(* ===== verification/PyText.v ===== *)
(** A Python [str] as the list of its code points, for the code that works with positions in a
    text: decoding, white space, [find], [rfind], [strip] and slices. *)
From S2P Require Import Prelude.
#[local] Open Scope nat_scope.

Definition text : Type := list N.

(** ** UTF-8 *)

(** The code points of well-formed UTF-8; other bytes stand for themselves. *)
Fixpoint decode (bytes : list N) : text :=
  match bytes with
  | [] => []
  | b :: rest =>
      if (b <? 192)%N then b :: decode rest
      else if (b <? 224)%N then
        match rest with
        | c1 :: rest => ((b - 192) * 64 + (c1 - 128))%N :: decode rest
        | _ => [b]
        end
      else if (b <? 240)%N then
        match rest with
        | c1 :: c2 :: rest => (((b - 224) * 64 + (c1 - 128)) * 64 + (c2 - 128))%N :: decode rest
        | _ => b :: rest
        end
      else
        match rest with
        | c1 :: c2 :: c3 :: rest =>
            ((((b - 240) * 64 + (c1 - 128)) * 64 + (c2 - 128)) * 64 + (c3 - 128))%N :: decode rest
        | _ => b :: rest
        end
  end.

Definition encode_char (c : N) : list N :=
  if (c <? 128)%N then [c]
  else if (c <? 2048)%N then [192 + c / 64; 128 + c mod 64]%N
  else if (c <? 65536)%N then [224 + c / 4096; 128 + c / 64 mod 64; 128 + c mod 64]%N
  else [240 + c / 262144; 128 + c / 4096 mod 64; 128 + c / 64 mod 64; 128 + c mod 64]%N.

Definition u (s : string) : text := decode (bytes_of s).
Definition to_str (t : text) : string :=
  String.string_of_list_ascii (ascii_of_N <$> (t ≫= encode_char)).

Example u_korean : u "증시 A" = [51613; 49884; 32; 65]%N.
Proof. reflexivity. Qed.
Example to_str_u : to_str (u "증시(코스피) A…") = "증시(코스피) A…".
Proof. vm_compute. reflexivity. Qed.

(** What is written is read back. *)
Lemma utf8_two (q r : N) : ((192 + q - 192) * 64 + (128 + r - 128) = 64 * q + r)%N.
Proof. lia. Qed.
Lemma utf8_three (q m r : N) : (((224 + q - 224) * 64 + (128 + m - 128)) * 64 + (128 + r - 128) = 64 * (64 * q + m) + r)%N.
Proof. lia. Qed.
Lemma utf8_four (q m n r : N) :
  ((((240 + q - 240) * 64 + (128 + m - 128)) * 64 + (128 + n - 128)) * 64 + (128 + r - 128) =
   64 * (64 * (64 * q + m) + n) + r)%N.
Proof. lia. Qed.

Lemma decode_encode_char c rest :
  (c < 1114112)%N -> decode (encode_char c ++ rest) = c :: decode rest.
Proof.
  intros Hc. unfold encode_char.
  destruct (N.ltb_spec c 128); [cbn; destruct (N.ltb_spec c 192); [done|lia]|].
  pose proof (N.div_mod c 64 ltac:(lia)) as E0. pose proof (N.div_mod (c / 64) 64 ltac:(lia)) as E1.
  pose proof (N.div_mod (c / 4096) 64 ltac:(lia)) as E2.
  rewrite (N.Div0.div_div c 64 64) in E1. rewrite (N.Div0.div_div c 4096 64) in E2. change (64 * 64)%N with 4096%N in E1.
  change (4096 * 64)%N with 262144%N in E2.
  assert (c / 64 < 32 \/ 2048 <= c)%N as H1
    by (destruct (N.ltb_spec c 2048); [left; apply N.Div0.div_lt_upper_bound; lia|by right]).
  assert (c / 4096 < 16 \/ 65536 <= c)%N as H2
    by (destruct (N.ltb_spec c 65536); [left; apply N.Div0.div_lt_upper_bound; lia|by right]).
  revert E0 E1 E2 H1 H2. generalize (c / 262144)%N (c / 4096)%N (c / 64)%N (c mod 64)%N.
  generalize ((c / 64) mod 64)%N ((c / 4096) mod 64)%N. intros m n q4 q3 q2 r E0 E1 E2 H1 H2.
  destruct (N.ltb_spec c 2048); [|destruct (N.ltb_spec c 65536)]; cbn [app decode].
  - destruct (N.ltb_spec (192 + q2) 192); [lia|]. destruct (N.ltb_spec (192 + q2) 224); [|lia].
    by rewrite utf8_two, <-E0.
  - destruct (N.ltb_spec (224 + q3) 192); [lia|]. destruct (N.ltb_spec (224 + q3) 224); [lia|].
    destruct (N.ltb_spec (224 + q3) 240); [|lia]. by rewrite utf8_three, <-E1, <-E0.
  - destruct (N.ltb_spec (240 + q4) 192); [lia|]. destruct (N.ltb_spec (240 + q4) 224); [lia|].
    destruct (N.ltb_spec (240 + q4) 240); [lia|]. by rewrite utf8_four, <-E2, <-E1, <-E0.
Qed.

Lemma decode_encode t : Forall (fun c => (c < 1114112)%N) t -> decode (t ≫= encode_char) = t.
Proof.
  induction 1 as [|c t Hc _ IH]; [done|]. cbn [mbind list_bind]. by rewrite decode_encode_char, IH.
Qed.

(** ** White space: [str.isspace], which is also [\s] *)

Definition is_space (c : N) : bool :=
  ((9 <=? c) && (c <=? 13) || (28 <=? c) && (c <=? 32) || (c =? 133) || (c =? 160) || (c =? 5760) ||
   (8192 <=? c) && (c <=? 8202) || (c =? 8232) || (c =? 8233) || (c =? 8239) || (c =? 8287) || (c =? 12288))%N.

(** [t.strip(chars)] for the characters of [p]. *)
Fixpoint lstrip_of (p : N -> bool) (t : text) : text :=
  match t with
  | c :: rest => if p c then lstrip_of p rest else t
  | [] => []
  end.
Definition strip_of (p : N -> bool) (t : text) : text := rev (lstrip_of p (rev (lstrip_of p t))).
Definition strip_text (t : text) : text := strip_of is_space t.

(** ** Substrings *)

Fixpoint starts_with (needle t : text) : bool :=
  match needle, t with
  | [], _ => true
  | c :: needle, d :: t => (c =? d)%N && starts_with needle t
  | _ :: _, [] => false
  end.

(** [needle in t] and [t.find(needle, start)], from position [i] on, where [rest] begins. *)
Fixpoint find_from (needle : text) (i : nat) (rest : text) : option nat :=
  if starts_with needle rest then Some i
  else match rest with [] => None | _ :: rest => find_from needle (S i) rest end.

Definition contains (needle t : text) : bool := if find_from needle 0 t then true else false.

(** [t.find(needle, start, end)] *)
Definition find (needle t : text) (start stop : nat) : option nat :=
  if (start <=? stop) && (start <=? length t) then find_from needle start (drop start (take stop t)) else None.

(** [t.rfind(needle)] *)
Fixpoint rfind_from (needle : text) (i : nat) (rest : text) : option nat :=
  match rest with
  | [] => if starts_with needle [] then Some i else None
  | _ :: rest' =>
      match rfind_from needle (S i) rest' with
      | Some j => Some j
      | None => if starts_with needle rest then Some i else None
      end
  end.
Definition rfind (needle t : text) : option nat := rfind_from needle 0 t.

(** The needle stands at position [i] of [t] and ends by [stop]. *)
Definition occurs (needle t : text) (stop i : nat) : Prop :=
  i + length needle <= stop /\ i + length needle <= length t /\ take (length needle) (drop i t) = needle.

Lemma starts_with_spec needle t : starts_with needle t = true <-> take (length needle) t = needle /\ length needle <= length t.
Proof.
  revert t; induction needle as [|c needle IH]; intros t; [cbn; split; [split; [done|lia]|done]|].
  destruct t as [|d t]; cbn; [split; [done|intros [[=] _]]|].
  rewrite andb_true_iff, N.eqb_eq, IH. split; [intros (->&->&?); split; [done|lia]|].
  intros ([= -> ->]&?). split_and!; [done|done|lia].
Qed.

Lemma find_from_spec needle i rest :
  match find_from needle i rest with
  | Some j => i <= j /\ starts_with needle (drop (j - i) rest) = true /\ j - i <= length rest /\
              forall k, i <= k < j -> starts_with needle (drop (k - i) rest) = false
  | None => forall k, k <= length rest -> starts_with needle (drop k rest) = false
  end.
Proof.
  revert i; induction rest as [|c rest IH]; intros i; cbn [find_from].
  - destruct (starts_with needle []) eqn:E; [|intros k Hk; cbn in Hk; by replace k with 0 by lia].
    rewrite Nat.sub_diag. split_and!; [lia|done|cbn; lia|lia].
  - destruct (starts_with needle (c :: rest)) eqn:E; [rewrite Nat.sub_diag; split_and!; [lia|done|cbn; lia|lia]|].
    specialize (IH (S i)). destruct (find_from needle (S i) rest) as [j|].
    + destruct IH as (H1&H2&H3&H4). replace (j - i) with (S (j - S i)) by lia. split_and!; [lia|done|cbn; lia|].
      intros k Hk. destruct (decide (k = i)) as [->|Hne]; [by rewrite Nat.sub_diag|].
      replace (k - i) with (S (k - S i)) by lia. apply H4. lia.
    + intros [|k] Hk; [done|]. apply IH. cbn in Hk. lia.
Qed.

(** A needle at a position of [text[:stop]]. *)
Lemma starts_with_occurs needle t stop i :
  starts_with needle (drop i (take stop t)) = true /\ i <= length (take stop t) <-> occurs needle t stop i /\ i <= stop.
Proof.
  unfold occurs. rewrite starts_with_spec, length_drop, length_take, skipn_firstn_comm, take_take. split.
  - intros ((H1&H2)&H3). rewrite Nat.min_l in H1 by lia. split_and!; [lia|lia|done|lia].
  - intros ((H1&H2&H3)&H4). rewrite Nat.min_l by lia. split_and!; [done|lia|lia].
Qed.

Lemma contains_spec needle t : contains needle t = true <-> exists i, occurs needle t (length t) i.
Proof.
  unfold contains. pose proof (find_from_spec needle 0 t) as H. destruct (find_from needle 0 t) as [j|].
  - destruct H as (_&H2&H3&_). rewrite Nat.sub_0_r in *. split; [|done]. intros _. exists j.
    apply (starts_with_occurs needle t (length t) j). by rewrite firstn_all.
  - split; [done|]. intros (i&Hi). exfalso. pose proof Hi as (Hlen&_).
    assert (starts_with needle (drop i (take (length t) t)) = true /\ i <= length (take (length t) t)) as [Hs Hle]
      by (apply starts_with_occurs; split; [done|lia]).
    rewrite firstn_all in Hs, Hle. by rewrite H in Hs.
Qed.

(** All positions, each searched from the one after the last: a needle that is not empty. *)
Fixpoint find_loop (fuel : nat) (needle t : text) (cursor stop : nat) : list nat :=
  match fuel, find needle t cursor stop with
  | S fuel, Some i => i :: find_loop fuel needle t (S i) stop
  | _, _ => []
  end.

Lemma find_spec needle t start stop :
  match find needle t start stop with
  | Some i => start <= i /\ occurs needle t stop i /\ forall k, start <= k < i -> ~ occurs needle t stop k
  | None => forall k, start <= k -> k <= stop -> ~ occurs needle t stop k
  end.
Proof.
  unfold find. destruct ((start <=? stop) && (start <=? length t)) eqn:Hb.
  2: { intros k Hk Hks (H1&H2&_). apply andb_false_iff in Hb as [?%Nat.leb_gt|?%Nat.leb_gt]; lia. }
  apply andb_true_iff in Hb as [Hs%Nat.leb_le Hl%Nat.leb_le].
  assert (length (take stop t) = min stop (length t)) as Elen by apply length_take.
  pose proof (find_from_spec needle start (drop start (take stop t))) as H.
  assert (forall k, start <= k -> occurs needle t stop k -> k <= stop -> starts_with needle (drop (k - start) (drop start (take stop t))) = true) as Hocc.
  { intros k Hk Ho Hks. rewrite drop_drop. replace (start + (k - start)) with k by lia.
    by apply (proj2 (starts_with_occurs needle t stop k)). }
  rewrite length_drop, Elen in H. destruct (find_from _ _ _) as [i|].
  - destruct H as (H1&H2&H3&H4). split; [done|]. split.
    + apply starts_with_occurs. rewrite drop_drop in H2. replace (start + (i - start)) with i in H2 by lia.
      split; [done|]. rewrite Elen. lia.
    + intros k Hk Ho. pose proof Ho as (?&?&_).
      specialize (H4 k Hk). rewrite (Hocc k) in H4; [done|lia|done|lia].
  - intros k Hk Hks Ho. pose proof Ho as (?&?&_). pose proof (Hocc k Hk Ho Hks) as Hc. rewrite H in Hc; [done|lia].
Qed.

Lemma find_loop_spec fuel needle t cursor stop i :
  stop < cursor + fuel -> i ∈ find_loop fuel needle t cursor stop <-> cursor <= i /\ i <= stop /\ occurs needle t stop i.
Proof.
  revert cursor; induction fuel as [|fuel IH]; intros cursor Hf; cbn [find_loop].
  - split; [by intros ?%elem_of_nil|]. lia.
  - pose proof (find_spec needle t cursor stop) as H. destruct (find needle t cursor stop) as [j|].
    + destruct H as (H1&H2&H3). pose proof H2 as (H4&_). rewrite elem_of_cons, IH by lia. split.
      * intros [->|(H5&H6&H7)]; split_and!; [done|lia|done|lia|done|done].
      * intros (H5&H6&H7). destruct (decide (i = j)); [by left|right]. split_and!; [|done|done].
        destruct (decide (j < i)); [lia|]. exfalso. apply (H3 i); [lia|done].
    + split; [by intros ?%elem_of_nil|]. intros (H5&H6&H7). by apply (H i) in H7.
Qed.
