(* ===== verification/PyUnicode.v ===== *)
(** Texts beyond ASCII: the digits of Unicode 15, which [str.isdigit] accepts and [Decimal] reads,
    the letters that [str.upper] takes into ASCII, and lone surrogates, which a [str] may hold
    but UTF-8 cannot.  A surrogate is, like every other code point, the three bytes of its
    number. *)
From stdpp Require Import pretty.
From S2P Require Import Prelude PyTime Json DecimalText JsonRead PyText.
#[local] Open Scope N_scope.

(** ** Digits *)

(** The zeros of the decimal digits; the digits up to nine follow each. *)
Definition digit_zeros : list N :=
  [48; 1632; 1776; 1984; 2406; 2534; 2662; 2790; 2918; 3046; 3174; 3302; 3430; 3558; 3664; 3792;
   3872; 4160; 4240; 6112; 6160; 6470; 6608; 6784; 6800; 6992; 7088; 7232; 7248; 42528; 43216;
   43264; 43472; 43504; 43600; 44016; 65296; 66720; 68912; 69734; 69872; 69942; 70096; 70384;
   70736; 70864; 71248; 71360; 71472; 71904; 72016; 72784; 73040; 73120; 73552; 92768; 92864;
   93008; 120782; 120792; 120802; 120812; 120822; 123200; 123632; 124144; 125264; 130032].

(** Superscripts, circled digits and others that are digits but not decimal. *)
Definition other_digits : list (N * N) :=
  [(178, 179); (185, 185); (4969, 4977); (6618, 6618); (8304, 8304); (8308, 8313); (8320, 8329);
   (9312, 9320); (9332, 9340); (9352, 9360); (9450, 9450); (9461, 9469); (9471, 9471);
   (10102, 10110); (10112, 10120); (10122, 10130); (68160, 68163); (69216, 69224); (69714, 69722);
   (127232, 127242)].

(** [unicodedata.decimal(c)] *)
Definition decimal_value (c : N) : option N :=
  (fun zero => c - zero) <$> List.find (fun zero => (zero <=? c) && (c <? zero + 10)) digit_zeros.

Definition is_digit_char (c : N) : bool :=
  match decimal_value c with
  | Some _ => true
  | None => existsb (fun range => (range.1 <=? c) && (c <=? range.2)) other_digits
  end.

(** [text.isdigit()] *)
Definition isdigit (s : string) : bool := negb (is_empty s) && forallb is_digit_char (u s).

(** The digits in ASCII, as [Decimal] reads them. *)
Definition ascii_digits (s : string) : string :=
  to_str ((fun c => match decimal_value c with Some d => 48 + d | None => c end) <$> u s).

Example isdigit_ex : isdigit <$> ["005930"; ""; "00593A"; "００５９３０"; "٣"; "²"; "①"; "삼"] =
  [true; false; false; true; true; true; true; false].
Proof. vm_compute. reflexivity. Qed.
Example ascii_digits_ex : ascii_digits "-７１,５००.٣" = "-71,500.3".
Proof. vm_compute. reflexivity. Qed.

(** ** Upper case *)

(** The bytes of [text.upper()].  Two characters beyond ASCII have one of its letters as their
    upper case, the dotless i and the long s; ligatures and others that become several
    characters, and letters that stay beyond ASCII, are left as they are. *)
Definition upper_byte (b : N) : N := if (97 <=? b) && (b <=? 122) then b - 32 else b.
Fixpoint upper_bytes (bytes : list N) : list N :=
  match bytes with
  | 196 :: (177 :: rest) => 73 :: upper_bytes rest
  | 197 :: (191 :: rest) => 83 :: upper_bytes rest
  | b :: rest => upper_byte b :: upper_bytes rest
  | [] => []
  end.
Definition upper (s : string) : string := String.string_of_list_ascii (ascii_of_N <$> upper_bytes (bytes_of s)).

Example upper_ex : upper <$> ["a005930"; "cnſrreq"; "ı"; "ß"] = ["A005930"; "CNSRREQ"; "I"; "ß"].
Proof. vm_compute. reflexivity. Qed.

(** ** Surrogates *)

(** The bytes of a code point from D800 to DFFF begin with ED and a byte from A0 on, which no
    other code point has.  No character begins with such a byte, so one that comes first or
    after ASCII, as in no text, may count too. *)
Definition is_low (b : N) : bool := (160 <=? b) && (b <? 192).
Definition opens (previous : N) : bool := (previous =? 237) || (previous <? 128).
Fixpoint surrogate_after (previous : N) (bytes : list N) : bool :=
  match bytes with
  | b :: rest => opens previous && is_low b || surrogate_after b rest
  | [] => false
  end.
Definition has_surrogate (s : string) : bool := surrogate_after 0 (bytes_of s).

(** [text.encode("utf-8")] *)
Definition encode_utf8 (s : string) : res string :=
  _ ← raise_if (has_surrogate s) UnicodeEncodeError; Ok s.

Definition lone_surrogate : string := to_str [55296].
Example surrogate_found : has_surrogate <$> ["하나" +:+ lone_surrogate; "하나 둘"; "퟿"] = [true; false; false].
Proof. vm_compute. reflexivity. Qed.

(** ** Where a surrogate comes from *)

Lemma bytes_of_app s t : bytes_of (s +:+ t) = bytes_of s ++ bytes_of t.
Proof. unfold bytes_of. by rewrite chars_app, fmap_app. Qed.
Lemma bytes_of_chars l : bytes_of (String.string_of_list_ascii l) = N_of_ascii <$> l.
Proof. unfold bytes_of. by rewrite chars_of_list. Qed.

Lemma surrogate_opens p q l : opens q = true -> surrogate_after p l = true -> surrogate_after q l = true.
Proof.
  intros Hq. destruct l as [|b l]; [done|]. cbn [surrogate_after]. rewrite Hq. by destruct (opens p), (is_low b).
Qed.

(** Putting texts together brings in no surrogate. *)
Lemma surrogate_bytes_app p l k :
  surrogate_after p (l ++ k) = true -> surrogate_after p l = true \/ surrogate_after 0 k = true.
Proof.
  revert p; induction l as [|b l IH]; intros p; [intros H; right; by apply (surrogate_opens p)|].
  cbn [app surrogate_after]. intros [H|H]%orb_true_iff; [left; by rewrite H|].
  destruct (IH _ H) as [H'|H']; [left; by rewrite H', orb_true_r|by right].
Qed.
Lemma surrogate_app s t : has_surrogate (s +:+ t) = true -> has_surrogate s = true \/ has_surrogate t = true.
Proof. unfold has_surrogate. rewrite bytes_of_app. apply surrogate_bytes_app. Qed.

(** ASCII has none. *)
Definition plain (l : list ascii) : Prop := Forall (fun a => N_of_ascii a < 128) l.
Lemma plain_bytes p l : plain l -> surrogate_after p (N_of_ascii <$> l) = false.
Proof.
  intros Hl. revert p; induction Hl as [|a l Ha _ IH]; intros p; [done|]. cbn [fmap list_fmap surrogate_after].
  rewrite IH. unfold is_low. destruct (N.leb_spec 160 (N_of_ascii a)); [lia|]. by rewrite andb_false_r.
Qed.
Lemma plain_text s : plain (chars s) -> has_surrogate s = false.
Proof. apply plain_bytes. Qed.

(** Escaping one character at a time, the ones beyond ASCII by themselves. *)
Lemma surrogate_escaped (esc : N -> list ascii) l p :
  (forall b, b < 128 -> plain (esc b)) -> (forall b, 128 <= b -> esc b = [ascii_of_N b]) ->
  Forall (fun b => b < 256) l ->
  surrogate_after p (N_of_ascii <$> mjoin (esc <$> l)) = true -> surrogate_after p l = true.
Proof.
  intros Hplain Hself Hl. revert p; induction Hl as [|b l Hb _ IH]; intros p; [done|].
  change (mjoin (esc <$> b :: l)) with (esc b ++ mjoin (esc <$> l)). rewrite fmap_app. cbn [surrogate_after].
  destruct (N.lt_ge_cases b 128) as [H|H].
  - intros [E|E]%surrogate_bytes_app; [by rewrite plain_bytes in E by auto|]. apply orb_true_iff. right.
    apply (surrogate_opens 0); [|by apply IH]. unfold opens. apply orb_true_iff. right. by apply N.ltb_lt.
  - rewrite (Hself b H). cbn [fmap list_fmap app surrogate_after]. rewrite N_ascii_embedding by done.
    intros [E|E]%orb_true_iff; apply orb_true_iff; [by left|right; by apply IH].
Qed.

Lemma bytes_small s : Forall (fun b => b < 256) (bytes_of s).
Proof. apply Forall_fmap, Forall_forall. intros a _. apply N_ascii_bounded. Qed.

Lemma surrogate_list l : has_surrogate (String.string_of_list_ascii l) = surrogate_after 0 (N_of_ascii <$> l).
Proof. unfold has_surrogate. by rewrite bytes_of_chars. Qed.

(** Characters below 128, checked one by one. *)
Lemma plain_below (esc : N -> list ascii) :
  forallb (fun b => forallb (fun a => N_of_ascii a <? 128) (esc (N.of_nat b))) (seq 0 128) = true ->
  forall b, b < 128 -> plain (esc b).
Proof.
  intros H b Hb. assert (In (N.to_nat b) (seq 0 128)) as Hin by (apply in_seq; lia).
  rewrite forallb_forall in H. specialize (H _ Hin). rewrite N2Nat.id, forallb_forall in H. apply Forall_forall. intros a Ha. apply N.ltb_lt, H. by apply list_elem_of_In.
Qed.

Lemma surrogate_quote s : has_surrogate (quote false s) = true -> has_surrogate s = true.
Proof.
  unfold quote. intros [H|[H|H]%surrogate_app]%surrogate_app; [done| |done]. rewrite surrogate_list in H.
  assert (forall l, escape_bytes false l = mjoin ((fun b => if b <? 128 then escape_ascii b else [chr_N b]) <$> l)) as E.
  { induction l as [|b l IH]; [done|]. cbn [escape_bytes]. rewrite IH. cbn [fmap list_fmap]. by destruct (b <? 128). }
  rewrite E in H. eapply surrogate_escaped; [| |apply bytes_small|exact H].
  - apply plain_below. vm_compute. reflexivity.
  - intros b Hb. cbv beta. by destruct (N.ltb_spec b 128); [lia|].
Qed.

Lemma surrogate_concat sep l :
  has_surrogate sep = false -> has_surrogate (String.concat sep l) = true -> exists s, s ∈ l /\ has_surrogate s = true.
Proof.
  intros Hsep. induction l as [|s l IH]; [done|]. cbn [String.concat]. destruct l as [|s' l].
  { intros H. exists s. split; [left|done]. }
  intros [H|[H|H]%surrogate_app]%surrogate_app; [exists s; split; [left|done]|congruence|].
  destruct (IH H) as (r&Hr&?). exists r. split; [by right|done].
Qed.

Lemma surrogate_number n : has_surrogate (str_Z n) = false.
Proof.
  assert (forall a, is_digit a -> N_of_ascii a < 128) as Hd.
  { intros a [d Ha]. unfold digit_val in Ha. case_match eqn:E; [|done].
    apply andb_true_iff in E as [_ E%Z.ltb_lt]. lia. }
  assert (forall m, plain (chars (str_Z (Z.of_N m)))) as Hm
    by (intros m; eapply Forall_impl; [apply (do_digits _ _ (str_digits m))|exact Hd]).
  apply plain_text. destruct n as [|p|p]; [apply (Hm 0)|apply (Hm (N.pos p))|].
  change (str_Z (Z.neg p)) with ("-" +:+ str_Z (Z.pos p)). rewrite chars_app. apply Forall_app.
  split; [by repeat constructor|apply (Hm (N.pos p))].
Qed.

(** ** The texts and the values within a value *)

Fixpoint texts_of (j : json) : list string :=
  match j with
  | JStr s => [s]
  | JFloat repr => [repr]
  | JList l => mjoin (List.map texts_of l)
  | JObj fields => mjoin (List.map (fun kv => kv.1 :: texts_of kv.2) fields)
  | _ => []
  end.

Fixpoint values_of (j : json) : list json :=
  j :: match j with
       | JList l => mjoin (List.map values_of l)
       | JObj fields => mjoin (List.map (fun kv => values_of kv.2) fields)
       | _ => []
       end.

(** A value in a list or under a key has its texts and values among those of the whole. *)
Lemma mjoin_map_in {A B} (f : A -> list B) l x y : x ∈ l -> y ∈ f x -> y ∈ mjoin (List.map f l).
Proof.
  intros Hx Hy. induction Hx as [x l|x z l _ IH]; cbn; apply elem_of_app; [by left|right; by apply IH].
Qed.
Lemma mjoin_map_out {A B} (f : A -> list B) l y : y ∈ mjoin (List.map f l) -> exists x, x ∈ l /\ y ∈ f x.
Proof.
  induction l as [|x l IH]; [by intros ?%not_elem_of_nil|].
  intros [H|H]%elem_of_app; [exists x; split; [left|done]|]. destruct (IH H) as (z&?&?). exists z. split; [by right|done].
Qed.

Lemma texts_of_list v l : v ∈ l -> texts_of v ⊆ texts_of (JList l).
Proof. intros Hv t Ht. by apply (mjoin_map_in texts_of l v). Qed.
Lemma texts_of_field k v fields : (k, v) ∈ fields -> texts_of v ⊆ texts_of (JObj fields).
Proof. intros Hv t Ht. apply (mjoin_map_in _ fields (k, v)); [done|by right]. Qed.
Lemma values_of_list v l : v ∈ l -> values_of v ⊆ values_of (JList l).
Proof. intros Hv t Ht. right. by apply (mjoin_map_in values_of l v). Qed.
Lemma values_of_field k v fields : (k, v) ∈ fields -> values_of v ⊆ values_of (JObj fields).
Proof. intros Hv t Ht. right. by apply (mjoin_map_in _ fields (k, v)). Qed.
Lemma values_of_self v : v ∈ values_of v.
Proof. destruct v; left. Qed.

(** Sorting the keys brings in no text. *)
Lemma texts_of_normalize j : texts_of (normalize j) ⊆ texts_of j.
Proof.
  induction j as [| | | | |l IH|fields IH] using json_ind'; try done; intros t; cbn [normalize texts_of];
    rewrite Forall_forall in IH.
  - intros (v'&Hv'&Ht)%mjoin_map_out. apply list_elem_of_In, in_map_iff in Hv' as (v&<-&Hv%list_elem_of_In).
    apply (mjoin_map_in _ l v _ Hv). by apply IH.
  - intros (kv'&Hkv'&Ht)%mjoin_map_out. rewrite sorted_by_perm in Hkv'.
    apply list_elem_of_In, in_map_iff in Hkv' as (kv&<-&Hkv%list_elem_of_In).
    apply (mjoin_map_in _ fields kv _ Hkv). cbn [fst snd] in Ht.
    apply elem_of_cons in Ht as [->|Ht]; [left|right; by apply (IH kv Hkv)].
Qed.

(** A surrogate in the printed value stands in one of its texts. *)
Definition surrogate_in (j : json) : Prop := exists t, t ∈ texts_of j /\ has_surrogate t = true.

Lemma surrogate_items sep (f : json -> string) l :
  has_surrogate sep = false -> Forall (fun v => has_surrogate (f v) = true -> surrogate_in v) l ->
  has_surrogate (String.concat sep (List.map f l)) = true -> surrogate_in (JList l).
Proof.
  intros Hsep IH H. apply surrogate_concat in H as (s&Hs&H); [|done].
  apply list_elem_of_In, in_map_iff in Hs as (v&<-&Hv%list_elem_of_In).
  rewrite Forall_forall in IH. destruct (IH v Hv H) as (t&Ht&?). exists t. split; [by apply (texts_of_list v)|done].
Qed.

Lemma surrogate_fields sep colon (q : string -> string) (f : json -> string) fields :
  has_surrogate sep = false -> has_surrogate colon = false ->
  (forall s, has_surrogate (q s) = true -> has_surrogate s = true) ->
  Forall (fun kv : string * json => has_surrogate (f kv.2) = true -> surrogate_in kv.2) fields ->
  has_surrogate (String.concat sep (List.map (fun kv => q kv.1 +:+ colon +:+ f kv.2) fields)) = true ->
  surrogate_in (JObj fields).
Proof.
  intros Hsep Hcolon Hq IH H. apply surrogate_concat in H as (s&Hs&H); [|done].
  apply list_elem_of_In, in_map_iff in Hs as (kv&<-&Hkv%list_elem_of_In). rewrite Forall_forall in IH.
  apply surrogate_app in H as [H%Hq|[H|H]%surrogate_app]; [|congruence|].
  - exists kv.1. split; [|done]. apply (mjoin_map_in _ fields kv _ Hkv). left.
  - destruct (IH kv Hkv H) as (t&Ht&?). exists t. split; [|done]. apply (texts_of_field kv.1 kv.2); [by destruct kv|done].
Qed.

Lemma surrogate_printed j : has_surrogate (print_json false j) = true -> surrogate_in j.
Proof.
  induction j as [|b|n|r|s|l IH|fields IH] using json_ind'; cbn [print_json].
  - done.
  - by destruct b.
  - by rewrite surrogate_number.
  - intros H. exists r. by split; [left|].
  - intros H%surrogate_quote. exists s. by split; [left|].
  - intros [H|[H|H]%surrogate_app]%surrogate_app; [done| |done]. by apply (surrogate_items "," (print_json false)).
  - intros [H|[H|H]%surrogate_app]%surrogate_app; [done| |done].
    by apply (surrogate_fields "," ":" (quote false) (print_json false)); [| |apply surrogate_quote| |].
Qed.

Lemma surrogate_dumped j : has_surrogate (dumps false j) = true -> surrogate_in j.
Proof. intros (t&Ht%texts_of_normalize&H)%surrogate_printed. by exists t. Qed.
