(* ===== verification/PyRegex.v ===== *)
(** Python's [re] for the patterns of the code: a backtracking matcher (leftmost match, ordered
    alternatives, greedy repetition), and that it finds exactly the matches of the pattern. *)
From S2P Require Import Prelude PyText.
#[local] Open Scope nat_scope.

(** [Many p] is [[..]*] of one class of characters, [Eos] is [$], [Behind p] is [(?<=..)], and
    [Mark r] is the one named group of a pattern. *)
Inductive re :=
  | Eps
  | Chr (p : N -> bool)
  | Seq (a b : re)
  | Alt (a b : re)
  | Many (p : N -> bool)
  | Eos
  | Behind (p : N -> bool)
  | Mark (a : re).

(** ** How patterns are written *)

Definition any_of (l : text) (c : N) : bool := existsb (N.eqb c) l.
Definition none_of (l : text) (c : N) : bool := negb (any_of l c).
(** Literal text. *)
Definition lit (s : string) : re := fold_right (fun c r => Seq (Chr (N.eqb c)) r) Eps (u s).
Definition seqs (l : list re) : re := fold_right Seq Eps l.
Fixpoint alts (l : list re) : re := match l with [] => Eps | [a] => a | a :: l => Alt a (alts l) end.
Definition opt (a : re) : re := Alt a Eps.
(** [\s], [\s*], [\s+] *)
Definition space : re := Chr is_space.
Definition spaces : re := Many is_space.
Definition spaces1 : re := Seq space spaces.

(** ** The matcher *)

(** Where the marked group began and ended. *)
Definition capture : Type := option (nat * nat).

(** How many of the first characters are in the class. *)
Fixpoint span (p : N -> bool) (t : text) : nat :=
  match t with c :: t => if p c then S (span p t) else 0 | [] => 0 end.

(** [$]: at the end, or before a newline that ends the text. *)
Definition at_end (t : text) (i : nat) : bool :=
  match drop i t with [] => true | [c] => (c =? 10)%N | _ => false end.

Definition behind (p : N -> bool) (t : text) (i : nat) : bool :=
  match i with O => false | S j => match t !! j with Some c => p c | None => false end end.

(** The first success of [k] at [i + n], ..., [i]. *)
Fixpoint backtrack {R} (i n : nat) (k : nat -> option R) : option R :=
  match k (i + n) with
  | Some x => Some x
  | None => match n with O => None | S n => backtrack i n k end
  end.

Section matcher.
Context (t : text).

(** The first way, in the order of the alternatives, to match from [i] and go on with [k]. *)
Fixpoint run {R} (r : re) (i : nat) (c : capture) (k : nat -> capture -> option R) : option R :=
  match r with
  | Eps => k i c
  | Chr p => match t !! i with Some x => if p x then k (S i) c else None | None => None end
  | Seq a b => run a i c (fun j c => run b j c k)
  | Alt a b => match run a i c k with Some x => Some x | None => run b i c k end
  | Many p => backtrack i (span p (drop i t)) (fun j => k j c)
  | Eos => if at_end t i then k i c else None
  | Behind p => if behind p t i then k i c else None
  | Mark a => run a i c (fun j _ => k j (Some (i, j)))
  end.

Record match_ := mk_match { m_start : nat; m_end : nat; m_group : capture }.

Definition match_at (r : re) (i : nat) : option match_ := run r i None (fun j c => Some (mk_match i j c)).

(** [r.search(t, i)], with [n] positions to try. *)
Fixpoint search_from (r : re) (n i : nat) : option match_ :=
  match match_at r i with
  | Some m => Some m
  | None => match n with O => None | S n => search_from r n (S i) end
  end.

(** What a pattern means. *)
Inductive matches : re -> nat -> nat -> Prop :=
  | m_eps i : matches Eps i i
  | m_chr p i c : t !! i = Some c -> p c = true -> matches (Chr p) i (S i)
  | m_seq a b i j k : matches a i j -> matches b j k -> matches (Seq a b) i k
  | m_alt_l a b i j : matches a i j -> matches (Alt a b) i j
  | m_alt_r a b i j : matches b i j -> matches (Alt a b) i j
  | m_many p i n : Forall (fun c => p c = true) (take n (drop i t)) -> n <= length (drop i t) -> matches (Many p) i (i + n)
  | m_eos i : at_end t i = true -> matches Eos i i
  | m_behind p i : behind p t i = true -> matches (Behind p) i i
  | m_mark a i j : matches a i j -> matches (Mark a) i j.

(** What is marked in a pattern, and how many characters it takes at least. *)
Fixpoint marks (r : re) : list re :=
  match r with Seq a b | Alt a b => marks a ++ marks b | Mark a => [a] | _ => [] end.
Fixpoint min_len (r : re) : nat :=
  match r with
  | Chr _ => 1
  | Seq a b => min_len a + min_len b
  | Alt a b => Nat.min (min_len a) (min_len b)
  | Mark a => min_len a
  | _ => 0
  end.

Lemma span_spec p s n : Forall (fun c => p c = true) (take n s) /\ n <= length s <-> n <= span p s.
Proof.
  revert n; induction s as [|c s IH]; intros n; cbn [span length].
  - rewrite take_nil. split; [intros [_ ?]; lia|]. intros ?. by split; [apply Forall_nil|].
  - destruct n as [|n]; [cbn; split; [lia|]; intros _; by split; [apply Forall_nil|lia]|].
    cbn [take firstn]. rewrite Forall_cons. destruct (p c).
    + specialize (IH n). split; [intros [[_ ?] ?]; apply le_n_S, IH; split; [done|lia]|].
      intros H%Nat.succ_le_mono%IH. split_and!; [done|apply H|destruct H; lia].
    + split; [by intros [[? _] _]|lia].
Qed.

Lemma backtrack_some {R} i n (k : nat -> option R) x : backtrack i n k = Some x -> exists j, j <= n /\ k (i + j) = Some x.
Proof.
  induction n as [|n IH]; cbn [backtrack]; destruct (k _) eqn:E; try done.
  - intros [= ->]. by exists 0.
  - intros [= ->]. by exists (S n).
  - intros (j&Hj&Ek)%IH. exists j. split; [lia|done].
Qed.

Lemma backtrack_none {R} i n (k : nat -> option R) j : backtrack i n k = None -> j <= n -> k (i + j) = None.
Proof.
  induction n as [|n IH]; cbn [backtrack]; intros Hb Hj.
  - replace j with 0 by lia. by destruct (k (i + 0)).
  - destruct (k (i + S n)) eqn:E; [done|]. destruct (decide (j = S n)) as [->|Hne]; [done|]. apply IH; [done|lia].
Qed.

(** The matcher is sound and complete. *)
Lemma run_some {R} r : forall i c (k : nat -> capture -> option R) x,
  run r i c k = Some x -> exists j c', matches r i j /\ k j c' = Some x.
Proof.
  induction r as [|p|a IHa b IHb|a IHa b IHb|p| |p|a IHa]; intros i c k x H; cbn [run] in H.
  - exists i, c. split; [constructor|done].
  - destruct (t !! i) as [y|] eqn:E; [|done]. destruct (p y) eqn:Ep; [|done]. exists (S i), c. split; [by econstructor|done].
  - apply IHa in H as (j&c'&Ha&H). apply IHb in H as (l&c''&Hb&H). exists l, c''. split; [by econstructor|done].
  - destruct (run a i c k) as [y|] eqn:Ea.
    + injection H as ->. apply IHa in Ea as (j&c'&Ha&H). exists j, c'. by split; [apply m_alt_l|].
    + apply IHb in H as (j&c'&Hb&H). exists j, c'. by split; [apply m_alt_r|].
  - apply backtrack_some in H as (j&Hj&H). exists (i + j), c. split; [|done].
    apply span_spec in Hj as [H1 H2]. by constructor.
  - destruct (at_end t i) eqn:E; [|done]. exists i, c. by split; [constructor|].
  - destruct (behind p t i) eqn:E; [|done]. exists i, c. by split; [constructor|].
  - apply IHa in H as (j&c'&Ha&H). exists j, (Some (i, j)). by split; [constructor|].
Qed.

Lemma run_none {R} r i j : matches r i j -> forall c (k : nat -> capture -> option R),
  run r i c k = None -> exists c', k j c' = None.
Proof.
  induction 1 as [i|p i y Hy Hp|a b i j l Ha IHa Hb IHb|a b i j Ha IHa|a b i j Hb IHb|p i n Hn Hlen|i Hi|p i Hi|a i j Ha IHa];
    intros c k H; cbn [run] in H.
  - by exists c.
  - rewrite Hy, Hp in H. by exists c.
  - apply IHa in H as [c' H]. by apply IHb in H.
  - destruct (run a i c k) eqn:E; [done|]. by apply IHa in E.
  - destruct (run a i c k) eqn:E; [done|]. by apply IHb in H.
  - exists c. by apply (backtrack_none i _ _ n H), span_spec.
  - rewrite Hi in H. by exists c.
  - rewrite Hi in H. by exists c.
  - apply IHa in H as [c' H]. by eexists.
Qed.

Lemma match_at_some r i m : match_at r i = Some m -> m_start m = i /\ matches r i (m_end m).
Proof. intros H. apply run_some in H as (j&c&Hm&[= <-]). done. Qed.

Lemma match_at_none r i j : match_at r i = None -> ~ matches r i j.
Proof. intros H Hm. by apply (run_none r i j Hm) in H as [c H]. Qed.

(** A search returns the leftmost match, and fails only if there is none. *)
Lemma search_from_spec r n i :
  match search_from r n i with
  | Some m => i <= m_start m <= i + n /\ matches r (m_start m) (m_end m) /\
              forall j l, i <= j < m_start m -> ~ matches r j l
  | None => forall j l, i <= j <= i + n -> ~ matches r j l
  end.
Proof.
  revert i; induction n as [|n IH]; intros i; cbn [search_from]; destruct (match_at r i) as [m|] eqn:E.
  1, 3: apply match_at_some in E as [E Hm]; rewrite E; split_and!; [lia|lia|done|lia].
  - intros j l Hj. replace j with i by lia. by apply match_at_none.
  - specialize (IH (S i)). destruct (search_from r n (S i)) as [m|].
    + destruct IH as (H1&H2&H3). split_and!; [lia|lia|done|]. intros j l Hj.
      destruct (decide (j = i)) as [->|Hne]; [by apply match_at_none|]. apply H3. lia.
    + intros j l Hj. destruct (decide (j = i)) as [->|Hne]; [by apply match_at_none|]. apply IH. lia.
Qed.

(** Matches stay within the text. *)
Lemma matches_bounds r i j : matches r i j -> i <= length t -> i <= j <= length t.
Proof.
  induction 1 as [i|p i y Hy Hp|a b i j l Ha IHa Hb IHb|a b i j Ha IHa|a b i j Hb IHb|p i n Hn Hlen|i Hi|p i Hi|a i j Ha IHa];
    intros Hi'; try lia.
  - apply lookup_lt_Some in Hy. lia.
  - rewrite length_drop in Hlen. lia.
Qed.

(** The marked group of a match lies within it and matches what is marked. *)
Definition group_of (r : re) (i j : nat) (c : capture) : Prop :=
  exists a b q, c = Some (a, b) /\ q ∈ marks r /\ matches q a b /\ i <= a <= b /\ b <= j.

Lemma group_of_weaken r r' i i' j j' c :
  group_of r i j c -> i' <= i -> j <= j' -> (forall q, q ∈ marks r -> q ∈ marks r') -> group_of r' i' j' c.
Proof.
  intros (a&b&q&->&Hq&Hm&?&?) Hi Hj Hr. exists a, b, q. split_and!; [done|by apply Hr|done|lia|lia|lia].
Qed.

Lemma run_capture {R} r : forall i c (k : nat -> capture -> option R) x,
  i <= length t -> run r i c k = Some x ->
  exists j c', matches r i j /\ k j c' = Some x /\ (c' = c \/ group_of r i j c').
Proof.
  induction r as [|p|a IHa b IHb|a IHa b IHb|p| |p|a IHa]; intros i c k x Hi H; cbn [run] in H.
  - exists i, c. split_and!; [constructor|done|by left].
  - destruct (t !! i) as [y|] eqn:E; [|done]. destruct (p y) eqn:Ep; [|done].
    exists (S i), c. split_and!; [by econstructor|done|by left].
  - apply IHa in H as (j&c'&Ha&H&Hc); [|done]. pose proof (matches_bounds _ _ _ Ha Hi).
    apply IHb in H as (l&c''&Hb&H&Hc'); [|lia]. pose proof (matches_bounds _ _ _ Hb ltac:(lia)).
    exists l, c''. split_and!; [by econstructor|done|].
    destruct Hc' as [->|Hc']; [destruct Hc as [->|Hc]; [by left|]|]; right; (eapply group_of_weaken; [eassumption|lia|lia|]);
      intros q Hq; cbn [marks]; apply elem_of_app; auto.
  - destruct (run a i c k) as [y|] eqn:Ea.
    + injection H as ->. apply IHa in Ea as (j&c'&Ha&H&Hc); [|done]. exists j, c'. split_and!; [by apply m_alt_l|done|].
      destruct Hc as [->|Hc]; [by left|right]. eapply group_of_weaken; [eassumption|lia|lia|].
      intros q Hq; cbn [marks]; apply elem_of_app; auto.
    + apply IHb in H as (j&c'&Hb&H&Hc); [|done]. exists j, c'. split_and!; [by apply m_alt_r|done|].
      destruct Hc as [->|Hc]; [by left|right]. eapply group_of_weaken; [eassumption|lia|lia|].
      intros q Hq; cbn [marks]; apply elem_of_app; auto.
  - apply backtrack_some in H as (j&Hj&H). exists (i + j), c. split_and!; [|done|by left].
    apply span_spec in Hj as [H1 H2]. by constructor.
  - destruct (at_end t i) eqn:E; [|done]. exists i, c. split_and!; [by constructor|done|by left].
  - destruct (behind p t i) eqn:E; [|done]. exists i, c. split_and!; [by constructor|done|by left].
  - apply IHa in H as (j&c'&Ha&H&_); [|done]. pose proof (matches_bounds _ _ _ Ha Hi).
    exists j, (Some (i, j)). split_and!; [by constructor|done|]. right.
    exists i, j, a. split_and!; [done|by left|done|lia|lia|lia].
Qed.

Lemma search_from_group r n i m :
  search_from r n i = Some m -> m_start m <= length t -> m_group m = None \/ group_of r (m_start m) (m_end m) (m_group m).
Proof.
  revert i; induction n as [|n IH]; intros i; cbn [search_from]; destruct (match_at r i) as [m'|] eqn:E; [|done| |apply IH].
  all: intros [= <-] Hi; pose proof (match_at_some _ _ _ E) as [Es _]; rewrite Es in *;
    apply run_capture in E as (j&c'&_&[= <-]&Hc); [exact Hc|done].
Qed.

(** A pattern needs at least so many characters. *)
Lemma min_len_spec r i j : matches r i j -> i + min_len r <= j.
Proof.
  induction 1; cbn [min_len]; lia.
Qed.
End matcher.

(** [r.search(t, start, stop)]; a match needs no more than the end of the text. *)
Definition search (r : re) (t : text) (start stop : nat) : option match_ :=
  let t := take stop t in
  if start <=? length t then search_from t r (length t - start) start else None.

(** [r.split(t)[0]], the text before the first match. *)
Definition split_first (r : re) (t : text) : text :=
  match search r t 0 (length t) with Some m => take (m_start m) t | None => t end.

(** [r.split(t)] for a pattern that matches no empty text. *)
Fixpoint split_loop (fuel : nat) (r : re) (t : text) (start : nat) : list text :=
  match fuel, search r t start (length t) with
  | S fuel, Some m => take (m_start m - start) (drop start t) :: split_loop fuel r t (m_end m)
  | _, _ => [drop start t]
  end.
Definition split (r : re) (t : text) : list text := split_loop (length t) r t 0.

Lemma search_spec r t start stop :
  match search r t start stop with
  | Some m => start <= m_start m <= m_end m /\ m_end m <= length (take stop t) /\
              matches (take stop t) r (m_start m) (m_end m) /\
              (forall j l, start <= j < m_start m -> ~ matches (take stop t) r j l) /\
              (m_group m = None \/ group_of (take stop t) r (m_start m) (m_end m) (m_group m))
  | None => forall j l, start <= j -> j <= length (take stop t) -> ~ matches (take stop t) r j l
  end.
Proof.
  unfold search. destruct (start <=? _) eqn:E; [apply Nat.leb_le in E|apply Nat.leb_gt in E; intros; lia].
  pose proof (search_from_spec (take stop t) r (length (take stop t) - start) start) as H.
  destruct (search_from _ _ _ _) as [m|] eqn:Es; [|intros j l H1 H2; apply H; lia].
  destruct H as (H1&H2&H3). pose proof (matches_bounds _ _ _ _ H2 ltac:(lia)). split_and!; try done || lia.
  eapply search_from_group; [exact Es|lia].
Qed.

Example search_lookbehind :
  m_start <$> search (Seq (Behind is_space) (lit "등")) (u "폭등 등") 0 4 = Some 3.
Proof. reflexivity. Qed.
Example split_example : split (seqs [space; lit "및"; space]) (u "가 및 나 및 다") = [u "가"; u "나"; u "다"].
Proof. vm_compute. reflexivity. Qed.
