(* ===== verification/Vocabulary.v ===== *)
(** [packages/ontology/vocabulary.py]: the controlled vocabulary of catalysts and the markers of
    direction, certainty and continuation, word for word, with the fingerprint of the whole. *)
From S2P Require Import Prelude Sha256 Json.
#[local] Open Scope string_scope.

(* @ packages/ontology/models.py 21-28 CatalystTypeDefinition *)
Record CatalystTypeDefinition := mk_CatalystTypeDefinition {
  ct_type_id : string;
  ct_name_ko : string;
  ct_description_ko : string;
  ct_keywords : list string
}.

(** [TYPE_ID_RE.fullmatch(value)] *)
Definition is_upper (b : N) : bool := ((65 <=? b) && (b <=? 90))%N.
(* @ packages/ontology/models.py 18-18 TYPE_ID_RE *)
Definition TYPE_ID_RE (value : string) : bool :=
  match bytes_of value with
  | b :: (_ :: _) as rest =>
      is_upper b && forallb (fun b => is_upper b || ((48 <=? b) && (b <=? 57) || (b =? 95))%N) rest
  | _ => false
  end.

(* @ packages/ontology/models.py 30-40 CatalystTypeDefinition.__post_init__ *)
Definition CatalystTypeDefinition_check (d : CatalystTypeDefinition) : res CatalystTypeDefinition :=
  _ ← raise_if (negb (TYPE_ID_RE (ct_type_id d))) ValueError;
  _ ← raise_if (is_empty (ct_name_ko d) || is_empty (ct_description_ko d)) ValueError;
  _ ← raise_if (bool_decide (ct_keywords d = [])) ValueError;
  _ ← raise_if (existsb is_blank (ct_keywords d)) ValueError;
  _ ← raise_if (negb (bool_decide (NoDup (ct_keywords d)))) ValueError;
  Ok d.

(* @ packages/ontology/vocabulary.py 22-22 VOCABULARY_VERSION *)
Definition VOCABULARY_VERSION : string := "1.2.0".

(* @ packages/ontology/vocabulary.py 25-56 VOCABULARY *)
Definition POLICY_MEASURE : CatalystTypeDefinition := mk_CatalystTypeDefinition
  "POLICY_MEASURE" "정책·제도"
  "정부·의회·당국의 정책, 예산, 법안, 규제, 지원, 제도 변경."
  ["정부"; "정책"; "대책"; "방안"; "육성"; "지원"; "예산"; "법안"; "개정안"; "개정"; "법제화"; "국회";
   "법사위"; "기재위"; "규제 완화"; "규제 혁신"; "규제"; "보조금"; "세액공제"; "세제"; "감세"; "비과세"; "추경";
   "추가경정예산"; "공약"; "밸류업"; "국정과제"; "시범사업"; "국책"; "국토부"; "산업부"; "과기정통부"; "기획재정부";
   "금융당국"; "금감원"; "금융위"; "방통위"; "교육부"; "교육청"; "행안부"; "행정명령"; "당국"; "지자체"; "서울시";
   "특별법"; "특별위원회"; "특위"; "상법"; "시행령"; "무비자"; "비자"; "뉴딜"; "IRA"; "칩스법"; "K칩스법";
   "K-칩스법"; "인프라법"; "생물보안법"; "약가"; "활성화"; "의무화"; "탄소중립"; "국유화"; "민영화"; "공공"; "복지";
   "저출산"; "출산 장려"; "일자리"; "타당성재조사"; "타당성 재조사"; "타당성조사"; "타당성 조사"; "예비타당성"; "진흥법";
   "양도소득세"; "양도세"; "거래시간"; "전인대"; "건강보험"; "건보"; "신권"; "지폐"; "화폐"; "국민연금"; "연기금";
   "상한제"; "신도시"; "지식경제부"; "미래창조과학부"; "폐쇄"; "운영 중단"; "탄소배출"; "탈탄소"; "탈석탄"; "脫석탄";
   "기후"; "예타"; "합법화"; "허용"; "금지"; "공휴일"; "당정"; "국방비"; "주택공급"; "주택 공급"; "유럽연합";
   "인플레이션 감축법"; "재생원료"; "국민성장펀드"; "규정"; "CRMA"; "굴기"; "탄소세"; "국경세"; "최저임금"; "주파수";
   "출산율"; "저출생"; "출산장려"; "게임위"; "불허"; "반출"; "IFRS"; "화재 방지"; "G7"; "민영"; "사용 승인";
   "개소세"; "셧다운제"; "근무제"; "증원"; "무상교육"; "본회의"; "국무회의"; "탈원전"; "환수"; "개학"; "원격수업";
   "교과서"; "첨생법"; "혁신전략"; "은행권 발행"; "온실가스"; "취득세"; "법 통과"; "법 시행"].

(* @ packages/ontology/vocabulary.py 57-70 VOCABULARY *)
Definition POLITICS_ELECTION : CatalystTypeDefinition := mk_CatalystTypeDefinition
  "POLITICS_ELECTION" "정치·선거"
  "선거, 후보·지지율, 탄핵·정국 등 정치 이벤트."
  ["대선"; "총선"; "선거"; "후보"; "지지율"; "당선"; "탄핵"; "출마"; "체포동의안"; "특검"; "비상대책위"; "비대위";
   "전당대회"; "당대표"; "대권"; "여당"; "야당"; "민주당"; "국민의힘"; "새누리당"; "한나라당"; "공천"; "계엄";
   "정국"; "하야"; "권한대행"; "헌법재판소"; "헌재"; "인수위원회"; "인수위"; "정치"; "경선"; "개헌"; "집권";
   "취임"; "내정"; "사전투표"; "가상대결"; "2기 개막"; "1기 개막"; "2기 출범"; "정권"; "당무"; "트럼프 리스크";
   "지명"].

(* @ packages/ontology/vocabulary.py 71-85 VOCABULARY *)
Definition TRADE_TARIFF : CatalystTypeDefinition := mk_CatalystTypeDefinition
  "TRADE_TARIFF" "통상·관세"
  "관세, 무역 협상·분쟁, 수출입 규제·허가 등 국가간 통상 조치."
  ["관세"; "무역"; "통상"; "FTA"; "반덤핑"; "세이프가드"; "수출 규제"; "수출규제"; "수출 통제"; "수출통제";
   "수출 제한"; "수출제한"; "수출 금지"; "수출금지"; "수출 중단"; "수입 금지"; "수입금지"; "수입 중단"; "수입 제한";
   "수입 규제"; "수입"; "화이트리스트"; "한한령"; "금한령"; "판호"; "보복"; "불매"; "리쇼어링"; "배제"; "통제";
   "의약품 관세"; "상무부"; "상무장관"; "USTR"; "쿼터"; "세관"; "반입 제한"; "반입 금지"; "차단"; "제재";
   "탈일본"; "脫일본"; "화이트 리스트"].

(* @ packages/ontology/vocabulary.py 86-103 VOCABULARY *)
Definition MACRO_RATES_FX : CatalystTypeDefinition := mk_CatalystTypeDefinition
  "MACRO_RATES_FX" "거시·금리·환율"
  "금리·환율·물가·경기 등 거시경제와 중앙은행 이벤트."
  ["금리"; "금리인하"; "금리 인하"; "금리인상"; "금리 인상"; "기준금리"; "국채"; "Fed"; "FOMC"; "연준";
   "환율"; "원/달러"; "원화"; "엔화"; "엔저"; "달러 강세"; "달러 약세"; "강달러"; "약달러"; "달러화";
   "달러 인덱스"; "물가"; "CPI"; "PCE"; "인플레이션"; "긴축"; "양적완화"; "유동성"; "빅스텝"; "자이언트스텝";
   "통화정책"; "통화완화"; "한국은행"; "한은"; "경기 부양"; "경기부양"; "부양책"; "경기 침체"; "경기침체";
   "경기 회복"; "경기 둔화"; "경기 위축"; "글로벌 경기"; "고용지표"; "고용"; "스태그플레이션"; "디플레이션"; "재정위기";
   "재정 위기"; "유로존"; "부채한도"; "경제 불확실성"; "경제지표"; "경기둔화"; "금융 불안"; "경제성장률"; "지급준비율";
   "지준율"; "인민은행"; "경기 확장"].

(* @ packages/ontology/vocabulary.py 104-113 VOCABULARY *)
Definition EARNINGS : CatalystTypeDefinition := mk_CatalystTypeDefinition
  "EARNINGS" "실적"
  "분기·연간 실적, 이익·매출의 확정치와 전망."
  ["실적"; "호실적"; "어닝"; "영업이익"; "순이익"; "매출"; "흑자"; "적자"; "턴어라운드"; "가이던스"; "컨센서스";
   "서프라이즈"; "수익성"; "이익"; "판매고"; "손실"; "수익"; "비용"; "컨센"].

(* @ packages/ontology/vocabulary.py 114-126 VOCABULARY *)
Definition ORDER_CONTRACT : CatalystTypeDefinition := mk_CatalystTypeDefinition
  "ORDER_CONTRACT" "수주·공급계약"
  "수주, 공급·판매 계약, 입찰·사업자 선정 등 매출 직결 계약."
  ["수주"; "공급계약"; "공급 계약"; "납품"; "발주"; "입찰"; "낙찰"; "우선협상대상자"; "계약"; "구매"; "독점 공급";
   "공급 합의"; "기술이전"; "기술 이전"; "선정"; "용역"; "라이선스"; "수출 계약"; "공급"; "프로젝트"; "시추";
   "기술수출"; "가스전"; "공동의향서"; "의향서"; "경제성"; "백로그"; "오더"; "소싱"; "고객 확보"; "원전 수주";
   "플랜트"; "우선협상자"; "낙점"; "유망구조"].

(* @ packages/ontology/vocabulary.py 127-137 VOCABULARY *)
Definition PARTNERSHIP : CatalystTypeDefinition := mk_CatalystTypeDefinition
  "PARTNERSHIP" "협력·제휴"
  "MOU·협약·합작 등 구속력이 약한 협력 관계 구축."
  ["협력"; "제휴"; "MOU"; "협약"; "동맹"; "합작"; "컨소시엄"; "얼라이언스"; "파트너"; "공동 개발"; "공동개발";
   "협업"; "협의체"; "맞손"; "공동 연구"; "공동연구"; "연합"; "협의회"; "협회"; "참여"; "협의"; "발족";
   "구축 협력"; "표준화 포럼"].

(* @ packages/ontology/vocabulary.py 138-152 VOCABULARY *)
Definition INVESTMENT_CAPACITY : CatalystTypeDefinition := mk_CatalystTypeDefinition
  "INVESTMENT_CAPACITY" "투자·증설"
  "설비 투자, 공장 신·증설, 생산능력 확충, 자금 유치."
  ["투자"; "증설"; "공장 설립"; "공장 신설"; "공장 건설"; "신공장"; "설비"; "유치"; "착공"; "기공식"; "준공";
   "출자"; "구축"; "조성"; "설립"; "건립"; "확충"; "재개발"; "재건축"; "캐파"; "생산능력"; "생산 능력"; "증축";
   "펀드"; "진출"; "재편"; "신설"; "투입"; "사업 본격화"; "사업 가속화"; "사업 확대"; "사업 강화"; "사업 추진";
   "가동"; "재가동"; "재활용"; "공급망 생태계"; "공급망 구축"; "자체 생산"; "내재화"; "건설 가속화"; "원전 건설";
   "설치"; "먹거리"].

(* @ packages/ontology/vocabulary.py 153-161 VOCABULARY *)
Definition MNA_STAKE : CatalystTypeDefinition := mk_CatalystTypeDefinition
  "MNA_STAKE" "M&A·지분"
  "인수·합병, 지분 취득·매각, 경영권 변동."
  ["인수"; "합병"; "M&A"; "매각"; "지분"; "경영권"; "공개매수"; "피인수"; "자회사 편입"; "경영 참여"].

(* @ packages/ontology/vocabulary.py 162-174 VOCABULARY *)
Definition PRODUCT_TECH : CatalystTypeDefinition := mk_CatalystTypeDefinition
  "PRODUCT_TECH" "신제품·기술"
  "기술 개발 성공, 신제품 출시·공개, 특허·인증, 국산화."
  ["개발"; "신제품"; "신기술"; "출시"; "공개"; "특허"; "인증"; "국산화"; "상용화"; "양산"; "시제품"; "언팩";
   "성공"; "탑재"; "채택"; "샘플"; "테스트"; "신모델"; "신차"; "신작"; "합격"; "데뷔작"; "출하 개시"; "선보";
   "발사"; "개시"; "표준"; "검증"; "실험"; "입증"; "상표권"; "출원"; "연구"; "소개"; "시연"; "채용"; "수율";
   "퀄 통과"; "공략"].

(* @ packages/ontology/vocabulary.py 175-185 VOCABULARY *)
Definition CLINICAL_REGULATORY : CatalystTypeDefinition := mk_CatalystTypeDefinition
  "CLINICAL_REGULATORY" "임상·인허가(의약)"
  "임상시험, FDA·식약처 승인, 신약·치료제 개발 단계."
  ["임상"; "FDA"; "식약처"; "품목허가"; "시판허가"; "신약"; "치료제"; "백신"; "바이오시밀러"; "완치"; "치료법";
   "의약품"; "제네릭"; "복제약"; "긴급사용"; "판매허가"; "치료 효과"; "투약"; "후보물질"; "허가 취소"; "치료 가능"].

(* @ packages/ontology/vocabulary.py 186-201 VOCABULARY *)
Definition PRICE_SUPPLY : CatalystTypeDefinition := mk_CatalystTypeDefinition
  "PRICE_SUPPLY" "가격·수급"
  "원자재·제품 가격 변동, 감산·증산, 공급 부족·차질, 재고."
  ["가격"; "유가"; "운임"; "곡물"; "원자재"; "시세"; "감산"; "증산"; "재고"; "공급 부족"; "공급부족";
   "공급 차질"; "공급차질"; "공급 불안"; "공급망"; "수급"; "가격 인상"; "가격 인하"; "사재기"; "품절"; "품귀";
   "요금"; "정제마진"; "스프레드"; "원료"; "단가"; "물량 부족"; "가스값"; "환급 폐지"; "대란"; "애그플레이션";
   "구리"; "선가"; "BDI"; "원유"; "WTI"; "산유국"; "산유량"; "OPEC"; "흉작"; "쇼티지"; "병목"; "수수료";
   "공사비"; "부족"; "희토류"; "철광석"; "용선료"; "펄프"].

(* @ packages/ontology/vocabulary.py 202-228 VOCABULARY *)
Definition DEMAND_INDUSTRY : CatalystTypeDefinition := mk_CatalystTypeDefinition
  "DEMAND_INDUSTRY" "수요·업황"
  "수요·판매·수출 흐름, 업황·시장 성장, 점유율, 소비 심리."
  ["수요"; "업황"; "판매"; "수출"; "성장"; "호황"; "호조"; "회복"; "부진"; "둔화"; "침체"; "점유율";
   "슈퍼사이클"; "슈퍼 사이클"; "피크아웃"; "피크 아웃"; "고점론"; "캐즘"; "소비"; "내수"; "관광객"; "이용객";
   "물동량"; "특수"; "성수기"; "출하"; "가입자"; "판매량"; "수주량"; "발주 증가"; "시장 확대"; "흥행"; "붐";
   "건설경기"; "부동산경기"; "주택경기"; "주택시장"; "부동산 시장"; "업사이클"; "다운사이클"; "거래량"; "탑승객"; "여객";
   "노선"; "운항"; "입국"; "생산량"; "리오프닝"; "열풍"; "경쟁"; "경쟁력"; "손해율"; "지급여력"; "NIM";
   "순이자마진"; "예대마진"; "석권"; "반사이익"; "반사 이익"; "반사익"; "반사수혜"; "반사 수혜"; "인기"; "개화";
   "도래"; "시대 개막"; "펀더멘탈"; "건전성"; "치킨게임"; "예판"; "사전예약"; "사전판매"; "사전 판매"; "연휴";
   "가동률"; "공급 주도"; "관광"; "여행"; "방한 외국인"; "방한 관광객"; "방한객"; "방문 외국인"; "외국인 관광객";
   "발주량"; "매출처"; "인도량"; "생산 목표"; "신드롬"; "저가 공세"; "시장 정체"; "시장 축소"; "오더컷"; "이용자";
   "고령화"; "항공편"; "건설 경기"; "북미지역"; "RBC"; "수익성 회의론"; "유커"; "교체"; "정상화"; "보급";
   "대중화"; "언택트"; "비대면"; "무인화"; "사교육"; "4차산업"; "4차 산업"; "입주물량"; "1위"; "분양";
   "인바운드"; "완판"; "트렌드"].

(* @ packages/ontology/vocabulary.py 229-246 VOCABULARY *)
Definition MARKET_SYNC : CatalystTypeDefinition := mk_CatalystTypeDefinition
  "MARKET_SYNC" "시장·주가 동조"
  "해외·국내 증시, 지수, 관련 종목 주가 흐름에의 동조."
  ["필라델피아"; "반도체지수"; "반도체 지수"; "나스닥"; "다우"; "미 증시"; "美 증시"; "미증시"; "뉴욕증시";
   "국내 증시"; "국내증시"; "코스피"; "증시"; "기술주"; "주가"; "시간외"; "훈풍"; "시총"; "시가총액"; "급등 영향";
   "급락 영향"; "폭등 영향"; "폭락 영향"; "강세 영향"; "약세 영향"; "상승 영향"; "하락 영향"; "강세 지속";
   "약세 지속"; "급등 여파"; "급락 여파"; "폭등 여파"; "폭락 여파"; "신고가"; "최고가"; "최고치 행진"; "랠리";
   "관련주 강세"; "관련주 약세"; "미국발"; "미국發"; "뉴욕발"; "뉴욕發"; "유럽발"; "유럽發"; "중국발"; "中發";
   "쇼크"; "빅테크"; "관련주 반등"; "관련주 급등"; "관련주 급락"; "관련주 상승"; "관련주 하락"; "하락 여파";
   "상승 여파"; "약세 여파"; "강세 여파"].

(* @ packages/ontology/vocabulary.py 247-258 VOCABULARY *)
Definition ANALYST_OPINION : CatalystTypeDefinition := mk_CatalystTypeDefinition
  "ANALYST_OPINION" "증권가 분석·평가"
  "증권사 리포트, 목표주가·투자의견, 저평가·수혜주 분석."
  ["증권사"; "증권가"; "분석"; "목표주가"; "목표가"; "투자의견"; "리포트"; "저평가"; "밸류에이션"; "평가"; "수혜주";
   "주목"; "긍정적"; "부정적"; "재평가"; "매력"; "보고서"; "레포트"; "모건스탠리"; "모간스탠리"; "골드만삭스";
   "JP모건"; "JP모간"; "노무라"; "맥쿼리"; "비관론"; "낙관론"; "아웃퍼폼"; "언더퍼폼"].

(* @ packages/ontology/vocabulary.py 259-270 VOCABULARY *)
Definition GEOPOLITICS_NK : CatalystTypeDefinition := mk_CatalystTypeDefinition
  "GEOPOLITICS_NK" "남북·북핵 정세"
  "북한·남북·북미 관계, 비핵화, 대북 제재, 경협 신호."
  ["북한"; "北"; "남북"; "남·북"; "南北"; "南·北"; "북미"; "북·미"; "김정은"; "김여정"; "김정"; "비핵화";
   "핵실험"; "북핵"; "판문점"; "개성공단"; "개성"; "금강산"; "이산가족"; "대북"; "방북"; "답방"; "노동당"; "평양";
   "6자회담"; "핵프로그램"; "경협"; "휴전선"; "미북"; "북방경제"].

(* @ packages/ontology/vocabulary.py 271-284 VOCABULARY *)
Definition GEOPOLITICS_GLOBAL : CatalystTypeDefinition := mk_CatalystTypeDefinition
  "GEOPOLITICS_GLOBAL" "국제 분쟁·지정학"
  "전쟁·공습·휴전, 국가간 갈등·긴장, 지정학 리스크."
  ["전쟁"; "우크라"; "러시아"; "이란"; "중동"; "이스라엘"; "팔레스타인"; "가자"; "하마스"; "헤즈볼라"; "호르무즈";
   "공습"; "침공"; "휴전"; "종전"; "확전"; "분쟁 격화"; "지정학"; "갈등"; "긴장"; "사드"; "대만"; "남중국해";
   "무력"; "군사"; "테러"; "미사일 발사"; "미사일"; "안보"; "나토"; "NATO"; "피격"; "재건"; "포격"; "교전";
   "파병"; "격추"; "홍해"; "해협 봉쇄"; "해상 봉쇄"; "운항 금지"; "동원령"].

(* @ packages/ontology/vocabulary.py 285-297 VOCABULARY *)
Definition DIPLOMACY_SUMMIT : CatalystTypeDefinition := mk_CatalystTypeDefinition
  "DIPLOMACY_SUMMIT" "외교·정상회담"
  "정상회담·고위급 회담, 방문 외교, 국가간 관계 개선."
  ["정상회담"; "회담"; "정상회의"; "방한"; "방문"; "국빈"; "특사"; "외교"; "관계 개선"; "관계 회복"; "해빙";
   "순방"; "방중"; "방미"; "방일"; "지소미아"; "수교"; "국무장관"; "외교부"; "정상 간"; "사절단"; "관계 경색";
   "관계 악화"; "관계 냉각"; "첫 통화"; "전화 통화"; "공동성명"; "전승절"; "관계개선"; "관계회복"; "관계악화";
   "방위비"; "정상 통화"].

(* @ packages/ontology/vocabulary.py 298-312 VOCABULARY *)
Definition EPIDEMIC_DISEASE : CatalystTypeDefinition := mk_CatalystTypeDefinition
  "EPIDEMIC_DISEASE" "감염병·질병"
  "감염병 발생·확산·방역, 가축 전염병."
  ["코로나19"; "코로나"; "확진"; "감염"; "전염병"; "감염병"; "독감"; "신종플루"; "메르스"; "조류독감";
   "조류인플루엔자"; "고병원성"; "바이러스"; "구제역"; "돼지열병"; "럼피스킨"; "폐렴"; "팬데믹"; "방역"; "우한";
   "변이"; "오미크론"; "엠폭스"; "원숭이두창"; "마이코플라스마"; "질병"; "발병"; "유행"; "격리"; "거리두기"; "살처분";
   "역병"; "의심 신고"; "조류 인플루엔자"; "인플루엔자"; "광우병"; "AI 발생"; "AI 우려"; "AI우려"; "AI 확산";
   "봉쇄"; "마스크"; "흑사병"].

(* @ packages/ontology/vocabulary.py 313-328 VOCABULARY *)
Definition DISASTER_INCIDENT : CatalystTypeDefinition := mk_CatalystTypeDefinition
  "DISASTER_INCIDENT" "재해·사고·조업차질"
  "자연재해, 화재·폭발·사고, 리콜, 파업 등 조업 차질."
  ["지진"; "화재"; "폭발"; "태풍"; "산불"; "홍수"; "폭우"; "폭염"; "한파"; "가뭄"; "미세먼지"; "황사";
   "스모그"; "오염수"; "사고"; "파열"; "붕괴"; "리콜"; "결함"; "파업"; "총파업"; "전력난"; "재난"; "재해";
   "참사"; "유출"; "디도스"; "해킹"; "랜섬웨어"; "훼손"; "산사태"; "폭설"; "침수"; "정전"; "블랙아웃";
   "폭락 사고"; "누수"; "누출"; "방사능"; "방사성"; "무더위"; "호우"; "경보"; "생산중단"; "생산 중단";
   "운항 중지"; "운항 중단"; "공장 중단"; "가동 중단"; "일시 중단"; "사망"; "장마"; "수에즈"; "후쿠시마";
   "사이버 공격"; "보안 취약"; "피해"].

(* @ packages/ontology/vocabulary.py 329-343 VOCABULARY *)
Definition LEGAL_RISK : CatalystTypeDefinition := mk_CatalystTypeDefinition
  "LEGAL_RISK" "소송·수사·논란"
  "소송·수사·구속, 담합·과징금, 의혹·논란, 제재."
  ["소송"; "검찰"; "구속"; "기소"; "압수수색"; "의혹"; "논란"; "분쟁"; "담합"; "과징금"; "벌금"; "조사";
   "수사"; "재판"; "판결"; "횡령"; "배임"; "분식회계"; "회계"; "위반"; "사법"; "투자유의"; "특혜"; "파문";
   "스캔들"; "불법"; "처벌"; "고발"; "몰수"; "구형"; "선고"; "비판"; "체포"; "혐의"; "피소"; "감리"; "합헌";
   "위헌"; "공정위"; "원가공개"; "가석방"; "범죄"].

(* @ packages/ontology/vocabulary.py 344-355 VOCABULARY *)
Definition RESTRUCTURING_CREDIT : CatalystTypeDefinition := mk_CatalystTypeDefinition
  "RESTRUCTURING_CREDIT" "구조조정·신용위험"
  "기업 구조조정, 청산·파산, 채무·자금난 등 신용 이벤트."
  ["구조조정"; "청산"; "파산"; "법정관리"; "워크아웃"; "자율협약"; "채권단"; "채무"; "부도"; "회생"; "부실";
   "자금난"; "디폴트"; "신용등급"; "유동성 위기"; "희망퇴직"; "감원"; "감자 차손"; "완전자본잠식"; "자본잠식";
   "유동성 우려"; "구조개편"; "구조 개편"; "프로젝트파이낸싱"; "미정산"; "미상환"; "구제금융"].

(* @ packages/ontology/vocabulary.py 356-368 VOCABULARY *)
Definition CAPITAL_MARKET_EVENT : CatalystTypeDefinition := mk_CatalystTypeDefinition
  "CAPITAL_MARKET_EVENT" "상장·자본·주주환원"
  "상장·IPO, 증자, 자사주·배당·주주환원, 지수 편입, 상장폐지."
  ["상장"; "상장폐지"; "IPO"; "공모"; "유상증자"; "무상증자"; "증자"; "자사주"; "소각"; "배당"; "주주환원";
   "블록딜"; "액면분할"; "인적분할"; "물적분할"; "편입"; "ETF"; "기업가치"; "증권신고서"; "ADR"; "주식 병합";
   "감자"; "스팩"; "합병 상장"; "유니콘"; "처분"; "자사주 매각"; "증시 상장"; "밸류업 지수"; "북미 상장";
   "美 증시 상장"; "수요예측"; "수요 예측"].

(* @ packages/ontology/vocabulary.py 369-380 VOCABULARY *)
Definition EVENT_CONFERENCE : CatalystTypeDefinition := mk_CatalystTypeDefinition
  "EVENT_CONFERENCE" "행사·학회·이벤트"
  "전시회·학회·컨퍼런스, 스포츠 행사 등 예정된 이벤트."
  ["전시회"; "학회"; "컨퍼런스"; "콘퍼런스"; "포럼"; "박람회"; "CES"; "모터쇼"; "올림픽"; "월드컵"; "엑스포";
   "행사"; "쇼케이스"; "데모데이"; "축제"; "총회"; "설명회"; "개최"; "AACR"; "ASCO"; "ESMO"; "개막";
   "참가"; "임상종양학회"; "투자 콘퍼런스"; "지스타"; "G-star"].

(* @ packages/ontology/vocabulary.py 381-391 VOCABULARY *)
Definition CONTENT_PERFORMANCE : CatalystTypeDefinition := mk_CatalystTypeDefinition
  "CONTENT_PERFORMANCE" "콘텐츠·흥행 성과"
  "작품·아티스트의 수상, 차트·시청 성과, 컴백, 전속 계약."
  ["수상"; "관왕"; "빌보드"; "시청률"; "호평"; "혹평"; "컴백"; "데뷔"; "앨범"; "전속"; "재계약"; "콘서트";
   "에미상"; "아카데미"; "개봉"; "박스오피스"; "음원 차트"; "완결"; "시즌"; "공연"; "관객"; "뮤비"; "억뷰";
   "K-POP"; "아티스트"; "방영"].

(* @ packages/ontology/vocabulary.py 392-403 VOCABULARY *)
Definition FLOW_TECHNICAL : CatalystTypeDefinition := mk_CatalystTypeDefinition
  "FLOW_TECHNICAL" "수급·기술적 요인"
  "차익실현·저가매수 등 가격 흐름 자체에서 나온 수급 요인."
  ["트레이드"; "차익실현"; "차익 실현"; "차익매물"; "매물"; "저가 매수"; "저가매수"; "반발 매수"; "반발매수"; "매수세";
   "낙폭과대"; "낙폭 과대"; "낙폭"; "과열"; "공매도"; "단기 급등"; "순매수"; "매도세"; "손절"; "물량 소화";
   "바닥론"; "투자심리"; "투자 심리"; "투심"; "순환매"; "기술적 반등"; "방어주"; "주가 과열"; "버블"].

(* @ packages/ontology/vocabulary.py 404-412 VOCABULARY *)
Definition STATEMENT_REMARK : CatalystTypeDefinition := mk_CatalystTypeDefinition
  "STATEMENT_REMARK" "인물 발언·구두 개입"
  "정책·기업 인사의 발언·언급 자체가 촉매인 경우."
  ["발언"; "언급"; "시사"; "강조"; "피력"; "반박"; "촉구"; "제안"; "표명"; "연설"; "서한"; "경고"; "약속";
   "천명"; "밝힘"; "제시"].

(* @ packages/ontology/vocabulary.py 413-422 VOCABULARY *)
Definition CRYPTO_ASSET : CatalystTypeDefinition := mk_CatalystTypeDefinition
  "CRYPTO_ASSET" "가상자산"
  "비트코인 등 가상자산 시세·제도 이벤트."
  ["비트코인"; "이더리움"; "가상화폐"; "가상자산"; "암호화폐"; "코인"; "디지털화폐"; "디지털자산"; "리플"; "알트코인";
   "위믹스"; "CBDC"; "디지털 달러"; "디지털 위안"; "디지털 유로"].

(* @ packages/ontology/vocabulary.py 24-24 VOCABULARY *)
Definition VOCABULARY : list CatalystTypeDefinition :=
  [POLICY_MEASURE; POLITICS_ELECTION; TRADE_TARIFF; MACRO_RATES_FX; EARNINGS;
   ORDER_CONTRACT; PARTNERSHIP; INVESTMENT_CAPACITY; MNA_STAKE; PRODUCT_TECH;
   CLINICAL_REGULATORY; PRICE_SUPPLY; DEMAND_INDUSTRY; MARKET_SYNC; ANALYST_OPINION;
   GEOPOLITICS_NK; GEOPOLITICS_GLOBAL; DIPLOMACY_SUMMIT; EPIDEMIC_DISEASE; DISASTER_INCIDENT;
   LEGAL_RISK; RESTRUCTURING_CREDIT; CAPITAL_MARKET_EVENT; EVENT_CONFERENCE; CONTENT_PERFORMANCE;
   FLOW_TECHNICAL; STATEMENT_REMARK; CRYPTO_ASSET].

(** Nouns of a subject: they count only where no word of the vocabulary gave the type. *)
(* @ packages/ontology/vocabulary.py 430-445 FALLBACK_VOCABULARY *)
Definition FALLBACK_VOCABULARY : list (string * list string) :=
  [("PRODUCT_TECH", ["로봇"; "로보택시"; "자율주행"; "OLED"; "LED"; "애플카"; "폴더블폰"; "CXL"; "초전도체"; "사이버트럭";
      "슈퍼차저"]);
   ("INVESTMENT_CAPACITY", ["인프라"; "데이터센터"; "공장"; "팹"; "파운드리"]);
   ("DEMAND_INDUSTRY", ["ESS"; "건자재"; "메타버스"; "카지노"; "게임"; "철강"]);
   ("CRYPTO_ASSET", ["블록체인"; "NFT"; "P2E"]);
   ("DIPLOMACY_SUMMIT", ["회동"]);
   ("POLICY_MEASURE", ["원전"]);
   ("CLINICAL_REGULATORY", ["줄기세포"]);
   ("ORDER_CONTRACT", ["알래스카"])].

(* @ packages/ontology/vocabulary.py 449-451 UP_DIRECTION_TOKENS *)
Definition UP_DIRECTION_TOKENS : list string :=
  ["상승"; "급등"; "강세"; "상한가"; "폭등"; "반등"; "급반등"; "오름세"].

(* @ packages/ontology/vocabulary.py 452-454 DOWN_DIRECTION_TOKENS *)
Definition DOWN_DIRECTION_TOKENS : list string :=
  ["하락"; "급락"; "약세"; "하한가"; "폭락"; "급반락"; "내림세"].

(* @ packages/ontology/vocabulary.py 455-455 MIXED_DIRECTION_TOKENS *)
Definition MIXED_DIRECTION_TOKENS : list string :=
  ["등락"; "혼조"; "희비"; "엇갈"].

(* @ packages/ontology/vocabulary.py 459-474 ANTICIPATION_MARKERS *)
Definition ANTICIPATION_MARKERS : list string :=
  ["기대감"; "기대"; "전망"; "우려감"; "우려"; "가능성"; "예정"; "예상"; "임박"; "앞두고"; "앞둔"; "추진";
   "검토"; "계획"; "관측"; "불확실성"; "불확실"; "리스크"; "부담감"; "부담"; "경계감"; "유력"; "조짐"; "모색";
   "전운"; "촉각"; "희망"; "겨냥"; "시사"; "방침"; "예고"; "가시화"; "여지"; "고조"; "구상"; "점쳐";
   "예정 소식"; "검토 소식"; "추진 소식"; "가능성 소식"; "임박 소식"; "시사 소식"; "논의 소식"; "전망 소식";
   "방침 소식"; "구상 소식"; "관측 소식"; "우려 확산"; "우려 부각"; "기대감 확산"; "기대 확산"; "공포"; "회의론";
   "고점론"; "루머"; "출마론"; "등판론"; "인수설"; "합병설"; "매각설"; "상장설"; "철수설"; "이전설"; "도입설";
   "진출설"; "합류설"; "개발설"; "피인수설"].

(* @ packages/ontology/vocabulary.py 475-489 CONFIRMED_MARKERS *)
Definition CONFIRMED_MARKERS : list string :=
  ["소식"; "발표"; "확정"; "체결"; "타결"; "합의"; "통과"; "승인"; "선정"; "결정"; "출시"; "공개"; "발생";
   "확진"; "기록"; "달성"; "경신"; "돌파"; "성공"; "시행"; "발의"; "서명"; "발동"; "개시"; "완료"; "확인";
   "발견"; "수상"; "취소"; "결렬"; "무산"; "연기"; "중단"; "해제"; "폐지"; "출범"; "임명"; "선출"; "당선";
   "가결"; "부결"; "착수"; "돌입"; "판결"; "재개"; "철회"; "면제"; "발급"; "발송"; "등극"; "매진"; "폐기";
   "부과"; "호실적"; "서프라이즈"; "쇼크"; "호조"; "부진"; "급증"; "급감"; "개최"; "도입"; "선언"; "발언";
   "발사"; "회복"; "확산"; "둔화"; "개선"; "동결"; "하향"; "상향"; "실망감"; "실망"; "입장"; "보고서"; "봉쇄";
   "완화"; "흑자"; "급등"; "급락"; "폭등"; "폭락"; "상승"; "하락"; "강세"; "약세"; "반등"; "최고치"; "최저치"].

(* @ packages/ontology/vocabulary.py 490-492 CONTINUATION_MARKERS *)
Definition CONTINUATION_MARKERS : list string :=
  ["지속"; "재부각"; "재점화"; "모멘텀"; "여파"; "연일"; "유효"; "계속"].

(* @ packages/ontology/vocabulary.py 495-529 vocabulary_content_hash *)
Definition vocabulary_content_hash : string :=
  let words l := JList (JStr <$> l) in
  sha256_hex (dumps false (JObj
    [("version", JStr VOCABULARY_VERSION);
     ("types", JList ((fun d => JObj [("typeId", JStr (ct_type_id d)); ("nameKo", JStr (ct_name_ko d));
                                      ("descriptionKo", JStr (ct_description_ko d)); ("keywords", words (ct_keywords d))])
                      <$> VOCABULARY));
     ("fallbackTypes", JList ((fun kv => JObj [("typeId", JStr kv.1); ("keywords", words kv.2)]) <$> FALLBACK_VOCABULARY));
     ("directionTokens", JObj [("up", words UP_DIRECTION_TOKENS); ("down", words DOWN_DIRECTION_TOKENS);
                               ("mixed", words MIXED_DIRECTION_TOKENS)]);
     ("certaintyMarkers", JObj [("anticipation", words ANTICIPATION_MARKERS); ("confirmed", words CONFIRMED_MARKERS)]);
     ("continuationMarkers", words CONTINUATION_MARKERS)])).

(** ** The vocabulary passes its checks *)

Lemma vocabulary_checked : mapM_res CatalystTypeDefinition_check VOCABULARY = Ok VOCABULARY.
Proof. vm_compute. reflexivity. Qed.

Definition type_ids : list string := ct_type_id <$> VOCABULARY.

Lemma type_ids_distinct : NoDup type_ids.
Proof. apply (bool_decide_unpack _). vm_compute. exact I. Qed.

Lemma fallback_types : forallb (fun kv => bool_decide (kv.1 ∈ type_ids)) FALLBACK_VOCABULARY = true.
Proof. vm_compute. reflexivity. Qed.
