(* ===== verification/CauseText.v ===== *)
(** [packages/ontology/transform.py]: one sentence that says why a theme moved, classified by
    catalyst type, direction, certainty and continuation, with the words it was read from.
    [Literal] types are the strings they stand for; texts are lists of code points. *)
From S2P Require Import Prelude PyText PyRegex Vocabulary.
#[local] Open Scope Z_scope.

(** ** Records of [packages/ontology/models.py] *)

(* @ packages/ontology/models.py 43-51 EvidenceSpan *)
Record EvidenceSpan := mk_EvidenceSpan {
  es_field : string;
  es_value : string;
  es_keyword : string;
  es_start : Z;
  es_end : Z
}.

(* @ packages/ontology/models.py 53-55 EvidenceSpan.__post_init__ *)
Definition EvidenceSpan_init (field value keyword : string) (start stop : Z) : res EvidenceSpan :=
  _ ← raise_if ((start <? 0) || (stop <=? start)) ValueError;
  Ok (mk_EvidenceSpan field value keyword start stop).

(* @ packages/ontology/models.py 58-73 ParsedCauseSentence *)
Record ParsedCauseSentence := mk_ParsedCauseSentence {
  pc_raw_text : text;
  pc_core_text : text;
  pc_core_end : nat;
  pc_tail_text : option text;
  pc_trailing_reference_text : option text;
  pc_direction_verb : option text;
  pc_direction_verb_start : option nat
}.

(* @ packages/ontology/models.py 75-79 ParsedCauseSentence.__post_init__ *)
Definition ParsedCauseSentence_check (p : ParsedCauseSentence) : res ParsedCauseSentence :=
  _ ← raise_if (length (pc_raw_text p) <? pc_core_end p)%nat ValueError;
  _ ← raise_if (match pc_direction_verb p, pc_direction_verb_start p with
                | None, Some _ | Some _, None => true
                | _, _ => false
                end) ValueError;
  Ok p.

(* @ packages/ontology/models.py 82-93 CatalystClassification *)
Record CatalystClassification := mk_CatalystClassification {
  cc_vocabulary_version : string;
  cc_transform_version : string;
  cc_type_ids : list string;
  cc_primary_type_id : option string;
  cc_direction : string;
  cc_certainty : string;
  cc_continuation : bool;
  cc_evidence_spans : list EvidenceSpan
}.

(* @ packages/ontology/models.py 95-102 CatalystClassification.__post_init__ *)
Definition CatalystClassification_check (c : CatalystClassification) : res CatalystClassification :=
  _ ← raise_if (negb (bool_decide (NoDup (cc_type_ids c)))) ValueError;
  _ ← raise_if (match cc_type_ids c with
                | t :: _ => negb (bool_decide (cc_primary_type_id c = Some t))
                | [] => negb (bool_decide (cc_primary_type_id c = None))
                end) ValueError;
  Ok c.

(** ** Patterns and word lists *)

(* @ packages/ontology/transform.py 37-37 TRANSFORM_VERSION *)
Definition TRANSFORM_VERSION : string := "catalyst-transform/1.2.0".

(** An end mark and white space before the end of the text. *)
Definition ending : list re := [spaces; opt (Chr (any_of (u ".…"))); spaces; Eos].

(* @ packages/ontology/transform.py 40-40 _TRAILING_REFERENCE_RE *)
Definition TRAILING_REFERENCE_RE : re := seqs ([lit "("; Many (none_of (u "()")); lit ")"] ++ ending).

(* @ packages/ontology/transform.py 44-49 _TAIL_RE *)
Definition TAIL_RE : re :=
  seqs ([opt (alts [seqs [Behind is_space; lit "등"; opt (alts [lit "에"; lit "으로"])]; lit "에"; lit "으로";
                    Seq (lit "속") (opt (lit "에")); lit "가운데"; lit "하며"; lit "하면서"; lit "받으며"; lit "힘입어"; lit "따라"]);
         spaces;
         Mark (alts (lit <$> ["급등"; "급락"; "급반등"; "급반락"; "상승"; "하락"; "강세"; "약세"; "폭등"; "폭락";
                              "상한가"; "하한가"; "등락"; "혼조"; "반등"; "오름세"; "내림세"]));
         opt (lit "세")] ++ ending).

(* @ packages/ontology/transform.py 50-54 _CAUSE_EVENT_SEPARATOR_RE *)
Definition CAUSE_EVENT_SEPARATOR_RE : re :=
  alts [seqs [spaces1; alts [lit "및"; lit "또는"; lit "그리고"; lit "반면"]; spaces1];
        seqs [spaces1; alts [lit "속에"; lit "속"; lit "가운데"]; spaces1];
        seqs [lit "에"; spaces1; lit "따른"; spaces1];
        seqs [lit "로"; spaces1; lit "인한"; spaces1]].

(* @ packages/ontology/transform.py 62-87 _STRONG_POLICY_MARKERS *)
Definition STRONG_POLICY_MARKERS : list string :=
  ["대책"; "방안"; "지원"; "예산"; "법안"; "개정안"; "법제화"; "규제"; "보조금"; "세액공제"; "세제"; "감세"; "비과세";
   "추경"; "행정명령"; "의무화"; "시행령"; "특별법"; "국정과제"; "시범사업"; "금지"; "불허"; "육성"; "법사위"].

(* @ packages/ontology/transform.py 88-100 _POLICY_CONTEXT_TYPES *)
Definition POLICY_CONTEXT_TYPES : list string :=
  ["POLITICS_ELECTION"; "FLOW_TECHNICAL"; "CLINICAL_REGULATORY"; "INVESTMENT_CAPACITY"; "ANALYST_OPINION";
   "DISASTER_INCIDENT"; "LEGAL_RISK"; "MNA_STAKE"; "EPIDEMIC_DISEASE"].

(* @ packages/ontology/transform.py 101-110 _MARKET_INDEX_MARKERS *)
Definition MARKET_INDEX_MARKERS : list string :=
  ["필라델피아"; "반도체지수"; "반도체 지수"; "나스닥"; "다우"; "증시"; "코스피"; "코스닥"].

(** ** Parsing *)

(** [text.find] from 0, then from one after each position found. *)
(* @ packages/ontology/transform.py 113-119 _find_all *)
Definition find_all (t : text) (needle : string) (stop : nat) : list nat := find_loop (S stop) (u needle) t 0 stop.

(* @ packages/ontology/transform.py 122-124 _same_cause_event *)
Definition same_cause_event (t : text) (first second : nat) : bool :=
  match search CAUSE_EVENT_SEPARATOR_RE t (Nat.min first second) (Nat.max first second) with None => true | Some _ => false end.

Definition slice (t : text) (start stop : nat) : text := take (stop - start) (drop start t).

(* @ packages/ontology/transform.py 127-154 parse_cause_sentence *)
Definition parse_cause_sentence (raw_text : text) : res ParsedCauseSentence :=
  let reference_match := search TRAILING_REFERENCE_RE raw_text 0 (length raw_text) in
  let body_end := match reference_match with Some m => m_start m | None => length raw_text end in
  let trailing_reference := (fun m => strip_text (slice raw_text (m_start m) (m_end m))) <$> reference_match in
  let tail_match := search TAIL_RE raw_text 0 body_end in
  let '(core_end, tail, verb) :=
    match tail_match with
    | Some m =>
        if (0 <? m_start m)%nat
        then (m_start m, Some (strip_text (slice raw_text (m_start m) (m_end m))), m_group m)
        else (body_end, None, None)
    | None => (body_end, None, None)
    end in
  ParsedCauseSentence_check
    (mk_ParsedCauseSentence raw_text (strip_text (take core_end raw_text)) core_end tail trailing_reference
       ((fun g => slice raw_text g.1 g.2) <$> verb) (fst <$> verb)).

(** ** Direction, certainty, continuation *)

Definition len (keyword : string) : Z := Z.of_nat (length (u keyword)).

(** Where the tokens stand, with the token. *)
Definition positions (t : text) (tokens : list string) (stop : nat) : list (Z * string) :=
  tokens ≫= fun token => (fun i => (Z.of_nat i, token)) <$> find_all t token stop.

(* @ packages/ontology/transform.py 157-162 _direction_of *)
Definition direction_of (token : string) : string :=
  if bool_decide (token ∈ UP_DIRECTION_TOKENS) then "UP"
  else if bool_decide (token ∈ DOWN_DIRECTION_TOKENS) then "DOWN" else "MIXED".

(** The span of a token at a position. *)
Definition span_at (field value : string) (at_ : Z * string) : res EvidenceSpan :=
  EvidenceSpan_init field value at_.2 at_.1 (at_.1 + len at_.2).

(* @ packages/ontology/transform.py 165-204 _classify_direction *)
Definition classify_direction (p : ParsedCauseSentence) : res (string * list EvidenceSpan) :=
  let t := pc_raw_text p in
  let scan_end := match pc_tail_text p with None => pc_core_end p | Some tail => (pc_core_end p + length tail + 8)%nat end in
  match positions t MIXED_DIRECTION_TOKENS (Nat.min scan_end (length t)) with
  | m :: ms => s ← span_at "direction" "MIXED" (min_of m ms); Ok ("MIXED", [s])
  | [] =>
      match pc_direction_verb p, pc_direction_verb_start p with
      | Some verb, Some start =>
          let verb := to_str verb in
          s ← span_at "direction" (direction_of verb) (Z.of_nat start, verb); Ok (direction_of verb, [s])
      | _, _ =>
          match positions t (UP_DIRECTION_TOKENS ++ DOWN_DIRECTION_TOKENS) (length t) with
          | [] => Ok ("UNKNOWN", [])
          | m :: ms => let last := max_of m ms in
                       s ← span_at "direction" (direction_of last.2) last; Ok (direction_of last.2, [s])
          end
      end
  end.

(** Position, length, certainty and marker. *)
(* @ packages/ontology/transform.py 207-228 _classify_certainty *)
Definition certainty_candidates (p : ParsedCauseSentence) : list (Z * Z * string * string) :=
  [("ANTICIPATION", ANTICIPATION_MARKERS); ("CONFIRMED", CONFIRMED_MARKERS)] ≫= fun family =>
    (fun m => (m.1, len m.2, family.1, m.2)) <$> positions (pc_raw_text p) family.2 (pc_core_end p).

(* @ packages/ontology/transform.py 207-228 _classify_certainty *)
Definition classify_certainty (p : ParsedCauseSentence) : res (string * list EvidenceSpan) :=
  match certainty_candidates p with
  | [] => Ok ("UNSPECIFIED", [])
  | c :: cs =>
      let '(position, length, certainty, marker) := max_by (fun '(position, length, _, _) => (position + length, length)) c cs in
      s ← EvidenceSpan_init "certainty" certainty marker position (position + length); Ok (certainty, [s])
  end.

(* @ packages/ontology/transform.py 231-245 _classify_continuation *)
Definition classify_continuation (p : ParsedCauseSentence) : res (bool * list EvidenceSpan) :=
  let found := @omap list _ _ _ (fun marker => (fun i => (Z.of_nat i, marker)) <$> head (find_all (pc_raw_text p) marker (pc_core_end p)))
                 CONTINUATION_MARKERS in
  match found with
  | [] => Ok (false, [])
  | m :: ms => s ← span_at "continuation" "CONTINUATION" (min_of m ms); Ok (true, [s])
  end.

(** ** Types *)

(** Position, minus the length, rank of the type, type and keyword. *)
Definition type_match : Type := Z * Z * Z * string * string.
Definition tm_start (m : type_match) : Z := let '(p, _, _, _, _) := m in p.
Definition tm_end (m : type_match) : Z := let '(p, n, _, _, _) := m in p - n.
Definition tm_type (m : type_match) : string := let '(_, _, _, t, _) := m in t.
Definition tm_keyword (m : type_match) : string := let '(_, _, _, _, k) := m in k.

(* @ packages/ontology/transform.py 248-337 _classify_types *)
Definition vocabulary_matches (t : text) (core_end : nat) : list type_match :=
  sorted_by id
    (imap (fun rank d => (Z.of_nat rank, d)) VOCABULARY ≫= fun rd =>
       (fun m => (m.1, - len m.2, rd.1, ct_type_id rd.2, m.2)) <$> positions t (ct_keywords rd.2) core_end).

(** A match is taken unless an earlier one has claimed its place. *)
(* @ packages/ontology/transform.py 248-337 _classify_types *)
Fixpoint accept (claimed_end : Z) (matches : list type_match) : list type_match :=
  match matches with
  | [] => []
  | m :: matches =>
      if tm_start m <? claimed_end then accept claimed_end matches
      else m :: accept (tm_end m) matches
  end.

(* @ packages/ontology/transform.py 248-337 _classify_types *)
Definition add_new (ids : list string) (t : string) : list string := if bool_decide (t ∈ ids) then ids else ids ++ [t].

(** Position, minus the length, type and keyword of the nouns of a subject. *)
(* @ packages/ontology/transform.py 248-337 _classify_types *)
Definition fallback_matches (t : text) (core_end : nat) : list (Z * Z * string * string) :=
  sorted_by id (FALLBACK_VOCABULARY ≫= fun kv =>
    (fun m => (m.1, - len m.2, kv.1, m.2)) <$> positions t kv.2 core_end).

(* @ packages/ontology/transform.py 248-337 _classify_types *)
Fixpoint add_fallback (ids : list string) (spans : list EvidenceSpan) (matches : list (Z * Z * string * string))
    : res (list string * list EvidenceSpan) :=
  match matches with
  | [] => Ok (ids, spans)
  | (position, negative_length, type_id, keyword) :: matches =>
      if bool_decide (type_id ∈ ids) then add_fallback ids spans matches
      else s ← EvidenceSpan_init "catalyst_type" type_id keyword position (position - negative_length);
           add_fallback (ids ++ [type_id]) (spans ++ [s]) matches
  end.

(** [l.remove(x)]: the first one. *)
Fixpoint remove_first (x : string) (l : list string) : list string :=
  match l with [] => [] | y :: l => if bool_decide (y = x) then l else y :: remove_first x l end.
Definition move_first (x : string) (l : list string) : list string := x :: remove_first x l.

(** Which type comes first. *)
(* @ packages/ontology/transform.py 248-337 _classify_types *)
Definition promote (t : text) (core_end : nat) (ids : list string) (spans : list EvidenceSpan) : list string :=
  match ids with
  | [] => []
  | primary :: _ =>
      let core := take core_end t in
      let primary_starts := es_start <$> List.filter (fun s => bool_decide (es_value s = primary)) spans in
      let policy_starts := STRONG_POLICY_MARKERS ≫= fun marker => find_all core marker (length core) in
      let policy_is_same_event :=
        match primary_starts with
        | [] => false
        | s :: ss => existsb (fun position => same_cause_event core (Z.to_nat (min_of s ss)) position) policy_starts
        end in
      if bool_decide (primary ∈ POLICY_CONTEXT_TYPES) && bool_decide ("POLICY_MEASURE" ∈ ids) && policy_is_same_event
      then move_first "POLICY_MEASURE" ids
      else if bool_decide (primary = "FLOW_TECHNICAL") && bool_decide ("MARKET_SYNC" ∈ ids) &&
              existsb (fun marker => contains (u marker) core) MARKET_INDEX_MARKERS
      then move_first "MARKET_SYNC" ids
      else ids
  end.

(* @ packages/ontology/transform.py 248-337 _classify_types *)
Definition classify_types (p : ParsedCauseSentence) : res (list string * list EvidenceSpan) :=
  let t := pc_raw_text p in
  let accepted := accept (-1) (vocabulary_matches t (pc_core_end p)) in
  let ids := fold_left add_new (tm_type <$> accepted) [] in
  spans ← mapM_res (fun m => EvidenceSpan_init "catalyst_type" (tm_type m) (tm_keyword m) (tm_start m) (tm_end m)) accepted;
  '(ids, spans) ← add_fallback ids spans (fallback_matches t (pc_core_end p));
  '(ids, spans) ← match ids, positions t (UP_DIRECTION_TOKENS ++ DOWN_DIRECTION_TOKENS) (pc_core_end p) with
                  | [], m :: ms => s ← span_at "catalyst_type" "MARKET_SYNC" (min_of m ms);
                                   Ok (["MARKET_SYNC"], spans ++ [s])
                  | _, _ => Ok (ids, spans)
                  end;
  Ok (promote t (pc_core_end p) ids spans, spans).

(* @ packages/ontology/transform.py 340-362 classify_catalyst *)
Definition classify_catalyst (raw_text : string) : res CatalystClassification :=
  parsed ← parse_cause_sentence (u raw_text);
  '(type_ids, type_spans) ← classify_types parsed;
  '(direction, direction_spans) ← classify_direction parsed;
  '(certainty, certainty_spans) ← classify_certainty parsed;
  '(continuation, continuation_spans) ← classify_continuation parsed;
  CatalystClassification_check
    (mk_CatalystClassification VOCABULARY_VERSION TRANSFORM_VERSION type_ids (head type_ids) direction certainty continuation
       (type_spans ++ direction_spans ++ certainty_spans ++ continuation_spans)).

(** ** Whether a topic stands in the right clause *)

(* @ packages/ontology/transform.py 372-372 _CLAUSE_SPLIT_RE *)
Definition CLAUSE_SPLIT_RE : re := seqs [space; lit "및"; space].
(* @ packages/ontology/transform.py 375-375 _CONSEQUENCE_RE *)
Definition CONSEQUENCE_RE : re := alts [seqs [lit "에"; spaces; lit "따른"]; seqs [lit "에"; spaces; lit "따라"]].
(* @ packages/ontology/transform.py 377-377 _LEADER_TAIL_RE *)
Definition LEADER_TAIL_RE : re := Seq (lit "(") (alts [lit "주도주"; lit "관련주"]).

(* @ packages/ontology/transform.py 380-383 _FOREIGN_MARKERS *)
Definition FOREIGN_MARKERS : list string :=
  ["美"; "미국"; "트럼프"; "바이든"; "백악관"; "머스크"; "中"; "중국"; "日"; "일본"; "EU"; "유럽"; "해외"; "한미"; "한·미"].
(* @ packages/ontology/transform.py 385-390 _KOREAN_GOV_AGENTS *)
Definition KOREAN_GOV_AGENTS : list string :=
  ["정부"; "국회"; "국무회의"; "국무총리"; "대통령"; "당국"; "지자체"; "서울시"; "산업부"; "산업통상자원부"; "국토부";
   "국토교통부"; "과기정통부"; "과학기술정보통신부"; "기재부"; "기획재정부"; "중기부"; "중소벤처기업부"; "금융위"; "금감원";
   "고용노동부"; "복지부"; "교육부"; "행안부"].
(* @ packages/ontology/transform.py 392-396 _POLICY_ACTIONS *)
Definition POLICY_ACTIONS : list string :=
  ["발표"; "추진"; "시행"; "수립"; "마련"; "확정"; "투입"; "조성"; "지정"; "육성"; "지원"; "검토"; "논의"; "정비"; "통과";
   "제정"; "개정"; "정책"; "대책"; "예산"].

(* @ packages/ontology/transform.py 398-400 _KEYWORDS_BY_TYPE *)
Definition KEYWORDS_BY_TYPE : dict string (list string) := (fun d => (ct_type_id d, ct_keywords d)) <$> VOCABULARY.

Definition has_any (words : list string) (t : text) : bool := existsb (fun w => contains (u w) t) words.

(** [casefold] stands for [str.casefold]. *)
(* @ packages/ontology/transform.py 403-432 topic_clause_match *)
Definition clause_fits (casefold : text -> text) (topic : text) (catalyst_type_id : option string) (clause : text) : bool :=
  contains (casefold topic) (casefold (split_first CONSEQUENCE_RE clause)) &&
  if bool_decide (catalyst_type_id = Some "POLICY_MEASURE")
  then negb (has_any FOREIGN_MARKERS clause) && has_any KOREAN_GOV_AGENTS clause && has_any POLICY_ACTIONS clause
  else let keywords := default [] (dget (default "" catalyst_type_id) KEYWORDS_BY_TYPE) in
       bool_decide (keywords = []) || has_any keywords clause.

(* @ packages/ontology/transform.py 403-432 topic_clause_match *)
Definition topic_clause_match (casefold : text -> text) (evidence_text topic : string) (catalyst_type_id : option string) : bool :=
  is_empty topic ||
  existsb (clause_fits casefold (u topic) catalyst_type_id) (split CLAUSE_SPLIT_RE (split_first LEADER_TAIL_RE (u evidence_text))).

(** ** What is found stands in the text *)

(** The characters from a start to an end are a keyword. *)
Definition stands (t : text) (keyword : string) (start stop : Z) : Prop :=
  0 <= start < stop /\ stop <= Z.of_nat (length t) /\ slice t (Z.to_nat start) (Z.to_nat stop) = u keyword.
Definition quotes (t : text) (s : EvidenceSpan) : Prop := stands t (es_keyword s) (es_start s) (es_end s).

Definition all_words : list string :=
  (VOCABULARY ≫= ct_keywords) ++ (FALLBACK_VOCABULARY ≫= snd) ++ UP_DIRECTION_TOKENS ++ DOWN_DIRECTION_TOKENS ++
  MIXED_DIRECTION_TOKENS ++ ANTICIPATION_MARKERS ++ CONFIRMED_MARKERS ++ CONTINUATION_MARKERS.

Lemma words_not_empty : forallb (fun w => (0 <? length (u w))%nat) all_words = true.
Proof. vm_compute. reflexivity. Qed.

Lemma word_len w : w ∈ all_words -> 0 < len w.
Proof.
  intros Hw. pose proof words_not_empty as H. rewrite forallb_forall in H.
  apply list_elem_of_In, H, Nat.ltb_lt in Hw. unfold len. lia.
Qed.

Lemma elem_of_find_all t w stop i : i ∈ find_all t w stop <-> (i <= stop)%nat /\ occurs (u w) t stop i.
Proof. unfold find_all. rewrite find_loop_spec by lia. split; [intros (_&?&?); done|]. intros []. split_and!; [lia|done|done]. Qed.

Lemma elem_of_positions t tokens stop m :
  m ∈ positions t tokens stop <-> m.2 ∈ tokens /\ exists i, m.1 = Z.of_nat i /\ (i <= stop)%nat /\ occurs (u m.2) t stop i.
Proof.
  unfold positions. rewrite list_elem_of_bind. split.
  - intros (token&Hm&Htok). apply list_elem_of_fmap in Hm as (i&->&Hi%elem_of_find_all). cbn. split; [done|]. by exists i.
  - destruct m as [z token]. cbn. intros (Htok&i&->&Hi). exists token. split; [|done].
    apply list_elem_of_fmap. exists i. split; [done|]. by apply elem_of_find_all.
Qed.

Lemma occurs_stands t w stop i :
  occurs (u w) t stop i -> 0 < len w -> stands t w (Z.of_nat i) (Z.of_nat i + len w) /\ Z.of_nat i + len w <= Z.of_nat stop.
Proof.
  intros (H1&H2&H3) Hlen. unfold stands, len in *. split_and!; try lia.
  unfold slice. by replace (Z.to_nat (Z.of_nat i + Z.of_nat (length (u w))) - Z.to_nat (Z.of_nat i))%nat
    with (length (u w)) by lia; rewrite Nat2Z.id.
Qed.

Lemma position_stands t tokens stop m :
  m ∈ positions t tokens stop -> (forall w, w ∈ tokens -> w ∈ all_words) ->
  stands t m.2 m.1 (m.1 + len m.2) /\ m.1 + len m.2 <= Z.of_nat stop.
Proof.
  intros (Hw&i&->&_&Hi)%elem_of_positions Hall. apply occurs_stands; [done|]. by apply word_len, Hall.
Qed.

Lemma span_init t field value keyword start stop :
  stands t keyword start stop ->
  EvidenceSpan_init field value keyword start stop = Ok (mk_EvidenceSpan field value keyword start stop) /\
  quotes t (mk_EvidenceSpan field value keyword start stop).
Proof.
  intros H. split; [|exact H]. destruct H as [[H1 H2] _]. unfold EvidenceSpan_init.
  destruct (Z.ltb_spec start 0); [lia|]. destruct (Z.leb_spec stop start); [lia|]. done.
Qed.

(** [r] returns a span of this field and value that quotes the text. *)
Lemma span_at_ok t tokens stop field value m :
  m ∈ positions t tokens stop -> (forall w, w ∈ tokens -> w ∈ all_words) ->
  exists s, span_at field value m = Ok s /\ quotes t s /\ es_field s = field /\ es_value s = value.
Proof.
  intros Hm Hall. pose proof (proj1 (position_stands t tokens stop m Hm Hall)) as Hs.
  apply (span_init t field value) in Hs as [E Hq]. eexists. split; [exact E|]. done.
Qed.

(** ** The parsed sentence *)

Definition direction_verbs : list string :=
  ["급등"; "급락"; "급반등"; "급반락"; "상승"; "하락"; "강세"; "약세"; "폭등"; "폭락"; "상한가"; "하한가"; "등락"; "혼조"; "반등";
   "오름세"; "내림세"].

Lemma tail_marks : marks TAIL_RE = [alts (lit <$> direction_verbs)].
Proof. reflexivity. Qed.
Lemma verb_len : min_len (alts (lit <$> direction_verbs)) = 2%nat.
Proof. reflexivity. Qed.

Record parsed (t : text) (p : ParsedCauseSentence) : Prop := {
  pa_raw : pc_raw_text p = t;
  pa_core : (pc_core_end p <= length t)%nat;
  pa_verb : match pc_direction_verb p, pc_direction_verb_start p with
            | Some verb, Some start => exists stop, (start < stop <= length t)%nat /\ verb = slice t start stop
            | None, None => True
            | _, _ => False
            end
}.

#[local] Opaque TAIL_RE TRAILING_REFERENCE_RE.

Lemma parsed_check t p : parsed t p -> ParsedCauseSentence_check p = Ok p.
Proof.
  intros [Hraw Hcore Hverb]. unfold ParsedCauseSentence_check. rewrite Hraw.
  destruct (Nat.ltb_spec (length t) (pc_core_end p)); [lia|].
  by destruct (pc_direction_verb p), (pc_direction_verb_start p).
Qed.

Lemma parse_ok t : exists p, parse_cause_sentence t = Ok p /\ parsed t p.
Proof.
  unfold parse_cause_sentence.
  set (body_end := match search TRAILING_REFERENCE_RE t 0 (length t) with Some m => m_start m | None => length t end).
  assert (body_end <= length t)%nat as Hbody.
  { unfold body_end. pose proof (search_spec TRAILING_REFERENCE_RE t 0 (length t)) as H.
    destruct (search _ _ _ _) as [m|]; [|done]. destruct H as (?&?&_). rewrite firstn_all in *. lia. }
  pose proof (search_spec TAIL_RE t 0 body_end) as H. destruct (search TAIL_RE t 0 body_end) as [m|].
  2: { eexists. split; [apply (parsed_check t)|]; by split. }
  destruct H as (H1&H2&_&_&Hg). rewrite length_take in H2. destruct (Nat.ltb_spec 0 (m_start m)).
  2: { eexists. split; [apply (parsed_check t)|]; by split. }
  assert (forall p, pc_raw_text p = t -> pc_core_end p = m_start m ->
            pc_direction_verb p = ((fun g => slice t g.1 g.2) <$> m_group m) -> pc_direction_verb_start p = (fst <$> m_group m) ->
            parsed t p) as Hp.
  { intros p Hraw Hcore Hv Hs. split; [done|lia|]. rewrite Hv, Hs. destruct Hg as [->|(a&b&q&->&Hq&Hm&Hab&Hb)]; [done|].
    cbn. exists b. rewrite tail_marks in Hq. apply list_elem_of_singleton in Hq as ->.
    apply min_len_spec in Hm. rewrite verb_len in Hm. split; [lia|done]. }
  eexists. split; [apply (parsed_check t)|]; by apply Hp.
Qed.

(** ** Every axis is classified, with its evidence *)

Definition characters (t : text) : Prop := Forall (fun c => (c < 1114112)%N) t.

Lemma encode_char_bytes c : (c < 1114112)%N -> Forall (fun b => (b < 256)%N) (encode_char c).
Proof.
  intros Hc. unfold encode_char. assert (forall x, x mod 64 < 64)%N as Hm by (intros x; by apply N.mod_lt).
  pose proof (Hm c). pose proof (Hm (c / 64)%N). pose proof (Hm (c / 4096)%N).
  destruct (N.ltb_spec c 128); [repeat constructor; lia|].
  destruct (N.ltb_spec c 2048).
  { assert (c / 64 < 32)%N by (apply N.Div0.div_lt_upper_bound; lia). repeat constructor; lia. }
  destruct (N.ltb_spec c 65536).
  { assert (c / 4096 < 16)%N by (apply N.Div0.div_lt_upper_bound; lia). repeat constructor; lia. }
  assert (c / 262144 < 5)%N by (apply N.Div0.div_lt_upper_bound; lia). repeat constructor; lia.
Qed.

Lemma bytes_of_list l : Forall (fun b => (b < 256)%N) l -> bytes_of (String.string_of_list_ascii (ascii_of_N <$> l)) = l.
Proof.
  intros H. unfold bytes_of. rewrite String.list_ascii_of_string_of_list_ascii.
  induction H as [|b l Hb _ IH]; [done|]. rewrite !fmap_cons, IH. f_equal. by apply Ascii.N_ascii_embedding.
Qed.

Lemma u_to_str t : characters t -> u (to_str t) = t.
Proof.
  intros H. unfold u, to_str. rewrite bytes_of_list; [by apply decode_encode|].
  apply Forall_bind. eapply Forall_impl; [exact H|]. intros c Hc. by apply encode_char_bytes.
Qed.

Definition classified {A} (t : text) (field : string) (r : res (A * list EvidenceSpan)) : Prop :=
  exists a spans, r = Ok (a, spans) /\ Forall (fun s => quotes t s /\ es_field s = field) spans.

Lemma span_exists t field value keyword start stop :
  stands t keyword start stop ->
  exists s, EvidenceSpan_init field value keyword start stop = Ok s /\ quotes t s /\ es_field s = field.
Proof. intros H. eexists. apply (span_init t field value) in H as [E Hq]. split; [exact E|]. by split. Qed.

Lemma words_in (l : list string) : forallb (fun w => bool_decide (w ∈ all_words)) l = true -> forall w, w ∈ l -> w ∈ all_words.
Proof. intros H w Hw. rewrite forallb_forall in H. apply list_elem_of_In, H in Hw. by apply bool_decide_eq_true in Hw. Qed.

Lemma mixed_words w : w ∈ MIXED_DIRECTION_TOKENS -> w ∈ all_words.
Proof. revert w. apply words_in. vm_compute. reflexivity. Qed.
Lemma direction_words w : w ∈ UP_DIRECTION_TOKENS ++ DOWN_DIRECTION_TOKENS -> w ∈ all_words.
Proof. revert w. apply words_in. vm_compute. reflexivity. Qed.
Lemma continuation_words w : w ∈ CONTINUATION_MARKERS -> w ∈ all_words.
Proof. revert w. apply words_in. vm_compute. reflexivity. Qed.
Lemma certainty_words w : w ∈ ANTICIPATION_MARKERS ++ CONFIRMED_MARKERS -> w ∈ all_words.
Proof. revert w. apply words_in. vm_compute. reflexivity. Qed.

Lemma one_span {A} (a : A) t field r :
  (exists s, r = Ok s /\ quotes t s /\ es_field s = field) -> classified t field (s ← r; Ok (a, [s])).
Proof. intros (s&->&Hs). exists a, [s]. split; [done|]. by apply Forall_singleton. Qed.

Lemma classify_direction_ok t p : parsed t p -> characters t -> classified t "direction" (classify_direction p).
Proof.
  intros [Hraw Hcore Hverb] Ht. unfold classify_direction. rewrite Hraw.
  set (scan_end := Nat.min _ _). destruct (positions t MIXED_DIRECTION_TOKENS scan_end) as [|m ms] eqn:Em.
  - destruct (pc_direction_verb p) as [verb|], (pc_direction_verb_start p) as [start|]; try done.
    + destruct Hverb as (stop&Hs&->). apply one_span.
      assert (u (to_str (slice t start stop)) = slice t start stop) as E.
      { apply u_to_str. unfold slice. by apply Forall_take, Forall_drop. }
      assert (length (slice t start stop) = stop - start)%nat as El
        by (unfold slice; rewrite length_take, length_drop; lia).
      unfold span_at, len; cbn [fst snd]. rewrite E, El. apply (span_exists t). unfold stands.
      split_and!; [lia|lia|lia|]. rewrite E. f_equal; lia.
    + destruct (positions t (_ ++ _) _) as [|m ms] eqn:E; [by exists "UNKNOWN", []|].
      apply one_span. edestruct (span_at_ok t (UP_DIRECTION_TOKENS ++ DOWN_DIRECTION_TOKENS) (length t) "direction"
        (direction_of (max_of m ms).2) (max_of m ms)) as (s&Hs&Hq&Hf&_); [rewrite E; apply fold_pymax_in|apply direction_words|].
      by exists s.
  - apply one_span. edestruct (span_at_ok t MIXED_DIRECTION_TOKENS scan_end "direction" "MIXED" (min_of m ms)) as (s&Hs&Hq&Hf&_);
      [rewrite Em; apply fold_pymin_in|apply mixed_words|]. by exists s.
Qed.

Lemma classify_continuation_ok t p : parsed t p -> classified t "continuation" (classify_continuation p).
Proof.
  intros [Hraw _ _]. unfold classify_continuation. rewrite Hraw. destruct (omap _ _) as [|m ms] eqn:E; [by exists false, []|].
  apply one_span. pose proof (fold_pymin_in m ms) as Hin. rewrite <-E in Hin.
  apply list_elem_of_omap in Hin as (marker&Hmark&Hm).
  destruct (find_all t marker (pc_core_end p)) as [|i l] eqn:Ef; [done|]. cbn in Hm. injection Hm as Hm.
  edestruct (span_at_ok t [marker] (pc_core_end p) "continuation" "CONTINUATION" (min_of m ms)) as (s&Hs&Hq&Hf&_).
  - rewrite <-Hm. apply elem_of_positions. cbn. split; [by left|]. exists i. split; [done|]. apply elem_of_find_all. rewrite Ef. by left.
  - intros w ->%list_elem_of_singleton. by apply continuation_words.
  - by exists s.
Qed.

Lemma classify_certainty_ok t p : parsed t p -> classified t "certainty" (classify_certainty p).
Proof.
  intros [Hraw _ _]. unfold classify_certainty.
  destruct (certainty_candidates p) as [|c cs] eqn:E; [by exists "UNSPECIFIED", []|].
  set (best := max_by _ c cs). assert (best ∈ certainty_candidates p) as Hin by (rewrite E; apply max_by_in).
  clearbody best. unfold certainty_candidates in Hin. rewrite Hraw in Hin. apply list_elem_of_bind in Hin as (family&Hm&Hf).
  apply list_elem_of_fmap in Hm as (m&->&Hm). apply one_span.
  assert (forall w, w ∈ family.2 -> w ∈ all_words) as Hw.
  { intros w Hw. apply certainty_words, elem_of_app. apply elem_of_cons in Hf as [->|Hf]; [by left|].
    apply list_elem_of_singleton in Hf as ->. by right. }
  apply (span_exists t). by apply (position_stands t family.2 (pc_core_end p)).
Qed.

Lemma keyword_word d w : d ∈ VOCABULARY -> w ∈ ct_keywords d -> w ∈ all_words.
Proof. intros Hd Hw. apply elem_of_app. left. apply list_elem_of_bind. by exists d. Qed.
Lemma fallback_word kv w : kv ∈ FALLBACK_VOCABULARY -> w ∈ kv.2 -> w ∈ all_words.
Proof. intros Hk Hw. apply elem_of_app. right. apply elem_of_app. left. apply list_elem_of_bind. by exists kv. Qed.

Lemma elem_of_ranked {A} (l : list A) x rank : (rank, x) ∈ imap (fun r d => (Z.of_nat r, d)) l -> x ∈ l.
Proof. intros (i&y&[= -> ->]&Hi)%elem_of_lookup_imap. by eapply list_elem_of_lookup_2. Qed.

(** The matches are the occurrences of the keywords within the body. *)
Lemma elem_of_vocabulary_matches t core_end m :
  m ∈ vocabulary_matches t core_end ->
  exists d, d ∈ VOCABULARY /\ tm_type m = ct_type_id d /\ tm_keyword m ∈ ct_keywords d /\
    tm_end m = tm_start m + len (tm_keyword m) /\ 0 < len (tm_keyword m) /\
    stands t (tm_keyword m) (tm_start m) (tm_end m) /\ tm_end m <= Z.of_nat core_end.
Proof.
  unfold vocabulary_matches. rewrite elem_of_sorted_by. intros ([rank d]&Hm&Hd)%list_elem_of_bind.
  apply list_elem_of_fmap in Hm as (x&->&Hx). apply elem_of_ranked in Hd. cbn [fst snd tm_type tm_keyword tm_start tm_end] in *.
  exists d. pose proof (proj1 (proj1 (elem_of_positions _ _ _ _) Hx)) as Hk. do 3 (split; [done|]). split; [lia|].
  split; [by apply word_len, (keyword_word d)|].
  replace (x.1 - - len x.2) with (x.1 + len x.2) by lia. apply (position_stands t (ct_keywords d) core_end x Hx).
  intros w. by apply keyword_word.
Qed.

Lemma occurrence_matches t core_end d w i :
  d ∈ VOCABULARY -> w ∈ ct_keywords d -> (i <= core_end)%nat -> occurs (u w) t core_end i ->
  exists m, m ∈ vocabulary_matches t core_end /\ tm_start m = Z.of_nat i /\ tm_keyword m = w /\ tm_type m = ct_type_id d.
Proof.
  intros Hd Hw Hi Hocc. apply list_elem_of_lookup in Hd as [rank Hd].
  exists (Z.of_nat i, - len w, Z.of_nat rank, ct_type_id d, w). split; [|done].
  unfold vocabulary_matches. apply elem_of_sorted_by, list_elem_of_bind. exists (Z.of_nat rank, d). split.
  - apply list_elem_of_fmap. exists (Z.of_nat i, w). split; [done|]. apply elem_of_positions. cbn. split; [done|]. by exists i.
  - apply elem_of_lookup_imap. by exists rank, d.
Qed.

Lemma accept_sublist c ms : accept c ms `sublist_of` ms.
Proof.
  revert c; induction ms as [|m ms IH]; intros c; cbn [accept]; [done|].
  destruct (tm_start m <? c); [by apply sublist_cons|by apply sublist_skip].
Qed.

Lemma accept_elem c ms m : m ∈ accept c ms -> m ∈ ms.
Proof. apply (sublist_subseteq _ _ (accept_sublist c ms)). Qed.

(** What is accepted lies side by side, from the place already claimed on. *)
Lemma accept_disjoint c ms :
  Forall (fun m => tm_start m < tm_end m) ms ->
  StronglySorted (fun a b => tm_end a <= tm_start b) (accept c ms) /\ Forall (fun m => c <= tm_start m) (accept c ms).
Proof.
  intros H. revert c. induction H as [|m ms Hm Hms IH]; intros c; cbn [accept]; [split; constructor|].
  destruct (Z.ltb_spec (tm_start m) c); [apply IH|]. destruct (IH (tm_end m)) as [H1 H2]. split.
  - constructor; [done|exact H2].
  - constructor; [lia|]. eapply Forall_impl; [exact H2|]. cbn. lia.
Qed.

(** What is not accepted overlaps something that is, and comes after it in the order. *)
Lemma accept_maximal c ms m :
  StronglySorted (fun a b => pyle a b = true) ms -> m ∈ ms ->
  m ∈ accept c ms \/ tm_start m < c \/ exists m', m' ∈ accept c ms /\ pyle m' m = true /\ tm_start m < tm_end m'.
Proof.
  intros Hs. revert c. induction Hs as [|x ms Hms IH Hx]; intros c Hm; [by apply elem_of_nil in Hm|].
  cbn [accept]. apply elem_of_cons in Hm as [->|Hm].
  - destruct (Z.ltb_spec (tm_start x) c); [by right; left|]. left. by left.
  - destruct (Z.ltb_spec (tm_start x) c); [by apply IH|].
    destruct (IH (tm_end x) Hm) as [Hin|[Hlt|(m'&Hm'&Hle&Hlt)]].
    + left. by right.
    + right; right. exists x. split; [by left|]. split; [|done]. rewrite Forall_forall in Hx. by apply Hx.
    + right; right. exists m'. split; [by right|done].
Qed.

(** Earlier, or in the same place and at least as long. *)
Lemma type_match_order m m' :
  pyle m' m = true -> tm_start m' < tm_start m \/ tm_start m' = tm_start m /\ tm_end m <= tm_end m'.
Proof.
  destruct m as [[[[p n] r] k] w], m' as [[[[p' n'] r'] k'] w']. cbn [tm_start tm_end].
  unfold pyle, pycmp, prod_pyord, lex, pycmp, Z_pyord. cbn [fst snd].
  destruct (Z.compare_spec p' p) as [->|?|?]; [|by left|done].
  destruct (Z.compare_spec n' n) as [->|?|?]; intros Hle; [right; split; [done|lia]..|done].
Qed.

Lemma elem_of_fallback_matches t core_end m :
  m ∈ fallback_matches t core_end ->
  exists kv x, m = (x.1, - len x.2, kv.1, x.2) /\ kv ∈ FALLBACK_VOCABULARY /\ x ∈ positions t kv.2 core_end.
Proof.
  unfold fallback_matches. rewrite elem_of_sorted_by. intros (kv&Hm&Hkv)%list_elem_of_bind.
  apply list_elem_of_fmap in Hm as (x&->&Hx). by exists kv, x.
Qed.

Lemma vocabulary_sorted t core_end : StronglySorted (fun a b => pyle a b = true) (vocabulary_matches t core_end).
Proof. apply sorted_by_sorted. Qed.

Lemma known_type d : d ∈ VOCABULARY -> ct_type_id d ∈ type_ids.
Proof. intros Hd. apply list_elem_of_fmap. by exists d. Qed.
Lemma market_sync_known : "MARKET_SYNC" ∈ type_ids.
Proof. apply (bool_decide_unpack _). vm_compute. exact I. Qed.

#[local] Opaque VOCABULARY FALLBACK_VOCABULARY type_ids vocabulary_matches fallback_matches.

(** What is said of types and their spans. *)
Record typed (t : text) (core_end : nat) (ids : list string) (spans : list EvidenceSpan) : Prop := {
  ty_nodup : NoDup ids;
  ty_known : forall i, i ∈ ids -> i ∈ type_ids;
  ty_quotes : Forall (fun s => quotes t s /\ es_end s <= Z.of_nat core_end) spans;
  ty_spans : Forall (fun s => es_field s = "catalyst_type" /\ es_value s ∈ ids) spans;
  ty_evidence : forall i, i ∈ ids -> exists s, s ∈ spans /\ es_value s = i
}.

Lemma elem_of_add_new ids ts x : x ∈ fold_left add_new ts ids <-> x ∈ ids \/ x ∈ ts.
Proof.
  revert ids; induction ts as [|y ts IH]; intros ids; cbn [fold_left].
  - split; [by left|]. intros [?|?%elem_of_nil]; done.
  - rewrite IH. unfold add_new. rewrite elem_of_cons. case_bool_decide as Hy; [set_solver|].
    rewrite elem_of_app, list_elem_of_singleton. tauto.
Qed.

Lemma NoDup_add_new ids ts : NoDup ids -> NoDup (fold_left add_new ts ids).
Proof.
  revert ids; induction ts as [|y ts IH]; intros ids H; [done|]. cbn [fold_left]. apply IH. unfold add_new.
  case_bool_decide as Hy; [done|]. apply NoDup_app. split_and!; [done| |apply NoDup_singleton].
  intros z Hz ->%list_elem_of_singleton. done.
Qed.

Lemma vocabulary_typed t core_end :
  let accepted := accept (-1) (vocabulary_matches t core_end) in
  exists spans,
    mapM_res (fun m => EvidenceSpan_init "catalyst_type" (tm_type m) (tm_keyword m) (tm_start m) (tm_end m)) accepted = Ok spans /\
    typed t core_end (fold_left add_new (tm_type <$> accepted) []) spans.
Proof.
  intros accepted. exists ((fun m => mk_EvidenceSpan "catalyst_type" (tm_type m) (tm_keyword m) (tm_start m) (tm_end m)) <$> accepted).
  assert (forall m, m ∈ accepted -> exists d, d ∈ VOCABULARY /\ tm_type m = ct_type_id d /\
            stands t (tm_keyword m) (tm_start m) (tm_end m) /\ tm_end m <= Z.of_nat core_end) as Hacc.
  { intros m Hm. apply accept_elem, elem_of_vocabulary_matches in Hm as (d&?&?&_&_&_&?&?). by exists d. }
  split.
  - apply mapM_res_Forall2, Forall2_fmap_r, Forall_Forall2_diag, Forall_forall. intros m Hm.
    destruct (Hacc m Hm) as (d&_&_&Hst&_). by apply (span_init t).
  - split.
    + by apply NoDup_add_new, NoDup_nil_2.
    + intros i. rewrite elem_of_add_new. intros [?%elem_of_nil|Hi]; [done|]. apply list_elem_of_fmap in Hi as (m&->&Hm).
      destruct (Hacc m Hm) as (d&Hd&->&_). by apply known_type.
    + apply Forall_fmap, Forall_forall. intros m Hm. destruct (Hacc m Hm) as (d&_&_&Hst&Hend). by split.
    + apply Forall_fmap, Forall_forall. intros m Hm. split; [reflexivity|]. apply elem_of_add_new. right.
      apply list_elem_of_fmap. by exists m.
    + intros i. rewrite elem_of_add_new. intros [?%elem_of_nil|Hi]; [done|]. apply list_elem_of_fmap in Hi as (m&->&Hm).
      eexists. split; [apply list_elem_of_fmap; exists m; split; [reflexivity|exact Hm]|reflexivity].
Qed.

(** One more type with a span of its own. *)
Lemma typed_snoc t core_end ids spans i s :
  typed t core_end ids spans -> i ∈ type_ids -> i ∉ ids -> quotes t s -> es_end s <= Z.of_nat core_end ->
  es_field s = "catalyst_type" -> es_value s = i -> typed t core_end (ids ++ [i]) (spans ++ [s]).
Proof.
  intros [H1 H2 H3 H4 H5] Hi Hn Hq He Hf Hv. split.
  - apply NoDup_app. split_and!; [done| |apply NoDup_singleton]. by intros x Hx ->%list_elem_of_singleton.
  - intros x [Hx|Hx]%elem_of_app; [by apply H2|]. by apply list_elem_of_singleton in Hx as ->.
  - apply Forall_app. split; [done|]. by apply Forall_singleton.
  - apply Forall_app. split; [|apply Forall_singleton; split; [done|rewrite Hv, elem_of_app, list_elem_of_singleton; by right]].
    eapply Forall_impl; [exact H4|]. intros x [? ?]. split; [done|]. apply elem_of_app. by left.
  - intros x [Hx|Hx]%elem_of_app.
    + destruct (H5 x Hx) as (y&Hy&<-). exists y. split; [|done]. apply elem_of_app. by left.
    + apply list_elem_of_singleton in Hx as ->. exists s. split; [|done]. apply elem_of_app. right. by left.
Qed.

Lemma fallback_known kv : kv ∈ FALLBACK_VOCABULARY -> kv.1 ∈ type_ids.
Proof.
  pose proof fallback_types as H. rewrite forallb_forall in H. intros Hk. apply list_elem_of_In, H in Hk.
  by apply bool_decide_eq_true in Hk.
Qed.

Lemma add_fallback_typed t core_end ms ids spans :
  (forall m, m ∈ ms -> m ∈ fallback_matches t core_end) -> typed t core_end ids spans ->
  exists ids' spans', add_fallback ids spans ms = Ok (ids', spans') /\ typed t core_end ids' spans'.
Proof.
  revert ids spans; induction ms as [|[[[p n] i] w] ms IH]; intros ids spans Hms Ht; cbn [add_fallback].
  - exists ids, spans. by split.
  - assert (forall m, m ∈ ms -> m ∈ fallback_matches t core_end) as Hms' by (intros m Hm; apply Hms; by right).
    case_bool_decide as Hi; [by apply IH|].
    specialize (Hms _ ltac:(by left)). apply elem_of_fallback_matches in Hms as (kv&x&[= -> -> -> ->]&Hkv&Hx).
    destruct (position_stands t kv.2 core_end x Hx) as [Hst Hend]; [intros w; by apply fallback_word|].
    replace (x.1 - - len x.2) with (x.1 + len x.2) by lia.
    destruct (span_init t "catalyst_type" kv.1 x.2 _ _ Hst) as [-> Hq]. cbn [mbind res_bind].
    apply IH; [done|]. apply typed_snoc; try done. by apply fallback_known.
Qed.

Lemma move_first_perm x l : x ∈ l -> move_first x l ≡ₚ l.
Proof.
  intros Hx. unfold move_first. induction l as [|y l IH]; [by apply elem_of_nil in Hx|]. cbn [remove_first].
  case_bool_decide as E; [by rewrite E|]. apply elem_of_cons in Hx as [->|Hx]; [done|].
  rewrite Permutation_swap. by rewrite IH.
Qed.

Lemma typed_perm t core_end ids ids' spans : ids' ≡ₚ ids -> typed t core_end ids spans -> typed t core_end ids' spans.
Proof.
  intros E [H1 H2 H3 H4 H5]. split.
  - by rewrite E.
  - intros i. rewrite E. apply H2.
  - done.
  - eapply Forall_impl; [exact H4|]. intros s. by rewrite E.
  - intros i. rewrite E. apply H5.
Qed.

(** Promotion only moves a type to the front. *)
Lemma promote_perm t core_end ids spans : promote t core_end ids spans ≡ₚ ids.
Proof.
  unfold promote. destruct ids as [|primary rest] eqn:E; [done|]. rewrite <-E.
  match goal with |- (if ?a then _ else _) ≡ₚ _ => destruct a eqn:Ha end.
  - apply move_first_perm. rewrite !andb_true_iff, !bool_decide_eq_true in Ha. apply Ha.
  - match goal with |- (if ?a then _ else _) ≡ₚ _ => destruct a eqn:Hb end; [|done].
    apply move_first_perm. rewrite !andb_true_iff, !bool_decide_eq_true in Hb. apply Hb.
Qed.

Lemma classify_types_ok t p :
  parsed t p -> exists ids spans, classify_types p = Ok (ids, spans) /\ typed t (pc_core_end p) ids spans.
Proof.
  intros [Hraw _ _]. unfold classify_types. rewrite Hraw.
  destruct (vocabulary_typed t (pc_core_end p)) as (spans&->&Ht). cbn [mbind res_bind].
  destruct (add_fallback_typed t (pc_core_end p) (fallback_matches t (pc_core_end p)) _ _ (fun m H => H) Ht) as (ids'&spans'&->&Ht').
  cbn [mbind res_bind].
  assert (exists ids2 spans2,
    match ids', positions t (UP_DIRECTION_TOKENS ++ DOWN_DIRECTION_TOKENS) (pc_core_end p) with
    | [], m :: ms => s ← span_at "catalyst_type" "MARKET_SYNC" (min_of m ms); Ok (["MARKET_SYNC"], spans' ++ [s])
    | _, _ => Ok (ids', spans')
    end = Ok (ids2, spans2) /\ typed t (pc_core_end p) ids2 spans2) as (ids2&spans2&->&Ht2).
  { destruct ids' as [|i l]; [|by exists (i :: l), spans'].
    destruct (positions t _ _) as [|m ms] eqn:Em; [by exists [], spans'|].
    pose proof (fold_pymin_in m ms) as Hin. rewrite <-Em in Hin.
    destruct (position_stands t _ _ _ Hin direction_words) as [Hst Hend].
    destruct (span_init t "catalyst_type" "MARKET_SYNC" (min_of m ms).2 _ _ Hst) as [E Hq].
    eexists ["MARKET_SYNC"], _. unfold span_at. rewrite E. cbn [mbind res_bind]. split; [reflexivity|].
    apply (typed_snoc t _ [] spans' "MARKET_SYNC"); try done; [exact market_sync_known|by apply not_elem_of_nil]. }
  cbn [mbind res_bind]. eexists _, spans2. split; [reflexivity|]. eapply typed_perm; [apply promote_perm|exact Ht2].
Qed.

Lemma checked c :
  NoDup (cc_type_ids c) -> cc_primary_type_id c = head (cc_type_ids c) -> CatalystClassification_check c = Ok c.
Proof.
  intros Hnd Hp. unfold CatalystClassification_check. rewrite (bool_decide_eq_true_2 (NoDup _) Hnd), Hp.
  destruct (cc_type_ids c) as [|i l]; cbn [negb raise_if mbind res_bind head]; by rewrite bool_decide_eq_true_2 by reflexivity.
Qed.

(** C22: A sentence is always classified, and quotes what it was classified by.  For every text
    the classification passes all its checks: each piece of evidence is a word that stands
    between its offsets in the text, the types are different types of the vocabulary, the first
    of them is the primary one, and each has a word of evidence. *)
Theorem classification_quotes_text raw_text :
  characters (u raw_text) ->
  exists c, classify_catalyst raw_text = Ok c /\
    Forall (quotes (u raw_text)) (cc_evidence_spans c) /\
    NoDup (cc_type_ids c) /\ (forall i, i ∈ cc_type_ids c -> i ∈ type_ids) /\
    cc_primary_type_id c = head (cc_type_ids c) /\
    forall i, i ∈ cc_type_ids c <->
      exists s, s ∈ cc_evidence_spans c /\ es_field s = "catalyst_type" /\ es_value s = i.
Proof.
  intros Ht. unfold classify_catalyst. destruct (parse_ok (u raw_text)) as (p&->&Hp). cbn [mbind res_bind].
  destruct (classify_types_ok _ _ Hp) as (ids&tspans&->&[Hnd Hknown Hq Hspans Hev]). cbn [mbind res_bind].
  destruct (classify_direction_ok _ _ Hp Ht) as (direction&dspans&->&Hd). cbn [mbind res_bind].
  destruct (classify_certainty_ok _ _ Hp) as (certainty&cspans&->&Hc). cbn [mbind res_bind].
  destruct (classify_continuation_ok _ _ Hp) as (continuation&nspans&->&Hn). cbn [mbind res_bind].
  assert (forall s, s ∈ tspans ++ dspans ++ cspans ++ nspans ->
            quotes (u raw_text) s /\ (es_field s = "catalyst_type" -> s ∈ tspans)) as Hall.
  { rewrite !Forall_forall in *.
    intros s. rewrite !elem_of_app. intros [Hs|[Hs|[Hs|Hs]]]; [split; [apply Hq|]; done|..].
    - destruct (Hd s Hs) as [Hs' ->]. by split.
    - destruct (Hc s Hs) as [Hs' ->]. by split.
    - destruct (Hn s Hs) as [Hs' ->]. by split. }
  eexists. split; [apply checked; [exact Hnd|reflexivity]|]. cbn [cc_evidence_spans cc_type_ids cc_primary_type_id].
  split; [apply Forall_forall; intros s Hs; by apply Hall|]. do 3 (split; [done|]).
  intros i. split.
  - intros Hi. destruct (Hev i Hi) as (s&Hs&Hv). rewrite Forall_forall in Hspans. exists s.
    split; [by apply elem_of_app; left|]. split; [by apply Hspans|done].
  - intros (s&Hs&Hf&<-). rewrite Forall_forall in Hspans. by apply Hspans, Hall.
Qed.

(** The matches that are taken as types. *)
Definition taken (t : text) (core_end : nat) : list type_match := accept (-1) (vocabulary_matches t core_end).

(** C23: The types are read leftmost and longest.  The words taken are occurrences of keywords of
    their types within the body, side by side; and every other occurrence of a keyword there
    overlaps a word that was taken and that begins earlier, or in the same place and is at least
    as long. *)
Theorem types_leftmost_longest t core_end :
  Forall (fun m => stands t (tm_keyword m) (tm_start m) (tm_end m) /\ tm_end m <= Z.of_nat core_end /\
            exists d, d ∈ VOCABULARY /\ tm_type m = ct_type_id d /\ tm_keyword m ∈ ct_keywords d) (taken t core_end) /\
  StronglySorted (fun a b => tm_end a <= tm_start b) (taken t core_end) /\
  forall d w i, d ∈ VOCABULARY -> w ∈ ct_keywords d -> (i <= core_end)%nat -> occurs (u w) t core_end i ->
    (exists m, m ∈ taken t core_end /\ tm_start m = Z.of_nat i /\ tm_keyword m = w /\ tm_type m = ct_type_id d) \/
    exists m, m ∈ taken t core_end /\ Z.of_nat i < tm_end m /\
      (tm_start m < Z.of_nat i \/ tm_start m = Z.of_nat i /\ Z.of_nat i + len w <= tm_end m).
Proof.
  split; [|split].
  - apply Forall_forall. intros m Hm. apply accept_elem, elem_of_vocabulary_matches in Hm as (d&?&?&?&_&_&?&?).
    do 2 (split; [done|]). by exists d.
  - apply accept_disjoint, Forall_forall. intros m Hm. apply elem_of_vocabulary_matches in Hm as (d&_&_&_&?&?&_). lia.
  - intros d w i Hd Hw Hi Hocc. destruct (occurrence_matches t core_end d w i Hd Hw Hi Hocc) as (m&Hm&Hs&Hk&Hty).
    destruct (accept_maximal (-1) (vocabulary_matches t core_end) m) as [Hin|[Hlt|(m'&Hm'&Hle&Hlt)]]; [|done|..].
    + apply vocabulary_sorted.
    + left. by exists m.
    + lia.
    + right. exists m'. split; [done|]. rewrite Hs in Hlt. split; [done|]. apply type_match_order in Hle.
      apply elem_of_vocabulary_matches in Hm as (d'&_&_&_&He&_). rewrite Hs in *. rewrite He, Hk in Hle. exact Hle.
Qed.

Definition demo_cause : string := "정부, 원전 육성 정책 발표 기대감에 상승 (주도주 : 두산에너빌리티)".

Example demo_classified :
  (fun c => (cc_type_ids c, cc_direction c, cc_certainty c, cc_continuation c,
             (fun s => (es_keyword s, es_start s, es_end s)) <$> cc_evidence_spans c)) <$> classify_catalyst demo_cause =
  Ok (["POLICY_MEASURE"], "UP", "ANTICIPATION", false,
      [("정부", 0, 2); ("육성", 7, 9); ("정책", 10, 12); ("상승", 21, 23); ("기대감", 16, 19)]).
Proof. vm_compute. reflexivity. Qed.

Lemma classification_quotes_text_witness :
  characters (u demo_cause) /\ exists c, classify_catalyst demo_cause = Ok c /\ Forall (quotes (u demo_cause)) (cc_evidence_spans c).
Proof.
  assert (characters (u demo_cause)) as H by (apply (bool_decide_unpack _); vm_compute; exact I).
  split; [exact H|]. destruct (classification_quotes_text demo_cause H) as (c&E&Hq&_). exists c. by split.
Defined.

Example demo_topic :
  topic_clause_match id "정부 로봇 정책 발표 및 로봇주 ETF 편입 (주도주 : 클로봇)" "로봇" (Some "POLICY_MEASURE") = true /\
  topic_clause_match id "노란봉투법 시행 및 로봇주 ETF 편입" "로봇" (Some "POLICY_MEASURE") = false.
Proof. vm_compute. split; reflexivity. Qed.

#[local] Transparent VOCABULARY.

Lemma demo_occurs : (10 <= 20)%nat /\ occurs (u "정책") (u demo_cause) 20 10.
Proof. vm_compute. split_and!; lia || reflexivity. Qed.

Lemma types_leftmost_longest_witness :
  POLICY_MEASURE ∈ VOCABULARY /\ "정책" ∈ ct_keywords POLICY_MEASURE /\
  exists m, m ∈ taken (u demo_cause) 20 /\ tm_start m <= 10 < tm_end m.
Proof.
  assert (POLICY_MEASURE ∈ VOCABULARY) as Hd by (by left).
  assert ("정책" ∈ ct_keywords POLICY_MEASURE) as Hw by (by right; left).
  split; [exact Hd|]. split; [exact Hw|].
  destruct (types_leftmost_longest (u demo_cause) 20) as (_&_&H).
  destruct (H POLICY_MEASURE "정책" 10%nat Hd Hw (proj1 demo_occurs) (proj2 demo_occurs)) as [(m&Hm&Hs&Hk&_)|(m&Hm&He&Hs)];
    exists m; (split; [exact Hm|]).
  - apply accept_elem, elem_of_vocabulary_matches in Hm as (_&_&_&_&He&Hl&_). lia.
  - lia.
Defined.
