(* ===== verification/HistoricalMatching.v ===== *)
(** [packages/historical_matching/engine.py]: past events of a theme that resemble today's, with
    what happened after them.  A response is the record of its keys; a set is a list whose
    order is never seen.  [str.isdigit] beyond ASCII is not modelled. *)
From S2P Require Import Prelude Hoare Sha256 PyTime PyDecimal PyFloat JsonRead PyText Vocabulary CauseText InfostockModels.
#[local] Open Scope Z_scope.

(* @ packages/historical_matching/engine.py 27-27 HORIZONS *)
Definition HORIZONS : list Z := [1; 5; 20].
(* @ packages/historical_matching/engine.py 30-30 MAX_ITEMS *)
Definition MAX_ITEMS : nat := 20.
(* @ packages/historical_matching/engine.py 36-36 MIN_SCORE *)
Definition MIN_SCORE : double := of_ratio 35 100.
(* @ packages/historical_matching/engine.py 38-38 PRIMARY_WEIGHT *)
Definition PRIMARY_WEIGHT : double := of_ratio 45 100.
(* @ packages/historical_matching/engine.py 39-39 OVERLAP_WEIGHT *)
Definition OVERLAP_WEIGHT : double := of_ratio 25 100.
(* @ packages/historical_matching/engine.py 40-40 DIRECTION_WEIGHT *)
Definition DIRECTION_WEIGHT : double := of_ratio 15 100.
(* @ packages/historical_matching/engine.py 41-41 CERTAINTY_WEIGHT *)
Definition CERTAINTY_WEIGHT : double := of_ratio 5 100.
(* @ packages/historical_matching/engine.py 42-42 LEADER_WEIGHT *)
Definition LEADER_WEIGHT : double := of_ratio 10 100.
(* @ packages/historical_matching/engine.py 44-44 _TYPE_NAMES *)
Definition TYPE_NAMES : dict string string := (fun d => (ct_type_id d, ct_name_ko d)) <$> VOCABULARY.

(** Daily prices, as the engine reads them: the base date and close, the returns of the horizons
    in percent, and why one is missing. *)
(* @ packages/historical_matching/engine.py 47-48 OutcomeSource *)
Class OutcomeSource (O : Type) := {
  os_returns : O -> string -> date -> list Z -> res (option date * option dec * dict Z (option dec) * option string);
  os_daily_return : O -> string -> date -> res (option dec)
}.
(* @ packages/historical_matching/engine.py 501-502 SameDaySource *)
Class SameDaySource (O : Type) := { sd_basket_daily_return : O -> list string -> date -> res (option dec) }.

(** ** Today and the past *)

(* @ packages/historical_matching/engine.py 59-66 TodayContext *)
Record TodayContext := mk_TodayContext {
  tc_ordered_type_ids : list string;
  tc_direction : string;
  tc_certainty : string;
  tc_leader_codes : list string
}.

(* @ packages/historical_matching/engine.py 77-90 PastCase *)
Record PastCase := mk_PastCase {
  ca_matched_event_id : string;
  ca_theme_id : string;
  ca_display_name_at_event : string;
  ca_market_date : date;
  ca_catalyst_summary : string;
  ca_ordered_type_ids : list string;
  ca_direction : string;
  ca_certainty : string;
  ca_leaders : list (string * string);
  ca_members : list (string * string)
}.

(** [ordered_type_ids[0]] *)
(* @ packages/historical_matching/engine.py 96-98 PastCase.primary_type_id *)
Definition primary_type_id (c : PastCase) : res string :=
  match ca_ordered_type_ids c with t :: _ => Ok t | [] => Raise IndexError end.
(* @ packages/historical_matching/engine.py 100-102 PastCase.leader_codes *)
Definition leader_codes (c : PastCase) : list string := remove_dups (fst <$> ca_leaders c).
(* @ packages/historical_matching/engine.py 104-114 PastCase.basket *)
Definition basket (c : PastCase) : list (string * string) := match ca_members c with [] => ca_leaders c | l => l end.

(* @ packages/historical_matching/engine.py 117-121 ScoredCase *)
Record ScoredCase := mk_ScoredCase { sc_case : PastCase; sc_score : double; sc_reasons : list string }.

Definition any_of (cs : text) (c : N) : bool := existsb (N.eqb c) cs.
(** Without the parenthesis that lists the stocks. *)
(* @ packages/historical_matching/engine.py 124-133 _catalyst_summary *)
Definition catalyst_summary (raw_text : string) : string :=
  let t := strip_text (u raw_text) in
  let cut marker := match rfind (u marker) t with Some (S n) => Some (strip_of (any_of (u " .…")) (take (S n) t)) | _ => None end in
  let t := match cut "(주도주" with
           | Some t => t
           | None => match cut "(관련주" with Some t => t | None => t end
           end in
  to_str (match t with [] => strip_text (u raw_text) | _ => t end).

(* @ packages/historical_matching/engine.py 136-140 _matched_event_id *)
Definition matched_event_id (source_theme_id source_history_key : string) : string :=
  "evt_hist_" +:+ source_theme_id +:+ "_" +:+ str_take 16 (sha256_hex (source_theme_id +:+ "|" +:+ source_history_key)).

(** [s.split(sep)] *)
Fixpoint split_on (sep : ascii) (s : list ascii) : list (list ascii) :=
  match s with
  | [] => [[]]
  | a :: s => if decide (a = sep) then [] :: split_on sep s
              else match split_on sep s with w :: ws => (a :: w) :: ws | [] => [[a]] end
  end.
Definition c_underscore : ascii := chr 95.

(* @ packages/historical_matching/engine.py 143-147 _theme_number *)
Definition theme_number (matched_event_id : string) : option string :=
  match String.string_of_list_ascii <$> split_on c_underscore (String.list_ascii_of_string matched_event_id) with
  | [evt; hist; number; _] =>
      if bool_decide (evt = "evt") && bool_decide (hist = "hist") && negb (is_empty number) then Some number else None
  | _ => None
  end.

(** The stocks that have a code and a name. *)
(* @ packages/historical_matching/engine.py 150-181 _past_case *)
Definition named (references : list StockReference) : list (string * string) :=
  @omap list _ _ _ (fun r => match sr_stock_code r with
                             | Some code => if is_empty code || is_empty (sr_name r) then None else Some (code, sr_name r)
                             | None => None
                             end) references.

(* @ packages/historical_matching/engine.py 150-181 _past_case *)
Definition past_case (detail : ThemeDetail) (history : ThemeHistory) (theme_id : string) : res (option PastCase) :=
  match th_event_date history with
  | None => Ok None
  | Some event_date =>
      if is_blank (th_raw_text history) then Ok None
      else
        classification ← classify_catalyst (th_raw_text history);
        match cc_type_ids classification with
        | [] => Ok None
        | type_ids =>
            Ok (Some (mk_PastCase (matched_event_id (td_source_theme_id detail) (th_source_history_key history))
                        theme_id (td_theme_name detail) event_date (catalyst_summary (th_raw_text history)) type_ids
                        (cc_direction classification) (cc_certainty classification)
                        (named (th_leaders history)) (named (th_member_stocks history))))
        end
  end.

(** ** The index of a theme's cases *)

(* @ packages/historical_matching/engine.py 187-189 HistoricalCaseIndex.__init__ *)
Record HistoricalCaseIndex := mk_HistoricalCaseIndex {
  ci_details : dict string ThemeDetail;
  ci_cases : dict string (list PastCase)
}.

(* @ packages/historical_matching/engine.py 187-189 HistoricalCaseIndex.__init__ *)
Definition case_index (details : list ThemeDetail) : HistoricalCaseIndex :=
  mk_HistoricalCaseIndex (fold_left (fun d detail => dset (td_source_theme_id detail) detail d) details []) [].

(* @ packages/historical_matching/engine.py 191-193 HistoricalCaseIndex.theme_ids *)
Definition theme_ids (index : HistoricalCaseIndex) : list string := (fun number => "thm_" +:+ number) <$> dkeys (ci_details index).

Definition keep_cases (theme_id : string) (l : list PastCase) : M HistoricalCaseIndex unit := fun i =>
  (Ok tt, mk_HistoricalCaseIndex (ci_details i) (dset theme_id l (ci_cases i))).

(* @ packages/historical_matching/engine.py 195-211 HistoricalCaseIndex.cases *)
Definition cases (theme_id : string) : M HistoricalCaseIndex (list PastCase) :=
  index ← get_st;
  match dget theme_id (ci_cases index) with
  | Some cached => mret cached
  | None =>
      match dget (remove_prefix "thm_" theme_id) (ci_details index) with
      | None => _ ← keep_cases theme_id []; mret []
      | Some detail =>
          found ← lift (mapM_res (fun history => past_case detail history theme_id) (td_history detail));
          let l := @omap list _ _ _ id found in
          _ ← keep_cases theme_id l;
          mret l
      end
  end.

(* @ packages/historical_matching/engine.py 213-220 HistoricalCaseIndex.case *)
Definition case (event_id : string) : M HistoricalCaseIndex (option PastCase) :=
  index ← get_st;
  match theme_number event_id with
  | None => mret None
  | Some number =>
      if negb (dmem number (ci_details index)) then mret None
      else
        l ← cases ("thm_" +:+ number);
        mret (List.find (fun c => bool_decide (ca_matched_event_id c = event_id)) l)
  end.

(* @ packages/historical_matching/engine.py 223-238 today_context *)
Definition today_context (catalyst_text : option string) (leaders : list string) : res (option TodayContext) :=
  match catalyst_text with
  | None => Ok None
  | Some t =>
      if is_blank t then Ok None
      else
        classification ← classify_catalyst t;
        match cc_type_ids classification with
        | [] => Ok None
        | type_ids => Ok (Some (mk_TodayContext type_ids (cc_direction classification) (cc_certainty classification)
                                  (remove_dups (List.filter (fun code => negb (is_empty code)) leaders))))
        end
  end.

(** ** Scores *)

Definition both (l k : list string) : list string := List.filter (fun x => bool_decide (x ∈ k)) (remove_dups l).
Definition either (l k : list string) : list string := remove_dups (l ++ k).
Definition size (l : list string) : Z := Z.of_nat (length l).

(** The primary types are there when a type is shared. *)
(* @ packages/historical_matching/engine.py 241-261 _score *)
Definition score (today : TodayContext) (c : PastCase) : res (option ScoredCase) :=
  let shared := both (tc_ordered_type_ids today) (ca_ordered_type_ids c) in
  if bool_decide (shared = []) then Ok None
  else
    let score := fmul OVERLAP_WEIGHT (of_ratio (size shared) (size (either (tc_ordered_type_ids today) (ca_ordered_type_ids c)))) in
    names ← mapM_res (fun t => item_get t TYPE_NAMES)
              (List.filter (fun t => bool_decide (t ∈ shared)) (tc_ordered_type_ids today));
    let '(score, reasons) := if bool_decide (head (tc_ordered_type_ids today) = head (ca_ordered_type_ids c))
                             then (fadd score PRIMARY_WEIGHT, "같은 주 소재" :: names) else (score, names) in
    let '(score, reasons) := if bool_decide (tc_direction today = ca_direction c) && negb (bool_decide (ca_direction c = "UNKNOWN"))
                             then (fadd score DIRECTION_WEIGHT, reasons ++ ["같은 방향"]) else (score, reasons) in
    let score := if bool_decide (tc_certainty today = ca_certainty c) && negb (bool_decide (ca_certainty c = "UNSPECIFIED"))
                 then fadd score CERTAINTY_WEIGHT else score in
    let overlap := both (tc_leader_codes today) (leader_codes c) in
    let '(score, reasons) := if negb (bool_decide (overlap = [])) && negb (bool_decide (tc_leader_codes today = []))
                             then (fadd score (fmul LEADER_WEIGHT (of_ratio (size overlap) (size (tc_leader_codes today)))),
                                   reasons ++ ["주도주 중첩"])
                             else (score, reasons) in
    Ok (Some (mk_ScoredCase c score reasons)).

(** Best score first, then the latest, then by id. *)
(* @ packages/historical_matching/engine.py 264-287 rank_cases *)
Definition rank_key (s : ScoredCase) : double * Z * string :=
  (- sc_score s, - ca_market_date (sc_case s), ca_matched_event_id (sc_case s)).

(* @ packages/historical_matching/engine.py 264-287 rank_cases *)
Definition rank_cases (today : TodayContext) (l : list PastCase) (before : date) (limit : nat) : res (list ScoredCase) :=
  results ← mapM_res (score today) (List.filter (fun c => ca_market_date c <? before) l);
  let scored := List.filter (fun s => MIN_SCORE <=? sc_score s) (@omap list _ _ _ id results) in
  Ok (take limit (sorted_by rank_key scored)).

(** ** Outcomes *)

(** A percentage as a ratio. *)
(* @ packages/historical_matching/engine.py 290-293 _ratio *)
Definition ratio (value : option dec) : option double := (fun v => fround (fdiv (of_dec v) (of_int 100)) 6) <$> value.

(** [horizonTradingDays], [return], [status], [unavailableReason] *)
Record OutcomeRow := mk_OutcomeRow {
  ow_horizon : Z;
  ow_return : option double;
  ow_status : string;
  ow_unavailable_reason : option string
}.

(* @ packages/historical_matching/engine.py 296-305 _unavailable *)
Definition unavailable (reason : string) : list OutcomeRow :=
  (fun horizon => mk_OutcomeRow horizon None "UNAVAILABLE" (Some reason)) <$> HORIZONS.

Definition PricedStock : Type := string * string * dict Z (option dec).

(** [eligibleCount], [observedCount], ... of a horizon *)
Record SummaryRow := mk_SummaryRow {
  sm_horizon : Z;
  sm_eligible_count : Z;
  sm_observed_count : Z;
  sm_positive_count : Z;
  sm_median_return : option double
}.

Definition count {A} (l : list A) : Z := Z.of_nat (length l).
Definition median_of (l : list double) : option double := match l with [] => None | _ => Some (fround (median l) 6) end.

(** The returns of a horizon that were observed. *)
(* @ packages/historical_matching/engine.py 364-391 _summary *)
Definition observed_at (horizon : Z) (outcomes : list OutcomeRow) : list double :=
  @omap list _ _ _ (fun o => if (ow_horizon o =? horizon) && bool_decide (ow_status o = "OBSERVED") then ow_return o else None) outcomes.

Definition summary_row (horizon eligible : Z) (observed : list double) : SummaryRow :=
  mk_SummaryRow horizon eligible (count observed) (count (List.filter (fun value => 0 <? value) observed)) (median_of observed).

Section outcomes.
Context {O : Type} `{OutcomeSource O}.

(* @ packages/historical_matching/engine.py 308-323 _priced_basket *)
Definition priced_basket (c : PastCase) (source : option O) : res (list PricedStock) :=
  match source with
  | None => Ok []
  | Some source =>
      rows ← mapM_res (fun stock =>
               '(_, base_close, computed, _) ← os_returns source stock.1 (ca_market_date c) HORIZONS;
               Ok (match base_close with Some _ => Some (stock.1, stock.2, computed) | None => None end : option PricedStock))
             (basket c);
      Ok (@omap list _ _ _ id rows)
  end.

(** The mean over the stocks whose return is known. *)
(* @ packages/historical_matching/engine.py 326-361 _outcomes *)
Definition outcome_row (priced : list PricedStock) (horizon : Z) : res OutcomeRow :=
  let values := @omap list _ _ _ (fun s : PricedStock => default None (dget horizon s.2)) priced in
  average ← match values with
            | [] => Ok None
            | _ => a ← ddiv default_prec (dsum default_prec values) (dec_of_Z (count values)); Ok (Some a)
            end;
  let value := ratio average in
  Ok (mk_OutcomeRow horizon value (match value with Some _ => "OBSERVED" | None => "PENDING" end) None).

(* @ packages/historical_matching/engine.py 326-361 _outcomes *)
Definition outcomes_of (c : PastCase) (source : option O) (priced : option (list PricedStock)) : res (list OutcomeRow) :=
  match source with
  | None => Ok (unavailable "NO_PRICE_SOURCE")
  | Some _ =>
      match basket c with
      | [] => Ok (unavailable "NO_HISTORICAL_MEMBERS")
      | _ =>
          priced ← match priced with None => priced_basket c source | Some l => Ok l end;
          match priced with
          | [] => Ok (unavailable "NO_PRICE_ON_OR_BEFORE_EVENT")
          | _ => mapM_res (outcome_row priced) HORIZONS
          end
      end
  end.

(** ** Similar events *)

Record SimilarItem := mk_SimilarItem {
  si_matched_event_id : string;
  si_market_date : date;
  si_display_name_at_event : string;
  si_normalized_catalyst_summary : string;
  si_similarity_reasons : list string;
  si_outcomes : list OutcomeRow
}.

(** [nextCursor] is always [None]. *)
Record Page := mk_Page { pg_has_more : bool; pg_limit : nat }.

Record SimilarEvents := mk_SimilarEvents {
  se_event_id : string;
  se_decision_at : string;
  se_availability : string;
  se_summary : list SummaryRow;
  se_items : list SimilarItem;
  se_page : Page
}.

(** [value.astimezone(UTC).isoformat(timespec="milliseconds").replace("+00:00", "Z")] *)
(* @ packages/historical_matching/engine.py 486-491 _timestamp *)
Definition timestamp_ms (d : datetime) : string :=
  let us := instant d mod us_per_day in
  String.string_of_list_ascii
    (iso_date_chars (instant d / us_per_day + 1) ++ [c_T] ++ iso_time_chars (us / 1000000 * 1000000) ++
     [c_dot] ++ pad 3 (us / 1000 mod 1000) ++ [c_Z]).

(* @ packages/historical_matching/engine.py 364-391 _summary *)
Definition summary (items : list SimilarItem) : list SummaryRow :=
  (fun horizon => summary_row horizon (count items) (items ≫= fun item => observed_at horizon (si_outcomes item))) <$> HORIZONS.

(* @ packages/historical_matching/engine.py 394-441 similar_events_data *)
Definition similar_item (outcomes : option O) (s : ScoredCase) : res SimilarItem :=
  let c := sc_case s in
  rows ← outcomes_of c outcomes None;
  Ok (mk_SimilarItem (ca_matched_event_id c) (ca_market_date c) (ca_display_name_at_event c) (ca_catalyst_summary c)
        (sc_reasons s) rows).

(* @ packages/historical_matching/engine.py 394-441 similar_events_data *)
Definition similar_events_data (event_id theme_id : string) (today : option TodayContext) (outcomes : option O)
    (decision_at : datetime) (market_date : date) (limit : nat) : M HistoricalCaseIndex SimilarEvents :=
  match today with
  | None => mret (mk_SimilarEvents event_id (timestamp_ms decision_at) "UNAVAILABLE" [] [] (mk_Page false limit))
  | Some today =>
      l ← cases theme_id;
      ranked ← lift (rank_cases today l market_date (S limit));
      items ← lift (mapM_res (similar_item outcomes) (take limit ranked));
      mret (mk_SimilarEvents event_id (timestamp_ms decision_at) "AVAILABLE" (summary items) items
              (mk_Page (limit <? length ranked)%nat limit))
  end.

(** ** One past event *)

Record PastLeader := mk_PastLeader {
  pl_stock_id : string;
  pl_symbol : string;
  pl_name : string;
  pl_return : option double;
  pl_role : string
}.

Record HistoricalEvent := mk_HistoricalEvent {
  he_event_id : string;
  he_market_date : date;
  he_display_name_at_event : string;
  he_catalyst_summary : string;
  he_similarity_reasons : option (list string);
  he_leaders : list PastLeader;
  he_outcomes : list OutcomeRow;
  he_future_outcome_excluded_from_selection : bool
}.

(* @ packages/historical_matching/engine.py 444-483 historical_event_data *)
Definition past_leader (c : PastCase) (outcomes : option O) (priced : list PricedStock) (stock : string * string) : res PastLeader :=
  daily ← match outcomes with
          | Some source => if bool_decide (stock.1 ∈ ((fun s : PricedStock => s.1.1) <$> priced))
                           then os_daily_return source stock.1 (ca_market_date c) else Ok None
          | None => Ok None
          end;
  Ok (mk_PastLeader ("stk_" +:+ stock.1) stock.1 stock.2 (ratio daily)
        (if bool_decide (stock.1 ∈ leader_codes c) then "LEADER" else "RELATED")).

(* @ packages/historical_matching/engine.py 444-483 historical_event_data *)
Definition historical_event_data (c : PastCase) (outcomes : option O) (today : option TodayContext) : res HistoricalEvent :=
  scored ← match today with None => Ok None | Some today => score today c end;
  priced ← priced_basket c outcomes;
  leaders ← mapM_res (past_leader c outcomes priced) (basket c);
  rows ← outcomes_of c outcomes (Some priced);
  Ok (mk_HistoricalEvent (ca_matched_event_id c) (ca_market_date c) (ca_display_name_at_event c) (ca_catalyst_summary c)
        (sc_reasons <$> scored) leaders rows true).
End outcomes.

(** ** Groups of past events by catalyst type *)

(* @ packages/historical_matching/engine.py 497-497 MIN_GROUP_EVENTS *)
Definition MIN_GROUP_EVENTS : Z := 5.
(* @ packages/historical_matching/engine.py 498-498 TOP_GROUPS *)
Definition TOP_GROUPS : nat := 3.

(** A case with its same-day reaction. *)
Definition Reaction : Type := PastCase * option double.

(* @ packages/historical_matching/engine.py 509-522 CatalystGroup *)
Record CatalystGroup := mk_CatalystGroup {
  gr_catalyst_id : string;
  gr_theme_id : string;
  gr_type_id : string;
  gr_name_ko : string;
  gr_eligible_count : Z;
  gr_observed_count : Z;
  gr_positive_count : Z;
  gr_median_same_day : option double;
  gr_p25_same_day : option double;
  gr_events : list Reaction
}.

(** [int] truncates; the sample is not empty. *)
(* @ packages/historical_matching/engine.py 525-532 _percentile *)
Definition percentile (values : list double) (fraction : double) : option double :=
  let position := pymin (Z.quot (fmul fraction (of_int (count values))) double_unit) (count values - 1) in
  nth_error (sorted_by id values) (Z.to_nat position).

(* @ packages/historical_matching/engine.py 535-536 _catalyst_id *)
Definition catalyst_id (theme_id type_id : string) : string := "ctl_" +:+ theme_id +:+ "_" +:+ type_id.

(* @ packages/historical_matching/engine.py 539-547 split_catalyst_id *)
Definition split_catalyst_id (catalyst_id : string) : option (string * string) :=
  if negb (String.prefix "ctl_thm_" catalyst_id) then None
  else
    let '(number, separator, type_id) :=
      partition c_underscore (String.list_ascii_of_string (remove_prefix "ctl_thm_" catalyst_id)) in
    let number := String.string_of_list_ascii number in
    let type_id := String.string_of_list_ascii type_id in
    if negb separator || is_empty number || negb (is_digits number) || negb (dmem type_id TYPE_NAMES) then None
    else Some ("thm_" +:+ number, type_id).

Section groups.
Context {S : Type} `{SameDaySource S}.

(* @ packages/historical_matching/engine.py 553-560 CatalystGroupIndex.__init__ *)
Record CatalystGroupIndex := mk_CatalystGroupIndex {
  gi_index : HistoricalCaseIndex;
  gi_same_day : option S;
  gi_groups : dict string (list CatalystGroup)
}.

Definition on_index {A} (m : M HistoricalCaseIndex A) : M CatalystGroupIndex A := fun i =>
  let '(r, index) := m (gi_index i) in (r, mk_CatalystGroupIndex index (gi_same_day i) (gi_groups i)).
Definition keep_groups (theme_id : string) (l : list CatalystGroup) : M CatalystGroupIndex unit := fun i =>
  (Ok tt, mk_CatalystGroupIndex (gi_index i) (gi_same_day i) (dset theme_id l (gi_groups i))).

(** Each case goes to the bucket of its primary type. *)
(* @ packages/historical_matching/engine.py 562-612 CatalystGroupIndex.groups *)
Definition add_case (same_day : S) (buckets : dict string (list Reaction)) (c : PastCase) : res (dict string (list Reaction)) :=
  value ← sd_basket_daily_return same_day (fst <$> basket c) (ca_market_date c);
  t ← primary_type_id c;
  Ok (dset t (default [] (dget t buckets) ++ [(c, ratio value)]) buckets).

Definition reactions (rows : list Reaction) : list double := @omap list _ _ _ snd rows.

(* @ packages/historical_matching/engine.py 562-612 CatalystGroupIndex.groups *)
Definition build_group (theme_id : string) (bucket : string * list Reaction) : res (option CatalystGroup) :=
  let '(type_id, rows) := bucket in
  let observed := reactions rows in
  if count observed <? MIN_GROUP_EVENTS then Ok None
  else
    name_ko ← item_get type_id TYPE_NAMES;
    Ok (Some (mk_CatalystGroup (catalyst_id theme_id type_id) theme_id type_id name_ko (count rows) (count observed)
                (count (List.filter (fun value => 0 <? value) observed)) (Some (fround (median observed) 6))
                (percentile observed (of_ratio 25 100))
                (sorted_by (fun row : Reaction => - ca_market_date row.1) rows))).

(** The best median first, then the best 25th percentile, then the most events. *)
(* @ packages/historical_matching/engine.py 562-612 CatalystGroupIndex.groups *)
Definition group_key (g : CatalystGroup) : double * double * Z * string :=
  (- default 0 (gr_median_same_day g), - default 0 (gr_p25_same_day g), - gr_observed_count g, gr_type_id g).

(* @ packages/historical_matching/engine.py 562-612 CatalystGroupIndex.groups *)
Definition groups (theme_id : string) : M CatalystGroupIndex (list CatalystGroup) :=
  self ← get_st;
  match dget theme_id (gi_groups self) with
  | Some cached => mret cached
  | None =>
      match gi_same_day self with
      | None => _ ← keep_groups theme_id []; mret []
      | Some same_day =>
          l ← on_index (cases theme_id);
          buckets ← lift (foldM (add_case same_day) [] l);
          built ← lift (mapM_res (build_group theme_id) buckets);
          let result := sorted_by group_key (@omap list _ _ _ id built) in
          _ ← keep_groups theme_id result;
          mret result
      end
  end.

(* @ packages/historical_matching/engine.py 614-622 CatalystGroupIndex.group *)
Definition group (catalyst_id : string) : M CatalystGroupIndex (option CatalystGroup) :=
  match split_catalyst_id catalyst_id with
  | None => mret None
  | Some (theme_id, type_id) =>
      l ← groups theme_id;
      mret (List.find (fun g => bool_decide (gr_type_id g = type_id)) l)
  end.

(** [catalystId], [catalystName], ... *)
Record TopGroup := mk_TopGroup {
  tg_catalyst_id : string;
  tg_catalyst_name : string;
  tg_eligible_count : Z;
  tg_observed_count : Z;
  tg_median_same_day_return : option double;
  tg_matches_today : bool
}.

Record CatalystTop3 := mk_CatalystTop3 {
  tt_theme_id : string;
  tt_event_id : string;
  tt_items : list TopGroup;
  tt_quality_note : option string
}.

(* @ packages/historical_matching/engine.py 625-656 catalyst_top3_data *)
Definition top_group (today : option TodayContext) (g : CatalystGroup) : TopGroup :=
  mk_TopGroup (gr_catalyst_id g) (gr_name_ko g) (gr_eligible_count g) (gr_observed_count g) (gr_median_same_day g)
    (match today with Some t => bool_decide (gr_type_id g ∈ tc_ordered_type_ids t) | None => false end).

(* @ packages/historical_matching/engine.py 625-656 catalyst_top3_data *)
Definition catalyst_top3_data (theme_id event_id : string) (today : option TodayContext) : M CatalystGroupIndex CatalystTop3 :=
  l ← groups theme_id;
  let ranked := take TOP_GROUPS l in
  mret (mk_CatalystTop3 theme_id event_id (top_group today <$> ranked)
          (match ranked with [] => Some "표본이 모자라 과거 반응을 요약하지 못했습니다." | _ => None end)).
End groups.
Arguments CatalystGroupIndex : clear implicits.

(** [matchedEventId], [marketDate], ... *)
Record GroupEvent := mk_GroupEvent {
  ge_matched_event_id : string;
  ge_market_date : date;
  ge_normalized_catalyst_summary : string;
  ge_same_day_return : option double;
  ge_leader_name : option string
}.

Record CatalystDetail := mk_CatalystDetail {
  cd_catalyst_id : string;
  cd_theme_id : string;
  cd_theme_display_name : string;
  cd_catalyst_name : string;
  cd_availability : string;
  cd_same_day : SummaryRow;
  cd_horizons : list SummaryRow;
  cd_events : list GroupEvent
}.

(* @ packages/historical_matching/engine.py 659-717 catalyst_detail_data *)
Definition group_event (row : Reaction) : GroupEvent :=
  mk_GroupEvent (ca_matched_event_id row.1) (ca_market_date row.1) (ca_catalyst_summary row.1) row.2
    (snd <$> head (ca_leaders row.1)).

(** The summary is that of all events, the list only of the latest. *)
(* @ packages/historical_matching/engine.py 659-717 catalyst_detail_data *)
Definition catalyst_detail_data {O : Type} `{OutcomeSource O} (g : CatalystGroup) (theme_display_name : string)
    (outcomes : option O) (limit : nat) : res CatalystDetail :=
  per_case ← mapM_res (fun row : Reaction => outcomes_of row.1 outcomes None) (gr_events g);
  let horizon_rows :=
    (fun horizon => summary_row horizon (gr_eligible_count g) (per_case ≫= observed_at horizon)) <$> HORIZONS in
  Ok (mk_CatalystDetail (gr_catalyst_id g) (gr_theme_id g) theme_display_name (gr_name_ko g) "AVAILABLE"
        (mk_SummaryRow 1 (gr_eligible_count g) (gr_observed_count g) (gr_positive_count g) (gr_median_same_day g))
        horizon_rows (group_event <$> take limit (gr_events g))).

(* @ packages/historical_matching/engine.py 720-720 ONTOLOGY_VERSION *)
Definition ONTOLOGY_VERSION : string := TRANSFORM_VERSION +:+ "+vocab/" +:+ VOCABULARY_VERSION.
