(* ===== verification/HistoricalFacts.v ===== *)
(** What [HistoricalMatching] promises: scores are bounded, the best cases are shown, a selection
    does not depend on the future, cases are grouped by type, and a catalyst id is its parts. *)
From Stdlib Require Import ZifyBool.
From S2P Require Import Prelude Hoare Sha256 PyTime PyDecimal PyFloat PyFloatFacts DecimalText JsonRead PyText Vocabulary CauseText InfostockModels HistoricalMatching.
#[local] Open Scope Z_scope.

#[local] Opaque VOCABULARY.

(** ** The orders *)

Lemma pyle_pair {A B} `{PyOrd A, PyOrd B} (a a' : A) (b b' : B) :
  pyle (a, b) (a', b') = pylt a a' || (pyle a a' && pyle b b').
Proof.
  unfold pyle, pylt. change (pycmp (a, b) (a', b')) with (lex (pycmp a a') (pycmp b b')).
  by destruct (pycmp a a'), (pycmp b b').
Qed.
Lemma pylt_pair {A B} `{PyOrd A, PyOrd B} (a a' : A) (b b' : B) :
  pylt (a, b) (a', b') = pylt a a' || (pyle a a' && pylt b b').
Proof.
  unfold pyle, pylt. change (pycmp (a, b) (a', b')) with (lex (pycmp a a') (pycmp b b')).
  by destruct (pycmp a a'), (pycmp b b').
Qed.

(** [s] stands before [s']: a better score, else a later day, else the smaller id. *)
Definition ranks_before (s s' : ScoredCase) : Prop :=
  sc_score s' < sc_score s \/
  (sc_score s' = sc_score s /\
   (ca_market_date (sc_case s') < ca_market_date (sc_case s) \/
    (ca_market_date (sc_case s') = ca_market_date (sc_case s) /\
     pyle (ca_matched_event_id (sc_case s)) (ca_matched_event_id (sc_case s')) = true))).

Lemma key_ranks_before s s' : key_le rank_key s s' <-> ranks_before s s'.
Proof.
  unfold key_le, rank_key, ranks_before, double. rewrite !pyle_pair, pylt_pair.
  generalize (sc_score s) (sc_score s') (ca_market_date (sc_case s)) (ca_market_date (sc_case s')) (pyle (ca_matched_event_id (sc_case s)) (ca_matched_event_id (sc_case s'))).
  unfold double. intros x x' y y' b.
  change (@pylt Z Z_pyord) with Z.ltb. change (@pyle Z Z_pyord) with Z.leb. lia.
Qed.

(** A group stands before another: a better median, else a better 25th percentile, else more
    observations, else the smaller type. *)
Definition group_before (g g' : CatalystGroup) : Prop :=
  let m g := default 0 (gr_median_same_day g) in let p g := default 0 (gr_p25_same_day g) in
  m g' < m g \/ (m g' = m g /\
  (p g' < p g \/ (p g' = p g /\
   (gr_observed_count g' < gr_observed_count g \/ (gr_observed_count g' = gr_observed_count g /\
    pyle (gr_type_id g) (gr_type_id g') = true))))).

Lemma key_group_before g g' : key_le group_key g g' <-> group_before g g'.
Proof.
  unfold key_le, group_key, group_before. cbv zeta beta. rewrite !pyle_pair, !pylt_pair, ?pyle_pair.
  generalize (default 0 (gr_median_same_day g)) (default 0 (gr_median_same_day g')) (default 0 (gr_p25_same_day g)) (default 0 (gr_p25_same_day g'))
    (gr_observed_count g) (gr_observed_count g') (pyle (gr_type_id g) (gr_type_id g')).
  unfold double. intros m m' p p' o o' b.
  change (@pylt Z Z_pyord) with Z.ltb. change (@pyle Z Z_pyord) with Z.leb. lia.

Qed.

(** ** Scores *)

Lemma length_both l k : size (both l k) <= size l /\ size (both l k) <= size (either l k).
Proof.
  unfold size, both, either. pose proof (sublist_length _ _ (filterb_sublist (fun x => bool_decide (x ∈ k)) (remove_dups l))).
  assert (length (remove_dups l) <= length l)%nat 
    by (apply submseteq_length, NoDup_submseteq; [apply NoDup_remove_dups|intros x; by rewrite elem_of_remove_dups]).
  split; [lia|]. apply inj_le, submseteq_length, NoDup_submseteq; [apply NoDup_filterb, NoDup_remove_dups|].
  intros x [Hx _]%elem_of_filterb. rewrite elem_of_remove_dups in *. set_solver.
Qed.

Lemma size_pos x l : x ∈ l -> 0 < size l.
Proof. unfold size. destruct l; [by intros ?%elem_of_nil|]. cbn. lia. Qed.

(** A weight times a share of the whole. *)
Lemma share_bounds w p q : 0 <= p <= q -> 0 < q -> representable w -> 0 <= w -> 0 <= fmul w (of_ratio p q) <= w.
Proof.
  intros Hp Hq Hw Hw0. assert (0 <= of_ratio p q <= one) as Hr.
  { split; [apply nearest_nonneg; pose proof double_unit_pos; nia|]. unfold one, of_int. apply of_ratio_mono; lia. }
  split; [apply fmul_nonneg; lia|by apply fmul_shrinks].
Qed.

(** A part that is added or not. *)
Lemma plus_if (b : bool) x a y w :
  0 <= x <= a -> 0 <= y <= w -> a <= fadd a w -> 0 <= (if b then fadd x y else x) <= fadd a w.
Proof.
  intros Hx Hy Ha. destruct b; [|lia]. split; [unfold fadd; apply nearest_nonneg; lia|apply fadd_mono; lia].
Qed.

(** The weights and their sums, as significand and exponent. *)
Definition units (m e : Z) : double := m * 2 ^ e.
Lemma weight_units :
  OVERLAP_WEIGHT = units 1 1072 /\ PRIMARY_WEIGHT = units 8106479329266893 1020 /\ DIRECTION_WEIGHT = units 5404319552844595 1019 /\
  CERTAINTY_WEIGHT = units 7205759403792794 1017 /\ LEADER_WEIGHT = units 7205759403792794 1018 /\
  of_ratio 55 100 = units 4953959590107546 1021 /\ one = units 1 1074.
Proof. vm_compute. repeat split; reflexivity. Qed.

Lemma sums_with_primary :
  fadd (units 1 1072) (units 8106479329266893 1020) = units 6305039478318694 1021 /\
  fadd (units 6305039478318694 1021) (units 5404319552844595 1019) = units 7656119366529843 1021 /\
  fadd (units 7656119366529843 1021) (units 7205759403792794 1017) = units 8106479329266893 1021 /\
  fadd (units 8106479329266893 1021) (units 7205759403792794 1018) = units 1 1074.
Proof. vm_compute. repeat split; reflexivity. Qed.
Lemma sums_without_primary :
  fadd (units 1 1072) (units 5404319552844595 1019) = units 7205759403792794 1020 /\
  fadd (units 7205759403792794 1020) (units 7205759403792794 1017) = units 8106479329266893 1020 /\
  fadd (units 8106479329266893 1020) (units 7205759403792794 1018) = units 4953959590107546 1021.
Proof. vm_compute. repeat split; reflexivity. Qed.

#[local] Opaque fadd of_ratio.
Lemma weights_fit (b1 : bool) :
  let a1 := if b1 then fadd OVERLAP_WEIGHT PRIMARY_WEIGHT else OVERLAP_WEIGHT in
  let a2 := fadd a1 DIRECTION_WEIGHT in let a3 := fadd a2 CERTAINTY_WEIGHT in
  a1 <= a2 /\ a2 <= a3 /\ a3 <= fadd a3 LEADER_WEIGHT /\
  fadd a3 LEADER_WEIGHT <= (if b1 then one else of_ratio 55 100).
Proof.
  cbv zeta. destruct weight_units as (->&->&->&->&->&->&->). destruct b1.
  - destruct sums_with_primary as (->&->&->&->). repeat split; by vm_compute.
  - destruct sums_without_primary as (->&->&->). repeat split; by vm_compute.
Qed.

Lemma weights_representable : representable OVERLAP_WEIGHT /\ representable LEADER_WEIGHT.
Proof. split; apply of_ratio_representable; lia. Qed.
Lemma weights_nonneg : 0 <= OVERLAP_WEIGHT /\ 0 <= PRIMARY_WEIGHT /\ 0 <= DIRECTION_WEIGHT /\ 0 <= CERTAINTY_WEIGHT /\ 0 <= LEADER_WEIGHT /\
  OVERLAP_WEIGHT <= fadd OVERLAP_WEIGHT PRIMARY_WEIGHT.
Proof.
  destruct weight_units as (->&->&->&->&->&_&_). destruct sums_with_primary as (->&_). repeat split; by vm_compute.
Qed.
Lemma most_is_less : of_ratio 55 100 <= one.
Proof. destruct weight_units as (_&_&_&_&_&->&->). by vm_compute. Qed.
#[local] Opaque OVERLAP_WEIGHT PRIMARY_WEIGHT DIRECTION_WEIGHT CERTAINTY_WEIGHT LEADER_WEIGHT fadd of_ratio fmul one.

Lemma score_sum (b1 b2 b3 b4 : bool) x y :
  0 <= x <= OVERLAP_WEIGHT -> 0 <= y <= LEADER_WEIGHT ->
  let x1 := if b1 then fadd x PRIMARY_WEIGHT else x in
  let x2 := if b2 then fadd x1 DIRECTION_WEIGHT else x1 in
  let x3 := if b3 then fadd x2 CERTAINTY_WEIGHT else x2 in
  let x4 := if b4 then fadd x3 y else x3 in
  0 <= x4 <= if b1 then one else of_ratio 55 100.
Proof.
  intros Hx Hy. cbn zeta. destruct weights_nonneg as (_&HP&HD&HC&_&HOP). destruct (weights_fit b1) as (W2&W3&W4&Hmax).
  assert (0 <= (if b1 then fadd x PRIMARY_WEIGHT else x) <= (if b1 then fadd OVERLAP_WEIGHT PRIMARY_WEIGHT else OVERLAP_WEIGHT)) as W1
    by (destruct b1; [exact (plus_if true _ _ _ _ Hx (conj HP (Z.le_refl _)) HOP)|exact Hx]).
  destruct (plus_if b4 _ _ y _ (plus_if b3 _ _ CERTAINTY_WEIGHT CERTAINTY_WEIGHT
    (plus_if b2 _ _ DIRECTION_WEIGHT DIRECTION_WEIGHT W1 (conj HD (Z.le_refl _)) W2) (conj HC (Z.le_refl _)) W3) Hy W4) as [Hlo Hhi].
  split; [exact Hlo|exact (Z.le_trans _ _ _ Hhi Hmax)].
Qed.

Lemma list_nonempty {A} (l : list A) : l <> [] -> exists x, x ∈ l.
Proof. destruct l as [|x l]; [done|]. intros _. exists x. by left. Qed.

(** The leaders' part, where it is added. *)
Lemma leader_share today c :
  exists y, 0 <= y <= LEADER_WEIGHT /\
    (negb (bool_decide (both (tc_leader_codes today) (leader_codes c) = [])) && negb (bool_decide (tc_leader_codes today = [])) = true ->
     y = fmul LEADER_WEIGHT (of_ratio (size (both (tc_leader_codes today) (leader_codes c))) (size (tc_leader_codes today)))).
Proof.
  destruct (length_both (tc_leader_codes today) (leader_codes c)) as [Hl _]. destruct weights_nonneg as (_&_&_&_&Hw&_).
  destruct (negb _ && negb _) eqn:E; [|exists 0; split; [exact (conj (Z.le_refl 0) Hw)|discriminate]].
  eexists. split; [|by intros _]. apply share_bounds; [split; [apply Zle_0_nat|done]| |apply weights_representable|done].
  apply andb_prop in E as [_ E%negb_true_iff%bool_decide_eq_false]. destruct (list_nonempty _ E) as [x Hx]. by apply (size_pos x).
Qed.

(** C25: A score is between 0 and 1.  It is given to cases that share a type, and one whose
    primary type differs scores at most 0.55. *)
Theorem score_bounds today c s :
  score today c = Ok (Some s) ->
  (exists t, t ∈ tc_ordered_type_ids today /\ t ∈ ca_ordered_type_ids c) /\ 0 <= sc_score s <= one /\
  (head (tc_ordered_type_ids today) <> head (ca_ordered_type_ids c) -> sc_score s <= of_ratio 55 100).
Proof.
  intros H. unfold score in H.
  case_bool_decide as Hshared; [done|]. destruct (mapM_res _ _) as [names|]; cbn [mbind res_bind] in H; [|done].
  set (tids := tc_ordered_type_ids today) in *. set (cids := ca_ordered_type_ids c) in *.
  destruct (list_nonempty _ Hshared) as [t [Ht Hc%bool_decide_eq_true]%elem_of_filterb].
  rewrite elem_of_remove_dups in Ht. split; [by exists t|].
  destruct (length_both tids cids) as [_ Hu].
  assert (0 < size (either tids cids)) as Hpos.
  { apply (size_pos t). unfold either. rewrite elem_of_remove_dups. set_solver. }
  pose proof (share_bounds OVERLAP_WEIGHT _ _ (conj (Zle_0_nat _) Hu) Hpos (proj1 weights_representable) (proj1 weights_nonneg)) as Hx.
  destruct (leader_share today c) as (y&Hy&Ey).
  set (bl := negb _ && negb _) in *. set (bd := bool_decide (tc_direction today = ca_direction c) && _) in H.
  set (bc := bool_decide (tc_certainty today = ca_certainty c) && _) in H. set (bp := bool_decide (head tids = head cids)) in H.
  pose proof (score_sum bp bd bc bl _ y Hx Hy) as Hsum. cbn zeta in Hsum.
  match type of Hsum with _ <= ?v <= _ => assert (sc_score s = v) as -> end.
  { destruct bl; [rewrite (Ey eq_refl)|clear Ey]; destruct bp, bd, bc; injection H as <-; reflexivity. }
  assert (bp = true <-> head tids = head cids) as Hbp by apply bool_decide_eq_true.
  destruct bp; split.
  - exact Hsum.
  - intros Hne. destruct Hne. apply Hbp. reflexivity.
  - exact (conj (proj1 Hsum) (Z.le_trans _ _ _ (proj2 Hsum) most_is_less)).
  - intros _. exact (proj2 Hsum).
Qed.

(** ** The ranking *)

Lemma type_named t : t ∈ type_ids -> exists n, item_get t TYPE_NAMES = Ok n.
Proof.
  intros Ht. assert (is_Some (dget t TYPE_NAMES)) as [n E].
  { apply elem_of_dkeys. unfold dkeys, TYPE_NAMES. rewrite <-list_fmap_compose. exact Ht. }
  exists n. unfold item_get. by rewrite E.
Qed.
#[local] Opaque TYPE_NAMES type_ids.

Lemma mapM_res_ok {A B} (f : A -> res B) l : (forall x, x ∈ l -> exists y, f x = Ok y) -> exists k, mapM_res f l = Ok k.
Proof.
  induction l as [|x l IH]; intros Hf; [by exists []|]. destruct (Hf x) as [y E]; [by left|].
  destruct IH as [k Ek]; [intros z Hz; apply Hf; by right|]. exists (y :: k). cbn. by rewrite E, Ek.
Qed.

(** What an optional comprehension keeps. *)
Lemma elem_of_results {A B} (f : A -> res (option B)) l k b :
  mapM_res f l = Ok k -> b ∈ @omap list _ _ _ id k <-> exists a, a ∈ l /\ f a = Ok (Some b).
Proof.
  rewrite mapM_res_Forall2. induction 1 as [|a o l k E _ IH]; [split; [by intros ?%elem_of_nil|by intros (?&?%elem_of_nil&_)]|].
  assert ((exists x, x ∈ a :: l /\ f x = Ok (Some b)) <-> o = Some b \/ exists x, x ∈ l /\ f x = Ok (Some b)) as ->.
  { setoid_rewrite elem_of_cons. split; [intros (x&[->|Hx]&Ex)|intros [->|(x&Hx&Ex)]]; [left|right|..]; eauto; congruence. }
  rewrite <-IH. cbn [omap list_omap id]. destruct o as [b'|]; [rewrite elem_of_cons|]; naive_solver.
Qed.

Lemma sorted_weaken {A} (R R' : A -> A -> Prop) l : (forall x y, R x y -> R' x y) -> StronglySorted R l -> StronglySorted R' l.
Proof.
  intros Hw. induction 1 as [|x l _ IH Hx]; constructor; [done|]. eapply Forall_impl; [exact Hx|]. intros y. apply Hw.
Qed.

Lemma sorted_take {A} (R : A -> A -> Prop) l n : StronglySorted R l -> StronglySorted R (take n l).
Proof. intros Hl. rewrite <-(take_drop n l) in Hl. by apply StronglySorted_app_1_l in Hl. Qed.

Lemma sorted_split {A} (R : A -> A -> Prop) l n x :
  StronglySorted R l -> x ∈ l -> x ∈ take n l \/ (length (take n l) = n /\ Forall (fun y => R y x) (take n l)).
Proof.
  intros Hl Hx. rewrite <-(take_drop n l) in Hl, Hx. apply elem_of_app in Hx as [Hx|Hx]; [by left|right]. split.
  - apply length_take_le. destruct (decide (n <= length l)%nat) as [?|?]; [done|].
    rewrite drop_ge in Hx by lia. by apply elem_of_nil in Hx.
  - apply Forall_forall. intros y Hy. by eapply StronglySorted_app_1_elem_of.
Qed.

(** A past case that may be shown. *)
Definition eligible (today : TodayContext) (l : list PastCase) (before : date) (s : ScoredCase) : Prop :=
  sc_case s ∈ l /\ ca_market_date (sc_case s) < before /\ score today (sc_case s) = Ok (Some s) /\ MIN_SCORE <= sc_score s.

Lemma score_case today c s : score today c = Ok (Some s) -> sc_case s = c.
Proof.
  unfold score. intros H. case_in H; [done|].
  destruct (mapM_res _ _); cbn [mbind res_bind] in H; [|done]. repeat case_in H; by injection H as <-.
Qed.

Lemma score_ok today c : (forall t, t ∈ tc_ordered_type_ids today -> t ∈ type_ids) -> exists o, score today c = Ok o.
Proof.
  intros Hk. unfold score. case_goal; [by eexists|]. destruct (mapM_res_ok (fun t => item_get t TYPE_NAMES)
    (List.filter (fun t => bool_decide (t ∈ both (tc_ordered_type_ids today) (ca_ordered_type_ids c))) (tc_ordered_type_ids today)))
    as [names ->]; [|cbn [mbind res_bind]; repeat case_goal; by eexists].
  intros t [Ht _]%elem_of_filterb. by apply type_named, Hk.
Qed.

#[local] Opaque score MIN_SCORE.

(** C21: The best past cases are the ones shown. *)
Theorem rank_cases_best today l before limit :
  (forall t, t ∈ tc_ordered_type_ids today -> t ∈ type_ids) ->
  exists r, rank_cases today l before limit = Ok r /\
    StronglySorted ranks_before r /\ (length r <= limit)%nat /\
    (forall s, s ∈ r -> eligible today l before s) /\
    forall s, eligible today l before s -> s ∈ r \/ (length r = limit /\ Forall (fun s' => ranks_before s' s) r).
Proof.
  intros Hk. unfold rank_cases. destruct (mapM_res_ok (score today) (List.filter (fun c => ca_market_date c <? before) l)) as [k E];
    [intros c _; by apply score_ok|]. rewrite E. cbn [mbind res_bind].
  set (scored := List.filter _ _).
  assert (forall s, s ∈ scored <-> eligible today l before s) as Hs.
  { intros s. unfold scored, eligible. rewrite elem_of_filterb, Z.leb_le, (elem_of_results _ _ _ _ E).
    split.
    - intros ((c&[Hc Hd%Z.ltb_lt]%elem_of_filterb&Hsc)&Hm). rewrite (score_case _ _ _ Hsc). auto.
    - intros (Hc&Hd%Z.ltb_lt&Hsc&Hm). split; [|done]. exists (sc_case s). by rewrite elem_of_filterb. }
  eexists. split; [reflexivity|]. assert (StronglySorted ranks_before (sorted_by rank_key scored)) as Hsort
    by (eapply sorted_weaken; [apply key_ranks_before|apply sorted_by_sorted]).
  split; [by apply sorted_take|]. split; [rewrite length_take; lia|]. split.
  - intros s Hin. apply Hs. rewrite <-(elem_of_sorted_by rank_key). by eapply elem_of_take in Hin as (?&?%list_elem_of_lookup_2&_).
  - intros s Hin. apply sorted_split; [exact Hsort|]. by apply elem_of_sorted_by, Hs.
Qed.

(** ** The index *)

(** The cases of a theme, read from its records. *)
Definition cases_of (details : dict string ThemeDetail) (theme_id : string) : res (list PastCase) :=
  match dget (remove_prefix "thm_" theme_id) details with
  | None => Ok []
  | Some detail =>
      found ← mapM_res (fun history => past_case detail history theme_id) (td_history detail);
      Ok (@omap list _ _ _ id found)
  end.

(** What was kept is what is read. *)
Definition cached (i : HistoricalCaseIndex) : Prop :=
  forall theme_id l, dget theme_id (ci_cases i) = Some l -> cases_of (ci_details i) theme_id = Ok l.

Lemma cached_new details : cached (case_index details).
Proof. intros ? ? H. discriminate H. Qed.

Lemma cached_keep i theme_id l :
  cached i -> cases_of (ci_details i) theme_id = Ok l -> cached (mk_HistoricalCaseIndex (ci_details i) (dset theme_id l (ci_cases i))).
Proof.
  intros Hi E t k. cbn [ci_cases ci_details]. rewrite dget_dset. case_decide as Ht; [subst; by intros [= <-]|by apply Hi].
Qed.

(** An index answers as if it read the records each time. *)
Lemma cases_read i theme_id :
  cached i ->
  (cases theme_id i).1 = cases_of (ci_details i) theme_id /\
  cached (cases theme_id i).2 /\ ci_details (cases theme_id i).2 = ci_details i.
Proof.
  intros Hi. cbv [cases get_st mbind M_bind mret M_ret lift keep_cases]. destruct (dget theme_id (ci_cases i)) as [l|] eqn:El.
  { by rewrite (Hi _ _ El). }
  unfold cases_of at 1. destruct (dget (remove_prefix "thm_" theme_id) (ci_details i)) as [detail|] eqn:Ed.
  - cbv [mbind res_bind]. destruct (mapM_res _ _) as [found|e] eqn:Ef; [|done]. split; [done|]. split; [|done].
    apply cached_keep; [done|]. unfold cases_of. by rewrite Ed, Ef.
  - split; [done|]. split; [|done]. apply cached_keep; [done|]. unfold cases_of. by rewrite Ed.
Qed.

(** ** What a selection depends on *)

Definition past (before : date) (history : ThemeHistory) : bool :=
  match th_event_date history with Some d => d <? before | None => false end.
Definition earlier (before : date) (l : list PastCase) : list PastCase := List.filter (fun c => ca_market_date c <? before) l.

Lemma past_case_date detail history theme_id c :
  past_case detail history theme_id = Ok (Some c) -> th_event_date history = Some (ca_market_date c).
Proof.
  unfold past_case. intros H. destruct (th_event_date history); [|done]. case_in H; [done|].
  destruct (classify_catalyst _) as [k|]; cbn [mbind res_bind] in H; [|done]. case_in H; [done|]. by injection H as <-.
Qed.

(** Cases before a day come from the records before it. *)
Lemma earlier_cases detail theme_id before l found :
  mapM_res (fun history => past_case detail history theme_id) l = Ok found ->
  exists found', mapM_res (fun history => past_case detail history theme_id) (List.filter (past before) l) = Ok found' /\
    @omap list _ _ _ id found' = earlier before (@omap list _ _ _ id found).
Proof.
  intros Hf%mapM_res_Forall2. induction Hf as [|h o l found E _ (found'&E'&Hfound)]; [by exists []|].
  cbn [List.filter omap list_omap id]. destruct o as [c|].
  - pose proof (past_case_date _ _ _ _ E) as Hd. unfold past at 1. rewrite Hd. cbn [earlier List.filter].
    destruct (ca_market_date c <? before).
    + exists (Some c :: found'). cbn [mapM_res]. rewrite E. cbn [mbind res_bind]. rewrite E'. cbn [mbind res_bind]. split; [done|].
      cbn [omap list_omap id]. by rewrite Hfound.
    + by exists found'.
  - case_match; [|by exists found']. exists (None :: found'). cbn [mapM_res]. rewrite E. cbn [mbind res_bind].
    rewrite E'. by cbn [mbind res_bind].
Qed.

(** Records of a theme that agree on what was before a day. *)
Definition same_past (before : date) (theme_id : string) (d1 d2 : dict string ThemeDetail) : Prop :=
  match dget (remove_prefix "thm_" theme_id) d1, dget (remove_prefix "thm_" theme_id) d2 with
  | Some t1, Some t2 =>
      td_source_theme_id t1 = td_source_theme_id t2 /\ td_theme_name t1 = td_theme_name t2 /\
      List.filter (past before) (td_history t1) = List.filter (past before) (td_history t2)
  | None, None => True
  | _, _ => False
  end.

Lemma same_past_cases before theme_id d1 d2 l1 l2 :
  same_past before theme_id d1 d2 -> cases_of d1 theme_id = Ok l1 -> cases_of d2 theme_id = Ok l2 -> earlier before l1 = earlier before l2.
Proof.
  unfold same_past, cases_of. intros Hs H1 H2.
  destruct (dget _ d1) as [t1|], (dget _ d2) as [t2|]; [|done..|congruence]. destruct Hs as (Hid&Hn&Hh).
  apply res_bind_ok in H1 as (f1&E1&[= <-]). apply res_bind_ok in H2 as (f2&E2&[= <-]).
  destruct (earlier_cases _ _ before _ _ E1) as (k1&F1&<-). destruct (earlier_cases _ _ before _ _ E2) as (k2&F2&<-).
  rewrite Hh, (mapM_res_ext _ (fun history => past_case t2 history theme_id)) in F1; [congruence|].
  intros h. unfold past_case. by rewrite Hid, Hn.
Qed.

Definition selected (r : SimilarEvents) : list (string * date * string * string * list string) * Page :=
  ((fun i => (si_matched_event_id i, si_market_date i, si_display_name_at_event i, si_normalized_catalyst_summary i, si_similarity_reasons i))
     <$> se_items r, se_page r).

Lemma similar_items {O : Type} `{OutcomeSource O} (o : option O) l items :
  mapM_res (similar_item o) l = Ok items ->
  (fun i => (si_matched_event_id i, si_market_date i, si_display_name_at_event i, si_normalized_catalyst_summary i, si_similarity_reasons i)) <$> items =
  (fun s => (ca_matched_event_id (sc_case s), ca_market_date (sc_case s), ca_display_name_at_event (sc_case s),
             ca_catalyst_summary (sc_case s), sc_reasons s)) <$> l.
Proof.
  rewrite mapM_res_Forall2. induction 1 as [|s i l items E _ IH]; [done|]. rewrite !fmap_cons, IH. f_equal.
  apply res_bind_ok in E as (rows&_&[= <-]). done.
Qed.

(** What was selected, from the ranking alone. *)
Lemma similar_selected {O : Type} `{OutcomeSource O} event_id theme_id today (o : option O) at_ before limit i r i' :
  cached i -> similar_events_data event_id theme_id (Some today) o at_ before limit i = (Ok r, i') ->
  exists l ranked, cases_of (ci_details i) theme_id = Ok l /\ rank_cases today l before (S limit) = Ok ranked /\
    selected r = ((fun s => (ca_matched_event_id (sc_case s), ca_market_date (sc_case s), ca_display_name_at_event (sc_case s),
             ca_catalyst_summary (sc_case s), sc_reasons s)) <$> take limit ranked, mk_Page (limit <? length ranked)%nat limit).
Proof.
  intros Hi Hr. unfold similar_events_data in Hr. apply M_bind_ok in Hr as (l&i1&El&Hr).
  destruct (cases_read i theme_id Hi) as (Ec&_). rewrite El in Ec.
  apply M_bind_ok in Hr as (ranked&i2&[Er ->]%lift_ok&Hr). apply M_bind_ok in Hr as (items&i3&[Ei ->]%lift_ok&Hr).
  injection Hr as <- _. exists l, ranked. do 2 (split; [done|]). unfold selected. cbn [se_items se_page]. by rewrite (similar_items _ _ _ Ei).
Qed.

Lemma rank_earlier today l1 l2 before n : earlier before l1 = earlier before l2 -> rank_cases today l1 before n = rank_cases today l2 before n.
Proof. unfold rank_cases, earlier. by intros ->. Qed.

Lemma ranked_before today l before n r s : rank_cases today l before n = Ok r -> s ∈ r -> ca_market_date (sc_case s) < before.
Proof.
  unfold rank_cases. intros (k&E&[= <-])%res_bind_ok (j&Hs%list_elem_of_lookup_2&_)%elem_of_take.
  rewrite elem_of_sorted_by in Hs. apply elem_of_filterb in Hs as [Hs _].
  apply (elem_of_results _ _ _ _ E) in Hs as (c&[_ Hd%Z.ltb_lt]%elem_of_filterb&Hs). rewrite (score_case _ _ _ Hs). exact Hd.
Qed.

(** C20: Past events are chosen without knowing the future.  Whatever the source of outcomes,
    and whatever the index says of that day and later, the same events are shown for the same
    reasons, all of them from before. *)
Theorem similar_events_point_in_time {O1 O2 : Type} `{OutcomeSource O1, OutcomeSource O2}
    event_id theme_id today (o1 : option O1) (o2 : option O2) at_ before limit i1 i2 r1 r2 i1' i2' :
  cached i1 -> cached i2 -> same_past before theme_id (ci_details i1) (ci_details i2) ->
  similar_events_data event_id theme_id today o1 at_ before limit i1 = (Ok r1, i1') ->
  similar_events_data event_id theme_id today o2 at_ before limit i2 = (Ok r2, i2') ->
  selected r1 = selected r2 /\ Forall (fun i => si_market_date i < before) (se_items r1).
Proof.
  intros Hi1 Hi2 Hp Hr1 Hr2. destruct today as [today|]; [|injection Hr1 as <- _; injection Hr2 as <- _; by split].
  destruct (similar_selected _ _ _ _ _ _ _ _ _ _ Hi1 Hr1) as (l1&k1&E1&F1&S1).
  destruct (similar_selected _ _ _ _ _ _ _ _ _ _ Hi2 Hr2) as (l2&k2&E2&F2&->).
  assert (forall s, s ∈ take limit k1 -> ca_market_date (sc_case s) < before) as Hd.
  { intros s (j&Hs%list_elem_of_lookup_2&_)%elem_of_take. exact (ranked_before _ _ _ _ _ _ F1 Hs). }
  rewrite (rank_earlier _ _ _ _ _ (same_past_cases _ _ _ _ _ _ Hp E1 E2)), F2 in F1. injection F1 as <-.
  split; [exact S1|]. apply (f_equal fst) in S1. cbn [selected fst] in S1. apply Forall_forall. intros i Hi.
  apply (list_elem_of_fmap_2 (fun i => (si_matched_event_id i, si_market_date i, si_display_name_at_event i,
    si_normalized_catalyst_summary i, si_similarity_reasons i))) in Hi.
  rewrite S1 in Hi. apply list_elem_of_fmap in Hi as (s&[= _ -> _ _ _]&Hs). by apply Hd.
Qed.

(** ** Groups *)

Lemma classified_known raw_text c i : classify_catalyst raw_text = Ok c -> i ∈ cc_type_ids c -> i ∈ type_ids.
Proof.
  unfold classify_catalyst. destruct (parse_ok (u raw_text)) as (p&->&Hp). cbn [mbind res_bind].
  destruct (classify_types_ok _ _ Hp) as (ids&tspans&->&Ht). cbn [mbind res_bind].
  intros ([direction ds]&_&H)%res_bind_ok. apply res_bind_ok in H as ([certainty cs]&_&H).
  apply res_bind_ok in H as ([continuation ns]&_&H). unfold CatalystClassification_check in H.
  apply res_bind_ok in H as (?&_&H). apply res_bind_ok in H as (?&_&[= <-]). apply Ht.
Qed.

Definition known (c : PastCase) : Prop :=
  ca_ordered_type_ids c <> [] /\ forall i, i ∈ ca_ordered_type_ids c -> i ∈ type_ids.

Lemma past_case_known detail history theme_id c : past_case detail history theme_id = Ok (Some c) -> known c.
Proof.
  unfold past_case. intros H. destruct (th_event_date history); [|done]. case_in H; [done|].
  destruct (classify_catalyst _) as [k|] eqn:Ek; cbn [mbind res_bind] in H; [|done].
  destruct (cc_type_ids k) as [|i l] eqn:Ei; [done|]. injection H as <-. unfold known. cbn [ca_ordered_type_ids].
  split; [done|]. intros j Hj. eapply classified_known; [exact Ek|by rewrite Ei].
Qed.

Lemma cases_known details theme_id l c : cases_of details theme_id = Ok l -> c ∈ l -> known c.
Proof.
  unfold cases_of. destruct (dget _ _) as [detail|]; [|by intros [= <-] ?%elem_of_nil].
  intros (found&E&[= <-])%res_bind_ok Hc. apply (elem_of_results _ _ _ _ E) in Hc as (h&_&Hh). by eapply past_case_known.
Qed.

Section grouped.
Context {S : Type} `{SameDaySource S} (sd : S).

(** The reaction of each case, as the source has it. *)
Definition reacted (l : list PastCase) (rs : list Reaction) : Prop :=
  Forall2 (fun c r => r.1 = c /\ exists v, sd_basket_daily_return sd (fst <$> basket c) (ca_market_date c) = Ok v /\ r.2 = ratio v) l rs.

Lemma reacted_case l rs r : reacted l rs -> r ∈ rs -> r.1 ∈ l.
Proof.
  induction 1 as [|c r' l rs [<- _] _ IH]; [by intros ?%elem_of_nil|]. intros [->|Hr]%elem_of_cons; [by left|right; by apply IH].
Qed.

Definition primary_is (t : string) (r : Reaction) : bool := bool_decide (head (ca_ordered_type_ids r.1) = Some t).

Lemma filterb_app {A} (f : A -> bool) l k : List.filter f (l ++ k) = List.filter f l ++ List.filter f k.
Proof. apply List.filter_app. Qed.

(** The buckets split the cases by their primary type. *)
Lemma buckets_spec l :
  (forall c, c ∈ l -> known c /\ exists v, sd_basket_daily_return sd (fst <$> basket c) (ca_market_date c) = Ok v) ->
  exists b rs, foldM (add_case sd) [] l = Ok b /\ reacted l rs /\ NoDup (dkeys b) /\
    forall t, dget t b = match List.filter (primary_is t) rs with [] => None | rows => Some rows end.
Proof.
  induction l as [|c l IH] using rev_ind; intros Hl.
  { exists [], []. split; [done|]. split; [constructor|]. split; [constructor|]. done. }
  destruct IH as (b&rs&Eb&Hrs&Hnd&Hb); [intros x Hx; apply Hl, elem_of_app; by left|].
  destruct (Hl c) as ([Hc _]&v&Ev); [apply elem_of_app; right; by left|].
  destruct (ca_ordered_type_ids c) as [|t ts] eqn:Et; [done|].
  eexists _, (rs ++ [(c, ratio v)]). rewrite foldM_app, Eb. cbn [mbind res_bind foldM].
  unfold add_case. rewrite Ev. cbn [mbind res_bind]. unfold primary_type_id. rewrite Et. cbn [mbind res_bind]. split; [reflexivity|].
  split; [apply Forall2_app; [done|]; constructor; [|constructor]; split; [done|by exists v]|].
  split; [by apply NoDup_dkeys_dset|]. intros t'. rewrite dget_dset, filterb_app. cbn [List.filter primary_is fst].
  unfold primary_is at 2. cbn [fst]. rewrite Et. cbn [head].
  case_decide as Hd; case_bool_decide as Hd'; try congruence.
  - subst t'. rewrite Hb. by destruct (List.filter _ rs).
  - rewrite app_nil_r. apply Hb.
Qed.

(** What a group says of the cases it is of. *)
Definition describes (theme_id : string) (rs : list Reaction) (g : CatalystGroup) : Prop :=
  let rows := List.filter (primary_is (gr_type_id g)) rs in
  gr_catalyst_id g = catalyst_id theme_id (gr_type_id g) /\
  gr_events g ≡ₚ rows /\ StronglySorted (fun a b : Reaction => ca_market_date b.1 <= ca_market_date a.1) (gr_events g) /\
  gr_eligible_count g = count rows /\ gr_observed_count g = count (reactions rows) /\ MIN_GROUP_EVENTS <= gr_observed_count g /\
  gr_median_same_day g = Some (fround (median (reactions rows)) 6).

Lemma build_group_spec theme_id t rows :
  t ∈ type_ids ->
  exists o, build_group theme_id (t, rows) = Ok o /\
    match o with
    | None => count (reactions rows) < MIN_GROUP_EVENTS
    | Some g => gr_type_id g = t /\ forall rs, rows = List.filter (primary_is t) rs -> describes theme_id rs g
    end.
Proof.
  intros Ht. unfold build_group. destruct (Z.ltb_spec (count (reactions rows)) MIN_GROUP_EVENTS); [by eexists|].
  destruct (type_named t Ht) as [n ->]. cbn [mbind res_bind]. eexists. split; [reflexivity|]. split; [done|].
  intros rs ->. unfold describes. cbn [gr_type_id gr_catalyst_id gr_events gr_eligible_count gr_observed_count gr_median_same_day].
  split; [done|]. split; [apply sorted_by_perm|]. split; [|done]. eapply sorted_weaken; [|apply sorted_by_sorted].
  intros a b Hab. unfold key_le in Hab. rewrite pyle_Z, Z.leb_le in Hab. lia.
Qed.

Lemma build_group_type theme_id t rows g : build_group theme_id (t, rows) = Ok (Some g) -> gr_type_id g = t.
Proof. unfold build_group. intros Hg. case_in Hg; [done|]. by apply res_bind_ok in Hg as (n&_&[= <-]). Qed.

Lemma built_types theme_id b k :
  Forall2 (fun x o => build_group theme_id x = Ok o) b k -> gr_type_id <$> @omap list _ _ _ id k `sublist_of` dkeys b.
Proof.
  induction 1 as [|[t rows] o b k E _ IH]; [constructor|]. rewrite dkeys_cons. cbn [omap list_omap id].
  destruct o as [g|]; [|by apply sublist_cons]. rewrite fmap_cons, (build_group_type _ _ _ _ E). by apply sublist_skip.
Qed.

Lemma build_groups theme_id b rs :
  NoDup (dkeys b) -> (forall t, t ∈ dkeys b -> t ∈ type_ids) ->
  (forall t, dget t b = match List.filter (primary_is t) rs with [] => None | rows => Some rows end) ->
  exists k, mapM_res (build_group theme_id) b = Ok k /\ NoDup (gr_type_id <$> @omap list _ _ _ id k) /\
    (forall g, g ∈ @omap list _ _ _ id k -> describes theme_id rs g) /\
    forall t, MIN_GROUP_EVENTS <= count (reactions (List.filter (primary_is t) rs)) -> t ∈ gr_type_id <$> @omap list _ _ _ id k.
Proof.
  intros Hnd Hk Hb. destruct (mapM_res_ok (build_group theme_id) b) as [k E].
  { intros [t rows] Hin. destruct (build_group_spec theme_id t rows) as (o&E&_); [|by exists o].
    apply Hk, list_elem_of_fmap. by exists (t, rows). }
  exists k. split; [done|]. pose proof (fun g => elem_of_results _ _ _ g E) as Hin.
  assert (forall t rows g, (t, rows) ∈ b -> build_group theme_id (t, rows) = Ok (Some g) -> gr_type_id g = t /\ describes theme_id rs g) as Hg.
  { intros t rows g Htr Eg. assert (t ∈ type_ids) as Ht by (apply Hk, list_elem_of_fmap; by exists (t, rows)).
    destruct (build_group_spec theme_id t rows Ht) as (o&Eo&Ho). rewrite Eg in Eo. injection Eo as <-. destruct Ho as [Hty Hd].
    split; [done|]. apply Hd. apply (elem_dget _ _ _ Hnd) in Htr. rewrite Hb in Htr. destruct (List.filter _ rs); congruence. }
  split; [|split].
  - eapply sublist_NoDup; [exact Hnd|]. eapply built_types, mapM_res_Forall2, E.
  - intros g ([t rows]&Htr&Eg)%Hin. by eapply Hg.
  - intros t Ht. destruct (List.filter (primary_is t) rs) as [|r rows] eqn:Er; [by compute in Ht|].
    assert ((t, r :: rows) ∈ b) as Htr by (apply dget_elem; by rewrite Hb, Er).
    assert (t ∈ type_ids) as Hty by (apply Hk, list_elem_of_fmap; by exists (t, r :: rows)).
    destruct (build_group_spec theme_id t (r :: rows) Hty) as ([g|]&Eg&Ho); [|lia].
    apply list_elem_of_fmap. exists g. split; [by destruct Ho as [-> _]|]. apply Hin. by exists (t, r :: rows).
Qed.

(** C24: Past reactions are grouped by catalyst type.  For a theme whose reactions are known the
    groups are found, and kept: each holds all the cases whose primary type is its own, the
    latest first, and none has too few observations; a type with enough is there, and the
    groups stand by their median. *)
Theorem groups_partition i theme_id l :
  cached (gi_index i) -> gi_same_day i = Some sd -> dget theme_id (gi_groups i) = None ->
  cases_of (ci_details (gi_index i)) theme_id = Ok l ->
  (forall c, c ∈ l -> exists v, sd_basket_daily_return sd (fst <$> basket c) (ca_market_date c) = Ok v) ->
  exists gs rs i', groups theme_id i = (Ok gs, i') /\ groups theme_id i' = (Ok gs, i') /\ reacted l rs /\
    StronglySorted group_before gs /\ NoDup (gr_type_id <$> gs) /\ (forall g, g ∈ gs -> describes theme_id rs g) /\
    forall t, MIN_GROUP_EVENTS <= count (reactions (List.filter (primary_is t) rs)) -> t ∈ gr_type_id <$> gs.
Proof.
  intros Hi Hs Hg Hl Hv. destruct (buckets_spec l) as (b&rs&Eb&Hrs&Hnd&Hb).
  { intros c Hc. split; [by eapply cases_known|by apply Hv]. }
  assert (forall t, t ∈ dkeys b -> t ∈ type_ids) as Hk.
  { intros t [rows Et]%elem_of_dkeys. rewrite Hb in Et. destruct (List.filter (primary_is t) rs) as [|r k] eqn:Er; [done|].
    assert (r ∈ List.filter (primary_is t) rs) as [Hin Ht%bool_decide_eq_true]%elem_of_filterb by (rewrite Er; by left).
    destruct (cases_known _ _ _ _ Hl (reacted_case _ _ _ Hrs Hin)) as [_ Hkn]. by apply Hkn, head_Some_elem_of. }
  destruct (build_groups theme_id b rs Hnd Hk Hb) as (k&Ek&Hnk&Hdesc&Hall).
  assert (groups theme_id i = (Ok (sorted_by group_key (@omap list _ _ _ id k)),
    mk_CatalystGroupIndex (cases theme_id (gi_index i)).2 (gi_same_day i) (dset theme_id (sorted_by group_key (@omap list _ _ _ id k)) (gi_groups i)))) as E.
  { destruct (cases_read (gi_index i) theme_id Hi) as [Ec _]. rewrite Hl in Ec.
    unfold groups. cbv [get_st mbind M_bind mret M_ret lift keep_groups on_index]. rewrite Hg, Hs.
    destruct (cases theme_id (gi_index i)) as [r index]. cbn [fst snd] in *. rewrite Ec, Eb, Ek. cbn [gi_index gi_same_day gi_groups]. by rewrite Hs. }
  eexists _, rs, _. split; [exact E|]. split.
  { unfold groups. cbv [get_st mbind M_bind mret M_ret]. cbn [gi_groups]. by rewrite dget_dset_eq. }
  split; [exact Hrs|].
  split; [eapply sorted_weaken; [apply key_group_before|apply sorted_by_sorted]|]. split; [by rewrite sorted_by_perm|]. split.
  - intros g Hin%elem_of_sorted_by. by apply Hdesc.
  - intros t Ht. rewrite sorted_by_perm. by apply Hall.
Qed.
End grouped.

(** ** Catalyst ids *)

Lemma partition_spec sep s : 
  match partition sep s with
  | (before, true, after) => s = before ++ sep :: after /\ sep ∉ before
  | (before, false, after) => sep ∉ s
  end.
Proof.
  induction s as [|a s IH]; cbn; [apply not_elem_of_nil|]. case_decide as Ha; [by subst; split; [|apply not_elem_of_nil]|].
  destruct (partition sep s) as [[before []] after].
  - destruct IH as [-> Hn]. split; [done|]. rewrite not_elem_of_cons. by split; [intros <-|].
  - rewrite not_elem_of_cons. by split; [intros <-|].
Qed.

Lemma partition_app sep before after : sep ∉ before -> partition sep (before ++ sep :: after) = (before, true, after).
Proof.
  induction before as [|a l IH]; cbn; intros Hn; [by rewrite decide_True|].
  rewrite not_elem_of_cons in Hn. destruct Hn as [Ha Hn]. rewrite decide_False by done. by rewrite IH.
Qed.

Lemma digits_no_underscore s : is_digits s = true -> c_underscore ∉ String.list_ascii_of_string s.
Proof.
  unfold is_digits. rewrite forallb_forall. intros H Hin%list_elem_of_In. by specialize (H _ Hin).
Qed.

Lemma catalyst_id_text number type_id : catalyst_id ("thm_" +:+ number) type_id = "ctl_thm_" +:+ (number +:+ ("_" +:+ type_id)).
Proof. apply chars_inj. unfold catalyst_id. by rewrite !chars_app, <-?app_assoc. Qed.

(** A catalyst id and its parts are one.  [split_catalyst_id] gives a theme and a type back
    just when the id was made of them, the theme is a numbered one and the type is known. *)
Theorem catalyst_id_round_trip id theme_id type_id :
  split_catalyst_id id = Some (theme_id, type_id) <->
  id = catalyst_id theme_id type_id /\ dmem type_id TYPE_NAMES = true /\
  exists number, theme_id = "thm_" +:+ number /\ is_empty number = false /\ is_digits number = true.
Proof.
  unfold split_catalyst_id. split.
  - destruct (String.prefix "ctl_thm_" id) eqn:Ep; cbn [negb]; [|done]. apply prefix_split in Ep as [r ->].
    rewrite remove_prefix_app. pose proof (partition_spec c_underscore (String.list_ascii_of_string r)) as Hp.
    destruct (partition _ _) as [[number sep] ty]. cbn zeta.
    match goal with |- (if ?b then _ else _) = _ -> _ => destruct b eqn:Ec end; [done|]. intros [= <- <-].
    apply orb_false_iff in Ec as [Ec Ht%negb_false_iff]. apply orb_false_iff in Ec as [Ec Hd%negb_false_iff].
    apply orb_false_iff in Ec as [Hsep%negb_false_iff He]. subst sep. destruct Hp as [Hr _].
    split; [|split; [done|by eexists]].
    rewrite catalyst_id_text. f_equal. apply chars_inj. by rewrite Hr, !chars_app, !chars_of_list.
  - intros (->&Ht&number&->&He&Hd). rewrite catalyst_id_text, prefix_app, remove_prefix_app. cbn [negb].
    rewrite !chars_app. change (String.list_ascii_of_string "_" ++ chars type_id) with (c_underscore :: chars type_id).
    rewrite partition_app by by apply digits_no_underscore. by rewrite !string_of_chars, He, Hd, Ht.
Qed.

(** ** Demonstrations *)

(** A source without prices, and one that knows one percentage of every day. *)
#[local] Instance demo_outcomes : OutcomeSource unit := {|
  os_returns _ _ _ _ := Ok (None, None, [], Some "BEFORE_CORPUS_RANGE");
  os_daily_return _ _ _ := Ok None
|}.
#[local] Instance demo_same_day : SameDaySource dec := {| sd_basket_daily_return p _ _ := Ok (Some p) |}.

Definition demo_history (n : Z) (raw_text : string) : ThemeHistory :=
  mk_ThemeHistory n None (String.string_of_list_ascii (pad 2 n)) (Some (738000 + n)) None None None raw_text "UP"
    [mk_StockReference 0 "한국전력" (Some "015760") None "" "VALID"] [] None None "" "VALID" "".
Definition demo_snapshot : RawSnapshot :=
  mk_RawSnapshot "theme" None "" (mk_datetime 0 None) (mk_datetime 0 None) "" None "" "" true "" None.
Definition demo_detail (histories : list ThemeHistory) : ThemeDetail := mk_ThemeDetail "12" "원전" "" "" histories [] demo_snapshot.
Definition demo_histories : list ThemeHistory := [demo_history 1 "정책 발표에 상승"].
Definition demo_today : TodayContext := mk_TodayContext ["POLICY_MEASURE"] "UNKNOWN" "UNSPECIFIED" [].

Definition demo_case (n : Z) (tail : string) : PastCase :=
  mk_PastCase ("evt_hist_12_" +:+ tail) "thm_12" "원전" (738000 + n) "정책 발표에 상승" ["POLICY_MEASURE"] "UP" "CONFIRMED"
    [("015760", "한국전력")] [].
Definition demo_score : ScoredCase :=
  mk_ScoredCase (demo_case 1 "a") (units 6305039478318694 1021) ["같은 주 소재"; "정책·제도"].

Lemma demo_today_known t : t ∈ tc_ordered_type_ids demo_today -> t ∈ type_ids.
Proof. intros ->%list_elem_of_singleton. apply (bool_decide_unpack _). vm_compute. exact I. Qed.

Lemma demo_scored : score demo_today (demo_case 1 "a") = Ok (Some demo_score).
Proof. vm_compute. reflexivity. Qed.

Lemma score_bounds_witness :
  score demo_today (demo_case 1 "a") = Ok (Some demo_score) /\ 0 <= sc_score demo_score <= one.
Proof. split; [exact demo_scored|]. exact (proj1 (proj2 (score_bounds _ _ _ demo_scored))). Defined.

Lemma demo_eligible : eligible demo_today [demo_case 1 "a"; demo_case 9 "b"] 738005 demo_score.
Proof. split; [by left|]. split; [done|]. split; [exact demo_scored|]. by vm_compute. Qed.

(** The later case is not shown. *)
Lemma rank_cases_best_witness :
  (forall t, t ∈ tc_ordered_type_ids demo_today -> t ∈ type_ids) /\
  exists r, rank_cases demo_today [demo_case 1 "a"; demo_case 9 "b"] 738005 21 = Ok r /\ (r <> [] /\ Forall (fun s => ca_market_date (sc_case s) < 738005) r).
Proof.
  split; [exact demo_today_known|].
  destruct (rank_cases_best demo_today [demo_case 1 "a"; demo_case 9 "b"] 738005 21 demo_today_known) as (r&E&_&_&Hr&Hall).
  exists r. split; [exact E|]. split.
  - destruct (Hall _ demo_eligible) as [Hin|[Hlen _]]; intros ->; [by apply elem_of_nil in Hin|discriminate Hlen].
  - apply Forall_forall. intros s Hs. apply (Hr s Hs).
Defined.

Definition demo_index (later : list ThemeHistory) : HistoricalCaseIndex := case_index [demo_detail (demo_histories ++ later)].
Definition demo_similar (later : list ThemeHistory) (outcomes : option unit) : res SimilarEvents * HistoricalCaseIndex :=
  similar_events_data "evt_1" "thm_12" (Some demo_today) outcomes (mk_datetime 0 (Some 0)) 738005 20 (demo_index later).

Lemma demo_similar_ok :
  is_ok (demo_similar [] None).1 = true /\ is_ok (demo_similar [demo_history 9 "정책 발표에 하락"] (Some tt)).1 = true.
Proof. vm_compute. split; reflexivity. Qed.

Lemma ok_pair {A S} (x : res A * S) : is_ok x.1 = true -> exists a s, x = (Ok a, s).
Proof. destruct x as [[a|e] s]; [by eauto|done]. Qed.

Lemma similar_events_point_in_time_witness :
  exists r1 r2 i1 i2, demo_similar [] None = (Ok r1, i1) /\ demo_similar [demo_history 9 "정책 발표에 하락"] (Some tt) = (Ok r2, i2) /\
    selected r1 = selected r2.
Proof.
  destruct (ok_pair _ (proj1 demo_similar_ok)) as (r1&i1&E1). destruct (ok_pair _ (proj2 demo_similar_ok)) as (r2&i2&E2).
  exists r1, r2, i1, i2. split; [exact E1|]. split; [exact E2|].
  refine (proj1 (similar_events_point_in_time _ _ _ _ _ _ _ _ _ _ _ _ _ _ (cached_new _) (cached_new _) _ E1 E2)).
  split; [reflexivity|]. split; reflexivity.
Defined.

Definition demo_five : list ThemeDetail := [demo_detail ((fun n => demo_history n "정책 발표에 상승") <$> [1; 2; 3; 4; 5])].
Definition demo_groups : CatalystGroupIndex dec := mk_CatalystGroupIndex (case_index demo_five) (Some (dec_of_Z 2)) [].

Lemma demo_five_cases : is_ok (cases_of (ci_details (case_index demo_five)) "thm_12") = true.
Proof. vm_compute. reflexivity. Qed.

Lemma groups_partition_witness :
  exists l gs rs i, cases_of (ci_details (case_index demo_five)) "thm_12" = Ok l /\
    groups "thm_12" demo_groups = (Ok gs, i) /\ reacted (dec_of_Z 2) l rs /\ Forall (describes "thm_12" rs) gs.
Proof.
  destruct (cases_of (ci_details (case_index demo_five)) "thm_12") as [l|e] eqn:E; [|exfalso; pose proof demo_five_cases as H; rewrite E in H; discriminate H].
  destruct (groups_partition (dec_of_Z 2) demo_groups "thm_12" l (cached_new _) eq_refl eq_refl E) as (gs&rs&i&Eg&_&Hr&_&_&Hd&_).
  - intros c _. by exists (Some (dec_of_Z 2)).
  - exists l, gs, rs, i. split; [reflexivity|]. split; [exact Eg|]. split; [exact Hr|]. apply Forall_forall. exact Hd.
Defined.

Example demo_top :
  (fun t => ((fun g => (tg_catalyst_id g, tg_observed_count g, tg_matches_today g)) <$> tt_items t, tt_quality_note t))
    <$> (catalyst_top3_data "thm_12" "evt_1" (Some demo_today) demo_groups).1 =
  Ok ([("ctl_thm_12_POLICY_MEASURE", 5, true)], None).
Proof. vm_compute. reflexivity. Qed.

(** A case of the opposite direction is not kept out by the score. *)
Example min_score_without_direction :
  (fun o => match o with Some s => (MIN_SCORE <=? sc_score s) | None => false end) <$>
    score (mk_TodayContext ["POLICY_MEASURE"; "ORDER_CONTRACT"] "UP" "CONFIRMED" ["015760"])
          (mk_PastCase "e" "thm_12" "원전" 738001 "" ["ORDER_CONTRACT"; "POLICY_MEASURE"] "DOWN" "CONFIRMED" [("015760", "한국전력")] []) = Ok true.
Proof. vm_compute. reflexivity. Qed.
