(* ===== verification/ReferenceModels.v ===== *)
(** [packages/reference-data/reference_data/models.py]: what the exchange and the disclosure
    system reported, each value with when it became known, and what is made of it. *)
From S2P Require Import Prelude Sha256 PyTime PyDecimal DecimalText.
#[local] Open Scope Z_scope.

(** ** Enumerations *)

(* @ packages/reference-data/reference_data/models.py 32-34 SourceProvider *)
Inductive SourceProvider := KRX_OPEN_API | OPENDART.
(* @ packages/reference-data/reference_data/models.py 32-34 SourceProvider *)
Definition SourceProvider_value (p : SourceProvider) : string :=
  match p with KRX_OPEN_API => "KRX_OPEN_API" | OPENDART => "OPENDART" end.

(* @ packages/reference-data/reference_data/models.py 37-45 SourceDataset *)
Inductive SourceDataset :=
  | KRX_STOCK_DAILY | KRX_CALENDAR_DERIVED | KRX_CORPORATE_ACTION_REFERENCE | OPENDART_CORP_CODE
  | OPENDART_STOCK_TOTAL | OPENDART_LARGEST_SHAREHOLDER | OPENDART_TREASURY_STATUS
  | OPENDART_DISCLOSURE_CLASSIFICATION.
#[export] Instance SourceDataset_eq_dec : EqDecision SourceDataset.
Proof. solve_decision. Defined.
(* @ packages/reference-data/reference_data/models.py 37-45 SourceDataset *)
Definition SourceDataset_value (d : SourceDataset) : string :=
  match d with
  | KRX_STOCK_DAILY => "KRX_STOCK_DAILY"
  | KRX_CALENDAR_DERIVED => "KRX_CALENDAR_DERIVED"
  | KRX_CORPORATE_ACTION_REFERENCE => "KRX_CORPORATE_ACTION_REFERENCE"
  | OPENDART_CORP_CODE => "OPENDART_CORP_CODE"
  | OPENDART_STOCK_TOTAL => "OPENDART_STOCK_TOTAL"
  | OPENDART_LARGEST_SHAREHOLDER => "OPENDART_LARGEST_SHAREHOLDER"
  | OPENDART_TREASURY_STATUS => "OPENDART_TREASURY_STATUS"
  | OPENDART_DISCLOSURE_CLASSIFICATION => "OPENDART_DISCLOSURE_CLASSIFICATION"
  end.

(* @ packages/reference-data/reference_data/models.py 48-50 LiveValidationStatus *)
Inductive LiveValidationStatus := LIVE_STATUS_UNVERIFIED | LIVE_STATUS_VERIFIED.

(* @ packages/reference-data/reference_data/models.py 53-60 QualityState *)
Inductive QualityState :=
  | VERIFIED | QS_PARTIAL | MISSING | CONFLICT | STALE | QS_CORPORATE_ACTION_UNRESOLVED | POINT_IN_TIME_UNAVAILABLE.
#[export] Instance QualityState_eq_dec : EqDecision QualityState.
Proof. solve_decision. Defined.

(* @ packages/reference-data/reference_data/models.py 63-74 QualityFlag *)
Inductive QualityFlag :=
  | FREE_FLOAT_UNAVAILABLE | FREE_FLOAT_STALE | FREE_FLOAT_SOURCE_CONFLICT | SOURCE_MISSING | SOURCE_STALE
  | DUPLICATE_DEDUCTION_PREVENTED | CORPORATE_ACTION_UNRESOLVED | REFERENCE_PRICE_UNAVAILABLE
  | CALENDAR_UNAVAILABLE | POINT_IN_TIME_FILTERED | LIVE_UNVERIFIED.
#[export] Instance QualityFlag_eq_dec : EqDecision QualityFlag.
Proof. solve_decision. Defined.
(* @ packages/reference-data/reference_data/models.py 63-74 QualityFlag *)
Definition QualityFlag_value (f : QualityFlag) : string :=
  match f with
  | FREE_FLOAT_UNAVAILABLE => "FREE_FLOAT_UNAVAILABLE"
  | FREE_FLOAT_STALE => "FREE_FLOAT_STALE"
  | FREE_FLOAT_SOURCE_CONFLICT => "FREE_FLOAT_SOURCE_CONFLICT"
  | SOURCE_MISSING => "SOURCE_MISSING"
  | SOURCE_STALE => "SOURCE_STALE"
  | DUPLICATE_DEDUCTION_PREVENTED => "DUPLICATE_DEDUCTION_PREVENTED"
  | CORPORATE_ACTION_UNRESOLVED => "CORPORATE_ACTION_UNRESOLVED"
  | REFERENCE_PRICE_UNAVAILABLE => "REFERENCE_PRICE_UNAVAILABLE"
  | CALENDAR_UNAVAILABLE => "CALENDAR_UNAVAILABLE"
  | POINT_IN_TIME_FILTERED => "POINT_IN_TIME_FILTERED"
  | LIVE_UNVERIFIED => "LIVE_UNVERIFIED"
  end.

(* @ packages/reference-data/reference_data/models.py 77-80 CoverageStatus *)
Inductive CoverageStatus := SUFFICIENT | PARTIAL | INSUFFICIENT.
(* @ packages/reference-data/reference_data/models.py 83-84 EconomicField *)
Inductive EconomicField := LISTED_COMMON_SHARES.
(* @ packages/reference-data/reference_data/models.py 87-88 ShareClass *)
Inductive ShareClass := COMMON.
#[export] Instance ShareClass_eq_dec : EqDecision ShareClass.
Proof. solve_decision. Defined.
(* @ packages/reference-data/reference_data/models.py 87-88 ShareClass *)
Definition ShareClass_value (c : ShareClass) : string := match c with COMMON => "COMMON" end.

(* @ packages/reference-data/reference_data/models.py 91-94 NonFloatCategory *)
Inductive NonFloatCategory := TREASURY | CONTROLLING_HOLDER | STRATEGIC_LOCKUP.
#[export] Instance NonFloatCategory_eq_dec : EqDecision NonFloatCategory.
Proof. solve_decision. Defined.

(* @ packages/reference-data/reference_data/models.py 97-100 CoverageDeclarationStatus *)
Inductive CoverageDeclarationStatus := COMPLETE | COMPLETE_ZERO | INCOMPLETE.
#[export] Instance CoverageDeclarationStatus_eq_dec : EqDecision CoverageDeclarationStatus.
Proof. solve_decision. Defined.

(* @ packages/reference-data/reference_data/models.py 103-106 CorporateActionStatus *)
Inductive CorporateActionStatus := CLEAR | ADJUSTED | UNRESOLVED.
#[export] Instance CorporateActionStatus_eq_dec : EqDecision CorporateActionStatus.
Proof. solve_decision. Defined.

(** ** Checks *)

Definition code_char (a : ascii) : bool :=
  let n := N_of_ascii a in ((48 <=? n) && (n <=? 57) || (65 <=? n) && (n <=? 90))%N.
(* @ packages/reference-data/reference_data/models.py 13-13 STOCK_CODE_RE *)
Definition STOCK_CODE_RE (value : string) : bool := (length (chars value) =? 6)%nat && forallb code_char (chars value).
Definition hex_char (a : ascii) : bool :=
  let n := N_of_ascii a in ((48 <=? n) && (n <=? 57) || (97 <=? n) && (n <=? 102))%N.
(* @ packages/reference-data/reference_data/models.py 14-14 SHA256_RE *)
Definition SHA256_RE (value : string) : bool := (length (chars value) =? 64)%nat && forallb hex_char (chars value).

(* @ packages/reference-data/reference_data/models.py 22-24 require_stock_code *)
Definition require_stock_code (value : string) : res unit := raise_if (negb (STOCK_CODE_RE value)) ValueError.
(** A decimal is finite. *)
(* @ packages/reference-data/reference_data/models.py 27-29 require_positive_decimal *)
Definition require_positive_decimal (value : dec) : res unit := raise_if (dle value dzero) ValueError.

(** ** Records *)

(* @ packages/reference-data/reference_data/models.py 109-121 SourceMetadata *)
Record SourceMetadata := mk_SourceMetadata {
  sm_provider : SourceProvider;
  sm_dataset : SourceDataset;
  sm_endpoint : string;
  sm_source_key : string;
  sm_as_of : datetime;
  sm_collected_at : datetime;
  sm_parser_version : string;
  sm_revision : Z;
  sm_lineage : list string;
  sm_source_document_ids : list string;
  sm_live_validation_status : LiveValidationStatus
}.

(* @ packages/reference-data/reference_data/models.py 123-141 SourceMetadata.__post_init__ *)
Definition SourceMetadata_check (m : SourceMetadata) : res SourceMetadata :=
  _ ← require_aware (sm_as_of m);
  _ ← require_aware (sm_collected_at m);
  _ ← raise_if (dt_lt (sm_collected_at m) (sm_as_of m)) ValueError;
  _ ← raise_if (negb (String.prefix "https://" (sm_endpoint m))) ValueError;
  _ ← raise_if (is_empty (sm_source_key m) || is_empty (sm_parser_version m)) ValueError;
  _ ← raise_if (sm_revision m <=? 0) ValueError;
  _ ← raise_if (bool_decide (sm_lineage m = []) || existsb is_empty (sm_lineage m)) ValueError;
  _ ← raise_if (negb (bool_decide (NoDup (sm_lineage m)))) ValueError;
  _ ← raise_if (existsb is_empty (sm_source_document_ids m)) ValueError;
  _ ← raise_if (negb (bool_decide (NoDup (sm_source_document_ids m)))) ValueError;
  Ok m.

(* @ packages/reference-data/reference_data/models.py 143-145 SourceMetadata.known_at *)
Definition known_at (m : SourceMetadata) : datetime := sm_collected_at m.

(* @ packages/reference-data/reference_data/models.py 148-152 SourceSnapshot *)
Record SourceSnapshot := mk_SourceSnapshot { ss_metadata : SourceMetadata; ss_raw_payload_text : string; ss_raw_hash : string }.
(* @ packages/reference-data/reference_data/models.py 154-158 SourceSnapshot.__post_init__ *)
Definition SourceSnapshot_check (s : SourceSnapshot) : res SourceSnapshot :=
  _ ← raise_if (negb (SHA256_RE (ss_raw_hash s))) ValueError;
  _ ← raise_if (negb (bool_decide (sha256_hex (ss_raw_payload_text s) = ss_raw_hash s))) ValueError;
  Ok s.

(* @ packages/reference-data/reference_data/models.py 161-168 FieldObservation *)
Record FieldObservation := mk_FieldObservation {
  fo_stock_code : string;
  fo_field : EconomicField;
  fo_value : Z;
  fo_effective_on : date;
  fo_share_class : ShareClass;
  fo_metadata : SourceMetadata
}.
(* @ packages/reference-data/reference_data/models.py 170-173 FieldObservation.__post_init__ *)
Definition FieldObservation_check (o : FieldObservation) : res FieldObservation :=
  _ ← require_stock_code (fo_stock_code o);
  _ ← raise_if (fo_value o <=? 0) ValueError;
  Ok o.

(* @ packages/reference-data/reference_data/models.py 176-184 DailyPriceObservation *)
Record DailyPriceObservation := mk_DailyPriceObservation {
  dp_stock_code : string;
  dp_market : string;
  dp_market_date : date;
  dp_close : dec;
  dp_change_from_previous : option dec;
  dp_listed_shares : Z;
  dp_metadata : SourceMetadata
}.
(* @ packages/reference-data/reference_data/models.py 186-192 DailyPriceObservation.__post_init__ *)
Definition DailyPriceObservation_check (p : DailyPriceObservation) : res DailyPriceObservation :=
  _ ← require_stock_code (dp_stock_code p);
  _ ← require_positive_decimal (dp_close p);
  _ ← raise_if (dp_listed_shares p <=? 0) ValueError;
  Ok p.
(* @ packages/reference-data/reference_data/models.py 194-199 DailyPriceObservation.implied_previous_adjusted_close *)
Definition implied_previous_adjusted_close (p : DailyPriceObservation) : option dec :=
  match dp_change_from_previous p with
  | None => None
  | Some change =>
      let result := dsub default_prec (dp_close p) change in
      if dle result dzero then None else Some result
  end.
(* @ packages/reference-data/reference_data/models.py 201-209 DailyPriceObservation.listed_share_observation *)
Definition listed_share_observation (p : DailyPriceObservation) : res FieldObservation :=
  FieldObservation_check
    (mk_FieldObservation (dp_stock_code p) LISTED_COMMON_SHARES (dp_listed_shares p) (dp_market_date p) COMMON (dp_metadata p)).

(* @ packages/reference-data/reference_data/models.py 212-221 NonFloatHolding *)
Record NonFloatHolding := mk_NonFloatHolding {
  nf_stock_code : string;
  nf_holder_id : string;
  nf_holder_name : string;
  nf_category : NonFloatCategory;
  nf_share_class : ShareClass;
  nf_shares : Z;
  nf_effective_on : date;
  nf_metadata : SourceMetadata
}.
(* @ packages/reference-data/reference_data/models.py 223-228 NonFloatHolding.__post_init__ *)
Definition NonFloatHolding_check (h : NonFloatHolding) : res NonFloatHolding :=
  _ ← require_stock_code (nf_stock_code h);
  _ ← raise_if (is_empty (nf_holder_id h) || is_empty (nf_holder_name h)) ValueError;
  _ ← raise_if (nf_shares h <? 0) ValueError;
  Ok h.
(* @ packages/reference-data/reference_data/models.py 230-232 NonFloatHolding.economic_key *)
Definition economic_key (h : NonFloatHolding) : string * string * ShareClass := (nf_stock_code h, nf_holder_id h, nf_share_class h).

(* @ packages/reference-data/reference_data/models.py 235-241 HoldingCoverageDeclaration *)
Record HoldingCoverageDeclaration := mk_HoldingCoverageDeclaration {
  hc_stock_code : string;
  hc_category : NonFloatCategory;
  hc_status : CoverageDeclarationStatus;
  hc_effective_on : date;
  hc_metadata : SourceMetadata
}.
(* @ packages/reference-data/reference_data/models.py 243-244 HoldingCoverageDeclaration.__post_init__ *)
Definition HoldingCoverageDeclaration_check (d : HoldingCoverageDeclaration) : res HoldingCoverageDeclaration :=
  _ ← require_stock_code (hc_stock_code d); Ok d.

(** A [time] is its microseconds since midnight. *)
(* @ packages/reference-data/reference_data/models.py 247-254 TradingDayObservation *)
Record TradingDayObservation := mk_TradingDayObservation {
  to_market_date : date;
  to_is_trading_day : bool;
  to_session_open : option Z;
  to_session_close : option Z;
  to_version : string;
  to_metadata : SourceMetadata
}.
(* @ packages/reference-data/reference_data/models.py 256-265 TradingDayObservation.__post_init__ *)
Definition TradingDayObservation_check (t : TradingDayObservation) : res TradingDayObservation :=
  _ ← raise_if (is_empty (to_version t)) ValueError;
  _ ← (if to_is_trading_day t then
         match to_session_open t, to_session_close t with
         | Some open, Some close => raise_if (close <=? open) ValueError
         | _, _ => Raise ValueError
         end
       else raise_if (negb (bool_decide (to_session_open t = None) && bool_decide (to_session_close t = None))) ValueError);
  Ok t.

(* @ packages/reference-data/reference_data/models.py 268-274 CorporateActionReference *)
Record CorporateActionReference := mk_CorporateActionReference {
  cr_stock_code : string;
  cr_effective_on : date;
  cr_status : CorporateActionStatus;
  cr_adjustment_factor : option dec;
  cr_metadata : SourceMetadata
}.
(* @ packages/reference-data/reference_data/models.py 276-286 CorporateActionReference.__post_init__ *)
Definition CorporateActionReference_check (a : CorporateActionReference) : res CorporateActionReference :=
  _ ← require_stock_code (cr_stock_code a);
  _ ← (match cr_status a, cr_adjustment_factor a with
       | CLEAR, Some factor => raise_if (negb (deq factor done_)) ValueError
       | CLEAR, None => Raise ValueError
       | ADJUSTED, Some factor => require_positive_decimal factor
       | ADJUSTED, None => Raise ValueError
       | UNRESOLVED, Some _ => Raise ValueError
       | UNRESOLVED, None => Ok tt
       end);
  Ok a.

(* @ packages/reference-data/reference_data/models.py 289-294 ReferencePolicy *)
Record ReferencePolicy := mk_ReferencePolicy {
  rp_version : string;
  rp_free_float_stale_after : timedelta;
  rp_sufficient_coverage_ratio : dec;
  rp_required_non_float_categories : list NonFloatCategory
}.
(* @ packages/reference-data/reference_data/models.py 296-311 ReferencePolicy.__post_init__ *)
Definition ReferencePolicy_check (p : ReferencePolicy) : res ReferencePolicy :=
  _ ← raise_if (is_empty (rp_version p)) ValueError;
  _ ← raise_if (rp_free_float_stale_after p <=? 0) ValueError;
  _ ← raise_if (dle (rp_sufficient_coverage_ratio p) dzero || negb (dle (rp_sufficient_coverage_ratio p) done_)) ValueError;
  _ ← raise_if (bool_decide (rp_required_non_float_categories p = [])) ValueError;
  _ ← raise_if (negb (bool_decide (NoDup (rp_required_non_float_categories p)))) ValueError;
  Ok p.

(* @ packages/reference-data/reference_data/models.py 314-320 FieldResolution *)
Record FieldResolution := mk_FieldResolution {
  fr_value : option Z;
  fr_state : QualityState;
  fr_quality_flags : list QualityFlag;
  fr_selected : list FieldObservation;
  fr_lineage : list string
}.

(* @ packages/reference-data/reference_data/models.py 323-335 FreeFloatResult *)
Record FreeFloatResult := mk_FreeFloatResult {
  ff_stock_code : string;
  ff_effective_on : date;
  ff_ratio : option dec;
  ff_issued_common_shares : option Z;
  ff_deducted_non_float_shares : option Z;
  ff_free_float_shares : option Z;
  ff_state : QualityState;
  ff_quality_flags : list QualityFlag;
  ff_duplicate_deductions_prevented : Z;
  ff_calculation_version : string;
  ff_lineage : list string
}.
(* @ packages/reference-data/reference_data/models.py 337-339 FreeFloatResult.available *)
Definition ff_available (r : FreeFloatResult) : bool :=
  bool_decide (ff_state r = VERIFIED) && match ff_ratio r with Some _ => true | None => false end.

(* @ packages/reference-data/reference_data/models.py 342-352 ReferenceCoverage *)
Record ReferenceCoverage := mk_ReferenceCoverage {
  rc_status : CoverageStatus;
  rc_observed_count : Z;
  rc_total_count : Z;
  rc_count_ratio : option dec;
  rc_missing_stock_codes : list string;
  rc_conflict_stock_codes : list string;
  rc_stale_stock_codes : list string;
  rc_quality_flags : list QualityFlag;
  rc_policy_version : string
}.
(** [observed / total], nothing of nothing. *)
Definition count_ratio (observed total : Z) : res (option dec) :=
  if total =? 0 then Ok None else r ← ddiv default_prec (dec_of_Z observed) (dec_of_Z total); Ok (Some r).
(* @ packages/reference-data/reference_data/models.py 354-365 ReferenceCoverage.__post_init__ *)
Definition ReferenceCoverage_check (c : ReferenceCoverage) : res ReferenceCoverage :=
  _ ← raise_if ((rc_observed_count c <? 0) || (rc_total_count c <? 0)) ValueError;
  _ ← raise_if (rc_total_count c <? rc_observed_count c) ValueError;
  expected ← count_ratio (rc_observed_count c) (rc_total_count c);
  _ ← raise_if (negb (match rc_count_ratio c, expected with
                      | Some r, Some e => deq r e
                      | None, None => true
                      | _, _ => false
                      end)) ValueError;
  Ok c.

(* @ packages/reference-data/reference_data/models.py 368-377 AdjustedPriceResolution *)
Record AdjustedPriceResolution := mk_AdjustedPriceResolution {
  ap_stock_code : string;
  ap_effective_for : date;
  ap_previous_trading_day : option date;
  ap_previous_adjusted_close : option dec;
  ap_state : QualityState;
  ap_quality_flags : list QualityFlag;
  ap_version : string;
  ap_lineage : list string
}.
(* @ packages/reference-data/reference_data/models.py 379-381 AdjustedPriceResolution.available *)
Definition ap_available (r : AdjustedPriceResolution) : bool :=
  bool_decide (ap_state r = VERIFIED) && match ap_previous_adjusted_close r with Some _ => true | None => false end.

(* @ packages/reference-data/reference_data/models.py 384-391 CalendarResolution *)
Record CalendarResolution := mk_CalendarResolution {
  cl_market_date : date;
  cl_is_trading_day : option bool;
  cl_state : QualityState;
  cl_quality_flags : list QualityFlag;
  cl_version : option string;
  cl_lineage : list string
}.

(** ** A report for examples *)

Definition demo_metadata (dataset : SourceDataset) (at_ revision : Z) : SourceMetadata :=
  mk_SourceMetadata KRX_OPEN_API dataset "https://example.org" "key" (mk_datetime at_ (Some 0)) (mk_datetime at_ (Some 0)) "1" revision ["line"]
    [] LIVE_STATUS_UNVERIFIED.
Example demo_metadata_ok : SourceMetadata_check (demo_metadata OPENDART_STOCK_TOTAL 5 1) = Ok (demo_metadata OPENDART_STOCK_TOTAL 5 1).
Proof. vm_compute. reflexivity. Qed.
