(* ===== verification/ReferenceCalendar.v ===== *)
(** [calendar.py] and [adjusted_price.py] of [packages/reference-data/reference_data]: the trading
    days and the adjusted close of the day before, as known at the time of a decision. *)
From S2P Require Import Prelude PyTime PyDecimal ReferenceModels.
#[local] Open Scope Z_scope.

(** ** The latest revision of what was known *)

(** The values whose key equals [max(keys)], in their order. *)
Section latest.
Context {A K : Type} `{PyOrdLaws K} (key : A -> K).

Definition pyeq (x y : K) : bool := match pycmp x y with Eq => true | _ => false end.

Definition latest (l : list A) : list A :=
  match l with
  | [] => []
  | x :: rest => List.filter (fun v => pyeq (key v) (max_of (key x) (key <$> rest))) l
  end.

Definition newest_of (l : list A) (v : A) : bool := forallb (fun w => pyle (key w) (key v)) l.

Lemma max_of_ge x (l : list K) y : y ∈ x :: l -> pyle y (max_of x l) = true.
Proof.
  unfold max_of. revert x y; induction l as [|z l IH]; intros x y; cbn [fold_left].
  - intros ->%list_elem_of_singleton. apply pyle_refl.
  - intros [->|[->|Hy]%elem_of_cons]%elem_of_cons.
    + eapply pyle_trans; [apply (pymax_le_l _ z)|apply IH; by left].
    + eapply pyle_trans; [apply (pymax_le_r x)|apply IH; by left].
    + apply IH. by right.
Qed.

Lemma pyeq_le x y : pyeq x y = true <-> pyle x y = true /\ pyle y x = true.
Proof.
  unfold pyeq, pyle. rewrite (pycmp_opp y x). destruct (pycmp y x); cbn; split; intros; repeat split; naive_solver.
Qed.

(** They are those that no value exceeds. *)
Lemma latest_filter l : latest l = List.filter (newest_of l) l.
Proof.
  destruct l as [|x rest]; [done|]. unfold latest. set (l := x :: rest). set (m := max_of _ _).
  assert (exists w, w ∈ l /\ key w = m) as (w&Hw&Ew).
  { pose proof (fold_pymax_in (key x) (key <$> rest)) as Hm. rewrite <-fmap_cons in Hm. apply list_elem_of_fmap in Hm as (w&Ew&Hw). by exists w. }
  apply filterb_ext. intros v Hv. apply eq_true_iff_eq. rewrite pyeq_le. unfold newest_of. rewrite forallb_forall. split.
  - intros [_ Hle] u' Hu%list_elem_of_In. eapply pyle_trans; [|exact Hle].
    apply max_of_ge. rewrite <-fmap_cons. apply list_elem_of_fmap. by exists u'.
  - intros Hall. split; [|rewrite <-Ew; by apply Hall, list_elem_of_In].
    apply max_of_ge. rewrite <-fmap_cons. apply list_elem_of_fmap. by exists v.
Qed.

Lemma latest_elem l v : v ∈ latest l <-> v ∈ l /\ forall w, w ∈ l -> pyle (key w) (key v) = true.
Proof.
  rewrite latest_filter, elem_of_filterb. unfold newest_of. rewrite forallb_forall. by setoid_rewrite list_elem_of_In.
Qed.

Lemma latest_nil l : latest l = [] -> l = [].
Proof.
  destruct l as [|x rest]; [done|]. intros E. exfalso.
  pose proof (fold_pymax_in (key x) (key <$> rest)) as Hm. rewrite <-fmap_cons in Hm. apply list_elem_of_fmap in Hm as (w&Ew&Hw).
  assert (w ∈ latest (x :: rest)) as Hin; [|rewrite E in Hin; by apply elem_of_nil in Hin].
  apply latest_elem. split; [done|]. intros v Hv. rewrite <-Ew. apply max_of_ge. rewrite <-fmap_cons. apply list_elem_of_fmap. by exists v.
Qed.

Lemma latest_perm l k : l ≡ₚ k -> latest l ≡ₚ latest k.
Proof.
  intros Hp. rewrite !latest_filter. etrans; [by apply filterb_perm|]. apply reflexive_eq, filterb_ext.
  intros v _. apply eq_true_iff_eq. unfold newest_of. rewrite !forallb_forall. split; intros Hall w Hw; apply Hall; apply list_elem_of_In in Hw;
    apply list_elem_of_In; by rewrite ?Hp, <-?Hp in *.
Qed.
End latest.

(** Whether the set of the values has not just one element, for Python's equality [same]. *)
Definition not_one {A} (same : A -> A -> bool) (l : list A) : bool :=
  match l with x :: rest => negb (forallb (same x) rest) | [] => true end.

(* @ packages/reference-data/reference_data/calendar.py 29-73 TradingCalendar.resolve *)
Definition revision_key (m : SourceMetadata) : datetime * Z := (known_at m, sm_revision m).

(** ** The calendar *)

(* @ packages/reference-data/reference_data/calendar.py 17-20 _lineage *)
Definition calendar_lineage (values : list TradingDayObservation) : list string :=
  sorted_set (values ≫= fun v => sm_lineage (to_metadata v)).

(* @ packages/reference-data/reference_data/calendar.py 26-27 TradingCalendar.__init__ *)
Definition TradingCalendar : Type := list TradingDayObservation.

(* @ packages/reference-data/reference_data/calendar.py 29-73 TradingCalendar.resolve *)
Definition resolve (calendar : TradingCalendar) (market_date : date) (decision_at : datetime) : res CalendarResolution :=
  _ ← require_aware decision_at;
  let eligible := List.filter (fun v => (to_market_date v =? market_date) && dt_le (known_at (to_metadata v)) decision_at) calendar in
  let latest := latest (fun v => revision_key (to_metadata v)) eligible in
  match latest with
  | [] => Ok (mk_CalendarResolution market_date None POINT_IN_TIME_UNAVAILABLE [CALENDAR_UNAVAILABLE; POINT_IN_TIME_FILTERED] None [])
  | selected :: _ =>
      if not_one (fun v w => Bool.eqb (to_is_trading_day v) (to_is_trading_day w) && bool_decide (to_version v = to_version w)) latest
      then Ok (mk_CalendarResolution market_date None CONFLICT [CALENDAR_UNAVAILABLE] None (calendar_lineage latest))
      else Ok (mk_CalendarResolution market_date (Some (to_is_trading_day selected)) VERIFIED [] (Some (to_version selected))
                 (calendar_lineage latest))
  end.

Definition is_verified (r : CalendarResolution) : bool := bool_decide (cl_state r = VERIFIED).
(** [resolution.is_trading_day] as a condition. *)
Definition trades (r : CalendarResolution) : bool := default false (cl_is_trading_day r).

(* @ packages/reference-data/reference_data/calendar.py 75-98 TradingCalendar.previous_trading_day *)
Fixpoint look_back (calendar : TradingCalendar) (market_date : date) (decision_at : datetime) (offset : Z) (days : nat) :
    res (option date * CalendarResolution) :=
  match days with
  | O => Ok (None, mk_CalendarResolution market_date None MISSING [CALENDAR_UNAVAILABLE] None [])
  | S days =>
      let candidate := market_date - offset in
      resolution ← resolve calendar candidate decision_at;
      if negb (is_verified resolution) then Ok (None, resolution)
      else if trades resolution then Ok (Some candidate, resolution)
      else look_back calendar market_date decision_at (offset + 1) days
  end.

(* @ packages/reference-data/reference_data/calendar.py 75-98 TradingCalendar.previous_trading_day *)
Definition previous_trading_day (calendar : TradingCalendar) (market_date : date) (decision_at : datetime) (max_lookback_days : Z) :
    res (option date * CalendarResolution) :=
  _ ← raise_if (max_lookback_days <=? 0) ValueError;
  look_back calendar market_date decision_at 1 (Z.to_nat max_lookback_days).

(* @ packages/reference-data/reference_data/calendar.py 100-118 TradingCalendar.trading_days_between *)
Fixpoint days_from (calendar : TradingCalendar) (current end_exclusive : date) (decision_at : datetime) (result : list date) (fuel : nat) :
    res (option (list date)) :=
  if current <? end_exclusive then
    match fuel with
    | O => Raise OutOfFuel
    | S fuel =>
        resolution ← resolve calendar current decision_at;
        if negb (is_verified resolution) then Ok None
        else days_from calendar (current + 1) end_exclusive decision_at (if trades resolution then result ++ [current] else result) fuel
    end
  else Ok (Some result).

(* @ packages/reference-data/reference_data/calendar.py 100-118 TradingCalendar.trading_days_between *)
Definition trading_days_between (calendar : TradingCalendar) (start_exclusive end_exclusive : date) (decision_at : datetime) :
    res (option (list date)) :=
  _ ← raise_if (end_exclusive <? start_exclusive) ValueError;
  days_from calendar (start_exclusive + 1) end_exclusive decision_at [] (Z.to_nat (end_exclusive - start_exclusive)).

(** ** The adjusted close of the day before *)

(** The newest of the eligible values, and whether the newest disagree. *)
Definition newest {A} (metadata : A -> SourceMetadata) (same : A -> A -> bool) (eligible : list A) : option A * bool :=
  match latest (fun v => revision_key (metadata v)) eligible with
  | [] => (None, false)
  | x :: rest => if not_one same (x :: rest) then (None, true) else (Some x, false)
  end.

(* @ packages/reference-data/reference_data/adjusted_price.py 20-45 _latest_price *)
Definition latest_price (values : list DailyPriceObservation) (stock_code : string) (market_date : date) (decision_at : datetime) :
    option DailyPriceObservation * bool :=
  newest dp_metadata (fun v w => deq (dp_close v) (dp_close w) && (dp_listed_shares v =? dp_listed_shares w))
    (List.filter (fun v => bool_decide (dp_stock_code v = stock_code) && (dp_market_date v =? market_date) &&
                           dt_le (known_at (dp_metadata v)) decision_at) values).

Definition same_factor (a b : option dec) : bool :=
  match a, b with Some x, Some y => deq x y | None, None => true | _, _ => false end.

(* @ packages/reference-data/reference_data/adjusted_price.py 48-73 _latest_action *)
Definition latest_action (values : list CorporateActionReference) (stock_code : string) (effective_on : date) (decision_at : datetime) :
    option CorporateActionReference * bool :=
  newest cr_metadata (fun v w => bool_decide (cr_status v = cr_status w) && same_factor (cr_adjustment_factor v) (cr_adjustment_factor w))
    (List.filter (fun v => bool_decide (cr_stock_code v = stock_code) && (cr_effective_on v =? effective_on) &&
                           dt_le (known_at (cr_metadata v)) decision_at) values).

(* @ packages/reference-data/reference_data/adjusted_price.py 76-83 _lineage *)
Definition lineage_items (m : SourceMetadata) : list string := sm_lineage m ++ ((fun item => "document:" +:+ item) <$> sm_source_document_ids m).
(* @ packages/reference-data/reference_data/adjusted_price.py 76-83 _lineage *)
Definition price_lineage (values : list SourceMetadata) : list string := sorted_set (values ≫= lineage_items).

(* @ packages/reference-data/reference_data/adjusted_price.py 86-236 resolve_previous_adjusted_close *)
Definition resolve_previous_adjusted_close (stock_code : string) (market_date : date) (decision_at : datetime) (calendar : TradingCalendar)
    (prices : list DailyPriceObservation) (actions : list CorporateActionReference) (version : string) : res AdjustedPriceResolution :=
  _ ← require_aware decision_at;
  _ ← raise_if (is_empty version) ValueError;
  let result previous_day close state flags lineage :=
    Ok (mk_AdjustedPriceResolution stock_code market_date previous_day close state flags version lineage) in
  let '(current, current_conflict) := latest_price prices stock_code market_date decision_at in
  if current_conflict then result None None CONFLICT [REFERENCE_PRICE_UNAVAILABLE] []
  else
    '(previous_day, calendar_resolution) ← previous_trading_day calendar market_date decision_at 370;
    match previous_day with
    | None => result None None (cl_state calendar_resolution) (cl_quality_flags calendar_resolution) (cl_lineage calendar_resolution)
    | Some day =>
        match (c ← current; (fun close => (c, close)) <$> implied_previous_adjusted_close c) with
        | Some (c, close) =>
            result (Some day) (Some close) VERIFIED [] (sorted_set (sm_lineage (dp_metadata c) ++ cl_lineage calendar_resolution))
        | None =>
            let '(previous, price_conflict) := latest_price prices stock_code day decision_at in
            match previous with
            | None =>
                result (Some day) None (if price_conflict then CONFLICT else MISSING) [REFERENCE_PRICE_UNAVAILABLE]
                  (cl_lineage calendar_resolution)
            | Some previous =>
                let '(action, action_conflict) := latest_action actions stock_code market_date decision_at in
                let unresolved state lineage :=
                  result (Some day) None state [CORPORATE_ACTION_UNRESOLVED; REFERENCE_PRICE_UNAVAILABLE] lineage in
                if action_conflict then unresolved CONFLICT (price_lineage [dp_metadata previous])
                else
                  match action with
                  | None => unresolved QS_CORPORATE_ACTION_UNRESOLVED (price_lineage [dp_metadata previous])
                  | Some action =>
                      if bool_decide (cr_status action = UNRESOLVED)
                      then unresolved QS_CORPORATE_ACTION_UNRESOLVED (price_lineage [dp_metadata previous; cr_metadata action])
                      else
                        match cr_adjustment_factor action with
                        | None => Raise AssertionError
                        | Some factor =>
                            result (Some day) (Some (dmul default_prec (dp_close previous) factor)) VERIFIED []
                              (sorted_set (price_lineage [dp_metadata previous; cr_metadata action] ++ cl_lineage calendar_resolution))
                        end
                  end
            end
        end
    end.

(** ** What the calendar answers *)

Lemma resolve_ok calendar d decision_at : is_aware decision_at = true -> exists r, resolve calendar d decision_at = Ok r /\ cl_market_date r = d.
Proof.
  intros Ha. unfold resolve, require_aware. rewrite Ha. cbn [negb raise_if mbind res_bind].
  destruct (latest _ _); [by eexists|]. destruct (not_one _ _); by eexists.
Qed.

(** The status of a day: trading, not trading, or not known for sure. *)
Definition day_status (calendar : TradingCalendar) (decision_at : datetime) (d : date) : option bool :=
  match resolve calendar d decision_at with
  | Ok r => if is_verified r then Some (trades r) else None
  | Raise _ => None
  end.

Section calendar.
Context (calendar : TradingCalendar) (decision_at : datetime) (Ha : is_aware decision_at = true).

Lemma look_back_spec market_date n offset :
  exists day r, look_back calendar market_date decision_at offset n = Ok (day, r) /\
    match day with
    | Some d => resolve calendar d decision_at = Ok r /\ cl_state r = VERIFIED /\ day_status calendar decision_at d = Some true /\
                market_date - offset - Z.of_nat n < d <= market_date - offset /\
                forall e, d < e <= market_date - offset -> day_status calendar decision_at e = Some false
    | None => cl_state r <> VERIFIED /\
              ((exists d, market_date - offset - Z.of_nat n < d <= market_date - offset /\ resolve calendar d decision_at = Ok r /\
                 forall e, d < e <= market_date - offset -> day_status calendar decision_at e = Some false) \/
               (cl_state r = MISSING /\
                 forall e, market_date - offset - Z.of_nat n < e <= market_date - offset -> day_status calendar decision_at e = Some false))
    end.
Proof.
  revert offset; induction n as [|n IH]; intros offset; cbn [look_back].
  { do 2 eexists. split; [reflexivity|]. split; [done|]. right. split; [done|]. lia. }
  destruct (resolve_ok calendar (market_date - offset) decision_at Ha) as (r&E&_). rewrite E. cbn [mbind res_bind].
  assert (day_status calendar decision_at (market_date - offset) = if is_verified r then Some (trades r) else None) as Es
    by (unfold day_status; by rewrite E).
  destruct (is_verified r) eqn:Ev; cbn [negb].
  - destruct (trades r) eqn:Et.
    + do 2 eexists. split; [reflexivity|]. apply bool_decide_eq_true in Ev. do 3 (split; [done|]). split; [lia|]. lia.
    + destruct (IH (offset + 1)) as (day&r'&->&Hday). do 2 eexists. split; [reflexivity|].
      assert (forall d, (forall e, d < e <= market_date - (offset + 1) -> day_status calendar decision_at e = Some false) ->
                forall e, d < e <= market_date - offset -> day_status calendar decision_at e = Some false) as Hext.
      { intros d Hd e He. destruct (decide (e = market_date - offset)) as [->|]; [done|]. apply Hd. lia. }
      destruct day as [d|].
      * destruct Hday as (?&?&?&?&Hd). do 3 (split; [done|]). split; [lia|]. by apply Hext.
      * destruct Hday as (Hs&[(d&?&?&Hd)|(?&Hd)]); (split; [done|]); [left; exists d; split; [lia|]; split; [done|by apply Hext]|right].
        split; [done|]. intros e He. apply (Hext (market_date - (offset + 1) - Z.of_nat n)); [done|lia].
  - do 2 eexists. split; [reflexivity|]. apply bool_decide_eq_false in Ev. split; [done|]. left.
    exists (market_date - offset). split; [lia|]. split; [done|]. lia.
Qed.

(** The previous trading day is the nearest one.  The search always answers: with the latest
    day before that is known to be a trading day, all days since known not to be; or with
    nothing and the reason, the first day that is not known for sure, or none in reach. *)
Theorem previous_trading_day_is_nearest market_date n :
  0 < n ->
  exists day r, previous_trading_day calendar market_date decision_at n = Ok (day, r) /\
    match day with
    | Some d => resolve calendar d decision_at = Ok r /\ cl_state r = VERIFIED /\ day_status calendar decision_at d = Some true /\
                market_date - n <= d < market_date /\
                forall e, d < e < market_date -> day_status calendar decision_at e = Some false
    | None => cl_state r <> VERIFIED /\
              ((exists d, market_date - n <= d < market_date /\ resolve calendar d decision_at = Ok r /\
                 forall e, d < e < market_date -> day_status calendar decision_at e = Some false) \/
               (cl_state r = MISSING /\
                 forall e, market_date - n <= e < market_date -> day_status calendar decision_at e = Some false))
    end.
Proof.
  intros Hn. unfold previous_trading_day. destruct (Z.leb_spec n 0); [lia|]. cbn [raise_if mbind res_bind].
  destruct (look_back_spec market_date (Z.to_nat n) 1) as (day&r&->&Hday). exists day, r. split; [done|].
  rewrite Z2Nat.id in Hday by lia. destruct day as [d|].
  - destruct Hday as (?&?&?&?&Hd). do 3 (split; [done|]). split; [lia|]. intros e He. apply Hd. lia.
  - destruct Hday as (?&[(d&?&?&Hd)|(?&Hd)]); (split; [done|]); [left; exists d; split; [lia|]; split; [done|]|right; split; [done|]];
      intros e He; apply Hd; lia.
Qed.

Lemma days_from_spec fuel current end_ result :
  end_ - current <= Z.of_nat fuel ->
  exists o, days_from calendar current end_ decision_at result fuel = Ok o /\
    match o with
    | Some l => exists k, l = result ++ k /\ StronglySorted Z.lt k /\
                  (forall d, d ∈ k <-> current <= d < end_ /\ day_status calendar decision_at d = Some true) /\
                  forall d, current <= d < end_ -> is_Some (day_status calendar decision_at d)
    | None => exists d, current <= d < end_ /\ day_status calendar decision_at d = None
    end.
Proof.
  revert current result; induction fuel as [|fuel IH]; intros current result Hf; cbn [days_from]; destruct (Z.ltb_spec current end_); try lia.
  1, 3: eexists; split; [reflexivity|]; exists []; rewrite app_nil_r; split; [done|]; split; [constructor|];
    split; [intros d; split; [by intros ?%elem_of_nil|lia]|lia].
  destruct (resolve_ok calendar current decision_at Ha) as (r&E&_). rewrite E. cbn [mbind res_bind].
  assert (day_status calendar decision_at current = if is_verified r then Some (trades r) else None) as Es
    by (unfold day_status; by rewrite E).
  destruct (is_verified r); cbn [negb]; [|eexists; split; [reflexivity|]; exists current; split; [lia|done]].
  destruct (IH (current + 1) (if trades r then result ++ [current] else result) ltac:(lia)) as (o&->&Ho).
  exists o. split; [done|]. destruct o as [l|].
  - destruct Ho as (k&->&Hk&Hin&Hall). exists (if trades r then current :: k else k).
    assert (forall d, current <= d < end_ -> d <> current -> current + 1 <= d < end_) as Hlt by lia.
    split; [destruct (trades r); [by rewrite <-app_assoc|done]|]. split; [|split].
    + destruct (trades r); [|done]. constructor; [done|]. apply Forall_forall. intros d Hd%Hin. lia.
    + intros d. destruct (decide (d = current)) as [->|Hne].
      * destruct (trades r); [rewrite elem_of_cons|rewrite Hin]; rewrite Es; naive_solver lia.
      * assert (d ∈ (if trades r then current :: k else k) <-> d ∈ k) as -> by (destruct (trades r); rewrite ?elem_of_cons; naive_solver).
        rewrite Hin. naive_solver lia.
    + intros d Hd. destruct (decide (d = current)) as [->|Hne]; [by rewrite Es|]. apply Hall. lia.
  - destruct Ho as (d&?&?). exists d. split; [lia|done].
Qed.

(** The trading days between two days are exactly those known to be, in order; there is no
    answer just when a day between is not known for sure. *)
Theorem trading_days_between_exact start end_ :
  start <= end_ ->
  exists o, trading_days_between calendar start end_ decision_at = Ok o /\
    match o with
    | Some l => StronglySorted Z.lt l /\
                (forall d, d ∈ l <-> start < d < end_ /\ day_status calendar decision_at d = Some true) /\
                forall d, start < d < end_ -> is_Some (day_status calendar decision_at d)
    | None => exists d, start < d < end_ /\ day_status calendar decision_at d = None
    end.
Proof.
  intros Hle. unfold trading_days_between. destruct (Z.ltb_spec end_ start); [lia|]. cbn [raise_if mbind res_bind].
  destruct (days_from_spec (Z.to_nat (end_ - start)) (start + 1) end_ [] ltac:(lia)) as (o&->&Ho). exists o. split; [done|].
  destruct o as [l|].
  - destruct Ho as (k&->&Hk&Hin&Hall). cbn [app]. split; [done|]. split.
    + intros d. rewrite Hin. split; intros [??]; (split; [lia|done]).
    + intros d Hd. apply Hall. lia.
  - destruct Ho as (d&?&?). exists d. split; [lia|done].
Qed.
End calendar.

(** ** What was known *)

(** Values of Python's equality classes. *)
Lemma not_one_spec {A} (same : A -> A -> bool) (l : list A) :
  (forall x, same x x = true) -> (forall x y, same x y = true -> same y x = true) ->
  (forall x y z, same x y = true -> same y z = true -> same x z = true) ->
  not_one same l = false <-> l <> [] /\ forall x y, x ∈ l -> y ∈ l -> same x y = true.
Proof.
  intros Hr Hs Ht. destruct l as [|x l]; [naive_solver|]. cbn [not_one]. rewrite negb_false_iff, forallb_forall. split.
  - intros Hall. split; [done|].
    assert (forall y, y ∈ x :: l -> same x y = true) as Hx.
    { intros y [->|Hy]%elem_of_cons; [apply Hr|]. by apply Hall, list_elem_of_In. }
    intros y z Hy Hz. eapply Ht; [apply Hs|]; by apply Hx.
  - intros [_ Hall] y Hy%list_elem_of_In. apply Hall; [by left|by right].
Qed.

Lemma not_one_perm {A} (same : A -> A -> bool) (l k : list A) :
  (forall x, same x x = true) -> (forall x y, same x y = true -> same y x = true) ->
  (forall x y z, same x y = true -> same y z = true -> same x z = true) ->
  l ≡ₚ k -> not_one same l = not_one same k.
Proof.
  intros Hr Hs Ht Hp. assert (not_one same l = false <-> not_one same k = false) as E.
  { rewrite !not_one_spec by done. assert (l <> [] <-> k <> []) as ->.
    { split; intros Hn ->; apply Hn; [by apply Permutation_nil_r|symmetry; by apply Permutation_nil_l]. }
    by setoid_rewrite Hp. }
  destruct (not_one same l), (not_one same k); naive_solver.
Qed.

Definition same_day (v w : TradingDayObservation) : bool :=
  Bool.eqb (to_is_trading_day v) (to_is_trading_day w) && bool_decide (to_version v = to_version w).
Lemma same_day_eq v w : same_day v w = true <-> to_is_trading_day v = to_is_trading_day w /\ to_version v = to_version w.
Proof. unfold same_day. by rewrite andb_true_iff, Bool.eqb_true_iff, bool_decide_eq_true. Qed.

(** What was known at a time. *)
Definition known_days (decision_at : datetime) (calendar : TradingCalendar) : TradingCalendar :=
  List.filter (fun v => dt_le (known_at (to_metadata v)) decision_at) calendar.

Lemma filterb_and {A} (f g : A -> bool) l : List.filter (fun x => f x && g x) l = List.filter f (List.filter g l).
Proof.
  induction l as [|x l IH]; [done|]. cbn [List.filter]. destruct (g x) eqn:Eg; cbn [List.filter]; destruct (f x); cbn [andb]; by rewrite IH.
Qed.

Lemma resolve_known c1 c2 d decision_at :
  known_days decision_at c1 ≡ₚ known_days decision_at c2 -> resolve c1 d decision_at = resolve c2 d decision_at.
Proof.
  intros Hp. unfold resolve. destruct (require_aware decision_at); cbn [mbind res_bind]; [|done].
  rewrite !filterb_and. fold (known_days decision_at c1) (known_days decision_at c2).
  change (fun v w => Bool.eqb (to_is_trading_day v) (to_is_trading_day w) && bool_decide (to_version v = to_version w)) with same_day.
  pose proof (latest_perm (fun v => revision_key (to_metadata v)) _ _ (filterb_perm (fun v => to_market_date v =? d) _ _ Hp)) as Hl.
  revert Hl. generalize (latest (fun v => revision_key (to_metadata v)) (List.filter (fun v => to_market_date v =? d) (known_days decision_at c1))).
  generalize (latest (fun v => revision_key (to_metadata v)) (List.filter (fun v => to_market_date v =? d) (known_days decision_at c2))).
  intros k l Hl.
  assert (calendar_lineage l = calendar_lineage k) as El by (apply sorted_set_ext; intros x; by rewrite Hl).
  assert (forall x, same_day x x = true) as Hr by (intros x; by apply same_day_eq).
  assert (forall x y, same_day x y = true -> same_day y x = true) as Hs by (intros x y; rewrite !same_day_eq; naive_solver).
  assert (forall x y z, same_day x y = true -> same_day y z = true -> same_day x z = true) as Ht
    by (intros x y z; rewrite !same_day_eq; intros [-> ->]; naive_solver).
  rewrite El, (not_one_perm same_day _ _ Hr Hs Ht Hl).
  destruct l as [|x l], k as [|y k]; [done|by apply Permutation_nil_l in Hl|by apply Permutation_nil_r in Hl|].
  destruct (not_one same_day (y :: k)) eqn:E; [done|]. apply not_one_spec in E as [_ E]; [|done..].
  assert (x ∈ y :: k) as Hx by (rewrite <-Hl; by left). destruct (proj1 (same_day_eq x y) (E x y Hx ltac:(by left))) as [-> ->]. done.
Qed.

(** The calendar answers from what was known, whatever the order of the records. *)
Theorem calendar_point_in_time c1 c2 decision_at :
  known_days decision_at c1 ≡ₚ known_days decision_at c2 ->
  (forall d n, previous_trading_day c1 d decision_at n = previous_trading_day c2 d decision_at n) /\
  forall start end_, trading_days_between c1 start end_ decision_at = trading_days_between c2 start end_ decision_at.
Proof.
  intros Hp. split.
  - intros d n. unfold previous_trading_day. destruct (raise_if _ _); cbn [mbind res_bind]; [|done]. generalize 1.
    induction (Z.to_nat n) as [|m IH]; intros offset; cbn [look_back]; [done|]. rewrite (resolve_known c1 c2) by done.
    destruct (resolve c2 _ _); cbn [mbind res_bind]; [|done]. repeat case_match; done || apply IH.
  - intros start end_. unfold trading_days_between. destruct (raise_if _ _); cbn [mbind res_bind]; [|done].
    generalize (start + 1) (@nil date). induction (Z.to_nat (end_ - start)) as [|m IH]; intros current result; cbn [days_from]; [done|].
    destruct (current <? end_); [|done]. rewrite (resolve_known c1 c2) by done.
    destruct (resolve c2 _ _) as [r|]; cbn [mbind res_bind]; [|done]. destruct (negb (is_verified r)); [done|]. apply IH.
Qed.

(** ** Adjusted closes *)

Lemma newest_elem {A} (metadata : A -> SourceMetadata) same l x b : newest metadata same l = (Some x, b) -> x ∈ l /\ b = false.
Proof.
  unfold newest. destruct (latest _ l) as [|y rest] eqn:E; [done|]. destruct (not_one _ _); [done|]. intros [= <- <-]. split; [|done].
  assert (y ∈ latest (fun v => revision_key (metadata v)) l) as Hin by (rewrite E; by left). by apply latest_elem in Hin as [? _].
Qed.

Definition price_of (prices : list DailyPriceObservation) (stock_code : string) (d : date) (decision_at : datetime) (p : DailyPriceObservation) : Prop :=
  p ∈ prices /\ dp_stock_code p = stock_code /\ dp_market_date p = d /\ dt_le (known_at (dp_metadata p)) decision_at = true.
Definition action_of (actions : list CorporateActionReference) (stock_code : string) (d : date) (decision_at : datetime) (a : CorporateActionReference) : Prop :=
  a ∈ actions /\ cr_stock_code a = stock_code /\ cr_effective_on a = d /\ dt_le (known_at (cr_metadata a)) decision_at = true.

Lemma latest_price_of prices stock_code d decision_at p b :
  latest_price prices stock_code d decision_at = (Some p, b) -> price_of prices stock_code d decision_at p /\ b = false.
Proof.
  unfold latest_price. intros [Hp ->]%newest_elem. apply elem_of_filterb in Hp as [Hp Hc]. split; [|done].
  apply andb_prop in Hc as [[Hs%bool_decide_eq_true Hd%Z.eqb_eq]%andb_prop Hk]. by repeat split.
Qed.

Lemma latest_action_of actions stock_code d decision_at a b :
  latest_action actions stock_code d decision_at = (Some a, b) -> action_of actions stock_code d decision_at a /\ b = false.
Proof.
  unfold latest_action. intros [Hp ->]%newest_elem. apply elem_of_filterb in Hp as [Hp Hc]. split; [|done].
  apply andb_prop in Hc as [[Hs%bool_decide_eq_true Hd%Z.eqb_eq]%andb_prop Hk]. by repeat split.
Qed.

(** Where an adjusted close comes from. *)
Definition adjusted_from (prices : list DailyPriceObservation) (actions : list CorporateActionReference) (stock_code : string)
    (market_date day : date) (decision_at : datetime) (close : dec) : Prop :=
  (exists p, price_of prices stock_code market_date decision_at p /\ implied_previous_adjusted_close p = Some close) \/
  (exists p a factor, price_of prices stock_code day decision_at p /\ action_of actions stock_code market_date decision_at a /\
     cr_status a <> UNRESOLVED /\ cr_adjustment_factor a = Some factor /\ close = dmul default_prec (dp_close p) factor).

(** An answer without a price, and not verified. *)
Ltac no_close := eexists; split; [reflexivity|]; split; [split; [by intros|by intros []]|by intros].

(** C28: An adjusted close is never made up.  For well-formed corporate actions there is always an
    answer, verified just when it has a price; the price is then for the nearest trading day
    before, and either implied by the day's own quotation or that day's close times the factor
    of a resolved action of the day, all known at the time. *)
Theorem adjusted_close_sound stock_code market_date decision_at calendar prices actions version :
  is_aware decision_at = true -> is_empty version = false ->
  (forall a, a ∈ actions -> CorporateActionReference_check a = Ok a) ->
  exists r, resolve_previous_adjusted_close stock_code market_date decision_at calendar prices actions version = Ok r /\
    (ap_state r = VERIFIED <-> is_Some (ap_previous_adjusted_close r)) /\
    forall close, ap_previous_adjusted_close r = Some close ->
      exists day, ap_previous_trading_day r = Some day /\ day < market_date /\ day_status calendar decision_at day = Some true /\
        (forall e, day < e < market_date -> day_status calendar decision_at e = Some false) /\
        adjusted_from prices actions stock_code market_date day decision_at close.
Proof.
  intros Ha Hv Hactions. unfold resolve_previous_adjusted_close, require_aware. rewrite Ha, Hv. cbn [negb raise_if mbind res_bind].
  destruct (latest_price prices stock_code market_date decision_at) as [current cc] eqn:Ec.
  destruct cc; [no_close|].
  destruct (previous_trading_day_is_nearest calendar decision_at Ha market_date 370 ltac:(lia)) as (day&r&E&Hday).
  rewrite E. cbn [mbind res_bind]. destruct day as [day|]; [|destruct Hday as [Hs _]; no_close].
  destruct Hday as (_&_&Hst&Hlt&Hbetween).
  destruct (current ≫= _) as [[c close]|] eqn:Eclose.
  { eexists. split; [reflexivity|]. cbn. split; [split; [by eexists|done]|]. intros ? [= <-].
    exists day. split; [done|]. split; [lia|]. split; [done|]. split; [done|]. left.
    destruct current as [c'|]; [|done]. cbn in Eclose. destruct (implied_previous_adjusted_close c') eqn:Ei; [|done].
    injection Eclose as -> ->. exists c. split; [by eapply latest_price_of|done]. }
  destruct (latest_price prices stock_code day decision_at) as [[previous|] pc] eqn:Ep;
    [|destruct pc; no_close].
  destruct (latest_action actions stock_code market_date decision_at) as [action ac] eqn:Eact.
  destruct ac; [no_close|].
  destruct action as [a|]; [|no_close].
  case_bool_decide as Hu; [no_close|].
  apply latest_action_of in Eact as [Hact _]. apply latest_price_of in Ep as [Hprice _].
  destruct (cr_adjustment_factor a) as [factor|] eqn:Ef.
  - eexists. split; [reflexivity|]. cbn. split; [split; [by eexists|done]|]. intros ? [= <-].
    exists day. split; [done|]. split; [lia|]. split; [done|]. split; [done|]. right. by exists previous, a, factor.
  - exfalso. pose proof (Hactions a (proj1 Hact)) as Hc. unfold CorporateActionReference_check in Hc.
    rewrite Ef in Hc. destruct (require_stock_code _); [|done]. by destruct (cr_status a).
Qed.

Definition known_prices (decision_at : datetime) (prices : list DailyPriceObservation) : list DailyPriceObservation :=
  List.filter (fun p => dt_le (known_at (dp_metadata p)) decision_at) prices.
Definition known_actions (decision_at : datetime) (actions : list CorporateActionReference) : list CorporateActionReference :=
  List.filter (fun a => dt_le (known_at (cr_metadata a)) decision_at) actions.

(** The adjusted close is that of what was known at the time of the decision. *)
Theorem adjusted_close_point_in_time stock_code market_date decision_at c1 c2 p1 p2 a1 a2 version :
  known_days decision_at c1 ≡ₚ known_days decision_at c2 -> known_prices decision_at p1 = known_prices decision_at p2 ->
  known_actions decision_at a1 = known_actions decision_at a2 ->
  resolve_previous_adjusted_close stock_code market_date decision_at c1 p1 a1 version =
  resolve_previous_adjusted_close stock_code market_date decision_at c2 p2 a2 version.
Proof.
  intros Hc Hp Ha. unfold resolve_previous_adjusted_close.
  assert (forall d, latest_price p1 stock_code d decision_at = latest_price p2 stock_code d decision_at) as Ep.
  { intros d. unfold latest_price. rewrite !filterb_and. fold (known_prices decision_at p1) (known_prices decision_at p2). by rewrite Hp. }
  assert (latest_action a1 stock_code market_date decision_at = latest_action a2 stock_code market_date decision_at) as Ea.
  { unfold latest_action. rewrite !filterb_and. fold (known_actions decision_at a1) (known_actions decision_at a2). by rewrite Ha. }
  rewrite Ea, !Ep, (proj1 (calendar_point_in_time c1 c2 decision_at Hc)).
  destruct (require_aware decision_at); cbn [mbind res_bind]; [|done]. destruct (raise_if _ _); cbn [mbind res_bind]; [|done].
  destruct (latest_price p2 stock_code market_date decision_at) as [current []]; [done|].
  destruct (previous_trading_day c2 market_date decision_at 370) as [[[day|] r]|]; cbn [mbind res_bind]; [|done..]. by rewrite Ep.
Qed.

(** ** Demonstrations *)

Definition demo_now : datetime := mk_datetime 10 (Some 0).
Definition demo_day (d : date) (trading : bool) : TradingDayObservation :=
  mk_TradingDayObservation d trading (if trading then Some 9 else None) (if trading then Some 15 else None) "v1" (demo_metadata KRX_CALENDAR_DERIVED 1 1).
Definition demo_calendar : TradingCalendar := [demo_day 100 true; demo_day 101 false].
Definition demo_price (d close at_ : Z) : DailyPriceObservation :=
  mk_DailyPriceObservation "005930" "KOSPI" d (dec_of_Z close) None 1000 (demo_metadata KRX_STOCK_DAILY at_ 1).
Definition demo_action (at_ : Z) : CorporateActionReference :=
  mk_CorporateActionReference "005930" 102 ADJUSTED (Some (mk_dec false 5 (-1))) (demo_metadata KRX_CORPORATE_ACTION_REFERENCE at_ 1).

Lemma demo_action_ok a : a ∈ [demo_action 2] -> CorporateActionReference_check a = Ok a.
Proof. by intros ->%list_elem_of_singleton. Qed.

(** Half of the close of the last trading day. *)
Lemma adjusted_close_sound_witness :
  is_aware demo_now = true /\ is_empty "v1" = false /\ (forall a, a ∈ [demo_action 2] -> CorporateActionReference_check a = Ok a) /\
  exists r, resolve_previous_adjusted_close "005930" 102 demo_now demo_calendar [demo_price 100 70 1] [demo_action 2] "v1" = Ok r /\
    (ap_state r = VERIFIED <-> is_Some (ap_previous_adjusted_close r)).
Proof.
  split; [reflexivity|]. split; [reflexivity|]. split; [exact demo_action_ok|].
  destruct (adjusted_close_sound "005930" 102 demo_now demo_calendar [demo_price 100 70 1] [demo_action 2] "v1" eq_refl eq_refl demo_action_ok)
    as (r&E&Hr&_). by exists r.
Defined.
Example demo_adjusted :
  ap_previous_adjusted_close <$> resolve_previous_adjusted_close "005930" 102 demo_now demo_calendar [demo_price 100 70 1] [demo_action 2] "v1" =
  Ok (Some (mk_dec false 350 (-1))).
Proof. vm_compute. reflexivity. Qed.

(** What is known tomorrow does not count. *)
Lemma adjusted_close_point_in_time_witness :
  known_days demo_now demo_calendar ≡ₚ known_days demo_now (rev demo_calendar) /\
  resolve_previous_adjusted_close "005930" 102 demo_now demo_calendar [demo_price 100 70 1] [demo_action 2] "v1" =
  resolve_previous_adjusted_close "005930" 102 demo_now (rev demo_calendar) [demo_price 100 70 1; demo_price 100 80 20] [demo_action 2; demo_action 30] "v1".
Proof.
  assert (known_days demo_now demo_calendar ≡ₚ known_days demo_now (rev demo_calendar)) as Hp by apply Permutation_swap.
  split; [exact Hp|]. apply (adjusted_close_point_in_time _ _ _ _ _ _ _ _ _ _ Hp); reflexivity.
Defined.
