(* ===== verification/FreeFloat.v ===== *)
(** [free_float.py] of [packages/reference-data/reference_data]: the part of a stock's common shares
    that trades freely, each holder deducted once.  Iteration over a set is iteration over a list
    of its elements; that the order does not matter is proved. *)
From S2P Require Import Prelude PyTime PyDecimal DecimalFacts ReferenceModels ReferenceCalendar.
#[local] Open Scope Z_scope.

(* @ packages/reference-data/reference_data/free_float.py 32-34 FIELD_SOURCE_PRIORITY *)
Definition FIELD_SOURCE_PRIORITY : list SourceDataset := [OPENDART_STOCK_TOTAL].
(* @ packages/reference-data/reference_data/free_float.py 36-41 HOLDING_SOURCE_PRIORITY *)
Definition HOLDING_SOURCE_PRIORITY : list SourceDataset :=
  [OPENDART_TREASURY_STATUS; OPENDART_STOCK_TOTAL; OPENDART_LARGEST_SHAREHOLDER; OPENDART_DISCLOSURE_CLASSIFICATION].

(* @ packages/reference-data/reference_data/free_float.py 43-49 _pit_eligible *)
Definition pit_eligible (effective_on : date) (metadata : SourceMetadata) (market_date : date) (decision_at : datetime) : bool :=
  (effective_on <=? market_date) && dt_le (known_at metadata) decision_at.

(* @ packages/reference-data/reference_data/free_float.py 52-57 _lineage *)
Definition float_lineage (values : list SourceMetadata) : list string := sorted_set (values ≫= lineage_items).

(* @ packages/reference-data/reference_data/free_float.py 60-61 _flags *)
Definition flags_of (values : list QualityFlag) : list QualityFlag := sorted_by QualityFlag_value (remove_dups values).

(** [market_date - effective_on > stale_after] *)
Definition is_stale (market_date effective_on : date) (policy : ReferencePolicy) : bool :=
  rp_free_float_stale_after policy <? (market_date - effective_on) * us_per_day.

(** [len(set(values)) != 1] *)
Definition differ {A B} `{EqDecision B} (f : A -> B) (l : list A) : bool := not_one (fun v w => bool_decide (f v = f w)) l.

(** ** The denominator *)

Definition field_key (o : FieldObservation) : date * datetime * Z :=
  (fo_effective_on o, known_at (fo_metadata o), sm_revision (fo_metadata o)).

(** The newest observation of each source, and whether the newest of one disagree. *)
(* @ packages/reference-data/reference_data/free_float.py 64-150 resolve_listed_common_shares *)
Definition select_source (candidates : list FieldObservation) (acc : list FieldObservation * list SourceDataset * bool) (source : SourceDataset) :
    list FieldObservation * list SourceDataset * bool :=
  let '(selected, missing, internal_conflict) := acc in
  match latest field_key (List.filter (fun v => bool_decide (sm_dataset (fo_metadata v) = source)) candidates) with
  | [] => (selected, missing ++ [source], internal_conflict)
  | first :: rest => (selected ++ [first], missing, internal_conflict || differ fo_value (first :: rest))
  end.

(* @ packages/reference-data/reference_data/free_float.py 64-150 resolve_listed_common_shares *)
Definition resolve_listed_common_shares (observations : list FieldObservation) (stock_code : string) (market_date : date)
    (decision_at : datetime) (policy : ReferencePolicy) : res FieldResolution :=
  _ ← require_aware decision_at;
  let candidates := List.filter (fun v => bool_decide (fo_stock_code v = stock_code) &&
                                          pit_eligible (fo_effective_on v) (fo_metadata v) market_date decision_at) observations in
  let '(selected, missing, internal_conflict) := fold_left (select_source candidates) FIELD_SOURCE_PRIORITY ([], [], false) in
  let lineage := float_lineage (fo_metadata <$> selected) in
  let unavailable state flags := Ok (mk_FieldResolution None state (flags_of (FREE_FLOAT_UNAVAILABLE :: flags)) selected lineage) in
  if negb (bool_decide (missing = [])) then unavailable MISSING [SOURCE_MISSING]
  else if existsb (fun v => is_stale market_date (fo_effective_on v) policy) selected
  then unavailable STALE [FREE_FLOAT_STALE; SOURCE_STALE]
  else if internal_conflict || differ fo_value selected then unavailable CONFLICT [FREE_FLOAT_SOURCE_CONFLICT]
  else
    match selected with
    | [] => Raise IndexError
    | first :: _ => Ok (mk_FieldResolution (Some (fo_value first)) VERIFIED [] selected lineage)
    end.

(** ** Declarations of coverage *)

(** [min(values, key)] *)
Definition min_by {A K} `{PyOrd K} (key : A -> K) (x : A) (l : list A) : A :=
  fold_left (fun m v => if pylt (key v) (key m) then v else m) l x.

(** [priority.get(dataset, len(priority))] *)
Definition priority (d : SourceDataset) : Z :=
  match list_find (eq d) HOLDING_SOURCE_PRIORITY with Some (i, _) => Z.of_nat i | None => 4 end.
Definition source_rank (m : SourceMetadata) : Z * Z * string := (priority (sm_dataset m), - sm_revision m, sm_source_key m).

Definition declaration_key (d : HoldingCoverageDeclaration) : date * datetime * Z :=
  (hc_effective_on d, known_at (hc_metadata d), sm_revision (hc_metadata d)).

(** The datasets the values are from. *)
Definition sources_of {A} (metadata : A -> SourceMetadata) (l : list A) : list SourceDataset := remove_dups (sm_dataset ∘ metadata <$> l).
Definition from_source {A} (metadata : A -> SourceMetadata) (source : SourceDataset) (l : list A) : list A :=
  List.filter (fun v => bool_decide (sm_dataset (metadata v) = source)) l.

Record CategoryCoverage := mk_CategoryCoverage {
  cv_missing : bool;
  cv_stale : bool;
  cv_conflict : bool;
  cv_selected : list HoldingCoverageDeclaration
}.

(* @ packages/reference-data/reference_data/free_float.py 153-214 _coverage_for_categories *)
Definition cover_category (candidates : list HoldingCoverageDeclaration) (market_date : date) (policy : ReferencePolicy)
    (acc : CategoryCoverage) (category : NonFloatCategory) : CategoryCoverage :=
  let category_values := List.filter (fun v => bool_decide (hc_category v = category)) candidates in
  let latest_by_source := (fun source => latest declaration_key (from_source hc_metadata source category_values)) <$> sources_of hc_metadata category_values in
  let by_source := latest_by_source ≫= take 1 in
  match by_source with
  | [] => mk_CategoryCoverage true (cv_stale acc) (cv_conflict acc) (cv_selected acc)
  | v :: vs =>
      let latest_effective := max_of (hc_effective_on v) (hc_effective_on <$> vs) in
      let comparable := List.filter (fun v => hc_effective_on v =? latest_effective) by_source in
      match comparable with
      | [] => acc
      | c :: cs =>
          let latest := min_by (source_rank ∘ hc_metadata) c cs in
          mk_CategoryCoverage (cv_missing acc || bool_decide (hc_status latest = INCOMPLETE))
            (cv_stale acc || is_stale market_date (hc_effective_on latest) policy)
            (cv_conflict acc || existsb (differ hc_status) latest_by_source || differ hc_status comparable)
            (cv_selected acc ++ [latest])
      end
  end.

(* @ packages/reference-data/reference_data/free_float.py 153-214 _coverage_for_categories *)
Definition coverage_for_categories (declarations : list HoldingCoverageDeclaration) (stock_code : string) (market_date : date)
    (decision_at : datetime) (policy : ReferencePolicy) : CategoryCoverage :=
  let candidates := List.filter (fun v => bool_decide (hc_stock_code v = stock_code) &&
                                          pit_eligible (hc_effective_on v) (hc_metadata v) market_date decision_at) declarations in
  fold_left (cover_category candidates market_date policy) (rp_required_non_float_categories policy) (mk_CategoryCoverage false false false []).

(** ** Holdings *)

Definition holding_revision (h : NonFloatHolding) : datetime * Z := revision_key (nf_metadata h).

Record HoldingSelection := mk_HoldingSelection {
  hs_selected : list NonFloatHolding;
  hs_considered : list NonFloatHolding;
  hs_duplicate_count : Z;
  hs_conflict : bool
}.

(** What the newest of one source say: whether they disagree, else one of them. *)
Definition source_says (source_latest : list NonFloatHolding) : option NonFloatHolding :=
  if differ (fun v => (nf_shares v, nf_category v)) source_latest then None else head source_latest.

(** One economic holder. *)
(* @ packages/reference-data/reference_data/free_float.py 217-296 _select_holdings *)
Definition select_group (acc : HoldingSelection) (group : list NonFloatHolding) : HoldingSelection :=
  let by_source := (fun source => latest holding_revision (from_source nf_metadata source group)) <$> sources_of nf_metadata group in
  let says := @omap list _ _ _ source_says by_source in
  let considered := hs_considered acc ++ mjoin by_source in
  let duplicates := hs_duplicate_count acc +
    foldr Z.add 0 ((fun l => match source_says l with Some _ => Z.of_nat (length l) - 1 | None => 0 end) <$> by_source) in
  let conflict := hs_conflict acc || existsb (fun l => match source_says l with Some _ => false | None => true end) by_source in
  match says with
  | [] => mk_HoldingSelection (hs_selected acc) considered duplicates conflict
  | h :: hs =>
      if differ nf_shares says || differ nf_category says
      then mk_HoldingSelection (hs_selected acc) considered duplicates true
      else
        match sorted_by (source_rank ∘ nf_metadata) says with
        | [] => acc
        | first :: _ => mk_HoldingSelection (hs_selected acc ++ [first]) considered (duplicates + Z.of_nat (length says) - 1) conflict
        end
  end.

(** The groups by economic holder, in the order of their first holding. *)
(* @ packages/reference-data/reference_data/free_float.py 217-296 _select_holdings *)
Definition economic_groups (eligible : list NonFloatHolding) : dict (string * string * ShareClass) (list NonFloatHolding) :=
  fold_left (fun groups h => dset (economic_key h) (default [] (dget (economic_key h) groups) ++ [h]) groups) eligible [].

(** The whole of the latest disclosure. *)
(* @ packages/reference-data/reference_data/free_float.py 217-296 _select_holdings *)
Definition latest_disclosure (holdings : list NonFloatHolding) (stock_code : string) (market_date : date) (decision_at : datetime) :
    list NonFloatHolding :=
  latest nf_effective_on (List.filter (fun h => bool_decide (nf_stock_code h = stock_code) &&
    pit_eligible (nf_effective_on h) (nf_metadata h) market_date decision_at) holdings).

(* @ packages/reference-data/reference_data/free_float.py 217-296 _select_holdings *)
Definition select_holdings (holdings : list NonFloatHolding) (stock_code : string) (market_date : date) (decision_at : datetime) : HoldingSelection :=
  let s := fold_left select_group (dvalues (economic_groups (latest_disclosure holdings stock_code market_date decision_at)))
             (mk_HoldingSelection [] [] 0 false) in
  mk_HoldingSelection (sorted_by (fun h => (nf_holder_id h, ShareClass_value (nf_share_class h))) (hs_selected s))
    (hs_considered s) (hs_duplicate_count s) (hs_conflict s).

(** ** The free float *)

(* @ packages/reference-data/reference_data/free_float.py 299-322 _unavailable *)
Definition float_unavailable (stock_code : string) (market_date : date) (state : QualityState) (flags : list QualityFlag)
    (policy : ReferencePolicy) (issued : option Z) (duplicate_count : Z) (lineage : list string) : FreeFloatResult :=
  mk_FreeFloatResult stock_code market_date None issued None None state (flags_of flags) duplicate_count (rp_version policy) lineage.

(* @ packages/reference-data/reference_data/free_float.py 325-472 calculate_free_float *)
Definition calculate_free_float (stock_code : string) (market_date : date) (decision_at : datetime)
    (share_observations : list FieldObservation) (holdings : list NonFloatHolding)
    (coverage_declarations : list HoldingCoverageDeclaration) (policy : ReferencePolicy) : res FreeFloatResult :=
  _ ← require_aware decision_at;
  shares ← resolve_listed_common_shares share_observations stock_code market_date decision_at policy;
  match fr_state shares, fr_value shares with
  | VERIFIED, Some issued =>
      let coverage := coverage_for_categories coverage_declarations stock_code market_date decision_at policy in
      let holdings := select_holdings holdings stock_code market_date decision_at in
      let duplicate_count := hs_duplicate_count holdings in
      let lineage := sorted_set (fr_lineage shares ++ float_lineage (hc_metadata <$> cv_selected coverage) ++
                                 float_lineage (nf_metadata <$> hs_considered holdings)) in
      let duplicate_flags := if duplicate_count =? 0 then [] else [DUPLICATE_DEDUCTION_PREVENTED] in
      let unavailable state flags :=
        Ok (float_unavailable stock_code market_date state (FREE_FLOAT_UNAVAILABLE :: flags ++ duplicate_flags) policy (Some issued)
              duplicate_count lineage) in
      if cv_conflict coverage || hs_conflict holdings then unavailable CONFLICT [FREE_FLOAT_SOURCE_CONFLICT]
      else if cv_missing coverage then unavailable MISSING [SOURCE_MISSING]
      else if cv_stale coverage || existsb (fun h => is_stale market_date (nf_effective_on h) policy) (hs_selected holdings)
      then unavailable STALE [FREE_FLOAT_STALE; SOURCE_STALE]
      else
        let deducted := foldr Z.add 0 (nf_shares <$> hs_selected holdings) in
        if issued <? deducted then unavailable CONFLICT [FREE_FLOAT_SOURCE_CONFLICT]
        else
          let free_float_shares := issued - deducted in
          ratio ← ddiv 60 (dec_of_Z free_float_shares) (dec_of_Z issued);
          Ok (mk_FreeFloatResult stock_code market_date (Some ratio) (Some issued) (Some deducted) (Some free_float_shares) VERIFIED
                duplicate_flags duplicate_count (rp_version policy) lineage)
  | state, _ => Ok (float_unavailable stock_code market_date state (fr_quality_flags shares) policy None 0 (fr_lineage shares))
  end.

(** ** Coverage of a list of stocks *)

(* @ packages/reference-data/reference_data/free_float.py 475-536 evaluate_reference_coverage *)
Definition evaluate_reference_coverage (stock_codes : list string) (results : list FreeFloatResult) (policy : ReferencePolicy) :
    res ReferenceCoverage :=
  let ordered_codes := sorted_list stock_codes in
  _ ← raise_if (negb (bool_decide (NoDup ordered_codes))) ValueError;
  let result_by_stock := fold_left (fun d r => dset (ff_stock_code r) r d) results [] in
  _ ← raise_if (negb (length result_by_stock =? length results)%nat) ValueError;
  _ ← raise_if (existsb (fun code => negb (bool_decide (code ∈ ordered_codes))) (dkeys result_by_stock)) ValueError;
  let state code := ff_state <$> dget code result_by_stock in
  let observed := List.filter (fun code => match dget code result_by_stock with Some r => ff_available r | None => false end) ordered_codes in
  let total := Z.of_nat (length ordered_codes) in
  ratio ← count_ratio (Z.of_nat (length observed)) total;
  let status := if match ratio with Some r => dle (rp_sufficient_coverage_ratio policy) r | None => false end then SUFFICIENT
                else match observed with [] => INSUFFICIENT | _ => PARTIAL end in
  let missing := List.filter (fun code => match state code with
                                          | None => true
                                          | Some s => bool_decide (s ∈ [MISSING; POINT_IN_TIME_UNAVAILABLE])
                                          end) ordered_codes in
  let in_state s := List.filter (fun code => bool_decide (state code = Some s)) ordered_codes in
  let flags := (dvalues result_by_stock ≫= ff_quality_flags) ++
               (if (length observed <? length ordered_codes)%nat then [FREE_FLOAT_UNAVAILABLE] else []) in
  ReferenceCoverage_check
    (mk_ReferenceCoverage status (Z.of_nat (length observed)) total ratio missing (in_state CONFLICT) (in_state STALE)
       (flags_of flags) (rp_version policy)).
