(* ===== verification/FreeFloatFacts.v ===== *)
(** What [FreeFloat] promises: the shares add up, each holder is deducted once, and neither later
    records nor the order of the records matter. *)
From S2P Require Import Prelude PyTime PyDecimal DecimalFacts ReferenceModels ReferenceCalendar FreeFloat.
From Stdlib Require Import QArith Lqa.
#[local] Open Scope Z_scope.

(** ** Order does not matter *)

Lemma differ_fmap {A B} `{EqDecision B} (f : A -> B) l : differ f l = not_one (fun x y => bool_decide (x = y)) (f <$> l).
Proof.
  unfold differ. destruct l as [|x l]; [done|]. rewrite fmap_cons. cbn [not_one]. f_equal.
  induction l as [|y l IH]; [done|]. rewrite fmap_cons. cbn [forallb]. by rewrite IH.
Qed.

Lemma differ_spec {A B} `{EqDecision B} (f : A -> B) l :
  differ f l = false <-> l <> [] /\ forall x y, x ∈ l -> y ∈ l -> f x = f y.
Proof.
  unfold differ. rewrite not_one_spec.
  - by setoid_rewrite bool_decide_eq_true.
  - intros x. by apply bool_decide_eq_true.
  - intros x y. rewrite !bool_decide_eq_true. congruence.
  - intros x y z. rewrite !bool_decide_eq_true. congruence.
Qed.

Lemma differ_perm {A B} `{EqDecision B} (f : A -> B) l k : (f <$> l) ≡ₚ (f <$> k) -> differ f l = differ f k.
Proof.
  rewrite !differ_fmap. apply not_one_perm; intros *; rewrite ?bool_decide_eq_true; congruence.
Qed.

Definition zsum (l : list Z) : Z := foldr Z.add 0 l.
Lemma zsum_app l k : zsum (l ++ k) = zsum l + zsum k.
Proof. unfold zsum. induction l as [|x l IH]; cbn; [done|]. rewrite IH. lia. Qed.
#[export] Instance zsum_perm : Proper (Permutation ==> eq) zsum.
Proof. unfold zsum. induction 1; cbn; lia. Qed.
#[export] Instance existsb_perm {A} (f : A -> bool) : Proper (Permutation ==> eq) (existsb f).
Proof.
  intros l k Hp. apply eq_true_iff_eq. rewrite !existsb_exists. split; intros (x&Hx&Hf); exists x; (split; [|done]);
    apply list_elem_of_In; apply list_elem_of_In in Hx; [by rewrite <-Hp|by rewrite Hp].
Qed.

Lemma sources_perm {A} (metadata : A -> SourceMetadata) l k : l ≡ₚ k -> sources_of metadata l ≡ₚ sources_of metadata k.
Proof.
  intros Hp. apply NoDup_Permutation; [apply NoDup_remove_dups..|]. intros d. unfold sources_of.
  rewrite !elem_of_remove_dups, !list_elem_of_fmap. by setoid_rewrite Hp.
Qed.

(** What is said of the newest of each source, when it does not look at their order. *)
Lemma by_source_perm {A K B} `{PyOrdLaws K} (metadata : A -> SourceMetadata) (key : A -> K) (h : list A -> B) l k :
  (forall x y, x ≡ₚ y -> h x = h y) -> l ≡ₚ k ->
  h <$> ((fun source => latest key (from_source metadata source l)) <$> sources_of metadata l) ≡ₚ
  h <$> ((fun source => latest key (from_source metadata source k)) <$> sources_of metadata k).
Proof.
  intros Hh Hp. rewrite (fmap_Permutation _ _ _ (fmap_Permutation _ _ _ (sources_perm metadata _ _ Hp))).
  apply reflexive_eq. rewrite <-!list_fmap_compose. apply list_fmap_ext. intros _ source _. cbn. apply Hh, latest_perm.
  by apply filterb_perm.
Qed.

(** ** One economic holder *)

Definition by_source (group : list NonFloatHolding) : list (list NonFloatHolding) :=
  (fun source => latest holding_revision (from_source nf_metadata source group)) <$> sources_of nf_metadata group.
Definition heard (group : list NonFloatHolding) : list NonFloatHolding := @omap list _ _ _ source_says (by_source group).
Definition silent (l : list NonFloatHolding) : bool := match source_says l with Some _ => false | None => true end.
Definition repeats (l : list NonFloatHolding) : Z := match source_says l with Some _ => Z.of_nat (length l) - 1 | None => 0 end.
Definition voice (l : list NonFloatHolding) : option (Z * NonFloatCategory) := (fun h => (nf_shares h, nf_category h)) <$> source_says l.

(** Whether the records of a holder conflict, the holding that stands for them, and how many
    others it stands for. *)
Definition disputed (group : list NonFloatHolding) : bool :=
  existsb silent (by_source group) || (negb (bool_decide (heard group = [])) && (differ nf_shares (heard group) || differ nf_category (heard group))).
Definition chosen (group : list NonFloatHolding) : list NonFloatHolding :=
  if differ nf_shares (heard group) || differ nf_category (heard group) then [] else take 1 (sorted_by (source_rank ∘ nf_metadata) (heard group)).
Definition merged (group : list NonFloatHolding) : Z :=
  zsum (repeats <$> by_source group) +
  (if differ nf_shares (heard group) || differ nf_category (heard group) then 0 else Z.of_nat (length (heard group)) - 1).

Lemma select_group_judge acc group :
  select_group acc group =
  mk_HoldingSelection (hs_selected acc ++ chosen group) (hs_considered acc ++ mjoin (by_source group))
    (hs_duplicate_count acc + merged group) (hs_conflict acc || disputed group).
Proof.
  unfold select_group. cbv zeta. fold (by_source group). fold (heard group).
  change (fun l => match source_says l with Some _ => Z.of_nat (length l) - 1 | None => 0 end) with repeats.
  change (fun l => match source_says l with Some _ => false | None => true end) with silent.
  change (foldr Z.add 0 (repeats <$> by_source group)) with (zsum (repeats <$> by_source group)).
  unfold disputed, chosen, merged. destruct (heard group) as [|h hs] eqn:Eh.
  - cbn. rewrite app_nil_r, orb_false_r. f_equal. lia.
  - rewrite bool_decide_eq_false_2 by done. cbn [negb andb]. destruct (differ nf_shares _ || differ nf_category _) eqn:Ed.
    + rewrite app_nil_r, !orb_true_r. f_equal. lia.
    + rewrite orb_false_r. destruct (sorted_by _ _) as [|first rest] eqn:Es; [|f_equal; lia].
      apply (f_equal length) in Es. by rewrite length_sorted_by in Es.
Qed.

Lemma fold_groups groups acc :
  fold_left select_group groups acc =
  mk_HoldingSelection (hs_selected acc ++ (groups ≫= chosen)) (hs_considered acc ++ (groups ≫= fun g => mjoin (by_source g)))
    (hs_duplicate_count acc + zsum (merged <$> groups)) (hs_conflict acc || existsb disputed groups).
Proof.
  revert acc; induction groups as [|g groups IH]; intros acc; cbn [fold_left].
  - destruct acc. cbn. by rewrite !app_nil_r, orb_false_r, Z.add_0_r.
  - rewrite IH, select_group_judge. cbn [hs_selected hs_considered hs_duplicate_count hs_conflict mbind list_bind existsb].
    rewrite <-!app_assoc, orb_assoc. f_equal. rewrite fmap_cons. unfold zsum. cbn. lia.
Qed.

Lemma voice_perm x y : x ≡ₚ y -> voice x = voice y.
Proof.
  intros Hp. unfold voice, source_says. set (f := fun v => (nf_shares v, nf_category v)).
  assert (differ f x = differ f y) as E by (by apply differ_perm, fmap_Permutation). rewrite E.
  destruct (differ f y); [done|]. apply differ_spec in E as [_ Hall].
  destruct x as [|v x], y as [|w y]; [done|by apply Permutation_nil_l in Hp|by apply Permutation_nil_r in Hp|].
  cbn. f_equal. apply (Hall v w); [by left|rewrite Hp; by left].
Qed.

Lemma silent_voice l : silent l = match voice l with Some _ => false | None => true end.
Proof. unfold silent, voice. by destruct (source_says l). Qed.
Lemma repeats_voice l : repeats l = match voice l with Some _ => Z.of_nat (length l) - 1 | None => 0 end.
Proof. unfold repeats, voice. by destruct (source_says l). Qed.

Lemma heard_voices group : (fun h => (nf_shares h, nf_category h)) <$> heard group = @omap list _ _ _ id (voice <$> by_source group).
Proof.
  unfold heard. induction (by_source group) as [|l ls IH]; [done|]. rewrite fmap_cons. cbn [omap list_omap id]. unfold voice at 1.
  destruct (source_says l); cbn [fmap option_fmap option_map]; [|done]. rewrite fmap_cons. cbn. by rewrite IH.
Qed.

Lemma omap_id_perm {A} (l k : list (option A)) : l ≡ₚ k -> @omap list _ _ _ id l ≡ₚ @omap list _ _ _ id k.
Proof. apply omap_Permutation. Qed.

Section judged.
Context (g g' : list NonFloatHolding) (Hp : g ≡ₚ g').

Lemma heard_perm : (fun h => (nf_shares h, nf_category h)) <$> heard g ≡ₚ (fun h => (nf_shares h, nf_category h)) <$> heard g'.
Proof. rewrite !heard_voices. apply omap_id_perm, by_source_perm; [apply voice_perm|done]. Qed.
Lemma heard_shares : nf_shares <$> heard g ≡ₚ nf_shares <$> heard g'.
Proof. pose proof (fmap_Permutation fst _ _ heard_perm) as H. by rewrite <-!list_fmap_compose in H. Qed.
Lemma heard_categories : nf_category <$> heard g ≡ₚ nf_category <$> heard g'.
Proof. pose proof (fmap_Permutation snd _ _ heard_perm) as H. by rewrite <-!list_fmap_compose in H. Qed.
Lemma heard_length : length (heard g) = length (heard g').
Proof. pose proof (Permutation_length heard_shares) as H. by rewrite !length_fmap in H. Qed.

Lemma disputed_perm : disputed g = disputed g'.
Proof.
  unfold disputed. rewrite (differ_perm _ _ _ heard_shares), (differ_perm _ _ _ heard_categories).
  assert (bool_decide (heard g = []) = bool_decide (heard g' = [])) as ->.
  { apply bool_decide_ext. pose proof heard_length as Hl. destruct (heard g), (heard g'); done. }
  f_equal.
  assert (forall l, existsb silent l = existsb id (silent <$> l)) as E by (induction l as [|x l IH]; [done|]; rewrite fmap_cons; cbn; by rewrite IH).
  rewrite !E. apply existsb_perm, by_source_perm; [|done]. intros x y Hxy. by rewrite !silent_voice, (voice_perm x y Hxy).
Qed.

Lemma merged_perm : merged g = merged g'.
Proof.
  unfold merged. rewrite (differ_perm _ _ _ heard_shares), (differ_perm _ _ _ heard_categories), heard_length. f_equal.
  apply zsum_perm, by_source_perm; [|done]. intros x y Hxy. by rewrite !repeats_voice, (voice_perm x y Hxy), (Permutation_length Hxy).
Qed.

Lemma chosen_shares : nf_shares <$> chosen g = nf_shares <$> chosen g'.
Proof.
  unfold chosen. rewrite (differ_perm _ _ _ heard_shares), (differ_perm _ _ _ heard_categories).
  destruct (differ nf_shares (heard g')) eqn:Ed; cbn [orb]; [done|]. destruct (differ nf_category (heard g')); [done|].
  pose proof Ed as Ed'. rewrite <-(differ_perm _ _ _ heard_shares) in Ed'. apply differ_spec in Ed as [Hn Hall]. apply differ_spec in Ed' as [Hn' Hall'].
  pose proof (sorted_by_perm (source_rank ∘ nf_metadata) (heard g)) as S1. pose proof (sorted_by_perm (source_rank ∘ nf_metadata) (heard g')) as S2.
  destruct (sorted_by (source_rank ∘ nf_metadata) (heard g)) as [|x l1]; [by apply Permutation_nil_l in S1|].
  destruct (sorted_by (source_rank ∘ nf_metadata) (heard g')) as [|y l2]; [by apply Permutation_nil_l in S2|].
  cbn. f_equal. assert (nf_shares x ∈ nf_shares <$> heard g') as Hx.
  { rewrite <-heard_shares. apply list_elem_of_fmap. exists x. split; [done|]. rewrite <-S1. by left. }
  apply list_elem_of_fmap in Hx as (z&->&Hz). apply Hall; [done|]. rewrite <-S2. by left.
Qed.
End judged.

(** ** The groups *)

Definition of_holder (k : string * string * ShareClass) (l : list NonFloatHolding) : list NonFloatHolding :=
  List.filter (fun h => bool_decide (economic_key h = k)) l.

Lemma groups_spec l :
  NoDup (dkeys (economic_groups l)) /\
  forall k, dget k (economic_groups l) = match of_holder k l with [] => None | rows => Some rows end.
Proof.
  unfold economic_groups. induction l as [|h l [IHn IH]] using rev_ind; [split; [constructor|done]|].
  rewrite fold_left_app. cbn [fold_left]. split; [by apply NoDup_dkeys_dset|]. intros k.
  unfold of_holder. rewrite List.filter_app. cbn [List.filter]. rewrite dget_dset. case_decide as Hk; case_bool_decide as Hk'; try congruence.
  - subst k. rewrite IH. unfold of_holder. by destruct (List.filter _ l).
  - rewrite app_nil_r. apply IH.
Qed.

Lemma groups_values l : dvalues (economic_groups l) = (fun k => of_holder k l) <$> dkeys (economic_groups l).
Proof.
  destruct (groups_spec l) as [Hn Hg]. unfold dvalues, dkeys. rewrite <-list_fmap_compose. apply list_fmap_ext. intros i [k v] Hi. cbn.
  apply list_elem_of_lookup_2, (elem_dget _ _ _ Hn) in Hi. rewrite Hg in Hi. destruct (of_holder k l); congruence.
Qed.

Lemma groups_keys l k : k ∈ dkeys (economic_groups l) <-> k ∈ economic_key <$> l.
Proof.
  rewrite elem_of_dkeys. destruct (groups_spec l) as [_ ->]. rewrite list_elem_of_fmap. unfold of_holder. split.
  - intros [rows E]. destruct (List.filter _ l) as [|h rest] eqn:Ef; [done|].
    assert (h ∈ List.filter (fun h => bool_decide (economic_key h = k)) l) as [Hh Hk%bool_decide_eq_true]%elem_of_filterb by (rewrite Ef; by left).
    by exists h.
  - intros (h&->&Hh). assert (h ∈ List.filter (fun h' => bool_decide (economic_key h' = economic_key h)) l) as Hin
      by (apply elem_of_filterb; by rewrite bool_decide_eq_true_2).
    destruct (List.filter _ l); [by apply elem_of_nil in Hin|by eexists].
Qed.

Lemma economic_groups_perm {B} (f : list NonFloatHolding -> B) l k :
  (forall x y, x ≡ₚ y -> f x = f y) -> l ≡ₚ k -> f <$> dvalues (economic_groups l) ≡ₚ f <$> dvalues (economic_groups k).
Proof.
  intros Hf Hp. rewrite !groups_values, <-!list_fmap_compose.
  assert (dkeys (economic_groups l) ≡ₚ dkeys (economic_groups k)) as Hk.
  { apply NoDup_Permutation; [apply groups_spec..|]. intros x. by rewrite !groups_keys, Hp. }
  rewrite (fmap_Permutation _ _ _ Hk). apply reflexive_eq, list_fmap_ext. intros _ x _. cbn. by apply Hf, filterb_perm.
Qed.

Lemma chosen_elem g h : h ∈ chosen g -> h ∈ g.
Proof.
  unfold chosen. destruct (_ || _); [by intros ?%elem_of_nil|]. intros (i&Hi%list_elem_of_lookup_2&_)%elem_of_take.
  rewrite elem_of_sorted_by in Hi. unfold heard in Hi. apply list_elem_of_omap in Hi as (l&Hl&Hs).
  unfold by_source in Hl. apply list_elem_of_fmap in Hl as (source&->&_).
  unfold source_says in Hs. destruct (differ _ _); [done|]. apply head_Some_elem_of, latest_elem in Hs as [Hs _].
  by apply elem_of_filterb in Hs as [Hs _].
Qed.

Lemma group_elem l g h : g ∈ dvalues (economic_groups l) -> h ∈ g -> h ∈ l.
Proof. rewrite groups_values. intros (k&->&_)%list_elem_of_fmap [Hh _]%elem_of_filterb. done. Qed.

Lemma disclosure_date holdings stock_code market_date decision_at h h' :
  h ∈ latest_disclosure holdings stock_code market_date decision_at -> h' ∈ latest_disclosure holdings stock_code market_date decision_at ->
  nf_effective_on h = nf_effective_on h'.
Proof.
  unfold latest_disclosure. rewrite !latest_elem. intros [Hh Hle] [Hh' Hle']. specialize (Hle _ Hh'). specialize (Hle' _ Hh).
  rewrite pyle_Z, Z.leb_le in *. lia.
Qed.

Lemma selected_elem holdings stock_code market_date decision_at h :
  h ∈ hs_selected (select_holdings holdings stock_code market_date decision_at) -> h ∈ latest_disclosure holdings stock_code market_date decision_at.
Proof.
  unfold select_holdings. cbn [hs_selected]. rewrite elem_of_sorted_by, fold_groups. cbn [hs_selected app].
  intros (g&Hh%chosen_elem&Hg)%list_elem_of_bind. by eapply group_elem.
Qed.

(** What was known of a stock by then. *)
Definition known_holdings (stock_code : string) (market_date : date) (decision_at : datetime) (l : list NonFloatHolding) : list NonFloatHolding :=
  List.filter (fun h => bool_decide (nf_stock_code h = stock_code) && pit_eligible (nf_effective_on h) (nf_metadata h) market_date decision_at) l.

Section selection.
Context (stock_code : string) (market_date : date) (decision_at : datetime) (l k : list NonFloatHolding).
Context (Hp : known_holdings stock_code market_date decision_at l ≡ₚ known_holdings stock_code market_date decision_at k).
Let s := select_holdings l stock_code market_date decision_at.
Let s' := select_holdings k stock_code market_date decision_at.

Lemma disclosure_perm : latest_disclosure l stock_code market_date decision_at ≡ₚ latest_disclosure k stock_code market_date decision_at.
Proof. by apply latest_perm. Qed.

Lemma selection_conflict : hs_conflict s = hs_conflict s'.
Proof.
  subst s s'. unfold select_holdings. cbn [hs_conflict]. rewrite !fold_groups. cbn [hs_conflict orb].
  assert (forall gs, existsb disputed gs = existsb id (disputed <$> gs)) as E by (induction gs as [|x gs IH]; [done|]; rewrite fmap_cons; cbn; by rewrite IH).
  rewrite !E. apply existsb_perm, economic_groups_perm; [apply disputed_perm|apply disclosure_perm].
Qed.

Lemma selection_duplicates : hs_duplicate_count s = hs_duplicate_count s'.
Proof.
  subst s s'. unfold select_holdings. cbn [hs_duplicate_count]. rewrite !fold_groups. cbn [hs_duplicate_count]. f_equal.
  apply zsum_perm, economic_groups_perm; [apply merged_perm|apply disclosure_perm].
Qed.

Lemma selection_shares : nf_shares <$> hs_selected s ≡ₚ nf_shares <$> hs_selected s'.
Proof.
  subst s s'. unfold select_holdings. cbn [hs_selected]. rewrite !sorted_by_perm, !fold_groups. cbn [hs_selected app].
  assert (forall gs, nf_shares <$> (gs ≫= chosen) = mjoin ((fun g => nf_shares <$> chosen g) <$> gs)) as E.
  { induction gs as [|x gs IH]; [done|]. rewrite fmap_cons. cbn [mbind list_bind mjoin list_join]. rewrite fmap_app, IH. done. }
  rewrite !E. assert (forall a b : list (list Z), a ≡ₚ b -> mjoin a ≡ₚ mjoin b) as Hj.
  { induction 1 as [|x a b _ IH|x y a|]; cbn; [done|by rewrite IH|by rewrite !app_assoc, (Permutation_app_comm x y)|by etrans]. }
  apply Hj, economic_groups_perm; [apply chosen_shares|apply disclosure_perm].
Qed.

Lemma selection_stale policy :
  existsb (fun h => is_stale market_date (nf_effective_on h) policy) (hs_selected s) =
  existsb (fun h => is_stale market_date (nf_effective_on h) policy) (hs_selected s').
Proof.
  assert (forall h, h ∈ hs_selected s -> h ∈ latest_disclosure l stock_code market_date decision_at) as Hs by (intros h; apply selected_elem).
  assert (forall h, h ∈ hs_selected s' -> h ∈ latest_disclosure l stock_code market_date decision_at) as Hs'
    by (intros h Hh%selected_elem; by rewrite disclosure_perm).
  pose proof (Permutation_length selection_shares) as Hlen. rewrite !length_fmap in Hlen.
  assert (forall x y a b, hs_selected s = x :: a -> hs_selected s' = y :: b -> nf_effective_on x = nf_effective_on y) as Hd.
  { intros x y a b E E'. eapply disclosure_date; [apply Hs; rewrite E; by left|apply Hs'; rewrite E'; by left]. }
  assert (forall m x a, (forall h, h ∈ x :: a -> h ∈ latest_disclosure l stock_code market_date decision_at) -> m = x :: a ->
    existsb (fun h => is_stale market_date (nf_effective_on h) policy) m = is_stale market_date (nf_effective_on x) policy) as Hx.
  { intros m x a Hin ->. cbn [existsb]. destruct (is_stale _ (nf_effective_on x) _) eqn:Ex; [done|]. cbn [orb].
    apply not_true_is_false. intros (h&Hh%list_elem_of_In&Es)%existsb_exists.
    rewrite (disclosure_date l stock_code market_date decision_at h x) in Es; [congruence|apply Hin; by right|apply Hin; by left]. }
  destruct (hs_selected s) as [|x a] eqn:E, (hs_selected s') as [|y b] eqn:E'; [done..|].
  rewrite (Hx _ x a Hs eq_refl), (Hx _ y b Hs' eq_refl). by rewrite (Hd _ _ _ _ eq_refl eq_refl).
Qed.
End selection.

(** ** Declarations *)

Lemma min_by_in {A K} `{PyOrd K} (key : A -> K) x l : min_by key x l ∈ x :: l.
Proof.
  unfold min_by. revert x; induction l as [|y l IH]; intros x; cbn [fold_left]; [by left|].
  specialize (IH (if pylt (key y) (key x) then y else x)). apply elem_of_cons in IH as [->|IH]; [|right; by right].
  destruct (pylt _ _); [right; by left|by left].
Qed.

Lemma max_of_perm (x y : Z) l k : x :: l ≡ₚ y :: k -> max_of x l = max_of y k.
Proof.
  intros Hp. apply Z.le_antisymm; rewrite <-Z.leb_le, <-pyle_Z; apply max_of_ge; [rewrite <-Hp|rewrite Hp]; apply fold_pymax_in.
Qed.

Section declared.
Context (c c' : list HoldingCoverageDeclaration) (Hp : c ≡ₚ c').

Definition declared (c : list HoldingCoverageDeclaration) : list (list HoldingCoverageDeclaration) :=
  (fun source => latest declaration_key (from_source hc_metadata source c)) <$> sources_of hc_metadata c.

Lemma declared_differ : existsb (differ hc_status) (declared c) = existsb (differ hc_status) (declared c').
Proof.
  assert (forall ls, existsb (differ hc_status) ls = existsb id (differ hc_status <$> ls)) as E
    by (induction ls as [|x ls IH]; [done|]; rewrite fmap_cons; cbn; by rewrite IH).
  rewrite !E. apply existsb_perm, by_source_perm; [|done]. intros x y Hxy. by apply differ_perm, fmap_Permutation.
Qed.

(** The newest of a source have one date, and one status unless they differ. *)
Lemma declared_heads {B} (f : HoldingCoverageDeclaration -> B) :
  (forall l v w, l ∈ declared c -> v ∈ l -> w ∈ l -> f v = f w) ->
  f <$> (declared c ≫= take 1) ≡ₚ f <$> (declared c' ≫= take 1).
Proof.
  intros Hf. unfold declared in *.
  assert (forall (g : SourceDataset -> list HoldingCoverageDeclaration) ss, f <$> ((g <$> ss) ≫= take 1) = ss ≫= (fun source => take 1 (f <$> g source))) as E.
  { intros g. induction ss as [|s ss IH]; [done|]. rewrite fmap_cons. cbn [mbind list_bind]. by rewrite fmap_app, IH, fmap_take. }
  rewrite !E. pose proof (sources_perm hc_metadata _ _ Hp) as Hs. rewrite <-Hs. apply reflexive_eq.
  assert (forall s, s ∈ sources_of hc_metadata c -> take 1 (f <$> latest declaration_key (from_source hc_metadata s c)) =
            take 1 (f <$> latest declaration_key (from_source hc_metadata s c'))) as Hh.
  { intros s Hin. pose proof (latest_perm declaration_key _ _ (filterb_perm (fun v => bool_decide (sm_dataset (hc_metadata v) = s)) _ _ Hp)) as Hl.
    fold (from_source hc_metadata s c) (from_source hc_metadata s c') in Hl.
    assert (latest declaration_key (from_source hc_metadata s c) ∈ (fun source => latest declaration_key (from_source hc_metadata source c)) <$> sources_of hc_metadata c) as Hd
      by (apply list_elem_of_fmap; by exists s).
    pose proof (fun v w => Hf _ v w Hd) as Hv.
    destruct (latest declaration_key (from_source hc_metadata s c)) as [|v l1], (latest declaration_key (from_source hc_metadata s c')) as [|w l2];
      [done|by apply Permutation_nil_l in Hl|by apply Permutation_nil_r in Hl|]. cbn. f_equal. apply Hv; [by left|rewrite Hl; by left]. }
  clear E Hf Hs. induction (sources_of hc_metadata c) as [|s ss IH]; [done|]. cbn [mbind list_bind]. rewrite (Hh s) by (by left).
  f_equal. apply IH. intros t Ht. apply Hh. by right.
Qed.
End declared.

Lemma declared_date c l v w : l ∈ declared c -> v ∈ l -> w ∈ l -> hc_effective_on v = hc_effective_on w.
Proof.
  unfold declared. intros (s&->&_)%list_elem_of_fmap [Hv Hv']%latest_elem [Hw Hw']%latest_elem.
  specialize (Hv' _ Hw). specialize (Hw' _ Hv). unfold declaration_key in *. revert Hv' Hw'.
  unfold pyle. change (@pycmp (Z * datetime * Z) _) with (fun x y : Z * datetime * Z => lex (lex (Z.compare x.1.1 y.1.1) (pycmp x.1.2 y.1.2)) (Z.compare x.2 y.2)).
  cbn. destruct (Z.compare_spec (hc_effective_on w) (hc_effective_on v)), (Z.compare_spec (hc_effective_on v) (hc_effective_on w)); cbn; done || lia.
Qed.

(** Coverage agrees where it can be seen. *)
Definition cv_agree (a b : CategoryCoverage) : Prop :=
  cv_conflict a = cv_conflict b /\ (cv_conflict a = false -> cv_missing a = cv_missing b /\ cv_stale a = cv_stale b).

Definition dated (m : date) (l : list HoldingCoverageDeclaration) : list HoldingCoverageDeclaration := List.filter (fun v => hc_effective_on v =? m) l.

Lemma newest_declared x B m :
  m ∈ hc_effective_on x :: (hc_effective_on <$> B) ->
  exists z C, dated m (x :: B) = z :: C /\ (forall w, w ∈ z :: C -> hc_effective_on w = m) /\
    hc_effective_on (min_by (source_rank ∘ hc_metadata) z C) = m.
Proof.
  intros Hm. rewrite <-fmap_cons in Hm. apply list_elem_of_fmap in Hm as (w&Hw&Hin).
  assert (w ∈ dated m (x :: B)) as Hd by (apply elem_of_filterb; by rewrite Hw, Z.eqb_refl).
  destruct (dated m (x :: B)) as [|z C] eqn:E; [by apply elem_of_nil in Hd|]. exists z, C. split; [done|].
  assert (forall w, w ∈ z :: C -> hc_effective_on w = m) as Hall.
  { intros t Ht. rewrite <-E in Ht. by apply elem_of_filterb in Ht as [_ Ht%Z.eqb_eq]. }
  split; [done|]. apply Hall, min_by_in.
Qed.

Lemma dated_statuses m B B' :
  (fun d => (hc_effective_on d, hc_status d)) <$> B ≡ₚ (fun d => (hc_effective_on d, hc_status d)) <$> B' ->
  hc_status <$> dated m B ≡ₚ hc_status <$> dated m B'.
Proof.
  assert (forall l, hc_status <$> dated m l = snd <$> List.filter (fun p : date * CoverageDeclarationStatus => p.1 =? m) ((fun d => (hc_effective_on d, hc_status d)) <$> l)) as E.
  { induction l as [|x l IH]; [done|]. rewrite fmap_cons. cbn [dated List.filter fst]. destruct (hc_effective_on x =? m); [|done].
    rewrite !fmap_cons. cbn [snd]. f_equal. exact IH. }
  intros Hp. rewrite !E. by apply fmap_Permutation, filterb_perm.
Qed.

Lemma cover_agree c c' market_date policy a b category :
  c ≡ₚ c' -> cv_agree a b -> cv_agree (cover_category c market_date policy a category) (cover_category c' market_date policy b category).
Proof.
  intros Hp [Hc Hms]. unfold cover_category. set (v := List.filter _ c). set (v' := List.filter _ c').
  assert (v ≡ₚ v') as Hv by by apply filterb_perm.
  cbv zeta. fold (declared v) (declared v').
  pose proof (declared_heads v v' Hv hc_effective_on (declared_date v)) as Hdates.
  pose proof (declared_differ v v' Hv) as Hdiff.
  assert (existsb (differ hc_status) (declared v) = false -> (fun d => (hc_effective_on d, hc_status d)) <$> (declared v ≫= take 1) ≡ₚ
            (fun d => (hc_effective_on d, hc_status d)) <$> (declared v' ≫= take 1)) as Hpairs.
  { intros Hn. apply (declared_heads v v' Hv). intros l x y Hl Hx Hy. f_equal; [by eapply declared_date|].
    assert (differ hc_status l = false) as Hd.
    { apply not_true_is_false. intros Ht. apply not_false_iff_true in Hn; [done|]. apply existsb_exists. exists l. by rewrite <-list_elem_of_In. }
    by apply (proj2 (proj1 (differ_spec hc_status l) Hd)). }
  revert Hdates Hpairs. generalize (declared v ≫= take 1) (declared v' ≫= take 1). intros B B' Hdates Hpairs. rewrite <-Hdiff.
  destruct B as [|x B], B' as [|y B']; [by split; [exact Hc|]; intros Hca; split; [done|apply Hms]|by apply Permutation_nil_l in Hdates|by apply Permutation_nil_r in Hdates|].
  rewrite !fmap_cons in Hdates. rewrite (max_of_perm _ _ _ _ Hdates). set (m := max_of (hc_effective_on y) _).
  change (List.filter (fun v => hc_effective_on v =? m) (x :: B)) with (dated m (x :: B)).
  change (List.filter (fun v => hc_effective_on v =? m) (y :: B')) with (dated m (y :: B')).
  destruct (newest_declared x B m) as (z&C&EC&Hz&Hlatest); [|rewrite EC]. { unfold m. rewrite <-(max_of_perm _ _ _ _ Hdates). apply fold_pymax_in. }
  destruct (newest_declared y B' m) as (z'&C'&EC'&Hz'&Hlatest'); [|rewrite EC']. { apply fold_pymax_in. }
  rewrite Hlatest, Hlatest', <-Hc. set (d := existsb _ (declared v)). unfold cv_agree. cbn [cv_conflict cv_missing cv_stale].
  destruct d eqn:Ed; [by rewrite !orb_true_r|]. specialize (Hpairs Ed).
  assert (hc_status <$> z :: C ≡ₚ hc_status <$> z' :: C') as Hst by (rewrite <-EC, <-EC'; by apply dated_statuses).
  rewrite (differ_perm _ _ _ Hst). split; [done|]. intros [[Hca _]%orb_false_iff Hd]%orb_false_iff. destruct (Hms Hca) as [-> ->].
  split; [|done]. f_equal. apply bool_decide_ext.
  assert (hc_status (min_by (source_rank ∘ hc_metadata) z C) ∈ hc_status <$> z' :: C') as Hin.
  { rewrite <-Hst. apply list_elem_of_fmap_2, min_by_in. }
  apply list_elem_of_fmap in Hin as (w&->&Hw). apply differ_spec in Hd as [_ Hall]. by rewrite (Hall w _ Hw (min_by_in (source_rank ∘ hc_metadata) z' C')).
Qed.

Lemma coverage_agree c c' stock_code market_date decision_at policy :
  let known := fun v => bool_decide (hc_stock_code v = stock_code) && pit_eligible (hc_effective_on v) (hc_metadata v) market_date decision_at in
  List.filter known c ≡ₚ List.filter known c' ->
  cv_agree (coverage_for_categories c stock_code market_date decision_at policy) (coverage_for_categories c' stock_code market_date decision_at policy).
Proof.
  cbn zeta. intros Hp. unfold coverage_for_categories.
  assert (forall cats a b, cv_agree a b ->
    cv_agree (fold_left (cover_category (List.filter (fun v => bool_decide (hc_stock_code v = stock_code) && pit_eligible (hc_effective_on v) (hc_metadata v) market_date decision_at) c) market_date policy) cats a)
             (fold_left (cover_category (List.filter (fun v => bool_decide (hc_stock_code v = stock_code) && pit_eligible (hc_effective_on v) (hc_metadata v) market_date decision_at) c') market_date policy) cats b)) as H.
  { induction cats as [|cat cats IH]; intros a b Hab; cbn [fold_left]; [done|]. by apply IH, cover_agree. }
  apply H. by split.
Qed.

(** ** The denominator *)

Definition known_fields (stock_code : string) (market_date : date) (decision_at : datetime) (l : list FieldObservation) : list FieldObservation :=
  List.filter (fun v => bool_decide (fo_stock_code v = stock_code) && pit_eligible (fo_effective_on v) (fo_metadata v) market_date decision_at) l.

Lemma resolve_shares observations stock_code market_date decision_at policy :
  is_aware decision_at = true ->
  let newest := latest field_key (List.filter (fun v => bool_decide (sm_dataset (fo_metadata v) = OPENDART_STOCK_TOTAL))
                  (known_fields stock_code market_date decision_at observations)) in
  resolve_listed_common_shares observations stock_code market_date decision_at policy =
  Ok match newest with
     | [] => mk_FieldResolution None MISSING (flags_of [FREE_FLOAT_UNAVAILABLE; SOURCE_MISSING]) [] (float_lineage [])
     | v :: _ =>
         let lineage := float_lineage [fo_metadata v] in
         if is_stale market_date (fo_effective_on v) policy
         then mk_FieldResolution None STALE (flags_of [FREE_FLOAT_UNAVAILABLE; FREE_FLOAT_STALE; SOURCE_STALE]) [v] lineage
         else if differ fo_value newest
         then mk_FieldResolution None CONFLICT (flags_of [FREE_FLOAT_UNAVAILABLE; FREE_FLOAT_SOURCE_CONFLICT]) [v] lineage
         else mk_FieldResolution (Some (fo_value v)) VERIFIED [] [v] lineage
     end.
Proof.
  intros Ha. cbn zeta. unfold resolve_listed_common_shares, require_aware. rewrite Ha. cbn [negb raise_if mbind res_bind].
  fold (known_fields stock_code market_date decision_at observations). unfold FIELD_SOURCE_PRIORITY. cbn [fold_left]. unfold select_source.
  destruct (latest field_key _) as [|v rest]; [done|]. cbn [app orb]. rewrite bool_decide_eq_true_2 by done. cbn [negb existsb].
  rewrite orb_false_r. destruct (is_stale _ _ _); [done|]. assert (differ fo_value [v] = false) as -> by done. rewrite orb_false_r.
  by destruct (differ fo_value (v :: rest)).
Qed.

Lemma field_date l v w : v ∈ latest field_key l -> w ∈ latest field_key l -> fo_effective_on v = fo_effective_on w.
Proof.
  intros [Hv Hv']%latest_elem [Hw Hw']%latest_elem. specialize (Hv' _ Hw). specialize (Hw' _ Hv). unfold field_key in *. revert Hv' Hw'.
  unfold pyle. change (@pycmp (Z * datetime * Z) _) with (fun x y : Z * datetime * Z => lex (lex (Z.compare x.1.1 y.1.1) (pycmp x.1.2 y.1.2)) (Z.compare x.2 y.2)).
  cbn. destruct (Z.compare_spec (fo_effective_on w) (fo_effective_on v)), (Z.compare_spec (fo_effective_on v) (fo_effective_on w)); cbn; done || lia.
Qed.

Lemma shares_agree l k stock_code market_date decision_at policy :
  is_aware decision_at = true -> known_fields stock_code market_date decision_at l ≡ₚ known_fields stock_code market_date decision_at k ->
  exists a b, resolve_listed_common_shares l stock_code market_date decision_at policy = Ok a /\
    resolve_listed_common_shares k stock_code market_date decision_at policy = Ok b /\
    fr_state a = fr_state b /\ fr_value a = fr_value b /\ fr_quality_flags a = fr_quality_flags b.
Proof.
  intros Ha Hp. rewrite !(resolve_shares _ _ _ _ _ Ha). cbv zeta. do 2 eexists. do 2 (split; [reflexivity|]).
  pose proof (latest_perm field_key _ _ (filterb_perm (fun v => bool_decide (sm_dataset (fo_metadata v) = OPENDART_STOCK_TOTAL)) _ _ Hp)) as Hl.
  set (a := latest field_key _) in *. set (b := latest field_key (List.filter _ (known_fields _ _ _ k))) in *.
  rewrite (differ_perm fo_value a b) by (by apply fmap_Permutation).
  assert (forall v w, v ∈ a -> w ∈ b -> fo_effective_on v = fo_effective_on w) as Hd
    by (intros v w Hv Hw; rewrite <-Hl in Hw; by eapply field_date).
  destruct a as [|v a'], b as [|w b']; [done|by apply Permutation_nil_l in Hl|by apply Permutation_nil_r in Hl|].
  rewrite (Hd v w) by (by left). destruct (is_stale _ _ _); [done|].
  destruct (differ fo_value (w :: b')) eqn:Ed; [done|]. cbn. split; [done|]. split; [|done]. f_equal.
  apply differ_spec in Ed as [_ Hall]. apply Hall; [rewrite <-Hl|]; by left.
Qed.

(** ** The result *)

(** All of a result but the documents it cites. *)
Definition numbers (r : FreeFloatResult) : FreeFloatResult :=
  mk_FreeFloatResult (ff_stock_code r) (ff_effective_on r) (ff_ratio r) (ff_issued_common_shares r) (ff_deducted_non_float_shares r)
    (ff_free_float_shares r) (ff_state r) (ff_quality_flags r) (ff_duplicate_deductions_prevented r) (ff_calculation_version r) [].

(** C27: A free float is that of what was known by then, whatever the order of the records.  When
    the observations, holdings and declarations of a stock that were in force and known are the
    same but for their order, so is the result, the cited documents apart. *)
Theorem free_float_point_in_time stock_code market_date decision_at s s' h h' c c' policy :
  let known stock effective_on metadata :=
    bool_decide (stock = stock_code) && ((effective_on <=? market_date) && dt_le (known_at metadata) decision_at) in
  let observed v := known (fo_stock_code v) (fo_effective_on v) (fo_metadata v) in
  let held v := known (nf_stock_code v) (nf_effective_on v) (nf_metadata v) in
  let declared v := known (hc_stock_code v) (hc_effective_on v) (hc_metadata v) in
  List.filter observed s ≡ₚ List.filter observed s' ->
  List.filter held h ≡ₚ List.filter held h' ->
  List.filter declared c ≡ₚ List.filter declared c' ->
  numbers <$> calculate_free_float stock_code market_date decision_at s h c policy =
  numbers <$> calculate_free_float stock_code market_date decision_at s' h' c' policy.
Proof.
  cbv zeta. intros Hs Hh Hc. unfold calculate_free_float. destruct (is_aware decision_at) eqn:Ha; [|by unfold require_aware; rewrite Ha].
  destruct (shares_agree s s' stock_code market_date decision_at policy Ha Hs) as (a&b&->&->&Est&Ev&Ef).
  unfold require_aware. rewrite Ha. cbn [negb raise_if mbind res_bind]. rewrite Est, Ev, Ef.
  destruct (fr_state b); try done. destruct (fr_value b) as [issued|]; [|done].
  destruct (coverage_agree c c' stock_code market_date decision_at policy Hc) as [Ec Em].
  rewrite (selection_conflict _ _ _ _ _ Hh), (selection_duplicates _ _ _ _ _ Hh), (selection_stale _ _ _ _ _ Hh).
  pose proof (zsum_perm _ _ (selection_shares _ _ _ _ _ Hh)) as Esum. unfold zsum in Esum. rewrite Esum, <-Ec.
  set (cov := coverage_for_categories c stock_code market_date decision_at policy) in *.
  set (cov' := coverage_for_categories c' stock_code market_date decision_at policy) in *.
  destruct (cv_conflict cov); cbn [orb]; [done|]. destruct (Em eq_refl) as [-> ->].
  destruct (hs_conflict (select_holdings h' stock_code market_date decision_at)); [done|].
  destruct (cv_missing cov'); [done|]. destruct (cv_stale cov' || _); [done|].
  destruct (issued <? _); [done|]. by destruct (ddiv 60 _ _).
Qed.

(** ** The account *)

(** A holder whose records do not conflict is represented by one of them. *)
Lemma chosen_one g : g <> [] -> disputed g = false -> exists h, chosen g = [h] /\ h ∈ g.
Proof.
  intros Hg Hd. unfold disputed in Hd. apply orb_false_iff in Hd as [Hs Hd].
  assert (heard g <> []) as Hh.
  { destruct g as [|h g]; [done|]. intros Hn.
    assert (sm_dataset (nf_metadata h) ∈ sources_of nf_metadata (h :: g)) as Hin
      by (unfold sources_of; rewrite elem_of_remove_dups, fmap_cons; by left).
    set (l := latest holding_revision (from_source nf_metadata (sm_dataset (nf_metadata h)) (h :: g))).
    assert (l ∈ by_source (h :: g)) as Hl by (apply list_elem_of_fmap; by exists (sm_dataset (nf_metadata h))).
    assert (silent l = false) as Hsl.
    { apply not_true_is_false. intros Ht. apply not_true_iff_false in Hs. apply Hs, existsb_exists. exists l. by rewrite <-list_elem_of_In. }
    unfold silent in Hsl. destruct (source_says l) as [x|] eqn:Ex; [|done].
    assert (x ∈ heard (h :: g)) as Hx by (apply list_elem_of_omap; by exists l). rewrite Hn in Hx. by apply elem_of_nil in Hx. }
  rewrite bool_decide_eq_false_2 in Hd by done. cbn [negb andb] in Hd.
  assert (exists h, chosen g = [h]) as [h E].
  { unfold chosen. rewrite Hd. pose proof (length_sorted_by (source_rank ∘ nf_metadata) (heard g)) as Hlen.
    destruct (sorted_by _ _) as [|h rest]; [|by exists h]. by destruct (heard g). }
  exists h. split; [done|]. apply chosen_elem. rewrite E. by left.
Qed.

Lemma selection_represents l :
  existsb disputed (dvalues (economic_groups l)) = false ->
  economic_key <$> (dvalues (economic_groups l) ≫= chosen) = dkeys (economic_groups l).
Proof.
  rewrite groups_values. intros Hd.
  assert (forall k, k ∈ dkeys (economic_groups l) -> disputed (of_holder k l) = false /\ of_holder k l <> []) as Hk.
  { intros k Hin. split.
    - apply not_true_is_false. intros Ht. apply not_true_iff_false in Hd. apply Hd, existsb_exists. exists (of_holder k l).
      split; [|done]. apply list_elem_of_In, list_elem_of_fmap. by exists k.
    - apply elem_of_dkeys in Hin as [rows E]. destruct (groups_spec l) as [_ Hg]. rewrite Hg in E. by destruct (of_holder k l). }
  clear Hd. induction (dkeys (economic_groups l)) as [|k ks IH]; [done|]. rewrite fmap_cons. cbn [mbind list_bind]. rewrite fmap_app, IH by (intros; apply Hk; by right).
  destruct (Hk k ltac:(by left)) as [Hd Hn]. destruct (chosen_one _ Hn Hd) as (h&->&[_ Hh%bool_decide_eq_true]%elem_of_filterb). cbn. by rewrite Hh.
Qed.

Section account.
Context (holdings : list NonFloatHolding) (stock_code : string) (market_date : date) (decision_at : datetime).
Let s := select_holdings holdings stock_code market_date decision_at.

Lemma selected_keys :
  hs_conflict s = false ->
  NoDup (economic_key <$> hs_selected s) /\
  forall h, h ∈ latest_disclosure holdings stock_code market_date decision_at -> economic_key h ∈ economic_key <$> hs_selected s.
Proof.
  subst s. unfold select_holdings. cbn [hs_conflict hs_selected]. rewrite !fold_groups. cbn [hs_conflict hs_selected orb app]. intros Hd.
  split; [rewrite sorted_by_perm, (selection_represents _ Hd); apply groups_spec|]. intros h Hh.
  rewrite sorted_by_perm, (selection_represents _ Hd), groups_keys. by apply list_elem_of_fmap_2.
Qed.

Lemma selected_shares_nonneg :
  (forall h, h ∈ holdings -> NonFloatHolding_check h = Ok h) -> 0 <= zsum (nf_shares <$> hs_selected s).
Proof.
  intros Hc. assert (forall h, h ∈ hs_selected s -> 0 <= nf_shares h) as Hs.
  { intros h Hh%selected_elem. unfold latest_disclosure in Hh. apply latest_elem in Hh as [[Hh _]%elem_of_filterb _].
    specialize (Hc h Hh). unfold NonFloatHolding_check in Hc. destruct (require_stock_code _); [|done]. cbn [mbind res_bind] in Hc.
    destruct (_ || _); [done|]. cbn [raise_if mbind res_bind] in Hc. destruct (Z.ltb_spec (nf_shares h) 0); [done|lia]. }
  induction (hs_selected s) as [|h l IH]; [done|]. rewrite fmap_cons. change (zsum (nf_shares h :: (nf_shares <$> l))) with (nf_shares h + zsum (nf_shares <$> l)).
  assert (0 <= nf_shares h) by (apply Hs; by left). assert (0 <= zsum (nf_shares <$> l)) by (apply IH; intros; apply Hs; by right). lia.
Qed.
End account.

Lemma quotient_unit n d q : 0 <= n <= d -> 0 < d -> ddiv 60 (dec_of_Z n) (dec_of_Z d) = Ok q -> (0 <= dval q <= 1)%Q.
Proof.
  intros Hn Hd E. destruct (ddiv_ok 60 ltac:(done) _ _ _ E) as [_ Hr]. rewrite !dval_dec_of_Z in Hr.
  assert (0 < inject_Z d)%Q as Hpos by (change 0%Q with (inject_Z 0); by rewrite <-Zlt_Qlt).
  assert (0 <= inject_Z n)%Q as Hn0 by (change 0%Q with (inject_Z 0); rewrite <-Zle_Qle; lia).
  assert (inject_Z n <= inject_Z d)%Q as Hle by (rewrite <-Zle_Qle; lia). split.
  - eapply (rounded_nonneg 60 ltac:(done)); [exact Hr|]. apply Qle_shift_div_l; [done|]. lra.
  - eapply (rounded_mono 60 ltac:(done)); [exact Hr|apply (fits_1 60 ltac:(done))|]. apply Qle_shift_div_r; [done|]. lra.
Qed.

(** An answer without a ratio, and not verified. *)
Ltac no_ratio := eexists; split; [reflexivity|]; split; [split; [by intros|by intros []]|by intros].

(** What a verified free float says. *)
Record accounts (r : FreeFloatResult) (stock_code : string) (market_date : date) (decision_at : datetime)
    (observations : list FieldObservation) (holdings : list NonFloatHolding) (issued : Z) (deducted : list NonFloatHolding) (ratio : dec) : Prop := {
  ac_issued : ff_issued_common_shares r = Some issued;
  ac_deducted : ff_deducted_non_float_shares r = Some (zsum (nf_shares <$> deducted));
  ac_free : ff_free_float_shares r = Some (issued - zsum (nf_shares <$> deducted));
  ac_ratio : ff_ratio r = Some ratio;
  ac_bounds : 0 <= zsum (nf_shares <$> deducted) <= issued /\ 0 < issued;
  ac_unit : (0 <= dval ratio <= 1)%Q;
  ac_reported : exists o, o ∈ known_fields stock_code market_date decision_at observations /\ fo_value o = issued;
  ac_once : NoDup (economic_key <$> deducted);
  ac_all : forall h, h ∈ latest_disclosure holdings stock_code market_date decision_at -> exists h', h' ∈ deducted /\ economic_key h' = economic_key h;
  ac_from : forall h, h ∈ deducted -> h ∈ latest_disclosure holdings stock_code market_date decision_at
}.

(** C26: The free float is an account of the issued shares.  For well-formed records there is always
    a result, verified just when it has a ratio; then the free and the deducted shares add up to
    shares issued that were reported, the ratio is between 0 and 1, and each holder of the latest
    disclosure is deducted exactly once, by one of its records. *)
Theorem free_float_accounts stock_code market_date decision_at observations holdings declarations policy :
  is_aware decision_at = true ->
  (forall o, o ∈ observations -> FieldObservation_check o = Ok o) -> (forall h, h ∈ holdings -> NonFloatHolding_check h = Ok h) ->
  exists r, calculate_free_float stock_code market_date decision_at observations holdings declarations policy = Ok r /\
    (ff_state r = VERIFIED <-> is_Some (ff_ratio r)) /\
    (ff_state r = VERIFIED -> exists issued deducted ratio, accounts r stock_code market_date decision_at observations holdings issued deducted ratio).
Proof.
  intros Ha Ho Hh. unfold calculate_free_float. rewrite (resolve_shares _ _ _ _ _ Ha). unfold require_aware. rewrite Ha.
  cbn [negb raise_if mbind res_bind]. destruct (latest field_key _) as [|v rest] eqn:El; [no_ratio|].
  destruct (is_stale _ (fo_effective_on v) _); [no_ratio|]. destruct (differ fo_value _); [no_ratio|]. cbn [fr_state fr_value].
  destruct (cv_conflict _ || _) eqn:Ec; [no_ratio|]. apply orb_false_iff in Ec as [_ Ec]. destruct (cv_missing _); [no_ratio|].
  destruct (cv_stale _ || _); [no_ratio|].
  assert (v ∈ known_fields stock_code market_date decision_at observations) as Hv.
  { assert (v ∈ latest field_key (List.filter (fun v => bool_decide (sm_dataset (fo_metadata v) = OPENDART_STOCK_TOTAL))
      (known_fields stock_code market_date decision_at observations))) as Hin by (rewrite El; by left).
    by apply latest_elem in Hin as [[Hin _]%elem_of_filterb _]. }
  assert (0 < fo_value v) as Hpos.
  { pose proof Hv as [Hin _]%elem_of_filterb. specialize (Ho v Hin). unfold FieldObservation_check in Ho.
    destruct (require_stock_code _); [|done]. cbn [mbind res_bind] in Ho. destruct (Z.leb_spec (fo_value v) 0); [done|lia]. }
  pose proof (selected_shares_nonneg holdings stock_code market_date decision_at Hh) as Hsum. unfold zsum in Hsum.
  destruct (Z.ltb_spec (fo_value v) (foldr Z.add 0 (nf_shares <$> hs_selected (select_holdings holdings stock_code market_date decision_at)))); [no_ratio|].
  destruct (ddiv_rounded 60 ltac:(done) (dec_of_Z (fo_value v - foldr Z.add 0 (nf_shares <$> hs_selected (select_holdings holdings stock_code market_date decision_at))))
    (dec_of_Z (fo_value v)) ltac:(apply dec_of_Z_nonzero; lia)) as (q&Hq&_).
  rewrite Hq. cbn [mbind res_bind]. eexists. split; [reflexivity|]. split; [split; [by eexists|done]|]. intros _.
  destruct (selected_keys holdings stock_code market_date decision_at Ec) as [Hnd Hall].
  exists (fo_value v), (hs_selected (select_holdings holdings stock_code market_date decision_at)), q.
  split; try done; [eapply quotient_unit; [|done|exact Hq]; lia|by exists v| |by apply selected_elem].
  intros h Hin. destruct (proj1 (list_elem_of_fmap _ _ _) (Hall h Hin)) as (h'&E&Hin'). by exists h'.
Qed.

(** ** Demonstrations *)

Definition demo_issued (at_ : Z) : FieldObservation :=
  mk_FieldObservation "005930" LISTED_COMMON_SHARES 1000 100 COMMON (demo_metadata OPENDART_STOCK_TOTAL at_ 1).
Definition demo_holding (holder : string) (shares : Z) (dataset : SourceDataset) (at_ : Z) : NonFloatHolding :=
  mk_NonFloatHolding "005930" holder holder TREASURY COMMON shares 100 (demo_metadata dataset at_ 1).
Definition demo_declaration (c : NonFloatCategory) : HoldingCoverageDeclaration :=
  mk_HoldingCoverageDeclaration "005930" c COMPLETE 100 (demo_metadata OPENDART_TREASURY_STATUS 1 1).
Definition demo_policy : ReferencePolicy := mk_ReferencePolicy "v1" (400 * us_per_day) (mk_dec false 9 (-1)) [TREASURY].
(** One holder reported by two sources. *)
Definition demo_holdings : list NonFloatHolding :=
  [demo_holding "a" 200 OPENDART_TREASURY_STATUS 1; demo_holding "b" 50 OPENDART_LARGEST_SHAREHOLDER 1; demo_holding "a" 200 OPENDART_STOCK_TOTAL 1].

Example demo_free_float :
  (fun r => (ff_free_float_shares r, ff_ratio r, ff_duplicate_deductions_prevented r, ff_quality_flags r)) <$>
    calculate_free_float "005930" 120 demo_now [demo_issued 1] demo_holdings [demo_declaration TREASURY] demo_policy =
  Ok (Some 750, Some (mk_dec false 75 (-2)), 1, [DUPLICATE_DEDUCTION_PREVENTED]).
Proof. vm_compute. reflexivity. Qed.

Lemma demo_verified :
  ff_state <$> calculate_free_float "005930" 120 demo_now [demo_issued 1] demo_holdings [demo_declaration TREASURY] demo_policy = Ok VERIFIED.
Proof. vm_compute. reflexivity. Qed.

Lemma demo_issued_ok o : o ∈ [demo_issued 1] -> FieldObservation_check o = Ok o.
Proof. by intros ->%list_elem_of_singleton. Qed.
Lemma demo_holdings_ok h : h ∈ demo_holdings -> NonFloatHolding_check h = Ok h.
Proof. intros Hh. by repeat (apply elem_of_cons in Hh as [->|Hh]; [reflexivity|]); apply elem_of_nil in Hh. Qed.

Lemma free_float_accounts_witness :
  exists r issued deducted ratio, calculate_free_float "005930" 120 demo_now [demo_issued 1] demo_holdings [demo_declaration TREASURY] demo_policy = Ok r /\
    accounts r "005930" 120 demo_now [demo_issued 1] demo_holdings issued deducted ratio.
Proof.
  destruct (free_float_accounts "005930" 120 demo_now [demo_issued 1] demo_holdings [demo_declaration TREASURY] demo_policy eq_refl
    demo_issued_ok demo_holdings_ok) as (r&E&_&Hr).
  assert (ff_state r = VERIFIED) as Hv.
  { pose proof demo_verified as H. rewrite E in H. cbn [fmap res_fmap] in H. by injection H. }
  destruct (Hr Hv) as (issued&deducted&ratio&Hacc). exists r, issued, deducted, ratio. split; [exact E|exact Hacc].
Defined.

Lemma free_float_point_in_time_witness :
  known_holdings "005930" 120 demo_now demo_holdings ≡ₚ known_holdings "005930" 120 demo_now (demo_holding "c" 9 OPENDART_STOCK_TOTAL 50 :: rev demo_holdings) /\
  numbers <$> calculate_free_float "005930" 120 demo_now [demo_issued 1] demo_holdings [demo_declaration TREASURY] demo_policy =
  numbers <$> calculate_free_float "005930" 120 demo_now [demo_issued 1; demo_issued 50] (demo_holding "c" 9 OPENDART_STOCK_TOTAL 50 :: rev demo_holdings)
    [demo_declaration TREASURY] demo_policy.
Proof.
  assert (known_holdings "005930" 120 demo_now demo_holdings ≡ₚ
          known_holdings "005930" 120 demo_now (demo_holding "c" 9 OPENDART_STOCK_TOTAL 50 :: rev demo_holdings)) as Hp
    by exact (Permutation_rev demo_holdings).
  split; [exact Hp|]. apply (free_float_point_in_time "005930" 120 demo_now _ _ _ _ _ _ demo_policy); [reflexivity|exact Hp|reflexivity].
Defined.
