(* ===== verification/Reconciliation.v ===== *)
(** [packages/events/reconciliation.py]: the after-close reconciliation of a
    market day, written against the event writer. *)
From S2P Require Import Prelude Sha256 PyTime PyDecimal Json Domain EventModels Outbox EventStore EventWriter.
From S2P Require Import EventHistory InfostockModels.
#[local] Open Scope Z_scope.

(* @ packages/events/reconciliation.py 31-31 INTRADAY_CATALYST_KEY *)
Definition INTRADAY_CATALYST_KEY : string := "INTRADAY_STRENGTH".
(* @ packages/events/reconciliation.py 32-32 AFTER_CLOSE_RECONCILE_POLICY *)
Definition AFTER_CLOSE_RECONCILE_POLICY : string := "after-close-reconcile-2026.08.1".
(* @ packages/events/reconciliation.py 33-33 RECONCILIATION_SOURCE *)
Definition RECONCILIATION_SOURCE : string := "after-close-reconciliation".
(* @ packages/events/reconciliation.py 34-34 CONFIRMATION_LINEAGE_KIND *)
Definition CONFIRMATION_LINEAGE_KIND : string := "INFOSTOCK_THEME_HISTORY".

(* @ packages/events/reconciliation.py 37-45 AfterCloseConfirmation *)
Record AfterCloseConfirmation := mk_AfterCloseConfirmation {
  ac_canonical_theme_id : string;
  ac_event_date : date;
  ac_direction : string;
  ac_summary : string;
  ac_lineage : LineageRef
}.
#[export] Instance AfterCloseConfirmation_eq_dec : EqDecision AfterCloseConfirmation.
Proof. solve_decision. Defined.

(* @ packages/events/reconciliation.py 48-61 AfterCloseReconciliationRun *)
Record AfterCloseReconciliationRun := mk_AfterCloseReconciliationRun {
  run_market_date : date;
  run_matched : list EventWriteResult;
  run_unmatched : list EventWriteResult;
  run_skipped_event_ids : list string;
  run_unmatched_confirmations : list AfterCloseConfirmation
}.

(** ** Confirmations *)

Definition history_identifier (detail : ThemeDetail) (entry : ThemeHistory) : string :=
  td_source_theme_id detail +:+ ":" +:+ th_source_history_key entry.

(* @ packages/events/reconciliation.py 79-101 confirmations_from_theme_details *)
Definition confirm_entry (detail : ThemeDetail)
    (acc : res (list AfterCloseConfirmation * list string)) (entry : ThemeHistory)
    : res (list AfterCloseConfirmation * list string) :=
  '(confirmations, seen) ← acc;
  match th_event_date entry with
  | None => Ok (confirmations, seen)
  | Some event_date =>
      let identifier := history_identifier detail entry in
      if decide (identifier ∈ seen) then Ok (confirmations, seen)
      else
        lineage ← LineageRef_check
                    (mk_LineageRef CONFIRMATION_LINEAGE_KIND identifier None
                       (Some (th_content_hash entry)));
        Ok (confirmations ++
              [mk_AfterCloseConfirmation ("thm_" +:+ td_source_theme_id detail) event_date
                 (th_direction entry) (th_raw_text entry) lineage],
            seen ++ [identifier])
  end.

(* @ packages/events/reconciliation.py 64-102 confirmations_from_theme_details *)
Definition confirmations_from_theme_details (details : list ThemeDetail)
    : res (list AfterCloseConfirmation) :=
  '(confirmations, _) ←
    fold_left (fun acc detail => fold_left (confirm_entry detail) (td_history detail) acc)
      details (Ok ([], []));
  Ok confirmations.

(** ** Reconciling a day *)

(** [dict.setdefault(key, []).append(item)] *)
Definition dappend {K V} `{EqDecision K} (k : K) (v : V) (d : dict K (list V)) : dict K (list V) :=
  dset k (default [] (dget k d) ++ [v]) d.

(** A rise confirmed for the day. *)
Definition confirms (market_date : date) (c : AfterCloseConfirmation) : bool :=
  bool_decide (ac_event_date c = market_date) && bool_decide (ac_direction c = "UP").

Definition article_key (c : AfterCloseConfirmation) : string := lr_identifier (ac_lineage c).

(* @ packages/events/reconciliation.py 122-131 reconcile_after_close *)
Definition up_by_theme (market_date : date) (confirmations : list AfterCloseConfirmation)
    : dict string (list AfterCloseConfirmation) :=
  prod_map id (sorted_by article_key) <$>
  fold_left (fun d c => if confirms market_date c then dappend (ac_canonical_theme_id c) c d else d)
    confirmations [].

(* @ packages/events/reconciliation.py 133-141 reconcile_after_close *)
Definition eligible_events (market_date : date) (catalyst_key : string)
    (events : list CanonicalEvent) : list CanonicalEvent :=
  sorted_by ce_event_id
    (List.filter (fun e => bool_decide (ce_market_date e = market_date) &&
                           bool_decide (ce_catalyst_key e = catalyst_key)) events).

(** [f"{None}"] is ["None"]. *)
Definition fstr_opt (s : option string) : string := default "None" s.

(* @ packages/events/reconciliation.py 157-162 reconcile_after_close *)
Definition articles_digest (articles : list AfterCloseConfirmation) : string :=
  str_take 16 (sha256_hex (String.concat "|"
    ((fun c => lr_identifier (ac_lineage c) +:+ ":" +:+ fstr_opt (lr_content_hash (ac_lineage c)))
       <$> articles))).

(* @ packages/events/reconciliation.py 163-178 reconcile_after_close *)
Definition matched_command (market_date : date) (now : datetime) (event : CanonicalEvent)
    (articles : list AfterCloseConfirmation) : ReconcileEventCommand :=
  mk_ReconcileEventCommand
    (mk_EventInputMetadata
       ("reconcile:" +:+ ce_event_id event +:+ ":MATCHED:" +:+ articles_digest articles)
       RECONCILIATION_SOURCE (int_timestamp now) now now
       ("reconcile:" +:+ date_isoformat market_date) None (ac_lineage <$> articles))
    (ce_event_id event) MATCHED (ce_state_version event)
    ("장후 인포스탁 확정 기사 " +:+ str_Z (Z.of_nat (length articles)) +:+ "건 정합")
    AFTER_CLOSE_RECONCILE_POLICY.

(* @ packages/events/reconciliation.py 181-195 reconcile_after_close *)
Definition unmatched_command (market_date : date) (now : datetime) (event : CanonicalEvent)
    : ReconcileEventCommand :=
  mk_ReconcileEventCommand
    (mk_EventInputMetadata ("reconcile:" +:+ ce_event_id event +:+ ":UNMATCHED")
       RECONCILIATION_SOURCE (int_timestamp now) now now
       ("reconcile:" +:+ date_isoformat market_date) None [])
    (ce_event_id event) UNMATCHED (ce_state_version event) "장후 인포스탁 확정 기사 없음"
    AFTER_CLOSE_RECONCILE_POLICY.

(** The constructors check the metadata, then the command. *)
Definition checked_command (command : ReconcileEventCommand) : res EventCommand :=
  _ ← EventInputMetadata_check (rc_metadata command);
  command ← ReconcileEventCommand_check command;
  Ok (CmdReconcile command).

(** What is to be done with one event: skip it, or write this target. *)
(* @ packages/events/reconciliation.py 148-156 reconcile_after_close *)
Definition verdict (event : CanonicalEvent) (articles : list AfterCloseConfirmation)
    : option ReconciliationStatus :=
  if bool_decide (ce_reconciliation_status event = MATCHED) ||
     (bool_decide (articles = []) && bool_decide (ce_reconciliation_status event = UNMATCHED))
  then None
  else if bool_decide (articles = []) then Some UNMATCHED else Some MATCHED.

Section engine.
Context {S : Type} `{EventStore S}.

(* @ packages/events/reconciliation.py 147-196 reconcile_after_close *)
Fixpoint reconcile_events (market_date : date) (now : datetime)
    (up : dict string (list AfterCloseConfirmation))
    (matched unmatched : list EventWriteResult) (skipped : list string)
    (events : list CanonicalEvent)
    : M S (list EventWriteResult * list EventWriteResult * list string) :=
  match events with
  | [] => mret (matched, unmatched, skipped)
  | event :: events' =>
      let articles := default [] (dget (ce_canonical_theme_id event) up) in
      match verdict event articles with
      | None => reconcile_events market_date now up matched unmatched
                  (skipped ++ [ce_event_id event]) events'
      | Some MATCHED =>
          command ← lift (checked_command (matched_command market_date now event articles));
          result ← write command;
          reconcile_events market_date now up (matched ++ [result]) unmatched skipped events'
      | Some _ =>
          command ← lift (checked_command (unmatched_command market_date now event));
          result ← write command;
          reconcile_events market_date now up matched (unmatched ++ [result]) skipped events'
      end
  end.

(* @ packages/events/reconciliation.py 198-204 reconcile_after_close *)
Definition missed_confirmations (up : dict string (list AfterCloseConfirmation))
    (eligible : list CanonicalEvent) : list AfterCloseConfirmation :=
  theme_id ← List.filter (fun theme_id => negb (bool_decide (theme_id ∈ ce_canonical_theme_id <$> eligible)))
               (sorted_by id (dkeys up));
  default [] (dget theme_id up).

(* @ packages/events/reconciliation.py 105-207 reconcile_after_close *)
Definition reconcile_after_close (events : list CanonicalEvent)
    (confirmations : list AfterCloseConfirmation) (market_date : date) (now : datetime)
    (catalyst_key : string) : M S AfterCloseReconciliationRun :=
  let up := up_by_theme market_date confirmations in
  let eligible := eligible_events market_date catalyst_key events in
  '(matched, unmatched, skipped) ← reconcile_events market_date now up [] [] [] eligible;
  mret (mk_AfterCloseReconciliationRun market_date matched unmatched skipped
          (missed_confirmations up eligible)).
End engine.

(** ** The day's articles *)

(** The rises confirmed for a theme on the day, by identifier. *)
Definition day_articles (market_date : date) (confirmations : list AfterCloseConfirmation)
    (theme : string) : list AfterCloseConfirmation :=
  sorted_by article_key
    (List.filter (fun c => confirms market_date c && bool_decide (ac_canonical_theme_id c = theme))
       confirmations).

Lemma dget_fmap {K V W} `{EqDecision K} (f : V -> W) (k : K) (d : dict K V) :
  dget k (prod_map id f <$> d) = f <$> dget k d.
Proof. induction d as [|[k' v] d IH]; [done|]. cbn. by case_decide. Qed.

Lemma dkeys_fmap {K V W} (f : V -> W) (d : dict K V) : dkeys (prod_map id f <$> d) = dkeys d.
Proof. unfold dkeys. rewrite <-list_fmap_compose. by apply list_fmap_ext. Qed.

Definition grouped (market_date : date) (confirmations : list AfterCloseConfirmation) :
    dict string (list AfterCloseConfirmation) :=
  fold_left (fun d c => if confirms market_date c then dappend (ac_canonical_theme_id c) c d else d)
    confirmations [].

Lemma grouped_snoc md cs c :
  grouped md (cs ++ [c]) =
  if confirms md c then dappend (ac_canonical_theme_id c) c (grouped md cs) else grouped md cs.
Proof. unfold grouped. by rewrite fold_left_app. Qed.

Lemma grouped_spec md cs t :
  NoDup (dkeys (grouped md cs)) /\
  let l := List.filter (fun c => confirms md c && bool_decide (ac_canonical_theme_id c = t)) cs in
  dget t (grouped md cs) = if bool_decide (l = []) then None else Some l.
Proof.
  induction cs as [|c cs [Hnd IH]] using rev_ind; [split; [apply NoDup_nil_2|done]|].
  rewrite grouped_snoc. cbv zeta in *. rewrite List.filter_app. simpl.
  destruct (confirms md c); simpl; [|by rewrite app_nil_r].
  unfold dappend. split; [by apply NoDup_dkeys_dset|]. rewrite dget_dset.
  case_decide as E.
  - subst t. rewrite (bool_decide_eq_true_2 (ac_canonical_theme_id c = _)) by done. rewrite IH.
    rewrite (bool_decide_eq_false_2 (_ ++ _ = [])) by (by intros [_ ?]%app_eq_nil).
    case_bool_decide as E; [by rewrite E|done].
  - rewrite (bool_decide_eq_false_2 (ac_canonical_theme_id c = t)) by done. by rewrite app_nil_r.
Qed.

Lemma up_by_theme_grouped md cs :
  up_by_theme md cs = prod_map id (sorted_by article_key) <$> grouped md cs.
Proof. done. Qed.

Lemma up_by_theme_get md cs t :
  default [] (dget t (up_by_theme md cs)) = day_articles md cs t.
Proof.
  rewrite up_by_theme_grouped, dget_fmap. destruct (grouped_spec md cs t) as [_ ->].
  unfold day_articles. case_bool_decide as E; [by rewrite E|done].
Qed.

Lemma elem_up_keys md cs t :
  t ∈ dkeys (up_by_theme md cs) <->
  exists c, c ∈ cs /\ confirms md c = true /\ ac_canonical_theme_id c = t.
Proof.
  rewrite up_by_theme_grouped, dkeys_fmap, elem_of_dkeys.
  destruct (grouped_spec md cs t) as [_ ->]. split.
  - case_bool_decide as E; [by intros [? ?]|intros _].
    destruct (List.filter _ cs) as [|c l] eqn:El; [done|].
    assert (c ∈ c :: l) as Hc by left. rewrite <-El in Hc.
    apply elem_of_filterb in Hc as [Hc [H1 H2%bool_decide_eq_true]%andb_true_iff]. by exists c.
  - intros (c&Hc&H1&H2). rewrite bool_decide_eq_false_2; [done|]. intros E.
    assert (c ∈ List.filter (fun c => confirms md c && bool_decide (ac_canonical_theme_id c = t)) cs)
      as Hin by (apply elem_of_filterb; rewrite H1, bool_decide_eq_true_2; done).
    rewrite E in Hin. by apply not_elem_of_nil in Hin.
Qed.

Lemma NoDup_up_keys md cs : NoDup (dkeys (up_by_theme md cs)).
Proof. rewrite up_by_theme_grouped, dkeys_fmap. apply (grouped_spec md cs ""). Qed.

(** Confirmed rises of themes without an event of the day. *)
Definition missed (market_date : date) (eligible : list CanonicalEvent)
    (c : AfterCloseConfirmation) : bool :=
  confirms market_date c &&
  negb (bool_decide (ac_canonical_theme_id c ∈ ce_canonical_theme_id <$> eligible)).

(** Grouping by theme loses nothing and repeats nothing. *)
Lemma groups_perm md cs (keys : list string) :
  NoDup keys ->
  (theme_id ← keys; day_articles md cs theme_id) ≡ₚ
  List.filter (fun c => confirms md c && bool_decide (ac_canonical_theme_id c ∈ keys)) cs.
Proof.
  induction 1 as [|t keys Ht Hnd IH].
  - cbn. rewrite filterb_none; [done|]. intros c _. rewrite bool_decide_eq_false_2; [apply andb_false_r|].
    apply not_elem_of_nil.
  - rewrite bind_cons, IH. unfold day_articles at 1. rewrite sorted_by_perm. clear IH Hnd.
    induction cs as [|c cs IH]; [done|]. simpl. destruct (confirms md c); simpl; [|done].
    destruct (decide (ac_canonical_theme_id c = t)) as [<-|Hne].
    + rewrite (bool_decide_eq_true_2 (ac_canonical_theme_id c = _)) by done.
      rewrite (bool_decide_eq_false_2 (_ ∈ keys)) by done.
      rewrite bool_decide_eq_true_2 by left. simpl. by rewrite IH.
    + rewrite (bool_decide_eq_false_2 (ac_canonical_theme_id c = t)) by done.
      case_bool_decide as E.
      * rewrite bool_decide_eq_true_2 by (by right). by rewrite <-Permutation_middle, IH.
      * rewrite bool_decide_eq_false_2; [done|]. by intros [|]%elem_of_cons.
Qed.

Lemma missed_confirmations_ok md cs eligible :
  missed_confirmations (up_by_theme md cs) eligible ≡ₚ List.filter (missed md eligible) cs.
Proof.
  unfold missed_confirmations.
  set (keys := List.filter _ _). assert (NoDup keys) as Hnd.
  { apply NoDup_filterb. rewrite sorted_by_perm. apply NoDup_up_keys. }
  assert ((theme_id ← keys; default [] (dget theme_id (up_by_theme md cs))) =
          (theme_id ← keys; day_articles md cs theme_id)) as ->.
  { clear Hnd. induction keys as [|t l IH]; [done|]. by rewrite !bind_cons, IH, up_by_theme_get. }
  rewrite groups_perm by done. apply reflexive_eq, filterb_ext. intros c Hc. unfold missed.
  destruct (confirms md c) eqn:Ec; [|done]. simpl. apply eq_true_iff_eq.
  rewrite bool_decide_eq_true. unfold keys. rewrite elem_of_filterb, elem_of_sorted_by, elem_up_keys.
  split; [by intros [_ ?]|]. intros H. split; [|done]. by exists c.
Qed.

(** ** What a run does, for any event store *)

Section engine_facts.
Context {S : Type} `{EventStore S}.

Lemma reconcile_events_ext md now up up' m u k events (s : S) :
  (forall t, default [] (dget t up) = default [] (dget t up')) ->
  reconcile_events md now up m u k events s = reconcile_events md now up' m u k events s.
Proof.
  intros E. revert m u k s; induction events as [|e events IH]; intros m u k s; [done|].
  cbn [reconcile_events]. rewrite (E (ce_canonical_theme_id e)).
  destruct (verdict _ _) as [[]|]; [| | |apply IH];
    unfold mbind, M_bind; (destruct (lift _ s) as [[c|x] s1]; [|done]);
    (destruct (write c s1) as [[r|x] s2]; [|done]); apply IH.
Qed.

(** The order in which events and confirmations are listed does not matter: a run
    over the same events and articles in any order writes the same commands in the
    same order and returns the same result. *)
Theorem reconcile_order_independent events events' confirmations confirmations' md now ck (s : S) :
  NoDup (ce_event_id <$> events) -> NoDup (article_key <$> confirmations) ->
  events ≡ₚ events' -> confirmations ≡ₚ confirmations' ->
  reconcile_after_close events confirmations md now ck s =
  reconcile_after_close events' confirmations' md now ck s.
Proof.
  intros Hne Hnc Hpe Hpc.
  assert (eligible_events md ck events = eligible_events md ck events') as Eel.
  { apply sorted_by_key_perm; [by apply NoDup_key_filterb|by apply filterb_perm]. }
  assert (forall t, default [] (dget t (up_by_theme md confirmations)) =
                    default [] (dget t (up_by_theme md confirmations'))) as Eup.
  { intros t. rewrite !up_by_theme_get.
    apply sorted_by_key_perm; [by apply NoDup_key_filterb|by apply filterb_perm]. }
  assert (missed_confirmations (up_by_theme md confirmations) (eligible_events md ck events) =
          missed_confirmations (up_by_theme md confirmations') (eligible_events md ck events))
    as Emi.
  { unfold missed_confirmations.
    rewrite (sorted_by_key_perm id (dkeys (up_by_theme md confirmations))
               (dkeys (up_by_theme md confirmations'))).
    - induction (List.filter _ _) as [|t l IH]; [done|]. by rewrite !bind_cons, IH, Eup.
    - rewrite list_fmap_id. apply NoDup_up_keys.
    - apply NoDup_Permutation; [apply NoDup_up_keys..|]. intros t. rewrite !elem_up_keys.
      by setoid_rewrite Hpc. }
  unfold reconcile_after_close. rewrite <-Eel, <-Emi. unfold mbind, M_bind.
  by rewrite (reconcile_events_ext _ _ _ _ _ _ _ _ s Eup).
Qed.
End engine_facts.

(** ** What a run does to the in-memory store *)

(** A reconciliation command that is not a replay changes at most its own event:
    applied, the event is in the target status; otherwise the event is untouched. *)
Lemma write_reconcile_ok command s r s' :
  store_inv s -> dget (command_id (CmdReconcile command)) (es_receipts s) = None ->
  write (CmdReconcile command) s = (Ok r, s') ->
  es_receipts s' = dset (command_id (CmdReconcile command))
                     (receipt_of (CmdReconcile command) r) (es_receipts s) /\
  exists e, dget (rc_event_id command) (es_events s) = Some e /\
    (forall i, i <> rc_event_id command -> dget i (es_events s') = dget i (es_events s)) /\
    dget (rc_event_id command) (es_events s') = Some (wr_event r) /\ same_event e (wr_event r) /\
    (wr_applied r = true -> ce_reconciliation_status (wr_event r) = rc_target command).
Proof.
  intros Hs Hfresh [(?&?&_)|(_&s1&Hd&Hsave)]%write_ok; [congruence|].
  pose proof (dispatch_inv _ _ _ _ Hs Hd) as (_&_&Hrec&_).
  apply save_receipt_fresh in Hsave as (seqs&->&_); [|by rewrite Hrec]. cbn.
  split; [by rewrite Hrec|]. simpl in Hd. apply reconcile_ok in Hd as [Hd|[Hd (e&c&He&Er)]].
  - destruct Hd as (->&Hna&_&Hi). exists (wr_event r). split_and!; try done.
    unfold wr_applied. by rewrite bool_decide_eq_true.
  - destruct Hd as (log&message&record&ids&outbox&->&_). cbn [es_events]. rewrite Er.
    assert (ce_event_id (reconciled e c command) = rc_event_id command) as ->
      by by destruct (inv_events _ Hs _ _ He).
    exists e. split_and!; [done| |apply dget_dset_eq|done|done].
    intros i Hi. by apply dget_dset_ne.
  - intros e He. by apply (inv_events _ Hs).
Qed.

(** The command written for an event, if any. *)
Definition planned (market_date : date) (now : datetime)
    (articles : string -> list AfterCloseConfirmation) (e : CanonicalEvent)
    : option ReconcileEventCommand :=
  match verdict e (articles (ce_canonical_theme_id e)) with
  | None => None
  | Some MATCHED => Some (matched_command market_date now e (articles (ce_canonical_theme_id e)))
  | Some _ => Some (unmatched_command market_date now e)
  end.

(** The reconciliation status an event is to have after the run. *)
Definition outcome (articles : string -> list AfterCloseConfirmation) (e : CanonicalEvent)
    : ReconciliationStatus :=
  default (ce_reconciliation_status e) (verdict e (articles (ce_canonical_theme_id e))).

Lemma planned_target md now articles e command :
  planned md now articles e = Some command ->
  rc_event_id command = ce_event_id e /\ rc_target command = outcome articles e.
Proof.
  unfold planned, outcome, verdict. intros H.
  destruct (_ || _); [done|]. by destruct (bool_decide _); injection H as <-.
Qed.

Lemma checked_command_valid command c :
  checked_command command = Ok c -> c = CmdReconcile command /\ command_valid c.
Proof.
  unfold checked_command. intros H. apply res_bind_ok in H as (m&Hm&H).
  apply res_bind_ok in H as (k&Hk&[= <-]).
  assert (k = command) as ->.
  { unfold ReconcileEventCommand_check in Hk. do 3 apply res_bind_ok in Hk as (?&_&Hk).
    by injection Hk. }
  split; [done|]. split; simpl; [by rewrite Hm|by rewrite Hk].
Qed.

Definition articles_in (up : dict string (list AfterCloseConfirmation)) (theme : string)
    : list AfterCloseConfirmation := default [] (dget theme up).

(** One event of the loop, through its planned command. *)
Lemma reconcile_events_cons {S} `{EventStore S} md now up m u k e events (s : S) :
  reconcile_events md now up m u k (e :: events) s =
  match planned md now (articles_in up) e with
  | None => reconcile_events md now up m u (k ++ [ce_event_id e]) events s
  | Some c =>
      (command ← lift (checked_command c);
       result ← write command;
       if decide (rc_target c = MATCHED)
       then reconcile_events md now up (m ++ [result]) u k events
       else reconcile_events md now up m (u ++ [result]) k events) s
  end.
Proof.
  cbn [reconcile_events]. unfold planned, articles_in. by destruct (verdict _ _) as [[]|].
Qed.

Definition answered_ids (results : list EventWriteResult) : list string :=
  (fun r => ce_event_id (wr_event r)) <$> results.

Definition planned_as (articles : string -> list AfterCloseConfirmation)
    (t : option ReconciliationStatus) (e : CanonicalEvent) : bool :=
  bool_decide (verdict e (articles (ce_canonical_theme_id e)) = t).

Definition reconcile_id (c : ReconcileEventCommand) : string := command_id (CmdReconcile c).

(** The events are the stored ones, and their commands have not been answered. *)
Record run_ready (md : date) (now : datetime) (articles : string -> list AfterCloseConfirmation)
    (events : list CanonicalEvent) (s : MemStore) : Prop := {
  ready_ids : NoDup (ce_event_id <$> events);
  ready_current : forall e, e ∈ events -> dget (ce_event_id e) (es_events s) = Some e;
  ready_commands : NoDup (reconcile_id <$> omap (planned md now articles) events);
  ready_fresh : forall c, c ∈ omap (planned md now articles) events ->
    dget (reconcile_id c) (es_receipts s) = None
}.

Lemma run_ready_skip md now articles e events s :
  run_ready md now articles (e :: events) s -> planned md now articles e = None ->
  run_ready md now articles events s.
Proof.
  intros [H1 H2 H3 H4] E. simpl in H3, H4. rewrite E in H3, H4.
  split; [by apply NoDup_cons in H1 as [_ ?]| |done|done]. intros x Hx. apply H2. by right.
Qed.

Lemma run_ready_write md now articles e events s c r s1 :
  run_ready md now articles (e :: events) s -> planned md now articles e = Some c ->
  es_receipts s1 = dset (reconcile_id c) (receipt_of (CmdReconcile c) r) (es_receipts s) ->
  (forall i, i <> ce_event_id e -> dget i (es_events s1) = dget i (es_events s)) ->
  run_ready md now articles events s1.
Proof.
  intros [H1 H2 H3 H4] E Hrec Hoth. simpl in H3, H4. rewrite E in H3, H4. simpl in H3.
  apply NoDup_cons in H1 as [H1 H1']. apply NoDup_cons in H3 as [H3 H3'].
  split; [done| |done|].
  - intros x Hx. rewrite Hoth; [apply H2; by right|]. intros Ex. apply H1. rewrite <-Ex.
    by apply list_elem_of_fmap_2.
  - intros c' Hc'. rewrite Hrec, dget_dset_ne; [apply H4; by right|]. intros Ec. apply H3.
    rewrite Ec. by apply list_elem_of_fmap_2.
Qed.

Lemma planned_verdict md now articles e :
  match planned md now articles e with
  | None => verdict e (articles (ce_canonical_theme_id e)) = None
  | Some c => verdict e (articles (ce_canonical_theme_id e)) = Some (rc_target c)
  end.
Proof.
  unfold planned. destruct (verdict _ _) as [[]|] eqn:E; [|done..].
  unfold verdict in E. destruct (_ || _); [done|]. by destruct (bool_decide _).
Qed.

(** What a run of the loop leaves behind. *)
Record settled_run (articles : string -> list AfterCloseConfirmation)
    (events : list CanonicalEvent) (s s' : MemStore) (ms us : list EventWriteResult)
    (ks : list string) : Prop := {
  run_matched_ids : answered_ids ms = ce_event_id <$> List.filter (planned_as articles (Some MATCHED)) events;
  run_unmatched_ids : answered_ids us = ce_event_id <$> List.filter (planned_as articles (Some UNMATCHED)) events;
  run_skipped_ids : ks = ce_event_id <$> List.filter (planned_as articles None) events;
  run_inv : store_inv s';
  run_steps : steps s s';
  run_others : forall i, i ∉ ce_event_id <$> events -> dget i (es_events s') = dget i (es_events s);
  run_events : forall e, e ∈ events ->
    exists e', dget (ce_event_id e) (es_events s') = Some e' /\ same_event e e' /\
      (Forall (fun r => wr_applied r = true) (ms ++ us) ->
       ce_reconciliation_status e' = outcome articles e)
}.

Lemma settled_run_skip articles e events s s' ms us ks :
  verdict e (articles (ce_canonical_theme_id e)) = None ->
  ce_event_id e ∉ ce_event_id <$> events -> dget (ce_event_id e) (es_events s) = Some e ->
  settled_run articles events s s' ms us ks ->
  settled_run articles (e :: events) s s' ms us (ce_event_id e :: ks).
Proof.
  intros Hv Hnin He [H1 H2 H3 H4 H5 H6 H7].
  split; try done.
  - simpl. unfold planned_as at 1. by rewrite Hv.
  - simpl. unfold planned_as at 1. by rewrite Hv.
  - simpl. unfold planned_as at 1. rewrite Hv. simpl. by rewrite H3.
  - intros i [Hi Hi']%not_elem_of_cons. by apply H6.
  - intros x [->|Hx]%elem_of_cons; [|by apply H7].
    exists e. rewrite H6 by done. split_and!; [done|apply same_event_refl|].
    intros _. unfold outcome. by rewrite Hv.
Qed.

Lemma settled_run_write articles e events s s1 s' r t ms us ks :
  verdict e (articles (ce_canonical_theme_id e)) = Some t -> t <> REC_PENDING ->
  ce_event_id e ∉ ce_event_id <$> events ->
  step s s1 -> (forall i, i <> ce_event_id e -> dget i (es_events s1) = dget i (es_events s)) ->
  dget (ce_event_id e) (es_events s1) = Some (wr_event r) -> same_event e (wr_event r) ->
  (wr_applied r = true -> ce_reconciliation_status (wr_event r) = t) ->
  settled_run articles events s1 s' ms us ks ->
  settled_run articles (e :: events) s s'
    (if decide (t = MATCHED) then r :: ms else ms)
    (if decide (t = MATCHED) then us else r :: us) ks.
Proof.
  intros Hv Ht Hnin Hstep Hoth Hr Hsame Hap [H1 H2 H3 H4 H5 H6 H7].
  assert (ce_event_id (wr_event r) = ce_event_id e) as Hid by apply Hsame.
  split; try done.
  - simpl. unfold planned_as at 1. rewrite Hv. destruct t; simpl; [done| |done].
    by rewrite Hid, H1.
  - simpl. unfold planned_as at 1. rewrite Hv. destruct t; simpl; [done|done|].
    by rewrite Hid, H2.
  - simpl. unfold planned_as at 1. rewrite Hv. by destruct t.
  - eapply rtc_l; [exact Hstep|exact H5].
  - intros i [Hi Hi']%not_elem_of_cons. rewrite H6 by done. by apply Hoth.
  - intros x [->|Hx]%elem_of_cons.
    + exists (wr_event r). rewrite H6 by done. split_and!; [done|done|]. intros Hall.
      unfold outcome. rewrite Hv. apply Hap. destruct (decide (t = MATCHED)).
      * by apply Forall_cons in Hall as [? _].
      * apply Forall_app in Hall as [_ Hall]. by apply Forall_cons in Hall as [? _].
    + destruct (H7 x Hx) as (x'&Hx'&Hs'&Hst). exists x'. split_and!; [done|done|].
      intros Hall. apply Hst. apply Forall_app in Hall as [A B]. apply Forall_app.
      destruct (decide (t = MATCHED)); split; try done.
      * by apply Forall_cons in A as [_ ?].
      * by apply Forall_cons in B as [_ ?].
Qed.

Lemma reconcile_events_settle md now up events m u k s m' u' k' s' :
  reconcile_events md now up m u k events s = (Ok (m', u', k'), s') ->
  store_inv s -> run_ready md now (articles_in up) events s ->
  exists ms us ks, m' = m ++ ms /\ u' = u ++ us /\ k' = k ++ ks /\
    settled_run (articles_in up) events s s' ms us ks.
Proof.
  revert m u k s; induction events as [|e events IH]; intros m u k s H Hs Hready.
  { cbn in H. injection H as <- <- <- <-. exists [], [], []. rewrite !app_nil_r.
    split_and!; [done..|]. split; try done; try apply rtc_refl. by intros ? ?%not_elem_of_nil. }
  rewrite reconcile_events_cons in H.
  pose proof (planned_verdict md now (articles_in up) e) as Hv.
  pose proof (ready_current _ _ _ _ _ Hready e (list_elem_of_here _ _)) as Hcur.
  pose proof (ready_ids _ _ _ _ _ Hready) as [Hnin _]%NoDup_cons.
  destruct (planned md now (articles_in up) e) as [c|] eqn:Ep.
  - pose proof (planned_target _ _ _ _ _ Ep) as [Hid _].
    apply M_bind_ok in H as (command&s0&Hc&H). apply lift_ok in Hc as [Hc ->].
    apply checked_command_valid in Hc as [-> Hvalid].
    apply M_bind_ok in H as (r&s1&Hw&H).
    assert (dget (reconcile_id c) (es_receipts s) = None) as Hfresh.
    { apply (ready_fresh _ _ _ _ _ Hready). simpl. rewrite Ep. left. }
    destruct (write_reconcile_ok _ _ _ _ Hs Hfresh Hw) as (Hrec&x&Hx&Hoth&Hr&Hsame&Hap).
    rewrite Hid in *. assert (x = e) as -> by congruence.
    pose proof (run_ready_write _ _ _ _ _ _ _ _ _ Hready Ep Hrec Hoth) as Hready1.
    pose proof (write_inv _ _ _ _ Hs Hw) as Hs1.
    assert (step s s1) as Hstep by by eapply step_write.
    assert (rc_target c <> REC_PENDING) as Hnp.
    { intros E. unfold verdict in Hv. rewrite E in Hv.
      destruct (_ || _); [done|]. by destruct (bool_decide _). }
    destruct (decide (rc_target c = MATCHED)) as [Em|Em].
    + apply IH in H as (ms&us&ks&->&->&->&Hrun); [|done|done].
      exists (r :: ms), us, ks. rewrite <-app_assoc. split_and!; [done..|].
      pose proof (settled_run_write _ _ _ _ _ _ _ _ _ _ _ Hv Hnp Hnin Hstep Hoth Hr Hsame Hap Hrun)
        as Hres. by rewrite !decide_True in Hres.
    + apply IH in H as (ms&us&ks&->&->&->&Hrun); [|done|done].
      exists ms, (r :: us), ks. rewrite <-app_assoc. split_and!; [done..|].
      pose proof (settled_run_write _ _ _ _ _ _ _ _ _ _ _ Hv Hnp Hnin Hstep Hoth Hr Hsame Hap Hrun)
        as Hres. by rewrite !decide_False in Hres.
  - apply IH in H as (ms&us&ks&->&->&->&Hrun); [|done|by eapply run_ready_skip].
    exists ms, us, (ce_event_id e :: ks). rewrite <-app_assoc. split_and!; [done..|].
    by apply settled_run_skip.
Qed.

(** *** The articles of a run *)

Section articles_ext.
Context (articles articles' : string -> list AfterCloseConfirmation).
Hypothesis same_articles : forall t, articles t = articles' t.

Lemma planned_ext md now e : planned md now articles e = planned md now articles' e.
Proof. unfold planned. by rewrite same_articles. Qed.

Lemma run_ready_ext md now events s :
  run_ready md now articles events s -> run_ready md now articles' events s.
Proof.
  assert (omap (planned md now articles) events = omap (planned md now articles') events) as E.
  { induction events as [|e l IH]; [done|]. simpl. rewrite planned_ext.
    destruct (planned _ _ _ e); [f_equal|]; exact IH. }
  intros [H1 H2 H3 H4]. rewrite E in *. by split.
Qed.

Lemma planned_as_ext t e : planned_as articles t e = planned_as articles' t e.
Proof. unfold planned_as. by rewrite same_articles. Qed.
End articles_ext.

Lemma articles_in_day md cs t : articles_in (up_by_theme md cs) t = day_articles md cs t.
Proof. apply up_by_theme_get. Qed.

(** A run through its loop. *)
Lemma reconcile_run events cs md now ck s run s' :
  reconcile_after_close events cs md now ck s = (Ok run, s') ->
  reachable s -> run_ready md now (day_articles md cs) (eligible_events md ck events) s ->
  settled_run (articles_in (up_by_theme md cs)) (eligible_events md ck events) s s'
    (run_matched run) (run_unmatched run) (run_skipped_event_ids run) /\
  run_unmatched_confirmations run =
    missed_confirmations (up_by_theme md cs) (eligible_events md ck events).
Proof.
  unfold reconcile_after_close. intros H Hs%reachable_inv Hready.
  apply M_bind_ok in H as ([[m u] k]&s1&H&Hrun). apply mret_ok in Hrun as [-> ->].
  apply reconcile_events_settle in H as (ms&us&ks&->&->&->&Hrun); [done|done|].
  eapply run_ready_ext; [|exact Hready]. intros t. by rewrite articles_in_day.
Qed.

Definition has_articles md cs (e : CanonicalEvent) : bool :=
  negb (bool_decide (day_articles md cs (ce_canonical_theme_id e) = [])).
Definition status_is (t : ReconciliationStatus) (e : CanonicalEvent) : bool :=
  bool_decide (ce_reconciliation_status e = t).

Lemma planned_as_cases md cs e :
  planned_as (articles_in (up_by_theme md cs)) (Some MATCHED) e =
    has_articles md cs e && negb (status_is MATCHED e) /\
  planned_as (articles_in (up_by_theme md cs)) (Some UNMATCHED) e =
    negb (has_articles md cs e) && status_is REC_PENDING e /\
  planned_as (articles_in (up_by_theme md cs)) None e =
    status_is MATCHED e || negb (has_articles md cs e) && status_is UNMATCHED e.
Proof.
  unfold planned_as, has_articles, status_is, verdict. rewrite articles_in_day.
  destruct (bool_decide (day_articles _ _ _ = [])), (ce_reconciliation_status e); done.
Qed.

Lemma outcome_cases md cs e :
  outcome (articles_in (up_by_theme md cs)) e =
    if has_articles md cs e || status_is MATCHED e then MATCHED else UNMATCHED.
Proof.
  unfold outcome, has_articles, status_is, verdict. rewrite articles_in_day.
  destruct (bool_decide (day_articles _ _ _ = [])), (ce_reconciliation_status e); done.
Qed.

Lemma filter_split3 {A B} (f : A -> B) (p q r : A -> bool) l :
  (forall x, (Nat.b2n (p x) + Nat.b2n (q x) + Nat.b2n (r x) = 1)%nat) ->
  (f <$> List.filter p l) ++ (f <$> List.filter q l) ++ (f <$> List.filter r l) ≡ₚ f <$> l.
Proof.
  intros H. induction l as [|x l IH]; [done|]. specialize (H x). simpl.
  destruct (p x), (q x), (r x); simpl in *; try lia; rewrite <-IH; solve_Permutation.
Qed.

(** On the stored events of the day, a run that returns has dealt with each
    eligible event exactly once, in order of event id: those with a rise confirmed
    for their theme and not yet matched are answered as matched, pending ones
    without as unmatched, and the settled ones are skipped; the confirmations left
    over are exactly the confirmed rises of themes without an eligible event. *)
Theorem reconcile_answers_each_event events cs md now ck s run s' :
  reachable s -> run_ready md now (day_articles md cs) (eligible_events md ck events) s ->
  reconcile_after_close events cs md now ck s = (Ok run, s') ->
  let eligible := eligible_events md ck events in
  let ids p := ce_event_id <$> List.filter p eligible in
  answered_ids (run_matched run) = ids (fun e => has_articles md cs e && negb (status_is MATCHED e)) /\
  answered_ids (run_unmatched run) =
    ids (fun e => negb (has_articles md cs e) && status_is REC_PENDING e) /\
  run_skipped_event_ids run =
    ids (fun e => status_is MATCHED e || negb (has_articles md cs e) && status_is UNMATCHED e) /\
  answered_ids (run_matched run) ++ answered_ids (run_unmatched run) ++ run_skipped_event_ids run
    ≡ₚ ce_event_id <$> eligible /\
  run_unmatched_confirmations run ≡ₚ List.filter (missed md eligible) cs.
Proof.
  intros Hs Hready Hrun. destruct (reconcile_run _ _ _ _ _ _ _ _ Hrun Hs Hready) as [H Hm].
  cbv zeta. rewrite (run_matched_ids _ _ _ _ _ _ _ H), (run_unmatched_ids _ _ _ _ _ _ _ H),
    (run_skipped_ids _ _ _ _ _ _ _ H), Hm.
  split_and!; try (f_equal; apply filterb_ext; intros e _; by apply planned_as_cases).
  - apply filter_split3. intros e. destruct (planned_as_cases md cs e) as (->&->&->).
    unfold status_is. by destruct (has_articles md cs e), (ce_reconciliation_status e).
  - apply missed_confirmations_ok.
Qed.

Lemma reconcile_events_idle md now up m u k events (s : MemStore) :
  (forall e, e ∈ events -> verdict e (articles_in up (ce_canonical_theme_id e)) = None) ->
  reconcile_events md now up m u k events s =
    (Ok (m, u, k ++ (ce_event_id <$> events)), s).
Proof.
  revert k; induction events as [|e events IH]; intros k H; [by rewrite app_nil_r|].
  rewrite reconcile_events_cons. pose proof (planned_verdict md now (articles_in up) e) as Hp.
  destruct (planned _ _ _ _); [by rewrite H in Hp by left|].
  rewrite IH by (intros x Hx; apply H; by right). by rewrite <-app_assoc.
Qed.

Lemma elem_eligible md ck events e :
  e ∈ eligible_events md ck events <->
  e ∈ events /\ ce_market_date e = md /\ ce_catalyst_key e = ck.
Proof.
  unfold eligible_events. rewrite elem_of_sorted_by, elem_of_filterb, andb_true_iff,
    !bool_decide_eq_true. done.
Qed.

(** C8: When all its commands are applied, a run settles the day: every eligible event
    is matched if a rise was confirmed for its theme or it already was, and unmatched
    otherwise, no other event changes, and running again on the stored events, at any
    time, writes nothing. *)
Theorem reconcile_settles events cs md now ck s run s' :
  reachable s -> run_ready md now (day_articles md cs) (eligible_events md ck events) s ->
  (forall e, e ∈ events -> dget (ce_event_id e) (es_events s) = Some e) ->
  reconcile_after_close events cs md now ck s = (Ok run, s') ->
  Forall (fun r => wr_applied r = true) (run_matched run ++ run_unmatched run) ->
  (forall e, e ∈ eligible_events md ck events ->
     exists e', dget (ce_event_id e) (es_events s') = Some e' /\ same_event e e' /\
       ce_reconciliation_status e' =
         if has_articles md cs e || status_is MATCHED e then MATCHED else UNMATCHED) /\
  (forall i, i ∉ ce_event_id <$> eligible_events md ck events ->
     dget i (es_events s') = dget i (es_events s)) /\
  (forall events' now',
     (forall e', e' ∈ events' -> dget (ce_event_id e') (es_events s') = Some e' /\
        exists e, e ∈ events /\ ce_event_id e = ce_event_id e') ->
     exists run', reconcile_after_close events' cs md now' ck s' = (Ok run', s') /\
       run_matched run' = [] /\ run_unmatched run' = []).
Proof.
  intros Hs Hready Hcur Hrun Happ.
  destruct (reconcile_run _ _ _ _ _ _ _ _ Hrun Hs Hready) as [H _].
  assert (forall e, e ∈ eligible_events md ck events ->
     exists e', dget (ce_event_id e) (es_events s') = Some e' /\ same_event e e' /\
       ce_reconciliation_status e' =
         if has_articles md cs e || status_is MATCHED e then MATCHED else UNMATCHED) as Hev.
  { intros e He. destruct (run_events _ _ _ _ _ _ _ H e He) as (e'&He'&Hsame&Hst).
    exists e'. split_and!; [done|done|]. by rewrite Hst, outcome_cases. }
  split_and!; [exact Hev|apply (run_others _ _ _ _ _ _ _ H)|].
  intros events' now' Hevents'. unfold reconcile_after_close, mbind, M_bind.
  rewrite reconcile_events_idle; [by eexists|].
  intros e' (He'&Hmd&Hck)%elem_eligible. destruct (Hevents' _ He') as (Hst&e&He&Hid).
  assert (exists e0, e0 ∈ eligible_events md ck events /\ ce_event_id e0 = ce_event_id e')
    as (e0&He0&Hid0).
  { destruct (decide (ce_event_id e' ∈ ce_event_id <$> eligible_events md ck events)) as [Hin|Hin].
    - apply list_elem_of_fmap in Hin as (e0&E0&He0). by exists e0.
    - rewrite (run_others _ _ _ _ _ _ _ H) in Hst by done. rewrite <-Hid, (Hcur _ He) in Hst.
      injection Hst as ->. exists e'. split; [|done]. by apply elem_eligible. }
  destruct (Hev _ He0) as (x&Hx&Hsame&Hrec). rewrite Hid0, Hst in Hx. injection Hx as <-.
  assert (ce_canonical_theme_id e' = ce_canonical_theme_id e0) as Eth by apply Hsame.
  destruct (planned_as_cases md cs e') as (_&_&Hp). unfold planned_as in Hp.
  assert (bool_decide (verdict e' (articles_in (up_by_theme md cs) (ce_canonical_theme_id e')) = None)
          = true) as Hv; [|by apply bool_decide_eq_true in Hv].
  etrans; [|etrans; [exact Hp|]]; [by apply bool_decide_ext|]. clear Hp.
  unfold has_articles, status_is in *. rewrite Eth, Hrec.
  destruct (bool_decide (day_articles _ _ _ = [])), (ce_reconciliation_status e0); done.
Qed.

(** ** Where confirmations come from *)

Definition history_pairs (details : list ThemeDetail) : list (ThemeDetail * ThemeHistory) :=
  detail ← details; (fun entry => (detail, entry)) <$> td_history detail.

Lemma fold_history_pairs details acc :
  fold_left (fun acc detail => fold_left (confirm_entry detail) (td_history detail) acc) details acc =
  fold_left (fun acc p => confirm_entry p.1 acc p.2) (history_pairs details) acc.
Proof.
  revert acc; induction details as [|d details IH]; intros acc; [done|].
  unfold history_pairs. rewrite bind_cons, fold_left_app. simpl. rewrite IH. clear IH. f_equal.
  generalize (td_history d) as l. intros l. revert acc; induction l as [|x l IH]; intros acc;
    [done|apply IH].
Qed.

(** A confirmation is the summary of a dated entry. *)
Definition summarises (c : AfterCloseConfirmation) (p : ThemeDetail * ThemeHistory) : Prop :=
  ac_canonical_theme_id c = "thm_" +:+ td_source_theme_id p.1 /\
  th_event_date p.2 = Some (ac_event_date c) /\ ac_direction c = th_direction p.2 /\
  ac_summary c = th_raw_text p.2 /\
  ac_lineage c = mk_LineageRef CONFIRMATION_LINEAGE_KIND (history_identifier p.1 p.2) None
                   (Some (th_content_hash p.2)).

Lemma LineageRef_check_id r r' : LineageRef_check r = Ok r' -> r' = r.
Proof.
  unfold LineageRef_check. intros H. do 4 apply res_bind_ok in H as (?&_&H). congruence.
Qed.

(** The confirmations taken from theme pages summarise dated history entries of
    those pages, each entry under its own identifier at most once, and every dated
    entry is represented: repeated pages do not repeat a confirmation. *)
Theorem confirmations_complete_once details cs :
  confirmations_from_theme_details details = Ok cs ->
  NoDup (article_key <$> cs) /\
  (forall c, c ∈ cs -> exists p, p ∈ history_pairs details /\ summarises c p) /\
  (forall p, p ∈ history_pairs details -> is_Some (th_event_date p.2) ->
     history_identifier p.1 p.2 ∈ article_key <$> cs).
Proof.
  unfold confirmations_from_theme_details. rewrite fold_history_pairs. intros H.
  apply res_bind_ok in H as ([cs' seen]&H&[= ->]).
  assert (seen = article_key <$> cs /\ NoDup (article_key <$> cs) /\
    (forall c, c ∈ cs -> exists p, p ∈ history_pairs details /\ summarises c p) /\
    (forall p, p ∈ history_pairs details -> is_Some (th_event_date p.2) ->
       history_identifier p.1 p.2 ∈ article_key <$> cs)) as (_&?); [|done].
  revert cs seen H. induction (history_pairs details) as [|p l IH] using rev_ind; intros cs seen H.
  { injection H as <- <-. split_and!; [done|apply NoDup_nil_2|..]; by intros ? ?%not_elem_of_nil. }
  rewrite fold_left_app in H. simpl in H. apply res_bind_ok in H as ([cs0 seen0]&H0&H).
  destruct (IH _ _ H0) as (->&Hnd&Hsub&Hall). clear IH.
  assert (forall c, c ∈ cs0 -> exists q, q ∈ l ++ [p] /\ summarises c q) as Hsub'.
  { intros c (q&Hq&?)%Hsub. exists q. split; [|done]. apply elem_of_app. by left. }
  cbv beta iota zeta in H. destruct (th_event_date p.2) as [d|] eqn:Ed.
  - case_decide as Es.
    + injection H as <- <-. split_and!; [done..|].
      intros q [Hq| ->%list_elem_of_singleton]%elem_of_app Hs; [by apply Hall|done].
    + apply res_bind_ok in H as (lin&Hl&[= <- <-]). apply LineageRef_check_id in Hl as ->.
      rewrite fmap_app. split_and!.
      * done.
      * apply NoDup_app. split_and!; [done| |apply NoDup_singleton].
        intros x Hx ->%list_elem_of_singleton. by apply Es.
      * intros c [Hc| ->%list_elem_of_singleton]%elem_of_app; [by apply Hsub'|].
        exists p. split; [apply elem_of_app; right; by apply list_elem_of_singleton|]. by split_and!.
      * intros q [Hq| ->%list_elem_of_singleton]%elem_of_app Hs; apply elem_of_app;
          [left; by apply Hall|right; by apply list_elem_of_singleton].
  - injection H as <- <-. split_and!; [done..|].
    intros q [Hq| ->%list_elem_of_singleton]%elem_of_app Hs; [by apply Hall|].
    rewrite Ed in Hs. by destruct Hs.
Qed.

(** ** A day on a concrete store *)

Definition demo_article (key : string) : AfterCloseConfirmation :=
  mk_AfterCloseConfirmation "theme-1" (ymd2ord 2026 8 14) "UP" "rise"
    (mk_LineageRef CONFIRMATION_LINEAGE_KIND key None (Some "hash")).
Definition demo_events : list CanonicalEvent := [demo_event demo_store2].
Definition demo_articles : list AfterCloseConfirmation := [demo_article "src:b"; demo_article "src:a"].
#[local] Abbreviation demo_run :=
  (reconcile_after_close demo_events demo_articles (ymd2ord 2026 8 14) (demo_time 420) "intraday").
Definition demo_after : MemStore := (demo_run demo_store2).2.

Lemma demo_ready :
  run_ready (ymd2ord 2026 8 14) (demo_time 420) (day_articles (ymd2ord 2026 8 14) demo_articles)
    (eligible_events (ymd2ord 2026 8 14) "intraday" demo_events) demo_store2.
Proof.
  assert (eligible_events (ymd2ord 2026 8 14) "intraday" demo_events = [demo_event demo_store2]) as E
    by (vm_compute; reflexivity).
  rewrite E. split.
  - apply NoDup_singleton.
  - intros e ->%list_elem_of_singleton. vm_compute. reflexivity.
  - apply (bool_decide_unpack _). vm_compute. exact I.
  - intros c Hc.
    assert (forallb (fun c => negb (dmem (reconcile_id c) (es_receipts demo_store2)))
              (omap (planned (ymd2ord 2026 8 14) (demo_time 420)
                       (day_articles (ymd2ord 2026 8 14) demo_articles))
                 [demo_event demo_store2]) = true) as H by (vm_compute; reflexivity).
    rewrite forallb_forall in H. apply list_elem_of_In, H in Hc. unfold dmem in Hc.
    by destruct (dget _ _).
Qed.

Lemma demo_reachable2 : reachable demo_store2.
Proof. unfold reachable, steps. etrans; [apply demo_reachable1|apply demo_steps2]. Qed.

Lemma demo_run_ok :
  exists run, demo_run demo_store2 = (Ok run, demo_after) /\
    Forall (fun r => wr_applied r = true) (run_matched run ++ run_unmatched run).
Proof.
  eexists. split; [vm_compute; reflexivity|].
  apply Forall_forall. intros r Hr. apply list_elem_of_singleton in Hr as ->. reflexivity.
Qed.

Lemma reconcile_answers_each_event_witness :
  exists run, demo_run demo_store2 = (Ok run, demo_after) /\
    answered_ids (run_matched run) = [demo_id] /\ run_skipped_event_ids run = [].
Proof.
  destruct demo_run_ok as (run&Hrun&_). exists run. split; [exact Hrun|].
 
  destruct (reconcile_answers_each_event demo_events demo_articles (ymd2ord 2026 8 14) (demo_time 420)
              "intraday" demo_store2 run demo_after demo_reachable2 demo_ready Hrun)
    as (H1&_&H3&_).
  split; [rewrite H1|rewrite H3]; vm_compute; reflexivity.
Defined.

Lemma reconcile_settles_witness :
  exists run', reconcile_after_close [demo_event demo_after] demo_articles (ymd2ord 2026 8 14)
                 (demo_time 999) "intraday" demo_after = (Ok run', demo_after) /\
    run_matched run' = [] /\ run_unmatched run' = [].
Proof.
  destruct demo_run_ok as (run&Hrun&Happ).
  destruct (reconcile_settles demo_events demo_articles (ymd2ord 2026 8 14) (demo_time 420)
              "intraday" demo_store2 run demo_after demo_reachable2 demo_ready
              ltac:(intros e ->%list_elem_of_singleton; vm_compute; reflexivity) Hrun Happ)
    as (_&_&H).
  apply H. intros e' ->%list_elem_of_singleton. split; [vm_compute; reflexivity|].
  exists (demo_event demo_store2). split; [left|vm_compute; reflexivity].
Defined.

Lemma reconcile_order_independent_witness :
  demo_run demo_store2 =
  reconcile_after_close demo_events (rev demo_articles) (ymd2ord 2026 8 14) (demo_time 420)
    "intraday" demo_store2.
Proof.
  apply reconcile_order_independent.
  - apply NoDup_singleton.
  - apply (bool_decide_unpack _). vm_compute. exact I.
  - reflexivity.
  - apply Permutation_rev.
Defined.

Definition demo_detail : ThemeDetail :=
  mk_ThemeDetail "7" "반도체" "" "rev"
    [mk_ThemeHistory 1 None "h1" (Some (ymd2ord 2026 8 14)) None None None "rise" "UP" [] [] None
       None "fp" "OK" "hash"]
    [] (mk_RawSnapshot "THEME_DETAIL" None "" (demo_time 0) (demo_time 0) "" None "" "JSON" true
          "OK" None).

Lemma confirmations_complete_once_witness :
  exists cs, confirmations_from_theme_details [demo_detail; demo_detail] = Ok cs /\
    NoDup (article_key <$> cs) /\ length cs = 1%nat.
Proof.
  eexists. split; [vm_compute; reflexivity|].
  split; [|reflexivity].
  apply (confirmations_complete_once [demo_detail; demo_detail]). vm_compute. reflexivity.
Defined.
