(* ===== verification/RealtimeModels.v ===== *)
(** [packages/realtime/models.py]: realtime stock updates, the hot state of a
    stock, source cursors and checkpoints.  A record's [..._check] is its
    [__post_init__]; a [..._init] also receives decimals that may not be finite. *)
From S2P Require Import Prelude Sha256 PyTime PyDecimal Json Domain EventModels.
#[local] Open Scope Z_scope.

(* @ packages/realtime/models.py 15-15 HOT_STATE_CHECKPOINT_VERSION *)
Definition HOT_STATE_CHECKPOINT_VERSION : string := "hot-state-2026.08.1".

(* @ packages/realtime/models.py 42-59 StockRealtimeUpdate *)
Record StockRealtimeUpdate := mk_StockRealtimeUpdate {
  ru_message_id : string;
  ru_stock_id : string;
  ru_market_date : date;
  ru_source : string;
  ru_source_sequence : Z;
  ru_occurred_at : datetime;
  ru_received_at : datetime;
  ru_current_price : option dec;
  ru_cumulative_trading_value : option dec;
  ru_base_price : option dec;
  ru_fresh : bool;
  ru_trading_halted : bool;
  ru_corporate_action_unresolved : bool;
  ru_lineage : list LineageRef
}.
#[export] Instance StockRealtimeUpdate_eq_dec : EqDecision StockRealtimeUpdate.
Proof. solve_decision. Defined.

(** [value is not None and (not value.is_finite() or value <= 0)] is refused. *)
Definition finite_positive (x : option decimal) : res (option dec) :=
  match x with
  | None => Ok None
  | Some x => d ← require_finite x; _ ← raise_if (dle d dzero) ValueError; Ok (Some d)
  end.

(** The checks updates and hot states share on their source and times. *)
Definition require_source (source_sequence : Z) (occurred_at received_at : datetime) : res unit :=
  _ ← raise_if (source_sequence <? 0) ValueError;
  _ ← require_aware occurred_at;
  _ ← require_aware received_at;
  raise_if (dt_lt received_at occurred_at) ValueError.

(* @ packages/realtime/models.py 61-82 StockRealtimeUpdate.__post_init__ *)
Definition StockRealtimeUpdate_init (message_id stock_id : string) (market_date : date)
    (source : string) (source_sequence : Z) (occurred_at received_at : datetime)
    (current_price cumulative_trading_value base_price : option decimal)
    (fresh trading_halted corporate_action_unresolved : bool) (lineage : list LineageRef)
    : res StockRealtimeUpdate :=
  _ ← require_texts [message_id; stock_id; source];
  _ ← require_source source_sequence occurred_at received_at;
  base_price ← finite_positive base_price;
  observation ← StockMarketObservation_init stock_id market_date occurred_at current_price
                  cumulative_trading_value fresh trading_halted corporate_action_unresolved;
  Ok (mk_StockRealtimeUpdate message_id stock_id market_date source source_sequence occurred_at
        received_at (mo_current_price observation) (mo_cumulative_trading_value observation)
        base_price fresh trading_halted corporate_action_unresolved lineage).

(* @ packages/realtime/models.py 84-94 StockRealtimeUpdate.to_observation *)
Definition update_to_observation (u : StockRealtimeUpdate) : res StockMarketObservation :=
  StockMarketObservation_init (ru_stock_id u) (ru_market_date u) (ru_occurred_at u)
    (Finite <$> ru_current_price u) (Finite <$> ru_cumulative_trading_value u) (ru_fresh u)
    (ru_trading_halted u) (ru_corporate_action_unresolved u).

(** The base price is not part of the dictionary. *)
(* @ packages/realtime/models.py 96-111 StockRealtimeUpdate.to_dict *)
Definition StockRealtimeUpdate_to_dict (u : StockRealtimeUpdate) : json :=
  JObj [("messageId", JStr (ru_message_id u)); ("stockId", JStr (ru_stock_id u));
        ("marketDate", JStr (date_isoformat (ru_market_date u)));
        ("source", JStr (ru_source u)); ("sourceSequence", JNum (ru_source_sequence u));
        ("occurredAt", JStr (isoformat (ru_occurred_at u)));
        ("receivedAt", JStr (isoformat (ru_received_at u)));
        ("currentPrice", JDec (ru_current_price u));
        ("cumulativeTradingValue", JDec (ru_cumulative_trading_value u));
        ("fresh", JBool (ru_fresh u)); ("tradingHalted", JBool (ru_trading_halted u));
        ("corporateActionUnresolved", JBool (ru_corporate_action_unresolved u));
        ("lineage", JList (LineageRef_to_dict <$> ru_lineage u))].

(* @ packages/realtime/models.py 113-117 StockRealtimeUpdate.fingerprint *)
Definition update_fingerprint (u : StockRealtimeUpdate) : string :=
  sha256_hex (canonical_json (StockRealtimeUpdate_to_dict u)).

(* @ packages/realtime/models.py 120-135 HotStockState *)
Record HotStockState := mk_HotStockState {
  hs_stock_id : string;
  hs_market_date : date;
  hs_version : Z;
  hs_source : string;
  hs_source_sequence : Z;
  hs_occurred_at : datetime;
  hs_received_at : datetime;
  hs_current_price : option dec;
  hs_cumulative_trading_value : option dec;
  hs_fresh : bool;
  hs_trading_halted : bool;
  hs_corporate_action_unresolved : bool;
  hs_last_message_id : string;
  hs_lineage : list LineageRef
}.
#[export] Instance HotStockState_eq_dec : EqDecision HotStockState.
Proof. solve_decision. Defined.
Definition ordinary_state (h : HotStockState) : bool :=
  ordinary_opt (hs_current_price h) && ordinary_opt (hs_cumulative_trading_value h).

(* @ packages/realtime/models.py 177-187 HotStockState.to_observation *)
Definition to_observation (h : HotStockState) : res StockMarketObservation :=
  StockMarketObservation_init (hs_stock_id h) (hs_market_date h) (hs_occurred_at h)
    (Finite <$> hs_current_price h) (Finite <$> hs_cumulative_trading_value h) (hs_fresh h)
    (hs_trading_halted h) (hs_corporate_action_unresolved h).

(* @ packages/realtime/models.py 137-152 HotStockState.__post_init__ *)
Definition HotStockState_check (h : HotStockState) : res HotStockState :=
  _ ← require_texts [hs_stock_id h; hs_source h; hs_last_message_id h];
  _ ← raise_if (hs_version h <? 1) ValueError;
  _ ← require_source (hs_source_sequence h) (hs_occurred_at h) (hs_received_at h);
  _ ← to_observation h;
  Ok h.

(* @ packages/realtime/models.py 154-175 HotStockState.from_update *)
Definition from_update (u : StockRealtimeUpdate) (version : Z) : res HotStockState :=
  HotStockState_check
    (mk_HotStockState (ru_stock_id u) (ru_market_date u) version (ru_source u)
       (ru_source_sequence u) (ru_occurred_at u) (ru_received_at u) (ru_current_price u)
       (ru_cumulative_trading_value u) (ru_fresh u) (ru_trading_halted u)
       (ru_corporate_action_unresolved u) (ru_message_id u) (ru_lineage u)).

(* @ packages/realtime/models.py 189-205 HotStockState.to_dict *)
Definition HotStockState_to_dict (h : HotStockState) : json :=
  JObj [("stockId", JStr (hs_stock_id h));
        ("marketDate", JStr (date_isoformat (hs_market_date h)));
        ("version", JNum (hs_version h)); ("source", JStr (hs_source h));
        ("sourceSequence", JNum (hs_source_sequence h));
        ("occurredAt", JStr (isoformat (hs_occurred_at h)));
        ("receivedAt", JStr (isoformat (hs_received_at h)));
        ("currentPrice", JDec (hs_current_price h));
        ("cumulativeTradingValue", JDec (hs_cumulative_trading_value h));
        ("fresh", JBool (hs_fresh h)); ("tradingHalted", JBool (hs_trading_halted h));
        ("corporateActionUnresolved", JBool (hs_corporate_action_unresolved h));
        ("lastMessageId", JStr (hs_last_message_id h));
        ("lineage", JList (LineageRef_to_dict <$> hs_lineage h))].

(* @ packages/realtime/models.py 239-244 HotApplyDisposition *)
Inductive HotApplyDisposition :=
  | HOT_APPLIED | HOT_DUPLICATE | HOT_STALE_SOURCE_SEQUENCE | HOT_STALE_RECEIVED_AT
  | HOT_STALE_OBSERVATION.
#[export] Instance HotApplyDisposition_eq_dec : EqDecision HotApplyDisposition.
Proof. solve_decision. Defined.

(* @ packages/realtime/models.py 247-251 HotApplyResult *)
Record HotApplyResult := mk_HotApplyResult {
  ha_disposition : HotApplyDisposition;
  ha_previous : option HotStockState;
  ha_current : option HotStockState
}.

(* @ packages/realtime/models.py 253-255 HotApplyResult.changed *)
Definition ha_changed (r : HotApplyResult) : bool :=
  bool_decide (ha_disposition r = HOT_APPLIED).

(* @ packages/realtime/models.py 258-264 SourceCursor *)
Record SourceCursor := mk_SourceCursor {
  cu_market_date : date;
  cu_stock_id : string;
  cu_source : string;
  cu_source_sequence : Z;
  cu_received_at : datetime
}.
#[export] Instance SourceCursor_eq_dec : EqDecision SourceCursor.
Proof. solve_decision. Defined.

(* @ packages/realtime/models.py 266-271 SourceCursor.__post_init__ *)
Definition SourceCursor_check (c : SourceCursor) : res SourceCursor :=
  _ ← require_texts [cu_stock_id c; cu_source c];
  _ ← raise_if (cu_source_sequence c <? 0) ValueError;
  _ ← require_aware (cu_received_at c);
  Ok c.

(* @ packages/realtime/models.py 273-280 SourceCursor.to_dict *)
Definition SourceCursor_to_dict (c : SourceCursor) : json :=
  JObj [("marketDate", JStr (date_isoformat (cu_market_date c)));
        ("stockId", JStr (cu_stock_id c)); ("source", JStr (cu_source c));
        ("sourceSequence", JNum (cu_source_sequence c));
        ("receivedAt", JStr (isoformat (cu_received_at c)))].

(* @ packages/realtime/models.py 293-300 HotStateCheckpoint *)
Record HotStateCheckpoint := mk_HotStateCheckpoint {
  hc_checkpoint_version : string;
  hc_created_at : datetime;
  hc_as_of : datetime;
  hc_states : list HotStockState;
  hc_processed_messages : list (string * string);
  hc_source_cursors : list SourceCursor
}.

(* @ packages/realtime/models.py 302-307 HotStateCheckpoint.__post_init__ *)
Definition HotStateCheckpoint_check (c : HotStateCheckpoint) : res HotStateCheckpoint :=
  _ ← require_text (hc_checkpoint_version c);
  _ ← require_aware (hc_created_at c);
  _ ← require_aware (hc_as_of c);
  _ ← raise_if (dt_lt (hc_created_at c) (hc_as_of c)) ValueError;
  Ok c.

(* @ packages/realtime/models.py 309-320 HotStateCheckpoint.to_dict *)
Definition HotStateCheckpoint_to_dict (c : HotStateCheckpoint) : json :=
  JObj [("checkpointVersion", JStr (hc_checkpoint_version c));
        ("createdAt", JStr (isoformat (hc_created_at c)));
        ("asOf", JStr (isoformat (hc_as_of c)));
        ("states", JList (HotStockState_to_dict <$> hc_states c));
        ("processedMessages",
          JList ((fun m => JObj [("messageId", JStr m.1); ("fingerprint", JStr m.2)])
                   <$> hc_processed_messages c));
        ("sourceCursors", JList (SourceCursor_to_dict <$> hc_source_cursors c))].

(* @ packages/realtime/models.py 340-344 HotStateCheckpoint.content_hash *)
Definition content_hash (c : HotStateCheckpoint) : string :=
  sha256_hex (canonical_json (HotStateCheckpoint_to_dict c)).

(* @ packages/realtime/models.py 346-348 HotStateCheckpoint.checkpoint_id *)
Definition checkpoint_id (c : HotStateCheckpoint) : string :=
  "checkpoint_" +:+ str_take 32 (content_hash c).
