(* ===== verification/HotState.v ===== *)
(** [packages/realtime/hot_state.py]: the latest state per stock, with stale and
    repeated inputs told apart, checkpoints and their restoration. *)
From S2P Require Import Prelude Sha256 PyTime PyDecimal Json Domain EventModels RealtimeModels.
#[local] Open Scope Z_scope.

(* @ packages/realtime/hot_state.py 23-28 HotStateStore.__init__ *)
Record HotStateStore := mk_HotStateStore {
  hot_states : dict (date * string) HotStockState;
  hot_processed_messages : dict string string;
  hot_source_cursors : dict (date * string * string) SourceCursor
}.

(* @ packages/realtime/hot_state.py 25-28 HotStateStore.__init__ *)
Definition empty_hot : HotStateStore := mk_HotStateStore [] [] [].

Definition set_state k v (s : HotStateStore) : HotStateStore :=
  mk_HotStateStore (dset k v (hot_states s)) (hot_processed_messages s) (hot_source_cursors s).
Definition set_processed m f (s : HotStateStore) : HotStateStore :=
  mk_HotStateStore (hot_states s) (dset m f (hot_processed_messages s)) (hot_source_cursors s).
Definition set_cursor k c (s : HotStateStore) : HotStateStore :=
  mk_HotStateStore (hot_states s) (hot_processed_messages s) (dset k c (hot_source_cursors s)).

Definition update_key (u : StockRealtimeUpdate) : date * string := (ru_market_date u, ru_stock_id u).
Definition cursor_key (u : StockRealtimeUpdate) : date * string * string :=
  (ru_market_date u, ru_stock_id u, ru_source u).

(** The total order in which observations of a stock replace each other. *)
Abbreviation observation_order := (datetime * datetime * string * Z * string)%type.
(* @ packages/realtime/hot_state.py 70-76 HotStateStore.apply *)
Definition incoming_order (u : StockRealtimeUpdate) : observation_order :=
  (ru_occurred_at u, ru_received_at u, ru_source u, ru_source_sequence u, ru_message_id u).
(* @ packages/realtime/hot_state.py 77-83 HotStateStore.apply *)
Definition current_order (h : HotStockState) : observation_order :=
  (hs_occurred_at h, hs_received_at h, hs_source h, hs_source_sequence h, hs_last_message_id h).

(* @ packages/realtime/hot_state.py 101-117 HotStateStore._record_cursor *)
Definition record_cursor (u : StockRealtimeUpdate) : M HotStateStore unit := fun s =>
  let received_at := match dget (cursor_key u) (hot_source_cursors s) with
                     | None => ru_received_at u
                     | Some previous => pymax (cu_received_at previous) (ru_received_at u)
                     end in
  match SourceCursor_check (mk_SourceCursor (ru_market_date u) (ru_stock_id u) (ru_source u)
                              (ru_source_sequence u) received_at) with
  | Raise e => (Raise e, s)
  | Ok cursor => (Ok tt, set_cursor (cursor_key u) cursor s)
  end.

Definition mutate (f : HotStateStore -> HotStateStore) : M HotStateStore unit :=
  fun s => (Ok tt, f s).
Definition mark_processed (u : StockRealtimeUpdate) : M HotStateStore unit :=
  mutate (set_processed (ru_message_id u) (update_fingerprint u)).

(* @ packages/realtime/hot_state.py 30-99 HotStateStore.apply *)
Definition apply (u : StockRealtimeUpdate) : M HotStateStore HotApplyResult :=
  s ← get_st;
  let previous := dget (update_key u) (hot_states s) in
  let unchanged d := mret (mk_HotApplyResult d previous previous) : M HotStateStore _ in
  match dget (ru_message_id u) (hot_processed_messages s) with
  | Some seen =>
      if decide (seen <> update_fingerprint u) then throw HotStateIdempotencyConflict
      else unchanged HOT_DUPLICATE
  | None =>
      let cursor := dget (cursor_key u) (hot_source_cursors s) in
      if match cursor with
         | Some c => ru_source_sequence u <=? cu_source_sequence c
         | None => false
         end
      then _ ← mark_processed u; unchanged HOT_STALE_SOURCE_SEQUENCE
      else if match cursor with
              | Some c => dt_lt (ru_received_at u) (cu_received_at c)
              | None => false
              end
      then _ ← record_cursor u; _ ← mark_processed u; unchanged HOT_STALE_RECEIVED_AT
      else
        _ ← record_cursor u; _ ← mark_processed u;
        if match previous with
           | Some h => pyle (incoming_order u) (current_order h)
           | None => false
           end
        then unchanged HOT_STALE_OBSERVATION
        else
          current ← lift (from_update u (match previous with
                                         | None => 1
                                         | Some h => hs_version h + 1
                                         end));
          _ ← mutate (set_state (update_key u) current);
          mret (mk_HotApplyResult HOT_APPLIED previous (Some current))
  end.

(* @ packages/realtime/hot_state.py 119-121 HotStateStore.get *)
Definition get (market_date : date) (stock_id : string) (s : HotStateStore)
    : option HotStockState := dget (market_date, stock_id) (hot_states s).

(* @ packages/realtime/hot_state.py 123-134 HotStateStore.states_for *)
Definition states_for (market_date : date) (stock_ids : list string) (s : HotStateStore)
    : list HotStockState :=
  omap (fun stock_id => dget (market_date, stock_id) (hot_states s)) (sorted_set stock_ids).

(** [max(times, default=d)] *)
Definition max_default (d : datetime) (times : list datetime) : datetime :=
  match times with [] => d | t :: times' => fold_left pymax times' t end.

(** [tuple(d[key] for key in sorted(d))] *)
Definition sorted_values {K V} `{PyOrd K, EqDecision K} (d : dict K V) : list V :=
  omap (fun k => dget k d) (sorted_by id (dkeys d)).

(* @ packages/realtime/hot_state.py 136-152 HotStateStore.checkpoint *)
Definition checkpoint (created_at : datetime) (s : HotStateStore) : res HotStateCheckpoint :=
  let observed_times := (hs_received_at <$> dvalues (hot_states s)) ++
                        (cu_received_at <$> dvalues (hot_source_cursors s)) in
  HotStateCheckpoint_check
    (mk_HotStateCheckpoint HOT_STATE_CHECKPOINT_VERSION created_at
       (max_default created_at observed_times) (sorted_values (hot_states s))
       (sorted_by id (hot_processed_messages s)) (sorted_values (hot_source_cursors s))).

(** A dictionary filled in order, which refuses a repeated key. *)
Definition fill {K V} `{EqDecision K} (key : V -> K) (values : list V) : res (dict K V) :=
  foldM (fun d v => _ ← raise_if (dmem (key v) d) ValueError; Ok (dset (key v) v d)) [] values.

Definition state_key (h : HotStockState) : date * string := (hs_market_date h, hs_stock_id h).
Definition cursor_own_key (c : SourceCursor) : date * string * string :=
  (cu_market_date c, cu_stock_id c, cu_source c).

(* @ packages/realtime/hot_state.py 154-174 HotStateStore.restore *)
Definition restore (c : HotStateCheckpoint) : res HotStateStore :=
  _ ← raise_if (negb (bool_decide (hc_checkpoint_version c = HOT_STATE_CHECKPOINT_VERSION)))
        ValueError;
  states ← fill state_key (hc_states c);
  let processed := fold_left (fun d m => dset m.1 m.2 d) (hc_processed_messages c) [] in
  _ ← raise_if (negb (length processed =? length (hc_processed_messages c))%nat) ValueError;
  cursors ← fill cursor_own_key (hc_source_cursors c);
  Ok (mk_HotStateStore states processed cursors).

(** ** Updates as their constructor leaves them *)

Definition update_valid (u : StockRealtimeUpdate) : Prop :=
  exists price value base : option decimal,
    StockRealtimeUpdate_init (ru_message_id u) (ru_stock_id u) (ru_market_date u) (ru_source u)
      (ru_source_sequence u) (ru_occurred_at u) (ru_received_at u) price value base (ru_fresh u)
      (ru_trading_halted u) (ru_corporate_action_unresolved u) (ru_lineage u) = Ok u.

(** The hot state an update becomes. *)
Definition hot_of (u : StockRealtimeUpdate) (version : Z) : HotStockState :=
  mk_HotStockState (ru_stock_id u) (ru_market_date u) version (ru_source u)
    (ru_source_sequence u) (ru_occurred_at u) (ru_received_at u) (ru_current_price u)
    (ru_cumulative_trading_value u) (ru_fresh u) (ru_trading_halted u)
    (ru_corporate_action_unresolved u) (ru_message_id u) (ru_lineage u).

Lemma finite_nonneg_idem x y : finite_nonneg x = Ok y -> finite_nonneg (Finite <$> y) = Ok y.
Proof.
  destruct x as [x|]; simpl; [|by intros [= <-]]. intros H.
  apply res_bind_ok in H as (d&Hd&H). apply res_bind_ok in H as (?&H&[= <-]).
  apply raise_if_ok in H. simpl. by rewrite H.
Qed.

Lemma observation_idem i d t p v f h c o :
  StockMarketObservation_init i d t p v f h c = Ok o ->
  StockMarketObservation_init i d t (Finite <$> mo_current_price o)
    (Finite <$> mo_cumulative_trading_value o) f h c = Ok o.
Proof.
  unfold StockMarketObservation_init. intros H.
  apply res_bind_ok in H as ([]&->&H). apply res_bind_ok in H as ([]&->&H).
  apply res_bind_ok in H as (p'&Hp&H). apply res_bind_ok in H as (v'&Hv&[= <-]).
  simpl. by rewrite (finite_nonneg_idem _ _ Hp), (finite_nonneg_idem _ _ Hv).
Qed.

(** What the constructor has checked. *)
Lemma update_valid_facts u :
  update_valid u ->
  require_texts [ru_message_id u; ru_stock_id u; ru_source u] = Ok tt /\
  require_source (ru_source_sequence u) (ru_occurred_at u) (ru_received_at u) = Ok tt /\
  is_ok (update_to_observation u) = true.
Proof.
  intros (p&v&b&H). unfold StockRealtimeUpdate_init in H.
  apply res_bind_ok in H as ([]&H1&H). apply res_bind_ok in H as ([]&H2&H).
  apply res_bind_ok in H as (b'&_&H). apply res_bind_ok in H as (o&Ho&H).
  split_and!; [done|done|]. apply observation_idem in Ho. unfold update_to_observation.
  injection H as E. rewrite <-E at 4 5. cbn [ru_current_price ru_cumulative_trading_value].
  by rewrite Ho.
Qed.

Lemma require_texts_ok l : require_texts l = Ok tt <-> Forall (fun s => is_blank s = false) l.
Proof.
  unfold require_texts. induction l as [|s l IH]; simpl; [by split|].
  rewrite Forall_cons, <-IH. unfold require_text. destruct (is_blank s); cbn; [|naive_solver].
  split; [done|by intros [? _]].
Qed.

Lemma require_source_ok n o r :
  require_source n o r = Ok tt ->
  0 <= n /\ is_aware o = true /\ is_aware r = true /\ dt_lt r o = false.
Proof.
  unfold require_source. intros H. apply res_bind_ok in H as (?&H1&H). apply raise_if_ok in H1.
  apply res_bind_ok in H as (?&H2&H). apply require_aware_ok in H2.
  apply res_bind_ok in H as (?&H3&H). apply require_aware_ok in H3. apply raise_if_ok in H.
  split_and!; [lia|done|done|done].
Qed.

Lemma from_update_ok u v : update_valid u -> 1 <= v -> from_update u v = Ok (hot_of u v).
Proof.
  intros (H1&H2&H3)%update_valid_facts Hv. unfold from_update, HotStockState_check.
  fold (hot_of u v). apply require_texts_ok in H1.
  apply Forall_cons in H1 as [Ha H1]. apply Forall_cons in H1 as [Hb H1].
  apply Forall_cons in H1 as [Hc _].
  assert (require_texts [hs_stock_id (hot_of u v); hs_source (hot_of u v);
                         hs_last_message_id (hot_of u v)] = Ok tt) as ->.
  { apply require_texts_ok. by repeat constructor. }
  cbn [mbind res_bind]. replace (hs_version (hot_of u v) <? 1) with false by (simpl; lia).
  simpl. rewrite H2. cbn [mbind res_bind]. unfold to_observation; simpl.
  unfold update_to_observation in H3. by destruct (StockMarketObservation_init _ _ _ _ _ _ _ _).
Qed.

(** ** The invariant of the store *)

Record hot_ok (s : HotStateStore) : Prop := {
  hot_nodup_states : NoDup (dkeys (hot_states s));
  hot_nodup_processed : NoDup (dkeys (hot_processed_messages s));
  hot_nodup_cursors : NoDup (dkeys (hot_source_cursors s));
  hot_state_ok : forall k h, dget k (hot_states s) = Some h ->
    state_key h = k /\ 1 <= hs_version h /\ is_aware (hs_received_at h) = true /\
    is_ok (to_observation h) = true /\
    is_Some (dget (hs_last_message_id h) (hot_processed_messages s)) /\
    exists c, dget (hs_market_date h, hs_stock_id h, hs_source h) (hot_source_cursors s) = Some c /\
      hs_source_sequence h <= cu_source_sequence c /\
      dt_le (hs_received_at h) (cu_received_at c) = true;
  hot_cursor_ok : forall k c, dget k (hot_source_cursors s) = Some c ->
    cursor_own_key c = k /\ is_aware (cu_received_at c) = true
}.

Lemma hot_ok_empty : hot_ok empty_hot.
Proof. split; try apply NoDup_nil_2; done. Qed.

(** The cursor after an update. *)
Definition next_cursor (u : StockRealtimeUpdate) (s : HotStateStore) : SourceCursor :=
  mk_SourceCursor (ru_market_date u) (ru_stock_id u) (ru_source u) (ru_source_sequence u)
    match dget (cursor_key u) (hot_source_cursors s) with
    | None => ru_received_at u
    | Some previous => pymax (cu_received_at previous) (ru_received_at u)
    end.

Definition with_cursor (u : StockRealtimeUpdate) (s : HotStateStore) : HotStateStore :=
  set_cursor (cursor_key u) (next_cursor u s) s.
Definition with_processed (u : StockRealtimeUpdate) (s : HotStateStore) : HotStateStore :=
  set_processed (ru_message_id u) (update_fingerprint u) s.

Lemma next_cursor_aware u s :
  update_valid u -> hot_ok s -> is_aware (cu_received_at (next_cursor u s)) = true.
Proof.
  intros (_&H2&_)%update_valid_facts Hs. apply require_source_ok in H2 as (_&_&Hr&_).
  unfold next_cursor; simpl. destruct (dget _ _) as [c|] eqn:E; [|done].
  destruct (pymax_cases (cu_received_at c) (ru_received_at u)) as [->| ->]; [|done].
  by apply (hot_cursor_ok _ Hs _ _ E).
Qed.

Lemma record_cursor_ok u s :
  update_valid u -> hot_ok s -> record_cursor u s = (Ok tt, with_cursor u s).
Proof.
  intros Hu Hs. pose proof (next_cursor_aware u s Hu Hs) as Ha.
  unfold record_cursor. fold (next_cursor u s).
  assert (SourceCursor_check (next_cursor u s) = Ok (next_cursor u s)) as ->; [|done].
  apply update_valid_facts in Hu as (H1&H2&_). apply require_source_ok in H2 as (Hn&_).
  apply require_texts_ok in H1. apply Forall_cons in H1 as [_ H1].
  unfold SourceCursor_check.
  assert (require_texts [cu_stock_id (next_cursor u s); cu_source (next_cursor u s)] = Ok tt) as ->
    by by apply require_texts_ok.
  cbn [mbind res_bind]. replace (cu_source_sequence (next_cursor u s) <? 0) with false
    by (simpl; lia). unfold require_aware. by rewrite Ha.
Qed.

(** ** What [apply] decides *)

Definition decision (u : StockRealtimeUpdate) (s : HotStateStore) : HotApplyDisposition :=
  let cursor := dget (cursor_key u) (hot_source_cursors s) in
  if dmem (ru_message_id u) (hot_processed_messages s) then HOT_DUPLICATE
  else if match cursor with
          | Some c => ru_source_sequence u <=? cu_source_sequence c | None => false end
  then HOT_STALE_SOURCE_SEQUENCE
  else if match cursor with
          | Some c => dt_lt (ru_received_at u) (cu_received_at c) | None => false end
  then HOT_STALE_RECEIVED_AT
  else if match dget (update_key u) (hot_states s) with
          | Some h => pyle (incoming_order u) (current_order h) | None => false end
  then HOT_STALE_OBSERVATION
  else HOT_APPLIED.

Definition next_version (u : StockRealtimeUpdate) (s : HotStateStore) : Z :=
  match dget (update_key u) (hot_states s) with None => 1 | Some h => hs_version h + 1 end.

(** The store after a decision. *)
Definition decided (u : StockRealtimeUpdate) (s : HotStateStore) : HotStateStore :=
  match decision u s with
  | HOT_DUPLICATE => s
  | HOT_STALE_SOURCE_SEQUENCE => with_processed u s
  | HOT_STALE_RECEIVED_AT | HOT_STALE_OBSERVATION => with_processed u (with_cursor u s)
  | HOT_APPLIED =>
      set_state (update_key u) (hot_of u (next_version u s)) (with_processed u (with_cursor u s))
  end.

Definition conflicts (u : StockRealtimeUpdate) (s : HotStateStore) : Prop :=
  exists seen, dget (ru_message_id u) (hot_processed_messages s) = Some seen /\
               seen <> update_fingerprint u.

Lemma apply_conflict u s :
  conflicts u s -> apply u s = (Raise HotStateIdempotencyConflict, s).
Proof.
  intros (seen&Hs&Hne). unfold apply, get_st, mbind, M_bind. rewrite Hs.
  by rewrite decide_True.
Qed.

Lemma apply_decided u s :
  update_valid u -> hot_ok s -> ~ conflicts u s ->
  apply u s =
    (Ok (mk_HotApplyResult (decision u s) (dget (update_key u) (hot_states s))
           (dget (update_key u) (hot_states (decided u s)))), decided u s).
Proof.
  intros Hu Hs Hc. unfold apply, get_st, decided, decision, dmem, mbind, M_bind.
  destruct (dget (ru_message_id u) (hot_processed_messages s)) as [seen|] eqn:Eseen.
  { rewrite decide_False; [done|]. intros Hne. apply Hc. by exists seen. }
  destruct (match dget (cursor_key u) _ with Some c => _ <=? _ | None => _ end); [done|].
  destruct (match dget (cursor_key u) _ with Some c => dt_lt _ _ | None => _ end);
    rewrite record_cursor_ok by done; [done|].
  unfold mark_processed, mutate.
  destruct (match dget (update_key u) _ with Some h => pyle _ _ | None => _ end); [done|].
  fold (next_version u s). unfold lift. rewrite from_update_ok; [|done|].
  - cbn. by rewrite dget_dset_eq.
  - unfold next_version. destruct (dget (update_key u) (hot_states s)) as [h|] eqn:E; [|done].
    pose proof (hot_state_ok _ Hs _ _ E). lia.
Qed.

Lemma pyle_dt_refl (d : datetime) : dt_le d d = true.
Proof. apply pyle_refl. Qed.

(** The cursors after an accepted update: that of its source has moved up to it. *)
Lemma with_cursor_get u s k :
  dget k (hot_source_cursors (with_cursor u s)) =
  if decide (cursor_key u = k) then Some (next_cursor u s) else dget k (hot_source_cursors s).
Proof. unfold with_cursor, set_cursor; simpl. apply dget_dset. Qed.

Lemma next_cursor_ge u s c :
  dget (cursor_key u) (hot_source_cursors s) = Some c ->
  dt_le (cu_received_at c) (cu_received_at (next_cursor u s)) = true.
Proof. intros E. unfold next_cursor; simpl. rewrite E. apply pymax_le_l. Qed.

Lemma next_cursor_ge_u u s : dt_le (ru_received_at u) (cu_received_at (next_cursor u s)) = true.
Proof.
  unfold next_cursor; simpl. destruct (dget (cursor_key u) (hot_source_cursors s));
    [apply pymax_le_r|apply pyle_refl].
Qed.

(** A source moves on: every state of [s] is still covered by the cursors. *)
Lemma with_cursor_covers u s h :
  (forall c, dget (cursor_key u) (hot_source_cursors s) = Some c ->
             cu_source_sequence c < ru_source_sequence u) ->
  (exists c, dget (hs_market_date h, hs_stock_id h, hs_source h) (hot_source_cursors s) = Some c /\
     hs_source_sequence h <= cu_source_sequence c /\
     dt_le (hs_received_at h) (cu_received_at c) = true) ->
  exists c, dget (hs_market_date h, hs_stock_id h, hs_source h)
              (hot_source_cursors (with_cursor u s)) = Some c /\
     hs_source_sequence h <= cu_source_sequence c /\
     dt_le (hs_received_at h) (cu_received_at c) = true.
Proof.
  intros Hseq (c&Hc&Hle&Hr). rewrite with_cursor_get. case_decide as E; [|by exists c].
  rewrite <-E in Hc. exists (next_cursor u s). split_and!; [done| |].
  - simpl. specialize (Hseq _ Hc). lia.
  - eapply pyle_trans; [exact Hr|]. by apply next_cursor_ge.
Qed.

Lemma with_cursor_ok u s :
  update_valid u -> hot_ok s ->
  (forall c, dget (cursor_key u) (hot_source_cursors s) = Some c ->
             cu_source_sequence c < ru_source_sequence u) -> hot_ok (with_cursor u s).
Proof.
  intros Hu Hs Hseq. pose proof (next_cursor_aware u s Hu Hs) as Ha.
  destruct Hs as [H1 H2 H3 H4 H5]. split; try done.
  - by apply NoDup_dkeys_dset.
  - intros k h (E&Hv&Ha'&Ho&Hp&Hc)%H4. split_and!; [done..|]. by apply with_cursor_covers.
  - intros k c. rewrite with_cursor_get. case_decide as E; [|by apply H5].
    intros [= <-]. subst k. by split.
Qed.

Lemma with_processed_ok u s : hot_ok s -> hot_ok (with_processed u s).
Proof.
  intros [H1 H2 H3 H4 H5]. split; try done; [by apply NoDup_dkeys_dset|].
  intros k h (E&Hv&Ha'&Ho&Hp&Hc)%H4. split_and!; try done. simpl. rewrite dget_dset. by case_decide.
Qed.

Lemma decided_ok u s : update_valid u -> hot_ok s -> hot_ok (decided u s).
Proof.
  intros Hu Hs. unfold decided, decision, dmem.
  destruct (dget (ru_message_id u) _) as [seen|]; [done|].
  set (stale := match dget (cursor_key u) _ with Some c => _ <=? _ | None => _ end).
  destruct stale eqn:Estale; [by apply with_processed_ok|].
  assert (forall c, dget (cursor_key u) (hot_source_cursors s) = Some c ->
             cu_source_sequence c < ru_source_sequence u) as Hseq.
  { intros c Hc. unfold stale in Estale. rewrite Hc in Estale. lia. }
  pose proof (with_processed_ok u _ (with_cursor_ok u s Hu Hs Hseq)) as Hw.
  destruct (match dget (cursor_key u) _ with Some c => dt_lt _ _ | None => _ end); [done|].
  destruct (match dget (update_key u) _ with Some h => pyle _ _ | None => _ end); [done|].
  destruct Hw as [H1 H2 H3 H4 H5]. split; try done; [by apply NoDup_dkeys_dset|].
  intros k h. simpl. rewrite dget_dset. case_decide as E; [|apply H4].
  intros [= <-]. subst k. simpl. split_and!; [done| | | | |].
  - unfold next_version. destruct (dget (update_key u) (hot_states s)) as [h|] eqn:E; [|done].
    pose proof (hot_state_ok _ Hs _ _ E). lia.
  - apply update_valid_facts in Hu as (_&Hu&_). by apply require_source_ok in Hu as (_&_&?&_).
  - by apply update_valid_facts in Hu as (_&_&?).
  - by rewrite dget_dset_eq.
  - exists (next_cursor u s). change (ru_market_date u, ru_stock_id u, ru_source u) with (cursor_key u).
    rewrite dget_dset_eq. split_and!; [done|simpl; lia|apply next_cursor_ge_u].
Qed.

(** ** Histories *)

Definition after (u : StockRealtimeUpdate) (s : HotStateStore) : HotStateStore := (apply u s).2.
Definition run (us : list StockRealtimeUpdate) (s : HotStateStore) : HotStateStore :=
  fold_left (fun s u => after u s) us s.
Definition hot_reachable (s : HotStateStore) : Prop :=
  exists us, Forall update_valid us /\ s = run us empty_hot.

#[export] Instance conflicts_dec u s : Decision (conflicts u s).
Proof.
  unfold conflicts. destruct (dget (ru_message_id u) (hot_processed_messages s)) as [f|] eqn:E.
  - destruct (decide (f = update_fingerprint u)) as [->|Hne]; [right|left; by exists f].
    by intros (?&[= <-]&?).
  - right. by intros (?&?&_).
Defined.

Lemma after_cases u s :
  update_valid u -> hot_ok s -> after u s = if decide (conflicts u s) then s else decided u s.
Proof.
  intros Hu Hs. unfold after. case_decide; [by rewrite apply_conflict|by rewrite apply_decided].
Qed.

Lemma after_ok u s : update_valid u -> hot_ok s -> hot_ok (after u s).
Proof. intros Hu Hs. rewrite after_cases by done. case_decide; [done|by apply decided_ok]. Qed.

Lemma run_ok us s : Forall update_valid us -> hot_ok s -> hot_ok (run us s).
Proof.
  intros Hus. revert s. induction Hus as [|u us Hu _ IH]; intros s Hs; [done|].
  simpl. apply IH. by apply after_ok.
Qed.

Lemma hot_reachable_ok s : hot_reachable s -> hot_ok s.
Proof. intros (us&Hus&->). apply run_ok; [done|apply hot_ok_empty]. Qed.

(** ** What applying an update does *)

Lemma decision_applied_order u s h :
  decision u s = HOT_APPLIED -> dget (update_key u) (hot_states s) = Some h ->
  pylt (current_order h) (incoming_order u) = true.
Proof.
  unfold decision. intros H E. rewrite E in H.
  destruct (dmem _ _); [done|].
  destruct (match dget (cursor_key u) _ with Some c => _ <=? _ | None => _ end); [done|].
  destruct (match dget (cursor_key u) _ with Some c => dt_lt _ _ | None => _ end); [done|].
  destruct (pyle (incoming_order u) (current_order h)) eqn:Ele; [done|].
  by apply pyle_lt_false.
Qed.

Lemma decision_sequence u s c :
  decision u s <> HOT_DUPLICATE -> decision u s <> HOT_STALE_SOURCE_SEQUENCE ->
  dget (cursor_key u) (hot_source_cursors s) = Some c ->
  cu_source_sequence c < ru_source_sequence u.
Proof.
  unfold decision. intros H1 H2 E. rewrite E in H1, H2. destruct (dmem _ _); [done|].
  destruct (Z.leb_spec (ru_source_sequence u) (cu_source_sequence c)); [done|lia].
Qed.

Lemma decided_states u s k :
  dget k (hot_states (decided u s)) =
  if decide (decision u s = HOT_APPLIED /\ update_key u = k)
  then Some (hot_of u (next_version u s)) else dget k (hot_states s).
Proof.
  unfold decided. destruct (decision u s) eqn:E;
    try (rewrite decide_False by (by intros [? _]); done).
  simpl. rewrite dget_dset. destruct (decide (update_key u = k)).
  - by rewrite decide_True.
  - by rewrite decide_False by (by intros [_ ?]).
Qed.

Lemma decided_processed u s m :
  dget m (hot_processed_messages (decided u s)) =
  if decide (decision u s <> HOT_DUPLICATE /\ ru_message_id u = m)
  then Some (update_fingerprint u) else dget m (hot_processed_messages s).
Proof.
  unfold decided. destruct (decision u s) eqn:E;
    try (rewrite decide_False by (by intros [? _]); done);
    simpl; rewrite dget_dset; destruct (decide (ru_message_id u = m));
    (by rewrite decide_True by done) || (by rewrite decide_False by (by intros [_ ?])).
Qed.

Lemma decided_cursors u s k :
  dget k (hot_source_cursors (decided u s)) =
  if decide (decision u s <> HOT_DUPLICATE /\ decision u s <> HOT_STALE_SOURCE_SEQUENCE /\
             cursor_key u = k)
  then Some (next_cursor u s) else dget k (hot_source_cursors s).
Proof.
  unfold decided. destruct (decision u s) eqn:E;
    try (rewrite decide_False by (intros (?&?&?); congruence); done);
    (transitivity (dget k (hot_source_cursors (with_cursor u s))); [done|]);
    rewrite with_cursor_get; destruct (decide (cursor_key u = k));
    (by rewrite decide_True by done) || (by rewrite decide_False by (by intros (_&_&?))).
Qed.

(** Applying a valid update can fail in one way only, a message id already seen
    with another fingerprint, and then nothing changes; otherwise it reports the
    stock's state before and after, no other stock is touched, and the report says
    changed exactly when the state was replaced. *)
Theorem apply_reports u s :
  hot_reachable s -> update_valid u ->
  match apply u s with
  | (Raise e, s') => e = HotStateIdempotencyConflict /\ s' = s /\ conflicts u s
  | (Ok r, s') =>
      ~ conflicts u s /\
      ha_previous r = get (ru_market_date u) (ru_stock_id u) s /\
      ha_current r = get (ru_market_date u) (ru_stock_id u) s' /\
      (forall k, k <> update_key u -> dget k (hot_states s') = dget k (hot_states s)) /\
      (if ha_changed r
       then ha_current r = Some (hot_of u (default 0 (hs_version <$> ha_previous r) + 1))
       else ha_current r = ha_previous r)
  end.
Proof.
  intros Hs%hot_reachable_ok Hu. destruct (decide (conflicts u s)) as [Hc|Hc];
    [by rewrite apply_conflict|].
  rewrite apply_decided by done. unfold get. change (ru_market_date u, ru_stock_id u) with (update_key u).
  cbn [ha_previous ha_current]. split_and!; [done|done|done| |].
  - intros k Hk. rewrite decided_states, decide_False; [done|]. intros [_ ?]. congruence.
  - rewrite decided_states. unfold ha_changed; cbn [ha_disposition].
    destruct (decide (decision u s = HOT_APPLIED)) as [E|E].
    + rewrite bool_decide_eq_true_2, decide_True by done. unfold next_version.
      by destruct (dget (update_key u) (hot_states s)).
    + rewrite bool_decide_eq_false_2, decide_False by naive_solver. done.
Qed.

(** Hot states and cursors only move forward: a stock's state is kept or replaced
    by a strictly later observation with the next version, and the cursor of a source
    never loses ground in sequence or receipt time. *)
Theorem hot_state_moves_forward u s :
  hot_reachable s -> update_valid u ->
  let s' := (apply u s).2 in
  (forall k h, dget k (hot_states s) = Some h ->
     dget k (hot_states s') = Some h \/
     k = update_key u /\ dget k (hot_states s') = Some (hot_of u (hs_version h + 1)) /\
     pylt (current_order h) (incoming_order u) = true) /\
  (forall k c, dget k (hot_source_cursors s) = Some c ->
     exists c', dget k (hot_source_cursors s') = Some c' /\
       cu_source_sequence c <= cu_source_sequence c' /\
       dt_le (cu_received_at c) (cu_received_at c') = true).
Proof.
  intros Hs%hot_reachable_ok Hu. cbv zeta. fold (after u s). rewrite after_cases by done.
  case_decide as Hc.
  { split; [by left|]. intros k c E. exists c. split_and!; [done|lia|apply pyle_refl]. }
  split.
  - intros k h E. rewrite decided_states. case_decide as Ed; [right|by left].
    destruct Ed as [Ed <-]. unfold next_version. rewrite E.
    split_and!; [done|done|by apply (decision_applied_order u s)].
  - intros k c E. rewrite decided_cursors. case_decide as Ed.
    + destruct Ed as (E1&E2&<-). exists (next_cursor u s).
      pose proof (decision_sequence u s c E1 E2 E). split_and!; [done|simpl; lia|].
      by apply next_cursor_ge.
    + exists c. split_and!; [done|lia|apply pyle_refl].
Qed.

Lemma after_keeps_processed u s m f :
  update_valid u -> hot_ok s -> dget m (hot_processed_messages s) = Some f ->
  dget m (hot_processed_messages (after u s)) = Some f.
Proof.
  intros Hu Hs Hm. rewrite after_cases by done. case_decide; [done|].
  rewrite decided_processed. case_decide as E; [|done]. destruct E as [E <-].
  unfold decision, dmem in E. by rewrite Hm in E.
Qed.

Lemma run_keeps_processed us s m f :
  Forall update_valid us -> hot_ok s -> dget m (hot_processed_messages s) = Some f ->
  dget m (hot_processed_messages (run us s)) = Some f.
Proof.
  intros Hus. revert s. induction Hus as [|u us Hu _ IH]; intros s Hs Hm; [done|].
  simpl. apply IH; [by apply after_ok|by apply after_keeps_processed].
Qed.

(** An accepted update is processed once: whatever is applied in between, applying
    it again changes nothing and answers as a duplicate with the current state. *)
Theorem hot_state_replay u s r s1 us :
  hot_reachable s -> update_valid u -> Forall update_valid us ->
  apply u s = (Ok r, s1) ->
  let s2 := run us s1 in
  let current := get (ru_market_date u) (ru_stock_id u) s2 in
  apply u s2 = (Ok (mk_HotApplyResult HOT_DUPLICATE current current), s2).
Proof.
  intros Hs%hot_reachable_ok Hu Hus Happ. cbv zeta.
  destruct (decide (conflicts u s)) as [Hc|Hc]; [by rewrite apply_conflict in Happ|].
  assert (s1 = decided u s) as -> by (rewrite apply_decided in Happ by done; congruence).
  assert (dget (ru_message_id u) (hot_processed_messages (decided u s)) =
          Some (update_fingerprint u)) as Hp.
  { rewrite decided_processed. case_decide as E; [done|].
    destruct (decide (decision u s = HOT_DUPLICATE)) as [Ed|Ed]; [|by destruct E].
    unfold decision in Ed. destruct (dmem _ _) eqn:Em; [|by repeat case_match].
    unfold dmem in Em. destruct (dget (ru_message_id u) (hot_processed_messages s)) as [f|] eqn:Ef;
      [|done]. f_equal. destruct (decide (f = update_fingerprint u)); [done|].
    exfalso. apply Hc. by exists f. }
  apply (run_keeps_processed us) in Hp; [|done|by apply decided_ok].
  unfold apply, get_st, mbind, M_bind. rewrite Hp, decide_False by (by intros ?). done.
Qed.

(** ** Arrival order *)

(** Within one source, a later sequence number means a later observation. *)
Definition sources_in_order (us : list StockRealtimeUpdate) : Prop :=
  forall u v, u ∈ us -> v ∈ us -> cursor_key u = cursor_key v ->
    ru_source_sequence u <= ru_source_sequence v ->
    pyle (incoming_order u) (incoming_order v) = true /\
    dt_le (ru_received_at u) (ru_received_at v) = true.

(** The state of [k] is the latest of the updates for it. *)
Definition latest_of (us : list StockRealtimeUpdate) (k : date * string)
    (h : option HotStockState) : Prop :=
  match h with
  | None => forall u, u ∈ us -> update_key u <> k
  | Some h => exists u, u ∈ us /\ update_key u = k /\ h = hot_of u (hs_version h) /\
      forall v, v ∈ us -> update_key v = k -> pyle (incoming_order v) (incoming_order u) = true
  end.

Definition cursor_covers (us : list StockRealtimeUpdate) (k : date * string * string)
    (c : option SourceCursor) : Prop :=
  match c with
  | None => forall u, u ∈ us -> cursor_key u <> k
  | Some c =>
      (exists u, u ∈ us /\ cursor_key u = k /\ ru_source_sequence u = cu_source_sequence c) /\
      (exists u, u ∈ us /\ cursor_key u = k /\ ru_received_at u = cu_received_at c) /\
      (forall u, u ∈ us -> cursor_key u = k -> ru_source_sequence u <= cu_source_sequence c)
  end.

Lemma latest_of_snoc_other us u k h :
  latest_of us k h -> update_key u <> k -> latest_of (us ++ [u]) k h.
Proof.
  intros Hl Hne. destruct h as [h|]; simpl in *.
  - destruct Hl as (v&Hv&Ek&Eh&Hmax). exists v. split_and!; [apply elem_of_app; by left|done|done|].
    intros w [Hw| ->%list_elem_of_singleton]%elem_of_app Ew; [by apply Hmax|done].
  - intros w [Hw| ->%list_elem_of_singleton]%elem_of_app; [by apply Hl|done].
Qed.

Lemma latest_of_snoc_le us u k h v :
  latest_of us k (Some h) -> v ∈ us -> update_key v = k ->
  pyle (incoming_order u) (incoming_order v) = true -> latest_of (us ++ [u]) k (Some h).
Proof.
  intros (w&Hw&Ek&Eh&Hmax) Hv Evk Hle. exists w.
  split_and!; [apply elem_of_app; by left|done|done|].
  intros x [Hx| ->%list_elem_of_singleton]%elem_of_app Ex; [by apply Hmax|].
  eapply pyle_trans; [exact Hle|by apply Hmax].
Qed.

Lemma cursor_covers_snoc_other us u k c :
  cursor_covers us k c -> cursor_key u <> k -> cursor_covers (us ++ [u]) k c.
Proof.
  intros Hc Hne. destruct c as [c|]; simpl in *.
  - destruct Hc as ((a&Ha&?&?)&(b&Hb&?&?)&Hmax).
    split_and!; [exists a; rewrite elem_of_app; by auto|exists b; rewrite elem_of_app; by auto|].
    intros w [Hw| ->%list_elem_of_singleton]%elem_of_app Ew; [by apply Hmax|done].
  - intros w [Hw| ->%list_elem_of_singleton]%elem_of_app; [by apply Hc|done].
Qed.

(** The cursor after an update that its source had not yet passed. *)
Lemma cursor_covers_next us u s :
  cursor_covers us (cursor_key u) (dget (cursor_key u) (hot_source_cursors s)) ->
  (forall c, dget (cursor_key u) (hot_source_cursors s) = Some c ->
             cu_source_sequence c < ru_source_sequence u) ->
  cursor_covers (us ++ [u]) (cursor_key u) (Some (next_cursor u s)).
Proof.
  intros Hc Hseq. simpl. split_and!.
  - exists u. rewrite elem_of_app, list_elem_of_singleton. by auto.
  - unfold next_cursor; simpl. destruct (dget (cursor_key u) (hot_source_cursors s)) as [c|].
    + destruct Hc as (_&(b&Hb&Ek&Er)&_).
      destruct (pymax_cases (cu_received_at c) (ru_received_at u)) as [->| ->].
      * exists b. rewrite elem_of_app. by auto.
      * exists u. rewrite elem_of_app, list_elem_of_singleton. by auto.
    + exists u. rewrite elem_of_app, list_elem_of_singleton. by auto.
  - intros w [Hw| ->%list_elem_of_singleton]%elem_of_app Ew; [|lia].
    destruct (dget (cursor_key u) (hot_source_cursors s)) as [c|].
    + destruct Hc as (_&_&Hmax). specialize (Hmax _ Hw Ew). specialize (Hseq _ eq_refl). lia.
    + by destruct (Hc _ Hw).
Qed.

(** What the store knows after [us]. *)
Record caught_up (us : list StockRealtimeUpdate) (s : HotStateStore) : Prop := {
  caught_ok : hot_ok s;
  caught_latest : forall k, latest_of us k (dget k (hot_states s));
  caught_cursors : forall k, cursor_covers us k (dget k (hot_source_cursors s));
  caught_processed : forall m, m ∉ ru_message_id <$> us ->
    dget m (hot_processed_messages s) = None
}.

Lemma same_cursor_same_stock u v : cursor_key u = cursor_key v -> update_key u = update_key v.
Proof. unfold cursor_key, update_key. intros [= -> -> _]. done. Qed.

(** The update that has just been decided takes its place. *)
Lemma latest_of_decided us u s :
  caught_up us s -> sources_in_order (us ++ [u]) -> decision u s <> HOT_DUPLICATE ->
  latest_of (us ++ [u]) (update_key u) (dget (update_key u) (hot_states (decided u s))).
Proof.
  intros Hs Hord Hnd. rewrite decided_states.
  pose proof (caught_latest _ _ Hs (update_key u)) as Hl.
  pose proof (caught_cursors _ _ Hs (cursor_key u)) as Hc.
  assert (forall v, v ∈ us -> v ∈ us ++ [u]) as Hin by (intros; apply elem_of_app; by left).
  assert (u ∈ us ++ [u]) as Hu by (apply elem_of_app; right; by apply list_elem_of_singleton).
  case_decide as Ed.
  - destruct Ed as [Ed _]. exists u. split_and!; [done|done|done|].
    intros v [Hv| ->%list_elem_of_singleton]%elem_of_app Ev; [|apply pyle_refl].
    destruct (dget (update_key u) (hot_states s)) as [h|] eqn:Eh; [|by destruct (Hl v)].
    pose proof (decision_applied_order _ _ _ Ed Eh) as Hlt.
    destruct Hl as (w&Hw&Ewk&Ewh&Hmax). apply pylt_le. eapply pyle_lt_trans; [by apply Hmax|].
    by rewrite Ewh in Hlt.
  - unfold decision in Ed, Hnd. destruct (dmem _ _); [done|].
    destruct (dget (cursor_key u) (hot_source_cursors s)) as [c|].
    + destruct Hc as ((a&Ha&Eak&Eas)&(b&Hb&Ebk&Ebr)&Hmax).
      destruct (Z.leb_spec (ru_source_sequence u) (cu_source_sequence c)) as [Hle|Hgt].
      * destruct (dget (update_key u) (hot_states s)) as [h|] eqn:Eh;
          [|by destruct (Hl a Ha (same_cursor_same_stock _ _ Eak))].
        eapply (latest_of_snoc_le _ _ _ _ a); [exact Hl|done|by apply same_cursor_same_stock|].
        apply Hord; [done|by apply Hin|done|lia].
      * destruct (dt_lt (ru_received_at u) (cu_received_at c)) eqn:Er.
        { exfalso. assert (dt_le (ru_received_at b) (ru_received_at u) = true) as Hbu.
          { apply Hord; [by apply Hin|done|done|]. specialize (Hmax _ Hb Ebk). lia. }
          rewrite Ebr, dt_le_Z in Hbu. rewrite dt_lt_Z in Er. lia. }
        destruct (dget (update_key u) (hot_states s)) as [h|] eqn:Eh;
          [|exfalso; by apply Ed].
        destruct (pyle (incoming_order u) (current_order h)) eqn:Ele; [|exfalso; by apply Ed].
        destruct Hl as (w&Hw&Ewk&Ewh&Hm). rewrite Ewh in Ele.
        eapply (latest_of_snoc_le _ _ _ _ w); [by exists w|done|done|exact Ele].
    + destruct (dget (update_key u) (hot_states s)) as [h|] eqn:Eh; [|exfalso; by apply Ed].
      destruct (pyle (incoming_order u) (current_order h)) eqn:Ele; [|exfalso; by apply Ed].
      destruct Hl as (w&Hw&Ewk&Ewh&Hm). rewrite Ewh in Ele.
      eapply (latest_of_snoc_le _ _ _ _ w); [by exists w|done|done|exact Ele].
Qed.

Lemma cursor_covers_decided us u s :
  caught_up us s -> decision u s <> HOT_DUPLICATE ->
  cursor_covers (us ++ [u]) (cursor_key u)
    (dget (cursor_key u) (hot_source_cursors (decided u s))).
Proof.
  intros Hs Hnd. pose proof (caught_cursors _ _ Hs (cursor_key u)) as Hc.
  rewrite decided_cursors. case_decide as Ed.
  - apply cursor_covers_next; [done|]. intros c. by apply decision_sequence; apply Ed.
  - assert (decision u s = HOT_STALE_SOURCE_SEQUENCE) as E.
    { destruct (decide (decision u s = HOT_STALE_SOURCE_SEQUENCE)); [done|]. exfalso. by apply Ed. }
    unfold decision in E. destruct (dmem _ _); [done|].
    destruct (dget (cursor_key u) (hot_source_cursors s)) as [c|];
      [|by destruct (dget (update_key u) (hot_states s)); [destruct (pyle _ _)|]].
    destruct (Z.leb_spec (ru_source_sequence u) (cu_source_sequence c));
      [|by repeat case_match].
    destruct Hc as ((a&Ha&?&?)&(b&Hb&?&?)&Hmax).
    split_and!; [exists a; rewrite elem_of_app; by auto|exists b; rewrite elem_of_app; by auto|].
    intros w [Hw| ->%list_elem_of_singleton]%elem_of_app Ew; [by apply Hmax|lia].
Qed.

Lemma caught_up_snoc us u s :
  caught_up us s -> update_valid u -> sources_in_order (us ++ [u]) ->
  ru_message_id u ∉ ru_message_id <$> us -> caught_up (us ++ [u]) (after u s).
Proof.
  intros Hs Hu Hord Hid. pose proof (caught_processed _ _ Hs _ Hid) as Hp.
  assert (~ conflicts u s) as Hc by (intros (f&Hf&_); congruence).
  assert (decision u s <> HOT_DUPLICATE) as Hnd.
  { unfold decision, dmem. rewrite Hp. by repeat case_match. }
  rewrite after_cases, decide_False by (done || apply Hs). split.
  - apply decided_ok; [done|apply Hs].
  - intros k. destruct (decide (update_key u = k)) as [<-|Hne]; [by apply latest_of_decided|].
    rewrite decided_states, decide_False by (by intros [_ ?]).
    apply latest_of_snoc_other; [apply Hs|done].
  - intros k. destruct (decide (cursor_key u = k)) as [<-|Hne]; [by apply cursor_covers_decided|].
    rewrite decided_cursors, decide_False by (by intros (_&_&?)).
    apply cursor_covers_snoc_other; [apply Hs|done].
  - intros m Hm. rewrite fmap_app, not_elem_of_app in Hm. destruct Hm as [Hm1 Hm2].
    rewrite decided_processed, decide_False; [by apply Hs|]. intros [_ <-].
    apply Hm2. by apply list_elem_of_singleton.
Qed.

Lemma caught_up_run us :
  Forall update_valid us -> NoDup (ru_message_id <$> us) -> sources_in_order us ->
  caught_up us (run us empty_hot).
Proof.
  induction us as [|u us IH] using rev_ind; intros Hv Hnd Hord.
  { split; [apply hot_ok_empty|..]; simpl; try done; intros k u ?%not_elem_of_nil; done. }
  unfold run. rewrite fold_left_app. simpl. fold (run us empty_hot).
  apply Forall_app in Hv as [Hv Hu]. apply Forall_cons in Hu as [Hu _].
  rewrite fmap_app in Hnd. apply NoDup_app in Hnd as (Hnd&Hid&_).
  apply caught_up_snoc; [|done|done|].
  - apply IH; [done|done|]. intros a b Ha Hb. apply Hord; apply elem_of_app; by left.
  - intros Hin. apply (Hid _ Hin). by apply list_elem_of_singleton.
Qed.

(** C7: Arrival order does not matter: when every source numbers its observations in
    their order, the state kept for a stock is, for any interleaving and any
    reordering of distinct updates, the greatest of them in the observation order. *)
Theorem latest_observation_wins us k :
  Forall update_valid us -> NoDup (ru_message_id <$> us) -> sources_in_order us ->
  match dget k (hot_states (run us empty_hot)) with
  | None => forall u, u ∈ us -> update_key u <> k
  | Some h => exists u, u ∈ us /\ update_key u = k /\ h = hot_of u (hs_version h) /\
      forall v, v ∈ us -> update_key v = k -> pyle (incoming_order v) (incoming_order u) = true
  end.
Proof. intros Hv Hnd Hord. by apply (caught_latest _ _ (caught_up_run us Hv Hnd Hord)). Qed.

(** ** A concrete morning *)

Definition demo_at (second : Z) : datetime :=
  mk_datetime ((ymd2ord 2026 8 14 - 1) * us_per_day + hours 9 + seconds second) (Some (hours 9)).
Definition demo_update (id : string) (sequence second : Z) (price : N) : StockRealtimeUpdate :=
  mk_StockRealtimeUpdate id "005930" (ymd2ord 2026 8 14) "ws" sequence (demo_at second)
    (demo_at second) (Some (mk_dec false price 0)) (Some (mk_dec false 1000 0)) None true false
    false [].

Lemma demo_update_valid id sequence second price :
  is_blank id = false -> 0 <= sequence -> update_valid (demo_update id sequence second price).
Proof.
  intros Hid Hs. exists (Some (Finite (mk_dec false price 0))), (Some (Finite (mk_dec false 1000 0))), None.
  unfold StockRealtimeUpdate_init.
  assert (require_texts [ru_message_id (demo_update id sequence second price);
                         ru_stock_id (demo_update id sequence second price);
                         ru_source (demo_update id sequence second price)] = Ok tt) as ->.
  { apply require_texts_ok. repeat constructor; done. }
  unfold require_source. cbn [mbind res_bind ru_source_sequence demo_update].
  replace (sequence <? 0) with false by (symmetry; lia). cbn.
  rewrite dt_lt_Z, Z.ltb_irrefl. cbn.
  assert (dlt (mk_dec false price 0) dzero = false) as ->; [|done].
  unfold dlt, pylt, pycmp, dec_pyord. cbn. by destruct price.
Qed.

Definition demo_a := demo_update "m1" 1 10 70000.
Definition demo_b := demo_update "m2" 2 20 70100.
Definition demo_c := demo_update "m3" 3 30 70200.
Definition demo_hot : HotStateStore := run [demo_a; demo_c] empty_hot.

Lemma demo_all_valid : Forall update_valid [demo_a; demo_b; demo_c].
Proof. repeat constructor; apply demo_update_valid; done. Qed.

Lemma demo_hot_reachable : hot_reachable demo_hot.
Proof. exists [demo_a; demo_c]. split; [|done]. repeat constructor; apply demo_update_valid; done. Qed.

(** [demo_b] arrives after [demo_c] of the same source. *)
Lemma apply_reports_witness :
  exists r s', apply demo_b demo_hot = (Ok r, s') /\
    ha_current r = get (ymd2ord 2026 8 14) "005930" s' /\ ha_changed r = false.
Proof.
  pose proof (apply_reports demo_b demo_hot demo_hot_reachable
                ltac:(apply demo_update_valid; done)) as H.
  destruct (apply demo_b demo_hot) as [[r|e] s'] eqn:E.
  - destruct H as (_&_&H&_). exists r, s'. split_and!; [reflexivity|exact H|].
    vm_compute in E. injection E as <- _. reflexivity.
  - vm_compute in E. discriminate E.
Defined.

Lemma hot_state_moves_forward_witness :
  dget (update_key demo_c) (hot_states (apply demo_c (run [demo_a] empty_hot)).2) =
    Some (hot_of demo_c 2).
Proof.
  destruct (hot_state_moves_forward demo_c (run [demo_a] empty_hot)) as [H _].
  - exists [demo_a]. split; [|done]. repeat constructor; apply demo_update_valid; done.
  - apply demo_update_valid; done.
  - destruct (H (update_key demo_c) (hot_of demo_a 1)) as [E|(_&E&_)];
      [vm_compute; reflexivity| |exact E].
    vm_compute in E. discriminate E.
Defined.

Lemma hot_state_replay_witness :
  exists r, apply demo_a (run [demo_b; demo_c] (apply demo_a empty_hot).2) =
    (Ok r, run [demo_b; demo_c] (apply demo_a empty_hot).2) /\ ha_disposition r = HOT_DUPLICATE.
Proof.
  eexists. split.
  - eapply (hot_state_replay demo_a empty_hot).
    + exists []. split; [constructor|done].
    + apply demo_update_valid; done.
    + repeat constructor; apply demo_update_valid; done.
    + vm_compute. reflexivity.
  - reflexivity.
Defined.

Lemma latest_observation_wins_witness :
  exists h, dget (update_key demo_c) (hot_states (run [demo_c; demo_a; demo_b] empty_hot)) = Some h /\
    h = hot_of demo_c (hs_version h).
Proof.
  pose proof (latest_observation_wins [demo_c; demo_a; demo_b] (update_key demo_c)
    ltac:(repeat constructor; apply demo_update_valid; done)
    ltac:(apply (bool_decide_unpack _); vm_compute; exact I)) as H.
  assert (sources_in_order [demo_c; demo_a; demo_b]) as Hord.
  { intros u v Hu Hv _. rewrite !elem_of_cons in Hu, Hv.
    destruct Hu as [->|[->|[->|Hu]]]; [| | |by apply not_elem_of_nil in Hu];
      (destruct Hv as [->|[->|[->|Hv]]]; [| | |by apply not_elem_of_nil in Hv]);
      (split; [vm_compute; reflexivity|vm_compute; reflexivity]) ||
      (intros Hle; vm_compute in Hle; by destruct Hle). }
  specialize (H Hord).
  destruct (dget (update_key demo_c) (hot_states (run [demo_c; demo_a; demo_b] empty_hot)))
    as [h|] eqn:E; vm_compute in E; [|discriminate E].
  injection E as E. exists h. split; [done|]. rewrite <-E. vm_compute. reflexivity.
Defined.
