(* ===== verification/HotCheckpoint.v ===== *)
(** Checkpoints of the hot state ([HotStateStore.checkpoint] and [restore]): a
    restored store cannot be told apart from the one that was saved. *)
From S2P Require Import Prelude Sha256 PyTime PyDecimal Json Domain EventModels RealtimeModels HotState.
#[local] Open Scope Z_scope.

(** ** Filling dictionaries *)

Section fill.
Context {K V : Type} `{PyOrdLaws K, !PyOrdAntisym K, !EqDecision K} (key : V -> K).

Lemma fill_from pre values :
  NoDup (key <$> pre ++ values) ->
  foldM (fun d v => _ ← raise_if (dmem (key v) d) ValueError; Ok (dset (key v) v d))
    (dict_of key Some pre) values = Ok (dict_of key Some (pre ++ values)).
Proof.
  revert pre; induction values as [|v values IH]; intros pre Hnd; [by rewrite app_nil_r|].
  destruct (dict_of_snoc key Some pre v values Hnd) as [Hnone _].
  cbn [foldM]. unfold dmem. rewrite Hnone. cbn [raise_if mbind res_bind].
  rewrite dset_absent by done.
  assert (dict_of key Some pre ++ [(key v, v)] = dict_of key Some (pre ++ [v])) as ->
    by by rewrite dict_of_app.
  replace (pre ++ v :: values) with ((pre ++ [v]) ++ values) in * by by rewrite <-app_assoc.
  by apply IH.
Qed.

Lemma fill_ok values :
  NoDup (key <$> values) -> fill key values = Ok (dict_of key Some values).
Proof. intros Hnd. apply (fill_from [] values Hnd). Qed.

Lemma sorted_values_keys (d : dict K V) :
  keyed key d -> key <$> sorted_values d = sorted_by id (dkeys d).
Proof.
  intros [_ Hkey]. unfold sorted_values.
  assert (forall l : list K, (forall k, k ∈ l -> is_Some (dget k d)) ->
            (key <$> omap (fun k => dget k d) l) = l) as H'.
  { induction l as [|k l IH]; intros Hl; [done|]. simpl.
    destruct (Hl k (list_elem_of_here _ _)) as [v Hv]. rewrite Hv. rewrite fmap_cons.
    rewrite (Hkey _ _ Hv). f_equal. apply IH. intros k' Hk'. apply Hl. by right. }
  apply H'. intros k Hk. apply elem_of_sorted_by in Hk. by apply elem_of_dkeys.
Qed.

Lemma elem_sorted_values (d : dict K V) v : keyed key d -> v ∈ sorted_values d <-> dget (key v) d = Some v.
Proof.
  intros [_ Hkey]. unfold sorted_values. rewrite list_elem_of_omap. split.
  - intros (k&_&Hk). by rewrite (Hkey _ _ Hk).
  - intros Hv. exists (key v). split; [|done]. apply elem_of_sorted_by, elem_of_dkeys. by eexists.
Qed.

(** Saving the values in key order and filling a new dictionary with them. *)
Lemma fill_sorted_values (d : dict K V) :
  keyed key d -> exists d', fill key (sorted_values d) = Ok d' /\ d' ≡ᵈ d /\ keyed key d'.
Proof.
  intros Hd. assert (NoDup (key <$> sorted_values d)) as Hnd.
  { rewrite sorted_values_keys by done. rewrite sorted_by_perm. apply Hd. }
  exists (dict_of key Some (sorted_values d)). split; [by apply fill_ok|].
  assert (dict_of key Some (sorted_values d) ≡ᵈ d) as E.
  { intros k. destruct (dget k d) as [v|] eqn:Ev.
    - pose proof (proj2 Hd _ _ Ev) as <-. apply dget_dict_of; [done|].
      by apply elem_sorted_values.
    - apply dget_dict_of_None. rewrite sorted_values_keys by done.
      rewrite elem_of_sorted_by. by apply dget_None. }
  split; [done|]. split; [by apply NoDup_dict_of|].
  intros k v Hv. rewrite E in Hv. by apply Hd.
Qed.
End fill.

Lemma fold_dset_items (l : dict string string) pre :
  NoDup (dkeys (pre ++ l)) -> fold_left (fun d m => dset m.1 m.2 d) l pre = pre ++ l.
Proof.
  revert pre; induction l as [|[k v] l IH]; intros pre Hnd; [by rewrite app_nil_r|]. simpl.
  rewrite dset_absent.
  - rewrite IH; [by rewrite <-app_assoc|by rewrite <-app_assoc].
  - apply dget_None. unfold dkeys in *. rewrite fmap_app in Hnd.
    apply NoDup_app in Hnd as (_&Hd&_). intros Hin. apply (Hd _ Hin). left.
Qed.

(** ** Stores that hold the same *)

Record hot_equiv (s s' : HotStateStore) : Prop := {
  equiv_states : hot_states s ≡ᵈ hot_states s';
  equiv_processed : hot_processed_messages s ≡ᵈ hot_processed_messages s';
  equiv_cursors : hot_source_cursors s ≡ᵈ hot_source_cursors s'
}.

#[export] Instance hot_equiv_sym : Symmetric hot_equiv.
Proof. intros s s' [H1 H2 H3]. split; by symmetry. Qed.

Lemma decision_equiv u s s' : hot_equiv s s' -> decision u s = decision u s'.
Proof.
  intros [H1 H2 H3]. unfold decision, dmem. by rewrite (H1 (update_key u)), (H2 (ru_message_id u)),
    (H3 (cursor_key u)).
Qed.

Lemma conflicts_equiv u s s' : hot_equiv s s' -> conflicts u s -> conflicts u s'.
Proof. intros [_ H _] (f&Hf&Hne). exists f. by rewrite <-(H (ru_message_id u)). Qed.

Lemma decided_equiv u s s' : hot_equiv s s' -> hot_equiv (decided u s) (decided u s').
Proof.
  intros E. pose proof (decision_equiv u _ _ E) as Ed. destruct E as [H1 H2 H3].
  assert (next_version u s = next_version u s') as Ev
    by (unfold next_version; by rewrite (H1 (update_key u))).
  assert (next_cursor u s = next_cursor u s') as Ec
    by (unfold next_cursor; by rewrite (H3 (cursor_key u))).
  split; intros k.
  - by rewrite !decided_states, Ed, Ev, (H1 k).
  - by rewrite !decided_processed, Ed, (H2 k).
  - by rewrite !decided_cursors, Ed, Ec, (H3 k).
Qed.

(** Equivalent stores answer alike, and stay equivalent. *)
Lemma apply_equiv u s s' :
  update_valid u -> hot_ok s -> hot_ok s' -> hot_equiv s s' ->
  (apply u s).1 = (apply u s').1 /\ hot_equiv (after u s) (after u s').
Proof.
  intros Hu Hs Hs' E. rewrite !after_cases by done.
  destruct (decide (conflicts u s)) as [Hc|Hc].
  - pose proof (conflicts_equiv _ _ _ E Hc) as Hc'. rewrite decide_True by done.
    by rewrite !apply_conflict.
  - assert (~ conflicts u s') as Hc' by (intros H; by apply Hc, (conflicts_equiv u s' s)).
    rewrite decide_False by done. split; [|by apply decided_equiv].
    rewrite !apply_decided by done. cbn [fst].
    by rewrite (decision_equiv u _ _ E), (equiv_states _ _ E (update_key u)),
      (equiv_states _ _ (decided_equiv u _ _ E) (update_key u)).
Qed.

Lemma run_equiv us s s' :
  Forall update_valid us -> hot_ok s -> hot_ok s' -> hot_equiv s s' ->
  hot_equiv (run us s) (run us s').
Proof.
  intros Hus. revert s s'. induction Hus as [|u us Hu _ IH]; intros s s' Hs Hs' E; [done|].
  simpl. apply IH; [by apply after_ok|by apply after_ok|by apply apply_equiv].
Qed.

Lemma hot_ok_equiv s s' :
  hot_ok s -> hot_equiv s s' -> NoDup (dkeys (hot_states s')) ->
  NoDup (dkeys (hot_processed_messages s')) -> NoDup (dkeys (hot_source_cursors s')) -> hot_ok s'.
Proof.
  intros [H1 H2 H3 H4 H5] [E1 E2 E3] N1 N2 N3. split; try done.
  - intros k h Hh. rewrite <-(E1 k) in Hh. destruct (H4 _ _ Hh) as (?&?&?&?&?&c&Hc&?).
    split_and!; try done; [by rewrite <-(E2 _)|]. exists c. by rewrite <-(E3 _).
  - intros k c Hc. rewrite <-(E3 k) in Hc. by apply H5.
Qed.

(** ** Saving and restoring *)

Lemma max_default_elem d l :
  max_default d l = d \/ max_default d l ∈ l.
Proof.
  destruct l as [|t l]; [by left|]. right. simpl. revert t.
  induction l as [|x l IH]; intros t; [left|]. simpl.
  specialize (IH (pymax t x)). apply elem_of_cons in IH as [->|Hin]; [|by do 2 right].
  destruct (pymax_cases t x) as [->| ->]; [left|right; left].
Qed.

Lemma checkpoint_ok created s :
  hot_ok s -> is_aware created = true ->
  (forall k h, dget k (hot_states s) = Some h -> dt_le (hs_received_at h) created = true) ->
  (forall k c, dget k (hot_source_cursors s) = Some c -> dt_le (cu_received_at c) created = true) ->
  exists as_of, checkpoint created s =
    Ok (mk_HotStateCheckpoint HOT_STATE_CHECKPOINT_VERSION created as_of
          (sorted_values (hot_states s)) (sorted_by id (hot_processed_messages s))
          (sorted_values (hot_source_cursors s))).
Proof.
  intros Hs Ha H1 H2. unfold checkpoint.
  set (times := _ ++ _). exists (max_default created times). unfold HotStateCheckpoint_check.
  assert (forall t, t ∈ times -> is_aware t = true /\ dt_le t created = true) as Ht.
  { intros t [Ht|Ht]%elem_of_app; apply list_elem_of_fmap in Ht as (x&->&Hx);
      unfold dvalues in Hx; apply list_elem_of_fmap in Hx as ([k y]&->&Hx).
    - apply elem_dget in Hx; [|apply Hs]. split; [|by eapply H1].
      by apply (hot_state_ok _ Hs _ _ Hx).
    - apply elem_dget in Hx; [|apply Hs]. split; [|by eapply H2].
      by apply (hot_cursor_ok _ Hs _ _ Hx). }
  assert (is_aware (max_default created times) = true /\
          dt_le (max_default created times) created = true) as [Hm1 Hm2].
  { destruct (max_default_elem created times) as [->|Hin]; [split; [done|apply pyle_refl]|].
    by apply Ht. }
  cbn [hc_checkpoint_version hc_created_at hc_as_of]. unfold require_aware. rewrite Ha, Hm1.
  rewrite dt_le_Z in Hm2. rewrite dt_lt_Z.
  replace (instant created <? instant (max_default created times)) with false by (symmetry; lia).
  done.
Qed.

Lemma restore_ok s created as_of :
  hot_ok s ->
  exists s', restore (mk_HotStateCheckpoint HOT_STATE_CHECKPOINT_VERSION created as_of
                        (sorted_values (hot_states s)) (sorted_by id (hot_processed_messages s))
                        (sorted_values (hot_source_cursors s))) = Ok s' /\
             hot_equiv s s' /\ hot_ok s'.
Proof.
  intros Hs.
  destruct (fill_sorted_values state_key (hot_states s)) as (d1&F1&E1&K1).
  { split; [apply Hs|]. intros k h Hh. by apply (hot_state_ok _ Hs _ _ Hh). }
  destruct (fill_sorted_values cursor_own_key (hot_source_cursors s)) as (d3&F3&E3&K3).
  { split; [apply Hs|]. intros k c Hc. by apply (hot_cursor_ok _ Hs _ _ Hc). }
  set (items := sorted_by id (hot_processed_messages s)).
  assert (items ≡ₚ hot_processed_messages s) as Hp by apply sorted_by_perm.
  assert (NoDup (dkeys items)) as Hnd.
  { unfold dkeys. rewrite Hp. apply (hot_nodup_processed _ Hs). }
  exists (mk_HotStateStore d1 items d3).
  assert (hot_equiv s (mk_HotStateStore d1 items d3)) as E.
  { split; [by symmetry| |by symmetry]. by apply perm_dict; [apply Hs|symmetry]. }
  split; [|split; [done|]].
  - unfold restore. cbn [hc_checkpoint_version hc_states hc_processed_messages hc_source_cursors].
    rewrite bool_decide_eq_true_2 by done. rewrite F1, F3. fold items.
    rewrite (fold_dset_items items []) by done. cbn [app mbind res_bind negb raise_if].
    by rewrite Nat.eqb_refl.
  - eapply hot_ok_equiv; [exact Hs|exact E|apply K1|exact Hnd|apply K3].
Qed.

(** A checkpoint taken no earlier than the data it holds can always be taken and
    restored, and the restored store cannot be told apart from the saved one: it holds
    the same states and answers every later update in the same way. *)
Theorem checkpoint_restores s created :
  hot_reachable s -> is_aware created = true ->
  (forall k h, dget k (hot_states s) = Some h -> dt_le (hs_received_at h) created = true) ->
  (forall k c, dget k (hot_source_cursors s) = Some c -> dt_le (cu_received_at c) created = true) ->
  exists c s', checkpoint created s = Ok c /\ restore c = Ok s' /\
    (forall us, Forall update_valid us ->
       (forall market_date stock_id,
          get market_date stock_id (run us s') = get market_date stock_id (run us s)) /\
       (forall u, update_valid u -> (apply u (run us s')).1 = (apply u (run us s)).1)).
Proof.
  intros Hs%hot_reachable_ok Ha H1 H2.
  destruct (checkpoint_ok created s Hs Ha H1 H2) as (as_of&Hc).
  destruct (restore_ok s created as_of Hs) as (s'&Hr&E&Hs'). symmetry in E.
  eexists _, s'. split; [exact Hc|]. split; [exact Hr|]. intros us Hus.
  pose proof (run_equiv us _ _ Hus Hs' Hs E) as Er. split.
  - intros md id. apply (equiv_states _ _ Er).
  - intros u Hu. apply apply_equiv; [done|by apply run_ok|by apply run_ok|done].
Qed.

Lemma checkpoint_restores_witness :
  exists c s', checkpoint (demo_at 99) demo_hot = Ok c /\ restore c = Ok s' /\
    (apply demo_b s').1 = (apply demo_b demo_hot).1.
Proof.
  destruct (checkpoint_restores demo_hot (demo_at 99) demo_hot_reachable) as (c&s'&Hc&Hr&H).
  - reflexivity.
  - intros k h Hh. apply dget_elem in Hh. vm_compute in Hh.
    apply list_elem_of_singleton in Hh as [= _ ->]. reflexivity.
  - intros k h Hh. apply dget_elem in Hh. vm_compute in Hh.
    apply list_elem_of_singleton in Hh as [= _ ->]. reflexivity.
  - exists c, s'. split; [exact Hc|]. split; [exact Hr|].
    apply (proj2 (H [] (List.Forall_nil _))). apply demo_update_valid; done.
Defined.

(** The base price of an update takes no part in the comparison with a repeated one:
    the same message with another base price passes as a duplicate. *)
Definition with_base_price (u : StockRealtimeUpdate) (base : option dec) : StockRealtimeUpdate :=
  mk_StockRealtimeUpdate (ru_message_id u) (ru_stock_id u) (ru_market_date u) (ru_source u)
    (ru_source_sequence u) (ru_occurred_at u) (ru_received_at u) (ru_current_price u)
    (ru_cumulative_trading_value u) base (ru_fresh u) (ru_trading_halted u)
    (ru_corporate_action_unresolved u) (ru_lineage u).

Lemma base_price_unnoticed u base : update_fingerprint (with_base_price u base) = update_fingerprint u.
Proof. reflexivity. Qed.
