(* ===== verification/Hysteresis.v ===== *)
(** [packages/realtime/hysteresis.py]: the reducer that turns ordered activation
    evaluations into lifecycle transitions. *)
From S2P Require Import Prelude Sha256 PyTime PyDecimal Json Domain.
#[local] Open Scope Z_scope.

(* @ packages/realtime/hysteresis.py 13-13 HYSTERESIS_POLICY_VERSION *)
Definition HYSTERESIS_POLICY_VERSION : string := "theme-hysteresis-2026.08.1".

(* @ packages/realtime/hysteresis.py 25-32 HysteresisPolicy *)
Record HysteresisPolicy := mk_HysteresisPolicy {
  hp_version : string;
  hp_maturity : string;
  hp_activate_after : timedelta;
  hp_weaken_after : timedelta;
  hp_recover_within : timedelta;
  hp_close_after : timedelta
}.

(* @ packages/realtime/hysteresis.py 34-46 HysteresisPolicy.__post_init__ *)
Definition HysteresisPolicy_check (p : HysteresisPolicy) : res HysteresisPolicy :=
  _ ← require_text (hp_version p);
  _ ← require_text (hp_maturity p);
  _ ← foldM (fun _ value => raise_if (value <=? 0) ValueError) tt
        [hp_activate_after p; hp_weaken_after p; hp_recover_within p; hp_close_after p];
  Ok p.

(* @ packages/realtime/hysteresis.py 49-56 HYSTERESIS_POLICY_V1 *)
Definition HYSTERESIS_POLICY_V1 : HysteresisPolicy :=
  mk_HysteresisPolicy HYSTERESIS_POLICY_VERSION "BACKTEST_PENDING" (seconds 10) (seconds 60)
    (minutes 10) (minutes 10).

(* @ packages/realtime/hysteresis.py 59-68 ActivationEvaluation *)
Record ActivationEvaluation := mk_ActivationEvaluation {
  ae_input_id : string;
  ae_sequence : Z;
  ae_evaluated_at : datetime;
  ae_policy_version : string;
  ae_coverage_status : CoverageStatus;
  ae_qualifies : option bool;
  ae_market_closed : bool;
  ae_candidate_expired : bool
}.
#[export] Instance ActivationEvaluation_eq_dec : EqDecision ActivationEvaluation.
Proof. solve_decision. Defined.

(* @ packages/realtime/hysteresis.py 70-81 ActivationEvaluation.__post_init__ *)
Definition ActivationEvaluation_check (e : ActivationEvaluation) : res ActivationEvaluation :=
  _ ← require_text (ae_input_id e);
  _ ← raise_if (ae_sequence e <? 1) ValueError;
  _ ← require_text (ae_policy_version e);
  _ ← require_aware (ae_evaluated_at e);
  _ ← raise_if (ae_market_closed e && ae_candidate_expired e) ValueError;
  Ok e.

(* @ packages/realtime/hysteresis.py 83-93 ActivationEvaluation.to_dict *)
Definition ActivationEvaluation_to_dict (e : ActivationEvaluation) : json :=
  JObj [("inputId", JStr (ae_input_id e)); ("sequence", JNum (ae_sequence e));
        ("evaluatedAt", JStr (isoformat (ae_evaluated_at e)));
        ("policyVersion", JStr (ae_policy_version e));
        ("coverageStatus", JStr (CoverageStatus_value (ae_coverage_status e)));
        ("qualifies", match ae_qualifies e with Some b => JBool b | None => JNull end);
        ("marketClosed", JBool (ae_market_closed e));
        ("candidateExpired", JBool (ae_candidate_expired e))].

(* @ packages/realtime/hysteresis.py 95-102 ActivationEvaluation.fingerprint *)
Definition evaluation_fingerprint (e : ActivationEvaluation) : string :=
  sha256_hex (dumps true (ActivationEvaluation_to_dict e)).

(* @ packages/realtime/hysteresis.py 105-117 HysteresisState *)
Record HysteresisState := mk_HysteresisState {
  hy_theme_id : string;
  hy_lifecycle_status : LifecycleStatus;
  hy_policy_version : string;
  hy_last_sequence : Z;
  hy_last_evaluated_at : option datetime;
  hy_last_input_id : option string;
  hy_last_input_fingerprint : option string;
  hy_candidate_since : option datetime;
  hy_below_since : option datetime;
  hy_weakening_since : option datetime;
  hy_weakening_below_since : option datetime
}.
#[export] Instance HysteresisState_eq_dec : EqDecision HysteresisState.
Proof. solve_decision. Defined.

(** [if value is not None: _require_aware(value)] *)
Definition aware_opt (d : option datetime) : res unit :=
  match d with Some d => require_aware d | None => Ok tt end.

(* @ packages/realtime/hysteresis.py 119-134 HysteresisState.__post_init__ *)
Definition HysteresisState_check (s : HysteresisState) : res HysteresisState :=
  _ ← require_text (hy_theme_id s);
  _ ← require_text (hy_policy_version s);
  _ ← raise_if (hy_last_sequence s <? 0) ValueError;
  _ ← foldM (fun _ d => aware_opt d) tt
        [hy_last_evaluated_at s; hy_candidate_since s; hy_below_since s; hy_weakening_since s;
         hy_weakening_below_since s];
  Ok s.

(* @ packages/realtime/hysteresis.py 136-148 HysteresisState.candidate *)
Definition candidate (theme_id : string) (policy : HysteresisPolicy) : res HysteresisState :=
  HysteresisState_check
    (mk_HysteresisState theme_id CANDIDATE (hp_version policy) 0 None None None None None None None).

(* @ packages/realtime/hysteresis.py 150-163 HysteresisState.to_dict *)
Definition HysteresisState_to_dict (s : HysteresisState) : json :=
  let time d := JOpt (isoformat <$> d) in
  JObj [("themeId", JStr (hy_theme_id s));
        ("lifecycleStatus", JStr (LifecycleStatus_value (hy_lifecycle_status s)));
        ("policyVersion", JStr (hy_policy_version s));
        ("lastSequence", JNum (hy_last_sequence s));
        ("lastEvaluatedAt", time (hy_last_evaluated_at s));
        ("lastInputId", JOpt (hy_last_input_id s));
        ("lastInputFingerprint", JOpt (hy_last_input_fingerprint s));
        ("candidateSince", time (hy_candidate_since s));
        ("belowSince", time (hy_below_since s));
        ("weakeningSince", time (hy_weakening_since s));
        ("weakeningBelowSince", time (hy_weakening_below_since s))].

(* @ packages/realtime/hysteresis.py 193-199 HysteresisTransition *)
Record HysteresisTransition := mk_HysteresisTransition {
  ht_from_status : LifecycleStatus;
  ht_to_status : LifecycleStatus;
  ht_policy_version : string;
  ht_input_id : string;
  ht_reason : string
}.

(* @ packages/realtime/hysteresis.py 202-208 HysteresisDisposition *)
Inductive HysteresisDisposition :=
  | HY_TRANSITIONED | HY_NO_TRANSITION | HY_DUPLICATE | HY_STALE_SEQUENCE | HY_STALE_TIME
  | HY_TERMINAL.
#[export] Instance HysteresisDisposition_eq_dec : EqDecision HysteresisDisposition.
Proof. solve_decision. Defined.

(* @ packages/realtime/hysteresis.py 211-215 HysteresisDecision *)
Record HysteresisDecision := mk_HysteresisDecision {
  hd_state : HysteresisState;
  hd_disposition : HysteresisDisposition;
  hd_transition : option HysteresisTransition
}.

(** ** [replace]: new field values, then the checks *)

Definition with_candidate_since d (s : HysteresisState) : HysteresisState :=
  mk_HysteresisState (hy_theme_id s) (hy_lifecycle_status s) (hy_policy_version s)
    (hy_last_sequence s) (hy_last_evaluated_at s) (hy_last_input_id s)
    (hy_last_input_fingerprint s) d (hy_below_since s) (hy_weakening_since s)
    (hy_weakening_below_since s).
Definition with_below_since d (s : HysteresisState) : HysteresisState :=
  mk_HysteresisState (hy_theme_id s) (hy_lifecycle_status s) (hy_policy_version s)
    (hy_last_sequence s) (hy_last_evaluated_at s) (hy_last_input_id s)
    (hy_last_input_fingerprint s) (hy_candidate_since s) d (hy_weakening_since s)
    (hy_weakening_below_since s).
Definition with_weakening_below_since d (s : HysteresisState) : HysteresisState :=
  mk_HysteresisState (hy_theme_id s) (hy_lifecycle_status s) (hy_policy_version s)
    (hy_last_sequence s) (hy_last_evaluated_at s) (hy_last_input_id s)
    (hy_last_input_fingerprint s) (hy_candidate_since s) (hy_below_since s)
    (hy_weakening_since s) d.
(* @ packages/realtime/hysteresis.py 328-333 evaluate_hysteresis *)
Definition weakened (now : datetime) (s : HysteresisState) : HysteresisState :=
  mk_HysteresisState (hy_theme_id s) (hy_lifecycle_status s) (hy_policy_version s)
    (hy_last_sequence s) (hy_last_evaluated_at s) (hy_last_input_id s)
    (hy_last_input_fingerprint s) (hy_candidate_since s) None (Some now) (Some now).
(* @ packages/realtime/hysteresis.py 258-264 evaluate_hysteresis *)
Definition advanced_by (e : ActivationEvaluation) (s : HysteresisState) : HysteresisState :=
  mk_HysteresisState (hy_theme_id s) (hy_lifecycle_status s) (hy_policy_version s)
    (ae_sequence e) (Some (ae_evaluated_at e)) (Some (ae_input_id e))
    (Some (evaluation_fingerprint e)) (hy_candidate_since s) (hy_below_since s)
    (hy_weakening_since s) (hy_weakening_below_since s).
(** The status moves and every timer is cleared. *)
(* @ packages/realtime/hysteresis.py 398-405 _transition *)
Definition cleared (target : LifecycleStatus) (s : HysteresisState) : HysteresisState :=
  mk_HysteresisState (hy_theme_id s) target (hy_policy_version s) (hy_last_sequence s)
    (hy_last_evaluated_at s) (hy_last_input_id s) (hy_last_input_fingerprint s)
    None None None None.

Definition replace (f : HysteresisState -> HysteresisState) (s : HysteresisState)
    : res HysteresisState := HysteresisState_check (f s).

(* @ packages/realtime/hysteresis.py 380-410 _transition *)
Definition hysteresis_transition (s : HysteresisState) (target : LifecycleStatus)
    (e : ActivationEvaluation) (reason : string) : res HysteresisDecision :=
  _ ← transition_lifecycle (hy_lifecycle_status s) target (hy_policy_version s);
  state ← replace (cleared target) s;
  Ok (mk_HysteresisDecision state HY_TRANSITIONED
        (Some (mk_HysteresisTransition (hy_lifecycle_status s) target (hy_policy_version s)
                 (ae_input_id e) reason))).

(* @ packages/realtime/hysteresis.py 292-296 evaluate_hysteresis *)
Definition signal (e : ActivationEvaluation) : option bool :=
  match ae_coverage_status e with SUFFICIENT => ae_qualifies e | _ => None end.

Definition no_transition (s : HysteresisState) : res HysteresisDecision :=
  Ok (mk_HysteresisDecision s HY_NO_TRANSITION None).

(** Missing evidence restarts the timer of the status. *)
(* @ packages/realtime/hysteresis.py 297-308 evaluate_hysteresis *)
Definition without_signal (advanced : HysteresisState) : res HysteresisDecision :=
  s ← match hy_lifecycle_status advanced with
      | CANDIDATE => replace (with_candidate_since None) advanced
      | ACTIVE => replace (with_below_since None) advanced
      | WEAKENING => replace (with_weakening_below_since None) advanced
      | _ => Ok advanced
      end;
  no_transition s.

(* @ packages/realtime/hysteresis.py 310-377 evaluate_hysteresis *)
Definition with_signal (policy : HysteresisPolicy) (advanced : HysteresisState)
    (e : ActivationEvaluation) (qualifies : bool) : res HysteresisDecision :=
  let now := ae_evaluated_at e in
  match hy_lifecycle_status advanced with
  | CANDIDATE =>
      if negb qualifies then s ← replace (with_candidate_since None) advanced; no_transition s
      else
        let since := default now (hy_candidate_since advanced) in
        s ← replace (with_candidate_since (Some since)) advanced;
        if hp_activate_after policy <=? dt_sub now since
        then hysteresis_transition s ACTIVE e "활성 기준 지속 충족"
        else no_transition s
  | ACTIVE =>
      if qualifies then s ← replace (with_below_since None) advanced; no_transition s
      else
        let since := default now (hy_below_since advanced) in
        s ← replace (with_below_since (Some since)) advanced;
        if hp_weaken_after policy <=? dt_sub now since
        then
          d ← hysteresis_transition s WEAKENING e "활성 기준 미달 지속";
          state ← replace (weakened now) (hd_state d);
          Ok (mk_HysteresisDecision state (hd_disposition d) (hd_transition d))
        else no_transition s
  | WEAKENING =>
      match hy_weakening_since advanced with
      | None => Raise ValueError
      | Some weakening_since =>
          if qualifies then
            if dt_sub now weakening_since <=? hp_recover_within policy
            then hysteresis_transition advanced ACTIVE e "같은 Event 재강화"
            else hysteresis_transition advanced CLOSED e "재강화 허용 시간 경과"
          else
            let since := default now (hy_weakening_below_since advanced) in
            s ← replace (with_weakening_below_since (Some since)) advanced;
            if hp_close_after policy <=? dt_sub now since
            then hysteresis_transition s CLOSED e "약화 지속"
            else no_transition s
      end
  | CLOSED | DISCARDED => no_transition advanced
  end.

Definition terminal (l : LifecycleStatus) : bool :=
  match l with CLOSED | DISCARDED => true | _ => false end.

(* @ packages/realtime/hysteresis.py 222-377 evaluate_hysteresis *)
Definition evaluate_hysteresis (policy : HysteresisPolicy) (state : HysteresisState)
    (e : ActivationEvaluation) : res HysteresisDecision :=
  _ ← raise_if (negb (bool_decide (hy_policy_version state = hp_version policy))) ValueError;
  _ ← raise_if (negb (bool_decide (ae_policy_version e = hp_version policy))) ValueError;
  if decide (Some (ae_input_id e) = hy_last_input_id state) then
    _ ← raise_if (negb (bool_decide (Some (evaluation_fingerprint e) =
                                     hy_last_input_fingerprint state))) HysteresisInputConflict;
    Ok (mk_HysteresisDecision state HY_DUPLICATE None)
  else if ae_sequence e <=? hy_last_sequence state then
    Ok (mk_HysteresisDecision state HY_STALE_SEQUENCE None)
  else if match hy_last_evaluated_at state with
          | Some last => dt_lt (ae_evaluated_at e) last
          | None => false
          end
  then Ok (mk_HysteresisDecision state HY_STALE_TIME None)
  else
    advanced ← replace (advanced_by e) state;
    if terminal (hy_lifecycle_status state) then
      Ok (mk_HysteresisDecision advanced HY_TERMINAL None)
    else if ae_market_closed e then
      hysteresis_transition advanced
        (if decide (hy_lifecycle_status state = CANDIDATE) then DISCARDED else CLOSED) e "장 마감"
    else if ae_candidate_expired e && bool_decide (hy_lifecycle_status state = CANDIDATE) then
      hysteresis_transition advanced DISCARDED e "후보 신호 소멸"
    else match signal e with
         | None => without_signal advanced
         | Some qualifies => with_signal policy advanced e qualifies
         end.

(** ** Decisions that are reached *)

Lemma HysteresisState_check_id s s' : HysteresisState_check s = Ok s' -> s' = s.
Proof.
  unfold HysteresisState_check. intros H. do 4 apply res_bind_ok in H as (?&_&H). congruence.
Qed.

Lemma replace_ok f s s' : replace f s = Ok s' -> s' = f s.
Proof. apply HysteresisState_check_id. Qed.

Lemma hysteresis_transition_ok s target e reason d :
  hysteresis_transition s target e reason = Ok d ->
  target ∈ lifecycle_targets (hy_lifecycle_status s) /\
  d = mk_HysteresisDecision (cleared target s) HY_TRANSITIONED
        (Some (mk_HysteresisTransition (hy_lifecycle_status s) target (hy_policy_version s)
                 (ae_input_id e) reason)).
Proof.
  unfold hysteresis_transition. intros H.
  apply res_bind_ok in H as (x&Hx&H). apply res_bind_ok in H as (s'&Hs&[= <-]).
  apply replace_ok in Hs as ->. split; [|done].
  unfold transition_lifecycle, require_transition in Hx. apply res_bind_ok in Hx as (?&Hx&_).
  by apply raise_if_ok, negb_false_iff, bool_decide_eq_true in Hx.
Qed.

(** Inverts a decision in a hypothesis, branch by branch. *)
Ltac hy_inv H :=
  lazymatch type of H with
  | (_ ≫= _) = Ok _ =>
      let x := fresh "x" in let Hx := fresh "Hx" in
      apply res_bind_ok in H as (x&Hx&H); hy_inv Hx; cbv beta iota in H; hy_inv H
  | replace _ _ = Ok _ => apply replace_ok in H as ->
  | hysteresis_transition _ _ _ _ = Ok _ =>
      let Ht := fresh "Ht" in apply hysteresis_transition_ok in H as [Ht ->]
  | raise_if _ _ = Ok _ => apply raise_if_ok in H
  | no_transition _ = Ok _ => injection H as <-
  | Ok _ = Ok _ => injection H as <-
  | Raise _ = Ok _ => discriminate H
  | (if ?c then _ else _) = Ok _ => let Ec := fresh "Ec" in destruct c eqn:Ec; hy_inv H
  | match ?c with _ => _ end = Ok _ => let Ec := fresh "Ec" in destruct c eqn:Ec; hy_inv H
  | _ => idtac
  end.

(** An input was used up by this decision. *)
Definition consumed (d : HysteresisDecision) : bool :=
  match hd_disposition d with HY_TRANSITIONED | HY_NO_TRANSITION | HY_TERMINAL => true | _ => false end.

(** Inputs that are not used leave the state alone; the others go through the
    advanced state. *)
Lemma evaluate_split p s e d :
  evaluate_hysteresis p s e = Ok d ->
  consumed d = false /\ hd_state d = s /\ hd_transition d = None \/
  Some (ae_input_id e) <> hy_last_input_id s /\ hy_last_sequence s < ae_sequence e /\
  (forall last, hy_last_evaluated_at s = Some last -> dt_le last (ae_evaluated_at e) = true) /\
  (if terminal (hy_lifecycle_status s)
   then Ok (mk_HysteresisDecision (advanced_by e s) HY_TERMINAL None)
   else if ae_market_closed e then
     hysteresis_transition (advanced_by e s)
       (if decide (hy_lifecycle_status s = CANDIDATE) then DISCARDED else CLOSED) e "장 마감"
   else if ae_candidate_expired e && bool_decide (hy_lifecycle_status s = CANDIDATE) then
     hysteresis_transition (advanced_by e s) DISCARDED e "후보 신호 소멸"
   else match signal e with
        | None => without_signal (advanced_by e s)
        | Some qualifies => with_signal p (advanced_by e s) e qualifies
        end) = Ok d.
Proof.
  unfold evaluate_hysteresis. intros H.
  apply res_bind_ok in H as (?&_&H). apply res_bind_ok in H as (?&_&H).
  case_decide as Eid; [apply res_bind_ok in H as (?&_&[= <-]); by left|].
  destruct (Z.leb_spec (ae_sequence e) (hy_last_sequence s)); [injection H as <-; by left|].
  destruct (match hy_last_evaluated_at s with Some _ => _ | None => _ end) eqn:El;
    [injection H as <-; by left|]. right.
  apply res_bind_ok in H as (adv&Ha&H). apply replace_ok in Ha as ->.
  split_and!; [done|done| |done]. intros last Elast. rewrite Elast in El.
  rewrite dt_le_Z. rewrite dt_lt_Z in El. lia.
Qed.

(** The lifecycle status changes only by a reported transition along the allowed
    targets, reported once with its endpoints and the input that caused it; without a
    transition the status stays, so closed and discarded themes never come back. *)
Theorem transitions_are_reported p s e d :
  evaluate_hysteresis p s e = Ok d ->
  hy_theme_id (hd_state d) = hy_theme_id s /\
  match hd_transition d with
  | Some t =>
      hd_disposition d = HY_TRANSITIONED /\ ht_from_status t = hy_lifecycle_status s /\
      ht_to_status t = hy_lifecycle_status (hd_state d) /\
      ht_to_status t ∈ lifecycle_targets (ht_from_status t) /\ ht_input_id t = ae_input_id e
  | None =>
      hd_disposition d <> HY_TRANSITIONED /\
      hy_lifecycle_status (hd_state d) = hy_lifecycle_status s
  end.
Proof.
  intros [(Hc&->&->)|(_&_&_&H)]%evaluate_split.
  { split_and!; [done| |done]. intros E. unfold consumed in Hc. by rewrite E in Hc. }
  unfold without_signal, with_signal in H. hy_inv H; cbn in *; by split_and!.
Qed.

(** An input that was used is the last one of the new state. *)
Lemma evaluate_used p s e d :
  evaluate_hysteresis p s e = Ok d -> consumed d = true ->
  hy_policy_version (hd_state d) = hy_policy_version s /\
  hy_last_sequence (hd_state d) = ae_sequence e /\
  hy_last_evaluated_at (hd_state d) = Some (ae_evaluated_at e) /\
  hy_last_input_id (hd_state d) = Some (ae_input_id e) /\
  hy_last_input_fingerprint (hd_state d) = Some (evaluation_fingerprint e).
Proof.
  intros [(Hc&_)|(_&_&_&H)]%evaluate_split Hu; [by rewrite Hc in Hu|].
  unfold without_signal, with_signal in H. hy_inv H; by split_and!.
Qed.

(** A new input that is not late is used. *)
Lemma evaluate_uses p s e d :
  evaluate_hysteresis p s e = Ok d -> Some (ae_input_id e) <> hy_last_input_id s ->
  hy_last_sequence s < ae_sequence e ->
  (forall last, hy_last_evaluated_at s = Some last -> dt_le last (ae_evaluated_at e) = true) ->
  consumed d = true.
Proof.
  intros H Hid Hseq Hlast. unfold evaluate_hysteresis in H.
  apply res_bind_ok in H as (?&_&H). apply res_bind_ok in H as (?&_&H).
  rewrite decide_False in H by done. destruct (Z.leb_spec (ae_sequence e) (hy_last_sequence s)); [lia|].
  destruct (hy_last_evaluated_at s) as [last|]; [specialize (Hlast last eq_refl)|].
  - rewrite dt_le_Z in Hlast. rewrite dt_lt_Z in H.
    replace (instant (ae_evaluated_at e) <? instant last) with false in H by (symmetry; lia).
    apply res_bind_ok in H as (adv&_&H). unfold without_signal, with_signal in H. by hy_inv H.
  - apply res_bind_ok in H as (adv&_&H). unfold without_signal, with_signal in H. by hy_inv H.
Qed.

(** At the close of the market a theme ends. *)
Lemma evaluate_closes p s e d :
  evaluate_hysteresis p s e = Ok d -> consumed d = true -> ae_market_closed e = true ->
  terminal (hy_lifecycle_status (hd_state d)) = true.
Proof.
  intros [(Hc&_)|(_&_&_&H)]%evaluate_split Hu Hm; [by rewrite Hc in Hu|]. rewrite Hm in H.
  destruct (terminal (hy_lifecycle_status s)) eqn:Et; [by injection H as <-|].
  apply hysteresis_transition_ok in H as [_ ->]. cbn. by case_decide.
Qed.

(** Inputs are used in order: a repeated or late input leaves the state exactly as
    it is, a used one has a greater sequence number and is not earlier than the last,
    becomes the last input, and is recognised as a duplicate when it comes again. *)
Theorem hysteresis_in_order p s e d :
  evaluate_hysteresis p s e = Ok d ->
  if consumed d
  then hy_last_sequence s < hy_last_sequence (hd_state d) /\
       hy_last_sequence (hd_state d) = ae_sequence e /\
       hy_last_evaluated_at (hd_state d) = Some (ae_evaluated_at e) /\
       (forall last, hy_last_evaluated_at s = Some last -> dt_le last (ae_evaluated_at e) = true) /\
       evaluate_hysteresis p (hd_state d) e = Ok (mk_HysteresisDecision (hd_state d) HY_DUPLICATE None)
  else hd_state d = s.
Proof.
  intros H0. pose proof H0 as H.
  apply evaluate_split in H as [(Hc&->&_)|(_&Hseq&Hlast&H)]; [by rewrite Hc|].
  assert (consumed d = true) as Hu.
  { unfold without_signal, with_signal in H. by hy_inv H. }
  destruct (evaluate_used _ _ _ _ H0 Hu) as (E1&E2&E3&E4&E5). rewrite Hu.
  split_and!; [by rewrite E2|done|done|done|].
  unfold evaluate_hysteresis in H0 |- *. rewrite E1.
  apply res_bind_ok in H0 as ([]&->&H0). apply res_bind_ok in H0 as ([]&->&_).
  cbn [mbind res_bind]. rewrite E4, decide_True by done. rewrite E5.
  by rewrite bool_decide_eq_true_2.
Qed.

(** Missing evidence is not evidence against: an evaluation without sufficient
    coverage, or without a verdict, never changes the status, unless it says that the
    market has closed or the candidate has expired; it restarts the running timer. *)
Theorem missing_coverage_is_neutral p s e d :
  evaluate_hysteresis p s e = Ok d ->
  ae_coverage_status e <> SUFFICIENT \/ ae_qualifies e = None ->
  ae_market_closed e = false ->
  ae_candidate_expired e = false \/ hy_lifecycle_status s <> CANDIDATE ->
  hd_transition d = None /\ hy_lifecycle_status (hd_state d) = hy_lifecycle_status s /\
  (hd_disposition d = HY_NO_TRANSITION ->
   match hy_lifecycle_status s with
   | CANDIDATE => hy_candidate_since (hd_state d) = None
   | ACTIVE => hy_below_since (hd_state d) = None
   | WEAKENING => hy_weakening_below_since (hd_state d) = None /\
                  hy_weakening_since (hd_state d) = hy_weakening_since s
   | _ => True
   end).
Proof.
  intros H Hmiss Hmc Hce.
  assert (signal e = None) as Hsig.
  { unfold signal. destruct (ae_coverage_status e), Hmiss; done. }
  apply evaluate_split in H as [(Hc&->&->)|(_&_&_&H)].
  { split_and!; [done|done|]. intros E. unfold consumed in Hc. by rewrite E in Hc. }
  rewrite Hmc, Hsig in H.
  assert (ae_candidate_expired e && bool_decide (hy_lifecycle_status s = CANDIDATE) = false) as E.
  { destruct Hce as [->|Hne]; [done|]. rewrite bool_decide_eq_false_2 by done. apply andb_false_r. }
  rewrite E in H. unfold without_signal in H. cbn [hy_lifecycle_status advanced_by] in H.
  destruct (hy_lifecycle_status s) eqn:Es; simpl in H; hy_inv H; cbn; rewrite ?Es; by split_and!.
Qed.

(** ** Histories of a theme *)

Definition eval_valid (e : ActivationEvaluation) : Prop := ActivationEvaluation_check e = Ok e.

(** [history p theme acc s]: the candidate of [theme] has reached [s], having used
    the evaluations [acc], in order, among those it was given. *)
Inductive history (p : HysteresisPolicy) (theme : string) :
    list ActivationEvaluation -> HysteresisState -> Prop :=
  | history_start s : candidate theme p = Ok s -> history p theme [] s
  | history_step acc s e d :
      history p theme acc s -> eval_valid e -> evaluate_hysteresis p s e = Ok d ->
      history p theme (if consumed d then acc ++ [e] else acc) (hd_state d).

(** From an evaluation made at [since] to the last one used, every evaluation gave
    the signal [b]. *)
Definition sustained (b : bool) (acc : list ActivationEvaluation) (since : datetime) : Prop :=
  exists pre first rest, acc = pre ++ first :: rest /\ ae_evaluated_at first = since /\
    Forall (fun e => signal e = Some b) (first :: rest).

Lemma sustained_start b acc e : signal e = Some b -> sustained b (acc ++ [e]) (ae_evaluated_at e).
Proof. intros H. exists acc, e, []. split_and!; [done|done|]. by constructor. Qed.

Lemma sustained_more b acc e since :
  sustained b acc since -> signal e = Some b -> sustained b (acc ++ [e]) since.
Proof.
  intros (pre&first&rest&->&Hs&Hall) He. exists pre, first, (rest ++ [e]).
  split_and!; [by rewrite <-app_assoc|done|]. rewrite app_comm_cons. apply Forall_app.
  split; [done|by constructor].
Qed.

(** The timer of a signal, started now if it was not running. *)
Lemma sustained_default b acc e since :
  (forall t, since = Some t -> sustained b acc t) -> signal e = Some b ->
  sustained b (acc ++ [e]) (default (ae_evaluated_at e) since).
Proof.
  intros H He. destruct since as [t|]; simpl; [by apply sustained_more; [apply H|]|].
  by apply sustained_start.
Qed.

(** Timers run only in their status, and each has its evidence. *)
Definition timers_ok (acc : list ActivationEvaluation) (s : HysteresisState) : Prop :=
  match hy_lifecycle_status s with
  | CANDIDATE =>
      hy_below_since s = None /\ hy_weakening_since s = None /\ hy_weakening_below_since s = None /\
      (forall t, hy_candidate_since s = Some t -> sustained true acc t)
  | ACTIVE =>
      hy_candidate_since s = None /\ hy_weakening_since s = None /\
      hy_weakening_below_since s = None /\
      (forall t, hy_below_since s = Some t -> sustained false acc t)
  | WEAKENING =>
      hy_candidate_since s = None /\ hy_below_since s = None /\
      (exists e, e ∈ acc /\ hy_weakening_since s = Some (ae_evaluated_at e) /\
                 signal e = Some false) /\
      (forall t, hy_weakening_below_since s = Some t -> sustained false acc t)
  | CLOSED | DISCARDED =>
      hy_candidate_since s = None /\ hy_below_since s = None /\ hy_weakening_since s = None /\
      hy_weakening_below_since s = None
  end.

(** The evidence for a transition, at the evaluation [e] that causes it. *)
Definition transition_evidence (p : HysteresisPolicy) (acc : list ActivationEvaluation)
    (s : HysteresisState) (e : ActivationEvaluation) (target : LifecycleStatus) : Prop :=
  let now := ae_evaluated_at e in
  match hy_lifecycle_status s, target with
  | CANDIDATE, ACTIVE =>
      exists since, sustained true (acc ++ [e]) since /\ hp_activate_after p <= dt_sub now since
  | CANDIDATE, DISCARDED => ae_market_closed e = true \/ ae_candidate_expired e = true
  | ACTIVE, WEAKENING =>
      exists since, sustained false (acc ++ [e]) since /\ hp_weaken_after p <= dt_sub now since
  | ACTIVE, CLOSED => ae_market_closed e = true
  | WEAKENING, ACTIVE =>
      signal e = Some true /\
      exists since, hy_weakening_since s = Some since /\ dt_sub now since <= hp_recover_within p
  | WEAKENING, CLOSED =>
      ae_market_closed e = true \/
      (signal e = Some true /\
       exists since, hy_weakening_since s = Some since /\ hp_recover_within p < dt_sub now since) \/
      (exists since, sustained false (acc ++ [e]) since /\ hp_close_after p <= dt_sub now since)
  | _, _ => False
  end.

(** The reducer past its guards, on the advanced state. *)
Definition reduce (p : HysteresisPolicy) (s : HysteresisState) (e : ActivationEvaluation)
    : res HysteresisDecision :=
  if terminal (hy_lifecycle_status s)
  then Ok (mk_HysteresisDecision (advanced_by e s) HY_TERMINAL None)
  else if ae_market_closed e then
    hysteresis_transition (advanced_by e s)
      (if decide (hy_lifecycle_status s = CANDIDATE) then DISCARDED else CLOSED) e "장 마감"
  else if ae_candidate_expired e && bool_decide (hy_lifecycle_status s = CANDIDATE) then
    hysteresis_transition (advanced_by e s) DISCARDED e "후보 신호 소멸"
  else match signal e with
       | None => without_signal (advanced_by e s)
       | Some qualifies => with_signal p (advanced_by e s) e qualifies
       end.

Section evidence.
Context (p : HysteresisPolicy) (acc : list ActivationEvaluation) (s : HysteresisState)
  (e : ActivationEvaluation) (d : HysteresisDecision).
Hypothesis Htimers : timers_ok acc s.
Hypothesis Hreduce : reduce p s e = Ok d.

Let evidence : Prop :=
  timers_ok (acc ++ [e]) (hd_state d) /\
  (hd_disposition d = HY_TRANSITIONED ->
   transition_evidence p acc s e (hy_lifecycle_status (hd_state d))).

Lemma reduce_candidate : hy_lifecycle_status s = CANDIDATE -> evidence.
Proof.
  intros Es. unfold evidence, transition_evidence. unfold timers_ok in Htimers. rewrite Es in *.
  destruct Htimers as (Hb&Hw&Hwb&Hc). pose proof Hreduce as H. unfold reduce in H.
  rewrite Es in H. cbn [terminal] in H.
  destruct (ae_market_closed e) eqn:Emc.
  { hy_inv H. split; [by split_and!|by left]. }
  destruct (ae_candidate_expired e && _) eqn:Ece.
  { hy_inv H. split; [by split_and!|right; by apply andb_true_iff in Ece as [? _]]. }
  destruct (signal e) as [[|]|] eqn:Esig; unfold without_signal, with_signal in H;
    cbn [hy_lifecycle_status advanced_by] in H; rewrite Es in H; cbn [negb] in H.
  - pose proof (sustained_default true acc e (hy_candidate_since s) Hc Esig) as Hsus.
    hy_inv H.
    + split; [by split_and!|]. intros _. cbn in *. eexists. split; [exact Hsus|lia].
    + unfold timers_ok. cbn. rewrite Es. split; [|done]. split_and!; try done. by intros t [= <-].
  - hy_inv H. unfold timers_ok. cbn. rewrite Es. by split_and!.
  - hy_inv H. unfold timers_ok. cbn. rewrite Es. by split_and!.
Qed.

Lemma reduce_active : hy_lifecycle_status s = ACTIVE -> evidence.
Proof.
  intros Es. unfold evidence, transition_evidence. unfold timers_ok in Htimers. rewrite Es in *.
  destruct Htimers as (Hc&Hw&Hwb&Hb). pose proof Hreduce as H. unfold reduce in H.
  rewrite Es in H. cbn [terminal] in H.
  destruct (ae_market_closed e) eqn:Emc.
  { hy_inv H. by split; [split_and!|]. }
  rewrite bool_decide_eq_false_2, andb_false_r in H by done.
  destruct (signal e) as [[|]|] eqn:Esig; unfold without_signal, with_signal in H;
    cbn [hy_lifecycle_status advanced_by] in H; rewrite Es in H.
  - hy_inv H. unfold timers_ok. cbn. rewrite Es. by split_and!.
  - pose proof (sustained_default false acc e (hy_below_since s) Hb Esig) as Hsus.
    hy_inv H.
    + split.
      * unfold timers_ok. cbn. split_and!; [done|done| |].
        -- exists e. split_and!; [|done|done]. apply elem_of_app. right. by apply list_elem_of_singleton.
        -- intros t [= <-]. by apply sustained_start.
      * intros _. cbn in *. eexists. split; [exact Hsus|lia].
    + unfold timers_ok. cbn. rewrite Es. split; [|done]. split_and!; try done. by intros t [= <-].
  - hy_inv H. unfold timers_ok. cbn. rewrite Es. by split_and!.
Qed.

Lemma reduce_weakening : hy_lifecycle_status s = WEAKENING -> evidence.
Proof.
  intros Es. unfold evidence, transition_evidence. unfold timers_ok in Htimers. rewrite Es in *.
  destruct Htimers as (Hc&Hb&(e0&He0&Hw&Hs0)&Hwb). pose proof Hreduce as H. unfold reduce in H.
  assert (e0 ∈ acc ++ [e]) as He0' by (apply elem_of_app; by left).
  rewrite Es in H. cbn [terminal] in H.
  destruct (ae_market_closed e) eqn:Emc.
  { hy_inv H. split; [by split_and!|intros _; by left]. }
  rewrite bool_decide_eq_false_2, andb_false_r in H by done.
  destruct (signal e) as [[|]|] eqn:Esig; unfold without_signal, with_signal in H;
    cbn [hy_lifecycle_status advanced_by hy_weakening_since hy_weakening_below_since] in H;
    rewrite Es, ?Hw in H.
  - hy_inv H.
    + split; [by split_and!|]. intros _. split; [done|]. exists (ae_evaluated_at e0). split; [done|lia].
    + split; [by split_and!|]. intros _. right. left. split; [done|].
      exists (ae_evaluated_at e0). split; [done|lia].
  - pose proof (sustained_default false acc e (hy_weakening_below_since s) Hwb Esig) as Hsus.
    hy_inv H.
    + split; [by split_and!|]. intros _. right. right. eexists. split; [exact Hsus|lia].
    + unfold timers_ok. cbn. rewrite Es. split; [|done].
      split_and!; [done|done|by exists e0|]. by intros t [= <-].
  - hy_inv H. unfold timers_ok. cbn. rewrite Es. split; [|done].
    split_and!; [done|done|by exists e0|done].
Qed.

Lemma reduce_terminal : terminal (hy_lifecycle_status s) = true -> evidence.
Proof.
  intros Es. pose proof Hreduce as H. unfold reduce in H. rewrite Es in H. injection H as <-.
  split; [|done]. unfold timers_ok in *. cbn. by destruct (hy_lifecycle_status s).
Qed.
End evidence.

Lemma reduce_consumed p s e d : reduce p s e = Ok d -> consumed d = true.
Proof. unfold reduce, without_signal, with_signal. intros H. by hy_inv H. Qed.

Lemma evaluate_evidence p acc s e d :
  timers_ok acc s -> evaluate_hysteresis p s e = Ok d ->
  timers_ok (if consumed d then acc ++ [e] else acc) (hd_state d) /\
  (hd_disposition d = HY_TRANSITIONED ->
   transition_evidence p acc s e (hy_lifecycle_status (hd_state d))).
Proof.
  intros Ht [(Hc&->&_)|(_&_&_&H)]%evaluate_split.
  { rewrite Hc. split; [done|]. intros E. unfold consumed in Hc. by rewrite E in Hc. }
  change (reduce p s e = Ok d) in H. rewrite (reduce_consumed _ _ _ _ H).
  destruct (hy_lifecycle_status s) eqn:Es.
  - by apply reduce_candidate.
  - by apply reduce_active.
  - by apply reduce_weakening.
  - apply reduce_terminal; [done|done|]. by rewrite Es.
  - apply reduce_terminal; [done|done|]. by rewrite Es.
Qed.

Lemma history_timers p theme acc s : history p theme acc s -> timers_ok acc s.
Proof.
  induction 1 as [s Hs|acc s e d _ IH _ He].
  - apply HysteresisState_check_id in Hs as ->. by split_and!.
  - by apply (evaluate_evidence p acc s e d).
Qed.

(** Every transition of a theme has its evidence in the evaluations used so far:
    activation and weakening need an unbroken run of sufficient-coverage verdicts of
    the right kind over the policy's duration, recovery a qualifying verdict within
    the recovery window, closing a closed market, a recovery that came too late or an
    unbroken run below, and discarding a closed market or an expired candidate. *)
Theorem transitions_have_evidence p theme acc s e d :
  history p theme acc s -> evaluate_hysteresis p s e = Ok d -> hd_disposition d = HY_TRANSITIONED ->
  transition_evidence p acc s e (hy_lifecycle_status (hd_state d)).
Proof. intros H%history_timers He Ht. by apply (evaluate_evidence p acc s e d). Qed.

(** ** The reducer does not fail *)

(** What [__post_init__] accepts. *)
Record state_wf (p : HysteresisPolicy) (s : HysteresisState) : Prop := {
  wf_theme : is_blank (hy_theme_id s) = false;
  wf_policy : hy_policy_version s = hp_version p /\ is_blank (hp_version p) = false;
  wf_sequence : 0 <= hy_last_sequence s;
  wf_times : Forall (fun d => forall t, d = Some t -> is_aware t = true)
    [hy_last_evaluated_at s; hy_candidate_since s; hy_below_since s; hy_weakening_since s;
     hy_weakening_below_since s]
}.

Lemma aware_opt_ok (l : list (option datetime)) :
  Forall (fun d => forall t, d = Some t -> is_aware t = true) l ->
  foldM (fun _ d => aware_opt d) tt l = Ok tt.
Proof.
  induction 1 as [|d l Hd _ IH]; [done|]. cbn [foldM].
  assert (aware_opt d = Ok tt) as ->; [|done].
  destruct d as [t|]; [|done]. by apply require_aware_ok, Hd.
Qed.

Lemma check_wf p s : state_wf p s -> HysteresisState_check s = Ok s.
Proof.
  intros [H1 [H2 H2'] H3 H4]. unfold HysteresisState_check, require_text. rewrite H1, H2, H2'.
  cbn [raise_if mbind res_bind].
  replace (hy_last_sequence s <? 0) with false by (symmetry; lia). by rewrite aware_opt_ok.
Qed.

Lemma check_ok_wf p s :
  HysteresisState_check s = Ok s -> hy_policy_version s = hp_version p ->
  is_blank (hp_version p) = false -> state_wf p s.
Proof.
  unfold HysteresisState_check. intros H Hp Hb.
  apply res_bind_ok in H as (?&H1&H). apply raise_if_ok in H1.
  apply res_bind_ok in H as (?&_&H). apply res_bind_ok in H as (?&H3&H). apply raise_if_ok in H3.
  apply res_bind_ok in H as ([]&H4&_). split; [done|done|lia|].
  assert (forall l, foldM (fun _ d => aware_opt d) tt l = Ok tt ->
            Forall (fun d => forall t, d = Some t -> is_aware t = true) l) as Hall.
  { induction l as [|d l IH]; [constructor|]. cbn [foldM]. intros Hl.
    apply res_bind_ok in Hl as ([]&Hd&Hl). constructor; [|by apply IH].
    intros t ->. by apply require_aware_ok in Hd. }
  by apply Hall.
Qed.

Lemma eval_valid_facts e :
  eval_valid e -> 1 <= ae_sequence e /\ is_aware (ae_evaluated_at e) = true.
Proof.
  unfold eval_valid, ActivationEvaluation_check. intros H.
  apply res_bind_ok in H as (?&_&H). apply res_bind_ok in H as (?&H1&H). apply raise_if_ok in H1.
  apply res_bind_ok in H as (?&_&H). apply res_bind_ok in H as (?&H2&_). apply require_aware_ok in H2.
  split; [lia|done].
Qed.

Section total.
Context (p : HysteresisPolicy) (e : ActivationEvaluation).
Hypothesis Heval : eval_valid e.

Lemma wf_advanced s : state_wf p s -> state_wf p (advanced_by e s).
Proof.
  destruct (eval_valid_facts _ Heval) as [H1 H2]. intros [A B C D]. split; [done|done|simpl; lia|].
  do 5 apply Forall_cons in D as [? D]. repeat constructor; try done. by intros t [= <-].
Qed.

Lemma wf_timer s f (since : option datetime) :
  state_wf p s ->
  f = with_candidate_since \/ f = with_below_since \/ f = with_weakening_below_since ->
  (forall t, since = Some t -> is_aware t = true) -> state_wf p (f since s).
Proof.
  intros [A B C D] Hf Hs. do 5 apply Forall_cons in D as [? D].
  destruct Hf as [->|[->| ->]]; (split; [done|done|done|by repeat constructor]).
Qed.

Lemma wf_cleared s target : state_wf p s -> state_wf p (cleared target s).
Proof.
  intros [A B C D]. do 5 apply Forall_cons in D as [? D]. split; try done. by repeat constructor.
Qed.

Lemma wf_weakened s : state_wf p s -> state_wf p (weakened (ae_evaluated_at e) s).
Proof.
  destruct (eval_valid_facts _ Heval) as [_ H2]. intros [A B C D].
  do 5 apply Forall_cons in D as [? D]. split; try done.
  repeat constructor; try done; by intros t [= <-].
Qed.

Lemma default_aware (since : option datetime) t :
  (forall t, since = Some t -> is_aware t = true) ->
  Some (default (ae_evaluated_at e) since) = Some t -> is_aware t = true.
Proof.
  destruct (eval_valid_facts _ Heval) as [_ H2]. intros H [= <-]. destruct since; [by apply H|done].
Qed.

Lemma replace_wf f s : state_wf p (f s) -> replace f s = Ok (f s).
Proof. apply check_wf. Qed.

Lemma transition_wf s target reason :
  state_wf p s -> target ∈ lifecycle_targets (hy_lifecycle_status s) ->
  exists d, hysteresis_transition s target e reason = Ok d /\ state_wf p (hd_state d).
Proof.
  intros Hs Ht. eexists. unfold hysteresis_transition, transition_lifecycle, require_transition.
  rewrite bool_decide_eq_true_2 by done. cbn [negb raise_if mbind res_bind].
  unfold StateTransition_init. assert (is_empty (hy_policy_version s) = false) as ->.
  { destruct (wf_policy _ _ Hs) as [-> Hb]. by destruct (hp_version p). }
  cbn [raise_if mbind res_bind].
  rewrite (replace_wf (cleared target)) by by apply wf_cleared.
  split; [done|]. by apply wf_cleared.
Qed.

Definition succeeds (r : res HysteresisDecision) : Prop :=
  exists d, r = Ok d /\ state_wf p (hd_state d).

Lemma no_transition_wf s : state_wf p s -> succeeds (no_transition s).
Proof. intros Hs. by eexists. Qed.

Lemma timer_wf s f since (k : HysteresisState -> res HysteresisDecision) :
  state_wf p s ->
  f = with_candidate_since \/ f = with_below_since \/ f = with_weakening_below_since ->
  (forall t, since = Some t -> is_aware t = true) ->
  (forall s', state_wf p s' -> hy_lifecycle_status s' = hy_lifecycle_status s -> succeeds (k s')) ->
  succeeds (x ← replace (f since) s; k x).
Proof.
  intros Hs Hf Hsince Hk. pose proof (wf_timer s f since Hs Hf Hsince) as Hw.
  rewrite (replace_wf (f since)) by done. apply Hk; [done|].
  by destruct Hf as [->|[->| ->]].
Qed.

Lemma with_signal_wf acc s b : state_wf p s -> timers_ok acc s -> succeeds (with_signal p s e b).
Proof.
  intros Hs Ht. pose proof (wf_times _ _ Hs) as D. apply Forall_cons in D as [_ D].
  apply Forall_cons in D as [Dc D]. apply Forall_cons in D as [Db D].
  apply Forall_cons in D as [_ D]. apply Forall_cons in D as [Dw _].
  unfold with_signal. unfold timers_ok in Ht. destruct (hy_lifecycle_status s) eqn:Es.
  - destruct b; cbn [negb].
    + apply timer_wf; [done|by auto|intros t; by apply default_aware|]. intros s' Hs' El.
      case_match; [|by apply no_transition_wf]. apply transition_wf; [done|]. rewrite El, Es. left.
    + apply timer_wf; [done|by auto|done|]. intros s' Hs' _. by apply no_transition_wf.
  - destruct b.
    + apply timer_wf; [done|by auto|done|]. intros s' Hs' _. by apply no_transition_wf.
    + apply timer_wf; [done|by auto|intros t; by apply default_aware|]. intros s' Hs' El.
      case_match; [|by apply no_transition_wf].
      destruct (transition_wf s' WEAKENING "활성 기준 미달 지속" Hs') as (d&Hd&Hwd);
        [rewrite El, Es; left|]. unfold succeeds. rewrite Hd. cbn [mbind res_bind].
      pose proof (wf_weakened _ Hwd) as Hww. rewrite (replace_wf (weakened _)) by done. by eexists.
  - destruct Ht as (_&_&(e0&_&Hw&_)&_). rewrite Hw. destruct b.
    + case_match; (apply transition_wf; [done|]); rewrite Es; [left|right; left].
    + apply timer_wf; [done|by auto|intros t; by apply default_aware|].
      intros s' Hs' El. case_match; [|by apply no_transition_wf].
      apply transition_wf; [done|]. rewrite El, Es. right; left.
  - by apply no_transition_wf.
  - by apply no_transition_wf.
Qed.

Lemma reduce_wf acc s : state_wf p s -> timers_ok acc s -> succeeds (reduce p s e).
Proof.
  intros Hs Ht. pose proof (wf_advanced s Hs) as Ha. unfold reduce.
  destruct (terminal (hy_lifecycle_status s)) eqn:Eterm; [by eexists|].
  destruct (ae_market_closed e).
  { apply transition_wf; [done|]. cbn. destruct (hy_lifecycle_status s); simpl in *; try done.
    all: right; left. }
  destruct (ae_candidate_expired e && _) eqn:Ec.
  { apply andb_true_iff in Ec as [_ Ec%bool_decide_eq_true]. apply transition_wf; [done|]. cbn.
    rewrite Ec. right; left. }
  destruct (signal e) as [b|].
  - apply (with_signal_wf acc); [done|]. unfold timers_ok in *. by destruct (hy_lifecycle_status s) eqn:Es;
      cbn; rewrite Es.
  - unfold without_signal. cbn [hy_lifecycle_status advanced_by].
    destruct (hy_lifecycle_status s);
      first [ apply timer_wf; [done|by auto|done|intros s' Hs' _; by apply no_transition_wf]
            | by apply no_transition_wf ].
Qed.
End total.

Lemma evaluate_wf p acc s e d :
  eval_valid e -> state_wf p s -> timers_ok acc s -> evaluate_hysteresis p s e = Ok d ->
  state_wf p (hd_state d).
Proof.
  intros He Hs Ht [(_&->&_)|(_&_&_&H)]%evaluate_split; [done|].
  destruct (reduce_wf p e He acc s Hs Ht) as (d'&Hd&Hw). change (reduce p s e = Ok d) in H.
  congruence.
Qed.

Lemma history_wf p theme acc s :
  is_blank (hp_version p) = false -> history p theme acc s -> state_wf p s.
Proof.
  intros Hp. induction 1 as [s Hs|acc s e d Hh IH He Hd].
  - unfold candidate in Hs. pose proof (HysteresisState_check_id _ _ Hs) as ->.
    by apply check_ok_wf.
  - eapply evaluate_wf; [done|done|by eapply history_timers|done].
Qed.

(** On a theme's history a well-formed evaluation for the policy is always answered,
    except when it reuses the id of the last input with other contents: no transition
    the reducer chooses is refused, and a weakening theme always knows since when. *)
Theorem evaluate_hysteresis_total p theme acc s e :
  HysteresisPolicy_check p = Ok p -> history p theme acc s -> eval_valid e ->
  ae_policy_version e = hp_version p ->
  match evaluate_hysteresis p s e with
  | Ok d => history p theme (if consumed d then acc ++ [e] else acc) (hd_state d)
  | Raise x => x = HysteresisInputConflict /\ hy_last_input_id s = Some (ae_input_id e) /\
               hy_last_input_fingerprint s <> Some (evaluation_fingerprint e)
  end.
Proof.
  intros Hp Hh He Hv. assert (is_blank (hp_version p) = false) as Hb.
  { unfold HysteresisPolicy_check in Hp. apply res_bind_ok in Hp as (?&Hp&_).
    by apply raise_if_ok in Hp. }
  pose proof (history_wf p theme acc s Hb Hh) as Hw.
  destruct (evaluate_hysteresis p s e) as [d|x] eqn:E; [by eapply history_step|].
  unfold evaluate_hysteresis in E. destruct (wf_policy _ _ Hw) as [Ev _].
  rewrite (bool_decide_eq_true_2 (hy_policy_version s = _)), (bool_decide_eq_true_2 (ae_policy_version e = _)) in E by done. cbn [negb raise_if mbind res_bind] in E.
  case_decide as Eid.
  { case_bool_decide as Ef; [done|]. injection E as <-. by split_and!. }
  destruct (_ <=? _); [done|].
  destruct (match hy_last_evaluated_at s with Some _ => _ | None => _ end); [done|].
  rewrite (replace_wf p (advanced_by e) s (wf_advanced p e He s Hw)) in E.
  cbn [mbind res_bind] in E. change (reduce p s e = Raise x) in E.
  destruct (reduce_wf p e He acc s Hw (history_timers p theme acc s Hh)) as (d&Hd&_). congruence.
Qed.

(** ** A theme that activates, weakens and recovers *)

Definition demo_eval (id : string) (sequence second : Z) (verdict : bool) : ActivationEvaluation :=
  mk_ActivationEvaluation id sequence
    (mk_datetime ((ymd2ord 2026 8 14 - 1) * us_per_day + hours 9 + seconds second) (Some (hours 9)))
    HYSTERESIS_POLICY_VERSION SUFFICIENT (Some verdict) false false.
Definition demo_missing : ActivationEvaluation :=
  mk_ActivationEvaluation "e9" 9
    (mk_datetime ((ymd2ord 2026 8 14 - 1) * us_per_day + hours 9 + seconds 50) (Some (hours 9)))
    HYSTERESIS_POLICY_VERSION PARTIAL (Some false) false false.

Definition demo_start : HysteresisState :=
  mk_HysteresisState "theme-1" CANDIDATE HYSTERESIS_POLICY_VERSION 0 None None None None None None None.
Definition demo_next (s : HysteresisState) (e : ActivationEvaluation) : HysteresisState :=
  match evaluate_hysteresis HYSTERESIS_POLICY_V1 s e with Ok d => hd_state d | Raise _ => s end.
Definition demo_s1 : HysteresisState := demo_next demo_start (demo_eval "e1" 1 0 true).
Definition demo_s2 : HysteresisState := demo_next demo_s1 (demo_eval "e2" 2 10 true).

Lemma demo_history1 :
  history HYSTERESIS_POLICY_V1 "theme-1" [demo_eval "e1" 1 0 true] demo_s1.
Proof.
  assert (exists d, evaluate_hysteresis HYSTERESIS_POLICY_V1 demo_start (demo_eval "e1" 1 0 true) = Ok d /\
            consumed d = true /\ hd_state d = demo_s1) as (d&Hd&Hc&<-).
  { eexists. split; [vm_compute; reflexivity|]. split; vm_compute; reflexivity. }
  assert (history HYSTERESIS_POLICY_V1 "theme-1" [] demo_start) as H0
    by (apply history_start; vm_compute; reflexivity).
  pose proof (history_step _ _ _ _ (demo_eval "e1" 1 0 true) d H0 eq_refl Hd) as H.
  by rewrite Hc in H.
Qed.

(** Ten seconds of qualifying verdicts activate the theme. *)
Lemma transitions_have_evidence_witness :
  exists d, evaluate_hysteresis HYSTERESIS_POLICY_V1 demo_s1 (demo_eval "e2" 2 10 true) = Ok d /\
    hy_lifecycle_status (hd_state d) = ACTIVE /\
    transition_evidence HYSTERESIS_POLICY_V1 [demo_eval "e1" 1 0 true] demo_s1
      (demo_eval "e2" 2 10 true) (hy_lifecycle_status (hd_state d)).
Proof.
  eexists. split; [vm_compute; reflexivity|]. split; [reflexivity|].
  eapply (transitions_have_evidence _ "theme-1"); [apply demo_history1|vm_compute; reflexivity|reflexivity].
Defined.

Lemma evaluate_hysteresis_total_witness :
  exists acc s, history HYSTERESIS_POLICY_V1 "theme-1" acc s /\ hy_lifecycle_status s = ACTIVE.
Proof.
  pose proof (evaluate_hysteresis_total HYSTERESIS_POLICY_V1 "theme-1" _ demo_s1
                (demo_eval "e2" 2 10 true) eq_refl demo_history1 eq_refl eq_refl) as H.
  destruct (evaluate_hysteresis _ demo_s1 _) as [d|x] eqn:E.
  - eexists _, _. split; [exact H|]. vm_compute in E. injection E as <-. reflexivity.
  - vm_compute in E. discriminate E.
Defined.

Lemma transitions_are_reported_witness :
  exists d, evaluate_hysteresis HYSTERESIS_POLICY_V1 demo_s1 (demo_eval "e2" 2 10 true) = Ok d /\
            hy_theme_id (hd_state d) = "theme-1".
Proof.
  destruct (evaluate_hysteresis HYSTERESIS_POLICY_V1 demo_s1 (demo_eval "e2" 2 10 true))
    as [d|x] eqn:E; [|vm_compute in E; discriminate E].
  exists d. split; [reflexivity|].
  rewrite (proj1 (transitions_are_reported _ _ _ _ E)). vm_compute. reflexivity.
Defined.

Lemma hysteresis_in_order_witness :
  evaluate_hysteresis HYSTERESIS_POLICY_V1 demo_s2 (demo_eval "e2" 2 10 true) =
    Ok (mk_HysteresisDecision demo_s2 HY_DUPLICATE None).
Proof.
  destruct (evaluate_hysteresis HYSTERESIS_POLICY_V1 demo_s1 (demo_eval "e2" 2 10 true))
    as [d|x] eqn:E; [|vm_compute in E; discriminate E].
  pose proof (hysteresis_in_order _ _ _ _ E) as H.
  assert (demo_s2 = hd_state d) as Es by (unfold demo_s2, demo_next; by rewrite E).
  rewrite Es. clear Es. destruct (consumed d) eqn:Ec; [apply H|].
  vm_compute in E. injection E as <-. discriminate Ec.
Defined.

Lemma missing_coverage_is_neutral_witness :
  exists d, evaluate_hysteresis HYSTERESIS_POLICY_V1 demo_s2 demo_missing = Ok d /\
            hy_lifecycle_status (hd_state d) = ACTIVE.
Proof.
  destruct (evaluate_hysteresis HYSTERESIS_POLICY_V1 demo_s2 demo_missing) as [d|x] eqn:E;
    [|vm_compute in E; discriminate E].
  exists d. split; [reflexivity|].
  destruct (missing_coverage_is_neutral _ _ _ _ E) as (_&H&_).
  - left. discriminate.
  - reflexivity.
  - left. reflexivity.
  - rewrite H. vm_compute. reflexivity.
Defined.
