(* ===== verification/Aggregation.v ===== *)
(** [packages/realtime/aggregation.py]: the membership catalog, the set of dirty
    themes and its draining into theme metrics. *)
From S2P Require Import Prelude Sha256 PyTime PyDecimal DecimalFacts Json Domain Weights WeightsFacts ThemeMetrics.
From S2P Require Import EventModels RealtimeModels HotState HotCheckpoint.
#[local] Open Scope Z_scope.

(* @ packages/realtime/aggregation.py 26-26 DIRTY_THEME_CHECKPOINT_VERSION *)
Definition DIRTY_THEME_CHECKPOINT_VERSION : string := "dirty-theme-2026.08.1".

(** ** The catalog *)

(* @ packages/realtime/aggregation.py 34-38 VersionedThemeCatalog.__init__ *)
Record VersionedThemeCatalog := mk_VersionedThemeCatalog {
  cat_snapshots : list ThemeMembershipSnapshot;
  cat_theme_ids : list string
}.

(** Keys are compared by instant, as equal datetimes are. *)
Definition catalog_key (s : ThemeMembershipSnapshot) : string * date * Z * string :=
  (ms_theme_id s, ms_effective_from s, instant (ms_known_at s), ms_version s).

(* @ packages/realtime/aggregation.py 37-50 VersionedThemeCatalog.__init__ *)
Definition VersionedThemeCatalog_init (snapshots : list ThemeMembershipSnapshot)
    : res VersionedThemeCatalog :=
  _ ← raise_if (negb (bool_decide (NoDup (catalog_key <$> snapshots)))) ValueError;
  Ok (mk_VersionedThemeCatalog snapshots (sorted_set (ms_theme_id <$> snapshots))).

(* @ packages/realtime/aggregation.py 60-72 VersionedThemeCatalog.select *)
Definition catalog_select (c : VersionedThemeCatalog) (theme_id : string) (market_date : date)
    (decision_at : datetime) : res (option ThemeMembershipSnapshot) :=
  select_membership_snapshot (cat_snapshots c) theme_id market_date decision_at.

(* @ packages/realtime/aggregation.py 74-90 VersionedThemeCatalog.affected_themes *)
Definition affected_themes (c : VersionedThemeCatalog) (stock_id : string) (market_date : date)
    (decision_at : datetime) : res (list string) :=
  foldM (fun affected theme_id =>
           membership ← catalog_select c theme_id market_date decision_at;
           Ok (if match membership with Some m => ms_contains m stock_id | None => false end
               then affected ++ [theme_id] else affected))
    [] (cat_theme_ids c).

(** ** Dirty themes *)

(* @ packages/realtime/aggregation.py 93-97 DirtyTheme *)
Record DirtyTheme := mk_DirtyTheme { dy_theme_id : string; dy_market_date : date; dy_as_of : datetime }.
#[export] Instance DirtyTheme_eq_dec : EqDecision DirtyTheme.
Proof. solve_decision. Defined.

(* @ packages/realtime/aggregation.py 99-102 DirtyTheme.__post_init__ *)
Definition DirtyTheme_check (d : DirtyTheme) : res DirtyTheme :=
  _ ← require_text (dy_theme_id d);
  _ ← require_aware (dy_as_of d);
  Ok d.

(* @ packages/realtime/aggregation.py 104-109 DirtyTheme.to_dict *)
Definition DirtyTheme_to_dict (d : DirtyTheme) : json :=
  JObj [("themeId", JStr (dy_theme_id d)); ("marketDate", JStr (date_isoformat (dy_market_date d)));
        ("asOf", JStr (isoformat (dy_as_of d)))].

(* @ packages/realtime/aggregation.py 120-124 DirtyThemeCheckpoint *)
Record DirtyThemeCheckpoint := mk_DirtyThemeCheckpoint {
  dc_checkpoint_version : string;
  dc_created_at : datetime;
  dc_entries : list DirtyTheme
}.

(* @ packages/realtime/aggregation.py 126-131 DirtyThemeCheckpoint.__post_init__ *)
Definition DirtyThemeCheckpoint_check (c : DirtyThemeCheckpoint) : res DirtyThemeCheckpoint :=
  _ ← require_text (dc_checkpoint_version c);
  _ ← require_aware (dc_created_at c);
  _ ← raise_if match dy_as_of <$> dc_entries c with
               | [] => false
               | t :: ts => dt_lt (dc_created_at c) (max_default t (t :: ts))
               end ValueError;
  Ok c.

(* @ packages/realtime/aggregation.py 133-138 DirtyThemeCheckpoint.to_dict *)
Definition DirtyThemeCheckpoint_to_dict (c : DirtyThemeCheckpoint) : json :=
  JObj [("checkpointVersion", JStr (dc_checkpoint_version c));
        ("createdAt", JStr (isoformat (dc_created_at c)));
        ("entries", JList (DirtyTheme_to_dict <$> dc_entries c))].

(* @ packages/realtime/aggregation.py 140-148 DirtyThemeCheckpoint.content_hash *)
Definition dirty_content_hash (c : DirtyThemeCheckpoint) : string :=
  sha256_hex (dumps false (DirtyThemeCheckpoint_to_dict c)).

(* @ packages/realtime/aggregation.py 162-168 ThemeMetricUpdate *)
Record ThemeMetricUpdate := mk_ThemeMetricUpdate {
  tu_theme_id : string;
  tu_market_date : date;
  tu_as_of : datetime;
  tu_membership_version : string;
  tu_metrics : ThemeMetrics
}.

(** ** The aggregator *)

(* @ packages/realtime/aggregation.py 174-185 DirtyThemeAggregator.__init__ *)
Record DirtyThemeAggregator := mk_DirtyThemeAggregator {
  ag_catalog : VersionedThemeCatalog;
  ag_references : list StockReference;
  ag_policy : ThemeCalculationPolicy;
  ag_dirty : dict (string * date) DirtyTheme
}.

(* @ packages/realtime/aggregation.py 174-185 DirtyThemeAggregator.__init__ *)
Definition aggregator (catalog : VersionedThemeCatalog) (references : list StockReference)
    (policy : ThemeCalculationPolicy) : DirtyThemeAggregator :=
  mk_DirtyThemeAggregator catalog references policy [].

Definition set_dirty d (a : DirtyThemeAggregator) : DirtyThemeAggregator :=
  mk_DirtyThemeAggregator (ag_catalog a) (ag_references a) (ag_policy a) d.

(* @ packages/realtime/aggregation.py 187-195 DirtyThemeAggregator.add_reference *)
Definition add_reference (reference : StockReference) (a : DirtyThemeAggregator)
    : DirtyThemeAggregator :=
  mk_DirtyThemeAggregator (ag_catalog a) (ag_references a ++ [reference]) (ag_policy a) (ag_dirty a).

(* @ packages/realtime/aggregation.py 211-223 DirtyThemeAggregator.mark_stock *)
Definition mark_theme (market_date : date) (decision_at : datetime) (theme_id : string)
    : M DirtyThemeAggregator unit := fun a =>
  let key := (theme_id, market_date) in
  let as_of := match dget key (ag_dirty a) with
               | None => decision_at
               | Some previous => pymax (dy_as_of previous) decision_at
               end in
  match DirtyTheme_check (mk_DirtyTheme theme_id market_date as_of) with
  | Raise e => (Raise e, a)
  | Ok d => (Ok tt, set_dirty (dset key d (ag_dirty a)) a)
  end.

Fixpoint mark_themes (market_date : date) (decision_at : datetime) (themes : list string)
    : M DirtyThemeAggregator unit :=
  match themes with
  | [] => mret tt
  | theme_id :: themes' =>
      _ ← mark_theme market_date decision_at theme_id;
      mark_themes market_date decision_at themes'
  end.

(* @ packages/realtime/aggregation.py 197-224 DirtyThemeAggregator.mark_stock *)
Definition mark_stock (stock_id : string) (market_date : date) (decision_at : datetime)
    : M DirtyThemeAggregator (list string) :=
  a ← get_st;
  _ ← lift (require_aware decision_at);
  affected ← lift (affected_themes (ag_catalog a) stock_id market_date decision_at);
  _ ← mark_themes market_date decision_at affected;
  mret affected.

(* @ packages/realtime/aggregation.py 226-228 DirtyThemeAggregator.pending *)
Definition pending (a : DirtyThemeAggregator) : list DirtyTheme := sorted_values (ag_dirty a).

(** The reference of a stock that is newest at [as_of]. *)
(* @ packages/realtime/aggregation.py 288-304 DirtyThemeAggregator._select_references *)
Definition select_reference (references : list StockReference) (market_date : date)
    (as_of : datetime) (stock_id : string) : res (option StockReference) :=
  let eligible :=
    sorted_by (fun r => (sr_known_at r, sr_version r))
      (List.filter (fun r => bool_decide (sr_stock_id r = stock_id) &&
                             (sr_effective_for r =? market_date) && dt_le (sr_known_at r) as_of)
         references) in
  match last eligible with
  | None => Ok None
  | Some latest =>
      _ ← raise_if (1 <? length (List.filter (fun r => dt_eqb (sr_known_at r) (sr_known_at latest))
                                   eligible))%nat ValueError;
      Ok (Some latest)
  end.

(* @ packages/realtime/aggregation.py 280-305 DirtyThemeAggregator._select_references *)
Definition select_references (references : list StockReference) (stock_ids : list string)
    (market_date : date) (as_of : datetime) : res (list StockReference) :=
  foldM (fun selected stock_id =>
           latest ← select_reference references market_date as_of stock_id;
           Ok (match latest with Some r => selected ++ [r] | None => selected end))
    [] (sorted_set stock_ids).

(* @ packages/realtime/aggregation.py 234-272 DirtyThemeAggregator.drain *)
Definition drain_one (a : DirtyThemeAggregator) (hot_state : HotStateStore) (dirty : DirtyTheme)
    : res ThemeMetricUpdate :=
  selected ← catalog_select (ag_catalog a) (dy_theme_id dirty) (dy_market_date dirty) (dy_as_of dirty);
  match selected with
  | None => Raise ValueError
  | Some membership =>
      let stock_ids := ms_stock_ids membership in
      let states := states_for (dy_market_date dirty) stock_ids hot_state in
      references ← select_references (ag_references a) stock_ids (dy_market_date dirty) (dy_as_of dirty);
      observations ← mapM_res to_observation states;
      metrics ← calculate_theme_metrics (dy_market_date dirty) (dy_as_of dirty) membership references
                  observations (ag_policy a);
      Ok (mk_ThemeMetricUpdate (dy_theme_id dirty) (dy_market_date dirty) (dy_as_of dirty)
            (ms_version membership) metrics)
  end.

(* @ packages/realtime/aggregation.py 275-277 DirtyThemeAggregator.drain *)
Definition clear_batch (batch : list DirtyTheme) : M DirtyThemeAggregator unit := fun a =>
  (Ok tt, set_dirty (fold_left (fun d dirty => ddel (dy_theme_id dirty, dy_market_date dirty) d)
                       batch (ag_dirty a)) a).

(* @ packages/realtime/aggregation.py 230-278 DirtyThemeAggregator.drain *)
Definition drain (hot_state : HotStateStore) : M DirtyThemeAggregator (list ThemeMetricUpdate) :=
  a ← get_st;
  let batch := sorted_values (ag_dirty a) in
  updates ← lift (mapM_res (drain_one a hot_state) batch);
  _ ← clear_batch batch;
  mret updates.

(* @ packages/realtime/aggregation.py 307-312 DirtyThemeAggregator.checkpoint *)
Definition dirty_checkpoint (created_at : datetime) (a : DirtyThemeAggregator)
    : res DirtyThemeCheckpoint :=
  DirtyThemeCheckpoint_check
    (mk_DirtyThemeCheckpoint DIRTY_THEME_CHECKPOINT_VERSION created_at (pending a)).

Definition dirty_key (d : DirtyTheme) : string * date := (dy_theme_id d, dy_market_date d).

(* @ packages/realtime/aggregation.py 314-324 DirtyThemeAggregator.restore *)
Definition dirty_restore (checkpoint : DirtyThemeCheckpoint) : M DirtyThemeAggregator unit := fun a =>
  match
    (_ ← raise_if (negb (bool_decide (dc_checkpoint_version checkpoint =
                                      DIRTY_THEME_CHECKPOINT_VERSION))) ValueError;
     fill dirty_key (dc_entries checkpoint))
  with
  | Raise e => (Raise e, a)
  | Ok restored => (Ok tt, set_dirty restored a)
  end.

(** ** Selections that cannot be ambiguous *)

Lemma filter_key_at_most_one {A K} (key : A -> K) (f : A -> bool) l :
  NoDup (key <$> l) -> (forall x y, x ∈ l -> y ∈ l -> f x = true -> f y = true -> key x = key y) ->
  (length (List.filter f l) <= 1)%nat.
Proof.
  intros Hnd Hkey. destruct (List.filter f l) as [|x [|y r]] eqn:E; simpl; try lia. exfalso.
  assert (x ∈ List.filter f l /\ y ∈ List.filter f l) as [Hx Hy]
    by (rewrite E; split; [left|right; left]).
  apply elem_of_filterb in Hx as [Hx Hfx]. apply elem_of_filterb in Hy as [Hy Hfy].
  pose proof (NoDup_key_filterb key f l Hnd) as H. rewrite E in H.
  apply NoDup_cons in H as [H _]. apply H. rewrite (Hkey x y) by done. left.
Qed.

(** No theme has two snapshots of the same effective date known at the same time. *)
Definition catalog_unambiguous (c : VersionedThemeCatalog) : Prop :=
  NoDup ((fun s => (ms_theme_id s, ms_effective_from s, instant (ms_known_at s))) <$> cat_snapshots c).

(** No stock has two references for the same day known at the same time. *)
Definition references_unambiguous (references : list StockReference) : Prop :=
  NoDup ((fun r => (sr_stock_id r, sr_effective_for r, instant (sr_known_at r))) <$> references).

Lemma catalog_select_some c theme md at_ :
  catalog_unambiguous c -> is_aware at_ = true ->
  (exists s, s ∈ cat_snapshots c /\ ms_eligible theme md at_ s = true) ->
  exists s, catalog_select c theme md at_ = Ok (Some s) /\ s ∈ cat_snapshots c /\
            ms_eligible theme md at_ s = true.
Proof.
  intros Hu Ha (s0&Hs0&He0). unfold catalog_select. rewrite select_unfold by done.
  set (el := List.filter (ms_eligible theme md at_) (cat_snapshots c)).
  assert (s0 ∈ el) as Hin by by apply elem_of_filterb.
  destruct (last (sorted_by ms_key el)) as [s|] eqn:El.
  - assert (s ∈ el) as Hs.
    { rewrite <-(elem_of_sorted_by ms_key). by apply last_Some_elem_of. }
    assert (length (List.filter (ms_date_eqb s) el) <= 1)%nat as Hle.
    { apply (filter_key_at_most_one
               (fun s => (ms_theme_id s, ms_effective_from s, instant (ms_known_at s)))).
      - by apply NoDup_key_filterb.
      - intros x y [_ Hx]%elem_of_filterb [_ Hy]%elem_of_filterb.
        unfold ms_eligible in Hx, Hy. rewrite !andb_true_iff, bool_decide_eq_true in Hx, Hy.
        unfold ms_date_eqb, dt_eqb. rewrite !andb_true_iff, !Z.eqb_eq.
        intros [E1 E2] [E3 E4]. f_equal; [f_equal|]; [|lia|lia].
        destruct Hx as [[-> _] _], Hy as [[-> _] _]. done. }
    apply elem_of_filterb in Hs as [Hs1 Hs2]. exists s.
    destruct (Z.ltb_spec 1 (Z.of_nat (length (List.filter (ms_date_eqb s) el)))); [lia|done].
  - apply last_None in El. rewrite <-(elem_of_sorted_by ms_key), El in Hin.
    by apply not_elem_of_nil in Hin.
Qed.

Lemma select_reference_ok references md at_ stock :
  references_unambiguous references ->
  exists o, select_reference references md at_ stock = Ok o /\
    forall r, o = Some r -> r ∈ references /\ sr_stock_id r = stock /\ sr_effective_for r = md /\
                        dt_le (sr_known_at r) at_ = true.
Proof.
  intros Hu. unfold select_reference. set (el := List.filter _ references).
  destruct (last (sorted_by (fun r => (sr_known_at r, sr_version r)) el)) as [latest|] eqn:El;
    [|by exists None].
  exists (Some latest).
  assert (length (List.filter (fun r => dt_eqb (sr_known_at r) (sr_known_at latest))
            (sorted_by (fun r => (sr_known_at r, sr_version r)) el)) <= 1)%nat as Hle.
  { rewrite (filterb_perm _ _ _ (sorted_by_perm _ el)).
    apply (filter_key_at_most_one
             (fun r => (sr_stock_id r, sr_effective_for r, instant (sr_known_at r)))).
    - by apply NoDup_key_filterb.
    - intros x y [_ Hx]%elem_of_filterb [_ Hy]%elem_of_filterb.
      rewrite !andb_true_iff, bool_decide_eq_true, Z.eqb_eq in Hx, Hy.
      unfold dt_eqb. rewrite !Z.eqb_eq. intros E1 E2.
      destruct Hx as [[-> ->] _], Hy as [[-> ->] _]. f_equal. lia. }
  split.
  - destruct (Nat.ltb_spec 1 (length (List.filter (fun r => dt_eqb (sr_known_at r) (sr_known_at latest))
      (sorted_by (fun r => (sr_known_at r, sr_version r)) el)))); [lia|done].
  - intros r [= <-]. apply last_Some_elem_of, elem_of_sorted_by, elem_of_filterb in El as [H1 H2].
    rewrite !andb_true_iff, bool_decide_eq_true, Z.eqb_eq in H2. by destruct H2 as [[? ?] ?].
Qed.

Lemma select_references_ok references md at_ stock_ids :
  references_unambiguous references ->
  exists l, select_references references stock_ids md at_ = Ok l /\ NoDup (sr_stock_id <$> l).
Proof.
  intros Hu. unfold select_references.
  assert (forall ids selected, NoDup ids -> NoDup (sr_stock_id <$> selected) ->
    (forall i, i ∈ sr_stock_id <$> selected -> i ∉ ids) ->
    exists l, foldM (fun selected stock_id =>
           latest ← select_reference references md at_ stock_id;
           Ok (match latest with Some r => selected ++ [r] | None => selected end))
      selected ids = Ok l /\ NoDup (sr_stock_id <$> l)) as H.
  { induction ids as [|i ids IH]; intros selected Hids Hsel Hdis; [by exists selected|].
    apply NoDup_cons in Hids as [Hi Hids]. cbn [foldM].
    destruct (select_reference_ok references md at_ i Hu) as (o&->&Ho). cbn [mbind res_bind].
    destruct o as [r|].
    - destruct (Ho r eq_refl) as (_&Er&_). apply IH; [done| |].
      + rewrite fmap_app. apply NoDup_app. split_and!; [done| |apply NoDup_singleton].
        intros x Hx Hx'. apply list_elem_of_singleton in Hx'. subst x.
        apply (Hdis _ Hx). rewrite Er. left.
      + intros x. rewrite fmap_app, elem_of_app. intros [Hx|Hx].
        * intros Hin. apply (Hdis _ Hx). by right.
        * apply list_elem_of_singleton in Hx as ->. by rewrite Er.
    - apply IH; [done|done|]. intros x Hx Hin. apply (Hdis _ Hx). by right. }
  apply H; [apply NoDup_sorted_set|apply NoDup_nil_2|by intros ? ?%not_elem_of_nil].
Qed.

(** ** Observations from the hot state *)

Lemma to_observation_stock h o : to_observation h = Ok o -> mo_stock_id o = hs_stock_id h.
Proof.
  unfold to_observation, StockMarketObservation_init. intros H.
  do 4 apply res_bind_ok in H as (?&_&H). by injection H as <-.
Qed.

Lemma observations_ok s md stock_ids :
  hot_ok s ->
  exists l, mapM_res to_observation (states_for md stock_ids s) = Ok l /\ NoDup (mo_stock_id <$> l).
Proof.
  intros Hs. unfold states_for. pose proof (NoDup_sorted_set stock_ids) as Hnd.
  revert Hnd. generalize (sorted_set stock_ids) as ids. induction ids as [|i ids IH]; intros Hnd.
  { exists []. split; [done|apply NoDup_nil_2]. }
  apply NoDup_cons in Hnd as [Hi Hnd]. destruct (IH Hnd) as (l&Hl&Hndl).
  cbn [omap list_omap]. destruct (dget (md, i) (hot_states s)) as [h|] eqn:Eh; [|by exists l].
  destruct (hot_state_ok _ Hs _ _ Eh) as (Ek&_&_&Ho&_).
  destruct (to_observation h) as [o|] eqn:Eo; [|done].
  exists (o :: l). cbn [mapM_res]. rewrite Eo. cbn [mbind res_bind].
  change (list_omap _ _ _ ids) with (omap (fun i => dget (md, i) (hot_states s)) ids).
  rewrite Hl. split; [done|]. rewrite fmap_cons. apply NoDup_cons. split; [|done].
  rewrite (to_observation_stock _ _ Eo). intros Hin. apply Hi.
  assert (hs_stock_id h = i) as E by (unfold state_key in Ek; congruence). rewrite E in Hin.
  clear - Hin Hl Hs. apply mapM_res_Forall2 in Hl.
  apply list_elem_of_fmap in Hin as (o'&->&Ho'). apply list_elem_of_lookup in Ho' as (n&Hn).
  destruct (Forall2_lookup_r _ _ _ _ _ Hl Hn) as (h'&Hh'&Eo').
  apply list_elem_of_lookup_2, list_elem_of_omap in Hh' as (j&Hj&Hget).
  rewrite (to_observation_stock _ _ Eo'). destruct (hot_state_ok _ Hs _ _ Hget) as (Ek'&_).
  assert (hs_stock_id h' = j) as -> by (unfold state_key in Ek'; congruence). done.
Qed.

(** ** The pending themes *)

(** A snapshot as its constructor leaves it. *)
Definition snapshot_valid (s : ThemeMembershipSnapshot) : Prop :=
  NoDup (ms_stock_ids s) /\ Forall (fun m => is_empty (tm_stock_id m) = false) (ms_members s).

(** Every pending theme had a membership when it was marked, and has one still. *)
Definition entry_ok (c : VersionedThemeCatalog) (d : DirtyTheme) : Prop :=
  DirtyTheme_check d = Ok d /\
  exists s, s ∈ cat_snapshots c /\ ms_eligible (dy_theme_id d) (dy_market_date d) (dy_as_of d) s = true.

Definition agg_ok (a : DirtyThemeAggregator) : Prop :=
  keyed dirty_key (ag_dirty a) /\
  forall k d, dget k (ag_dirty a) = Some d -> entry_ok (ag_catalog a) d.

(** The operations of the running aggregator. *)
Inductive agg_step : DirtyThemeAggregator -> DirtyThemeAggregator -> Prop :=
  | agg_mark stock_id market_date decision_at r a a' :
      mark_stock stock_id market_date decision_at a = (r, a') -> agg_step a a'
  | agg_add reference a : agg_step a (add_reference reference a)
  | agg_drain h r a a' : drain h a = (r, a') -> agg_step a a'.

Definition agg_reachable (c : VersionedThemeCatalog) (policy : ThemeCalculationPolicy)
    (a : DirtyThemeAggregator) : Prop :=
  exists references, rtc agg_step (aggregator c references policy) a.

Lemma DirtyTheme_check_id d d' : DirtyTheme_check d = Ok d' -> d' = d.
Proof.
  unfold DirtyTheme_check. intros H. do 2 apply res_bind_ok in H as (?&_&H). congruence.
Qed.

Lemma eligible_later c theme md t t' :
  dt_le t t' = true ->
  (exists s, s ∈ cat_snapshots c /\ ms_eligible theme md t s = true) ->
  exists s, s ∈ cat_snapshots c /\ ms_eligible theme md t' s = true.
Proof.
  intros Hle (s&Hs&He). exists s. split; [done|]. unfold ms_eligible in *.
  rewrite !andb_true_iff in *. destruct He as [[? ?] He]. split_and!; [done|done|].
  by eapply pyle_trans.
Qed.

(** The entry after marking a theme. *)
Definition marked (md : date) (at_ : datetime) (theme : string) (a : DirtyThemeAggregator)
    : DirtyTheme :=
  mk_DirtyTheme theme md match dget (theme, md) (ag_dirty a) with
                         | None => at_
                         | Some previous => pymax (dy_as_of previous) at_
                         end.

Lemma mark_theme_cases md at_ theme a :
  mark_theme md at_ theme a =
    (Ok tt, set_dirty (dset (theme, md) (marked md at_ theme a) (ag_dirty a)) a) /\
    DirtyTheme_check (marked md at_ theme a) = Ok (marked md at_ theme a) \/
  exists e, mark_theme md at_ theme a = (Raise e, a).
Proof.
  unfold mark_theme. fold (marked md at_ theme a).
  destruct (DirtyTheme_check (marked md at_ theme a)) as [d|e] eqn:E; [left|right; by exists e].
  by rewrite (DirtyTheme_check_id _ _ E).
Qed.

Lemma marked_ge md at_ theme a : dt_le at_ (dy_as_of (marked md at_ theme a)) = true.
Proof.
  unfold marked; simpl. destruct (dget (theme, md) (ag_dirty a)); [apply pymax_le_r|apply pyle_refl].
Qed.

Lemma mark_theme_ok md at_ theme a r a' :
  (exists s, s ∈ cat_snapshots (ag_catalog a) /\ ms_eligible theme md at_ s = true) ->
  agg_ok a -> mark_theme md at_ theme a = (r, a') -> agg_ok a' /\ ag_catalog a' = ag_catalog a.
Proof.
  intros Hel [Hk He] H. destruct (mark_theme_cases md at_ theme a) as [[E Hc]|[e E]];
    rewrite E in H; injection H as _ <-; [|done].
  split; [|done]. split.
  - by apply (keyed_dset dirty_key _ (marked md at_ theme a)).
  - intros k d. cbn [ag_dirty set_dirty ag_catalog]. rewrite dget_dset.
    case_decide; [intros [= <-]|by apply He]. split; [done|].
    eapply eligible_later; [apply marked_ge|done].
Qed.

Lemma affected_spec c stock md at_ themes :
  affected_themes c stock md at_ = Ok themes ->
  forall t, t ∈ themes <-> t ∈ cat_theme_ids c /\
    exists m, catalog_select c t md at_ = Ok (Some m) /\ ms_contains m stock = true.
Proof.
  unfold affected_themes. induction (cat_theme_ids c) as [|t0 ids IH] using rev_ind in themes |- *.
  { intros [= <-] t. split; [by intros ?%not_elem_of_nil|by intros [?%not_elem_of_nil _]]. }
  rewrite foldM_app. intros H. apply res_bind_ok in H as (pre&Hpre&H). specialize (IH _ Hpre).
  cbn [foldM] in H. apply res_bind_ok in H as (o&H&Ho). injection Ho as <-.
  cbv beta in H. apply res_bind_ok in H as (m&Hm&H). injection H as <-.
  intros t. rewrite elem_of_app, list_elem_of_singleton.
  destruct (match m with Some m => ms_contains m stock | None => false end) eqn:Ec.
  - rewrite elem_of_app, list_elem_of_singleton, IH. split.
    + intros [[? ?]| ->]; [by auto|]. split; [by right|]. destruct m as [m|]; [by exists m|done].
    + intros [[?| ->] ?]; [left; by split|by right].
  - rewrite IH. split; [intros [? ?]; by auto|]. intros [[?| ->] (m'&Hm'&Hc')]; [split; [done|by exists m']|].
    rewrite Hm in Hm'. injection Hm' as ->. congruence.
Qed.

Lemma affected_eligible c stock md at_ themes t :
  is_aware at_ = true -> affected_themes c stock md at_ = Ok themes -> t ∈ themes ->
  exists s, s ∈ cat_snapshots c /\ ms_eligible t md at_ s = true.
Proof.
  intros Ha Hth Ht. apply (affected_spec _ _ _ _ _ Hth) in Ht as (_&m&Hm&_).
  unfold catalog_select in Hm. apply select_Some in Hm as (rest&Hp&_); [|done].
  exists m. apply elem_of_filterb. rewrite Hp. left.
Qed.

Lemma mark_themes_ok md at_ themes a r a' :
  (forall t, t ∈ themes -> exists s, s ∈ cat_snapshots (ag_catalog a) /\ ms_eligible t md at_ s = true) ->
  agg_ok a -> mark_themes md at_ themes a = (r, a') -> agg_ok a' /\ ag_catalog a' = ag_catalog a.
Proof.
  revert a; induction themes as [|t themes IH]; intros a Hel Ha H; [by injection H as _ <-|].
  cbn [mark_themes] in H. unfold mbind, M_bind in H.
  destruct (mark_theme md at_ t a) as [x a1] eqn:E1.
  apply mark_theme_ok in E1 as [Ha1 Ec1]; [|apply Hel; left|done].
  destruct x as [[]|e]; [|by injection H as _ <-].
  rewrite <-Ec1. apply IH in H as [? Ec2]; [by rewrite Ec2| |done].
  intros t' Ht'. rewrite Ec1. apply Hel. by right.
Qed.

Lemma mark_stock_ok stock md at_ a r a' :
  agg_ok a -> mark_stock stock md at_ a = (r, a') -> agg_ok a' /\ ag_catalog a' = ag_catalog a.
Proof.
  intros Ha. unfold mark_stock, get_st, lift, mbind, M_bind, require_aware.
  destruct (is_aware at_) eqn:Eaw; [|by intros [= _ <-]]. cbn [negb raise_if].
  destruct (affected_themes (ag_catalog a) stock md at_) as [themes|e] eqn:Eaf; [|by intros [= _ <-]].
  destruct (mark_themes md at_ themes a) as [x a1] eqn:Em.
  apply mark_themes_ok in Em as [? ?]; [|intros t; by eapply affected_eligible|done].
  destruct x as [[]|e]; by intros [= _ <-].
Qed.

Lemma dget_ddel_all {K V X} `{EqDecision K} (key : X -> K) (l : list X) (d : dict K V) k :
  NoDup (dkeys d) ->
  dget k (fold_left (fun d x => ddel (key x) d) l d) =
  if decide (k ∈ key <$> l) then None else dget k d.
Proof.
  revert d; induction l as [|x l IH]; intros d Hnd; [done|]. cbn [fold_left].
  rewrite IH by by apply NoDup_dkeys_ddel. rewrite fmap_cons.
  destruct (decide (k ∈ key <$> l)) as [Hin|Hin].
  - by rewrite decide_True by (by right).
  - destruct (decide (key x = k)) as [<-|Hne].
    + rewrite decide_True by left. by apply dget_ddel_eq.
    + rewrite dget_ddel_ne by done. rewrite decide_False; [done|]. by intros [|]%elem_of_cons.
Qed.

Lemma dict_all_none {K V} `{EqDecision K} (d : dict K V) : (forall k, dget k d = None) -> d = [].
Proof.
  destruct d as [|[k v] d]; [done|]. intros H. specialize (H k). simpl in H.
  by rewrite decide_True in H.
Qed.

Lemma clear_all a : agg_ok a -> clear_batch (sorted_values (ag_dirty a)) a = (Ok tt, set_dirty [] a).
Proof.
  intros [Hk _]. unfold clear_batch. do 2 f_equal.
  apply dict_all_none. intros k. change (fun d dirty => ddel (dy_theme_id dirty, dy_market_date dirty) d)
    with (fun (d : dict (string * date) DirtyTheme) x => ddel (dirty_key x) d).
  rewrite dget_ddel_all by apply Hk. case_decide as Hin; [done|].
  apply dget_None. intros Hd. apply Hin. rewrite (sorted_values_keys dirty_key) by done.
  by apply elem_of_sorted_by.
Qed.

(** A drain either changes nothing or empties the pending set. *)
Lemma drain_cases h a :
  agg_ok a ->
  drain h a = match mapM_res (drain_one a h) (pending a) with
              | Ok updates => (Ok updates, set_dirty [] a)
              | Raise e => (Raise e, a)
              end.
Proof.
  intros Ha. unfold drain, get_st, lift, mbind, M_bind, pending.
  destruct (mapM_res _ _); [|done]. by rewrite clear_all.
Qed.

Lemma agg_step_ok a a' : agg_ok a -> agg_step a a' -> agg_ok a' /\ ag_catalog a' = ag_catalog a /\
  ag_policy a' = ag_policy a.
Proof.
  intros Ha Hstep. destruct Hstep as [stock md at_ r a a' H|ref a|h r a a' H].
  - pose proof H as H'. apply mark_stock_ok in H as [? ?]; [|done]. split_and!; [done|done|].
    clear - H'. revert H'. unfold mark_stock, get_st, lift, mbind, M_bind.
    destruct (require_aware at_); [|by intros [= _ <-]].
    destruct (affected_themes _ _ _ _) as [themes|]; [|by intros [= _ <-]].
    assert (forall b x b', mark_themes md at_ themes b = (x, b') -> ag_policy b' = ag_policy b) as Hp.
    { induction themes as [|t themes IH]; intros b x b' Hb; [by injection Hb as _ <-|].
      cbn [mark_themes] in Hb. unfold mbind, M_bind in Hb.
      destruct (mark_theme_cases md at_ t b) as [[E _]|[e E]]; rewrite E in Hb;
        [by apply IH in Hb|by injection Hb as _ <-]. }
    destruct (mark_themes md at_ themes a) as [x b] eqn:Em. apply Hp in Em.
    destruct x; by intros [= _ <-].
  - split_and!; [|done|done]. done.
  - rewrite drain_cases in H by done. destruct (mapM_res _ _); injection H as _ <-; [|done].
    split_and!; [|done|done]. split; [split; [apply NoDup_nil_2|done]|done].
Qed.

Lemma agg_reachable_ok c policy a :
  agg_reachable c policy a -> agg_ok a /\ ag_catalog a = c /\ ag_policy a = policy.
Proof.
  intros (references&H).
  assert (agg_ok (aggregator c references policy) /\ ag_catalog (aggregator c references policy) = c /\
          ag_policy (aggregator c references policy) = policy) as H0.
  { split_and!; [|done|done]. split; [split; [apply NoDup_nil_2|done]|done]. }
  revert H0. induction H as [a|a1 a2 a3 Hstep _ IH]; [done|]. intros (Ha&Hc&Hp). apply IH.
  destruct (agg_step_ok _ _ Ha Hstep) as (?&?&?). split_and!; congruence || done.
Qed.

(** ** Draining *)

(** The capped weights of a pending theme leave a residual that no weight can take. *)
Definition drain_refused (a : DirtyThemeAggregator) (h : HotStateStore) (d : DirtyTheme) : Prop :=
  exists membership references observations,
    catalog_select (ag_catalog a) (dy_theme_id d) (dy_market_date d) (dy_as_of d) = Ok (Some membership) /\
    select_references (ag_references a) (ms_stock_ids membership) (dy_market_date d) (dy_as_of d) = Ok references /\
    mapM_res to_observation (states_for (dy_market_date d) (ms_stock_ids membership) h) = Ok observations /\
    call_refused (dy_market_date d) (dy_as_of d) membership references observations (ag_policy a).

(** One pending theme is computed from a call the metrics accept. *)
Lemma drain_one_ok a h d :
  agg_ok a -> hot_ok h -> entry_ok (ag_catalog a) d ->
  catalog_unambiguous (ag_catalog a) -> Forall snapshot_valid (cat_snapshots (ag_catalog a)) ->
  references_unambiguous (ag_references a) -> policy_valid (ag_policy a) ->
  (exists u, drain_one a h d = Ok u /\ tu_theme_id u = dy_theme_id d /\
     tu_market_date u = dy_market_date d /\ tu_as_of u = dy_as_of d) /\ ~ drain_refused a h d \/
  drain_one a h d = Raise ArithmeticError /\ drain_refused a h d.
Proof.
  intros Ha Hh [Hcheck Hel] Hcat Hval Href Hpol.
  assert (is_aware (dy_as_of d) = true) as Haw.
  { unfold DirtyTheme_check in Hcheck. apply res_bind_ok in Hcheck as (?&_&Hc).
    apply res_bind_ok in Hc as (?&Hc&_). by apply require_aware_ok in Hc. }
  destruct (catalog_select_some _ _ _ _ Hcat Haw Hel) as (s&Hsel&Hs&Helig).
  unfold drain_one. rewrite Hsel. cbn [mbind res_bind].
  destruct (select_references_ok (ag_references a) (dy_market_date d) (dy_as_of d) (ms_stock_ids s) Href)
    as (refs&Hrefs&Hrnd). rewrite Hrefs. cbn [mbind res_bind].
  destruct (observations_ok h (dy_market_date d) (ms_stock_ids s) Hh) as (obs&Hobs&Hond).
  rewrite Hobs. cbn [mbind res_bind].
  rewrite Forall_forall in Hval. destruct (Hval s Hs) as [Hnd Hne].
  unfold ms_eligible in Helig. rewrite !andb_true_iff, Z.leb_le in Helig.
  destruct Helig as [[_ Heff] Hkn].
  destruct (metrics_answer (dy_market_date d) (dy_as_of d) s refs obs (ag_policy a))
    as [[[m Hm] Hno]|[Hm Hyes]]; [by split_and!|done|done| |].
  - left. rewrite Hm. split; [eexists; split; [reflexivity|done]|].
    intros (s'&refs'&obs'&E1&E2&E3&Hc). rewrite Hsel in E1. injection E1 as <-. rewrite Hrefs in E2. injection E2 as <-.
    rewrite Hobs in E3. injection E3 as <-. by apply Hno.
  - right. rewrite Hm. split; [done|]. by exists s, refs, obs.
Qed.

(** C36: Draining is all or nothing, and cannot fail for a reason of its own.  When the policy and
    the membership snapshots are valid, no theme has two memberships and no stock two references
    of the same time, and the numbers are far within the exponents of the context
    ([ordinary]), a running aggregator answers every pending theme once, in order of theme
    and date, as of the time it was marked, and empties the set; or it raises the
    [ArithmeticError] of the weights and leaves everything as it was, which it does exactly when
    the capped weights of some pending theme leave a residual that no weight can take. *)
Theorem drain_all_or_nothing c policy a h :
  agg_reachable c policy a -> hot_reachable h -> policy_valid policy ->
  catalog_unambiguous c -> Forall snapshot_valid (cat_snapshots c) ->
  references_unambiguous (ag_references a) ->
  Forall (fun r => ordinary_reference r = true) (ag_references a) ->
  Forall (fun s => ordinary_state s = true) (dvalues (hot_states h)) ->
  match drain h a with
  | (Ok updates, a') =>
      a' = set_dirty [] a /\
      (fun u => (tu_theme_id u, tu_market_date u)) <$> updates = sorted_by id (dkeys (ag_dirty a)) /\
      Forall2 (fun d u => tu_as_of u = dy_as_of d) (pending a) updates /\
      Forall (fun d => ~ drain_refused a h d) (pending a)
  | (Raise e, a') => e = ArithmeticError /\ a' = a /\ Exists (drain_refused a h) (pending a)
  end.
Proof.
  intros (Ha&<-&<-)%agg_reachable_ok Hh%hot_reachable_ok Hpol Hcat Hval Href _ _.
  rewrite drain_cases by done.
  assert (Forall (entry_ok (ag_catalog a)) (pending a)) as Hent.
  { apply Forall_forall. intros d Hd.
    apply (elem_sorted_values dirty_key) in Hd; [by apply Ha in Hd|apply Ha]. }
  assert ((exists updates, mapM_res (drain_one a h) (pending a) = Ok updates /\
             Forall2 (fun d u => (tu_theme_id u, tu_market_date u) = dirty_key d /\
                                 tu_as_of u = dy_as_of d) (pending a) updates /\
             Forall (fun d => ~ drain_refused a h d) (pending a)) \/
          mapM_res (drain_one a h) (pending a) = Raise ArithmeticError /\ Exists (drain_refused a h) (pending a))
    as [(us&->&Hall&Hno)|[-> Hyes]].
  { induction Hent as [|d l Hd _ IH]; [left; by exists []|]. cbn [mapM_res].
    destruct (drain_one_ok a h d Ha Hh Hd Hcat Hval Href Hpol) as [[(u&->&E1&E2&E3) Hno]|[-> Hyes]];
      [|right; split; [done|by left]].
    cbn [mbind res_bind]. destruct IH as [(us&->&Hus&Hnos)|[-> Hyes]]; [left|right; split; [done|by right]].
    exists (u :: us). split; [done|]. split; [|by constructor]. constructor; [|done]. unfold dirty_key. by rewrite E1, E2. }
  - split; [done|]. split; [|split; [|exact Hno]].
    + rewrite <-(sorted_values_keys dirty_key) by apply Ha. fold (pending a). clear - Hall.
      induction Hall as [|d u l us [E _] _ IH]; [done|]. rewrite !fmap_cons. by rewrite E, IH.
    + eapply Forall2_impl; [exact Hall|]. by intros d u [_ ?].
  - by split.
Qed.

(** ** Marking *)

Lemma mark_themes_effect md at_ themes a a' :
  mark_themes md at_ themes a = (Ok tt, a') ->
  (forall t, t ∈ themes -> exists d, dget (t, md) (ag_dirty a') = Some d /\ dt_le at_ (dy_as_of d) = true) /\
  (forall k d, dget k (ag_dirty a) = Some d ->
     exists d', dget k (ag_dirty a') = Some d' /\ dt_le (dy_as_of d) (dy_as_of d') = true) /\
  (forall k, k.2 <> md \/ k.1 ∉ themes -> dget k (ag_dirty a') = dget k (ag_dirty a)).
Proof.
  revert a; induction themes as [|t themes IH]; intros a H.
  { injection H as <-. split_and!; [by intros ? ?%not_elem_of_nil| |done].
    intros k d Hd. exists d. split; [done|apply pyle_refl]. }
  cbn [mark_themes] in H. unfold mbind, M_bind in H.
  destruct (mark_theme_cases md at_ t a) as [[E _]|[e E]]; rewrite E in H; [|done].
  destruct (IH _ H) as (H1&H2&H3). cbn [ag_dirty set_dirty] in H2, H3. split_and!.
  - intros t' [->|Ht']%elem_of_cons; [|by apply H1].
    destruct (H2 (t, md) (marked md at_ t a)) as (d'&Hd'&Hle); [apply dget_dset_eq|].
    exists d'. split; [done|]. eapply pyle_trans; [apply marked_ge|done].
  - intros k d Hd. destruct (decide ((t, md) = k)) as [<-|Hne].
    + destruct (H2 (t, md) (marked md at_ t a)) as (d'&Hd'&Hle); [apply dget_dset_eq|].
      exists d'. split; [done|]. eapply pyle_trans; [|exact Hle].
      unfold marked; simpl. rewrite Hd. apply pymax_le_l.
    + apply H2. by rewrite dget_dset_ne.
  - intros [t' md'] Hk. simpl in Hk. rewrite H3.
    + apply dget_dset_ne. intros [= -> ->]. destruct Hk as [|Hk]; [done|]. apply Hk. left.
    + destruct Hk as [|Hk]; [by left|right]. simpl. intros Hin. apply Hk. by right.
Qed.

(** Marking a stock marks exactly the themes whose membership in force at the
    decision holds the stock: each is pending as of the decision or later, entries
    already pending never move back in time, and no other entry changes. *)
Theorem mark_stock_marks a stock md at_ themes a' :
  mark_stock stock md at_ a = (Ok themes, a') ->
  (forall t, t ∈ themes <-> t ∈ cat_theme_ids (ag_catalog a) /\
     exists m, catalog_select (ag_catalog a) t md at_ = Ok (Some m) /\ stock ∈ ms_stock_ids m) /\
  (forall t, t ∈ themes -> exists d, dget (t, md) (ag_dirty a') = Some d /\ dt_le at_ (dy_as_of d) = true) /\
  (forall k d, dget k (ag_dirty a) = Some d ->
     exists d', dget k (ag_dirty a') = Some d' /\ dt_le (dy_as_of d) (dy_as_of d') = true) /\
  (forall k, k.2 <> md \/ k.1 ∉ themes -> dget k (ag_dirty a') = dget k (ag_dirty a)).
Proof.
  unfold mark_stock, get_st, lift, mbind, M_bind. destruct (require_aware at_); [|done].
  destruct (affected_themes _ _ _ _) as [ths|] eqn:Eaf; [|done].
  destruct (mark_themes md at_ ths a) as [[[]|] b] eqn:Em; [|done]. intros [= <- <-].
  split; [|by apply mark_themes_effect].
  intros t. rewrite (affected_spec _ _ _ _ _ Eaf t).
  assert (forall m, ms_contains m stock = true <-> stock ∈ ms_stock_ids m) as Hc.
  { intros m. unfold ms_contains, ms_stock_ids. rewrite existsb_exists, list_elem_of_fmap. split.
    - intros (x&Hx&Ex%bool_decide_eq_true). exists x. split; [done|by apply list_elem_of_In].
    - intros (x&Ex&Hx%list_elem_of_In). exists x. split; [done|by apply bool_decide_eq_true]. }
  by setoid_rewrite Hc.
Qed.

(** ** Late knowledge *)

Definition with_references (refs : list StockReference) (a : DirtyThemeAggregator) :=
  mk_DirtyThemeAggregator (ag_catalog a) refs (ag_policy a) (ag_dirty a).

(** A reference that does not concern a pending theme: another day, or not yet known. *)
Definition too_late (r : StockReference) (d : DirtyTheme) : bool :=
  negb (sr_effective_for r =? dy_market_date d) || dt_lt (dy_as_of d) (sr_known_at r).

Lemma select_reference_late refs extra md at_ stock :
  (forall r, r ∈ extra -> negb (sr_effective_for r =? md) || dt_lt at_ (sr_known_at r) = true) ->
  select_reference (refs ++ extra) md at_ stock = select_reference refs md at_ stock.
Proof.
  intros H. unfold select_reference. rewrite List.filter_app, (filterb_none _ extra), app_nil_r; [done|].
  intros r Hr%H. unfold dt_lt, dt_le in *. rewrite pylt_pyle in Hr.
  destruct (sr_effective_for r =? md); [|by rewrite andb_false_r]. simpl in Hr.
  apply negb_true_iff in Hr. rewrite Hr. apply andb_false_r.
Qed.

(** Draining is point in time: references learned after a pending theme was
    marked, or for other days, never change what the drain computes. *)
Theorem drain_ignores_late_references a h extra :
  (forall r d, r ∈ extra -> d ∈ pending a -> too_late r d = true) ->
  (drain h (with_references (ag_references a ++ extra) a)).1 = (drain h a).1.
Proof.
  intros H. unfold drain, get_st, lift, mbind, M_bind. cbn [ag_dirty with_references].
  assert (mapM_res (drain_one (with_references (ag_references a ++ extra) a) h) (sorted_values (ag_dirty a)) =
          mapM_res (drain_one a h) (sorted_values (ag_dirty a))) as ->; [|by destruct (mapM_res _ _)].
  apply mapM_res_ext. intros d Hd. unfold drain_one. cbn [ag_catalog ag_references ag_policy with_references].
  destruct (catalog_select _ _ _ _) as [[s|]|]; [|done|done]. cbn [mbind res_bind].
  assert (select_references (ag_references a ++ extra) (ms_stock_ids s) (dy_market_date d) (dy_as_of d) =
          select_references (ag_references a) (ms_stock_ids s) (dy_market_date d) (dy_as_of d)) as ->; [|done].
  apply foldM_ext. intros selected i _. rewrite select_reference_late; [done|].
  intros r Hr. by apply (H r d).
Qed.

(** ** Saving the pending set *)

Lemma sorted_values_equiv {K V} `{PyOrdLaws K, !PyOrdAntisym K, !EqDecision K} (d d' : dict K V) :
  NoDup (dkeys d) -> NoDup (dkeys d') -> d ≡ᵈ d' -> sorted_values d = sorted_values d'.
Proof.
  intros Hd Hd' E. unfold sorted_values.
  assert (sorted_by id (dkeys d) = sorted_by id (dkeys d')) as ->.
  { apply sorted_by_key_perm; [by rewrite list_fmap_id|]. unfold dkeys. apply (fmap_Permutation fst). by apply dict_perm. }
  induction (sorted_by id (dkeys d')) as [|k l IH]; [done|]. cbn [omap list_omap].
  rewrite (E k). destruct (dget k d'); [f_equal|]; exact IH.
Qed.

Lemma max_default_bounded d l t :
  Forall (fun x => dt_le x t = true) l -> dt_le d t = true -> dt_le (max_default d l) t = true.
Proof.
  intros Hl Hd. destruct (max_default_elem d l) as [->|Hin]; [done|].
  rewrite Forall_forall in Hl. by apply Hl.
Qed.

(** The pending set of a running aggregator can be saved at any time not before its
    entries, and restored into another aggregator it is the same: the same themes are
    pending, and a drain over the same catalog, references and policy gives the same. *)
Theorem dirty_set_restores c policy a created :
  agg_reachable c policy a -> is_aware created = true ->
  (forall d, d ∈ pending a -> dt_le (dy_as_of d) created = true) ->
  exists saved, dirty_checkpoint created a = Ok saved /\
    forall b, exists b', dirty_restore saved b = (Ok tt, b') /\ pending b' = pending a /\
      (ag_catalog b = ag_catalog a -> ag_references b = ag_references a -> ag_policy b = ag_policy a ->
       forall h, (drain h b').1 = (drain h a).1).
Proof.
  intros (Ha&_&_)%agg_reachable_ok Haw Hle.
  exists (mk_DirtyThemeCheckpoint DIRTY_THEME_CHECKPOINT_VERSION created (pending a)). split.
  - unfold dirty_checkpoint, DirtyThemeCheckpoint_check. cbn [dc_checkpoint_version dc_created_at dc_entries].
    unfold require_aware. rewrite Haw. cbn.
    destruct (dy_as_of <$> pending a) as [|t ts] eqn:E; [done|].
    assert (Forall (fun x => dt_le x created = true) (t :: ts)) as Hall.
    { rewrite <-E, Forall_fmap, Forall_forall. intros d Hd. by apply Hle. }
    pose proof (max_default_bounded t (t :: ts) created Hall) as Hm.
    unfold dt_lt. rewrite pylt_pyle. apply Forall_cons in Hall as [Ht _]. specialize (Hm Ht).
    unfold dt_le in Hm. cbn [max_default] in Hm. by rewrite Hm.
  - intros b. destruct (fill_sorted_values dirty_key (ag_dirty a) (proj1 Ha)) as (d'&Hfill&E&Hk).
    exists (set_dirty d' b).
    assert (sorted_values d' = sorted_values (ag_dirty a)) as Es
      by (apply sorted_values_equiv; [apply Hk|apply Ha|done]).
    split_and!; [|done|].
    + unfold dirty_restore. cbn [dc_checkpoint_version dc_entries].
      rewrite bool_decide_eq_true_2 by done. cbn [negb raise_if mbind res_bind].
      unfold pending. by rewrite Hfill.
    + intros E1 E2 E3 h. unfold drain, get_st, lift, mbind, M_bind. cbn [ag_dirty set_dirty].
      rewrite Es.
      assert (mapM_res (drain_one (set_dirty d' b) h) (sorted_values (ag_dirty a)) =
              mapM_res (drain_one a h) (sorted_values (ag_dirty a))) as ->;
        [|by destruct (mapM_res _ _)].
      apply mapM_res_ext. intros d _. unfold drain_one. cbn [ag_catalog ag_references ag_policy set_dirty].
      by rewrite E1, E2, E3.
Qed.

(** ** A concrete morning *)

Definition demo_day : date := ymd2ord 2026 8 14.
Definition demo_membership : ThemeMembershipSnapshot :=
  mk_ThemeMembershipSnapshot "battery" "v1" demo_day (demo_at 0) [mk_ThemeMember "005930" CORE].
Definition demo_catalog : VersionedThemeCatalog :=
  mk_VersionedThemeCatalog [demo_membership] ["battery"].
Definition demo_reference (known : Z) : StockReference :=
  mk_StockReference "005930" demo_day (demo_at known) (Some (mk_dec false 69000 0)) (Some 1000)
    (Some (mk_dec false 5 (-1))) true "r1" true.
Definition demo_new : DirtyThemeAggregator :=
  aggregator demo_catalog [demo_reference 0] THEME_CALCULATION_POLICY_V1.
Definition demo_dirty : DirtyThemeAggregator :=
  set_dirty [(("battery", demo_day), mk_DirtyTheme "battery" demo_day (demo_at 31))] demo_new.

Lemma demo_mark : mark_stock "005930" demo_day (demo_at 31) demo_new = (Ok ["battery"], demo_dirty).
Proof. by vm_compute. Qed.

Lemma demo_dirty_reachable : agg_reachable demo_catalog THEME_CALCULATION_POLICY_V1 demo_dirty.
Proof.
  exists [demo_reference 0]. apply rtc_once, (agg_mark "005930" demo_day (demo_at 31) (Ok ["battery"])).
  exact demo_mark.
Qed.

Lemma mark_stock_marks_witness :
  exists d, dget ("battery", demo_day) (ag_dirty demo_dirty) = Some d /\
            dt_le (demo_at 31) (dy_as_of d) = true.
Proof.
  destruct (mark_stock_marks demo_new "005930" demo_day (demo_at 31) ["battery"] demo_dirty demo_mark)
    as (_&H&_).
  apply H. left.
Defined.

Lemma demo_drain_answers : is_ok (drain demo_hot demo_dirty).1 = true.
Proof. vm_compute. reflexivity. Qed.
Lemma demo_pending : sorted_by id (dkeys (ag_dirty demo_dirty)) = [("battery", demo_day)].
Proof. vm_compute. reflexivity. Qed.

Lemma demo_hot_ordinary : forallb ordinary_state (dvalues (hot_states demo_hot)) = true.
Proof. vm_compute. reflexivity. Qed.

Lemma drain_all_or_nothing_witness :
  exists updates, drain demo_hot demo_dirty = (Ok updates, set_dirty [] demo_dirty) /\
    (fun u => (tu_theme_id u, tu_market_date u)) <$> updates = [("battery", demo_day)].
Proof.
  pose proof (drain_all_or_nothing demo_catalog THEME_CALCULATION_POLICY_V1 demo_dirty demo_hot
              demo_dirty_reachable demo_hot_reachable policy_v1_valid) as H.
  pose proof demo_drain_answers as Hok.
  destruct (drain demo_hot demo_dirty) as [[us|e] a']; [|discriminate Hok].
  destruct H as (->&H&_).
  - apply NoDup_singleton.
  - repeat constructor. by intros []%not_elem_of_nil.
  - apply NoDup_singleton.
  - by repeat constructor.
  - apply Forall_forall. intros s Hs. pose proof demo_hot_ordinary as H. rewrite forallb_forall in H.
    by apply H, list_elem_of_In.
  - exists us. split; [reflexivity|]. by rewrite H, demo_pending.
Defined.

(** A reference learned a second after the theme was marked. *)
Lemma drain_ignores_late_references_witness :
  (drain demo_hot (with_references (ag_references demo_dirty ++ [demo_reference 32]) demo_dirty)).1 =
  (drain demo_hot demo_dirty).1.
Proof.
  apply (drain_ignores_late_references demo_dirty demo_hot [demo_reference 32]).
  intros r d ->%list_elem_of_singleton Hd.
  assert (pending demo_dirty = [mk_DirtyTheme "battery" demo_day (demo_at 31)]) as E
    by (vm_compute; reflexivity).
  rewrite E in Hd. apply list_elem_of_singleton in Hd as ->. vm_compute. reflexivity.
Defined.

Lemma dirty_set_restores_witness :
  exists saved, dirty_checkpoint (demo_at 40) demo_dirty = Ok saved /\
    exists b', dirty_restore saved demo_new = (Ok tt, b') /\ pending b' = pending demo_dirty.
Proof.
  destruct (dirty_set_restores demo_catalog THEME_CALCULATION_POLICY_V1 demo_dirty (demo_at 40)
              demo_dirty_reachable ltac:(reflexivity)) as (saved&E&H).
  - assert (pending demo_dirty = [mk_DirtyTheme "battery" demo_day (demo_at 31)]) as E
      by (vm_compute; reflexivity).
    rewrite E. intros d ->%list_elem_of_singleton. vm_compute. reflexivity.
  - exists saved. split; [exact E|]. destruct (H demo_new) as (b'&?&?&_). by exists b'.
Defined.
