(* ===== verification/Snapshots.v ===== *)
(** [packages/realtime/snapshots.py]: versioned full read snapshots, numbered per scope,
    published idempotently and atomically. *)
From S2P Require Import Prelude Sha256 PyTime PyDecimal Json JsonRead Domain EventModels.
#[local] Open Scope Z_scope.

(** [_canonical_json] of a value that is JSON: it cannot fail on one. *)
(* @ packages/realtime/snapshots.py 26-36 _canonical_json *)
Definition snapshot_json (value : json) : string := dumps false value.

(** [json.loads(_canonical_json(value))] of a dict: the same value, keys sorted. *)
(* @ packages/realtime/snapshots.py 39-43 _copy_json_object *)
Definition copy_json_object (value : dict string json) : dict string json :=
  sorted_by fst (List.map (fun kv => (kv.1, normalize kv.2)) value).

(* @ packages/realtime/snapshots.py 50-51 _opaque *)
Definition opaque (prefix value : string) : string :=
  prefix +:+ "_" +:+ str_take 32 (sha256_hex value).

(* @ packages/realtime/snapshots.py 54-57 SnapshotTopic *)
Inductive SnapshotTopic := TOPIC_THEME_RANK | TOPIC_THEME_TREEMAP | TOPIC_EVENT_STATE_CHANGED.
#[export] Instance SnapshotTopic_eq_dec : EqDecision SnapshotTopic.
Proof. solve_decision. Defined.

(* @ packages/realtime/snapshots.py 54-57 SnapshotTopic *)
Definition SnapshotTopic_value (t : SnapshotTopic) : string :=
  match t with
  | TOPIC_THEME_RANK => "theme_rank_snapshot"
  | TOPIC_THEME_TREEMAP => "theme_treemap_snapshot"
  | TOPIC_EVENT_STATE_CHANGED => "event_state_changed"
  end.

(* @ packages/realtime/snapshots.py 61-66 SnapshotVersions *)
Record SnapshotVersions := mk_SnapshotVersions {
  sv_schema_version : string;
  sv_calculation_version : string;
  sv_ranking_model_version : string;
  sv_membership_version : string;
  sv_baseline_version : option string
}.
#[export] Instance SnapshotVersions_eq_dec : EqDecision SnapshotVersions.
Proof. solve_decision. Defined.

(* @ packages/realtime/snapshots.py 68-77 SnapshotVersions.__post_init__ *)
Definition SnapshotVersions_check (v : SnapshotVersions) : res SnapshotVersions :=
  _ ← require_texts [sv_schema_version v; sv_calculation_version v; sv_ranking_model_version v;
                     sv_membership_version v];
  _ ← match sv_baseline_version v with Some b => require_text b | None => Ok tt end;
  Ok v.

(* @ packages/realtime/snapshots.py 79-86 SnapshotVersions.to_dict *)
Definition SnapshotVersions_to_dict (v : SnapshotVersions) : json :=
  JObj [("schemaVersion", JStr (sv_schema_version v));
        ("calculationVersion", JStr (sv_calculation_version v));
        ("rankingModelVersion", JStr (sv_ranking_model_version v));
        ("membershipVersion", JStr (sv_membership_version v));
        ("baselineVersion", JOpt (sv_baseline_version v))].

(** ** Publications *)

(* @ packages/realtime/snapshots.py 104-115 SnapshotPublication *)
Record SnapshotPublication := mk_SnapshotPublication {
  sp_publication_id : string;
  sp_stream_id : string;
  sp_topic : SnapshotTopic;
  sp_params : dict string json;
  sp_market_date : date;
  sp_generated_at : datetime;
  sp_as_of : datetime;
  sp_data_status : DataStatus;
  sp_quality_flags : list string;
  sp_payload : dict string json;
  sp_versions : SnapshotVersions
}.
#[export] Instance SnapshotPublication_eq_dec : EqDecision SnapshotPublication.
Proof. solve_decision. Defined.

(** The constructor keeps copies: parameters, payload and flags are put in order. *)
(* @ packages/realtime/snapshots.py 117-128 SnapshotPublication.__post_init__ *)
Definition SnapshotPublication_init (publication_id stream_id : string) (topic : SnapshotTopic)
    (params : dict string json) (market_date : date) (generated_at as_of : datetime)
    (data_status : DataStatus) (quality_flags : list string) (payload : dict string json)
    (versions : SnapshotVersions) : res SnapshotPublication :=
  _ ← require_text publication_id;
  _ ← require_text stream_id;
  _ ← require_aware generated_at;
  _ ← require_aware as_of;
  _ ← raise_if (dt_lt generated_at as_of) ValueError;
  _ ← raise_if (negb (bool_decide (NoDup quality_flags))) ValueError;
  Ok (mk_SnapshotPublication publication_id stream_id topic (copy_json_object params) market_date
        generated_at as_of data_status (sorted_by id quality_flags) (copy_json_object payload)
        versions).

(* @ packages/realtime/snapshots.py 130-132 SnapshotPublication.params_key *)
Definition params_key_of (params : dict string json) : string :=
  opaque "params" (snapshot_json (JObj params)).

(* @ packages/realtime/snapshots.py 134-148 SnapshotPublication.fingerprint *)
Definition publication_fingerprint (p : SnapshotPublication) : string :=
  sha256_hex (snapshot_json (JObj
    [("streamId", JStr (sp_stream_id p));
     ("topic", JStr (SnapshotTopic_value (sp_topic p)));
     ("params", JObj (sp_params p));
     ("marketDate", JStr (date_isoformat (sp_market_date p)));
     ("generatedAt", JStr (utc_iso (sp_generated_at p)));
     ("asOf", JStr (utc_iso (sp_as_of p)));
     ("dataStatus", JStr (DataStatus_value (sp_data_status p)));
     ("qualityFlags", JList (JStr <$> sorted_by id (sp_quality_flags p)));
     ("payload", JObj (sp_payload p));
     ("versions", SnapshotVersions_to_dict (sp_versions p))])).

(** ** Read snapshots *)

(* @ packages/realtime/snapshots.py 152-166 ReadSnapshot *)
Record ReadSnapshot := mk_ReadSnapshot {
  rs_snapshot_id : string;
  rs_publication_id : string;
  rs_stream_id : string;
  rs_topic : SnapshotTopic;
  rs_params_key : string;
  rs_sequence : Z;
  rs_market_date : date;
  rs_generated_at : datetime;
  rs_as_of : datetime;
  rs_data_status : DataStatus;
  rs_quality_flags : list string;
  rs_payload : dict string json;
  rs_versions : SnapshotVersions;
  rs_content_hash : string
}.
#[export] Instance ReadSnapshot_eq_dec : EqDecision ReadSnapshot.
Proof. solve_decision. Defined.

(* @ packages/realtime/snapshots.py 168-174 ReadSnapshot.__post_init__ *)
Definition ReadSnapshot_init (s : ReadSnapshot) : res ReadSnapshot :=
  _ ← raise_if (rs_sequence s <? 1) ValueError;
  _ ← raise_if (dt_lt (rs_generated_at s) (rs_as_of s)) ValueError;
  Ok (mk_ReadSnapshot (rs_snapshot_id s) (rs_publication_id s) (rs_stream_id s) (rs_topic s)
        (rs_params_key s) (rs_sequence s) (rs_market_date s) (rs_generated_at s) (rs_as_of s)
        (rs_data_status s) (sorted_by id (rs_quality_flags s)) (copy_json_object (rs_payload s))
        (rs_versions s) (rs_content_hash s)).

(** The wire message: rankings and treemaps carry the snapshot id in the payload. *)
(* @ packages/realtime/snapshots.py 176-200 ReadSnapshot.to_ws_message *)
Definition to_ws_message (subscription_id : string) (s : ReadSnapshot) : res json :=
  _ ← require_text subscription_id;
  wire_payload ←
    match rs_topic s with
    | TOPIC_THEME_RANK | TOPIC_THEME_TREEMAP =>
        _ ← raise_if (dmem "snapshotId" (rs_payload s)) ValueError;
        Ok (("snapshotId", JStr (rs_snapshot_id s)) :: copy_json_object (rs_payload s))
    | TOPIC_EVENT_STATE_CHANGED => Ok (copy_json_object (rs_payload s))
    end;
  Ok (JObj
    [("type", JStr (SnapshotTopic_value (rs_topic s)));
     ("schemaVersion", JStr (sv_schema_version (rs_versions s)));
     ("subscriptionId", JStr subscription_id);
     ("streamId", JStr (rs_stream_id s));
     ("topic", JStr (SnapshotTopic_value (rs_topic s)));
     ("sequence", JNum (rs_sequence s));
     ("generatedAt", JStr (utc_iso (rs_generated_at s)));
     ("asOf", JStr (utc_iso (rs_as_of s)));
     ("marketDate", JStr (date_isoformat (rs_market_date s)));
     ("dataStatus", JStr (DataStatus_value (rs_data_status s)));
     ("qualityFlags", JList (JStr <$> rs_quality_flags s));
     ("payload", JObj wire_payload)]).

(* @ packages/realtime/snapshots.py 202-218 ReadSnapshot.to_dict *)
Definition ReadSnapshot_to_dict (s : ReadSnapshot) : json :=
  JObj [("snapshotId", JStr (rs_snapshot_id s));
        ("publicationId", JStr (rs_publication_id s));
        ("streamId", JStr (rs_stream_id s));
        ("topic", JStr (SnapshotTopic_value (rs_topic s)));
        ("paramsKey", JStr (rs_params_key s));
        ("sequence", JNum (rs_sequence s));
        ("marketDate", JStr (date_isoformat (rs_market_date s)));
        ("generatedAt", JStr (utc_iso (rs_generated_at s)));
        ("asOf", JStr (utc_iso (rs_as_of s)));
        ("dataStatus", JStr (DataStatus_value (rs_data_status s)));
        ("qualityFlags", JList (JStr <$> rs_quality_flags s));
        ("payload", JObj (rs_payload s));
        ("versions", SnapshotVersions_to_dict (rs_versions s));
        ("contentHash", JStr (rs_content_hash s))].

(** ** The repository *)

Definition snapshot_scope : Type := string * SnapshotTopic * string.
#[export] Instance snapshot_scope_eq_dec : EqDecision snapshot_scope.
Proof. unfold snapshot_scope. solve_decision. Defined.

(* @ packages/realtime/snapshots.py 283-289 InMemorySnapshotRepository.__init__ *)
Record InMemorySnapshotRepository := mk_InMemorySnapshotRepository {
  sn_sequences : dict snapshot_scope Z;
  sn_snapshots : dict string ReadSnapshot;
  sn_latest : dict snapshot_scope string;
  sn_receipts : dict string (string * string);
  sn_fail_next_commit : bool
}.

(* @ packages/realtime/snapshots.py 283-289 InMemorySnapshotRepository.__init__ *)
Definition empty_snapshots : InMemorySnapshotRepository := mk_InMemorySnapshotRepository [] [] [] [] false.

Definition set_snapshot_fail (x : bool) (r : InMemorySnapshotRepository) : InMemorySnapshotRepository :=
  mk_InMemorySnapshotRepository (sn_sequences r) (sn_snapshots r) (sn_latest r) (sn_receipts r) x.

(* @ packages/realtime/snapshots.py 291-293 InMemorySnapshotRepository.fail_next_commit *)
Definition snapshot_fail_next_commit : M InMemorySnapshotRepository unit := fun r =>
  (Ok tt, set_snapshot_fail true r).

(* @ packages/realtime/snapshots.py 313-317 InMemorySnapshotRepository.publish *)
Definition scope_of (p : SnapshotPublication) : snapshot_scope :=
  (sp_stream_id p, sp_topic p, params_key_of (sp_params p)).

(* @ packages/realtime/snapshots.py 327-330 InMemorySnapshotRepository.publish *)
Definition snapshot_id_of (p : SnapshotPublication) : string :=
  opaque "snap" (sp_publication_id p +:+ ":" +:+ publication_fingerprint p).

(* @ packages/realtime/snapshots.py 332-345 InMemorySnapshotRepository.publish *)
Definition content_hash_of (p : SnapshotPublication) (sequence : Z) : string :=
  sha256_hex (snapshot_json (JObj
    [("scope", JList [JStr (sp_stream_id p); JStr (SnapshotTopic_value (sp_topic p));
                      JStr (params_key_of (sp_params p))]);
     ("sequence", JNum sequence);
     ("payload", JObj (copy_json_object (sp_payload p)));
     ("versions", SnapshotVersions_to_dict (sp_versions p))])).

(* @ packages/realtime/snapshots.py 346-361 InMemorySnapshotRepository.publish *)
Definition snapshot_of (p : SnapshotPublication) (sequence : Z) : res ReadSnapshot :=
  ReadSnapshot_init
    (mk_ReadSnapshot (snapshot_id_of p) (sp_publication_id p) (sp_stream_id p) (sp_topic p)
       (params_key_of (sp_params p)) sequence (sp_market_date p) (sp_generated_at p) (sp_as_of p)
       (sp_data_status p) (sorted_by id (sp_quality_flags p)) (copy_json_object (sp_payload p))
       (sp_versions p) (content_hash_of p sequence)).

(** The body of the [try], which runs on the repository itself. *)
(* @ packages/realtime/snapshots.py 312-371 InMemorySnapshotRepository.publish *)
Definition publish_body (p : SnapshotPublication) : M InMemorySnapshotRepository ReadSnapshot :=
  r ← get_st;
  let scope := scope_of p in
  _ ← lift match dget scope (sn_latest r) with
           | None => Ok tt
           | Some latest_id =>
               match dget latest_id (sn_snapshots r) with
               | None => Raise KeyError
               | Some latest => raise_if (dt_lt (sp_as_of p) (rs_as_of latest)) StaleSnapshotPublication
               end
           end;
  let sequence := default 0 (dget scope (sn_sequences r)) + 1 in
  snapshot ← lift (snapshot_of p sequence);
  _ ← put_st (mk_InMemorySnapshotRepository (dset scope sequence (sn_sequences r))
                (dset (snapshot_id_of p) snapshot (sn_snapshots r))
                (dset scope (snapshot_id_of p) (sn_latest r))
                (dset (sp_publication_id p) (publication_fingerprint p, snapshot_id_of p) (sn_receipts r))
                (sn_fail_next_commit r));
  r' ← get_st;
  if sn_fail_next_commit r'
  then (_ ← put_st (set_snapshot_fail false r'); throw SnapshotCommitFailure)
  else mret snapshot.

(** An exception puts the four collections back; the failpoint is not part of the backup. *)
(* @ packages/realtime/snapshots.py 295-380 InMemorySnapshotRepository.publish *)
Definition snapshot_publish (p : SnapshotPublication) : M InMemorySnapshotRepository ReadSnapshot := fun r =>
  match dget (sp_publication_id p) (sn_receipts r) with
  | Some (fingerprint, snapshot_id) =>
      (if bool_decide (fingerprint = publication_fingerprint p)
       then match dget snapshot_id (sn_snapshots r) with Some s => Ok s | None => Raise KeyError end
       else Raise SnapshotIdempotencyConflict, r)
  | None =>
      match publish_body p r with
      | (Ok s, r') => (Ok s, r')
      | (Raise e, r') => (Raise e, set_snapshot_fail (sn_fail_next_commit r') r)
      end
  end.

(* @ packages/realtime/snapshots.py 382-392 InMemorySnapshotRepository.latest *)
Definition latest_snapshot (stream_id : string) (topic : SnapshotTopic) (params : dict string json)
    (r : InMemorySnapshotRepository) : res (option ReadSnapshot) :=
  match dget (stream_id, topic, params_key_of params) (sn_latest r) with
  | None => Ok None
  | Some snapshot_id =>
      match dget snapshot_id (sn_snapshots r) with Some s => Ok (Some s) | None => Raise KeyError end
  end.

(* @ packages/realtime/snapshots.py 423-427 InMemorySnapshotRepository.latest_for_market_date *)
Definition recency (s : ReadSnapshot) : datetime * datetime * Z :=
  (rs_as_of s, rs_generated_at s, rs_sequence s).

(** [max(candidates, key=recency)]: the first of the greatest ones. *)
Definition max_by_recency (s : ReadSnapshot) (l : list ReadSnapshot) : ReadSnapshot :=
  fold_left (fun best x => if pylt (recency best) (recency x) then x else best) l s.

(* @ packages/realtime/snapshots.py 411-418 InMemorySnapshotRepository.latest_for_market_date *)
Definition is_candidate (topic : SnapshotTopic) (params : dict string json) (market_date : date)
    (as_of_until : datetime) (s : ReadSnapshot) : bool :=
  bool_decide (rs_topic s = topic) && bool_decide (rs_params_key s = params_key_of params) &&
  (rs_market_date s =? market_date) && dt_le (rs_as_of s) as_of_until.

(* @ packages/realtime/snapshots.py 394-428 InMemorySnapshotRepository.latest_for_market_date *)
Definition latest_for_market_date (topic : SnapshotTopic) (params : dict string json)
    (market_date : date) (as_of_until : datetime) (r : InMemorySnapshotRepository) : option ReadSnapshot :=
  match List.filter (is_candidate topic params market_date as_of_until) (dvalues (sn_snapshots r)) with
  | [] => None
  | s :: l => Some (max_by_recency s l)
  end.

(** ** Copies *)

Lemma copy_json_object_idem d : copy_json_object (copy_json_object d) = copy_json_object d.
Proof. pose proof (normalize_idem (JObj d)) as H. by injection H. Qed.

Lemma sorted_by_idem {A K} `{PyOrdLaws K} (key : A -> K) l :
  sorted_by key (sorted_by key l) = sorted_by key l.
Proof. apply sorted_by_id, sorted_by_sorted. Qed.

(** What the constructor returns. *)
Definition publication_valid (p : SnapshotPublication) : Prop :=
  exists params flags payload,
    SnapshotPublication_init (sp_publication_id p) (sp_stream_id p) (sp_topic p) params
      (sp_market_date p) (sp_generated_at p) (sp_as_of p) (sp_data_status p) flags payload
      (sp_versions p) = Ok p.

Lemma publication_valid_facts p :
  publication_valid p ->
  dt_le (sp_as_of p) (sp_generated_at p) = true /\
  copy_json_object (sp_payload p) = sp_payload p /\
  sorted_by id (sp_quality_flags p) = sp_quality_flags p.
Proof.
  intros (params&flags&payload&H). unfold SnapshotPublication_init in H.
  do 4 apply res_bind_ok in H as (?&_&H). apply res_bind_ok in H as (?&Ht&H).
  apply res_bind_ok in H as (?&_&H). apply raise_if_ok in Ht.
  unfold dt_lt in Ht. rewrite pylt_pyle, negb_false_iff in Ht. injection H as H.
  pose proof (f_equal sp_payload H) as Hp. pose proof (f_equal sp_quality_flags H) as Hf.
  cbn [sp_payload sp_quality_flags] in Hp, Hf. rewrite <-Hp, <-Hf.
  split_and!; [exact Ht|apply copy_json_object_idem|apply sorted_by_idem].
Qed.

(** The snapshot a publication becomes under a sequence number. *)
Definition snapshot_value (p : SnapshotPublication) (sequence : Z) : ReadSnapshot :=
  mk_ReadSnapshot (snapshot_id_of p) (sp_publication_id p) (sp_stream_id p) (sp_topic p)
    (params_key_of (sp_params p)) sequence (sp_market_date p) (sp_generated_at p) (sp_as_of p)
    (sp_data_status p) (sp_quality_flags p) (sp_payload p) (sp_versions p)
    (content_hash_of p sequence).

Lemma snapshot_of_value p n :
  publication_valid p -> 1 <= n -> snapshot_of p n = Ok (snapshot_value p n).
Proof.
  intros (Ht&Hp&Hf)%publication_valid_facts Hn. unfold snapshot_of, ReadSnapshot_init.
  cbn [rs_sequence rs_generated_at rs_as_of rs_payload rs_quality_flags rs_snapshot_id rs_publication_id
       rs_stream_id rs_topic rs_params_key rs_market_date rs_data_status rs_versions rs_content_hash].
  replace (n <? 1) with false by (symmetry; lia). unfold dt_lt. rewrite pylt_pyle.
  unfold dt_le in Ht. rewrite Ht. cbn [negb raise_if mbind res_bind]. unfold snapshot_value. rewrite !Hp, !Hf. reflexivity.
Qed.

(** ** The log of accepted publications *)

Definition in_scope (k : snapshot_scope) (p : SnapshotPublication) : bool := bool_decide (scope_of p = k).
Definition published_in (k : snapshot_scope) (log : list SnapshotPublication) : list SnapshotPublication :=
  List.filter (in_scope k) log.
Definition count_in (k : snapshot_scope) (log : list SnapshotPublication) : Z :=
  Z.of_nat (length (published_in k log)).

(** Every publication numbered within its scope. *)
Fixpoint numbered_from (before log : list SnapshotPublication) : list ReadSnapshot :=
  match log with
  | [] => []
  | p :: log => snapshot_value p (count_in (scope_of p) before + 1) :: numbered_from (before ++ [p]) log
  end.
Definition numbered (log : list SnapshotPublication) : list ReadSnapshot := numbered_from [] log.

Definition snapshot_scope_of (s : ReadSnapshot) : snapshot_scope :=
  (rs_stream_id s, rs_topic s, rs_params_key s).

(** The repository [log] describes. *)
Record shows_log (log : list SnapshotPublication) (r : InMemorySnapshotRepository) : Prop := {
  log_sequences : forall k, default 0 (dget k (sn_sequences r)) = count_in k log;
  log_snapshots : sn_snapshots r = (fun s => (rs_snapshot_id s, s)) <$> numbered log;
  log_latest : forall k, dget k (sn_latest r) = snapshot_id_of <$> last (published_in k log);
  log_receipts : sn_receipts r =
    (fun p => (sp_publication_id p, (publication_fingerprint p, snapshot_id_of p))) <$> log
}.

(** The publications accepted on the way to a repository, oldest first. *)
Inductive snapshot_history : list SnapshotPublication -> InMemorySnapshotRepository -> Prop :=
  | sh_empty : snapshot_history [] empty_snapshots
  | sh_accept log r p s r' :
      snapshot_history log r -> publication_valid p -> dget (sp_publication_id p) (sn_receipts r) = None ->
      snapshot_publish p r = (Ok s, r') -> snapshot_history (log ++ [p]) r'
  | sh_replay log r p s r' :
      snapshot_history log r -> dget (sp_publication_id p) (sn_receipts r) <> None ->
      snapshot_publish p r = (Ok s, r') -> snapshot_history log r'
  | sh_refuse log r p e r' :
      snapshot_history log r -> snapshot_publish p r = (Raise e, r') -> snapshot_history log r'
  | sh_fail log r : snapshot_history log r -> snapshot_history log (snapshot_fail_next_commit r).2.

(** No two publications get the same 128-bit snapshot id. *)
Definition ids_distinct (log : list SnapshotPublication) : Prop := NoDup (snapshot_id_of <$> log).

Lemma numbered_from_app before l1 l2 :
  numbered_from before (l1 ++ l2) = numbered_from before l1 ++ numbered_from (before ++ l1) l2.
Proof.
  revert before; induction l1 as [|p l1 IH]; intros before; simpl.
  - by rewrite app_nil_r.
  - rewrite IH. by rewrite <-app_assoc.
Qed.

Lemma numbered_snoc log p :
  numbered (log ++ [p]) = numbered log ++ [snapshot_value p (count_in (scope_of p) log + 1)].
Proof. unfold numbered. by rewrite numbered_from_app. Qed.

Lemma published_in_snoc k log p :
  published_in k (log ++ [p]) = published_in k log ++ (if in_scope k p then [p] else []).
Proof. unfold published_in. rewrite List.filter_app. simpl. by destruct (in_scope k p). Qed.

Lemma count_in_snoc k log p :
  count_in k (log ++ [p]) = count_in k log + (if in_scope k p then 1 else 0).
Proof.
  unfold count_in. rewrite published_in_snoc, length_app. destruct (in_scope k p); simpl; lia.
Qed.

Lemma in_scope_self p : in_scope (scope_of p) p = true.
Proof. by apply bool_decide_eq_true. Qed.

Lemma numbered_ids log : rs_snapshot_id <$> numbered log = snapshot_id_of <$> log.
Proof.
  induction log as [|p log IH] using rev_ind; [done|]. by rewrite numbered_snoc, !fmap_app, IH.
Qed.

(** Within a scope the numbers are 1, 2, 3, ... *)
Lemma numbered_gapless k log :
  rs_sequence <$> List.filter (fun s => bool_decide (snapshot_scope_of s = k)) (numbered log) =
  seqZ 1 (count_in k log).
Proof.
  induction log as [|p log IH] using rev_ind; [done|].
  rewrite numbered_snoc, List.filter_app, fmap_app, IH, count_in_snoc. cbn [List.filter].
  change (bool_decide (snapshot_scope_of _ = k)) with (in_scope k p).
  destruct (in_scope k p) eqn:E; [|by rewrite app_nil_r, Z.add_0_r].
  apply bool_decide_eq_true in E as <-.
  rewrite (seqZ_app 1 _ 1) by (unfold count_in; lia). rewrite (Z.add_comm 1). reflexivity.
Qed.

(** The newest of a scope carries the scope's count. *)
Lemma numbered_last k log p :
  last (published_in k log) = Some p -> snapshot_value p (count_in k log) ∈ numbered log.
Proof.
  induction log as [|q log IH] using rev_ind; [done|].
  rewrite published_in_snoc, numbered_snoc, count_in_snoc, elem_of_app, list_elem_of_singleton.
  destruct (in_scope k q) eqn:E.
  - rewrite last_snoc. intros [= ->]. apply bool_decide_eq_true in E as <-. by right.
  - rewrite app_nil_r, Z.add_0_r. intros H. left. by apply IH.
Qed.

Lemma last_published_elem k log p :
  last (published_in k log) = Some p -> p ∈ log /\ scope_of p = k.
Proof.
  intros H%last_Some_elem_of. apply elem_of_filterb in H as [? H].
  by apply bool_decide_eq_true in H.
Qed.

(** *** Reading the dictionaries of a log *)

Lemma dget_keyed {V} (key : V -> string) (l : list V) v :
  NoDup (key <$> l) -> v ∈ l -> dget (key v) ((fun v => (key v, v)) <$> l) = Some v.
Proof.
  intros Hnd Hv. apply elem_dget.
  - unfold dkeys. by rewrite <-list_fmap_compose.
  - by apply (list_elem_of_fmap_2 (fun v => (key v, v))).
Qed.

Lemma shows_log_snapshot log r s :
  shows_log log r -> ids_distinct log -> s ∈ numbered log ->
  dget (rs_snapshot_id s) (sn_snapshots r) = Some s.
Proof.
  intros Hr Hid Hs. rewrite (log_snapshots _ _ Hr). apply dget_keyed; [|done].
  unfold ids_distinct in Hid. by rewrite numbered_ids.
Qed.

Lemma shows_log_latest log r k p :
  shows_log log r -> ids_distinct log -> last (published_in k log) = Some p ->
  dget (snapshot_id_of p) (sn_snapshots r) = Some (snapshot_value p (count_in k log)).
Proof.
  intros Hr Hid Hl. apply (shows_log_snapshot log r (snapshot_value p (count_in k log))); [done|done|].
  by apply numbered_last.
Qed.

Lemma shows_log_receipt_None log r i :
  shows_log log r -> dget i (sn_receipts r) = None <-> i ∉ sp_publication_id <$> log.
Proof.
  intros Hr. rewrite dget_None, (log_receipts _ _ Hr). unfold dkeys. by rewrite <-list_fmap_compose.
Qed.

Lemma shows_log_receipt log r i x :
  shows_log log r -> dget i (sn_receipts r) = Some x ->
  exists p, p ∈ log /\ sp_publication_id p = i /\ x = (publication_fingerprint p, snapshot_id_of p).
Proof.
  intros Hr Hx%dget_elem. rewrite (log_receipts _ _ Hr) in Hx.
  apply list_elem_of_fmap in Hx as (p&[= -> ->]&Hp). by exists p.
Qed.

Lemma numbered_elem log p : p ∈ log -> exists n, 1 <= n /\ snapshot_value p n ∈ numbered log.
Proof.
  induction log as [|q log IH] using rev_ind; [by intros ?%not_elem_of_nil|].
  rewrite numbered_snoc. intros [(n&?&?)%IH| ->%list_elem_of_singleton]%elem_of_app.
  - exists n. rewrite elem_of_app. by auto.
  - exists (count_in (scope_of q) log + 1). rewrite elem_of_app, list_elem_of_singleton.
    split; [unfold count_in; lia|by right].
Qed.

(** ** One publication *)

Definition stale (log : list SnapshotPublication) (p : SnapshotPublication) : bool :=
  match last (published_in (scope_of p) log) with
  | None => false
  | Some q => dt_lt (sp_as_of p) (sp_as_of q)
  end.

Definition next_sequence (log : list SnapshotPublication) (p : SnapshotPublication) : Z :=
  count_in (scope_of p) log + 1.

(** The repository after [p] was accepted. *)
Definition accepted (log : list SnapshotPublication) (p : SnapshotPublication)
    (r : InMemorySnapshotRepository) : InMemorySnapshotRepository :=
  mk_InMemorySnapshotRepository (dset (scope_of p) (next_sequence log p) (sn_sequences r))
    (dset (snapshot_id_of p) (snapshot_value p (next_sequence log p)) (sn_snapshots r))
    (dset (scope_of p) (snapshot_id_of p) (sn_latest r))
    (dset (sp_publication_id p) (publication_fingerprint p, snapshot_id_of p) (sn_receipts r)) false.

Lemma set_snapshot_fail_id r : set_snapshot_fail (sn_fail_next_commit r) r = r.
Proof. by destruct r. Qed.

(** A publication id seen for the first time. *)
Lemma publish_new log r p :
  shows_log log r -> ids_distinct log -> publication_valid p ->
  dget (sp_publication_id p) (sn_receipts r) = None ->
  snapshot_publish p r =
    if stale log p then (Raise StaleSnapshotPublication, r)
    else if sn_fail_next_commit r then (Raise SnapshotCommitFailure, set_snapshot_fail false r)
    else (Ok (snapshot_value p (next_sequence log p)), accepted log p r).
Proof.
  intros Hr Hid Hv Hnew. unfold snapshot_publish. rewrite Hnew.
  unfold publish_body, get_st, put_st, throw, lift, mbind, M_bind.
  assert (match dget (scope_of p) (sn_latest r) with
          | None => Ok tt
          | Some latest_id =>
              match dget latest_id (sn_snapshots r) with
              | None => Raise KeyError
              | Some latest => raise_if (dt_lt (sp_as_of p) (rs_as_of latest)) StaleSnapshotPublication
              end
          end = raise_if (stale log p) StaleSnapshotPublication) as ->.
  { rewrite (log_latest _ _ Hr). unfold stale.
    destruct (last (published_in (scope_of p) log)) as [q|] eqn:El; [|done]. cbn [fmap option_fmap option_map].
    by rewrite (shows_log_latest _ _ _ _ Hr Hid El). }
  destruct (stale log p); [cbn; by rewrite set_snapshot_fail_id|]. cbn [raise_if].
  rewrite (log_sequences _ _ Hr). fold (next_sequence log p).
  rewrite snapshot_of_value by (done || (unfold next_sequence, count_in; lia)).
  cbn [sn_fail_next_commit]. destruct (sn_fail_next_commit r); [done|].
  reflexivity.
Qed.

Lemma accepted_shows log r p :
  shows_log log r -> ids_distinct (log ++ [p]) -> sp_publication_id p ∉ sp_publication_id <$> log ->
  shows_log (log ++ [p]) (accepted log p r).
Proof.
  intros Hr Hid Hnew. split.
  - intros k. cbn [sn_sequences accepted]. rewrite dget_dset, count_in_snoc. unfold in_scope.
    destruct (decide (scope_of p = k)) as [<-|Hne].
    + by rewrite bool_decide_eq_true_2.
    + rewrite bool_decide_eq_false_2 by done. rewrite (log_sequences _ _ Hr). lia.
  - cbn [sn_snapshots accepted]. rewrite numbered_snoc, fmap_app, <-(log_snapshots _ _ Hr).
    apply dset_absent, dget_None. rewrite (log_snapshots _ _ Hr). unfold dkeys.
    rewrite <-list_fmap_compose. change (fst ∘ (fun s => (rs_snapshot_id s, s))) with rs_snapshot_id.
    rewrite numbered_ids. unfold ids_distinct in Hid. rewrite fmap_app in Hid.
    apply NoDup_app in Hid as (_&Hd&_). intros Hin. apply (Hd _ Hin). by apply list_elem_of_singleton.
  - intros k. cbn [sn_latest accepted]. rewrite dget_dset, published_in_snoc. unfold in_scope.
    destruct (decide (scope_of p = k)) as [<-|Hne].
    + by rewrite bool_decide_eq_true_2, last_snoc.
    + rewrite bool_decide_eq_false_2, app_nil_r by done. apply (log_latest _ _ Hr).
  - cbn [sn_receipts accepted]. rewrite fmap_app, <-(log_receipts _ _ Hr).
    apply dset_absent. by apply (shows_log_receipt_None log).
Qed.

Lemma shows_log_fail log r b : shows_log log r -> shows_log log (set_snapshot_fail b r).
Proof. by intros [? ? ? ?]. Qed.

(** What holds of every repository and the publications it accepted. *)
Record history_ok (log : list SnapshotPublication) (r : InMemorySnapshotRepository) : Prop := {
  hist_valid : Forall publication_valid log;
  hist_once : NoDup (sp_publication_id <$> log);
  hist_shows : shows_log log r;
  hist_order : forall k, StronglySorted (key_le sp_as_of) (published_in k log)
}.

Lemma published_order_snoc log p k :
  StronglySorted (key_le sp_as_of) (published_in k log) -> stale log p = false ->
  StronglySorted (key_le sp_as_of) (published_in k (log ++ [p])).
Proof.
  intros Hk Hs. rewrite published_in_snoc. destruct (in_scope k p) eqn:E; [|by rewrite app_nil_r].
  apply bool_decide_eq_true in E as <-. apply StronglySorted_app_2; [|done|repeat constructor].
  intros x ? Hx ->%list_elem_of_singleton. unfold stale in Hs.
  destruct (last (published_in (scope_of p) log)) as [q|] eqn:El.
  - unfold dt_lt in Hs. rewrite pylt_pyle, negb_false_iff in Hs.
    eapply pyle_trans; [|exact Hs]. by eapply (StronglySorted_last sp_as_of).
  - apply last_None in El. rewrite El in Hx. by apply not_elem_of_nil in Hx.
Qed.

Lemma publish_refused p r e r' :
  snapshot_publish p r = (Raise e, r') -> r' = set_snapshot_fail (sn_fail_next_commit r') r.
Proof.
  unfold snapshot_publish. destruct (dget (sp_publication_id p) (sn_receipts r)) as [[f i]|].
  - intros [= _ <-]. by rewrite set_snapshot_fail_id.
  - destruct (publish_body p r) as [[s|x] r1]; [done|]. by intros [= _ <-].
Qed.

Lemma publish_replayed p r s r' :
  dget (sp_publication_id p) (sn_receipts r) <> None -> snapshot_publish p r = (Ok s, r') -> r' = r.
Proof.
  unfold snapshot_publish. destruct (dget (sp_publication_id p) (sn_receipts r)) as [[f i]|]; [|done].
  by intros _ [= _ <-].
Qed.

Lemma snapshot_history_ok log r : snapshot_history log r -> ids_distinct log -> history_ok log r.
Proof.
  induction 1 as [|log r p s r' H IH Hv Hnew Hp|log r p s r' H IH Hold Hp|log r p e r' H IH Hp|log r H IH];
    intros Hid.
  - split; [done|apply NoDup_nil_2| |constructor]. by split.
  - assert (ids_distinct log) as Hid'.
    { unfold ids_distinct in *. rewrite fmap_app in Hid. by apply NoDup_app in Hid as [? _]. }
    destruct (IH Hid') as [IH1 IH2 IH3 IH4].
    rewrite (publish_new log) in Hp by done.
    destruct (stale log p) eqn:Es; [done|]. destruct (sn_fail_next_commit r); [done|].
    injection Hp as _ <-. assert (sp_publication_id p ∉ sp_publication_id <$> log) as Hni
      by by apply (shows_log_receipt_None _ r).
    split.
    + apply Forall_app. by split; [|constructor].
    + rewrite fmap_app. apply NoDup_app. split_and!; [done| |apply NoDup_singleton].
      by intros x Hx ->%list_elem_of_singleton.
    + by apply accepted_shows.
    + intros k. by apply published_order_snoc.
  - by rewrite (publish_replayed _ _ _ _ Hold Hp); apply IH.
  - destruct (IH Hid) as [? ? ? ?]. apply publish_refused in Hp as ->. split; [done|done| |done].
    by apply shows_log_fail.
  - destruct (IH Hid) as [? ? ? ?]. split; [done|done| |done]. by apply shows_log_fail.
Qed.

(** C6: A repository is the log of what it accepted: it stores every accepted publication
    once, in order of acceptance, under the next number of its scope, so the numbers of a
    scope are 1, 2, 3, ... without gaps and its times never go back, and [latest] answers
    with the one numbered last.  Refused, failed and repeated calls leave no trace.
    Snapshot ids are digests cut to 32 hexadecimal digits, and the repository keeps
    snapshots under them: the ids of the accepted publications are taken to be distinct
    ([ids_distinct]). *)
Theorem snapshots_are_a_log log r :
  snapshot_history log r -> ids_distinct log ->
  dvalues (sn_snapshots r) = numbered log /\
  NoDup (sp_publication_id <$> log) /\
  forall stream_id topic params,
    let k := (stream_id, topic, params_key_of params) in
    rs_sequence <$> List.filter (fun s => bool_decide (snapshot_scope_of s = k)) (dvalues (sn_snapshots r)) =
      seqZ 1 (count_in k log) /\
    StronglySorted (key_le sp_as_of) (published_in k log) /\
    latest_snapshot stream_id topic params r =
      Ok ((fun p => snapshot_value p (count_in k log)) <$> last (published_in k log)).
Proof.
  intros H Hid. destruct (snapshot_history_ok _ _ H Hid) as [Hv Honce Hr Hord].
  assert (dvalues (sn_snapshots r) = numbered log) as E.
  { rewrite (log_snapshots _ _ Hr). unfold dvalues. rewrite <-list_fmap_compose. apply list_fmap_id. }
  split_and!; [exact E|done|]. intros stream_id topic params k. split_and!.
  - rewrite E. apply numbered_gapless.
  - apply Hord.
  - unfold latest_snapshot. fold k. rewrite (log_latest _ _ Hr).
    destruct (last (published_in k log)) as [p|] eqn:El; [|done]. cbn [fmap option_fmap option_map].
    by rewrite (shows_log_latest _ _ _ _ Hr Hid El).
Qed.

(** What publishing does on every path.  A publication id already used answers with
    the snapshot stored for it if everything else is equal and raises the conflict
    otherwise, and changes nothing.  A new one is refused if it is older than the newest
    of its scope, fails without a trace at the failpoint, which is then gone, so that the
    retry succeeds, and is otherwise stored under the next number. *)
Theorem publish_answers log r p :
  snapshot_history log r -> ids_distinct log -> publication_valid p ->
  (exists q, q ∈ log /\ sp_publication_id q = sp_publication_id p /\
     if decide (publication_fingerprint q = publication_fingerprint p)
     then exists n, snapshot_value q n ∈ dvalues (sn_snapshots r) /\
                    snapshot_publish p r = (Ok (snapshot_value q n), r)
     else snapshot_publish p r = (Raise SnapshotIdempotencyConflict, r)) \/
  (sp_publication_id p ∉ sp_publication_id <$> log /\
   snapshot_publish p r =
     if stale log p then (Raise StaleSnapshotPublication, r)
     else if sn_fail_next_commit r then (Raise SnapshotCommitFailure, set_snapshot_fail false r)
     else (Ok (snapshot_value p (next_sequence log p)), accepted log p r)).
Proof.
  intros H Hid Hp. destruct (snapshot_history_ok _ _ H Hid) as [Hv Honce Hr Hord].
  destruct (dget (sp_publication_id p) (sn_receipts r)) as [x|] eqn:Ex; [left|right].
  - destruct (shows_log_receipt _ _ _ _ Hr Ex) as (q&Hq&Eq&->). exists q. split_and!; [done|done|].
    unfold snapshot_publish. rewrite Ex. case_decide as Ef.
    + destruct (numbered_elem _ _ Hq) as (n&_&Hn). exists n.
      pose proof (shows_log_snapshot _ _ _ Hr Hid Hn) as Hg. split.
      * apply dget_elem in Hg. unfold dvalues. by apply (list_elem_of_fmap_2 snd) in Hg.
      * rewrite bool_decide_eq_true_2 by done. cbn [rs_snapshot_id snapshot_value] in Hg. by rewrite Hg.
    + by rewrite bool_decide_eq_false_2.
  - split; [by apply (shows_log_receipt_None _ r)|]. by apply publish_new.
Qed.

Lemma max_by_recency_spec s l :
  (max_by_recency s l = s \/ max_by_recency s l ∈ l) /\
  forall x, x = s \/ x ∈ l -> pyle (recency x) (recency (max_by_recency s l)) = true.
Proof.
  revert s; induction l as [|y l IH]; intros s; simpl.
  - split; [by left|]. intros x [->|Hx%not_elem_of_nil]; [apply pyle_refl|done].
  - destruct (pylt (recency s) (recency y)) eqn:E.
    + destruct (IH y) as [H1 H2]. split.
      * right. destruct H1 as [->|?]; [left|by right].
      * intros x [->|[->|Hx]%elem_of_cons]; [|by apply H2; left|by apply H2; right].
        eapply pyle_trans; [by apply pylt_le|by apply H2; left].
    + destruct (IH s) as [H1 H2]. split.
      * destruct H1 as [->|?]; [by left|by right; right].
      * intros x [->|[->|Hx]%elem_of_cons]; [by apply H2; left| |by apply H2; right].
        rewrite pylt_pyle, negb_false_iff in E. eapply pyle_trans; [exact E|by apply H2; left].
Qed.

(** The snapshot restored for a market date is a stored snapshot of that topic,
    parameters and day not later than the close, whatever stream wrote it, and none of
    those is newer; there is none exactly when no such snapshot is stored. *)
Theorem restores_last_of_day topic params market_date as_of_until r :
  let eligible s := s ∈ dvalues (sn_snapshots r) /\ rs_topic s = topic /\
                    rs_params_key s = params_key_of params /\ rs_market_date s = market_date /\
                    dt_le (rs_as_of s) as_of_until = true in
  match latest_for_market_date topic params market_date as_of_until r with
  | Some s => eligible s /\ forall x, eligible x -> pyle (recency x) (recency s) = true
  | None => forall x, ~ eligible x
  end.
Proof.
  intros eligible.
  assert (forall x, eligible x <-> x ∈ List.filter (is_candidate topic params market_date as_of_until)
                                       (dvalues (sn_snapshots r))) as He.
  { intros x. unfold eligible, is_candidate.
    rewrite elem_of_filterb, !andb_true_iff, !bool_decide_eq_true, Z.eqb_eq. tauto. }
  unfold latest_for_market_date.
  destruct (List.filter _ _) as [|s l].
  - intros x Hx%He. by apply not_elem_of_nil in Hx.
  - destruct (max_by_recency_spec s l) as [H1 H2]. split.
    + apply He. destruct H1 as [->|?]; [left|by right].
    + intros x Hx%He. apply H2. by apply elem_of_cons.
Qed.

(** ** A concrete stream *)

Definition demo_versions : SnapshotVersions := mk_SnapshotVersions "1" "calc" "rank" "members" None.
Definition demo_time (h : Z) : datetime := mk_datetime (730000 * us_per_day + hours h) (Some 0).
Definition demo_publication (id : string) (h : Z) : SnapshotPublication :=
  mk_SnapshotPublication id "stream" TOPIC_THEME_RANK [("window", JNum 60)] 730001 (demo_time h)
    (demo_time h) LIVE ["LATE"] [("items", JList [JStr id])] demo_versions.
#[local] Abbreviation demo_log := [demo_publication "p1" 9; demo_publication "p2" 10].

Lemma demo_publication_valid id h : is_blank id = false -> publication_valid (demo_publication id h).
Proof.
  intros Hid. exists [("window", JNum 60)], ["LATE"], [("items", JList [JStr id])].
  unfold SnapshotPublication_init, require_text. cbn [sp_publication_id demo_publication].
  rewrite Hid. cbn. unfold dt_lt. by rewrite pylt_irrefl.
Qed.

Definition demo_repository : InMemorySnapshotRepository :=
  (snapshot_publish (demo_publication "p2" 10)
     (snapshot_publish (demo_publication "p1" 9) empty_snapshots).2).2.

Lemma publish_step log p r :
  snapshot_history log r -> publication_valid p -> dget (sp_publication_id p) (sn_receipts r) = None ->
  is_ok (snapshot_publish p r).1 = true -> snapshot_history (log ++ [p]) (snapshot_publish p r).2.
Proof.
  intros H Hp Hnew Hok. destruct (snapshot_publish p r) as [[s|] r'] eqn:E; [|done].
  by eapply sh_accept.
Qed.

Lemma demo_history : snapshot_history demo_log demo_repository.
Proof.
  apply (publish_step [demo_publication "p1" 9] (demo_publication "p2" 10));
    [|by apply demo_publication_valid|vm_compute; reflexivity|vm_compute; reflexivity].
  apply (publish_step [] (demo_publication "p1" 9));
    [constructor|by apply demo_publication_valid|vm_compute; reflexivity|vm_compute; reflexivity].
Qed.

Lemma demo_ids : ids_distinct demo_log.
Proof.
  unfold ids_distinct.
  assert (bool_decide (NoDup (snapshot_id_of <$> demo_log)) = true) as H by (vm_compute; reflexivity).
  by apply bool_decide_eq_true in H.
Qed.

Lemma snapshots_are_a_log_witness :
  latest_snapshot "stream" TOPIC_THEME_RANK [("window", JNum 60)] demo_repository =
    Ok (Some (snapshot_value (demo_publication "p2" 10) 2)).
Proof.
  destruct (snapshots_are_a_log demo_log demo_repository demo_history demo_ids) as (_&_&H).
  destruct (H "stream" TOPIC_THEME_RANK [("window", JNum 60)]) as (_&_&->).
  vm_compute. reflexivity.
Defined.

(** An older publication is refused, a repeated one answered. *)
Lemma publish_answers_witness :
  snapshot_publish (demo_publication "p3" 8) demo_repository =
    (Raise StaleSnapshotPublication, demo_repository) /\
  exists s, snapshot_publish (demo_publication "p1" 9) demo_repository = (Ok s, demo_repository).
Proof.
  split.
  - destruct (publish_answers demo_log demo_repository (demo_publication "p3" 8) demo_history demo_ids
                (demo_publication_valid "p3" 8 eq_refl)) as [(q&Hq&E&_)|[_ E]].
    + exfalso. apply elem_of_cons in Hq as [->| ->%list_elem_of_singleton]; discriminate E.
    + rewrite E. assert (stale demo_log (demo_publication "p3" 8) = true) as -> by (vm_compute; reflexivity).
      reflexivity.
  - destruct (publish_answers demo_log demo_repository (demo_publication "p1" 9) demo_history demo_ids
                (demo_publication_valid "p1" 9 eq_refl)) as [(q&Hq&E&H)|[Hn _]].
    + apply elem_of_cons in Hq as [->| ->%list_elem_of_singleton]; [|discriminate E].
      rewrite decide_True in H by reflexivity. destruct H as (n&_&H). by eexists.
    + exfalso. apply Hn. left.
Defined.
