(* ===== verification/RealtimeReaders.v ===== *)
(** [packages/realtime], the [from_dict]s of hot states, cursors, checkpoints, dirty themes,
    hysteresis states and snapshots: what was saved with [to_dict] is read back. *)
From S2P Require Import Prelude PyTime PyTimeFacts PyDecimal Json JsonRead Domain EventModels Outbox EventReaders.
From S2P Require Import RealtimeModels HotState HotCheckpoint Hysteresis Aggregation Snapshots.
#[local] Open Scope Z_scope.

(** ** Hot states and their checkpoints *)

(** The decimals are read before [__post_init__] checks them. *)
(* @ packages/realtime/models.py 137-152 HotStockState.__post_init__ *)
Definition HotStockState_init (stock_id : string) (market_date : date) (version : Z) (source : string)
    (source_sequence : Z) (occurred_at received_at : datetime)
    (current_price cumulative_trading_value : option decimal)
    (fresh trading_halted corporate_action_unresolved : bool) (last_message_id : string)
    (lineage : list LineageRef) : res HotStockState :=
  _ ← require_texts [stock_id; source; last_message_id];
  _ ← raise_if (version <? 1) ValueError;
  _ ← require_source source_sequence occurred_at received_at;
  o ← StockMarketObservation_init stock_id market_date occurred_at current_price cumulative_trading_value
        fresh trading_halted corporate_action_unresolved;
  Ok (mk_HotStockState stock_id market_date version source source_sequence occurred_at received_at
        (mo_current_price o) (mo_cumulative_trading_value o) fresh trading_halted
        corporate_action_unresolved last_message_id lineage).

(* @ packages/realtime/models.py 205-231 HotStockState.from_dict *)
Definition HotStockState_from_dict (value : dict string json) : res HotStockState :=
  lineage ← item_get "lineage" value;
  lineage ← as_list lineage;
  stock_id ← field "stockId" read_text value;
  market_date ← field "marketDate" read_day value;
  version ← field "version" read_int value;
  source ← field "source" read_text value;
  source_sequence ← field "sourceSequence" read_int value;
  occurred_at ← field "occurredAt" read_stamp value;
  received_at ← field "receivedAt" read_stamp value;
  current_price ← field_or_none "currentPrice" (read_opt read_dec) value;
  cumulative_trading_value ← field_or_none "cumulativeTradingValue" (read_opt read_dec) value;
  fresh ← field "fresh" read_bool value;
  trading_halted ← field "tradingHalted" read_bool value;
  corporate_action_unresolved ← field "corporateActionUnresolved" read_bool value;
  last_message_id ← field "lastMessageId" read_text value;
  lineage ← mapM_res from_json lineage;
  HotStockState_init stock_id market_date version source source_sequence occurred_at received_at
    current_price cumulative_trading_value fresh trading_halted corporate_action_unresolved
    last_message_id lineage.

(* @ packages/realtime/models.py 277-285 SourceCursor.from_dict *)
Definition SourceCursor_from_dict (value : dict string json) : res SourceCursor :=
  market_date ← field "marketDate" read_day value;
  stock_id ← field "stockId" read_text value;
  source ← field "source" read_text value;
  source_sequence ← field "sourceSequence" read_int value;
  received_at ← field "receivedAt" read_stamp value;
  SourceCursor_check (mk_SourceCursor market_date stock_id source source_sequence received_at).

Record storable_state (h : HotStockState) : Prop := {
  sh_check : HotStockState_check h = Ok h;
  sh_market_date : is_date (hs_market_date h);
  sh_occurred_at : is_datetime (hs_occurred_at h);
  sh_received_at : is_datetime (hs_received_at h);
  sh_lineage : Forall storable (hs_lineage h)
}.
Record storable_cursor (c : SourceCursor) : Prop := {
  su_check : SourceCursor_check c = Ok c;
  su_market_date : is_date (cu_market_date c);
  su_received_at : is_datetime (cu_received_at c)
}.

#[export] Instance HotStockState_stored : Stored HotStockState := {
  to_json := HotStockState_to_dict;
  from_json j := d ← as_dict j; HotStockState_from_dict d;
  storable := storable_state
}.
#[export] Instance SourceCursor_stored : Stored SourceCursor := {
  to_json := SourceCursor_to_dict;
  from_json j := d ← as_dict j; SourceCursor_from_dict d;
  storable := storable_cursor
}.

(** A message with its fingerprint. *)
(* @ packages/realtime/models.py 314-317 HotStateCheckpoint.to_dict *)
Definition processed_to_dict (m : string * string) : json :=
  JObj [("messageId", JStr m.1); ("fingerprint", JStr m.2)].
(* @ packages/realtime/models.py 326-330 HotStateCheckpoint.from_dict *)
Definition processed_from_dict (value : dict string json) : res (string * string) :=
  message_id ← field "messageId" read_text value;
  fingerprint ← field "fingerprint" read_text value;
  Ok (message_id, fingerprint).
#[export] Instance processed_stored : Stored (string * string) := {
  to_json := processed_to_dict;
  from_json j := d ← as_dict j; processed_from_dict d;
  storable _ := True
}.

(* @ packages/realtime/models.py 317-338 HotStateCheckpoint.from_dict *)
Definition HotStateCheckpoint_from_dict (value : dict string json) : res HotStateCheckpoint :=
  states ← item_get "states" value;
  processed ← item_get "processedMessages" value;
  cursors ← item_get "sourceCursors" value;
  states ← as_list states;
  processed ← as_list processed;
  cursors ← as_list cursors;
  processed_pairs ← mapM_res from_json processed;
  checkpoint_version ← field "checkpointVersion" read_text value;
  created_at ← field "createdAt" read_stamp value;
  as_of ← field "asOf" read_stamp value;
  states ← mapM_res from_json states;
  source_cursors ← mapM_res from_json cursors;
  HotStateCheckpoint_check
    (mk_HotStateCheckpoint checkpoint_version created_at as_of states processed_pairs source_cursors).

Record storable_checkpoint (c : HotStateCheckpoint) : Prop := {
  sk_check : HotStateCheckpoint_check c = Ok c;
  sk_created_at : is_datetime (hc_created_at c);
  sk_as_of : is_datetime (hc_as_of c);
  sk_states : Forall storable (hc_states c);
  sk_cursors : Forall storable (hc_source_cursors c)
}.
#[export] Instance HotStateCheckpoint_stored : Stored HotStateCheckpoint := {
  to_json := HotStateCheckpoint_to_dict;
  from_json j := d ← as_dict j; HotStateCheckpoint_from_dict d;
  storable := storable_checkpoint
}.

Lemma finite_nonneg_again (x : option decimal) y : finite_nonneg x = Ok y -> finite_nonneg (Finite <$> y) = Ok y.
Proof.
  unfold finite_nonneg. destruct x as [x|]; [|by intros [= <-]]. intros E.
  apply res_bind_ok in E as (d&_&E). apply res_bind_ok in E as (?&E1&[= <-]). cbn. by rewrite E1.
Qed.

Lemma finite_nonneg_written (d : option dec) y : finite_nonneg (Finite <$> d) = Ok y -> y = d.
Proof.
  unfold finite_nonneg. destruct d as [d|]; cbn; [|by intros [= <-]].
  intros E. by apply res_bind_ok in E as (?&_&[= <-]).
Qed.

(** The checks of a state that already is one. *)
Lemma HotStockState_init_check h :
  HotStockState_check h = Ok h ->
  HotStockState_init (hs_stock_id h) (hs_market_date h) (hs_version h) (hs_source h) (hs_source_sequence h)
    (hs_occurred_at h) (hs_received_at h) (Finite <$> hs_current_price h)
    (Finite <$> hs_cumulative_trading_value h) (hs_fresh h) (hs_trading_halted h)
    (hs_corporate_action_unresolved h) (hs_last_message_id h) (hs_lineage h) = Ok h.
Proof.
  unfold HotStockState_check, HotStockState_init. intros E.
  apply res_bind_ok in E as (?&->&E). apply res_bind_ok in E as (?&->&E). apply res_bind_ok in E as (?&->&E).
  apply res_bind_ok in E as (o&Ho&_). unfold to_observation in Ho. cbn. rewrite Ho. cbn.
  unfold StockMarketObservation_init in Ho. apply res_bind_ok in Ho as (?&_&Ho). apply res_bind_ok in Ho as (?&_&Ho).
  apply res_bind_ok in Ho as (p&Hp&Ho). apply res_bind_ok in Ho as (v&Hv&[= <-]). cbn.
  apply finite_nonneg_written in Hp as ->. apply finite_nonneg_written in Hv as ->. by destruct h.
Qed.

Lemma HotStockState_read h :
  storable_state h -> HotStockState_from_dict (written (fields_of (HotStockState_to_dict h))) = Ok h.
Proof.
  intros [Hc Hd Ho Hr Hl]. unfold HotStockState_from_dict. take_item. read_shape.
  do 13 read_field. read_step (read_stored_list _ Hl). by apply HotStockState_init_check.
Qed.
#[export] Instance HotStockState_laws : StoredLaws HotStockState.
Proof. intros h Hh. by apply HotStockState_read. Qed.

#[export] Instance SourceCursor_laws : StoredLaws SourceCursor.
Proof.
  intros c [Hc Hd Hr]. change (SourceCursor_from_dict (written (fields_of (SourceCursor_to_dict c))) = Ok c).
  unfold SourceCursor_from_dict. do 5 read_field. by destruct c.
Qed.
#[export] Instance processed_laws : StoredLaws (string * string).
Proof.
  intros m _. change (processed_from_dict (written (fields_of (processed_to_dict m))) = Ok m).
  unfold processed_from_dict. do 2 read_field. by destruct m.
Qed.

#[export] Instance HotStateCheckpoint_laws : StoredLaws HotStateCheckpoint.
Proof.
  intros c [Hc H1 H2 Hs Hu].
  change (HotStateCheckpoint_from_dict (written (fields_of (HotStateCheckpoint_to_dict c))) = Ok c).
  unfold HotStateCheckpoint_from_dict. do 3 take_item. do 3 read_shape.
  assert (Forall storable (hc_processed_messages c)) as Hp by by apply Forall_true.
  read_step (read_stored_list _ Hp). do 3 read_field. read_step (read_stored_list _ Hs).
  read_step (read_stored_list _ Hu). by destruct c.
Qed.

(** Updates with the days and times Python has. *)
Record storable_update (u : StockRealtimeUpdate) : Prop := {
  sd_valid : update_valid u;
  sd_market_date : is_date (ru_market_date u);
  sd_occurred_at : is_datetime (ru_occurred_at u);
  sd_received_at : is_datetime (ru_received_at u);
  sd_lineage : Forall storable (ru_lineage u)
}.

(** Everything a store holds can be saved. *)
Record storable_hot (s : HotStateStore) : Prop := {
  st_states : forall k h, dget k (hot_states s) = Some h -> storable_state h;
  st_cursors : forall k c, dget k (hot_source_cursors s) = Some c -> storable_cursor c
}.

Lemma storable_hot_of u v : storable_update u -> 1 <= v -> storable_state (hot_of u v).
Proof.
  intros [Hv Hd Ho Hr Hl] Hle. split; try done. rewrite <-(from_update_ok u v) by done. unfold from_update.
  fold (hot_of u v). unfold HotStockState_check. by destruct (_ ≫= _).
Qed.

Lemma storable_next_cursor u s :
  storable_update u -> hot_ok s -> storable_hot s -> storable_cursor (next_cursor u s).
Proof.
  intros [Hv Hd Ho Hr Hl] Hs [_ Hcur]. split; [|done|].
  - unfold SourceCursor_check. pose proof (next_cursor_aware u s Hv Hs) as Ha.
    apply update_valid_facts in Hv as (Ht&Hsrc&_). apply require_texts_ok in Ht.
    rewrite !Forall_cons in Ht. destruct Ht as (_&Ht1&Ht2&_).
    assert (require_texts [cu_stock_id (next_cursor u s); cu_source (next_cursor u s)] = Ok tt) as ->
      by (apply require_texts_ok; by repeat constructor).
    apply require_source_ok in Hsrc as (Hseq&_). cbn [mbind res_bind].
    unfold require_aware. rewrite Ha. cbn [cu_source_sequence next_cursor].
    replace (ru_source_sequence u <? 0) with false by lia. done.
  - unfold next_cursor. cbn. destruct (dget _ _) as [c|] eqn:E; [|done].
    destruct (pymax_cases (cu_received_at c) (ru_received_at u)) as [->| ->]; [|done]. apply (Hcur _ _ E).
Qed.

Lemma after_storable u s :
  storable_update u -> hot_ok s -> storable_hot s -> storable_hot (after u s).
Proof.
  intros Hu Hs Hst. rewrite after_cases by (by destruct Hu). case_decide; [done|].
  destruct Hst as [H1 H2] eqn:E. split.
  - intros k h. rewrite decided_states. case_decide as Ek; [|apply H1]. intros [= <-].
    apply storable_hot_of; [done|]. unfold next_version. destruct (dget _ _) as [h|] eqn:Eh; [|done].
    pose proof (hot_state_ok _ Hs _ _ Eh). lia.
  - intros k c. rewrite decided_cursors. case_decide; [|apply H2]. intros [= <-].
    by apply storable_next_cursor.
Qed.

Lemma run_storable us s :
  Forall storable_update us -> hot_ok s -> storable_hot s -> storable_hot (run us s).
Proof.
  intros Hus. revert s. induction Hus as [|u us Hu _ IH]; intros s Hs Hst; [done|]. cbn. apply IH.
  - apply after_ok; [by destruct Hu|done].
  - by apply after_storable.
Qed.

Lemma sorted_values_storable {K V} `{PyOrd K, EqDecision K} (P : V -> Prop) (d : dict K V) :
  (forall k v, dget k d = Some v -> P v) -> Forall P (sorted_values d).
Proof.
  intros Hd. unfold sorted_values. apply Forall_forall. intros v Hv.
  apply list_elem_of_omap in Hv as (k&_&Hk). by apply (Hd k).
Qed.

(** A checkpoint that could be taken can be saved. *)
Lemma checkpoint_storable s created c :
  hot_ok s -> storable_hot s -> is_datetime created -> checkpoint created s = Ok c -> storable_checkpoint c.
Proof.
  intros Hs [Hst Hcu] Hcr Hc. unfold checkpoint in Hc. set (times := _ ++ _) in Hc.
  pose proof Hc as Hc'. unfold HotStateCheckpoint_check in Hc'. repeat apply res_bind_ok in Hc' as (?&_&Hc').
  injection Hc' as Ec. rewrite Ec in Hc. rewrite <-Ec.
  split; [by rewrite Ec|done| |by apply sorted_values_storable|by apply sorted_values_storable]. cbn.
  destruct (max_default_elem created times) as [->|Hin]; [done|].
  revert Hin. generalize (max_default created times). intros t Hin.
  apply elem_of_app in Hin as [Ht|Ht]; apply list_elem_of_fmap in Ht as (z&->&Hx);
    unfold dvalues in Hx; apply list_elem_of_fmap in Hx as ([k y]&->&Hx);
    (apply elem_dget in Hx; [|apply Hs]); [apply (Hst _ _ Hx)|apply (Hcu _ _ Hx)].
Qed.

(** C31: A checkpoint survives its text.  After any updates with days and times Python has, a
    checkpoint can be taken once all of its data is past; its text reads back as the same
    checkpoint, which restores a store that holds the same states and answers every later
    update like the one that was saved. *)
Theorem checkpoint_survives_text us s created :
  Forall storable_update us -> s = run us empty_hot -> is_datetime created -> is_aware created = true ->
  (forall k h, dget k (hot_states s) = Some h -> dt_le (hs_received_at h) created = true) ->
  (forall k c, dget k (hot_source_cursors s) = Some c -> dt_le (cu_received_at c) created = true) ->
  exists c s', checkpoint created s = Ok c /\
    (d ← as_dict (normalize (HotStateCheckpoint_to_dict c)); HotStateCheckpoint_from_dict d) = Ok c /\
    restore c = Ok s' /\
    forall later, Forall update_valid later ->
      (forall market_date stock_id,
         get market_date stock_id (run later s') = get market_date stock_id (run later s)) /\
      forall u, update_valid u -> (apply u (run later s')).1 = (apply u (run later s)).1.
Proof.
  intros Hus Es Hcr Ha H1 H2.
  assert (Forall update_valid us) as Hval by (eapply Forall_impl; [exact Hus|by intros u []]).
  assert (hot_ok s) as Hs by (subst s; apply run_ok; [done|apply hot_ok_empty]).
  assert (storable_hot s) as Hst by (subst s; apply run_storable; [done|apply hot_ok_empty|done]).
  destruct (checkpoint_ok created s Hs Ha H1 H2) as (as_of&Hc).
  destruct (restore_ok s created as_of Hs) as (s'&Hr&E&Hs'). symmetry in E.
  eexists _, s'. split; [exact Hc|]. split; [|split; [exact Hr|]].
  - change (from_json (normalize (to_json (mk_HotStateCheckpoint HOT_STATE_CHECKPOINT_VERSION created as_of
      (sorted_values (hot_states s)) (sorted_by id (hot_processed_messages s))
      (sorted_values (hot_source_cursors s))))) = Ok (mk_HotStateCheckpoint HOT_STATE_CHECKPOINT_VERSION created as_of
      (sorted_values (hot_states s)) (sorted_by id (hot_processed_messages s))
      (sorted_values (hot_source_cursors s)))).
    apply stored_read. by apply (checkpoint_storable s created).
  - intros later Hlater. pose proof (run_equiv later _ _ Hlater Hs' Hs E) as Er. split.
    + intros md id. apply (equiv_states _ _ Er).
    + intros u Hu. apply apply_equiv; [done|by apply run_ok|by apply run_ok|done].
Qed.

(** ** Dirty themes *)

(* @ packages/realtime/aggregation.py 110-116 DirtyTheme.from_dict *)
Definition DirtyTheme_from_dict (value : dict string json) : res DirtyTheme :=
  theme_id ← field "themeId" read_text value;
  market_date ← field "marketDate" read_day value;
  as_of ← field "asOf" read_stamp value;
  DirtyTheme_check (mk_DirtyTheme theme_id market_date as_of).

Record storable_dirty (d : DirtyTheme) : Prop := {
  sy_check : DirtyTheme_check d = Ok d;
  sy_market_date : is_date (dy_market_date d);
  sy_as_of : is_datetime (dy_as_of d)
}.
#[export] Instance DirtyTheme_stored : Stored DirtyTheme := {
  to_json := DirtyTheme_to_dict;
  from_json j := d ← as_dict j; DirtyTheme_from_dict d;
  storable := storable_dirty
}.
#[export] Instance DirtyTheme_laws : StoredLaws DirtyTheme.
Proof.
  intros t [Hc Hd Ha]. change (DirtyTheme_from_dict (written (fields_of (DirtyTheme_to_dict t))) = Ok t).
  unfold DirtyTheme_from_dict. do 3 read_field. by destruct t.
Qed.

(* @ packages/realtime/aggregation.py 149-158 DirtyThemeCheckpoint.from_dict *)
Definition DirtyThemeCheckpoint_from_dict (value : dict string json) : res DirtyThemeCheckpoint :=
  entries ← item_get "entries" value;
  entries ← as_list entries;
  checkpoint_version ← field "checkpointVersion" read_text value;
  created_at ← field "createdAt" read_stamp value;
  entries ← mapM_res from_json entries;
  DirtyThemeCheckpoint_check (mk_DirtyThemeCheckpoint checkpoint_version created_at entries).

Record storable_dirty_checkpoint (c : DirtyThemeCheckpoint) : Prop := {
  sq_check : DirtyThemeCheckpoint_check c = Ok c;
  sq_created_at : is_datetime (dc_created_at c);
  sq_entries : Forall storable (dc_entries c)
}.
#[export] Instance DirtyThemeCheckpoint_stored : Stored DirtyThemeCheckpoint := {
  to_json := DirtyThemeCheckpoint_to_dict;
  from_json j := d ← as_dict j; DirtyThemeCheckpoint_from_dict d;
  storable := storable_dirty_checkpoint
}.
#[export] Instance DirtyThemeCheckpoint_laws : StoredLaws DirtyThemeCheckpoint.
Proof.
  intros c [Hc Hd He].
  change (DirtyThemeCheckpoint_from_dict (written (fields_of (DirtyThemeCheckpoint_to_dict c))) = Ok c).
  unfold DirtyThemeCheckpoint_from_dict. take_item. read_shape. do 2 read_field.
  read_step (read_stored_list _ He). by destruct c.
Qed.

(** ** Hysteresis states *)

(* @ packages/realtime/hysteresis.py 165-189 HysteresisState.from_dict *)
Definition HysteresisState_from_dict (value : dict string json) : res HysteresisState :=
  let parse name := field_or_none name (read_opt read_stamp) value in
  theme_id ← field "themeId" read_text value;
  lifecycle_status ← field "lifecycleStatus" (read_enum LifecycleStatus_value LifecycleStatus_members) value;
  policy_version ← field "policyVersion" read_text value;
  last_sequence ← field "lastSequence" read_int value;
  last_evaluated_at ← parse "lastEvaluatedAt";
  last_input_id ← field_or_none "lastInputId" (read_opt read_text) value;
  last_input_fingerprint ← field_or_none "lastInputFingerprint" (read_opt read_text) value;
  candidate_since ← parse "candidateSince";
  below_since ← parse "belowSince";
  weakening_since ← parse "weakeningSince";
  weakening_below_since ← parse "weakeningBelowSince";
  HysteresisState_check
    (mk_HysteresisState theme_id lifecycle_status policy_version last_sequence last_evaluated_at
       last_input_id last_input_fingerprint candidate_since below_since weakening_since
       weakening_below_since).

Definition opt_datetime (d : option datetime) : Prop := forall t, d = Some t -> is_datetime t.

Record storable_hysteresis (s : HysteresisState) : Prop := {
  sx_check : HysteresisState_check s = Ok s;
  sx_last_evaluated_at : opt_datetime (hy_last_evaluated_at s);
  sx_candidate_since : opt_datetime (hy_candidate_since s);
  sx_below_since : opt_datetime (hy_below_since s);
  sx_weakening_since : opt_datetime (hy_weakening_since s);
  sx_weakening_below_since : opt_datetime (hy_weakening_below_since s)
}.
#[export] Instance HysteresisState_stored : Stored HysteresisState := {
  to_json := HysteresisState_to_dict;
  from_json j := d ← as_dict j; HysteresisState_from_dict d;
  storable := storable_hysteresis
}.

Lemma read_opt_stamp_written d :
  opt_datetime d -> read_opt read_stamp (normalize (JOpt (isoformat <$> d))) = Ok d.
Proof.
  intros Hd. destruct d as [d|]; [|done]. cbn. unfold read_stamp. cbn [py_str].
  by rewrite fromisoformat_iso by by apply Hd.
Qed.
#[export] Hint Resolve read_opt_stamp_written : stored.

#[export] Instance HysteresisState_laws : StoredLaws HysteresisState.
Proof.
  intros s [Hc H1 H2 H3 H4 H5].
  change (HysteresisState_from_dict (written (fields_of (HysteresisState_to_dict s))) = Ok s).
  unfold HysteresisState_from_dict. cbv zeta. do 11 read_field. by destruct s.
Qed.

(** ** Read snapshots *)

(* @ packages/realtime/snapshots.py 88-100 SnapshotVersions.from_dict *)
Definition SnapshotVersions_from_dict (value : dict string json) : res SnapshotVersions :=
  schema_version ← field "schemaVersion" read_text value;
  calculation_version ← field "calculationVersion" read_text value;
  ranking_model_version ← field "rankingModelVersion" read_text value;
  membership_version ← field "membershipVersion" read_text value;
  baseline_version ← field_or_none "baselineVersion" (read_opt read_text) value;
  SnapshotVersions_check
    (mk_SnapshotVersions schema_version calculation_version ranking_model_version membership_version
       baseline_version).

Definition SnapshotTopic_members := [TOPIC_THEME_RANK; TOPIC_THEME_TREEMAP; TOPIC_EVENT_STATE_CHANGED].
Definition DataStatus_members := [PREOPEN; LIVE; DELAYED; DEGRADED; DATA_CLOSED].

(* @ packages/realtime/snapshots.py 220-244 ReadSnapshot.from_dict *)
Definition ReadSnapshot_from_dict (value : dict string json) : res ReadSnapshot :=
  payload ← item_get "payload" value;
  versions ← item_get "versions" value;
  flags ← item_get "qualityFlags" value;
  payload ← as_dict payload;
  versions ← as_dict versions;
  flags ← as_list flags;
  snapshot_id ← field "snapshotId" read_text value;
  publication_id ← field "publicationId" read_text value;
  stream_id ← field "streamId" read_text value;
  topic ← field "topic" (read_enum SnapshotTopic_value SnapshotTopic_members) value;
  params_key ← field "paramsKey" read_text value;
  sequence ← field "sequence" read_int value;
  market_date ← field "marketDate" read_day value;
  generated_at ← field "generatedAt" read_stamp value;
  as_of ← field "asOf" read_stamp value;
  data_status ← field "dataStatus" (read_enum DataStatus_value DataStatus_members) value;
  let quality_flags := py_str <$> flags in
  versions ← SnapshotVersions_from_dict versions;
  content_hash ← field "contentHash" read_text value;
  ReadSnapshot_init
    (mk_ReadSnapshot snapshot_id publication_id stream_id topic params_key sequence market_date
       generated_at as_of data_status quality_flags payload versions content_hash).

#[export] Instance SnapshotVersions_stored : Stored SnapshotVersions := {
  to_json := SnapshotVersions_to_dict;
  from_json j := d ← as_dict j; SnapshotVersions_from_dict d;
  storable v := SnapshotVersions_check v = Ok v
}.
Lemma SnapshotVersions_read v :
  SnapshotVersions_check v = Ok v ->
  SnapshotVersions_from_dict (written (fields_of (SnapshotVersions_to_dict v))) = Ok v.
Proof. intros Hv. unfold SnapshotVersions_from_dict. do 5 read_field. by destruct v. Qed.
#[export] Instance SnapshotVersions_laws : StoredLaws SnapshotVersions.
Proof. intros v Hv. by apply SnapshotVersions_read. Qed.

Lemma read_topic t : read_enum SnapshotTopic_value SnapshotTopic_members (normalize (JStr (SnapshotTopic_value t))) = Ok t.
Proof. by destruct t. Qed.
Lemma read_data_status s : read_enum DataStatus_value DataStatus_members (normalize (JStr (DataStatus_value s))) = Ok s.
Proof. by destruct s. Qed.
Lemma read_utc_written d :
  0 <= instant d < max_ordinal * us_per_day -> read_stamp (normalize (JStr (utc_iso d))) = Ok (in_utc d).
Proof. apply fromisoformat_utc. Qed.
#[export] Hint Resolve read_topic read_data_status read_utc_written : stored.

(** The text keeps the instants of a snapshot, in UTC. *)
Definition snapshot_in_utc (s : ReadSnapshot) : ReadSnapshot :=
  mk_ReadSnapshot (rs_snapshot_id s) (rs_publication_id s) (rs_stream_id s) (rs_topic s) (rs_params_key s)
    (rs_sequence s) (rs_market_date s) (in_utc (rs_generated_at s)) (in_utc (rs_as_of s)) (rs_data_status s)
    (rs_quality_flags s) (rs_payload s) (rs_versions s) (rs_content_hash s).

Record storable_snapshot (s : ReadSnapshot) : Prop := {
  sp_init : ReadSnapshot_init s = Ok s;
  sp_snapshot_versions : SnapshotVersions_check (rs_versions s) = Ok (rs_versions s);
  sp_date : is_date (rs_market_date s);
  sp_generated : 0 <= instant (rs_generated_at s) < max_ordinal * us_per_day;
  sp_as_of_utc : 0 <= instant (rs_as_of s) < max_ordinal * us_per_day
}.

Lemma ReadSnapshot_init_utc s : ReadSnapshot_init s = Ok s -> ReadSnapshot_init (snapshot_in_utc s) = Ok (snapshot_in_utc s).
Proof.
  unfold ReadSnapshot_init. cbn. rewrite !dt_lt_Z, !instant_utc. intros E.
  apply res_bind_ok in E as (?&->&E). apply res_bind_ok in E as (?&->&E). cbn. unfold snapshot_in_utc.
  injection E as E. pose proof (f_equal rs_quality_flags E) as Ef. pose proof (f_equal rs_payload E) as Ep.
  cbn in Ef, Ep. rewrite Ef. unfold copy_json_object in *. by rewrite Ep.
Qed.

Lemma ReadSnapshot_read s :
  storable_snapshot s ->
  ReadSnapshot_from_dict (written (fields_of (ReadSnapshot_to_dict s))) = Ok (snapshot_in_utc s).
Proof.
  intros [Hi Hv Hd Hg Ha]. pose proof (ReadSnapshot_init_utc _ Hi) as Hu.
  assert (copy_json_object (rs_payload s) = rs_payload s) as Ep.
  { unfold ReadSnapshot_init in Hi. repeat apply res_bind_ok in Hi as (?&_&Hi). injection Hi as E.
    exact (f_equal rs_payload E). }
  unfold ReadSnapshot_from_dict. do 3 take_item. do 3 read_shape. do 10 read_field. cbv zeta.
  read_step (SnapshotVersions_read _ Hv). read_field.
  etrans; [|exact Hu]. unfold snapshot_in_utc. do 2 f_equal; [|exact Ep].
  clear. induction (rs_quality_flags s) as [|f l IH]; [done|]. cbn. f_equal. exact IH.
Qed.

(** A snapshot survives its text.  What is read back from the text of a snapshot is the
    snapshot with its times in UTC, and clients are sent the same message. *)
Theorem snapshot_survives_text s subscription_id :
  storable_snapshot s ->
  exists s', (d ← as_dict (normalize (ReadSnapshot_to_dict s)); ReadSnapshot_from_dict d) = Ok s' /\
    to_ws_message subscription_id s' = to_ws_message subscription_id s /\
    dt_eqb (rs_as_of s') (rs_as_of s) = true /\ dt_eqb (rs_generated_at s') (rs_generated_at s) = true /\
    rs_snapshot_id s' = rs_snapshot_id s /\ rs_sequence s' = rs_sequence s /\ rs_content_hash s' = rs_content_hash s.
Proof.
  intros Hs. exists (snapshot_in_utc s).
  split; [by apply ReadSnapshot_read|].
  split_and!; try done; [|unfold dt_eqb; cbn; rewrite instant_utc; apply Z.eqb_refl..].
  unfold to_ws_message. cbn. unfold utc_iso. by rewrite !instant_utc.
Qed.

(** Events survive their text.  The result of a write, with the event, its classification,
    lineage and versions, and the message announcing it are read back from their text as they
    were, when their times are ones Python has; what is read passes the checks of its
    constructor. *)
Theorem event_records_survive_text (r : EventWriteResult) (m : OutboxMessage) :
  storable r -> storable m ->
  (d ← as_dict (normalize (EventWriteResult_to_dict r)); EventWriteResult_from_dict d) = Ok r /\
  (d ← as_dict (normalize (OutboxMessage_to_dict m)); OutboxMessage_from_dict d) = Ok m.
Proof. intros Hr Hm. split; [exact (stored_read r Hr)|exact (stored_read m Hm)]. Qed.

(** ** Concrete records *)

Lemma demo_at_datetime second : 0 <= second < 3600 -> is_datetime (demo_at second).
Proof.
  intros Hs. split.
  - unfold demo_at. cbn [dt_local]. replace (ymd2ord 2026 8 14) with 739842 by (vm_compute; reflexivity).
    unfold hours, minutes, seconds, max_ordinal, us_per_day. lia.
  - intros off [= <-]. split; vm_compute; reflexivity.
Qed.

Lemma demo_storable_update id sequence second price :
  is_blank id = false -> 0 <= sequence -> 0 <= second < 3600 -> storable_update (demo_update id sequence second price).
Proof.
  intros Hid Hseq Hs. split; [by apply demo_update_valid|split; vm_compute; discriminate| | |constructor];
    by apply demo_at_datetime.
Qed.

Lemma checkpoint_survives_text_witness :
  exists c s', checkpoint (demo_at 99) demo_hot = Ok c /\
    (d ← as_dict (normalize (HotStateCheckpoint_to_dict c)); HotStateCheckpoint_from_dict d) = Ok c /\
    restore c = Ok s' /\ (apply demo_b s').1 = (apply demo_b demo_hot).1.
Proof.
  assert (Forall storable_update [demo_a; demo_c]) as Hus
    by (apply Forall_cons; split; [|apply Forall_singleton]; by apply demo_storable_update).
  destruct (checkpoint_survives_text [demo_a; demo_c] demo_hot (demo_at 99) Hus eq_refl) as (c&s'&Hc&Ht&Hr&H).
  - by apply demo_at_datetime.
  - reflexivity.
  - intros k h Hh. apply dget_elem in Hh. vm_compute in Hh.
    apply list_elem_of_singleton in Hh as [= _ ->]. reflexivity.
  - intros k h Hh. apply dget_elem in Hh. vm_compute in Hh.
    apply list_elem_of_singleton in Hh as [= _ ->]. reflexivity.
  - exists c, s'. split_and!; [exact Hc|exact Ht|exact Hr|].
    apply (proj2 (H [] (List.Forall_nil _))). apply demo_update_valid; done.
Defined.

Definition demo_snapshot : ReadSnapshot :=
  mk_ReadSnapshot "snap-1" "pub-1" "stream" TOPIC_THEME_RANK "params-1" 1 (ymd2ord 2026 8 14)
    (demo_at 20) (demo_at 10) LIVE ["A"; "B"] [("items", JList [JNum 1])]
    (mk_SnapshotVersions "s1" "c1" "r1" "m1" None) "hash".

Lemma snapshot_survives_text_witness :
  storable_snapshot demo_snapshot /\
  exists s', (d ← as_dict (normalize (ReadSnapshot_to_dict demo_snapshot)); ReadSnapshot_from_dict d) = Ok s' /\
    to_ws_message "sub-1" s' = to_ws_message "sub-1" demo_snapshot /\ rs_sequence s' = 1.
Proof.
  assert (storable_snapshot demo_snapshot) as Hs
    by (split; [reflexivity|reflexivity|split; vm_compute; discriminate|split; vm_compute; done|split; vm_compute; done]).
  split; [exact Hs|]. destruct (snapshot_survives_text demo_snapshot "sub-1" Hs) as (s'&E&Hw&_&_&_&Hn&_).
  exists s'. split_and!; [exact E|exact Hw|exact Hn].
Defined.

Definition demo_text_event : CanonicalEvent :=
  mk_CanonicalEvent "evt-1" "key-1" (ymd2ord 2026 8 14) "battery" "PRICE_ACTION" ACTIVE REC_PENDING 2 "policy-1"
    (mk_EventClassification 1 "battery" "Battery" INFOSTOCK_THEME CERT_PROVISIONAL LIVE_ENGINE (demo_at 10))
    (demo_at 10) (demo_at 20) "pipeline" 7 (demo_at 21) [mk_LineageRef "stock" "005930" None (Some "h")]
    (mk_EventVersions "c1" "r1" "m1" None).
Definition demo_text_result : EventWriteResult := mk_EventWriteResult demo_text_event APPLIED (Some "msg-1").
Definition demo_text_message : OutboxMessage :=
  mk_OutboxMessage "msg-1" "EVENT_CREATED" "1" "evt-1" (demo_at 20) (demo_at 21) "dayjaview.events" "corr-1" None
    (JObj [("eventId", JStr "evt-1"); ("stateVersion", JNum 2)]).

Lemma event_records_survive_text_witness :
  (d ← as_dict (normalize (EventWriteResult_to_dict demo_text_result)); EventWriteResult_from_dict d) =
    Ok demo_text_result /\
  (d ← as_dict (normalize (OutboxMessage_to_dict demo_text_message)); OutboxMessage_from_dict d) =
    Ok demo_text_message.
Proof.
  apply event_records_survive_text.
  - split; try (by apply demo_at_datetime); [reflexivity|split; vm_compute; discriminate| | |reflexivity].
    + split; [reflexivity|by apply demo_at_datetime].
    + by apply Forall_singleton.
  - split; [reflexivity|by apply demo_at_datetime..].
Defined.
