(* ===== verification/KiwoomEvents.v ===== *)
(** [packages/adapters/kiwoom/contract.py]: what the brokerage adapter hands over, and the
    canonical market events made of it. *)
From S2P Require Import Prelude PyTime PyDecimal Json.
#[local] Open Scope Z_scope.

(** ** Stock ids *)

Definition code_char (a : ascii) : bool :=
  let n := N_of_ascii a in
  ((48 <=? n) && (n <=? 57))%N || ((65 <=? n) && (n <=? 90))%N.

(** [STOCK_CODE_RE.fullmatch(code)] *)
(* @ packages/adapters/kiwoom/contract.py 18-18 STOCK_CODE_RE *)
Definition STOCK_CODE_RE (code : list ascii) : bool := (length code =? 6)%nat && forallb code_char code.

Definition stock_code_ok (code : string) : bool := STOCK_CODE_RE (String.list_ascii_of_string code).

Definition stock_id_ok (value : string) : bool :=
  let '(prefix, separator, code) := partition c_colon (String.list_ascii_of_string value) in
  bool_decide (prefix = String.list_ascii_of_string "KRX") && separator && STOCK_CODE_RE code.

(* @ packages/adapters/kiwoom/contract.py 27-30 require_stock_id *)
Definition require_stock_id (value : string) : res unit := raise_if (negb (stock_id_ok value)) ValueError.

Example stock_id_letters : require_stock_id "KRX:0001A0" = Ok tt.
Proof. reflexivity. Qed.
Example stock_id_short : require_stock_id "KRX:00593" = Raise ValueError.
Proof. reflexivity. Qed.

Lemma stock_id_of_code code : stock_id_ok ("KRX:" +:+ code) = stock_code_ok code.
Proof. reflexivity. Qed.

(** ** Enumerations *)

(* @ packages/adapters/kiwoom/contract.py 33-35 SourceChannel *)
Inductive SourceChannel := WEBSOCKET | REST_SNAPSHOT.
#[export] Instance SourceChannel_eq_dec : EqDecision SourceChannel.
Proof. solve_decision. Defined.
(* @ packages/adapters/kiwoom/contract.py 33-35 SourceChannel *)
Definition SourceChannel_value (c : SourceChannel) : string :=
  match c with WEBSOCKET => "KIWOOM_WEBSOCKET" | REST_SNAPSHOT => "KIWOOM_REST_SNAPSHOT" end.

(* @ packages/adapters/kiwoom/contract.py 38-42 CanonicalEventType *)
Inductive CanonicalEventType := CANDIDATE_ENTERED | CANDIDATE_EXITED | TRADE | SNAPSHOT.
#[export] Instance CanonicalEventType_eq_dec : EqDecision CanonicalEventType.
Proof. solve_decision. Defined.
(* @ packages/adapters/kiwoom/contract.py 38-42 CanonicalEventType *)
Definition CanonicalEventType_value (t : CanonicalEventType) : string :=
  match t with
  | CANDIDATE_ENTERED => "market.candidate.entered"
  | CANDIDATE_EXITED => "market.candidate.exited"
  | TRADE => "market.trade"
  | SNAPSHOT => "market.snapshot"
  end.

(* @ packages/adapters/kiwoom/contract.py 45-47 CandidateAction *)
Inductive CandidateAction := ENTER | EXIT.
#[export] Instance CandidateAction_eq_dec : EqDecision CandidateAction.
Proof. solve_decision. Defined.
(* @ packages/adapters/kiwoom/contract.py 45-47 CandidateAction *)
Definition CandidateAction_value (a : CandidateAction) : string :=
  match a with ENTER => "ENTER" | EXIT => "EXIT" end.

(* @ packages/adapters/kiwoom/contract.py 50-52 ObservationSource *)
Inductive ObservationSource := REALTIME_0B | REST_KA10095.
#[export] Instance ObservationSource_eq_dec : EqDecision ObservationSource.
Proof. solve_decision. Defined.
(* @ packages/adapters/kiwoom/contract.py 50-52 ObservationSource *)
Definition ObservationSource_value (s : ObservationSource) : string :=
  match s with REALTIME_0B => "REALTIME_0B" | REST_KA10095 => "REST_KA10095" end.

(** ** Connections and envelopes *)

(** [live_validation] has one value. *)
(* @ packages/adapters/kiwoom/contract.py 59-67 AdapterCapabilities *)
Record AdapterCapabilities := mk_AdapterCapabilities {
  cap_read_only : bool;
  cap_market_data : bool;
  cap_condition_search : bool;
  cap_snapshot_supplement : bool;
  cap_orders : bool;
  cap_accounts : bool
}.
(** [AdapterCapabilities()] *)
(* @ packages/adapters/kiwoom/contract.py 59-67 AdapterCapabilities *)
Definition default_capabilities : AdapterCapabilities := mk_AdapterCapabilities true true true true false false.

(* @ packages/adapters/kiwoom/contract.py 70-73 KiwoomConnection *)
Record KiwoomConnection := mk_KiwoomConnection { kc_session_id : string; kc_connected_at : datetime }.

(* @ packages/adapters/kiwoom/contract.py 75-78 KiwoomConnection.__post_init__ *)
Definition KiwoomConnection_init (session_id : string) (connected_at : datetime) : res KiwoomConnection :=
  _ ← raise_if (is_empty session_id) ValueError;
  _ ← require_aware connected_at;
  Ok (mk_KiwoomConnection session_id connected_at).

(* @ packages/adapters/kiwoom/contract.py 81-94 KiwoomSourceEnvelope *)
Record KiwoomSourceEnvelope := mk_KiwoomSourceEnvelope {
  en_source_schema_version : string;
  en_channel : SourceChannel;
  en_session_id : string;
  en_source_message_id : string;
  en_source_sequence : Z;
  en_source_timestamp : datetime;
  en_received_at : datetime;
  en_market_date : date;
  en_payload : dict string json;
  en_request_id : option string
}.

(* @ packages/adapters/kiwoom/contract.py 96-104 KiwoomSourceEnvelope.__post_init__ *)
Definition KiwoomSourceEnvelope_check (e : KiwoomSourceEnvelope) : res KiwoomSourceEnvelope :=
  _ ← raise_if (is_empty (en_source_schema_version e)) ValueError;
  _ ← raise_if (is_empty (en_session_id e) || is_empty (en_source_message_id e)) ValueError;
  _ ← raise_if (en_source_sequence e <? 0) ValueError;
  _ ← require_aware (en_source_timestamp e);
  _ ← require_aware (en_received_at e);
  Ok e.

(** ** Canonical events *)

(* @ packages/adapters/kiwoom/contract.py 107-117 EventLineage *)
Record EventLineage := mk_EventLineage {
  li_provider : string;
  li_adapter_version : string;
  li_source_schema_version : string;
  li_source_channel : SourceChannel;
  li_session_id : string;
  li_source_message_id : string;
  li_source_item_index : Z;
  li_request_id : option string;
  li_raw_payload_sha256 : string
}.

(* @ packages/adapters/kiwoom/contract.py 119-125 EventLineage.__post_init__ *)
Definition EventLineage_check (l : EventLineage) : res EventLineage :=
  _ ← raise_if (negb (bool_decide (li_provider l = "KIWOOM"))) ValueError;
  _ ← raise_if (li_source_item_index l <? 0) ValueError;
  _ ← raise_if (negb (py_len (li_raw_payload_sha256 l) =? 64)) ValueError;
  Ok l.

(* @ packages/adapters/kiwoom/contract.py 128-132 CandidateData *)
Record CandidateData := mk_CandidateData {
  cd_action : CandidateAction;
  cd_condition_id : string;
  cd_source_stock_code : string
}.

(* @ packages/adapters/kiwoom/contract.py 134-138 CandidateData.__post_init__ *)
Definition CandidateData_check (c : CandidateData) : res CandidateData :=
  _ ← raise_if (is_empty (cd_condition_id c)) ValueError;
  _ ← raise_if (negb (stock_code_ok (cd_source_stock_code c))) ValueError;
  Ok c.

(** The numbers are finite: they come from the normalizer, which has refused the others. *)
(* @ packages/adapters/kiwoom/contract.py 141-159 MarketObservation *)
Record MarketObservation := mk_MarketObservation {
  ob_observation_source : ObservationSource;
  ob_source_stock_code : string;
  ob_current_price : option dec;
  ob_change_rate : option dec;
  ob_base_price : option dec;
  ob_trade_volume : option Z;
  ob_cumulative_volume : option Z;
  ob_cumulative_trading_value : option dec;
  ob_open_price : option dec;
  ob_high_price : option dec;
  ob_low_price : option dec;
  ob_execution_strength : option dec;
  ob_market_cap : option dec;
  ob_missing_fields : list string
}.

Definition negative_dec (x : option dec) : bool := match x with Some d => dlt d dzero | None => false end.
Definition negative_int (x : option Z) : bool := match x with Some n => n <? 0 | None => false end.

(* @ packages/adapters/kiwoom/contract.py 161-185 MarketObservation.__post_init__ *)
Definition MarketObservation_check (o : MarketObservation) : res MarketObservation :=
  _ ← raise_if (negb (stock_code_ok (ob_source_stock_code o))) ValueError;
  _ ← raise_if (existsb negative_dec
                  [ob_current_price o; ob_base_price o; ob_cumulative_trading_value o; ob_open_price o;
                   ob_high_price o; ob_low_price o; ob_market_cap o]) ValueError;
  _ ← raise_if (existsb negative_int [ob_trade_volume o; ob_cumulative_volume o]) ValueError;
  _ ← raise_if (negb (bool_decide (sorted_set (ob_missing_fields o) = ob_missing_fields o))) ValueError;
  Ok o.

(** [CandidateData | MarketObservation] *)
(* @ packages/adapters/kiwoom/contract.py 188-199 CanonicalMarketEvent *)
Inductive EventData := OfCandidate (c : CandidateData) | OfObservation (o : MarketObservation).

(* @ packages/adapters/kiwoom/contract.py 188-199 CanonicalMarketEvent *)
Record CanonicalMarketEvent := mk_CanonicalMarketEvent {
  me_schema_version : string;
  me_event_id : string;
  me_idempotency_key : string;
  me_event_type : CanonicalEventType;
  me_stock_id : string;
  me_source_sequence : Z;
  me_source_timestamp : datetime;
  me_received_at : datetime;
  me_lineage : EventLineage;
  me_data : EventData
}.

(* @ packages/adapters/kiwoom/contract.py 11-11 CANONICAL_EVENT_SCHEMA_VERSION *)
Definition CANONICAL_EVENT_SCHEMA_VERSION : string := "market-event.v1".
(* @ packages/adapters/kiwoom/contract.py 13-13 ADAPTER_VERSION *)
Definition ADAPTER_VERSION : string := "kiwoom-read-only.v1".

(** The data is of the kind the type of the event asks for. *)
(* @ packages/adapters/kiwoom/contract.py 201-222 CanonicalMarketEvent.__post_init__ *)
Definition data_fits (t : CanonicalEventType) (d : EventData) : bool :=
  match t, d with
  | (CANDIDATE_ENTERED | CANDIDATE_EXITED), OfCandidate _ => true
  | (TRADE | SNAPSHOT), OfObservation _ => true
  | _, _ => false
  end.

(* @ packages/adapters/kiwoom/contract.py 201-222 CanonicalMarketEvent.__post_init__ *)
Definition CanonicalMarketEvent_check (e : CanonicalMarketEvent) : res CanonicalMarketEvent :=
  _ ← raise_if (negb (bool_decide (me_schema_version e = CANONICAL_EVENT_SCHEMA_VERSION))) ValueError;
  _ ← raise_if (negb (String.prefix "mkt_" (me_event_id e))) ValueError;
  _ ← raise_if (negb (String.prefix "kiwoom:" (me_idempotency_key e))) ValueError;
  _ ← require_stock_id (me_stock_id e);
  _ ← raise_if (me_source_sequence e <? 0) ValueError;
  _ ← require_aware (me_source_timestamp e);
  _ ← require_aware (me_received_at e);
  _ ← raise_if (negb (data_fits (me_event_type e) (me_data e))) ValueError;
  Ok e.

Definition is_observation (e : CanonicalMarketEvent) : bool :=
  match me_data e with OfObservation _ => true | OfCandidate _ => false end.

(** [format(value, "f")]: all digits, no exponent. *)
Definition fixed_dec (d : dec) : string :=
  let d := if (dcoef d =? 0)%N && (0 <? dexp d) then mk_dec (dneg d) 0 0 else d in
  let digits := str_Z (Z.of_N (dcoef d)) in
  let n := Z.of_nat (String.length digits) in
  let zeros k := String.string_of_list_ascii (replicate (Z.to_nat k) (chr 48)) in
  let body :=
    if 0 <=? dexp d then digits +:+ zeros (dexp d)
    else
      let point := n + dexp d in
      if point <=? 0 then "0." +:+ zeros (- point) +:+ digits
      else String.substring 0 (Z.to_nat point) digits +:+ "." +:+
           String.substring (Z.to_nat point) (Z.to_nat (n - point)) digits in
  (if dneg d then "-" else "") +:+ body.

Example fixed_dec_ex : fixed_dec (mk_dec true 1205 (-2)) = "-12.05" /\ fixed_dec (mk_dec false 12 2) = "1200".
Proof. by vm_compute. Qed.

(* @ packages/adapters/kiwoom/contract.py 278-279 _decimal_text *)
Definition decimal_text (x : option dec) : json :=
  match x with None => JNull | Some d => JStr (fixed_dec d) end.

Definition int_json (x : option Z) : json := match x with None => JNull | Some n => JNum n end.

(* @ packages/adapters/kiwoom/contract.py 228-275 CanonicalMarketEvent.to_dict *)
Definition EventData_to_dict (d : EventData) : json :=
  match d with
  | OfCandidate c =>
      JObj [("action", JStr (CandidateAction_value (cd_action c)));
            ("conditionId", JStr (cd_condition_id c));
            ("sourceStockCode", JStr (cd_source_stock_code c))]
  | OfObservation o =>
      JObj [("observationSource", JStr (ObservationSource_value (ob_observation_source o)));
            ("sourceStockCode", JStr (ob_source_stock_code o));
            ("currentPrice", decimal_text (ob_current_price o));
            ("changeRate", decimal_text (ob_change_rate o));
            ("basePrice", decimal_text (ob_base_price o));
            ("tradeVolume", int_json (ob_trade_volume o));
            ("cumulativeVolume", int_json (ob_cumulative_volume o));
            ("cumulativeTradingValue", decimal_text (ob_cumulative_trading_value o));
            ("openPrice", decimal_text (ob_open_price o));
            ("highPrice", decimal_text (ob_high_price o));
            ("lowPrice", decimal_text (ob_low_price o));
            ("executionStrength", decimal_text (ob_execution_strength o));
            ("marketCap", decimal_text (ob_market_cap o));
            ("missingFields", JList (JStr <$> ob_missing_fields o))]
  end.

(* @ packages/adapters/kiwoom/contract.py 228-275 CanonicalMarketEvent.to_dict *)
Definition CanonicalMarketEvent_to_dict (e : CanonicalMarketEvent) : json :=
  let l := me_lineage e in
  JObj [("schemaVersion", JStr (me_schema_version e)); ("eventId", JStr (me_event_id e));
        ("idempotencyKey", JStr (me_idempotency_key e));
        ("type", JStr (CanonicalEventType_value (me_event_type e)));
        ("stockId", JStr (me_stock_id e)); ("sourceSequence", JNum (me_source_sequence e));
        ("sourceTimestamp", JStr (isoformat (me_source_timestamp e)));
        ("receivedAt", JStr (isoformat (me_received_at e)));
        ("lineage",
         JObj [("provider", JStr (li_provider l)); ("adapterVersion", JStr (li_adapter_version l));
               ("sourceSchemaVersion", JStr (li_source_schema_version l));
               ("sourceChannel", JStr (SourceChannel_value (li_source_channel l)));
               ("sessionId", JStr (li_session_id l)); ("sourceMessageId", JStr (li_source_message_id l));
               ("sourceItemIndex", JNum (li_source_item_index l)); ("requestId", JOpt (li_request_id l));
               ("rawPayloadSha256", JStr (li_raw_payload_sha256 l))]);
        ("data", EventData_to_dict (me_data e))].
