(* ===== verification/KiwoomNormalizer.v ===== *)
(** [packages/adapters/kiwoom/normalizer.py]: the rows of a brokerage message become canonical
    events with hashes as ids, or the whole message is refused. *)
From Stdlib Require Import QArith.
From S2P Require Import Prelude PyTime PyTimeFacts PyDecimal DecimalFacts Json DecimalText DecimalContext JsonRead Sha256 Sha256Facts PyUnicode KiwoomEvents.
#[local] Open Scope Z_scope.

(** ** Texts and numbers of the feed *)

(** [text.replace(c, "")] *)
Definition without_char (c : ascii) (s : string) : string :=
  String.string_of_list_ascii (List.filter (fun a => negb (bool_decide (a = c))) (chars s)).

(** [str(value or "")], where [None] is a key that is not there. *)
Definition text_or_empty (v : option json) : string :=
  match v with Some j => if truthy j then py_str j else "" | None => "" end.

(** [a or b] *)
Definition or_else (a b : option json) : option json :=
  match a with Some j => if truthy j then a else b | None => b end.

(* @ packages/adapters/kiwoom/normalizer.py 321-322 _canonical_json *)
Definition canonical_json (row : dict string json) : string := dumps false (JObj row).

(* @ packages/adapters/kiwoom/normalizer.py 325-333 _mapping_rows *)
Definition mapping_rows (value : option json) : res (list (dict string json)) :=
  match value with
  | Some (JList rows) =>
      mapM_res (fun row => match row with JObj fields => Ok fields | _ => Raise NormalizationError end) rows
  | _ => Raise NormalizationError
  end.

(* @ packages/adapters/kiwoom/normalizer.py 336-339 _as_mapping *)
Definition as_mapping (value : option json) : res (dict string json) :=
  match value with Some (JObj fields) => Ok fields | _ => Raise NormalizationError end.

(* @ packages/adapters/kiwoom/normalizer.py 342-347 _stock_code *)
Definition stock_code (value : option json) : res string :=
  let text := remove_prefix "A" (upper (strip (text_or_empty value))) in
  _ ← raise_if (negb (py_len text =? 6) || negb (isdigit text)) NormalizationError;
  Ok text.

Example stock_code_foreign : stock_code (Some (JStr "A００５９３０")) = Ok "００５９３０".
Proof. vm_compute. reflexivity. Qed.

(** The text of a number without separators and percent signs. *)
Definition number_text (value : option json) : string :=
  without_char (chr 37) (without_char (chr 44) (strip (text_or_empty value))).

(** [abs] may overflow, which is not caught. *)
(* @ packages/adapters/kiwoom/normalizer.py 350-360 _decimal *)
Definition decimal_of (absolute : bool) (value : option json) : res (option dec) :=
  let text := number_text value in
  if is_empty text then Ok None
  else
    match decimal_of_text (ascii_digits text) with
    | Ok (Finite d) => if absolute then r ← dabs d; Ok (Some r) else Ok (Some d)
    | _ => Raise NormalizationError
    end.

(** [d.to_integral_value()], ties to even. *)
Definition to_integral_value (d : dec) : dec :=
  if 0 <=? dexp d then d else mk_dec (dneg d) (div_half_even (dcoef d) (p10N (- dexp d))) 0.

(** [int(d)], towards zero. *)
Definition int_of_dec (d : dec) : Z :=
  if 0 <=? dexp d then dZ d * 10 ^ dexp d else Z.quot (dZ d) (10 ^ (- dexp d)).

(* @ packages/adapters/kiwoom/normalizer.py 363-369 _integer *)
Definition integer_of (absolute : bool) (value : option json) : res (option Z) :=
  parsed ← decimal_of absolute value;
  match parsed with
  | None => Ok None
  | Some d =>
      _ ← raise_if (negb (deq d (to_integral_value d))) NormalizationError;
      Ok (Some (int_of_dec d))
  end.

Example decimal_signed : decimal_of true (Some (JStr " -71,500 ")) = Ok (Some (dec_of_Z 71500)).
Proof. vm_compute. reflexivity. Qed.
Example decimal_foreign : decimal_of true (Some (JStr "７１,５００")) = Ok (Some (dec_of_Z 71500)).
Proof. vm_compute. reflexivity. Qed.
Example decimal_dash : decimal_of false (Some (JStr "-")) = Raise NormalizationError.
Proof. vm_compute. reflexivity. Qed.
Example integer_fraction : integer_of false (Some (JStr "1.5")) = Raise NormalizationError.
Proof. vm_compute. reflexivity. Qed.
Example integer_scaled : integer_of false (Some (JStr "12.0")) = Ok (Some 12).
Proof. vm_compute. reflexivity. Qed.

(** ** Events *)

(* @ packages/adapters/kiwoom/normalizer.py 265-273 _base_price *)
Definition base_price_of (current_price change_from_previous : option dec) : res (option dec) :=
  match current_price, change_from_previous with
  | Some current, Some change =>
      base ← dminus current change; Ok (if dlt dzero base then Some base else None)
  | _, _ => Ok None
  end.

(* @ packages/adapters/kiwoom/normalizer.py 226-262 _observation *)
Definition missing_fields_of (current_price cumulative_trading_value : option dec) : list string :=
  sorted_by id
    (omap (fun '(name, value) => match value with None => Some name | Some _ => None end)
       [("currentPrice", current_price); ("cumulativeTradingValue", cumulative_trading_value : option dec)]).

(* @ packages/adapters/kiwoom/normalizer.py 226-262 _observation *)
Definition observation (source : ObservationSource) (stock_code : string)
    (current_price change_rate base_price : option dec) (trade_volume cumulative_volume : option Z)
    (cumulative_trading_value open_price high_price low_price execution_strength market_cap : option dec)
    : res MarketObservation :=
  MarketObservation_check
    (mk_MarketObservation source stock_code current_price change_rate base_price trade_volume
       cumulative_volume cumulative_trading_value open_price high_price low_price execution_strength
       market_cap (missing_fields_of current_price cumulative_trading_value)).

(** [d.astimezone(UTC).isoformat()], where the time in UTC has a year from 1 to 9999; there is
    no such time otherwise. *)
Definition utc_in_range (d : datetime) : bool := (0 <=? instant d) && (instant d <? max_ordinal * us_per_day).
Definition utc_isoformat (d : datetime) : string := isoformat (mk_datetime (instant d) (Some 0)).

(** What identifies an event. *)
(* @ packages/adapters/kiwoom/normalizer.py 276-318 _make_event *)
Definition natural_key (e : KiwoomSourceEnvelope) (item_index : Z) (event_type : CanonicalEventType)
    (stock_code : string) (data : EventData) : dict string json :=
  [("sessionId", JStr (en_session_id e)); ("type", JStr (CanonicalEventType_value event_type));
   ("stockId", JStr ("KRX:" +:+ stock_code)); ("sourceTimestamp", JStr (utc_isoformat (en_source_timestamp e)));
   ("sourceSequence", JNum (en_source_sequence e)); ("sourceItemIndex", JNum item_index)] ++
  match data with OfCandidate c => [("conditionId", JStr (cd_condition_id c))] | OfObservation _ => [] end.

(* @ packages/adapters/kiwoom/normalizer.py 276-318 _make_event *)
Definition make_event (e : KiwoomSourceEnvelope) (raw_item : dict string json) (item_index : Z)
    (event_type : CanonicalEventType) (stock_code : string) (data : EventData) : res CanonicalMarketEvent :=
  raw ← encode_utf8 (canonical_json raw_item);
  let raw_hash := sha256_hex raw in
  _ ← raise_if (negb (utc_in_range (en_source_timestamp e))) OverflowError;
  key ← encode_utf8 (canonical_json (natural_key e item_index event_type stock_code data));
  let digest := sha256_hex key in
  lineage ← EventLineage_check
    (mk_EventLineage "KIWOOM" ADAPTER_VERSION (en_source_schema_version e) (en_channel e) (en_session_id e)
       (en_source_message_id e) item_index (en_request_id e) raw_hash);
  CanonicalMarketEvent_check
    (mk_CanonicalMarketEvent CANONICAL_EVENT_SCHEMA_VERSION ("mkt_" +:+ str_take 26 digest)
       ("kiwoom:" +:+ digest) event_type ("KRX:" +:+ stock_code) (en_source_sequence e)
       (en_source_timestamp e) (en_received_at e) lineage data).

(* @ packages/adapters/kiwoom/normalizer.py 119-149 KiwoomNormalizer._candidate_event *)
Definition candidate_event (e : KiwoomSourceEnvelope) (row : dict string json) (item_index : Z)
    (condition_id : string) (action : CandidateAction) : res CanonicalMarketEvent :=
  let values := match dget "values" row with Some (JObj fields) => fields | _ => [] end in
  code ← stock_code (or_else (or_else (dget "item" row) (dget "9001" values)) (dget "stk_cd" row));
  _ ← raise_if (is_empty condition_id) NormalizationError;
  data ← CandidateData_check (mk_CandidateData action condition_id code);
  make_event e row item_index (match action with ENTER => CANDIDATE_ENTERED | EXIT => CANDIDATE_EXITED end)
    code (OfCandidate data).

(* @ packages/adapters/kiwoom/normalizer.py 151-185 KiwoomNormalizer._trade_event *)
Definition trade_event (e : KiwoomSourceEnvelope) (item values : dict string json) (item_index : Z)
    : res CanonicalMarketEvent :=
  code ← stock_code (or_else (dget "item" item) (dget "9001" values));
  current_price ← decimal_of true (dget "10" values);
  change_rate ← decimal_of false (dget "12" values);
  change ← decimal_of false (dget "11" values);
  base_price ← base_price_of current_price change;
  trade_volume ← integer_of true (dget "15" values);
  cumulative_volume ← integer_of true (dget "13" values);
  cumulative_trading_value ← decimal_of true (dget "14" values);
  open_price ← decimal_of true (dget "16" values);
  high_price ← decimal_of true (dget "17" values);
  low_price ← decimal_of true (dget "18" values);
  execution_strength ← decimal_of true (dget "228" values);
  market_cap ← decimal_of true (dget "311" values);
  o ← observation REALTIME_0B code current_price change_rate base_price trade_volume cumulative_volume
        cumulative_trading_value open_price high_price low_price execution_strength market_cap;
  make_event e item item_index TRADE code (OfObservation o).

(** [a or b] for the given base price and the one made of the change: zero is no base price. *)
(* @ packages/adapters/kiwoom/normalizer.py 187-223 KiwoomNormalizer._snapshot_event *)
Definition snapshot_base_price (row : dict string json) : res (option dec) :=
  given ← decimal_of true (dget "base_pric" row);
  if match given with Some d => negb (dcoef d =? 0)%N | None => false end then Ok given
  else
    current ← decimal_of true (dget "cur_prc" row);
    change ← decimal_of false (dget "pred_pre" row);
    base_price_of current change.

(* @ packages/adapters/kiwoom/normalizer.py 187-223 KiwoomNormalizer._snapshot_event *)
Definition snapshot_event (e : KiwoomSourceEnvelope) (row : dict string json) (item_index : Z)
    : res CanonicalMarketEvent :=
  code ← stock_code (or_else (dget "stk_cd" row) (dget "code" row));
  current_price ← decimal_of true (dget "cur_prc" row);
  change_rate ← decimal_of false (dget "flu_rt" row);
  base_price ← snapshot_base_price row;
  trade_volume ← integer_of true (dget "trde_qty" row);
  cumulative_volume ← integer_of true (dget "acc_trde_qty" row);
  cumulative_trading_value ← decimal_of true (dget "acc_trde_prica" row);
  open_price ← decimal_of true (dget "open_pric" row);
  high_price ← decimal_of true (dget "high_pric" row);
  low_price ← decimal_of true (dget "low_pric" row);
  execution_strength ← decimal_of true (dget "cntr_str" row);
  market_cap ← decimal_of true (dget "mac" row);
  o ← observation REST_KA10095 code current_price change_rate base_price trade_volume cumulative_volume
        cumulative_trading_value open_price high_price low_price execution_strength market_cap;
  make_event e row item_index SNAPSHOT code (OfObservation o).

(** ** Messages *)

(** [enumerate(rows)] *)
Definition enumerate {A} (l : list A) : list (Z * A) := imap (fun i a => (Z.of_nat i, a)) l.

(** The event of one item of a [REAL] message; other types of items are passed over. *)
(* @ packages/adapters/kiwoom/normalizer.py 54-101 KiwoomNormalizer._normalize_websocket *)
Definition real_item (e : KiwoomSourceEnvelope) (index : Z) (item : dict string json)
    : res (option CanonicalMarketEvent) :=
  let event_type := text_or_empty (dget "type" item) in
  values ← as_mapping (dget "values" item);
  if bool_decide (event_type = "0B") then
    event ← trade_event e item values index; Ok (Some event)
  else if bool_decide (event_type = "02") then
    let action_code := upper (text_or_empty (dget "843" values)) in
    action ← (if bool_decide (action_code = "I") then Ok ENTER
              else if bool_decide (action_code = "D") then Ok EXIT
              else Raise NormalizationError);
    event ← candidate_event e item index (strip (text_or_empty (dget "841" values))) action;
    Ok (Some event)
  else Ok None.

(* @ packages/adapters/kiwoom/normalizer.py 54-101 KiwoomNormalizer._normalize_websocket *)
Definition normalize_websocket (e : KiwoomSourceEnvelope) : res (list CanonicalMarketEvent) :=
  let transaction := upper (text_or_empty (dget "trnm" (en_payload e))) in
  let raw_data := dget "data" (en_payload e) in
  if bool_decide (transaction = "CNSRREQ") then
    rows ← mapping_rows raw_data;
    let condition_id := strip (text_or_empty (dget "seq" (en_payload e))) in
    _ ← raise_if (is_empty condition_id) NormalizationError;
    mapM_res (fun '(i, row) => candidate_event e row i condition_id ENTER) (enumerate rows)
  else if negb (bool_decide (transaction = "REAL")) then Ok []
  else
    items ← mapping_rows raw_data;
    events ← mapM_res (fun '(i, item) => real_item e i item) (enumerate items);
    Ok (@omap list _ _ _ id events).

(* @ packages/adapters/kiwoom/normalizer.py 103-117 KiwoomNormalizer._normalize_snapshot *)
Definition normalize_snapshot (e : KiwoomSourceEnvelope) : res (list CanonicalMarketEvent) :=
  let api_id := text_or_empty (dget "apiId" (en_payload e)) in
  _ ← raise_if (negb (bool_decide (api_id = "ka10095"))) NormalizationError;
  let raw_rows := match dget "rows" (en_payload e) with
                  | None | Some JNull => dget "atn_stk_infr" (en_payload e)
                  | rows => rows
                  end in
  rows ← mapping_rows raw_rows;
  mapM_res (fun '(i, row) => snapshot_event e row i) (enumerate rows).

(* @ packages/adapters/kiwoom/normalizer.py 31-37 KiwoomNormalizer *)
Definition SOURCE_SCHEMA_BY_CHANNEL (c : SourceChannel) : string :=
  match c with WEBSOCKET => "kiwoom.websocket.v1" | REST_SNAPSHOT => "kiwoom.ka10095.v1" end.

(* @ packages/adapters/kiwoom/normalizer.py 39-52 KiwoomNormalizer.normalize *)
Definition normalize (e : KiwoomSourceEnvelope) : res (list CanonicalMarketEvent) :=
  _ ← raise_if (negb (bool_decide (en_source_schema_version e = SOURCE_SCHEMA_BY_CHANNEL (en_channel e))))
        NormalizationError;
  match en_channel e with
  | WEBSOCKET => normalize_websocket e
  | REST_SNAPSHOT => normalize_snapshot e
  end.

(** ** What a message may be refused with *)

(** The value is read as a number of at least [10^k]. *)
Definition large (k : Z) (value : option json) : Prop :=
  exists d, decimal_of_text (ascii_digits (number_text value)) = Ok (Finite d) /\ reaches k d.

(** The errors of [normalize], and what of the message they are due to.  The normalization
    error is the one its callers expect.  The others are not caught: a stock code of six digits
    that are not all ASCII, a number beyond the exponents of the context or just below them, a
    text that UTF-8 cannot encode, and a source time without a time in UTC. *)
Inductive refusal (e : KiwoomSourceEnvelope) : exn -> Prop :=
  | rf_contract : refusal e NormalizationError
  | rf_digits v c :
      v ∈ values_of (JObj (en_payload e)) -> stock_code (Some v) = Ok c -> is_digits c = false ->
      refusal e ValueError
  | rf_number v :
      v ∈ values_of (JObj (en_payload e)) -> large (Emax - 3) (Some v) -> refusal e DecimalOverflow
  | rf_text t :
      t = en_session_id e \/ t ∈ texts_of (JObj (en_payload e)) \/
      (exists v, v ∈ values_of (JObj (en_payload e)) /\ t = strip (py_str v)) ->
      has_surrogate t = true -> refusal e UnicodeEncodeError
  | rf_time : utc_in_range (en_source_timestamp e) = false -> refusal e OverflowError.

(** None of them is one the gateway and the runner look for. *)
Lemma refusal_cases e x :
  refusal e x -> x ∈ [NormalizationError; ValueError; DecimalOverflow; UnicodeEncodeError; OverflowError].
Proof. intros []; set_solver. Qed.

Section refusals.
Context (e : KiwoomSourceEnvelope).

(** [r] has a result with [P], or is refused. *)
Definition normalizing {A} (P : A -> Prop) (r : res A) : Prop :=
  match r with Ok a => P a | Raise x => refusal e x end.

Lemma normalizing_bind {A B} (P : A -> Prop) (Q : B -> Prop) r (f : A -> res B) :
  normalizing P r -> (forall a, P a -> normalizing Q (f a)) -> normalizing Q (r ≫= f).
Proof. destruct r as [a|x]; cbn; auto. Qed.

Lemma normalizing_weaken {A} (P Q : A -> Prop) r : normalizing P r -> (forall a, P a -> Q a) -> normalizing Q r.
Proof. destruct r; cbn; auto. Qed.

Lemma normalizing_raise_if c : normalizing (fun _ => c = false) (raise_if c NormalizationError).
Proof. destruct c; [apply rf_contract|done]. Qed.

Lemma normalizing_mapM {A B} (P : A -> B -> Prop) (f : A -> res B) l :
  (forall a, a ∈ l -> normalizing (P a) (f a)) -> normalizing (Forall2 P l) (mapM_res f l).
Proof.
  induction l as [|a l IH]; intros H; [by constructor|]. simpl.
  eapply normalizing_bind; [apply H; left|]. intros b Hb.
  eapply normalizing_bind; [apply IH; intros; apply H; by right|]. intros k Hk. by constructor.
Qed.

(** ** Values of the payload *)

Definition inside (j : json) : Prop :=
  values_of j ⊆ values_of (JObj (en_payload e)) /\ texts_of j ⊆ texts_of (JObj (en_payload e)).
Definition within (v : option json) : Prop := match v with Some j => inside j | None => True end.

Lemma inside_value j : inside j -> j ∈ values_of (JObj (en_payload e)).
Proof. intros [H _]. apply H, values_of_self. Qed.

Lemma inside_payload : inside (JObj (en_payload e)).
Proof. done. Qed.

Lemma within_field k fields : inside (JObj fields) -> within (dget k fields).
Proof.
  intros [H1 H2]. destruct (dget k fields) as [v|] eqn:E; [|done]. apply dget_elem in E.
  split; etransitivity; [by eapply values_of_field|done|by eapply texts_of_field|done].
Qed.

Lemma inside_item l j : inside (JList l) -> j ∈ l -> inside j.
Proof.
  intros [H1 H2] Hj. split; etransitivity; [by apply values_of_list|done|by apply texts_of_list|done].
Qed.

Lemma within_or_else a b : within a -> within b -> within (or_else a b).
Proof. destruct a as [a|]; [|done]. cbn. by destruct (truthy a). Qed.

(** ** Rows *)

Lemma stock_code_answers v : normalizing (fun c => stock_code v = Ok c) (stock_code v).
Proof.
  destruct (stock_code v) as [c|x] eqn:E; [done|]. unfold stock_code in E.
  destruct (_ || _) in E; cbn in E; [injection E as <-; apply rf_contract|done].
Qed.

Lemma digits_are_code s : is_digits s = true -> forallb code_char (chars s) = true /\
  Forall (fun a => (N_of_ascii a < 128)%N) (chars s).
Proof.
  unfold is_digits. rewrite !forallb_forall, Forall_forall.
  assert (forall a, match digit_val a with Some _ => true | None => false end = true ->
                    code_char a = true /\ (N_of_ascii a < 128)%N) as Hchar.
  { intros a. unfold digit_val, code_char.
    destruct (Z.leb_spec 0 (Z.of_N (N_of_ascii a) - 48)); [|done].
    destruct (Z.ltb_spec (Z.of_N (N_of_ascii a) - 48) 10); [|done]. intros _. split; [|lia].
    apply orb_true_iff. left. apply andb_true_iff. split; apply N.leb_le; lia. }
  intros H. split; intros a Ha; [|apply list_elem_of_In in Ha]; by apply Hchar, H.
Qed.

Lemma stock_code_length v c : stock_code v = Ok c -> py_len c = 6.
Proof.
  unfold stock_code. generalize (remove_prefix "A" (upper (strip (text_or_empty v)))) as text. intros text H.
  apply res_bind_ok in H as (?&Hlen%raise_if_ok&[= ->]). apply orb_false_iff in Hlen as [Hlen _].
  by apply negb_false_iff, Z.eqb_eq in Hlen.
Qed.

(** A code that the records do not take has digits beyond ASCII. *)
Lemma foreign_code v c : within v -> stock_code v = Ok c -> stock_code_ok c = false -> refusal e ValueError.
Proof.
  intros Hv Hc Hbad. destruct v as [v|]; [|by vm_compute in Hc]. apply (rf_digits e v c); [by apply inside_value|done|].
  destruct (is_digits c) eqn:Hd; [|done]. exfalso. destruct (digits_are_code c Hd) as [Hcode Ha].
  apply stock_code_length in Hc. pose proof (py_len_ascii _ Ha) as Hl. rewrite string_of_chars in Hl.
  unfold stock_code_ok, STOCK_CODE_RE in Hbad. rewrite Hcode, andb_true_r in Hbad. apply Nat.eqb_neq in Hbad. lia.
Qed.

(** What [absolute=True] gives, and that a large number comes from a large one. *)
Definition unsigned (x : option dec) : Prop := match x with Some d => dneg d = false | None => True end.
Definition made_of (v : option json) (x : option dec) : Prop :=
  forall d k, x = Some d -> Emin < k -> reaches k d -> large (k - 1) v.

Lemma unsigned_nonneg d : dneg d = false -> (0 <= dval d)%Q.
Proof. intros H. rewrite dval_cval, H. apply cval_nonneg. Qed.

Lemma unsigned_not_negative x : unsigned x -> negative_dec x = false.
Proof. destruct x as [d|]; [|done]. intros H. apply dlt_false. by apply unsigned_nonneg. Qed.

Lemma reaches_less j k d : j <= k -> reaches k d -> reaches j d.
Proof. intros Hjk [H1 H2]. split; [done|lia]. Qed.

Lemma large_number v k x : within v -> Emax - 3 <= k -> large k v -> x = DecimalOverflow -> refusal e x.
Proof.
  intros Hv Hk (d&Hd&Hr) ->. destruct v as [v|]; [|by vm_compute in Hd].
  apply (rf_number e v); [by apply inside_value|]. exists d. split; [done|by eapply reaches_less].
Qed.

Lemma decimal_answers absolute v :
  within v -> normalizing (fun x => (absolute = true -> unsigned x) /\ made_of v x) (decimal_of absolute v).
Proof.
  intros Hv. unfold decimal_of. destruct (is_empty _); [by split|].
  destruct (decimal_of_text _) as [[d| |]|] eqn:Ed; try apply rf_contract.
  assert (forall k, reaches k d -> large k v) as Hlarge by (intros k Hk; by exists d).
  destruct absolute.
  - pose proof (dabs_answers d) as H. destruct (dabs d) as [r|x]; cbn.
    + destruct H as [H1 H2]. split; [done|]. intros ? k [= <-] Hk Hr. by apply Hlarge, H2.
    + destruct H as [-> H]. by apply (large_number v (Emax - 1)); [|done|apply Hlarge|].
  - split; [done|]. intros ? k [= <-] _ Hr. apply Hlarge. eapply reaches_less; [|exact Hr]. lia.
Qed.

Lemma integer_answers v : within v -> normalizing (fun x => negative_int x = false) (integer_of true v).
Proof.
  intros Hv. unfold integer_of. eapply normalizing_bind; [by apply decimal_answers|]. intros [d|] [Hd _]; [|done].
  eapply normalizing_bind; [apply normalizing_raise_if|]. intros _ _. cbn. specialize (Hd eq_refl). cbn in Hd.
  apply Z.ltb_ge. unfold int_of_dec, dZ. rewrite Hd. destruct (Z.leb_spec 0 (dexp d)).
  - apply Z.mul_nonneg_nonneg; [lia|]. by apply Z.pow_nonneg.
  - apply Z.quot_pos; [lia|]. apply Z.pow_pos_nonneg; lia.
Qed.

(** A base price is positive. *)
Definition positive (x : option dec) : Prop := forall d, x = Some d -> dlt dzero d = true.

Lemma base_price_answers v w c d :
  within v -> within w -> made_of v c -> made_of w d -> normalizing positive (base_price_of c d).
Proof.
  intros Hv Hw Hc Hd. unfold base_price_of. destruct c as [c|], d as [d|]; try done.
  destruct (dminus c d) as [base|x] eqn:E; cbn.
  - intros b. destruct (dlt dzero base) eqn:Eb; [|done]. by intros [= <-].
  - apply dminus_raises in E as [-> [H|H]].
    + by apply (large_number v (Emax - 3)); [|done|apply (Hc c (Emax - 2))|].
    + by apply (large_number w (Emax - 3)); [|done|apply (Hd d (Emax - 2))|].
Qed.

Lemma positive_not_negative x : positive x -> negative_dec x = false.
Proof.
  destruct x as [d|]; [|done]. intros H. specialize (H d eq_refl). apply dlt_val in H.
  apply dlt_false. by apply Qlt_le_weak.
Qed.

Lemma snapshot_base_answers row : inside (JObj row) -> normalizing positive (snapshot_base_price row).
Proof.
  intros Hrow. unfold snapshot_base_price. eapply normalizing_bind; [by apply decimal_answers, within_field|].
  intros given [Hg _]. destruct (match given with Some _ => _ | None => _ end) eqn:Ed.
  - destruct given as [d|]; [|done]. specialize (Hg eq_refl). cbn in Hg. apply negb_true_iff, N.eqb_neq in Ed.
    intros ? [= <-]. apply dlt_val. rewrite (dval_0 dzero) by done.
    rewrite dval_cval, Hg. unfold cval. apply Qmult_lt_0_compat; [apply inject_N_pos; lia|apply p10_pos].
  - eapply normalizing_bind; [by apply decimal_answers, within_field|]. intros c [_ Hc].
    eapply normalizing_bind; [by apply decimal_answers, within_field|]. intros d [_ Hd].
    by eapply base_price_answers; [by apply within_field|by apply within_field| |].
Qed.

(** An observation as normalizing leaves it. *)
Record observation_ok (source : ObservationSource) (o : MarketObservation) : Prop := {
  oo_check : MarketObservation_check o = Ok o;
  oo_source : ob_observation_source o = source;
  oo_base : positive (ob_base_price o);
  oo_missing : ob_missing_fields o = [] <->
    is_Some (ob_current_price o) /\ is_Some (ob_cumulative_trading_value o)
}.

Lemma observation_answers v source code cp cr bp tv cv ctv op hp lp es mc :
  stock_code v = Ok code -> within v ->
  unsigned cp -> positive bp -> negative_int tv = false -> negative_int cv = false ->
  unsigned ctv -> unsigned op -> unsigned hp -> unsigned lp -> unsigned mc ->
  normalizing (fun o => stock_code_ok code = true /\ observation_ok source o)
    (observation source code cp cr bp tv cv ctv op hp lp es mc).
Proof.
  intros Hcode Hv Hcp Hbp Htv Hcv Hctv Hop Hhp Hlp Hmc. unfold observation. set (o := mk_MarketObservation _ _ _ _ _ _ _ _ _ _ _ _ _ _).
  assert (MarketObservation_check o = if stock_code_ok code then Ok o else Raise ValueError) as Ho.
  { unfold MarketObservation_check, o.
    cbn -[negative_dec negative_int stock_code_ok sorted_set bool_decide missing_fields_of].
    destruct (stock_code_ok code); [|done].
    rewrite (positive_not_negative bp), Htv, Hcv by done. rewrite !unsigned_not_negative by done. cbn -[sorted_set bool_decide missing_fields_of].
    rewrite bool_decide_eq_true_2; [done|]. by destruct cp, ctv. }
  rewrite Ho. destruct (stock_code_ok code) eqn:Eok; [|by apply (foreign_code v code)].
  cbn. split; [done|]. split; [exact Ho|done|exact Hbp|]. cbn [o ob_missing_fields ob_current_price ob_cumulative_trading_value].
  destruct cp as [cp|], ctv as [ctv|]; vm_compute; (split; [try done|try (by intros [[? [=]] ?]); try (by intros [? [? [=]]])]).
  intros _. split; by eexists.
Qed.

(** ** Events *)

(** The data of an event from [channel] as normalizing leaves it. *)
Definition data_ok (channel : SourceChannel) (d : EventData) : Prop :=
  match d with
  | OfCandidate c => channel = WEBSOCKET /\ CandidateData_check c = Ok c
  | OfObservation o =>
      observation_ok (match channel with WEBSOCKET => REALTIME_0B | REST_SNAPSHOT => REST_KA10095 end) o
  end.

(** An event made of item [i] of an envelope. *)
Record event_of (e : KiwoomSourceEnvelope) (i : Z) (ev : CanonicalMarketEvent) : Prop := {
  eo_check : CanonicalMarketEvent_check ev = Ok ev;
  eo_lineage : EventLineage_check (me_lineage ev) = Ok (me_lineage ev);
  eo_session : li_session_id (me_lineage ev) = en_session_id e;
  eo_channel : li_source_channel (me_lineage ev) = en_channel e;
  eo_index : li_source_item_index (me_lineage ev) = i;
  eo_sequence : me_source_sequence ev = en_source_sequence e;
  eo_source_time : me_source_timestamp ev = en_source_timestamp e;
  eo_received_at : me_received_at ev = en_received_at e;
  eo_data : data_ok (en_channel e) (me_data ev)
}.

Section envelope.
Context (He : KiwoomSourceEnvelope_check e = Ok e).

Lemma envelope_facts :
  0 <= en_source_sequence e /\ is_aware (en_source_timestamp e) = true /\ is_aware (en_received_at e) = true.
Proof.
  unfold KiwoomSourceEnvelope_check in He.
  apply res_bind_ok in He as (?&_&H). apply res_bind_ok in H as (?&_&H).
  apply res_bind_ok in H as (?&H1%raise_if_ok%Z.ltb_ge&H). apply res_bind_ok in H as (?&H2%require_aware_ok&H).
  by apply res_bind_ok in H as (?&H3%require_aware_ok&_).
Qed.

(** The texts of a natural key are ASCII, but for the session and the condition. *)
Lemma plain_pad k n : plain (pad k n).
Proof.
  revert n; induction k as [|k IH]; intros n; [constructor|]. cbn [pad]. apply Forall_app. split; [apply IH|].
  repeat constructor. unfold digit. pose proof (Z.mod_pos_bound n 10 eq_refl).
  rewrite N_ascii_embedding by lia. lia.
Qed.

Ltac plain_chars := repeat first
  [apply plain_pad | apply Forall_app; split | apply Forall_cons; split; [reflexivity|] | apply Forall_nil_2 | case_match].

Lemma plain_isoformat d : has_surrogate (isoformat d) = false.
Proof.
  apply plain_text. unfold isoformat. rewrite chars_of_list.
  unfold plain, iso_datetime_chars, iso_date_chars, iso_time_chars, iso_offset_chars. plain_chars.
Qed.

Lemma plain_code c : stock_code_ok c = true -> has_surrogate ("KRX:" +:+ c) = false.
Proof.
  intros Hc. apply plain_text. rewrite chars_app. apply Forall_app. split; [by repeat constructor|].
  unfold stock_code_ok, STOCK_CODE_RE in Hc. apply andb_true_iff in Hc as [_ Hc]. rewrite forallb_forall in Hc.
  apply Forall_forall. intros a Ha%list_elem_of_In. specialize (Hc a Ha). unfold code_char in Hc.
  apply orb_true_iff in Hc as [[_ Hc%N.leb_le]%andb_true_iff|[_ Hc%N.leb_le]%andb_true_iff]; lia.
Qed.

(** The condition of a candidate is a value of the payload as text, without its white space. *)
Definition condition_within (d : EventData) : Prop :=
  match d with
  | OfCandidate c => exists v, within v /\ cd_condition_id c = strip (text_or_empty v)
  | OfObservation _ => True
  end.

Lemma condition_refused c v :
  within v -> c = strip (text_or_empty v) -> has_surrogate c = true -> refusal e UnicodeEncodeError.
Proof.
  intros Hv -> H. destruct v as [j|]; [|done]. cbn in H. destruct (truthy j); [|done].
  eapply rf_text; [|exact H]. right; right. exists j. split; [by apply inside_value|done].
Qed.

Lemma natural_key_refused i t code data :
  stock_code_ok code = true -> condition_within data ->
  has_surrogate (canonical_json (natural_key e i t code data)) = true -> refusal e UnicodeEncodeError.
Proof.
  intros Hcode Hcond H. apply surrogate_dumped in H as (s&Hs&H). unfold natural_key in Hs.
  apply mjoin_map_out in Hs as ([k v]&Hkv&Hs). apply elem_of_app in Hkv as [Hkv|Hkv].
  - cbn [fst snd] in Hs.
    repeat (apply elem_of_cons in Hkv as [[= -> ->]|Hkv]; [apply elem_of_cons in Hs as [->|Hs]; [done|]|]);
      [..|by apply not_elem_of_nil in Hkv];
      (apply not_elem_of_nil in Hs as [] || apply list_elem_of_singleton in Hs as ->).
    + eapply rf_text; [by left|exact H].
    + by destruct t.
    + by rewrite plain_code in H.
    + unfold utc_isoformat in H. by rewrite plain_isoformat in H.
  - destruct data as [c|o]; [|by apply not_elem_of_nil in Hkv].
    apply list_elem_of_singleton in Hkv as [= -> ->]. cbn in Hs.
    apply elem_of_cons in Hs as [->|Hs%list_elem_of_singleton]; [done|]. subst s.
    destruct Hcond as (v&Hv&Ec). by apply (condition_refused (cd_condition_id c) v).
Qed.

Lemma encode_answers s : (has_surrogate s = true -> refusal e UnicodeEncodeError) -> normalizing (fun r => r = s) (encode_utf8 s).
Proof. unfold encode_utf8. intros H. destruct (has_surrogate s); [by apply H|done]. Qed.

Lemma make_event_answers row i t code data :
  inside (JObj row) -> condition_within data ->
  0 <= i -> stock_code_ok code = true -> data_fits t data = true -> data_ok (en_channel e) data ->
  normalizing (event_of e i) (make_event e row i t code data).
Proof.
  intros Hrow Hcond Hi Hcode Hfits Hdata. destruct envelope_facts as (Hseq&Hst&Hrec). unfold make_event.
  eapply normalizing_bind; [apply encode_answers|].
  { intros (s&Hs&H)%surrogate_dumped. eapply rf_text; [right; left; by apply Hrow|exact H]. }
  intros raw _. cbv zeta. eapply normalizing_bind with (P := fun _ => True).
  { destruct (utc_in_range _) eqn:E; [done|]. by apply rf_time. }
  intros ? _. eapply normalizing_bind; [by apply encode_answers, natural_key_refused|]. intros key _. cbv zeta.
  set (l := mk_EventLineage _ _ _ _ _ _ _ _ _). assert (EventLineage_check l = Ok l) as Hl.
  { unfold EventLineage_check, l. cbn [li_provider li_source_item_index li_raw_payload_sha256].
    rewrite py_len_sha256, (proj2 (Z.ltb_ge i 0)) by done. done. }
  rewrite Hl. cbn [mbind res_bind]. set (ev := mk_CanonicalMarketEvent _ _ _ _ _ _ _ _ _ _).
  assert (CanonicalMarketEvent_check ev = Ok ev) as Hev.
  { unfold CanonicalMarketEvent_check, ev, require_stock_id, require_aware.
    cbn [me_schema_version me_event_id me_idempotency_key me_stock_id me_source_sequence me_source_timestamp
         me_received_at me_event_type me_data].
    rewrite !prefix_app, stock_id_of_code, Hcode, Hst, Hrec, Hfits, (proj2 (Z.ltb_ge (en_source_sequence e) 0)) by done.
    rewrite bool_decide_eq_true_2 by done. reflexivity. }
  rewrite Hev. by split.
Qed.

Lemma candidate_answers row i condition action v :
  inside (JObj row) -> within v -> condition = strip (text_or_empty v) ->
  en_channel e = WEBSOCKET -> 0 <= i -> normalizing (event_of e i) (candidate_event e row i condition action).
Proof.
  intros Hrow Hv Econd Hch Hi. unfold candidate_event. cbv zeta. set (code_value := or_else _ _).
  assert (within code_value) as Hcv.
  { repeat apply within_or_else; try by apply within_field. pose proof (within_field "values" row Hrow) as Hvs.
    destruct (dget "values" row) as [[| | | | | |fields]|]; try done. by apply within_field. }
  eapply normalizing_bind; [apply stock_code_answers|]. intros code Hcode.
  eapply normalizing_bind; [apply normalizing_raise_if|]. intros ? Hcond.
  unfold CandidateData_check. cbn [cd_condition_id cd_source_stock_code]. rewrite Hcond. cbn [raise_if mbind res_bind].
  destruct (stock_code_ok code) eqn:Eok; cbn [negb raise_if]; [|by apply (foreign_code code_value code)].
  apply make_event_answers; [done|by exists v|done|done|by destruct action|]. split; [done|].
  unfold CandidateData_check. cbn [cd_condition_id cd_source_stock_code]. by rewrite Hcond, Eok.
Qed.

Ltac next_number := eapply normalizing_bind; [by apply decimal_answers, within_field || apply integer_answers, within_field|]; intros; cbv beta in *.

Lemma trade_answers item values i :
  inside (JObj item) -> inside (JObj values) ->
  en_channel e = WEBSOCKET -> 0 <= i -> normalizing (event_of e i) (trade_event e item values i).
Proof.
  intros Hitem Hvalues Hch Hi. unfold trade_event.
  eapply normalizing_bind; [apply stock_code_answers|]. intros code Hcode. do 3 next_number. destruct_and!.
  eapply normalizing_bind; [by eapply base_price_answers; [by apply (within_field "10" values)|by apply (within_field "11" values)|..]|].
  intros base Hbase. do 8 next_number. destruct_and!. eapply normalizing_bind.
  { cbn beta in *. eapply observation_answers; [apply Hcode| |..]; auto using within_or_else, within_field. }
  intros o [Ho Hok]. apply make_event_answers; [done..|]. unfold data_ok. by rewrite Hch.
Qed.

Lemma snapshot_answers row i :
  inside (JObj row) -> en_channel e = REST_SNAPSHOT -> 0 <= i -> normalizing (event_of e i) (snapshot_event e row i).
Proof.
  intros Hrow Hch Hi. unfold snapshot_event. eapply normalizing_bind; [apply stock_code_answers|]. intros code Hcode.
  do 2 next_number. destruct_and!. eapply normalizing_bind; [by apply snapshot_base_answers|]. intros base Hbase.
  do 8 next_number. destruct_and!. eapply normalizing_bind.
  { cbn beta in *. eapply observation_answers; [apply Hcode| |..]; auto using within_or_else, within_field. }
  intros o [Ho Hok]. apply make_event_answers; [done..|]. unfold data_ok. by rewrite Hch.
Qed.
End envelope.

(** ** Messages *)

Definition item_index (ev : CanonicalMarketEvent) : Z := li_source_item_index (me_lineage ev).

Lemma enumerate_indices {A} (l : list A) : (enumerate l).*1 = Z.of_nat <$> seq 0 (length l).
Proof.
  apply list_eq. intros i. unfold enumerate. rewrite !list_lookup_fmap, list_lookup_imap.
  destruct (l !! i) as [a|] eqn:E; cbn.
  - apply lookup_lt_Some in E. by rewrite lookup_seq_lt.
  - apply lookup_ge_None in E. by rewrite lookup_seq_ge.
Qed.

Lemma indices_increase k n : StronglySorted Z.lt (Z.of_nat <$> seq k n).
Proof.
  revert k; induction n as [|n IH]; intros k; [constructor|]. cbn. constructor; [apply IH|].
  apply Forall_fmap, Forall_forall. intros i Hi%elem_of_seq. cbn. lia.
Qed.

Lemma StronglySorted_sublist {A} (R : A -> A -> Prop) l k : l `sublist_of` k -> StronglySorted R k -> StronglySorted R l.
Proof.
  induction 1 as [|x l k Hs IH|x l k Hs IH]; [done| |]; intros Hk; inversion Hk as [|? ? Hk' Hx]; subst.
  - constructor; [by apply IH|]. apply Forall_forall. intros y Hy. rewrite Forall_forall in Hx.
    apply Hx. eapply elem_of_submseteq; [exact Hy|by apply sublist_submseteq].
  - by apply IH.
Qed.

(** The events of a message, in the order of its items. *)
Record events_of (e : KiwoomSourceEnvelope) (evs : list CanonicalMarketEvent) : Prop := {
  es_each : Forall (fun ev => event_of e (item_index ev) ev) evs;
  es_order : StronglySorted Z.lt (item_index <$> evs);
  es_from_zero : Forall (fun ev => 0 <= item_index ev) evs
}.

Lemma events_of_items {A} (rows : list A) (rs : list (option CanonicalMarketEvent)) :
  Forall2 (fun p r => forall ev, r = Some ev -> event_of e p.1 ev) (enumerate rows) rs ->
  events_of e (@omap list _ _ _ id rs).
Proof.
  intros H. assert (Forall (fun ev => event_of e (item_index ev) ev) (@omap list _ _ _ id rs) /\
                    (item_index <$> @omap list _ _ _ id rs) `sublist_of` (enumerate rows).*1) as [Heach Hsub].
  { induction H as [|p r ps rs Hr _ [IH1 IH2]]; [split; [apply Forall_nil_2|constructor]|]. cbn. unfold id at 1 3.
    destruct r as [ev|]; cbn; [|split; [exact IH1|by constructor]].
    specialize (Hr ev eq_refl). pose proof (eo_index _ _ _ Hr) as Hi. fold (item_index ev) in Hi. subst.
    split; [apply Forall_cons; split; [by rewrite Hi|exact IH1]|]. rewrite Hi. by constructor. }
  rewrite enumerate_indices in Hsub. split; [exact Heach| |].
  - eapply StronglySorted_sublist; [exact Hsub|]. apply indices_increase.
  - apply Forall_forall. intros ev Hev.
    assert (item_index ev ∈ Z.of_nat <$> seq 0 (length rows)) as (i&->&_)%list_elem_of_fmap; [|lia].
    eapply elem_of_submseteq; [|by apply sublist_submseteq]. apply list_elem_of_fmap. by exists ev.
Qed.

Lemma omap_id_Some {A} (l : list A) : @omap list _ _ _ id (Some <$> l) = l.
Proof. induction l as [|x l IH]; [done|]. cbn. by f_equal. Qed.

Lemma events_of_rows {A} (rows : list A) evs :
  Forall2 (fun p ev => event_of e p.1 ev) (enumerate rows) evs -> events_of e evs.
Proof.
  intros H. rewrite <-(omap_id_Some evs). apply (events_of_items rows). apply Forall2_fmap_r.
  eapply Forall2_impl; [exact H|]. by intros p ev Hev ? [= <-].
Qed.

Lemma enumerate_nonneg {A} (l : list A) i a : (i, a) ∈ enumerate l -> 0 <= i.
Proof.
  intros H. assert (i ∈ (enumerate l).*1) as Hi by (apply list_elem_of_fmap; by exists (i, a)).
  rewrite enumerate_indices in Hi. apply list_elem_of_fmap in Hi as (k&->&_). lia.
Qed.

Lemma enumerate_elem {A} (l : list A) i a : (i, a) ∈ enumerate l -> a ∈ l.
Proof.
  intros (k&Hk)%list_elem_of_lookup. unfold enumerate in Hk. rewrite list_lookup_imap in Hk.
  destruct (l !! k) as [x|] eqn:E; [|done]. injection Hk as _ ->. by eapply list_elem_of_lookup_2.
Qed.

Lemma mapping_rows_answers v :
  within v -> normalizing (fun rows => forall row, row ∈ rows -> inside (JObj row)) (mapping_rows v).
Proof.
  intros Hv. destruct v as [[| | | | |rows|]|]; try apply rf_contract.
  eapply normalizing_weaken; [apply (normalizing_mapM (fun j row => j = JObj row /\ j ∈ rows))|].
  - intros [] Hj; try apply rf_contract. done.
  - intros k Hk row Hrow. apply list_elem_of_lookup in Hrow as [n Hn].
    destruct (Forall2_lookup_r _ _ _ _ _ Hk Hn) as (j&_&->&Hj). by eapply inside_item.
Qed.

Lemma real_item_answers i item :
  KiwoomSourceEnvelope_check e = Ok e -> en_channel e = WEBSOCKET -> 0 <= i -> inside (JObj item) ->
  normalizing (fun r => forall ev, r = Some ev -> event_of e i ev) (real_item e i item).
Proof.
  intros He Hch Hi Hitem. unfold real_item. eapply normalizing_bind with (P := fun values => inside (JObj values)).
  { pose proof (within_field "values" item Hitem) as Hv. by destruct (dget "values" item) as [[]|]; try apply rf_contract. }
  intros values Hvalues. destruct (bool_decide _).
  - eapply normalizing_bind; [by apply trade_answers|]. by intros ev Hev ? [= <-].
  - destruct (bool_decide _); [|done].
    eapply normalizing_bind with (P := fun _ => True); [by repeat destruct (bool_decide _); try apply rf_contract|]. intros action _.
    eapply normalizing_bind; [by eapply candidate_answers; [done|done|by apply (within_field "841" values)|..]|].
    by intros ev Hev ? [= <-].
Qed.

Lemma normalize_answers : KiwoomSourceEnvelope_check e = Ok e -> normalizing (events_of e) (normalize e).
Proof.
  intros He. unfold normalize. eapply normalizing_bind; [apply normalizing_raise_if|]. intros ? _.
  pose proof inside_payload as Hp. destruct (en_channel e) eqn:Hch.
  - unfold normalize_websocket. destruct (bool_decide _).
    + eapply normalizing_bind; [by apply mapping_rows_answers, within_field|]. intros rows Hrows.
      eapply normalizing_bind; [apply normalizing_raise_if|]. intros ? _.
      eapply normalizing_weaken; [|apply (events_of_rows rows)]. apply normalizing_mapM.
      intros [i row] Hi. pose proof (enumerate_nonneg _ _ _ Hi). apply enumerate_elem in Hi.
      by eapply candidate_answers; [done|by apply Hrows|by apply (within_field "seq" (en_payload e))|..].
    + destruct (negb _); [by apply (events_of_rows (@nil unit) []), Forall2_nil|].
      eapply normalizing_bind; [by apply mapping_rows_answers, within_field|]. intros rows Hrows.
      eapply normalizing_bind; [|intros rs Hrs; exact (events_of_items rows rs Hrs)].
      apply normalizing_mapM. intros [i item] Hi. pose proof (enumerate_nonneg _ _ _ Hi). apply enumerate_elem in Hi.
      by apply real_item_answers; [| | |apply Hrows].
  - unfold normalize_snapshot. eapply normalizing_bind; [apply normalizing_raise_if|]. intros ? _.
    eapply normalizing_bind; [apply mapping_rows_answers|].
    { pose proof (within_field "rows" _ Hp) as H1. pose proof (within_field "atn_stk_infr" _ Hp) as H2.
      by destruct (dget "rows" (en_payload e)) as [[]|]. }
    intros rows Hrows. eapply normalizing_weaken; [|apply (events_of_rows rows)]. apply normalizing_mapM.
    intros [i row] Hi. pose proof (enumerate_nonneg _ _ _ Hi). apply enumerate_elem in Hi.
    by apply snapshot_answers; [|apply Hrows|..].
Qed.
End refusals.

(** C19: A message is normalized or refused as a whole.  The events of a well-formed envelope
    pass the checks of every record they are made of, carry its session, channel, sequence
    and times, come in the order of its items, and are candidates or observations as their
    types say; base prices are positive, and a missing field is named exactly when it is
    missing.  It is refused with the normalization error, or with one of four errors its
    callers do not expect, and then for the reason [refusal] gives: [ValueError] only if a
    stock code has digits beyond ASCII, [Overflow] only if a number reaches 10^999996,
    [UnicodeEncodeError] only if a text has a lone surrogate, [OverflowError] only if the
    source time has no time in UTC.  The witness has a message for each. *)
Theorem normalize_or_refuse e :
  KiwoomSourceEnvelope_check e = Ok e ->
  match normalize e with
  | Ok evs => events_of e evs /\ en_source_schema_version e = SOURCE_SCHEMA_BY_CHANNEL (en_channel e)
  | Raise x => refusal e x
  end.
Proof.
  intros He. pose proof (normalize_answers e He) as Hn. destruct (normalize e) as [evs|x] eqn:E; [|exact Hn].
  split; [exact Hn|]. unfold normalize in E. apply res_bind_ok in E as (?&Hs%raise_if_ok&_).
  by apply negb_false_iff, bool_decide_eq_true in Hs.
Qed.

(** One code with a letter, which [require_stock_id] admits, and the snapshot message is refused
    with all its rows. *)
Theorem letter_codes_refused e rows row :
  KiwoomSourceEnvelope_check e = Ok e -> en_channel e = REST_SNAPSHOT ->
  dget "rows" (en_payload e) = Some (JList (JObj <$> rows)) ->
  row ∈ rows -> dget "stk_cd" row = Some (JStr "0001A0") ->
  require_stock_id "KRX:0001A0" = Ok tt /\ exists x, normalize e = Raise x.
Proof.
  intros He Hch Hrows Hrow Hcode. split; [reflexivity|].
  destruct (normalize e) as [evs|x] eqn:E; [|by exists x]. exfalso. unfold normalize in E. rewrite Hch in E. apply res_bind_ok in E as (?&_&E).
  unfold normalize_snapshot in E. apply res_bind_ok in E as (?&_&E). rewrite Hrows in E.
  apply res_bind_ok in E as (rows'&Hr&E).
  assert (rows' = rows) as ->.
  { unfold mapping_rows in Hr. clear -Hr. revert rows' Hr; induction rows as [|r rows IH]; intros k H; simpl in H.
    - by injection H as <-.
    - cbn [mbind res_bind] in H. apply res_bind_ok in H as (k'&Hk'&[= <-]). f_equal. by apply IH. }
  apply mapM_res_Forall2 in E. apply list_elem_of_lookup in Hrow as [i Hi].
  assert (enumerate rows !! i = Some (Z.of_nat i, row)) as Hen by (unfold enumerate; by rewrite list_lookup_imap, Hi).
  destruct (Forall2_lookup_l _ _ _ _ _ E Hen) as (ev&_&Hev). unfold snapshot_event in Hev.
  apply res_bind_ok in Hev as (c&Hc&_). rewrite Hcode in Hc. by vm_compute in Hc.
Qed.

(** ** Examples *)

Definition demo_time (s : Z) : datetime := mk_datetime (epoch_us + seconds (1786000000 + s)) (Some (hours 9)).

Definition demo_tick (price : string) : json :=
  JObj [("type", JStr "0B"); ("item", JStr "A005930");
        ("values", JObj [("10", JStr price); ("11", JStr "-500"); ("13", JStr "1200"); ("14", JStr "86,000")])].
Definition demo_signal : json :=
  JObj [("type", JStr "02"); ("item", JStr "000660"); ("values", JObj [("841", JStr "7"); ("843", JStr "I")])].

Definition demo_envelope (session : string) (sequence at_ : Z) (items : list json) : KiwoomSourceEnvelope :=
  mk_KiwoomSourceEnvelope "kiwoom.websocket.v1" WEBSOCKET session "m" sequence (demo_time at_) (demo_time at_) 739471
    [("trnm", JStr "REAL"); ("data", JList items)] None.

Definition demo_real : KiwoomSourceEnvelope := demo_envelope "s1" 1 0 [demo_tick "-71,500"; demo_signal; demo_tick "-71,600"].

Lemma demo_real_ok : is_ok (normalize demo_real) = true.
Proof. vm_compute. reflexivity. Qed.

Definition prices (ev : CanonicalMarketEvent) : list (option dec) :=
  match me_data ev with OfObservation o => [ob_current_price o; ob_base_price o] | OfCandidate _ => [] end.

Example demo_base_price :
  List.map prices <$> normalize demo_real =
  Ok [[Some (dec_of_Z 71500); Some (dec_of_Z 72000)]; []; [Some (dec_of_Z 71600); Some (dec_of_Z 72100)]].
Proof. vm_compute. reflexivity. Qed.

(** A code in fullwidth digits, a price beyond the exponents, a lone surrogate in an item that is
    otherwise fine, and a source time in Seoul in the first hours of the year 1. *)
Definition demo_item (code price note : string) : json :=
  JObj [("type", JStr "0B"); ("item", JStr code); ("note", JStr note); ("values", JObj [("10", JStr price)])].
Definition demo_foreign : KiwoomSourceEnvelope := demo_envelope "s1" 1 0 [demo_item "００５９３０" "1" ""].
Definition demo_huge : KiwoomSourceEnvelope := demo_envelope "s1" 1 0 [demo_item "005930" "1E+1000000" ""].
Definition demo_surrogate : KiwoomSourceEnvelope := demo_envelope "s1" 1 0 [demo_item "005930" "1" lone_surrogate].
Definition demo_ancient : KiwoomSourceEnvelope :=
  mk_KiwoomSourceEnvelope "kiwoom.websocket.v1" WEBSOCKET "s1" "m" 1 (mk_datetime 0 (Some (hours 9)))
    (demo_time 0) 1 [("trnm", JStr "REAL"); ("data", JList [demo_item "005930" "1" ""])] None.

Lemma normalize_or_refuse_witness :
  KiwoomSourceEnvelope_check demo_real = Ok demo_real /\
  (exists evs, normalize demo_real = Ok evs /\ events_of demo_real evs) /\
  normalize demo_foreign = Raise ValueError /\ normalize demo_huge = Raise DecimalOverflow /\
  normalize demo_surrogate = Raise UnicodeEncodeError /\ normalize demo_ancient = Raise OverflowError.
Proof.
  split; [reflexivity|]. split; [|by vm_compute].
  pose proof (normalize_or_refuse demo_real eq_refl) as H. pose proof demo_real_ok as Hok.
  destruct (normalize demo_real) as [evs|]; [|discriminate Hok]. exists evs. split; [done|apply H].
Defined.
