(* ===== verification/Subscriptions.v ===== *)
(** [packages/adapters/kiwoom/subscriptions.py]: which stocks the trade feed is subscribed
    to.  Demands are ranked; the best [target_limit] are always subscribed, and what is no
    longer demanded stays for a cooldown while there is room below [hard_limit]. *)
From S2P Require Import Prelude PyTime PyFloat KiwoomEvents.
#[local] Open Scope Z_scope.

(** ** Demands and plans *)

(* @ packages/adapters/kiwoom/subscriptions.py 13-18 DemandPriority *)
Inductive DemandPriority :=
  | ACTIVE_LEADER
  | ACTIVE_CORE
  | MULTI_SIGNAL_CANDIDATE
  | ACTIVE_RELATED
  | SINGLE_SIGNAL_CANDIDATE.

#[export] Instance DemandPriority_eq_dec : EqDecision DemandPriority.
Proof. solve_decision. Defined.

(* @ packages/adapters/kiwoom/subscriptions.py 13-18 DemandPriority *)
Definition priority_value (p : DemandPriority) : Z :=
  match p with
  | ACTIVE_LEADER => 1
  | ACTIVE_CORE => 2
  | MULTI_SIGNAL_CANDIDATE => 3
  | ACTIVE_RELATED => 4
  | SINGLE_SIGNAL_CANDIDATE => 5
  end.

(** Members of an [IntEnum] compare as their values. *)
#[export] Instance DemandPriority_pyord : PyOrd DemandPriority :=
  fun p q => pycmp (priority_value p) (priority_value q).

(* @ packages/adapters/kiwoom/subscriptions.py 21-27 SubscriptionDemand *)
Record SubscriptionDemand := mk_SubscriptionDemand {
  sd_stock_id : string;
  sd_priority : DemandPriority;
  sd_observed_at : datetime;
  sd_signal_count : Z;
  sd_theme_ids : list string
}.

#[export] Instance SubscriptionDemand_eq_dec : EqDecision SubscriptionDemand.
Proof. solve_decision. Defined.

(* @ packages/adapters/kiwoom/subscriptions.py 29-35 SubscriptionDemand.__post_init__ *)
Definition SubscriptionDemand_init (stock_id : string) (priority : DemandPriority)
    (observed_at : datetime) (signal_count : Z) (theme_ids : list string) : res SubscriptionDemand :=
  _ ← require_stock_id stock_id;
  _ ← require_aware observed_at;
  _ ← raise_if (signal_count <? 1) ValueError;
  _ ← raise_if (negb (bool_decide (sorted_set theme_ids = theme_ids))) ValueError;
  Ok (mk_SubscriptionDemand stock_id priority observed_at signal_count theme_ids).

(* @ packages/adapters/kiwoom/subscriptions.py 38-48 SubscriptionPlan *)
Record SubscriptionPlan := mk_SubscriptionPlan {
  sp_generated_at : datetime;
  sp_subscriptions : list string;
  sp_added : list string;
  sp_removed : list string;
  sp_retained_for_cooldown : list string;
  sp_snapshot_supplement : list string;
  sp_target_limit : Z;
  sp_hard_limit : Z;
  sp_coalesced : bool
}.

(* @ packages/adapters/kiwoom/subscriptions.py 50-55 SubscriptionPlan.__post_init__ *)
Definition SubscriptionPlan_check (p : SubscriptionPlan) : res SubscriptionPlan :=
  _ ← require_aware (sp_generated_at p);
  _ ← raise_if (sp_hard_limit p <? Z.of_nat (length (sp_subscriptions p))) ValueError;
  _ ← raise_if (negb (bool_decide (NoDup (sp_subscriptions p)))) ValueError;
  Ok p.

(** ** The manager *)

(* @ packages/adapters/kiwoom/subscriptions.py 61-81 SubscriptionManager.__init__ *)
Record SubscriptionManager := mk_SubscriptionManager {
  sm_target_limit : Z;
  sm_hard_limit : Z;
  sm_cooldown : timedelta;
  sm_coalesce_interval : timedelta;
  sm_current : list string;
  sm_last_applied_at : option datetime;
  sm_retained_until : dict string datetime;
  sm_last_demands : dict string SubscriptionDemand;
  sm_pending_demands : dict string SubscriptionDemand
}.

(* @ packages/adapters/kiwoom/subscriptions.py 61-81 SubscriptionManager.__init__ *)
Definition subscription_manager (target_limit hard_limit : Z) (cooldown coalesce_interval : timedelta)
    : res SubscriptionManager :=
  _ ← raise_if ((target_limit <? 1) || (hard_limit <? target_limit)) ValueError;
  _ ← raise_if ((cooldown <? 0) || (coalesce_interval <? 0)) ValueError;
  Ok (mk_SubscriptionManager target_limit hard_limit cooldown coalesce_interval [] None [] [] []).

(** [SubscriptionManager()] *)
(* @ packages/adapters/kiwoom/subscriptions.py 61-81 SubscriptionManager.__init__ *)
Definition default_manager : SubscriptionManager :=
  mk_SubscriptionManager 180 200 (seconds 60) (seconds 1) [] None [] [] [].

Definition set_pending x m :=
  mk_SubscriptionManager (sm_target_limit m) (sm_hard_limit m) (sm_cooldown m) (sm_coalesce_interval m)
    (sm_current m) (sm_last_applied_at m) (sm_retained_until m) (sm_last_demands m) x.

(** The rows of each stock, in the order the stocks are first seen. *)
(* @ packages/adapters/kiwoom/subscriptions.py 197-212 _aggregate_demands *)
Definition group_demands (demands : list SubscriptionDemand) : dict string (list SubscriptionDemand) :=
  fold_left (fun d r => dset (sd_stock_id r) (default [] (dget (sd_stock_id r) d) ++ [r]) d) demands [].

(** A group is not empty; an empty one would raise in [min]. *)
(* @ packages/adapters/kiwoom/subscriptions.py 197-212 _aggregate_demands *)
Definition aggregate_group (stock_id : string) (rows : list SubscriptionDemand) : res SubscriptionDemand :=
  match rows with
  | [] => Raise ValueError
  | r :: rest =>
      SubscriptionDemand_init stock_id (min_of (sd_priority r) (sd_priority <$> rest))
        (max_of (sd_observed_at r) (sd_observed_at <$> rest))
        (fold_left Z.add (sd_signal_count <$> rows) 0)
        (sorted_set (rows ≫= sd_theme_ids))
  end.

(* @ packages/adapters/kiwoom/subscriptions.py 197-212 _aggregate_demands *)
Definition aggregate_demands (demands : list SubscriptionDemand) : res (dict string SubscriptionDemand) :=
  mapM_res (fun kv => d ← aggregate_group kv.1 kv.2; Ok (kv.1, d)) (group_demands demands).

Definition rank : Type := Z * Z * double * string.

(* @ packages/adapters/kiwoom/subscriptions.py 215-221 _rank_key *)
Definition rank_key (d : SubscriptionDemand) : rank :=
  (priority_value (sd_priority d), - sd_signal_count d, - timestamp (sd_observed_at d), sd_stock_id d).

(** The rank of a key of [demands]. *)
Definition rank_in (demands : dict string SubscriptionDemand) (s : string) : option rank :=
  rank_key <$> dget s demands.

(** Keys of the dictionary always have a rank. *)
#[export] Instance rank_opt_pyord : PyOrd (option rank) := fun a b =>
  match a, b with
  | Some a, Some b => pycmp a b
  | None, None => Eq
  | None, Some _ => Lt
  | Some _, None => Gt
  end.

(* @ packages/adapters/kiwoom/subscriptions.py 129-188 SubscriptionManager._apply *)
Definition ranked (demands : dict string SubscriptionDemand) : list string :=
  sorted_by (rank_in demands) (dkeys demands).

(* @ packages/adapters/kiwoom/subscriptions.py 190-194 SubscriptionManager._historical_rank *)
Definition historical_rank (m : SubscriptionManager) (s : string) : rank :=
  match dget s (sm_pending_demands m), dget s (sm_last_demands m) with
  | Some d, _ | None, Some d => rank_key d
  | None, None => (6, 0, 0, s)
  end.

(* @ packages/adapters/kiwoom/subscriptions.py 108-127 SubscriptionManager._coalesced_plan *)
Definition coalesced_plan (demands : dict string SubscriptionDemand) (now : datetime) (m : SubscriptionManager)
    : res SubscriptionPlan :=
  let supplemental := List.filter (fun s => negb (bool_decide (s ∈ sm_current m))) (ranked demands) in
  SubscriptionPlan_check
    (mk_SubscriptionPlan now (sm_current m) [] []
       (List.filter (fun s => dmem s (sm_retained_until m)) (sm_current m))
       supplemental (sm_target_limit m) (sm_hard_limit m) true).

(** Cooldowns of stocks that are desired again end, and those that are over are noted. *)
(* @ packages/adapters/kiwoom/subscriptions.py 129-188 SubscriptionManager._apply *)
Definition end_cooldowns (desired : list string) (now : datetime) (retained : dict string datetime)
    : dict string datetime * list string :=
  fold_left (fun '(r, expired) kv =>
      if bool_decide (kv.1 ∈ desired) then (ddel kv.1 r, expired)
      else if dt_le kv.2 now then (ddel kv.1 r, expired ++ [kv.1])
      else (r, expired))
    retained (retained, []).

(* @ packages/adapters/kiwoom/subscriptions.py 129-188 SubscriptionManager._apply *)
Definition start_cooldowns (desired expired current : list string) (until : datetime)
    (retained : dict string datetime) : dict string datetime :=
  fold_left (fun r s =>
      if bool_decide (s ∈ desired) || dmem s r || bool_decide (s ∈ expired) then r else dset s until r)
    current retained.

(** [l[:n]] *)
Definition slice_to {A} (n : Z) (l : list A) : list A :=
  take (Z.to_nat (if n <? 0 then Z.max 0 (Z.of_nat (length l) + n) else n)) l.

Definition in_list (l : list string) (s : string) : bool := bool_decide (s ∈ l).
Definition not_in (l : list string) (s : string) : bool := negb (in_list l s).

(** What an application decides, before it is stored. *)
(* @ packages/adapters/kiwoom/subscriptions.py 129-188 SubscriptionManager._apply *)
Definition cooling_of (demands : dict string SubscriptionDemand) (now : datetime) (m : SubscriptionManager)
    : list string * dict string datetime :=
  let desired := slice_to (sm_target_limit m) (ranked demands) in
  let '(retained, expired) := end_cooldowns desired now (sm_retained_until m) in
  let retained := start_cooldowns desired expired (sm_current m) (dt_add now (sm_cooldown m)) retained in
  let cooling :=
    List.filter (fun s => not_in desired s && dt_lt now (default now (dget s retained))) (sm_current m) in
  (slice_to (sm_hard_limit m - Z.of_nat (length desired)) (sorted_by (historical_rank m) cooling), retained).

(* @ packages/adapters/kiwoom/subscriptions.py 129-188 SubscriptionManager._apply *)
Definition apply (demands : dict string SubscriptionDemand) (now : datetime)
    : M SubscriptionManager SubscriptionPlan := fun m =>
  let ranked_ := ranked demands in
  let desired := slice_to (sm_target_limit m) ranked_ in
  let '(cooling, retained) := cooling_of demands now m in
  let stable := List.filter (fun s => in_list desired s || in_list cooling s) (sm_current m) in
  let subscriptions := stable ++ List.filter (not_in stable) desired in
  let added := sorted_set (List.filter (not_in (sm_current m)) subscriptions) in
  let removed := sorted_set (List.filter (not_in subscriptions) (sm_current m)) in
  let retained := fold_left (fun r s => ddel s r) removed retained in
  (SubscriptionPlan_check
     (mk_SubscriptionPlan now subscriptions added removed (List.filter (in_list cooling) subscriptions)
        (List.filter (not_in subscriptions) ranked_) (sm_target_limit m) (sm_hard_limit m) false),
   mk_SubscriptionManager (sm_target_limit m) (sm_hard_limit m) (sm_cooldown m)
     (sm_coalesce_interval m) subscriptions (Some now) retained
     (fold_left (fun d kv => dset kv.1 kv.2 d) demands (sm_last_demands m)) (sm_pending_demands m)).

(* @ packages/adapters/kiwoom/subscriptions.py 87-103 SubscriptionManager.reconcile *)
Definition reconcile (demands : list SubscriptionDemand) (now : datetime) (force : bool)
    : M SubscriptionManager SubscriptionPlan :=
  _ ← lift (require_aware now);
  normalized ← lift (aggregate_demands demands);
  _ ← (fun m => (Ok tt, set_pending normalized m));
  m ← get_st;
  let recent := match sm_last_applied_at m with
                | Some t => dt_sub now t <? sm_coalesce_interval m
                | None => false
                end in
  if negb force && recent then lift (coalesced_plan normalized now m) else apply normalized now.

(* @ packages/adapters/kiwoom/subscriptions.py 105-106 SubscriptionManager.flush *)
Definition flush (now : datetime) (force : bool) : M SubscriptionManager SubscriptionPlan := fun m =>
  reconcile (dvalues (sm_pending_demands m)) now force m.

(** ** Demands *)

#[export] Instance rank_opt_pyord_laws : PyOrdLaws (option rank).
Proof.
  split.
  - intros [a|] [b|]; try done. apply (pycmp_opp a b).
  - intros [a|] [b|] [c|]; try done. apply (pycmp_trans a b c).
Qed.

(** Demands as their constructor leaves them. *)
Record demand_ok (d : SubscriptionDemand) : Prop := {
  do_stock : stock_id_ok (sd_stock_id d) = true;
  do_aware : is_aware (sd_observed_at d) = true;
  do_signals : 1 <= sd_signal_count d;
}.

Lemma dget_group ds d0 s :
  dget s (fold_left (fun d r => dset (sd_stock_id r) (default [] (dget (sd_stock_id r) d) ++ [r]) d) ds d0) =
  match List.filter (fun r => bool_decide (sd_stock_id r = s)) ds with
  | [] => dget s d0
  | rows => Some (default [] (dget s d0) ++ rows)
  end.
Proof.
  revert d0; induction ds as [|r ds IH]; intros d0; [done|]. cbn [fold_left List.filter].
  rewrite IH. rewrite dget_dset. case_bool_decide as E; case_decide; try congruence; subst.
  cbn [default]. destruct (List.filter _ ds); [done|]. cbn. by rewrite <-app_assoc.
Qed.

Lemma NoDup_group ds d0 :
  NoDup (dkeys d0) ->
  NoDup (dkeys (fold_left (fun d r => dset (sd_stock_id r) (default [] (dget (sd_stock_id r) d) ++ [r]) d) ds d0)).
Proof. revert d0; induction ds as [|r ds IH]; intros d0 H; [done|]. cbn. apply IH. by apply NoDup_dkeys_dset. Qed.

Lemma sum_signals ds n :
  Forall demand_ok ds -> n <= fold_left Z.add (sd_signal_count <$> ds) n /\
  (ds <> [] -> n + 1 <= fold_left Z.add (sd_signal_count <$> ds) n).
Proof.
  intros H. revert n. induction H as [|d ds Hd _ IH]; intros n; [done|]. cbn.
  destruct (IH (n + sd_signal_count d)) as [H1 _]. pose proof (do_signals d Hd). split; [|intros _]; lia.
Qed.

Lemma sorted_set_idem `{PyOrdLaws A, !PyOrdAntisym A, !EqDecision A} (l : list A) :
  sorted_set (sorted_set l) = sorted_set l.
Proof. apply sorted_set_ext. intros x. apply elem_of_sorted_set. Qed.

Lemma aggregate_group_ok s rows :
  rows <> [] -> Forall demand_ok rows -> Forall (fun r => sd_stock_id r = s) rows ->
  exists d, aggregate_group s rows = Ok d /\ sd_stock_id d = s.
Proof.
  intros Hne Hok Hs. unfold aggregate_group. destruct rows as [|r rest]; [done|].
  unfold SubscriptionDemand_init, require_stock_id.
  pose proof (Forall_inv Hok) as Hr. rewrite <-(Forall_inv Hs), (do_stock r Hr). cbn [negb raise_if mbind res_bind].
  assert (is_aware (max_of (sd_observed_at r) (sd_observed_at <$> rest)) = true) as Hmax.
  { pose proof (fold_pymax_in (sd_observed_at r) (sd_observed_at <$> rest)) as Hin.
    rewrite <-fmap_cons in Hin. apply list_elem_of_fmap in Hin as (d&->&Hd).
    rewrite Forall_forall in Hok. by apply do_aware, Hok. }
  unfold require_aware. rewrite Hmax. cbn [negb raise_if mbind res_bind].
  destruct (sum_signals (r :: rest) 0 Hok) as [_ Hsum]. specialize (Hsum ltac:(done)).
  destruct (Z.ltb_spec (fold_left Z.add (sd_signal_count <$> r :: rest) 0) 1); [lia|]. cbn [raise_if mbind res_bind].
  rewrite bool_decide_eq_true_2 by apply sorted_set_idem. cbn. by eexists.
Qed.

Lemma aggregate_ok ds :
  Forall demand_ok ds ->
  exists n, aggregate_demands ds = Ok n /\ NoDup (dkeys n) /\
            (forall s, s ∈ dkeys n <-> s ∈ sd_stock_id <$> ds).
Proof.
  intros Hok. unfold aggregate_demands, group_demands.
  pose proof (NoDup_group ds [] ltac:(by apply NoDup_nil_2)) as Hnd.
  pose proof (fun s => dget_group ds [] s) as Hget. revert Hnd Hget.
  generalize (fold_left (fun d r => dset (sd_stock_id r) (default [] (dget (sd_stock_id r) d) ++ [r]) d) ds []).
  intros g Hnd Hget.
  assert (forall s, s ∈ dkeys g <-> s ∈ sd_stock_id <$> ds) as Hkeys.
  { intros s. rewrite elem_of_dkeys, Hget, list_elem_of_fmap.
    destruct (List.filter _ ds) as [|r rows] eqn:E; cbn.
    - split; [by intros [? ?]|]. intros (d&->&Hd). exfalso.
      assert (d ∈ []) as Hin by (rewrite <-E; apply elem_of_filterb; by rewrite bool_decide_eq_true). by apply elem_of_nil in Hin.
    - split; [|by eexists]. intros _. exists r.
      assert (r ∈ r :: rows) as Hin by left. rewrite <-E in Hin.
      apply elem_of_filterb in Hin as [Hin Hr]. apply bool_decide_eq_true in Hr. by split. }
  assert (forall kv, kv ∈ g -> exists d, aggregate_group kv.1 kv.2 = Ok d /\ sd_stock_id d = kv.1) as Hgroup.
  { intros [s rows] Hin. apply elem_dget in Hin; [|done]. cbn. rewrite Hget in Hin.
    destruct (List.filter _ ds) as [|r rest] eqn:E; [done|]. cbn in Hin. injection Hin as <-.
    rewrite <-E. apply aggregate_group_ok; [by rewrite E| |]; apply Forall_forall; intros x [Hx Hs]%elem_of_filterb.
    - rewrite Forall_forall in Hok. by apply Hok.
    - by apply bool_decide_eq_true in Hs. }
  assert (exists n, mapM_res (fun kv => d ← aggregate_group kv.1 kv.2; Ok (kv.1, d)) g = Ok n /\ dkeys n = dkeys g)
    as (n&Hn&Hnk).
  { clear Hnd Hget Hkeys. induction g as [|kv g IH]; [by exists []|].
    destruct (Hgroup kv ltac:(left)) as (d&Hd&_). destruct IH as (n&Hn&Hnk); [intros; apply Hgroup; by right|].
    exists ((kv.1, d) :: n). simpl. rewrite Hd. cbn. rewrite Hn. cbn. split; [done|].
    unfold dkeys in *. cbn. by f_equal. }
  exists n. split; [done|]. rewrite Hnk. by split.
Qed.

(** ** What an application does *)

(** The manager between calls. *)
Record manager_ok (m : SubscriptionManager) : Prop := {
  mo_limits : 1 <= sm_target_limit m <= sm_hard_limit m;
  mo_cooldown : 0 <= sm_cooldown m;
  mo_current : NoDup (sm_current m);
  mo_size : Z.of_nat (length (sm_current m)) <= sm_hard_limit m;
  mo_retained : NoDup (dkeys (sm_retained_until m));
  mo_retained_current : forall s, dmem s (sm_retained_until m) = true -> s ∈ sm_current m
}.

(** Until when a stock that is not desired at [now] is kept. *)
Definition kept_until (m : SubscriptionManager) (now : datetime) (s : string) : datetime :=
  default (dt_add now (sm_cooldown m)) (dget s (sm_retained_until m)).

Lemma slice_to_nonneg {A} n (l : list A) : 0 <= n -> slice_to n l = take (Z.to_nat n) l.
Proof. intros H. unfold slice_to. by destruct (Z.ltb_spec n 0); [lia|]. Qed.

Lemma dmem_true {V} k (d : dict string V) : dmem k d = true <-> is_Some (dget k d).
Proof. unfold dmem. destruct (dget k d); split; [by eexists|done|done|by intros []]. Qed.

Lemma NoDup_ddels {V} (ks : list string) (d : dict string V) :
  NoDup (dkeys d) -> NoDup (dkeys (fold_left (fun r s => ddel s r) ks d)).
Proof. revert d; induction ks as [|k ks IH]; intros d Hd; [done|]. cbn. apply IH. by apply NoDup_dkeys_ddel. Qed.

Lemma dget_ddels {V} (ks : list string) s (d : dict string V) :
  NoDup (dkeys d) ->
  dget s (fold_left (fun r s => ddel s r) ks d) = if bool_decide (s ∈ ks) then None else dget s d.
Proof.
  revert d; induction ks as [|k ks IH]; intros d Hd; cbn [fold_left].
  { rewrite bool_decide_eq_false_2; [done|]. apply not_elem_of_nil. }
  rewrite IH by by apply NoDup_dkeys_ddel. destruct (decide (s ∈ ks)) as [Hin|Hin].
  - rewrite !bool_decide_eq_true_2; [done|by right|done].
  - rewrite (bool_decide_eq_false_2 (s ∈ ks)) by done. destruct (decide (s = k)) as [->|Hne].
    + rewrite bool_decide_eq_true_2 by left. by apply dget_ddel_eq.
    + rewrite bool_decide_eq_false_2 by (rewrite elem_of_cons; naive_solver). apply dget_ddel_ne. congruence.
Qed.

Lemma end_cooldowns_eq desired now (l : dict string datetime) :
  end_cooldowns desired now l =
  (fold_left (fun r s => ddel s r)
     (List.filter (fun kv => in_list desired kv.1 || dt_le kv.2 now) l).*1 l,
   (List.filter (fun kv => not_in desired kv.1 && dt_le kv.2 now) l).*1).
Proof.
  unfold end_cooldowns.
  match goal with |- fold_left ?f _ _ = (fold_left ?g (_ (List.filter ?p _)) _, _ (List.filter ?q _)) =>
    assert (forall k r e, fold_left f k (r, e) =
              (fold_left g (List.filter p k).*1 r, e ++ (List.filter q k).*1)) as H
  end; [|apply H].
  induction k as [|[k t] l' IH]; intros r e; [by rewrite app_nil_r|].
  cbn [fold_left List.filter fst snd]. change (bool_decide (k ∈ desired)) with (in_list desired k).
  rewrite (surjective_pairing (if in_list desired k then _ else _)), IH. unfold not_in at 2.
  destruct (in_list desired k), (dt_le t now); cbn; by rewrite <-?app_assoc.
Qed.

Lemma end_cooldowns_spec desired now (l : dict string datetime) :
  NoDup (dkeys l) ->
  NoDup (dkeys (end_cooldowns desired now l).1) /\
  (forall s, dget s (end_cooldowns desired now l).1 =
    match dget s l with
    | Some t => if bool_decide (s ∈ desired) || dt_le t now then None else Some t
    | None => None
    end) /\
  (forall s, s ∈ (end_cooldowns desired now l).2 <->
     (exists t, dget s l = Some t /\ (s ∉ desired) /\ dt_le t now = true)).
Proof.
  intros Hl. rewrite end_cooldowns_eq. cbn [fst snd]. split; [by apply NoDup_ddels|].
  assert (forall f s, s ∈ (List.filter f l).*1 <-> exists t, dget s l = Some t /\ f (s, t) = true) as Hf.
  { intros f s. rewrite list_elem_of_fmap. split.
    - intros ([k t]&->&[Hin Ht]%elem_of_filterb). exists t. split; [by apply elem_dget|done].
    - intros (t&Ht&Hft). exists (s, t). split; [done|]. apply elem_of_filterb. split; [by apply dget_elem|done]. }
  split; intros s.
  - rewrite dget_ddels by done. destruct (dget s l) as [t|] eqn:E.
    + destruct (bool_decide (s ∈ desired) || dt_le t now) eqn:Eb.
      * rewrite bool_decide_eq_true_2; [done|]. apply Hf. by exists t.
      * rewrite bool_decide_eq_false_2; [done|]. rewrite Hf, E. intros (t'&[= <-]&Hb). cbn in Hb. unfold in_list in Hb. congruence.
    + by case_match.
  - rewrite Hf. apply exist_proper. intros t. unfold not_in, in_list. cbn.
    rewrite andb_true_iff, negb_true_iff, bool_decide_eq_false. done.
Qed.

Lemma start_cooldowns_spec desired expired current until r :
  NoDup (dkeys r) ->
  NoDup (dkeys (start_cooldowns desired expired current until r)) /\
  forall s, dget s (start_cooldowns desired expired current until r) =
    match dget s r with
    | Some t => Some t
    | None => if bool_decide (s ∈ current /\ (s ∉ desired) /\ s ∉ expired) then Some until else None
    end.
Proof.
  unfold start_cooldowns. revert r; induction current as [|c l IH]; intros r Hr.
  { split; [done|]. intros s. cbn. destruct (dget s r); [done|].
    rewrite bool_decide_eq_false_2; [done|]. intros [H _]. by apply elem_of_nil in H. }
  cbn [fold_left]. destruct (_ || bool_decide (c ∈ expired)) eqn:E.
  - destruct (IH r Hr) as [H1 H2]. split; [done|]. intros s. rewrite H2.
    destruct (dget s r) as [t|] eqn:Es; [done|]. erewrite bool_decide_ext; [reflexivity|]. rewrite elem_of_cons.
    apply orb_true_iff in E as [[E%bool_decide_eq_true|E%dmem_true]%orb_true_iff|E%bool_decide_eq_true];
      [naive_solver| |naive_solver].
    destruct E as [t E]. split; [naive_solver|]. intros ([->|Hin]&H3&H4); [congruence|done].
  - destruct (IH (dset c until r)) as [H1 H2]; [by apply NoDup_dkeys_dset|]. split; [done|]. intros s.
    rewrite H2, dget_dset. apply orb_false_iff in E as [[E1 E2]%orb_false_iff E3].
    apply bool_decide_eq_false in E1, E3. unfold dmem in E2.
    case_decide as Ec; subst.
    + destruct (dget s r); [done|]. rewrite bool_decide_eq_true_2; [done|]. split; [by left|done].
    + destruct (dget s r); [done|]. erewrite bool_decide_ext; [reflexivity|]. rewrite elem_of_cons. naive_solver.
Qed.

Lemma dt_lt_irrefl t : dt_lt t t = false.
Proof. rewrite dt_lt_Z. lia. Qed.

Section cooling.
Context (m : SubscriptionManager) (demands : dict string SubscriptionDemand) (now : datetime).
Context (Hm : manager_ok m).
Let desired := slice_to (sm_target_limit m) (ranked demands).

(** The retained stocks, before those that leave are forgotten. *)
Lemma retained_spec s :
  NoDup (dkeys (cooling_of demands now m).2) /\
  dget s (cooling_of demands now m).2 =
    if bool_decide (s ∈ sm_current m /\ s ∉ desired) then
      match dget s (sm_retained_until m) with
      | Some t => if dt_le t now then None else Some t
      | None => Some (dt_add now (sm_cooldown m))
      end
    else None.
Proof.
  unfold cooling_of. fold desired.
  pose proof (end_cooldowns_spec desired now _ (mo_retained m Hm)) as (H1&H2&H3).
  destruct (end_cooldowns desired now (sm_retained_until m)) as [r expired]. cbn [fst snd] in H1, H2, H3.
  destruct (start_cooldowns_spec desired expired (sm_current m) (dt_add now (sm_cooldown m)) r H1) as [H4 H5].
  split; [exact H4|]. cbn [snd]. rewrite H5, H2.
  pose proof (mo_retained_current m Hm s) as Hcur. rewrite dmem_true in Hcur.
  destruct (dget s (sm_retained_until m)) as [t|] eqn:Er.
  - specialize (Hcur ltac:(by eexists)). destruct (decide (s ∈ desired)) as [Hd|Hd].
    + rewrite (bool_decide_eq_true_2 (s ∈ desired)) by done. cbn. rewrite !bool_decide_eq_false_2 by naive_solver. done.
    + rewrite (bool_decide_eq_false_2 (s ∈ desired)), (bool_decide_eq_true_2 (s ∈ sm_current m /\ s ∉ desired)) by done.
      cbn. destruct (dt_le t now) eqn:Et; [|done]. rewrite bool_decide_eq_false_2; [done|].
      intros (_&_&Hn). apply Hn, H3. by exists t.
  - destruct (decide (s ∈ sm_current m /\ s ∉ desired)) as [Hd|Hd].
    + rewrite !bool_decide_eq_true_2; [done|done|]. split; [apply Hd|]. split; [apply Hd|].
      rewrite H3. intros (t&Hn&_). congruence.
    + rewrite !bool_decide_eq_false_2 by naive_solver. done.
Qed.

Definition cool_candidates : list string :=
  List.filter (fun s => not_in desired s && dt_lt now (default now (dget s (cooling_of demands now m).2))) (sm_current m).

Lemma elem_of_candidate_stocks s :
  s ∈ cool_candidates <-> s ∈ sm_current m /\ (s ∉ desired) /\ dt_lt now (kept_until m now s) = true.
Proof.
  unfold cool_candidates, not_in, in_list. rewrite elem_of_filterb, andb_true_iff, negb_true_iff, bool_decide_eq_false.
  split; intros (H1&H2&H3); (split; [done|]); (split; [done|]).
  - destruct (retained_spec s) as [_ E]. rewrite E in H3. rewrite bool_decide_eq_true_2 in H3 by done.
    unfold kept_until. destruct (dget s (sm_retained_until m)) as [t|]; [|done].
    destruct (dt_le t now); [|done]. cbn in H3. by rewrite dt_lt_irrefl in H3.
  - destruct (retained_spec s) as [_ E]. rewrite E. rewrite bool_decide_eq_true_2 by done.
    unfold kept_until in H3. destruct (dget s (sm_retained_until m)) as [t|]; [|done]. cbn in H3.
    rewrite dt_lt_Z in H3. rewrite dt_le_Z. destruct (Z.leb_spec (instant t) (instant now)); [lia|].
    cbn. rewrite dt_lt_Z. lia.
Qed.

Lemma length_desired : Z.of_nat (length desired) <= sm_target_limit m.
Proof.
  pose proof (mo_limits m Hm). unfold desired. rewrite slice_to_nonneg by lia. rewrite length_take. lia.
Qed.

Lemma cooling_eq :
  (cooling_of demands now m).1 =
  take (Z.to_nat (sm_hard_limit m) - length desired) (sorted_by (historical_rank m) cool_candidates).
Proof.
  pose proof (mo_limits m Hm). pose proof length_desired. unfold cool_candidates, cooling_of. fold desired.
  destruct (end_cooldowns _ _ _) as [r expired]. cbn [fst snd].
  rewrite slice_to_nonneg by lia. f_equal. lia.
Qed.
End cooling.

(** What an application leaves. *)
Record applied (m : SubscriptionManager) (demands : dict string SubscriptionDemand) (now : datetime)
    (plan : SubscriptionPlan) (m' : SubscriptionManager) : Prop := {
  ap_current : sp_subscriptions plan = sm_current m';
  ap_members : forall s, s ∈ sm_current m' <->
    s ∈ slice_to (sm_target_limit m) (ranked demands) \/ s ∈ (cooling_of demands now m).1;
  ap_supplement : forall s, s ∈ sp_snapshot_supplement plan <-> s ∈ dkeys demands /\ s ∉ sm_current m';
  ap_added : forall s, s ∈ sp_added plan <-> s ∈ sm_current m' /\ s ∉ sm_current m;
  ap_removed : forall s, s ∈ sp_removed plan <-> s ∈ sm_current m /\ s ∉ sm_current m';
  ap_retained : forall s, dget s (sm_retained_until m') =
    if bool_decide (s ∈ (cooling_of demands now m).1) then Some (kept_until m now s) else None;
  ap_coalesced : sp_coalesced plan = false;
  ap_time : sm_last_applied_at m' = Some now;
  ap_cooldown : sm_cooldown m' = sm_cooldown m;
  ap_hard : sm_hard_limit m' = sm_hard_limit m;
  ap_length : length (sm_current m') =
    (length (slice_to (sm_target_limit m) (ranked demands)) + length (cooling_of demands now m).1)%nat;
  ap_ok : manager_ok m'
}.

Lemma NoDup_app_filter (l k : list string) : NoDup l -> NoDup k -> NoDup (l ++ List.filter (not_in l) k).
Proof.
  intros Hl Hk. apply NoDup_app. split; [done|]. split; [|by apply NoDup_filterb].
  intros s Hs [_ Hn]%elem_of_filterb. unfold not_in, in_list in Hn.
  by rewrite bool_decide_eq_true_2 in Hn.
Qed.

Lemma elem_of_in_list l s : in_list l s = true <-> s ∈ l.
Proof. apply bool_decide_eq_true. Qed.
Lemma elem_of_not_in l s : not_in l s = true <-> s ∉ l.
Proof. unfold not_in. rewrite negb_true_iff. apply bool_decide_eq_false. Qed.

Section application.
Context (m : SubscriptionManager) (demands : dict string SubscriptionDemand) (now : datetime).
Context (Hm : manager_ok m) (Hd : NoDup (dkeys demands)) (Hnow : is_aware now = true).
Let desired := slice_to (sm_target_limit m) (ranked demands).
Let cooling := (cooling_of demands now m).1.

Lemma NoDup_desired : NoDup desired.
Proof.
  unfold desired, slice_to. eapply sublist_NoDup; [|apply sublist_take].
  unfold ranked. by rewrite sorted_by_perm.
Qed.

Lemma cooling_facts :
  NoDup cooling /\ (forall s, s ∈ cooling -> s ∈ cool_candidates m demands now) /\
  (length desired + length cooling <= Z.to_nat (sm_hard_limit m))%nat /\
  ((length desired + length cooling < Z.to_nat (sm_hard_limit m))%nat ->
   forall s, s ∈ cool_candidates m demands now -> s ∈ cooling).
Proof.
  unfold cooling. rewrite cooling_eq by done. fold desired.
  pose proof (length_desired m demands Hm) as Hlen. fold desired in Hlen. pose proof (mo_limits m Hm).
  set (l := sorted_by (historical_rank m) (cool_candidates m demands now)).
  assert (l ≡ₚ cool_candidates m demands now) as Hl by apply sorted_by_perm.
  split; [|split; [|split]].
  - eapply sublist_NoDup; [|apply sublist_take]. rewrite Hl. apply NoDup_filterb, (mo_current m Hm).
  - intros s Hs. rewrite <-Hl. eapply elem_of_submseteq; [exact Hs|]. apply sublist_submseteq, sublist_take.
  - rewrite length_take. lia.
  - rewrite length_take. intros Hlt s Hs. rewrite take_ge by lia. by rewrite Hl.
Qed.

Lemma apply_spec :
  exists plan m', apply demands now m = (Ok plan, m') /\ applied m demands now plan m'.
Proof.
  destruct cooling_facts as (Hnd&Hcand&Hsize&_). pose proof (mo_limits m Hm) as Hlim.
  unfold apply. fold desired. pose proof (retained_spec m demands now Hm) as Hret. fold desired in Hret.
  unfold cooling in *. destruct (cooling_of demands now m) as [cool retained] eqn:Ec. cbn [fst snd] in *.
  set (stable := List.filter (fun s => in_list desired s || in_list cool s) (sm_current m)).
  set (subs := stable ++ List.filter (not_in stable) desired).
  assert (forall s, s ∈ cool -> s ∈ sm_current m /\ (s ∉ desired) /\ dt_lt now (kept_until m now s) = true) as Hcool
    by (intros s Hs; by apply (elem_of_candidate_stocks m demands now Hm), Hcand).
  assert (NoDup subs) as Hsubs by (apply NoDup_app_filter; [apply NoDup_filterb, (mo_current m Hm)|apply NoDup_desired]).
  assert (forall s, s ∈ subs <-> s ∈ desired \/ s ∈ cool) as Hmem.
  { intros s. unfold subs. rewrite elem_of_app, elem_of_filterb, elem_of_not_in.
    unfold stable. rewrite elem_of_filterb, orb_true_iff, !elem_of_in_list. specialize (Hcool s).
    destruct (decide (s ∈ sm_current m)); naive_solver. }
  assert (subs ≡ₚ desired ++ cool) as Hperm.
  { apply NoDup_Permutation; [done| |by intros s; rewrite elem_of_app].
    apply NoDup_app. split; [apply NoDup_desired|]. split; [|done]. intros s H1 H2. by apply Hcool in H2 as (_&?&_). }
  apply Permutation_length in Hperm. rewrite length_app in Hperm.
  assert (forall s, s ∈ sorted_set (List.filter (not_in subs) (sm_current m)) <-> s ∈ sm_current m /\ s ∉ subs) as Hrem
    by (intros s; by rewrite elem_of_sorted_set, elem_of_filterb, elem_of_not_in).
  assert (forall s, dget s (fold_left (fun r s => ddel s r) (sorted_set (List.filter (not_in subs) (sm_current m))) retained) =
            if bool_decide (s ∈ cool) then Some (kept_until m now s) else None) as Hfinal.
  { intros s. destruct (Hret s) as [Hrn Hrs]. rewrite dget_ddels, Hrs by done.
    specialize (Hrem s). specialize (Hmem s). specialize (Hcool s). destruct (decide (s ∈ cool)) as [Hs|Hs].
    - destruct Hcool as (H1&H2&H3); [done|]. rewrite bool_decide_eq_false_2 by naive_solver.
      rewrite !bool_decide_eq_true_2 by done. unfold kept_until in *.
      destruct (dget s (sm_retained_until m)) as [t|]; [|done]. cbn in *.
      rewrite dt_lt_Z in H3. rewrite dt_le_Z. by destruct (Z.leb_spec (instant t) (instant now)); [lia|].
    - rewrite (bool_decide_eq_false_2 (s ∈ cool)) by done.
      destruct (decide (s ∈ sm_current m /\ s ∉ desired)) as [Hc|Hc].
      + rewrite bool_decide_eq_true_2; [done|]. apply Hrem. split; [apply Hc|]. naive_solver.
      + rewrite (bool_decide_eq_false_2 (s ∈ sm_current m /\ _)) by done. clear Hrs. by case_bool_decide. }
  cbv zeta. fold stable subs. eexists _, _. split.
  - unfold SubscriptionPlan_check, require_aware. cbn [sp_generated_at sp_hard_limit sp_subscriptions].
    rewrite Hnow. cbn [negb raise_if mbind res_bind].
    destruct (Z.ltb_spec (sm_hard_limit m) (Z.of_nat (length subs))); [lia|]. cbn [raise_if mbind res_bind].
    rewrite bool_decide_eq_true_2 by done. reflexivity.
  - split; rewrite ?Ec; cbn; [done|exact Hmem| | | |exact Hfinal|done|done|done|done|exact Hperm|].
    + intros s. rewrite elem_of_filterb, elem_of_not_in. unfold ranked. by rewrite elem_of_sorted_by.
    + intros s. by rewrite elem_of_sorted_set, elem_of_filterb, elem_of_not_in.
    + exact Hrem.
    + split; cbn; [done|apply (mo_cooldown m Hm)|done|lia| |].
      * apply NoDup_ddels. by apply (Hret EmptyString).
      * intros s. rewrite dmem_true, Hfinal, Hmem. case_bool_decide; [by right|by intros []].
Qed.
End application.

(** ** Histories *)

(** The demands that are subscribed first. *)
Definition top_demands (m : SubscriptionManager) (demands : list SubscriptionDemand) : list string :=
  match aggregate_demands demands with
  | Ok n => slice_to (sm_target_limit m) (ranked n)
  | Raise _ => []
  end.

(** The managers calls can reach as time passes, with the times of the applications and the
    top demands of each. *)
Inductive managed : SubscriptionManager -> list (datetime * list string) -> Prop :=
  | managed_new target hard cooldown coalesce m :
      subscription_manager target hard cooldown coalesce = Ok m -> managed m []
  | managed_call m log demands now force plan m' :
      managed m log -> Forall demand_ok demands -> is_aware now = true ->
      Forall (fun e => dt_le e.1 now = true) log ->
      reconcile demands now force m = (Ok plan, m') ->
      managed m' (if sp_coalesced plan then log else log ++ [(now, top_demands m demands)]).

(** A cooldown that runs ends after the stock was last a top demand. *)
Definition cooldowns_ok (m : SubscriptionManager) (log : list (datetime * list string)) : Prop :=
  forall s u e, dget s (sm_retained_until m) = Some u -> e ∈ log -> s ∈ e.2 ->
    instant e.1 + sm_cooldown m <= instant u.

Lemma manager_ok_pending m n : manager_ok m -> manager_ok (set_pending n m).
Proof. by intros []. Qed.

(** A call applies its demands, or answers with what is subscribed. *)
Lemma reconcile_cases m ds now force :
  manager_ok m -> Forall demand_ok ds -> is_aware now = true ->
  exists n plan m',
    aggregate_demands ds = Ok n /\ NoDup (dkeys n) /\ (forall s, s ∈ dkeys n <-> s ∈ sd_stock_id <$> ds) /\
    reconcile ds now force m = (Ok plan, m') /\
    (applied (set_pending n m) n now plan m' \/
     force = false /\ m' = set_pending n m /\ coalesced_plan n now m' = Ok plan).
Proof.
  intros Hm Hds Hnow. destruct (aggregate_ok ds Hds) as (n&Hn&Hnd&Hkeys).
  unfold reconcile, lift, get_st, require_aware, mbind, M_bind. rewrite Hnow, Hn. cbn [negb raise_if].
  assert (manager_ok (set_pending n m)) as Hm' by by apply manager_ok_pending.
  destruct (negb force && _) eqn:E.
  - apply andb_true_iff in E as [Hf%negb_true_iff _].
    assert (exists plan, coalesced_plan n now (set_pending n m) = Ok plan) as [plan Hplan].
    { unfold coalesced_plan, SubscriptionPlan_check, require_aware.
      cbn [sp_generated_at sp_hard_limit sp_subscriptions]. rewrite Hnow. cbn [negb raise_if mbind res_bind].
      pose proof (mo_size _ Hm') as Hsize.
      destruct (Z.ltb_spec (sm_hard_limit (set_pending n m)) (Z.of_nat (length (sm_current (set_pending n m)))));
        [lia|]. cbn [raise_if mbind res_bind].
      rewrite bool_decide_eq_true_2 by apply (mo_current _ Hm'). cbn. by eexists. }
    exists n, plan, (set_pending n m). rewrite Hplan. do 4 (split; [done|]). by right.
  - destruct (apply_spec (set_pending n m) n now Hm' Hnd Hnow) as (plan&m'&Hrun&Happ).
    exists n, plan, m'. do 4 (split; [done|]). by left.
Qed.

Lemma coalesced_plan_ok n now m plan :
  coalesced_plan n now m = Ok plan ->
  sp_subscriptions plan = sm_current m /\ sp_added plan = [] /\ sp_removed plan = [] /\ sp_coalesced plan = true /\
  (forall s, s ∈ sp_snapshot_supplement plan <-> s ∈ dkeys n /\ s ∉ sm_current m).
Proof.
  unfold coalesced_plan, SubscriptionPlan_check. intros H.
  do 3 (apply res_bind_ok in H as (?&_&H)). injection H as <-. do 4 (split; [done|]). cbn. intros s.
  rewrite elem_of_filterb, negb_true_iff, bool_decide_eq_false. unfold ranked. by rewrite elem_of_sorted_by.
Qed.

Lemma managed_ok m log : managed m log -> manager_ok m /\ cooldowns_ok m log.
Proof.
  induction 1 as [t h c i m Hnew|m log ds now force plan m' Hm [Hok Hcool] Hds Hnow Htime Hrun].
  - unfold subscription_manager in Hnew. apply res_bind_ok in Hnew as (?&H1%raise_if_ok&Hnew).
    apply res_bind_ok in Hnew as (?&H2%raise_if_ok&[= <-]).
    apply orb_false_iff in H1 as [?%Z.ltb_ge ?%Z.ltb_ge]. apply orb_false_iff in H2 as [?%Z.ltb_ge ?%Z.ltb_ge].
    split; [|by intros ???? Hin%elem_of_nil]. split; cbn; [lia|lia|apply NoDup_nil_2|lia|apply NoDup_nil_2|done].
  - destruct (reconcile_cases m ds now force Hok Hds Hnow) as (n&plan'&m''&Hn&Hnd&_&Hrun'&Hcase).
    rewrite Hrun' in Hrun. injection Hrun as <- <-. destruct Hcase as [Happ|(_&->&Hc)].
    + split; [apply (ap_ok _ _ _ _ _ Happ)|]. rewrite (ap_coalesced _ _ _ _ _ Happ).
      intros s u e Hu He Hs. rewrite (ap_retained _ _ _ _ _ Happ) in Hu.
      case_bool_decide as Hin; [|done]. injection Hu as <-. rewrite (ap_cooldown _ _ _ _ _ Happ). cbn.
      apply elem_of_app in He as [He| ->%list_elem_of_singleton].
      * unfold kept_until. cbn. destruct (dget s (sm_retained_until m)) as [u|] eqn:Eu; cbn; [by apply (Hcool s u e)|].
        rewrite instant_add. rewrite Forall_forall in Htime. specialize (Htime e He). rewrite dt_le_Z in Htime. lia.
      * exfalso. apply (cooling_facts (set_pending n m) n now (manager_ok_pending m n Hok)) in Hin.
        apply (elem_of_candidate_stocks (set_pending n m) n now (manager_ok_pending m n Hok)) in Hin as (_&Hn'&_).
        apply Hn'. cbn in Hs. unfold top_demands in Hs. by rewrite Hn in Hs.
    + split; [by apply manager_ok_pending|]. apply coalesced_plan_ok in Hc as (_&_&_&->&_). exact Hcool.
Qed.

Lemma StronglySorted_app_elem {A} (R : A -> A -> Prop) l k x y :
  StronglySorted R (l ++ k) -> x ∈ l -> y ∈ k -> R x y.
Proof.
  induction l as [|z l IH]; intros H Hx Hy; [by apply elem_of_nil in Hx|].
  inversion H as [|? ? Hs Hz]; subst. apply elem_of_cons in Hx as [->|Hx]; [|by apply IH].
  rewrite Forall_forall in Hz. apply Hz, elem_of_app. by right.
Qed.

(** Who is left out is outranked. *)
Lemma left_out_outranked target n s :
  0 <= target -> NoDup (dkeys n) -> s ∈ dkeys n -> s ∉ slice_to target (ranked n) ->
  let top := slice_to target (ranked n) in
  NoDup top /\ Z.of_nat (length top) = target /\
  Forall (fun t => t ∈ dkeys n /\ pyle (rank_in n t) (rank_in n s) = true) top.
Proof.
  intros Ht Hnd Hs Hout. rewrite slice_to_nonneg in * by done. cbn zeta.
  assert (s ∈ ranked n) as Hin by (unfold ranked; by rewrite elem_of_sorted_by).
  rewrite <-(take_drop (Z.to_nat target) (ranked n)) in Hin. apply elem_of_app in Hin as [Hin|Hin]; [done|].
  split; [|split].
  - eapply sublist_NoDup; [|apply sublist_take]. unfold ranked. by rewrite sorted_by_perm.
  - destruct (decide (Z.to_nat target <= length (ranked n))%nat) as [Hle|Hgt]; [rewrite length_take; lia|].
    rewrite drop_ge in Hin by lia. by apply elem_of_nil in Hin.
  - apply Forall_forall. intros t Htop. split.
    + assert (t ∈ ranked n) as Hr by (eapply elem_of_submseteq; [exact Htop|]; apply sublist_submseteq, sublist_take).
      unfold ranked in Hr. by rewrite elem_of_sorted_by in Hr.
    + pose proof (sorted_by_sorted (rank_in n) (dkeys n)) as Hsort. fold (ranked n) in Hsort.
      rewrite <-(take_drop (Z.to_nat target) (ranked n)) in Hsort. by apply (StronglySorted_app_elem _ _ _ _ _ Hsort).
Qed.

(** C29: A call of the manager never raises on well-formed demands.  Its plan is what the manager
    is then subscribed to: no stock twice, never more than the hard limit.  A demanded stock is
    either subscribed or handed to the snapshots.  If the call was not coalesced, a demand that
    is left out is outranked by [target_limit] demands, all of them subscribed; if it was, the
    subscriptions are unchanged. *)
Theorem plan_serves_top_demands m log ds now force :
  managed m log -> Forall demand_ok ds -> is_aware now = true ->
  exists n plan m',
    aggregate_demands ds = Ok n /\ reconcile ds now force m = (Ok plan, m') /\
    sp_subscriptions plan = sm_current m' /\
    NoDup (sm_current m') /\ Z.of_nat (length (sm_current m')) <= sm_hard_limit m' /\
    (forall s, s ∈ sp_snapshot_supplement plan <-> s ∈ (sd_stock_id <$> ds) /\ s ∉ sm_current m') /\
    (forall s, s ∈ sp_added plan <-> s ∈ sm_current m' /\ s ∉ sm_current m) /\
    (forall s, s ∈ sp_removed plan <-> s ∈ sm_current m /\ s ∉ sm_current m') /\
    if sp_coalesced plan then force = false /\ sm_current m' = sm_current m
    else forall s, s ∈ (sd_stock_id <$> ds) -> s ∉ sm_current m' ->
      exists top, NoDup top /\ Z.of_nat (length top) = sm_target_limit m /\
        Forall (fun t => t ∈ sm_current m' /\ t ∈ (sd_stock_id <$> ds) /\
                         pyle (rank_in n t) (rank_in n s) = true) top.
Proof.
  intros Hm Hds Hnow. destruct (managed_ok m log Hm) as [Hok _].
  destruct (reconcile_cases m ds now force Hok Hds Hnow) as (n&plan&m'&Hn&Hnd&Hkeys&Hrun&Hcase).
  exists n, plan, m'. split; [done|]. split; [done|]. destruct Hcase as [Happ|(Hf & -> & Hc)].
  - destruct Happ as [H1 H2 H3 H4 H5 _ H7 _ _ _ _ H9]. destruct H9 as [_ _ H10 H11 _ _].
    split; [exact H1|]. split; [exact H10|]. split; [exact H11|].
    split; [by intros s; rewrite H3, Hkeys|]. split; [exact H4|]. split; [exact H5|]. rewrite H7. intros s Hs Hout.
    assert (0 <= sm_target_limit m) as Ht by (destruct (mo_limits m Hok); lia).
    destruct (left_out_outranked (sm_target_limit m) n s Ht Hnd) as (Hu&Hl&Hr);
      [by apply Hkeys|intros Hin; apply Hout, H2; by left|].
    eexists. split; [exact Hu|]. split; [exact Hl|]. apply Forall_forall. intros t Htop.
    rewrite Forall_forall in Hr. destruct (Hr t Htop) as [Ht1 Ht2].
    split; [apply H2; by left|]. split; [by apply Hkeys|done].
  - apply coalesced_plan_ok in Hc as (H1&H2&H3&H4&H5).
    split; [exact H1|]. split; [apply (mo_current m Hok)|]. split; [apply (mo_size m Hok)|].
    split; [by intros s; rewrite H5, Hkeys|]. rewrite H2, H3, H4. cbn. split; [|split]; [| |by split].
    all: intros s; split; [by intros ?%elem_of_nil|by intros []].
Qed.

(** A subscription is not given up early.  When a call removes a stock, it is no top demand,
    and either the subscriptions are at the hard limit, or at each earlier application that had
    it among its top demands a whole cooldown has passed since. *)
Theorem dropped_after_cooldown m log ds now force plan m' s :
  managed m log -> Forall demand_ok ds -> is_aware now = true ->
  Forall (fun e => dt_le e.1 now = true) log ->
  reconcile ds now force m = (Ok plan, m') -> s ∈ sp_removed plan ->
  s ∉ top_demands m ds /\
  (Z.of_nat (length (sm_current m')) = sm_hard_limit m' \/
   Forall (fun e => s ∈ e.2 -> instant e.1 + sm_cooldown m <= instant now) log).
Proof.
  intros Hm Hds Hnow Htime Hrun Hs. destruct (managed_ok m log Hm) as [Hok Hcool].
  destruct (reconcile_cases m ds now force Hok Hds Hnow) as (n&plan'&m2&Hn&Hnd&_&Hrun'&Hcase).
  rewrite Hrun' in Hrun. injection Hrun as <- <-.
  destruct Hcase as [Happ|(_ & -> & Hc)].
  2: { apply coalesced_plan_ok in Hc as (_&_&Hr&_). rewrite Hr in Hs. by apply elem_of_nil in Hs. }
  pose proof (manager_ok_pending m n Hok) as Hok'.
  apply (ap_removed _ _ _ _ _ Happ) in Hs as [Hcur Hout]. rewrite (ap_members _ _ _ _ _ Happ) in Hout.
  assert (s ∉ slice_to (sm_target_limit m) (ranked n)) as Htop by (intros Hin; apply Hout; by left).
  split; [unfold top_demands; by rewrite Hn|].
  destruct (cooling_facts (set_pending n m) n now Hok') as (_&_&Hsize&Hall).
  rewrite (ap_hard _ _ _ _ _ Happ), (ap_length _ _ _ _ _ Happ). pose proof (mo_limits m Hok) as Hlim. cbn in Hsize, Hall |- *.
  destruct (decide (length (slice_to (sm_target_limit m) (ranked n)) + length (cooling_of n now (set_pending n m)).1
                    < Z.to_nat (sm_hard_limit m))%nat) as [Hlt|Hge]; [right|left; lia].
  apply Forall_forall. intros e He Hin.
  assert (dt_lt now (kept_until m now s) = false) as Hkept.
  { apply not_true_iff_false. intros Hk. apply Hout. right. apply (Hall Hlt).
    by apply (elem_of_candidate_stocks (set_pending n m) n now Hok'). }
  rewrite dt_lt_Z in Hkept. apply Z.ltb_ge in Hkept. unfold kept_until in Hkept.
  destruct (dget s (sm_retained_until m)) as [u|] eqn:Eu; cbn in Hkept.
  - specialize (Hcool s u e Eu He Hin). lia.
  - rewrite instant_add in Hkept. rewrite Forall_forall in Htime. specialize (Htime e He). rewrite dt_le_Z in Htime. lia.
Qed.

(** ** Examples *)

Definition demo_at (s : Z) : datetime := mk_datetime (epoch_us + seconds (1786000000 + s)) (Some 0).
Definition demo_demand (stock : string) (p : DemandPriority) (s : Z) : SubscriptionDemand :=
  mk_SubscriptionDemand stock p (demo_at s) 1 [].

(** One top demand, room for two. *)
Definition demo_manager : SubscriptionManager := mk_SubscriptionManager 1 2 (seconds 60) (seconds 1) [] None [] [] [].
Definition demo_first : list SubscriptionDemand := [demo_demand "KRX:000001" ACTIVE_CORE 0].
Definition demo_second : list SubscriptionDemand :=
  [demo_demand "KRX:000003" SINGLE_SIGNAL_CANDIDATE 10; demo_demand "KRX:000002" ACTIVE_LEADER 10;
   demo_demand "KRX:000003" ACTIVE_RELATED 5].

Definition after (r : res SubscriptionPlan * SubscriptionManager) : SubscriptionManager := r.2.
Definition demo_m1 : SubscriptionManager := Eval vm_compute in after (reconcile demo_first (demo_at 0) false demo_manager).
Definition demo_m2 : SubscriptionManager := Eval vm_compute in after (reconcile demo_second (demo_at 10) false demo_m1).

Example demo_keeps_both : sm_current demo_m2 = ["KRX:000001"; "KRX:000002"].
Proof. reflexivity. Qed.

Lemma demo_demands_ok : Forall demand_ok demo_first /\ Forall demand_ok demo_second.
Proof. split; repeat (apply Forall_cons; split); try apply Forall_nil_2; by split. Qed.

Lemma managed_step m log ds now force plan m' log' :
  managed m log -> Forall demand_ok ds -> is_aware now = true ->
  Forall (fun e => dt_le e.1 now = true) log -> reconcile ds now force m = (Ok plan, m') ->
  log' = (if sp_coalesced plan then log else log ++ [(now, top_demands m ds)]) -> managed m' log'.
Proof. intros H1 H2 H3 H4 H5 ->. exact (managed_call m log ds now force plan m' H1 H2 H3 H4 H5). Qed.

Lemma demo_managed1 : managed demo_m1 [(demo_at 0, ["KRX:000001"])].
Proof.
  eapply (managed_step demo_manager [] demo_first (demo_at 0) false).
  - exact (managed_new 1 2 (seconds 60) (seconds 1) demo_manager eq_refl).
  - apply demo_demands_ok.
  - done.
  - apply Forall_nil_2.
  - vm_compute. reflexivity.
  - vm_compute. reflexivity.
Qed.

Lemma demo_managed2 : managed demo_m2 [(demo_at 0, ["KRX:000001"]); (demo_at 10, ["KRX:000002"])].
Proof.
  eapply (managed_step demo_m1 _ demo_second (demo_at 10) false).
  - exact demo_managed1.
  - apply demo_demands_ok.
  - done.
  - by apply Forall_singleton.
  - vm_compute. reflexivity.
  - vm_compute. reflexivity.
Qed.

Lemma plan_serves_top_demands_witness :
  managed demo_m2 [(demo_at 0, ["KRX:000001"]); (demo_at 10, ["KRX:000002"])] /\
  exists n plan m', aggregate_demands demo_second = Ok n /\
    reconcile demo_second (demo_at 80) false demo_m2 = (Ok plan, m') /\
    sp_subscriptions plan = sm_current m'.
Proof.
  split; [exact demo_managed2|].
  destruct (plan_serves_top_demands demo_m2 _ demo_second (demo_at 80) false demo_managed2
              (proj2 demo_demands_ok) eq_refl) as (n&plan&m'&H1&H2&H3&_).
  exists n, plan, m'. by split.
Defined.

Lemma dropped_after_cooldown_witness :
  exists plan m', reconcile demo_second (demo_at 80) false demo_m2 = (Ok plan, m') /\
    sp_removed plan = ["KRX:000001"] /\ length (sm_current m') = 1%nat /\
    instant (demo_at 0) + sm_cooldown demo_m2 <= instant (demo_at 80).
Proof.
  destruct (reconcile demo_second (demo_at 80) false demo_m2) as [[plan|e] m'] eqn:E; [|vm_compute in E; congruence].
  assert (sp_removed plan = ["KRX:000001"] /\ length (sm_current m') = 1%nat) as [Hr Hl]
    by (vm_compute in E; injection E as <- <-; by split).
  exists plan, m'. split; [done|]. split; [done|]. split; [done|].
  destruct (dropped_after_cooldown demo_m2 _ demo_second (demo_at 80) false plan m' "KRX:000001" demo_managed2
              (proj2 demo_demands_ok) eq_refl ltac:(by repeat (apply Forall_cons; split)) E) as [_ [Hfull|Hall]].
  - rewrite Hr. by left.
  - exfalso. assert (sm_hard_limit m' = 2) as H2 by (vm_compute in E; injection E as _ <-; done). lia.
  - exact (Forall_inv Hall ltac:(by left)).
Defined.
