(* ===== verification/Reconnect.v ===== *)
(** [packages/adapters/kiwoom/recovery.py]: how long to wait before the next attempt to connect. *)
From S2P Require Import Prelude PyTime PyDecimal PyFloat PyFloatFacts Sha256 Sha256Facts Json.
#[local] Open Scope Z_scope.

(** ** Python's [float ** int], [total_seconds] and [timedelta(seconds=float)] *)

(** The first power of two a float cannot hold. *)
Definition float_limit : Z := 2 ^ 1024 * double_unit.

(** [x ** n] for [0 <= x] and [0 <= n], rounded once.  The C library's [pow] does so for powers
    of two; for other bases it may be off by a unit in the last place, which is not modelled.
    Beyond the floats it raises [OverflowError]. *)
Definition fpow (x : double) (n : Z) : res double :=
  let g := Z.gcd x double_unit in
  let r := of_ratio ((x / g) ^ n) ((double_unit / g) ^ n) in
  if float_limit <=? r then Raise OverflowError else Ok r.

Definition total_seconds (t : timedelta) : double := of_ratio t 1000000.

(** The whole seconds are exact; the microseconds of the fraction are a float product. *)
Definition timedelta_of_seconds (x : double) : timedelta :=
  seconds (x / double_unit) + div_half_even (fmul (x mod double_unit) (of_int 1000000)) double_unit.

(** [int.from_bytes(bytes, "big")] *)
Definition int_from_bytes (bytes : list N) : Z := fold_left (fun acc b => 256 * acc + Z.of_N b) bytes 0.

(** ** The policy *)

(* @ packages/adapters/kiwoom/recovery.py 12-17 ReconnectPolicy *)
Record ReconnectPolicy := mk_ReconnectPolicy {
  rp_base_delay : timedelta;
  rp_maximum_delay : timedelta;
  rp_multiplier : double;
  rp_jitter_ratio : double
}.

(* @ packages/adapters/kiwoom/recovery.py 19-27 ReconnectPolicy.__post_init__ *)
Definition ReconnectPolicy_check (p : ReconnectPolicy) : res ReconnectPolicy :=
  _ ← raise_if (total_seconds (rp_base_delay p) <=? 0) ValueError;
  _ ← raise_if (rp_maximum_delay p <? rp_base_delay p) ValueError;
  _ ← raise_if (rp_multiplier p <? one) ValueError;
  _ ← raise_if (negb ((0 <=? rp_jitter_ratio p) && (rp_jitter_ratio p <? one))) ValueError;
  Ok p.

(** [ReconnectPolicy()] *)
(* @ packages/adapters/kiwoom/recovery.py 12-17 ReconnectPolicy *)
Definition default_policy : ReconnectPolicy :=
  mk_ReconnectPolicy (seconds 1) (seconds 30) (of_int 2) (of_ratio 2 10).

(* @ packages/adapters/kiwoom/recovery.py 29-37 ReconnectPolicy.delay_for *)
Definition jitter_factor (p : ReconnectPolicy) (attempt : Z) (jitter_key : string) : double :=
  let digest := sha256_digest (jitter_key +:+ ":" +:+ str_Z attempt) in
  let fraction := of_ratio (int_from_bytes (take 8 digest)) (2 ^ 64 - 1) in
  fadd (fadd one (- rp_jitter_ratio p)) (fmul (rp_jitter_ratio p) fraction).

(* @ packages/adapters/kiwoom/recovery.py 29-37 ReconnectPolicy.delay_for *)
Definition delay_for (p : ReconnectPolicy) (attempt : Z) (jitter_key : string) : res timedelta :=
  _ ← raise_if (attempt <? 1) ValueError;
  power ← fpow (rp_multiplier p) (attempt - 1);
  let raw_seconds := fmul (total_seconds (rp_base_delay p)) power in
  let capped_seconds := pymin raw_seconds (total_seconds (rp_maximum_delay p)) in
  Ok (timedelta_of_seconds (fmul capped_seconds (jitter_factor p attempt jitter_key))).

(** ** The controller *)

(* @ packages/adapters/kiwoom/recovery.py 40-46 ReconnectSchedule *)
Record ReconnectSchedule := mk_ReconnectSchedule {
  rs_attempt : Z;
  rs_reason : string;
  rs_scheduled_at : datetime;
  rs_due_at : datetime;
  rs_delay : timedelta
}.

(* @ packages/adapters/kiwoom/recovery.py 50-53 ReconnectController.__init__ *)
Record ReconnectController := mk_ReconnectController {
  rc_policy : ReconnectPolicy;
  rc_attempt : Z;
  rc_schedule : option ReconnectSchedule
}.

(* @ packages/adapters/kiwoom/recovery.py 50-53 ReconnectController.__init__ *)
Definition reconnect_controller (policy : option ReconnectPolicy) : ReconnectController :=
  mk_ReconnectController (default default_policy policy) 0 None.

(* @ packages/adapters/kiwoom/recovery.py 59-78 ReconnectController.schedule_failure *)
Definition schedule_failure (now : datetime) (reason jitter_key : string)
    : M ReconnectController ReconnectSchedule :=
  _ ← lift (require_aware now);
  _ ← lift (raise_if (is_empty reason) ValueError);
  c ← get_st;
  let attempt := rc_attempt c + 1 in
  _ ← put_st (mk_ReconnectController (rc_policy c) attempt (rc_schedule c));
  delay ← lift (delay_for (rc_policy c) attempt jitter_key);
  let s := mk_ReconnectSchedule attempt reason now (dt_add now delay) delay in
  _ ← put_st (mk_ReconnectController (rc_policy c) attempt (Some s));
  mret s.

(* @ packages/adapters/kiwoom/recovery.py 80-82 ReconnectController.is_due *)
Definition is_due (c : ReconnectController) (now : datetime) : res bool :=
  _ ← require_aware now;
  Ok (match rc_schedule c with Some s => dt_le (rs_due_at s) now | None => false end).

(* @ packages/adapters/kiwoom/recovery.py 84-86 ReconnectController.mark_connected *)
Definition mark_connected (c : ReconnectController) : ReconnectController :=
  mk_ReconnectController (rc_policy c) 0 None.

Example delay_jitter : delay_for default_policy 1 "initial" = Ok 889055.
Proof. vm_compute. reflexivity. Qed.

(** ** Delays stay within the maximum *)

#[local] Opaque one double_unit.

Lemma timedelta_of_whole k : timedelta_of_seconds (k * double_unit) = seconds k.
Proof.
  unfold timedelta_of_seconds. pose proof double_unit_pos. rewrite Z.div_mul, Z.mod_mul by lia.
  assert (div_half_even (fmul 0 (of_int 1000000)) double_unit = 0) as -> by (vm_compute; reflexivity). lia.
Qed.

Lemma representable_whole k : 0 <= k <= 2 ^ 53 -> representable (k * double_unit).
Proof. intros Hk. by exists k, 1074. Qed.

Lemma total_whole k : 0 <= k <= 2 ^ 53 -> total_seconds (seconds k) = k * double_unit.
Proof.
  intros Hk. pose proof double_unit_pos. pose proof (representable_whole k Hk) as Hr.
  unfold total_seconds, of_ratio, seconds. apply Z.le_antisymm; [apply nearest_below|apply nearest_above]; try done; nia.
Qed.

Lemma of_int_whole k : 0 <= k <= 2 ^ 53 -> of_int k = k * double_unit.
Proof. intros Hk. unfold of_int, of_ratio. apply nearest_id. by apply representable_whole. Qed.

(** Longer in seconds, no shorter in microseconds. *)
Lemma timedelta_mono x y : 0 <= x <= y -> timedelta_of_seconds x <= timedelta_of_seconds y.
Proof.
  intros Hxy. unfold timedelta_of_seconds, seconds. pose proof double_unit_pos as Hu.
  assert (forall z, 0 <= z -> 0 <= div_half_even (fmul (z mod double_unit) (of_int 1000000)) double_unit <= 1000000) as Hfrac.
  { intros z Hz. pose proof (Z.mod_pos_bound z double_unit Hu). rewrite (of_int_whole 1000000) by lia.
    assert (0 <= fmul (z mod double_unit) (1000000 * double_unit) <= 1000000 * double_unit) as [H1 H2].
    { split; [apply fmul_nonneg; lia|]. unfold fmul.
      apply nearest_below; [nia|done|by apply (representable_whole 1000000)|nia]. }
    split; [apply div_half_even_ge; lia|by apply div_half_even_le]. }
  pose proof (Hfrac x ltac:(lia)) as Hx. pose proof (Hfrac y ltac:(lia)) as Hy.
  pose proof (Z.div_le_mono x y double_unit Hu ltac:(lia)) as Hq.
  destruct (Z.eq_dec (x / double_unit) (y / double_unit)) as [E|Hne]; [|lia].
  rewrite E. apply Z.add_le_mono_l, div_half_even_mono; [done|].
  pose proof (Z.div_mod x double_unit ltac:(lia)). pose proof (Z.div_mod y double_unit ltac:(lia)).
  pose proof (Z.mod_pos_bound x double_unit Hu). pose proof (Z.mod_pos_bound y double_unit Hu).
  apply fmul_mono; [rewrite E in *; lia|]. rewrite (of_int_whole 1000000) by lia. lia.
Qed.

Lemma timedelta_nonneg x : 0 <= x -> 0 <= timedelta_of_seconds x.
Proof.
  intros Hx. transitivity (timedelta_of_seconds (0 * double_unit)); [by rewrite timedelta_of_whole|].
  apply timedelta_mono. lia.
Qed.

(** [1 - jitter] is rounded up by at most half a unit of the last place of one. *)
Lemma one_minus j : 0 <= j <= one -> 0 <= fadd one (- j) <= one - j + 2 ^ 1021.
Proof.
  intros Hj. unfold fadd. split; [apply nearest_nonneg; lia|]. rewrite nearest_pos by lia.
  set (n := one + - j). assert (0 <= n <= 2 ^ 1074) as Hn by (unfold n; rewrite one_unit in *; change double_unit with (2 ^ 1074) in *; lia).
  assert (grain n 1 <= 1022) as Hg.
  { unfold grain. rewrite Z.div_1_r. pose proof (Z.log2_le_mono n (2 ^ 1074) ltac:(lia)) as Hl.
    rewrite Z.log2_pow2 in Hl by lia. lia. }
  pose proof (grain_nonneg n 1). assert (0 < 2 ^ grain n 1) as Hpos by (apply Z.pow_pos_nonneg; lia).
  pose proof (div_half_even_spec n (1 * 2 ^ grain n 1) _ ltac:(lia) eq_refl) as [_ Hhi].
  assert (2 ^ grain n 1 <= 2 ^ 1022) by (apply Z.pow_le_mono_r; lia).
  assert (2 * 2 ^ 1021 = 2 ^ 1022) by reflexivity. change (one - j) with n. nia.
Qed.

Lemma int_from_bytes_bounds l :
  Forall (fun b => (b < 256)%N) l -> 0 <= int_from_bytes l < 256 ^ Z.of_nat (length l).
Proof.
  intros H. unfold int_from_bytes.
  assert (forall acc, 0 <= acc -> acc * 256 ^ Z.of_nat (length l) <= fold_left (fun acc b => 256 * acc + Z.of_N b) l acc <
                                  (acc + 1) * 256 ^ Z.of_nat (length l)) as Hacc; [|specialize (Hacc 0 ltac:(lia)); lia].
  induction H as [|b l Hb _ IH]; intros acc Hpos; [cbn; lia|]. cbn [fold_left length].
  specialize (IH (256 * acc + Z.of_N b) ltac:(lia)). rewrite Nat2Z.inj_succ, Z.pow_succ_r by lia.
  assert (0 < 256 ^ Z.of_nat (length l)) by (apply Z.pow_pos_nonneg; lia). nia.
Qed.

Lemma fraction_bounds s :
  0 <= of_ratio (int_from_bytes (take 8 (sha256_digest s))) (2 ^ 64 - 1) <= one.
Proof.
  pose proof (int_from_bytes_bounds (take 8 (sha256_digest s)) (Forall_take _ _ _ (digest_small s))) as [H0 H1].
  assert (256 ^ Z.of_nat (length (take 8 (sha256_digest s))) <= 2 ^ 64) as Hpow.
  { change (2 ^ 64) with (256 ^ 8). apply Z.pow_le_mono_r; [lia|]. rewrite length_take. lia. }
  split.
  - destruct (of_ratio_representable (int_from_bytes (take 8 (sha256_digest s))) (2 ^ 64 - 1)) as (j&g&Hg&Hj&->);
      [lia|lia|]. apply Z.mul_nonneg_nonneg; [lia|apply Z.pow_nonneg; lia].
  - change one with (of_ratio 1 1). apply of_ratio_mono; lia.
Qed.

Section policy.
Context (p : ReconnectPolicy) (Hp : is_ok (ReconnectPolicy_check p) = true).
Context (Hjitter : representable (rp_jitter_ratio p)).

Lemma policy_facts :
  0 < total_seconds (rp_base_delay p) /\ one <= rp_multiplier p /\ 0 <= rp_jitter_ratio p < one.
Proof.
  unfold ReconnectPolicy_check in Hp.
  destruct (Z.leb_spec (total_seconds (rp_base_delay p)) 0); [done|]. cbn [raise_if mbind res_bind] in Hp.
  destruct (rp_maximum_delay p <? rp_base_delay p); [done|]. cbn [raise_if mbind res_bind] in Hp.
  destruct (Z.ltb_spec (rp_multiplier p) one); [done|]. cbn [raise_if mbind res_bind] in Hp.
  destruct (Z.leb_spec 0 (rp_jitter_ratio p)); [|done].
  destruct (Z.ltb_spec (rp_jitter_ratio p) one); [|discriminate Hp].
  split; [assumption|]. split; [assumption|]. split; assumption.
Qed.

Lemma jitter_factor_bounds n key :
  fadd (fadd one (- rp_jitter_ratio p)) 0 <= jitter_factor p n key <= one.
Proof.
  destruct policy_facts as (_&_&Hj). destruct (one_minus (rp_jitter_ratio p)) as [H0 H1]; [lia|].
  unfold jitter_factor. set (f := of_ratio _ _). pose proof (fraction_bounds (key +:+ ":" +:+ str_Z n)) as Hf. fold f in Hf.
  pose proof (fmul_nonneg (rp_jitter_ratio p) f ltac:(lia) ltac:(lia)) as Hm.
  pose proof (fmul_shrinks (rp_jitter_ratio p) f Hjitter ltac:(lia)) as Hs.
  split; [apply fadd_mono; lia|]. transitivity (fadd one (2 ^ 1021)); [apply fadd_mono; lia|].
  assert (fadd one (2 ^ 1021) = one) as -> by (vm_compute; reflexivity). apply Z.le_refl.
Qed.

Lemma fpow_ok x n r : 0 <= x -> 0 <= n -> fpow x n = Ok r -> 0 <= r.
Proof.
  intros Hx Hn. unfold fpow. destruct (float_limit <=? _); [done|]. intros [= <-].
  pose proof double_unit_pos as Hu. assert (0 < Z.gcd x double_unit) as Hg.
  { pose proof (Z.gcd_nonneg x double_unit). destruct (Z.eq_dec (Z.gcd x double_unit) 0) as [E|]; [|lia].
    apply Z.gcd_eq_0_r in E. lia. }
  assert (0 < double_unit / Z.gcd x double_unit) as Hd.
  { apply Z.div_str_pos. split; [done|]. apply Z.divide_pos_le; [done|]. apply Z.gcd_divide_r. }
  destruct (of_ratio_representable ((x / Z.gcd x double_unit) ^ n) ((double_unit / Z.gcd x double_unit) ^ n)) as (j&g&?&?&->).
  - apply Z.pow_nonneg. by apply Z.div_pos.
  - by apply Z.pow_pos_nonneg.
  - apply Z.mul_nonneg_nonneg; [lia|apply Z.pow_nonneg; lia].
Qed.

Lemma delay_bounds k n key d :
  rp_maximum_delay p = seconds k -> 0 <= k <= 2 ^ 53 -> delay_for p n key = Ok d -> 0 <= d <= rp_maximum_delay p.
Proof.
  intros Hmax Hk Hd. destruct policy_facts as (Hb&Hm&Hj). unfold delay_for in Hd.
  apply res_bind_ok in Hd as (?&Hn%raise_if_ok%Z.ltb_ge&Hd). apply res_bind_ok in Hd as (power&Hpow&[= <-]).
  rewrite Hmax, (total_whole k Hk). pose proof double_unit_pos as Hu.
  assert (0 <= rp_multiplier p) as Hmult by (rewrite one_unit in Hm; lia).
  assert (0 <= power) as Hpower by (eapply (fpow_ok _ (n - 1)); [exact Hmult|lia|exact Hpow]).
  set (raw := fmul (total_seconds (rp_base_delay p)) power).
  assert (0 <= raw) as Hraw by (apply fmul_nonneg; lia).
  assert (representable (pymin raw (k * double_unit)) /\ 0 <= pymin raw (k * double_unit) <= k * double_unit) as [Hrep Hcap].
  { unfold pymin. rewrite pylt_Z. destruct (Z.ltb_spec (k * double_unit) raw); [split; [by apply representable_whole|lia]|].
    split; [|lia]. unfold raw, fmul. apply nearest_representable; [nia|done]. }
  destruct (jitter_factor_bounds n key) as [Hf0 Hf1].
  assert (0 <= jitter_factor p n key) as Hf.
  { etransitivity; [|exact Hf0]. destruct (one_minus (rp_jitter_ratio p)) as [H1 _]; [lia|].
    unfold fadd at 1. apply nearest_nonneg; lia. }
  split; [apply timedelta_nonneg, fmul_nonneg; lia|]. rewrite <-(timedelta_of_whole k). apply timedelta_mono.
  split; [apply fmul_nonneg; lia|]. etransitivity; [|apply Hcap].
  apply fmul_shrinks; [exact Hrep|]. split; [exact Hf|exact Hf1].
Qed.
End policy.

(** ** The default policy *)

Lemma pow2_representable n : 0 <= n -> representable (2 ^ n * double_unit).
Proof.
  intros Hn. change double_unit with (2 ^ 1074). rewrite <-Z.pow_add_r by lia. exists 1, (n + 1074). lia.
Qed.

Lemma fpow_two n : 0 <= n -> fpow (of_int 2) n = if n <? 1024 then Ok (2 ^ n * double_unit) else Raise OverflowError.
Proof.
  intros Hn. unfold fpow.
  assert (Z.gcd (of_int 2) double_unit = double_unit) as -> by (vm_compute; reflexivity).
  assert (of_int 2 / double_unit = 2) as -> by (vm_compute; reflexivity).
  assert (double_unit / double_unit = 1) as -> by (vm_compute; reflexivity).
  rewrite Z.pow_1_l by done. unfold of_ratio. rewrite nearest_id by by apply pow2_representable.
  unfold float_limit. pose proof double_unit_pos as Hu. destruct (Z.ltb_spec n 1024) as [Hlt|Hge].
  - assert (2 ^ n < 2 ^ 1024) by (apply Z.pow_lt_mono_r; lia).
    destruct (Z.leb_spec (2 ^ 1024 * double_unit) (2 ^ n * double_unit)); [nia|reflexivity].
  - assert (2 ^ 1024 <= 2 ^ n) by (apply Z.pow_le_mono_r; lia).
    destruct (Z.leb_spec (2 ^ 1024 * double_unit) (2 ^ n * double_unit)); [reflexivity|nia].
Qed.

Lemma default_policy_ok : is_ok (ReconnectPolicy_check default_policy) = true.
Proof. vm_compute. reflexivity. Qed.

Lemma default_jitter : representable (rp_jitter_ratio default_policy).
Proof. apply of_ratio_representable; lia. Qed.

Lemma default_delay n key :
  1 <= n ->
  if n <=? 1024 then exists d, delay_for default_policy n key = Ok d /\ 800000 <= d <= seconds 30
  else delay_for default_policy n key = Raise OverflowError.
Proof.
  intros Hn. pose proof (delay_bounds default_policy default_policy_ok default_jitter 30 n key) as Hmax.
  unfold delay_for in *. change (rp_multiplier default_policy) with (of_int 2) in *.
  rewrite (proj2 (Z.ltb_ge n 1)) in * by lia. rewrite fpow_two in * by lia.
  destruct (Z.leb_spec n 1024) as [Hle|Hgt].
  2: { rewrite (proj2 (Z.ltb_ge (n - 1) 1024)) by lia. reflexivity. }
  rewrite (proj2 (Z.ltb_lt (n - 1) 1024)) in * by lia. cbn [raise_if mbind res_bind] in *.
  set (capped := pymin _ _) in *. eexists. split; [reflexivity|].
  split; [|exact (proj2 (Hmax _ eq_refl ltac:(lia) eq_refl))].
  destruct (jitter_factor_bounds default_policy default_policy_ok default_jitter n key) as [Hf _].
  assert (double_unit <= capped) as Hcap.
  { unfold capped. change (rp_base_delay default_policy) with (seconds 1).
    change (rp_maximum_delay default_policy) with (seconds 30). rewrite (total_whole 1), (total_whole 30) by lia.
    assert (0 < 2 ^ (n - 1)) by (apply Z.pow_pos_nonneg; lia). pose proof double_unit_pos.
    unfold pymin. destruct (pylt _ _); [lia|]. unfold fmul.
    pose proof (representable_whole 1 ltac:(lia)) as Hone. rewrite Z.mul_1_l in Hone.
    apply nearest_above; [nia|lia|exact Hone|nia]. }
  transitivity (timedelta_of_seconds (fmul double_unit (fadd (fadd one (- rp_jitter_ratio default_policy)) 0)));
    [vm_compute; discriminate|].
  apply timedelta_mono. assert (0 <= fadd (fadd one (- rp_jitter_ratio default_policy)) 0) as H0 by (vm_compute; discriminate).
  pose proof double_unit_pos. split; [apply fmul_nonneg; lia|]. apply fmul_mono; lia.
Qed.

(** C30: Waiting wears out.  With the default policy each of the first 1024 failures in a row is
    answered with a next attempt 0.8 to 30 seconds later, whatever the jitter.  From then on
    the power behind the delay does not fit a float: noting a failure raises, and the previous
    schedule stays, so there is no waiting any more. *)
Theorem backoff_wears_out c now reason key :
  rc_policy c = default_policy -> 0 <= rc_attempt c -> is_aware now = true -> is_empty reason = false ->
  if rc_attempt c <? 1024 then
    exists s, schedule_failure now reason key c =
              (Ok s, mk_ReconnectController default_policy (rc_attempt c + 1) (Some s)) /\
              rs_attempt s = rc_attempt c + 1 /\
              instant now + 800000 <= instant (rs_due_at s) <= instant now + seconds 30
  else
    schedule_failure now reason key c =
      (Raise OverflowError, mk_ReconnectController default_policy (rc_attempt c + 1) (rc_schedule c)) /\
    is_due (schedule_failure now reason key c).2 now = is_due c now.
Proof.
  intros Hp Ha Hnow Hreason. pose proof (default_delay (rc_attempt c + 1) key ltac:(lia)) as Hd.
  unfold schedule_failure, lift, require_aware, put_st, get_st, mbind, M_bind, mret, M_ret.
  rewrite Hnow, Hreason. cbn [negb raise_if rc_policy]. rewrite Hp.
  destruct (Z.leb_spec (rc_attempt c + 1) 1024) as [Hle|Hgt].
  - destruct Hd as (d&->&Hd). rewrite (proj2 (Z.ltb_lt (rc_attempt c) 1024)) by lia.
    eexists. split; [reflexivity|]. split; [reflexivity|]. cbn [rs_due_at]. rewrite instant_add. lia.
  - rewrite Hd, (proj2 (Z.ltb_ge (rc_attempt c) 1024)) by lia. split; reflexivity.
Qed.

Lemma backoff_wears_out_witness :
  let now := mk_datetime epoch_us (Some 0) in
  (exists s, (schedule_failure now "lost" "k" (reconnect_controller None)).1 = Ok s) /\
  (schedule_failure now "lost" "k" (mk_ReconnectController default_policy 1024 None)).1 = Raise OverflowError.
Proof.
  intros now. split.
  - destruct (backoff_wears_out (reconnect_controller None) now "lost" "k" eq_refl ltac:(cbn; lia) eq_refl eq_refl)
      as (s&E&_). exists s. by rewrite E.
  - destruct (backoff_wears_out (mk_ReconnectController default_policy 1024 None) now "lost" "k" eq_refl
                ltac:(cbn; lia) eq_refl eq_refl) as [E _]. by rewrite E.
Defined.
