(* ===== verification/OrderFence.v ===== *)
(** [packages/adapters/kiwoom/gateway.py], what the gateway decides by: the fence that admits an
    event once and in order, and the state that says how fresh each stock is. *)
From S2P Require Import Prelude PyTime PyDecimal DecimalFacts Json KiwoomEvents.
#[local] Open Scope Z_scope.

(* @ packages/adapters/kiwoom/gateway.py 28-34 IngestDisposition *)
Inductive IngestDisposition := ACCEPTED | DUPLICATE_INPUT | CONFLICT | OUT_OF_ORDER | OLD_SESSION | OLD_OBSERVATION.
#[export] Instance IngestDisposition_eq_dec : EqDecision IngestDisposition.
Proof. solve_decision. Defined.

(* @ packages/adapters/kiwoom/gateway.py 37-41 ConnectionPhase *)
Inductive ConnectionPhase := DISCONNECTED | RECONNECTING | RECOVERING | CONNECTED.
#[export] Instance ConnectionPhase_eq_dec : EqDecision ConnectionPhase.
Proof. solve_decision. Defined.

(* @ packages/adapters/kiwoom/gateway.py 50-55 StockFreshness *)
Inductive StockFreshness := FRESH | LOW_CONFIDENCE | STALE_STOCK | INCOMPLETE | MISSING.
#[export] Instance StockFreshness_eq_dec : EqDecision StockFreshness.
Proof. solve_decision. Defined.

(** [CoverageStatus] of the gateway. *)
(* @ packages/adapters/kiwoom/gateway.py 58-61 CoverageStatus *)
Inductive GatewayCoverage := GW_COMPLETE | GW_PARTIAL | GW_INSUFFICIENT.
#[export] Instance GatewayCoverage_eq_dec : EqDecision GatewayCoverage.
Proof. solve_decision. Defined.

(** The [detail] is a text for each disposition. *)
(* @ packages/adapters/kiwoom/gateway.py 71-75 IngestResult *)
Record IngestResult := mk_IngestResult { ir_event : CanonicalMarketEvent; ir_disposition : IngestDisposition }.

(** ** The fence *)

(* @ packages/adapters/kiwoom/gateway.py 134-139 _OrderingCursor *)
Record OrderingCursor := mk_OrderingCursor {
  oc_source_sequence : Z;
  oc_source_item_index : Z;
  oc_source_timestamp : datetime;
  oc_received_at : datetime
}.

Definition lane : Type := string * string * string * string.

(* @ packages/adapters/kiwoom/gateway.py 145-149 EventOrderFence.__init__ *)
Record EventOrderFence := mk_EventOrderFence {
  of_current_session_id : option string;
  of_seen_hashes : dict string string;
  of_ordering : dict lane OrderingCursor;
  of_latest_observation : dict string CanonicalMarketEvent
}.

(* @ packages/adapters/kiwoom/gateway.py 145-149 EventOrderFence.__init__ *)
Definition event_order_fence : EventOrderFence := mk_EventOrderFence None [] [] [].

(* @ packages/adapters/kiwoom/gateway.py 155-158 EventOrderFence.begin_session *)
Definition begin_session (session_id : string) : M EventOrderFence unit := fun f =>
  if is_empty session_id then (Raise ValueError, f)
  else (Ok tt, mk_EventOrderFence (Some session_id) (of_seen_hashes f) (of_ordering f) (of_latest_observation f)).

(* @ packages/adapters/kiwoom/gateway.py 222-226 EventOrderFence._ordering_lane *)
Definition ordering_lane (e : CanonicalMarketEvent) : string :=
  match me_data e with
  | OfCandidate c => "candidate:" +:+ cd_condition_id c
  | OfObservation _ => "market-observation"
  end.

(* @ packages/adapters/kiwoom/gateway.py 160-220 EventOrderFence.evaluate *)
Definition ordering_key (e : CanonicalMarketEvent) : lane :=
  (li_session_id (me_lineage e), SourceChannel_value (li_source_channel (me_lineage e)), me_stock_id e,
   ordering_lane e).

(* @ packages/adapters/kiwoom/gateway.py 228-251 EventOrderFence._is_old_observation *)
Definition is_old_observation (incoming latest : CanonicalMarketEvent) : bool :=
  if dt_lt (me_source_timestamp incoming) (me_source_timestamp latest) then true
  else if dt_lt (me_source_timestamp latest) (me_source_timestamp incoming) then false
  else
    match me_data incoming, me_data latest with
    | OfObservation i, OfObservation l =>
        match ob_observation_source i, ob_observation_source l with
        | REST_KA10095, REALTIME_0B => true
        | REALTIME_0B, REST_KA10095 => false
        | _, _ => dt_lt (me_received_at incoming) (me_received_at latest)
        end
    | _, _ => false
    end.

(** The place of an event within its lane. *)
(* @ packages/adapters/kiwoom/gateway.py 160-220 EventOrderFence.evaluate *)
Definition position (e : CanonicalMarketEvent) : Z * Z :=
  (me_source_sequence e, li_source_item_index (me_lineage e)).

(* @ packages/adapters/kiwoom/gateway.py 160-220 EventOrderFence.evaluate *)
Definition out_of_order (e : CanonicalMarketEvent) (c : OrderingCursor) : bool :=
  pyle (position e) (oc_source_sequence c, oc_source_item_index c) || dt_lt (me_received_at e) (oc_received_at c).

(* @ packages/adapters/kiwoom/gateway.py 160-220 EventOrderFence.evaluate *)
Definition admit_event (e : CanonicalMarketEvent) (f : EventOrderFence) : EventOrderFence :=
  mk_EventOrderFence (of_current_session_id f)
    (dset (me_idempotency_key e) (li_raw_payload_sha256 (me_lineage e)) (of_seen_hashes f))
    (dset (ordering_key e)
       (mk_OrderingCursor (me_source_sequence e) (li_source_item_index (me_lineage e))
          (me_source_timestamp e) (me_received_at e)) (of_ordering f))
    (if is_observation e then dset (me_stock_id e) e (of_latest_observation f) else of_latest_observation f).

(* @ packages/adapters/kiwoom/gateway.py 160-220 EventOrderFence.evaluate *)
Definition evaluate (e : CanonicalMarketEvent) (f : EventOrderFence) : IngestDisposition * EventOrderFence :=
  if negb (bool_decide (Some (li_session_id (me_lineage e)) = of_current_session_id f)) then (OLD_SESSION, f)
  else
    match dget (me_idempotency_key e) (of_seen_hashes f) with
    | Some seen =>
        (if bool_decide (seen = li_raw_payload_sha256 (me_lineage e)) then DUPLICATE_INPUT else CONFLICT, f)
    | None =>
        if match dget (ordering_key e) (of_ordering f) with Some c => out_of_order e c | None => false end
        then (OUT_OF_ORDER, f)
        else if is_observation e &&
                match dget (me_stock_id e) (of_latest_observation f) with
                | Some latest => is_old_observation e latest
                | None => false
                end
        then (OLD_OBSERVATION, f)
        else (ACCEPTED, admit_event e f)
    end.

(** ** The state of the market *)

(* @ packages/adapters/kiwoom/gateway.py 255-267 MarketState.__init__ *)
Record MarketState := mk_MarketState {
  mk_snapshot_fresh_for : timedelta;
  mk_snapshot_low_confidence_for : timedelta;
  mk_observations : dict string CanonicalMarketEvent
}.

(* @ packages/adapters/kiwoom/gateway.py 255-267 MarketState.__init__ *)
Definition market_state (fresh_for low_confidence_for : timedelta) : res MarketState :=
  _ ← raise_if (fresh_for <? 0) ValueError;
  _ ← raise_if (low_confidence_for <? fresh_for) ValueError;
  Ok (mk_MarketState fresh_for low_confidence_for []).

(** [MarketState()] *)
(* @ packages/adapters/kiwoom/gateway.py 255-267 MarketState.__init__ *)
Definition default_market_state : MarketState := mk_MarketState (seconds 30) (seconds 60) [].

(* @ packages/adapters/kiwoom/gateway.py 269-271 MarketState.apply *)
Definition apply_event (e : CanonicalMarketEvent) (s : MarketState) : MarketState :=
  if is_observation e
  then mk_MarketState (mk_snapshot_fresh_for s) (mk_snapshot_low_confidence_for s)
         (dset (me_stock_id e) e (mk_observations s))
  else s.

(* @ packages/adapters/kiwoom/gateway.py 273-274 MarketState.event_for *)
Definition event_for (stock_id : string) (s : MarketState) : option CanonicalMarketEvent :=
  dget stock_id (mk_observations s).

(** What the freshness of a stock depends on besides its last event. *)
Record Reception := mk_Reception {
  rx_now : datetime;
  rx_phase : ConnectionPhase;
  rx_current_session_id : option string;
  rx_heartbeat_fresh : bool;
  rx_subscriptions : list string
}.

(* @ packages/adapters/kiwoom/gateway.py 337-368 MarketState._freshness *)
Definition freshness (s : MarketState) (rx : Reception) (stock_id : string) (event : option CanonicalMarketEvent)
    : StockFreshness :=
  match event with
  | None => MISSING
  | Some e =>
      match me_data e with
      | OfCandidate _ => MISSING
      | OfObservation o =>
          if negb (bool_decide (ob_missing_fields o = [])) then INCOMPLETE
          else
            match ob_observation_source o with
            | REALTIME_0B =>
                if bool_decide (rx_phase rx = CONNECTED) && rx_heartbeat_fresh rx &&
                   bool_decide (stock_id ∈ rx_subscriptions rx) &&
                   bool_decide (Some (li_session_id (me_lineage e)) = rx_current_session_id rx)
                then FRESH else STALE_STOCK
            | REST_KA10095 =>
                let age := dt_sub (rx_now rx) (me_received_at e) in
                if age <? 0 then STALE_STOCK
                else if age <=? mk_snapshot_fresh_for s then FRESH
                else if age <=? mk_snapshot_low_confidence_for s then LOW_CONFIDENCE
                else STALE_STOCK
            end
      end
  end.

(* @ packages/adapters/kiwoom/gateway.py 78-92 CoverageReport *)
Record CoverageReport := mk_CoverageReport {
  cr_status : GatewayCoverage;
  cr_requested_count : Z;
  cr_fresh_count : Z;
  cr_low_confidence_count : Z;
  cr_stale_count : Z;
  cr_incomplete_count : Z;
  cr_missing_count : Z;
  cr_fresh_ratio : option dec;
  cr_fresh_stock_ids : list string;
  cr_low_confidence_stock_ids : list string;
  cr_stale_stock_ids : list string;
  cr_incomplete_stock_ids : list string;
  cr_missing_stock_ids : list string
}.

(* @ packages/adapters/kiwoom/gateway.py 94-105 CoverageReport.__post_init__ *)
Definition CoverageReport_check (r : CoverageReport) : res CoverageReport :=
  let total := cr_fresh_count r + cr_low_confidence_count r + cr_stale_count r + cr_incomplete_count r +
               cr_missing_count r in
  _ ← raise_if (negb (total =? cr_requested_count r)) ValueError;
  _ ← raise_if ((cr_requested_count r =? 0) && match cr_fresh_ratio r with Some _ => true | None => false end)
        ValueError;
  Ok r.

Definition count (l : list string) : Z := Z.of_nat (length l).

(* @ packages/adapters/kiwoom/gateway.py 276-335 MarketState.coverage *)
Definition coverage_status (fresh_count total : Z) : GatewayCoverage :=
  if (0 <? total) && (fresh_count =? total) then GW_COMPLETE
  else if 0 <? fresh_count then GW_PARTIAL else GW_INSUFFICIENT.

(** The requested stocks of one freshness, in order. *)
(* @ packages/adapters/kiwoom/gateway.py 276-335 MarketState.coverage *)
Definition group_of (s : MarketState) (rx : Reception) (requested : list string) (g : StockFreshness) : list string :=
  List.filter (fun i => bool_decide (freshness s rx i (dget i (mk_observations s)) = g)) requested.

(* @ packages/adapters/kiwoom/gateway.py 276-335 MarketState.coverage *)
Definition coverage (s : MarketState) (stock_ids : list string) (rx : Reception) : res CoverageReport :=
  _ ← require_aware (rx_now rx);
  let requested := sorted_set stock_ids in
  _ ← mapM_res require_stock_id requested;
  let group := group_of s rx requested in
  let total := count requested in
  let fresh_count := count (group FRESH) in
  ratio ← (if total =? 0 then Ok None else r ← ddiv 50 (dec_of_Z fresh_count) (dec_of_Z total); Ok (Some r));
  CoverageReport_check
    (mk_CoverageReport (coverage_status fresh_count total) total fresh_count (count (group LOW_CONFIDENCE))
       (count (group STALE_STOCK)) (count (group INCOMPLETE)) (count (group MISSING)) ratio (group FRESH)
       (group LOW_CONFIDENCE) (group STALE_STOCK) (group INCOMPLETE) (group MISSING)).

(** ** The fence decides by what was accepted *)

Definition keyed_as (k : string) (e : CanonicalMarketEvent) : bool := bool_decide (me_idempotency_key e = k).
Definition in_lane (l : lane) (e : CanonicalMarketEvent) : bool := bool_decide (ordering_key e = l).
Definition observes (stock_id : string) (e : CanonicalMarketEvent) : bool :=
  is_observation e && bool_decide (me_stock_id e = stock_id).

(** The specification: the disposition of an event, from the accepted events alone. *)
Definition disposition_of (session : option string) (accepted : list CanonicalMarketEvent)
    (e : CanonicalMarketEvent) : IngestDisposition :=
  if negb (bool_decide (Some (li_session_id (me_lineage e)) = session)) then OLD_SESSION
  else
    match List.find (keyed_as (me_idempotency_key e)) accepted with
    | Some e' =>
        if bool_decide (li_raw_payload_sha256 (me_lineage e') = li_raw_payload_sha256 (me_lineage e))
        then DUPLICATE_INPUT else CONFLICT
    | None =>
        if match last (List.filter (in_lane (ordering_key e)) accepted) with
           | Some e' => pyle (position e) (position e') || dt_lt (me_received_at e) (me_received_at e')
           | None => false
           end
        then OUT_OF_ORDER
        else if is_observation e &&
                match last (List.filter (observes (me_stock_id e)) accepted) with
                | Some latest => is_old_observation e latest
                | None => false
                end
        then OLD_OBSERVATION
        else ACCEPTED
    end.

Definition cursor_of (e : CanonicalMarketEvent) : OrderingCursor :=
  mk_OrderingCursor (me_source_sequence e) (li_source_item_index (me_lineage e)) (me_source_timestamp e)
    (me_received_at e).

(** Later in its lane. *)
Definition before_in_lane (a b : CanonicalMarketEvent) : Prop :=
  pylt (position a) (position b) = true /\ instant (me_received_at a) <= instant (me_received_at b).
Definition no_later (a b : CanonicalMarketEvent) : Prop :=
  instant (me_source_timestamp a) <= instant (me_source_timestamp b).

(** The dictionaries of a fence are views of the accepted events, which are in order. *)
Record fence_log (f : EventOrderFence) (accepted : list CanonicalMarketEvent) : Prop := {
  fl_seen : forall k, dget k (of_seen_hashes f) =
    (fun e => li_raw_payload_sha256 (me_lineage e)) <$> List.find (keyed_as k) accepted;
  fl_lane : forall l, dget l (of_ordering f) = cursor_of <$> last (List.filter (in_lane l) accepted);
  fl_latest : forall s, dget s (of_latest_observation f) = last (List.filter (observes s) accepted);
  fl_once : NoDup (me_idempotency_key <$> accepted);
  fl_lanes : forall l, StronglySorted before_in_lane (List.filter (in_lane l) accepted);
  fl_times : forall s, StronglySorted no_later (List.filter (observes s) accepted)
}.

Lemma fence_log_nil : fence_log event_order_fence [].
Proof. split; intros; try done; [apply NoDup_nil_2|constructor..]. Qed.

Lemma StronglySorted_snoc {A} (R : A -> A -> Prop) l e :
  Transitive R -> StronglySorted R l -> (forall z, last l = Some z -> R z e) -> StronglySorted R (l ++ [e]).
Proof.
  intros HR. induction 1 as [|x l Hl IH Hx]; intros Hlast; [by repeat constructor|]. cbn.
  assert (forall z, last l = Some z -> R z e) as Hl'
    by (intros z Hz; apply Hlast; destruct l; [done|exact Hz]).
  constructor; [by apply IH|]. apply Forall_app. split; [done|]. apply Forall_singleton.
  destruct (last l) as [z|] eqn:E.
  - transitivity z; [|by apply Hl']. rewrite Forall_forall in Hx. apply Hx. by apply last_Some_elem_of.
  - apply last_None in E as ->. by apply Hlast.
Qed.

Lemma find_app {A} (p : A -> bool) l k :
  List.find p (l ++ k) = match List.find p l with Some x => Some x | None => List.find p k end.
Proof. induction l as [|x l IH]; [done|]. cbn. by destruct (p x). Qed.

Lemma find_key_None k l : List.find (keyed_as k) l = None -> k ∉ me_idempotency_key <$> l.
Proof.
  intros H (e&->&He)%list_elem_of_fmap. apply list_elem_of_In in He.
  pose proof (List.find_none _ _ H e He) as Hk. unfold keyed_as in Hk. by rewrite bool_decide_eq_true_2 in Hk.
Qed.

Lemma filter_snoc {A} (p : A -> bool) l e :
  List.filter p (l ++ [e]) = if p e then List.filter p l ++ [e] else List.filter p l.
Proof. rewrite List.filter_app. cbn. destruct (p e); [done|by rewrite app_nil_r]. Qed.

#[export] Instance before_in_lane_trans : Transitive before_in_lane.
Proof. intros a b c [H1 H2] [H3 H4]. split; [by eapply pylt_trans|lia]. Qed.
#[export] Instance no_later_trans : Transitive no_later.
Proof. intros a b c. unfold no_later. lia. Qed.

Lemma not_old_no_later e latest : is_old_observation e latest = false -> no_later latest e.
Proof.
  unfold is_old_observation, no_later. rewrite dt_lt_Z.
  destruct (Z.ltb_spec (instant (me_source_timestamp e)) (instant (me_source_timestamp latest))); [done|lia].
Qed.

Lemma admit_log f acc e :
  fence_log f acc -> disposition_of (of_current_session_id f) acc e = ACCEPTED -> fence_log (admit_event e f) (acc ++ [e]).
Proof.
  intros [Hseen Hlane Hlatest Honce Hlanes Htimes] Hd. unfold disposition_of in Hd.
  destruct (negb _); [done|].
  destruct (List.find (keyed_as (me_idempotency_key e)) acc) as [e'|] eqn:Efind; [by case_match|].
  destruct (match last (List.filter (in_lane (ordering_key e)) acc) with Some _ => _ | None => _ end) eqn:Eorder; [done|].
  destruct (_ && _) eqn:Eold; [done|]. clear Hd. split; cbn [admit_event of_seen_hashes of_ordering of_latest_observation].
  - intros k. rewrite dget_dset, find_app. cbn [List.find]. unfold keyed_as at 2.
    case_decide as Ek; subst.
    + by rewrite Efind, bool_decide_eq_true_2.
    + rewrite bool_decide_eq_false_2 by done. rewrite Hseen.
      by destruct (List.find (keyed_as k) acc).
  - intros l. rewrite dget_dset, filter_snoc. unfold in_lane at 1.
    case_decide as El; subst; [rewrite bool_decide_eq_true_2, last_snoc by done; done|].
    by rewrite bool_decide_eq_false_2.
  - intros s. rewrite filter_snoc. unfold observes at 1. destruct (is_observation e); cbn [andb]; [|done].
    rewrite dget_dset. case_decide as Es; subst; [by rewrite bool_decide_eq_true_2, last_snoc|].
    by rewrite bool_decide_eq_false_2.
  - rewrite fmap_app. apply NoDup_app. split; [done|]. split; [|apply NoDup_singleton].
    intros k Hk ->%list_elem_of_singleton. by apply (find_key_None _ _ Efind).
  - intros l. rewrite filter_snoc. unfold in_lane at 1. case_bool_decide as El; [|done]. subst.
    apply StronglySorted_snoc; [apply _|done|]. intros z Hz. rewrite Hz in Eorder.
    apply orb_false_iff in Eorder as [Hp Ht]. split; [by apply pyle_lt_false|]. rewrite dt_lt_Z in Ht. lia.
  - intros s. rewrite filter_snoc. unfold observes at 1. destruct (is_observation e); cbn [andb]; [|done].
    case_bool_decide as Es; [|done]. subst. apply StronglySorted_snoc; [apply _|done|]. intros z Hz.
    rewrite Hz in Eold. by apply not_old_no_later.
Qed.

(** The fence implements the specification. *)
Lemma evaluate_log f acc e :
  fence_log f acc ->
  let '(d, f') := evaluate e f in
  d = disposition_of (of_current_session_id f) acc e /\
  of_current_session_id f' = of_current_session_id f /\
  fence_log f' (if bool_decide (d = ACCEPTED) then acc ++ [e] else acc) /\
  f' = (if bool_decide (d = ACCEPTED) then admit_event e f else f).
Proof.
  intros H. pose proof (admit_log f acc e H) as Hadmit. destruct H as [Hseen Hlane Hlatest Honce Hlanes Htimes] eqn:EH.
  revert Hadmit. unfold evaluate, disposition_of.
  destruct (negb _); [by rewrite bool_decide_eq_false_2|]. rewrite Hseen.
  destruct (List.find (keyed_as (me_idempotency_key e)) acc) as [e'|]; cbn [fmap option_fmap option_map].
  { intros _. case_bool_decide; by rewrite bool_decide_eq_false_2. }
  rewrite Hlane, Hlatest. change (fun c => out_of_order e c) with (out_of_order e).
  destruct (last (List.filter (in_lane (ordering_key e)) acc)) as [e'|]; cbn [fmap option_fmap option_map];
    [change (out_of_order e (cursor_of e')) with (pyle (position e) (position e') || dt_lt (me_received_at e) (me_received_at e'));
     destruct (_ || _); [by rewrite bool_decide_eq_false_2|]|].
  all: destruct (_ && _); [by rewrite bool_decide_eq_false_2|]; intros Hadmit; split; [done|].
  all: cbn [admit_event of_current_session_id]; split; [done|]; rewrite bool_decide_eq_true_2 by done; by split; [apply Hadmit|].
Qed.

(** ** Coverage *)

Definition group_in (r : CoverageReport) (g : StockFreshness) : list string :=
  match g with
  | FRESH => cr_fresh_stock_ids r
  | LOW_CONFIDENCE => cr_low_confidence_stock_ids r
  | STALE_STOCK => cr_stale_stock_ids r
  | INCOMPLETE => cr_incomplete_stock_ids r
  | MISSING => cr_missing_stock_ids r
  end.

Definition freshness_now (s : MarketState) (rx : Reception) (i : string) : StockFreshness :=
  freshness s rx i (dget i (mk_observations s)).

Lemma elem_of_group s rx requested g i :
  i ∈ group_of s rx requested g <-> i ∈ requested /\ freshness_now s rx i = g.
Proof. unfold group_of. by rewrite elem_of_filterb, bool_decide_eq_true. Qed.

Lemma group_lengths s rx l :
  count (group_of s rx l FRESH) + count (group_of s rx l LOW_CONFIDENCE) + count (group_of s rx l STALE_STOCK) +
  count (group_of s rx l INCOMPLETE) + count (group_of s rx l MISSING) = count l.
Proof.
  unfold group_of, count. induction l as [|i l IH]; [done|]. cbn [List.filter].
  generalize (freshness s rx i (dget i (mk_observations s))). intros g.
  repeat case_bool_decide; try congruence; cbn [length]; destruct g; try done; lia.
Qed.

(** What a coverage report says. *)
Record coverage_says (s : MarketState) (ids : list string) (rx : Reception) (r : CoverageReport) : Prop := {
  cs_groups : forall g i, i ∈ group_in r g <-> i ∈ ids /\ freshness_now s rx i = g;
  cs_counts : cr_requested_count r = count (sorted_set ids) /\ cr_fresh_count r = count (cr_fresh_stock_ids r);
  cs_complete : cr_status r = GW_COMPLETE <-> ids <> [] /\ forall i, i ∈ ids -> freshness_now s rx i = FRESH;
  cs_insufficient : cr_status r = GW_INSUFFICIENT <-> forall i, i ∈ ids -> freshness_now s rx i <> FRESH;
  cs_ratio : cr_fresh_ratio r = None <-> ids = []
}.

Lemma sorted_set_nil (l : list string) : sorted_set l = [] <-> l = [].
Proof.
  split; [|by intros ->]. intros H. destruct l as [|x l]; [done|].
  assert (x ∈ sorted_set (x :: l)) as Hx by (apply elem_of_sorted_set; left). rewrite H in Hx. by apply elem_of_nil in Hx.
Qed.

Lemma count_nil l : count l = 0 <-> l = [].
Proof. unfold count. destruct l; cbn; split; congruence || lia. Qed.

Lemma filterb_full {A} (p : A -> bool) l :
  length (List.filter p l) = length l <-> forall x, x ∈ l -> p x = true.
Proof.
  split.
  - intros H x Hx. destruct (p x) eqn:E; [done|]. pose proof (filterb_length_lt p l x Hx E). lia.
  - intros H. by rewrite filterb_all.
Qed.

Lemma coverage_ok s ids rx :
  is_aware (rx_now rx) = true -> Forall (fun i => stock_id_ok i = true) ids ->
  exists r, coverage s ids rx = Ok r /\ coverage_says s ids rx r.
Proof.
  intros Hnow Hids. unfold coverage, require_aware. rewrite Hnow. cbn [negb raise_if mbind res_bind].
  assert (exists us, mapM_res require_stock_id (sorted_set ids) = Ok us) as [us ->].
  { assert (Forall (fun i => stock_id_ok i = true) (sorted_set ids)) as H.
    { apply Forall_forall. intros i Hi. rewrite elem_of_sorted_set in Hi. rewrite Forall_forall in Hids. by apply Hids. }
    induction H as [|i l Hi _ [us IH]]; [by exists []|].
    assert (require_stock_id i = Ok tt) as E by (unfold require_stock_id; by rewrite Hi).
    cbn [mapM_res]. rewrite E. cbn [mbind res_bind]. rewrite IH. by eexists. }
  cbn [mbind res_bind]. set (requested := sorted_set ids).
  assert (exists ratio, (if count requested =? 0 then Ok None
            else r ← ddiv 50 (dec_of_Z (count (group_of s rx requested FRESH))) (dec_of_Z (count requested)); Ok (Some r)) = Ok ratio /\
            (ratio = None <-> ids = [])) as (ratio&->&Hratio).
  { destruct (Z.eqb_spec (count requested) 0) as [E|E].
    - exists None. split; [done|]. split; [|done]. intros _. by apply sorted_set_nil, count_nil.
    - destruct (ddiv 50 _ _) as [q|e] eqn:Eq.
      + exists (Some q). split; [done|]. split; [done|]. intros ->. by destruct E.
      + exfalso. unfold ddiv in Eq. pose proof (dcoef_nonzero (dec_of_Z (count requested)) (dec_of_Z_nonzero _ E)).
        destruct (N.eqb_spec (dcoef (dec_of_Z (count requested))) 0); [lia|]. by repeat case_match. }
  cbn [mbind res_bind]. set (r := mk_CoverageReport _ _ _ _ _ _ _ _ _ _ _ _ _).
  exists r. split.
  - unfold CoverageReport_check, r. cbn [cr_fresh_count cr_low_confidence_count cr_stale_count cr_incomplete_count
      cr_missing_count cr_requested_count cr_fresh_ratio]. rewrite group_lengths, Z.eqb_refl. cbn [negb raise_if mbind res_bind].
    destruct (Z.eqb_spec (count requested) 0) as [E|E]; [|done].
    apply count_nil, sorted_set_nil, Hratio in E. by rewrite E.
  - assert (forall g i, i ∈ group_of s rx requested g <-> i ∈ ids /\ freshness_now s rx i = g) as Hg.
    { intros g i. rewrite elem_of_group. unfold requested. by rewrite elem_of_sorted_set. }
    assert (coverage_status (count (group_of s rx requested FRESH)) (count requested) = GW_COMPLETE <->
            ids <> [] /\ forall i, i ∈ ids -> freshness_now s rx i = FRESH) as Hc.
    { unfold coverage_status. destruct (Z.ltb_spec 0 (count requested)) as [Hpos|Hz]; cbn [andb].
      - assert (ids <> []) as Hne by (intros E%sorted_set_nil%count_nil; unfold requested in *; lia).
        assert (count (group_of s rx requested FRESH) = count requested <-> forall i, i ∈ ids -> freshness_now s rx i = FRESH) as Hall.
        { unfold count, group_of. rewrite Nat2Z.inj_iff, filterb_full. unfold requested.
          setoid_rewrite elem_of_sorted_set. by setoid_rewrite bool_decide_eq_true. }
        destruct (Z.eqb_spec (count (group_of s rx requested FRESH)) (count requested)) as [E|E]; [naive_solver|].
        destruct (0 <? _); split; intros H; try done; exfalso; apply E, Hall, H.
      - split; [by destruct (0 <? _)|]. intros [Hne _]. exfalso. apply Hne, sorted_set_nil, count_nil.
        unfold count, requested in *. lia. }
    split; try exact Hratio; try exact Hc; [intros [] i; apply Hg|done|].
    cbn [r cr_status]. unfold coverage_status.
    assert (count (group_of s rx requested FRESH) = 0 <-> forall i, i ∈ ids -> freshness_now s rx i <> FRESH) as Hnone.
    { rewrite count_nil. split.
      - intros E i Hi Hf. assert (i ∈ group_of s rx requested FRESH) as H by by apply Hg. rewrite E in H. by apply elem_of_nil in H.
      - intros H. destruct (group_of s rx requested FRESH) as [|i l] eqn:E; [done|]. exfalso.
        assert (i ∈ group_of s rx requested FRESH) as Hi by (rewrite E; left). apply Hg in Hi as [Hi Hf]. by apply (H i). }
    rewrite <-Hnone. pose proof (Nat2Z.is_nonneg (length (group_of s rx requested FRESH))) as Hn.
    unfold count in *. destruct (_ && _) eqn:E.
    + apply andb_true_iff in E as [E1%Z.ltb_lt E2%Z.eqb_eq]. split; [done|lia].
    + destruct (Z.ltb_spec 0 (Z.of_nat (length (group_of s rx requested FRESH)))); split; intros; try done; lia.
Qed.
