(* ===== verification/Gateway.v ===== *)
(** [packages/adapters/kiwoom/gateway.py], the gateway: it connects, reads messages of the
    brokerage through a port, admits their events, keeps subscriptions and recovers. *)
From S2P Require Import Prelude Hoare PyTime PyDecimal Json KiwoomEvents KiwoomNormalizer Subscriptions Reconnect OrderFence.
#[local] Open Scope Z_scope.

(** [ReadOnlyKiwoomPort], the boundary to the brokerage.  [kp_last_message_at] is the attribute
    the live runner looks for, [None] where a port has none. *)
(* @ packages/adapters/kiwoom/contract.py 282-283 ReadOnlyKiwoomPort *)
Class KiwoomPort (P : Type) := {
  kp_capabilities : P -> AdapterCapabilities;
  kp_connect : datetime -> M P KiwoomConnection;
  kp_read : string -> M P (option KiwoomSourceEnvelope);
  kp_replace_trade_subscriptions : string -> list string -> M P unit;
  kp_fetch_watchlist_snapshots : string -> list string -> datetime -> M P (list KiwoomSourceEnvelope);
  kp_close_session : string -> M P unit;
  kp_last_message_at : P -> option datetime
}.

(** What the gateway relies on: in every state of the port the envelopes it returns were built
    by their constructor. *)
Class KiwoomPortLaws (P : Type) `{KiwoomPort P} := {
  kp_ok : P -> Prop;
  kp_connect_ok now : preserves kp_ok (kp_connect now);
  kp_read_ok session :
    triple kp_ok (kp_read session)
      (fun o p => kp_ok p /\ forall e, o = Some e -> KiwoomSourceEnvelope_check e = Ok e) kp_ok;
  kp_replace_ok session ids : preserves kp_ok (kp_replace_trade_subscriptions session ids);
  kp_fetch_ok session ids now :
    triple kp_ok (kp_fetch_watchlist_snapshots session ids now)
      (fun es p => kp_ok p /\ Forall (fun e => KiwoomSourceEnvelope_check e = Ok e) es) kp_ok;
  kp_close_ok session : preserves kp_ok (kp_close_session session)
}.

(* @ packages/adapters/kiwoom/gateway.py 44-47 GatewayDataStatus *)
Inductive GatewayDataStatus := GW_LIVE | GW_STALE | GW_DEGRADED.
#[export] Instance GatewayDataStatus_eq_dec : EqDecision GatewayDataStatus.
Proof. solve_decision. Defined.

(* @ packages/adapters/kiwoom/gateway.py 64-68 SupplementReason *)
Inductive SupplementReason := FOR_RECONNECT | FOR_GAP | FOR_COVERAGE | FOR_UNSUBSCRIBED_RELATED.

(* @ packages/adapters/kiwoom/gateway.py 108-114 GatewayHealth *)
Record GatewayHealth := mk_GatewayHealth {
  gh_data_status : GatewayDataStatus;
  gh_connection_phase : ConnectionPhase;
  gh_session_id : option string;
  gh_last_heartbeat_at : option datetime;
  gh_coverage : CoverageReport
}.

(* @ packages/adapters/kiwoom/gateway.py 117-122 SupplementOutcome *)
Record SupplementOutcome := mk_SupplementOutcome {
  so_reason : SupplementReason;
  so_requested_stock_ids : list string;
  so_ingest_results : list IngestResult;
  so_coverage : CoverageReport
}.

(* @ packages/adapters/kiwoom/gateway.py 125-131 ReconnectOutcome *)
Record ReconnectOutcome := mk_ReconnectOutcome {
  ro_connected : bool;
  ro_connection : option KiwoomConnection;
  ro_subscription_plan : option SubscriptionPlan;
  ro_supplement : option SupplementOutcome;
  ro_next_schedule : option ReconnectSchedule
}.

Section gateway.
Context {P : Type} `{KiwoomPort P}.

(* @ packages/adapters/kiwoom/gateway.py 378-402 MarketGateway.__init__ *)
Record MarketGateway := mk_MarketGateway {
  gw_port : P;
  gw_subscriptions : SubscriptionManager;
  gw_reconnect : ReconnectController;
  gw_heartbeat_timeout : timedelta;
  gw_order_fence : EventOrderFence;
  gw_state : MarketState;
  gw_phase : ConnectionPhase;
  gw_connection : option KiwoomConnection;
  gw_last_heartbeat_at : option datetime;
  gw_accepted_events : list CanonicalMarketEvent
}.

(* @ packages/adapters/kiwoom/gateway.py 378-402 MarketGateway.__init__ *)
Definition market_gateway (port : P) (subscriptions : option SubscriptionManager)
    (reconnect : option ReconnectController) (heartbeat_timeout : timedelta) : res MarketGateway :=
  let c := kp_capabilities port in
  _ ← raise_if (negb (cap_read_only c) || cap_orders c || cap_accounts c) ValueError;
  _ ← raise_if (heartbeat_timeout <=? 0) ValueError;
  Ok (mk_MarketGateway port (default default_manager subscriptions) (default (reconnect_controller None) reconnect)
        heartbeat_timeout event_order_fence default_market_state DISCONNECTED None None []).

Definition set_port x g := mk_MarketGateway x (gw_subscriptions g) (gw_reconnect g) (gw_heartbeat_timeout g)
  (gw_order_fence g) (gw_state g) (gw_phase g) (gw_connection g) (gw_last_heartbeat_at g) (gw_accepted_events g).
Definition set_subscriptions x g := mk_MarketGateway (gw_port g) x (gw_reconnect g) (gw_heartbeat_timeout g)
  (gw_order_fence g) (gw_state g) (gw_phase g) (gw_connection g) (gw_last_heartbeat_at g) (gw_accepted_events g).
Definition set_reconnect x g := mk_MarketGateway (gw_port g) (gw_subscriptions g) x (gw_heartbeat_timeout g)
  (gw_order_fence g) (gw_state g) (gw_phase g) (gw_connection g) (gw_last_heartbeat_at g) (gw_accepted_events g).
Definition set_fence x g := mk_MarketGateway (gw_port g) (gw_subscriptions g) (gw_reconnect g) (gw_heartbeat_timeout g)
  x (gw_state g) (gw_phase g) (gw_connection g) (gw_last_heartbeat_at g) (gw_accepted_events g).
Definition set_phase x g := mk_MarketGateway (gw_port g) (gw_subscriptions g) (gw_reconnect g) (gw_heartbeat_timeout g)
  (gw_order_fence g) (gw_state g) x (gw_connection g) (gw_last_heartbeat_at g) (gw_accepted_events g).
Definition set_connection x g := mk_MarketGateway (gw_port g) (gw_subscriptions g) (gw_reconnect g) (gw_heartbeat_timeout g)
  (gw_order_fence g) (gw_state g) (gw_phase g) x (gw_last_heartbeat_at g) (gw_accepted_events g).
Definition set_heartbeat x g := mk_MarketGateway (gw_port g) (gw_subscriptions g) (gw_reconnect g) (gw_heartbeat_timeout g)
  (gw_order_fence g) (gw_state g) (gw_phase g) (gw_connection g) x (gw_accepted_events g).
Definition accept (e : CanonicalMarketEvent) g :=
  mk_MarketGateway (gw_port g) (gw_subscriptions g) (gw_reconnect g) (gw_heartbeat_timeout g) (gw_order_fence g)
    (apply_event e (gw_state g)) (gw_phase g) (gw_connection g) (gw_last_heartbeat_at g) (gw_accepted_events g ++ [e]).

Definition change (f : MarketGateway -> MarketGateway) : M MarketGateway unit := fun g => (Ok tt, f g).
Definition in_port {A} (m : M P A) : M MarketGateway A := fun g => let '(r, p) := m (gw_port g) in (r, set_port p g).
Definition in_manager {A} (m : M SubscriptionManager A) : M MarketGateway A := fun g =>
  let '(r, s) := m (gw_subscriptions g) in (r, set_subscriptions s g).
Definition in_reconnect {A} (m : M ReconnectController A) : M MarketGateway A := fun g =>
  let '(r, c) := m (gw_reconnect g) in (r, set_reconnect c g).
Definition in_fence {A} (m : M EventOrderFence A) : M MarketGateway A := fun g =>
  let '(r, f) := m (gw_order_fence g) in (r, set_fence f g).

(** [try: m except: ...]: [k] goes on with what [m] returned or raised. *)
Definition attempt {A B} (m : M MarketGateway A) (k : res A -> M MarketGateway B) : M MarketGateway B := fun g =>
  let '(r, g) := m g in k r g.

(** The session of the connection, or the error of a call that needs one. *)
Definition session_or_lost (reason : string) : M MarketGateway string := fun g =>
  match gw_connection g with
  | Some c => (Ok (kc_session_id c), g)
  | None => (Raise (KiwoomConnectionLost reason), g)
  end.

(** A new connection takes over. *)
(* @ packages/adapters/kiwoom/gateway.py 408-416 MarketGateway.connect *)
Definition take_over (c : KiwoomConnection) (phase : ConnectionPhase) : M MarketGateway unit :=
  _ ← change (set_connection (Some c));
  _ ← in_fence (begin_session (kc_session_id c));
  _ ← change (set_phase phase);
  _ ← change (set_heartbeat (Some (kc_connected_at c)));
  change (fun g => set_reconnect (mark_connected (gw_reconnect g)) g).

(* @ packages/adapters/kiwoom/gateway.py 408-416 MarketGateway.connect *)
Definition connect (now : datetime) : M MarketGateway KiwoomConnection :=
  _ ← lift (require_aware now);
  c ← in_port (kp_connect now);
  _ ← take_over c CONNECTED;
  mret c.

(* @ packages/adapters/kiwoom/gateway.py 418-432 MarketGateway.ingest *)
Definition ingest_event (e : CanonicalMarketEvent) : M MarketGateway IngestResult := fun g =>
  let '(d, f) := evaluate e (gw_order_fence g) in
  let g := set_fence f g in
  (Ok (mk_IngestResult e d), if bool_decide (d = ACCEPTED) then accept e g else g).

Fixpoint collect {A B} (f : A -> M MarketGateway B) (l : list A) : M MarketGateway (list B) :=
  match l with
  | [] => mret []
  | a :: l => b ← f a; k ← collect f l; mret (b :: k)
  end.

Definition newer (at_ : datetime) (last : option datetime) : bool :=
  match last with None => true | Some t => dt_lt t at_ end.

(* @ packages/adapters/kiwoom/gateway.py 418-432 MarketGateway.ingest *)
Definition ingest (e : KiwoomSourceEnvelope) : M MarketGateway (list IngestResult) :=
  events ← lift (normalize e);
  results ← collect ingest_event events;
  _ ← change (fun g =>
        if bool_decide (Some (en_session_id e) = of_current_session_id (gw_order_fence g)) &&
           newer (en_received_at e) (gw_last_heartbeat_at g)
        then set_heartbeat (Some (en_received_at e)) g else g);
  mret results.

(* @ packages/adapters/kiwoom/gateway.py 471-487 MarketGateway.mark_disconnected *)
Definition mark_disconnected (now : datetime) (reason : string) : M MarketGateway ReconnectSchedule :=
  _ ← lift (require_aware now);
  g ← get_st;
  _ ← match gw_connection g with
      | Some c => in_port (kp_close_session (kc_session_id c))
      | None => mret tt
      end;
  _ ← change (set_connection None);
  _ ← change (set_phase RECONNECTING);
  in_reconnect (schedule_failure now reason
    (match gw_connection g with Some c => kc_session_id c | None => "initial" end)).

(* @ packages/adapters/kiwoom/gateway.py 434-445 MarketGateway.poll_once *)
Definition poll_once (now : datetime) : M MarketGateway (list IngestResult) :=
  _ ← lift (require_aware now);
  session_id ← session_or_lost "현재 연결된 Kiwoom session이 없습니다";
  attempt (in_port (kp_read session_id)) (fun r =>
    match r with
    | Ok (Some e) => ingest e
    | Ok None => mret []
    | Raise (KiwoomConnectionLost reason) => _ ← mark_disconnected now reason; mret []
    | Raise x => throw x
    end).

(* @ packages/adapters/kiwoom/gateway.py 447-462 MarketGateway.reconcile_subscriptions *)
Definition reconcile_subscriptions (demands : list SubscriptionDemand) (now : datetime) (force : bool)
    : M MarketGateway SubscriptionPlan :=
  session_id ← session_or_lost "구독을 적용할 Kiwoom session이 없습니다";
  plan ← in_manager (reconcile demands now force);
  _ ← (if force || negb (bool_decide (sp_added plan = [])) || negb (bool_decide (sp_removed plan = []))
       then in_port (kp_replace_trade_subscriptions session_id (sp_subscriptions plan))
       else mret tt);
  mret plan.

(* @ packages/adapters/kiwoom/gateway.py 464-469 MarketGateway.mark_heartbeat *)
Definition mark_heartbeat (at_ : datetime) : M MarketGateway unit :=
  _ ← lift (require_aware at_);
  _ ← session_or_lost "heartbeat를 수용할 session이 없습니다";
  change (fun g => if newer at_ (gw_last_heartbeat_at g) then set_heartbeat (Some at_) g else g).

(* @ packages/adapters/kiwoom/gateway.py 588-593 MarketGateway._heartbeat_fresh *)
Definition heartbeat_fresh (now : datetime) (g : MarketGateway) : res bool :=
  _ ← require_aware now;
  Ok (match gw_last_heartbeat_at g with
      | None => false
      | Some t => (0 <=? dt_sub now t) && (dt_sub now t <=? gw_heartbeat_timeout g)
      end).

(* @ packages/adapters/kiwoom/gateway.py 546-560 MarketGateway.coverage *)
Definition gateway_coverage (stock_ids : list string) (now : datetime) (g : MarketGateway) : res CoverageReport :=
  fresh ← heartbeat_fresh now g;
  coverage (gw_state g) stock_ids
    (mk_Reception now (gw_phase g) (of_current_session_id (gw_order_fence g)) fresh (sm_current (gw_subscriptions g))).

(* @ packages/adapters/kiwoom/gateway.py 562-586 MarketGateway.health *)
Definition health (stock_ids : list string) (now : datetime) (g : MarketGateway) : res GatewayHealth :=
  report ← gateway_coverage stock_ids now g;
  stale ← (if negb (bool_decide (gw_phase g = CONNECTED)) then Ok true
           else fresh ← heartbeat_fresh now g; Ok (negb fresh));
  Ok (mk_GatewayHealth (if stale : bool then GW_STALE else GW_LIVE) (gw_phase g)
        (kc_session_id <$> gw_connection g) (gw_last_heartbeat_at g) report).

(* @ packages/adapters/kiwoom/gateway.py 524-544 MarketGateway.supplement *)
Definition supplement (stock_ids : list string) (reason : SupplementReason) (now : datetime)
    : M MarketGateway SupplementOutcome :=
  _ ← lift (require_aware now);
  session_id ← session_or_lost "snapshot을 요청할 Kiwoom session이 없습니다";
  let requested := sorted_set stock_ids in
  _ ← lift (mapM_res require_stock_id requested);
  responses ← in_port (kp_fetch_watchlist_snapshots session_id requested now);
  results ← collect ingest responses;
  g ← get_st;
  report ← lift (gateway_coverage requested now g);
  mret (mk_SupplementOutcome reason requested (mjoin results) report).

(* @ packages/adapters/kiwoom/gateway.py 489-522 MarketGateway.recover *)
Definition recover (demands : list SubscriptionDemand) (supplement_stock_ids : list string) (now : datetime)
    : M MarketGateway ReconnectOutcome :=
  _ ← lift (require_aware now);
  g ← get_st;
  due ← lift (is_due (gw_reconnect g) now);
  _ ← lift (raise_if (negb due) ReconnectNotDue);
  attempt (in_port (kp_connect now)) (fun r =>
    match r with
    | Raise (KiwoomConnectionError reason) | Raise (KiwoomConnectionLost reason) =>
        schedule ← in_reconnect (schedule_failure now reason "kiwoom-reconnect");
        mret (mk_ReconnectOutcome false None None None (Some schedule))
    | Raise x => throw x
    | Ok c =>
        _ ← take_over c RECOVERING;
        plan ← reconcile_subscriptions demands now true;
        outcome ← supplement (sp_subscriptions plan ++ supplement_stock_ids) FOR_RECONNECT now;
        _ ← change (set_phase CONNECTED);
        mret (mk_ReconnectOutcome true (Some c) (Some plan) (Some outcome) None)
    end).
End gateway.
Arguments MarketGateway : clear implicits.

(** ** Invariants of the gateway *)

Section parts.
Context {P : Type} `{KiwoomPort P}.
Notation Gateway := (MarketGateway P).

Lemma preserves_gateway_change (I : Gateway -> Prop) f : (forall g, I g -> I (f g)) -> preserves I (change f).
Proof. intros Hf g Hg. by apply Hf. Qed.

Lemma preserves_attempt {A B} (I : Gateway -> Prop) (m : M Gateway A) (k : res A -> M Gateway B) :
  preserves I m -> (forall r, preserves I (k r)) -> preserves I (attempt m k).
Proof.
  intros Hm Hk g Hg. unfold attempt. specialize (Hm g Hg). destruct (m g) as [r g'].
  apply Hk. by destruct r.
Qed.

Lemma preserves_collect {A B} (I : Gateway -> Prop) (f : A -> M Gateway B) l :
  (forall a, preserves I (f a)) -> preserves I (collect f l).
Proof.
  intros Hf. induction l as [|a l IH]; [apply preserves_ret|]. cbn [collect].
  apply preserves_bind; [done|]. intros b. apply preserves_bind; [done|]. intros k. apply preserves_ret.
Qed.

(** A part of the gateway whose changes do not concern [I]. *)
Section one.
Context (I : Gateway -> Prop).

Lemma preserves_in_port {A} (m : M P A) : (forall x g, I g -> I (set_port x g)) -> preserves I (in_port m).
Proof. intros HI g Hg. unfold in_port. destruct (m (gw_port g)) as [[a|e] p]; by apply HI. Qed.
Lemma preserves_in_manager {A} (m : M SubscriptionManager A) :
  (forall x g, I g -> I (set_subscriptions x g)) -> preserves I (in_manager m).
Proof. intros HI g Hg. unfold in_manager. destruct (m (gw_subscriptions g)) as [[a|e] p]; by apply HI. Qed.
Lemma preserves_in_reconnect {A} (m : M ReconnectController A) :
  (forall x g, I g -> I (set_reconnect x g)) -> preserves I (in_reconnect m).
Proof. intros HI g Hg. unfold in_reconnect. destruct (m (gw_reconnect g)) as [[a|e] p]; by apply HI. Qed.
Lemma preserves_session reason : preserves I (session_or_lost reason).
Proof. intros g Hg. unfold session_or_lost. by destruct (gw_connection g). Qed.
End one.

End parts.

(** One step through a method for an invariant that [HI] carries over to every gateway that is
    alike in what it speaks about. *)
Ltac keep_log HI := lazymatch goal with
  | |- preserves _ (in_port _) => apply preserves_in_port; intros ? ?; apply HI; reflexivity
  | |- preserves _ (in_manager _) => apply preserves_in_manager; intros ? ?; apply HI; reflexivity
  | |- preserves _ (in_reconnect _) => apply preserves_in_reconnect; intros ? ?; apply HI; reflexivity
  | |- preserves _ (session_or_lost _) => apply preserves_session
  | |- preserves _ (lift _) => apply preserves_lift
  | |- preserves _ (mret _) => apply preserves_ret
  | |- preserves _ (throw _) => apply preserves_throw
  | |- preserves _ (change _) =>
      apply preserves_gateway_change; intros ? ?; repeat case_match; (eapply HI; [..|eassumption]; reflexivity) || assumption
  | |- preserves _ (attempt _ _) => apply preserves_attempt; [|intros ?]
  | |- preserves _ (get_st ≫= _) => apply preserves_get_bind; intros ?
  | |- preserves _ (_ ≫= _) => apply preserves_bind; [|intros ?]
  | |- preserves _ (match ?x with _ => _ end) => destruct x
  end.

(** ** What was accepted, and what the fence and the state make of it *)

Section log.
Context {P : Type} `{KiwoomPort P}.
Notation Gateway := (MarketGateway P).

(** The fence and the state are views of the accepted events. *)
Definition gateway_ok (g : Gateway) : Prop :=
  fence_log (gw_order_fence g) (gw_accepted_events g) /\
  mk_observations (gw_state g) = of_latest_observation (gw_order_fence g).

(** Invariants that hold of every gateway with the same fence, state and accepted events. *)
Definition of_log (I : Gateway -> Prop) : Prop :=
  forall g g', gw_order_fence g' = gw_order_fence g -> gw_state g' = gw_state g ->
    gw_accepted_events g' = gw_accepted_events g -> I g -> I g'.

Lemma gateway_ok_of_log : of_log gateway_ok.
Proof. intros g g' H1 H2 H3 [Hf Hs]. unfold gateway_ok. by rewrite H1, H2, H3. Qed.

Lemma begin_session_ok session : preserves gateway_ok (in_fence (begin_session session)).
Proof.
  intros g [[] Hs]. unfold in_fence, begin_session. destruct (is_empty session); cbn; (split; [by split|done]).
Qed.

Lemma ingest_event_ok e : preserves gateway_ok (ingest_event e).
Proof.
  intros g [Hf Hs]. unfold ingest_event. pose proof (evaluate_log _ _ e Hf) as He.
  destruct (evaluate e (gw_order_fence g)) as [d f]. destruct He as (Hd&Hc&Hlog&Ef).
  case_bool_decide as Ed; [|by rewrite Ef in *]. split; [exact Hlog|]. cbn.
  rewrite Ef. unfold apply_event, admit_event. cbn. destruct (is_observation e); cbn; by rewrite Hs.
Qed.

Lemma ingest_ok e : preserves gateway_ok (ingest e).
Proof.
  unfold ingest. repeat keep_log gateway_ok_of_log. apply preserves_collect. intros ev. apply ingest_event_ok.
Qed.

Lemma take_over_ok c phase : preserves gateway_ok (take_over c phase).
Proof.
  unfold take_over. repeat (apply begin_session_ok || keep_log gateway_ok_of_log).
Qed.

Lemma mark_disconnected_ok now reason : preserves gateway_ok (mark_disconnected now reason).
Proof. unfold mark_disconnected. repeat keep_log gateway_ok_of_log. Qed.

Lemma reconcile_gateway_ok demands now force : preserves gateway_ok (reconcile_subscriptions demands now force).
Proof. unfold reconcile_subscriptions. repeat keep_log gateway_ok_of_log. Qed.

Lemma supplement_gateway_ok ids reason now : preserves gateway_ok (supplement ids reason now).
Proof.
  unfold supplement. repeat (keep_log gateway_ok_of_log || (apply preserves_collect; apply ingest_ok)).
Qed.

Lemma poll_once_ok now : preserves gateway_ok (poll_once now).
Proof.
  unfold poll_once. repeat (apply ingest_ok || apply mark_disconnected_ok || keep_log gateway_ok_of_log).
Qed.

Lemma recover_ok demands ids now : preserves gateway_ok (recover demands ids now).
Proof.
  unfold recover. repeat (apply take_over_ok || apply reconcile_gateway_ok || apply supplement_gateway_ok || keep_log gateway_ok_of_log).
Qed.

(** ** Every gateway callers can reach *)

(** The calls of a gateway; the live runner notes a failed first connection by itself. *)
Inductive GatewayCall :=
  | Connect (now : datetime)
  | Ingest (e : KiwoomSourceEnvelope)
  | PollOnce (now : datetime)
  | Reconcile (demands : list SubscriptionDemand) (now : datetime) (force : bool)
  | MarkHeartbeat (at_ : datetime)
  | MarkDisconnected (now : datetime) (reason : string)
  | NoteFailure (now : datetime) (reason jitter_key : string)
  | Supplement (stock_ids : list string) (reason : SupplementReason) (now : datetime)
  | Recover (demands : list SubscriptionDemand) (stock_ids : list string) (now : datetime).

Definition run_call (c : GatewayCall) : M Gateway unit :=
  match c with
  | Connect now => _ ← connect now; mret tt
  | Ingest e => _ ← ingest e; mret tt
  | PollOnce now => _ ← poll_once now; mret tt
  | Reconcile demands now force => _ ← reconcile_subscriptions demands now force; mret tt
  | MarkHeartbeat at_ => mark_heartbeat at_
  | MarkDisconnected now reason => _ ← mark_disconnected now reason; mret tt
  | NoteFailure now reason key =>
      _ ← change (set_phase RECONNECTING); _ ← in_reconnect (schedule_failure now reason key); mret tt
  | Supplement ids reason now => _ ← supplement ids reason now; mret tt
  | Recover demands ids now => _ ← recover demands ids now; mret tt
  end.

(** Whatever the port does, and whether the calls return or raise. *)
Inductive reached : Gateway -> Prop :=
  | reached_new port subscriptions reconnect timeout g :
      market_gateway port subscriptions reconnect timeout = Ok g -> reached g
  | reached_call g c : reached g -> reached (run_call c g).2.

Lemma run_call_ok c : preserves gateway_ok (run_call c).
Proof.
  destruct c; cbn [run_call]; unfold connect, mark_heartbeat;
    repeat (apply take_over_ok || apply reconcile_gateway_ok || apply supplement_gateway_ok || apply recover_ok || apply poll_once_ok ||
            apply ingest_ok || apply mark_disconnected_ok || keep_log gateway_ok_of_log).
Qed.

Lemma reached_ok g : reached g -> gateway_ok g.
Proof.
  induction 1 as [port s r t g Hnew|g c _ IH].
  - unfold market_gateway in Hnew. apply res_bind_ok in Hnew as (?&_&Hnew).
    apply res_bind_ok in Hnew as (?&_&[= <-]). split; [apply fence_log_nil|done].
  - apply preserves_run; [apply run_call_ok|done].
Qed.

(** C16: The fence implements its specification.  In every gateway calls can reach, whatever the port
    did, an event is judged as the list of accepted events says: of the current session, not
    accepted before under its key (with the same payload it is a duplicate, with another a
    conflict), after the last one of its lane, and no older observation of its stock. *)
Theorem fence_refines_log g e :
  reached g ->
  (evaluate e (gw_order_fence g)).1 =
    disposition_of (of_current_session_id (gw_order_fence g)) (gw_accepted_events g) e.
Proof.
  intros [Hlog _]%reached_ok. pose proof (evaluate_log _ _ e Hlog) as H0.
  destruct (evaluate e (gw_order_fence g)) as [d f]. by destruct H0 as [-> _].
Qed.

(** C17: Accepted events are in order.  No idempotency key is accepted twice; within a session,
    channel, stock and lane the positions increase and the reception times do not go back; the
    observations of a stock do not go back in time, and the state shows the last of them. *)
Theorem accepted_in_order g :
  reached g ->
  NoDup (me_idempotency_key <$> gw_accepted_events g) /\
  (forall l, StronglySorted before_in_lane (List.filter (in_lane l) (gw_accepted_events g))) /\
  (forall s, StronglySorted no_later (List.filter (observes s) (gw_accepted_events g))) /\
  (forall s, event_for s (gw_state g) = last (List.filter (observes s) (gw_accepted_events g))).
Proof.
  intros [[_ _ Hlatest Honce Hlanes Htimes] Hs]%reached_ok. do 3 (split; [done|]).
  intros s. unfold event_for. by rewrite Hs.
Qed.

(** C18: The health of a gateway is what it receives.  It is live exactly when the gateway is
    connected and the last heartbeat is not in the future and within the timeout.  The report
    puts every requested stock in exactly one group, and it is complete when all are fresh.  A
    stock last seen by a tick is fresh only while the gateway is live, subscribed to it, and in
    the session of the tick. *)
Theorem health_is_reception g ids now :
  reached g -> is_aware now = true -> Forall (fun i => stock_id_ok i = true) ids ->
  exists h fresh, health ids now g = Ok h /\ heartbeat_fresh now g = Ok fresh /\
    let rx := mk_Reception now (gw_phase g) (of_current_session_id (gw_order_fence g)) fresh
                (sm_current (gw_subscriptions g)) in
    coverage_says (gw_state g) ids rx (gh_coverage h) /\
    (gh_data_status h = GW_LIVE <-> gw_phase g = CONNECTED /\ exists t, gw_last_heartbeat_at g = Some t /\
       instant t <= instant now <= instant t + gw_heartbeat_timeout g) /\
    forall i e o, last (List.filter (observes i) (gw_accepted_events g)) = Some e -> me_data e = OfObservation o ->
      ob_observation_source o = REALTIME_0B -> i ∈ cr_fresh_stock_ids (gh_coverage h) ->
      gh_data_status h = GW_LIVE /\ i ∈ sm_current (gw_subscriptions g) /\
      of_current_session_id (gw_order_fence g) = Some (li_session_id (me_lineage e)).
Proof.
  intros [[_ _ Hlatest _ _ _] Hs]%reached_ok Hnow Hids.
  unfold health, gateway_coverage, heartbeat_fresh, require_aware. rewrite Hnow. cbn [negb raise_if mbind res_bind].
  set (fresh := match gw_last_heartbeat_at g with Some _ => _ | None => _ end).
  set (rx := mk_Reception _ _ _ fresh _). destruct (coverage_ok (gw_state g) ids rx Hnow Hids) as (r&->&Hr).
  cbn [mbind res_bind].
  assert ((if negb (bool_decide (gw_phase g = CONNECTED)) then Ok true else Ok (negb fresh)) =
          Ok (negb (bool_decide (gw_phase g = CONNECTED) && fresh))) as -> by by case_bool_decide.
  eexists _, fresh. split; [reflexivity|]. split; [done|]. cbn [gh_coverage gh_data_status]. split; [exact Hr|].
  assert ((if negb (bool_decide (gw_phase g = CONNECTED) && fresh) then GW_STALE else GW_LIVE) = GW_LIVE <->
          gw_phase g = CONNECTED /\ fresh = true) as Hlive.
  { case_bool_decide; destruct fresh; cbn; naive_solver. }
  rewrite Hlive. split.
  - apply and_iff_compat_l. unfold fresh. destruct (gw_last_heartbeat_at g) as [t|]; [|split; [done|by intros (?&?&_)]].
    unfold dt_sub. rewrite andb_true_iff, !Z.leb_le. split.
    + intros [H1 H2]. exists t. split; [done|]. lia.
    + intros (?&[= <-]&Ht). lia.
  - intros i e o He Ho Hsrc Hi. pose proof (cs_groups _ _ _ _ Hr FRESH i) as Hg. cbn [group_in] in Hg.
    apply Hg in Hi as [_ Hi]. unfold freshness_now in Hi. rewrite Hs, Hlatest, He in Hi. cbn in Hi. rewrite Ho in Hi.
    destruct (negb (bool_decide (ob_missing_fields o = []))); [done|]. rewrite Hsrc in Hi.
    destruct (_ && _) eqn:E in Hi; [|done]. rewrite !andb_true_iff, !bool_decide_eq_true in E.
    destruct E as [[[H1 H2] H3] H4]. split; [by apply Hlive|]. split; [done|]. by rewrite H4.
Qed.
End log.
