(* ===== verification/FixtureAdapter.v ===== *)
(** [packages/adapters/kiwoom/fixture.py]: a port that replays recorded sessions, and how the
    recording is read. *)
From S2P Require Import Prelude Hoare PyTime PyDecimal Json DecimalText JsonRead PyUnicode KiwoomEvents KiwoomNormalizer.
From S2P Require Import Subscriptions Reconnect OrderFence Gateway.
#[local] Open Scope Z_scope.

(* @ packages/adapters/kiwoom/fixture.py 36-40 FixtureCallKind *)
Inductive FixtureCallKind := FC_CONNECT | FC_REPLACE_SUBSCRIPTIONS | FC_FETCH_SNAPSHOTS | FC_CLOSE_SESSION.

(* @ packages/adapters/kiwoom/fixture.py 43-47 FixtureSession *)
Record FixtureSession := mk_FixtureSession {
  fs_connection : KiwoomConnection;
  fs_messages : list KiwoomSourceEnvelope;
  fs_disconnect_after_messages : bool
}.

(* @ packages/adapters/kiwoom/fixture.py 49-53 FixtureSession.__post_init__ *)
Definition FixtureSession_check (s : FixtureSession) : res FixtureSession :=
  _ ← raise_if (existsb (fun m => negb (bool_decide (en_session_id m = kc_session_id (fs_connection s)))) (fs_messages s))
        FixtureContractError;
  Ok s.

(* @ packages/adapters/kiwoom/fixture.py 56-59 FixtureSnapshotCall *)
Record FixtureSnapshotCall := mk_FixtureSnapshotCall {
  fn_session_id : string;
  fn_responses : list KiwoomSourceEnvelope
}.

(* @ packages/adapters/kiwoom/fixture.py 61-63 FixtureSnapshotCall.__post_init__ *)
Definition FixtureSnapshotCall_check (c : FixtureSnapshotCall) : res FixtureSnapshotCall :=
  _ ← raise_if (existsb (fun m => negb (bool_decide (en_session_id m = fn_session_id c))) (fn_responses c))
        FixtureContractError;
  Ok c.

(* @ packages/adapters/kiwoom/fixture.py 66-71 FixtureCall *)
Record FixtureCall := mk_FixtureCall {
  fc_kind : FixtureCallKind;
  fc_session_id : string;
  fc_occurred_at : datetime;
  fc_stock_ids : list string
}.

(** ** The adapter *)

(* @ packages/adapters/kiwoom/fixture.py 77-89 FixtureKiwoomAdapter.__init__ *)
Record FixtureKiwoomAdapter := mk_FixtureKiwoomAdapter {
  fa_sessions : list FixtureSession;
  fa_snapshot_calls : list FixtureSnapshotCall;
  fa_session_position : nat;
  fa_snapshot_position : nat;
  fa_message_positions : dict string nat;
  fa_active_session_id : option string;
  fa_calls : list FixtureCall
}.

(* @ packages/adapters/kiwoom/fixture.py 77-89 FixtureKiwoomAdapter.__init__ *)
Definition fixture_adapter (sessions : list FixtureSession) (snapshot_calls : list FixtureSnapshotCall)
    : FixtureKiwoomAdapter := mk_FixtureKiwoomAdapter sessions snapshot_calls 0 0 [] None [].

Definition set_positions x a := mk_FixtureKiwoomAdapter (fa_sessions a) (fa_snapshot_calls a) (fa_session_position a)
  (fa_snapshot_position a) x (fa_active_session_id a) (fa_calls a).
Definition set_active x a := mk_FixtureKiwoomAdapter (fa_sessions a) (fa_snapshot_calls a) (fa_session_position a)
  (fa_snapshot_position a) (fa_message_positions a) x (fa_calls a).
Definition next_session a := mk_FixtureKiwoomAdapter (fa_sessions a) (fa_snapshot_calls a) (S (fa_session_position a))
  (fa_snapshot_position a) (fa_message_positions a) (fa_active_session_id a) (fa_calls a).
Definition next_snapshot a := mk_FixtureKiwoomAdapter (fa_sessions a) (fa_snapshot_calls a) (fa_session_position a)
  (S (fa_snapshot_position a)) (fa_message_positions a) (fa_active_session_id a) (fa_calls a).
Definition note_call c a := mk_FixtureKiwoomAdapter (fa_sessions a) (fa_snapshot_calls a) (fa_session_position a)
  (fa_snapshot_position a) (fa_message_positions a) (fa_active_session_id a) (fa_calls a ++ [c]).

Definition adjust (f : FixtureKiwoomAdapter -> FixtureKiwoomAdapter) : M FixtureKiwoomAdapter unit := fun a => (Ok tt, f a).

(* @ packages/adapters/kiwoom/fixture.py 259-263 FixtureKiwoomAdapter._session_by_id *)
Definition session_by_id (session_id : string) : M FixtureKiwoomAdapter FixtureSession := fun a =>
  match List.find (fun s => bool_decide (kc_session_id (fs_connection s) = session_id)) (fa_sessions a) with
  | Some s => (Ok s, a)
  | None => (Raise (KiwoomConnectionError "알 수 없는 fixture session입니다"), a)
  end.

(* @ packages/adapters/kiwoom/fixture.py 254-257 FixtureKiwoomAdapter._active_session *)
Definition active_session (session_id : string) : M FixtureKiwoomAdapter FixtureSession :=
  a ← get_st;
  _ ← lift (raise_if (negb (bool_decide (fa_active_session_id a = Some session_id)))
        (KiwoomConnectionLost "요청한 fixture session은 현재 연결이 아닙니다"));
  session_by_id session_id.

(* @ packages/adapters/kiwoom/fixture.py 99-116 FixtureKiwoomAdapter.connect *)
Definition fixture_connect (now : datetime) : M FixtureKiwoomAdapter KiwoomConnection :=
  _ ← lift (require_aware now);
  a ← get_st;
  _ ← lift (raise_if (match fa_active_session_id a with Some _ => true | None => false end)
        (KiwoomConnectionError "이미 열린 fixture session이 있습니다"));
  match fa_sessions a !! fa_session_position a with
  | None => throw (KiwoomConnectionError "더 이상 사용할 fixture session이 없습니다")
  | Some session =>
      let session_id := kc_session_id (fs_connection session) in
      _ ← adjust next_session;
      _ ← adjust (set_active (Some session_id));
      _ ← adjust (fun a => if dmem session_id (fa_message_positions a) then a
                           else set_positions (dset session_id 0%nat (fa_message_positions a)) a);
      _ ← adjust (note_call (mk_FixtureCall FC_CONNECT session_id now []));
      mret (fs_connection session)
  end.

(* @ packages/adapters/kiwoom/fixture.py 118-127 FixtureKiwoomAdapter.read *)
Definition fixture_read (session_id : string) : M FixtureKiwoomAdapter (option KiwoomSourceEnvelope) :=
  session ← active_session session_id;
  a ← get_st;
  position ← lift (item_get session_id (fa_message_positions a));
  match fs_messages session !! position with
  | Some e =>
      _ ← adjust (set_positions (dset session_id (S position) (fa_message_positions a)));
      mret (Some e)
  | None =>
      if fs_disconnect_after_messages session then
        _ ← adjust (set_active None);
        throw (KiwoomConnectionLost "fixture가 연결 종료를 주입했습니다")
      else mret None
  end.

(* @ packages/adapters/kiwoom/fixture.py 129-149 FixtureKiwoomAdapter.replace_trade_subscriptions *)
Definition fixture_replace (session_id : string) (stock_ids : list string) : M FixtureKiwoomAdapter unit :=
  _ ← active_session session_id;
  _ ← lift (raise_if (200 <? Z.of_nat (length stock_ids)) FixtureContractError);
  _ ← lift (raise_if (negb (bool_decide (NoDup stock_ids))) FixtureContractError);
  _ ← lift (mapM_res require_stock_id stock_ids);
  session ← session_by_id session_id;
  adjust (note_call (mk_FixtureCall FC_REPLACE_SUBSCRIPTIONS session_id
                       (kc_connected_at (fs_connection session)) stock_ids)).

Definition rows_json (payload : dict string json) : option json :=
  match dget "rows" payload with None | Some JNull => dget "atn_stk_infr" payload | rows => rows end.

(* @ packages/adapters/kiwoom/fixture.py 334-337 _mapping *)
Definition fixture_mapping (value : option json) : res (dict string json) :=
  match value with Some (JObj fields) => Ok fields | _ => Raise FixtureContractError end.

(* @ packages/adapters/kiwoom/fixture.py 340-343 _sequence *)
Definition fixture_sequence (value : option json) : res (list json) :=
  match value with Some (JList l) => Ok l | _ => Raise FixtureContractError end.

(* @ packages/adapters/kiwoom/fixture.py 293-304 _snapshot_codes *)
Definition snapshot_codes (payload : dict string json) : res (list string) :=
  rows ← fixture_sequence (rows_json payload);
  mapM_res (fun value =>
      row ← fixture_mapping (Some value);
      let code := remove_prefix "A" (text_or_empty (or_else (dget "stk_cd" row) (dget "code" row))) in
      _ ← raise_if (negb (py_len code =? 6) || negb (isdigit code)) FixtureContractError;
      Ok code) rows.

(* @ packages/adapters/kiwoom/fixture.py 151-187 FixtureKiwoomAdapter.fetch_watchlist_snapshots *)
Definition fixture_fetch (session_id : string) (stock_ids : list string) (requested_at : datetime)
    : M FixtureKiwoomAdapter (list KiwoomSourceEnvelope) :=
  _ ← active_session session_id;
  _ ← lift (require_aware requested_at);
  _ ← lift (raise_if (negb (bool_decide (NoDup stock_ids))) FixtureContractError);
  _ ← lift (mapM_res require_stock_id stock_ids);
  _ ← adjust (note_call (mk_FixtureCall FC_FETCH_SNAPSHOTS session_id requested_at stock_ids));
  a ← get_st;
  match fa_snapshot_calls a !! fa_snapshot_position a with
  | None => mret []
  | Some call =>
      if negb (bool_decide (fn_session_id call = session_id)) then mret []
      else
        _ ← adjust next_snapshot;
        codes ← lift (mapM_res (fun e => snapshot_codes (en_payload e)) (fn_responses call));
        let requested_codes := remove_prefix "KRX:" <$> stock_ids in
        _ ← lift (raise_if (negb (forallb (fun c => bool_decide (c ∈ requested_codes)) (mjoin codes))) FixtureContractError);
        mret (fn_responses call)
  end.

(* @ packages/adapters/kiwoom/fixture.py 189-199 FixtureKiwoomAdapter.close_session *)
Definition fixture_close (session_id : string) : M FixtureKiwoomAdapter unit :=
  session ← session_by_id session_id;
  _ ← adjust (note_call (mk_FixtureCall FC_CLOSE_SESSION session_id (kc_connected_at (fs_connection session)) []));
  adjust (fun a => if bool_decide (fa_active_session_id a = Some session_id) then set_active None a else a).

(** The adapter has no [last_message_at]. *)
(* @ packages/adapters/kiwoom/fixture.py 91-93 FixtureKiwoomAdapter.capabilities *)
#[export] Instance fixture_port : KiwoomPort FixtureKiwoomAdapter := {
  kp_capabilities _ := default_capabilities;
  kp_connect := fixture_connect;
  kp_read := fixture_read;
  kp_replace_trade_subscriptions := fixture_replace;
  kp_fetch_watchlist_snapshots := fixture_fetch;
  kp_close_session := fixture_close;
  kp_last_message_at _ := None
}.

(** ** Reading a recording *)

(* @ packages/adapters/kiwoom/fixture.py 346-351 _required_text *)
Definition required_text (row : dict string json) (field_name : string) : res string :=
  let text := strip (text_or_empty (dget field_name row)) in
  _ ← raise_if (is_empty text) FixtureContractError;
  Ok text.

(* @ packages/adapters/kiwoom/fixture.py 354-360 _optional_text *)
Definition optional_text (value : option json) : res (option string) :=
  match value with
  | None | Some JNull => Ok None
  | Some j => let text := strip (py_str j) in
              _ ← raise_if (is_empty text) FixtureContractError; Ok (Some text)
  end.

(** [str(value)] of [row.get(key)] *)
Definition str_or_none (value : option json) : string := py_str (default JNull value).

(* @ packages/adapters/kiwoom/fixture.py 363-369 _datetime *)
Definition fixture_datetime (value : option json) : res datetime :=
  match fromisoformat (str_or_none value) with
  | Ok d => _ ← require_aware d; Ok d
  | Raise _ => Raise FixtureContractError
  end.

(* @ packages/adapters/kiwoom/fixture.py 372-376 _date *)
Definition fixture_date (value : option json) : res date :=
  match parse_date (str_or_none value) with Ok d => Ok d | Raise _ => Raise FixtureContractError end.

(* @ packages/adapters/kiwoom/fixture.py 266-290 _envelope *)
Definition read_envelope (expected_session_id : string) (value : json) : res KiwoomSourceEnvelope :=
  row ← fixture_mapping (Some value);
  session_id ← required_text row "sessionId";
  _ ← raise_if (negb (bool_decide (session_id = expected_session_id))) FixtureContractError;
  channel_text ← required_text row "channel";
  channel ← match enum_of SourceChannel_value [WEBSOCKET; REST_SNAPSHOT] channel_text with
            | Ok c => Ok c
            | Raise _ => Raise FixtureContractError
            end;
  payload ← fixture_mapping (dget "payload" row);
  sequence ← match dget "sourceSequence" row with Some (JNum n) => Ok n | _ => Raise FixtureContractError end;
  source_schema_version ← required_text row "sourceSchemaVersion";
  source_message_id ← required_text row "sourceMessageId";
  source_timestamp ← fixture_datetime (dget "sourceTimestamp" row);
  received_at ← fixture_datetime (dget "receivedAt" row);
  market_date ← fixture_date (dget "marketDate" row);
  request_id ← optional_text (dget "requestId" row);
  KiwoomSourceEnvelope_check
    (mk_KiwoomSourceEnvelope source_schema_version channel session_id source_message_id sequence
       source_timestamp received_at market_date payload request_id).

(* @ packages/adapters/kiwoom/fixture.py 307-331 _assert_no_sensitive_keys *)
Definition forbidden_keys : list string :=
  ["account"; "accountnumber"; "appkey"; "appsecret"; "credential"; "order"; "orderapi"; "ordertype";
   "password"; "secret"; "token"].

(** [str.lower] and [str.isalnum]; characters beyond ASCII are kept as they are. *)
Definition alnum (a : ascii) : bool :=
  let n := N_of_ascii a in
  ((48 <=? n) && (n <=? 57))%N || ((97 <=? n) && (n <=? 122))%N || (128 <=? n)%N.
(* @ packages/adapters/kiwoom/fixture.py 307-331 _assert_no_sensitive_keys *)
Definition sensitive (key : string) : bool :=
  bool_decide (String.string_of_list_ascii (List.filter alnum (lower <$> chars key)) ∈ forbidden_keys).

(* @ packages/adapters/kiwoom/fixture.py 307-331 _assert_no_sensitive_keys *)
Fixpoint has_sensitive_key (j : json) : bool :=
  match j with
  | JObj fields => existsb (fun kv => sensitive kv.1 || has_sensitive_key kv.2) fields
  | JList l => existsb has_sensitive_key l
  | _ => false
  end.

(* @ packages/adapters/kiwoom/fixture.py 201-252 FixtureKiwoomAdapter.from_path *)
Definition read_session (value : json) : res FixtureSession :=
  row ← fixture_mapping (Some value);
  session_id ← required_text row "sessionId";
  connected_at ← fixture_datetime (dget "connectedAt" row);
  values ← fixture_sequence (dget "messages" row);
  messages ← mapM_res (read_envelope session_id) values;
  connection ← KiwoomConnection_init session_id connected_at;
  FixtureSession_check
    (mk_FixtureSession connection messages
       (match dget "disconnectAfterMessages" row with Some j => truthy j | None => false end)).

(* @ packages/adapters/kiwoom/fixture.py 201-252 FixtureKiwoomAdapter.from_path *)
Definition read_snapshot_call (value : json) : res FixtureSnapshotCall :=
  row ← fixture_mapping (Some value);
  session_id ← required_text row "sessionId";
  values ← fixture_sequence (dget "responses" row);
  responses ← mapM_res (read_envelope session_id) values;
  FixtureSnapshotCall_check (mk_FixtureSnapshotCall session_id responses).

(** [raw] is what [json.loads] gives for the text of the file. *)
(* @ packages/adapters/kiwoom/fixture.py 201-252 FixtureKiwoomAdapter.from_path *)
Definition from_recording (raw : json) : res FixtureKiwoomAdapter :=
  row ← fixture_mapping (Some raw);
  _ ← raise_if (has_sensitive_key raw) FixtureContractError;
  _ ← raise_if (negb (bool_decide (dget "fixtureVersion" row = Some (JStr "kiwoom-market-gateway.fixture.v1"))))
        FixtureContractError;
  adapter ← fixture_mapping (dget "adapter" row);
  _ ← raise_if (negb (bool_decide (dget "readOnly" adapter = Some (JBool true)))) FixtureContractError;
  _ ← raise_if (negb (bool_decide (dget "liveValidation" adapter = Some (JStr "PENDING_EXTERNAL")))) FixtureContractError;
  session_values ← fixture_sequence (dget "sessions" row);
  sessions ← mapM_res read_session session_values;
  call_values ← fixture_sequence (Some (default (JList []) (dget "snapshotCalls" row)));
  calls ← mapM_res read_snapshot_call call_values;
  Ok (fixture_adapter sessions calls).

(** ** The fixture keeps the promises of a port *)

(** What is recorded was built by the constructors. *)
Definition recorded (l : list KiwoomSourceEnvelope) : Prop := Forall (fun e => KiwoomSourceEnvelope_check e = Ok e) l.
Definition adapter_ok (a : FixtureKiwoomAdapter) : Prop :=
  Forall (fun s => recorded (fs_messages s)) (fa_sessions a) /\ Forall (fun c => recorded (fn_responses c)) (fa_snapshot_calls a).

Lemma adjust_ok f :
  (forall a, fa_sessions (f a) = fa_sessions a) -> (forall a, fa_snapshot_calls (f a) = fa_snapshot_calls a) ->
  preserves adapter_ok (adjust f).
Proof. intros H1 H2 a Ha. unfold adapter_ok. cbn. by rewrite H1, H2. Qed.

Lemma triple_get_ok {A} Q E (f : FixtureKiwoomAdapter -> M FixtureKiwoomAdapter A) :
  (forall a, adapter_ok a -> triple adapter_ok (f a) Q E) -> triple adapter_ok (get_st ≫= f) Q E.
Proof. intros Hf a Ha. unfold mbind, M_bind, get_st. by apply Hf. Qed.

Lemma step_ok {A B} (m : M FixtureKiwoomAdapter A) (f : A -> M FixtureKiwoomAdapter B) Q :
  preserves adapter_ok m -> (forall a, triple adapter_ok (f a) Q adapter_ok) -> triple adapter_ok (m ≫= f) Q adapter_ok.
Proof. intros Hm Hf. by eapply triple_bind. Qed.

Lemma session_by_id_ok session_id :
  triple adapter_ok (session_by_id session_id) (fun s a => recorded (fs_messages s) /\ adapter_ok a) adapter_ok.
Proof.
  intros a Ha. unfold session_by_id. destruct (List.find _ _) as [s|] eqn:E; [|done]. split; [|done].
  apply List.find_some in E as [E%list_elem_of_In _]. destruct Ha as [Hs _]. rewrite Forall_forall in Hs. by apply Hs.
Qed.

Lemma active_session_ok session_id :
  triple adapter_ok (active_session session_id) (fun s a => recorded (fs_messages s) /\ adapter_ok a) adapter_ok.
Proof.
  apply triple_get_bind. intros a. eapply triple_bind; [apply preserves_lift|]. intros ?. apply session_by_id_ok.
Qed.

Ltac keep := lazymatch goal with
  | |- preserves _ (_ ≫= _) => apply preserves_bind; [|intros ?]
  | |- preserves _ (lift _) => apply preserves_lift
  | |- preserves _ (mret _) => apply preserves_ret
  | |- preserves _ (throw _) => apply preserves_throw
  | |- preserves _ (adjust _) => apply adjust_ok; intros ?; repeat case_match; reflexivity
  | |- preserves _ (match ?x with _ => _ end) => destruct x
  | |- preserves _ (session_by_id _) =>
      eapply triple_weaken; [apply session_by_id_ok|done|by intros ? ? []|done]
  | |- preserves _ (active_session _) =>
      eapply triple_weaken; [apply active_session_ok|done|by intros ? ? []|done]
  | |- preserves _ get_st => by intros ? ?
  end.

#[export] Instance fixture_laws : KiwoomPortLaws FixtureKiwoomAdapter.
Proof.
  refine {| kp_ok := adapter_ok |}; cbn [kp_connect kp_read kp_replace_trade_subscriptions
    kp_fetch_watchlist_snapshots kp_close_session fixture_port].
  - intros now. unfold fixture_connect. repeat keep.
  - intros session. unfold fixture_read. eapply triple_bind; [apply active_session_ok|]. intros s.
    apply triple_pure. intros Hs. apply triple_get_bind. intros a. eapply triple_bind; [apply preserves_lift|].
    intros position. destruct (fs_messages s !! position) as [e|] eqn:E.
    + eapply triple_bind; [by apply adjust_ok|]. intros ?. apply triple_ret. intros a' Ha'. split; [done|].
      intros ? [= <-]. unfold recorded in Hs. rewrite Forall_lookup in Hs. by eapply Hs.
    + destruct (fs_disconnect_after_messages s).
      * eapply triple_bind; [by apply adjust_ok|]. intros ?. by apply triple_throw.
      * apply triple_ret. by intros a' Ha'.
  - intros session ids. unfold fixture_replace. repeat keep.
  - intros session ids now. unfold fixture_fetch. eapply triple_bind; [apply active_session_ok|]. intros s.
    apply triple_pure. intros ?. do 4 (apply step_ok; [repeat keep|]; intros ?).
    apply triple_get_ok. intros b Hb. destruct (fa_snapshot_calls b !! fa_snapshot_position b) as [c|] eqn:E;
      [|apply triple_ret; by intros a' Ha'; split; [|apply Forall_nil]].
    assert (recorded (fn_responses c)) as Hc by (destruct Hb as [_ Hb]; rewrite Forall_lookup in Hb; by eapply Hb).
    destruct (negb _); [apply triple_ret; by intros a' Ha'; split; [|apply Forall_nil]|].
    do 3 (apply step_ok; [repeat keep|]; intros ?). by apply triple_ret.
  - intros session. unfold fixture_close. repeat keep.
Defined.

(** Every recording that is read keeps them. *)
Lemma envelope_check_id e e' : KiwoomSourceEnvelope_check e = Ok e' -> KiwoomSourceEnvelope_check e' = Ok e'.
Proof.
  intros H. assert (e' = e) as ->; [|exact H]. unfold KiwoomSourceEnvelope_check in H.
  repeat (apply res_bind_ok in H as (?&_&H)). by injection H.
Qed.

Lemma read_envelopes_recorded session values messages :
  mapM_res (read_envelope session) values = Ok messages -> recorded messages.
Proof.
  intros H%mapM_res_Forall2. induction H as [|j e values es He _ IH]; [by apply Forall_nil|].
  apply Forall_cons. split; [|exact IH]. unfold read_envelope in He.
  do 13 (apply res_bind_ok in He as (?&_&He)). by eapply envelope_check_id.
Qed.

Lemma mapM_res_all {A B} (f : A -> res B) (F : B -> Prop) l k :
  (forall a b, f a = Ok b -> F b) -> mapM_res f l = Ok k -> Forall F k.
Proof. intros Hf H%mapM_res_Forall2. induction H; constructor; eauto. Qed.

Lemma from_recording_ok raw a : from_recording raw = Ok a -> adapter_ok a.
Proof.
  unfold from_recording. intros H. do 7 (apply res_bind_ok in H as (?&_&H)).
  apply res_bind_ok in H as (sessions&Hs&H). apply res_bind_ok in H as (?&_&H).
  apply res_bind_ok in H as (calls&Hc&H). injection H as <-. split; cbn.
  - eapply mapM_res_all; [|exact Hs]. intros j s H. unfold read_session in H.
    do 4 (apply res_bind_ok in H as (?&_&H)). apply res_bind_ok in H as (messages&Hm&H).
    apply res_bind_ok in H as (?&_&H). unfold FixtureSession_check in H. apply res_bind_ok in H as (?&_&H).
    injection H as <-. cbn. by eapply read_envelopes_recorded.
  - eapply mapM_res_all; [|exact Hc]. intros j c H. unfold read_snapshot_call in H.
    do 3 (apply res_bind_ok in H as (?&_&H)). apply res_bind_ok in H as (responses&Hm&H).
    unfold FixtureSnapshotCall_check in H. apply res_bind_ok in H as (?&_&H).
    injection H as <-. cbn. by eapply read_envelopes_recorded.
Qed.

(** ** A recorded day *)

(** A snapshot of one stock at a price. *)
Definition demo_snapshot (session price : string) (sequence at_ : Z) : KiwoomSourceEnvelope :=
  mk_KiwoomSourceEnvelope "kiwoom.ka10095.v1" REST_SNAPSHOT session "r" sequence (demo_time at_) (demo_time at_) 739471
    [("apiId", JStr "ka10095");
     ("rows", JList [JObj [("stk_cd", JStr "005930"); ("cur_prc", JStr price); ("base_pric", JStr "72,000");
                           ("acc_trde_prica", JStr "9")]])]
    (Some "q").
Definition demo_session (session : string) (at_ : Z) (messages : list KiwoomSourceEnvelope) (disconnect : bool) : FixtureSession :=
  mk_FixtureSession (mk_KiwoomConnection session (demo_time at_)) messages disconnect.

(** The first session ends after its messages; the snapshot of the second shows [price]. *)
Definition demo_port (price : string) : FixtureKiwoomAdapter :=
  fixture_adapter
    [demo_session "s1" 0 [demo_real] true; demo_session "s2" 60 [demo_envelope "s2" 1 61 [demo_tick "-71,700"]] false]
    [mk_FixtureSnapshotCall "s2" [demo_snapshot "s2" price 1 60]].

Lemma demo_port_ok price : adapter_ok (demo_port price).
Proof. split; unfold recorded, demo_port; cbn -[KiwoomSourceEnvelope_check]; repeat first [apply Forall_nil|apply Forall_cons; split|reflexivity]. Qed.

(** A gateway that connected and took in the first message. *)
Definition demo_gateway : MarketGateway FixtureKiwoomAdapter :=
  match market_gateway (demo_port "71,400") None None (seconds 60) with
  | Ok g => (run_call (Ingest demo_real) (run_call (Connect (demo_time 0)) g).2).2
  | Raise _ => mk_MarketGateway (demo_port "71,400") default_manager (reconnect_controller None) 0 event_order_fence
                 default_market_state DISCONNECTED None None []
  end.

Lemma demo_gateway_reached : reached demo_gateway.
Proof.
  unfold demo_gateway. destruct (market_gateway _ _ _ _) as [g|x] eqn:E; [|discriminate E].
  do 2 apply reached_call. by eapply reached_new.
Qed.

Lemma demo_gateway_accepted : length (gw_accepted_events demo_gateway) = 3%nat.
Proof. vm_compute. reflexivity. Qed.

Lemma fence_refines_log_witness :
  reached demo_gateway /\ forall e, (evaluate e (gw_order_fence demo_gateway)).1 =
    disposition_of (of_current_session_id (gw_order_fence demo_gateway)) (gw_accepted_events demo_gateway) e.
Proof. split; [exact demo_gateway_reached|]. intros e. apply (fence_refines_log demo_gateway e demo_gateway_reached). Defined.

Lemma accepted_in_order_witness :
  reached demo_gateway /\ length (gw_accepted_events demo_gateway) = 3%nat /\
  NoDup (me_idempotency_key <$> gw_accepted_events demo_gateway).
Proof.
  split; [exact demo_gateway_reached|]. split; [exact demo_gateway_accepted|].
  apply (accepted_in_order demo_gateway demo_gateway_reached).
Defined.

Lemma health_is_reception_witness :
  reached demo_gateway /\ exists h, health ["KRX:005930"] (demo_time 30) demo_gateway = Ok h.
Proof.
  split; [exact demo_gateway_reached|].
  assert (Forall (fun i => stock_id_ok i = true) ["KRX:005930"]) as Hids by (repeat constructor).
  destruct (health_is_reception demo_gateway ["KRX:005930"] (demo_time 30) demo_gateway_reached eq_refl Hids) as (h&fresh&H&_).
  exists h. exact H.
Defined.
