(* ===== verification/LiveRunner.v ===== *)
(** [packages/pipeline/live.py]: one tick of the live feed.  It keeps the gateway connected,
    drains it, turns search candidates into subscription demands, and hands the accepted
    observations to the pipeline as updates. *)
From S2P Require Import Prelude Hoare PyTime PyDecimal Json Domain EventModels RealtimeModels.
From S2P Require Import KiwoomEvents KiwoomNormalizer Subscriptions Reconnect OrderFence Gateway FixtureAdapter.
#[local] Open Scope Z_scope.

(* @ packages/pipeline/live.py 48-52 GATEWAY_DATA_STATUS *)
Definition GATEWAY_DATA_STATUS (s : GatewayDataStatus) : DataStatus :=
  match s with GW_LIVE => LIVE | GW_STALE => DELAYED | GW_DEGRADED => DEGRADED end.

(* @ packages/pipeline/live.py 59-62 _CandidateState *)
Record CandidateState := mk_CandidateState { cs_condition_ids : list string; cs_last_observed_at : datetime }.

Section runner.
Context {P : Type} `{KiwoomPort P}.

(** [clock n] is the [n]-th reading of the clock; [lr_readings] counts them. *)
Context (clock : nat -> datetime).

(* @ packages/pipeline/live.py 68-105 LiveMarketRunner.__init__ *)
Record LiveMarketRunner := mk_LiveMarketRunner {
  lr_gateway : MarketGateway P;
  lr_market_date : date;
  lr_theme_members : dict string (list string);
  lr_stock_to_themes : dict string (list string);
  lr_candidate_ttl : timedelta;
  lr_supplement_interval : timedelta;
  lr_max_poll_per_tick : Z;
  lr_candidates : dict string CandidateState;
  lr_last_supplement_at : option datetime;
  lr_normalization_errors : Z;
  lr_readings : nat
}.

(** The themes of each stock, sorted. *)
(* @ packages/pipeline/live.py 68-105 LiveMarketRunner.__init__ *)
Definition stock_to_themes (theme_members : dict string (list string)) : dict string (list string) :=
  let pairs := theme_members ≫= fun kv => (fun s => (s, kv.1)) <$> kv.2 in
  let themes := fold_left (fun d p => dset p.1 (default [] (dget p.1 d) ++ [p.2]) d) pairs [] in
  (fun kv => (kv.1, sorted_set kv.2)) <$> themes.

(* @ packages/pipeline/live.py 68-105 LiveMarketRunner.__init__ *)
Definition live_market_runner (gateway : MarketGateway P) (market_date : date)
    (theme_members : dict string (list string)) (candidate_ttl supplement_interval : timedelta)
    (max_poll_per_tick : Z) : res LiveMarketRunner :=
  _ ← raise_if (candidate_ttl <=? 0) ValueError;
  _ ← raise_if (supplement_interval <? 0) ValueError;
  _ ← raise_if (max_poll_per_tick <? 1) ValueError;
  Ok (mk_LiveMarketRunner gateway market_date theme_members (stock_to_themes theme_members) candidate_ttl
        supplement_interval max_poll_per_tick [] None 0 0).

Definition set_gateway x r := mk_LiveMarketRunner x (lr_market_date r) (lr_theme_members r) (lr_stock_to_themes r)
  (lr_candidate_ttl r) (lr_supplement_interval r) (lr_max_poll_per_tick r) (lr_candidates r)
  (lr_last_supplement_at r) (lr_normalization_errors r) (lr_readings r).
Definition set_candidates x r := mk_LiveMarketRunner (lr_gateway r) (lr_market_date r) (lr_theme_members r)
  (lr_stock_to_themes r) (lr_candidate_ttl r) (lr_supplement_interval r) (lr_max_poll_per_tick r) x
  (lr_last_supplement_at r) (lr_normalization_errors r) (lr_readings r).
Definition set_supplement x r := mk_LiveMarketRunner (lr_gateway r) (lr_market_date r) (lr_theme_members r)
  (lr_stock_to_themes r) (lr_candidate_ttl r) (lr_supplement_interval r) (lr_max_poll_per_tick r) (lr_candidates r)
  x (lr_normalization_errors r) (lr_readings r).
Definition count_error r := mk_LiveMarketRunner (lr_gateway r) (lr_market_date r) (lr_theme_members r)
  (lr_stock_to_themes r) (lr_candidate_ttl r) (lr_supplement_interval r) (lr_max_poll_per_tick r) (lr_candidates r)
  (lr_last_supplement_at r) (lr_normalization_errors r + 1) (lr_readings r).
Definition next_reading r := mk_LiveMarketRunner (lr_gateway r) (lr_market_date r) (lr_theme_members r)
  (lr_stock_to_themes r) (lr_candidate_ttl r) (lr_supplement_interval r) (lr_max_poll_per_tick r) (lr_candidates r)
  (lr_last_supplement_at r) (lr_normalization_errors r) (S (lr_readings r)).

Definition update (f : LiveMarketRunner -> LiveMarketRunner) : M LiveMarketRunner unit := fun r => (Ok tt, f r).
(** [self._clock()] *)
Definition read_clock : M LiveMarketRunner datetime := fun r => (Ok (clock (lr_readings r)), next_reading r).
Definition in_gateway {A} (m : M (MarketGateway P) A) : M LiveMarketRunner A := fun r =>
  let '(a, g) := m (lr_gateway r) in (a, set_gateway g r).
(** [try: m except: ...] *)
Definition try_ {A B} (m : M LiveMarketRunner A) (k : res A -> M LiveMarketRunner B) : M LiveMarketRunner B := fun r =>
  let '(a, r) := m r in k a r.

(** ** Updates *)

(* @ packages/pipeline/live.py 295-316 LiveMarketRunner._to_update *)
Definition to_update (market_date : date) (e : CanonicalMarketEvent) : res StockRealtimeUpdate :=
  match me_data e with
  | OfCandidate _ => Raise AssertionError
  | OfObservation o =>
      lineage ← LineageRef_check (mk_LineageRef "market-event" (me_event_id e) (Some (me_schema_version e)) None);
      StockRealtimeUpdate_init (me_event_id e) (me_stock_id e) market_date
        ("kiwoom:" +:+ li_session_id (me_lineage e)) (me_source_sequence e)
        (pymin (me_source_timestamp e) (me_received_at e)) (me_received_at e)
        (Finite <$> ob_current_price o) (Finite <$> ob_cumulative_trading_value o) (Finite <$> ob_base_price o)
        true false false [lineage]
  end.

Definition accepted_of (results : list IngestResult) : list CanonicalMarketEvent :=
  ir_event <$> List.filter (fun r => bool_decide (ir_disposition r = ACCEPTED)) results.

(** The updates of the accepted observations among results. *)
(* @ packages/pipeline/live.py 273-293 LiveMarketRunner._maybe_supplement *)
Definition updates_of (market_date : date) (events : list CanonicalMarketEvent) : res (list StockRealtimeUpdate) :=
  mapM_res (to_update market_date) (List.filter is_observation events).

(** ** Candidates and demands *)

Definition without (x : string) (l : list string) : list string := List.filter (fun y => negb (bool_decide (y = x))) l.
Definition with_ (x : string) (l : list string) : list string := if bool_decide (x ∈ l) then l else l ++ [x].

(* @ packages/pipeline/live.py 206-218 LiveMarketRunner._apply_candidate *)
Definition apply_candidate (e : CanonicalMarketEvent) (candidates : dict string CandidateState)
    : dict string CandidateState :=
  match me_data e with
  | OfObservation _ => candidates
  | OfCandidate c =>
      match cd_action c, dget (me_stock_id e) candidates with
      | ENTER, state =>
          dset (me_stock_id e)
            (mk_CandidateState (with_ (cd_condition_id c) (match state with Some s => cs_condition_ids s | None => [] end))
               (me_received_at e)) candidates
      | EXIT, None => candidates
      | EXIT, Some s =>
          match without (cd_condition_id c) (cs_condition_ids s) with
          | [] => ddel (me_stock_id e) candidates
          | ids => dset (me_stock_id e) (mk_CandidateState ids (cs_last_observed_at s)) candidates
          end
      end
  end.

(* @ packages/pipeline/live.py 220-227 LiveMarketRunner._prune_candidates *)
Definition prune_candidates (now : datetime) (r : LiveMarketRunner) : LiveMarketRunner :=
  let expired := List.filter (fun kv => lr_candidate_ttl r <? dt_sub now (cs_last_observed_at kv.2)) (lr_candidates r) in
  set_candidates (fold_left (fun d kv => ddel kv.1 d) expired (lr_candidates r)) r.

Definition themes_of (r : LiveMarketRunner) (stock_id : string) : list string :=
  default [] (dget stock_id (lr_stock_to_themes r)).

(** [sorted(d.items())]: the keys are distinct. *)
Definition sorted_items {V} (d : dict string V) : dict string V := sorted_by fst d.

(* @ packages/pipeline/live.py 229-264 LiveMarketRunner._build_demands *)
Definition candidate_demand (r : LiveMarketRunner) (kv : string * CandidateState) : res SubscriptionDemand :=
  let n := Z.of_nat (length (cs_condition_ids kv.2)) in
  SubscriptionDemand_init kv.1 (if 2 <=? n then MULTI_SIGNAL_CANDIDATE else SINGLE_SIGNAL_CANDIDATE)
    (cs_last_observed_at kv.2) (Z.max 1 n) (themes_of r kv.1).

(** When each theme of a candidate was last seen. *)
(* @ packages/pipeline/live.py 229-264 LiveMarketRunner._build_demands *)
Definition active_themes (r : LiveMarketRunner) : dict string datetime :=
  fold_left (fun d kv =>
      fold_left (fun d theme_id =>
          if newer (cs_last_observed_at kv.2) (dget theme_id d) then dset theme_id (cs_last_observed_at kv.2) d else d)
        (themes_of r kv.1) d)
    (sorted_items (lr_candidates r)) [].

(* @ packages/pipeline/live.py 229-264 LiveMarketRunner._build_demands *)
Definition related_demands (r : LiveMarketRunner) (kv : string * datetime) : res (list SubscriptionDemand) :=
  mapM_res (fun stock_id => SubscriptionDemand_init stock_id ACTIVE_RELATED kv.2 1 [kv.1])
    (List.filter (fun s => negb (dmem s (lr_candidates r))) (default [] (dget kv.1 (lr_theme_members r)))).

(* @ packages/pipeline/live.py 229-264 LiveMarketRunner._build_demands *)
Definition build_demands (r : LiveMarketRunner) : res (list SubscriptionDemand) :=
  own ← mapM_res (candidate_demand r) (sorted_items (lr_candidates r));
  related ← mapM_res (related_demands r) (sorted_items (active_themes r));
  Ok (own ++ mjoin related).

(* @ packages/pipeline/live.py 266-271 LiveMarketRunner._demand_stock_ids *)
Definition demand_stock_ids (r : LiveMarketRunner) : list string :=
  dkeys (lr_candidates r) ++
  (dkeys (lr_candidates r) ≫= fun s => themes_of r s ≫= fun theme_id => default [] (dget theme_id (lr_theme_members r))).

(** ** One tick *)

(* @ packages/pipeline/live.py 164-196 LiveMarketRunner._ensure_connection *)
Definition ensure_connection (now : datetime) : M LiveMarketRunner (list StockRealtimeUpdate) :=
  r ← get_st;
  match gw_connection (lr_gateway r), rc_schedule (gw_reconnect (lr_gateway r)) with
  | Some _, _ => mret []
  | None, None =>
      try_ (in_gateway (connect now)) (fun a =>
        match a with
        | Ok _ => mret []
        | Raise (KiwoomConnectionError reason) | Raise (KiwoomConnectionLost reason) =>
            _ ← in_gateway (change (set_phase RECONNECTING));
            _ ← in_gateway (in_reconnect (schedule_failure now reason "kiwoom-live-initial"));
            mret []
        | Raise x => throw x
        end)
  | None, Some _ =>
      due ← lift (is_due (gw_reconnect (lr_gateway r)) now);
      if negb due then mret []
      else
        demands ← lift (build_demands r);
        try_ (in_gateway (recover demands (sorted_set (demand_stock_ids r)) now)) (fun a =>
          match a with
          | Raise ReconnectNotDue => mret []
          | Raise x => throw x
          | Ok outcome =>
              match ro_connected outcome, ro_supplement outcome with
              | true, Some s =>
                  _ ← update (set_supplement (Some now));
                  lift (updates_of (lr_market_date r) (accepted_of (so_ingest_results s)))
              | _, _ => mret []
              end
          end)
  end.

(** The messages that are waiting, at most [n]; a message that cannot be normalized is
    counted and dropped, and one without events ends the loop. *)
(* @ packages/pipeline/live.py 119-133 LiveMarketRunner.poll_updates *)
Fixpoint drain (n : nat) : M LiveMarketRunner (list CanonicalMarketEvent) :=
  match n with
  | O => mret []
  | S n =>
      now ← read_clock;
      try_ (in_gateway (poll_once now)) (fun a =>
        match a with
        | Raise NormalizationError => _ ← update count_error; drain n
        | Raise x => throw x
        | Ok [] => mret []
        | Ok results => rest ← drain n; mret (accepted_of results ++ rest)
        end)
  end.

(* @ packages/pipeline/live.py 198-204 LiveMarketRunner._mark_heartbeat *)
Definition mark_last_message : M LiveMarketRunner unit :=
  r ← get_st;
  match kp_last_message_at (gw_port (lr_gateway r)), gw_connection (lr_gateway r) with
  | Some at_, Some _ =>
      try_ (in_gateway (mark_heartbeat at_)) (fun a =>
        match a with Raise (KiwoomConnectionLost _) => mret tt | Raise x => throw x | Ok u => mret u end)
  | _, _ => mret tt
  end.

(** Each candidate changes the candidates, each observation becomes an update. *)
(* @ packages/pipeline/live.py 136-140 LiveMarketRunner.poll_updates *)
Fixpoint take_in (events : list CanonicalMarketEvent) : M LiveMarketRunner (list StockRealtimeUpdate) :=
  match events with
  | [] => mret []
  | e :: events =>
      if is_observation e then
        r ← get_st;
        u ← lift (to_update (lr_market_date r) e);
        us ← take_in events;
        mret (u :: us)
      else
        _ ← update (fun r => set_candidates (apply_candidate e (lr_candidates r)) r);
        take_in events
  end.

(* @ packages/pipeline/live.py 273-293 LiveMarketRunner._maybe_supplement *)
Definition maybe_supplement (plan : SubscriptionPlan) : M LiveMarketRunner (list StockRealtimeUpdate) :=
  if bool_decide (sp_snapshot_supplement plan = []) then mret []
  else
    now ← read_clock;
    r ← get_st;
    if match lr_last_supplement_at r with Some t => dt_sub now t <? lr_supplement_interval r | None => false end
    then mret []
    else
      _ ← update (set_supplement (Some now));
      outcome ← in_gateway (supplement (sp_snapshot_supplement plan) FOR_UNSUBSCRIBED_RELATED now);
      lift (updates_of (lr_market_date r) (accepted_of (so_ingest_results outcome))).

(** The subscriptions follow the demands; a lost connection is noted. *)
(* @ packages/pipeline/live.py 145-153 LiveMarketRunner.poll_updates *)
Definition follow_demands : M LiveMarketRunner (list StockRealtimeUpdate) :=
  r ← get_st;
  demands ← lift (build_demands r);
  match demands with
  | [] => mret []
  | _ =>
      try_ (now ← read_clock; plan ← in_gateway (reconcile_subscriptions demands now false); maybe_supplement plan)
        (fun a =>
          match a with
          | Ok us => mret us
          | Raise (KiwoomConnectionLost reason) =>
              now ← read_clock; _ ← in_gateway (mark_disconnected now reason); mret []
          | Raise x => throw x
          end)
  end.

(** Before and after the drain the connection is checked. *)
(* @ packages/pipeline/live.py 111-154 LiveMarketRunner.poll_updates *)
Definition poll_updates : M LiveMarketRunner (list StockRealtimeUpdate) :=
  now ← read_clock;
  recovered ← ensure_connection now;
  r ← get_st;
  match gw_connection (lr_gateway r) with
  | None => mret recovered
  | Some _ =>
      accepted ← drain (Z.to_nat (lr_max_poll_per_tick r));
      _ ← mark_last_message;
      updates ← take_in accepted;
      now ← read_clock;
      _ ← update (prune_candidates now);
      r ← get_st;
      match gw_connection (lr_gateway r) with
      | None => mret (recovered ++ updates)
      | Some _ => supplemented ← follow_demands; mret (recovered ++ updates ++ supplemented)
      end
  end.

(* @ packages/pipeline/live.py 156-162 LiveMarketRunner.data_status *)
Definition data_status : M LiveMarketRunner DataStatus :=
  now ← read_clock;
  r ← get_st;
  h ← lift (health (sm_current (gw_subscriptions (lr_gateway r))) now (lr_gateway r));
  mret (GATEWAY_DATA_STATUS (gh_data_status h)).
End runner.
Arguments LiveMarketRunner : clear implicits.

(** ** What a call adds to the accepted events *)

Section added.
Context {P : Type} `{Laws : KiwoomPortLaws P}.
Notation Gateway := (MarketGateway P).

Definition port_ok (g : Gateway) : Prop := kp_ok (gw_port g).
Notation adds := (adds port_ok gw_accepted_events).
Notation keeps := (keeps port_ok gw_accepted_events).

Lemma keeps_change f :
  (forall g : Gateway, gw_port (f g) = gw_port g) ->
  (forall g : Gateway, gw_accepted_events (f g) = gw_accepted_events g) -> keeps (change f).
Proof. intros Hp Hl g Hg. cbn. rewrite Hl. split; [|done]. unfold port_ok. by rewrite Hp. Qed.
Lemma keeps_session reason : keeps (session_or_lost reason).
Proof. intros g Hg. unfold session_or_lost. by destruct (gw_connection g). Qed.
Lemma keeps_in_manager {A} (m : M SubscriptionManager A) : keeps (in_manager m).
Proof. intros g Hg. unfold in_manager. by destruct (m (gw_subscriptions g)) as [? ?]. Qed.
Lemma keeps_in_reconnect {A} (m : M ReconnectController A) : keeps (in_reconnect m).
Proof. intros g Hg. unfold in_reconnect. by destruct (m (gw_reconnect g)) as [? ?]. Qed.
Lemma keeps_in_fence {A} (m : M EventOrderFence A) : keeps (in_fence m).
Proof. intros g Hg. unfold in_fence. by destruct (m (gw_order_fence g)) as [? ?]. Qed.
Lemma keeps_in_port {A} (m : M P A) : preserves kp_ok m -> keeps (in_port m).
Proof.
  intros Hm g Hg. unfold in_port. specialize (Hm (gw_port g) Hg). by destruct (m (gw_port g)) as [[a|x] p].
Qed.

Ltac keep := lazymatch goal with
  | |- Hoare.keeps _ _ (_ ≫= _) => apply keeps_bind; [|intros ?]
  | |- Hoare.keeps _ _ (lift _) => apply keeps_lift
  | |- Hoare.keeps _ _ (mret _) => apply keeps_ret
  | |- Hoare.keeps _ _ (throw _) => apply keeps_throw
  | |- Hoare.keeps _ _ get_st => apply keeps_get
  | |- Hoare.keeps _ _ (change _) => apply keeps_change; intros ?; repeat case_match; reflexivity
  | |- Hoare.keeps _ _ (session_or_lost _) => apply keeps_session
  | |- Hoare.keeps _ _ (in_manager _) => apply keeps_in_manager
  | |- Hoare.keeps _ _ (in_reconnect _) => apply keeps_in_reconnect
  | |- Hoare.keeps _ _ (in_fence _) => apply keeps_in_fence
  | |- Hoare.keeps _ _ (in_port _) =>
      apply keeps_in_port; (apply kp_connect_ok || apply kp_replace_ok || apply kp_close_ok)
  | |- Hoare.keeps _ _ (match ?x with _ => _ end) => destruct x
  end.

Lemma mark_disconnected_keeps now reason : keeps (mark_disconnected now reason).
Proof. unfold mark_disconnected. repeat keep. Qed.
Lemma take_over_keeps c phase : keeps (take_over c phase).
Proof. unfold take_over. repeat keep. Qed.
Lemma connect_keeps now : keeps (connect now).
Proof. unfold connect. repeat (apply take_over_keeps || keep). Qed.
Lemma reconcile_keeps demands now force : keeps (reconcile_subscriptions demands now force).
Proof. unfold reconcile_subscriptions. repeat keep. Qed.
Lemma mark_heartbeat_keeps at_ : keeps (mark_heartbeat at_).
Proof. unfold mark_heartbeat. repeat keep. Qed.

Lemma accepted_of_app l k : accepted_of (l ++ k) = accepted_of l ++ accepted_of k.
Proof. unfold accepted_of. by rewrite List.filter_app, fmap_app. Qed.

Lemma accepted_of_join ls : accepted_of (mjoin ls) = ls ≫= accepted_of.
Proof.
  induction ls as [|l ls IH]; [done|]. change (accepted_of (l ++ mjoin ls) = accepted_of l ++ (ls ≫= accepted_of)).
  by rewrite accepted_of_app, IH.
Qed.

Lemma accepted_of_singles rs : (rs ≫= fun r => accepted_of [r]) = accepted_of rs.
Proof.
  induction rs as [|r rs IH]; [done|].
  change (accepted_of [r] ++ (rs ≫= fun r => accepted_of [r]) = accepted_of ([r] ++ rs)).
  by rewrite IH, accepted_of_app.
Qed.

Lemma collect_adds {A B} (f : A -> M Gateway B) (acc : B -> list CanonicalMarketEvent) (E : exn -> Prop) l :
  Forall (fun a => adds (f a) (fun b added => added = acc b) (fun x _ => E x)) l ->
  adds (collect f l) (fun bs added => added = bs ≫= acc) (fun x _ => E x).
Proof.
  induction 1 as [|a l Ha _ IH]; [by apply adds_ret|]. cbn [collect].
  eapply adds_bind; [exact Ha|]. intros b. eapply adds_bind.
  - eapply adds_weaken; [exact IH|intros bs evs Hevs; exact Hevs|]. intros x evs Hx before _. exact Hx.
  - intros bs. apply adds_ret. intros mid -> before ->. cbn. by rewrite app_nil_r.
Qed.

Lemma ingest_event_adds e : adds (ingest_event e) (fun r added => added = accepted_of [r]) (fun _ _ => False).
Proof.
  intros g Hg. unfold ingest_event. destruct (evaluate e (gw_order_fence g)) as [d f].
  exists (accepted_of [mk_IngestResult e d]). cbn. case_bool_decide; [done|]. by rewrite app_nil_r.
Qed.

(** An error of a message is not one that says the connection is lost or not due. *)
Definition of_message (x : exn) : Prop := (forall reason, x <> KiwoomConnectionLost reason) /\ x <> ReconnectNotDue.

Lemma refusal_of_message e x : refusal e x -> of_message x.
Proof. intros Hx. split; [intros reason|]; intros ->; inversion Hx. Qed.

Lemma ingest_adds e :
  KiwoomSourceEnvelope_check e = Ok e ->
  adds (ingest e) (fun rs added => added = accepted_of rs) (fun x added => added = [] /\ of_message x).
Proof.
  intros He. pose proof (normalize_answers e He) as Hn. unfold ingest.
  destruct (normalize e) as [evs|x]; [|intros g Hg; exists []; rewrite app_nil_r; by pose proof (refusal_of_message e x Hn)].
  apply adds_ok. apply (adds_then _ _ _ _ (fun rs added => added = accepted_of rs)).
  - eapply adds_weaken; [apply (collect_adds ingest_event (fun r => accepted_of [r]) (fun _ => False))|..].
    + apply Forall_forall. intros e' _. apply ingest_event_adds.
    + intros rs added ->. apply accepted_of_singles.
    + by intros ? ? [].
  - intros rs. repeat keep.
  - intros rs g evs' H0. exact H0.
Qed.

(** Once something was accepted, the only errors are those of a message. *)
Definition nothing_or_unreadable (x : exn) (added : list CanonicalMarketEvent) : Prop :=
  added = [] \/ of_message x.

Lemma adds_in_port {A B} (m : M P A) (f : A -> M Gateway B) (F : A -> Prop) R (E : exn -> list CanonicalMarketEvent -> Prop) :
  triple kp_ok m (fun a p => kp_ok p /\ F a) kp_ok -> (forall x, E x []) ->
  (forall a, F a -> adds (f a) R E) -> adds (in_port m ≫= f) R E.
Proof.
  intros Hm HE Hf g Hg. unfold in_port, mbind, M_bind. specialize (Hm (gw_port g) Hg).
  destruct (m (gw_port g)) as [[a|x] p].
  - destruct Hm as [Hp Ha]. apply (Hf a Ha (set_port p g) Hp).
  - exists []. rewrite app_nil_r. do 2 (split; [done|]). apply HE.
Qed.

Lemma stock_ids_true ids us : mapM_res require_stock_id ids = Ok us -> Forall (fun i => stock_id_ok i = true) ids.
Proof.
  intros H0%mapM_res_Forall2. induction H0 as [|i u is_ us Hi _ IH]; [done|]. constructor; [|done].
  apply raise_if_ok in Hi. by apply negb_false_iff.
Qed.

Lemma gateway_coverage_returns ids now (g : Gateway) :
  is_aware now = true -> Forall (fun i => stock_id_ok i = true) ids -> exists r, gateway_coverage ids now g = Ok r.
Proof.
  intros Hnow Hids. unfold gateway_coverage, heartbeat_fresh. unfold require_aware. rewrite Hnow.
  cbn [negb raise_if mbind res_bind]. set (rx := mk_Reception _ _ _ _ _).
  destruct (coverage_ok (gw_state g) ids rx Hnow Hids) as (r&Er&_). by exists r.
Qed.

Lemma supplement_adds ids reason now :
  adds (supplement ids reason now) (fun o added => added = accepted_of (so_ingest_results o)) nothing_or_unreadable.
Proof.
  unfold supplement. apply adds_lift; [|by left]. intros u Hu%require_aware_ok.
  apply adds_first; [repeat keep|by left|]. intros session_id. apply adds_lift; [|by left].
  intros us Hus%stock_ids_true. apply adds_in_port with (F := Forall (fun e => KiwoomSourceEnvelope_check e = Ok e));
    [apply kp_fetch_ok|by left|].
  intros es Hes. eapply adds_then.
  - eapply adds_weaken; [apply (collect_adds ingest accepted_of of_message)|..].
    + eapply Forall_impl; [exact Hes|]. intros e He. eapply adds_weaken; [by apply ingest_adds|done|]. by intros ? ? [].
    + intros rs added H0. exact H0.
    + intros x added Hx. by right.
  - intros rs. repeat keep.
  - intros rs g added ->. destruct (gateway_coverage_returns _ _ g Hu Hus) as [r Er].
    unfold mbind, M_bind, get_st, lift. rewrite Er. cbn. symmetry. apply accepted_of_join.
Qed.
Lemma adds_port_try {A B} (m : M P A) (k : res A -> M Gateway B) (F : A -> Prop) R E :
  triple kp_ok m (fun a p => kp_ok p /\ F a) kp_ok ->
  (forall a, F a -> adds (k (Ok a)) R E) -> (forall x, adds (k (Raise x)) R E) -> adds (attempt (in_port m) k) R E.
Proof.
  intros Hm Hok Hraise g Hg. unfold attempt, in_port. specialize (Hm (gw_port g) Hg).
  destruct (m (gw_port g)) as [[a|x] p]; [|exact (Hraise x (set_port p g) Hm)].
  destruct Hm as [Hp Ha]. exact (Hok a Ha (set_port p g) Hp).
Qed.


Lemma poll_once_adds now :
  adds (poll_once now) (fun rs added => added = accepted_of rs) (fun _ added => added = []).
Proof.
  unfold poll_once. apply adds_first; [repeat keep|done|]. intros _. apply adds_first; [repeat keep|done|].
  intros session_id. eapply adds_port_try; [apply kp_read_ok|..].
  - intros [e|] He; [|by apply adds_ret]. eapply adds_weaken; [by apply ingest_adds, He|done|]. by intros ? ? [-> _].
  - intros x. destruct x; try by apply adds_throw.
    apply adds_first; [apply mark_disconnected_keeps|done|]. intros _. by apply adds_ret.
Qed.

(** The events of a recovery are those of its snapshots. *)
Definition recovered_events (o : ReconnectOutcome) : list CanonicalMarketEvent :=
  match ro_connected o, ro_supplement o with true, Some s => accepted_of (so_ingest_results s) | _, _ => [] end.

Lemma recover_adds demands ids now :
  adds (recover demands ids now) (fun o added => added = recovered_events o) nothing_or_unreadable.
Proof.
  unfold recover. do 4 (apply adds_first; [repeat keep|by left|]; intros ?).
  apply adds_port_try with (F := fun _ => True).
  - eapply triple_weaken; [apply kp_connect_ok|done|done|done].
  - intros c _. apply adds_first; [apply take_over_keeps|by left|]. intros _.
    apply adds_first; [apply reconcile_keeps|by left|]. intros plan.
    eapply adds_then; [apply supplement_adds|intros ?; repeat keep|].
    intros o g added ->. reflexivity.
  - intros x. destruct x; try (apply adds_throw; by left).
    all: apply adds_first; [repeat keep|by left|]; intros ?; by apply adds_ret.
Qed.
End added.

(** ** Every accepted observation becomes an update, once *)

Section delivered.
Context {P : Type} `{Laws : KiwoomPortLaws P} (clock : nat -> datetime) (market_date : date).
Notation Runner := (LiveMarketRunner P).

Definition of_day (r : Runner) : Prop := port_ok (lr_gateway r) /\ lr_market_date r = market_date.
Definition accepted_events (r : Runner) : list CanonicalMarketEvent := gw_accepted_events (lr_gateway r).
Notation adds := (adds of_day accepted_events).
Notation keeps := (keeps of_day accepted_events).

(** [us] are the updates of what was added. *)
Definition delivers (us : list StockRealtimeUpdate) (added : list CanonicalMarketEvent) : Prop :=
  updates_of market_date added = Ok us.
Notation anything := (fun (_ : exn) (_ : list CanonicalMarketEvent) => True).

Lemma adds_in_gateway {A} (m : M (MarketGateway P) A) Q E :
  Hoare.adds port_ok gw_accepted_events m Q E -> adds (in_gateway m) Q E.
Proof.
  intros Hm r [Hr1 Hr2]. destruct (Hm (lr_gateway r) Hr1) as (evs&H1&H2&H3). exists evs.
  unfold in_gateway. destruct (m (lr_gateway r)) as [a g]. by do 2 (split; [done|]).
Qed.

Lemma keeps_in_gateway {A} (m : M (MarketGateway P) A) : Hoare.keeps port_ok gw_accepted_events m -> keeps (in_gateway m).
Proof.
  intros Hm r [Hr1 Hr2]. destruct (Hm (lr_gateway r) Hr1) as (H1&H2).
  unfold in_gateway. destruct (m (lr_gateway r)) as [a g]. by split.
Qed.

Lemma keeps_update f :
  (forall r : Runner, lr_gateway (f r) = lr_gateway r) -> (forall r : Runner, lr_market_date (f r) = lr_market_date r) ->
  keeps (update f).
Proof. intros H1 H2 r [Hr1 Hr2]. unfold accepted_events, of_day; cbn. by rewrite H1, H2. Qed.
Lemma keeps_clock : keeps (read_clock clock).
Proof. by intros r Hr. Qed.
Lemma keeps_try {A B} (m : M Runner A) (k : res A -> M Runner B) :
  keeps m -> (forall a, keeps (k a)) -> keeps (try_ m k).
Proof.
  intros Hm Hk r Hr. unfold try_. destruct (Hm r Hr) as [H1 H2]. destruct (m r) as [a r1].
  destruct (Hk a r1 H1) as [? ->]. done.
Qed.

Lemma updates_of_app es fs us vs :
  updates_of market_date es = Ok us -> updates_of market_date fs = Ok vs -> updates_of market_date (es ++ fs) = Ok (us ++ vs).
Proof.
  unfold updates_of. rewrite List.filter_app. rewrite !mapM_res_Forall2. apply Forall2_app.
Qed.

Ltac keep := lazymatch goal with
  | |- Hoare.keeps _ _ (_ ≫= _) => apply keeps_bind; [|intros ?]
  | |- Hoare.keeps _ _ (lift _) => apply keeps_lift
  | |- Hoare.keeps _ _ (mret _) => apply keeps_ret
  | |- Hoare.keeps _ _ (throw _) => apply keeps_throw
  | |- Hoare.keeps _ _ get_st => apply keeps_get
  | |- Hoare.keeps _ _ (read_clock _) => apply keeps_clock
  | |- Hoare.keeps _ _ (update _) => apply keeps_update; by intros ?
  | |- Hoare.keeps _ _ (try_ _ _) => apply keeps_try; [|intros ?]
  | |- Hoare.keeps _ _ (in_gateway (mark_disconnected _ _)) => apply keeps_in_gateway, mark_disconnected_keeps
  | |- Hoare.keeps _ _ (in_gateway (mark_heartbeat _)) => apply keeps_in_gateway, mark_heartbeat_keeps
  | |- Hoare.keeps _ _ (in_gateway (connect _)) => apply keeps_in_gateway, connect_keeps
  | |- Hoare.keeps _ _ (in_gateway (reconcile_subscriptions _ _ _)) => apply keeps_in_gateway, reconcile_keeps
  | |- Hoare.keeps _ _ (in_gateway (change _)) => apply keeps_in_gateway, keeps_change; by intros ?
  | |- Hoare.keeps _ _ (in_gateway (in_reconnect _)) => apply keeps_in_gateway, keeps_in_reconnect
  | |- Hoare.keeps _ _ (match ?x with _ => _ end) => destruct x
  end.

Lemma mark_last_message_keeps : keeps mark_last_message.
Proof. unfold mark_last_message. repeat keep. Qed.

Lemma drain_adds n : adds (drain clock n) (fun evs added => added = evs) anything.
Proof.
  induction n as [|n IH]; [by apply adds_ret|]. cbn [drain]. apply adds_first; [apply keeps_clock|done|]. intros now.
  eapply adds_try; [intros r; reflexivity|apply adds_in_gateway, poll_once_adds|..].
  - intros [|rs0 rs]; [apply adds_ret; by intros before ->|].
    eapply adds_bind; [eapply adds_weaken; [exact IH|intros ? ? H0; exact H0|done]|].
    intros rest. apply adds_ret. intros added -> before ->. by rewrite app_nil_r.
  - intros x. eapply (adds_weaken _ _ _ (fun evs added => added = evs) _ anything); [|by intros evs added -> before ->|done].
    destruct x; try by apply adds_throw. apply adds_first; [repeat keep|done|]. intros _. exact IH.
Qed.

Lemma take_in_adds events :
  adds (take_in events) (fun us added => added = [] /\ updates_of market_date events = Ok us) anything.
Proof.
  induction events as [|e events IH]; [by apply adds_ret|]. cbn [take_in].
  unfold updates_of. cbn [List.filter]. destruct (is_observation e).
  - apply adds_get. intros r [_ ->]. apply adds_lift; [|done]. intros u Hu.
    eapply adds_then; [exact IH|intros ?; repeat keep|]. intros us r' added [-> Hus]. split; [done|].
    cbn [mapM_res]. rewrite Hu. cbn. fold (updates_of market_date events). by rewrite Hus.
  - apply adds_first; [repeat keep|done|]. intros _. exact IH.
Qed.
Lemma ensure_connection_adds now : adds (ensure_connection now) delivers anything.
Proof.
  unfold ensure_connection. apply adds_get. intros r [_ Hdate]. rewrite Hdate.
  destruct (gw_connection (lr_gateway r)); [by apply adds_ret|]. destruct (rc_schedule _).
  - apply adds_lift; [|done]. intros due _. destruct (negb due); [by apply adds_ret|].
    apply adds_lift; [|done]. intros demands _.
    eapply adds_try; [intros ?; reflexivity|apply adds_in_gateway, recover_adds|..].
    + intros o. apply (adds_weaken _ _ _ (fun us added => added = [] /\ delivers us (recovered_events o)) _ anything);
        [|by intros us added [-> Hus] before ->; rewrite app_nil_r|done].
      unfold recovered_events. destruct (ro_connected o); [|by apply adds_ret].
      destruct (ro_supplement o) as [s|]; [|by apply adds_ret].
      apply adds_first; [repeat keep|done|]. intros _. by apply adds_return.
    + intros x. apply (adds_weaken _ _ _ (fun us added => added = [] /\ us = [] /\ x = ReconnectNotDue) _ anything);
        [|by intros us added (->&->&->) before [->|[_ []]]|done].
      destruct x; try by apply adds_throw. by apply adds_ret.
  - eapply (adds_try _ _ _ _ _ (fun _ xs => xs = []) _ (fun _ xs => xs = [])); [intros ?; reflexivity|..].
    + apply keeps_adds; [apply keeps_in_gateway, connect_keeps|done|done].
    + intros c. by apply adds_ret; intros ? ->.
    + intros x. apply (adds_weaken _ _ _ (fun us added => added = [] /\ us = []) _ anything);
        [|by intros us added [-> ->] before ->|done].
      destruct x; try by apply adds_throw.
      all: do 2 (apply adds_first; [repeat keep|done|]; intros _); by apply adds_ret.
Qed.

(** An update that cannot be built is a [ValueError]. *)
Definition usual {A} (r : res A) : Prop := match r with Ok _ => True | Raise x => x = ValueError \/ x = AssertionError end.

Lemma usual_bind {A B} (r : res A) (f : A -> res B) : usual r -> (forall a, usual (f a)) -> usual (r ≫= f).
Proof. intros Hr Hf. destruct r as [a|x]; [apply Hf|exact Hr]. Qed.
Lemma usual_raise_if c : usual (raise_if c ValueError).
Proof. destruct c; [by left|done]. Qed.
Lemma usual_foldM {A B} (f : B -> A -> res B) b l : (forall b a, usual (f b a)) -> usual (foldM f b l).
Proof. intros Hf. revert b. induction l as [|a l IH]; intros b; [done|]. apply usual_bind; [apply Hf|done]. Qed.
Lemma usual_mapM {A B} (f : A -> res B) l : (forall a, usual (f a)) -> usual (mapM_res f l).
Proof. intros Hf. induction l as [|a l IH]; [done|]. do 2 (apply usual_bind; [done|]; intros ?). done. Qed.

Ltac usual := lazymatch goal with
  | |- usual (_ ≫= _) => apply usual_bind; [|intros ?]
  | |- usual (raise_if _ _) => apply usual_raise_if
  | |- usual (foldM _ _ _) => apply usual_foldM; intros ? ?
  | |- usual (Ok _) => exact I
  | |- usual (Raise ValueError) => by left
  | |- usual (match ?x with _ => _ end) => destruct x
  end.

Lemma updates_usual es : usual (updates_of market_date es).
Proof.
  apply usual_mapM. intros e. unfold to_update. destruct (me_data e) as [c|o]; [by right|].
  unfold LineageRef_check, require_opt_text, StockRealtimeUpdate_init, require_texts, require_source, require_text,
    require_aware, finite_positive, StockMarketObservation_init, finite_nonneg, require_finite, require_aware.
  repeat usual.
Qed.

Definition nothing_or_not_lost (x : exn) (added : list CanonicalMarketEvent) : Prop :=
  added = [] \/ forall reason, x <> KiwoomConnectionLost reason.

Lemma maybe_supplement_adds plan : adds (maybe_supplement clock plan) delivers nothing_or_not_lost.
Proof.
  unfold maybe_supplement. case_bool_decide; [by apply adds_ret|].
  apply adds_first; [repeat keep|by left|]. intros now. apply adds_get. intros r [_ Hdate]. rewrite Hdate.
  lazymatch goal with |- context [if ?b then _ else _] => destruct b end; [by apply adds_ret|].
  apply adds_first; [repeat keep|by left|]. intros _.
  eapply adds_then; [apply adds_in_gateway; eapply adds_weaken; [apply supplement_adds|intros o added Hq; exact Hq|]|..].
  - intros x added [->|[Hx _]]; [by left|by right].
  - intros o. repeat keep.
  - intros o r' added ->. cbn. pose proof (updates_usual (accepted_of (so_ingest_results o))) as Hu.
    unfold delivers. destruct (updates_of _ _) as [us|x]; [done|]. right. by destruct Hu as [->| ->].
Qed.

Lemma follow_demands_adds : adds (follow_demands clock) delivers anything.
Proof.
  unfold follow_demands. apply adds_get. intros r _. apply adds_lift; [|done]. intros demands _.
  destruct demands as [|d demands]; [by apply adds_ret|].
  eapply (adds_try _ _ _ _ _ delivers _ nothing_or_not_lost); [intros ?; reflexivity|..].
  - apply adds_first; [repeat keep|by left|]. intros now.
    apply adds_first; [repeat keep|by left|]. intros plan. apply maybe_supplement_adds.
  - intros us. apply adds_ret. intros before H0. by rewrite app_nil_r.
  - intros x. destruct x; try by apply adds_throw.
    apply adds_first; [repeat keep|done|]. intros now. apply adds_first; [repeat keep|done|]. intros _.
    apply adds_ret. intros before [->|Hx]; [done|]. by destruct (Hx reason).
Qed.
Lemma poll_updates_adds : adds (poll_updates clock) delivers anything.
Proof.
  unfold poll_updates. apply adds_first; [repeat keep|done|]. intros now.
  eapply adds_bind; [apply ensure_connection_adds|]. intros recovered. apply adds_get. intros r _.
  destruct (gw_connection (lr_gateway r)); [|apply adds_ret; intros before Hb; by rewrite app_nil_r].
  eapply adds_bind; [eapply adds_weaken; [apply drain_adds|intros ? ? Hq; exact Hq|done]|]. intros accepted.
  apply adds_first; [apply mark_last_message_keeps|done|]. intros _.
  eapply adds_bind; [eapply adds_weaken; [apply take_in_adds|intros ? ? Hq; exact Hq|done]|]. intros updates.
  do 2 (apply adds_first; [repeat keep|done|]; intros ?). apply adds_get. intros r' _.
  destruct (gw_connection (lr_gateway r')).
  - eapply adds_bind; [eapply adds_weaken; [apply follow_demands_adds|intros ? ? Hq; exact Hq|done]|].
    intros supplemented. apply adds_ret. intros l3 H3 l2 [-> H2] l1 -> l0 Hl. rewrite app_nil_r.
    apply updates_of_app; [exact Hl|]. by apply updates_of_app.
  - apply adds_ret. intros l2 [-> H2] l1 -> l0 Hl. rewrite !app_nil_r. by apply updates_of_app.
Qed.
End delivered.

(** C15: Every accepted observation is handed on once, in order.  A poll that returns has added to
    the accepted events of the gateway a list whose observations are, one for one, the updates
    it returns: what its messages brought, what a reconnection fetched and what was fetched for
    stocks without a subscription, even when the connection was lost on the way. *)
Theorem updates_are_accepted_once {P} `{KiwoomPortLaws P} clock (r r' : LiveMarketRunner P) us :
  kp_ok (gw_port (lr_gateway r)) -> poll_updates clock r = (Ok us, r') ->
  exists added, gw_accepted_events (lr_gateway r') = gw_accepted_events (lr_gateway r) ++ added /\
    updates_of (lr_market_date r) added = Ok us /\
    kp_ok (gw_port (lr_gateway r')) /\ lr_market_date r' = lr_market_date r.
Proof.
  intros Hport Hpoll. destruct (poll_updates_adds clock (lr_market_date r) r (conj Hport eq_refl)) as (added&[H1 H2]&H3&H4).
  rewrite Hpoll in *. by exists added.
Qed.

(** ** A recovery that was interrupted *)

Section interrupted.
Context {P : Type} `{KiwoomPort P} (clock : nat -> datetime).
Notation Runner := (LiveMarketRunner P).

(** As long as there is a connection, the phase is [RECOVERING]. *)
Definition held (g : MarketGateway P) : Prop :=
  match gw_connection g with Some _ => gw_phase g = RECOVERING | None => True end.

Lemma held_of (g g' : MarketGateway P) : gw_connection g' = gw_connection g -> gw_phase g' = gw_phase g -> held g -> held g'.
Proof. intros H1 H2. unfold held. by rewrite H1, H2. Qed.

Lemma mark_disconnected_held now reason : preserves held (mark_disconnected now reason).
Proof.
  unfold mark_disconnected. keep_log held_of; [keep_log held_of|]. keep_log held_of. keep_log held_of; [repeat keep_log held_of|].
  apply (triple_bind _ _ (fun _ g => gw_connection g = None)); [by intros ? _|]. intros ?.
  apply (triple_bind _ _ (fun _ g => gw_connection g = None)); [by intros ? ?|]. intros ? g1 Hg.
  unfold in_reconnect. destruct (schedule_failure _ _ _ _) as [[?|?] ?]; unfold held; cbn; by rewrite Hg.
Qed.

Lemma ingest_held e : preserves held (ingest e).
Proof.
  unfold ingest. repeat keep_log held_of. apply preserves_collect. intros ev g Hg.
  unfold ingest_event. destruct (evaluate _ _) as [d f]. by case_bool_decide.
Qed.

Lemma poll_once_held now : preserves held (poll_once now).
Proof. unfold poll_once. repeat (apply ingest_held || apply mark_disconnected_held || keep_log held_of). Qed.
Lemma mark_heartbeat_held at_ : preserves held (mark_heartbeat at_).
Proof. unfold mark_heartbeat. repeat keep_log held_of. Qed.
Lemma reconcile_held demands now force : preserves held (reconcile_subscriptions demands now force).
Proof. unfold reconcile_subscriptions. repeat keep_log held_of. Qed.
Lemma supplement_held ids reason now : preserves held (supplement ids reason now).
Proof. unfold supplement. repeat (apply ingest_held || keep_log held_of || apply preserves_collect). Qed.

Definition held_runner (r : Runner) : Prop := held (lr_gateway r).

Lemma held_in_gateway {A} (m : M (MarketGateway P) A) : preserves held m -> preserves held_runner (in_gateway m).
Proof.
  intros Hm r Hr. unfold in_gateway. specialize (Hm (lr_gateway r) Hr). by destruct (m (lr_gateway r)) as [[a|x] g].
Qed.
Lemma held_update f : (forall r : Runner, lr_gateway (f r) = lr_gateway r) -> preserves held_runner (update f).
Proof. intros Hf r Hr. unfold held_runner; cbn. by rewrite Hf. Qed.
Lemma held_try {A B} (m : M Runner A) (k : res A -> M Runner B) :
  preserves held_runner m -> (forall a, preserves held_runner (k a)) -> preserves held_runner (try_ m k).
Proof.
  intros Hm Hk r Hr. unfold try_. specialize (Hm r Hr). destruct (m r) as [a r1]. apply Hk. by destruct a.
Qed.

Ltac keep := lazymatch goal with
  | |- preserves _ (get_st ≫= _) => apply preserves_get_bind; intros ?
  | |- preserves _ (_ ≫= _) => apply preserves_bind; [|intros ?]
  | |- preserves _ (lift _) => apply preserves_lift
  | |- preserves _ (mret _) => apply preserves_ret
  | |- preserves _ (throw _) => apply preserves_throw
  | |- preserves _ (read_clock _) => by intros ? ?
  | |- preserves _ (update _) => apply held_update; by intros ?
  | |- preserves _ (try_ _ _) => apply held_try; [|intros ?]
  | |- preserves _ (in_gateway (mark_disconnected _ _)) => apply held_in_gateway, mark_disconnected_held
  | |- preserves _ (in_gateway (mark_heartbeat _)) => apply held_in_gateway, mark_heartbeat_held
  | |- preserves _ (in_gateway (reconcile_subscriptions _ _ _)) => apply held_in_gateway, reconcile_held
  | |- preserves _ (in_gateway (supplement _ _ _)) => apply held_in_gateway, supplement_held
  | |- preserves _ (in_gateway (poll_once _)) => apply held_in_gateway, poll_once_held
  | |- preserves _ (match ?x with _ => _ end) => destruct x
  end.

Lemma drain_held n : preserves held_runner (drain clock n).
Proof. induction n as [|n IH]; cbn [drain]; repeat (apply IH || keep). Qed.
Lemma take_in_held es : preserves held_runner (take_in es).
Proof. induction es as [|e es IH]; cbn [take_in]; repeat (apply IH || keep). Qed.

Lemma poll_updates_held r :
  gw_connection (lr_gateway r) <> None -> held_runner r -> held_runner (poll_updates clock r).2.
Proof.
  intros Hc Hr. unfold poll_updates. unfold mbind at 1, M_bind at 1, read_clock at 1.
  unfold mbind at 1, M_bind at 1. unfold ensure_connection, mbind at 1, M_bind at 1, get_st at 1. cbn [lr_gateway next_reading].
  destruct (gw_connection (lr_gateway r)) as [c|] eqn:Ec; [|done]. cbn [mret M_ret].
  apply preserves_run; [|exact Hr]. apply preserves_get_bind. intros r'.
  unfold mark_last_message, follow_demands, maybe_supplement.
  repeat (apply drain_held || apply take_in_held || keep).
Qed.
End interrupted.

(** Polls, one after the other, whether they return or raise: the loop that calls them goes on. *)
Fixpoint polls {P} `{KiwoomPort P} (clock : nat -> datetime) (n : nat) (r : LiveMarketRunner P) : LiveMarketRunner P :=
  match n with O => r | S n => polls clock n (poll_updates clock r).2 end.

(** An interrupted recovery is never finished.  Once a gateway has a connection but is still
    recovering, because fetching or reading the snapshots failed, it stays so over every number of
    polls until that connection is lost, and all that time its status, when it can be told, is
    delayed, however much it receives. *)
Theorem interrupted_recovery_stays_delayed {P} `{KiwoomPort P} clock n (r : LiveMarketRunner P) :
  (forall m, (m <= n)%nat -> gw_connection (lr_gateway (polls clock m r)) <> None) ->
  gw_phase (lr_gateway r) = RECOVERING ->
  gw_phase (lr_gateway (polls clock n r)) = RECOVERING /\
  match (data_status clock (polls clock n r)).1 with Ok s => s = DELAYED | Raise _ => True end.
Proof.
  revert r. induction n as [|n IH]; intros r Hc Hr.
  - split; [exact Hr|]. cbn [polls]. unfold data_status, mbind, M_bind, read_clock, get_st, lift. cbn [lr_gateway next_reading].
    destruct (health _ _ _) as [h|x] eqn:Eh; [|exact I]. unfold health in Eh.
    apply res_bind_ok in Eh as (report&_&Eh). rewrite Hr in Eh. by injection Eh as <-.
  - cbn [polls]. apply IH; [intros m Hm; apply (Hc (S m)); lia|].
    pose proof (poll_updates_held clock r (Hc 0%nat ltac:(lia))) as Hheld.
    pose proof (Hc 1%nat ltac:(lia)) as H1. cbn [polls] in H1.
    assert (held_runner r) as Hr' by (unfold held_runner, held; by case_match).
    specialize (Hheld Hr'). unfold held_runner, held in Hheld.
    by destruct (gw_connection (lr_gateway (poll_updates clock r).2)).
Qed.


(** ** The recorded day, polled *)

Definition demo_clock (n : nat) : datetime := demo_time (1 + 10 * Z.of_nat n).
Definition demo_runner (price : string) : res (LiveMarketRunner FixtureKiwoomAdapter) :=
  g ← market_gateway (demo_port price) None None (minutes 2);
  live_market_runner g 739471 [("T1", ["KRX:000660"; "KRX:005930"])] (minutes 10) (seconds 30) 10.

(** What a run shows after each of [n] polls. *)
Fixpoint shown (n : nat) (r : LiveMarketRunner FixtureKiwoomAdapter) : list (ConnectionPhase * res DataStatus * nat) :=
  match n with
  | O => []
  | S n => let r' := (poll_updates demo_clock r).2 in
           (gw_phase (lr_gateway r'), (data_status demo_clock r').1, length (gw_accepted_events (lr_gateway r'))) :: shown n r'
  end.

Example demo_live_run :
  shown 3 <$> demo_runner "71,400" =
  Ok [(RECONNECTING, Ok DELAYED, 3%nat); (CONNECTED, Ok LIVE, 5%nat); (CONNECTED, Ok LIVE, 5%nat)].
Proof. vm_compute. reflexivity. Qed.

Definition started (price : string) (r : LiveMarketRunner FixtureKiwoomAdapter) : bool :=
  match poll_updates demo_clock r with (Ok us, _) => bool_decide (length us = 2%nat) | _ => false end.

Lemma demo_first_poll : (started "71,400" <$> demo_runner "71,400") = Ok true.
Proof. vm_compute. reflexivity. Qed.

Lemma updates_are_accepted_once_witness :
  exists r us r', demo_runner "71,400" = Ok r /\ poll_updates demo_clock r = (Ok us, r') /\ length us = 2%nat /\
    exists added, gw_accepted_events (lr_gateway r') = gw_accepted_events (lr_gateway r) ++ added /\
      updates_of (lr_market_date r) added = Ok us.
Proof.
  pose proof demo_first_poll as Hp. destruct (demo_runner "71,400") as [r|] eqn:Er; [|discriminate Hp].
  cbn in Hp. unfold started in Hp. destruct (poll_updates demo_clock r) as [[us|x] r'] eqn:Ep; [|discriminate Hp].
  exists r, us, r'. injection Hp as Hlen%bool_decide_eq_true. do 3 (split; [done|]).
  destruct (updates_are_accepted_once demo_clock r r' us) as (added&H1&H2&_);
    [injection Er as <-; apply demo_port_ok|exact Ep|]. exists added. by split.
Defined.

(** With a snapshot that cannot be read the same day goes on, but is never live again. *)
Lemma demo_interrupted :
  match demo_runner "-" with
  | Ok r => let r2 := polls demo_clock 2 r in
            gw_phase (lr_gateway r2) = RECOVERING /\
            (fun r => bool_decide (kc_session_id <$> gw_connection (lr_gateway r) = Some "s2")) <$>
              [r2; (poll_updates demo_clock r2).2] = [true; true]
  | Raise _ => False
  end.
Proof. vm_compute. split; reflexivity. Qed.

Lemma connected_then (r r' : LiveMarketRunner FixtureKiwoomAdapter) (s : string) :
  (fun r => bool_decide (kc_session_id <$> gw_connection (lr_gateway r) = Some s)) <$> [r; r'] = [true; true] ->
  gw_connection (lr_gateway r) <> None /\ gw_connection (lr_gateway r') <> None.
Proof.
  cbn. intros [= H1%bool_decide_eq_true H2%bool_decide_eq_true].
  split; intros E; [rewrite E in H1|rewrite E in H2]; discriminate.
Qed.

Lemma interrupted_recovery_stays_delayed_witness :
  exists r, demo_runner "-" = Ok r /\ gw_phase (lr_gateway (polls demo_clock 1 (polls demo_clock 2 r))) = RECOVERING.
Proof.
  pose proof demo_interrupted as Hi. destruct (demo_runner "-") as [r|]; [|destruct Hi]. exists r. split; [done|].
  destruct Hi as [Hphase Hi]. apply connected_then in Hi as [H0 H1].
  refine (proj1 (interrupted_recovery_stays_delayed demo_clock 1 (polls demo_clock 2 r) _ Hphase)).
  intros [|[|m]] Hm; [exact H0|exact H1|lia].
Defined.
