(* ===== verification/Hub.v ===== *)
(** [apps/api/realtime.py]: topic requests, the snapshot hub with its ordering fences,
    listeners, and what one WebSocket connection sends. *)
From S2P Require Import Prelude Sha256 PyTime PyDecimal Json Domain EventModels Snapshots.
#[local] Open Scope Z_scope.

(* @ apps/api/realtime.py 147-152 _valid_opaque_id *)
Definition valid_opaque_id (value : string) : bool :=
  (1 <=? py_len value) && (py_len value <=? 128) &&
  negb (starts_blank value || ends_blank value) && negb (has_control value).

Example valid_opaque_id_ex :
  (valid_opaque_id <$> ["evt_1"; ""; " x"; "x" +:+ ideographic_space; "a b"]) =
  [true; false; false; false; true].
Proof. vm_compute. reflexivity. Qed.

(** ** Topic requests *)

(* @ apps/api/realtime.py 75-77 _params_key *)
Definition hub_params_key (params : dict string json) : string :=
  "params_" +:+ str_take 32 (sha256_hex (dumps false (JObj params))).

(* @ apps/api/realtime.py 88-92 NormalizedTopic *)
Record NormalizedTopic := mk_NormalizedTopic {
  nt_topic : SnapshotTopic;
  nt_params : dict string json;
  nt_canonical_params : string
}.
#[export] Instance NormalizedTopic_eq_dec : EqDecision NormalizedTopic.
Proof. solve_decision. Defined.

Notation topic_scope := (SnapshotTopic * string)%type.

(* @ apps/api/realtime.py 94-96 NormalizedTopic.scope_key *)
Definition scope_key (t : NormalizedTopic) : topic_scope := (nt_topic t, nt_canonical_params t).

(** [set(d) == {...}] *)
Definition keys_are {V} (names : list string) (d : dict string V) : bool :=
  bool_decide (sorted_set (dkeys d) = sorted_set names).

(* @ apps/api/realtime.py 121-127 _normalize_limit *)
Definition normalize_limit (params : dict string json) (maximum : Z) : res (dict string json) :=
  _ ← raise_if (negb (keys_are ["limit"] params)) InvalidSubscription;
  match dget "limit" params with
  | Some (JNum limit) =>
      _ ← raise_if (negb ((1 <=? limit) && (limit <=? maximum))) InvalidSubscription;
      Ok [("limit", JNum limit)]
  | _ => Raise InvalidSubscription
  end.

(* @ apps/api/realtime.py 130-144 _normalize_event_ids *)
Definition normalize_event_ids (params : dict string json) : res (dict string json) :=
  _ ← raise_if (negb (keys_are ["eventIds"] params)) InvalidSubscription;
  match dget "eventIds" params with
  | Some (JList raw_ids) =>
      let n := Z.of_nat (length raw_ids) in
      _ ← raise_if (negb ((1 <=? n) && (n <=? 50))) InvalidSubscription;
      event_ids ← mapM_res
        (fun event_id => match event_id with
                         | JStr s => _ ← raise_if (negb (valid_opaque_id s)) InvalidSubscription; Ok s
                         | _ => Raise InvalidSubscription
                         end) raw_ids;
      _ ← raise_if (negb (bool_decide (NoDup event_ids))) InvalidSubscription;
      Ok [("eventIds", JList (JStr <$> sorted_by id event_ids))]
  | _ => Raise InvalidSubscription
  end.

(* @ apps/api/realtime.py 99-118 normalize_topic_request *)
Definition normalize_topic_request (value : json) : res NormalizedTopic :=
  match value with
  | JObj fields =>
      _ ← raise_if (negb (keys_are ["name"; "params"] fields)) InvalidSubscription;
      match dget "name" fields, dget "params" fields with
      | Some (JStr name), Some (JObj params) =>
          '(topic, normalized) ←
            (if decide (name = SnapshotTopic_value TOPIC_THEME_RANK) then
               normalized ← normalize_limit params 50; Ok (TOPIC_THEME_RANK, normalized)
             else if decide (name = SnapshotTopic_value TOPIC_THEME_TREEMAP) then
               normalized ← normalize_limit params 12; Ok (TOPIC_THEME_TREEMAP, normalized)
             else if decide (name = SnapshotTopic_value TOPIC_EVENT_STATE_CHANGED) then
               normalized ← normalize_event_ids params; Ok (TOPIC_EVENT_STATE_CHANGED, normalized)
             else Raise InvalidSubscription);
          Ok (mk_NormalizedTopic topic normalized (dumps false (JObj normalized)))
      | _, _ => Raise InvalidSubscription
      end
  | _ => Raise InvalidSubscription
  end.

(** ** The hub *)

(* @ apps/api/realtime.py 155-159 SnapshotIngressDisposition *)
Inductive SnapshotIngressDisposition :=
  HUB_APPLIED | HUB_DUPLICATE | HUB_OUT_OF_ORDER | HUB_RETIRED_STREAM.

Notation listener_subscriptions := (dict string (list NormalizedTopic)).

(** A listener is known by the number it was opened under; [hub_changed] holds the
    listeners whose event is set. *)
(* @ apps/api/realtime.py 169-176 RealtimeSnapshotHub.__init__ *)
Record RealtimeSnapshotHub := mk_RealtimeSnapshotHub {
  hub_latest : dict topic_scope ReadSnapshot;
  hub_retired_streams : dict topic_scope (list string);
  hub_subscriptions : dict N listener_subscriptions;
  hub_next : N;
  hub_changed : list N
}.

(* @ apps/api/realtime.py 169-176 RealtimeSnapshotHub.__init__ *)
Definition empty_hub : RealtimeSnapshotHub := mk_RealtimeSnapshotHub [] [] [] 0 [].

(* @ apps/api/realtime.py 184-192 RealtimeSnapshotHub.publish *)
Definition ordering_identity (s : ReadSnapshot) : bool :=
  valid_opaque_id (rs_snapshot_id s) && valid_opaque_id (rs_stream_id s) && (1 <=? rs_sequence s) &&
  negb (is_empty (rs_content_hash s)).

(** The topic a snapshot is published for, or why it is refused. *)
(* @ apps/api/realtime.py 184-201 RealtimeSnapshotHub.publish *)
Definition ingress_topic (s : ReadSnapshot) (params : dict string json) : res NormalizedTopic :=
  _ ← raise_if (negb (ordering_identity s)) ValueError;
  normalized ← normalize_topic_request
    (JObj [("name", JStr (SnapshotTopic_value (rs_topic s))); ("params", JObj params)]);
  _ ← raise_if (negb (bool_decide (rs_params_key s = hub_params_key (nt_params normalized)))) ValueError;
  Ok normalized.

(** The fences: what becomes of a snapshot, given the latest one of its scope and the
    streams retired from it. *)
(* @ apps/api/realtime.py 204-220 RealtimeSnapshotHub.publish *)
Definition fence (current : option ReadSnapshot) (retired : list string) (s : ReadSnapshot)
    : SnapshotIngressDisposition :=
  match current with
  | None => HUB_APPLIED
  | Some c =>
      if decide (rs_stream_id s = rs_stream_id c) then
        if rs_sequence s <? rs_sequence c then HUB_OUT_OF_ORDER
        else if rs_sequence s =? rs_sequence c then
          if bool_decide (rs_snapshot_id s = rs_snapshot_id c) &&
             bool_decide (rs_content_hash s = rs_content_hash c)
          then HUB_DUPLICATE else HUB_OUT_OF_ORDER
        else HUB_APPLIED
      else if bool_decide (rs_stream_id s ∈ retired) then HUB_RETIRED_STREAM
      else HUB_APPLIED
  end.

(** Retiring the current stream when another one takes over ([setdefault] leaves an
    empty set behind even when the snapshot is refused). *)
(* @ apps/api/realtime.py 216-220 RealtimeSnapshotHub.publish *)
Definition retire (scope : topic_scope) (s : ReadSnapshot) (h : RealtimeSnapshotHub)
    : dict topic_scope (list string) :=
  match dget scope (hub_latest h) with
  | Some c =>
      if decide (rs_stream_id s = rs_stream_id c) then hub_retired_streams h
      else
        let retired := default [] (dget scope (hub_retired_streams h)) in
        dset scope (if bool_decide (rs_stream_id s ∈ retired) then retired
                    else if bool_decide (rs_stream_id c ∈ retired) then retired
                    else retired ++ [rs_stream_id c])
          (hub_retired_streams h)
  | None => hub_retired_streams h
  end.

(* @ apps/api/realtime.py 223-231 RealtimeSnapshotHub.publish *)
Definition interested (scope : topic_scope) (h : RealtimeSnapshotHub) : list N :=
  fst <$> List.filter
    (fun entry => existsb (fun topics => existsb (fun t => bool_decide (scope_key t = scope)) topics)
                    (dvalues entry.2))
    (hub_subscriptions h).

(* @ apps/api/realtime.py 312-316 RealtimeListener._notify *)
Definition notify (l : N) (h : RealtimeSnapshotHub) : RealtimeSnapshotHub :=
  mk_RealtimeSnapshotHub (hub_latest h) (hub_retired_streams h) (hub_subscriptions h) (hub_next h)
    (if bool_decide (l ∈ hub_changed h) then hub_changed h else hub_changed h ++ [l]).

(* @ apps/api/realtime.py 178-234 RealtimeSnapshotHub.publish *)
Definition hub_publish (s : ReadSnapshot) (params : dict string json)
    : M RealtimeSnapshotHub SnapshotIngressDisposition := fun h =>
  match ingress_topic s params with
  | Raise e => (Raise e, h)
  | Ok normalized =>
      let scope := scope_key normalized in
      let disposition :=
        fence (dget scope (hub_latest h)) (default [] (dget scope (hub_retired_streams h))) s in
      let h1 := mk_RealtimeSnapshotHub (hub_latest h) (retire scope s h) (hub_subscriptions h)
                  (hub_next h) (hub_changed h) in
      match disposition with
      | HUB_APPLIED =>
          let h2 := mk_RealtimeSnapshotHub (dset scope s (hub_latest h1)) (hub_retired_streams h1)
                      (hub_subscriptions h1) (hub_next h1) (hub_changed h1) in
          (Ok HUB_APPLIED, fold_left (fun h l => notify l h) (interested scope h2) h2)
      | d => (Ok d, h1)
      end
  end.

(* @ apps/api/realtime.py 236-238 RealtimeSnapshotHub.latest *)
Definition hub_latest_of (t : NormalizedTopic) (h : RealtimeSnapshotHub) : option ReadSnapshot :=
  dget (scope_key t) (hub_latest h).

Definition set_subscriptions x (h : RealtimeSnapshotHub) : RealtimeSnapshotHub :=
  mk_RealtimeSnapshotHub (hub_latest h) (hub_retired_streams h) x (hub_next h) (hub_changed h).

(* @ apps/api/realtime.py 240-244 RealtimeSnapshotHub.open_listener *)
Definition open_listener : M RealtimeSnapshotHub N := fun h =>
  (Ok (hub_next h),
   mk_RealtimeSnapshotHub (hub_latest h) (hub_retired_streams h)
     (dset (hub_next h) [] (hub_subscriptions h)) (hub_next h + 1)%N (hub_changed h)).

(* @ apps/api/realtime.py 246-256 RealtimeSnapshotHub._add_subscription *)
Definition add_subscription (l : N) (subscription_id : string) (topics : list NormalizedTopic)
    : M RealtimeSnapshotHub unit := fun h =>
  match dget l (hub_subscriptions h) with
  | None => (Raise RuntimeError, h)
  | Some subscriptions =>
      (Ok tt, set_subscriptions (dset l (dset subscription_id topics subscriptions)
                                   (hub_subscriptions h)) h)
  end.

(* @ apps/api/realtime.py 258-267 RealtimeSnapshotHub._remove_subscription *)
Definition remove_subscription (l : N) (subscription_id : string) : M RealtimeSnapshotHub bool := fun h =>
  match dget l (hub_subscriptions h) with
  | None => (Ok false, h)
  | Some subscriptions =>
      (Ok (dmem subscription_id subscriptions),
       set_subscriptions (dset l (ddel subscription_id subscriptions) (hub_subscriptions h)) h)
  end.

(* @ apps/api/realtime.py 269-275 RealtimeSnapshotHub._listener_subscriptions *)
Definition subscriptions_of (l : N) (h : RealtimeSnapshotHub) : listener_subscriptions :=
  default [] (dget l (hub_subscriptions h)).

(* @ apps/api/realtime.py 277-279 RealtimeSnapshotHub._close_listener *)
Definition close_listener (l : N) : M RealtimeSnapshotHub unit := fun h =>
  (Ok tt, set_subscriptions (ddel l (hub_subscriptions h)) h).

(* @ apps/api/realtime.py 302-304 RealtimeListener.wait *)
Definition clear_changed (l : N) : M RealtimeSnapshotHub unit := fun h =>
  (Ok tt, mk_RealtimeSnapshotHub (hub_latest h) (hub_retired_streams h) (hub_subscriptions h)
            (hub_next h) (List.filter (fun x => negb (bool_decide (x = l))) (hub_changed h))).

(** ** One connection *)

Notation sent_key := (string * SnapshotTopic * string)%type.
Notation sent_version := (string * Z * string)%type.

(** The hub a connection shares with the others, what it sent last under each
    subscription and topic, and everything it sent. *)
Record Connection := mk_Connection {
  cn_hub : RealtimeSnapshotHub;
  cn_last_sent : dict sent_key sent_version;
  cn_out : list json
}.

Definition send_json (payload : json) : M Connection unit := fun c =>
  (Ok tt, mk_Connection (cn_hub c) (cn_last_sent c) (cn_out c ++ [payload])).
Definition on_hub {A} (m : M RealtimeSnapshotHub A) : M Connection A := fun c =>
  let '(r, h) := m (cn_hub c) in (r, mk_Connection h (cn_last_sent c) (cn_out c)).
Definition set_last_sent (f : dict sent_key sent_version -> dict sent_key sent_version)
    : M Connection unit := fun c =>
  (Ok tt, mk_Connection (cn_hub c) (f (cn_last_sent c)) (cn_out c)).

(* @ apps/api/realtime.py 600-617 RealtimeWebSocketServer._send_error *)
Definition send_error (request_id : option string) (code message : string) : M Connection unit :=
  send_json (JObj [("type", JStr "error"); ("requestId", JOpt request_id); ("code", JStr code);
                   ("message", JStr message); ("retryable", JBool false)]).

(* @ apps/api/realtime.py 647-655 _request_id *)
Definition request_id_of (value : json) : res string :=
  match value with
  | JStr s => _ ← raise_if (negb (valid_opaque_id s)) InvalidSubscription; Ok s
  | _ => Raise InvalidSubscription
  end.

(* @ apps/api/realtime.py 564-568 RealtimeWebSocketServer._send_pending *)
Definition version_of (s : ReadSnapshot) : sent_version :=
  (rs_stream_id s, rs_sequence s, rs_snapshot_id s).

(* @ apps/api/realtime.py 563-563 RealtimeWebSocketServer._send_pending *)
Definition key_of (subscription_id : string) (t : NormalizedTopic) : sent_key :=
  (subscription_id, nt_topic t, nt_canonical_params t).

(** The key belongs to this subscription. *)
Definition under (subscription_id : string) (key : sent_key) : bool :=
  bool_decide (key.1.1 = subscription_id).

(** The three classes the handler catches; [JSONDecodeError] and [InvalidSubscription]
    are value errors. *)
Definition is_value_error (e : exn) : bool :=
  match e with ValueError | InvalidSubscription => true | _ => false end.

Section connection.
(** [settings.schema_version], the check [ensure_public_projection] of
    [apps/api/product.py] (it raises [ValueError] where this is false), and
    [datetime.fromisoformat] on a client's text. *)
Context (schema_version : string) (public : json -> bool) (fromiso : string -> res datetime).

(* @ apps/api/realtime.py 560-585 RealtimeWebSocketServer._send_pending *)
Definition send_topic (subscription_id : string) (t : NormalizedTopic) : M Connection unit :=
  c ← get_st;
  match hub_latest_of t (cn_hub c) with
  | None => mret tt
  | Some snapshot =>
      let key := key_of subscription_id t in
      if decide (dget key (cn_last_sent c) = Some (version_of snapshot)) then mret tt
      else if negb (bool_decide (sv_schema_version (rs_versions snapshot) = schema_version)) then
        send_error None "SCHEMA_VERSION_UNSUPPORTED" "지원하지 않는 실시간 schema version입니다."
      else
        message ← lift (to_ws_message subscription_id snapshot);
        _ ← lift (raise_if (negb (public message)) ValueError);
        _ ← send_json message;
        set_last_sent (dset key (version_of snapshot))
  end.

Fixpoint send_topics (subscription_id : string) (topics : list NormalizedTopic) : M Connection unit :=
  match topics with
  | [] => mret tt
  | t :: topics' => _ ← send_topic subscription_id t; send_topics subscription_id topics'
  end.

Fixpoint send_subscriptions (only_subscription : option string)
    (subscriptions : list (string * list NormalizedTopic)) : M Connection unit :=
  match subscriptions with
  | [] => mret tt
  | (subscription_id, topics) :: rest =>
      _ ← (if match only_subscription with
              | Some only => negb (bool_decide (subscription_id = only))
              | None => false
              end
           then mret tt else send_topics subscription_id topics);
      send_subscriptions only_subscription rest
  end.

(* @ apps/api/realtime.py 548-585 RealtimeWebSocketServer._send_pending *)
Definition send_pending (l : N) (only_subscription : option string) : M Connection unit :=
  c ← get_st;
  send_subscriptions only_subscription (subscriptions_of l (cn_hub c)).

(** [token] is what [secrets.token_urlsafe] returns. *)
(* @ apps/api/realtime.py 486-512 RealtimeWebSocketServer._handle_client_message *)
Definition handle_subscribe (token : string) (l : N) (request_id : option string)
    (message : dict string json) : M Connection unit :=
  _ ← lift (raise_if (negb (keys_are ["type"; "requestId"; "topics"] message)) InvalidSubscription);
  match dget "topics" message with
  | Some (JList topics_value) =>
      let n := Z.of_nat (length topics_value) in
      _ ← lift (raise_if (negb ((1 <=? n) && (n <=? 3))) InvalidSubscription);
      topics ← lift (mapM_res normalize_topic_request topics_value);
      _ ← lift (raise_if (negb (bool_decide (NoDup (scope_key <$> topics)))) InvalidSubscription);
      let subscription_id := "sub_" +:+ token in
      _ ← on_hub (add_subscription l subscription_id topics);
      _ ← send_json (JObj [("type", JStr "subscribed"); ("requestId", JOpt request_id);
                           ("subscriptionId", JStr subscription_id);
                           ("topics", JList ((fun t => JStr (SnapshotTopic_value (nt_topic t))) <$> topics))]);
      send_pending l (Some subscription_id)
  | _ => throw InvalidSubscription
  end.

(* @ apps/api/realtime.py 514-528 RealtimeWebSocketServer._handle_client_message *)
Definition handle_unsubscribe (l : N) (message : dict string json) : M Connection unit :=
  _ ← lift (raise_if (negb (keys_are ["type"; "requestId"; "subscriptionId"] message)) InvalidSubscription);
  match dget "subscriptionId" message with
  | Some (JStr subscription_id) =>
      _ ← lift (raise_if (negb (valid_opaque_id subscription_id)) InvalidSubscription);
      removed ← on_hub (remove_subscription l subscription_id);
      _ ← lift (raise_if (negb removed) InvalidSubscription);
      set_last_sent (List.filter (fun kv => negb (under subscription_id kv.1)))
  | _ => throw InvalidSubscription
  end.

(* @ apps/api/realtime.py 530-538 RealtimeWebSocketServer._handle_client_message *)
Definition handle_pong (message : dict string json) : M Connection unit :=
  _ ← lift (raise_if (negb (keys_are ["type"; "sentAt"] message)) InvalidSubscription);
  match dget "sentAt" message with
  | Some (JStr sent_at) =>
      timestamp ← lift (fromiso sent_at);
      lift (raise_if (negb (bool_decide (is_Some (dt_offset timestamp)))) InvalidSubscription)
  | _ => throw InvalidSubscription
  end.

(* @ apps/api/realtime.py 484-539 RealtimeWebSocketServer._handle_client_message *)
Definition dispatch_message (token : string) (l : N) (request_id : option string)
    (message : dict string json) : M Connection unit :=
  match dget "type" message with
  | Some (JStr message_type) =>
      if decide (message_type = "subscribe") then handle_subscribe token l request_id message
      else if decide (message_type = "unsubscribe") then handle_unsubscribe l message
      else if decide (message_type = "pong") then handle_pong message
      else throw InvalidSubscription
  | _ => throw InvalidSubscription
  end.

(** [decoded] is what [_decode_message] returns or raises. *)
(* @ apps/api/realtime.py 471-546 RealtimeWebSocketServer._handle_client_message *)
Definition handle_client_message (token : string) (l : N) (decoded : res (dict string json))
    : M Connection unit := fun c =>
  let '(request_id, body) :=
    match decoded with
    | Raise e => (None, throw e)
    | Ok message =>
        match dget "requestId" message with
        | None => (None, dispatch_message token l None message)
        | Some value =>
            match request_id_of value with
            | Raise e => (None, throw e)
            | Ok i => (Some i, dispatch_message token l (Some i) message)
            end
        end
    end in
  match body c with
  | (Ok u, c') => (Ok u, c')
  | (Raise e, c') =>
      if is_value_error e
      then send_error request_id "INVALID_SUBSCRIPTION"
             "지원하지 않는 topic 또는 parameter입니다." c'
      else (Raise e, c')
  end.
End connection.

(** ** Snapshots in order *)

(** Within a stream the numbers rise, and a stream that was left is not come back to. *)
Record advancing (l : list ReadSnapshot) : Prop := {
  adv_numbers : forall a b, [a; b] `sublist_of` l -> rs_stream_id a = rs_stream_id b ->
    rs_sequence a < rs_sequence b;
  adv_streams : forall a b c, [a; b; c] `sublist_of` l -> rs_stream_id a = rs_stream_id c ->
    rs_stream_id b = rs_stream_id a
}.

Lemma advancing_nil : advancing [].
Proof. split; intros; by apply sublist_nil_r in H. Qed.

Lemma advancing_sublist l k : l `sublist_of` k -> advancing k -> advancing l.
Proof.
  intros Hl [H1 H2]. split; intros; [eapply H1|eapply H2]; try done; by etransitivity.
Qed.

Lemma sublist_snoc {A} (l k : list A) x :
  l `sublist_of` k ++ [x] -> l `sublist_of` k \/ exists l', l = l' ++ [x] /\ l' `sublist_of` k.
Proof.
  intros (l1&l2&->&H1&H2)%sublist_app_r. apply sublist_cons_r in H2 as [H2|(l3&->&H2)];
    apply sublist_nil_r in H2 as ->; [left; by rewrite app_nil_r|right; by exists l1].
Qed.

Lemma sublist_elem {A} (x : A) l : [x] `sublist_of` l -> x ∈ l.
Proof. by rewrite singleton_sublist_l. Qed.

(** A pair ends at the last element, or before it. *)
Lemma sublist_before_last {A} (l k : list A) a x :
  l ++ [a] `sublist_of` k -> last k = Some x -> a = x \/ l ++ [a; x] `sublist_of` k.
Proof.
  intros Hl Hlast. apply last_Some in Hlast as [k' ->].
  apply sublist_snoc in Hl as [Hl|(l'&E&Hl)].
  - right. change [a; x] with ([a] ++ [x]). rewrite app_assoc. by apply sublist_app.
  - left. by apply app_inj_tail in E as [_ ->].
Qed.

(** The next snapshot of the current stream, and the first one of a new stream. *)
Lemma advancing_next l c s :
  advancing l -> last l = Some c -> rs_stream_id s = rs_stream_id c -> rs_sequence c < rs_sequence s ->
  advancing (l ++ [s]).
Proof.
  intros [H1 H2] Hc Es Hlt. split.
  - intros a b [H|(l'&E&H)]%sublist_snoc Eab; [by apply H1|].
    apply (app_inj_tail [a]) in E as [<- ->].
    destruct (sublist_before_last [] l a c H Hc) as [->|Hp]; [done|].
    specialize (H1 _ _ Hp). rewrite Eab, Es in H1. specialize (H1 eq_refl). lia.
  - intros a b d [H|(l'&E&H)]%sublist_snoc Ead; [by eapply H2|].
    apply (app_inj_tail [a; b]) in E as [<- ->].
    destruct (sublist_before_last [a] l b c H Hc) as [->|Hp]; [by rewrite <-Es|].
    apply (H2 _ _ _ Hp). by rewrite Ead.
Qed.

Lemma advancing_new l s :
  advancing l -> (forall a, a ∈ l -> rs_stream_id a <> rs_stream_id s) -> advancing (l ++ [s]).
Proof.
  intros [H1 H2] Hnew. split.
  - intros a b [H|(l'&E&H)]%sublist_snoc Eab; [by apply H1|].
    apply (app_inj_tail [a]) in E as [<- ->].
    by destruct (Hnew a (sublist_elem _ _ H)).
  - intros a b d [H|(l'&E&H)]%sublist_snoc Ead; [by eapply H2|].
    apply (app_inj_tail [a; b]) in E as [<- ->].
    destruct (Hnew a); [|done]. apply sublist_elem. etransitivity; [|exact H].
    by do 2 constructor.
Qed.

(** ** The world of a connection *)

(** What may happen, in any order: a publication by anyone, one turn of the connection's
    sending loop, an unsubscription or another reply of the connection, and what the
    other connections do to the hub. *)
Inductive event :=
  | EvPublish (s : ReadSnapshot) (params : dict string json)
  | EvSend (subscription_id : string) (t : NormalizedTopic)
  | EvForget (subscription_id : string)
  | EvReply (message : json)
  | EvOpen
  | EvClose (l : N)
  | EvSubscribe (l : N) (subscription_id : string) (topics : list NormalizedTopic)
  | EvUnsubscribe (l : N) (subscription_id : string)
  | EvClear (l : N).

(** The connection, the publications the hub took over, and the log of what was put out
    on the socket: every message, in order, with the subscription and topic whose turn of
    the sending loop put it out. *)
Record World := mk_World {
  w_conn : Connection;
  w_accepted : list (topic_scope * ReadSnapshot);
  w_log : list (option sent_key * json)
}.

(** The [type] of a message, and the two types that carry no snapshot. *)
Definition type_of (message : json) : option string :=
  match message with
  | JObj fields => match dget "type" fields with Some (JStr t) => Some t | _ => None end
  | _ => None
  end.
Definition is_error (message : json) : bool := bool_decide (type_of message = Some "error").
Definition is_reply (message : json) : bool :=
  is_error message || bool_decide (type_of message = Some "subscribed").

Lemma wire_message_no_error sid s m : to_ws_message sid s = Ok m -> is_error m = false.
Proof.
  unfold to_ws_message, mbind, res_bind. destruct (require_text sid); [|done].
  destruct (match rs_topic s with TOPIC_EVENT_STATE_CHANGED => _ | _ => _ end) as [wire|]; [|done].
  intros [= <-]. apply bool_decide_eq_false_2. simpl. by destruct (rs_topic s).
Qed.

Section world.
Context (schema_version : string) (public : json -> bool).

(** What an event does to the connection and its hub. *)
Definition event_effect (e : event) (c : Connection) : Connection :=
  match e with
  | EvPublish s params => (on_hub (hub_publish s params) c).2
  | EvSend sid t => (send_topic schema_version public sid t c).2
  | EvForget sid => (set_last_sent (List.filter (fun kv => negb (under sid kv.1))) c).2
  | EvReply message => (send_json message c).2
  | EvOpen => (on_hub open_listener c).2
  | EvClose l => (on_hub (close_listener l) c).2
  | EvSubscribe l sid topics => (on_hub (add_subscription l sid topics) c).2
  | EvUnsubscribe l sid => (on_hub (remove_subscription l sid) c).2
  | EvClear l => (on_hub (clear_changed l) c).2
  end.

(** The publication the hub takes over in an event. *)
Definition taken_over (e : event) (c : Connection) : list (topic_scope * ReadSnapshot) :=
  match e with
  | EvPublish s params =>
      match (hub_publish s params (cn_hub c)).1, ingress_topic s params with
      | Ok HUB_APPLIED, Ok t => [(scope_key t, s)]
      | _, _ => []
      end
  | _ => []
  end.

Definition source_of (e : event) : option sent_key :=
  match e with EvSend sid t => Some (key_of sid t) | _ => None end.

(** The messages on the socket after an event that were not there before it. *)
Definition put_out (e : event) (c : Connection) : list (option sent_key * json) :=
  (fun m => (source_of e, m)) <$> drop (length (cn_out c)) (cn_out (event_effect e c)).

Definition world_step (w : World) (e : event) : World :=
  let c := w_conn w in
  mk_World (event_effect e c) (w_accepted w ++ taken_over e c) (w_log w ++ put_out e c).

Definition world_run (es : list event) : World :=
  fold_left world_step es (mk_World (mk_Connection empty_hub [] []) [] []).

Definition accepted_for (k : topic_scope) (w : World) : list ReadSnapshot :=
  snd <$> List.filter (fun x => bool_decide (x.1 = k)) (w_accepted w).

(** The snapshot messages put out under a subscription and topic. *)
Definition messages_for (k : sent_key) (w : World) : list json :=
  snd <$> List.filter (fun x => bool_decide (x.1 = Some k) && negb (is_error x.2)) (w_log w).

(** What the hub knows of a scope. *)
Record fenced (w : World) (k : topic_scope) : Prop := {
  fen_latest : dget k (hub_latest (cn_hub (w_conn w))) = last (accepted_for k w);
  fen_order : advancing (accepted_for k w);
  fen_retired : forall a c, a ∈ accepted_for k w -> last (accepted_for k w) = Some c ->
    rs_stream_id a <> rs_stream_id c ->
    rs_stream_id a ∈ default [] (dget k (hub_retired_streams (cn_hub (w_conn w))))
}.

Lemma accepted_for_snoc k w' w k' s :
  w_accepted w' = w_accepted w ++ [(k', s)] ->
  accepted_for k w' = accepted_for k w ++ (if decide (k' = k) then [s] else []).
Proof.
  intros E. unfold accepted_for. rewrite E, List.filter_app, fmap_app. f_equal. simpl.
  destruct (decide (k' = k)); [by rewrite bool_decide_eq_true_2|by rewrite bool_decide_eq_false_2].
Qed.

(** Steps that leave the latest snapshots, the retired streams and the acceptances. *)
Lemma fenced_same w w' k :
  hub_latest (cn_hub (w_conn w')) = hub_latest (cn_hub (w_conn w)) ->
  hub_retired_streams (cn_hub (w_conn w')) = hub_retired_streams (cn_hub (w_conn w)) ->
  w_accepted w' = w_accepted w -> fenced w k -> fenced w' k.
Proof.
  intros E1 E2 E3 [H1 H2 H3]. assert (accepted_for k w' = accepted_for k w) as E
    by (unfold accepted_for; by rewrite E3).
  split; rewrite ?E, ?E1, ?E2; done.
Qed.

Lemma notify_all_latest ls h :
  hub_latest (fold_left (fun h l => notify l h) ls h) = hub_latest h /\
  hub_retired_streams (fold_left (fun h l => notify l h) ls h) = hub_retired_streams h.
Proof. revert h; induction ls as [|l ls IH]; intros h; [done|]. simpl. apply (IH (notify l h)). Qed.

(** The retired streams of a scope are kept, and the current one joins them when
    another stream is let in. *)
Lemma retire_get k scope s h x :
  x ∈ default [] (dget k (hub_retired_streams h)) -> x ∈ default [] (dget k (retire scope s h)).
Proof.
  intros Hx. unfold retire. destruct (dget scope (hub_latest h)) as [c|]; [|done].
  case_decide; [done|]. rewrite dget_dset. case_decide as E; [|done]. subst k. simpl.
  do 2 (case_bool_decide; [done|]). apply elem_of_app. by left.
Qed.

Lemma retire_current scope s h c :
  dget scope (hub_latest h) = Some c -> rs_stream_id s <> rs_stream_id c ->
  rs_stream_id s ∉ default [] (dget scope (hub_retired_streams h)) ->
  rs_stream_id c ∈ default [] (dget scope (retire scope s h)).
Proof.
  intros Hc Hne Hs. unfold retire. rewrite Hc, decide_False, dget_dset_eq by done. simpl.
  rewrite bool_decide_eq_false_2 by done. case_bool_decide; [done|].
  apply elem_of_app. right. by apply list_elem_of_singleton.
Qed.

Lemma fence_applied current retired s :
  fence current retired s = HUB_APPLIED ->
  match current with
  | None => True
  | Some c => rs_stream_id s = rs_stream_id c /\ rs_sequence c < rs_sequence s \/
              rs_stream_id s <> rs_stream_id c /\ rs_stream_id s ∉ retired
  end.
Proof.
  destruct current as [c|]; [|done]. simpl. case_decide as E.
  - destruct (Z.ltb_spec (rs_sequence s) (rs_sequence c)); [done|].
    destruct (Z.eqb_spec (rs_sequence s) (rs_sequence c)); [by destruct (_ && _)|]. left. split; [done|lia].
  - case_bool_decide; [done|]. by right.
Qed.

Lemma publish_fenced s params w k :
  fenced w k -> fenced (world_step w (EvPublish s params)) k.
Proof.
  intros Hw. unfold world_step. cbn [event_effect taken_over]. unfold on_hub, hub_publish.
  generalize (put_out (EvPublish s params) (w_conn w)) as out. intros out.
  destruct (ingress_topic s params) as [t|e] eqn:Et.
  2: { apply (fenced_same w); try done. apply app_nil_r. }
  set (h := cn_hub (w_conn w)) in *. set (scope := scope_key t).
  set (d := fence (dget scope (hub_latest h)) (default [] (dget scope (hub_retired_streams h))) s).
  assert (forall r ms, fenced (mk_World (mk_Connection (mk_RealtimeSnapshotHub (hub_latest h) (retire scope s h)
      (hub_subscriptions h) (hub_next h) (hub_changed h)) r ms) (w_accepted w ++ []) (w_log w ++ out)) k) as Hrefused.
  { intros r ms. destruct Hw as [H1 H2 H3]. split; unfold accepted_for; cbn [w_accepted w_conn cn_hub hub_latest];
      rewrite ?app_nil_r; [exact H1|exact H2|].
    intros a c Ha Hc Hne. apply retire_get. by eapply H3. }
  destruct d eqn:Ed; [clear Hrefused| |..]; try (by apply Hrefused).
  set (h2 := mk_RealtimeSnapshotHub _ _ _ _ _). cbn [fst snd]. cbv beta iota zeta.
  match goal with |- fenced ?w' k => set (w1 := w') end.
  assert (accepted_for k w1 = accepted_for k w ++ (if decide (scope = k) then [s] else [])) as Ea
    by by apply (accepted_for_snoc k w1 w scope s).
  destruct (notify_all_latest (interested scope h2) h2) as [El Er].
  assert (hub_latest (cn_hub (w_conn w1)) = dset scope s (hub_latest h)) as El' by exact El.
  assert (hub_retired_streams (cn_hub (w_conn w1)) = retire scope s h) as Er' by exact Er.
  destruct Hw as [H1 H2 H3]. fold h in H1, H3. apply fence_applied in Ed.
  destruct (decide (scope = k)) as [<-|Hne].
  - split.
    + by rewrite El', Ea, dget_dset_eq, last_snoc.
    + rewrite Ea. rewrite H1 in Ed. destruct (last (accepted_for scope w)) as [c|] eqn:Ec.
      * destruct Ed as [[? ?]|[Hs Hnew]]; [by eapply advancing_next|]. apply advancing_new; [done|].
        intros a Ha Eas. destruct (decide (rs_stream_id a = rs_stream_id c)) as [E|E]; [congruence|].
        apply Hnew. rewrite <-Eas. by eapply H3.
      * apply last_None in Ec. rewrite Ec. apply advancing_new; [apply advancing_nil|].
        by intros a ?%not_elem_of_nil.
    + rewrite Ea, Er', last_snoc. intros a ? [Ha|Ha%list_elem_of_singleton]%elem_of_app [= <-] Hne; [|by subst a].
      rewrite H1 in Ed. destruct (last (accepted_for scope w)) as [c|] eqn:Ec.
      * destruct (decide (rs_stream_id a = rs_stream_id c)) as [E|E].
        -- destruct Ed as [[? ?]|[Hs Hnew]]; [congruence|]. rewrite E. by apply retire_current.
        -- apply retire_get. by eapply H3.
      * apply last_None in Ec. rewrite Ec in Ha. by apply not_elem_of_nil in Ha.
  - rewrite app_nil_r in Ea. split; rewrite ?Ea, ?El', ?Er', ?dget_dset_ne by done; [done|done|].
    intros a c Ha Hc Hac. apply retire_get. by eapply H3.
Qed.

(** One turn of the sending loop: nothing, an error reply, or the latest snapshot. *)
Lemma send_topic_cases sid t c :
  let key := key_of sid t in
  (exists r errors, send_topic schema_version public sid t c =
       (r, mk_Connection (cn_hub c) (cn_last_sent c) (cn_out c ++ errors)) /\
     Forall (fun m => is_error m = true) errors) \/
  (exists s m, hub_latest_of t (cn_hub c) = Some s /\ dget key (cn_last_sent c) <> Some (version_of s) /\
     to_ws_message sid s = Ok m /\
     send_topic schema_version public sid t c =
       (Ok tt, mk_Connection (cn_hub c) (dset key (version_of s) (cn_last_sent c)) (cn_out c ++ [m]))).
Proof.
  intros key. unfold send_topic, get_st, lift, send_error, send_json, set_last_sent, mret, M_ret, mbind, M_bind.
  assert (c = mk_Connection (cn_hub c) (cn_last_sent c) (cn_out c ++ [])) as Ec
    by (rewrite app_nil_r; by destruct c).
  assert (forall r : res unit, exists r' errors, (r, c) =
       (r', mk_Connection (cn_hub c) (cn_last_sent c) (cn_out c ++ errors)) /\
       Forall (fun m => is_error m = true) errors) as Hnothing
    by (intros r; exists r, []; split; [by rewrite <-Ec|by apply Forall_nil]).
  destruct (hub_latest_of t (cn_hub c)) as [s|]; [|left; apply Hnothing].
  fold key. case_decide as Ek; [left; apply Hnothing|].
  destruct (negb (bool_decide (sv_schema_version (rs_versions s) = schema_version))).
  { left. eexists _, _. split; [reflexivity|]. by apply Forall_singleton. }
  destruct (to_ws_message sid s) as [m|e] eqn:Em; [|left; apply Hnothing].
  destruct (public m); [|left; apply Hnothing].
  right. by exists s, m.
Qed.

Lemma world_fenced es k : fenced (world_run es) k.
Proof.
  unfold world_run. assert (fenced (mk_World (mk_Connection empty_hub [] []) [] []) k) as H0
    by (split; [done|apply advancing_nil|by intros ? ? ?%not_elem_of_nil]).
  revert H0. generalize (mk_World (mk_Connection empty_hub [] []) [] []) as w.
  induction es as [|e es IH]; intros w Hw; [done|]. simpl. apply IH.
  destruct e as [s params|sid t|sid|m| |l|l sid topics|l sid|l];
    [by apply publish_fenced|..]; apply (fenced_same w); try done; try apply app_nil_r;
    cbn [world_step w_conn event_effect].
  1, 2: destruct (send_topic_cases sid t (w_conn w)) as [(r&out&->&_)|(s&m&_&_&_&->)]; done.
  all: unfold on_hub, add_subscription, remove_subscription; by destruct (dget l _).
Qed.

(** Nothing that was put out is taken back, so the log is what the socket carried. *)
Lemma effect_out e c : cn_out c `prefix_of` cn_out (event_effect e c).
Proof.
  destruct e; cbn [event_effect]; unfold on_hub, add_subscription, remove_subscription;
    repeat case_match; try done; try (by apply prefix_app_r).
  destruct (send_topic_cases subscription_id t c) as [(r&out&->&_)|(s&m&_&_&_&->)];
    by apply prefix_app_r.
Qed.

Lemma put_out_app e c out :
  cn_out (event_effect e c) = cn_out c ++ out -> put_out e c = (fun m => (source_of e, m)) <$> out.
Proof. intros E. unfold put_out. by rewrite E, drop_app_length. Qed.

Lemma world_log es : snd <$> w_log (world_run es) = cn_out (w_conn (world_run es)).
Proof.
  induction es as [|e es IH] using rev_ind; [done|]. unfold world_run in *. rewrite fold_left_app.
  cbn [fold_left]. set (w := fold_left world_step es _) in *. unfold world_step. cbn [w_log w_conn].
  destruct (effect_out e (w_conn w)) as [out E]. rewrite (put_out_app e _ out E), E, fmap_app, IH.
  f_equal. rewrite <-list_fmap_compose. apply list_fmap_id.
Qed.

(** What was sent under one subscription and topic: the snapshots whose messages stand
    in the log. *)
Definition delivered (w : World) (key : sent_key) : Prop :=
  exists sent, Forall2 (fun m s => to_ws_message key.1.1 s = Ok m) (messages_for key w) sent /\
    sent `sublist_of` accepted_for (key.1.2, key.2) w /\
    dget key (cn_last_sent (w_conn w)) = version_of <$> last sent.

Lemma messages_for_app key w' w out :
  w_log w' = w_log w ++ out ->
  messages_for key w' = messages_for key w ++
    (snd <$> List.filter (fun x => bool_decide (x.1 = Some key) && negb (is_error x.2)) out).
Proof. intros E. unfold messages_for. by rewrite E, List.filter_app, fmap_app. Qed.

Lemma filter_source (key : sent_key) (source : option sent_key) (ms : list json) :
  snd <$> List.filter (fun x => bool_decide (x.1 = Some key) && negb (is_error x.2))
            ((fun m => (source, m)) <$> ms) =
  if decide (source = Some key) then List.filter (fun m => negb (is_error m)) ms else [].
Proof.
  induction ms as [|m ms IH]; [by case_decide|]. simpl. case_decide as E.
  - rewrite bool_decide_eq_true_2 by done. simpl. destruct (is_error m); [exact IH|]. exact (f_equal (cons m) IH).
  - rewrite bool_decide_eq_false_2 by done. exact IH.
Qed.

Lemma filter_errors ms :
  Forall (fun m => is_error m = true) ms -> List.filter (fun m => negb (is_error m)) ms = [].
Proof. induction 1 as [|m ms Hm _ IH]; [done|]. simpl. by rewrite Hm. Qed.

(** An event that sends nothing under the key. *)
Lemma delivered_same w w' key :
  messages_for key w' = messages_for key w ->
  dget key (cn_last_sent (w_conn w')) = dget key (cn_last_sent (w_conn w)) ->
  accepted_for (key.1.2, key.2) w `prefix_of` accepted_for (key.1.2, key.2) w' ->
  delivered w key -> delivered w' key.
Proof.
  intros E1 E2 [ks E3] (sent&H1&H2&H3). exists sent. split_and!; [by rewrite E1| |by rewrite E2].
  rewrite E3. by apply sublist_inserts_r.
Qed.

Lemma step_messages e w out key :
  cn_out (event_effect e (w_conn w)) = cn_out (w_conn w) ++ out ->
  messages_for key (world_step w e) = messages_for key w ++
    if decide (source_of e = Some key) then List.filter (fun m => negb (is_error m)) out else [].
Proof.
  intros E. rewrite (messages_for_app key _ w (put_out e (w_conn w))) by done. f_equal.
  by rewrite (put_out_app e _ out E), filter_source.
Qed.

Lemma step_silent e w key :
  source_of e <> Some key -> messages_for key (world_step w e) = messages_for key w.
Proof.
  intros Hne. destruct (effect_out e (w_conn w)) as [out E].
  by rewrite (step_messages e w out key E), decide_False, app_nil_r.
Qed.

Lemma accepted_for_step k w e : accepted_for k w `prefix_of` accepted_for k (world_step w e).
Proof. unfold accepted_for. cbn [world_step w_accepted]. rewrite List.filter_app, fmap_app. by apply prefix_app_r. Qed.

Lemma send_delivered sid t w key :
  fenced w (key.1.2, key.2) -> delivered w key -> delivered (world_step w (EvSend sid t)) key.
Proof.
  intros Hf Hd. set (w' := world_step w (EvSend sid t)).
  pose proof (accepted_for_step (key.1.2, key.2) w (EvSend sid t)) as Ha. fold w' in Ha.
  destruct (send_topic_cases sid t (w_conn w)) as [(r&out&E&Hout)|(s&m&Hs&Hk&Hm&E)];
    apply (f_equal snd) in E; cbn [snd] in E;
    pose proof (f_equal cn_out E) as Eout; pose proof (f_equal cn_last_sent E) as Elast; cbn in Eout, Elast;
    pose proof (step_messages (EvSend sid t) w _ key Eout) as Em; fold w' in Em.
  - rewrite filter_errors in Em by done. apply (delivered_same w); try done.
    + rewrite Em. case_decide; apply app_nil_r.
    + cbn [w' world_step w_conn event_effect]. by rewrite Elast.
  - cbn [source_of List.filter] in Em. rewrite (wire_message_no_error sid s m Hm) in Em. cbn [negb] in Em.
    destruct (decide (key_of sid t = key)) as [<-|Hne].
    + rewrite decide_True in Em by done. destruct Hd as (sent&H1&H2&H3). exists (sent ++ [s]).
      cbn [key_of fst snd] in *. split_and!.
      * rewrite Em. apply Forall2_app; [done|]. by constructor.
      * destruct Ha as [ks Ha]. rewrite Ha. apply sublist_inserts_r.
        pose proof (fen_latest _ _ Hf) as Hl. unfold hub_latest_of, scope_key in Hs. rewrite Hl in Hs.
        apply last_Some in Hs as [pre Epre]. rewrite Epre in H2 |- *. apply sublist_app; [|done].
        apply sublist_snoc in H2 as [H2|(l'&El&H2)]; [done|]. exfalso. apply Hk.
        by rewrite H3, El, last_snoc.
      * cbn [w' world_step w_conn event_effect]. by rewrite Elast, last_snoc, dget_dset_eq.
    + rewrite decide_False, app_nil_r in Em by congruence. apply (delivered_same w); try done.
      cbn [w' world_step w_conn event_effect]. by rewrite Elast, dget_dset_ne.
Qed.

Lemma filter_key_get {V} (f : sent_key -> bool) (d : dict sent_key V) k :
  f k = true -> dget k (List.filter (fun kv => f kv.1) d) = dget k d.
Proof.
  intros Hk. induction d as [|[k' v] d IH]; [done|]. simpl. destruct (f k') eqn:E; simpl.
  - by rewrite IH.
  - rewrite IH, decide_False; [done|]. intros ->. congruence.
Qed.

Lemma world_delivered es key :
  Forall (fun e => e <> EvForget key.1.1) es -> delivered (world_run es) key.
Proof.
  induction es as [|e es IH] using rev_ind; intros Hes.
  { exists []. split_and!; [by constructor|done|done]. }
  apply Forall_app in Hes as [Hes He]. apply Forall_cons in He as [He _]. specialize (IH Hes).
  unfold world_run in *. rewrite fold_left_app. cbn [fold_left].
  pose proof (world_fenced es (key.1.2, key.2)) as Hf. unfold world_run in Hf.
  set (w := fold_left world_step es _) in *.
  destruct e as [s params|sid t|sid|m| |l|l sid topics|l sid|l]; [|by apply send_delivered|..];
    (apply (delivered_same w); [by apply step_silent| |by apply accepted_for_step|done]);
    cbn [world_step w_conn event_effect]; try done.
  1: unfold on_hub; by destruct (hub_publish s params (cn_hub (w_conn w))).
  1: apply (filter_key_get (fun k => negb (under sid k))); unfold under;
     rewrite bool_decide_eq_false_2; [done|]; intros E; by rewrite E in He.
  all: unfold on_hub, add_subscription, remove_subscription; by destruct (dget l _).
Qed.

(** ** The handlers as events *)

Definition conn_run (es : list event) (c : Connection) : Connection :=
  fold_left (fun c e => event_effect e c) es c.

Lemma world_run_conn es : w_conn (world_run es) = conn_run es (mk_Connection empty_hub [] []).
Proof.
  unfold world_run, conn_run. generalize (@nil (topic_scope * ReadSnapshot)) (@nil (option sent_key * json)).
  generalize (mk_Connection empty_hub [] []).
  induction es as [|e es IH]; intros c acc log; [done|]. simpl. apply IH.
Qed.

Lemma conn_run_app es es' c : conn_run (es ++ es') c = conn_run es' (conn_run es c).
Proof. apply fold_left_app. Qed.

(** What a connection does itself: its replies acknowledge a subscription or report an
    error, so a snapshot goes out only by a turn of the sending loop. *)
Definition own_event (e : event) : bool :=
  match e with
  | EvReply message => is_reply message
  | EvSend _ _ | EvForget _ | EvSubscribe _ _ _ | EvUnsubscribe _ _ => true
  | _ => false
  end.

(** The outcome of a method is a run of the connection's own events. *)
Definition by_events {A} (m : M Connection A) : Prop :=
  forall c, exists es, Forall (fun e => own_event e = true) es /\ (m c).2 = conn_run es c.

Lemma by_events_pure {A} (r : res A) : by_events (lift r).
Proof. intros c. by exists []. Qed.

Lemma by_events_bind {A B} (m : M Connection A) (f : A -> M Connection B) :
  by_events m -> (forall a, by_events (f a)) -> by_events (m ≫= f).
Proof.
  intros Hm Hf c. destruct (Hm c) as (es&Hes&E). unfold mbind, M_bind.
  destruct (m c) as [[a|e] c'] eqn:Em; cbn [snd] in *; [|by exists es].
  destruct (Hf a c') as (es'&Hes'&E'). exists (es ++ es'). split; [by apply Forall_app|].
  by rewrite conn_run_app, <-E.
Qed.

Lemma by_events_one {A} (m : M Connection A) e :
  own_event e = true -> (forall c, (m c).2 = conn_run [e] c) -> by_events m.
Proof. intros He Hm c. exists [e]. split; [by repeat constructor|by apply Hm]. Qed.

Lemma by_events_send sid t : by_events (send_topic schema_version public sid t).
Proof. by apply (by_events_one _ (EvSend sid t)). Qed.

Lemma by_events_reply m : is_reply m = true -> by_events (send_json m).
Proof. intros Hm. by apply (by_events_one _ (EvReply m)). Qed.

Lemma by_events_pending l only : by_events (send_pending schema_version public l only).
Proof.
  intros c. unfold send_pending, get_st, mbind, M_bind.
  generalize (subscriptions_of l (cn_hub c)) as subs. intros subs. revert c.
  change (by_events (send_subscriptions schema_version public only subs)).
  induction subs as [|[sid topics] subs IH]; [apply (by_events_pure (Ok tt))|]. cbn [send_subscriptions].
  apply by_events_bind; [|intros; exact IH].
  destruct (match only with Some o => _ | None => false end); [apply (by_events_pure (Ok tt))|].
  induction topics as [|t topics IHt]; [apply (by_events_pure (Ok tt))|]. cbn [send_topics].
  apply by_events_bind; [apply by_events_send|intros; exact IHt].
Qed.

Lemma by_events_handle fromiso token l decoded :
  by_events (handle_client_message schema_version public fromiso token l decoded).
Proof.
  assert (forall request_id message,
            by_events (dispatch_message schema_version public fromiso token l request_id message)) as Hd.
  { intros request_id message. unfold dispatch_message.
    destruct (dget "type" message) as [[| | | |ty| |]|]; try apply (by_events_pure (Raise InvalidSubscription)).
    case_decide; [|case_decide; [|case_decide]].
    - unfold handle_subscribe. apply by_events_bind; [apply by_events_pure|intros _].
      destruct (dget "topics" message) as [[| | | | |vs|]|];
        try apply (by_events_pure (Raise InvalidSubscription)).
      apply by_events_bind; [apply by_events_pure|intros _].
      apply by_events_bind; [apply by_events_pure|intros topics].
      apply by_events_bind; [apply by_events_pure|intros _].
      apply by_events_bind; [by apply (by_events_one _ (EvSubscribe l ("sub_" +:+ token) topics))|intros _].
      apply by_events_bind; [by apply by_events_reply|intros _]. apply by_events_pending.
    - unfold handle_unsubscribe. apply by_events_bind; [apply by_events_pure|intros _].
      destruct (dget "subscriptionId" message) as [[| | | |sid| |]|];
        try apply (by_events_pure (Raise InvalidSubscription)).
      apply by_events_bind; [apply by_events_pure|intros _].
      apply by_events_bind; [by apply (by_events_one _ (EvUnsubscribe l sid))|intros removed].
      apply by_events_bind; [apply by_events_pure|intros _].
      by apply (by_events_one _ (EvForget sid)).
    - unfold handle_pong. apply by_events_bind; [apply by_events_pure|intros _].
      destruct (dget "sentAt" message) as [[| | | |sent_at| |]|];
        try apply (by_events_pure (Raise InvalidSubscription)).
      apply by_events_bind; [apply by_events_pure|intros ts]. apply by_events_pure.
    - apply (by_events_pure (Raise InvalidSubscription)). }
  assert (forall request_id (body : M Connection unit), by_events body ->
    by_events (fun c => match body c with
                        | (Ok u, c') => (Ok u, c')
                        | (Raise e, c') =>
                            if is_value_error e
                            then send_error request_id "INVALID_SUBSCRIPTION"
                                   "지원하지 않는 topic 또는 parameter입니다." c'
                            else (Raise e, c')
                        end)) as Hcatch.
  { intros request_id body Hb c. destruct (Hb c) as (es&Hes&E).
    destruct (body c) as [[u|e] c']; cbn [snd] in E; [by exists es|].
    destruct (is_value_error e); [|by exists es].
    eexists (es ++ [EvReply _]). split; [|rewrite conn_run_app, <-E; reflexivity].
    apply Forall_app. split; [done|by repeat constructor]. }
  unfold handle_client_message. destruct decoded as [message|e];
    [|apply (Hcatch None (throw e)), (by_events_pure (Raise e))].
  destruct (dget "requestId" message) as [value|]; [|apply (Hcatch None), Hd].
  destruct (request_id_of value) as [i|e]; [apply (Hcatch (Some i)), Hd|].
  apply (Hcatch None (throw e)), (by_events_pure (Raise e)).
Qed.
End world.

(** C37: Clients only move forward.  Whatever the publishers, the other connections and the
    client do, in any interleaving down to the single turns of the sending loop: a hub
    scope keeps the last snapshot it took over, and the ones it took over rise within a
    stream and never return to a stream that was replaced.  The log is what the socket
    carried, message for message; and as long as the subscription is not cancelled, the
    messages put out under it for a topic, errors apart, are the wire messages of a
    subsequence of the snapshots taken over, in their order: no snapshot twice, and never
    an older one after a newer one.  All that the connection's handlers do is a run of such
    events, in which a snapshot goes out only by a turn of the sending loop. *)
Theorem clients_move_forward schema_version public es key :
  Forall (fun e => e <> EvForget key.1.1) es ->
  let w := world_run schema_version public es in
  let scope := (key.1.2, key.2) in
  dget scope (hub_latest (cn_hub (w_conn w))) = last (accepted_for scope w) /\
  advancing (accepted_for scope w) /\
  snd <$> w_log w = cn_out (w_conn w) /\
  (exists sent, Forall2 (fun m s => to_ws_message key.1.1 s = Ok m) (messages_for key w) sent /\
     sent `sublist_of` accepted_for scope w /\ advancing sent) /\
  (forall l only, by_events schema_version public (send_pending schema_version public l only)) /\
  (forall fromiso token l decoded,
     by_events schema_version public (handle_client_message schema_version public fromiso token l decoded)).
Proof.
  intros Hes w scope. pose proof (world_fenced schema_version public es scope) as [H1 H2 _].
  destruct (world_delivered schema_version public es key Hes) as (sent&H3&H4&_).
  split_and!; [exact H1|exact H2|apply world_log| | |].
  - exists sent. split_and!; [exact H3|exact H4|by eapply advancing_sublist].
  - apply by_events_pending.
  - apply by_events_handle.
Qed.

(** ** Catching up *)

Section pending.
Context (schema_version : string) (public : json -> bool).

(** A snapshot the connection can send under this subscription. *)
Definition sendable (sid : string) (s : ReadSnapshot) : Prop :=
  sv_schema_version (rs_versions s) = schema_version /\
  exists m, to_ws_message sid s = Ok m /\ public m = true.

Definition up_to_date (sid : string) (t : NormalizedTopic) (c : Connection) : Prop :=
  forall s, hub_latest_of t (cn_hub c) = Some s ->
    dget (key_of sid t) (cn_last_sent c) = Some (version_of s).

Lemma send_topic_done sid t c :
  up_to_date sid t c -> send_topic schema_version public sid t c = (Ok tt, c).
Proof.
  intros H. unfold send_topic, get_st, mbind, M_bind.
  destruct (hub_latest_of t (cn_hub c)) as [s|] eqn:Es; [|done]. by rewrite decide_True by by apply H.
Qed.

Lemma send_topic_sends sid t c :
  (forall s, hub_latest_of t (cn_hub c) = Some s -> sendable sid s) ->
  exists c', send_topic schema_version public sid t c = (Ok tt, c') /\ cn_hub c' = cn_hub c /\
    up_to_date sid t c' /\ forall sid' t', up_to_date sid' t' c -> up_to_date sid' t' c'.
Proof.
  intros H. unfold send_topic, get_st, lift, send_json, set_last_sent, mbind, M_bind.
  destruct (hub_latest_of t (cn_hub c)) as [s|] eqn:Es.
  2: { exists c. split_and!; [done|done| |done]. intros s Hs. congruence. }
  case_decide as Ek.
  { exists c. split_and!; [done|done| |done]. intros s' Hs. congruence. }
  destruct (H s eq_refl) as (Hv&m&Hm&Hp). rewrite bool_decide_eq_true_2 by done. cbn [negb].
  rewrite Hm, Hp. cbn [negb raise_if]. eexists. split; [reflexivity|].
  split_and!; [done| |].
  - intros s' Hs. cbn [cn_hub cn_last_sent] in *. rewrite dget_dset_eq. congruence.
  - intros sid' t' Hu s' Hs. cbn [cn_hub cn_last_sent] in *. rewrite dget_dset. case_decide as E; [|by apply Hu].
    unfold key_of in E. injection E as _ E1 E2. unfold hub_latest_of, scope_key in *. congruence.
Qed.

Lemma send_topics_sends sid topics c :
  (forall t s, t ∈ topics -> hub_latest_of t (cn_hub c) = Some s -> sendable sid s) ->
  exists c', send_topics schema_version public sid topics c = (Ok tt, c') /\ cn_hub c' = cn_hub c /\
    (forall t, t ∈ topics -> up_to_date sid t c') /\
    forall sid' t', up_to_date sid' t' c -> up_to_date sid' t' c'.
Proof.
  revert c; induction topics as [|t topics IH]; intros c H.
  { exists c. split_and!; try done. by intros t ?%not_elem_of_nil. }
  destruct (send_topic_sends sid t c) as (c1&E1&Eh1&Hu1&Hk1); [intros s; apply H; left|].
  destruct (IH c1) as (c2&E2&Eh2&Hu2&Hk2).
  { intros t' s Ht'. rewrite Eh1. apply H. by right. }
  exists c2. cbn [send_topics]. unfold mbind, M_bind. rewrite E1, E2.
  split_and!; [done|congruence| |by auto].
  intros t' [->|Ht']%elem_of_cons; by auto.
Qed.

Lemma send_subscriptions_sends subs c :
  (forall sid topics t s, (sid, topics) ∈ subs -> t ∈ topics ->
     hub_latest_of t (cn_hub c) = Some s -> sendable sid s) ->
  exists c', send_subscriptions schema_version public None subs c = (Ok tt, c') /\ cn_hub c' = cn_hub c /\
    (forall sid topics t, (sid, topics) ∈ subs -> t ∈ topics -> up_to_date sid t c') /\
    forall sid' t', up_to_date sid' t' c -> up_to_date sid' t' c'.
Proof.
  revert c; induction subs as [|[sid topics] subs IH]; intros c H.
  { exists c. split_and!; try done. by intros ? ? ? ?%not_elem_of_nil. }
  destruct (send_topics_sends sid topics c) as (c1&E1&Eh1&Hu1&Hk1).
  { intros t s Ht. eapply H; [left|done]. }
  destruct (IH c1) as (c2&E2&Eh2&Hu2&Hk2).
  { intros sid' topics' t s Hin Ht. rewrite Eh1. eapply H; [by right|done]. }
  exists c2. cbn [send_subscriptions]. unfold mbind, M_bind. rewrite E1, E2.
  split_and!; [done|congruence| |by auto].
  intros sid' topics' t [[= -> ->]|Hin]%elem_of_cons Ht; eauto.
Qed.

Lemma send_subscriptions_done subs c :
  (forall sid topics t, (sid, topics) ∈ subs -> t ∈ topics -> up_to_date sid t c) ->
  send_subscriptions schema_version public None subs c = (Ok tt, c).
Proof.
  induction subs as [|[sid topics] subs IH]; intros H; [done|]. cbn [send_subscriptions].
  assert (send_topics schema_version public sid topics c = (Ok tt, c)) as E.
  { assert (forall t, t ∈ topics -> up_to_date sid t c) as Ht by (intros t; apply (H sid topics); left).
    clear - Ht. induction topics as [|t topics IHt]; [done|]. cbn [send_topics]. unfold mbind, M_bind.
    rewrite send_topic_done by (apply Ht; left). apply IHt. intros t' Ht'. apply Ht. by right. }
  unfold mbind, M_bind. rewrite E. apply IH. intros sid' topics' t Hin. apply (H sid' topics' t). by right.
Qed.
End pending.

(** A wake-up brings a listener up to date.  If the latest snapshots of its topics can
    be sent at all, one pass sends them without failing, after it each subscription has
    the latest snapshot of every one of its topics, and a second pass sends nothing. *)
Theorem pending_catches_up schema_version public l c :
  (forall sid topics t s, (sid, topics) ∈ subscriptions_of l (cn_hub c) -> t ∈ topics ->
     hub_latest_of t (cn_hub c) = Some s -> sendable schema_version public sid s) ->
  exists c', send_pending schema_version public l None c = (Ok tt, c') /\
    (forall sid topics t s, (sid, topics) ∈ subscriptions_of l (cn_hub c) -> t ∈ topics ->
       hub_latest_of t (cn_hub c) = Some s -> dget (key_of sid t) (cn_last_sent c') = Some (version_of s)) /\
    send_pending schema_version public l None c' = (Ok tt, c').
Proof.
  intros H. destruct (send_subscriptions_sends schema_version public _ c H) as (c'&E&Eh&Hu&_).
  exists c'. unfold send_pending, get_st, mbind, M_bind. split_and!; [exact E| |].
  - intros sid topics t s Hin Ht Hs. eapply Hu; [done|done|by rewrite Eh].
  - rewrite Eh. by apply send_subscriptions_done.
Qed.

(** ** A concrete connection *)

Definition demo_topic : NormalizedTopic :=
  mk_NormalizedTopic TOPIC_THEME_RANK [("limit", JNum 20)] (dumps false (JObj [("limit", JNum 20)])).
Definition demo_ranks (stream : string) (sequence : Z) : ReadSnapshot :=
  mk_ReadSnapshot ("snap" +:+ str_Z sequence) "pub" stream TOPIC_THEME_RANK (hub_params_key [("limit", JNum 20)])
    sequence 730001 (demo_time 9) (demo_time 9) LIVE [] [] demo_versions "hash".
#[local] Abbreviation demo_events :=
  [EvOpen; EvPublish (demo_ranks "s1" 1) [("limit", JNum 20)]; EvSubscribe 0 "sub_1" [demo_topic];
   EvSend "sub_1" demo_topic; EvPublish (demo_ranks "s1" 3) [("limit", JNum 20)];
   EvPublish (demo_ranks "s1" 2) [("limit", JNum 20)]; EvPublish (demo_ranks "s2" 1) [("limit", JNum 20)];
   EvPublish (demo_ranks "s1" 4) [("limit", JNum 20)]; EvSend "sub_1" demo_topic; EvSend "sub_1" demo_topic].

(** The sequence numbers a client sees. *)
#[local] Abbreviation sequences ms :=
  ((fun m => match m with JObj fields => dget "sequence" fields | _ => None end) <$> ms).

(** The second turn skips the snapshot that was replaced, the late ones are refused, and
    the third turn has nothing new to put out. *)
Lemma clients_move_forward_witness :
  let w := world_run "1" (fun _ => true) demo_events in
  (exists sent, Forall2 (fun m s => to_ws_message "sub_1" s = Ok m)
                  (messages_for (key_of "sub_1" demo_topic) w) sent /\ advancing sent) /\
  sequences (messages_for (key_of "sub_1" demo_topic) w) = [Some (JNum 1); Some (JNum 1)] /\
  length (cn_out (w_conn w)) = 2%nat.
Proof.
  intros w. split; [|split; vm_compute; reflexivity].
  assert (Forall (fun e => e <> EvForget "sub_1") demo_events) as Hes
    by (repeat (apply Forall_cons; split; [discriminate|]); apply Forall_nil_2).
  destruct (clients_move_forward "1" (fun _ => true) demo_events (key_of "sub_1" demo_topic) Hes)
    as (_&_&_&(sent&H1&_&H2)&_).
  exists sent. exact (conj H1 H2).
Defined.

#[local] Abbreviation demo_connection :=
  (w_conn (world_run "1" (fun _ => true)
     [EvOpen; EvSubscribe 0 "sub_1" [demo_topic]; EvPublish (demo_ranks "s1" 1) [("limit", JNum 20)]])).

Lemma pending_catches_up_witness :
  exists c', send_pending "1" (fun _ => true) 0 None demo_connection = (Ok tt, c') /\
    dget (key_of "sub_1" demo_topic) (cn_last_sent c') = Some (version_of (demo_ranks "s1" 1)).
Proof.
  assert (subscriptions_of 0 (cn_hub demo_connection) = [("sub_1", [demo_topic])]) as Es
    by (vm_compute; reflexivity).
  assert (hub_latest_of demo_topic (cn_hub demo_connection) = Some (demo_ranks "s1" 1)) as El
    by (vm_compute; reflexivity).
  destruct (pending_catches_up "1" (fun _ => true) 0 demo_connection) as (c'&E&H&_).
  - rewrite Es. intros sid topics t s [= -> ->]%list_elem_of_singleton ->%list_elem_of_singleton.
    rewrite El. intros [= <-]. split; [reflexivity|]. eexists. split; [reflexivity|reflexivity].
  - exists c'. split; [exact E|]. apply (H "sub_1" [demo_topic]); [rewrite Es; left|left|exact El].
Defined.
