(* ===== verification/TradingDay.v ===== *)
(** [packages/pipeline/trading_day.py]: the Korean calendar day of an instant, the days
    the market is taken to be open, and the session's bounds. *)
From S2P Require Import Prelude PyTime Domain.
#[local] Open Scope Z_scope.

(* @ packages/pipeline/trading_day.py 19-19 KST *)
Definition KST : Z := hours 9.
(* @ packages/pipeline/trading_day.py 20-20 SATURDAY *)
Definition SATURDAY : Z := 5.

(** [now.astimezone(KST)] *)
Definition to_kst (now : datetime) : datetime := mk_datetime (instant now + KST) (Some KST).

(** [.date()] *)
Definition date_of (d : datetime) : date := dt_local d / us_per_day + 1.
(** [.time()] *)
Definition time_of (d : datetime) : time := dt_local d mod us_per_day.

(* @ packages/pipeline/trading_day.py 23-26 market_date_for *)
Definition market_date_for (now : datetime) : date := date_of (to_kst now).

(** [market_date.weekday()]: Monday is 0. *)
Definition weekday (d : date) : Z := (d + 6) mod 7.

(* @ packages/pipeline/trading_day.py 29-30 is_weekend *)
Definition is_weekend (market_date : date) : bool := SATURDAY <=? weekday market_date.

(** The calendar of collected responses; [known_trading_days=None] knows no day. *)
Definition calendar : Type := date -> option bool.

(* @ packages/pipeline/trading_day.py 33-46 is_trading_day *)
Definition is_trading_day (known_trading_days : calendar) (market_date : date) : bool :=
  if is_weekend market_date then false
  else default true (known_trading_days market_date).

(* @ packages/pipeline/trading_day.py 59-63 next_trading_day *)
Fixpoint search_trading_day (known_trading_days : calendar) (market_date : date) (offset : Z)
    (days : nat) : res date :=
  match days with
  | O => Raise ValueError
  | S left_days =>
      let candidate := market_date + offset in
      if is_trading_day known_trading_days candidate then Ok candidate
      else search_trading_day known_trading_days market_date (offset + 1) left_days
  end.

(* @ packages/pipeline/trading_day.py 49-63 next_trading_day *)
Definition next_trading_day (known_trading_days : calendar) (max_lookahead_days : Z)
    (market_date : date) : res date :=
  _ ← raise_if (max_lookahead_days <=? 0) ValueError;
  search_trading_day known_trading_days market_date 1 (Z.to_nat max_lookahead_days).

(** [datetime.combine(market_date, at, tzinfo=KST).astimezone(UTC)] *)
Definition combine_kst (market_date : date) (at_ : time) : datetime :=
  mk_datetime ((market_date - 1) * us_per_day + at_ - KST) (Some 0).

(* @ packages/pipeline/trading_day.py 66-69 session_open_at *)
Definition session_open_at (market_date : date) (open_time : time) : datetime :=
  combine_kst market_date open_time.

(* @ packages/pipeline/trading_day.py 72-75 session_close_at *)
Definition session_close_at (market_date : date) (close_time : time) : datetime :=
  combine_kst market_date close_time.

(** 2026-08-14 is a Friday; the next trading day is Monday. *)
Example friday : weekday (ymd2ord 2026 8 14) = 4.
Proof. reflexivity. Qed.
Example after_friday :
  next_trading_day (fun _ => None) 14 (ymd2ord 2026 8 14) = Ok (ymd2ord 2026 8 17).
Proof. reflexivity. Qed.

(** ** Facts *)

(** A session bound lies in the market date it was built for. *)
Lemma market_date_of_bound d t :
  0 <= t < us_per_day -> market_date_for (combine_kst d t) = d.
Proof.
  intros Ht. unfold market_date_for, date_of, to_kst, combine_kst, instant. cbn.
  replace ((d - 1) * us_per_day + t - KST - 0 + KST) with (t + (d - 1) * us_per_day) by lia.
  unfold us_per_day in *. rewrite Z.div_add by lia. rewrite Z.div_small by lia. lia.
Qed.

(** Later instants never fall on earlier days. *)
Lemma market_date_mono a b : dt_le a b = true -> market_date_for a <= market_date_for b.
Proof.
  rewrite dt_le_Z, Z.leb_le. intros H. unfold market_date_for, date_of, to_kst. cbn.
  enough ((instant a + KST) / us_per_day <= (instant b + KST) / us_per_day) by lia.
  apply Z.div_le_mono; [done|lia].
Qed.

(** The search answers with the first trading day after the date, or raises when the
    whole window has none. *)
Lemma search_trading_day_ok known d off left :
  match search_trading_day known d off left with
  | Ok r => exists k, off <= k < off + Z.of_nat left /\ r = d + k /\
            is_trading_day known r = true /\
            forall j, off <= j < k -> is_trading_day known (d + j) = false
  | Raise e => e = ValueError /\
            forall j, off <= j < off + Z.of_nat left -> is_trading_day known (d + j) = false
  end.
Proof.
  revert off; induction left as [|left IH]; intros off; cbn [search_trading_day].
  { split; [done|]. intros j Hj. lia. }
  destruct (is_trading_day known (d + off)) eqn:E.
  { exists off. split_and!; [lia|lia|done|done|]. intros j Hj. lia. }
  specialize (IH (off + 1)). destruct (search_trading_day _ _ _ _) as [r|e].
  - destruct IH as (k&Hk&->&Ht&Hbefore). exists k. split_and!; [lia|lia|done|done|].
    intros j Hj. destruct (decide (j = off)) as [->|Hne]; [done|]. apply Hbefore. lia.
  - destruct IH as [-> IH]. split; [done|]. intros j Hj.
    destruct (decide (j = off)) as [->|Hne]; [done|]. apply IH. lia.
Qed.

(** The next trading day is the first one after the date within the window; without a
    calendar every weekday counts, so a window of three days always has one. *)
Theorem next_trading_day_is_first known max d :
  0 < max ->
  match next_trading_day known max d with
  | Ok r => d < r <= d + max /\ is_trading_day known r = true /\
            forall x, d < x < r -> is_trading_day known x = false
  | Raise e => e = ValueError /\ forall x, d < x <= d + max -> is_trading_day known x = false
  end.
Proof.
  intros Hmax. unfold next_trading_day. replace (max <=? 0) with false by lia. cbn.
  pose proof (search_trading_day_ok known d 1 (Z.to_nat max)) as H.
  destruct (search_trading_day _ _ _ _) as [r|e].
  - destruct H as (k&Hk&->&Ht&Hb). split_and!; [lia|lia|done|]. intros x Hx.
    specialize (Hb (x - d)). replace (d + (x - d)) with x in Hb by lia. apply Hb. lia.
  - destruct H as [-> H]. split; [done|]. intros x Hx.
    specialize (H (x - d)). replace (d + (x - d)) with x in H by lia. apply H. lia.
Qed.

Lemma next_trading_day_is_first_witness :
  0 < 14 /\ exists r, next_trading_day (fun _ => None) 14 (ymd2ord 2026 8 14) = Ok r /\
  is_trading_day (fun _ => None) r = true.
Proof.
  split; [lia|].
  pose proof (next_trading_day_is_first (fun _ => None) 14 (ymd2ord 2026 8 14) ltac:(lia)) as H.
  eexists. split; [apply after_friday|]. rewrite after_friday in H. apply H.
Defined.
