(* ===== verification/News.v ===== *)
(** [packages/news]: news items, the poller of the sources with its cursors, and the
    in-memory store with its duplicate test and search. *)
From S2P Require Import Prelude PyTime Json.
#[local] Open Scope Z_scope.

(** ** [models.py] *)

(* @ packages/news/models.py 22-25 NewsSourceType *)
Inductive NewsSourceType := SRC_RSS | SRC_NAVER_NEWS_SEARCH | SRC_SUPPLEMENTAL_SEARCH.
#[export] Instance NewsSourceType_eq_dec : EqDecision NewsSourceType.
Proof. solve_decision. Defined.
(* @ packages/news/models.py 22-25 NewsSourceType *)
Definition NewsSourceType_value (t : NewsSourceType) : string :=
  match t with
  | SRC_RSS => "RSS"
  | SRC_NAVER_NEWS_SEARCH => "NAVER_NEWS_SEARCH"
  | SRC_SUPPLEMENTAL_SEARCH => "SUPPLEMENTAL_SEARCH"
  end.

(* @ packages/news/models.py 28-33 RightsScope *)
Inductive RightsScope := METADATA_ONLY | SUMMARY_ALLOWED | FULL_TEXT_ALLOWED.
#[export] Instance RightsScope_eq_dec : EqDecision RightsScope.
Proof. solve_decision. Defined.
(* @ packages/news/models.py 28-33 RightsScope *)
Definition RightsScope_value (r : RightsScope) : string :=
  match r with
  | METADATA_ONLY => "METADATA_ONLY"
  | SUMMARY_ALLOWED => "SUMMARY_ALLOWED"
  | FULL_TEXT_ALLOWED => "FULL_TEXT_ALLOWED"
  end.

(* @ packages/news/models.py 36-39 IngestionStatus *)
Inductive IngestionStatus := ING_STORED | ING_DUPLICATE | ING_REJECTED.
#[export] Instance IngestionStatus_eq_dec : EqDecision IngestionStatus.
Proof. solve_decision. Defined.

(* @ packages/news/models.py 50-64 RawNewsItem *)
Record RawNewsItem := mk_RawNewsItem {
  rn_source_id : string;
  rn_source_type : NewsSourceType;
  rn_source_item_id : string;
  rn_publisher : string;
  rn_title : string;
  rn_description : string;
  rn_original_url : string;
  rn_published_at : option datetime;
  rn_retrieved_at : datetime;
  rn_rights_scope : RightsScope;
  rn_body : string
}.

(* @ packages/news/models.py 66-79 RawNewsItem.__post_init__ *)
Definition RawNewsItem_check (r : RawNewsItem) : res RawNewsItem :=
  _ ← foldM (fun _ s => require_text s) tt
        [rn_source_id r; rn_source_item_id r; rn_publisher r; rn_title r; rn_original_url r];
  _ ← match rn_published_at r with Some d => require_aware d | None => Ok tt end;
  _ ← require_aware (rn_retrieved_at r);
  _ ← raise_if (negb (bool_decide (rn_rights_scope r = FULL_TEXT_ALLOWED)) &&
                negb (is_empty (rn_body r))) ValueError;
  Ok r.

(* @ packages/news/models.py 82-103 NewsItem *)
Record NewsItem := mk_NewsItem {
  ni_news_id : string;
  ni_source_id : string;
  ni_source_type : NewsSourceType;
  ni_source_item_id : string;
  ni_canonical_url : string;
  ni_original_url : string;
  ni_publisher : string;
  ni_title : string;
  ni_description : string;
  ni_published_at : option datetime;
  ni_retrieved_at : datetime;
  ni_normalized_title_hash : string;
  ni_content_hash : string;
  ni_rights_scope : RightsScope;
  ni_ingestion_status : IngestionStatus;
  ni_stock_ids : list string;
  ni_entities : list string;
  ni_body : string
}.

(* @ packages/news/models.py 105-109 NewsItem.__post_init__ *)
Definition NewsItem_check (n : NewsItem) : res NewsItem :=
  _ ← require_text (ni_news_id n);
  _ ← require_text (ni_canonical_url n);
  _ ← raise_if (negb (bool_decide (NoDup (ni_stock_ids n)))) ValueError;
  Ok n.

(* @ packages/news/models.py 111-115 NewsItem.groundable_text *)
Definition groundable_text (n : NewsItem) : string :=
  String.concat " " (List.filter (fun part => negb (is_empty part))
                       [ni_title n; ni_description n; ni_body n]).

(* @ packages/news/models.py 9-9 NEWS_SCHEMA_VERSION *)
Definition NEWS_SCHEMA_VERSION : string := "news-2026.08.1".

(* @ packages/news/models.py 117-132 NewsItem.to_source_metadata *)
Definition to_source_metadata (n : NewsItem) : json :=
  JObj [("newsId", JStr (ni_news_id n)); ("sourceId", JStr (ni_source_id n));
        ("sourceType", JStr (NewsSourceType_value (ni_source_type n)));
        ("sourceItemId", JStr (ni_source_item_id n)); ("publisher", JStr (ni_publisher n));
        ("canonicalUrl", JStr (ni_canonical_url n)); ("originalUrl", JStr (ni_original_url n));
        ("publishedAt", JOpt (isoformat <$> ni_published_at n));
        ("retrievedAt", JStr (isoformat (ni_retrieved_at n)));
        ("normalizedTitleHash", JStr (ni_normalized_title_hash n));
        ("contentHash", JStr (ni_content_hash n));
        ("rightsScope", JStr (RightsScope_value (ni_rights_scope n)));
        ("schemaVersion", JStr NEWS_SCHEMA_VERSION)].

(** ** [sources.py]: polling *)

(* @ packages/news/sources.py 14-17 SourceStatus *)
Inductive SourceStatus := SRC_HEALTHY | SRC_RETRYING | SRC_FAILED.
#[export] Instance SourceStatus_eq_dec : EqDecision SourceStatus.
Proof. solve_decision. Defined.

(* @ packages/news/sources.py 20-30 SourceCursor *)
Record NewsCursor := mk_NewsCursor {
  nc_source_id : string;
  nc_source_type : NewsSourceType;
  nc_last_source_item_id : option string;
  nc_last_published_at : option datetime;
  nc_last_polled_at : option datetime;
  nc_next_poll_at : option datetime;
  nc_status : SourceStatus;
  nc_last_error : option string;
  nc_consecutive_failures : Z
}.

(* @ packages/news/sources.py 32-34 SourceCursor.degraded *)
Definition degraded (c : NewsCursor) : bool := negb (bool_decide (nc_status c = SRC_HEALTHY)).

(** A source: its items for a cursor, or the text of the error it raised. *)
(* @ packages/news/sources.py 37-39 NewsSource *)
Record NewsSource := mk_NewsSource {
  ns_source_id : string;
  ns_source_type : NewsSourceType;
  ns_fetch : NewsCursor -> list RawNewsItem + string
}.

(* @ packages/news/sources.py 45-49 SourceFailure *)
Record SourceFailure := mk_SourceFailure {
  sf_source_id : string;
  sf_message : string;
  sf_status : SourceStatus
}.

(* @ packages/news/sources.py 52-57 PollResult *)
Record PollResult := mk_PollResult {
  pr_items : list RawNewsItem;
  pr_cursors : list NewsCursor;
  pr_failures : list SourceFailure;
  pr_skipped : list string
}.

(* @ packages/news/sources.py 59-61 PollResult.degraded_source_ids *)
Definition degraded_source_ids (r : PollResult) : list string :=
  nc_source_id <$> List.filter degraded (pr_cursors r).

(** [max(times)] of a list that is not empty. *)
Definition latest_time (first : datetime) (times : list datetime) : datetime :=
  fold_left pymax times first.

Section poller.
Context (poll_interval retry_backoff : timedelta) (failure_threshold : Z).

(* @ packages/news/sources.py 107-111 SourcePoller.poll *)
Definition failure_status (failure_count : Z) : SourceStatus :=
  if failure_threshold <=? failure_count then SRC_FAILED else SRC_RETRYING.

(* @ packages/news/sources.py 106-122 SourcePoller.poll *)
Definition after_failure (now : datetime) (message : string) (c : NewsCursor) : NewsCursor :=
  let failure_count := nc_consecutive_failures c + 1 in
  mk_NewsCursor (nc_source_id c) (nc_source_type c) (nc_last_source_item_id c)
    (nc_last_published_at c) (Some now) (Some (dt_add now (retry_backoff * failure_count)))
    (failure_status failure_count) (Some message) failure_count.

(* @ packages/news/sources.py 125-139 SourcePoller.poll *)
Definition after_fetch (now : datetime) (fetched : list RawNewsItem) (c : NewsCursor) : NewsCursor :=
  let published := omap rn_published_at fetched in
  mk_NewsCursor (nc_source_id c) (nc_source_type c)
    (match last fetched with Some r => Some (rn_source_item_id r) | None => nc_last_source_item_id c end)
    (match published with [] => nc_last_published_at c | d :: ds => Some (latest_time d ds) end)
    (Some now) (Some (dt_add now poll_interval)) SRC_HEALTHY None 0.

(** One source: it is left alone before its time, a failure stays its own. *)
(* @ packages/news/sources.py 94-139 SourcePoller.poll *)
Definition poll_source (cursors : dict string NewsCursor) (now : datetime) (result : PollResult)
    (source : NewsSource) : PollResult :=
  let cursor := default (mk_NewsCursor (ns_source_id source) (ns_source_type source) None None None
                           None SRC_HEALTHY None 0)
                  (dget (ns_source_id source) cursors) in
  if match nc_next_poll_at cursor with Some t => dt_lt now t | None => false end then
    mk_PollResult (pr_items result) (pr_cursors result ++ [cursor]) (pr_failures result)
      (pr_skipped result ++ [ns_source_id source])
  else
    match ns_fetch source cursor with
    | inr message =>
        let c := after_failure now message cursor in
        mk_PollResult (pr_items result) (pr_cursors result ++ [c])
          (pr_failures result ++ [mk_SourceFailure (ns_source_id source) message (nc_status c)])
          (pr_skipped result)
    | inl fetched =>
        mk_PollResult (pr_items result ++ fetched)
          (pr_cursors result ++ [after_fetch now fetched cursor]) (pr_failures result)
          (pr_skipped result)
    end.

(* @ packages/news/sources.py 84-145 SourcePoller.poll *)
Definition poll (sources : list NewsSource) (cursors : dict string NewsCursor) (now : datetime)
    : PollResult :=
  fold_left (poll_source cursors now) sources (mk_PollResult [] [] [] []).
End poller.

(** ** [store.py]: the in-memory store *)

(** [needle in haystack] *)
Fixpoint is_prefix (p s : list ascii) : bool :=
  match p, s with
  | [], _ => true
  | a :: p, b :: s => Ascii.eqb a b && is_prefix p s
  | _ :: _, [] => false
  end.
Fixpoint occurs (needle haystack : list ascii) : bool :=
  is_prefix needle haystack ||
  match haystack with [] => false | _ :: rest => occurs needle rest end.
Definition str_in (needle haystack : string) : bool :=
  occurs (String.list_ascii_of_string needle) (String.list_ascii_of_string haystack).

Example str_in_ex : str_in "ell" "hello" && negb (str_in "lel" "hello") = true.
Proof. reflexivity. Qed.

(* @ packages/news/store.py 39-44 InMemoryNewsStore.__init__ *)
Record InMemoryNewsStore := mk_InMemoryNewsStore {
  nw_items : dict string NewsItem;
  nw_by_canonical_url : dict string string;
  nw_by_title_key : dict (string * string * string) string;
  nw_cursors : dict string NewsCursor
}.

(* @ packages/news/store.py 39-44 InMemoryNewsStore.__init__ *)
Definition empty_news : InMemoryNewsStore := mk_InMemoryNewsStore [] [] [] [].

(** The text both the search and the matcher look for words in. *)
Definition item_text (n : NewsItem) : string :=
  ni_title n +:+ " " +:+ ni_description n +:+ " " +:+ String.concat " " (ni_entities n).

(* @ packages/news/store.py 121-122 _ordering_key *)
Definition news_ordering_key (n : NewsItem) : datetime * string :=
  (default (ni_retrieved_at n) (ni_published_at n), ni_news_id n).

(** [sorted(..., reverse=True)]: descending, equal keys in the order they came. *)
Definition sorted_desc {A K} `{PyOrd K} (key : A -> K) (l : list A) : list A :=
  rev (sorted_by key (rev l)).

(* @ packages/news/store.py 107-113 _within *)
Definition within (since until : option datetime) (n : NewsItem) : bool :=
  let not_after d := match until with None => true | Some u => dt_le d u end in
  match ni_published_at n with
  | None => not_after (ni_retrieved_at n)
  | Some published =>
      if match since with Some s => dt_lt published s | None => false end then false
      else not_after published
  end.

Section store.
(** [str.casefold] *)
Context (casefold : string -> string).

(* @ packages/news/store.py 46-49 InMemoryNewsStore._title_key *)
Definition title_key (n : NewsItem) : string * string * string :=
  (ni_normalized_title_hash n, casefold (strip (ni_publisher n)),
   match ni_published_at n with None => "" | Some d => isoformat d end).

(* @ packages/news/store.py 51-58 InMemoryNewsStore.upsert *)
Definition news_upsert (item : NewsItem) : M InMemoryNewsStore bool := fun s =>
  if dmem (ni_news_id item) (nw_items s) then (Ok false, s)
  else
    (Ok true,
     mk_InMemoryNewsStore (dset (ni_news_id item) item (nw_items s))
       (dset (ni_canonical_url item) (ni_news_id item) (nw_by_canonical_url s))
       (dset (title_key item) (ni_news_id item) (nw_by_title_key s)) (nw_cursors s)).

(* @ packages/news/store.py 60-62 InMemoryNewsStore.get *)
Definition news_get (news_id : string) (s : InMemoryNewsStore) : option NewsItem :=
  dget news_id (nw_items s).

(* @ packages/news/store.py 64-71 InMemoryNewsStore.find_duplicate *)
Definition find_duplicate (item : NewsItem) (s : InMemoryNewsStore) : res (option NewsItem) :=
  let existing_id := match dget (ni_canonical_url item) (nw_by_canonical_url s) with
                     | Some i => Some i
                     | None => dget (title_key item) (nw_by_title_key s)
                     end in
  match existing_id with
  | None => Ok None
  | Some i =>
      if bool_decide (i = ni_news_id item) then
        Ok (if is_empty i then None else dget i (nw_items s))
      else match dget i (nw_items s) with Some n => Ok (Some n) | None => Raise KeyError end
  end.

(* @ packages/news/store.py 116-118 _matches_keyword *)
Definition matches_keyword (n : NewsItem) (keywords : list string) : bool :=
  existsb (fun keyword => str_in keyword (casefold (item_text n))) keywords.

(* @ packages/news/store.py 73-96 InMemoryNewsStore.search *)
Definition news_search (stock_ids keywords : list string) (since until : option datetime)
    (s : InMemoryNewsStore) : list NewsItem :=
  let wanted_keywords := casefold <$> List.filter (fun k => negb (is_blank k)) keywords in
  sorted_desc news_ordering_key
    (List.filter (fun n =>
       within since until n &&
       (match stock_ids, wanted_keywords with [], [] => true | _, _ => false end ||
        existsb (fun i => bool_decide (i ∈ ni_stock_ids n)) stock_ids ||
        matches_keyword n wanted_keywords))
       (dvalues (nw_items s))).

(* @ packages/news/store.py 98-100 InMemoryNewsStore.get_cursor *)
Definition get_cursor (source_id : string) (s : InMemoryNewsStore) : option NewsCursor :=
  dget source_id (nw_cursors s).

(* @ packages/news/store.py 102-104 InMemoryNewsStore.put_cursor *)
Definition put_cursor (cursor : NewsCursor) : M InMemoryNewsStore unit := fun s =>
  (Ok tt, mk_InMemoryNewsStore (nw_items s) (nw_by_canonical_url s) (nw_by_title_key s)
            (dset (nc_source_id cursor) cursor (nw_cursors s))).
End store.
