(* ===== verification/Catalyst.v ===== *)
(** [packages/catalyst]: matching news to themes, deciding what an event's evidence says,
    its append-only revisions, the gate of the supplemental search, and the public views. *)
From S2P Require Import Prelude Sha256 PyTime PyDecimal PyFloat Json News.
#[local] Open Scope Z_scope.

(** ** [models.py] *)

(* @ packages/catalyst/models.py 12-12 CATALYST_POLICY_VERSION *)
Definition CATALYST_POLICY_VERSION : string := "catalyst-policy-2026.08.1".

(* @ packages/catalyst/models.py 15-21 EvidenceStatus *)
Inductive EvidenceStatus :=
  | EV_SEARCHING | EV_SINGLE_SOURCE | EV_MULTI_SOURCE_CONFIRMED | EV_NO_NEW_CATALYST
  | EV_REEMERGENCE | EV_AFTER_CLOSE_CONFIRMED.
#[export] Instance EvidenceStatus_eq_dec : EqDecision EvidenceStatus.
Proof. solve_decision. Defined.
(* @ packages/catalyst/models.py 15-21 EvidenceStatus *)
Definition EvidenceStatus_value (s : EvidenceStatus) : string :=
  match s with
  | EV_SEARCHING => "SEARCHING"
  | EV_SINGLE_SOURCE => "SINGLE_SOURCE"
  | EV_MULTI_SOURCE_CONFIRMED => "MULTI_SOURCE_CONFIRMED"
  | EV_NO_NEW_CATALYST => "NO_NEW_CATALYST"
  | EV_REEMERGENCE => "REEMERGENCE"
  | EV_AFTER_CLOSE_CONFIRMED => "AFTER_CLOSE_CONFIRMED"
  end.

(* @ packages/catalyst/models.py 24-27 MatchBasis *)
Inductive MatchBasis := BASIS_THEME | BASIS_STOCK | BASIS_TIME.
#[export] Instance MatchBasis_eq_dec : EqDecision MatchBasis.
Proof. solve_decision. Defined.
(* @ packages/catalyst/models.py 24-27 MatchBasis *)
Definition MatchBasis_value (b : MatchBasis) : string :=
  match b with BASIS_THEME => "THEME" | BASIS_STOCK => "STOCK" | BASIS_TIME => "TIME" end.

(* @ packages/catalyst/models.py 30-34 MatchTrigger *)
Inductive MatchTrigger := THEME_TO_NEWS | NEWS_TO_EVENT.
(* @ packages/catalyst/models.py 37-39 ExtractionMethod *)
Inductive ExtractionMethod := RULE | LLM_GROUNDED.

(** [tuple(dict.fromkeys(l))]: each value where it first occurs. *)
Fixpoint first_seen {A} `{EqDecision A} (l : list A) : list A :=
  match l with
  | [] => []
  | x :: l' => x :: List.filter (fun y => negb (bool_decide (y = x))) (first_seen l')
  end.

(** *** Words of a theme's name *)

(** U+00B7, the middle dot, is two bytes. *)
Definition middle_dot (bytes : list N) : option (list N) :=
  match bytes with 194%N :: 183%N :: rest => Some rest | _ => None end.

(** One separator of [_NAME_TOKEN_SPLIT] at the head of the text. *)
(* @ packages/catalyst/models.py 42-42 _NAME_TOKEN_SPLIT *)
Definition skip_separator (bytes : list N) : option (list N) :=
  match bytes with
  | b :: rest =>
      if existsb (N.eqb b) [47; 44; 40; 41]%N then Some rest
      else match middle_dot bytes with Some rest => Some rest | None => skip_blank bytes end
  | [] => None
  end.

(** [_NAME_TOKEN_SPLIT.split(name)] with the empty parts left out. *)
Fixpoint split_name (fuel : nat) (bytes word : list N) : list (list N) :=
  let emit := match word with [] => [] | _ => [word] end in
  match fuel, bytes with
  | O, _ | _, [] => emit
  | S fuel, b :: rest =>
      match skip_separator bytes with
      | Some rest' => emit ++ split_name fuel rest' []
      | None => split_name fuel rest (word ++ [b])
      end
  end.

Definition str_of_bytes (bytes : list N) : string :=
  String.string_of_list_ascii (ascii_of_N <$> bytes).

(* @ packages/catalyst/models.py 43-43 _NAME_TOKEN_SUFFIXES *)
Definition NAME_TOKEN_SUFFIXES : list string := ["관련주"; "관련"; "테마"; "대표주"; "수혜주"].
(* @ packages/catalyst/models.py 44-44 _NAME_TOKEN_STOPWORDS *)
Definition NAME_TOKEN_STOPWORDS : list string := ["등"; "기타"] ++ NAME_TOKEN_SUFFIXES.

(** [part[:-len(suffix)]] for the first suffix that is a proper ending of [part]. *)
(* @ packages/catalyst/models.py 57-60 _name_tokens *)
Fixpoint drop_suffix (suffixes : list string) (part : list N) : list N :=
  match suffixes with
  | [] => part
  | s :: suffixes =>
      let n := length (bytes_of s) in
      if bool_decide (drop (length part - n) part = bytes_of s) && (n <? length part)%nat
      then take (length part - n) part
      else drop_suffix suffixes part
  end.

(* @ packages/catalyst/models.py 47-64 _name_tokens *)
Definition name_tokens (name : string) : list string :=
  let parts := split_name (String.length name) (bytes_of name) [] in
  List.filter (fun part => (2 <=? py_len part) && negb (bool_decide (part ∈ NAME_TOKEN_STOPWORDS)))
    ((fun part => str_of_bytes (drop_suffix NAME_TOKEN_SUFFIXES part)) <$> parts).

Example name_tokens_ex : name_tokens "반도체 관련주/장비(소재) 등" = ["반도체"; "장비"; "소재"].
Proof. vm_compute. reflexivity. Qed.

(* @ packages/catalyst/models.py 67-81 ThemeContext *)
Record ThemeContext := mk_ThemeContext {
  tc_event : string;
  tc_theme_id : string;
  tc_display_name : string;
  tc_market_date : date;
  tc_activated_at : datetime;
  tc_synonyms : list string;
  tc_leader_names : list string;
  tc_leader_stock_ids : list string;
  tc_related_stock_ids : list string;
  tc_entities : list string;
  tc_known_catalyst_keys : list string
}.

(* @ packages/catalyst/models.py 83-94 ThemeContext.theme_keywords *)
Definition theme_keywords (c : ThemeContext) : list string :=
  let names := tc_display_name c :: tc_synonyms c in
  first_seen (names ++ (names ≫= name_tokens) ++ tc_entities c).

(* @ packages/catalyst/models.py 96-98 ThemeContext.stock_ids *)
Definition context_stock_ids (c : ThemeContext) : list string :=
  first_seen (tc_leader_stock_ids c ++ tc_related_stock_ids c).

(* @ packages/catalyst/models.py 101-111 NewsThemeMatch *)
Record NewsThemeMatch := mk_NewsThemeMatch {
  nm_news_id : string;
  nm_event_id : string;
  nm_theme_id : string;
  nm_matched_stock_ids : list string;
  nm_match_basis : list MatchBasis;
  nm_trigger : MatchTrigger;
  nm_rule_score : double;
  nm_relevance_score : double;
  nm_matched_at : datetime
}.

(* @ packages/catalyst/models.py 113-115 NewsThemeMatch.__post_init__ *)
Definition NewsThemeMatch_check (m : NewsThemeMatch) : res NewsThemeMatch :=
  match nm_match_basis m with [] => Raise ValueError | _ => Ok m end.

(* @ packages/catalyst/models.py 118-137 CatalystEvidence *)
Record CatalystEvidence := mk_CatalystEvidence {
  ev_news_id : string;
  ev_event_id : string;
  ev_publisher : string;
  ev_title : string;
  ev_summary : string;
  ev_match_basis : list MatchBasis;
  ev_entities : list string;
  ev_published_at : option datetime;
  ev_received_at : datetime;
  ev_original_url : string;
  ev_quality_flags : list string;
  ev_extraction_method : ExtractionMethod;
  ev_model_name : option string;
  ev_prompt_version : option string;
  ev_confidence : option double;
  ev_generated_at : datetime
}.

(* @ packages/catalyst/models.py 140-153 EvidenceRevision *)
Record EvidenceRevision := mk_EvidenceRevision {
  er_event_id : string;
  er_revision : Z;
  er_evidence_status : EvidenceStatus;
  er_summary : option string;
  er_news_ids : list string;
  er_catalyst_key : option string;
  er_reason : string;
  er_policy_version : string;
  er_decided_at : datetime;
  er_evidence_confirmed_at : option datetime
}.

(* @ packages/catalyst/models.py 155-157 EvidenceRevision.__post_init__ *)
Definition EvidenceRevision_check (r : EvidenceRevision) : res EvidenceRevision :=
  _ ← raise_if (er_revision r <? 1) ValueError; Ok r.

(** ** [policy.py]: what the evidence says *)

(* @ packages/catalyst/policy.py 18-18 NO_NEW_CATALYST_AFTER *)
Definition NO_NEW_CATALYST_AFTER : timedelta := minutes 20.

(* @ packages/catalyst/policy.py 20-27 _STRENGTH *)
Definition STRENGTH (s : EvidenceStatus) : Z :=
  match s with
  | EV_SEARCHING | EV_NO_NEW_CATALYST => 0
  | EV_SINGLE_SOURCE | EV_REEMERGENCE => 1
  | EV_MULTI_SOURCE_CONFIRMED => 2
  | EV_AFTER_CLOSE_CONFIRMED => 3
  end.

(* @ packages/catalyst/policy.py 30-37 EvidenceDecision *)
Record EvidenceDecision := mk_EvidenceDecision {
  ed_evidence_status : EvidenceStatus;
  ed_summary : option string;
  ed_news_ids : list string;
  ed_catalyst_key : option string;
  ed_reason : string;
  ed_policy_version : string
}.

(** [" ".join(s.split())] *)
Fixpoint split_blank (fuel : nat) (bytes word : list N) : list (list N) :=
  let emit := match word with [] => [] | _ => [word] end in
  match fuel, bytes with
  | O, _ | _, [] => emit
  | S fuel, b :: rest =>
      match skip_blank bytes with
      | Some rest' => emit ++ split_blank fuel rest' []
      | None => split_blank fuel rest (word ++ [b])
      end
  end.
Definition squeeze (s : string) : string :=
  String.concat " " (str_of_bytes <$> split_blank (String.length s) (bytes_of s) []).

Example squeeze_ex : squeeze "  a   b " = "a b".
Proof. vm_compute. reflexivity. Qed.

Section catalyst.
(** [str.casefold] *)
Context (casefold : string -> string).

(* @ packages/catalyst/models.py 160-164 catalyst_key *)
Definition catalyst_key (theme_id : string) (entities : list string) : string :=
  let raw := String.concat "|" (theme_id ::
    sorted_set ((fun e => casefold (strip e)) <$> List.filter (fun e => negb (is_blank e)) entities)) in
  "cat_" +:+ str_take 32 (sha256_hex raw).

(* @ packages/catalyst/policy.py 136-140 _key *)
Definition evidence_key (c : ThemeContext) (evidence : list CatalystEvidence) : option string :=
  match first_seen (evidence ≫= ev_entities) with
  | [] => None
  | entities => Some (catalyst_key (tc_theme_id c) entities)
  end.

(** The names of the publishers, as a set. *)
(* @ packages/catalyst/policy.py 68-68 decide *)
Definition publishers (evidence : list CatalystEvidence) : list string :=
  remove_dups ((fun i => casefold (strip (ev_publisher i))) <$>
               List.filter (fun i => negb (is_blank (ev_publisher i))) evidence).

(* @ packages/catalyst/policy.py 71-75 decide *)
Definition titles (evidence : list CatalystEvidence) : list string :=
  remove_dups ((fun i => casefold (squeeze (ev_title i))) <$>
               List.filter (fun i => negb (is_blank (ev_title i))) evidence).

(* @ packages/catalyst/policy.py 95-133 _without_evidence *)
Definition without_evidence (c : ThemeContext) (now : datetime) (previous : option EvidenceRevision)
    (sources_degraded : bool) (no_catalyst_after : timedelta) : EvidenceDecision :=
  let nothing status reason := mk_EvidenceDecision status None [] None reason CATALYST_POLICY_VERSION in
  let rest :=
    if sources_degraded then
      nothing EV_SEARCHING "공급원 수집이 지연돼 소재 없음으로 판정하지 않았습니다"
    else if no_catalyst_after <=? dt_sub now (tc_activated_at c) then
      nothing EV_NO_NEW_CATALYST "정상 수집 상태에서 관련 기사를 찾지 못했습니다"
    else nothing EV_SEARCHING "근거를 계속 확인하는 중입니다" in
  match previous with
  | Some p =>
      if 0 <? STRENGTH (er_evidence_status p) then
        mk_EvidenceDecision (er_evidence_status p) (er_summary p) (er_news_ids p)
          (er_catalyst_key p) "이미 확인된 근거를 유지했습니다" CATALYST_POLICY_VERSION
      else rest
  | None => rest
  end.

(* @ packages/catalyst/policy.py 40-92 decide *)
Definition decide_evidence (c : ThemeContext) (evidence : list CatalystEvidence) (now : datetime)
    (previous : option EvidenceRevision) (sources_degraded : bool)
    (after_close_summary : option string) (no_catalyst_after : timedelta) : EvidenceDecision :=
  match after_close_summary with
  | Some summary =>
      mk_EvidenceDecision EV_AFTER_CLOSE_CONFIRMED (Some summary) (ev_news_id <$> evidence)
        (evidence_key c evidence) "인포스탁 장후 확정을 같은 Event에 반영했습니다" CATALYST_POLICY_VERSION
  | None =>
      match evidence with
      | [] => without_evidence c now previous sources_degraded no_catalyst_after
      | first :: _ =>
          let key := evidence_key c evidence in
          let n := length (publishers evidence) in
          let '(status, reason) :=
            if (2 <=? n)%nat && (2 <=? length (titles evidence))%nat then
              (EV_MULTI_SOURCE_CONFIRMED,
               "독립 매체 " +:+ str_Z (Z.of_nat n) +:+ "곳에서 같은 소재를 확인했습니다")
            else if match key with Some k => bool_decide (k ∈ tc_known_catalyst_keys c) | None => false end
            then (EV_REEMERGENCE, "이전 거래일에 확인된 소재가 다시 부각됐습니다")
            else (EV_SINGLE_SOURCE, "단일 매체 보도로 확인된 추정입니다") in
          mk_EvidenceDecision status (Some (ev_summary first)) (first_seen (ev_news_id <$> evidence))
            key reason CATALYST_POLICY_VERSION
      end
  end.
End catalyst.

(** ** [revisions.py]: the append-only history *)

(* @ packages/catalyst/revisions.py 28-30 EvidenceRevisionStore.__init__ *)
Definition EvidenceRevisionStore : Type := dict string (list EvidenceRevision).

(* @ packages/catalyst/revisions.py 37-39 EvidenceRevisionStore.history *)
Definition revisions_of (event_id : string) (s : EvidenceRevisionStore) : list EvidenceRevision :=
  default [] (dget event_id s).

(* @ packages/catalyst/revisions.py 32-35 EvidenceRevisionStore.current *)
Definition current_revision (event_id : string) (s : EvidenceRevisionStore)
    : option EvidenceRevision := last (revisions_of event_id s).

(* @ packages/catalyst/revisions.py 77-83 _unchanged *)
Definition unchanged (previous : EvidenceRevision) (d : EvidenceDecision) : bool :=
  bool_decide (er_evidence_status previous = ed_evidence_status d) &&
  bool_decide (er_summary previous = ed_summary d) &&
  bool_decide (er_news_ids previous = ed_news_ids d) &&
  bool_decide (er_catalyst_key previous = ed_catalyst_key d).

(* @ packages/catalyst/revisions.py 55-60 EvidenceRevisionStore.record *)
Definition confirmed_at (previous : option EvidenceRevision) (d : EvidenceDecision) (now : datetime)
    : option datetime :=
  let changed := match previous with
                 | None => true
                 | Some p => negb (bool_decide (er_news_ids p = ed_news_ids d))
                 end in
  match ed_news_ids d with
  | _ :: _ => if changed then Some now else previous ≫= er_evidence_confirmed_at
  | [] => previous ≫= er_evidence_confirmed_at
  end.

(** [setdefault] files an empty history before anything else. *)
(* @ packages/catalyst/revisions.py 41-74 EvidenceRevisionStore.record *)
Definition record_decision (event_id : string) (d : EvidenceDecision) (now : datetime)
    : M EvidenceRevisionStore EvidenceRevision := fun s =>
  let history := revisions_of event_id s in
  let s := match dget event_id s with None => dset event_id [] s | Some _ => s end in
  let previous := last history in
  let revise :=
    match EvidenceRevision_check
            (mk_EvidenceRevision event_id (Z.of_nat (length history) + 1) (ed_evidence_status d)
               (ed_summary d) (ed_news_ids d) (ed_catalyst_key d) (ed_reason d)
               (ed_policy_version d) now (confirmed_at previous d now)) with
    | Ok revision => (Ok revision, dset event_id (history ++ [revision]) s)
    | Raise e => (Raise e, s)
    end in
  match previous with
  | Some p => if unchanged p d then (Ok p, s) else revise
  | None => revise
  end.

(** ** [supplemental.py]: the gate of the extra search *)

(* @ packages/catalyst/supplemental.py 12-12 SUPPLEMENTAL_COOLDOWN *)
Definition SUPPLEMENTAL_COOLDOWN : timedelta := minutes 10.

(* @ packages/catalyst/supplemental.py 15-18 SupplementalDenial *)
Inductive SupplementalDenial := LOCAL_EVIDENCE_EXISTS | COOLDOWN | QUOTA_EXHAUSTED.

(* @ packages/catalyst/supplemental.py 21-26 SupplementalSearchRequest *)
Record SupplementalSearchRequest := mk_SupplementalSearchRequest {
  sq_event_id : string;
  sq_theme_id : string;
  sq_query_terms : list string;
  sq_requested_at : datetime
}.

(** A decision: the request, or why it was denied. *)
(* @ packages/catalyst/supplemental.py 29-32 SupplementalDecision *)
Definition SupplementalDecision : Type := SupplementalSearchRequest + SupplementalDenial.

(* @ packages/catalyst/supplemental.py 38-50 SupplementalSearchGate.__init__ *)
Record SupplementalSearchGate := mk_SupplementalSearchGate {
  sg_cooldown : timedelta;
  sg_quota : Z;
  sg_window : timedelta;
  sg_last_request : dict string datetime;
  sg_calls : list datetime
}.

(* @ packages/catalyst/supplemental.py 81-88 query_terms *)
Definition query_terms (c : ThemeContext) : list string :=
  first_seen (strip <$> List.filter (fun t => negb (is_blank t))
                (tc_display_name c :: tc_synonyms c ++ tc_leader_names c)).

(* @ packages/catalyst/supplemental.py 52-78 SupplementalSearchGate.request *)
Definition gate_request (c : ThemeContext) (now : datetime) (has_local_evidence : bool)
    : M SupplementalSearchGate SupplementalDecision := fun g =>
  if has_local_evidence then (Ok (inr LOCAL_EVIDENCE_EXISTS), g)
  else
    let previous := dget (tc_event c) (sg_last_request g) in
    if match previous with Some p => dt_sub now p <? sg_cooldown g | None => false end
    then (Ok (inr COOLDOWN), g)
    else
      let calls := List.filter (fun called => dt_sub now called <? sg_window g) (sg_calls g) in
      if sg_quota g <=? Z.of_nat (length calls)
      then (Ok (inr QUOTA_EXHAUSTED),
            mk_SupplementalSearchGate (sg_cooldown g) (sg_quota g) (sg_window g)
              (sg_last_request g) calls)
      else (Ok (inl (mk_SupplementalSearchRequest (tc_event c) (tc_theme_id c) (query_terms c) now)),
            mk_SupplementalSearchGate (sg_cooldown g) (sg_quota g) (sg_window g)
              (dset (tc_event c) now (sg_last_request g)) (calls ++ [now])).

(** ** [matching.py] *)

(** Scores are floats: sums of decimal literals, rounded once per addition. *)
(* @ packages/catalyst/matching.py 15-15 THEME_WEIGHT *)
Definition THEME_WEIGHT : double := of_ratio 35 100.
(* @ packages/catalyst/matching.py 16-16 LEADER_WEIGHT *)
Definition LEADER_WEIGHT : double := of_ratio 30 100.
(* @ packages/catalyst/matching.py 17-17 RELATED_WEIGHT *)
Definition RELATED_WEIGHT : double := of_ratio 15 100.
(* @ packages/catalyst/matching.py 18-18 TIME_WEIGHT *)
Definition TIME_WEIGHT : double := of_ratio 20 100.
(* @ packages/catalyst/matching.py 19-19 BREADTH_WEIGHT *)
Definition BREADTH_WEIGHT : double := of_ratio 10 100.
(* @ packages/catalyst/matching.py 20-20 ENTITY_WEIGHT *)
Definition ENTITY_WEIGHT : double := of_ratio 5 100.
(* @ packages/catalyst/matching.py 24-24 RELEVANCE_THRESHOLD *)
Definition RELEVANCE_THRESHOLD : double := of_ratio 35 100.
(* @ packages/catalyst/matching.py 25-25 DEFAULT_LOOKBACK *)
Definition DEFAULT_LOOKBACK : timedelta := minutes 60.

(* @ packages/catalyst/matching.py 28-31 MatchConfig *)
Record MatchConfig := mk_MatchConfig { mc_lookback : timedelta; mc_threshold : double }.
Definition default_config : MatchConfig := mk_MatchConfig DEFAULT_LOOKBACK RELEVANCE_THRESHOLD.

Definition intersects (a b : list string) : bool := existsb (fun x => bool_decide (x ∈ b)) a.

(** [if c: score += weight] *)
Definition add_if (c : bool) (weight score : double) : double := if c then fadd score weight else score.

Section matching.
(** [str.casefold] *)
Context (casefold : string -> string).

(* @ packages/catalyst/matching.py 34-36 _theme_hit *)
Definition theme_hit (item : NewsItem) (c : ThemeContext) : bool :=
  let haystack := casefold (item_text item) in
  existsb (fun keyword => negb (is_empty keyword) && str_in (casefold keyword) haystack)
    (theme_keywords c).

(* @ packages/catalyst/matching.py 46-48 _score *)
Definition matched_stocks (item : NewsItem) (c : ThemeContext) : list string :=
  List.filter (fun i => bool_decide (i ∈ ni_stock_ids item)) (context_stock_ids c).

(* @ packages/catalyst/matching.py 51-53 _score *)
Definition time_hit (item : NewsItem) (c : ThemeContext) (decision_at : datetime)
    (config : MatchConfig) : bool :=
  let window_start := pymin (dt_add (tc_activated_at c) (- mc_lookback config)) decision_at in
  match ni_published_at item with
  | None => false
  | Some published => dt_le window_start published && dt_le published decision_at
  end.

(** Rule score, relevance, matched stocks and the bases that hold. *)
(* @ packages/catalyst/matching.py 39-78 _score *)
Definition score (item : NewsItem) (c : ThemeContext) (decision_at : datetime) (config : MatchConfig)
    : double * double * list string * list MatchBasis :=
  let stocks := matched_stocks item c in
  let leaders := List.filter (fun i => bool_decide (i ∈ stocks)) (tc_leader_stock_ids c) in
  let theme := theme_hit item c in
  let timely := time_hit item c decision_at config in
  let some {A} (l : list A) := match l with [] => false | _ => true end in
  let rule := add_if theme THEME_WEIGHT 0 in
  let rule := if some leaders then fadd rule LEADER_WEIGHT else add_if (some stocks) RELATED_WEIGHT rule in
  let rule := add_if timely TIME_WEIGHT rule in
  let relevance := add_if (2 <=? length stocks)%nat BREADTH_WEIGHT rule in
  let relevance := add_if (intersects (ni_entities item) (tc_entities c)) ENTITY_WEIGHT relevance in
  (rule, pymin relevance (of_int 1), stocks,
   (if theme then [BASIS_THEME] else []) ++ (if some stocks then [BASIS_STOCK] else []) ++
   (if timely then [BASIS_TIME] else [])).

(* @ packages/catalyst/matching.py 81-114 evaluate *)
Definition evaluate_match (item : NewsItem) (c : ThemeContext) (decision_at : datetime)
    (trigger : MatchTrigger) (config : MatchConfig) : option NewsThemeMatch :=
  if match ni_published_at item with Some d => dt_lt decision_at d | None => false end then None
  else
    let '(rule, relevance, stocks, basis) := score item c decision_at config in
    if (relevance <? mc_threshold config) || match basis with [] => true | _ => false end then None
    else if negb (bool_decide (BASIS_STOCK ∈ basis)) && negb (bool_decide (BASIS_TIME ∈ basis)) then None
    else
      Some (mk_NewsThemeMatch (ni_news_id item) (tc_event c) (tc_theme_id c) stocks basis trigger
              (fround rule 4) (fround relevance 4) decision_at).

(* @ packages/catalyst/matching.py 117-138 match_theme_to_news *)
Definition match_theme_to_news (c : ThemeContext) (candidates : list NewsItem)
    (decision_at : datetime) (config : MatchConfig) : list NewsThemeMatch :=
  sorted_by (fun m => (- nm_relevance_score m, nm_news_id m))
    (omap (fun item => evaluate_match item c decision_at THEME_TO_NEWS config) candidates).

(* @ packages/catalyst/matching.py 141-162 match_news_to_events *)
Definition match_news_to_events (item : NewsItem) (contexts : list ThemeContext)
    (decision_at : datetime) (config : MatchConfig) : list NewsThemeMatch :=
  sorted_by (fun m => (- nm_relevance_score m, nm_event_id m))
    (omap (fun c => evaluate_match item c decision_at NEWS_TO_EVENT config) contexts).
End matching.

(** ** [projection.py]: the public views *)

(* @ packages/catalyst/projection.py 10-10 DEFAULT_PAGE_LIMIT *)
Definition DEFAULT_PAGE_LIMIT : Z := 20.

(* @ packages/catalyst/projection.py 13-14 _timestamp *)
Definition JTime (d : option datetime) : json := JOpt (isoformat <$> d).

(* @ packages/catalyst/projection.py 17-28 evidence_item *)
Definition evidence_item (i : CatalystEvidence) : json :=
  JObj [("newsId", JStr (ev_news_id i)); ("sourceName", JStr (ev_publisher i));
        ("title", JStr (ev_title i)); ("publishedAt", JTime (ev_published_at i));
        ("receivedAt", JStr (isoformat (ev_received_at i)));
        ("originalUrl", JStr (ev_original_url i));
        ("matchBasis", JList ((fun b => JStr (MatchBasis_value b)) <$> ev_match_basis i));
        ("summary", JStr (ev_summary i));
        ("qualityFlags", JList (JStr <$> ev_quality_flags i))].

(** The evidence the revision names, in the order given. *)
(* @ packages/catalyst/projection.py 37-37 evidence_list_data *)
Definition selected_evidence (r : EvidenceRevision) (evidence : list CatalystEvidence)
    : list CatalystEvidence :=
  List.filter (fun i => bool_decide (ev_news_id i ∈ er_news_ids r)) evidence.

(* @ packages/catalyst/projection.py 31-48 evidence_list_data *)
Definition evidence_list_data (r : EvidenceRevision) (evidence : list CatalystEvidence) (limit : Z)
    : res (dict string json) :=
  let selected := selected_evidence r evidence in
  let n := Z.of_nat (length selected) in
  let page := if 0 <=? limit then take (Z.to_nat limit) selected
              else take (Z.to_nat (n + limit)) selected in
  next_cursor ← (if limit <? n
                 then match last page with Some i => Ok (JStr (ev_news_id i)) | None => Raise IndexError end
                 else Ok JNull);
  Ok [("eventId", JStr (er_event_id r));
      ("evidenceStatus", JStr (EvidenceStatus_value (er_evidence_status r)));
      ("items", JList (evidence_item <$> page));
      ("page", JObj [("nextCursor", next_cursor); ("hasMore", JBool (limit <? n)); ("limit", JNum limit)])].

Section summary.
(** [str.casefold] *)
Context (casefold : string -> string).

(* @ packages/catalyst/projection.py 51-63 evidence_summary *)
Definition evidence_summary (r : EvidenceRevision) (evidence : list CatalystEvidence) : dict string json :=
  let selected := selected_evidence r evidence in
  [("evidenceStatus", JStr (EvidenceStatus_value (er_evidence_status r)));
   ("summary", JOpt (er_summary r));
   ("sourceCount", JNum (Z.of_nat (length (publishers casefold selected))));
   ("latestPublishedAt",
     match omap ev_published_at selected with
     | [] => JNull
     | d :: ds => JTime (Some (latest_time d ds))
     end)].
End summary.

(** ** The gate limits the rate *)

(** A request to the gate: the context, the time, and whether local evidence exists. *)
Definition gate_input : Type := ThemeContext * datetime * bool.

(** The event and time of each request that was granted, in order. *)
Fixpoint grants (inputs : list gate_input) (g : SupplementalSearchGate) : list (string * datetime) :=
  match inputs with
  | [] => []
  | (c, now, local) :: rest =>
      let '(r, g') := gate_request c now local g in
      match r with Ok (inl q) => [(sq_event_id q, sq_requested_at q)] | _ => [] end ++ grants rest g'
  end.

Definition gate (cooldown : timedelta) (quota : Z) (window : timedelta) : SupplementalSearchGate :=
  mk_SupplementalSearchGate cooldown quota window [] [].

(** What the gate keeps of the grants [log] when the clock stood at [now]: the calls are the
    latest ones, the others are a window old; and the last grant of every event. *)
Record gate_ok (cooldown : timedelta) (quota : Z) (window : timedelta) (now : datetime)
    (log : list (string * datetime)) (g : SupplementalSearchGate) : Prop := {
  go_params : sg_cooldown g = cooldown /\ sg_quota g = quota /\ sg_window g = window;
  go_calls : exists old, log.*2 = old ++ sg_calls g /\
               Forall (fun t => window <= dt_sub now t) old;
  go_past : Forall (fun t => dt_le t now = true) log.*2;
  go_sorted : StronglySorted (fun t u => dt_le t u = true) log.*2;
  go_last : forall e t, (e, t) ∈ log -> exists u, dget e (sg_last_request g) = Some u /\ dt_le t u = true
}.

(** Grants keep the gate's two promises. *)
Definition rate_limited (cooldown : timedelta) (quota : Z) (window : timedelta)
    (log : list (string * datetime)) : Prop :=
  (forall i j e t u, (i < j)%nat -> log !! i = Some (e, t) -> log !! j = Some (e, u) ->
                     cooldown <= dt_sub u t) /\
  (forall i x y, log !! i = Some x -> log !! (i + Z.to_nat quota)%nat = Some y ->
                 window <= dt_sub y.2 x.2).

Lemma filter_suffix (f : datetime -> bool) l :
  (forall pre x post, l = pre ++ x :: post -> f x = true -> forallb f post = true) ->
  exists old, l = old ++ List.filter f l /\ Forall (fun t => f t = false) old.
Proof.
  induction l as [|x l IH]; intros H; [by exists []|]. cbn [List.filter].
  destruct (f x) eqn:E.
  - exists []. split; [|constructor]. cbn. f_equal. symmetry. apply filterb_all.
    pose proof (H [] x l eq_refl E) as Hl. rewrite forallb_forall in Hl.
    intros y Hy. by apply Hl, list_elem_of_In.
  - destruct IH as (old&Hl&Hold).
    { intros pre y post ->. by apply (H (x :: pre)). }
    exists (x :: old). split; [by rewrite <-app_comm_cons, <-Hl|by constructor].
Qed.

Lemma dt_sub_le a b now : dt_le a b = true -> dt_sub now b <= dt_sub now a.
Proof. rewrite dt_le_Z. unfold dt_sub. lia. Qed.

Section gate.
Context (cooldown : timedelta) (quota : Z) (window : timedelta).
Local Notation ok := (gate_ok cooldown quota window).
Local Notation limited := (rate_limited cooldown quota window).

(** Time passes. *)
Lemma gate_ok_later now now' log g : dt_le now now' = true -> ok now log g -> ok now' log g.
Proof.
  intros Hle [Hp (old&Hc&Ho) Hpast Hs Hl]. split; try done.
  - exists old. split; [done|]. eapply Forall_impl; [exact Ho|]. intros t Ht.
    rewrite !dt_le_Z in Hle. unfold dt_sub in *. lia.
  - eapply Forall_impl; [exact Hpast|]. intros t Ht. cbv beta in Ht |- *. rewrite dt_le_Z in Hle, Ht |- *. lia.
Qed.

(** Calls older than the window are forgotten. *)
Lemma gate_ok_trim now log g :
  ok now log g ->
  ok now log (mk_SupplementalSearchGate (sg_cooldown g) (sg_quota g) (sg_window g) (sg_last_request g)
                (List.filter (fun called => dt_sub now called <? sg_window g) (sg_calls g))).
Proof.
  intros [(Hpc&Hpq&Hpw) (old&Hc&Ho) Hpast Hs Hl]. split; try done. cbn [sg_calls].
  destruct (filter_suffix (fun called => dt_sub now called <? sg_window g) (sg_calls g))
    as (old'&Hold&Hf).
  { intros pre x post Heq Hx. rewrite Hc, Heq, app_assoc in Hs.
    apply StronglySorted_app_1_r, StronglySorted_inv in Hs as [_ Hs].
    apply forallb_forall. intros y Hy%list_elem_of_In. rewrite Forall_forall in Hs.
    specialize (Hs _ Hy). apply (dt_sub_le _ _ now) in Hs. lia. }
  exists (old ++ old'). split; [by rewrite Hc, Hold at 1; rewrite app_assoc|].
  apply Forall_app. split; [done|]. eapply Forall_impl; [exact Hf|]. cbn. intros t Ht. lia.
Qed.

(** A grant: what the two tests have seen. *)
Lemma gate_ok_grant now log g e :
  ok now log g -> limited log -> Z.of_nat (length (sg_calls g)) < quota ->
  (forall p, dget e (sg_last_request g) = Some p -> cooldown <= dt_sub now p) ->
  ok now (log ++ [(e, now)])
    (mk_SupplementalSearchGate (sg_cooldown g) (sg_quota g) (sg_window g)
       (dset e now (sg_last_request g)) (sg_calls g ++ [now])) /\
  limited (log ++ [(e, now)]).
Proof.
  intros [Hp (old&Hc&Ho) Hpast Hs Hl] [Hcool Hwin] Hquota Hfree. split.
  - split; cbn [sg_cooldown sg_quota sg_window sg_calls sg_last_request]; try done.
    + exists old. split; [|done]. by rewrite fmap_app, Hc, <-app_assoc.
    + rewrite fmap_app. apply Forall_app. split; [done|]. cbn. by rewrite Forall_singleton, dt_le_Z, Z.leb_refl.
    + rewrite fmap_app. cbn. apply StronglySorted_app_2; [|done|by repeat constructor].
      intros t u Ht ->%list_elem_of_singleton. rewrite Forall_forall in Hpast. by apply Hpast.
    + intros e' t [H|[= -> ->]%list_elem_of_singleton]%elem_of_app.
      * destruct (decide (e' = e)) as [->|Hne]; [|rewrite dget_dset_ne by done; by apply Hl].
        exists now. rewrite dget_dset_eq. split; [done|]. rewrite Forall_forall in Hpast.
        apply Hpast, list_elem_of_fmap. by exists (e, t).
      * exists now. by rewrite dget_dset_eq, dt_le_Z, Z.leb_refl.
  - split.
    + intros i j e' t u Hij Hi Hj. apply lookup_snoc_Some in Hj as [[Hj' Hj]|[Hj' Hj]].
      { apply lookup_snoc_Some in Hi as [[_ Hi]|[Hi' _]]; [by apply (Hcool i j e' t u)|lia]. }
      injection Hj as <- <-. rewrite lookup_app_l in Hi by lia.
      destruct (Hl e t) as (p&Hp'&Htp); [by eapply list_elem_of_lookup_2|].
      specialize (Hfree _ Hp'). apply (dt_sub_le _ _ now) in Htp. lia.
    + intros i x y Hi Hj. apply lookup_snoc_Some in Hj as [[Hj' Hj]|[Hj' <-]].
      { rewrite lookup_app_l in Hi by lia. by apply (Hwin i). }
      assert (length log = (length old + length (sg_calls g))%nat) as Hlen
        by (by rewrite <-(length_fmap snd log), Hc, length_app).
      assert ((log ++ [(e, now)]).*2 !! i = Some x.2) as Hx by (by rewrite list_lookup_fmap, Hi).
      rewrite fmap_app, Hc, <-app_assoc, lookup_app_l in Hx by lia.
      rewrite Forall_lookup in Ho. by apply (Ho i).
Qed.
End gate.

(** The clock of a list of requests does not go back. *)
Definition clock_ok (start : datetime) (inputs : list gate_input) : Prop :=
  StronglySorted (fun t u => dt_le t u = true) (start :: ((fun i => i.1.2) <$> inputs)).

Lemma clock_ok_cons start c now local rest :
  clock_ok start ((c, now, local) :: rest) -> dt_le start now = true /\ clock_ok now rest.
Proof.
  unfold clock_ok. cbn. intros H. apply StronglySorted_inv in H as [H Hall].
  by apply Forall_cons in Hall as [? _].
Qed.

Lemma grants_limited cooldown quota window inputs now log g :
  gate_ok cooldown quota window now log g -> rate_limited cooldown quota window log ->
  clock_ok now inputs -> rate_limited cooldown quota window (log ++ grants inputs g).
Proof.
  revert now log g. induction inputs as [|[[c t] local] rest IH]; intros now log g Hok Hlim Hclock.
  { by rewrite app_nil_r. }
  apply clock_ok_cons in Hclock as [Hle Hclock]. apply (gate_ok_later _ _ _ _ t) in Hok; [|done].
  cbn [grants]. destruct (gate_request c t local g) as [r g'] eqn:E. unfold gate_request in E.
  destruct local; [injection E as <- <-; by eapply IH|].
  destruct (match dget _ _ with Some _ => _ | None => _ end) eqn:Ec;
    [injection E as <- <-; by eapply IH|].
  pose proof (gate_ok_trim _ _ _ _ _ _ Hok) as Htrim. pose proof (go_params _ _ _ _ _ _ Hok) as (Hpc&Hpq&_).
  destruct (Z.leb_spec (sg_quota g)
    (Z.of_nat (length (List.filter (fun called => dt_sub t called <? sg_window g) (sg_calls g)))));
    injection E as <- <-; [by eapply IH|].
  cbn [sq_event_id sq_requested_at]. rewrite app_assoc.
  assert (forall p, dget (tc_event c) (sg_last_request g) = Some p -> cooldown <= dt_sub t p) as Hfree.
  { intros p Hp. rewrite Hp in Ec. lia. }
  destruct (gate_ok_grant _ _ _ _ _ _ (tc_event c) Htrim Hlim) as [Hok' Hlim']; [cbn; lia|done|].
  by apply (IH t).
Qed.

(** However the requests come, as long as the clock does not go back, the gate grants two
    searches of one event only a cooldown apart, and never more than the quota within one
    window: the grant [quota] places after another is at least a window later. *)
Theorem gate_limits_rate cooldown quota window start inputs :
  clock_ok start inputs ->
  rate_limited cooldown quota window (grants inputs (gate cooldown quota window)).
Proof.
  intros Hclock. apply (grants_limited _ _ _ inputs start []); [|by split; intros|done].
  split; [done|by exists []|constructor|constructor|]. by intros e t ?%not_elem_of_nil.
Qed.

(** ** Revisions only grow *)

(** A store reached by recording decisions. *)
Inductive revision_history : EvidenceRevisionStore -> Prop :=
  | revisions_start : revision_history []
  | revisions_step s event_id d now r s' :
      revision_history s -> record_decision event_id d now s = (r, s') -> revision_history s'.

(** Numbered from 1, every entry new, and dated: where a revision names news, its
    confirmation is the time of a revision up to it that named the same news. *)
Record history_ok (e : string) (h : list EvidenceRevision) : Prop := {
  ho_numbered : forall i r, h !! i = Some r -> er_event_id r = e /\ er_revision r = Z.of_nat i + 1;
  ho_changed : forall i r r', h !! i = Some r -> h !! S i = Some r' ->
    (er_evidence_status r, er_summary r, er_news_ids r, er_catalyst_key r) <>
    (er_evidence_status r', er_summary r', er_news_ids r', er_catalyst_key r');
  ho_confirmed : forall i r, h !! i = Some r -> er_news_ids r <> [] ->
    exists j q, (j <= i)%nat /\ h !! j = Some q /\ er_news_ids q = er_news_ids r /\
                er_evidence_confirmed_at r = Some (er_decided_at q)
}.

Lemma unchanged_spec p d :
  unchanged p d = true <->
  (er_evidence_status p, er_summary p, er_news_ids p, er_catalyst_key p) =
  (ed_evidence_status d, ed_summary d, ed_news_ids d, ed_catalyst_key d).
Proof.
  unfold unchanged. rewrite !andb_true_iff, !bool_decide_eq_true. split.
  - by intros [[[-> ->] ->] ->].
  - by intros [= -> -> -> ->].
Qed.

(** The revision a decision makes after the history [h]. *)
Definition revision_of (e : string) (h : list EvidenceRevision) (d : EvidenceDecision) (now : datetime)
    : EvidenceRevision :=
  mk_EvidenceRevision e (Z.of_nat (length h) + 1) (ed_evidence_status d) (ed_summary d) (ed_news_ids d)
    (ed_catalyst_key d) (ed_reason d) (ed_policy_version d) now (confirmed_at (last h) d now).

(** What recording does: nothing, or one more revision of this event. *)
Lemma record_decision_cases e d now s :
  let h := revisions_of e s in
  exists r s', record_decision e d now s = (Ok r, s') /\
    ((last h = Some r /\ unchanged r d = true /\ s' = s) \/
     (match last h with Some p => unchanged p d = false | None => True end /\
      r = revision_of e h d now /\ revisions_of e s' = h ++ [r] /\
      forall e', e' <> e -> revisions_of e' s' = revisions_of e' s)).
Proof.
  intros h. unfold record_decision. fold h.
  assert (match EvidenceRevision_check (revision_of e h d now) with
          | Ok r => r = revision_of e h d now | Raise _ => False end) as Hcheck.
  { unfold EvidenceRevision_check. cbn [er_revision revision_of].
    destruct (Z.ltb_spec (Z.of_nat (length h) + 1) 1); [lia|done]. }
  fold (revision_of e h d now).
  destruct (EvidenceRevision_check _) as [r|]; [|done]. subst r.
  assert (forall s0, revisions_of e (dset e (h ++ [revision_of e h d now]) s0) =
                     h ++ [revision_of e h d now]) as Hnew.
  { intros s0. unfold revisions_of. by rewrite dget_dset_eq. }
  assert (forall e' v s0, e' <> e -> revisions_of e' (dset e v s0) = revisions_of e' s0) as Hother.
  { intros e' v s0 Hne. unfold revisions_of. by rewrite dget_dset_ne. }
  assert (forall e', e' <> e ->
            revisions_of e' (match dget e s with None => dset e [] s | Some _ => s end) = revisions_of e' s)
    as Hset.
  { intros e' Hne. destruct (dget e s); [done|by apply Hother]. }
  destruct (last h) as [p|] eqn:El.
  - assert (dget e s <> None) as Hsome.
    { unfold h, revisions_of in El. by destruct (dget e s). }
    destruct (unchanged p d) eqn:Eu.
    + exists p, s. split; [by destruct (dget e s)|]. by left.
    + eexists _, _. split; [done|]. right. split_and!; [done|done|apply Hnew|].
      intros e' Hne. rewrite Hother by done. by apply Hset.
  - eexists _, _. split; [done|]. right. split_and!; [done|done|apply Hnew|].
    intros e' Hne. rewrite Hother by done. by apply Hset.
Qed.

Lemma history_ok_snoc e h d now :
  history_ok e h -> match last h with Some p => unchanged p d = false | None => True end ->
  history_ok e (h ++ [revision_of e h d now]).
Proof.
  intros [Hn Hc Hf] Hnew. split.
  - intros i r [[Hi Hr]|[-> <-]]%lookup_snoc_Some; [by apply Hn|done].
  - intros i r r' Hr [[Hi' Hr']|[Hi' <-]]%lookup_snoc_Some.
    { rewrite lookup_app_l in Hr by lia. by apply (Hc i). }
    rewrite lookup_app_l in Hr by lia.
    replace (last h) with (Some r) in Hnew by (rewrite last_lookup, <-Hi'; done).
    intros E. apply not_true_iff_false in Hnew. by apply Hnew, unchanged_spec.
  - intros i r [[Hi Hr]|[-> <-]]%lookup_snoc_Some Hnews.
    { destruct (Hf i r Hr Hnews) as (j&q&Hj&Hq&Heq&Hconf). exists j, q.
      split_and!; [done| |done|done]. by apply lookup_app_l_Some. }
    cbn [er_news_ids er_evidence_confirmed_at revision_of] in *. unfold confirmed_at.
    destruct (ed_news_ids d) as [|n0 ns] eqn:Ed; [done|].
    assert (exists j q, (j <= length h)%nat /\ (h ++ [revision_of e h d now]) !! j = Some q /\
              er_news_ids q = n0 :: ns /\ Some now = Some (er_decided_at q)) as Hself.
    { exists (length h), (revision_of e h d now). split_and!; [done|by apply list_lookup_middle|exact Ed|done]. }
    destruct (last h) as [p|] eqn:El; [|done]. case_bool_decide as Ep; [|done]. cbn.
    assert (h !! pred (length h) = Some p) as Hp by (by rewrite <-last_lookup).
    destruct (Hf _ p Hp) as (j&q&Hj&Hq&Heq&Hconf); [by rewrite Ep|].
    exists j, q. split_and!; [lia| |by rewrite Heq|done]. by apply lookup_app_l_Some.
Qed.

Lemma revision_history_ok s : revision_history s -> forall e, history_ok e (revisions_of e s).
Proof.
  induction 1 as [|s e d now r s' _ IH H]; [intros e; by split|].
  destruct (record_decision_cases e d now s) as (r'&s''&E&Hcases). rewrite H in E. injection E as -> ->.
  intros e'. destruct Hcases as [(_&_&->)|(Hnew&->&Hs&Hother)]; [apply IH|].
  destruct (decide (e' = e)) as [->|Hne]; [|by rewrite Hother].
  rewrite Hs. by apply history_ok_snoc.
Qed.

(** C32: The evidence of an event is an append-only history: its revisions are numbered 1, 2,
    3, ..., each differs from the one before, and where it names news it was confirmed when
    that news was first named; recording answers with the current revision when the decision
    says nothing new, and otherwise appends exactly one revision that says what was decided,
    and touches no other event. *)
Theorem revisions_append_only s e d now :
  revision_history s ->
  history_ok e (revisions_of e s) /\
  exists r s', record_decision e d now s = (Ok r, s') /\
    current_revision e s' = Some r /\ unchanged r d = true /\
    (s' = s \/ revisions_of e s' = revisions_of e s ++ [r] /\ er_decided_at r = now) /\
    forall e', e' <> e -> revisions_of e' s' = revisions_of e' s.
Proof.
  intros Hs. split; [by apply revision_history_ok|].
  destruct (record_decision_cases e d now s) as (r&s'&E&Hcases). exists r, s'. split; [done|].
  destruct Hcases as [(Hl&Hu&->)|(_&->&Hrev&Hother)]; [by split_and!; [..|left|]|].
  unfold current_revision. rewrite Hrev, last_snoc. split_and!; [done| |by right|done].
  by apply unchanged_spec.
Qed.

(** Without evidence nothing gets stronger, and what was confirmed stays as it is: the
    current revision is answered and nothing is recorded. *)
Theorem no_evidence_no_change casefold c now p degraded after now' s e :
  current_revision e s = Some p ->
  let d := decide_evidence casefold c [] now (Some p) degraded None after in
  STRENGTH (ed_evidence_status d) <= STRENGTH (er_evidence_status p) /\
  (0 < STRENGTH (er_evidence_status p) -> record_decision e d now' s = (Ok p, s)).
Proof.
  intros Hp d. unfold d, decide_evidence, without_evidence.
  destruct (Z.ltb_spec 0 (STRENGTH (er_evidence_status p))) as [Hpos|Hle].
  - split; [done|]. intros _. unfold current_revision, revisions_of in Hp.
    unfold record_decision, revisions_of. destruct (dget e s) as [h|] eqn:E; [|done]. cbn in Hp |- *.
    by rewrite Hp, (proj2 (unchanged_spec p _)).
  - split; [|lia]. assert (0 <= STRENGTH (er_evidence_status p)) by (by destruct (er_evidence_status p)).
    destruct degraded; [done|]. by destruct (_ <=? _).
Qed.

(** ** What a match says *)

Definition with_trigger (t : MatchTrigger) (m : NewsThemeMatch) : NewsThemeMatch :=
  mk_NewsThemeMatch (nm_news_id m) (nm_event_id m) (nm_theme_id m) (nm_matched_stock_ids m)
    (nm_match_basis m) t (nm_rule_score m) (nm_relevance_score m) (nm_matched_at m).

Lemma evaluate_with_trigger casefold item c at_ t t' config :
  evaluate_match casefold item c at_ t' config =
  with_trigger t' <$> evaluate_match casefold item c at_ t config.
Proof.
  unfold evaluate_match. destruct (match ni_published_at item with Some _ => _ | None => _ end); [done|].
  destruct (score casefold item c at_ config) as [[[rule relevance] stocks] basis].
  destruct (_ || _); [done|]. by destruct (_ && _).
Qed.

Lemma elem_of_matches {A K} `{PyOrdLaws K} (key : NewsThemeMatch -> K) (f : A -> option NewsThemeMatch) l m :
  m ∈ sorted_by key (omap f l) <-> exists x, x ∈ l /\ f x = Some m.
Proof. by rewrite elem_of_sorted_by, list_elem_of_omap. Qed.

(** The two directions of the search agree: looking for the news of each theme and looking
    for the themes of each news item find the same matches with the same scores; only the
    recorded trigger differs. *)
Theorem match_directions_agree casefold config at_ contexts items m :
  nm_trigger m = THEME_TO_NEWS ->
  (exists c, c ∈ contexts /\ m ∈ match_theme_to_news casefold c items at_ config) <->
  (exists item, item ∈ items /\
     with_trigger NEWS_TO_EVENT m ∈ match_news_to_events casefold item contexts at_ config).
Proof.
  intros Ht. split.
  - intros (c&Hc&(item&Hi&E)%elem_of_matches). exists item. split; [done|].
    apply elem_of_matches. exists c. split; [done|].
    by rewrite (evaluate_with_trigger _ _ _ _ THEME_TO_NEWS), E.
  - intros (item&Hi&(c&Hc&E)%elem_of_matches). exists c. split; [done|].
    apply elem_of_matches. exists item. split; [done|].
    rewrite (evaluate_with_trigger _ _ _ _ NEWS_TO_EVENT), E. simpl. f_equal.
    destruct m. cbn in *. by subst.
Qed.

(** The relevance from the six tests, for the weights of the module. *)
Definition relevance_of (theme leaders stocks timely broad entity : bool) : double :=
  let rule := add_if theme THEME_WEIGHT 0 in
  let rule := if leaders then fadd rule LEADER_WEIGHT else add_if stocks RELATED_WEIGHT rule in
  pymin (add_if entity ENTITY_WEIGHT (add_if broad BREADTH_WEIGHT (add_if timely TIME_WEIGHT rule)))
    (of_int 1).

Definition nonempty {A} (l : list A) : bool := match l with [] => false | _ => true end.

Lemma score_parts casefold item c at_ config :
  let stocks := matched_stocks item c in
  let s := score casefold item c at_ config in
  s.1.1.2 = relevance_of (theme_hit casefold item c)
    (nonempty (List.filter (fun i => bool_decide (i ∈ stocks)) (tc_leader_stock_ids c)))
    (nonempty stocks) (time_hit item c at_ config) (2 <=? length stocks)%nat
    (intersects (ni_entities item) (tc_entities c)) /\
  s.1.2 = stocks /\
  s.2 = (if theme_hit casefold item c then [BASIS_THEME] else []) ++
        (if nonempty stocks then [BASIS_STOCK] else []) ++
        (if time_hit item c at_ config then [BASIS_TIME] else []).
Proof. unfold score, relevance_of, nonempty. cbv zeta. cbn [fst snd]. split_and!; reflexivity. Qed.

(** A match never rests on an article of the future, nor on the theme's words alone; what
    it counts comes to the threshold before it is rounded. *)
Theorem matches_are_grounded casefold item c at_ t config m :
  evaluate_match casefold item c at_ t config = Some m ->
  (forall d, ni_published_at item = Some d -> dt_le d at_ = true) /\
  (BASIS_STOCK ∈ nm_match_basis m \/ BASIS_TIME ∈ nm_match_basis m) /\
  (BASIS_STOCK ∈ nm_match_basis m <-> nm_matched_stock_ids m <> []) /\
  exists relevance, mc_threshold config <= relevance /\ nm_relevance_score m = fround relevance 4.
Proof.
  unfold evaluate_match. intros H.
  destruct (match ni_published_at item with Some _ => _ | None => _ end) eqn:Ef; [discriminate H|].
  pose proof (score_parts casefold item c at_ config) as Hs.
  destruct (score casefold item c at_ config) as [[[rule relevance] stocks] basis].
  cbv zeta in Hs. cbn [fst snd] in Hs. destruct Hs as (Hrel&Hst&Hba).
  match type of H with context [if ?x || ?y then _ else _] => destruct (x || y) eqn:Eb; [discriminate H|] end. apply orb_false_iff in Eb as [Hr _].
  match type of H with context [if ?x && ?y then _ else _] => destruct (x && y) eqn:Ex; [discriminate H|] end. apply Some_inj in H. subst m.
  cbn [nm_match_basis nm_matched_stock_ids nm_relevance_score].
  split; [|split; [|split]].
  - intros d Hd. rewrite Hd, dt_lt_Z in Ef. rewrite dt_le_Z. lia.
  - apply andb_false_iff in Ex. by rewrite !negb_false_iff, !bool_decide_eq_true in Ex.
  - clear Hrel Hr. rewrite Hba, Hst, !elem_of_app. unfold nonempty.
    destruct (matched_stocks item c), (theme_hit _ _ _), (time_hit _ _ _ _);
      rewrite ?elem_of_nil, ?list_elem_of_singleton; naive_solver.
  - exists relevance. apply Z.ltb_ge in Hr. by split.
Qed.

(** ** Concrete runs *)

Definition demo_time (m : Z) : datetime := mk_datetime (730000 * us_per_day + minutes m) (Some 0).
Definition demo_context (event : string) : ThemeContext :=
  mk_ThemeContext event "t1" "반도체 관련주" 730001 (demo_time 0) [] ["A"] ["KRX:1"] ["KRX:2"] [] [].

#[local] Abbreviation demo_inputs :=
  [(demo_context "e1", demo_time 0, false); (demo_context "e1", demo_time 5, false);
   (demo_context "e2", demo_time 6, true); (demo_context "e2", demo_time 7, false);
   (demo_context "e3", demo_time 8, false); (demo_context "e3", demo_time 70, false)].

Lemma gate_limits_rate_witness :
  grants demo_inputs (gate (minutes 10) 2 (minutes 60)) =
    [("e1", demo_time 0); ("e2", demo_time 7); ("e3", demo_time 70)] /\
  rate_limited (minutes 10) 2 (minutes 60) (grants demo_inputs (gate (minutes 10) 2 (minutes 60))).
Proof.
  split; [vm_compute; reflexivity|].
  apply (gate_limits_rate (minutes 10) 2 (minutes 60) (demo_time 0) demo_inputs).
  repeat constructor.
Defined.

Definition demo_item : NewsItem :=
  mk_NewsItem "n1" "rss" SRC_RSS "i1" "https://x/1" "https://x/1" "P" "반도체 강세" "" (Some (demo_time 1))
    (demo_time 2) "h" "c" SUMMARY_ALLOWED ING_STORED ["KRX:2"] [] "".

Lemma match_directions_agree_witness :
  exists m, nm_trigger m = THEME_TO_NEWS /\
    m ∈ match_theme_to_news id (demo_context "e1") [demo_item] (demo_time 3) default_config /\
    exists item, item ∈ [demo_item] /\
      with_trigger NEWS_TO_EVENT m ∈
        match_news_to_events id item [demo_context "e1"] (demo_time 3) default_config.
Proof.
  destruct (evaluate_match id demo_item (demo_context "e1") (demo_time 3) THEME_TO_NEWS default_config)
    as [m|] eqn:E; [|vm_compute in E; discriminate E].
  assert (nm_trigger m = THEME_TO_NEWS) as Ht.
  { rewrite (evaluate_with_trigger _ _ _ _ NEWS_TO_EVENT) in E.
    destruct (evaluate_match _ _ _ _ _ _); [|discriminate E]. apply Some_inj in E. by subst m. }
  assert (m ∈ match_theme_to_news id (demo_context "e1") [demo_item] (demo_time 3) default_config) as Hm.
  { apply elem_of_matches. exists demo_item. split; [by apply list_elem_of_singleton|exact E]. }
  exists m. split; [done|]. split; [exact Hm|].
  apply (match_directions_agree id default_config (demo_time 3) [demo_context "e1"] [demo_item] m Ht).
  exists (demo_context "e1"). split; [by apply list_elem_of_singleton|exact Hm].
Defined.

Definition demo_decision (status : EvidenceStatus) (ids : list string) : EvidenceDecision :=
  mk_EvidenceDecision status (Some "s") ids None "r" CATALYST_POLICY_VERSION.
Definition demo_revisions : EvidenceRevisionStore :=
  (record_decision "e1" (demo_decision EV_SINGLE_SOURCE ["n1"]) (demo_time 1) []).2.

Lemma revisions_append_only_witness :
  revision_history demo_revisions /\
  exists r s', record_decision "e1" (demo_decision EV_MULTI_SOURCE_CONFIRMED ["n1"]) (demo_time 2)
                 demo_revisions = (Ok r, s') /\
    er_revision r = 2 /\ er_evidence_confirmed_at r = Some (demo_time 1) /\
    current_revision "e1" s' = Some r.
Proof.
  assert (revision_history demo_revisions) as Hh.
  { apply (revisions_step [] "e1" (demo_decision EV_SINGLE_SOURCE ["n1"]) (demo_time 1)
             (Ok (revision_of "e1" [] (demo_decision EV_SINGLE_SOURCE ["n1"]) (demo_time 1))));
      [constructor|reflexivity]. }
  split; [exact Hh|].
  destruct (revisions_append_only demo_revisions "e1" (demo_decision EV_MULTI_SOURCE_CONFIRMED ["n1"])
              (demo_time 2) Hh) as (_&r&s'&E&Hcur&_).
  exists r, s'. split; [exact E|].
  vm_compute in E. injection E as <- <-. by split_and!.
Defined.
