(* ===== verification/MarketThemes.v ===== *)
(** [packages/pipeline/market.py], the life of the themes of a day: every metric update is
    put to the hysteresis, and what it decides is written as a transition of the theme's
    event. *)
From S2P Require Import Prelude Sha256 PyTime PyDecimal Json Domain ThemeMetrics EventModels Outbox.
From S2P Require Import EventStore EventWriter EventHistory HotState Hysteresis Aggregation.
#[local] Open Scope Z_scope.

(* @ packages/pipeline/market.py 79-79 RANKING_MODEL_VERSION *)
Definition RANKING_MODEL_VERSION : string := "theme-rank-2026.08.1".
(* @ packages/pipeline/market.py 80-80 INTRADAY_CATALYST_KEY *)
Definition INTRADAY_CATALYST_KEY : string := "INTRADAY_STRENGTH".

(** What the constructor is given and nothing changes. *)
(* @ packages/pipeline/market.py 106-132 MarketDataPipeline.__init__ *)
Record PipelineConfig := mk_PipelineConfig {
  pc_market_date : date;
  pc_stream_id : string;
  pc_schema_version : string;
  pc_catalog : VersionedThemeCatalog;
  pc_membership_version : string;
  pc_theme_names : dict string string;
  pc_stock_names : dict string string;
  pc_historical_theme_ids : list string;
  pc_hysteresis_policy : HysteresisPolicy
}.

(** The fields of the pipeline that follow the themes, with the event store they write to. *)
(* @ packages/pipeline/market.py 143-149 MarketDataPipeline.__init__ *)
Record Themes := mk_Themes {
  th_latest_metrics : dict string ThemeMetricUpdate;
  th_hysteresis : dict string HysteresisState;
  th_event_ids : dict string string;
  th_theme_by_event : dict string string;
  th_activated_at : dict string datetime;
  th_input_sequence : Z;
  th_command_sequence : Z;
  th_last_as_of : option datetime;
  th_event_store : MemStore
}.

Definition no_themes (store : MemStore) : Themes := mk_Themes [] [] [] [] [] 0 0 None store.

Definition set_latest_metrics x t :=
  mk_Themes x (th_hysteresis t) (th_event_ids t) (th_theme_by_event t) (th_activated_at t)
    (th_input_sequence t) (th_command_sequence t) (th_last_as_of t) (th_event_store t).
Definition set_hysteresis x t :=
  mk_Themes (th_latest_metrics t) x (th_event_ids t) (th_theme_by_event t)
    (th_activated_at t) (th_input_sequence t) (th_command_sequence t) (th_last_as_of t)
    (th_event_store t).
Definition set_event_ids x t :=
  mk_Themes (th_latest_metrics t) (th_hysteresis t) x (th_theme_by_event t)
    (th_activated_at t) (th_input_sequence t) (th_command_sequence t) (th_last_as_of t)
    (th_event_store t).
Definition set_theme_by_event x t :=
  mk_Themes (th_latest_metrics t) (th_hysteresis t) (th_event_ids t) x (th_activated_at t)
    (th_input_sequence t) (th_command_sequence t) (th_last_as_of t) (th_event_store t).
Definition set_activated_at x t :=
  mk_Themes (th_latest_metrics t) (th_hysteresis t) (th_event_ids t) (th_theme_by_event t)
    x (th_input_sequence t) (th_command_sequence t) (th_last_as_of t) (th_event_store t).
Definition set_input_sequence x t :=
  mk_Themes (th_latest_metrics t) (th_hysteresis t) (th_event_ids t) (th_theme_by_event t)
    (th_activated_at t) x (th_command_sequence t) (th_last_as_of t) (th_event_store t).
Definition set_command_sequence x t :=
  mk_Themes (th_latest_metrics t) (th_hysteresis t) (th_event_ids t) (th_theme_by_event t)
    (th_activated_at t) (th_input_sequence t) x (th_last_as_of t) (th_event_store t).
Definition set_last_as_of x t :=
  mk_Themes (th_latest_metrics t) (th_hysteresis t) (th_event_ids t) (th_theme_by_event t)
    (th_activated_at t) (th_input_sequence t) (th_command_sequence t) x (th_event_store
    t).
Definition set_event_store x t :=
  mk_Themes (th_latest_metrics t) (th_hysteresis t) (th_event_ids t) (th_theme_by_event t)
    (th_activated_at t) (th_input_sequence t) (th_command_sequence t) (th_last_as_of t) x.

(** Reading and changing a field, and running a method of the store. *)
Definition view {A} (f : Themes -> A) : M Themes A := fun t => (Ok (f t), t).
Definition change (f : Themes -> Themes) : M Themes unit := fun t => (Ok tt, f t).
Definition in_store {A} (m : M MemStore A) : M Themes A := fun t =>
  let '(r, s) := m (th_event_store t) in (r, set_event_store s t).

Section pipeline.
Context (cfg : PipelineConfig).

(** Every command takes the next number, also one whose metadata is refused. *)
(* @ packages/pipeline/market.py 841-856 MarketDataPipeline._command_metadata *)
Definition next_metadata (update : ThemeMetricUpdate) (now : datetime) : M Themes EventInputMetadata :=
  _ ← change (fun t => set_command_sequence (th_command_sequence t + 1) t);
  n ← view th_command_sequence;
  lift (EventInputMetadata_check
          (mk_EventInputMetadata (pc_stream_id cfg +:+ ":cmd:" +:+ str_Z n) (pc_stream_id cfg) n
             (pymin (tu_as_of update) now) now (pc_stream_id cfg) None [])).

Definition theme_identity (theme_id : string) : CanonicalEventIdentity :=
  mk_CanonicalEventIdentity (pc_market_date cfg) theme_id INTRADAY_CATALYST_KEY.

(* @ packages/pipeline/market.py 800-817 MarketDataPipeline._create_event *)
Definition create_event (update : ThemeMetricUpdate) (now : datetime) : M Themes string :=
  identity ← lift (CanonicalEventIdentity_check (theme_identity (tu_theme_id update)));
  metadata ← next_metadata update now;
  versions ← lift (EventVersions_check
                     (mk_EventVersions (tmx_calculation_version (tu_metrics update))
                        RANKING_MODEL_VERSION (tu_membership_version update) None));
  command ← lift (CreateEventCommand_check
                    (mk_CreateEventCommand metadata identity
                       (default (tu_theme_id update) (dget (tu_theme_id update) (pc_theme_names cfg)))
                       versions INFOSTOCK_THEME CERT_PROVISIONAL LIVE_ENGINE));
  result ← in_store (write (CmdCreate command));
  mret (ce_event_id (wr_event result)).

(* @ packages/pipeline/market.py 819-839 MarketDataPipeline._transition_event *)
Definition transition_event (event_id : string) (target : LifecycleStatus) (reason : string)
    (update : ThemeMetricUpdate) (now : datetime) : M Themes unit :=
  event ← in_store (read_event event_id);
  match event with
  | None => throw RuntimeError
  | Some event =>
      metadata ← next_metadata update now;
      command ← lift (TransitionLifecycleCommand_check
                        (mk_TransitionLifecycleCommand metadata event_id target
                           (ce_state_version event) reason (hp_version (pc_hysteresis_policy cfg))));
      _ ← in_store (write (CmdTransition command));
      mret tt
  end.

(* @ packages/pipeline/market.py 775-782 MarketDataPipeline._evaluate_theme *)
Definition theme_evaluation (theme_id : string) (coverage : CoverageStatus) (qualifies : option bool)
    (market_closed : bool) (now : datetime) (n : Z) : ActivationEvaluation :=
  mk_ActivationEvaluation (pc_stream_id cfg +:+ ":" +:+ theme_id +:+ ":" +:+ str_Z n) n now
    (hp_version (pc_hysteresis_policy cfg)) coverage qualifies market_closed false.

(** The next evaluation of a theme. *)
(* @ packages/pipeline/market.py 774-782 MarketDataPipeline._evaluate_theme *)
Definition next_evaluation (theme_id : string) (coverage : CoverageStatus) (qualifies : option bool)
    (market_closed : bool) (now : datetime) : M Themes ActivationEvaluation :=
  _ ← change (fun t => set_input_sequence (th_input_sequence t + 1) t);
  n ← view th_input_sequence;
  lift (ActivationEvaluation_check (theme_evaluation theme_id coverage qualifies market_closed now n)).

(* @ packages/pipeline/market.py 769-773 MarketDataPipeline._evaluate_theme *)
Definition qualifies_of (m : ThemeMetrics) : option bool :=
  (fun w => dlt dzero w) <$> tmx_weighted_return m.

(** The event of a theme, created at its first evaluation. *)
(* @ packages/pipeline/market.py 758-762 MarketDataPipeline._evaluate_theme *)
Definition event_of (update : ThemeMetricUpdate) (now : datetime) : M Themes string :=
  known ← view (fun t => dget (tu_theme_id update) (th_event_ids t));
  match known with
  | Some event_id => mret event_id
  | None =>
      event_id ← create_event update now;
      _ ← change (fun t => set_event_ids (dset (tu_theme_id update) event_id (th_event_ids t)) t);
      _ ← change (fun t => set_theme_by_event (dset event_id (tu_theme_id update) (th_theme_by_event t)) t);
      mret event_id
  end.

(* @ packages/pipeline/market.py 764-767 MarketDataPipeline._evaluate_theme *)
Definition theme_state (theme_id : string) : M Themes HysteresisState :=
  known ← view (fun t => dget theme_id (th_hysteresis t));
  match known with
  | Some state => mret state
  | None => lift (candidate theme_id (pc_hysteresis_policy cfg))
  end.

(** The new state is kept before the transition is written. *)
(* @ packages/pipeline/market.py 758-798 MarketDataPipeline._evaluate_theme *)
Definition evaluate_from (update : ThemeMetricUpdate) (now : datetime) : M Themes unit :=
  let theme_id := tu_theme_id update in
  event_id ← event_of update now;
  state ← theme_state theme_id;
  evaluation ← next_evaluation theme_id (cov_status (tmx_coverage (tu_metrics update)))
                 (qualifies_of (tu_metrics update)) false now;
  decision ← lift (evaluate_hysteresis (pc_hysteresis_policy cfg) state evaluation);
  _ ← change (fun t => set_hysteresis (dset theme_id (hd_state decision) (th_hysteresis t)) t);
  match hd_transition decision with
  | None => mret tt
  | Some transition =>
      _ ← (if decide (ht_to_status transition = ACTIVE)
           then change (fun t => if dmem theme_id (th_activated_at t) then t
                                 else set_activated_at (dset theme_id now (th_activated_at t)) t)
           else mret tt);
      transition_event event_id (ht_to_status transition) (ht_reason transition) update now
  end.

(* @ packages/pipeline/market.py 754-757 MarketDataPipeline._evaluate_theme *)
Definition note_as_of (update : ThemeMetricUpdate) (t : Themes) : Themes :=
  if match th_last_as_of t with None => true | Some last => dt_lt last (tu_as_of update) end
  then set_last_as_of (Some (tu_as_of update)) t else t.

(* @ packages/pipeline/market.py 754-798 MarketDataPipeline._evaluate_theme *)
Definition evaluate_theme (update : ThemeMetricUpdate) (now : datetime) : M Themes unit :=
  _ ← change (note_as_of update);
  evaluate_from update now.

(** One theme at the close of the market; what has ended already is left alone. *)
(* @ packages/pipeline/market.py 701-736 MarketDataPipeline.close_market *)
Definition close_theme (now : datetime) (theme_id : string) : M Themes unit :=
  state ← view (fun t => dget theme_id (th_hysteresis t));
  update ← view (fun t => dget theme_id (th_latest_metrics t));
  match state, update with
  | None, _ => mret tt
  | Some state, update =>
      if terminal (hy_lifecycle_status state) then mret tt
      else
        match update with
        | None => throw KeyError
        | Some update =>
            evaluation ← next_evaluation theme_id (cov_status (tmx_coverage (tu_metrics update)))
                           None true now;
            decision ← lift (evaluate_hysteresis (pc_hysteresis_policy cfg) state evaluation);
            _ ← change (fun t => set_hysteresis (dset theme_id (hd_state decision) (th_hysteresis t)) t);
            event_id ← view (fun t => dget theme_id (th_event_ids t));
            match hd_transition decision, event_id with
            | Some transition, Some event_id =>
                transition_event event_id (ht_to_status transition) (ht_reason transition) update now
            | _, _ => mret tt
            end
        end
  end.

(** [for theme_id in sorted(self._latest_metrics): ...] *)
Fixpoint for_each {A S} (f : A -> M S unit) (l : list A) : M S unit :=
  match l with
  | [] => mret tt
  | a :: l => _ ← f a; for_each f l
  end.

(* @ packages/pipeline/market.py 630-631 MarketDataPipeline.publish *)
Definition evaluate_named (now : datetime) (theme_id : string) : M Themes unit :=
  update ← view (fun t => dget theme_id (th_latest_metrics t));
  match update with None => throw KeyError | Some update => evaluate_theme update now end.

(* @ packages/pipeline/market.py 630-631 MarketDataPipeline.publish *)
Definition evaluate_themes (now : datetime) : M Themes unit :=
  themes ← view (fun t => sorted_list (dkeys (th_latest_metrics t)));
  for_each (evaluate_named now) themes.

(* @ packages/pipeline/market.py 700-736 MarketDataPipeline.close_market *)
Definition close_themes (now : datetime) : M Themes unit :=
  themes ← view (fun t => sorted_list (dkeys (th_latest_metrics t)));
  for_each (close_theme now) themes.

(** [for update in self._aggregator.drain(self._hot): self._latest_metrics[...] = update] *)
(* @ packages/pipeline/market.py 624-625 MarketDataPipeline.publish *)
Definition take_updates (updates : list ThemeMetricUpdate) : M Themes unit :=
  change (fun t => set_latest_metrics
                     (fold_left (fun d u => dset (tu_theme_id u) u d) updates (th_latest_metrics t)) t).
End pipeline.

(** ** What one write of the pipeline does *)

(** Events are filed under their own ids. *)
Definition keyed_events (s : MemStore) : Prop :=
  forall i e, dget i (es_events s) = Some e -> ce_event_id e = i.

(** The answer to a new command is filed, and its number becomes the last of its source. *)
Definition answered (command : EventCommand) (r : EventWriteResult) (s1 s' : MemStore) : Prop :=
  exists seqs,
    s' = set_source_sequences seqs
           (set_receipts (dset (command_id command) (receipt_of command r) (es_receipts s1)) s1) /\
    forall k q, dget k seqs = Some q ->
      dget k (es_source_sequences s1) = Some q \/
      k.2 = im_source (command_metadata command) /\
      q <= Z.max (im_source_sequence (command_metadata command))
                 (default 0 (dget k (es_source_sequences s1))).

Lemma write_new command s r s' :
  write command s = (Ok r, s') -> dget (command_id command) (es_receipts s) = None ->
  keyed_events s ->
  exists s1, dispatch command s = (Ok r, s1) /\ es_receipts s1 = es_receipts s /\
             es_source_sequences s1 = es_source_sequences s /\ answered command r s1 s'.
Proof.
  intros [(receipt&Hr&_)|(Hnone&s1&Hd&Hs)]%write_ok Hnew Hkey; [by rewrite Hr in Hnew|].
  exists s1. split; [done|].
  assert (es_receipts s1 = es_receipts s /\ es_source_sequences s1 = es_source_sequences s) as [Hrec Hseq].
  { apply dispatch_ok in Hd as [(i&->&_)|(?&?&?&?&?&->&_)]; [by split..|done]. }
  split_and!; [done|done|].
  apply save_receipt_fresh in Hs as (seqs&->&Hother&Hself); [|by rewrite Hrec].
  cbn [rcp_message_id rcp_event_id rcp_source rcp_source_sequence receipt_of] in *.
  exists seqs. split; [done|]. intros k q Hk.
  destruct (decide (k = (ce_event_id (wr_event r), im_source (command_metadata command)))) as [->|Hne];
    [|left; by rewrite <-Hother].
  right. split; [done|]. rewrite Hself in Hk. injection Hk as <-. 
  destruct (dget _ (es_source_sequences s1)) as [p|]; cbv [from_option id]; lia.
Qed.

(** A create command for an identity that is not taken. *)
Lemma create_new c s r s1 :
  create c s = (Ok r, s1) -> dget (identity_key (cc_identity c)) (es_identities s) = None ->
  let e := new_event c (new_classification c) in
  wr_event r = e /\ dget (ce_event_id e) (es_events s) = None /\
  es_events s1 = dset (ce_event_id e) e (es_events s) /\
  es_identities s1 = dset (identity_key (cc_identity c)) (ce_event_id e) (es_identities s).
Proof.
  intros H Hnone e. unfold create, get_event_by_identity, mem_tx, mem_get_event_by_identity in H.
  apply M_bind_ok in H as (existing&s0&Hget&H). m_inv Hget. rewrite Hnone in Hget. m_inv Hget.
  m_inv H.
  repeat match goal with
    | Hc : EventClassification_check _ = Ok _ |- _ => apply EventClassification_check_id in Hc as ->
    | Hc : CanonicalEvent_check _ = Ok _ |- _ => apply CanonicalEvent_check_id in Hc as ->
    | Hi : insert_event _ _ = _ |- _ => apply insert_event_ok in Hi as (Hnew&_&->)
    | Hl : append_state_log _ _ = _ |- _ => apply append_state_log_ok in Hl as [_ ->]
    | Hq : enqueue_outbox _ _ = _ |- _ => apply enqueue_keeps in Hq as (?&?&->&_)
    end.
  by split_and!.
Qed.

(** A transition of an event that is neither late nor outdated. *)
Lemma transition_new c s r s1 e :
  transition c s = (Ok r, s1) -> dget (tc_event_id c) (es_events s) = Some e ->
  ce_event_id e = tc_event_id c ->
  (forall q, dget (ce_event_id e, im_source (tc_metadata c)) (es_source_sequences s) = Some q ->
             q < im_source_sequence (tc_metadata c)) ->
  tc_expected_state_version c = ce_state_version e ->
  dt_le (ce_changed_at e) (im_occurred_at (tc_metadata c)) = true ->
  tc_target c <> ce_lifecycle_status e ->
  wr_event r = transitioned e c /\
  es_events s1 = dset (tc_event_id c) (transitioned e c) (es_events s) /\
  es_identities s1 = es_identities s.
Proof.
  unfold transition, get_event, mem_tx, mem_get_event. intros H Ee Hid Hseq Hv Hat Hne.
  apply M_bind_ok in H as (x&s0&Hget&H). m_inv Hget. rewrite Ee in H.
  unfold latest_source_sequence, mem_latest_source_sequence in H.
  apply M_bind_ok in H as (latest&s0&Hlat&H). m_inv Hlat.
  apply M_bind_ok in H as (stale&s0&Hst&H). m_inv Hst.
  assert (stale = None) as ->.
  { unfold stale_disposition in Hst.
    destruct (match dget _ _ with Some _ => _ | None => _ end) eqn:El.
    - destruct (dget _ _) as [q|]; [|done]. specialize (Hseq q eq_refl). lia.
    - rewrite Hv, Z.ltb_irrefl in Hst. rewrite dt_lt_Z in Hst. rewrite dt_le_Z in Hat.
      destruct (Z.ltb_spec (instant (im_occurred_at (tc_metadata c))) (instant (ce_changed_at e))); [lia|].
      rewrite bool_decide_eq_false_2 in Hst by done. by injection Hst. }
  m_inv H. unfold apply_update in H. m_inv H.
  repeat match goal with
    | Hc : CanonicalEvent_check _ = Ok _ |- _ => apply CanonicalEvent_check_id in Hc as ->
    | Hi : update_event _ _ _ = _ |- _ => apply update_event_ok in Hi as (_&_&->)
    | Hl : append_state_log _ _ = _ |- _ => apply append_state_log_ok in Hl as [_ ->]
    | Hq : enqueue_outbox _ _ = _ |- _ => apply enqueue_keeps in Hq as (?&?&->&_)
    end.
  cbn [ce_event_id transitioned wr_event]. rewrite Hid. by split_and!.
Qed.

Section in_step.
Context (cfg : PipelineConfig).

Definition command_message (n : Z) : string := pc_stream_id cfg +:+ ":cmd:" +:+ str_Z n.

Lemma command_message_inj n m : command_message n = command_message m -> n = m.
Proof. unfold command_message, str_Z. intros H. by simplify_eq. Qed.

(** The store as this pipeline has left it after [n] commands: its own numbers are used up
    to [n] and none beyond. *)
Record store_ok (n : Z) (s : MemStore) : Prop := {
  so_count : 0 <= n;
  so_keys : keyed_events s;
  so_seq : forall i q, dget (i, pc_stream_id cfg) (es_source_sequences s) = Some q -> q <= n;
  so_fresh : forall m, n < m -> dget (command_message m) (es_receipts s) = None
}.

(** A command of this pipeline with its [n+1]st number. *)
Definition numbered_command (n : Z) (c : EventCommand) : Prop :=
  command_id c = command_message (n + 1) /\ im_source (command_metadata c) = pc_stream_id cfg /\
  im_source_sequence (command_metadata c) = n + 1.

Lemma answered_store n command r s s1 s' :
  store_ok n s -> numbered_command n command -> answered command r s1 s' ->
  es_receipts s1 = es_receipts s -> es_source_sequences s1 = es_source_sequences s ->
  keyed_events s1 -> store_ok (n + 1) s' /\ es_events s' = es_events s1 /\ es_identities s' = es_identities s1.
Proof.
  intros [Hn Hk Hs Hf] (Hid&Hsrc&Hseq) (seqs&->&Hseqs) Hr1 Hs1 Hk1. split; [|done].
  split; [lia|exact Hk1| |].
  - cbn. intros i q Hq. destruct (Hseqs _ _ Hq) as [H|[_ H]].
    + rewrite Hs1 in H. apply Hs in H. lia.
    + rewrite Hs1, Hseq in H. destruct (dget _ (es_source_sequences s)) as [p|] eqn:E.
      * apply Hs in E. cbv [from_option id] in H. lia.
      * cbv [from_option id] in H. lia.
  - cbn. intros m Hm. rewrite Hid, Hr1, dget_dset_ne; [apply Hf; lia|].
    intros E%command_message_inj. lia.
Qed.

Lemma keyed_events_dset e s : keyed_events s -> forall i e', dget i (dset (ce_event_id e) e (es_events s)) = Some e' -> ce_event_id e' = i.
Proof.
  intros Hk i e'. rewrite dget_dset. case_decide as E; [intros [= <-]; by subst|apply Hk].
Qed.

Lemma write_creates n c s r s' :
  store_ok n s -> numbered_command n (CmdCreate c) -> write (CmdCreate c) s = (Ok r, s') ->
  dget (identity_key (cc_identity c)) (es_identities s) = None ->
  let e := new_event c (new_classification c) in
  store_ok (n + 1) s' /\ wr_event r = e /\ dget (ce_event_id e) (es_events s) = None /\
  es_events s' = dset (ce_event_id e) e (es_events s) /\
  es_identities s' = dset (identity_key (cc_identity c)) (ce_event_id e) (es_identities s).
Proof.
  intros Hok Hnum Hw Hid e. pose proof Hnum as (Hmsg&_).
  apply write_new in Hw as (s1&Hd&Hr&Hs&Hans);
    [|rewrite Hmsg; apply (so_fresh _ _ Hok); lia|apply (so_keys _ _ Hok)].
  apply create_new in Hd as (He&Hnew&Hev&Hids); [|done].
  destruct (answered_store _ _ _ _ _ _ Hok Hnum Hans Hr Hs) as (Hok'&E1&E2).
  { unfold keyed_events. rewrite Hev. apply keyed_events_dset, (so_keys _ _ Hok). }
  by rewrite E1, E2.
Qed.

Lemma write_transitions n c s r s' e :
  store_ok n s -> numbered_command n (CmdTransition c) -> write (CmdTransition c) s = (Ok r, s') ->
  dget (tc_event_id c) (es_events s) = Some e -> tc_expected_state_version c = ce_state_version e ->
  dt_le (ce_changed_at e) (im_occurred_at (tc_metadata c)) = true ->
  tc_target c <> ce_lifecycle_status e ->
  store_ok (n + 1) s' /\ es_events s' = dset (tc_event_id c) (transitioned e c) (es_events s) /\
  es_identities s' = es_identities s.
Proof.
  intros Hok Hnum Hw He Hv Hat Hne. pose proof Hnum as (Hmsg&Hsrc&Hseq).
  pose proof (so_keys _ _ Hok _ _ He) as Hid.
  apply write_new in Hw as (s1&Hd&Hr&Hs&Hans);
    [|rewrite Hmsg; apply (so_fresh _ _ Hok); lia|apply (so_keys _ _ Hok)].
  apply (transition_new _ _ _ _ e) in Hd as (_&Hev&Hids); try done.
  - destruct (answered_store _ _ _ _ _ _ Hok Hnum Hans Hr Hs) as (Hok'&E1&E2).
    { unfold keyed_events. rewrite Hev. intros i e'. rewrite dget_dset.
      case_decide as Ei; [intros [= <-]; cbn; congruence|apply (so_keys _ _ Hok)]. }
    by rewrite E1, E2.
  - intros q Hq. simpl in Hsrc, Hseq. rewrite Hsrc in Hq. apply (so_seq _ _ Hok) in Hq. lia.
Qed.

(** The pipeline's picture of the themes agrees with the store: a theme with an event has
    the event of its identity, and the hysteresis of the theme stands where the event does. *)
Definition in_step (t : Themes) : Prop :=
  forall theme event_id, dget theme (th_event_ids t) = Some event_id ->
  event_id = identity_event_id (theme_identity cfg theme) /\
  exists e, dget event_id (es_events (th_event_store t)) = Some e /\
    ce_canonical_theme_id e = theme /\ ce_market_date e = pc_market_date cfg /\
    ce_lifecycle_status e =
      match dget theme (th_hysteresis t) with Some s => hy_lifecycle_status s | None => CANDIDATE end.

(** The themes of the day; distinct ones have events of distinct ids. *)
Variable names : list string.
Hypothesis names_distinct : NoDup ((fun theme => identity_event_id (theme_identity cfg theme)) <$> names).

Definition theme_key (theme : string) : string := identity_key (theme_identity cfg theme).

Lemma event_id_inj a b :
  a ∈ names -> b ∈ names ->
  identity_event_id (theme_identity cfg a) = identity_event_id (theme_identity cfg b) -> a = b.
Proof. intros Ha Hb E. by eapply (NoDup_key_inj (fun theme => identity_event_id (theme_identity cfg theme))). Qed.

Lemma theme_key_inj a b : a ∈ names -> b ∈ names -> theme_key a = theme_key b -> a = b.
Proof.
  intros Ha Hb E. apply event_id_inj; [done|done|]. unfold identity_event_id. by f_equal.
Qed.

(** What every run keeps, besides: no change of an event is later than the clock, or than the
    numbers its theme was last seen with. *)
Record themes_ok (clock : datetime) (t : Themes) : Prop := {
  tk_store : store_ok (th_command_sequence t) (th_event_store t);
  tk_step : in_step t;
  tk_latest : forall theme u, dget theme (th_latest_metrics t) = Some u ->
                tu_theme_id u = theme /\ theme ∈ names;
  tk_known : forall theme, theme ∈ names -> dget theme (th_event_ids t) = None ->
               dget (theme_key theme) (es_identities (th_event_store t)) = None;
  tk_event : forall theme event_id e, dget theme (th_event_ids t) = Some event_id ->
               dget event_id (es_events (th_event_store t)) = Some e ->
               dt_le (ce_changed_at e) clock = true /\
               exists u, dget theme (th_latest_metrics t) = Some u /\
                         dt_le (ce_changed_at e) (tu_as_of u) = true;
  tk_hysteresis : forall theme, is_Some (dget theme (th_hysteresis t)) ->
                    is_Some (dget theme (th_event_ids t))
}.

Lemma tk_name clock t theme event_id :
  themes_ok clock t -> dget theme (th_event_ids t) = Some event_id -> theme ∈ names.
Proof.
  intros Hok H. destruct (tk_step _ _ Hok _ _ H) as (_&e&He&_).
  destruct (tk_event _ _ Hok _ _ _ H He) as (_&u&Hu&_). by apply (tk_latest _ _ Hok) in Hu as [_ Hu].
Qed.

(** Time passes. *)
Lemma themes_ok_later clock now t : dt_le clock now = true -> themes_ok clock t -> themes_ok now t.
Proof.
  intros Hle [H1 H2 H3 H4 H5 H6]. split; try done. intros theme i e Hi He.
  destruct (H5 _ _ _ Hi He) as [Hc Hu]. split; [|done]. rewrite dt_le_Z in Hle, Hc |- *. lia.
Qed.

(** A state whose themes, events and numbers are those of another. *)
Lemma themes_ok_same clock t t' :
  themes_ok clock t ->
  th_latest_metrics t' = th_latest_metrics t -> th_hysteresis t' = th_hysteresis t ->
  th_event_ids t' = th_event_ids t -> th_command_sequence t' = th_command_sequence t ->
  th_event_store t' = th_event_store t -> themes_ok clock t'.
Proof.
  intros [H1 H2 H3 H4 H5 H6] E1 E2 E3 E4 E5.
  split; unfold in_step in *; rewrite ?E1, ?E2, ?E3, ?E4, ?E5; done.
Qed.

(** The occurrence of a command is not after the numbers it rests on, nor after now. *)
Lemma occurred_le u now :
  dt_le (pymin (tu_as_of u) now) now = true /\ dt_le (pymin (tu_as_of u) now) (tu_as_of u) = true.
Proof.
  unfold pymin. rewrite !dt_le_Z. destruct (pylt now (tu_as_of u)) eqn:E; rewrite pylt_dt in E; lia.
Qed.

(** Inverts a run of the pipeline's own steps. *)
Lemma view_ok {A} (f : Themes -> A) t a t' : view f t = (Ok a, t') <-> a = f t /\ t' = t.
Proof. unfold view. naive_solver. Qed.
Lemma change_ok f t u t' : change f t = (Ok u, t') <-> t' = f t.
Proof. unfold change. destruct u. naive_solver. Qed.
Lemma in_store_ok {A} (m : M MemStore A) t a t' :
  in_store m t = (Ok a, t') <-> exists s, m (th_event_store t) = (Ok a, s) /\ t' = set_event_store s t.
Proof. unfold in_store. destruct (m _) as [r s]. naive_solver. Qed.


Ltac t_inv H :=
  cbv beta in H;
  lazymatch type of H with
  | (mbind _ _) _ = (Ok _, _) =>
      let H' := fresh "Hm" in
      apply M_bind_ok in H as (?&?&H'&H); t_inv H'; t_inv H
  | view _ _ = _ => apply view_ok in H as [-> ->]
  | change _ _ = _ => apply change_ok in H as ->
  | in_store _ _ = _ => apply in_store_ok in H as (?&H&->)
  | lift _ _ = _ => apply lift_ok in H as [H ->]
  | mret _ _ = _ => apply mret_ok in H as [-> ->]
  | _ => idtac
  end.

Lemma checks_keep {A} (r : res unit) (x y : A) : (_ ← r; Ok x) = Ok y -> y = x.
Proof. intros (?&_&[= <-])%res_bind_ok. done. Qed.

Lemma next_metadata_ok u now t m t' :
  next_metadata cfg u now t = (Ok m, t') ->
  t' = set_command_sequence (th_command_sequence t + 1) t /\
  m = mk_EventInputMetadata (command_message (th_command_sequence t + 1)) (pc_stream_id cfg)
        (th_command_sequence t + 1) (pymin (tu_as_of u) now) now (pc_stream_id cfg) None [].
Proof.
  unfold next_metadata. intros H. t_inv H. split; [done|].
  unfold EventInputMetadata_check in H. by do 7 apply res_bind_ok in H as (?&_&H); injection H as <-.
Qed.

Lemma create_event_ok u now t event_id t' :
  create_event cfg u now t = (Ok event_id, t') ->
  exists c r s', write (CmdCreate c) (th_event_store t) = (Ok r, s') /\
    numbered_command (th_command_sequence t) (CmdCreate c) /\
    cc_identity c = theme_identity cfg (tu_theme_id u) /\
    im_occurred_at (cc_metadata c) = pymin (tu_as_of u) now /\
    event_id = ce_event_id (wr_event r) /\
    t' = set_event_store s' (set_command_sequence (th_command_sequence t + 1) t).
Proof.
  unfold create_event. intros H.
  apply M_bind_ok in H as (identity&t1&Hi&H). apply lift_ok in Hi as [Hi ->].
  apply M_bind_ok in H as (metadata&t2&Hm&H). apply next_metadata_ok in Hm as [-> ->].
  apply M_bind_ok in H as (versions&t3&Hv&H). apply lift_ok in Hv as [Hv ->].
  apply M_bind_ok in H as (command&t4&Hc&H). apply lift_ok in Hc as [Hc ->].
  apply M_bind_ok in H as (r&t5&Hw&H). apply in_store_ok in Hw as (s'&Hw&->).
  apply mret_ok in H as [-> ->]. apply checks_keep in Hi as ->, Hc as ->.
  eexists _, r, s'. split; [exact Hw|]. by split_and!.
Qed.

(** The event of a theme, found or created. *)
Lemma event_of_ok u now t event_id t' :
  event_of cfg u now t = (Ok event_id, t') -> themes_ok now t ->
  dget (tu_theme_id u) (th_latest_metrics t) = Some u ->
  themes_ok now t' /\ dget (tu_theme_id u) (th_event_ids t') = Some event_id /\
  th_latest_metrics t' = th_latest_metrics t /\ th_hysteresis t' = th_hysteresis t.
Proof.
  unfold event_of. intros H Hok Hu.
  apply M_bind_ok in H as (known&t1&Hk&H). apply view_ok in Hk as [-> ->].
  destruct (dget (tu_theme_id u) (th_event_ids t)) as [known|] eqn:Ek.
  { apply mret_ok in H as [-> ->]. by split_and!. }
  apply M_bind_ok in H as (i&t1&Hc&H). t_inv H.
  apply create_event_ok in Hc as (c&r&s'&Hw&Hnum&Hid&Hocc&->&->).
  destruct (tk_latest _ _ Hok _ _ Hu) as [_ Hname].
  pose proof (tk_known _ _ Hok _ Hname Ek) as Hfree.
  destruct (write_creates _ _ _ _ _ (tk_store _ _ Hok) Hnum Hw) as (Hs&Her&Hnew&Hev&Hids);
    [by rewrite Hid|].
  set (theme := tu_theme_id u) in *. set (e := new_event c (new_classification c)) in *.
  assert (ce_event_id e = identity_event_id (theme_identity cfg theme)) as Heid by (cbn; by rewrite Hid).
  rewrite Her. destruct (occurred_le u now) as [Hnow Has].
  assert (forall th i, dget th (th_event_ids t) = Some i -> i <> ce_event_id e) as Hother.
  { intros th i Hi ->. destruct (tk_step _ _ Hok _ _ Hi) as (_&e0&He0&_). by rewrite Hnew in He0. }
  split; [|by cbn; rewrite dget_dset_eq].
  destruct Hok as [H1 H2 H3 H4 H5 H6]. split; cbn.
  - exact Hs.
  - intros th i. cbn. rewrite dget_dset, Hev. case_decide as E; [intros [= <-]; subst th|].
    + split; [done|]. exists e. rewrite dget_dset_eq. split; [done|].
      unfold e, new_event. cbn. rewrite Hid. split_and!; [done|done|].
      destruct (dget theme (th_hysteresis t)) eqn:Eh; [|done].
      assert (is_Some (dget theme (th_event_ids t))) as [? Hx] by (apply H6; by rewrite Eh). congruence.
    + intros Hi. destruct (H2 _ _ Hi) as (Hi'&e0&He0&Hrest). split; [done|]. exists e0.
          rewrite dget_dset_ne by (apply not_eq_sym, (Hother _ _ Hi)). done.
  - exact H3.
  - intros th Hth. rewrite dget_dset, Hids. case_decide as E; [done|]. intros Hi.
    rewrite dget_dset_ne; [by apply H4|]. rewrite Hid. intros Ek'. apply E.
    by apply theme_key_inj.
  - intros th i e0. rewrite dget_dset, Hev. case_decide as E.
    + subst th. intros [= <-]. rewrite dget_dset_eq. intros [= <-].
      unfold e, new_event. cbn. rewrite Hocc. split; [done|]. by exists u.
    + intros Hi. rewrite dget_dset_ne by (apply not_eq_sym, (Hother _ _ Hi)). by apply H5.
  - intros th Hh. rewrite dget_dset. case_decide; [done|]. by apply H6.
Qed.

Lemma transition_event_ok event_id target reason u now t t' e :
  transition_event cfg event_id target reason u now t = (Ok tt, t') ->
  store_ok (th_command_sequence t) (th_event_store t) ->
  dget event_id (es_events (th_event_store t)) = Some e ->
  dt_le (ce_changed_at e) (pymin (tu_as_of u) now) = true -> target <> ce_lifecycle_status e ->
  exists s' c, t' = set_event_store s' (set_command_sequence (th_command_sequence t + 1) t) /\
    store_ok (th_command_sequence t + 1) s' /\ tc_target c = target /\
    im_occurred_at (tc_metadata c) = pymin (tu_as_of u) now /\
    es_events s' = dset event_id (transitioned e c) (es_events (th_event_store t)) /\
    es_identities s' = es_identities (th_event_store t).
Proof.
  unfold transition_event. intros H Hok He Hat Hne.
  apply M_bind_ok in H as (found&t1&Hr&H). apply in_store_ok in Hr as (s0&Hr&->).
  unfold read_event, mem_store, mem_read_event in Hr. apply gets_ok in Hr as [-> ->].
  rewrite He in H.
  apply M_bind_ok in H as (metadata&t2&Hm&H). apply next_metadata_ok in Hm as [-> ->].
  apply M_bind_ok in H as (c&t3&Hc&H). apply lift_ok in Hc as [Hc ->].
  apply M_bind_ok in H as (r&t5&Hw&H). apply in_store_ok in Hw as (s'&Hw&->).
  apply mret_ok in H as [_ ->]. cbn [th_event_store th_command_sequence set_event_store set_command_sequence] in *.
  unfold TransitionLifecycleCommand_check in Hc. do 2 apply res_bind_ok in Hc as (?&_&Hc).
  match type of Hc with Ok ?c0 = _ => assert (c = c0) as Ec by congruence end. clear Hc.
  assert (numbered_command (th_command_sequence t) (CmdTransition c) /\ tc_event_id c = event_id /\
          tc_target c = target /\ tc_expected_state_version c = ce_state_version e /\
          im_occurred_at (tc_metadata c) = pymin (tu_as_of u) now) as (Hnum&Hid&Ht&Hv&Ho)
    by (subst c; by split_and!).
  apply (write_transitions (th_command_sequence t) _ _ _ _ e) in Hw as (Hs&Hev&Hids);
    rewrite ?Hid, ?Ht, ?Ho in *; try done.
  by exists s', c.
Qed.

(** The theme's state has moved on, and nothing else. *)
Definition moved (theme : string) (state : HysteresisState) (t t1 : Themes) : Prop :=
  th_latest_metrics t1 = th_latest_metrics t /\ th_event_ids t1 = th_event_ids t /\
  th_command_sequence t1 = th_command_sequence t /\ th_event_store t1 = th_event_store t /\
  th_hysteresis t1 = dset theme state (th_hysteresis t).

(** Where the theme's event stands. *)
Definition standing (theme : string) (t : Themes) : LifecycleStatus :=
  match dget theme (th_hysteresis t) with Some s => hy_lifecycle_status s | None => CANDIDATE end.

Lemma standing_moved theme state t t1 th :
  moved theme state t t1 ->
  standing th t1 = if decide (th = theme) then hy_lifecycle_status state else standing th t.
Proof.
  intros (_&_&_&_&E). unfold standing. rewrite E, dget_dset.
  destruct (decide (theme = th)) as [->|Hne]; [by rewrite decide_True|by rewrite decide_False].
Qed.

(** Without a transition the event is where the theme is. *)
Lemma moved_still now theme state t t1 event_id :
  themes_ok now t -> dget theme (th_event_ids t) = Some event_id -> moved theme state t t1 ->
  hy_lifecycle_status state = standing theme t -> themes_ok now t1.
Proof.
  intros [H1 H2 H3 H4 H5 H6] Hid Hm Hsame. pose proof (fun th => standing_moved _ _ _ _ th Hm) as Hst.
  destruct Hm as (E1&E2&E3&E4&E5). split; rewrite ?E1, ?E2, ?E3, ?E4; try done.
  - intros th i. rewrite E2, E4. intros Hi. destruct (H2 _ _ Hi) as (Hi'&e&He&Ht&Hd&Hl).
    split; [done|]. exists e. split_and!; try done. fold (standing th t1).
    rewrite Hst. case_decide as E; [rewrite Hsame, <-E; exact Hl|exact Hl].
  - intros th. rewrite E5, dget_dset. case_decide as E; [|apply H6]. subst th. intros _. by eexists.
Qed.

(** With one, the event follows. *)
Lemma moved_follows u now state t t1 t' event_id reason :
  themes_ok now t -> dget (tu_theme_id u) (th_latest_metrics t) = Some u ->
  dget (tu_theme_id u) (th_event_ids t) = Some event_id -> moved (tu_theme_id u) state t t1 ->
  hy_lifecycle_status state <> standing (tu_theme_id u) t ->
  transition_event cfg event_id (hy_lifecycle_status state) reason u now t1 = (Ok tt, t') ->
  themes_ok now t'.
Proof.
  intros Hok Hu Hid Hm Hne H. set (theme := tu_theme_id u) in *.
  pose proof (fun th => standing_moved _ _ _ _ th Hm) as Hst. destruct Hm as (E1&E2&E3&E4&E5).
  destruct (tk_step _ _ Hok _ _ Hid) as (Hid'&e&He&Hth&Hd&Hl).
  destruct (tk_event _ _ Hok _ _ _ Hid He) as (Hclock&u'&Hu'&Has).
  rewrite Hu in Hu'. injection Hu' as <-.
  apply (transition_event_ok _ _ _ _ _ _ _ e) in H as (s'&c&->&Hs&Htarget&Hocc&Hev&Hids);
    [|by rewrite E3, E4; apply (tk_store _ _ Hok)|by rewrite E4| |by rewrite Hl].
  2: { rewrite dt_le_Z in *. unfold pymin. destruct (pylt now (tu_as_of u)); lia. }
  destruct Hok as [H1 H2 H3 H4 H5 H6]. destruct (occurred_le u now) as [Hnow Hasof].
  assert (forall th i, dget th (th_event_ids t) = Some i -> th <> theme -> event_id <> i) as Hother.
  { intros th i Hi Hne' ->. destruct (H2 _ _ Hi) as (_&e0&He0&Hth0&_). congruence. }
  split; cbn; rewrite ?E1, ?E2, ?E3.
  - by rewrite <-E3.
  - intros th i. cbn. rewrite E2. intros Hi. destruct (H2 _ _ Hi) as (Hi'&e0&He0&Ht0&Hd0&Hl0).
    split; [done|]. rewrite Hev, E4. fold (standing th t1). rewrite Hst.
    case_decide as E.
    + rewrite E in Hi |- *. assert (i = event_id) as -> by congruence. exists (transitioned e c).
      rewrite dget_dset_eq. cbn. by rewrite Htarget, Hth.
    + exists e0. rewrite dget_dset_ne by (by apply (Hother th)). done.
  - done.
  - intros th Hth' Hi. rewrite Hids, E4. by apply H4.
  - intros th i e0. rewrite Hev, E4. intros Hi. destruct (decide (th = theme)) as [->|Hne'].
    + assert (i = event_id) as -> by congruence. rewrite dget_dset_eq. intros [= <-].
      cbn. rewrite Hocc. split; [done|]. by exists u.
    + rewrite dget_dset_ne by (by apply (Hother th)). by apply H5.
  - intros th. rewrite E5, dget_dset. case_decide as E; [|apply H6]. subst th. intros _. by eexists.
Qed.

Lemma targets_differ a b : b ∈ lifecycle_targets a -> b <> a.
Proof.
  assert (forall c, bool_decide (c ∈ lifecycle_targets c) = false) as Hc by (by intros []).
  intros H ->. specialize (Hc a). by rewrite bool_decide_eq_true_2 in Hc.
Qed.

Lemma next_evaluation_ok theme coverage qualifies closed now t e t' :
  next_evaluation cfg theme coverage qualifies closed now t = (Ok e, t') ->
  t' = set_input_sequence (th_input_sequence t + 1) t.
Proof. unfold next_evaluation. intros H. by t_inv H. Qed.

Lemma theme_state_ok theme t s t' :
  theme_state cfg theme t = (Ok s, t') -> t' = t /\ hy_lifecycle_status s = standing theme t.
Proof.
  unfold theme_state, standing. intros H. apply M_bind_ok in H as (x&t1&Hv&H).
  apply view_ok in Hv as [-> ->]. destruct (dget theme (th_hysteresis t)); t_inv H; [done|].
  by apply HysteresisState_check_id in H as ->.
Qed.

(** The decision on a theme, and the event with it. *)
Lemma themes_decided_ok u now state e d t t1 t' event_id :
  themes_ok now t -> dget (tu_theme_id u) (th_latest_metrics t) = Some u ->
  dget (tu_theme_id u) (th_event_ids t) = Some event_id ->
  hy_lifecycle_status state = standing (tu_theme_id u) t ->
  evaluate_hysteresis (pc_hysteresis_policy cfg) state e = Ok d ->
  moved (tu_theme_id u) (hd_state d) t t1 ->
  match hd_transition d with
  | None => t' = t1
  | Some tr => exists t2, moved (tu_theme_id u) (hd_state d) t t2 /\
      transition_event cfg event_id (ht_to_status tr) (ht_reason tr) u now t2 = (Ok tt, t')
  end -> themes_ok now t'.
Proof.
  intros Hok Hu Hid Hst He Hm H. apply transitions_are_reported in He as [_ He].
  destruct (hd_transition d) as [tr|].
  - destruct He as (_&Hfrom&Hto&Htarget&_), H as (t2&Hm2&H). rewrite Hto in H.
    apply (moved_follows u now (hd_state d) t t2 t' event_id (ht_reason tr)); try done.
    rewrite <-Hto, <-Hst, <-Hfrom. by apply targets_differ.
  - destruct He as [_ He]. subst t'. apply (moved_still now (tu_theme_id u) (hd_state d) t t1 event_id); try done.
    by rewrite He, Hst.
Qed.

Lemma evaluate_theme_ok u now t t' :
  evaluate_theme cfg u now t = (Ok tt, t') -> themes_ok now t ->
  dget (tu_theme_id u) (th_latest_metrics t) = Some u -> themes_ok now t'.
Proof.
  unfold evaluate_theme. intros H Hok Hu.
  apply M_bind_ok in H as ([]&t0&Hc&H). apply change_ok in Hc.
  assert (themes_ok now t0 /\ th_latest_metrics t0 = th_latest_metrics t) as [Hok0 Hl0].
  { subst t0. unfold note_as_of. destruct (match th_last_as_of t with Some _ => _ | None => _ end); [|done].
    split; [by apply (themes_ok_same _ t)|done]. }
  unfold evaluate_from in H.
  apply M_bind_ok in H as (event_id&t1&He&H). rewrite <-Hl0 in Hu.
  apply event_of_ok in He as (Hok1&Hid&Hl1&Hh1); [|done|done].
  apply M_bind_ok in H as (state&t2&Hs&H). apply theme_state_ok in Hs as [-> Hst].
  apply M_bind_ok in H as (e&t2&Hn&H). apply next_evaluation_ok in Hn as ->.
  apply M_bind_ok in H as (d&t3&Hd&H). apply lift_ok in Hd as [Hd ->].
  apply M_bind_ok in H as ([]&t3&Hc3&H). apply change_ok in Hc3. rewrite <-Hl1 in Hu.
  assert (moved (tu_theme_id u) (hd_state d) t1 t3) as Hm by (by subst t3).
  apply (themes_decided_ok u now state e d t1 t3 t' event_id); try done.
  destruct (hd_transition d) as [tr|]; [|by apply mret_ok in H as [_ ->]].
  apply M_bind_ok in H as ([]&t4&Ha&H). exists t4. split; [|done].
  destruct (decide (ht_to_status tr = ACTIVE)); [|by apply mret_ok in Ha as [_ ->]].
  apply change_ok in Ha. subst t4. by destruct (dmem _ (th_activated_at t3)).
Qed.

Lemma close_theme_ok theme now t t' :
  close_theme cfg now theme t = (Ok tt, t') -> themes_ok now t -> themes_ok now t'.
Proof.
  unfold close_theme. intros H Hok.
  apply M_bind_ok in H as (state&t1&Hv&H). apply view_ok in Hv as [-> ->].
  apply M_bind_ok in H as (update&t1&Hv&H). apply view_ok in Hv as [-> ->].
  destruct (dget theme (th_hysteresis t)) as [state|] eqn:Es; [|by apply mret_ok in H as [_ ->]].
  destruct (terminal (hy_lifecycle_status state)); [by apply mret_ok in H as [_ ->]|].
  destruct (dget theme (th_latest_metrics t)) as [u|] eqn:Eu; [|done].
  destruct (tk_latest _ _ Hok _ _ Eu) as [<- Hname].
  apply M_bind_ok in H as (e&t1&Hn&H). apply next_evaluation_ok in Hn as ->.
  apply M_bind_ok in H as (d&t2&Hd&H). apply lift_ok in Hd as [Hd ->].
  apply M_bind_ok in H as ([]&t3&Hc3&H). apply change_ok in Hc3.
  apply M_bind_ok in H as (known&t4&Hv&H). apply view_ok in Hv as [-> ->].
  destruct (tk_hysteresis _ _ Hok (tu_theme_id u)) as [event_id Hid]; [by rewrite Es|].
  assert (moved (tu_theme_id u) (hd_state d) t t3) as Hm by (by subst t3).
  assert (th_event_ids t3 = th_event_ids t) as E3 by apply Hm. rewrite E3, Hid in H.
  apply (themes_decided_ok u now state e d t t3 t' event_id); try done; [by unfold standing; rewrite Es|].
  destruct (hd_transition d) as [tr|]; [by exists t3|by apply mret_ok in H as [_ ->]].
Qed.

(** ** Runs of a day *)

(** The steps of the day that succeed, in any order: metric updates are taken over, themes are
    evaluated and closed, and the store's outbox is delivered.  The clock does not go back,
    and neither does the [as_of] of a theme's updates. *)
Inductive themes_run : datetime -> Themes -> Prop :=
  | run_start clock store :
      store_ok 0 store ->
      (forall theme, theme ∈ names -> dget (theme_key theme) (es_identities store) = None) ->
      themes_run clock (no_themes store)
  | run_take clock t updates t' :
      themes_run clock t ->
      Forall (fun u => tu_theme_id u ∈ names /\
                       forall p, dget (tu_theme_id u) (th_latest_metrics t) = Some p ->
                                 dt_le (tu_as_of p) (tu_as_of u) = true) updates ->
      take_updates updates t = (Ok tt, t') -> themes_run clock t'
  | run_evaluate clock now theme t t' :
      themes_run clock t -> dt_le clock now = true -> evaluate_named cfg now theme t = (Ok tt, t') ->
      themes_run now t'
  | run_close clock now theme t t' :
      themes_run clock t -> dt_le clock now = true -> close_theme cfg now theme t = (Ok tt, t') ->
      themes_run now t'
  | run_deliver clock t s :
      themes_run clock t -> redelivered (th_event_store t) s -> themes_run clock (set_event_store s t).

Lemma take_updates_latest updates d theme u :
  dget theme (fold_left (fun d u => dset (tu_theme_id u) u d) updates d) = Some u ->
  u ∈ updates /\ tu_theme_id u = theme \/ dget theme d = Some u.
Proof.
  revert d; induction updates as [|v updates IH]; intros d; [by right|]. cbn [fold_left].
  intros [[Hu Ht]|H]%IH; [left; split; [by right|done]|].
  rewrite dget_dset in H. case_decide as E; [|by right]. injection H as <-. left. by split; [left|].
Qed.

Lemma take_updates_keeps updates d theme :
  is_Some (dget theme d) ->
  is_Some (dget theme (fold_left (fun d u => dset (tu_theme_id u) u d) updates d)).
Proof.
  revert d; induction updates as [|v updates IH]; intros d H; [done|]. apply IH.
  rewrite dget_dset. by case_decide.
Qed.

Lemma themes_run_ok clock t : themes_run clock t -> themes_ok clock t.
Proof.
  induction 1 as [clock store Hs Hids|clock t updates t' _ Hok Hup H|clock now theme t t' _ Hok Hle H
    |clock now theme t t' _ Hok Hle H|clock t s _ Hok Hs].
  - split; [done|done|done| |done|by intros th []]. intros th Hth _. by apply Hids.
  - unfold take_updates in H. apply change_ok in H as ->. rewrite Forall_forall in Hup.
    destruct Hok as [H1 H2 H3 H4 H5 H6]. split; try done; cbn.
    + intros th u [[Hu Ht]|Hu]%take_updates_latest; [|by apply H3]. split; [done|].
      rewrite <-Ht. by apply Hup.
    + intros th i e Hi He. destruct (H5 _ _ _ Hi He) as (Hc&p&Hp&Has). split; [done|].
      destruct (take_updates_keeps updates (th_latest_metrics t) th) as [u Hu]; [by rewrite Hp|].
      exists u. split; [done|]. apply take_updates_latest in Hu as [[Hin Ht]|Hu]; [|by simplify_eq].
      destruct (Hup _ Hin) as [_ Hle]. rewrite Ht in Hle. specialize (Hle _ Hp).
      rewrite dt_le_Z in *. lia.
  - unfold evaluate_named in H. apply M_bind_ok in H as (u&t1&Hv&H). apply view_ok in Hv as [-> ->].
    destruct (dget theme (th_latest_metrics t)) as [u|] eqn:Eu; [|done].
    pose proof (tk_latest _ _ Hok _ _ Eu) as [<- _].
    by apply (evaluate_theme_ok u now t t'); [|apply (themes_ok_later clock)|].
  - by apply (close_theme_ok theme now t t'); [|apply (themes_ok_later clock)].
  - destruct Hs as (d&->&_). destruct Hok as [[Ha Hb Hc Hd] H2 H3 H4 H5 H6]. by split.
Qed.
End in_step.

(** C10: As long as its steps succeed, the pipeline and the event store tell the same story:
    each theme that was evaluated has the event of its identity of the day, and that event
    stands exactly where the theme's hysteresis does.  The runs are those of [themes_run]:
    they start without themes on a store that has neither an event of the named themes nor
    a trace of this pipeline's own commands; updates of the named themes, evaluations,
    closes and deliveries of the outbox follow in any number and in any order in which the
    clock does not go back and no theme gets an update with an earlier [as_of] than the one
    it has; a call that raises ends the run ([failed_write_strands_event]).  The event ids,
    which are digests of the identities, are taken to be distinct for distinct themes. *)
Theorem events_follow_themes cfg names clock t :
  NoDup ((fun theme => identity_event_id (theme_identity cfg theme)) <$> names) ->
  themes_run cfg names clock t -> in_step cfg t.
Proof. intros Hdistinct H. by apply (tk_step cfg names clock t), themes_run_ok. Qed.

(** ** A write that fails *)

Lemma armed_write_fails command s :
  es_fail_next_commit s = true ->
  exists e, write command s = (Raise e, set_fail false s) \/ write command s = (Raise e, s).
Proof.
  intros Harmed. pose proof (write_body_flag command s) as Hflag. rewrite Harmed in Hflag.
  unfold write, transaction, mem_store, mem_transaction.
  destruct (write_body command s) as [[r|e] s0]; cbn [snd] in Hflag; rewrite Hflag.
  - exists SimulatedCommitFailure. by left.
  - exists e. right. by destruct s; cbn in *; subst.
Qed.

Lemma M_bind_run {S A B} (m : M S A) (f : A -> M S B) s a s' r :
  m s = (Ok a, s') -> f a s' = r -> (m ≫= f) s = r.
Proof. unfold mbind, M_bind. by intros ->. Qed.

Lemma read_stored event_id t :
  in_store (read_event event_id) t = (Ok (dget event_id (es_events (th_event_store t))), t).
Proof. by destruct t. Qed.

Lemma armed_transition cfg event_id target reason u now t :
  es_fail_next_commit (th_event_store t) = true ->
  exists x t', transition_event cfg event_id target reason u now t = (Raise x, t') /\
    es_events (th_event_store t') = es_events (th_event_store t) /\ th_hysteresis t' = th_hysteresis t.
Proof.
  intros Harmed. unfold transition_event. rewrite (M_bind_run _ _ _ _ _ _ (read_stored event_id t) eq_refl).
  destruct (dget event_id (es_events (th_event_store t))) as [e|]; [|by eexists _, _].
  unfold next_metadata, mbind, M_bind, change, view, lift, in_store. cbn [th_command_sequence set_command_sequence].
  destruct (EventInputMetadata_check _) as [m|x]; [|by eexists _, _].
  destruct (TransitionLifecycleCommand_check _) as [c|x]; [|by eexists _, _].
  cbn [th_event_store set_event_store set_command_sequence].
  destruct (armed_write_fails (CmdTransition c) (th_event_store t) Harmed) as (x&[->| ->]); by eexists _, _.
Qed.

(** A transition whose write fails is lost: when the hysteresis of a theme decides to move
    and the commit of the transition fails, the call raises with the event as it was, while
    the theme's state is already the next one.  Theme and event have parted, and since every
    later transition starts where the theme's state is, this one is not tried again. *)
Theorem failed_write_strands_event cfg u now t event_id e state d tr :
  let theme := tu_theme_id u in
  let evaluation := theme_evaluation cfg theme (cov_status (tmx_coverage (tu_metrics u)))
                      (qualifies_of (tu_metrics u)) false now (th_input_sequence t + 1) in
  dget theme (th_event_ids t) = Some event_id ->
  dget event_id (es_events (th_event_store t)) = Some e ->
  dget theme (th_hysteresis t) = Some state -> hy_lifecycle_status state = ce_lifecycle_status e ->
  eval_valid evaluation -> evaluate_hysteresis (pc_hysteresis_policy cfg) state evaluation = Ok d ->
  hd_transition d = Some tr -> es_fail_next_commit (th_event_store t) = true ->
  exists x t', evaluate_theme cfg u now t = (Raise x, t') /\
    dget event_id (es_events (th_event_store t')) = Some e /\
    dget theme (th_hysteresis t') = Some (hd_state d) /\
    hy_lifecycle_status (hd_state d) = ht_to_status tr /\ ht_to_status tr <> ce_lifecycle_status e /\
    forall evaluation' d' tr', evaluate_hysteresis (pc_hysteresis_policy cfg) (hd_state d) evaluation' = Ok d' ->
      hd_transition d' = Some tr' -> ht_from_status tr' = ht_to_status tr.
Proof.
  intros theme evaluation Hid He Hst Hsame Hvalid Hd Htr Harmed.
  pose proof (transitions_are_reported _ _ _ _ Hd) as [_ Hrep]. rewrite Htr in Hrep.
  destruct Hrep as (_&Hfrom&Hto&Htarget&_).
  assert (exists x t', evaluate_theme cfg u now t = (Raise x, t') /\
            es_events (th_event_store t') = es_events (th_event_store t) /\
            dget theme (th_hysteresis t') = Some (hd_state d)) as (x&t'&Hrun&Hev&Hhy).
  2: { exists x, t'. split_and!; [done|by rewrite Hev|done|done| |].
       - rewrite <-Hsame, <-Hfrom. by apply targets_differ.
       - intros e' d' tr' [_ Hd']%transitions_are_reported Ht'. rewrite Ht' in Hd'.
         destruct Hd' as (_&->&_). done. }
  assert (forall t0, th_event_ids t0 = th_event_ids t -> th_hysteresis t0 = th_hysteresis t ->
            th_event_store t0 = th_event_store t -> th_input_sequence t0 = th_input_sequence t ->
            exists x t', evaluate_from cfg u now t0 = (Raise x, t') /\
            es_events (th_event_store t') = es_events (th_event_store t) /\
            dget theme (th_hysteresis t') = Some (hd_state d)) as Hfrom0.
  { intros t0 E1 E2 E3 E4. unfold evaluate_from. fold theme.
    erewrite (M_bind_run _ _ _ event_id t0); cycle 1;
      [unfold event_of, mbind, M_bind, view; cbv beta; fold theme; by rewrite E1, Hid|reflexivity|].
    erewrite (M_bind_run _ _ _ state t0); cycle 1;
      [unfold theme_state, mbind, M_bind, view; cbv beta; by rewrite E2, Hst|reflexivity|].
    erewrite (M_bind_run _ _ _ evaluation); cycle 1;
      [unfold next_evaluation, mbind, M_bind, change, view, lift;
       cbn [th_input_sequence set_input_sequence]; rewrite E4; fold evaluation; by rewrite Hvalid
      |reflexivity|].
    erewrite (M_bind_run _ _ _ d); cycle 1; [unfold lift; by rewrite Hd|reflexivity|].
    erewrite M_bind_run; [|reflexivity|reflexivity]. rewrite Htr.
    set (t1 := set_hysteresis _ _).
    assert (exists t2, (if decide (ht_to_status tr = ACTIVE)
             then change (fun t => if dmem theme (th_activated_at t) then t
                                   else set_activated_at (dset theme now (th_activated_at t)) t)
             else mret tt) t1 = (Ok tt, t2) /\ th_event_store t2 = th_event_store t /\
             th_hysteresis t2 = dset theme (hd_state d) (th_hysteresis t)) as (t2&Ht2&E5&E6).
    { case_decide; [|by exists t1; rewrite <-E2, <-E3]. eexists. split; [done|].
      destruct (dmem _ _); cbn; by rewrite E2, E3. }
    rewrite (M_bind_run _ _ _ _ _ _ Ht2 eq_refl).
    destruct (armed_transition cfg event_id (ht_to_status tr) (ht_reason tr) u now t2)
      as (x&t'&Hr&Hev&Hhy); [by rewrite E5|].
    exists x, t'. rewrite Hr, Hev, Hhy, E5, E6. by rewrite dget_dset_eq. }
  unfold evaluate_theme. erewrite M_bind_run; [|reflexivity|reflexivity].
  apply Hfrom0; unfold note_as_of; by destruct (match th_last_as_of t with Some _ => _ | None => _ end).
Qed.

(** ** A concrete day *)

Definition demo_cfg : PipelineConfig :=
  mk_PipelineConfig 730001 "stream" "1" (mk_VersionedThemeCatalog [] []) "members-1" [("t1", "Theme 1")] []
    [] HYSTERESIS_POLICY_V1.
Definition demo_now (second : Z) : datetime :=
  mk_datetime (730000 * us_per_day + hours 1 + seconds second) (Some 0).
Definition demo_part : CoveragePart := mk_CoveragePart 1 1 (Some done_) (Some done_).
Definition demo_update (weighted : Z) (second : Z) : ThemeMetricUpdate :=
  mk_ThemeMetricUpdate "t1" 730001 (demo_now second) "members-1"
    (mk_ThemeMetrics "calc" "m" "members-1" (Some (dec_of_Z weighted)) (Some done_) (Some 1) (Some 1)
       (Some done_) (mk_Coverage SUFFICIENT demo_part demo_part) [] [] [] []).

Definition after {A} (m : M Themes A) (t : Themes) : Themes := (m t).2.
Lemma after_run (m : M Themes unit) t : is_ok (m t).1 = true -> m t = (Ok tt, after m t).
Proof. unfold after. by destruct (m t) as [[[]|e] t']. Qed.

Definition demo_taken : Themes := after (take_updates [demo_update 1 0]) (no_themes empty_store).
Definition demo_candidate : Themes := after (evaluate_named demo_cfg (demo_now 1) "t1") demo_taken.
Definition demo_active : Themes := after (evaluate_named demo_cfg (demo_now 11) "t1") demo_candidate.

Lemma demo_store_ok : store_ok demo_cfg 0 empty_store.
Proof. by split. Qed.

Lemma demo_run : themes_run demo_cfg ["t1"] (demo_now 11) demo_active.
Proof.
  apply (run_evaluate _ _ (demo_now 1) _ "t1" demo_candidate);
    [|reflexivity|apply after_run; vm_compute; reflexivity].
  apply (run_evaluate _ _ (demo_now 0) _ "t1" demo_taken);
    [|reflexivity|apply after_run; vm_compute; reflexivity].
  apply (run_take _ _ (demo_now 0) (no_themes empty_store) [demo_update 1 0]);
    [apply run_start; [apply demo_store_ok|done]| |reflexivity].
  repeat constructor. by intros p.
Qed.

Lemma events_follow_themes_witness :
  themes_run demo_cfg ["t1"] (demo_now 11) demo_active /\ in_step demo_cfg demo_active /\
  exists event_id e, dget "t1" (th_event_ids demo_active) = Some event_id /\
    dget event_id (es_events (th_event_store demo_active)) = Some e /\ ce_lifecycle_status e = ACTIVE.
Proof.
  assert (in_step demo_cfg demo_active) as Hstep
    by (apply (events_follow_themes demo_cfg ["t1"] (demo_now 11)); [apply NoDup_singleton|apply demo_run]).
  split; [apply demo_run|]. split; [exact Hstep|].
  destruct (dget "t1" (th_event_ids demo_active)) as [i|] eqn:Ei; [|vm_compute in Ei; discriminate Ei].
  destruct (Hstep _ _ Ei) as (_&e&He&_&_&Hl). exists i, e. split; [done|]. split; [exact He|].
  rewrite Hl. vm_compute. reflexivity.
Defined.

(** The commit of the activation fails: the theme is active, its event stays a candidate. *)
Definition demo_armed : Themes := set_event_store (set_fail true (th_event_store demo_candidate)) demo_candidate.

Lemma failed_write_strands_event_witness :
  es_fail_next_commit (th_event_store demo_armed) = true /\
  exists x t' event_id e s, evaluate_theme demo_cfg (demo_update 1 0) (demo_now 11) demo_armed = (Raise x, t') /\
    dget event_id (es_events (th_event_store t')) = Some e /\ ce_lifecycle_status e = CANDIDATE /\
    dget "t1" (th_hysteresis t') = Some s /\ hy_lifecycle_status s = ACTIVE.
Proof.
  split; [vm_compute; reflexivity|].
  set (evaluation := theme_evaluation demo_cfg "t1" SUFFICIENT (Some true) false (demo_now 11)
                       (th_input_sequence demo_armed + 1)).
  destruct (dget "t1" (th_event_ids demo_armed)) as [i|] eqn:Ei; [|vm_compute in Ei; discriminate Ei].
  destruct (dget i (es_events (th_event_store demo_armed))) as [e|] eqn:Ee;
    [|vm_compute in Ei; injection Ei as <-; vm_compute in Ee; discriminate Ee].
  destruct (dget "t1" (th_hysteresis demo_armed)) as [state|] eqn:Es; [|vm_compute in Es; discriminate Es].
  assert (ce_lifecycle_status e = CANDIDATE) as He.
  { vm_compute in Ei. injection Ei as <-. vm_compute in Ee. injection Ee as <-. reflexivity. }
  assert (hy_lifecycle_status state = CANDIDATE) as Hs.
  { vm_compute in Es. injection Es as <-. reflexivity. }
  destruct (evaluate_hysteresis HYSTERESIS_POLICY_V1 state evaluation) as [d|x] eqn:Ed;
    [|vm_compute in Es; injection Es as <-; vm_compute in Ed; discriminate Ed].
  destruct (hd_transition d) as [tr|] eqn:Etr;
    [|vm_compute in Es; injection Es as <-; vm_compute in Ed; injection Ed as <-; discriminate Etr].
  assert (ht_to_status tr = ACTIVE) as Ht.
  { vm_compute in Es. injection Es as <-. vm_compute in Ed. injection Ed as <-. by injection Etr as <-. }
  destruct (failed_write_strands_event demo_cfg (demo_update 1 0) (demo_now 11) demo_armed i e state d tr)
    as (x&t'&Hrun&Hev&Hhy&Hto&_);
    [exact Ei|exact Ee|exact Es|by rewrite Hs, He|vm_compute; reflexivity|exact Ed|exact Etr|vm_compute; reflexivity|].
  exists x, t', i, e, (hd_state d). split; [exact Hrun|]. split; [exact Hev|]. split; [exact He|].
  split; [exact Hhy|]. by rewrite Hto.
Defined.
