(* ===== verification/MarketFeed.v ===== *)
(** [packages/pipeline/market.py], the feed: every update of a stock goes to the hot state
    and marks the themes that hold the stock, and its base price fills the previous close
    that the references of the day do not have. *)
From S2P Require Import Prelude PyTime PyDecimal Domain RealtimeModels HotState Aggregation.
From S2P Require Import DecimalFacts Weights ThemeMetrics.
#[local] Open Scope Z_scope.

(* @ packages/pipeline/market.py 134-152 MarketDataPipeline.__init__ *)
Record Feed := mk_Feed {
  fd_hot : HotStateStore;
  fd_references : list StockReference;
  fd_base_price_filled : list string;
  fd_aggregator : DirtyThemeAggregator;
  fd_observed_stock_ids : list string
}.

(** Feed and aggregator are given the same references. *)
(* @ packages/pipeline/market.py 134-152 MarketDataPipeline.__init__ *)
Definition feed (catalog : VersionedThemeCatalog) (references : list StockReference) : Feed :=
  mk_Feed empty_hot references [] (aggregator catalog references THEME_CALCULATION_POLICY_V1) [].

Definition set_hot x f :=
  mk_Feed x (fd_references f) (fd_base_price_filled f) (fd_aggregator f) (fd_observed_stock_ids f).
Definition set_filled x f :=
  mk_Feed (fd_hot f) (fd_references f) x (fd_aggregator f) (fd_observed_stock_ids f).
Definition set_aggregator x f :=
  mk_Feed (fd_hot f) (fd_references f) (fd_base_price_filled f) x (fd_observed_stock_ids f).
Definition set_observed x f :=
  mk_Feed (fd_hot f) (fd_references f) (fd_base_price_filled f) (fd_aggregator f) x.
Definition file_reference r f :=
  mk_Feed (fd_hot f) (fd_references f ++ [r]) (fd_base_price_filled f)
    (add_reference r (fd_aggregator f)) (fd_observed_stock_ids f).

(** [set.add] *)
Definition set_add (x : string) (l : list string) : list string :=
  if bool_decide (x ∈ l) then l else l ++ [x].

Definition in_hot {A} (m : M HotStateStore A) : M Feed A := fun f =>
  let '(r, s) := m (fd_hot f) in (r, set_hot s f).
Definition in_aggregator {A} (m : M DirtyThemeAggregator A) : M Feed A := fun f =>
  let '(r, a) := m (fd_aggregator f) in (r, set_aggregator a f).

Section feed.
Context (market_date : date).

(** A reference of the stock for the day of the pipeline. *)
(* @ packages/pipeline/market.py 427-428 MarketDataPipeline._supplement_base_price *)
Definition of_day (stock_id : string) (r : StockReference) : bool :=
  bool_decide (sr_stock_id r = stock_id) && (sr_effective_for r =? market_date).

(** The reference an update adds; [current] is the first one of the day. *)
(* @ packages/pipeline/market.py 423-441 MarketDataPipeline._supplement_base_price *)
Definition supplemented (u : StockRealtimeUpdate) (base_price : dec)
    (current : option StockReference) : res StockReference :=
  let '(shares, ratio, validated, version) :=
    match current with
    | Some r => (sr_listed_shares r, sr_free_float_ratio r, sr_free_float_validated r, sr_version r)
    | None => (None, None, false, "reference")
    end in
  StockReference_init (ru_stock_id u) market_date (ru_received_at u) (Some (Finite base_price))
    shares (Finite <$> ratio) validated (version +:+ "+base-price") true.

(* @ packages/pipeline/market.py 402-444 MarketDataPipeline._supplement_base_price *)
Definition supplement_base_price (u : StockRealtimeUpdate) : M Feed unit := fun f =>
  match ru_base_price u with
  | None => (Ok tt, f)
  | Some base_price =>
      if bool_decide (ru_stock_id u ∈ fd_base_price_filled f) then (Ok tt, f)
      else
        let own := List.filter (of_day (ru_stock_id u)) (fd_references f) in
        let filled f := set_filled (set_add (ru_stock_id u) (fd_base_price_filled f)) f in
        if existsb (fun r => is_some (sr_previous_adjusted_close r)) own then (Ok tt, filled f)
        else
          match supplemented u base_price (head own) with
          | Raise e => (Raise e, f)
          | Ok r => (Ok tt, filled (file_reference r f))
          end
  end.

(* @ packages/pipeline/market.py 386-400 MarketDataPipeline.apply_update *)
Definition apply_update (u : StockRealtimeUpdate) : M Feed HotApplyResult :=
  _ ← lift (raise_if (negb (ru_market_date u =? market_date)) ValueError);
  _ ← supplement_base_price u;
  result ← in_hot (apply u);
  _ ← (fun f => (Ok tt, set_observed (set_add (ru_stock_id u) (fd_observed_stock_ids f)) f));
  _ ← (if ha_changed result
       then _ ← in_aggregator (mark_stock (ru_stock_id u) (ru_market_date u) (ru_received_at u));
            mret tt
       else mret tt);
  mret result.

(** What is left of a feed after updates, whether they were taken or refused. *)
Definition after_updates (us : list StockRealtimeUpdate) (f : Feed) : Feed :=
  fold_left (fun f u => (apply_update u f).2) us f.
End feed.

(** ** Base prices fill gaps only *)

Definition close_known (references : list StockReference) : bool :=
  existsb (fun r => is_some (sr_previous_adjusted_close r)) references.

(** References as their constructor leaves them, in what a supplement copies. *)
Definition reference_built (r : StockReference) : Prop :=
  match sr_listed_shares r with Some n => 0 <= n | None => True end /\
  finite_unit (Finite <$> sr_free_float_ratio r) = Ok (sr_free_float_ratio r).

Section facts.
Context (market_date : date).

(** The references of a feed: those it was given, then what base prices added. *)
Record feed_ok (given : list StockReference) (us : list StockRealtimeUpdate) (f : Feed) : Prop := {
  fo_supplements : exists supplements,
    fd_references f = given ++ supplements /\ NoDup (sr_stock_id <$> supplements) /\
    forall r, r ∈ supplements ->
      sr_stock_id r ∈ fd_base_price_filled f /\
      let own := List.filter (of_day market_date (sr_stock_id r)) given in
      close_known own = false /\
      exists u b, u ∈ us /\ ru_stock_id u = sr_stock_id r /\ ru_base_price u = Some b /\
                  supplemented market_date u b (head own) = Ok r;
  fo_same : ag_references (fd_aggregator f) = fd_references f;
  fo_filled : forall s, s ∈ fd_base_price_filled f ->
    close_known (List.filter (of_day market_date s) (fd_references f)) = true
}.

Lemma elem_of_set_add x y l : x ∈ set_add y l <-> x = y \/ x ∈ l.
Proof.
  unfold set_add. case_bool_decide; [naive_solver|].
  rewrite elem_of_app, list_elem_of_singleton. naive_solver.
Qed.

Lemma supplemented_ok u b c r :
  supplemented market_date u b c = Ok r ->
  sr_stock_id r = ru_stock_id u /\ sr_effective_for r = market_date /\
  sr_known_at r = ru_received_at u /\ sr_previous_adjusted_close r = Some b.
Proof.
  unfold supplemented.
  destruct (match c with Some r => _ | None => _ end) as [[[shares ratio] validated] version].
  unfold StockReference_init. intros H.
  do 3 (apply res_bind_ok in H as (?&_&H)). apply res_bind_ok in H as (p&Hp&H).
  apply res_bind_ok in H as (?&_&H). apply res_bind_ok in H as (q&_&[= <-]). cbn.
  split_and!; [done..|]. cbn in Hp. apply res_bind_ok in Hp as (?&_&[= <-]). done.
Qed.

(** A supplement cannot fail for an update and references that were built. *)
Lemma supplemented_total u b c :
  update_valid u -> ru_base_price u = Some b -> (forall r, c = Some r -> reference_built r) ->
  exists r, supplemented market_date u b c = Ok r.
Proof.
  intros Hu Hb Hc. pose proof (update_valid_facts u Hu) as (Ht&Hs&_).
  assert (dlt b dzero = false) as Hpos.
  { destruct Hu as (p&v&base&H). unfold StockRealtimeUpdate_init in H.
    apply res_bind_ok in H as (?&_&H). apply res_bind_ok in H as (?&_&H).
    apply res_bind_ok in H as (b'&Hb'&H). apply res_bind_ok in H as (?&_&[= E]).
    rewrite <-E in Hb. cbn in Hb. subst b'. destruct base as [raw|]; [|done].
    apply res_bind_ok in Hb' as (d&_&H). apply res_bind_ok in H as (?&Hd&[= <-]).
    apply raise_if_ok in Hd. apply dlt_false. apply dle_false in Hd. by apply QArith_base.Qlt_le_weak. }
  apply require_texts_ok in Ht. apply Forall_cons in Ht as [_ Ht].
  apply Forall_cons in Ht as [Ht _]. apply require_source_ok in Hs as (_&_&Hr&_).
  assert (is_empty (ru_stock_id u) = false) as He by by destruct (ru_stock_id u).
  assert (forall s t, is_empty (s +:+ String t "base-price") = false) as Hv by by intros [].
  unfold supplemented. destruct c as [r|].
  - destruct (Hc r eq_refl) as [Hn Hq]. unfold StockReference_init.
    rewrite He. change "+base-price" with (String "+"%char "base-price"). rewrite Hv.
    unfold require_aware. rewrite Hr. cbn [mbind res_bind raise_if negb finite_nonneg require_finite].
    rewrite Hpos. cbn [mbind res_bind raise_if]. rewrite Hq.
    replace (match sr_listed_shares r with Some n => n <? 0 | None => false end) with false;
      [by eexists|].
    destruct (sr_listed_shares r); [|done]. symmetry. by apply Z.ltb_ge.
  - unfold StockReference_init. rewrite He. unfold require_aware. rewrite Hr. cbn.
    rewrite Hpos. by eexists.
Qed.

Lemma feed_ok_frame given us us' f f' :
  feed_ok given us f -> us ⊆ us' -> fd_references f' = fd_references f ->
  fd_base_price_filled f' = fd_base_price_filled f ->
  ag_references (fd_aggregator f') = ag_references (fd_aggregator f) -> feed_ok given us' f'.
Proof.
  intros [(sups&E&Hnd&Hs) Hsame Hfilled] Hus Er Ef Ea. split; rewrite ?Er, ?Ef, ?Ea; [|done..].
  exists sups. split_and!; [done|done|]. intros r Hr.
  destruct (Hs r Hr) as (Hin&Hno&u&b&Hu&?&?&?). split; [done|]. split; [done|].
  exists u, b. split; [by apply Hus|done].
Qed.

(** The references of the day of a stock no base price was used for are the given ones. *)
Lemma unfilled_own given us f stock :
  feed_ok given us f -> stock ∉ fd_base_price_filled f ->
  List.filter (of_day market_date stock) (fd_references f) =
  List.filter (of_day market_date stock) given.
Proof.
  intros [(sups&E&_&Hs) _ _] Hnot. rewrite E, List.filter_app.
  rewrite (filterb_none _ sups); [apply app_nil_r|]. intros r Hr. unfold of_day.
  rewrite bool_decide_eq_false_2; [done|]. intros E'. apply Hnot. rewrite <-E'. by apply Hs.
Qed.

Lemma supplement_ok given us f u x f' :
  feed_ok given us f -> supplement_base_price market_date u f = (x, f') ->
  feed_ok given (us ++ [u]) f'.
Proof.
  intros Hf. unfold supplement_base_price.
  assert (us ⊆ us ++ [u]) as Hus by (intros y ?; apply elem_of_app; by left).
  destruct (ru_base_price u) as [b|] eqn:Eb; [|intros [= _ <-]; by eapply feed_ok_frame].
  case_bool_decide as Hin; [intros [= _ <-]; by eapply feed_ok_frame|].
  fold (close_known (List.filter (of_day market_date (ru_stock_id u)) (fd_references f))).
  pose proof (unfilled_own _ _ _ _ Hf Hin) as Eown.
  destruct (close_known (List.filter (of_day market_date (ru_stock_id u)) (fd_references f))) eqn:Ec.
  - intros [= _ <-]. destruct Hf as [(sups&E&Hnd&Hs) Hsame Hfilled].
    split; cbn; [|done|by intros s [->|Hs']%elem_of_set_add; [|apply Hfilled]].
    exists sups. split_and!; [done|done|]. intros r Hr.
    destruct (Hs r Hr) as (Hr1&Hr2&u'&b'&Hu'&?&?&?).
    split; [apply elem_of_set_add; by right|]. split; [done|]. exists u', b'. naive_solver.
  - rewrite Eown. rewrite Eown in Ec.
    destruct (supplemented market_date u b (head _)) as [r|e] eqn:Er;
      [|intros [= _ <-]; by eapply feed_ok_frame].
    intros [= _ <-]. pose proof (supplemented_ok _ _ _ _ Er) as (Ei&Ed&_&Eclose).
    destruct Hf as [(sups&E&Hnd&Hs) Hsame Hfilled]. split; cbn; [|by rewrite Hsame|].
    + exists (sups ++ [r]). split_and!.
      * by rewrite E, <-app_assoc.
      * rewrite fmap_app. apply NoDup_app. split_and!; [done| |apply NoDup_singleton].
        intros s (r'&->&Hr')%list_elem_of_fmap Hs'%list_elem_of_singleton. apply Hin.
        rewrite <-Ei, <-Hs'. by apply Hs.
      * intros r' [Hr'|Hr'%list_elem_of_singleton]%elem_of_app.
        -- destruct (Hs r' Hr') as (Hr1&Hr2&u'&b'&Hu'&?&?&?).
           split; [apply elem_of_set_add; by right|]. split; [done|]. exists u', b'. naive_solver.
        -- subst r'. rewrite Ei. split; [apply elem_of_set_add; by left|]. split; [done|].
           exists u, b. split; [apply elem_of_app; right; by apply list_elem_of_singleton|done].
    + intros s Hs'%elem_of_set_add. unfold close_known.
      rewrite List.filter_app, existsb_app, orb_true_iff.
      destruct Hs' as [->|Hs']; [right|left; by apply Hfilled].
      cbn. unfold of_day. rewrite bool_decide_eq_true_2 by done. rewrite Ed, Z.eqb_refl. cbn.
      by rewrite Eclose.
Qed.

Lemma mark_themes_references md at_ themes a x a' :
  mark_themes md at_ themes a = (x, a') -> ag_references a' = ag_references a.
Proof.
  revert a; induction themes as [|t themes IH]; intros a H; [by injection H as _ <-|].
  cbn [mark_themes] in H. unfold mbind, M_bind in H.
  destruct (mark_theme_cases md at_ t a) as [[E _]|[e E]]; rewrite E in H; [|by injection H as _ <-].
  by apply IH in H.
Qed.

Lemma mark_stock_references stock md at_ a x a' :
  mark_stock stock md at_ a = (x, a') -> ag_references a' = ag_references a.
Proof.
  unfold mark_stock, get_st, lift, mbind, M_bind. destruct (require_aware at_); [|by intros [= _ <-]].
  destruct (affected_themes _ _ _ _) as [affected|]; [|by intros [= _ <-]].
  destruct (mark_themes md at_ affected a) as [y a1] eqn:E. apply mark_themes_references in E.
  destruct y; by intros [= _ <-].
Qed.

(** After the base price an update leaves references alone. *)
Lemma apply_update_frame u f x f' :
  apply_update market_date u f = (x, f') ->
  ru_market_date u <> market_date /\ f' = f \/ ru_market_date u = market_date /\
  exists y f1, supplement_base_price market_date u f = (y, f1) /\
    fd_references f' = fd_references f1 /\ fd_base_price_filled f' = fd_base_price_filled f1 /\
    ag_references (fd_aggregator f') = ag_references (fd_aggregator f1).
Proof.
  unfold apply_update, lift, raise_if, mbind, M_bind.
  destruct (Z.eqb_spec (ru_market_date u) market_date) as [E|]; [|intros [= _ <-]; by left].
  intros H. right. split; [done|]. cbn [negb] in H.
  destruct (supplement_base_price market_date u f) as [y f1]. exists y, f1. split; [done|].
  destruct y; [|by injection H as _ <-]. unfold in_hot in H.
  destruct (apply u (fd_hot f1)) as [result hot]. destruct result as [result|];
    [|by injection H as _ <-].
  destruct (ha_changed result); [|by injection H as _ <-]. unfold in_aggregator in H. cbn in H.
  destruct (mark_stock _ _ _ _) as [z a'] eqn:Em. apply mark_stock_references in Em.
  destruct z; by injection H as _ <-.
Qed.

Lemma after_updates_ok given us catalog :
  feed_ok given us (after_updates market_date us (feed catalog given)).
Proof.
  unfold after_updates. induction us as [|u us IH] using rev_ind.
  - split; [|done|by intros ? ?%not_elem_of_nil]. exists []. rewrite app_nil_r.
    split_and!; [done|apply NoDup_nil_2|by intros ? ?%not_elem_of_nil].
  - rewrite fold_left_app. cbn [fold_left]. set (f := fold_left _ us _) in *.
    destruct (apply_update market_date u f) as [x f'] eqn:E. cbn.
    apply apply_update_frame in E as [[_ ->]|(_&y&f1&Hs&E1&E2&E3)].
    + eapply feed_ok_frame; [exact IH|set_solver|done..].
    + eapply supplement_ok in Hs; [|exact IH]. by eapply feed_ok_frame.
Qed.

Lemma supplement_fills given us f u x f' :
  Forall reference_built given -> feed_ok given us f -> update_valid u -> ru_base_price u <> None ->
  supplement_base_price market_date u f = (x, f') -> ru_stock_id u ∈ fd_base_price_filled f'.
Proof.
  intros Hbuilt Hf Hu Hb. unfold supplement_base_price.
  destruct (ru_base_price u) as [b|] eqn:Eb; [|done].
  case_bool_decide as Hin; [by intros [= _ <-]|].
  destruct (existsb _ _); [intros [= _ <-]; apply elem_of_set_add; by left|].
  rewrite (unfilled_own _ _ _ _ Hf Hin).
  destruct (supplemented_total u b (head (List.filter (of_day market_date (ru_stock_id u)) given)) Hu Eb)
    as [r ->]; [|intros [= _ <-]; apply elem_of_set_add; by left].
  intros r Hr%head_Some_elem_of. apply elem_of_filterb in Hr as [Hr _].
  rewrite Forall_forall in Hbuilt. by apply Hbuilt.
Qed.

Lemma apply_update_filled u f x f' stock :
  apply_update market_date u f = (x, f') -> stock ∈ fd_base_price_filled f ->
  stock ∈ fd_base_price_filled f'.
Proof.
  intros [[_ ->]|(_&y&f1&Hs&_&->&_)]%apply_update_frame Hin; [done|]. revert Hs.
  unfold supplement_base_price. destruct (ru_base_price u); [|by intros [= _ <-]].
  case_bool_decide; [by intros [= _ <-]|].
  destruct (existsb _ _); [intros [= _ <-]; apply elem_of_set_add; by right|].
  destruct (supplemented _ _ _ _); intros [= _ <-]; [apply elem_of_set_add; by right|done].
Qed.

Lemma base_prices_used given catalog us u :
  Forall reference_built given -> Forall update_valid us -> u ∈ us ->
  ru_market_date u = market_date -> ru_base_price u <> None ->
  ru_stock_id u ∈ fd_base_price_filled (after_updates market_date us (feed catalog given)).
Proof.
  intros Hbuilt Hv Hin Hd Hb. induction us as [|u' us IH] using rev_ind;
    [by apply not_elem_of_nil in Hin|].
  apply Forall_app in Hv as [Hv Hv']. apply Forall_cons in Hv' as [Hv' _].
  unfold after_updates. rewrite fold_left_app. cbn [fold_left].
  fold (after_updates market_date us (feed catalog given)).
  destruct (apply_update market_date u' (after_updates market_date us (feed catalog given)))
    as [x f'] eqn:E. cbn.
  apply elem_of_app in Hin as [Hin| ->%list_elem_of_singleton].
  - by eapply apply_update_filled, IH.
  - apply apply_update_frame in E as [[Hne _]|(_&y&f1&Hs&_&->&_)]; [done|].
    by eapply supplement_fills in Hs; [|exact Hbuilt|apply after_updates_ok|..].
Qed.
End facts.

(** The base prices of updates complete the references of the day and never replace one:
    whatever updates come, and whichever of them are refused, the references are the given
    ones followed by supplements, at most one for a stock, only for a stock none of whose
    references of the day has a previous close, each made from an update of that stock and
    what its first reference says; the calculations see the same references; and once an
    update of the day named a base price, its stock has a reference with a close. *)
Theorem base_prices_fill_gaps market_date catalog given us :
  Forall reference_built given -> Forall update_valid us ->
  let f := after_updates market_date us (feed catalog given) in
  exists supplements,
    fd_references f = given ++ supplements /\ ag_references (fd_aggregator f) = fd_references f /\
    NoDup (sr_stock_id <$> supplements) /\
    (forall r, r ∈ supplements ->
       let own := List.filter (of_day market_date (sr_stock_id r)) given in
       close_known own = false /\ sr_effective_for r = market_date /\
       exists u b, u ∈ us /\ ru_stock_id u = sr_stock_id r /\ ru_base_price u = Some b /\
         sr_known_at r = ru_received_at u /\ sr_previous_adjusted_close r = Some b /\
         supplemented market_date u b (head own) = Ok r) /\
    (forall u, u ∈ us -> ru_market_date u = market_date -> ru_base_price u <> None ->
       close_known (List.filter (of_day market_date (ru_stock_id u)) (fd_references f)) = true).
Proof.
  intros Hbuilt Hv f. destruct (after_updates_ok market_date given us catalog) as [(sups&E&Hnd&Hs) Hsame Hfilled].
  exists sups. split_and!; [done|done|done| |].
  - intros r Hr. destruct (Hs r Hr) as (_&Hno&u&b&Hu&Hi&Hb&Hr'). split; [done|].
    pose proof (supplemented_ok _ _ _ _ _ Hr') as (_&Hd&Hk&Hc). split; [done|]. by exists u, b.
  - intros u Hu Hd Hb. apply Hfilled. by apply base_prices_used.
Qed.

(** ** A concrete morning: the first base price is kept *)

Definition demo_open_reference : StockReference :=
  mk_StockReference "005930" demo_day (demo_at 0) None (Some 1000) (Some (mk_dec false 5 (-1)))
    true "r1" true.
Definition demo_base (id : string) (sequence second : Z) (base : N) : StockRealtimeUpdate :=
  mk_StockRealtimeUpdate id "005930" demo_day "ws" sequence (demo_at second) (demo_at second)
    (Some (mk_dec false 70000 0)) None (Some (mk_dec false base 0)) true false false [].
Definition demo_bases : list StockRealtimeUpdate := [demo_base "m1" 1 10 69000; demo_base "m2" 2 20 68000].
Definition demo_feed : Feed :=
  after_updates demo_day demo_bases (feed demo_catalog [demo_open_reference]).

Lemma base_prices_fill_gaps_witness :
  (sr_previous_adjusted_close <$> fd_references demo_feed) = [None; Some (mk_dec false 69000 0)] /\
  exists supplements, fd_references demo_feed = [demo_open_reference] ++ supplements /\
    NoDup (sr_stock_id <$> supplements).
Proof.
  split; [by vm_compute|].
  destruct (base_prices_fill_gaps demo_day demo_catalog [demo_open_reference] demo_bases)
    as (supplements&E&_&Hnd&_).
  - repeat constructor; by vm_compute.
  - repeat constructor.
    + exists (Some (Finite (mk_dec false 70000 0))), None, (Some (Finite (mk_dec false 69000 0))).
      by vm_compute.
    + exists (Some (Finite (mk_dec false 70000 0))), None, (Some (Finite (mk_dec false 68000 0))).
      by vm_compute.
  - by exists supplements.
Defined.
