(* ===== verification/MarketBoard.v ===== *)
(** [packages/pipeline/market.py], the board: the ranks of the themes with their change and
    badge from the history of publications, their leading stocks, and the treemap. *)
From S2P Require Import Prelude PyTime PyDecimal DecimalFacts Json JsonRead Domain Weights ThemeMetrics PublicViews.
From S2P Require Import EventModels EventStore RealtimeModels HotState Aggregation Catalyst MarketThemes MarketFeed.
#[local] Open Scope Z_scope.

(* @ packages/pipeline/market.py 88-88 RANK_CHANGE_WINDOW *)
Definition RANK_CHANGE_WINDOW : timedelta := seconds 60.
(* @ packages/pipeline/market.py 89-89 RISING_RETURN_WINDOW *)
Definition RISING_RETURN_WINDOW : timedelta := minutes 5.
(* @ packages/pipeline/market.py 90-90 RISING_FAST_RANK_GAIN *)
Definition RISING_FAST_RANK_GAIN : Z := 3.
(* @ packages/pipeline/market.py 91-91 RISING_FAST_BADGE *)
Definition RISING_FAST_BADGE : string := "RISING_FAST".

(** ** The history of ranks *)

(** Rank and weighted return of the events of one publication. *)
Definition Ranks : Type := dict string (Z * option dec).
(* @ packages/pipeline/market.py 158-162 MarketDataPipeline.__init__ *)
Definition RankHistory : Type := list (datetime * Ranks).

(** [datetime - timedelta] *)
Definition dt_minus (d : datetime) (t : timedelta) : datetime := dt_add d (- t).

(* @ packages/pipeline/market.py 937-939 MarketDataPipeline._remember_ranks *)
Fixpoint forget_before (cutoff : datetime) (h : RankHistory) : RankHistory :=
  match h with
  | _ :: (((stamp, _) :: _) as rest) => if dt_le stamp cutoff then forget_before cutoff rest else h
  | _ => h
  end.

(* @ packages/pipeline/market.py 925-939 MarketDataPipeline._remember_ranks *)
Definition remember_ranks (ranks : Ranks) (now : datetime) (h : RankHistory) : RankHistory :=
  forget_before (dt_minus now RISING_RETURN_WINDOW) (h ++ [(now, ranks)]).

(* @ packages/pipeline/market.py 944-949 MarketDataPipeline._ranks_at *)
Fixpoint ranks_from (at_ : datetime) (found : option Ranks) (h : RankHistory) : option Ranks :=
  match h with
  | [] => found
  | (stamp, ranks) :: h => if dt_lt at_ stamp then found else ranks_from at_ (Some ranks) h
  end.

(* @ packages/pipeline/market.py 941-949 MarketDataPipeline._ranks_at *)
Definition ranks_at (at_ : datetime) (h : RankHistory) : option Ranks := ranks_from at_ None h.

(* @ packages/pipeline/market.py 951-961 MarketDataPipeline._rank_change *)
Definition rank_change (event_id : string) (rank : Z) (now : datetime) (h : RankHistory) : option Z :=
  match ranks_at (dt_minus now RANK_CHANGE_WINDOW) h with
  | None => None
  | Some previous =>
      match dget event_id previous with None => None | Some before => Some (before.1 - rank) end
  end.

(* @ packages/pipeline/market.py 963-980 MarketDataPipeline._badges *)
Definition badges (event_id : string) (change : option Z) (weighted_return : option dec)
    (now : datetime) (h : RankHistory) : list string :=
  match change with
  | None => []
  | Some change =>
      if change <? RISING_FAST_RANK_GAIN then []
      else
        match ranks_at (dt_minus now RISING_RETURN_WINDOW) h with
        | None => []
        | Some earlier =>
            match dget event_id earlier with
            | None => []
            | Some before =>
                match weighted_return, before.2 with
                | Some w, Some b => if dlt b w then [RISING_FAST_BADGE] else []
                | _, _ => []
                end
            end
        end
  end.

(** ** Leaders *)

(** [-d]: the unary minus rounds to the context, and of a zero it is the positive zero. *)
Definition dminus (d : dec) : dec :=
  let r := fix_dec default_prec (dneg_of d) in
  if (dcoef r =? 0)%N then mk_dec false 0 (dexp r) else r.

(** [s.removeprefix("KRX:")] *)
Definition without_krx (s : string) : string :=
  if String.prefix "KRX:" s then String.substring 4 (String.length s - 4) s else s.

(** Higher numbers first, then by name. *)
Definition falling (e : dec * string) : dec * string := (dminus e.1, e.2).

Section board.
Context (cfg : PipelineConfig) (f : Feed) (t : Themes) (evidence : dict string (dict string json)).

(** The event of a theme, if there is one. *)
Definition event_of_theme (theme_id : string) : option CanonicalEvent :=
  match dget theme_id (th_event_ids t) with
  | None => None
  | Some event_id => dget event_id (es_events (th_event_store t))
  end.

(* @ packages/pipeline/market.py 1032-1046 MarketDataPipeline._reference_close *)
Definition reference_close (stock_id : string) (u : ThemeMetricUpdate) : option dec :=
  head (omap (fun r => if bool_decide (sr_stock_id r = stock_id)
                       then adjusted_return_reference r (tu_market_date u) (tu_as_of u) else None)
          (fd_references f)).

(* @ packages/pipeline/market.py 1002-1014 MarketDataPipeline._leaders *)
Definition leader_return (u : ThemeMetricUpdate) (w : CappedWeight) : res (option (dec * string)) :=
  match get (tu_market_date u) (cw_stock_id w) (fd_hot f) with
  | None => Ok None
  | Some state =>
      match hs_current_price state, reference_close (cw_stock_id w) u with
      | Some price, Some reference =>
          ratio ← ddiv default_prec price reference;
          Ok (Some (dsub default_prec ratio done_, cw_stock_id w))
      | _, _ => Ok None
      end
  end.

(* @ packages/pipeline/market.py 1017-1022 MarketDataPipeline._leaders *)
Definition leader_fields (e : dec * string) : dict string json :=
  [("stockId", JStr e.2); ("symbol", JStr (without_krx e.2));
   ("name", JStr (default e.2 (dget e.2 (pc_stock_names cfg))));
   ("return", JFloat (float_repr e.1))].

(* @ packages/pipeline/market.py 995-1024 MarketDataPipeline._leaders *)
Definition leaders (theme_id : string) (limit : nat) : res (list (dict string json)) :=
  match dget theme_id (th_latest_metrics t) with
  | None => Ok []
  | Some u =>
      returns ← mapM_res (leader_return u) (tmx_capped_weights (tu_metrics u));
      Ok (leader_fields <$> take limit (sorted_by falling (omap id returns)))
  end.

(* @ packages/pipeline/market.py 1026-1030 MarketDataPipeline._leader *)
Definition leader (theme_id : string) : res (option (dict string json)) :=
  l ← leaders theme_id 1; Ok (head l).

(* @ packages/pipeline/market.py 982-993 MarketDataPipeline._member_stock_ids *)
Definition member_stock_ids (theme_id : string) : res (list string) :=
  match dget theme_id (th_latest_metrics t) with
  | None => Ok []
  | Some u =>
      membership ← catalog_select (pc_catalog cfg) theme_id (tu_market_date u) (tu_as_of u);
      Ok match membership with None => [] | Some m => tm_stock_id <$> ms_members m end
  end.

(** ** The ranking *)

(** [dict.update] *)
Definition updated {V} (d fields : dict string V) : dict string V :=
  fold_left (fun d kv => dset kv.1 kv.2 d) fields d.

(* @ packages/pipeline/market.py 864-864 MarketDataPipeline._ranking_items *)
Record Candidate := mk_Candidate {
  cd_return : dec;
  cd_theme_id : string;
  cd_event : CanonicalEvent;
  cd_metrics : ThemeMetrics
}.

(** After the close the closed themes stand where they ended. *)
(* @ packages/pipeline/market.py 859-863 MarketDataPipeline._ranking_items *)
Definition rankable (market_closed : bool) : list LifecycleStatus :=
  if market_closed then [ACTIVE; WEAKENING; CLOSED] else [ACTIVE; WEAKENING].

(* @ packages/pipeline/market.py 866-884 MarketDataPipeline._ranking_items *)
Definition candidate_of (market_closed : bool) (entry : string * ThemeMetricUpdate) : option Candidate :=
  match event_of_theme entry.1 with
  | None => None
  | Some event =>
      if negb (bool_decide (ce_lifecycle_status event ∈ rankable market_closed)) then None
      else
        let metrics := tu_metrics entry.2 in
        if negb (rank_eligible metrics) then None
        else
          match tmx_weighted_return metrics with
          | None => None
          | Some w => if dle w dzero then None else Some (mk_Candidate w entry.1 event metrics)
          end
  end.

Definition candidate_key (c : Candidate) : dec * string := falling (cd_return c, cd_theme_id c).

(* @ packages/pipeline/market.py 864-885 MarketDataPipeline._ranking_items *)
Definition candidates (market_closed : bool) : list Candidate :=
  sorted_by candidate_key (omap (candidate_of market_closed) (th_latest_metrics t)).

(* @ packages/pipeline/market.py 907-920 MarketDataPipeline._ranking_items *)
Definition evidence_view (event_id : string) : res json :=
  match dget event_id evidence with
  | None =>
      Ok (JObj [("evidenceStatus", JStr (EvidenceStatus_value EV_SEARCHING)); ("summary", JNull);
                ("publishedAt", JNull)])
  | Some e =>
      status ← item_get "evidenceStatus" e;
      summary ← item_get "summary" e;
      published ← item_get "latestPublishedAt" e;
      Ok (JObj [("evidenceStatus", status); ("summary", summary); ("publishedAt", published)])
  end.

(* @ packages/pipeline/market.py 888-921 MarketDataPipeline._ranking_items *)
Definition ranking_item (h : RankHistory) (now : datetime) (entry : Z * Candidate)
    : res (dict string json) :=
  let '(rank, c) := entry in
  let event := cd_event c in
  let change := rank_change (ce_event_id event) rank now h in
  leading ← leader (cd_theme_id c);
  view ← evidence_view (ce_event_id event);
  Ok (dset "evidence" view
       (dset "leader" match leading with Some l => JObj l | None => JNull end
         (updated
            [("eventId", JStr (ce_event_id event));
             ("lifecycleStatus", JStr (LifecycleStatus_value (ce_lifecycle_status event)));
             ("reconciliationStatus", JStr (ReconciliationStatus_value REC_PENDING));
             ("classification", EventClassification_to_public_dict (ce_classification event));
             ("rank", JNum rank); ("rankChange60s", JInt change);
             ("badges", JList (JStr <$> badges (ce_event_id event) change
                                          (tmx_weighted_return (cd_metrics c)) now h))]
            (to_public_ranking_fields [] (cd_metrics c))))).

(** [enumerate(l, start=1)] *)
Definition enumerate {A} (l : list A) : list (Z * A) := zip (seqZ 1 (Z.of_nat (length l))) l.

(* @ packages/pipeline/market.py 887-889 MarketDataPipeline._ranking_items *)
Definition current_ranks (entries : list (Z * Candidate)) : Ranks :=
  fold_left (fun d e => dset (ce_event_id (cd_event e.2)) (e.1, tmx_weighted_return (cd_metrics e.2)) d)
    entries [].

(** Ranks are compared with the history before they become part of it. *)
(* @ packages/pipeline/market.py 858-923 MarketDataPipeline._ranking_items *)
Definition ranking_items (market_closed : bool) (now : datetime) : M RankHistory (list (dict string json)) :=
  fun h =>
    let entries := enumerate (candidates market_closed) in
    match mapM_res (ranking_item h now) entries with
    | Raise e => (Raise e, h)
    | Ok items => (Ok items, remember_ranks (current_ranks entries) now h)
    end.
End board.

(** The [assert]s of the source: what is not an object is refused. *)
Definition as_object (j : json) : res (dict string json) :=
  match j with JObj d => Ok d | _ => Raise AssertionError end.

(* @ packages/pipeline/market.py 1048-1063 MarketDataPipeline._treemap_item *)
Definition treemap_item (item : dict string json) : res (dict string json) :=
  classification ← item_get "classification" item ≫= as_object;
  coverage ← item_get "coverage" item ≫= as_object;
  event_id ← item_get "eventId" item;
  theme_id ← item_get "themeId" classification;
  display_name ← item_get "displayName" classification;
  status ← item_get "lifecycleStatus" item;
  weighted ← item_get "weightedReturn" item;
  advancing ← item_get "advancingCount" item;
  valid ← item_get "validCount" item;
  coverage_status ← item_get "status" coverage;
  flags ← item_get "qualityFlags" item;
  Ok [("eventId", event_id); ("themeId", theme_id); ("displayName", display_name);
      ("lifecycleStatus", status); ("weightedReturn", weighted); ("advancingCount", advancing);
      ("validCount", valid); ("coverageStatus", coverage_status); ("qualityFlags", flags)].

(** ** The short history answers like the whole log *)

(** The history after the publications of a log. *)
Definition remembered (log : RankHistory) : RankHistory :=
  fold_left (fun h p => remember_ranks p.2 p.1 h) log [].

(** What was published last at or before a time. *)
Definition published_by (at_ : datetime) (log : RankHistory) : option Ranks :=
  snd <$> last (List.filter (fun p => dt_le p.1 at_) log).

Definition in_time_order : RankHistory -> Prop := StronglySorted (fun p q => instant p.1 <= instant q.1).

Lemma dt_le_true a b : dt_le a b = true <-> instant a <= instant b.
Proof. rewrite dt_le_Z. apply Z.leb_le. Qed.

Lemma dt_le_false a b : dt_le a b = false <-> instant b < instant a.
Proof. rewrite dt_le_Z. apply Z.leb_gt. Qed.

Lemma instant_minus d x : instant (dt_minus d x) = instant d - x.
Proof. unfold dt_minus. rewrite instant_add. lia. Qed.

Lemma ranks_from_sorted at_ found h :
  in_time_order h ->
  ranks_from at_ found h = match published_by at_ h with Some r => Some r | None => found end.
Proof.
  unfold published_by. intros Hs. revert found.
  induction Hs as [|[stamp r] h Hs IH Hhd]; intros found; [done|]. cbn [ranks_from List.filter fst].
  destruct (dt_lt at_ stamp) eqn:E.
  - rewrite dt_lt_Z, Z.ltb_lt in E. rewrite (proj2 (dt_le_false stamp at_) E).
    rewrite filterb_none; [done|]. intros p Hp. rewrite Forall_forall in Hhd.
    specialize (Hhd p Hp). cbn in Hhd. apply dt_le_false. lia.
  - rewrite dt_lt_Z, Z.ltb_ge in E. rewrite (proj2 (dt_le_true stamp at_) E).
    rewrite IH. cbn [fmap option_fmap]. rewrite last_cons.
    by destruct (last (List.filter _ h)) as [[]|].
Qed.

Lemma ranks_at_sorted at_ h : in_time_order h -> ranks_at at_ h = published_by at_ h.
Proof. intros H. unfold ranks_at. rewrite ranks_from_sorted by done. by destruct (published_by at_ h). Qed.

Lemma published_by_snoc at_ h p :
  published_by at_ (h ++ [p]) = if dt_le p.1 at_ then Some p.2 else published_by at_ h.
Proof.
  unfold published_by. rewrite List.filter_app. cbn. destruct (dt_le p.1 at_); cbn.
  - by rewrite last_snoc.
  - by rewrite app_nil_r.
Qed.

Lemma forget_published cutoff at_ h :
  in_time_order h -> instant cutoff <= instant at_ ->
  published_by at_ (forget_before cutoff h) = published_by at_ h.
Proof.
  intros Hs Hat. induction Hs as [|[s0 r0] h Hs IH Hhd]; [done|]. cbn [forget_before].
  destruct h as [|[s1 r1] h]; [done|]. destruct (dt_le s1 cutoff) eqn:E; [|done].
  rewrite IH. apply dt_le_true in E. apply Forall_cons in Hhd as [Hhd _]. cbn in Hhd.
  unfold published_by. cbn [List.filter fst].
  assert (dt_le s1 at_ = true) as -> by (apply dt_le_true; lia).
  assert (dt_le s0 at_ = true) as -> by (apply dt_le_true; lia). by rewrite last_cons_cons.
Qed.

Lemma forget_sublist cutoff h : forget_before cutoff h `sublist_of` h.
Proof.
  induction h as [|p h IH]; [done|]. cbn [forget_before]. destruct p as [s0 r0], h as [|[s1 r1] h]; [done|].
  destruct (dt_le s1 cutoff); [by apply sublist_cons|done].
Qed.

(** All but the oldest entry are within the window. *)
Lemma forget_recent cutoff h :
  in_time_order h -> Forall (fun p => instant cutoff < instant p.1) (tail (forget_before cutoff h)).
Proof.
  intros Hs. induction Hs as [|[s0 r0] h Hs IH Hhd]; [constructor|]. cbn [forget_before].
  destruct h as [|[s1 r1] h]; [constructor|]. destruct (dt_le s1 cutoff) eqn:E; [done|]. cbn [tail].
  assert (instant cutoff < instant s1).
  { apply dt_le_false in E. lia. }
  constructor; [done|]. apply StronglySorted_inv in Hs as [_ Hs].
  eapply Forall_impl; [exact Hs|]. intros p Hp. cbn in *. lia.
Qed.

Lemma in_time_order_snoc h p :
  in_time_order (h ++ [p]) <-> in_time_order h /\ Forall (fun q => instant q.1 <= instant p.1) h.
Proof.
  unfold in_time_order. induction h as [|q h IH]; cbn [app].
  - split; [split; constructor|intros _; repeat constructor].
  - split.
    + intros [H1 H2]%StronglySorted_inv. apply IH in H1 as [H1 H3].
      apply Forall_app in H2 as [H2 H4]. apply Forall_cons in H4 as [H4 _].
      split; [by constructor|]. constructor; [exact H4|done].
    + intros [[H1 H2]%StronglySorted_inv H3]. apply Forall_cons in H3 as [H3 H4].
      constructor; [by apply IH|]. apply Forall_app. by repeat constructor.
Qed.

Lemma in_time_order_sublist h k : h `sublist_of` k -> in_time_order k -> in_time_order h.
Proof.
  intros Hk. induction Hk as [|p h k Hk IH|p h k Hk IH]; intros Hs; [done| |].
  - apply StronglySorted_inv in Hs as [Hs Hhd]. constructor; [by apply IH|].
    rewrite Forall_forall in Hhd |- *. intros q Hq. apply Hhd. by apply (elem_of_sublist _ _ _ Hq).
  - apply StronglySorted_inv in Hs as [Hs _]. by apply IH.
Qed.

(** What holds of the history after a log. *)
Record history_refines (log h : RankHistory) : Prop := {
  hr_sublist : h `sublist_of` log;
  hr_answers : forall at_, (forall p, last log = Some p ->
      instant p.1 - RISING_RETURN_WINDOW <= instant at_) -> published_by at_ h = published_by at_ log;
  hr_recent : forall p, last log = Some p ->
      Forall (fun q => instant p.1 - RISING_RETURN_WINDOW < instant q.1) (tail h)
}.

Lemma remembered_snoc log p : remembered (log ++ [p]) = remember_ranks p.2 p.1 (remembered log).
Proof. unfold remembered. by rewrite fold_left_app. Qed.

Lemma remembered_refines log : in_time_order log -> history_refines log (remembered log).
Proof.
  induction log as [|p log IH] using rev_ind; intros Hs; [by split|].
  apply in_time_order_snoc in Hs as [Hs Hlast]. destruct (IH Hs) as [Hsub Hans _].
  rewrite remembered_snoc. set (h := remembered log) in *.
  assert (in_time_order (h ++ [p])) as Hh.
  { apply in_time_order_snoc. split; [by eapply in_time_order_sublist|].
    rewrite Forall_forall in Hlast |- *. intros q Hq. apply Hlast. by apply (elem_of_sublist _ _ _ Hq). }
  unfold remember_ranks. replace (p.1, p.2) with p by by destruct p. split.
  - etrans; [apply forget_sublist|]. by apply sublist_app.
  - intros at_ Hat. rewrite last_snoc in Hat. specialize (Hat p eq_refl).
    rewrite forget_published, !published_by_snoc by (done || rewrite instant_minus; lia).
    destruct (dt_le p.1 at_); [done|]. apply Hans. intros q Hq.
    apply last_Some_elem_of in Hq. rewrite Forall_forall in Hlast. specialize (Hlast q Hq). cbn in Hlast. lia.
  - intros q Hq. rewrite last_snoc in Hq. apply (inj Some) in Hq as <-.
    pose proof (forget_recent (dt_minus p.1 RISING_RETURN_WINDOW) _ Hh) as H.
    eapply Forall_impl; [exact H|]. intros q. cbv beta. rewrite instant_minus. lia.
Qed.

(** The history that publications leave behind is enough: it keeps no more than one entry
    from before the last five minutes, and still says for every event what the log of all
    publications says.  Where the clock does not go back, the rank change is the rank of the
    last publication at least sixty seconds ago less the rank now, unknown when there is none
    or the event was not ranked then; and the badge is given exactly to events that gained
    three ranks and return more than in the last publication at least five minutes ago. *)
Theorem rank_history_refines_log log now event_id rank change weighted_return :
  in_time_order log -> (forall p, last log = Some p -> instant p.1 <= instant now) ->
  let h := remembered log in
  let at_of window := published_by (dt_minus now window) log ≫= dget event_id in
  rank_change event_id rank now h = (fun before => before.1 - rank) <$> at_of RANK_CHANGE_WINDOW /\
  badges event_id change weighted_return now h =
    match change, at_of RISING_RETURN_WINDOW, weighted_return with
    | Some gain, Some (_, Some earlier), Some w =>
        if (RISING_FAST_RANK_GAIN <=? gain) && dlt earlier w then [RISING_FAST_BADGE] else []
    | _, _, _ => []
    end /\
  h `sublist_of` log /\
  forall p, last log = Some p ->
    Forall (fun q => instant p.1 - RISING_RETURN_WINDOW < instant q.1) (tail h).
Proof.
  intros Hs Hnow h at_of. destruct (remembered_refines log Hs) as [Hsub Hans Hrec].
  assert (forall window, 0 <= window <= RISING_RETURN_WINDOW ->
            ranks_at (dt_minus now window) h = published_by (dt_minus now window) log) as Hat.
  { intros window Hw. rewrite ranks_at_sorted by by eapply in_time_order_sublist.
    apply Hans. intros p Hp. rewrite instant_minus. specialize (Hnow p Hp). lia. }
  split_and!; [| |done|done].
  - unfold rank_change, at_of. rewrite Hat by done.
    destruct (published_by _ log) as [ranks|]; [cbn|done]. by destruct (dget event_id ranks).
  - unfold badges, at_of. rewrite Hat by done. destruct change as [gain|]; [|done].
    rewrite Z.leb_antisym. destruct (gain <? RISING_FAST_RANK_GAIN); cbn [negb andb];
      destruct (published_by _ log) as [ranks|]; try done; cbn;
      destruct (dget event_id ranks) as [[r [b|]]|]; try done; by destruct weighted_return.
Qed.

(** ** The ranking *)

Section ranking.
Context (cfg : PipelineConfig) (f : Feed) (t : Themes) (evidence : dict string (dict string json)).

Lemma candidate_of_spec closed entry c :
  candidate_of t closed entry = Some c <->
  cd_theme_id c = entry.1 /\ cd_metrics c = tu_metrics entry.2 /\
  event_of_theme t entry.1 = Some (cd_event c) /\
  ce_lifecycle_status (cd_event c) ∈ rankable closed /\ rank_eligible (tu_metrics entry.2) = true /\
  tmx_weighted_return (tu_metrics entry.2) = Some (cd_return c) /\ dlt dzero (cd_return c) = true.
Proof.
  unfold candidate_of. destruct (event_of_theme t entry.1) as [event|]; [|naive_solver].
  destruct (bool_decide_reflect (ce_lifecycle_status event ∈ rankable closed)); cbn [negb];
    [|split; [done|]; naive_solver].
  destruct (rank_eligible _) eqn:Er; cbn [negb]; [|split; [done|]; naive_solver].
  destruct (tmx_weighted_return (tu_metrics entry.2)) as [w|]; [|naive_solver].
  unfold dlt, dle. rewrite (pylt_pyle dzero). destruct c as [cw ct ce cm]; cbn.
  destruct (pyle w dzero) eqn:E; split; try done.
  - intros (_&_&_&_&_&[= ->]&H). by rewrite E in H.
  - intros [= <- <- <- <-]. by rewrite E.
  - by intros (->&->&[= ->]&_&_&[= ->]&_).
Qed.

Lemma elem_of_candidates closed c :
  c ∈ candidates t closed <->
  exists u, (cd_theme_id c, u) ∈ th_latest_metrics t /\ candidate_of t closed (cd_theme_id c, u) = Some c.
Proof.
  unfold candidates. rewrite elem_of_sorted_by, list_elem_of_omap. split.
  - intros ([theme u]&Hin&Hc). pose proof Hc as (E&_)%candidate_of_spec. cbn in E. subst theme. by exists u.
  - intros (u&Hin&Hc). by exists (cd_theme_id c, u).
Qed.

Lemma candidates_once closed :
  NoDup (dkeys (th_latest_metrics t)) -> NoDup (cd_theme_id <$> candidates t closed).
Proof.
  intros Hnd. unfold candidates. rewrite sorted_by_perm. revert Hnd. unfold dkeys.
  induction (th_latest_metrics t) as [|e l IH]; intros Hnd; [constructor|]. cbn in Hnd |- *.
  apply NoDup_cons in Hnd as [Hin Hnd]. specialize (IH Hnd).
  destruct (candidate_of t closed e) as [c|] eqn:Ec; [|done]. cbn. constructor; [|done].
  apply candidate_of_spec in Ec as (->&_).
  intros (c'&E&Hc')%list_elem_of_fmap. apply list_elem_of_omap in Hc' as (e'&He'&Hc').
  apply candidate_of_spec in Hc' as (E'&_). apply Hin. rewrite E, E'. by apply list_elem_of_fmap_2.
Qed.

(** Rounding to the context keeps the order. *)
Lemma dminus_antitone a b : dlt (dminus a) (dminus b) = true -> dlt b a = true.
Proof.
  assert (forall d, rounded default_prec (QArith_base.Qopp (dval d)) (dval (dminus d))) as Hr.
  { intros d. rewrite <-dval_neg_of. unfold dminus.
    assert (1 <= default_prec) as H1 by (unfold default_prec; lia); pose proof (fix_dec_rounded default_prec H1 (dneg_of d)) as H.
    destruct (N.eqb_spec (dcoef (fix_dec default_prec (dneg_of d))) 0) as [E|]; [|done].
    rewrite (dval_0 _ E) in H. by rewrite (dval_0 (mk_dec false 0 _)). }
  rewrite !dlt_val. intros Hlt. destruct (QArith_base.Qlt_le_dec (dval b) (dval a)) as [|Hle]; [done|].
  exfalso. apply QArith_base.Qopp_le_compat in Hle.
  revert Hlt. apply QArith_base.Qle_not_lt.
  eapply rounded_mono; [|apply Hr|apply Hr|exact Hle]. unfold default_prec; lia.
Qed.

(** A theme stands before another if it returns more, or the same up to the 28 digits that
    are compared and its id is not greater. *)
Definition stands_before (a b : Candidate) : Prop :=
  dlt (cd_return b) (cd_return a) = true \/
  deq (dminus (cd_return a)) (dminus (cd_return b)) = true /\ pyle (cd_theme_id a) (cd_theme_id b) = true.

Lemma candidates_sorted closed : StronglySorted stands_before (candidates t closed).
Proof.
  pose proof (sorted_by_sorted candidate_key (omap (candidate_of t closed) (th_latest_metrics t))) as H.
  fold (candidates t closed) in H. induction H as [|c l Hl IH Hc]; constructor; [done|].
  eapply Forall_impl; [exact Hc|]. intros c' Hle. unfold key_le, pyle, candidate_key, falling in Hle.
  cbn in Hle. change (pycmp (dminus (cd_return c), cd_theme_id c) (dminus (cd_return c'), cd_theme_id c'))
    with (lex (pycmp (dminus (cd_return c)) (dminus (cd_return c'))) (pycmp (cd_theme_id c) (cd_theme_id c')))
    in Hle.
  destruct (pycmp (dminus (cd_return c)) (dminus (cd_return c'))) eqn:E; cbn [lex] in Hle; [right|left|done].
  - unfold deq, pyle. by rewrite E.
  - apply dminus_antitone. unfold dlt, pylt. by rewrite E.
Qed.

(** What an item says of its theme, and that the treemap can show it. *)
Lemma ranking_item_fields h now rank c item :
  ranking_item cfg f t evidence h now (rank, c) = Ok item ->
  dget "eventId" item = Some (JStr (ce_event_id (cd_event c))) /\
  dget "rank" item = Some (JNum rank) /\
  dget "rankChange60s" item = Some (JInt (rank_change (ce_event_id (cd_event c)) rank now h)) /\
  dget "weightedReturn" item = Some (decimal_to_number (tmx_weighted_return (cd_metrics c))) /\
  exists tile, treemap_item item = Ok tile /\
    dget "eventId" tile = Some (JStr (ce_event_id (cd_event c))) /\
    dget "themeId" tile = Some (JStr (ec_theme_id (ce_classification (cd_event c)))) /\
    dget "weightedReturn" tile = Some (decimal_to_number (tmx_weighted_return (cd_metrics c))).
Proof.
  unfold ranking_item. intros H. apply res_bind_ok in H as (leading&_&H).
  apply res_bind_ok in H as (view&_&[= <-]).
  split_and!; [reflexivity..|]. eexists. split; [reflexivity|]. split_and!; reflexivity.
Qed.

(** Evidence as [evidence_summary] leaves it. *)
Definition evidence_complete : Prop :=
  forall event_id e, dget event_id evidence = Some e ->
    is_Some (dget "evidenceStatus" e) /\ is_Some (dget "summary" e) /\
    is_Some (dget "latestPublishedAt" e).

(** A reference that is used is positive, so the division is defined. *)
Lemma leader_return_total u w : is_ok (leader_return f u w) = true.
Proof.
  unfold leader_return. destruct (get _ _ _) as [state|]; [|done].
  destruct (hs_current_price state) as [price|]; [|done].
  destruct (reference_close f (cw_stock_id w) u) as [reference|] eqn:E; [|done].
  unfold reference_close in E. apply head_Some_elem_of, list_elem_of_omap in E as (r&_&E).
  case_bool_decide; [|done]. unfold adjusted_return_reference in E.
  destruct (_ || _ || _); [done|]. destruct (sr_previous_adjusted_close r) as [close|]; [|done].
  destruct (dle close dzero) eqn:Epos; [done|]. injection E as <-.
  apply dle_false in Epos. unfold ddiv. destruct (N.eqb_spec (dcoef close) 0) as [E0|];
    [|by destruct (dcoef price =? 0)%N; [|destruct (div_coef _ _ _ _)]].
  exfalso. apply dval_0 in E0. rewrite E0 in Epos. by apply QArith_base.Qlt_irrefl in Epos.
Qed.

Lemma mapM_res_total {A B} (g : A -> res B) l :
  (forall a, a ∈ l -> is_ok (g a) = true) -> exists k, mapM_res g l = Ok k.
Proof.
  induction l as [|a l IH]; intros H; [by exists []|]. cbn.
  pose proof (H a (list_elem_of_here a l)) as Ha. destruct (g a) as [b|]; [|done]. cbn.
  destruct IH as [k ->]; [by intros x ?; apply H; right|]. by exists (b :: k).
Qed.

Lemma ranking_item_total h now e :
  evidence_complete -> is_ok (ranking_item cfg f t evidence h now e) = true.
Proof.
  intros Hev. destruct e as [rank c]. unfold ranking_item, leader, leaders.
  destruct (dget (cd_theme_id c) (th_latest_metrics t)) as [u|];
    [destruct (mapM_res_total (leader_return f u) (tmx_capped_weights (tu_metrics u))) as [k ->];
       [intros; apply leader_return_total|]|];
    cbn [mbind res_bind]; unfold evidence_view;
    (destruct (dget (ce_event_id (cd_event c)) evidence) as [ev|] eqn:E; [|done]);
    destruct (Hev _ _ E) as ([? E1]&[? E2]&[? E3]); unfold item_get; by rewrite E1, E2, E3.
Qed.

Lemma enumerate_lookup {A} (l : list A) i a :
  l !! i = Some a -> enumerate l !! i = Some (Z.of_nat i + 1, a).
Proof.
  intros H. unfold enumerate. apply lookup_zip_Some. cbn. split; [|done].
  apply lookup_seqZ. apply lookup_lt_Some in H. lia.
Qed.
End ranking.

(** The board ranks exactly the themes that may be ranked.  A publication never fails at
    the board; it ranks the themes whose event stands in a rankable state, whose metrics are
    complete and whose weighted return is positive, each once, a theme before another if it
    returns more (compared with 28 digits, ties by theme id); the item at place [i] has the
    event, the rank [i + 1], its change against the history before this publication and the
    return of its theme, and makes a tile of the treemap with the same values; the ranks
    given are then added to the history. *)
Theorem board_ranks_themes cfg f t evidence closed now h :
  NoDup (dkeys (th_latest_metrics t)) -> evidence_complete evidence ->
  exists board items,
    ranking_items cfg f t evidence closed now h =
      (Ok items, remember_ranks (current_ranks (enumerate board)) now h) /\
    NoDup (cd_theme_id <$> board) /\ StronglySorted stands_before board /\
    (forall c, c ∈ board <-> exists u,
       dget (cd_theme_id c) (th_latest_metrics t) = Some u /\ cd_metrics c = tu_metrics u /\
       event_of_theme t (cd_theme_id c) = Some (cd_event c) /\
       ce_lifecycle_status (cd_event c) ∈ rankable closed /\ rank_eligible (tu_metrics u) = true /\
       tmx_weighted_return (tu_metrics u) = Some (cd_return c) /\ dlt dzero (cd_return c) = true) /\
    length items = length board /\
    forall i c, board !! i = Some c -> exists item tile, items !! i = Some item /\
      dget "eventId" item = Some (JStr (ce_event_id (cd_event c))) /\
      dget "rank" item = Some (JNum (Z.of_nat i + 1)) /\
      dget "rankChange60s" item =
        Some (JInt (rank_change (ce_event_id (cd_event c)) (Z.of_nat i + 1) now h)) /\
      dget "weightedReturn" item = Some (decimal_to_number (tmx_weighted_return (cd_metrics c))) /\
      treemap_item item = Ok tile /\
      dget "eventId" tile = Some (JStr (ce_event_id (cd_event c))) /\
      dget "themeId" tile = Some (JStr (ec_theme_id (ce_classification (cd_event c)))) /\
      dget "weightedReturn" tile = Some (decimal_to_number (tmx_weighted_return (cd_metrics c))).
Proof.
  intros Hnd Hev. exists (candidates t closed).
  destruct (mapM_res_total (ranking_item cfg f t evidence h now) (enumerate (candidates t closed)))
    as [items E]; [by intros; apply ranking_item_total|].
  exists items. unfold ranking_items. rewrite E. split; [done|].
  apply mapM_res_Forall2 in E. pose proof (Forall2_length _ _ _ E) as Hlen.
  split_and!.
  - apply candidates_once, Hnd.
  - apply candidates_sorted.
  - intros c. rewrite elem_of_candidates. split.
    + intros (u&Hin&Hc). exists u. split; [by apply elem_dget|].
      apply candidate_of_spec in Hc as (_&?&?&?&?&?&?). done.
    + intros (u&Hu&?&?&?&?&?&?). exists u. split; [by apply dget_elem|]. by apply candidate_of_spec.
  - rewrite <-Hlen. unfold enumerate. rewrite length_zip, length_seqZ. lia.
  - intros i c Hc%enumerate_lookup. destruct (Forall2_lookup_l _ _ _ _ _ E Hc) as (item&Hi&Hitem).
    apply ranking_item_fields in Hitem as (?&?&?&?&tile&?&?&?&?). by exists item, tile.
Qed.

(** ** Concrete publications *)

Definition demo_log : RankHistory :=
  [(demo_now 0, [("e1", (5, Some done_))]); (demo_now 10, [("e1", (4, Some done_))]);
   (demo_now 320, [("e1", (1, Some (dec_of_Z 2)))])].

Lemma rank_history_refines_log_witness :
  rank_change "e1" 1 (demo_now 330) (remembered demo_log) = Some 3 /\
  badges "e1" (Some 3) (Some (dec_of_Z 2)) (demo_now 330) (remembered demo_log) = [RISING_FAST_BADGE] /\
  length (remembered demo_log) = 2%nat.
Proof.
  assert (in_time_order demo_log) as Hs by (repeat (constructor || (apply Z.leb_le; vm_compute; reflexivity))).
  assert (forall p, last demo_log = Some p -> instant p.1 <= instant (demo_now 330)) as Hnow.
  { intros p H. apply (inj Some) in H as <-. apply Z.leb_le. vm_compute. reflexivity. }
  destruct (rank_history_refines_log demo_log (demo_now 330) "e1" 1 (Some 3) (Some (dec_of_Z 2)) Hs Hnow)
    as (E1&E2&_).
  rewrite E1, E2. split_and!; by vm_compute.
Defined.

(** The theme of [demo_active] is on the board, first. *)
Lemma board_ranks_themes_witness :
  exists board items, ranking_items demo_cfg (feed (pc_catalog demo_cfg) []) demo_active [] false (demo_now 12) [] =
      (Ok items, remember_ranks (current_ranks (enumerate board)) (demo_now 12) []) /\
    exists c, c ∈ board /\ cd_theme_id c = "t1".
Proof.
  assert (NoDup (dkeys (th_latest_metrics demo_active))) as Hnd.
  { assert (dkeys (th_latest_metrics demo_active) = ["t1"]) as -> by (vm_compute; reflexivity).
    apply NoDup_singleton. }
  destruct (board_ranks_themes demo_cfg (feed (pc_catalog demo_cfg) []) demo_active [] false
              (demo_now 12) [] Hnd) as (board&items&Erun&_&_&Hin&_); [by intros ? ?|].
  exists board, items. split; [exact Erun|].
  assert (exists e, event_of_theme demo_active "t1" = Some e /\ ce_lifecycle_status e = ACTIVE)
    as (e&He&Hs).
  { destruct (event_of_theme demo_active "t1") as [e|] eqn:E; [|vm_compute in E; discriminate E].
    exists e. split; [reflexivity|]. apply Some_inj. change (Some (ce_lifecycle_status e))
      with (ce_lifecycle_status <$> Some e). rewrite <-E. vm_compute. reflexivity. }
  exists (mk_Candidate (dec_of_Z 1) "t1" e (tu_metrics (demo_update 1 0))). split; [|reflexivity].
  apply Hin. exists (demo_update 1 0). cbn [cd_theme_id cd_event cd_metrics cd_return].
  split_and!; [vm_compute; reflexivity|reflexivity|exact He| |vm_compute; reflexivity|reflexivity
              |vm_compute; reflexivity].
  rewrite Hs. left.
Defined.
