(* ===== verification/MarketBaseline.v ===== *)
(** [packages/pipeline/market.py], the baselines: what the pipeline adds to the intraday
    history every minute, and the turnover multiples and attention gaps it reads from it.
    The history is an interface; [History] implements it with the files of a day. *)
From S2P Require Import Prelude PyTime PyDecimal Domain Weights ThemeMetrics Turnover Attention.
From S2P Require Import EventModels EventStore RealtimeModels HotState Aggregation TradingDay.
From S2P Require Import MarketThemes MarketFeed MarketBoard.
#[local] Open Scope Z_scope.

(** What the pipeline needs of an intraday history. *)
Class IntradayHistory (H : Type) := {
  trading_days : H -> list date;
  record_turnover : date -> time -> list StockTradingValueObservation -> M H unit;
  load_turnover : time -> list date -> H -> res (list StockTradingValueObservation);
  record_membership : date -> list ThemeMembershipSnapshot -> M H unit;
  load_membership : list date -> H -> res (list ThemeMembershipSnapshot);
  record_attention : date -> dict string AttentionDaySignal -> M H unit;
  load_attention : list date -> H -> res (dict string (list AttentionDaySignal))
}.

(** [astimezone(KST).time().replace(second=0, microsecond=0)] *)
(* @ packages/pipeline/market.py 456-456 MarketDataPipeline._accumulate *)
Definition minute_of (as_of : datetime) : time :=
  let t := time_of (to_kst as_of) in t - t mod minutes 1.

(** [l[-n:]] for a positive [n]. *)
Definition last_days (n : Z) (l : list date) : list date :=
  drop (length l - Z.to_nat n)%nat l.

Section baseline.
Context {H : Type} `{IntradayHistory H}.

(* @ packages/pipeline/market.py 150-157 MarketDataPipeline.__init__ *)
Record Baselines := mk_Baselines {
  bl_history : option H;
  bl_membership_recorded : bool;
  bl_recorded_bucket : option time;
  bl_baseline_key : option (time * list string);
  bl_turnover : dict string ThemeTurnoverResult;
  bl_attention_gap : dict string (option Z)
}.

(* @ packages/pipeline/market.py 150-157 MarketDataPipeline.__init__ *)
Definition no_baselines (history : option H) : Baselines :=
  mk_Baselines history false None None [] [].

Definition set_history x b :=
  mk_Baselines x (bl_membership_recorded b) (bl_recorded_bucket b) (bl_baseline_key b)
    (bl_turnover b) (bl_attention_gap b).
Definition set_membership_recorded x b :=
  mk_Baselines (bl_history b) x (bl_recorded_bucket b) (bl_baseline_key b) (bl_turnover b)
    (bl_attention_gap b).
Definition set_recorded_bucket x b :=
  mk_Baselines (bl_history b) (bl_membership_recorded b) x (bl_baseline_key b) (bl_turnover b)
    (bl_attention_gap b).
Definition set_baseline_key x b :=
  mk_Baselines (bl_history b) (bl_membership_recorded b) (bl_recorded_bucket b) x (bl_turnover b)
    (bl_attention_gap b).
Definition set_turnover x b :=
  mk_Baselines (bl_history b) (bl_membership_recorded b) (bl_recorded_bucket b) (bl_baseline_key b)
    x (bl_attention_gap b).
Definition set_attention_gap x b :=
  mk_Baselines (bl_history b) (bl_membership_recorded b) (bl_recorded_bucket b) (bl_baseline_key b)
    (bl_turnover b) x.

Definition change_baselines (g : Baselines -> Baselines) : M Baselines unit := fun b => (Ok tt, g b).

(** A call of the history; without one there is nothing to do. *)
Definition with_history (m : M H unit) : M Baselines unit := fun b =>
  match bl_history b with
  | None => (Ok tt, b)
  | Some h => let '(r, h) := m h in (r, set_history (Some h) b)
  end.

Context (cfg : PipelineConfig) (f : Feed) (t : Themes).

(* @ packages/pipeline/market.py 557-561 MarketDataPipeline._public_theme_ids *)
Definition is_public (e : CanonicalEvent) : bool :=
  bool_decide (ce_lifecycle_status e ∈ [ACTIVE; WEAKENING; CLOSED]).

(* @ packages/pipeline/market.py 548-563 MarketDataPipeline._public_theme_ids *)
Definition public_theme_ids : list string :=
  List.filter (fun theme => match event_of_theme t theme with Some e => is_public e | None => false end)
    (sorted_list (dkeys (th_latest_metrics t))).

(* @ packages/pipeline/market.py 490-502 MarketDataPipeline._record_bucket *)
Definition bucket_observation (bucket : time) (state : HotStockState)
    : res StockTradingValueObservation :=
  StockTradingValueObservation_init (hs_stock_id state) (pc_market_date cfg) (hs_occurred_at state)
    bucket (Finite <$> hs_cumulative_trading_value state) true (hs_fresh state)
    (hs_trading_halted state) (hs_corporate_action_unresolved state).

(** The states of the stocks seen so far, sorted by stock. *)
(* @ packages/pipeline/market.py 472-503 MarketDataPipeline._record_bucket *)
Definition record_bucket (bucket : time) : M Baselines unit := fun b =>
  match bl_history b with
  | None => (Ok tt, b)
  | Some _ =>
      (_ ← (if bl_membership_recorded b then mret tt
            else
              _ ← with_history (record_membership (pc_market_date cfg) (cat_snapshots (pc_catalog cfg)));
              change_baselines (set_membership_recorded true));
       observations ← lift (mapM_res (bucket_observation bucket)
                              (states_for (pc_market_date cfg) (fd_observed_stock_ids f) (fd_hot f)));
       with_history (record_turnover (pc_market_date cfg) bucket observations)) b
  end.

(* @ packages/pipeline/market.py 565-578 MarketDataPipeline._attention_signal *)
Definition attention_signal (theme_id : string) (turnover : ThemeTurnoverResult)
    : res (option AttentionDaySignal) :=
  match dget theme_id (th_latest_metrics t) with
  | None => Ok None
  | Some u =>
      signal ← evaluate_attention_day (pc_market_date cfg) (tu_metrics u) turnover ATTENTION_POLICY_V1;
      Ok (Some signal)
  end.

(* @ packages/pipeline/market.py 580-610 MarketDataPipeline._current_attention_gap *)
Definition current_attention_gap (theme_id : string) (turnover : ThemeTurnoverResult)
    (stored_signals : list AttentionDaySignal) (trading_days : list date) : res (option Z) :=
  today ← attention_signal theme_id turnover;
  match today with
  | None => Ok None
  | Some today =>
      timeline ← build_attention_timeline
        (List.filter (fun s => bool_decide (as_attention_policy_version s = ap_version ATTENTION_POLICY_V1))
           stored_signals ++ [today])
        (trading_days ++ [pc_market_date cfg]) ATTENTION_POLICY_V1;
      Ok (current_gap_trading_days timeline)
  end.

(** [snapshots.setdefault(snapshot.theme_id, []).append(snapshot)], then [.get(theme_id, ())] *)
(* @ packages/pipeline/market.py 523-528 MarketDataPipeline._recalculate_baselines *)
Definition snapshots_of (snapshots : list ThemeMembershipSnapshot) (theme_id : string)
    : list ThemeMembershipSnapshot :=
  List.filter (fun s => bool_decide (ms_theme_id s = theme_id)) snapshots.

(* @ packages/pipeline/market.py 530-546 MarketDataPipeline._recalculate_baselines *)
Definition recalculate_theme (bucket : time) (as_of : datetime) (turnover_days attention_days : list date)
    (observations : list StockTradingValueObservation) (snapshots : list ThemeMembershipSnapshot)
    (stored : dict string (list AttentionDaySignal)) (theme_id : string) : M Baselines unit :=
  turnover ← lift (calculate_theme_turnover theme_id (pc_market_date cfg) as_of bucket
                     (turnover_days ++ [pc_market_date cfg]) (snapshots_of snapshots theme_id)
                     observations RANKING_BASELINE_POLICY_V1);
  _ ← change_baselines (fun b => set_turnover (dset theme_id turnover (bl_turnover b)) b);
  gap ← lift (current_attention_gap theme_id turnover (default [] (dget theme_id stored)) attention_days);
  change_baselines (fun b => set_attention_gap (dset theme_id gap (bl_attention_gap b)) b).

(* @ packages/pipeline/market.py 505-546 MarketDataPipeline._recalculate_baselines *)
Definition recalculate_baselines (theme_ids : list string) (bucket : time) (as_of : datetime)
    : M Baselines unit := fun b =>
  match bl_history b, theme_ids with
  | None, _ | _, [] => (Ok tt, b)
  | Some h, _ =>
      let stored := List.filter (fun day => day <? pc_market_date cfg) (trading_days h) in
      let turnover_days := last_days (sbp_lookback_trading_days RANKING_BASELINE_POLICY_V1) stored in
      let attention_days := last_days (sbp_lookback_trading_days ATTENTION_BASELINE_POLICY_V1) stored in
      (observations ← lift (load_turnover bucket (turnover_days ++ [pc_market_date cfg]) h);
       memberships ← lift (load_membership turnover_days h);
       stored_signals ← lift (load_attention attention_days h);
       for_each (recalculate_theme bucket as_of turnover_days attention_days observations
                   (memberships ++ cat_snapshots (pc_catalog cfg)) stored_signals) theme_ids) b
  end.

(** The bucket and the key are noted before the work they stand for. *)
(* @ packages/pipeline/market.py 446-470 MarketDataPipeline._accumulate *)
Definition accumulate (as_of : datetime) : M Baselines unit := fun b =>
  match bl_history b with
  | None => (Ok tt, b)
  | Some _ =>
      let bucket := minute_of as_of in
      (_ ← (if decide (bl_recorded_bucket b = Some bucket) then mret tt
            else
              _ ← change_baselines (set_recorded_bucket (Some bucket));
              record_bucket bucket);
       if decide (bl_baseline_key b = Some (bucket, public_theme_ids)) then mret tt
       else
         _ ← change_baselines (set_baseline_key (Some (bucket, public_theme_ids)));
         recalculate_baselines public_theme_ids bucket as_of) b
  end.

(** The signals of the day, one per theme with a turnover. *)
(* @ packages/pipeline/market.py 744-748 MarketDataPipeline._record_attention_day *)
Definition day_signals (turnovers : dict string ThemeTurnoverResult)
    : res (dict string AttentionDaySignal) :=
  foldM (fun signals entry =>
           signal ← attention_signal entry.1 entry.2;
           Ok match signal with Some s => dset entry.1 s signals | None => signals end)
    [] turnovers.

(* @ packages/pipeline/market.py 739-752 MarketDataPipeline._record_attention_day *)
Definition record_attention_day : M Baselines unit := fun b =>
  match bl_history b, bl_turnover b with
  | None, _ | _, [] => (Ok tt, b)
  | Some _, _ =>
      (signals ← lift (day_signals (bl_turnover b));
       with_history (record_attention (pc_market_date cfg) signals)) b
  end.
End baseline.
Arguments Baselines : clear implicits.
