(* ===== verification/History.v ===== *)
(** [packages/pipeline/history.py]: the intraday history, a directory of files per trading
    day, and the interface [IntradayHistory] of the pipeline implemented with it. *)
From S2P Require Import Prelude Hoare PyTime PyTimeFacts PyDecimal Json DecimalText JsonRead Domain Attention.
From S2P Require Import MarketBaseline.
#[local] Open Scope Z_scope.

(** ** Files *)

(* @ packages/pipeline/history.py 40-42 BUCKET_PREFIX *)
Definition BUCKET_PREFIX : string := "bucket-".
Definition MEMBERSHIP_FILE : string := "membership.json".
Definition ATTENTION_FILE : string := "attention.json".

(** The directories under the root, with the JSON values of their files.  A root that does
    not exist is an empty one. *)
(* @ packages/pipeline/history.py 65-66 IntradayHistory.__init__ *)
Definition History : Type := dict string (dict string json).

(* @ packages/pipeline/history.py 87-88 IntradayHistory._day *)
Definition day_dir (market_date : date) : string := date_isoformat market_date.

(** [f"{BUCKET_PREFIX}{time_bucket:%H%M}.json"] *)
(* @ packages/pipeline/history.py 98-98 IntradayHistory.record_turnover *)
Definition bucket_file (time_bucket : time) : string :=
  let s := time_bucket / 1000000 in
  BUCKET_PREFIX +:+ String.string_of_list_ascii (pad 2 (s / 3600) ++ pad 2 (s / 60 mod 60)) +:+ ".json".

(* @ packages/pipeline/history.py 48-53 _write *)
Definition write_file (dir file : string) (payload : json) : M History unit := fun h =>
  (Ok tt, dset dir (dset file (normalize payload) (default [] (dget dir h))) h).

(* @ packages/pipeline/history.py 56-59 _read *)
Definition read_file (dir file : string) (h : History) : option json :=
  dget dir h ≫= dget file.

(* @ packages/pipeline/history.py 72-85 IntradayHistory.trading_days *)
Definition history_days (h : History) : list date :=
  sorted_by id (omap (fun name => match parse_date name with Ok d => Some d | Raise _ => None end) (dkeys h)).

(** The rows of a file; a file that is missing or holds no list has none. *)
Definition rows_of (dir file : string) (h : History) : list json :=
  match read_file dir file h with Some (JList rows) => rows | _ => [] end.

(** ** Turnover *)

(* @ packages/pipeline/history.py 100-114 IntradayHistory.record_turnover *)
Definition observation_row (o : StockTradingValueObservation) : json :=
  JObj [("stockId", JStr (tv_stock_id o)); ("observedAt", JStr (isoformat (tv_observed_at o)));
        ("cumulativeTradingValue", JDec (tv_cumulative_trading_value o));
        ("comparable", JBool (tv_comparable o)); ("fresh", JBool (tv_fresh o));
        ("tradingHalted", JBool (tv_trading_halted o));
        ("corporateActionUnresolved", JBool (tv_corporate_action_unresolved o))].

(* @ packages/pipeline/history.py 90-117 IntradayHistory.record_turnover *)
Definition history_record_turnover (market_date : date) (time_bucket : time)
    (observations : list StockTradingValueObservation) : M History unit :=
  write_file (day_dir market_date) (bucket_file time_bucket) (JList (observation_row <$> observations)).

(* @ packages/pipeline/history.py 132-149 IntradayHistory.load_turnover *)
Definition row_observation (market_date : date) (time_bucket : time) (row : json)
    : res StockTradingValueObservation :=
  row ← as_dict row;
  stock_id ← field "stockId" read_text row;
  observed_at ← field "observedAt" read_stamp row;
  cumulative_trading_value ← field "cumulativeTradingValue" (read_opt read_dec) row;
  comparable ← field "comparable" read_bool row;
  fresh ← field "fresh" read_bool row;
  trading_halted ← field "tradingHalted" read_bool row;
  corporate_action_unresolved ← field "corporateActionUnresolved" read_bool row;
  StockTradingValueObservation_init stock_id market_date observed_at time_bucket cumulative_trading_value
    comparable fresh trading_halted corporate_action_unresolved.

(** Day after day, in the order asked for. *)
Definition load_days {A} (load : date -> res (list A)) (days : list date) : res (list A) :=
  loaded ← mapM_res load days;
  Ok (List.concat loaded).

(* @ packages/pipeline/history.py 119-150 IntradayHistory.load_turnover *)
Definition history_load_turnover (time_bucket : time) (days : list date) (h : History)
    : res (list StockTradingValueObservation) :=
  load_days (fun day => mapM_res (row_observation day time_bucket)
                          (rows_of (day_dir day) (bucket_file time_bucket) h)) days.

(** ** Membership *)

Definition MembershipRole_members := [CORE; RELATED].

(* @ packages/pipeline/history.py 167-167 IntradayHistory.record_membership *)
Definition member_row (m : ThemeMember) : json :=
  JObj [("stockId", JStr (tm_stock_id m)); ("role", JStr (MembershipRole_value (tm_role m)))].

(* @ packages/pipeline/history.py 161-170 IntradayHistory.record_membership *)
Definition snapshot_row (s : ThemeMembershipSnapshot) : json :=
  JObj [("themeId", JStr (ms_theme_id s)); ("version", JStr (ms_version s));
        ("effectiveFrom", JStr (date_isoformat (ms_effective_from s)));
        ("knownAt", JStr (isoformat (ms_known_at s)));
        ("members", JList (member_row <$> ms_members s))].

(* @ packages/pipeline/history.py 152-173 IntradayHistory.record_membership *)
Definition history_record_membership (market_date : date) (snapshots : list ThemeMembershipSnapshot)
    : M History unit :=
  write_file (day_dir market_date) MEMBERSHIP_FILE (JList (snapshot_row <$> snapshots)).

(* @ packages/pipeline/history.py 192-196 IntradayHistory.load_membership *)
Definition row_member (row : json) : res ThemeMember :=
  row ← as_dict row;
  stock_id ← field "stockId" read_text row;
  role ← field "role" (read_enum MembershipRole_value MembershipRole_members) row;
  ThemeMember_init stock_id role.

(* @ packages/pipeline/history.py 185-199 IntradayHistory.load_membership *)
Definition row_snapshot (row : json) : res ThemeMembershipSnapshot :=
  row ← as_dict row;
  theme_id ← field "themeId" read_text row;
  version ← field "version" read_text row;
  effective_from ← field "effectiveFrom" read_day row;
  known_at ← field "knownAt" read_stamp row;
  members ← field "members" (read_list row_member) row;
  ThemeMembershipSnapshot_init theme_id version effective_from known_at members.

(* @ packages/pipeline/history.py 175-200 IntradayHistory.load_membership *)
Definition history_load_membership (days : list date) (h : History) : res (list ThemeMembershipSnapshot) :=
  load_days (fun day => mapM_res row_snapshot (rows_of (day_dir day) MEMBERSHIP_FILE h)) days.

(** ** Attention *)

(* @ packages/pipeline/history.py 211-239 IntradayHistory.record_attention *)
Definition signal_row (s : AttentionDaySignal) : json :=
  let flag b := match b with Some b => JBool b | None => JNull end in
  let count n := match n with Some n => JNum n | None => JNull end in
  JObj [("isAttention", flag (as_is_attention s)); ("membershipVersion", JOpt (as_membership_version s));
        ("calculationVersion", JStr (as_calculation_version s));
        ("baselineVersion", JStr (as_baseline_version s));
        ("attentionPolicyVersion", JStr (as_attention_policy_version s));
        ("turnoverMultiple", JDec (as_turnover_multiple s));
        ("highInterestCount", count (as_high_interest_count s)); ("validCount", count (as_valid_count s));
        ("highInterestRatio", JDec (as_high_interest_ratio s)); ("weightedReturn", JDec (as_weighted_return s));
        ("unavailableReason", JOpt (UnavailableReason_value <$> as_unavailable_reason s))].

(* @ packages/pipeline/history.py 202-242 IntradayHistory.record_attention *)
Definition history_record_attention (market_date : date) (signals : dict string AttentionDaySignal)
    : M History unit :=
  write_file (day_dir market_date) ATTENTION_FILE
    (JObj (List.map (fun entry => (entry.1, signal_row entry.2)) signals)).

(** Values taken as they are: one of another type, or a decimal that is not finite, which a
    recorded row does not hold, is refused here. *)
Definition read_flag (j : json) : res (option bool) :=
  match j with JNull => Ok None | JBool b => Ok (Some b) | _ => Raise TypeError end.
Definition read_count (j : json) : res (option Z) :=
  match j with JNull => Ok None | JNum n => Ok (Some n) | _ => Raise TypeError end.
Definition read_version (j : json) : res (option string) :=
  match j with JNull => Ok None | JStr s => Ok (Some s) | _ => Raise TypeError end.
Definition read_finite_dec (j : json) : res (option dec) :=
  read_opt (fun j => d ← read_dec j; require_finite d) j.

Definition UnavailableReason_members :=
  [EMPTY_MEMBERSHIP; INSUFFICIENT_COVERAGE; MISSING_REFERENCE_DATA; MISSING_MARKET_DATA; TRADING_HALTED;
   CORPORATE_ACTION_UNRESOLVED; INSUFFICIENT_OBSERVATIONS; ZERO_BASELINE; NO_PRIOR_ATTENTION_INTERVAL;
   NO_CURRENT_ATTENTION_INTERVAL; MEMBERSHIP_HISTORY_UNAVAILABLE; MEMBERSHIP_VERSION_MISMATCH;
   INCOMPLETE_ATTENTION_HISTORY].

(* @ packages/pipeline/history.py 256-273 IntradayHistory.load_attention *)
Definition row_signal (market_date : date) (row : json) : res AttentionDaySignal :=
  row ← as_dict row;
  reason ← item_get "unavailableReason" row;
  is_attention ← field "isAttention" read_flag row;
  membership_version ← field "membershipVersion" read_version row;
  calculation_version ← field "calculationVersion" read_text row;
  baseline_version ← field "baselineVersion" read_text row;
  attention_policy_version ← field "attentionPolicyVersion" read_text row;
  turnover_multiple ← field "turnoverMultiple" read_finite_dec row;
  high_interest_count ← field "highInterestCount" read_count row;
  valid_count ← field "validCount" read_count row;
  high_interest_ratio ← field "highInterestRatio" read_finite_dec row;
  weighted_return ← field "weightedReturn" read_finite_dec row;
  unavailable_reason ← read_opt (read_enum UnavailableReason_value UnavailableReason_members) reason;
  Ok (mk_AttentionDaySignal market_date is_attention membership_version calculation_version
        baseline_version attention_policy_version turnover_multiple high_interest_count valid_count
        high_interest_ratio weighted_return unavailable_reason).

(** [by_theme.setdefault(theme_id, []).append(signal)] *)
(* @ packages/pipeline/history.py 257-274 IntradayHistory.load_attention *)
Definition append_signal (by_theme : dict string (list AttentionDaySignal)) (entry : string * AttentionDaySignal)
    : dict string (list AttentionDaySignal) :=
  dset entry.1 (default [] (dget entry.1 by_theme) ++ [entry.2]) by_theme.

(* @ packages/pipeline/history.py 252-255 IntradayHistory.load_attention *)
Definition signals_of (day : date) (h : History) : res (list (string * AttentionDaySignal)) :=
  match read_file (day_dir day) ATTENTION_FILE h with
  | Some (JObj rows) => mapM_res (fun row => s ← row_signal day row.2; Ok (row.1, s)) rows
  | _ => Ok []
  end.

(* @ packages/pipeline/history.py 244-275 IntradayHistory.load_attention *)
Definition history_load_attention (days : list date) (h : History)
    : res (dict string (list AttentionDaySignal)) :=
  signals ← load_days (fun day => signals_of day h) days;
  Ok (fold_left append_signal signals []).

#[export] Instance file_history : IntradayHistory History := {
  trading_days := history_days;
  record_turnover := history_record_turnover;
  load_turnover := history_load_turnover;
  record_membership := history_record_membership;
  load_membership := history_load_membership;
  record_attention := history_record_attention;
  load_attention := history_load_attention
}.

(** ** What is loaded is what was recorded last *)

(** The calls that write. *)
Inductive Entry :=
  | TurnoverEntry (day : date) (bucket : time) (observations : list StockTradingValueObservation)
  | MembershipEntry (day : date) (snapshots : list ThemeMembershipSnapshot)
  | AttentionEntry (day : date) (signals : dict string AttentionDaySignal).

Definition record (e : Entry) : M History unit :=
  match e with
  | TurnoverEntry day bucket observations => record_turnover day bucket observations
  | MembershipEntry day snapshots => record_membership day snapshots
  | AttentionEntry day signals => record_attention day signals
  end.
Definition recorded (log : list Entry) : History := fold_left (fun h e => (record e h).2) log [].

Definition entry_day (e : Entry) : date :=
  match e with TurnoverEntry day _ _ | MembershipEntry day _ | AttentionEntry day _ => day end.
Definition entry_file (e : Entry) : string :=
  match e with
  | TurnoverEntry _ bucket _ => bucket_file bucket
  | MembershipEntry _ _ => MEMBERSHIP_FILE
  | AttentionEntry _ _ => ATTENTION_FILE
  end.
Definition entry_payload (e : Entry) : json :=
  match e with
  | TurnoverEntry _ _ observations => JList (observation_row <$> observations)
  | MembershipEntry _ snapshots => JList (snapshot_row <$> snapshots)
  | AttentionEntry _ signals => JObj (List.map (fun entry => (entry.1, signal_row entry.2)) signals)
  end.

Lemma record_writes e h :
  (record e h).2 = (write_file (day_dir (entry_day e)) (entry_file e) (entry_payload e) h).2.
Proof. by destruct e. Qed.

(** The last of the entries that [f] picks. *)
Definition last_of {A} (f : Entry -> option A) (log : list Entry) : option A := last (omap f log).

Lemma last_of_snoc {A} (f : Entry -> option A) log e :
  last_of f (log ++ [e]) = match f e with Some a => Some a | None => last_of f log end.
Proof.
  unfold last_of. rewrite omap_app. cbn. destruct (f e) as [a|]; [by rewrite last_snoc|by rewrite app_nil_r].
Qed.

Lemma last_of_map {A B} (f : Entry -> option A) (f' : Entry -> option B) (g : B -> A) log :
  Forall (fun e => f e = g <$> f' e) log -> last_of f log = g <$> last_of f' log.
Proof.
  induction log as [|e log IH] using rev_ind; [done|]. intros [Hl He]%Forall_app.
  apply Forall_cons in He as [He _]. rewrite !last_of_snoc, He. destruct (f' e); [done|]. by apply IH.
Qed.

Definition in_file (dir file : string) (e : Entry) : option json :=
  if decide (day_dir (entry_day e) = dir /\ entry_file e = file) then Some (normalize (entry_payload e)) else None.

Lemma recorded_snoc log e : recorded (log ++ [e]) = (record e (recorded log)).2.
Proof. unfold recorded. by rewrite fold_left_app. Qed.

(** A file holds what was written to it last. *)
Lemma read_recorded log dir file : read_file dir file (recorded log) = last_of (in_file dir file) log.
Proof.
  induction log as [|e log IH] using rev_ind; [done|].
  rewrite recorded_snoc, record_writes, last_of_snoc, <-IH. unfold in_file, write_file, read_file. cbn [snd].
  rewrite dget_dset. case_decide as Ed; cbn [mbind option_bind].
  - rewrite dget_dset. case_decide as Ef; [by rewrite decide_True|]. rewrite decide_False by by intros [].
    rewrite Ed. by destruct (dget dir (recorded log)).
  - by rewrite decide_False by by intros [].
Qed.

(** *** Rows *)

(** Times of day the pipeline records: whole minutes. *)
Record is_bucket (b : time) : Prop := { ib_day : 0 <= b < us_per_day; ib_minute : b mod minutes 1 = 0 }.

Record storable_observation (day : date) (bucket : time) (o : StockTradingValueObservation) : Prop := {
  so_init : StockTradingValueObservation_init (tv_stock_id o) day (tv_observed_at o) bucket
              (Finite <$> tv_cumulative_trading_value o) (tv_comparable o) (tv_fresh o) (tv_trading_halted o)
              (tv_corporate_action_unresolved o) = Ok o;
  so_observed_at : is_datetime (tv_observed_at o)
}.
Record storable_membership (s : ThemeMembershipSnapshot) : Prop := {
  sb_init : ThemeMembershipSnapshot_init (ms_theme_id s) (ms_version s) (ms_effective_from s) (ms_known_at s)
              (ms_members s) = Ok s;
  sb_members : Forall (fun m => ThemeMember_init (tm_stock_id m) (tm_role m) = Ok m) (ms_members s);
  sb_effective_from : is_date (ms_effective_from s);
  sb_known_at : is_datetime (ms_known_at s)
}.

Lemma observation_read day bucket o :
  storable_observation day bucket o -> row_observation day bucket (normalize (observation_row o)) = Ok o.
Proof.
  intros [Hi Ht].
  change (row_observation day bucket (JObj (written (fields_of (observation_row o)))) = Ok o).
  unfold row_observation. read_shape. do 7 read_field. exact Hi.
Qed.

Lemma read_role r : read_enum MembershipRole_value MembershipRole_members (normalize (JStr (MembershipRole_value r))) = Ok r.
Proof. by destruct r. Qed.

Lemma member_read m :
  ThemeMember_init (tm_stock_id m) (tm_role m) = Ok m -> row_member (normalize (member_row m)) = Ok m.
Proof.
  intros Hi. pose proof read_role.
  change (row_member (JObj (written (fields_of (member_row m)))) = Ok m).
  unfold row_member. read_shape. do 2 read_field. exact Hi.
Qed.

Lemma members_read l :
  Forall (fun m => ThemeMember_init (tm_stock_id m) (tm_role m) = Ok m) l ->
  read_list row_member (normalize (JList (member_row <$> l))) = Ok l.
Proof.
  intros Hl. rewrite (read_list_written row_member member_row id), list_fmap_id; [done|].
  eapply Forall_impl; [exact Hl|]. apply member_read.
Qed.

Lemma snapshot_read s : storable_membership s -> row_snapshot (normalize (snapshot_row s)) = Ok s.
Proof.
  intros [Hi Hm Hd Hk]. pose proof (members_read _ Hm).
  change (row_snapshot (JObj (written (fields_of (snapshot_row s)))) = Ok s).
  unfold row_snapshot. read_shape. do 5 read_field. exact Hi.
Qed.

Lemma read_flag_written b : read_flag (normalize (match b with Some b => JBool b | None => JNull end)) = Ok b.
Proof. by destruct b. Qed.
Lemma read_count_written n : read_count (normalize (match n with Some n => JNum n | None => JNull end)) = Ok n.
Proof. by destruct n. Qed.
Lemma read_version_written v : read_version (normalize (JOpt v)) = Ok v.
Proof. by destruct v. Qed.
Lemma read_finite_dec_written d : read_finite_dec (normalize (JDec d)) = Ok d.
Proof.
  unfold read_finite_dec. destruct d as [d|]; [|done]. cbn. unfold read_dec. cbn [py_str]. by rewrite parse_str_dec.
Qed.
Lemma read_reason_written r :
  read_opt (read_enum UnavailableReason_value UnavailableReason_members)
    (normalize (JOpt (UnavailableReason_value <$> r))) = Ok r.
Proof. by destruct r as [[]|]. Qed.
#[local] Hint Resolve read_flag_written read_count_written read_version_written read_finite_dec_written : stored.

Lemma signal_read day s : as_market_date s = day -> row_signal day (normalize (signal_row s)) = Ok s.
Proof.
  intros <-. change (row_signal (as_market_date s) (JObj (written (fields_of (signal_row s)))) = Ok s).
  unfold row_signal. read_shape. take_item. do 10 read_field. read_step (read_reason_written (as_unavailable_reason s)).
  by destruct s.
Qed.

(** *** Files and the entries they hold *)

Definition turnover_of (day : date) (bucket : time) (e : Entry) : option (list StockTradingValueObservation) :=
  match e with
  | TurnoverEntry d b o => if decide (d = day /\ b = bucket) then Some o else None
  | _ => None
  end.
Definition membership_of (day : date) (e : Entry) : option (list ThemeMembershipSnapshot) :=
  match e with MembershipEntry d s => if decide (d = day) then Some s else None | _ => None end.
Definition attention_of (day : date) (e : Entry) : option (dict string AttentionDaySignal) :=
  match e with AttentionEntry d s => if decide (d = day) then Some s else None | _ => None end.

Definition storable_entry (e : Entry) : Prop :=
  is_date (entry_day e) /\
  match e with
  | TurnoverEntry day bucket observations => is_bucket bucket /\ Forall (storable_observation day bucket) observations
  | MembershipEntry _ snapshots => Forall storable_membership snapshots
  | AttentionEntry day signals => NoDup (dkeys signals) /\ Forall (fun s => as_market_date s = day) (dvalues signals)
  end.

Lemma day_dir_inj d d' : is_date d -> is_date d' -> day_dir d = day_dir d' -> d = d'.
Proof.
  intros H1 H2 E. apply (f_equal parse_date) in E. unfold day_dir in E. rewrite !parse_date_iso in E by done.
  by injection E.
Qed.

Lemma bucket_file_inj b b' : is_bucket b -> is_bucket b' -> bucket_file b = bucket_file b' -> b = b'.
Proof.
  intros [H1 M1] [H2 M2] E. apply (f_equal chars) in E. unfold bucket_file in E.
  rewrite !chars_app, !list_of_string_of in E. apply app_inv_head in E. rewrite <-!app_assoc in E.
  destruct (clock_parts b H1) as (F1&Hh&Hm&Hs&Eb). destruct (clock_parts b' H2) as (F2&Hh'&Hm'&Hs'&Eb').
  apply pad_app_inj in E as [Eh E]; [|cbn; lia..]. apply pad_app_inj in E as [Em _]; [|cbn; lia..].
  change (minutes 1) with 60000000 in M1, M2.
  pose proof (Z.div_mod b 60000000 ltac:(lia)). pose proof (Z.div_mod b' 60000000 ltac:(lia)). lia.
Qed.

(** Sorting entries by their keys does not look at the values. *)
Lemma sorted_by_map {V W} (g : string * V -> W) (l : dict string V) :
  sorted_by fst (List.map (fun kv => (kv.1, g kv)) l) = List.map (fun kv => (kv.1, g kv)) (sorted_by fst l).
Proof.
  assert (forall x l, insert_by fst (x.1, g x) (List.map (fun kv => (kv.1, g kv)) l) =
                      List.map (fun kv => (kv.1, g kv)) (insert_by fst x l)) as Hins.
  { intros x k. induction k as [|y k IH]; [done|]. cbn. destruct (pyle x.1 y.1); [done|]. cbn. by rewrite IH. }
  induction l as [|x l IH]; [done|]. cbn. rewrite IH. apply Hins.
Qed.

Section loads.
Context (log : list Entry) (Hlog : Forall storable_entry log).

Lemma last_of_elem {A} (f : Entry -> option A) a : last_of f log = Some a -> exists e, e ∈ log /\ f e = Some a.
Proof.
  unfold last_of. intros E. apply last_Some_elem_of, list_elem_of_omap in E as (e&He&E). by exists e.
Qed.

(** A file of a day holds the last entry of its kind. *)
Lemma file_last {A} (pick : Entry -> option A) (put : A -> json) day file :
  (forall e, e ∈ log -> storable_entry e ->
     (day_dir (entry_day e) = day_dir day /\ entry_file e = file <-> is_Some (pick e)) /\
     forall a, pick e = Some a -> entry_payload e = put a) ->
  read_file (day_dir day) file (recorded log) = (fun a => normalize (put a)) <$> last_of pick log.
Proof.
  intros Hpick. rewrite read_recorded. apply last_of_map. rewrite Forall_forall in Hlog |- *. intros e He.
  destruct (Hpick e He (Hlog e He)) as [Hin Hput]. unfold in_file. case_decide as E.
  - apply Hin in E as [a Ea]. rewrite Ea. cbn. by rewrite (Hput a).
  - destruct (pick e) as [a|]; [|done]. exfalso. apply E, Hin. by eexists.
Qed.

Lemma read_turnover day bucket :
  is_date day -> is_bucket bucket ->
  read_file (day_dir day) (bucket_file bucket) (recorded log) =
    (fun o => normalize (JList (observation_row <$> o))) <$> last_of (turnover_of day bucket) log.
Proof.
  intros Hd Hb. apply (file_last _ (fun o => JList (observation_row <$> o))). intros e _ [He Hp].
  destruct e as [d b o|d s|d s]; cbn in *; [|split; [split; [by intros [_ E]|by intros []]|done]..].
  split; [|intros a; case_decide; [by intros [= <-]|done]]. destruct Hp as [Hb' _]. split.
  - intros [E1%day_dir_inj E2%bucket_file_inj]; try done. by rewrite decide_True.
  - intros [a Ha]. case_decide as E; [|done]. by destruct E as [-> ->].
Qed.

Lemma read_membership day :
  is_date day ->
  read_file (day_dir day) MEMBERSHIP_FILE (recorded log) =
    (fun s => normalize (JList (snapshot_row <$> s))) <$> last_of (membership_of day) log.
Proof.
  intros Hd. apply (file_last _ (fun s => JList (snapshot_row <$> s))). intros e _ [He Hp].
  destruct e as [d b o|d s|d s]; cbn in *; [split; [split; [by intros [_ E]|by intros []]|done]| |
    split; [split; [by intros [_ E]|by intros []]|done]].
  split; [|intros a; case_decide; [by intros [= <-]|done]]. split.
  - intros [E1%day_dir_inj _]; try done. by rewrite decide_True.
  - intros [a Ha]. case_decide as E; [|done]. by rewrite E.
Qed.

Lemma read_attention day :
  is_date day ->
  read_file (day_dir day) ATTENTION_FILE (recorded log) =
    (fun s => normalize (JObj (List.map (fun entry => (entry.1, signal_row entry.2)) s))) <$>
    last_of (attention_of day) log.
Proof.
  intros Hd. apply (file_last _ (fun s => JObj (List.map (fun entry => (entry.1, signal_row entry.2)) s))).
  intros e _ [He Hp].
  destruct e as [d b o|d s|d s]; cbn in *; [split; [split; [by intros [_ E]|by intros []]|done]..|].
  split; [|intros a; case_decide; [by intros [= <-]|done]]. split.
  - intros [E1%day_dir_inj _]; try done. by rewrite decide_True.
  - intros [a Ha]. case_decide as E; [|done]. by rewrite E.
Qed.

Lemma load_days_ok {A} (load : date -> res (list A)) (got : date -> list A) days :
  Forall (fun day => load day = Ok (got day)) days -> load_days load days = Ok (List.concat (got <$> days)).
Proof.
  intros Hd. unfold load_days. assert (mapM_res load days = Ok (got <$> days)) as ->; [|done].
  induction Hd as [|d days Hd _ IH]; [done|]. cbn. rewrite Hd. cbn. by rewrite IH.
Qed.

Lemma mapM_rows {A} (f : json -> res A) (put : A -> json) l :
  Forall (fun a => f (normalize (put a)) = Ok a) l -> mapM_res f (List.map normalize (put <$> l)) = Ok l.
Proof. induction 1 as [|a l Ha _ IH]; [done|]. cbn. rewrite Ha. cbn. by rewrite IH. Qed.

Lemma load_turnover_day day bucket :
  is_date day -> is_bucket bucket ->
  mapM_res (row_observation day bucket) (rows_of (day_dir day) (bucket_file bucket) (recorded log)) =
    Ok (default [] (last_of (turnover_of day bucket) log)).
Proof.
  intros Hd Hb. unfold rows_of. rewrite read_turnover by done.
  destruct (last_of (turnover_of day bucket) log) as [l|] eqn:E; [|done]. apply (mapM_rows _ observation_row).
  apply last_of_elem in E as (e&He&E). rewrite Forall_forall in Hlog. destruct (Hlog e He) as [_ Hs].
  destruct e as [d b o| |]; try done. cbn in E. case_decide as Ed; [|done]. destruct Ed as [-> ->]. injection E as ->.
  eapply Forall_impl; [apply Hs|]. apply observation_read.
Qed.

Lemma load_membership_day day :
  is_date day ->
  mapM_res row_snapshot (rows_of (day_dir day) MEMBERSHIP_FILE (recorded log)) =
    Ok (default [] (last_of (membership_of day) log)).
Proof.
  intros Hd. unfold rows_of. rewrite read_membership by done.
  destruct (last_of (membership_of day) log) as [l|] eqn:E; [|done]. apply (mapM_rows _ snapshot_row).
  apply last_of_elem in E as (e&He&E). rewrite Forall_forall in Hlog. destruct (Hlog e He) as [_ Hs].
  destruct e as [|d s|]; try done. cbn in E. case_decide as Ed; [|done]. injection E as ->.
  eapply Forall_impl; [exact Hs|]. apply snapshot_read.
Qed.

(** The signals of a day, theme by theme. *)
Lemma signals_of_day day :
  is_date day -> signals_of day (recorded log) = Ok (sorted_by fst (default [] (last_of (attention_of day) log))).
Proof.
  intros Hd. unfold signals_of. rewrite read_attention by done.
  destruct (last_of (attention_of day) log) as [l|] eqn:E; [|done].
  apply last_of_elem in E as (e&He&E). rewrite Forall_forall in Hlog. destruct (Hlog e He) as [_ Hs].
  destruct e as [| |d s]; try done. cbn in E. case_decide as Ed; [|done]. injection E as ->. subst d.
  destruct Hs as [_ Hs]. cbn.
  assert (sorted_by fst (List.map (fun kv => (kv.1, normalize kv.2))
            (List.map (fun entry => (entry.1, signal_row entry.2)) l)) =
          List.map (fun entry => (entry.1, normalize (signal_row entry.2))) (sorted_by fst l)) as E.
  { rewrite List.map_map. apply sorted_by_map. }
  etrans; [apply (f_equal (mapM_res _)), E|]. clear E.
  assert (Forall (fun s => as_market_date s = day) (dvalues (sorted_by fst l))) as Hsort
    by (unfold dvalues in *; by rewrite sorted_by_perm).
  induction (sorted_by fst l) as [|[k s] l' IH]; [done|]. apply Forall_cons in Hsort as [Hs1 Hs2].
  cbn [List.map mapM_res fst snd]. rewrite signal_read by done. cbn [mbind res_bind]. by rewrite IH.
Qed.
End loads.

(** *** Days and themes *)

Lemma recorded_days log :
  Forall (fun e => is_date (entry_day e)) log ->
  exists days, dkeys (recorded log) = day_dir <$> days /\ NoDup days /\
    forall d, d ∈ days <-> d ∈ entry_day <$> log.
Proof.
  induction log as [|e log IH] using rev_ind; [exists []; by split_and!; [|constructor|]|].
  intros [Hl He]%Forall_app. apply Forall_cons in He as [He _]. destruct (IH Hl) as (days&Ek&Hnd&Hin).
  assert (forall d, d ∈ days -> is_date d) as Hdates.
  { intros d Hd. apply Hin, list_elem_of_fmap in Hd as (x&->&Hx). rewrite Forall_forall in Hl. by apply Hl. }
  assert (day_dir (entry_day e) ∈ dkeys (recorded log) <-> entry_day e ∈ days) as Hk.
  { rewrite Ek, list_elem_of_fmap. split; [|intros Hd; by exists (entry_day e)].
    intros (d&E&Hd). apply day_dir_inj in E; [by subst|done|by apply Hdates]. }
  assert (dkeys (recorded (log ++ [e])) =
          if dmem (day_dir (entry_day e)) (recorded log) then dkeys (recorded log)
          else dkeys (recorded log) ++ [day_dir (entry_day e)]) as ->
    by (rewrite recorded_snoc, record_writes; apply dkeys_dset).
  rewrite elem_of_dkeys in Hk. unfold dmem.
  assert (forall d, d ∈ days \/ d = entry_day e <-> d ∈ entry_day <$> (log ++ [e])) as Hsnoc.
  { intros d. rewrite fmap_app, elem_of_app, <-Hin. cbn. by rewrite list_elem_of_singleton. }
  destruct (dget (day_dir (entry_day e)) (recorded log)) as [v|].
  - exists days. split_and!; [done|done|]. intros d. rewrite <-Hsnoc.
    assert (entry_day e ∈ days) by (apply Hk; by eexists). naive_solver.
  - exists (days ++ [entry_day e]). rewrite Ek, fmap_app. split_and!; [done| |].
    + apply NoDup_app. split_and!; [done| |apply NoDup_singleton].
      intros d Hd ->%list_elem_of_singleton. apply Hk in Hd as []. congruence.
    + intros d. by rewrite <-Hsnoc, elem_of_app, list_elem_of_singleton.
Qed.

Lemma history_days_recorded log :
  Forall (fun e => is_date (entry_day e)) log -> history_days (recorded log) = sorted_set (entry_day <$> log).
Proof.
  intros Hl. destruct (recorded_days log Hl) as (days&Ek&Hnd&Hin). unfold history_days. rewrite Ek.
  assert (omap (fun name => match parse_date name with Ok d => Some d | Raise _ => None end) (day_dir <$> days) = days)
    as ->.
  { assert (Forall is_date days) as Hd.
    { apply Forall_forall. intros d Hd. apply Hin, list_elem_of_fmap in Hd as (e&->&He).
      rewrite Forall_forall in Hl. by apply Hl. }
    clear -Hd. induction Hd as [|d days Hd _ IH]; [done|]. cbn. unfold day_dir at 1.
    rewrite parse_date_iso by done. f_equal. exact IH. }
  apply sorted_by_perm_eq; [intros x y _ _; apply pycmp_eq|].
  apply NoDup_Permutation; [done|apply NoDup_remove_dups|]. intros d. by rewrite elem_of_remove_dups.
Qed.

(** The signals of a theme among the signals of some days. *)
Definition of_theme (theme : string) (l : list (string * AttentionDaySignal)) : list AttentionDaySignal :=
  omap (fun entry => if decide (entry.1 = theme) then Some entry.2 else None) l.

Lemma append_signals theme l by_theme :
  dget theme (fold_left append_signal l by_theme) =
  match of_theme theme l with
  | [] => dget theme by_theme
  | more => Some (default [] (dget theme by_theme) ++ more)
  end.
Proof.
  revert by_theme. induction l as [|[k s] l IH]; intros by_theme; [done|]. cbn [fold_left]. rewrite IH. clear IH.
  unfold append_signal. cbn [of_theme omap list_omap fst snd]. rewrite dget_dset.
  change (omap _ l) with (of_theme theme l). case_decide as E; [subst k|done].
  cbn [default]. destruct (of_theme theme l); [done|]. cbn. by rewrite <-app_assoc.
Qed.

Lemma of_theme_sorted theme (d : dict string AttentionDaySignal) :
  NoDup (dkeys d) -> of_theme theme (sorted_by fst d) = option_list (dget theme d).
Proof.
  intros Hnd. assert (NoDup (dkeys (sorted_by fst d))) as Hs by (unfold dkeys; by rewrite sorted_by_perm).
  assert (dget theme (sorted_by fst d) = dget theme d) as <-.
  { apply option_eq. intros v. pose proof (sorted_by_perm fst d) as Hp.
    split; intros E; apply elem_dget; try done; apply dget_elem in E; [by rewrite <-Hp|by rewrite Hp]. }
  induction (sorted_by fst d) as [|[k s] l IH]; [done|]. apply NoDup_cons in Hs as [Hk Hs].
  cbn [of_theme omap list_omap fst snd dget]. change (omap _ l) with (of_theme theme l).
  specialize (IH Hs). destruct (decide (k = theme)) as [->|Hne].
  - rewrite (decide_True (P:=theme = theme)) by done. assert (dget theme l = None) as E by by apply dget_None.
    rewrite E in IH. by rewrite IH.
  - rewrite (decide_False (P:=theme = k)) by congruence. exact IH.
Qed.

Definition turnover_at (log : list Entry) (bucket : time) (day : date) : list StockTradingValueObservation :=
  default [] (last_of (turnover_of day bucket) log).
Definition membership_at (log : list Entry) (day : date) : list ThemeMembershipSnapshot :=
  default [] (last_of (membership_of day) log).
Definition attention_at (log : list Entry) (day : date) : dict string AttentionDaySignal :=
  default [] (last_of (attention_of day) log).

Lemma attention_at_keys log day : Forall storable_entry log -> NoDup (dkeys (attention_at log day)).
Proof.
  intros Hlog. unfold attention_at. destruct (last_of (attention_of day) log) as [l|] eqn:E; [|apply NoDup_nil_2].
  apply last_of_elem in E as (e&He&E). rewrite Forall_forall in Hlog. destruct (Hlog e He) as [_ Hs].
  destruct e as [| |d s]; try done. cbn in E. case_decide; [|done]. injection E as ->. apply Hs.
Qed.

(** The signals of a theme over some days. *)
Lemma of_theme_days log theme days :
  Forall storable_entry log ->
  of_theme theme (List.concat ((fun day => sorted_by fst (attention_at log day)) <$> days)) =
  omap (fun day => dget theme (attention_at log day)) days.
Proof.
  intros Hlog. induction days as [|day days IH]; [done|]. cbn [fmap list_fmap List.concat].
  unfold of_theme in *. rewrite omap_app, IH.
  change (omap _ (sorted_by fst (attention_at log day))) with (of_theme theme (sorted_by fst (attention_at log day))).
  rewrite of_theme_sorted by by apply attention_at_keys. cbn. by destruct (dget theme (attention_at log day)).
Qed.

(** C14: The history keeps what was recorded last.  After any records of turnover, memberships
    and signals whose times Python has, the days are those recorded, in order; loading the
    turnover of a minute, or the memberships, of some days returns for each of them exactly
    what was recorded last for it, or nothing, day after day; and the signals of a theme are
    those recorded last for it on the days that have one. *)
Theorem history_keeps_last log (h := recorded log) :
  Forall storable_entry log ->
  trading_days h = sorted_set (entry_day <$> log) /\
  forall days, Forall is_date days ->
    (forall bucket, is_bucket bucket -> load_turnover bucket days h = Ok (List.concat (turnover_at log bucket <$> days))) /\
    load_membership days h = Ok (List.concat (membership_at log <$> days)) /\
    exists by_theme, load_attention days h = Ok by_theme /\
      forall theme, dget theme by_theme =
        match omap (fun day => dget theme (attention_at log day)) days with [] => None | l => Some l end.
Proof.
  intros Hlog. split.
  { apply history_days_recorded. eapply Forall_impl; [exact Hlog|by intros e []]. }
  intros days Hdays. split_and!.
  - intros bucket Hb. apply load_days_ok. eapply Forall_impl; [exact Hdays|]. intros day Hd.
    by apply load_turnover_day.
  - apply load_days_ok. eapply Forall_impl; [exact Hdays|]. intros day Hd. by apply load_membership_day.
  - assert (load_days (fun day => signals_of day h) days =
            Ok (List.concat ((fun day => sorted_by fst (attention_at log day)) <$> days))) as E.
    { apply load_days_ok. eapply Forall_impl; [exact Hdays|]. intros day Hd. by apply signals_of_day. }
    unfold load_attention, file_history, history_load_attention. rewrite E. eexists. split; [reflexivity|].
    intros theme. rewrite append_signals, of_theme_days by done.
    by destruct (omap (fun day => dget theme (attention_at log day)) days).
Qed.

(** ** A concrete history *)

Definition demo_history_day : date := ymd2ord 2026 8 14.
Definition demo_bucket : time := hours 9 + minutes 30.
Definition demo_row (value : N) : StockTradingValueObservation :=
  mk_StockTradingValueObservation "005930" demo_history_day
    (mk_datetime ((demo_history_day - 1) * us_per_day + demo_bucket) (Some (hours 9))) demo_bucket
    (Some (mk_dec false value (-2))) true true false false.
Definition demo_signal : AttentionDaySignal :=
  mk_AttentionDaySignal demo_history_day (Some true) (Some "v1") "c1" "b1" "p1" (Some (mk_dec false 25 (-1)))
    (Some 3) (Some 5) (Some (mk_dec false 6 (-1))) None None.
Definition demo_records : list Entry :=
  [TurnoverEntry demo_history_day demo_bucket [demo_row 100]; AttentionEntry demo_history_day [("battery", demo_signal)];
   TurnoverEntry demo_history_day demo_bucket [demo_row 12345]].

Lemma demo_records_storable : Forall storable_entry demo_records.
Proof.
  assert (is_date demo_history_day) as Hd by (split; vm_compute; discriminate).
  assert (is_bucket demo_bucket) as Hb by (split; [split; vm_compute; [discriminate|reflexivity]|reflexivity]).
  assert (forall v, storable_observation demo_history_day demo_bucket (demo_row v)) as Ho.
  { intros v. split; [by destruct v|]. split; [split; vm_compute; [discriminate|reflexivity]|].
    intros off [= <-]. split; vm_compute; reflexivity. }
  assert (forall v, storable_entry (TurnoverEntry demo_history_day demo_bucket [demo_row v])) as Ht
    by (intros v; split; [done|]; split; [done|]; by apply Forall_singleton).
  apply Forall_cons; split; [apply Ht|]. apply Forall_cons; split; [|by apply Forall_singleton].
  split; [done|]. split; [apply NoDup_singleton|]. by apply Forall_singleton.
Qed.

Lemma history_keeps_last_witness :
  load_turnover demo_bucket [demo_history_day - 1; demo_history_day] (recorded demo_records) = Ok [demo_row 12345] /\
  exists by_theme, load_attention [demo_history_day] (recorded demo_records) = Ok by_theme /\
    dget "battery" by_theme = Some [demo_signal].
Proof.
  pose proof demo_records_storable as Hs.
  destruct (history_keeps_last demo_records Hs) as [_ H].
  assert (Forall is_date [demo_history_day - 1; demo_history_day]) as Hd
    by (repeat constructor; vm_compute; discriminate).
  split.
  - destruct (H _ Hd) as [Ht _]. rewrite Ht; [vm_compute; reflexivity|].
    split; [split; vm_compute; [discriminate|reflexivity]|reflexivity].
  - destruct (H [demo_history_day]) as (_&_&b&Eb&Hb); [by apply Forall_cons in Hd as [_ Hd]|].
    exists b. split; [exact Eb|]. rewrite Hb. vm_compute. reflexivity.
Defined.
