(* ===== verification/Market.v ===== *)
(** [packages/pipeline/market.py], the whole pipeline of a market day: updates come in at the
    feed, a publication drains them into the themes, evaluates the themes, accumulates the
    baselines, ranks the board and numbers the snapshots readers see. *)
From S2P Require Import Prelude Hoare PyTime PyDecimal Json JsonRead Domain Weights ThemeMetrics PublicViews Turnover.
From S2P Require Import EventModels EventStore RealtimeModels HotState Hysteresis Aggregation Snapshots Catalyst.
From S2P Require Import MarketThemes MarketFeed MarketBoard MarketBaseline History.
#[local] Open Scope Z_scope.

(* @ packages/pipeline/market.py 81-81 RANKINGS_PARAMS *)
Definition RANKINGS_PARAMS : dict string json := [("limit", JNum 10)].
(* @ packages/pipeline/market.py 82-82 TREEMAP_PARAMS *)
Definition TREEMAP_PARAMS : dict string json := [("limit", JNum 12)].

(* @ packages/pipeline/market.py 94-100 PublishedView *)
Record PublishedView := mk_PublishedView {
  pv_rankings : ReadSnapshot;
  pv_treemap : ReadSnapshot;
  pv_events : list CanonicalEvent
}.

Section market.
Context {H : Type} `{IntradayHistory H}.
(** [str.casefold] *)
Context (casefold : string -> string).

(** The parts keep the fields they are about; [_last_as_of] is with the themes. *)
(* @ packages/pipeline/market.py 106-170 MarketDataPipeline.__init__ *)
Record MarketDataPipeline := mk_MarketDataPipeline {
  pl_feed : Feed;
  pl_themes : Themes;
  pl_baselines : Baselines H;
  pl_rank_history : RankHistory;
  pl_evidence : dict string (dict string json);
  pl_evidence_documents : dict string (dict string json);
  pl_snapshots : InMemorySnapshotRepository;
  pl_publication_index : Z;
  pl_latest_rankings : option ReadSnapshot;
  pl_latest_treemap : option ReadSnapshot;
  pl_last_data_status : DataStatus;
  pl_market_closed : bool
}.

(* @ packages/pipeline/market.py 106-170 MarketDataPipeline.__init__ *)
Definition new_pipeline (cfg : PipelineConfig) (references : list StockReference) (store : MemStore)
    (snapshots : InMemorySnapshotRepository) (history : option H) : res MarketDataPipeline :=
  _ ← require_text (pc_stream_id cfg);
  Ok (mk_MarketDataPipeline (feed (pc_catalog cfg) references) (no_themes store) (no_baselines history)
        [] [] [] snapshots 0 None None PREOPEN false).

Definition set_feed x p :=
  mk_MarketDataPipeline x (pl_themes p) (pl_baselines p) (pl_rank_history p) (pl_evidence p)
    (pl_evidence_documents p) (pl_snapshots p) (pl_publication_index p) (pl_latest_rankings p)
    (pl_latest_treemap p) (pl_last_data_status p) (pl_market_closed p).
Definition set_themes x p :=
  mk_MarketDataPipeline (pl_feed p) x (pl_baselines p) (pl_rank_history p) (pl_evidence p)
    (pl_evidence_documents p) (pl_snapshots p) (pl_publication_index p) (pl_latest_rankings p)
    (pl_latest_treemap p) (pl_last_data_status p) (pl_market_closed p).
Definition set_baselines x p :=
  mk_MarketDataPipeline (pl_feed p) (pl_themes p) x (pl_rank_history p) (pl_evidence p)
    (pl_evidence_documents p) (pl_snapshots p) (pl_publication_index p) (pl_latest_rankings p)
    (pl_latest_treemap p) (pl_last_data_status p) (pl_market_closed p).
Definition set_rank_history x p :=
  mk_MarketDataPipeline (pl_feed p) (pl_themes p) (pl_baselines p) x (pl_evidence p)
    (pl_evidence_documents p) (pl_snapshots p) (pl_publication_index p) (pl_latest_rankings p)
    (pl_latest_treemap p) (pl_last_data_status p) (pl_market_closed p).
Definition set_evidence x p :=
  mk_MarketDataPipeline (pl_feed p) (pl_themes p) (pl_baselines p) (pl_rank_history p) x
    (pl_evidence_documents p) (pl_snapshots p) (pl_publication_index p) (pl_latest_rankings p)
    (pl_latest_treemap p) (pl_last_data_status p) (pl_market_closed p).
Definition set_evidence_documents x p :=
  mk_MarketDataPipeline (pl_feed p) (pl_themes p) (pl_baselines p) (pl_rank_history p) (pl_evidence p)
    x (pl_snapshots p) (pl_publication_index p) (pl_latest_rankings p)
    (pl_latest_treemap p) (pl_last_data_status p) (pl_market_closed p).
Definition set_snapshots x p :=
  mk_MarketDataPipeline (pl_feed p) (pl_themes p) (pl_baselines p) (pl_rank_history p) (pl_evidence p)
    (pl_evidence_documents p) x (pl_publication_index p) (pl_latest_rankings p)
    (pl_latest_treemap p) (pl_last_data_status p) (pl_market_closed p).
Definition set_publication_index x p :=
  mk_MarketDataPipeline (pl_feed p) (pl_themes p) (pl_baselines p) (pl_rank_history p) (pl_evidence p)
    (pl_evidence_documents p) (pl_snapshots p) x (pl_latest_rankings p)
    (pl_latest_treemap p) (pl_last_data_status p) (pl_market_closed p).
Definition set_latest rankings treemap p :=
  mk_MarketDataPipeline (pl_feed p) (pl_themes p) (pl_baselines p) (pl_rank_history p) (pl_evidence p)
    (pl_evidence_documents p) (pl_snapshots p) (pl_publication_index p) rankings treemap
    (pl_last_data_status p) (pl_market_closed p).
Definition set_last_data_status x p :=
  mk_MarketDataPipeline (pl_feed p) (pl_themes p) (pl_baselines p) (pl_rank_history p) (pl_evidence p)
    (pl_evidence_documents p) (pl_snapshots p) (pl_publication_index p) (pl_latest_rankings p)
    (pl_latest_treemap p) x (pl_market_closed p).
Definition set_market_closed x p :=
  mk_MarketDataPipeline (pl_feed p) (pl_themes p) (pl_baselines p) (pl_rank_history p) (pl_evidence p)
    (pl_evidence_documents p) (pl_snapshots p) (pl_publication_index p) (pl_latest_rankings p)
    (pl_latest_treemap p) (pl_last_data_status p) x.

Definition update_pipeline (g : MarketDataPipeline -> MarketDataPipeline) : M MarketDataPipeline unit :=
  fun p => (Ok tt, g p).
(** A method of a part runs in its place. *)
Definition zoom {S A} (part : MarketDataPipeline -> S) (put : S -> MarketDataPipeline -> MarketDataPipeline)
    (m : M S A) : M MarketDataPipeline A := fun p =>
  let '(r, s) := m (part p) in (r, put s p).

Context (cfg : PipelineConfig).

(** ** Publication *)

(* @ packages/pipeline/market.py 386-400 MarketDataPipeline.apply_update *)
Definition pipeline_apply_update (u : StockRealtimeUpdate) : M MarketDataPipeline HotApplyResult :=
  zoom pl_feed set_feed (apply_update (pc_market_date cfg) u).

(* @ packages/pipeline/market.py 196-202 MarketDataPipeline.current_events *)
Definition current_events (t : Themes) : list CanonicalEvent :=
  omap (fun event_id => dget event_id (es_events (th_event_store t)))
    (sorted_list (dvalues (th_event_ids t))).

(** The publication [_publish_snapshot] makes. *)
(* @ packages/pipeline/market.py 1076-1093 MarketDataPipeline._publish_snapshot *)
Definition publication_of (index : Z) (topic : SnapshotTopic) (params payload : dict string json)
    (now as_of : datetime) (data_status : DataStatus) : res SnapshotPublication :=
  versions ← SnapshotVersions_check
               (mk_SnapshotVersions (pc_schema_version cfg) (tcp_version THEME_CALCULATION_POLICY_V1)
                  RANKING_MODEL_VERSION (pc_membership_version cfg) None);
  SnapshotPublication_init (pc_stream_id cfg +:+ ":pub:" +:+ str_Z index) (pc_stream_id cfg) topic
    params (pc_market_date cfg) (pymax now as_of) as_of data_status [] payload versions.

(* @ packages/pipeline/market.py 1065-1094 MarketDataPipeline._publish_snapshot *)
Definition publish_snapshot (topic : SnapshotTopic) (params payload : dict string json)
    (now as_of : datetime) (data_status : DataStatus) : M MarketDataPipeline ReadSnapshot :=
  _ ← update_pipeline (fun p => set_publication_index (pl_publication_index p + 1) p);
  p ← get_st;
  publication ← lift (publication_of (pl_publication_index p) topic params payload now as_of data_status);
  zoom pl_snapshots set_snapshots (snapshot_publish publication).

(** The dirty themes are drained, and while the market is open the themes evaluated. *)
(* @ packages/pipeline/market.py 624-631 MarketDataPipeline.publish *)
Definition refresh_themes (now : datetime) : M MarketDataPipeline unit :=
  p ← get_st;
  updates ← zoom pl_feed set_feed (in_aggregator (drain (fd_hot (pl_feed p))));
  _ ← zoom pl_themes set_themes (take_updates updates);
  if pl_market_closed p then mret tt else zoom pl_themes set_themes (evaluate_themes cfg now).

(* @ packages/pipeline/market.py 633-636 MarketDataPipeline.publish *)
Definition rank_board (now : datetime) : M MarketDataPipeline (list (dict string json)) :=
  p ← get_st;
  zoom pl_rank_history set_rank_history
    (ranking_items cfg (pl_feed p) (pl_themes p) (pl_evidence p) (pl_market_closed p) now).

(* @ packages/pipeline/market.py 612-660 MarketDataPipeline.publish *)
Definition publish (now : datetime) (data_status : DataStatus) : M MarketDataPipeline PublishedView :=
  _ ← refresh_themes now;
  _ ← update_pipeline (set_last_data_status data_status);
  p ← get_st;
  let as_of := default now (th_last_as_of (pl_themes p)) in
  _ ← zoom pl_baselines set_baselines (accumulate cfg (pl_feed p) (pl_themes p) as_of);
  items ← rank_board now;
  rankings ← publish_snapshot TOPIC_THEME_RANK RANKINGS_PARAMS [("items", JList (JObj <$> items))]
               now as_of data_status;
  tiles ← lift (mapM_res treemap_item (take 12 items));
  treemap ← publish_snapshot TOPIC_THEME_TREEMAP TREEMAP_PARAMS [("items", JList (JObj <$> tiles))]
              now as_of data_status;
  _ ← update_pipeline (set_latest (Some rankings) (Some treemap));
  p ← get_st;
  mret (mk_PublishedView rankings treemap (current_events (pl_themes p))).

(* @ packages/pipeline/market.py 693-737 MarketDataPipeline.close_market *)
Definition close_market (now : datetime) : M MarketDataPipeline unit :=
  _ ← update_pipeline (set_market_closed true);
  _ ← zoom pl_themes set_themes (close_themes cfg now);
  p ← get_st;
  zoom pl_baselines set_baselines (record_attention_day cfg (pl_themes p)).

(** [dataclasses.replace(snapshot, data_status=DataStatus.CLOSED)] *)
Definition closed_snapshot (s : ReadSnapshot) : res ReadSnapshot :=
  ReadSnapshot_init
    (mk_ReadSnapshot (rs_snapshot_id s) (rs_publication_id s) (rs_stream_id s) (rs_topic s)
       (rs_params_key s) (rs_sequence s) (rs_market_date s) (rs_generated_at s) (rs_as_of s)
       DATA_CLOSED (rs_quality_flags s) (rs_payload s) (rs_versions s) (rs_content_hash s)).

(* @ packages/pipeline/market.py 662-691 MarketDataPipeline.restore_final_snapshots *)
Definition restore_final_snapshots (rankings treemap : ReadSnapshot) (close_at : datetime)
    : M MarketDataPipeline PublishedView :=
  _ ← lift (raise_if (negb (rs_market_date rankings =? pc_market_date cfg)) ValueError);
  rankings ← lift (closed_snapshot rankings);
  treemap ← lift (closed_snapshot treemap);
  _ ← update_pipeline (fun p => set_last_data_status DATA_CLOSED
          (set_themes (set_last_as_of (Some close_at) (pl_themes p))
             (set_latest (Some rankings) (Some treemap) (set_market_closed true p))));
  p ← get_st;
  mret (mk_PublishedView rankings treemap (current_events (pl_themes p))).

(** ** What readers ask for *)

(* @ packages/pipeline/market.py 242-252 MarketDataPipeline.record_evidence *)
Definition record_evidence (revision : EvidenceRevision) (evidence : list CatalystEvidence)
    : M MarketDataPipeline unit :=
  _ ← update_pipeline (fun p => set_evidence
        (dset (er_event_id revision) (evidence_summary casefold revision evidence) (pl_evidence p)) p);
  document ← lift (evidence_list_data revision evidence DEFAULT_PAGE_LIMIT);
  update_pipeline (fun p => set_evidence_documents
        (dset (er_event_id revision) document (pl_evidence_documents p)) p).

(* @ packages/pipeline/market.py 217-226 MarketDataPipeline.active_theme_contexts *)
Definition active_event (t : Themes) (theme_id : string) : option (CanonicalEvent * datetime) :=
  match event_of_theme t theme_id, dget theme_id (th_activated_at t) with
  | Some event, Some activated_at =>
      if bool_decide (ce_lifecycle_status event ∈ [ACTIVE; WEAKENING])
      then Some (event, activated_at) else None
  | _, _ => None
  end.

(** [str(leader[key])] of a text. *)
Definition text_of (j : json) : string := match j with JStr s => s | _ => "" end.

(* @ packages/pipeline/market.py 227-240 MarketDataPipeline.active_theme_contexts *)
Definition theme_context (p : MarketDataPipeline) (theme_id : string) : res (option ThemeContext) :=
  match active_event (pl_themes p) theme_id with
  | None => Ok None
  | Some (event, activated_at) =>
      leading ← leader cfg (pl_feed p) (pl_themes p) theme_id;
      let field k := match leading with
                     | None => Ok []
                     | Some l => v ← item_get k l; Ok [text_of v]
                     end in
      leader_stock_ids ← field "stockId";
      leader_names ← field "name";
      members ← member_stock_ids cfg (pl_themes p) theme_id;
      Ok (Some (mk_ThemeContext (ce_event_id event) theme_id
                  (ec_display_name (ce_classification event)) (pc_market_date cfg) activated_at []
                  leader_names leader_stock_ids
                  (List.filter (fun s => negb (bool_decide (s ∈ leader_stock_ids))) members) [] []))
  end.

(* @ packages/pipeline/market.py 204-240 MarketDataPipeline.active_theme_contexts *)
Definition active_theme_contexts (p : MarketDataPipeline) : res (list ThemeContext) :=
  contexts ← mapM_res (theme_context p) (sorted_list (dkeys (th_latest_metrics (pl_themes p))));
  Ok (omap id (contexts : list (option ThemeContext))).

(* @ packages/pipeline/market.py 278-281 MarketDataPipeline.theme_id_for_event *)
Definition theme_id_for_event (event_id : string) (p : MarketDataPipeline) : option string :=
  dget event_id (th_theme_by_event (pl_themes p)).

(* @ packages/pipeline/market.py 283-286 MarketDataPipeline.event_id_for_theme *)
Definition event_id_for_theme (theme_id : string) (p : MarketDataPipeline) : option string :=
  dget theme_id (th_event_ids (pl_themes p)).

(* @ packages/pipeline/market.py 358-370 MarketDataPipeline._historical_access *)
Definition historical_access (theme_id : string) : json :=
  match pc_historical_theme_ids cfg with
  | [] => JObj [("status", JStr "GATED"); ("reason", JStr "ONTOLOGY_VALIDATION_REQUIRED")]
  | ids =>
      if bool_decide (theme_id ∈ ids) then JObj [("status", JStr "AVAILABLE"); ("reason", JNull)]
      else JObj [("status", JStr "UNAVAILABLE"); ("reason", JStr "NO_THEME_HISTORY")]
  end.

(* @ packages/pipeline/market.py 372-384 MarketDataPipeline._baseline_flags *)
Definition baseline_flags (turnover : option ThemeTurnoverResult) : list string :=
  match turnover with
  | None => []
  | Some t => if decide (tt_baseline_status t = PROVISIONAL)
              then [QualityFlag_value PROVISIONAL_BASELINE] else []
  end.

(** The event and the metrics a detail page shows; candidates and discarded events are not
    public. *)
(* @ packages/pipeline/market.py 308-320 MarketDataPipeline.theme_detail *)
Definition public_event (p : MarketDataPipeline) (event_id : string)
    : option (string * CanonicalEvent * ThemeMetricUpdate) :=
  match theme_id_for_event event_id p with
  | None => None
  | Some theme_id =>
      match dget event_id (es_events (th_event_store (pl_themes p))),
            dget theme_id (th_latest_metrics (pl_themes p)) with
      | Some event, Some update => if is_public event then Some (theme_id, event, update) else None
      | _, _ => None
      end
  end.

(* @ packages/pipeline/market.py 335-343 MarketDataPipeline.theme_detail *)
Definition summary_view (p : MarketDataPipeline) (event_id : string) : json :=
  match dget event_id (pl_evidence p) with
  | Some e => JObj e
  | None => JObj [("evidenceStatus", JStr (EvidenceStatus_value EV_SEARCHING)); ("summary", JNull);
                  ("sourceCount", JNum 0); ("latestPublishedAt", JNull)]
  end.

(* @ packages/pipeline/market.py 300-356 MarketDataPipeline.theme_detail *)
Definition theme_detail (event_id : string) (p : MarketDataPipeline) : res (option json) :=
  match public_event p event_id with
  | None => Ok None
  | Some (theme_id, event, update) =>
      let metrics := tu_metrics update in
      let turnover := dget theme_id (bl_turnover (pl_baselines p)) in
      reaction ← to_public_current_reaction (turnover ≫= tt_turnover_multiple)
                   (default None (dget theme_id (bl_attention_gap (pl_baselines p)))) metrics;
      leading ← leaders cfg (pl_feed p) (pl_themes p) theme_id 3;
      Ok (Some (JObj
        [("eventId", JStr (ce_event_id event));
         ("marketDate", JStr (date_isoformat (pc_market_date cfg)));
         ("lifecycleStatus", JStr (LifecycleStatus_value (ce_lifecycle_status event)));
         ("reconciliationStatus", JStr (ReconciliationStatus_value (ce_reconciliation_status event)));
         ("classification", EventClassification_to_public_dict (ce_classification event));
         ("currentReaction", reaction);
         ("coverage", Coverage_to_public_dict (tmx_coverage metrics));
         ("evidenceSummary", summary_view p event_id);
         ("leaders", JList ((fun l => JObj (dset "role" (JStr "LEADER") l)) <$> leading));
         ("historicalAccess", historical_access theme_id);
         ("canonicalPath", JStr ("/v1/themes/" +:+ theme_id +:+ "/events/" +:+ event_id));
         ("qualityFlags", JList (JStr <$> sorted_set (tmx_quality_flags metrics ++ baseline_flags turnover)))]))
  end.

(* @ packages/pipeline/market.py 254-276 MarketDataPipeline.evidence_document *)
Definition evidence_document (event_id : string) (p : MarketDataPipeline) : res (option json) :=
  detail ← theme_detail event_id p;
  match detail with
  | None => Ok None
  | Some _ =>
      Ok (Some match dget event_id (pl_evidence_documents p) with
               | Some document => JObj document
               | None =>
                   JObj [("eventId", JStr event_id);
                         ("evidenceStatus", JStr (EvidenceStatus_value EV_SEARCHING));
                         ("items", JList []);
                         ("page", JObj [("nextCursor", JNull); ("hasMore", JBool false);
                                        ("limit", JNum DEFAULT_PAGE_LIMIT)])]
               end)
  end.
End market.
Arguments MarketDataPipeline : clear implicits.

(** ** What a publication shows *)

Section facts.
Context {H : Type} `{IntradayHistory H} (cfg : PipelineConfig).

Definition publication_id_of (n : Z) : string := pc_stream_id cfg +:+ ":pub:" +:+ str_Z n.

(** The repository knows none of the publications to come. *)
Definition unused_ids (p : MarketDataPipeline H) : Prop :=
  forall n, pl_publication_index p < n -> dget (publication_id_of n) (sn_receipts (pl_snapshots p)) = None.

(** What a snapshot was made of. *)
Definition shows (topic : SnapshotTopic) (payload : dict string json) (now as_of : datetime)
    (status : DataStatus) (s : ReadSnapshot) : Prop :=
  rs_topic s = topic /\ rs_stream_id s = pc_stream_id cfg /\ rs_payload s = copy_json_object payload /\
  rs_market_date s = pc_market_date cfg /\ rs_generated_at s = pymax now as_of /\ rs_as_of s = as_of /\
  rs_data_status s = status.

(** [s] is what a reader of the topic finds. *)
Definition found (topic : SnapshotTopic) (params : dict string json) (s : ReadSnapshot)
    (r : InMemorySnapshotRepository) : Prop :=
  latest_snapshot (pc_stream_id cfg) topic params r = Ok (Some s).

Lemma publication_id_inj n m : publication_id_of n = publication_id_of m -> n = m.
Proof. unfold publication_id_of, str_Z. intros E. by simplify_eq. Qed.

Lemma publication_of_ok index topic params payload now as_of status q :
  publication_of cfg index topic params payload now as_of status = Ok q ->
  sp_publication_id q = publication_id_of index /\ sp_stream_id q = pc_stream_id cfg /\
  sp_topic q = topic /\ sp_params q = copy_json_object params /\ sp_payload q = copy_json_object payload /\
  sp_market_date q = pc_market_date cfg /\ sp_generated_at q = pymax now as_of /\ sp_as_of q = as_of /\
  sp_data_status q = status.
Proof.
  unfold publication_of, SnapshotPublication_init. intros E. apply res_bind_ok in E as (v&_&E).
  repeat apply res_bind_ok in E as (?&_&E). injection E as <-. by split_and!.
Qed.

(** A publication under a new id: it is stored and becomes the latest of its scope, or
    nothing but the failpoint changes. *)
Lemma snapshot_publish_new q r s r' :
  dget (sp_publication_id q) (sn_receipts r) = None -> snapshot_publish q r = (s, r') ->
  match s with
  | Raise _ => sn_receipts r' = sn_receipts r
  | Ok s => exists n, snapshot_of q n = Ok s /\
      sn_snapshots r' = dset (snapshot_id_of q) s (sn_snapshots r) /\
      sn_latest r' = dset (scope_of q) (snapshot_id_of q) (sn_latest r) /\
      sn_receipts r' = dset (sp_publication_id q) (publication_fingerprint q, snapshot_id_of q) (sn_receipts r)
  end.
Proof.
  intros Hnew E. unfold snapshot_publish in E. rewrite Hnew in E.
  destruct (publish_body q r) as [[x|e] r1] eqn:Eb; injection E as <- <-; [|done].
  unfold publish_body in Eb. apply M_bind_ok in Eb as (?&?&Eg&Eb). injection Eg as <- <-.
  apply M_bind_ok in Eb as (?&?&El&Eb). apply lift_ok in El as [_ ->].
  apply M_bind_ok in Eb as (s&?&Es&Eb). apply lift_ok in Es as [Es ->].
  apply M_bind_ok in Eb as (?&?&Ep&Eb). injection Ep as <- <-.
  apply M_bind_ok in Eb as (?&?&Eg&Eb). injection Eg as <- <-. cbn [sn_fail_next_commit] in Eb.
  destruct (sn_fail_next_commit r); [done|]. injection Eb as <- <-. by eexists.
Qed.

Lemma snapshot_of_shows q n s :
  snapshot_of q n = Ok s ->
  rs_snapshot_id s = snapshot_id_of q /\ rs_topic s = sp_topic q /\ rs_stream_id s = sp_stream_id q /\
  rs_payload s = copy_json_object (sp_payload q) /\ rs_market_date s = sp_market_date q /\
  rs_generated_at s = sp_generated_at q /\ rs_as_of s = sp_as_of q /\ rs_data_status s = sp_data_status q.
Proof.
  unfold snapshot_of, ReadSnapshot_init. intros E. repeat apply res_bind_ok in E as (?&_&E).
  injection E as <-. cbn. rewrite copy_json_object_idem. by split_and!.
Qed.

(** The parts of the pipeline a publication of a snapshot leaves alone. *)
Definition same_but_published (p p' : MarketDataPipeline H) : Prop :=
  p' = set_publication_index (pl_publication_index p') (set_snapshots (pl_snapshots p') p).

Lemma publish_snapshot_ok topic params payload now as_of status p r p' :
  unused_ids p -> copy_json_object params = params ->
  publish_snapshot cfg topic params payload now as_of status p = (r, p') ->
  unused_ids p' /\ same_but_published p p' /\
  forall s, r = Ok s ->
    shows topic payload now as_of status s /\
    let scope := (pc_stream_id cfg, topic, params_key_of params) in
    sn_snapshots (pl_snapshots p') = dset (rs_snapshot_id s) s (sn_snapshots (pl_snapshots p)) /\
    sn_latest (pl_snapshots p') = dset scope (rs_snapshot_id s) (sn_latest (pl_snapshots p)).
Proof.
  intros Hunused Hparams E. unfold publish_snapshot, mbind, M_bind, update_pipeline, get_st, lift in E.
  cbn [pl_publication_index set_publication_index] in E.
  assert (forall k, pl_publication_index p + 1 <= k -> dget (publication_id_of k) (sn_receipts (pl_snapshots p)) = None)
    as Hfree by (intros k Hk; apply Hunused; lia).
  destruct (publication_of cfg _ topic params payload now as_of status) as [q|e] eqn:Eq.
  2: { injection E as <- <-. split_and!; [|by destruct p|done]. intros k Hk. cbn in Hk |- *. apply Hfree. lia. }
  apply publication_of_ok in Eq as (Eid&Estream&Etopic&Eparams&Epayload&Edate&Egen&Easof&Estatus).
  unfold zoom in E. cbn [pl_snapshots set_publication_index] in E.
  destruct (snapshot_publish q (pl_snapshots p)) as [x sn] eqn:Es. injection E as <- <-.
  apply snapshot_publish_new in Es; [|rewrite Eid; apply Hfree; lia]. split_and!; [|by destruct p|].
  - intros k Hk. cbn in Hk |- *. destruct x as [s|e].
    + destruct Es as (n&_&_&_&->). rewrite Eid, dget_dset_ne; [apply Hfree; lia|].
      intros E%publication_id_inj. lia.
    + rewrite Es. apply Hfree. lia.
  - intros s ->. destruct Es as (n&Es&E1&E2&_). apply snapshot_of_shows in Es as (Ei&?&?&?&?&?&?&?).
    split; [|cbn; rewrite E1, E2, Ei; split; [done|]].
    + split_and!; try congruence. rewrite <-(copy_json_object_idem payload). congruence.
    + unfold scope_of. by rewrite Estream, Etopic, Eparams, Hparams.
Qed.

Lemma zoom_ok {S A} (part : MarketDataPipeline H -> S) put (m : M S A) p a p' :
  zoom part put m p = (Ok a, p') <-> exists s, m (part p) = (Ok a, s) /\ p' = put s p.
Proof. unfold zoom. destruct (m (part p)) as [x s]. naive_solver. Qed.

(** Methods of a part, for properties of the pipeline. *)
Lemma zoom_frame {S A} (P : MarketDataPipeline H -> Prop) part put (m : M S A) :
  (forall s p, P p -> P (put s p)) -> preserves P (zoom part put m).
Proof. intros Hput p Hp. unfold zoom. destruct (m (part p)) as [[a|e] s]; by apply Hput. Qed.

Lemma preserves_update (P : MarketDataPipeline H -> Prop) g :
  (forall p, P p -> P (g p)) -> preserves P (update_pipeline g).
Proof. intros Hg p Hp. by apply Hg. Qed.

Lemma preserves_get {S A} (P : S -> Prop) (f : S -> M S A) :
  (forall s, P s -> preserves P (f s)) -> preserves P (s ← get_st; f s).
Proof. intros Hf s Hs. unfold mbind, M_bind, get_st. by apply (Hf s). Qed.

(** Until the last step the pipeline shows what it showed before. *)
Definition showing (l : option ReadSnapshot * option ReadSnapshot) (p : MarketDataPipeline H) : Prop :=
  unused_ids p /\ (pl_latest_rankings p, pl_latest_treemap p) = l.

Lemma refresh_showing l now : preserves (showing l) (refresh_themes cfg now).
Proof.
  unfold refresh_themes. apply preserves_get. intros p _. apply preserves_bind; [by apply zoom_frame|].
  intros updates. apply preserves_bind; [by apply zoom_frame|]. intros _.
  destruct (pl_market_closed p); [apply preserves_ret|by apply zoom_frame].
Qed.

Lemma refresh_ranks h now : preserves (fun p => pl_rank_history p = h) (refresh_themes (H:=H) cfg now).
Proof.
  unfold refresh_themes. apply preserves_get. intros p _. apply preserves_bind; [by apply zoom_frame|].
  intros updates. apply preserves_bind; [by apply zoom_frame|]. intros _.
  destruct (pl_market_closed p); [apply preserves_ret|by apply zoom_frame].
Qed.

Lemma publish_snapshot_showing l topic params payload now as_of status :
  copy_json_object params = params ->
  preserves (showing l) (publish_snapshot cfg topic params payload now as_of status).
Proof.
  intros Hparams p [Hu Hl]. destruct (publish_snapshot _ _ _ _ _ _ _ p) as [r p'] eqn:E.
  destruct (publish_snapshot_ok _ _ _ _ _ _ _ _ _ Hu Hparams E) as (Hu'&Esame&_).
  assert (showing l p') by (split; [done|by rewrite Esame]). by destruct r.
Qed.

Lemma publish_showing l now status :
  triple (showing l) (publish cfg now status) (fun _ p => unused_ids p) (showing l).
Proof.
  unfold publish. eapply triple_bind; [apply refresh_showing|]. intros ?.
  eapply triple_bind; [by apply (preserves_update (showing l))|]. intros ?.
  apply triple_get_bind. intros p. cbv zeta.
  eapply triple_bind; [by apply (zoom_frame (showing l))|]. intros ?.
  eapply (triple_bind _ _ (fun _ => showing l)).
  { unfold rank_board. apply preserves_get. intros q _. by apply zoom_frame. }
  intros items. eapply triple_bind; [by apply (publish_snapshot_showing l)|]. intros rankings.
  eapply triple_bind; [apply (preserves_lift (showing l))|]. intros tiles.
  eapply triple_bind; [by apply (publish_snapshot_showing l)|]. intros treemap.
  intros q [Hq _]. exact Hq.
Qed.
End facts.

(** C11: A publication shows one board.  Where the repository does not know the publications to
    come, a publication that returns has ranked the themes as it left them, numbered one
    snapshot with the ranking and one with the tiles of its first twelve items, both as of the
    same time, generated at the same time and with the given status; the view it returns, what
    the pipeline keeps for REST and what readers of the repository find are these two
    snapshots (readers find the ranking where its snapshot id, a digest, is not the
    treemap's).  One that raises leaves what REST shows as it was.  Either way the
    publications to come stay unknown. *)
Theorem publish_shows_one_board {H} `{IntradayHistory H} cfg (p : MarketDataPipeline H) now status r p' :
  unused_ids cfg p -> publish cfg now status p = (r, p') ->
  unused_ids cfg p' /\
  match r with
  | Raise _ => pl_latest_rankings p' = pl_latest_rankings p /\ pl_latest_treemap p' = pl_latest_treemap p
  | Ok view => exists items tiles,
      let as_of := default now (th_last_as_of (pl_themes p')) in
      ranking_items cfg (pl_feed p') (pl_themes p') (pl_evidence p') (pl_market_closed p') now
        (pl_rank_history p) = (Ok items, pl_rank_history p') /\
      mapM_res treemap_item (take 12 items) = Ok tiles /\
      shows cfg TOPIC_THEME_RANK [("items", JList (JObj <$> items))] now as_of status (pv_rankings view) /\
      shows cfg TOPIC_THEME_TREEMAP [("items", JList (JObj <$> tiles))] now as_of status (pv_treemap view) /\
      pv_events view = current_events (pl_themes p') /\
      pl_latest_rankings p' = Some (pv_rankings view) /\ pl_latest_treemap p' = Some (pv_treemap view) /\
      found cfg TOPIC_THEME_TREEMAP TREEMAP_PARAMS (pv_treemap view) (pl_snapshots p') /\
      (rs_snapshot_id (pv_rankings view) <> rs_snapshot_id (pv_treemap view) ->
       found cfg TOPIC_THEME_RANK RANKINGS_PARAMS (pv_rankings view) (pl_snapshots p'))
  end.
Proof.
  intros Hu E. pose proof (publish_showing cfg (pl_latest_rankings p, pl_latest_treemap p) now status p) as Hshow.
  rewrite E in Hshow. specialize (Hshow (conj Hu eq_refl)). destruct r as [view|e].
  2: { destruct Hshow as [Hu' [= -> ->]]. done. }
  split; [done|]. unfold publish in E.
  apply M_bind_ok in E as ([]&p1&E1&E). apply M_bind_ok in E as ([]&p2&E2&E). injection E2 as <-.
  apply M_bind_ok in E as (?&?&E3&E). injection E3 as <- <-. cbv zeta in E.
  apply M_bind_ok in E as ([]&p4&E4&E). apply zoom_ok in E4 as (b&_&->).
  apply M_bind_ok in E as (items&p5&E5&E).
  pose proof (refresh_showing cfg (pl_latest_rankings p, pl_latest_treemap p) now p (conj Hu eq_refl)) as Hu1.
  pose proof (refresh_ranks cfg (pl_rank_history p) now p eq_refl) as Hh.
  rewrite E1 in Hu1, Hh. destruct Hu1 as [Hu1 _].
  unfold rank_board in E5. apply M_bind_ok in E5 as (?&?&Eg&E5). injection Eg as <- <-.
  apply zoom_ok in E5 as (h&E5&->). set (p3 := set_rank_history h _) in *.
  apply M_bind_ok in E as (rankings&p6&E6&E).
  destruct (publish_snapshot_ok cfg _ _ _ _ _ _ p3 _ _ Hu1 eq_refl E6) as (Hu6&Esame6&Hs6).
  destruct (Hs6 _ eq_refl) as (Hshow6&Hsn6&Hl6). clear Hs6 E6.
  apply M_bind_ok in E as (tiles&?&Et&E). apply lift_ok in Et as [Et ->].
  apply M_bind_ok in E as (treemap&p7&E7&E).
  destruct (publish_snapshot_ok cfg _ _ _ _ _ _ p6 _ _ Hu6 eq_refl E7) as (Hu7&Esame7&Hs7).
  destruct (Hs7 _ eq_refl) as (Hshow7&Hsn7&Hl7). clear Hs7 E7.
  apply M_bind_ok in E as ([]&?&Eup&E). injection Eup as <-.
  apply M_bind_ok in E as (?&?&Eg&E). injection Eg as <- <-. apply mret_ok in E as [-> ->].
  cbn [pl_snapshots set_latest] in *. rewrite Hl6 in Hl7. rewrite Hsn6 in Hsn7.
  assert (pl_themes p7 = pl_themes p1 /\ pl_feed p7 = pl_feed p1 /\ pl_evidence p7 = pl_evidence p1 /\
          pl_market_closed p7 = pl_market_closed p1 /\ pl_rank_history p7 = h) as (F1&F2&F3&F4&F5).
  { rewrite Esame7, Esame6. by split_and!. }
  exists items, tiles. cbn [pl_themes pl_feed pl_evidence pl_market_closed pl_rank_history set_latest
    pv_rankings pv_treemap pv_events pl_latest_rankings pl_latest_treemap].
  rewrite F1, F2, F3, F4, F5, <-Hh. split_and!; try done.
  - unfold found, latest_snapshot. by rewrite Hl7, dget_dset_eq, Hsn7, dget_dset_eq.
  - intros Hne. unfold found, latest_snapshot. rewrite Hl7, dget_dset_ne, dget_dset_eq by congruence.
    by rewrite Hsn7, dget_dset_ne, dget_dset_eq by congruence.
Qed.

(** ** A concrete day *)

Definition demo_day_cfg : PipelineConfig :=
  mk_PipelineConfig demo_day "stream" "1" demo_catalog "v1" [("battery", "Battery")] [] [] HYSTERESIS_POLICY_V1.

(** A new pipeline with the history of no day. *)
Definition demo_pipeline : MarketDataPipeline History :=
  mk_MarketDataPipeline (feed demo_catalog [demo_reference 0]) (no_themes empty_store) (no_baselines (Some []))
    [] [] [] empty_snapshots 0 None None PREOPEN false.
(** The first update of the day has come in, and the board was published. *)
Definition demo_updated : MarketDataPipeline History := (pipeline_apply_update demo_day_cfg demo_a demo_pipeline).2.
Definition demo_published : MarketDataPipeline History := (publish demo_day_cfg (demo_at 30) LIVE demo_updated).2.

Lemma demo_publish_ok : is_ok (publish demo_day_cfg (demo_at 30) LIVE demo_updated).1 = true.
Proof. vm_compute. reflexivity. Qed.

Lemma publish_shows_one_board_witness :
  exists view p', publish demo_day_cfg (demo_at 30) LIVE demo_updated = (Ok view, p') /\
    found demo_day_cfg TOPIC_THEME_TREEMAP TREEMAP_PARAMS (pv_treemap view) (pl_snapshots p') /\
    rs_generated_at (pv_rankings view) = rs_generated_at (pv_treemap view) /\ unused_ids demo_day_cfg p'.
Proof.
  destruct (publish demo_day_cfg (demo_at 30) LIVE demo_updated) as [[view|e] p'] eqn:E;
    [|pose proof demo_publish_ok as Hok; rewrite E in Hok; discriminate Hok].
  assert (unused_ids demo_day_cfg demo_updated) as Hu by (intros n _; vm_compute; reflexivity).
  pose proof (publish_shows_one_board demo_day_cfg demo_updated (demo_at 30) LIVE (Ok view) p' Hu E) as [Hu' H].
  destruct H as (items&tiles&_&_&Hr&Ht&_&_&_&Hf&_). exists view, p'. split_and!; [reflexivity|exact Hf| |exact Hu'].
  destruct Hr as (_&_&_&_&->&_). by destruct Ht as (_&_&_&_&->&_).
Defined.
