(* ===== verification/MarketClose.v ===== *)
(** The close of the market is final: on every run of the pipeline, also one whose calls
    raise, a close that returns has ended every theme, and nothing the pipeline does
    afterwards moves a theme or an event again. *)
From S2P Require Import Prelude Hoare PyTime PyDecimal Json Domain ThemeMetrics EventModels EventStore.
From S2P Require Import RealtimeModels HotState Hysteresis Aggregation Snapshots Catalyst.
From S2P Require Import MarketThemes MarketFeed MarketBoard MarketBaseline History Market.
#[local] Open Scope Z_scope.

(** ** The pace of the evaluations *)

Section pace.
Context (cfg : PipelineConfig).

Definition input_id (theme : string) (n : Z) : string :=
  pc_stream_id cfg +:+ ":" +:+ theme +:+ ":" +:+ str_Z n.

(** What a theme was last evaluated with: one of the first [n] inputs, not after [clock]. *)
Record paced_state (clock : datetime) (n : Z) (theme : string) (s : HysteresisState) : Prop := {
  ps_sequence : hy_last_sequence s <= n;
  ps_time : forall last, hy_last_evaluated_at s = Some last -> dt_le last clock = true;
  ps_input : forall i, hy_last_input_id s = Some i -> exists k, k <= n /\ i = input_id theme k
}.

Record paced (clock : datetime) (t : Themes) : Prop := {
  pa_count : 0 <= th_input_sequence t;
  pa_states : forall theme s, dget theme (th_hysteresis t) = Some s ->
                paced_state clock (th_input_sequence t) theme s
}.

Lemma paced_state_later clock now n m theme s :
  paced_state clock n theme s -> dt_le clock now = true -> n <= m -> paced_state now m theme s.
Proof.
  intros [H1 H2 H3] Hle Hnm. split; [lia| |].
  - intros last Hl. specialize (H2 _ Hl). rewrite dt_le_Z in *. lia.
  - intros i Hi. destruct (H3 _ Hi) as (k&?&->). exists k. split; [lia|done].
Qed.

Lemma paced_later clock now t : paced clock t -> dt_le clock now = true -> paced now t.
Proof. intros [H1 H2] Hle. split; [done|]. intros theme s Hs. by eapply paced_state_later; [apply H2| |]. Qed.

Lemma input_id_inj theme n m : input_id theme n = input_id theme m -> n = m.
Proof. unfold input_id, str_Z. intros H. by simplify_eq. Qed.

(** The next input of a theme is used. *)
Lemma next_input_used now n theme s coverage qualifies closed d :
  paced_state now n theme s ->
  evaluate_hysteresis (pc_hysteresis_policy cfg) s
    (theme_evaluation cfg theme coverage qualifies closed now (n + 1)) = Ok d ->
  consumed d = true /\ paced_state now (n + 1) theme (hd_state d).
Proof.
  intros [H1 H2 H3] Hd. assert (consumed d = true) as Hu.
  { eapply evaluate_uses; [exact Hd| | |exact H2]; cbn; [|lia].
    intros E. symmetry in E. apply H3 in E as (k&Hk&E). fold (input_id theme (n + 1)) in E.
    apply input_id_inj in E. lia. }
  split; [done|]. destruct (evaluate_used _ _ _ _ Hd Hu) as (_&E1&E2&E3&_). split.
  - rewrite E1. cbn. lia.
  - intros last. rewrite E2. cbn. intros [= <-]. rewrite dt_le_Z. lia.
  - intros i. rewrite E3. cbn. intros [= <-]. exists (n + 1). split; [lia|done].
Qed.

(** Only the hysteresis and the input count matter. *)
Definition same_pace (t t' : Themes) : Prop :=
  th_hysteresis t' = th_hysteresis t /\ th_input_sequence t' = th_input_sequence t.

Lemma paced_same clock t t' : same_pace t t' -> paced clock t -> paced clock t'.
Proof. intros [E1 E2] [H1 H2]. split; [by rewrite E2|]. intros theme s. rewrite E1, E2. apply H2. Qed.

(** A property of themes that only reads the hysteresis and the input count. *)
Class PaceOnly (P : Themes -> Prop) : Prop := pace_only t t' : same_pace t t' -> P t -> P t'.
#[export] Instance paced_pace_only clock : PaceOnly (paced clock).
Proof. intros t t'. apply paced_same. Qed.

Section frame.
Context (P : Themes -> Prop) `{PaceOnly P}.

Lemma change_frame (g : Themes -> Themes) : (forall t, same_pace t (g t)) -> preserves P (change g).
Proof. intros Hg t Ht. cbn. by eapply pace_only. Qed.

Lemma view_frame {A} (g : Themes -> A) : preserves P (view g).
Proof. by intros t Ht. Qed.

Lemma in_store_frame {A} (m : M MemStore A) : preserves P (in_store m).
Proof.
  intros t Ht. unfold in_store. destruct (m (th_event_store t)) as [[a|e] s]; (apply (pace_only t); [by split|done]).
Qed.

Lemma next_metadata_frame u now : preserves P (next_metadata cfg u now).
Proof.
  unfold next_metadata. apply preserves_bind; [by apply change_frame|]. intros _.
  apply preserves_bind; [apply view_frame|]. intros n. apply preserves_lift.
Qed.

Lemma create_event_frame u now : preserves P (create_event cfg u now).
Proof.
  unfold create_event. apply preserves_bind; [apply preserves_lift|]. intros identity.
  apply preserves_bind; [apply next_metadata_frame|]. intros metadata.
  apply preserves_bind; [apply preserves_lift|]. intros versions.
  apply preserves_bind; [apply preserves_lift|]. intros command.
  apply preserves_bind; [apply in_store_frame|]. intros r. apply preserves_ret.
Qed.

Lemma event_of_frame u now : preserves P (event_of cfg u now).
Proof.
  unfold event_of. apply preserves_bind; [apply view_frame|]. intros [known|]; [apply preserves_ret|].
  apply preserves_bind; [apply create_event_frame|]. intros event_id.
  apply preserves_bind; [by apply change_frame|]. intros _.
  apply preserves_bind; [by apply change_frame|]. intros _. apply preserves_ret.
Qed.

Lemma transition_event_frame event_id target reason u now :
  preserves P (transition_event cfg event_id target reason u now).
Proof.
  unfold transition_event. apply preserves_bind; [apply in_store_frame|].
  intros [e|]; [|apply preserves_throw].
  apply preserves_bind; [apply next_metadata_frame|]. intros metadata.
  apply preserves_bind; [apply preserves_lift|]. intros command.
  apply preserves_bind; [apply in_store_frame|]. intros r. apply preserves_ret.
Qed.

Lemma note_as_of_frame u : preserves P (change (note_as_of u)).
Proof. apply change_frame. intros t. unfold note_as_of. destruct (match th_last_as_of t with None => _ | Some _ => _ end); by split. Qed.
End frame.

(** The states of some themes have ended. *)
Definition ended (themes : list string) (t : Themes) : Prop :=
  forall theme s, theme ∈ themes -> dget theme (th_hysteresis t) = Some s ->
    terminal (hy_lifecycle_status s) = true.

#[export] Instance ended_pace_only themes : PaceOnly (ended themes).
Proof. intros t t' [E _] Hend theme s. rewrite E. apply Hend. Qed.

Lemma paced_counted now t : paced now t -> paced now (set_input_sequence (th_input_sequence t + 1) t).
Proof.
  intros [H1 H2]. split; cbn; [lia|]. intros th x Hx.
  eapply paced_state_later; [by apply H2|rewrite dt_le_Z; lia|lia].
Qed.

Definition decided_themes (theme : string) (d : HysteresisDecision) (t : Themes) : Themes :=
  set_hysteresis (dset theme (hd_state d) (th_hysteresis t))
    (set_input_sequence (th_input_sequence t + 1) t).

(** The next evaluation of a theme: it is counted, used, and the new state kept. *)
Lemma decide_step {B} now theme s coverage qualifies closed (K : HysteresisDecision -> M Themes B) t :
  paced now t -> paced_state now (th_input_sequence t) theme s ->
  let run := (e ← next_evaluation cfg theme coverage qualifies closed now;
              decision ← lift (evaluate_hysteresis (pc_hysteresis_policy cfg) s e);
              _ ← change (fun t => set_hysteresis (dset theme (hd_state decision) (th_hysteresis t)) t);
              K decision) t in
  (exists x, run = (Raise x, set_input_sequence (th_input_sequence t + 1) t)) \/
  exists d, evaluate_hysteresis (pc_hysteresis_policy cfg) s
              (theme_evaluation cfg theme coverage qualifies closed now (th_input_sequence t + 1)) = Ok d /\
    consumed d = true /\ run = K d (decided_themes theme d t) /\ paced now (decided_themes theme d t).
Proof.
  intros Hp Hs. unfold next_evaluation, mbind, M_bind, change, view, lift.
  cbn [th_input_sequence set_input_sequence]. unfold ActivationEvaluation_check.
  set (e := theme_evaluation cfg theme coverage qualifies closed now (th_input_sequence t + 1)).
  destruct (_ ≫= _) as [e'|x] eqn:E; [|left; by exists x].
  assert (e' = e) as -> by (repeat apply res_bind_ok in E as (?&_&E); by injection E).
  destruct (evaluate_hysteresis (pc_hysteresis_policy cfg) s e) as [d|x] eqn:Ed; [right|left; by exists x].
  destruct (next_input_used _ _ _ _ _ _ _ _ Hs Ed) as [Hu Hd]. exists d. split_and!; [done..|].
  destruct (paced_counted now t Hp) as [H1 H2]. split; [exact H1|]. intros th x.
  cbn. rewrite dget_dset. case_decide as Eth; [intros [= <-]; by subst|apply H2].
Qed.

Lemma candidate_paced now n theme s :
  0 <= n -> candidate theme (pc_hysteresis_policy cfg) = Ok s -> paced_state now n theme s.
Proof. intros Hn ->%HysteresisState_check_id. by split. Qed.

Lemma theme_state_run theme t :
  theme_state cfg theme t =
    (match dget theme (th_hysteresis t) with
     | Some s => Ok s | None => candidate theme (pc_hysteresis_policy cfg) end, t).
Proof. unfold theme_state, mbind, M_bind, view, lift. by destruct (dget theme (th_hysteresis t)). Qed.

Lemma evaluate_theme_paced u now : preserves (paced now) (evaluate_theme cfg u now).
Proof.
  unfold evaluate_theme. apply preserves_bind; [apply note_as_of_frame, _|]. intros _.
  unfold evaluate_from. apply preserves_bind; [apply event_of_frame, _|]. intros event_id.
  intros t Ht.
  set (rest := fun (state : HysteresisState) => _ : M Themes unit).
  assert (forall s, paced_state now (th_input_sequence t) (tu_theme_id u) s ->
            match rest s t with (Ok _, t') => paced now t' | (Raise _, t') => paced now t' end) as Hrest.
  { intros s Hs. unfold rest.
    destruct (decide_step now (tu_theme_id u) s (cov_status (tmx_coverage (tu_metrics u)))
                (qualifies_of (tu_metrics u)) false
                (fun d => match hd_transition d with
                          | None => mret tt
                          | Some transition =>
                              _ ← (if decide (ht_to_status transition = ACTIVE)
                                   then change (fun t => if dmem (tu_theme_id u) (th_activated_at t) then t
                                                         else set_activated_at (dset (tu_theme_id u) now (th_activated_at t)) t)
                                   else mret tt);
                              transition_event cfg event_id (ht_to_status transition) (ht_reason transition) u now
                          end) t Ht Hs) as [(x&Hx)|(d&_&_&Hd&Hp)].
    - rewrite Hx. by apply paced_counted.
    - rewrite Hd. revert Hp. generalize (decided_themes (tu_theme_id u) d t).
      destruct (hd_transition d) as [tr|]; [|by intros t1 Hp].
      apply preserves_bind; [|intros _; apply transition_event_frame, _].
      case_decide; [|apply preserves_ret]. apply change_frame; [apply _|]. intros t1.
      destruct (dmem (tu_theme_id u) (th_activated_at t1)); by split. }
  change (match (match theme_state cfg (tu_theme_id u) t with
                 | (Ok a, s') => rest a s' | (Raise e, s') => (Raise e, s') end)
          with (Ok _, t') => paced now t' | (Raise _, t') => paced now t' end).
  rewrite theme_state_run. destruct (dget (tu_theme_id u) (th_hysteresis t)) as [s|] eqn:Es.
  - apply Hrest. by apply (pa_states _ _ Ht).
  - destruct (candidate _ _) as [s|] eqn:Ec; [|done].
    apply Hrest. eapply candidate_paced; [apply (pa_count _ _ Ht)|done].
Qed.

(** What a transition of a closed theme does with its event. *)
Definition close_event (u : ThemeMetricUpdate) (now : datetime) (theme : string) (d : HysteresisDecision)
    : M Themes unit :=
  event_id ← view (fun t => dget theme (th_event_ids t));
  match hd_transition d, event_id with
  | Some transition, Some event_id =>
      transition_event cfg event_id (ht_to_status transition) (ht_reason transition) u now
  | _, _ => mret tt
  end.

Lemma close_theme_run now theme t :
  close_theme cfg now theme t =
    match dget theme (th_hysteresis t) with
    | None => (Ok tt, t)
    | Some s =>
        if terminal (hy_lifecycle_status s) then (Ok tt, t)
        else match dget theme (th_latest_metrics t) with
             | None => (Raise KeyError, t)
             | Some u =>
                 (e ← next_evaluation cfg theme (cov_status (tmx_coverage (tu_metrics u))) None true now;
                  decision ← lift (evaluate_hysteresis (pc_hysteresis_policy cfg) s e);
                  _ ← change (fun t => set_hysteresis (dset theme (hd_state decision) (th_hysteresis t)) t);
                  close_event u now theme decision) t
             end
    end.
Proof.
  unfold close_theme at 1. unfold mbind at 1, M_bind at 1, view at 1.
  unfold mbind at 1, M_bind at 1, view at 1.
  destruct (dget theme (th_hysteresis t)) as [s|]; [|done].
  destruct (terminal (hy_lifecycle_status s)); [done|]. by destruct (dget theme (th_latest_metrics t)).
Qed.

(** The close of one theme: it has ended, and so have those closed before. *)
Lemma close_theme_ended now done theme :
  triple (fun t => paced now t /\ ended done t) (close_theme cfg now theme)
    (fun _ t => paced now t /\ ended (done ++ [theme]) t) (paced now).
Proof.
  intros t [Hp Hend]. rewrite close_theme_run.
  assert (forall t', same_pace t t' ->
            (forall s, dget theme (th_hysteresis t) = Some s -> terminal (hy_lifecycle_status s) = true) ->
            paced now t' /\ ended (done ++ [theme]) t') as Hkeep.
  { intros t' Hsame Hs. split; [by eapply paced_same|]. eapply ended_pace_only; [exact Hsame|].
    intros th s [Hth|Hth%list_elem_of_singleton]%elem_of_app; [by apply Hend|subst th; apply Hs]. }
  destruct (dget theme (th_hysteresis t)) as [s|] eqn:Es; [|by apply Hkeep].
  destruct (terminal (hy_lifecycle_status s)) eqn:Et; [by apply Hkeep; [|intros ? [= <-]]|].
  destruct (dget theme (th_latest_metrics t)) as [u|]; [|done].
  destruct (decide_step now theme s (cov_status (tmx_coverage (tu_metrics u))) None true
              (close_event u now theme) t Hp (pa_states _ _ Hp _ _ Es)) as [(x&Hx)|(d&Ed&Hu&Hd&Hp1)].
  - rewrite Hx. by apply paced_counted.
  - rewrite Hd. assert (ended (done ++ [theme]) (decided_themes theme d t)) as Hend1.
    { intros th x Hth. cbn. rewrite dget_dset. case_decide as E.
      - intros [= <-]. by eapply evaluate_closes.
      - apply elem_of_app in Hth as [Hth|Hth%list_elem_of_singleton]; [by apply Hend|by subst]. }
    assert (preserves (fun t => paced now t /\ ended (done ++ [theme]) t)
              (close_event u now theme d)) as Hrest.
    { apply preserves_bind; [by intros ? ?|]. intros i.
      destruct (hd_transition d) as [tr|], i as [event_id|]; try apply preserves_ret.
      apply transition_event_frame. intros t1 t2 Hsame [H1 H2].
      split; [by eapply paced_same|by eapply ended_pace_only]. }
    specialize (Hrest _ (conj Hp1 Hend1)).
    match type of Hrest with match ?m with _ => _ end => destruct m as [[a|x] t'] end; [done|by destruct Hrest].
Qed.

Lemma triple_for_each {S A} (I : list A -> S -> Prop) (f : A -> M S unit) (E : S -> Prop) l start :
  (forall done a, triple (I done) (f a) (fun _ => I (done ++ [a])) E) ->
  triple (I start) (for_each f l) (fun _ => I (start ++ l)) E.
Proof.
  intros Hf. revert start; induction l as [|a l IH]; intros start; cbn [for_each].
  - apply triple_ret. intros s. by rewrite app_nil_r.
  - eapply triple_bind; [apply Hf|]. intros ?. eapply triple_weaken; [apply IH|done| |done].
    intros ? s. by rewrite <-app_assoc.
Qed.

Lemma preserves_for_each {S A} (P : S -> Prop) (f : A -> M S unit) l :
  (forall a, preserves P (f a)) -> preserves P (for_each f l).
Proof. intros Hf. by apply (triple_for_each (fun _ => P) f P l []). Qed.

Lemma close_themes_ended now t :
  paced now t ->
  match close_themes cfg now t with
  | (Ok _, t') => paced now t' /\ ended (dkeys (th_latest_metrics t)) t'
  | (Raise _, t') => paced now t'
  end.
Proof.
  intros Hp. unfold close_themes, mbind, M_bind, view.
  pose proof (triple_for_each (fun done t => paced now t /\ ended done t) (close_theme cfg now) (paced now)
                (sorted_list (dkeys (th_latest_metrics t))) [] (fun done => close_theme_ended now done) t) as H.
  destruct (for_each _ _ t) as [[[]|e] t'].
  - destruct H as [H1 H2]; [by split; [|intros ? ? ?%not_elem_of_nil]|]. split; [done|].
    intros theme s Hth. apply H2. unfold sorted_list. by apply elem_of_sorted_by.
  - apply H. by split; [|intros ? ? ?%not_elem_of_nil].
Qed.

Lemma close_themes_paced now : preserves (paced now) (close_themes cfg now).
Proof.
  intros t Hp. pose proof (close_themes_ended now t Hp) as H.
  by destruct (close_themes cfg now t) as [[a|e] t']; [destruct H|].
Qed.

Lemma evaluate_themes_paced now : preserves (paced now) (evaluate_themes cfg now).
Proof.
  unfold evaluate_themes. apply preserves_bind; [by intros ? ?|]. intros themes.
  apply preserves_for_each. intros theme. unfold evaluate_named.
  apply preserves_bind; [by intros ? ?|].
  intros [u|]; [apply evaluate_theme_paced|apply preserves_throw].
Qed.
End pace.

(** ** Runs of the pipeline *)

Section runs.
Context {H : Type} `{IntradayHistory H} (casefold : string -> string) (cfg : PipelineConfig).

(** The calls whose time does not matter, or that publish at [now]; any of them may raise. *)
Inductive reader_step (now : datetime) (p : MarketDataPipeline H) : MarketDataPipeline H -> Prop :=
  | step_update u r p' : pipeline_apply_update cfg u p = (r, p') -> reader_step now p p'
  | step_publish status r p' : publish cfg now status p = (r, p') -> reader_step now p p'
  | step_evidence revision evidence r p' :
      record_evidence casefold revision evidence p = (r, p') -> reader_step now p p'.

(** All the runs of a day: a restart after the close may also restore its last snapshots. *)
Inductive market_run : datetime -> MarketDataPipeline H -> Prop :=
  | market_start clock references store snapshots history p :
      new_pipeline cfg references store snapshots history = Ok p -> market_run clock p
  | market_reader clock now p p' :
      market_run clock p -> dt_le clock now = true -> reader_step now p p' -> market_run now p'
  | market_close clock now r p p' :
      market_run clock p -> dt_le clock now = true -> close_market cfg now p = (r, p') -> market_run now p'
  | market_restore clock rankings treemap at_ r p p' :
      market_run clock p -> restore_final_snapshots cfg rankings treemap at_ p = (r, p') ->
      market_run clock p'.

Lemma zoom_part {S A} (P : S -> Prop) (part : MarketDataPipeline H -> S) put (m : M S A) :
  (forall s p, part (put s p) = s) -> preserves P m -> preserves (fun p => P (part p)) (zoom part put m).
Proof.
  intros Hput Hm p Hp. unfold zoom. specialize (Hm _ Hp).
  destruct (m (part p)) as [[a|e] s]; by rewrite Hput.
Qed.

(** What a publication does after the themes are evaluated touches no theme. *)
Section publish_frame.
Context (P : MarketDataPipeline H -> Prop).
Hypothesis P_themes : forall p p', pl_themes p' = pl_themes p -> pl_market_closed p' = pl_market_closed p ->
  P p -> P p'.

Lemma zoom_other {S A} part put (m : M S A) :
  (forall s p, pl_themes (put s p) = pl_themes p /\ pl_market_closed (put s p) = pl_market_closed p) ->
  preserves P (zoom part put m).
Proof. intros Hput. apply zoom_frame. intros s p. destruct (Hput s p) as [E1 E2]. by apply P_themes. Qed.

Lemma publish_snapshot_frame topic params payload now as_of status :
  preserves P (publish_snapshot cfg topic params payload now as_of status).
Proof.
  unfold publish_snapshot. apply preserves_bind; [apply preserves_update; intros p; by apply P_themes|].
  intros _. apply preserves_get. intros p _. apply preserves_bind; [apply preserves_lift|].
  intros publication. by apply zoom_other.
Qed.

Lemma publish_frame now status :
  preserves P (refresh_themes cfg now) -> preserves P (publish cfg now status).
Proof.
  intros Hrefresh. unfold publish. apply preserves_bind; [done|]. intros _.
  apply preserves_bind; [apply preserves_update; intros p; by apply P_themes|]. intros _.
  apply preserves_get. intros p _. apply preserves_bind; [by apply zoom_other|]. intros _.
  apply preserves_bind; [unfold rank_board; apply preserves_get; intros ? _; by apply zoom_other|].
  intros items. apply preserves_bind; [apply publish_snapshot_frame|]. intros rankings.
  apply preserves_bind; [apply preserves_lift|]. intros tiles.
  apply preserves_bind; [apply publish_snapshot_frame|]. intros treemap.
  apply preserves_bind; [apply preserves_update; intros q; by apply P_themes|]. intros _.
  apply preserves_get. intros q _. apply preserves_ret.
Qed.

Lemma reader_frame now p p' :
  preserves P (refresh_themes cfg now) -> reader_step now p p' -> P p -> P p'.
Proof.
  intros Hrefresh Hstep Hp. destruct Hstep as [u r p' E|status r p' E|revision evidence r p' E].
  - change p' with (r, p').2. rewrite <-E. apply preserves_run; [|done]. by apply zoom_other.
  - change p' with (r, p').2. rewrite <-E. apply preserves_run; [by apply publish_frame|done].
  - change p' with (r, p').2. rewrite <-E. apply preserves_run; [|done]. unfold record_evidence.
    apply preserves_bind; [apply preserves_update; intros q; by apply P_themes|]. intros _.
    apply preserves_bind; [apply preserves_lift|]. intros document.
    apply preserves_update. intros q. by apply P_themes.
Qed.
End publish_frame.

Lemma take_updates_paced now updates : preserves (paced cfg now) (take_updates updates).
Proof. unfold take_updates. by apply change_frame; [apply _|]. Qed.

Lemma refresh_paced now : preserves (fun p : MarketDataPipeline H => paced cfg now (pl_themes p)) (refresh_themes cfg now).
Proof.
  unfold refresh_themes. apply preserves_get. intros p _.
  apply preserves_bind; [by apply zoom_frame|]. intros updates.
  apply preserves_bind; [apply zoom_part; [done|apply take_updates_paced]|]. intros _.
  destruct (pl_market_closed p); [apply preserves_ret|].
  apply zoom_part; [done|apply evaluate_themes_paced].
Qed.

Lemma market_run_paced clock p : market_run clock p -> paced cfg clock (pl_themes p).
Proof.
  induction 1 as [clock references store snapshots history p E|clock now p p' _ IH Hle Hstep
    |clock now r p p' _ IH Hle E|clock rankings treemap at_ r p p' _ IH E].
  - unfold new_pipeline in E. apply res_bind_ok in E as (?&_&[= <-]). by split.
  - apply (paced_later _ _ now) in IH; [|done]. revert Hstep IH.
    apply (reader_frame (fun p => paced cfg now (pl_themes p))); [by intros ? ? -> _|apply refresh_paced].
  - apply (paced_later _ _ now) in IH; [|done]. change p' with (r, p').2. rewrite <-E.
    apply (preserves_run (fun p => paced cfg now (pl_themes p))); [|done]. unfold close_market.
    apply preserves_bind; [by apply preserves_update|]. intros _.
    apply preserves_bind; [apply zoom_part; [done|apply close_themes_paced]|]. intros _.
    apply preserves_get. intros q _. by apply zoom_frame.
  - change p' with (r, p').2. rewrite <-E.
    apply (preserves_run (fun p => paced cfg clock (pl_themes p))); [|done]. unfold restore_final_snapshots.
    apply preserves_bind; [apply preserves_lift|]. intros _.
    apply preserves_bind; [apply preserves_lift|]. intros rk.
    apply preserves_bind; [apply preserves_lift|]. intros tm.
    apply preserves_bind; [apply preserves_update; intros q Hq; by apply (paced_same _ _ (pl_themes q))|].
    intros _. apply preserves_get. intros q _. apply preserves_ret.
Qed.

(** The pipeline is closed, and its themes differ from [t] at most in their latest metrics. *)
Definition frozen (t : Themes) (p : MarketDataPipeline H) : Prop :=
  pl_market_closed p = true /\ pl_themes p = set_latest_metrics (th_latest_metrics (pl_themes p)) t.

Lemma refresh_frozen t now : preserves (frozen t) (refresh_themes cfg now).
Proof.
  unfold refresh_themes. apply preserves_get. intros p [Hc _].
  apply preserves_bind; [by apply zoom_frame|]. intros updates.
  apply preserves_bind; [|intros _; rewrite Hc; apply preserves_ret].
  intros q [Hq E]. unfold zoom, take_updates, change. split; [done|]. cbn. by rewrite E.
Qed.

Lemma readers_frozen t p p' :
  rtc (fun p p' => exists now, reader_step now p p') p p' -> frozen t p -> frozen t p'.
Proof.
  induction 1 as [|p p1 p' [now Hstep] _ IH]; [done|]. intros Hp. apply IH. revert Hstep Hp.
  apply reader_frame; [|apply refresh_frozen]. intros q q' E1 E2 [H1 H2]. split; [by rewrite E2|by rewrite E1].
Qed.
End runs.

(** C12: The close of the market is final.  Whatever happened before, also calls that raised,
    a close that returns has ended every theme that was seen: its hysteresis is closed or
    discarded.  Whatever updates, evidence and publications follow, and whether they return
    or raise, the market stays closed, and of the themes only their latest metrics change:
    hysteresis, events and the event store stay as the close left them. *)
Theorem close_is_final {H} `{IntradayHistory H} casefold cfg clock now (p p1 : MarketDataPipeline H) :
  market_run casefold cfg clock p -> dt_le clock now = true -> close_market cfg now p = (Ok tt, p1) ->
  (forall theme s, theme ∈ dkeys (th_latest_metrics (pl_themes p)) ->
     dget theme (th_hysteresis (pl_themes p1)) = Some s -> terminal (hy_lifecycle_status s) = true) /\
  forall p2, rtc (fun p p' => exists now, reader_step casefold cfg now p p') p1 p2 ->
    pl_market_closed p2 = true /\
    pl_themes p2 = set_latest_metrics (th_latest_metrics (pl_themes p2)) (pl_themes p1).
Proof.
  intros Hrun Hle Hclose. apply market_run_paced in Hrun. apply (paced_later _ _ now) in Hrun; [|done].
  unfold close_market in Hclose. apply M_bind_ok in Hclose as (?&q1&E1&Hclose). injection E1 as <- <-.
  apply M_bind_ok in Hclose as (?&q2&E2&Hclose). apply M_bind_ok in Hclose as (?&q3&E3&Hclose).
  injection E3 as <- <-. unfold zoom in E2, Hclose. cbn [pl_themes set_market_closed] in E2.
  pose proof (close_themes_ended cfg now (pl_themes p) Hrun) as Hend.
  destruct (close_themes cfg now (pl_themes p)) as [r t] eqn:Et. injection E2 as -> <-.
  destruct Hend as [_ Hend].
  destruct (record_attention_day _ _ _) as [r b]. injection Hclose as -> <-. split.
  - intros theme s Hin Hs. by apply (Hend theme s).
  - intros p2 Hp2. apply (readers_frozen casefold cfg _ _ _ Hp2). split; [done|]. by destruct t.
Qed.

(** ** The close of the concrete day *)

Definition demo_closed : MarketDataPipeline History := (close_market demo_day_cfg (demo_at 40) demo_published).2.

Lemma demo_published_run casefold : market_run casefold demo_day_cfg (demo_at 30) demo_published.
Proof.
  apply (market_reader _ _ (demo_at 30) (demo_at 30) demo_updated); [|vm_compute; reflexivity|].
  - apply (market_reader _ _ (demo_at 0) (demo_at 30) demo_pipeline); [|vm_compute; reflexivity|].
    + by apply (market_start _ _ (demo_at 0) [demo_reference 0] empty_store empty_snapshots (Some [])).
    + eapply step_update. apply surjective_pairing.
  - eapply step_publish. apply surjective_pairing.
Qed.

Lemma demo_close_run : close_market demo_day_cfg (demo_at 40) demo_published = (Ok tt, demo_closed).
Proof.
  assert (is_ok (close_market demo_day_cfg (demo_at 40) demo_published).1 = true) as Hok by (vm_compute; reflexivity).
  unfold demo_closed. by destruct (close_market demo_day_cfg (demo_at 40) demo_published) as [[[]|e] p].
Qed.

Lemma close_is_final_witness :
  "battery" ∈ dkeys (th_latest_metrics (pl_themes demo_published)) /\
  (exists s, dget "battery" (th_hysteresis (pl_themes demo_closed)) = Some s /\
             terminal (hy_lifecycle_status s) = true) /\
  forall p2, reader_step id demo_day_cfg (demo_at 50) demo_closed p2 -> pl_market_closed p2 = true.
Proof.
  assert ("battery" ∈ dkeys (th_latest_metrics (pl_themes demo_published))) as Hin.
  { assert (dkeys (th_latest_metrics (pl_themes demo_published)) = ["battery"]) as -> by (vm_compute; reflexivity).
    by apply list_elem_of_singleton. }
  destruct (close_is_final id demo_day_cfg (demo_at 30) (demo_at 40) demo_published demo_closed
              (demo_published_run id) ltac:(vm_compute; reflexivity) demo_close_run) as [Hend Hlater].
  split_and!; [exact Hin| |].
  - destruct (dget "battery" (th_hysteresis (pl_themes demo_closed))) as [s|] eqn:E.
    + exists s. split; [reflexivity|]. by apply (Hend "battery").
    + exfalso. assert (is_Some (dget "battery" (th_hysteresis (pl_themes demo_closed)))) as [s Hs]; [|congruence].
      apply elem_of_dkeys.
      assert (dkeys (th_hysteresis (pl_themes demo_closed)) = ["battery"]) as -> by (vm_compute; reflexivity).
      by apply list_elem_of_singleton.
  - intros p2 Hstep. apply (Hlater p2). apply rtc_once. by exists (demo_at 50).
Defined.
