(* ===== verification/MarketRunner.v ===== *)
(** [packages/pipeline/runner.py]: the loop that publishes a market day, and the loop that
    changes to the next trading day. *)
From S2P Require Import Prelude Hoare PyTime Domain RealtimeModels HotState Aggregation Snapshots TradingDay ThemeMetrics MarketThemes MarketBaseline History Market MarketClose.
#[local] Open Scope Z_scope.

(* @ packages/pipeline/runner.py 24-24 SESSION_RETRY_INTERVAL *)
Definition SESSION_RETRY_INTERVAL : timedelta := minutes 5.

(** What the loops need of a pipeline [P] with updates [U] and views [V]. *)
Class DayPipeline (P U V : Type) := {
  dp_market_date : P -> date;
  dp_apply_update : U -> M P unit;
  dp_close_market : datetime -> M P unit;
  dp_publish : datetime -> DataStatus -> M P V
}.

(** A pipeline stays with its day. *)
Class DayPipelineLaws (P U V : Type) `{DayPipeline P U V} : Prop := {
  dp_apply_date u p : dp_market_date (dp_apply_update u p).2 = dp_market_date p;
  dp_close_date now p : dp_market_date (dp_close_market now p).2 = dp_market_date p;
  dp_publish_date now status p : dp_market_date (dp_publish now status p).2 = dp_market_date p
}.

Section runner.
Context {P U V : Type} `{DayPipeline P U V}.

(** ** The publish loop of a day *)

(** [lp_notified] are the views [on_published] was given. *)
(* @ packages/pipeline/runner.py 41-65 MarketPublishLoop.__init__ *)
Record MarketPublishLoop := mk_MarketPublishLoop {
  lp_pipeline : P;
  lp_market_open_at : option datetime;
  lp_market_close_at : option datetime;
  lp_market_close_applied : bool;
  lp_notified : list V
}.

(* @ packages/pipeline/runner.py 41-65 MarketPublishLoop.__init__ *)
Definition publish_loop (pipeline : P) (interval : timedelta) (open_at close_at : option datetime)
    : res MarketPublishLoop :=
  _ ← raise_if (interval <=? 0) ValueError;
  Ok (mk_MarketPublishLoop pipeline open_at close_at false []).

Definition set_pipeline x l :=
  mk_MarketPublishLoop x (lp_market_open_at l) (lp_market_close_at l) (lp_market_close_applied l) (lp_notified l).
Definition set_close_applied x l :=
  mk_MarketPublishLoop (lp_pipeline l) (lp_market_open_at l) (lp_market_close_at l) x (lp_notified l).
Definition add_notified v l :=
  mk_MarketPublishLoop (lp_pipeline l) (lp_market_open_at l) (lp_market_close_at l)
    (lp_market_close_applied l) (lp_notified l ++ [v]).

Definition change_day (g : MarketPublishLoop -> MarketPublishLoop) : M MarketPublishLoop unit :=
  fun l => (Ok tt, g l).
Definition in_pipeline {A} (m : M P A) : M MarketPublishLoop A := fun l =>
  let '(r, p) := m (lp_pipeline l) in (r, set_pipeline p l).

(** What the clock and the callbacks of a loop answer during one tick. *)
Record TickInput := mk_TickInput {
  ti_now : datetime;
  ti_updates : res (list U);
  ti_data_status : res DataStatus;
  ti_before_publish : M P unit;
  ti_on_published : res unit
}.

Definition reached (at_ : option datetime) (now : datetime) : bool :=
  match at_ with Some t => dt_le t now | None => false end.

(* @ packages/pipeline/runner.py 91-96 MarketPublishLoop._session_data_status *)
Definition session_data_status (i : TickInput) (l : MarketPublishLoop) : res DataStatus :=
  if match lp_market_open_at l with Some t => dt_lt (ti_now i) t | None => false end then Ok PREOPEN
  else if reached (lp_market_close_at l) (ti_now i) then Ok DATA_CLOSED
  else ti_data_status i.

(* @ packages/pipeline/runner.py 76-82 MarketPublishLoop.tick *)
Definition apply_close (now : datetime) : M MarketPublishLoop unit := fun l =>
  if negb (lp_market_close_applied l) && reached (lp_market_close_at l) now
  then (_ ← in_pipeline (dp_close_market now); change_day (set_close_applied true)) l
  else (Ok tt, l).

(* @ packages/pipeline/runner.py 71-89 MarketPublishLoop.tick *)
Definition tick (i : TickInput) : M MarketPublishLoop V :=
  updates ← lift (ti_updates i);
  _ ← for_each (fun u => in_pipeline (dp_apply_update u)) updates;
  _ ← apply_close (ti_now i);
  _ ← in_pipeline (ti_before_publish i);
  l ← get_st;
  status ← lift (session_data_status i l);
  view ← in_pipeline (dp_publish (ti_now i) status);
  _ ← change_day (add_notified view);
  _ ← lift (ti_on_published i);
  mret view.

(* @ packages/pipeline/runner.py 98-104 MarketPublishLoop.close *)
Definition close : M MarketPublishLoop unit := fun l =>
  if lp_market_close_applied l then (Ok tt, l)
  else match lp_market_close_at l with
       | None => (Ok tt, l)
       | Some close_at =>
           (_ ← in_pipeline (dp_close_market close_at); change_day (set_close_applied true)) l
       end.

(** ** The loop over trading days *)

(** [td_builds] are the times and days [build_session] was called for. *)
(* @ packages/pipeline/runner.py 128-144 TradingDayLoop.__init__ *)
Record TradingDayLoop := mk_TradingDayLoop {
  td_market_date : option date;
  td_session : option MarketPublishLoop;
  td_retry_at : option datetime;
  td_builds : list (datetime * date)
}.

(* @ packages/pipeline/runner.py 128-144 TradingDayLoop.__init__ *)
Definition trading_day_loop (interval : timedelta) : res TradingDayLoop :=
  _ ← raise_if (interval <=? 0) ValueError;
  Ok (mk_TradingDayLoop None None None []).

Definition set_session x t :=
  mk_TradingDayLoop (td_market_date t) x (td_retry_at t) (td_builds t).
Definition set_day x t := mk_TradingDayLoop x (td_session t) (td_retry_at t) (td_builds t).
Definition set_retry x t := mk_TradingDayLoop (td_market_date t) (td_session t) x (td_builds t).
Definition add_build b t :=
  mk_TradingDayLoop (td_market_date t) (td_session t) (td_retry_at t) (td_builds t ++ [b]).

Definition change_loop (g : TradingDayLoop -> TradingDayLoop) : M TradingDayLoop unit := fun t => (Ok tt, g t).

(** What the callbacks answer during one tick of this loop. *)
Record DayInput := mk_DayInput {
  di_tick : TickInput;
  di_build_session : date -> res (option MarketPublishLoop);
  di_known_trading_days : calendar
}.

(** A method of the session, which is there. *)
Definition in_session {A} (m : M MarketPublishLoop A) (absent : A) : M TradingDayLoop A := fun t =>
  match td_session t with
  | None => (Ok absent, t)
  | Some l => let '(r, l) := m l in (r, set_session (Some l) t)
  end.

(** The next attempt is noted before this one is made. *)
(* @ packages/pipeline/runner.py 169-170 TradingDayLoop.tick *)
Definition build_today (i : DayInput) (today : date) : M TradingDayLoop unit :=
  let now := ti_now (di_tick i) in
  _ ← change_loop (set_retry (Some (dt_add now SESSION_RETRY_INTERVAL)));
  _ ← change_loop (add_build (now, today));
  session ← lift (di_build_session i today);
  change_loop (set_session session).

(* @ packages/pipeline/runner.py 175-190 TradingDayLoop._roll_over *)
Definition roll_over (i : DayInput) (today : date) : M TradingDayLoop unit :=
  _ ← in_session close tt;
  _ ← change_loop (set_session None);
  _ ← change_loop (set_day (Some today));
  _ ← change_loop (set_retry None);
  if is_trading_day (di_known_trading_days i) today then build_today i today else mret tt.

(* @ packages/pipeline/runner.py 156-173 TradingDayLoop.tick *)
Definition day_tick (i : DayInput) : M TradingDayLoop (option V) :=
  let now := ti_now (di_tick i) in
  let today := market_date_for now in
  t ← get_st;
  _ ← (if negb (bool_decide (Some today = td_market_date t)) then roll_over i today
       else if negb (is_some (td_session t)) && reached (td_retry_at t) now then build_today i today
       else mret tt);
  in_session (view ← tick (di_tick i); mret (Some view)) None.

(** [run]: a tick that raises is logged, and the loop goes on. *)
(* @ packages/pipeline/runner.py 192-211 TradingDayLoop.run *)
Definition run_days (inputs : list DayInput) (t : TradingDayLoop) : TradingDayLoop :=
  fold_left (fun t i => (day_tick i t).2) inputs t.
End runner.
Arguments MarketPublishLoop : clear implicits.
Arguments TradingDayLoop : clear implicits.
Arguments TickInput : clear implicits.
Arguments DayInput : clear implicits.

(** ** Only today is published *)

Section days.
Context {P U V : Type} `{Laws : DayPipelineLaws P U V}.

(** What callbacks keep: a session is built for the day it was asked for, and the hook
    before a publication does not change the day of the pipeline. *)
Record input_ok (i : DayInput P U V) : Prop := {
  io_build : forall d l, di_build_session i d = Ok (Some l) -> dp_market_date (lp_pipeline l) = d;
  io_hook : forall p, dp_market_date (ti_before_publish (di_tick i) p).2 = dp_market_date p
}.

(** The session is one of the day the loop stands at. *)
Definition session_of_day (t : TradingDayLoop P V) : Prop :=
  forall l, td_session t = Some l -> td_market_date t = Some (dp_market_date (lp_pipeline l)).

Definition of_date (d : date) (l : MarketPublishLoop P V) : Prop := dp_market_date (lp_pipeline l) = d.

Lemma in_pipeline_date d {A} (m : M P A) :
  (forall p, dp_market_date (m p).2 = dp_market_date p) -> preserves (of_date d) (in_pipeline (V:=V) m).
Proof.
  intros Hm l Hl. unfold in_pipeline. specialize (Hm (lp_pipeline l)).
  destruct (m (lp_pipeline l)) as [[a|e] p]; unfold of_date in *; cbn in *; congruence.
Qed.

Lemma close_date d : preserves (of_date d) (close (P:=P) (V:=V)).
Proof.
  intros l Hl. unfold close. destruct (lp_market_close_applied l); [done|].
  destruct (lp_market_close_at l) as [at_|]; [|done]. revert l Hl.
  apply preserves_bind; [apply in_pipeline_date, dp_close_date|]. by intros ? l Hl.
Qed.

(** What a tick publishes, a pipeline of its day has published. *)
Definition published_by_day (d : date) (now : datetime) (v : V) : Prop :=
  exists status p p', dp_market_date p = d /\ dp_publish now status p = (Ok v, p').

Lemma tick_date d i :
  (forall p, dp_market_date (ti_before_publish i p).2 = dp_market_date p) ->
  triple (of_date d) (tick i) (fun v l => of_date d l /\ published_by_day d (ti_now i) v) (of_date d).
Proof.
  intros Hhook. unfold tick. eapply triple_bind; [apply (preserves_lift (of_date d))|]. intros updates.
  eapply triple_bind; [apply (preserves_for_each (of_date d)); intros u; apply in_pipeline_date, dp_apply_date|].
  intros ?. eapply (triple_bind _ _ (fun _ => of_date d)).
  { intros l Hl. unfold apply_close. destruct (_ && _); [|done]. revert l Hl.
    apply preserves_bind; [apply in_pipeline_date, dp_close_date|]. by intros ? l Hl. }
  intros ?. eapply triple_bind; [by apply (in_pipeline_date d)|]. intros ?.
  apply triple_get_bind. intros l0. eapply triple_bind; [apply (preserves_lift (of_date d))|]. intros status.
  eapply (triple_bind _ _ (fun v l => of_date d l /\ published_by_day d (ti_now i) v)).
  - intros l Hl. unfold in_pipeline. pose proof (dp_publish_date (ti_now i) status (lp_pipeline l)) as Hd.
    destruct (dp_publish (ti_now i) status (lp_pipeline l)) as [[v|e] p] eqn:E; cbn in Hd.
    + split; [unfold of_date in *; cbn; congruence|]. by exists status, (lp_pipeline l), p.
    + unfold of_date in *. cbn. congruence.
  - intros v. eapply (triple_bind _ _ (fun _ l => of_date d l /\ published_by_day d (ti_now i) v));
      [by intros l Hl|]. intros ?.
    eapply (triple_bind _ _ (fun _ l => of_date d l /\ published_by_day d (ti_now i) v)); [by apply triple_lift; [|intros ? []]|].
    intros ?. by apply triple_ret.
Qed.

Definition at_day (d : date) (t : TradingDayLoop P V) : Prop := td_market_date t = Some d /\ session_of_day t.

Lemma preserves_change (Q : TradingDayLoop P V -> Prop) g :
  (forall t, Q t -> Q (g t)) -> preserves Q (change_loop g).
Proof. intros Hg t Ht. by apply Hg. Qed.

(** A session method that keeps the day of every session keeps what is known of the loop. *)
Lemma in_session_day {A} (m : M (MarketPublishLoop P V) A) absent (Q : A -> Prop) d :
  triple (of_date d) m (fun a l => of_date d l /\ Q a) (of_date d) -> Q absent ->
  triple (at_day d) (in_session m absent) (fun a t => at_day d t /\ Q a) (at_day d).
Proof.
  intros Hm Habs t [Hd Hs]. unfold in_session.
  destruct (td_session t) as [l|] eqn:El; [|split; [split; [done|]|done]; intros l'; congruence].
  assert (of_date d l) as Hl by (specialize (Hs l El); unfold of_date; congruence).
  specialize (Hm l Hl). destruct (m l) as [[a|e] l'].
  - destruct Hm as [Hl' Ha]. split; [|done]. split; [done|]. intros x [= <-]. cbn. rewrite Hd. by f_equal.
  - split; [done|]. intros x [= <-]. cbn. rewrite Hd. by f_equal.
Qed.

Lemma build_today_day i today : input_ok i -> preserves (at_day today) (build_today i today).
Proof.
  intros Hi. unfold build_today.
  apply preserves_bind; [apply preserves_change; by intros t [H1 H2]|]. intros _.
  apply preserves_bind; [apply preserves_change; by intros t [H1 H2]|]. intros _.
  intros t [Hd Hs]. unfold lift, mbind, M_bind.
  destruct (di_build_session i today) as [session|e] eqn:E; [|done]. split; [done|].
  intros l [= ->]. cbn. rewrite Hd. by rewrite (io_build i Hi _ _ E).
Qed.

Lemma roll_over_day i today :
  input_ok i -> triple session_of_day (roll_over i today) (fun _ => at_day today) session_of_day.
Proof.
  intros Hi. unfold roll_over. eapply (triple_bind _ _ (fun _ => session_of_day)).
  { intros t Hs. unfold in_session. destruct (td_session t) as [l|] eqn:El; [|by intros l'; rewrite El].
    pose proof (close_date (dp_market_date (lp_pipeline l)) l eq_refl) as Hc.
    destruct (close l) as [[a|e] l']; intros x [= <-]; rewrite Hc; by apply Hs. }
  intros ?. eapply (triple_bind _ _ (fun _ t => td_session t = None)); [by intros t Ht|]. intros ?.
  eapply (triple_bind _ _ (fun _ => at_day today)); [by intros t Ht; split; [|intros l Hl; cbn in Hl; congruence]|]. intros ?.
  eapply (triple_bind _ _ (fun _ => at_day today)); [by intros t [H1 H2]|]. intros ?.
  destruct (is_trading_day _ _); [|by apply triple_ret].
  eapply triple_weaken; [by apply build_today_day|done|done|by intros t []].
Qed.

Lemma day_tick_day i :
  input_ok i ->
  let now := ti_now (di_tick i) in
  triple session_of_day (day_tick i)
    (fun r t => at_day (market_date_for now) t /\
                forall v, r = Some v -> published_by_day (market_date_for now) now v)
    session_of_day.
Proof.
  intros Hi now. unfold day_tick. fold now. intros t Ht. unfold mbind at 1, M_bind at 1, get_st.
  revert t Ht. assert (forall t0 : TradingDayLoop P V,
    triple (fun t => t = t0 /\ session_of_day t)
      (if negb (bool_decide (Some (market_date_for now) = td_market_date t0))
       then roll_over i (market_date_for now)
       else if negb (is_some (td_session t0)) && reached (td_retry_at t0) now
            then build_today i (market_date_for now) else mret tt)
      (fun _ => at_day (market_date_for now)) session_of_day) as Hfirst.
  { intros t0. case_bool_decide as E; cbn [negb].
    - assert (forall t, t = t0 /\ session_of_day t -> at_day (market_date_for now) t) as Hat
        by (intros t [-> Ht]; split; [by symmetry|done]).
      destruct (_ && _); [|by apply triple_ret].
      eapply triple_weaken; [by apply build_today_day|exact Hat|done|by intros t []].
    - eapply triple_weaken; [by apply roll_over_day|by intros t []|done|done]. }
  intros t Ht. specialize (Hfirst t t (conj eq_refl Ht)). unfold mbind, M_bind.
  match type of Hfirst with match ?m with _ => _ end => destruct m as [[a|e] t1] end; [|done].
  pose proof (in_session_day (view ← tick (di_tick i); mret (Some view)) None
                (fun r => forall v, r = Some v -> published_by_day (market_date_for now) now v)
                (market_date_for now)) as Hin.
  assert (at_day (market_date_for now) t1 -> session_of_day t1) as Hw by by intros [].
  match type of Hin with ?A -> ?B -> _ => assert A as HA end.
  { eapply triple_bind; [apply tick_date, (io_hook i Hi)|]. intros v. apply triple_ret.
    intros l [Hl Hv]. split; [done|]. by intros ? [= <-]. }
  specialize (Hin HA ltac:(done) t1 Hfirst). unfold mbind, M_bind in Hin.
  destruct (in_session _ None t1) as [[r|e] t2]; [done|by destruct Hin].
Qed.

Lemma run_days_day inputs interval t0 :
  trading_day_loop interval = Ok t0 -> Forall input_ok inputs -> session_of_day (run_days inputs t0).
Proof.
  intros Hnew Hinputs. assert (session_of_day t0) as Hs.
  { unfold trading_day_loop in Hnew. by apply res_bind_ok in Hnew as (?&_&[= <-]). }
  clear Hnew. unfold run_days. revert t0 Hs.
  induction Hinputs as [|j inputs Hj _ IH]; intros t1 Hs; [done|]. cbn. apply IH.
  pose proof (day_tick_day j Hj t1 Hs) as Hj'.
  destruct (day_tick j t1) as [[r|e] t2]; [by destruct Hj' as [[_ ?] _]|done].
Qed.
End days.

(** Only today is published.  Whatever the clock says and whichever ticks failed before, a
    tick that returns a view returns what a pipeline of the Korean calendar day of its own
    time has published, and the loop then stands at that day. *)
Theorem publishes_only_today {P U V : Type} `{DayPipelineLaws P U V} inputs (i : DayInput P U V) interval t0 v t :
  trading_day_loop interval = Ok t0 -> Forall input_ok inputs -> input_ok i ->
  day_tick i (run_days inputs t0) = (Ok (Some v), t) ->
  let now := ti_now (di_tick i) in
  published_by_day (market_date_for now) now v /\ td_market_date t = Some (market_date_for now).
Proof.
  intros Hnew Hinputs Hi E now.
  pose proof (run_days_day inputs interval t0 Hnew Hinputs) as Hs.
  pose proof (day_tick_day i Hi _ Hs) as Hd. rewrite E in Hd. destruct Hd as [[Hd _] Hv].
  split; [by apply Hv|done].
Qed.

(** ** Sessions are built with patience *)

Section builds.
Context {P U V : Type} `{DayPipeline P U V}.

(** Neighbours of a list. *)
Inductive chained {A} (R : A -> A -> Prop) : list A -> Prop :=
  | chained_nil : chained R []
  | chained_one a : chained R [a]
  | chained_snoc l a b : chained R (l ++ [a]) -> R a b -> chained R ((l ++ [a]) ++ [b]).

(** Two attempts for the same day are a retry interval apart. *)
Definition patient (a b : datetime * date) : Prop :=
  a.2 = b.2 -> instant a.1 + SESSION_RETRY_INTERVAL <= instant b.1.

Record builds_ok (clock : datetime) (t : TradingDayLoop P V) : Prop := {
  bo_chained : chained patient (td_builds t);
  bo_days : Forall (fun b => b.2 = market_date_for b.1 /\ is_weekend b.2 = false) (td_builds t);
  bo_day : forall d, td_market_date t = Some d -> d <= market_date_for clock;
  bo_last : forall b, last (td_builds t) = Some b ->
    exists d, td_market_date t = Some d /\
      (b.2 = d /\ td_retry_at t = Some (dt_add b.1 SESSION_RETRY_INTERVAL) \/ b.2 < d);
  bo_retry : forall r, td_retry_at t = Some r ->
    exists b, last (td_builds t) = Some b /\ td_market_date t = Some b.2
}.

Lemma chained_add {A} (R : A -> A -> Prop) l b :
  chained R l -> (forall a, last l = Some a -> R a b) -> chained R (l ++ [b]).
Proof.
  intros Hl Hr. destruct Hl as [|a|l a c Hl Hac]; [apply chained_one| |].
  - apply (chained_snoc R [] a b); [apply chained_one|by apply Hr].
  - apply chained_snoc; [by apply chained_snoc|]. apply Hr. by rewrite last_snoc.
Qed.

(** The session does not matter. *)
Lemma builds_ok_same clock t t' :
  td_market_date t' = td_market_date t -> td_retry_at t' = td_retry_at t -> td_builds t' = td_builds t ->
  builds_ok clock t -> builds_ok clock t'.
Proof. intros E1 E2 E3 [H1 H2 H3 H4 H5]. split; rewrite ?E1, ?E2, ?E3; done. Qed.

Lemma builds_ok_later clock now t : dt_le clock now = true -> builds_ok clock t -> builds_ok now t.
Proof.
  intros Hle [H1 H2 H3 H4 H5]. split; try done. intros d Hd. specialize (H3 d Hd).
  apply market_date_mono in Hle. lia.
Qed.

Lemma in_session_builds {A} clock (m : M (MarketPublishLoop P V) A) absent :
  preserves (builds_ok clock) (in_session m absent).
Proof.
  intros t Ht. unfold in_session. destruct (td_session t) as [l|]; [|done].
  destruct (m l) as [[a|e] l']; by apply (builds_ok_same _ t).
Qed.

(** An attempt that keeps the distance from the last one. *)
Lemma build_today_builds (i : DayInput P U V) (t : TradingDayLoop P V) :
  let now := ti_now (di_tick i) in let today := market_date_for now in
  td_market_date t = Some today -> chained patient (td_builds t) ->
  Forall (fun b => b.2 = market_date_for b.1 /\ is_weekend b.2 = false) (td_builds t) ->
  is_weekend today = false ->
  (forall b, last (td_builds t) = Some b -> patient b (now, today)) ->
  match build_today i today t with (_, t') => builds_ok now t' end.
Proof.
  intros now today Hd Hc Hdays Hw Hlast. unfold build_today, mbind, M_bind, change_loop, lift.
  fold now. cbn [td_market_date td_session td_builds set_retry add_build].
  set (t1 := add_build (now, today) _).
  assert (builds_ok now t1) as Ht1.
  { split; cbn.
    - by apply chained_add.
    - apply Forall_app. split; [done|]. by repeat constructor.
    - rewrite Hd. intros d [= <-]. done.
    - intros b. rewrite last_snoc. intros [= <-]. exists today. split; [done|]. by left.
    - intros r _. exists (now, today). by rewrite last_snoc. }
  destruct (di_build_session i today) as [session|e]; [|done]. by apply (builds_ok_same _ t1).
Qed.

Lemma roll_over_builds (i : DayInput P U V) (t : TradingDayLoop P V) :
  let now := ti_now (di_tick i) in let today := market_date_for now in
  builds_ok now t -> Some today <> td_market_date t ->
  match roll_over i today t with (_, t') => builds_ok now t' end.
Proof.
  intros now today Ht Hne. unfold roll_over.
  assert (forall x t1, in_session close tt t = (x, t1) ->
            builds_ok now t1 /\ td_market_date t1 = td_market_date t) as Hclose.
  { intros x t1 E. pose proof (in_session_builds now close tt t Ht) as Hk. rewrite E in Hk.
    split; [by destruct x|]. unfold in_session in E. destruct (td_session t) as [l|]; [|by injection E as _ <-].
    destruct (close l). by injection E as _ <-. }
  unfold mbind at 1, M_bind at 1. destruct (in_session close tt t) as [[[]|e] t1] eqn:E.
  2: { by apply (Hclose _ _ eq_refl). }
  destruct (Hclose _ _ eq_refl) as [[H1 H2 H3 H4 H5] Hd]. clear Hclose E. rewrite <-Hd in Hne.
  unfold mbind, M_bind, change_loop. set (t2 := set_retry None _).
  assert (forall b, last (td_builds t1) = Some b -> b.2 < today) as Hlast.
  { intros b Hb. destruct (H4 b Hb) as (d&Ed&Hd'). specialize (H3 d Ed).
    assert (d <> today) by congruence. unfold today. destruct Hd' as [[-> _]|]; lia. }
  destruct (is_trading_day (di_known_trading_days i) today) eqn:Etr.
  - assert (is_weekend today = false) as Hw.
    { unfold is_trading_day in Etr. by destruct (is_weekend today). }
    apply (build_today_builds i t2); [done..|]. intros b Hb Eb. specialize (Hlast b Hb). cbn in Eb. fold now today in Eb. lia.
  - split; cbn; [done|done| | |done].
    + intros d [= <-]. done.
    + intros b Hb. exists today. split; [done|]. right. by apply Hlast.
Qed.

Lemma day_tick_builds clock (i : DayInput P U V) (t : TradingDayLoop P V) :
  builds_ok clock t -> dt_le clock (ti_now (di_tick i)) = true ->
  builds_ok (ti_now (di_tick i)) (day_tick i t).2.
Proof.
  intros Ht Hle. set (now := ti_now (di_tick i)). apply (builds_ok_later _ now) in Ht; [|done].
  unfold day_tick. fold now. unfold mbind at 1, M_bind at 1, get_st. unfold mbind at 1, M_bind at 1.
  assert (match (if negb (bool_decide (Some (market_date_for now) = td_market_date t))
                 then roll_over i (market_date_for now)
                 else if negb (is_some (td_session t)) && reached (td_retry_at t) now
                      then build_today i (market_date_for now) else mret tt) t with (_, t') => builds_ok now t' end)
    as Hfirst.
  { case_bool_decide as E; cbn [negb]; [|by apply (roll_over_builds i t)].
    destruct (negb (is_some (td_session t)) && reached (td_retry_at t) now) eqn:Er; [|done].
    apply andb_true_iff in Er as [_ Er]. destruct (td_retry_at t) as [r|] eqn:Eretry; [|done]. cbn in Er.
    destruct (bo_retry _ _ Ht r Eretry) as (b&Hb&Ebd).
    destruct (bo_last _ _ Ht b Hb) as (d&Ed&[[Hbd Hr]|Hlt]); [|rewrite Ebd in Ed; injection Ed as <-; lia].
    apply (build_today_builds i t).
    - by symmetry.
    - apply (bo_chained _ _ Ht).
    - apply (bo_days _ _ Ht).
    - pose proof (bo_days _ _ Ht) as Hdays. rewrite Forall_forall in Hdays.
      rewrite Ebd in E. injection E as E. fold now. rewrite E. apply Hdays. by apply last_Some_elem_of.
    - intros b' Hb' _. rewrite Hb in Hb'. injection Hb' as <-. cbn. fold now.
      rewrite Eretry in Hr. injection Hr as ->. rewrite dt_le_Z, Z.leb_le, instant_add in Er. lia. }
  match type of Hfirst with match ?m with _ => _ end => destruct m as [[a|e] t1] end; [|done].
  apply (preserves_run (builds_ok now)); [apply in_session_builds|done].
Qed.
End builds.

(** Sessions are built with patience.  As long as the clock does not go back, a session is
    asked for only on the Korean calendar day of the request, never on a weekend, and two
    requests for the same day are at least the retry interval of five minutes apart,
    whatever the builders, the calendar and the pipelines answer. *)
Theorem sessions_built_patiently {P U V : Type} `{DayPipeline P U V} (inputs : list (DayInput P U V)) interval
    (t0 : TradingDayLoop P V) :
  trading_day_loop interval = Ok t0 ->
  StronglySorted (fun i j => dt_le (ti_now (di_tick i)) (ti_now (di_tick j)) = true) inputs ->
  chained patient (td_builds (run_days inputs t0)) /\
  Forall (fun b => b.2 = market_date_for b.1 /\ is_weekend b.2 = false) (td_builds (run_days inputs t0)).
Proof.
  intros Hnew Hsorted. unfold trading_day_loop in Hnew. apply res_bind_ok in Hnew as (?&_&[= <-]).
  destruct inputs as [|i inputs]; [split; constructor|].
  assert (forall clock (t : TradingDayLoop P V) later, builds_ok clock t ->
            StronglySorted (fun i j => dt_le (ti_now (di_tick i)) (ti_now (di_tick j)) = true) later ->
            Forall (fun i => dt_le clock (ti_now (di_tick i)) = true) later ->
            exists clock', builds_ok clock' (run_days later t)) as Hrun.
  { intros clock t later Ht His. revert clock t Ht.
    induction His as [|j js Hjs IH Hj]; intros clock t Ht Hle; [by exists clock|].
    apply Forall_cons in Hle as [Hle _]. cbn. eapply IH; [by eapply day_tick_builds|done]. }
  destruct (Hrun (ti_now (di_tick i)) (mk_TradingDayLoop None None None []) (i :: inputs)) as (clock&Hok).
  - split; try done; constructor.
  - done.
  - apply StronglySorted_inv in Hsorted as [_ Hs]. constructor; [|done]. rewrite dt_le_Z. apply Z.leb_refl.
  - split; [apply (bo_chained _ _ Hok)|apply (bo_days _ _ Hok)].
Qed.

(** ** The day of a publish loop *)

(** The calls a loop makes to its pipeline, with their outcome. *)
Inductive DayCall :=
  | CallUpdate
  | CallClose (now : datetime) (ok : bool)
  | CallPublish (now : datetime) (status : DataStatus) (ok : bool).

Section traced.
Context {P U V : Type} `{DayPipeline P U V}.

(** A pipeline that notes the calls it gets. *)
Definition noted {A} (m : M P A) (call : bool -> DayCall) : M (P * list DayCall) A := fun p =>
  let '(r, q) := m p.1 in (r, (q, p.2 ++ [call (is_ok r)])).
#[local] Instance traced : DayPipeline (P * list DayCall) U V := {
  dp_market_date p := dp_market_date p.1;
  dp_apply_update u := noted (dp_apply_update u) (fun _ => CallUpdate);
  dp_close_market now := noted (dp_close_market now) (CallClose now);
  dp_publish now status := noted (dp_publish now status) (CallPublish now status)
}.

Definition Loop : Type := MarketPublishLoop (P * list DayCall) V.
Context (open_at close_at : option datetime).

(** The days a loop is meant to have: [closed] says whether the market was closed.  It is
    closed at most once, not before its time, and tried again when it failed; what is
    published from then on is published closed, and never without the close. *)
Inductive day_trace : bool -> list DayCall -> Prop :=
  | trace_start : day_trace false []
  | trace_update closed calls : day_trace closed calls -> day_trace closed (calls ++ [CallUpdate])
  | trace_close calls now ok :
      day_trace false calls -> reached close_at now = true -> day_trace ok (calls ++ [CallClose now ok])
  | trace_publish closed calls now status ok :
      day_trace closed calls -> (reached close_at now = true -> closed = true) ->
      (match open_at with Some t => dt_lt now t = true | None => False end -> status = PREOPEN) ->
      (match open_at with Some t => dt_lt now t = false | None => True end -> reached close_at now = true ->
       status = DATA_CLOSED) ->
      day_trace closed (calls ++ [CallPublish now status ok]).

Definition follows_day (l : Loop) : Prop :=
  lp_market_open_at l = open_at /\ lp_market_close_at l = close_at /\
  day_trace (lp_market_close_applied l) (lp_pipeline l).2.

(** The same, and what is published at [now] may be published. *)
Definition ready (now : datetime) (l : Loop) : Prop :=
  follows_day l /\ (reached close_at now = true -> lp_market_close_applied l = true).

Lemma update_follows u : preserves follows_day (in_pipeline (dp_apply_update u)).
Proof.
  intros l (E1&E2&Ht). unfold in_pipeline. cbn. unfold noted.
  destruct (dp_apply_update u (lp_pipeline l).1) as [[v1|e1] q]; split_and!; try done; by apply trace_update.
Qed.

(** A close at its time, when the market is open. *)
Lemma close_follows now :
  reached close_at now = true ->
  triple (fun l => follows_day l /\ lp_market_close_applied l = false)
    (_ ← in_pipeline (dp_close_market now); change_day (set_close_applied true)) (fun _ => ready now) follows_day.
Proof.
  intros Hr l [(E1&E2&Ht) Hc]. rewrite Hc in Ht.
  unfold mbind, M_bind, in_pipeline, change_day. cbn. unfold noted.
  destruct (dp_close_market now (lp_pipeline l).1) as [[v1|e1] q]; cbn.
  - split; [|done]. split_and!; try done. by apply (trace_close _ now true).
  - split_and!; try done. cbn. rewrite Hc. by apply (trace_close _ now false).
Qed.

Lemma apply_close_follows now :
  triple follows_day (apply_close now) (fun _ => ready now) follows_day.
Proof.
  intros l Hl. pose proof Hl as (E1&E2&Ht). unfold apply_close. rewrite E2.
  destruct (lp_market_close_applied l) eqn:Hc; [by split|]. cbn [negb andb].
  destruct (reached close_at now) eqn:Hr; [by apply close_follows|]. split; [done|congruence].
Qed.

Lemma session_close_follows : preserves follows_day close.
Proof.
  intros l Hl. pose proof Hl as (E1&E2&Ht). unfold close.
  destruct (lp_market_close_applied l) eqn:Hc; [done|]. rewrite E2.
  destruct close_at as [t|] eqn:Et; [|done].
  assert (reached close_at t = true) as Hr by (rewrite Et; cbn; rewrite dt_le_Z; apply Z.leb_refl).
  pose proof (close_follows t Hr l (conj Hl Hc)) as H1.
  match type of H1 with match ?m with _ => _ end => destruct m as [[v1|e1] l'] end; [by destruct H1|done].
Qed.

(** The hook before a publication makes no calls of its own. *)
Definition hook_quiet (i : TickInput (P * list DayCall) U) : Prop :=
  forall p, (ti_before_publish i p).2.2 = p.2.

Lemma tick_follows i : hook_quiet i -> preserves follows_day (tick i).
Proof.
  intros Hi. unfold tick. eapply triple_bind; [apply (preserves_lift follows_day)|]. intros updates.
  eapply triple_bind; [apply (preserves_for_each follows_day); intros u; apply update_follows|]. intros ?.
  eapply triple_bind; [apply apply_close_follows|]. intros ?.
  eapply (triple_bind _ _ (fun _ => ready (ti_now i))).
  { intros l [(E1&E2&Ht) Hr]. unfold in_pipeline. specialize (Hi (lp_pipeline l)).
    destruct (ti_before_publish i (lp_pipeline l)) as [[v1|e1] q]; cbn in Hi.
    - split; [|done]. split_and!; [done|done|]. cbn. by rewrite Hi.
    - split_and!; [done|done|]. cbn. by rewrite Hi. }
  intros ? l Hl. unfold mbind at 1, M_bind at 1, get_st. unfold mbind at 1, M_bind at 1, lift.
  destruct (session_data_status i l) as [status|e] eqn:Es; [|by destruct Hl].
  destruct Hl as [(E1&E2&Ht) Hr]. unfold mbind at 1, M_bind at 1, in_pipeline. cbn [dp_publish traced].
  unfold noted. unfold session_data_status in Es. rewrite E1, E2 in Es.
  assert (forall ok, day_trace (lp_market_close_applied l) ((lp_pipeline l).2 ++ [CallPublish (ti_now i) status ok]))
    as Htrace.
  { intros ok. apply trace_publish; [done|done| |]; clear - Es; destruct open_at as [t|]; try done.
    - intros E. rewrite E in Es. congruence.
    - intros E Hr. rewrite E, Hr in Es. congruence.
    - intros _ Hr. rewrite Hr in Es. congruence. }
  destruct (dp_publish (ti_now i) status (lp_pipeline l).1) as [[v1|e1] q]; cbn.
  - destruct (ti_on_published i) as [u|e]; split_and!; try done; apply Htrace.
  - split_and!; try done. apply Htrace.
Qed.

(** What the owner of a loop does: ticks, whatever the callbacks answer, and closes. *)
Inductive loop_call : Loop -> Loop -> Prop :=
  | call_tick i l : hook_quiet i -> loop_call l (tick i l).2
  | call_close l : loop_call l (close l).2.

(** C13: The close is applied once.  Whatever ticks and closes a loop sees, also ones that
    raise, its calls to the pipeline follow the day: the market is closed at most once,
    never before its time, and tried again after a failure; from the close time on nothing
    is published before the close has succeeded, and everything is published as closed;
    before the opening everything is published as not yet open. *)
Theorem close_applied_once (p : P) interval (l0 l : Loop) :
  publish_loop (p, []) interval open_at close_at = Ok l0 -> rtc loop_call l0 l ->
  day_trace (lp_market_close_applied l) (lp_pipeline l).2.
Proof.
  intros Hnew Hrun. apply res_bind_ok in Hnew as (?&_&[= <-]).
  assert (follows_day l) as (_&_&Ht); [|exact Ht].
  assert (follows_day (mk_MarketPublishLoop (p, []) open_at close_at false [])) as H0
    by (split_and!; [done|done|apply trace_start]).
  induction Hrun as [|l1 l2 l3 Hcall _ IH]; [done|]. apply IH. clear IH.
  destruct Hcall as [i l1 Hi|l1].
  - by apply preserves_run; [apply tick_follows|].
  - by apply preserves_run; [apply session_close_follows|].
Qed.
End traced.

(** ** The pipeline of a market day *)

#[export] Instance market_pipeline {H} `{IntradayHistory H} :
    DayPipeline (PipelineConfig * MarketDataPipeline H) StockRealtimeUpdate PublishedView :=
  let on {A} (m : PipelineConfig -> M (MarketDataPipeline H) A) : M (PipelineConfig * MarketDataPipeline H) A :=
    fun p => let '(r, q) := m p.1 p.2 in (r, (p.1, q)) in
  {|
    dp_market_date p := pc_market_date p.1;
    dp_apply_update u := _ ← on (fun cfg => pipeline_apply_update cfg u); mret tt;
    dp_close_market now := on (fun cfg => close_market cfg now);
    dp_publish now status := on (fun cfg => publish cfg now status)
  |}.

#[export] Instance market_pipeline_laws {H} `{IntradayHistory H} :
  DayPipelineLaws (PipelineConfig * MarketDataPipeline H) StockRealtimeUpdate PublishedView.
Proof.
  split; intros; cbn.
  - unfold mbind, M_bind. by destruct (pipeline_apply_update p.1 u p.2) as [[]].
  - by destruct (close_market p.1 now p.2).
  - by destruct (publish p.1 now status p.2).
Qed.

(** ** A concrete day *)

Definition DemoPipeline : Type := PipelineConfig * MarketDataPipeline History.

(** Nothing arrives, and the hooks do nothing. *)
Definition demo_tick {P} (now : datetime) : TickInput P StockRealtimeUpdate :=
  mk_TickInput now (Ok []) (Ok LIVE) (mret tt) (Ok tt).
Definition demo_session : MarketPublishLoop DemoPipeline PublishedView :=
  mk_MarketPublishLoop (demo_day_cfg, demo_pipeline) (Some (demo_at 0)) (Some (demo_at 600)) false [].
Definition demo_day_input (now : datetime) (session : option (MarketPublishLoop DemoPipeline PublishedView))
    : DayInput DemoPipeline StockRealtimeUpdate PublishedView :=
  mk_DayInput (demo_tick now) (fun d => if decide (d = demo_day) then Ok session else Ok None) (fun _ => None).
Definition demo_days : TradingDayLoop DemoPipeline PublishedView := mk_TradingDayLoop None None None [].

Lemma demo_input_ok now session :
  session = None \/ session = Some demo_session -> input_ok (demo_day_input now session).
Proof.
  intros Hs. split; [|done]. intros d l E. cbn in E. case_decide as Ed; [|done]. injection E as E.
  destruct Hs as [-> | ->]; [done|]. injection E as <-. by rewrite Ed.
Qed.

Lemma demo_day_tick_ok :
  match (day_tick (demo_day_input (demo_at 30) (Some demo_session)) demo_days).1 with Ok (Some _) => true | _ => false end
  = true.
Proof. vm_compute. reflexivity. Qed.

(** The session of the day is built and its first board published. *)
Lemma publishes_only_today_witness :
  exists v t, day_tick (demo_day_input (demo_at 30) (Some demo_session)) demo_days = (Ok (Some v), t) /\
    published_by_day demo_day (demo_at 30) v /\ td_market_date t = Some demo_day.
Proof.
  destruct (day_tick (demo_day_input (demo_at 30) (Some demo_session)) demo_days) as [[[v|]|e] t] eqn:E;
    [|pose proof demo_day_tick_ok as Hok; rewrite E in Hok; discriminate Hok..].
  destruct (publishes_only_today [] (demo_day_input (demo_at 30) (Some demo_session)) (seconds 10) demo_days v t)
    as [Hp Hd]; [reflexivity|constructor|by apply demo_input_ok; right|exact E|].
  exists v, t. split_and!; [reflexivity|exact Hp|exact Hd].
Defined.

(** No session can be built: the second attempt is too early, the third is made. *)
Definition demo_waiting : list (DayInput DemoPipeline StockRealtimeUpdate PublishedView) :=
  [demo_day_input (demo_at 0) None; demo_day_input (demo_at 60) None; demo_day_input (demo_at 400) None].

Lemma sessions_built_patiently_witness :
  td_builds (run_days demo_waiting demo_days) = [(demo_at 0, demo_day); (demo_at 400, demo_day)] /\
  chained patient (td_builds (run_days demo_waiting demo_days)).
Proof.
  split; [vm_compute; reflexivity|].
  apply (sessions_built_patiently demo_waiting (seconds 10) demo_days); [reflexivity|].
  unfold demo_waiting. repeat (apply SSorted_cons || apply SSorted_nil || apply Forall_cons || apply List.Forall_nil || split);
    vm_compute; reflexivity.
Defined.

(** A tick in the session, the tick after its end, and the close of the owner. *)
Definition demo_loop : MarketPublishLoop (DemoPipeline * list DayCall) PublishedView :=
  mk_MarketPublishLoop ((demo_day_cfg, demo_pipeline), []) (Some (demo_at 0)) (Some (demo_at 600)) false [].
Definition demo_loop_open : MarketPublishLoop (DemoPipeline * list DayCall) PublishedView :=
  (tick (H:=traced) (demo_tick (demo_at 30)) demo_loop).2.
Definition demo_loop_after : MarketPublishLoop (DemoPipeline * list DayCall) PublishedView :=
  (tick (H:=traced) (demo_tick (demo_at 700)) demo_loop_open).2.
Definition demo_loop_end : MarketPublishLoop (DemoPipeline * list DayCall) PublishedView :=
  (close (H:=traced) demo_loop_after).2.

Lemma demo_loop_calls :
  (lp_pipeline demo_loop_end).2 =
  [CallPublish (demo_at 30) LIVE true; CallClose (demo_at 700) true; CallPublish (demo_at 700) DATA_CLOSED true].
Proof. vm_compute. reflexivity. Qed.

Lemma close_applied_once_witness :
  day_trace (Some (demo_at 0)) (Some (demo_at 600)) (lp_market_close_applied demo_loop_end)
    [CallPublish (demo_at 30) LIVE true; CallClose (demo_at 700) true; CallPublish (demo_at 700) DATA_CLOSED true].
Proof.
  rewrite <-demo_loop_calls.
  apply (close_applied_once (Some (demo_at 0)) (Some (demo_at 600)) (demo_day_cfg, demo_pipeline) (seconds 10) demo_loop);
    [reflexivity|].
  apply (rtc_l _ _ demo_loop_open); [exact (call_tick (demo_tick (demo_at 30)) demo_loop (fun _ => eq_refl))|].
  apply (rtc_l _ _ demo_loop_after); [exact (call_tick (demo_tick (demo_at 700)) demo_loop_open (fun _ => eq_refl))|].
  apply rtc_once. exact (call_close demo_loop_after).
Defined.
