(* ===== verification/Operator.v ===== *)
(** [packages/operator]: the operator console, its repository, the audit trail and the
    pages of its lists. *)
From stdpp Require Import pretty.
From S2P Require Import Prelude Sha256 PyTime PyDecimal PyFloat Json.
#[local] Open Scope Z_scope.

(** ** Models *)

(* @ packages/operator/models.py 9-15 JobStatus *)
Inductive JobStatus :=
  JOB_RUNNING | JOB_SUCCEEDED | JOB_PARTIAL | JOB_RATE_LIMITED | JOB_AUTH_REQUIRED | JOB_FAILED.
#[export] Instance JobStatus_eq_dec : EqDecision JobStatus.
Proof. solve_decision. Defined.

(* @ packages/operator/models.py 18-20 ReviewStatus *)
Inductive ReviewStatus := REVIEW_PENDING | REVIEW_RESOLVED.
#[export] Instance ReviewStatus_eq_dec : EqDecision ReviewStatus.
Proof. solve_decision. Defined.

(* @ packages/operator/models.py 23-26 InfostockAuthState *)
Inductive InfostockAuthState := AUTH_READY | AUTH_REQUIRED | AUTH_UNKNOWN.

(* @ packages/operator/models.py 30-32 RETRYABLE_JOB_STATUSES *)
Definition RETRYABLE_JOB_STATUSES : list JobStatus := [JOB_FAILED; JOB_RATE_LIMITED; JOB_AUTH_REQUIRED].
(* @ packages/operator/models.py 33-33 RESUMABLE_JOB_STATUSES *)
Definition RESUMABLE_JOB_STATUSES : list JobStatus := [JOB_PARTIAL].

(* @ packages/operator/models.py 36-50 OperatorJob *)
Record OperatorJob := mk_OperatorJob {
  oj_run_id : string;
  oj_job_type : string;
  oj_status : JobStatus;
  oj_version : Z;
  oj_last_changed_at : datetime;
  oj_error_code : option string;
  oj_internal_context : dict string json
}.

(* @ packages/operator/models.py 53-63 OperatorReview *)
Record OperatorReview := mk_OperatorReview {
  ov_review_id : string;
  ov_review_type : string;
  ov_review_status : ReviewStatus;
  ov_target_id : string;
  ov_reason_code : string;
  ov_version : Z;
  ov_created_at : datetime;
  ov_resolved_at : option datetime;
  ov_internal_context : dict string json
}.

(* @ packages/operator/models.py 66-78 OperatorAuditEntry *)
Record OperatorAuditEntry := mk_OperatorAuditEntry {
  oa_audit_id : string;
  oa_actor_id : string;
  oa_occurred_at : datetime;
  oa_action : string;
  oa_target_id : string;
  oa_reason_code : string;
  oa_reason : string;
  oa_before_revision : option Z;
  oa_after_revision : option Z
}.

(* @ packages/operator/models.py 81-87 InfostockAuthStatus *)
Record InfostockAuthStatus := mk_InfostockAuthStatus {
  ia_status : InfostockAuthState;
  ia_last_authenticated_at : option datetime;
  ia_runbook_key : option string
}.

(* @ packages/operator/models.py 90-99 OperatorCommand *)
Record OperatorCommand := mk_OperatorCommand {
  oc_actor_id : string;
  oc_idempotency_key : string;
  oc_action : string;
  oc_target_id : string;
  oc_reason_code : string;
  oc_reason : string;
  oc_expected_version : Z;
  oc_resolution : option (dict string json)
}.

(* @ packages/operator/models.py 102-109 OperatorCommandReceipt *)
Record OperatorCommandReceipt := mk_OperatorCommandReceipt {
  ocr_actor_id : string;
  ocr_idempotency_key : string;
  ocr_fingerprint : string;
  ocr_audit : OperatorAuditEntry
}.

(* @ packages/operator/models.py 112-115 OperatorCommandResult *)
Record OperatorCommandResult := mk_OperatorCommandResult {
  ore_audit : OperatorAuditEntry;
  ore_replayed : bool
}.

(* @ packages/operator/models.py 118-123 OperatorPage *)
Record OperatorPage (A : Type) := mk_OperatorPage {
  pg_items : list A;
  pg_next_cursor : option string;
  pg_has_more : bool;
  pg_limit : Z
}.
Arguments mk_OperatorPage {A} _ _ _ _.
Arguments pg_items {A} _.
Arguments pg_next_cursor {A} _.
Arguments pg_has_more {A} _.
Arguments pg_limit {A} _.

(** ** Pages *)

(** [l[start:stop]] for [0 <= start]. *)
Definition py_slice {A} (l : list A) (start stop : Z) : list A :=
  let stop := if stop <? 0 then stop + Z.of_nat (length l) else stop in
  take (Z.to_nat (stop - start)) (drop (Z.to_nat start) l).

(** [l.index(x)] of an [x] in [l]. *)
Fixpoint index_of (x : string) (l : list string) : Z :=
  match l with
  | [] => 0
  | y :: l => if decide (x = y) then 0 else 1 + index_of x l
  end.

(* @ packages/operator/repository.py 259-277 _paginate *)
Definition paginate {A} (ordered : list A) (cursor : option string) (limit : Z) (key : A -> string)
    : res (OperatorPage A) :=
  start ← match cursor with
          | None => Ok 0
          | Some c =>
              let identifiers := key <$> ordered in
              _ ← raise_if (negb (bool_decide (c ∈ identifiers))) UnknownOperatorCursor;
              Ok (index_of c identifiers + 1)
          end;
  let window := py_slice ordered start (start + limit) in
  let has_more := start + limit <? Z.of_nat (length ordered) in
  let next_cursor := if has_more then key <$> last window else None in
  Ok (mk_OperatorPage window next_cursor has_more limit).

(** ** The repository *)

(* @ packages/operator/repository.py 20-87 OperatorRepository *)
Class OperatorRepository (S : Type) := {
  list_jobs : option JobStatus -> option string -> Z -> M S (OperatorPage OperatorJob);
  get_job : string -> M S (option OperatorJob);
  start_job_attempt : string -> datetime -> M S OperatorJob;
  list_reviews : option string -> option ReviewStatus -> option string -> Z ->
                 M S (OperatorPage OperatorReview);
  get_review : string -> M S (option OperatorReview);
  resolve_review : string -> dict string json -> datetime -> M S OperatorReview;
  append_audit : string -> datetime -> string -> string -> string -> string -> option Z -> option Z ->
                 M S OperatorAuditEntry;
  list_audit : option string -> Z -> M S (OperatorPage OperatorAuditEntry);
  find_receipt : string -> string -> M S (option OperatorCommandReceipt);
  store_receipt : OperatorCommandReceipt -> M S unit;
  infostock_auth_status : M S InfostockAuthStatus
}.

(* @ packages/operator/repository.py 90-111 InMemoryOperatorRepository *)
Record InMemoryOperatorRepository := mk_InMemoryOperatorRepository {
  op_jobs : dict string OperatorJob;
  op_reviews : dict string OperatorReview;
  op_audit : list OperatorAuditEntry;
  op_receipts : dict (string * string) OperatorCommandReceipt;
  op_infostock_auth : InfostockAuthStatus
}.
#[local] Notation Repo := InMemoryOperatorRepository.

Definition set_jobs x (r : Repo) : Repo :=
  mk_InMemoryOperatorRepository x (op_reviews r) (op_audit r) (op_receipts r) (op_infostock_auth r).
Definition set_reviews x (r : Repo) : Repo :=
  mk_InMemoryOperatorRepository (op_jobs r) x (op_audit r) (op_receipts r) (op_infostock_auth r).
Definition set_audit x (r : Repo) : Repo :=
  mk_InMemoryOperatorRepository (op_jobs r) (op_reviews r) x (op_receipts r) (op_infostock_auth r).
Definition set_op_receipts x (r : Repo) : Repo :=
  mk_InMemoryOperatorRepository (op_jobs r) (op_reviews r) (op_audit r) x (op_infostock_auth r).

(* @ packages/operator/repository.py 97-111 InMemoryOperatorRepository.__init__ *)
Definition InMemoryOperatorRepository_init (jobs : list OperatorJob) (reviews : list OperatorReview)
    (infostock_auth : option InfostockAuthStatus) : Repo :=
  mk_InMemoryOperatorRepository
    (fold_left (fun d job => dset (oj_run_id job) job d) jobs [])
    (fold_left (fun d review => dset (ov_review_id review) review d) reviews [])
    [] []
    match infostock_auth with
    | Some s => s
    | None => mk_InfostockAuthStatus AUTH_UNKNOWN None None
    end.

(* @ packages/operator/repository.py 113-114 InMemoryOperatorRepository.record_job *)
Definition record_job (job : OperatorJob) : M Repo unit := fun r =>
  (Ok tt, set_jobs (dset (oj_run_id job) job (op_jobs r)) r).

(* @ packages/operator/repository.py 116-117 InMemoryOperatorRepository.open_review *)
Definition open_review (review : OperatorReview) : M Repo unit := fun r =>
  (Ok tt, set_reviews (dset (ov_review_id review) review (op_reviews r)) r).

(* @ packages/operator/repository.py 119-120 InMemoryOperatorRepository.set_infostock_auth_status *)
Definition set_infostock_auth_status (status : InfostockAuthStatus) : M Repo unit := fun r =>
  (Ok tt, mk_InMemoryOperatorRepository (op_jobs r) (op_reviews r) (op_audit r) (op_receipts r) status).

(* @ packages/operator/repository.py 129-132 InMemoryOperatorRepository.list_jobs *)
Definition ordered_jobs (status : option JobStatus) (r : Repo) : list OperatorJob :=
  sorted_by (fun job => (- timestamp (oj_last_changed_at job), oj_run_id job))
    (List.filter (fun job => match status with None => true | Some s => bool_decide (oj_status job = s) end)
       (dvalues (op_jobs r))).

(* @ packages/operator/repository.py 122-133 InMemoryOperatorRepository.list_jobs *)
Definition mem_list_jobs (status : option JobStatus) (cursor : option string) (limit : Z)
    : M Repo (OperatorPage OperatorJob) := fun r =>
  (paginate (ordered_jobs status r) cursor limit oj_run_id, r).

(* @ packages/operator/repository.py 135-136 InMemoryOperatorRepository.get_job *)
Definition mem_get_job (run_id : string) : M Repo (option OperatorJob) := fun r =>
  (Ok (dget run_id (op_jobs r)), r).

(* @ packages/operator/repository.py 140-148 InMemoryOperatorRepository.start_job_attempt *)
Definition started_job (job : OperatorJob) (now : datetime) : OperatorJob :=
  mk_OperatorJob (oj_run_id job) (oj_job_type job) JOB_RUNNING (oj_version job + 1) now None
    (oj_internal_context job).

(* @ packages/operator/repository.py 138-150 InMemoryOperatorRepository.start_job_attempt *)
Definition mem_start_job_attempt (run_id : string) (now : datetime) : M Repo OperatorJob := fun r =>
  match dget run_id (op_jobs r) with
  | None => (Raise KeyError, r)
  | Some job => (Ok (started_job job now), set_jobs (dset run_id (started_job job now) (op_jobs r)) r)
  end.

(* @ packages/operator/repository.py 160-168 InMemoryOperatorRepository.list_reviews *)
Definition ordered_reviews (review_type : option string) (review_status : option ReviewStatus)
    (r : Repo) : list OperatorReview :=
  sorted_by (fun review => (ov_created_at review, ov_review_id review))
    (List.filter (fun review =>
         match review_type with None => true | Some t => bool_decide (ov_review_type review = t) end &&
         match review_status with None => true | Some s => bool_decide (ov_review_status review = s) end)
       (dvalues (op_reviews r))).

(* @ packages/operator/repository.py 152-174 InMemoryOperatorRepository.list_reviews *)
Definition mem_list_reviews (review_type : option string) (review_status : option ReviewStatus)
    (cursor : option string) (limit : Z) : M Repo (OperatorPage OperatorReview) := fun r =>
  (paginate (ordered_reviews review_type review_status r) cursor limit ov_review_id, r).

(* @ packages/operator/repository.py 176-177 InMemoryOperatorRepository.get_review *)
Definition mem_get_review (review_id : string) : M Repo (option OperatorReview) := fun r =>
  (Ok (dget review_id (op_reviews r)), r).

(* @ packages/operator/repository.py 187-197 InMemoryOperatorRepository.resolve_review *)
Definition resolved_review (review : OperatorReview) (resolution : dict string json) (now : datetime)
    : OperatorReview :=
  mk_OperatorReview (ov_review_id review) (ov_review_type review) REVIEW_RESOLVED
    (ov_target_id review) (ov_reason_code review) (ov_version review + 1) (ov_created_at review)
    (Some now) (dset "resolution" (JObj resolution) (ov_internal_context review)).

(* @ packages/operator/repository.py 179-199 InMemoryOperatorRepository.resolve_review *)
Definition mem_resolve_review (review_id : string) (resolution : dict string json) (now : datetime)
    : M Repo OperatorReview := fun r =>
  match dget review_id (op_reviews r) with
  | None => (Raise KeyError, r)
  | Some review =>
      (Ok (resolved_review review resolution now),
       set_reviews (dset review_id (resolved_review review resolution now) (op_reviews r)) r)
  end.

(** [f"{n:08d}"] *)
Definition pad8 (n : Z) : string :=
  let digits := str_Z n in
  String.string_of_list_ascii (replicate (8 - String.length digits) (chr_N 48)) +:+ digits.

(* @ packages/operator/repository.py 214-214 InMemoryOperatorRepository.append_audit *)
Definition audit_id (n : Z) : string := "aud_" +:+ pad8 n.

(* @ packages/operator/repository.py 201-225 InMemoryOperatorRepository.append_audit *)
Definition mem_append_audit (actor_id : string) (occurred_at : datetime)
    (action target_id reason_code reason : string) (before_revision after_revision : option Z)
    : M Repo OperatorAuditEntry := fun r =>
  let entry := mk_OperatorAuditEntry (audit_id (Z.of_nat (length (op_audit r)) + 1)) actor_id
                 occurred_at action target_id reason_code reason before_revision after_revision in
  (Ok entry, set_audit (op_audit r ++ [entry]) r).

(* @ packages/operator/repository.py 233-236 InMemoryOperatorRepository.list_audit *)
Definition ordered_audit (r : Repo) : list OperatorAuditEntry :=
  sorted_by (fun entry => (- timestamp (oa_occurred_at entry), oa_audit_id entry)) (op_audit r).

(* @ packages/operator/repository.py 227-242 InMemoryOperatorRepository.list_audit *)
Definition mem_list_audit (cursor : option string) (limit : Z)
    : M Repo (OperatorPage OperatorAuditEntry) := fun r =>
  (paginate (ordered_audit r) cursor limit oa_audit_id, r).

(* @ packages/operator/repository.py 244-250 InMemoryOperatorRepository.find_receipt *)
Definition mem_find_receipt (actor_id idempotency_key : string)
    : M Repo (option OperatorCommandReceipt) := fun r =>
  (Ok (dget (actor_id, idempotency_key) (op_receipts r)), r).

(* @ packages/operator/repository.py 252-253 InMemoryOperatorRepository.store_receipt *)
Definition mem_store_receipt (receipt : OperatorCommandReceipt) : M Repo unit := fun r =>
  (Ok tt, set_op_receipts (dset (ocr_actor_id receipt, ocr_idempotency_key receipt) receipt
                             (op_receipts r)) r).

(* @ packages/operator/repository.py 255-256 InMemoryOperatorRepository.infostock_auth_status *)
Definition mem_infostock_auth_status : M Repo InfostockAuthStatus := fun r =>
  (Ok (op_infostock_auth r), r).

#[export] Instance memory_operator_repository : OperatorRepository Repo := {
  list_jobs := mem_list_jobs;
  get_job := mem_get_job;
  start_job_attempt := mem_start_job_attempt;
  list_reviews := mem_list_reviews;
  get_review := mem_get_review;
  resolve_review := mem_resolve_review;
  append_audit := mem_append_audit;
  list_audit := mem_list_audit;
  find_receipt := mem_find_receipt;
  store_receipt := mem_store_receipt;
  infostock_auth_status := mem_infostock_auth_status
}.

(** ** The console *)

(* @ packages/operator/service.py 208-209 _stable *)
Definition stable (value : option (dict string json)) : json :=
  match value with None => JNull | Some d => JObj (sorted_by fst d) end.

(* @ packages/operator/service.py 193-205 _fingerprint *)
Definition operator_fingerprint (command : OperatorCommand) : string :=
  sha256_hex (dumps false (JObj
    [("action", JStr (oc_action command));
     ("expectedVersion", JNum (oc_expected_version command));
     ("reason", JStr (oc_reason command));
     ("reasonCode", JStr (oc_reason_code command));
     ("resolution", stable (oc_resolution command));
     ("targetId", JStr (oc_target_id command))])).

Section console.
Context {S : Type} `{OperatorRepository S}.

(* @ packages/operator/service.py 54-58 OperatorConsole.get_job *)
Definition console_get_job (run_id : string) : M S OperatorJob :=
  job ← get_job run_id;
  match job with None => throw OperatorTargetNotFound | Some job => mret job end.

(* @ packages/operator/service.py 75-79 OperatorConsole.get_review *)
Definition console_get_review (review_id : string) : M S OperatorReview :=
  review ← get_review review_id;
  match review with None => throw OperatorTargetNotFound | Some review => mret review end.

(* @ packages/operator/service.py 153-162 OperatorConsole._replay *)
Definition replay (command : OperatorCommand) : M S (option OperatorCommandResult) :=
  receipt ← find_receipt (oc_actor_id command) (oc_idempotency_key command);
  match receipt with
  | None => mret None
  | Some receipt =>
      if negb (bool_decide (ocr_fingerprint receipt = operator_fingerprint command))
      then throw (OperatorCommandRejected "COMMAND_NOT_ALLOWED")
      else mret (Some (mk_OperatorCommandResult (ocr_audit receipt) true))
  end.

(* @ packages/operator/service.py 164-190 OperatorConsole._record *)
Definition record_command (command : OperatorCommand) (now : datetime)
    (before_revision after_revision : option Z) : M S OperatorCommandResult :=
  audit ← append_audit (oc_actor_id command) now (oc_action command) (oc_target_id command)
            (oc_reason_code command) (oc_reason command) before_revision after_revision;
  _ ← store_receipt (mk_OperatorCommandReceipt (oc_actor_id command) (oc_idempotency_key command)
                       (operator_fingerprint command) audit);
  mret (mk_OperatorCommandResult audit false).

(* @ packages/operator/service.py 98-121 OperatorConsole._run_job_command *)
Definition run_job_command (command : OperatorCommand) (now : datetime) (allowed : list JobStatus)
    : M S OperatorCommandResult :=
  replayed ← replay command;
  match replayed with
  | Some result => mret result
  | None =>
      job ← get_job (oc_target_id command);
      match job with
      | None => throw OperatorTargetNotFound
      | Some job =>
          if negb (oj_version job =? oc_expected_version command)
          then throw (OperatorCommandRejected "STALE_VERSION")
          else if negb (bool_decide (oj_status job ∈ allowed))
          then throw (OperatorCommandRejected "COMMAND_NOT_ALLOWED")
          else
            started ← start_job_attempt (oj_run_id job) now;
            record_command command now (Some (oj_version job)) (Some (oj_version started))
      end
  end.

(* @ packages/operator/service.py 92-93 OperatorConsole.retry_job *)
Definition retry_job (command : OperatorCommand) (now : datetime) : M S OperatorCommandResult :=
  run_job_command command now RETRYABLE_JOB_STATUSES.

(* @ packages/operator/service.py 95-96 OperatorConsole.resume_job *)
Definition resume_job (command : OperatorCommand) (now : datetime) : M S OperatorCommandResult :=
  run_job_command command now RESUMABLE_JOB_STATUSES.

(* @ packages/operator/service.py 123-151 OperatorConsole.resolve_review *)
Definition console_resolve_review (command : OperatorCommand) (now : datetime)
    : M S OperatorCommandResult :=
  replayed ← replay command;
  match replayed with
  | Some result => mret result
  | None =>
      match oc_resolution command with
      | None => throw (OperatorCommandRejected "COMMAND_NOT_ALLOWED")
      | Some resolution =>
          review ← get_review (oc_target_id command);
          match review with
          | None => throw OperatorTargetNotFound
          | Some review =>
              if negb (ov_version review =? oc_expected_version command)
              then throw (OperatorCommandRejected "STALE_VERSION")
              else if negb (bool_decide (ov_review_status review = REVIEW_PENDING))
              then throw (OperatorCommandRejected "COMMAND_NOT_ALLOWED")
              else
                resolved ← resolve_review (ov_review_id review) resolution now;
                record_command command now (Some (ov_version review)) (Some (ov_version resolved))
          end
      end
  end.
End console.

(** ** Following the pages *)

(** The items a client sees that asks for page after page until there is no cursor. *)
Fixpoint follow_pages {A} (fetch : option string -> res (OperatorPage A)) (fuel : nat)
    (cursor : option string) : res (list A) :=
  match fuel with
  | O => Raise OutOfFuel
  | S fuel =>
      page ← fetch cursor;
      match pg_next_cursor page with
      | None => Ok (pg_items page)
      | Some c => rest ← follow_pages fetch fuel (Some c); Ok (pg_items page ++ rest)
      end
  end.

Lemma index_of_key {A} (key : A -> string) pre x l :
  NoDup (key <$> pre ++ x :: l) -> index_of (key x) (key <$> pre ++ x :: l) = Z.of_nat (length pre).
Proof.
  induction pre as [|y pre IH]; intros Hnd; simpl.
  - by rewrite decide_True.
  - change (key <$> (y :: pre) ++ x :: l) with (key y :: (key <$> pre ++ x :: l)) in Hnd.
    apply NoDup_cons in Hnd as [Hy Hnd]. rewrite decide_False.
    + change (list_fmap _ _ key (pre ++ x :: l)) with (key <$> pre ++ x :: l).
      rewrite IH by done. lia.
    + intros E. apply Hy. rewrite <-E, fmap_app, elem_of_app. right. left.
Qed.

(** The page that starts after the first [n] items. *)
Definition page_from {A} (ordered : list A) (n : nat) (limit : Z) (key : A -> string) : OperatorPage A :=
  let window := take (Z.to_nat limit) (drop n ordered) in
  let has_more := Z.of_nat n + limit <? Z.of_nat (length ordered) in
  mk_OperatorPage window (if has_more then key <$> last window else None) has_more limit.

Lemma paginate_first {A} (ordered : list A) limit key :
  1 <= limit -> paginate ordered None limit key = Ok (page_from ordered 0 limit key).
Proof.
  intros Hl. unfold paginate, py_slice, page_from. cbn [mbind res_bind].
  replace (0 + limit <? 0) with false by (symmetry; lia).
  by rewrite Z.add_0_l, Z.sub_0_r.
Qed.

Lemma paginate_after {A} (pre : list A) x l limit key :
  1 <= limit -> NoDup (key <$> pre ++ x :: l) ->
  paginate (pre ++ x :: l) (Some (key x)) limit key = Ok (page_from (pre ++ x :: l) (S (length pre)) limit key).
Proof.
  intros Hl Hnd. unfold paginate. rewrite bool_decide_eq_true_2.
  2: { rewrite fmap_app, elem_of_app. right. left. }
  cbn [negb raise_if mbind res_bind]. rewrite index_of_key by done.
  unfold py_slice, page_from.
  assert (Z.of_nat (length pre) + 1 + limit <? 0 = false) as ->
    by (rewrite Z.ltb_ge; lia).
  replace (Z.of_nat (length pre) + 1 + limit - (Z.of_nat (length pre) + 1)) with limit by lia.

  replace (Z.to_nat (Z.of_nat (length pre) + 1)) with (S (length pre)) by lia.
  by replace (Z.of_nat (S (length pre))) with (Z.of_nat (length pre) + 1) by lia.
Qed.

Lemma follow_page {A} (ordered : list A) key limit fuel n cursor :
  1 <= limit -> NoDup (key <$> ordered) -> (length ordered - n < fuel)%nat ->
  paginate ordered cursor limit key = Ok (page_from ordered n limit key) ->
  follow_pages (fun c => paginate ordered c limit key) fuel cursor = Ok (drop n ordered).
Proof.
  intros Hl Hnd. revert n cursor. induction fuel as [|fuel IH]; intros n cursor Hf Hp; [lia|].
  cbn [follow_pages]. rewrite Hp. cbn [mbind res_bind page_from pg_next_cursor pg_items].
  destruct (Z.ltb_spec (Z.of_nat n + limit) (Z.of_nat (length ordered))) as [Hlt|Hge].
  - set (m := (n + Z.to_nat limit)%nat). assert (m < length ordered)%nat as Hm by lia.
    assert (exists pre x l, ordered = pre ++ x :: l /\ S (length pre) = m) as (pre&x&l&E&Em).
    { destruct (lookup_lt_is_Some_2 ordered (pred m)) as [x Hx]; [lia|].
      exists (take (pred m) ordered), x, (drop m ordered). split.
      - rewrite <-(take_drop_middle ordered (pred m) x Hx) at 1. do 2 f_equal.
        by replace (S (pred m)) with m by lia.
      - rewrite length_take. lia. }
    assert (last (take (Z.to_nat limit) (drop n ordered)) = Some x) as ->.
    { rewrite last_lookup, length_take, length_drop, lookup_take_lt, lookup_drop by lia.
      replace (n + pred (Z.to_nat limit `min` (length ordered - n)))%nat with (length pre) by lia.
      rewrite E. by apply list_lookup_middle. }
    cbn [fmap option_fmap option_map]. rewrite (IH m); [|lia|].
    + cbn [mbind res_bind]. f_equal.
      rewrite <-(take_drop (Z.to_nat limit) (drop n ordered)) at 2. by rewrite drop_drop.
    + rewrite <-Em. rewrite E in Hnd |- *. by apply paginate_after.
  - f_equal. apply take_ge. rewrite length_drop. lia.
Qed.

Lemma follow_all {A} (ordered : list A) key limit :
  1 <= limit -> NoDup (key <$> ordered) ->
  follow_pages (fun c => paginate ordered c limit key) (S (length ordered)) None = Ok ordered.
Proof.
  intros Hl Hnd. apply (follow_page ordered key limit _ 0); [done|done|lia|by apply paginate_first].
Qed.

(** ** Audit ids *)

Lemma pretty_N_go_first x s :
  (0 < x)%N -> exists n s', pretty_N_go x s = String.String (pretty_N_char n) s' /\ (0 < n < 10)%N.
Proof.
  revert s. induction (N.lt_wf_0 x) as [x _ IH]. intros s Hx. rewrite pretty_N_go_step by done.
  destruct (decide (x < 10)%N) as [Hlt|Hge].
  - rewrite N.div_small, pretty_N_go_0, N.mod_small by done. by exists x, s.
  - apply IH; [by apply N.div_lt|]. apply N.div_str_pos. lia.
Qed.

(** The digits of a positive number do not start with a zero. *)
Lemma str_Z_first n :
  0 < n -> exists c s, str_Z n = String.String c s /\ c <> chr_N 48.
Proof.
  intros Hn. destruct n as [|p|p]; try lia.
  destruct (pretty_N_go_first (N.pos p) "") as (d&s&E&Hd); [lia|].
  exists (pretty_N_char d), s. split; [exact E|].
  assert (forall m, (m < 10)%N -> m <> 0%N -> pretty_N_char m <> chr_N 48) as H.
  { intros m Hm Hm0. assert (m ∈ [1;2;3;4;5;6;7;8;9]%N) as Hin.
    { rewrite !elem_of_cons. lia. }
    clear Hm. repeat (apply elem_of_cons in Hin as [->|Hin]; [done|]). by apply not_elem_of_nil in Hin. }
  apply H; lia.
Qed.

Lemma zeros_inj a b s t c d :
  c <> chr_N 48 -> d <> chr_N 48 ->
  String.string_of_list_ascii (replicate a (chr_N 48)) +:+ String.String c s =
  String.string_of_list_ascii (replicate b (chr_N 48)) +:+ String.String d t ->
  String.String c s = String.String d t.
Proof.
  intros Hc Hd. revert b; induction a as [|a IH]; intros [|b] E; cbn in E; [done| | |].
  - by injection E as -> _.
  - by injection E as <- _.
  - injection E as E. by apply (IH b).
Qed.

Lemma audit_id_inj m n : 0 < m -> 0 < n -> audit_id m = audit_id n -> m = n.
Proof.
  intros (c&s&Es&Hc)%str_Z_first (d&t&Et&Hd)%str_Z_first E. unfold audit_id, pad8 in E.
  apply (inj (String.append "aud_")) in E. rewrite Es, Et in E. apply zeros_inj in E; [|done|done].
  rewrite <-Es, <-Et in E. by apply (inj pretty).
Qed.

Lemma audit_ids_NoDup n : NoDup (audit_id <$> seqZ 1 n).
Proof.
  apply NoDup_fmap_2_strong; [|apply NoDup_seqZ]. intros x y Hx Hy.
  apply elem_of_seqZ in Hx, Hy. apply audit_id_inj; lia.
Qed.

(** ** Calls to the console *)

(** The three commands. *)
Inductive console_call := CallRetry | CallResume | CallResolve.

Definition call (k : console_call) (command : OperatorCommand) (now : datetime)
    : M Repo OperatorCommandResult :=
  match k with
  | CallRetry => retry_job command now
  | CallResume => resume_job command now
  | CallResolve => console_resolve_review command now
  end.

Definition receipt_key (command : OperatorCommand) : string * string :=
  (oc_actor_id command, oc_idempotency_key command).

(** The version found and the repository with the target moved on, or the refusal. *)
Definition start_target (allowed : list JobStatus) (command : OperatorCommand) (now : datetime) (r : Repo)
    : res (Z * Repo) :=
  match dget (oc_target_id command) (op_jobs r) with
  | None => Raise OperatorTargetNotFound
  | Some job =>
      _ ← raise_if (negb (oj_version job =? oc_expected_version command))
            (OperatorCommandRejected "STALE_VERSION");
      _ ← raise_if (negb (bool_decide (oj_status job ∈ allowed)))
            (OperatorCommandRejected "COMMAND_NOT_ALLOWED");
      Ok (oj_version job, set_jobs (dset (oj_run_id job) (started_job job now) (op_jobs r)) r)
  end.

Definition resolve_target (command : OperatorCommand) (now : datetime) (r : Repo) : res (Z * Repo) :=
  match oc_resolution command with
  | None => Raise (OperatorCommandRejected "COMMAND_NOT_ALLOWED")
  | Some resolution =>
      match dget (oc_target_id command) (op_reviews r) with
      | None => Raise OperatorTargetNotFound
      | Some review =>
          _ ← raise_if (negb (ov_version review =? oc_expected_version command))
                (OperatorCommandRejected "STALE_VERSION");
          _ ← raise_if (negb (bool_decide (ov_review_status review = REVIEW_PENDING)))
                (OperatorCommandRejected "COMMAND_NOT_ALLOWED");
          Ok (ov_version review,
              set_reviews (dset (ov_review_id review) (resolved_review review resolution now)
                             (op_reviews r)) r)
      end
  end.

Definition move_target (k : console_call) : OperatorCommand -> datetime -> Repo -> res (Z * Repo) :=
  match k with
  | CallRetry => start_target RETRYABLE_JOB_STATUSES
  | CallResume => start_target RESUMABLE_JOB_STATUSES
  | CallResolve => resolve_target
  end.

Definition audit_of (command : OperatorCommand) (now : datetime) (version : Z) (r : Repo)
    : OperatorAuditEntry :=
  mk_OperatorAuditEntry (audit_id (Z.of_nat (length (op_audit r)) + 1)) (oc_actor_id command) now
    (oc_action command) (oc_target_id command) (oc_reason_code command) (oc_reason command)
    (Some version) (Some (version + 1)).

(** The audit entry and the receipt of an executed command. *)
Definition recorded (command : OperatorCommand) (entry : OperatorAuditEntry) (r : Repo) : Repo :=
  set_op_receipts (dset (receipt_key command)
                     (mk_OperatorCommandReceipt (oc_actor_id command) (oc_idempotency_key command)
                        (operator_fingerprint command) entry) (op_receipts r))
    (set_audit (op_audit r ++ [entry]) r).

(** ** What holds of every repository *)

Definition own_key (rc : OperatorCommandReceipt) : string * string :=
  (ocr_actor_id rc, ocr_idempotency_key rc).

Record console_ok (r : Repo) : Prop := {
  ok_jobs : keyed oj_run_id (op_jobs r);
  ok_reviews : keyed ov_review_id (op_reviews r);
  ok_receipts : keyed own_key (op_receipts r);
  ok_trail : ocr_audit <$> dvalues (op_receipts r) = op_audit r;
  ok_actors : Forall (fun rc => oa_actor_id (ocr_audit rc) = ocr_actor_id rc) (dvalues (op_receipts r));
  ok_ids : oa_audit_id <$> op_audit r = audit_id <$> seqZ 1 (Z.of_nat (length (op_audit r)));
  ok_steps : Forall (fun a => exists v, oa_before_revision a = Some v /\ oa_after_revision a = Some (v + 1))
               (op_audit r)
}.

(** A call: a replay, a refusal, or an execution. *)
Lemma call_cases k command now r :
  console_ok r ->
  call k command now r =
    match dget (receipt_key command) (op_receipts r) with
    | Some rc =>
        if decide (ocr_fingerprint rc = operator_fingerprint command)
        then (Ok (mk_OperatorCommandResult (ocr_audit rc) true), r)
        else (Raise (OperatorCommandRejected "COMMAND_NOT_ALLOWED"), r)
    | None =>
        match move_target k command now r with
        | Raise e => (Raise e, r)
        | Ok (version, r') =>
            (Ok (mk_OperatorCommandResult (audit_of command now version r) false),
             recorded command (audit_of command now version r) r')
        end
    end.
Proof.
  intros Hr.
  destruct k; cbn [call move_target]; unfold retry_job, resume_job, run_job_command,
    console_resolve_review, replay, find_receipt, memory_operator_repository, mem_find_receipt,
    receipt_key, mbind, M_bind, throw, mret, M_ret;
    (destruct (dget (oc_actor_id command, oc_idempotency_key command) (op_receipts r)) as [rc|];
       [case_decide as E;
          [rewrite (bool_decide_eq_true_2 _ E)|rewrite (bool_decide_eq_false_2 _ E)]; reflexivity|]).
  1,2: unfold start_target, get_job, mem_get_job;
    destruct (dget (oc_target_id command) (op_jobs r)) as [job|] eqn:Ej; [|done];
    pose proof (proj2 (ok_jobs _ Hr) _ _ Ej) as Eid;
    destruct (negb (oj_version job =? oc_expected_version command)); [done|];
    destruct (negb (bool_decide (oj_status job ∈ _))); [done|];
    cbn [raise_if mbind res_bind]; unfold start_job_attempt, mem_start_job_attempt;
    rewrite Eid, Ej; done.
  unfold resolve_target. destruct (oc_resolution command) as [resolution|]; [|done].
  unfold get_review, mem_get_review.
  destruct (dget (oc_target_id command) (op_reviews r)) as [review|] eqn:Ej; [|done].
  pose proof (proj2 (ok_reviews _ Hr) _ _ Ej) as Eid.
  destruct (negb (ov_version review =? oc_expected_version command)); [done|].
  destruct (negb (bool_decide (ov_review_status review = REVIEW_PENDING))); [done|].
  cbn [raise_if mbind res_bind]. unfold resolve_review, mem_resolve_review.
  by rewrite Eid, Ej.
Qed.

Lemma move_target_ok k command now r v r' :
  console_ok r -> move_target k command now r = Ok (v, r') ->
  v = oc_expected_version command /\ op_audit r' = op_audit r /\ op_receipts r' = op_receipts r /\
  keyed oj_run_id (op_jobs r') /\ keyed ov_review_id (op_reviews r').
Proof.
  intros Hr H. assert (forall allowed, start_target allowed command now r = Ok (v, r') ->
    v = oc_expected_version command /\ op_audit r' = op_audit r /\ op_receipts r' = op_receipts r /\
    keyed oj_run_id (op_jobs r') /\ keyed ov_review_id (op_reviews r')) as Hs.
  { clear H. intros allowed H. unfold start_target in H.
    destruct (dget (oc_target_id command) (op_jobs r)) as [job|]; [|done].
    apply res_bind_ok in H as (?&Hv%raise_if_ok&H). apply res_bind_ok in H as (?&_&H).
    injection H as <- <-. apply negb_false_iff, Z.eqb_eq in Hv.
    split_and!; [done|done|done| |apply Hr]. by apply (keyed_dset oj_run_id _ (started_job job now)), Hr. }
  destruct k; [by eapply Hs|by eapply Hs|]. cbn [move_target] in H. unfold resolve_target in H.
  destruct (oc_resolution command) as [resolution|]; [|done].
  destruct (dget (oc_target_id command) (op_reviews r)) as [review|]; [|done].
  apply res_bind_ok in H as (?&Hv%raise_if_ok&H). apply res_bind_ok in H as (?&_&H).
  injection H as <- <-. apply negb_false_iff, Z.eqb_eq in Hv.
  split_and!; [done|done|done|apply Hr|].
  by apply (keyed_dset ov_review_id _ (resolved_review review resolution now)), Hr.
Qed.

Lemma seqZ_snoc n : 0 <= n -> seqZ 1 (n + 1) = seqZ 1 n ++ [n + 1].
Proof. intros Hn. rewrite (seqZ_app 1 n 1) by lia. by rewrite (Z.add_comm 1 n). Qed.

Lemma recorded_ok command now v r r' :
  console_ok r -> dget (receipt_key command) (op_receipts r) = None ->
  op_audit r' = op_audit r -> op_receipts r' = op_receipts r ->
  keyed oj_run_id (op_jobs r') -> keyed ov_review_id (op_reviews r') ->
  console_ok (recorded command (audit_of command now v r) r').
Proof.
  intros Hr Hnew Ea Er Hj Hv. set (entry := audit_of command now v r).
  set (rc := mk_OperatorCommandReceipt (oc_actor_id command) (oc_idempotency_key command)
               (operator_fingerprint command) entry).
  assert (dvalues (op_receipts (recorded command entry r')) = dvalues (op_receipts r) ++ [rc]) as Evals.
  { cbn. rewrite Er, dset_absent by done. unfold dvalues. by rewrite fmap_app. }
  split; [exact Hj|exact Hv| | | | |].
  - cbn. rewrite Er. by apply (keyed_dset own_key _ rc), Hr.
  - rewrite Evals, fmap_app, (ok_trail _ Hr). cbn. by rewrite Ea.
  - rewrite Evals. apply Forall_app. split; [apply Hr|by repeat constructor].
  - cbn. rewrite Ea, fmap_app, (ok_ids _ Hr), length_app. simpl.
    rewrite Nat2Z.inj_add. change (Z.of_nat 1) with 1. rewrite seqZ_snoc by lia. by rewrite fmap_app.
  - cbn. rewrite Ea. apply Forall_app. split; [apply Hr|]. repeat constructor. by exists v.
Qed.

(** ** The life of a console *)

Inductive op_action :=
  | ActCall (k : console_call) (command : OperatorCommand) (now : datetime)
  | ActRecordJob (job : OperatorJob)
  | ActOpenReview (review : OperatorReview)
  | ActSetAuth (status : InfostockAuthStatus).

Definition op_after (r : Repo) (a : op_action) : Repo :=
  match a with
  | ActCall k command now => (call k command now r).2
  | ActRecordJob job => (record_job job r).2
  | ActOpenReview review => (open_review review r).2
  | ActSetAuth status => (set_infostock_auth_status status r).2
  end.

Definition op_run (actions : list op_action) (r : Repo) : Repo := fold_left op_after actions r.

Definition op_reachable (r : Repo) : Prop :=
  exists jobs reviews auth actions, r = op_run actions (InMemoryOperatorRepository_init jobs reviews auth).

Lemma op_after_ok a r : console_ok r -> console_ok (op_after r a).
Proof.
  intros Hr. destruct a as [k command now|job|review|status]; cbn [op_after].
  - rewrite call_cases by done.
    destruct (dget (receipt_key command) (op_receipts r)) as [rc|] eqn:Erc; [by case_decide|].
    destruct (move_target k command now r) as [[v r']|] eqn:Em; [|done].
    destruct (move_target_ok _ _ _ _ _ _ Hr Em) as (_&?&?&?&?). by apply recorded_ok.
  - destruct Hr. split; try done. cbn. by apply (keyed_dset oj_run_id).
  - destruct Hr. split; try done. cbn. by apply (keyed_dset ov_review_id).
  - by destruct Hr.
Qed.

Lemma op_run_ok actions r : console_ok r -> console_ok (op_run actions r).
Proof.
  revert r; induction actions as [|a actions IH]; intros r Hr; [done|]. simpl.
  by apply IH, op_after_ok.
Qed.

Lemma op_reachable_ok r : op_reachable r -> console_ok r.
Proof.
  intros (jobs&reviews&auth&actions&->). apply op_run_ok.
  split; cbn; try done; [apply keyed_fold, keyed_nil|apply keyed_fold, keyed_nil|apply keyed_nil].
Qed.

(** A receipt is never changed. *)
Lemma op_after_receipt a r i rc :
  console_ok r -> dget i (op_receipts r) = Some rc -> dget i (op_receipts (op_after r a)) = Some rc.
Proof.
  intros Hr Hi. destruct a as [k command now|job|review|status]; try exact Hi. cbn [op_after].
  rewrite call_cases by done.
  destruct (dget (receipt_key command) (op_receipts r)) as [rc'|] eqn:Erc; [by case_decide|].
  destruct (move_target k command now r) as [[v r']|] eqn:Em; [|done].
  destruct (move_target_ok _ _ _ _ _ _ Hr Em) as (_&_&Er&_). cbn. rewrite Er, dget_dset_ne; [done|].
  intros E. rewrite E in Erc. congruence.
Qed.

Lemma op_run_receipt actions r i rc :
  console_ok r -> dget i (op_receipts r) = Some rc -> dget i (op_receipts (op_run actions r)) = Some rc.
Proof.
  revert r; induction actions as [|a actions IH]; intros r Hr Hi; [done|]. simpl.
  apply IH; [by apply op_after_ok|by apply op_after_receipt].
Qed.

(** A command takes effect once.  A refusal changes nothing.  An execution adds one
    audit entry, and from then on, whatever else happens, the same command under the same
    idempotency key answers with that entry and changes nothing, while another command
    under that key is refused. *)
Theorem commands_execute_once k command now r :
  op_reachable r ->
  match call k command now r with
  | (Raise _, r') => r' = r
  | (Ok result, r') =>
      if ore_replayed result then r' = r /\ ore_audit result ∈ op_audit r else
      op_audit r' = op_audit r ++ [ore_audit result] /\
      forall actions k' command' now', receipt_key command' = receipt_key command ->
        call k' command' now' (op_run actions r') =
        if decide (operator_fingerprint command = operator_fingerprint command')
        then (Ok (mk_OperatorCommandResult (ore_audit result) true), op_run actions r')
        else (Raise (OperatorCommandRejected "COMMAND_NOT_ALLOWED"), op_run actions r')
  end.
Proof.
  intros Hr%op_reachable_ok. rewrite call_cases by done.
  destruct (dget (receipt_key command) (op_receipts r)) as [rc|] eqn:Erc.
  - case_decide; [|done]. cbn [ore_replayed ore_audit]. split; [done|].
    rewrite <-(ok_trail _ Hr). apply list_elem_of_fmap_2. apply dget_elem in Erc.
    by apply (list_elem_of_fmap_2 snd) in Erc.
  - destruct (move_target k command now r) as [[v r']|] eqn:Em; [|done].
    destruct (move_target_ok _ _ _ _ _ _ Hr Em) as (_&Ea&Er&?&?). cbn [ore_replayed ore_audit].
    split; [cbn; by rewrite Ea|]. intros actions k' command' now' Ek.
    assert (console_ok (recorded command (audit_of command now v r) r')) as Hok by by apply recorded_ok.
    rewrite call_cases by by apply op_run_ok. rewrite Ek.
    erewrite op_run_receipt; [|exact Hok|apply dget_dset_eq]. done.
Qed.

(** The audit trail is complete: it holds the entries of the receipts, one for every
    executed command in the order of execution, numbered from 1 without gaps or repeats,
    under the actor of the command, each one version step of its target. *)
Theorem audit_trail_complete r :
  op_reachable r ->
  ocr_audit <$> dvalues (op_receipts r) = op_audit r /\
  oa_audit_id <$> op_audit r = audit_id <$> seqZ 1 (Z.of_nat (length (op_audit r))) /\
  NoDup (oa_audit_id <$> op_audit r) /\
  NoDup ((fun rc => (ocr_actor_id rc, ocr_idempotency_key rc)) <$> dvalues (op_receipts r)) /\
  Forall (fun rc => oa_actor_id (ocr_audit rc) = ocr_actor_id rc) (dvalues (op_receipts r)) /\
  Forall (fun a => exists v, oa_before_revision a = Some v /\ oa_after_revision a = Some (v + 1)) (op_audit r).
Proof.
  intros Hr%op_reachable_ok. split_and!; try apply Hr.
  - rewrite (ok_ids _ Hr). apply audit_ids_NoDup.
  - apply (keyed_NoDup own_key), Hr.
Qed.

(** ** Versions *)

Definition target_version (k : console_call) (i : string) (r : Repo) : option Z :=
  match k with
  | CallResolve => ov_version <$> dget i (op_reviews r)
  | _ => oj_version <$> dget i (op_jobs r)
  end.

Lemma move_target_versions k command now r v r' k' i w :
  console_ok r -> move_target k command now r = Ok (v, r') -> target_version k' i r = Some w ->
  exists w', target_version k' i r' = Some w' /\ w <= w'.
Proof.
  intros Hr H Hw.
  assert (forall allowed, start_target allowed command now r = Ok (v, r') ->
            exists w', target_version k' i r' = Some w' /\ w <= w') as Hs.
  { clear H. intros allowed H. unfold start_target in H.
    destruct (dget (oc_target_id command) (op_jobs r)) as [job|] eqn:Ej; [|done].
    pose proof (proj2 (ok_jobs _ Hr) _ _ Ej) as Eid.
    apply res_bind_ok in H as (?&_&H). apply res_bind_ok in H as (?&_&H). injection H as _ <-.
    rewrite Eid. destruct k'; unfold target_version in *; cbn; [| |exists w; split; [done|lia]];
      (rewrite dget_dset; case_decide as E; [subst i; rewrite Ej in Hw|exists w; split; [done|lia]]);
      injection Hw as <-; exists (oj_version job + 1); split; (done || lia). }
  destruct k; [by eapply Hs|by eapply Hs|]. cbn [move_target] in H. unfold resolve_target in H.
  destruct (oc_resolution command) as [resolution|]; [|done].
  destruct (dget (oc_target_id command) (op_reviews r)) as [review|] eqn:Ej; [|done].
  pose proof (proj2 (ok_reviews _ Hr) _ _ Ej) as Eid.
  apply res_bind_ok in H as (?&_&H). apply res_bind_ok in H as (?&_&H). injection H as _ <-.
  rewrite Eid. destruct k'; unfold target_version in *; cbn;
    [exists w; split; [done|lia]|exists w; split; [done|lia]|].
  rewrite dget_dset. case_decide as E; [subst i; rewrite Ej in Hw|exists w; split; [done|lia]].
  injection Hw as <-. exists (ov_version review + 1); split; [done|lia].
Qed.

Lemma call_versions k command now r k' i w :
  console_ok r -> target_version k' i r = Some w ->
  exists w', target_version k' i (call k command now r).2 = Some w' /\ w <= w'.
Proof.
  intros Hr Hw. rewrite call_cases by done.
  destruct (dget (receipt_key command) (op_receipts r)) as [rc|] eqn:Erc.
  - exists w. case_decide; (split; [done|lia]).
  - destruct (move_target k command now r) as [[v r']|] eqn:Em; [|exists w; split; [done|lia]].
    destruct (move_target_versions _ _ _ _ _ _ _ _ _ Hr Em Hw) as (w'&?&?). exists w'.
    split; [|done]. by destruct k'.
Qed.

Definition on_review (k : console_call) : bool := match k with CallResolve => true | _ => false end.

Lemma target_version_family k k' i r :
  on_review k = on_review k' -> target_version k i r = target_version k' i r.
Proof. by destruct k, k'. Qed.

(** An execution moves its target to the next version. *)
Lemma move_target_next k command now r v r' :
  console_ok r -> move_target k command now r = Ok (v, r') ->
  target_version k (oc_target_id command) r' = Some (oc_expected_version command + 1).
Proof.
  intros Hr H. pose proof (move_target_ok _ _ _ _ _ _ Hr H) as (Ev&_).
  assert (forall allowed, start_target allowed command now r = Ok (v, r') ->
    oj_version <$> dget (oc_target_id command) (op_jobs r') = Some (oc_expected_version command + 1)) as Hs.
  { clear H. intros allowed H. unfold start_target in H.
    destruct (dget (oc_target_id command) (op_jobs r)) as [job|] eqn:Ej; [|done].
    pose proof (proj2 (ok_jobs _ Hr) _ _ Ej) as Eid.
    apply res_bind_ok in H as (?&_&H). apply res_bind_ok in H as (?&_&H). injection H as Ev' <-.
    cbn. rewrite Eid, dget_dset_eq. cbn. by rewrite Ev', Ev. }
  destruct k; [by eapply Hs|by eapply Hs|]. cbn [move_target] in H. unfold resolve_target in H.
  destruct (oc_resolution command) as [resolution|]; [|done].
  destruct (dget (oc_target_id command) (op_reviews r)) as [review|] eqn:Ej; [|done].
  pose proof (proj2 (ok_reviews _ Hr) _ _ Ej) as Eid.
  apply res_bind_ok in H as (?&_&H). apply res_bind_ok in H as (?&_&H). injection H as Ev' <-.
  cbn. rewrite Eid, dget_dset_eq. cbn. by rewrite Ev', Ev.
Qed.

(** A target past the expected version refuses the command. *)
Lemma stale_refused k command now r w :
  target_version k (oc_target_id command) r = Some w -> oc_expected_version command < w ->
  exists e, move_target k command now r = Raise e.
Proof.
  intros Hw Hlt. assert (forall allowed, oj_version <$> dget (oc_target_id command) (op_jobs r) = Some w ->
    exists e, start_target allowed command now r = Raise e) as Hs.
  { clear Hw. intros allowed Hw. unfold start_target.
    destruct (dget (oc_target_id command) (op_jobs r)) as [job|]; [|by eexists].
    injection Hw as ->. destruct (Z.eqb_spec w (oc_expected_version command)); [lia|by eexists]. }
  destruct k; [by apply Hs|by apply Hs|]. cbn [move_target]. unfold resolve_target.
  destruct (oc_resolution command) as [resolution|]; [|by eexists]. cbn in Hw.
  destruct (dget (oc_target_id command) (op_reviews r)) as [review|]; [|by eexists].
  injection Hw as ->. destruct (Z.eqb_spec w (oc_expected_version command)); [lia|by eexists].
Qed.

Definition is_call (a : op_action) : bool := match a with ActCall _ _ _ => true | _ => false end.

Lemma calls_versions calls r k i w :
  Forall (fun a => is_call a = true) calls -> console_ok r -> target_version k i r = Some w ->
  exists w', target_version k i (op_run calls r) = Some w' /\ w <= w'.
Proof.
  intros Hc. revert r w. induction Hc as [|a calls Ha _ IH]; intros r w Hr Hw; [exists w; split; [done|lia]|].
  destruct a as [k' command now| | |]; try discriminate Ha.
  destruct (call_versions k' command now r k i w Hr Hw) as (w1&H1&?).
  destruct (IH (op_after r (ActCall k' command now)) w1) as (w'&?&?); [by apply op_after_ok|done|].
  exists w'. split; [done|lia].
Qed.

(** Versions guard the targets.  An executed command saw exactly the version it
    expected, and until its target is recorded anew no other command that expects that
    version or an older one is executed on the target, whatever commands come between:
    of concurrent commands on one version at most one takes effect. *)
Theorem versions_guard_targets k command now r result r' calls k2 command2 now2 :
  op_reachable r -> call k command now r = (Ok result, r') -> ore_replayed result = false ->
  Forall (fun a => is_call a = true) calls ->
  on_review k2 = on_review k -> oc_target_id command2 = oc_target_id command ->
  oc_expected_version command2 <= oc_expected_version command ->
  dget (receipt_key command2) (op_receipts (op_run calls r')) = None ->
  oa_before_revision (ore_audit result) = Some (oc_expected_version command) /\
  exists e, call k2 command2 now2 (op_run calls r') = (Raise e, op_run calls r').
Proof.
  intros Hr%op_reachable_ok H Hnew Hcalls Hk Ht Hle Hkey. rewrite call_cases in H by done.
  destruct (dget (receipt_key command) (op_receipts r)) as [rc|] eqn:Erc.
  { case_decide; [|done]. injection H as <- _. discriminate Hnew. }
  destruct (move_target k command now r) as [[v r1]|] eqn:Em; [|done]. injection H as <- <-.
  destruct (move_target_ok _ _ _ _ _ _ Hr Em) as (Ev&?&?&?&?).
  pose proof (move_target_next _ _ _ _ _ _ Hr Em) as Hv.
  split; [cbn; by rewrite Ev|].
  set (r2 := recorded command (audit_of command now v r) r1) in *.
  assert (console_ok r2) as Hok by by apply recorded_ok.
  assert (target_version k (oc_target_id command) r2 = Some (oc_expected_version command + 1)) as Hv2
    by by destruct k.
  destruct (calls_versions calls r2 k _ _ Hcalls Hok Hv2) as (w&Hw&Hlt).
  rewrite (target_version_family k k2) in Hw by done. rewrite <-Ht in Hw.
  destruct (stale_refused k2 command2 now2 _ w Hw) as [e He]; [lia|].
  exists e. rewrite call_cases by by apply op_run_ok. by rewrite Hkey, He.
Qed.

(** ** Lists *)

Lemma NoDup_sorted_filter {A K} `{PyOrd K} (order : A -> K) (key : A -> string) f l :
  NoDup (key <$> l) -> NoDup (key <$> sorted_by order (List.filter f l)).
Proof.
  intros Hnd. rewrite (fmap_Permutation key _ _ (sorted_by_perm order _)).
  by apply NoDup_key_filterb.
Qed.

(** Paging is complete: while the repository rests, a client that follows the cursors
    of a list from the start, with any page size, sees every job, review or audit entry
    that matches exactly once and in the order of the list, and reaches the end. *)
Theorem lists_page_through r limit status review_type review_status :
  op_reachable r -> 1 <= limit ->
  follow_pages (fun c => (list_jobs status c limit r).1) (S (length (ordered_jobs status r))) None =
    Ok (ordered_jobs status r) /\
  follow_pages (fun c => (list_reviews review_type review_status c limit r).1)
    (S (length (ordered_reviews review_type review_status r))) None =
    Ok (ordered_reviews review_type review_status r) /\
  follow_pages (fun c => (list_audit c limit r).1) (S (length (ordered_audit r))) None = Ok (ordered_audit r).
Proof.
  intros Hr%op_reachable_ok Hl. split_and!.
  - apply (follow_all _ oj_run_id limit Hl). apply NoDup_sorted_filter.
    by apply (keyed_NoDup oj_run_id), Hr.
  - apply (follow_all _ ov_review_id limit Hl). apply NoDup_sorted_filter.
    by apply (keyed_NoDup ov_review_id), Hr.
  - apply (follow_all _ oa_audit_id limit Hl). unfold ordered_audit.
    rewrite (fmap_Permutation _ _ _ (sorted_by_perm _ (op_audit r))), (ok_ids _ Hr).
    apply audit_ids_NoDup.
Qed.

(** ** A concrete console *)

Definition demo_now (second : Z) : datetime :=
  mk_datetime ((ymd2ord 2026 8 14 - 1) * us_per_day + seconds second) (Some 0).
Definition demo_job (id : string) (status : JobStatus) : OperatorJob :=
  mk_OperatorJob id "import" status 3 (demo_now 0) (Some "E1") [].
Definition demo_command (key target : string) (version : Z) : OperatorCommand :=
  mk_OperatorCommand "op-1" key "RETRY_JOB" target "MANUAL" "again" version None.
Definition demo_console : Repo :=
  InMemoryOperatorRepository_init [demo_job "run-a" JOB_FAILED; demo_job "run-b" JOB_PARTIAL] [] None.

Lemma demo_console_reachable : op_reachable demo_console.
Proof. by exists [demo_job "run-a" JOB_FAILED; demo_job "run-b" JOB_PARTIAL], [], None, []. Qed.

Lemma commands_execute_once_witness :
  exists result r', call CallRetry (demo_command "k1" "run-a" 3) (demo_now 1) demo_console = (Ok result, r') /\
    call CallResume (demo_command "k1" "run-a" 3) (demo_now 9) r' =
      (Ok (mk_OperatorCommandResult (ore_audit result) true), r').
Proof.
  pose proof (commands_execute_once CallRetry (demo_command "k1" "run-a" 3) (demo_now 1) demo_console
                demo_console_reachable) as H.
  destruct (call CallRetry (demo_command "k1" "run-a" 3) (demo_now 1) demo_console) as [[result|e] r'] eqn:E.
  - exists result, r'. split; [reflexivity|].
    assert (ore_replayed result = false) as Er.
    { assert (match (call CallRetry (demo_command "k1" "run-a" 3) (demo_now 1) demo_console).1 with
              | Ok x => ore_replayed x | Raise _ => true end = false) as Hf by (vm_compute; reflexivity).
      by rewrite E in Hf. }
    rewrite Er in H. destruct H as [_ H].
    specialize (H [] CallResume (demo_command "k1" "run-a" 3) (demo_now 9) eq_refl).
    rewrite decide_True in H by reflexivity. exact H.
  - exfalso. assert (is_ok (call CallRetry (demo_command "k1" "run-a" 3) (demo_now 1) demo_console).1 = true)
      as Hf by (vm_compute; reflexivity). by rewrite E in Hf.
Defined.

#[local] Abbreviation demo_after := (op_run [ActCall CallRetry (demo_command "k1" "run-a" 3) (demo_now 1);
                                             ActCall CallResume (demo_command "k2" "run-b" 3) (demo_now 2)]
                                       demo_console).

Lemma demo_after_reachable : op_reachable demo_after.
Proof. by eexists [demo_job "run-a" JOB_FAILED; demo_job "run-b" JOB_PARTIAL], [], None, _. Qed.

Lemma audit_trail_complete_witness :
  oa_audit_id <$> op_audit demo_after = ["aud_00000001"; "aud_00000002"].
Proof.
  destruct (audit_trail_complete demo_after demo_after_reachable) as (_&H&_).
  rewrite H. vm_compute. reflexivity.
Defined.

(** A second operator who saw the same version comes too late. *)
Lemma versions_guard_targets_witness :
  exists e, call CallResume (demo_command "k3" "run-a" 3) (demo_now 5)
              (call CallRetry (demo_command "k1" "run-a" 3) (demo_now 1) demo_console).2 =
            (Raise e, (call CallRetry (demo_command "k1" "run-a" 3) (demo_now 1) demo_console).2).
Proof.
  destruct (call CallRetry (demo_command "k1" "run-a" 3) (demo_now 1) demo_console) as [[result|e] r'] eqn:E.
  - assert (match (call CallRetry (demo_command "k1" "run-a" 3) (demo_now 1) demo_console) with
            | (Ok x, r) => negb (ore_replayed x) &&
                bool_decide (dmem ("op-1", "k3") (op_receipts r) = false)
            | (Raise _, _) => false end = true) as Hf by (vm_compute; reflexivity).
    rewrite E in Hf. apply andb_true_iff in Hf as [Hf1%negb_true_iff Hf2].
    apply (versions_guard_targets CallRetry (demo_command "k1" "run-a" 3) (demo_now 1) demo_console
             result r' [] CallResume (demo_command "k3" "run-a" 3) (demo_now 5)
             demo_console_reachable E Hf1); try done.
    apply bool_decide_eq_true in Hf2. unfold dmem in Hf2.
    change (dget ("op-1", "k3") (op_receipts r') = None).
    destruct (dget ("op-1", "k3") (op_receipts r')); [discriminate Hf2|reflexivity].
  - exfalso. assert (is_ok (call CallRetry (demo_command "k1" "run-a" 3) (demo_now 1) demo_console).1 = true)
      as Hf by (vm_compute; reflexivity). by rewrite E in Hf.
Defined.

Lemma lists_page_through_witness :
  follow_pages (fun c => (list_jobs None c 1 demo_console).1) 3 None = Ok (ordered_jobs None demo_console) /\
  oj_run_id <$> ordered_jobs None demo_console = ["run-a"; "run-b"].
Proof.
  split; [|vm_compute; reflexivity].
  apply (lists_page_through demo_console 1 None None None demo_console_reachable ltac:(lia)).
Defined.
