(* ===== verification/IdentityModels.v ===== *)
(** [packages/identity/models.py], [targets.py] and [repository.py]: users, sessions,
    tickets, saved items, and the in-memory repository that keeps them. *)
From S2P Require Import Prelude Sha256 PyTime PyDecimal PyFloat Json.
#[local] Open Scope Z_scope.

(** ** Models *)

(* @ packages/identity/models.py 9-12 Role *)
Inductive Role := ROLE_USER | ROLE_HISTORICAL_PILOT | ROLE_OPERATOR.
#[export] Instance Role_eq_dec : EqDecision Role.
Proof. solve_decision. Defined.

(* @ packages/identity/models.py 15-18 SavedType *)
Inductive SavedType := SAVED_THEME | SAVED_STOCK | SAVED_EVENT.
#[export] Instance SavedType_eq_dec : EqDecision SavedType.
Proof. solve_decision. Defined.

(* @ packages/identity/models.py 15-18 SavedType *)
Definition SavedType_value (t : SavedType) : string :=
  match t with SAVED_THEME => "THEME" | SAVED_STOCK => "STOCK" | SAVED_EVENT => "EVENT" end.

(* @ packages/identity/models.py 21-23 Availability *)
Inductive Availability := AVAILABLE | UNAVAILABLE.
#[export] Instance Availability_eq_dec : EqDecision Availability.
Proof. solve_decision. Defined.

(* @ packages/identity/models.py 26-31 GoogleIdentity *)
Record GoogleIdentity := mk_GoogleIdentity {
  gi_subject : string;
  gi_display_name : string;
  gi_email : option string;
  gi_email_verified : bool
}.

(* @ packages/identity/models.py 34-42 User *)
Record User := mk_User {
  us_user_id : string;
  us_google_subject : string;
  us_display_name : string;
  us_email : option string;
  us_email_verified : bool;
  us_created_at : datetime;
  us_last_authenticated_at : datetime
}.

(* @ packages/identity/models.py 45-52 OAuthStateRecord *)
Record OAuthStateRecord := mk_OAuthStateRecord {
  os_state_hash : string;
  os_browser_nonce_hash : string;
  os_return_to : string;
  os_created_at : datetime;
  os_expires_at : datetime;
  os_consumed_at : option datetime
}.

(* @ packages/identity/models.py 55-63 SessionRecord *)
Record SessionRecord := mk_SessionRecord {
  se_token_hash : string;
  se_user_id : string;
  se_csrf_token_hash : string;
  se_created_at : datetime;
  se_expires_at : datetime;
  se_authenticated_at : datetime;
  se_revoked_at : option datetime
}.

(* @ packages/identity/models.py 66-74 RealtimeTicketRecord *)
Record RealtimeTicketRecord := mk_RealtimeTicketRecord {
  rt_ticket_hash : string;
  rt_session_token_hash : string;
  rt_user_id : string;
  rt_origin : string;
  rt_created_at : datetime;
  rt_expires_at : datetime;
  rt_consumed_at : option datetime
}.

(* @ packages/identity/models.py 77-83 SavedRecord *)
Record SavedRecord := mk_SavedRecord {
  sd_user_id : string;
  sd_saved_type : SavedType;
  sd_target_id : string;
  sd_display_name_snapshot : string;
  sd_saved_at : datetime
}.

(* @ packages/identity/models.py 86-92 SavedCurrentState *)
Record SavedCurrentState := mk_SavedCurrentState {
  sc_event_id : string;
  sc_event_state : string;
  sc_weighted_return : option double;
  sc_data_status : string;
  sc_as_of : datetime
}.

(* @ packages/identity/models.py 95-103 TargetRecord *)
Record TargetRecord := mk_TargetRecord {
  tg_saved_type : SavedType;
  tg_target_id : string;
  tg_display_name : string;
  tg_availability : Availability;
  tg_unavailable_reason : option string;
  tg_current_state : option SavedCurrentState;
  tg_required_role : option Role
}.

(* @ packages/identity/models.py 106-112 SessionPrincipal *)
Record SessionPrincipal := mk_SessionPrincipal {
  pr_session_token_hash : string;
  pr_user : User;
  pr_roles : list Role;
  pr_authenticated_at : datetime;
  pr_expires_at : datetime
}.

(* @ packages/identity/models.py 115-119 OAuthLoginStart *)
Record OAuthLoginStart := mk_OAuthLoginStart {
  ls_authorization_url : string;
  ls_browser_nonce : string;
  ls_expires_at : datetime
}.

(* @ packages/identity/models.py 122-129 LoginCompletion *)
Record LoginCompletion := mk_LoginCompletion {
  lc_session_token : string;
  lc_csrf_token : string;
  lc_expires_at : datetime;
  lc_return_to : string;
  lc_user : User;
  lc_roles : list Role
}.

(* @ packages/identity/models.py 132-135 RealtimeTicket *)
Record RealtimeTicket := mk_RealtimeTicket { tk_ticket : string; tk_expires_at : datetime }.

(* @ packages/identity/models.py 138-146 SavedItem *)
Record SavedItem := mk_SavedItem {
  it_saved_type : SavedType;
  it_target_id : string;
  it_display_name : string;
  it_saved_at : datetime;
  it_availability : Availability;
  it_unavailable_reason : option string;
  it_current_state : option SavedCurrentState
}.

(* @ packages/identity/models.py 157-162 SavedMutation *)
Record SavedMutation := mk_SavedMutation {
  mu_saved_type : SavedType;
  mu_target_id : string;
  mu_saved : bool;
  mu_saved_at : option datetime
}.

(** ** The target catalog *)

(* @ packages/identity/targets.py 13-18 InMemoryTargetCatalog *)
Definition InMemoryTargetCatalog : Type := dict (SavedType * string) TargetRecord.

(* @ packages/identity/targets.py 16-18 InMemoryTargetCatalog.__init__ *)
Definition catalog_of (targets : list TargetRecord) : InMemoryTargetCatalog :=
  fold_left (fun d t => dset (tg_saved_type t, tg_target_id t) t d) targets [].

(* @ packages/identity/targets.py 20-22 InMemoryTargetCatalog.put *)
Definition catalog_put (target : TargetRecord) (c : InMemoryTargetCatalog) : InMemoryTargetCatalog :=
  dset (tg_saved_type target, tg_target_id target) target c.

(* @ packages/identity/targets.py 24-26 InMemoryTargetCatalog.remove *)
Definition catalog_remove (t : SavedType) (target_id : string) (c : InMemoryTargetCatalog)
    : InMemoryTargetCatalog := ddel (t, target_id) c.

(* @ packages/identity/targets.py 28-30 InMemoryTargetCatalog.get_target *)
Definition get_target (t : SavedType) (target_id : string) (c : InMemoryTargetCatalog)
    : option TargetRecord := dget (t, target_id) c.

(** ** The repository *)

(* @ packages/identity/repository.py 86-97 InMemoryIdentityRepository *)
Record InMemoryIdentityRepository := mk_InMemoryIdentityRepository {
  id_oauth_states : dict string OAuthStateRecord;
  id_users : dict string User;
  id_user_ids_by_subject : dict string string;
  id_roles : dict string (list Role);
  id_sessions : dict string SessionRecord;
  id_tickets : dict string RealtimeTicketRecord;
  id_saved : dict (string * SavedType * string) SavedRecord
}.
#[local] Notation Repo := InMemoryIdentityRepository.

(* @ packages/identity/repository.py 89-97 InMemoryIdentityRepository.__init__ *)
Definition empty_identity : Repo := mk_InMemoryIdentityRepository [] [] [] [] [] [] [].

Definition set_oauth_states x (r : Repo) : Repo :=
  mk_InMemoryIdentityRepository x (id_users r) (id_user_ids_by_subject r) (id_roles r) (id_sessions r)
    (id_tickets r) (id_saved r).
Definition set_users x (r : Repo) : Repo :=
  mk_InMemoryIdentityRepository (id_oauth_states r) x (id_user_ids_by_subject r) (id_roles r)
    (id_sessions r) (id_tickets r) (id_saved r).
Definition set_subjects x (r : Repo) : Repo :=
  mk_InMemoryIdentityRepository (id_oauth_states r) (id_users r) x (id_roles r) (id_sessions r)
    (id_tickets r) (id_saved r).
Definition set_roles x (r : Repo) : Repo :=
  mk_InMemoryIdentityRepository (id_oauth_states r) (id_users r) (id_user_ids_by_subject r) x
    (id_sessions r) (id_tickets r) (id_saved r).
Definition set_sessions x (r : Repo) : Repo :=
  mk_InMemoryIdentityRepository (id_oauth_states r) (id_users r) (id_user_ids_by_subject r) (id_roles r)
    x (id_tickets r) (id_saved r).
Definition set_tickets x (r : Repo) : Repo :=
  mk_InMemoryIdentityRepository (id_oauth_states r) (id_users r) (id_user_ids_by_subject r) (id_roles r)
    (id_sessions r) x (id_saved r).
Definition set_saved x (r : Repo) : Repo :=
  mk_InMemoryIdentityRepository (id_oauth_states r) (id_users r) (id_user_ids_by_subject r) (id_roles r)
    (id_sessions r) (id_tickets r) x.

(** [{key: value for key, value in d.items() if keep(value)}] *)
Definition dfilter {K V} (keep : V -> bool) (d : dict K V) : dict K V :=
  List.filter (fun kv => keep kv.2) d.

(* @ packages/identity/repository.py 99-101 InMemoryIdentityRepository.store_oauth_state *)
Definition store_oauth_state (record : OAuthStateRecord) : M Repo unit := fun r =>
  (Ok tt, set_oauth_states (dset (os_state_hash record) record (id_oauth_states r)) r).

(* @ packages/identity/repository.py 103-119 InMemoryIdentityRepository.purge_expired *)
Definition purge_expired (now : datetime) : M Repo Z := fun r =>
  let count r := Z.of_nat (length (id_oauth_states r)) + Z.of_nat (length (id_sessions r)) +
                 Z.of_nat (length (id_tickets r)) in
  let r' := set_tickets (dfilter (fun t => dt_lt now (rt_expires_at t)) (id_tickets r))
              (set_sessions (dfilter (fun s => dt_lt now (se_expires_at s)) (id_sessions r))
                 (set_oauth_states (dfilter (fun s => dt_lt now (os_expires_at s)) (id_oauth_states r)) r)) in
  (Ok (count r - count r'), r').

(** [record is None or record.consumed_at is not None or record.expires_at <= now] is false. *)
Definition oauth_state_live (now : datetime) (s : OAuthStateRecord) : bool :=
  match os_consumed_at s with None => negb (dt_le (os_expires_at s) now) | Some _ => false end.

(* @ packages/identity/repository.py 121-136 InMemoryIdentityRepository.consume_oauth_state *)
Definition consume_oauth_state (state_hash browser_nonce_hash : string) (now : datetime)
    : M Repo (option OAuthStateRecord) := fun r =>
  match dget state_hash (id_oauth_states r) with
  | None => (Ok None, r)
  | Some s =>
      if negb (oauth_state_live now s) then (Ok None, r)
      else if negb (bool_decide (os_browser_nonce_hash s = browser_nonce_hash)) then (Ok None, r)
      else
        let consumed := mk_OAuthStateRecord (os_state_hash s) (os_browser_nonce_hash s) (os_return_to s)
                          (os_created_at s) (os_expires_at s) (Some now) in
        (Ok (Some consumed), set_oauth_states (dset state_hash consumed (id_oauth_states r)) r)
  end.

(* @ packages/identity/repository.py 138-141 InMemoryIdentityRepository.get_user_by_subject *)
Definition get_user_by_subject (google_subject : string) : M Repo (option User) := fun r =>
  (Ok match dget google_subject (id_user_ids_by_subject r) with
      | None => None
      | Some user_id => dget user_id (id_users r)
      end, r).

(* @ packages/identity/repository.py 143-145 InMemoryIdentityRepository.get_user *)
Definition get_user (user_id : string) : M Repo (option User) := fun r =>
  (Ok (dget user_id (id_users r)), r).

(* @ packages/identity/repository.py 147-181 InMemoryIdentityRepository.upsert_user *)
Definition upsert_user (proposed_user_id : string) (identity : GoogleIdentity) (now : datetime)
    : M Repo User := fun r =>
  match dget (gi_subject identity) (id_user_ids_by_subject r) with
  | Some existing_id =>
      match dget existing_id (id_users r) with
      | None => (Raise KeyError, r)
      | Some existing =>
          let updated := mk_User (us_user_id existing) (us_google_subject existing)
                           (gi_display_name identity) (gi_email identity) (gi_email_verified identity)
                           (us_created_at existing) now in
          (Ok updated, set_users (dset existing_id updated (id_users r)) r)
      end
  | None =>
      if dmem proposed_user_id (id_users r) then (Raise ValueError, r)
      else
        let user := mk_User proposed_user_id (gi_subject identity) (gi_display_name identity)
                      (gi_email identity) (gi_email_verified identity) now now in
        (Ok user,
         set_roles (dset (us_user_id user) [ROLE_USER] (id_roles r))
           (set_subjects (dset (us_google_subject user) (us_user_id user) (id_user_ids_by_subject r))
              (set_users (dset (us_user_id user) user (id_users r)) r)))
  end.

(** [s.add(role)] *)
Definition add_to_roles (role : Role) (roles : list Role) : list Role :=
  if bool_decide (role ∈ roles) then roles else roles ++ [role].

(* @ packages/identity/repository.py 183-187 InMemoryIdentityRepository.add_role *)
Definition add_role (user_id : string) (role : Role) : M Repo unit := fun r =>
  if negb (dmem user_id (id_users r)) then (Raise KeyError, r)
  else (Ok tt, set_roles (dset user_id (add_to_roles role (default [ROLE_USER] (dget user_id (id_roles r))))
                            (id_roles r)) r).

(* @ packages/identity/repository.py 189-191 InMemoryIdentityRepository.get_roles *)
Definition get_roles (user_id : string) : M Repo (list Role) := fun r =>
  (Ok (default [] (dget user_id (id_roles r))), r).

(* @ packages/identity/repository.py 193-195 InMemoryIdentityRepository.store_session *)
Definition store_session (record : SessionRecord) : M Repo unit := fun r =>
  (Ok tt, set_sessions (dset (se_token_hash record) record (id_sessions r)) r).

(* @ packages/identity/repository.py 197-199 InMemoryIdentityRepository.get_session *)
Definition get_session (token_hash : string) : M Repo (option SessionRecord) := fun r =>
  (Ok (dget token_hash (id_sessions r)), r).

Definition revoked (now : datetime) (s : SessionRecord) : SessionRecord :=
  mk_SessionRecord (se_token_hash s) (se_user_id s) (se_csrf_token_hash s) (se_created_at s)
    (se_expires_at s) (se_authenticated_at s) (Some now).

(* @ packages/identity/repository.py 201-205 InMemoryIdentityRepository.revoke_session *)
Definition revoke_session (token_hash : string) (now : datetime) : M Repo unit := fun r =>
  match dget token_hash (id_sessions r) with
  | Some s =>
      match se_revoked_at s with
      | None => (Ok tt, set_sessions (dset token_hash (revoked now s) (id_sessions r)) r)
      | Some _ => (Ok tt, r)
      end
  | None => (Ok tt, r)
  end.

(* @ packages/identity/repository.py 207-209 InMemoryIdentityRepository.store_realtime_ticket *)
Definition store_realtime_ticket (record : RealtimeTicketRecord) : M Repo unit := fun r =>
  (Ok tt, set_tickets (dset (rt_ticket_hash record) record (id_tickets r)) r).

Definition ticket_live (now : datetime) (t : RealtimeTicketRecord) : bool :=
  match rt_consumed_at t with None => negb (dt_le (rt_expires_at t) now) | Some _ => false end.

(* @ packages/identity/repository.py 211-226 InMemoryIdentityRepository.consume_realtime_ticket *)
Definition consume_ticket (ticket_hash origin : string) (now : datetime)
    : M Repo (option RealtimeTicketRecord) := fun r =>
  match dget ticket_hash (id_tickets r) with
  | None => (Ok None, r)
  | Some t =>
      if negb (ticket_live now t) then (Ok None, r)
      else if negb (bool_decide (rt_origin t = origin)) then (Ok None, r)
      else
        let consumed := mk_RealtimeTicketRecord (rt_ticket_hash t) (rt_session_token_hash t) (rt_user_id t)
                          (rt_origin t) (rt_created_at t) (rt_expires_at t) (Some now) in
        (Ok (Some consumed), set_tickets (dset ticket_hash consumed (id_tickets r)) r)
  end.

Definition saved_key (s : SavedRecord) : string * SavedType * string :=
  (sd_user_id s, sd_saved_type s, sd_target_id s).

(* @ packages/identity/repository.py 228-235 InMemoryIdentityRepository.upsert_saved *)
Definition upsert_saved (record : SavedRecord) : M Repo SavedRecord := fun r =>
  match dget (saved_key record) (id_saved r) with
  | Some existing => (Ok existing, r)
  | None => (Ok record, set_saved (dset (saved_key record) record (id_saved r)) r)
  end.

(* @ packages/identity/repository.py 237-245 InMemoryIdentityRepository.delete_saved *)
Definition delete_saved (user_id : string) (saved_type : SavedType) (target_id : string)
    : M Repo (option SavedRecord) := fun r =>
  (Ok (dget (user_id, saved_type, target_id) (id_saved r)),
   set_saved (ddel (user_id, saved_type, target_id) (id_saved r)) r).

(** Two stable sorts, the second one by time, newest first. *)
(* @ packages/identity/repository.py 247-262 InMemoryIdentityRepository.list_saved *)
Definition list_saved (user_id : string) (saved_type : option SavedType) : M Repo (list SavedRecord) := fun r =>
  (Ok (sorted_by (fun s => - instant (sd_saved_at s))
         (sorted_by (fun s => (sd_target_id s, SavedType_value (sd_saved_type s)))
            (List.filter (fun s => bool_decide (sd_user_id s = user_id) &&
                                   match saved_type with
                                   | None => true
                                   | Some t => bool_decide (sd_saved_type s = t)
                                   end)
               (dvalues (id_saved r))))), r).

(* @ packages/identity/repository.py 264-280 InMemoryIdentityRepository.delete_account *)
Definition repo_delete_account (user_id : string) : M Repo bool := fun r =>
  match dget user_id (id_users r) with
  | None => (Ok false, r)
  | Some user =>
      (Ok true,
       mk_InMemoryIdentityRepository (id_oauth_states r) (ddel user_id (id_users r))
         (ddel (us_google_subject user) (id_user_ids_by_subject r))
         (ddel user_id (id_roles r))
         (dfilter (fun s => negb (bool_decide (se_user_id s = user_id))) (id_sessions r))
         (dfilter (fun t => negb (bool_decide (rt_user_id t = user_id))) (id_tickets r))
         (dfilter (fun s => negb (bool_decide (sd_user_id s = user_id))) (id_saved r)))
  end.

(** ** What holds of every repository *)

Section dfilter.
Context {K V : Type} `{EqDecision K} (keep : V -> bool).
Implicit Types d : dict K V.

Lemma NoDup_dkeys_dfilter d : NoDup (dkeys d) -> NoDup (dkeys (dfilter keep d)).
Proof. intros H. eapply sublist_NoDup; [exact H|]. apply fmap_sublist, filterb_sublist. Qed.

Lemma dget_dfilter k d :
  NoDup (dkeys d) ->
  dget k (dfilter keep d) = match dget k d with Some v => if keep v then Some v else None | None => None end.
Proof.
  revert k; induction d as [|[k' v'] d IH]; intros k; [done|]. rewrite dkeys_cons. intros [Hk Hd]%NoDup_cons.
  unfold dfilter. cbn [List.filter snd dget]. fold (dfilter keep d).
  assert (dget k' (dfilter keep d) = None) as Hn.
  { rewrite IH by done. apply dget_None in Hk. by rewrite Hk. }
  destruct (decide (k = k')) as [->|Hne].
  - destruct (keep v'); cbn [dget]; [by rewrite decide_True|exact Hn].
  - destruct (keep v'); cbn [dget]; [rewrite decide_False by done|]; by apply IH.
Qed.

Lemma dget_dfilter_Some k v d :
  NoDup (dkeys d) -> dget k (dfilter keep d) = Some v <-> dget k d = Some v /\ keep v = true.
Proof.
  intros Hd. rewrite dget_dfilter by done. destruct (dget k d) as [v'|]; [|naive_solver].
  destruct (keep v') eqn:E; split; [intros [= <-]|intros [[= <-] _]|done|intros [[= <-] ?]]; congruence || auto.
Qed.

Lemma keyed_dfilter (key : V -> K) d : keyed key d -> keyed key (dfilter keep d).
Proof.
  intros [Hnd Hk]. split; [by apply NoDup_dkeys_dfilter|]. intros k v [H _]%dget_dfilter_Some; [|done].
  by apply Hk.
Qed.
End dfilter.

(** Every record is filed under its own key, the subjects index the users, each account
    has its roles, and what belongs to an account belongs to one that exists. *)
Record identity_ok (r : Repo) : Prop := {
  io_states : keyed os_state_hash (id_oauth_states r);
  io_users : keyed us_user_id (id_users r);
  io_subjects : NoDup (dkeys (id_user_ids_by_subject r));
  io_subject : forall s u, dget s (id_user_ids_by_subject r) = Some u <->
                 exists user, dget u (id_users r) = Some user /\ us_google_subject user = s;
  io_roles : NoDup (dkeys (id_roles r));
  io_role : forall u, match dget u (id_roles r) with
                      | Some roles => ROLE_USER ∈ roles /\ is_Some (dget u (id_users r))
                      | None => dget u (id_users r) = None
                      end;
  io_sessions : keyed se_token_hash (id_sessions r);
  io_session : forall h s, dget h (id_sessions r) = Some s -> is_Some (dget (se_user_id s) (id_users r));
  io_tickets : keyed rt_ticket_hash (id_tickets r);
  io_ticket : forall h t, dget h (id_tickets r) = Some t -> is_Some (dget (rt_user_id t) (id_users r));
  io_saveds : keyed saved_key (id_saved r);
  io_saved : forall k s, dget k (id_saved r) = Some s -> is_Some (dget (sd_user_id s) (id_users r))
}.

Lemma empty_identity_ok : identity_ok empty_identity.
Proof. split; cbn; try done; try apply keyed_nil; try apply NoDup_nil_2. intros s u. split; [done|by intros (?&?&_)]. Qed.

Lemma purge_expired_ok now r : identity_ok r -> identity_ok (purge_expired now r).2.
Proof.
  intros Hr. destruct Hr. split; cbn; try done; try (by apply keyed_dfilter).
  - intros h s [H _]%dget_dfilter_Some; [eauto|apply io_sessions0].
  - intros h s [H _]%dget_dfilter_Some; [eauto|apply io_tickets0].
Qed.

Lemma store_oauth_state_ok s r : identity_ok r -> identity_ok (store_oauth_state s r).2.
Proof. intros Hr. destruct Hr. split; cbn; try done. by apply keyed_dset. Qed.

Lemma consume_oauth_state_ok h n now r : identity_ok r -> identity_ok (consume_oauth_state h n now r).2.
Proof.
  intros Hr. unfold consume_oauth_state. destruct (dget h (id_oauth_states r)) as [s|] eqn:Es; [|done].
  destruct (negb (oauth_state_live now s)); [done|]. destruct (negb _); [done|].
  destruct Hr. split; cbn; try done.
  pose proof (proj2 io_states0 _ _ Es) as <-.
  by apply (keyed_dset os_state_hash _ (mk_OAuthStateRecord (os_state_hash s) _ _ _ _ _)).
Qed.

Lemma revoke_session_ok h now r : identity_ok r -> identity_ok (revoke_session h now r).2.
Proof.
  intros Hr. unfold revoke_session. destruct (dget h (id_sessions r)) as [s|] eqn:Es; [|done].
  destruct (se_revoked_at s); [done|]. destruct Hr. pose proof (proj2 io_sessions0 _ _ Es) as Ek.
  split; cbn; try done.
  - rewrite <-Ek. by apply (keyed_dset se_token_hash _ (revoked now s)).
  - intros h' s'. rewrite dget_dset. case_decide; [intros [= <-]; cbn; by eapply io_session0|apply io_session0].
Qed.

Lemma store_session_ok s r :
  identity_ok r -> is_Some (dget (se_user_id s) (id_users r)) -> identity_ok (store_session s r).2.
Proof.
  intros Hr Hu. destruct Hr. split; cbn; try done; [by apply keyed_dset|].
  intros h s'. rewrite dget_dset. case_decide; [by intros [= <-]|apply io_session0].
Qed.

Lemma store_ticket_ok t r :
  identity_ok r -> is_Some (dget (rt_user_id t) (id_users r)) -> identity_ok (store_realtime_ticket t r).2.
Proof.
  intros Hr Hu. destruct Hr. split; cbn; try done; [by apply keyed_dset|].
  intros h s'. rewrite dget_dset. case_decide; [by intros [= <-]|apply io_ticket0].
Qed.

Lemma consume_ticket_ok h o now r : identity_ok r -> identity_ok (consume_ticket h o now r).2.
Proof.
  intros Hr. unfold consume_ticket. destruct (dget h (id_tickets r)) as [t|] eqn:Et; [|done].
  destruct (negb (ticket_live now t)); [done|]. destruct (negb _); [done|].
  destruct Hr. pose proof (proj2 io_tickets0 _ _ Et) as Ek. split; cbn; try done.
  - rewrite <-Ek. by apply (keyed_dset rt_ticket_hash _ (mk_RealtimeTicketRecord (rt_ticket_hash t) _ _ _ _ _ _)).
  - intros h' t'. rewrite dget_dset. case_decide; [intros [= <-]; cbn; by eapply io_ticket0|apply io_ticket0].
Qed.

Lemma upsert_saved_ok s r :
  identity_ok r -> is_Some (dget (sd_user_id s) (id_users r)) -> identity_ok (upsert_saved s r).2.
Proof.
  intros Hr Hu. unfold upsert_saved. destruct (dget (saved_key s) (id_saved r)); [done|].
  destruct Hr. split; cbn; try done; [by apply keyed_dset|].
  intros k s'. rewrite dget_dset. case_decide; [by intros [= <-]|apply io_saved0].
Qed.

Lemma delete_saved_ok u t i r : identity_ok r -> identity_ok (delete_saved u t i r).2.
Proof.
  intros Hr. destruct Hr. split; cbn; try done; [by apply keyed_ddel|].
  intros k s H. apply (io_saved0 k).
  destruct (decide ((u, t, i) = k)) as [<-|Hne]; [|by rewrite dget_ddel_ne in H].
  rewrite dget_ddel_eq in H; [done|apply io_saveds0].
Qed.

Lemma add_role_ok u role r : identity_ok r -> identity_ok (add_role u role r).2.
Proof.
  intros Hr. unfold add_role, dmem. destruct (dget u (id_users r)) as [user|] eqn:Eu; [|done]. cbn [negb].
  destruct Hr. split; cbn; try done; [by apply NoDup_dkeys_dset|].
  intros u'. rewrite dget_dset. case_decide as E; [subst u'|apply io_role0].
  split; [|by rewrite Eu]. specialize (io_role0 u). unfold add_to_roles.
  assert (ROLE_USER ∈ default [ROLE_USER] (dget u (id_roles r))) as Hin
    by (destruct (dget u (id_roles r)); [apply io_role0|by left]).
  case_bool_decide; [done|]. apply elem_of_app. by left.
Qed.

Lemma is_Some_dset {K V} `{EqDecision K} (k k' : K) (v : V) d :
  is_Some (dget k' d) -> is_Some (dget k' (dset k v d)).
Proof. intros H. rewrite dget_dset. by case_decide. Qed.

Lemma upsert_user_ok i identity now r : identity_ok r -> identity_ok (upsert_user i identity now r).2.
Proof.
  intros Hr. unfold upsert_user, dmem. destruct Hr.
  destruct (dget (gi_subject identity) (id_user_ids_by_subject r)) as [u|] eqn:Es.
  - destruct (dget u (id_users r)) as [user|] eqn:Eu; [|by split]. pose proof (proj2 io_users0 _ _ Eu) as Ek.
    split; cbn; try done; try (by intros; apply is_Some_dset; eauto).
    + rewrite <-Ek. by apply (keyed_dset us_user_id _ (mk_User (us_user_id user) _ _ _ _ _ _)).
    + intros s v. rewrite io_subject0. rewrite dget_dset. case_decide as E; [subst v|done].
      rewrite Eu. split; [intros (w&[= <-]&<-)|intros (w&[= <-]&<-)]; by eexists.
    + intros v. specialize (io_role0 v). destruct (dget v (id_roles r)).
      * destruct io_role0; split; [done|by apply is_Some_dset].
      * rewrite dget_dset_ne; [done|]. intros ->. congruence.
  - destruct (dget i (id_users r)) as [user|] eqn:Eu; [by split|].
    set (user := mk_User _ _ _ _ _ _ _).
    split; cbn; try done; try (by intros; apply is_Some_dset; eauto);
      try (by apply NoDup_dkeys_dset); [by apply (keyed_dset us_user_id _ user)| |].
    + intros s v. rewrite !dget_dset. case_decide as E.
      * subst s. split.
        -- intros [= <-]. exists user. by rewrite decide_True.
        -- intros (w&Hw&Esub). case_decide as Ev; [by subst|]. exfalso.
           assert (dget (gi_subject identity) (id_user_ids_by_subject r) = Some v) by (apply io_subject0; by exists w).
           congruence.
      * rewrite io_subject0. case_decide as Ev; [subst v|done]. rewrite Eu.
        split; [by intros (w&?&_)|by intros (w&[= <-]&?)].
    + intros v. rewrite !dget_dset. specialize (io_role0 v).
      case_decide as E; [split; [by left|done]|]. destruct (dget v (id_roles r)); done.
Qed.

(** Everything else stays after a deletion. *)
Lemma is_Some_ddel {K V} `{EqDecision K} (k k' : K) (d : dict K V) :
  k <> k' -> is_Some (dget k' d) -> is_Some (dget k' (ddel k d)).
Proof. intros Hne H. by rewrite dget_ddel_ne. Qed.

Lemma delete_account_ok u r : identity_ok r -> identity_ok (repo_delete_account u r).2.
Proof.
  intros Hr. unfold repo_delete_account. destruct (dget u (id_users r)) as [user|] eqn:Eu; [|done].
  destruct Hr. split; cbn; try done; try (by apply keyed_dfilter); try (by apply NoDup_dkeys_ddel);
    try (by apply keyed_ddel).
  - intros s v. destruct (decide (us_google_subject user = s)) as [<-|Hs].
    + rewrite dget_ddel_eq by done. split; [done|]. intros (w&Hw&Esub). exfalso.
      destruct (decide (u = v)) as [<-|Hv]; [rewrite dget_ddel_eq in Hw; [done|apply io_users0]|].
      rewrite dget_ddel_ne in Hw by done. apply Hv.
      assert (dget (us_google_subject user) (id_user_ids_by_subject r) = Some v) by (apply io_subject0; by exists w).
      assert (dget (us_google_subject user) (id_user_ids_by_subject r) = Some u) by (apply io_subject0; by exists user).
      congruence.
    + rewrite dget_ddel_ne, io_subject0 by done.
      destruct (decide (u = v)) as [<-|Hv]; [|by rewrite dget_ddel_ne].
      rewrite dget_ddel_eq by apply io_users0. rewrite Eu.
      split; [by intros (w&[= <-]&?)|by intros (w&?&_)].
  - intros v. destruct (decide (u = v)) as [<-|Hv].
    + rewrite !dget_ddel_eq; [done|apply io_users0|done].
    + rewrite !dget_ddel_ne by done. apply io_role0.
  - intros h s [H Hk%negb_true_iff%bool_decide_eq_false]%dget_dfilter_Some; [|apply io_sessions0].
    apply is_Some_ddel; [congruence|by eapply io_session0].
  - intros h s [H Hk%negb_true_iff%bool_decide_eq_false]%dget_dfilter_Some; [|apply io_tickets0].
    apply is_Some_ddel; [congruence|by eapply io_ticket0].
  - intros h s [H Hk%negb_true_iff%bool_decide_eq_false]%dget_dfilter_Some; [|apply io_saveds0].
    apply is_Some_ddel; [congruence|by eapply io_saved0].
Qed.
