(* ===== verification/ReturnTo.v ===== *)
(** [packages/identity/security.py]: where a login may send the browser afterwards, on
    the bytes of the text: percent decoding, the parts of a URL, and the test of an
    internal path. *)
From S2P Require Import Prelude.
#[local] Open Scope N_scope.

(** ** [urllib.parse.unquote] *)

Definition hex_val (b : N) : option N :=
  if (48 <=? b) && (b <=? 57) then Some (b - 48)
  else if (65 <=? b) && (b <=? 70) then Some (b - 55)
  else if (97 <=? b) && (b <=? 102) then Some (b - 87)
  else None.

(** [unquote_to_bytes]: a percent sign that two hexadecimal digits do not follow stays. *)
Fixpoint unquote_to_bytes (bytes : list N) : list N :=
  match bytes with
  | [] => []
  | b :: rest =>
      if b =? 37 then
        match rest with
        | h :: rest1 =>
            match rest1 with
            | l :: rest2 =>
                match hex_val h, hex_val l with
                | Some h, Some l => (16 * h + l) :: unquote_to_bytes rest2
                | _, _ => b :: unquote_to_bytes rest
                end
            | [] => b :: unquote_to_bytes rest
            end
        | [] => [b]
        end
      else b :: unquote_to_bytes rest
  end.

(** U+FFFD *)
Definition replacement : list N := [239; 191; 189].
Definition continues (b : N) : bool := (128 <=? b) && (b <? 192).

(** The bytes that follow this one in a UTF-8 sequence, and the range of the next. *)
Definition utf8_lead (b : N) : option (N * N * N) :=
  if (194 <=? b) && (b <=? 223) then Some (1, 128, 191)
  else if b =? 224 then Some (2, 160, 191)
  else if b =? 237 then Some (2, 128, 159)
  else if (225 <=? b) && (b <=? 239) then Some (2, 128, 191)
  else if b =? 240 then Some (3, 144, 191)
  else if b =? 244 then Some (3, 128, 143)
  else if (241 <=? b) && (b <=? 243) then Some (3, 128, 191)
  else None.

(** [bytes.decode("utf-8", "replace")]: the longest part of a broken sequence becomes one
    replacement character. *)
Fixpoint utf8_replace (bytes : list N) : list N :=
  match bytes with
  | [] => []
  | b :: r1 =>
      if b <? 128 then b :: utf8_replace r1
      else
        match utf8_lead b with
        | None => replacement ++ utf8_replace r1
        | Some (k, lo, hi) =>
            match r1 with
            | [] => replacement
            | c :: r2 =>
                if negb ((lo <=? c) && (c <=? hi)) then replacement ++ utf8_replace r1
                else if k =? 1 then b :: c :: utf8_replace r2
                else
                  match r2 with
                  | [] => replacement
                  | d :: r3 =>
                      if negb (continues d) then replacement ++ utf8_replace r2
                      else if k =? 2 then b :: c :: d :: utf8_replace r3
                      else
                        match r3 with
                        | [] => replacement
                        | e :: r4 =>
                            if negb (continues e) then replacement ++ utf8_replace r3
                            else b :: c :: d :: e :: utf8_replace r4
                        end
                  end
            end
        end
  end.

(** The leading ASCII characters, and the rest. *)
Fixpoint ascii_run (bytes : list N) : list N * list N :=
  match bytes with
  | b :: rest => if b <? 128 then let '(run, rest') := ascii_run rest in (b :: run, rest') else ([], bytes)
  | [] => ([], [])
  end.

(** [unquote]: every run of ASCII characters is decoded by itself. *)
Fixpoint unquote_runs (fuel : nat) (bytes : list N) : list N :=
  match fuel, bytes with
  | S fuel, b :: rest =>
      if b <? 128 then
        let '(run, rest') := ascii_run bytes in
        utf8_replace (unquote_to_bytes run) ++ unquote_runs fuel rest'
      else b :: unquote_runs fuel rest
  | _, _ => []
  end.
Definition unquote (bytes : list N) : list N := unquote_runs (length bytes) bytes.

(** ** [urllib.parse.urlsplit] *)

Record url := mk_url { url_scheme : list N; url_netloc : list N; url_path : list N }.

Definition is_alpha (b : N) : bool := (65 <=? b) && (b <=? 90) || (97 <=? b) && (b <=? 122).
Definition is_scheme_char (b : N) : bool :=
  is_alpha b || (48 <=? b) && (b <=? 57) || (b =? 43) || (b =? 45) || (b =? 46).
Definition lower (b : N) : N := if (65 <=? b) && (b <=? 90) then b + 32 else b.

(** The longest prefix whose bytes pass the test, and the rest. *)
Fixpoint span (test : N -> bool) (bytes : list N) : list N * list N :=
  match bytes with
  | b :: rest => if test b then let '(run, rest') := span test rest in (b :: run, rest') else ([], bytes)
  | [] => ([], [])
  end.

Fixpoint lstrip_c0 (bytes : list N) : list N :=
  match bytes with b :: rest => if b <=? 32 then lstrip_c0 rest else bytes | [] => [] end.

Definition split_scheme (bytes : list N) : list N * list N :=
  let '(before, rest) := span (fun b => negb (b =? 58)) bytes in
  match before, rest with
  | first :: _, _ :: after =>
      if is_alpha first && forallb is_scheme_char before then (lower <$> before, after) else ([], bytes)
  | _, _ => ([], bytes)
  end.

Definition two_slashes (bytes : list N) : bool :=
  match bytes with 47 :: 47 :: _ => true | _ => false end.
Definition one_slash (bytes : list N) : bool :=
  match bytes with 47 :: _ => true | _ => false end.
Definition has_byte (b : N) (bytes : list N) : bool := existsb (fun c => c =? b) bytes.

Definition is_nil {A} (l : list A) : bool := match l with [] => true | _ => false end.

(** [host_ok] stands for the checks of the standard library on the host alone: a bracketed
    host is an IP address, and its compatibility form brings in no URL delimiter. *)
Definition urlsplit (host_ok : list N -> bool) (bytes : list N) : res url :=
  let bytes := List.filter (fun b => negb ((b =? 9) || (b =? 10) || (b =? 13))) (lstrip_c0 bytes) in
  let '(scheme, rest) := split_scheme bytes in
  let '(netloc, rest) :=
    if two_slashes rest
    then span (fun b => negb ((b =? 47) || (b =? 63) || (b =? 35))) (drop 2 rest)
    else ([], rest) in
  _ ← raise_if (xorb (has_byte 91 netloc) (has_byte 93 netloc)) ValueError;
  _ ← raise_if (negb (is_nil netloc) && negb (host_ok netloc)) ValueError;
  Ok (mk_url scheme netloc (span (fun b => negb ((b =? 35) || (b =? 63))) rest).1).

(** ** The test *)

Definition has_control_bytes (bytes : list N) : bool := existsb (fun b => (b <? 32) || (b =? 127)) bytes.

(** Decoded until nothing changes, three times at most. *)
Fixpoint decode_candidate (n : nat) (candidate : list N) : list N :=
  match n with
  | O => candidate
  | S n =>
      let decoded := unquote candidate in
      if bool_decide (decoded = candidate) then candidate else decode_candidate n decoded
  end.

(** [parsed.scheme or parsed.netloc or not parsed.path.startswith("/") or
    parsed.path.startswith("//")] *)
Definition leaves_site (u : url) : bool :=
  negb (is_nil (url_scheme u)) || negb (is_nil (url_netloc u)) ||
  negb (one_slash (url_path u)) || two_slashes (url_path u).

(* @ packages/identity/security.py 57-105 validate_internal_return_to *)
Definition validate_internal_return_to (host_ok : list N -> bool) (value : option string)
    (fallback : string) (maximum_length : Z) : res string :=
  match value with
  | None => Ok fallback
  | Some value =>
      if is_empty value then Ok fallback
      else if (maximum_length <? py_len value)%Z || negb (bool_decide (value = strip value)) then Ok fallback
      else if has_control value then Ok fallback
      else
        let candidate := decode_candidate 3 (bytes_of value) in
        if two_slashes candidate || has_byte 92 candidate then Ok fallback
        else if has_control_bytes candidate then Ok fallback
        else
          parsed ← urlsplit host_ok candidate;
          if leaves_site parsed then Ok fallback
          else
            original ← urlsplit host_ok (bytes_of value);
            if leaves_site original then Ok fallback else Ok value
  end.

Example return_to_page :
  validate_internal_return_to (fun _ => true) (Some "/themes/a%20b?tab=1") "/today" 2048 = Ok "/themes/a%20b?tab=1".
Proof. vm_compute. reflexivity. Qed.
Example return_to_encoded :
  validate_internal_return_to (fun _ => true) (Some "/%252Fevil.example") "/today" 2048 = Ok "/today".
Proof. vm_compute. reflexivity. Qed.

(** ** What decoding keeps *)

Lemma in_unquote_to_bytes b bytes :
  b <> 37 -> hex_val b = None -> b ∈ bytes -> b ∈ unquote_to_bytes bytes.
Proof.
  intros Hb Hx. remember (length bytes) as n eqn:En. revert bytes En.
  induction (lt_wf n) as [n _ IH]; intros bytes -> Hin.
  destruct bytes as [|c rest]; [by apply not_elem_of_nil in Hin|].
  cbn [unquote_to_bytes length] in *.
  assert (forall l, (length l <= length rest)%nat -> b ∈ l -> b ∈ unquote_to_bytes l) as IH'
    by (intros l Hl; apply (IH (length l)); [lia|done]).
  apply elem_of_cons in Hin as [->|Hin].
  { destruct (N.eqb_spec c 37) as [->|_]; [done|by left]. }
  destruct (c =? 37); [|right; by apply IH'].
  destruct rest as [|h [|l rest2]]; [by apply not_elem_of_nil in Hin|right; by apply IH'|].
  destruct (hex_val h) eqn:Eh; [|right; by apply IH'].
  destruct (hex_val l) eqn:El; [|right; by apply IH'].
  right. apply IH'; [simpl; lia|].
  apply elem_of_cons in Hin as [->|Hin]; [congruence|].
  by apply elem_of_cons in Hin as [->|Hin]; [congruence|].
Qed.

Lemma continues_high b : continues b = true -> 128 <= b.
Proof. unfold continues. by intros [?%N.leb_le _]%andb_true_iff. Qed.

Lemma in_utf8_replace b bytes : b < 128 -> b ∈ bytes -> b ∈ utf8_replace bytes.
Proof.
  intros Hb. remember (length bytes) as n eqn:En. revert bytes En.
  induction (lt_wf n) as [n _ IH]; intros bytes -> Hin.
  destruct bytes as [|a r1]; [by apply not_elem_of_nil in Hin|].
  cbn [utf8_replace length] in *.
  assert (forall l, (length l <= length r1)%nat -> b ∈ l -> b ∈ utf8_replace l) as IH'
    by (intros l Hl; apply (IH (length l)); [lia|done]). clear IH.
  destruct (N.ltb_spec a 128) as [Ha|Ha].
  { apply elem_of_cons in Hin as [->|Hin]; [by left|right; by apply IH']. }
  apply elem_of_cons in Hin as [->|Hin]; [lia|].
  destruct (utf8_lead a) as [[[k lo] hi]|] eqn:El; [|apply elem_of_app; right; by apply IH'].
  assert (128 <= lo) as Hlo.
  { clear -El. unfold utf8_lead in El.
    repeat match type of El with context [if ?c then _ else _] => destruct c end;
      try discriminate El; injection El as _ <- _; lia. }
  destruct r1 as [|c r2]; [by apply not_elem_of_nil in Hin|].
  destruct (N.leb_spec lo c) as [Hc|Hc]; cbn [andb negb]; [|apply elem_of_app; right; by apply IH'].
  destruct (c <=? hi); cbn [negb]; [|apply elem_of_app; right; by apply IH'].
  apply elem_of_cons in Hin as [->|Hin]; [lia|].
  destruct (k =? 1); [do 2 right; apply IH'; [simpl; lia|done]|].
  destruct r2 as [|d r3]; [by apply not_elem_of_nil in Hin|].
  destruct (continues d) eqn:Ed; cbn [negb]; [|apply elem_of_app; right; apply IH'; [simpl; lia|done]].
  apply elem_of_cons in Hin as [->|Hin]; [apply continues_high in Ed; lia|].
  destruct (k =? 2); [do 3 right; apply IH'; [simpl; lia|done]|].
  destruct r3 as [|e r4]; [by apply not_elem_of_nil in Hin|].
  destruct (continues e) eqn:Ee; cbn [negb]; [|apply elem_of_app; right; apply IH'; [simpl; lia|done]].
  apply elem_of_cons in Hin as [->|Hin]; [apply continues_high in Ee; lia|].
  do 4 right. apply IH'; [simpl; lia|done].
Qed.

Lemma ascii_run_app bytes : (ascii_run bytes).1 ++ (ascii_run bytes).2 = bytes.
Proof.
  induction bytes as [|b bytes IH]; [done|]. simpl. destruct (b <? 128); [|done].
  destruct (ascii_run bytes). simpl in *. by rewrite IH.
Qed.

Lemma in_unquote b bytes :
  b < 128 -> b <> 37 -> hex_val b = None -> b ∈ bytes -> b ∈ unquote bytes.
Proof.
  intros Hb Hp Hx. unfold unquote. generalize (le_n (length bytes)). generalize (length bytes) at 2 3 as fuel.
  intros fuel; revert bytes; induction fuel as [|fuel IH]; intros bytes Hl Hin.
  { destruct bytes; [by apply not_elem_of_nil in Hin|simpl in Hl; lia]. }
  destruct bytes as [|a rest]; [by apply not_elem_of_nil in Hin|]. cbn [unquote_runs].
  destruct (N.ltb_spec a 128) as [Ha|Ha].
  - pose proof (ascii_run_app (a :: rest)) as E.
    assert ((ascii_run (a :: rest)).1 <> []) as Hne.
    { simpl. apply N.ltb_lt in Ha. rewrite Ha. by destruct (ascii_run rest). }
    destruct (ascii_run (a :: rest)) as [run rest']. simpl in E, Hne.
    rewrite <-E in Hin. apply elem_of_app. apply elem_of_app in Hin as [Hin|Hin].
    + left. by apply in_utf8_replace, in_unquote_to_bytes.
    + right. apply IH; [|done]. apply (f_equal length) in E. rewrite length_app in E.
      destruct run; [done|]. simpl in *. lia.
  - apply elem_of_cons in Hin as [->|Hin]; [lia|]. right. apply IH; [simpl in Hl; lia|done].
Qed.

Lemma unquote_one_slash bytes : one_slash bytes = true -> one_slash (unquote bytes) = true.
Proof.
  intros H. destruct bytes as [|b rest]; [done|].
  assert (b = 47) as -> by (unfold one_slash in H; by repeat case_match).
  unfold unquote. cbn. destruct (ascii_run rest). done.
Qed.

Lemma unquote_two_slashes bytes : two_slashes bytes = true -> two_slashes (unquote bytes) = true.
Proof.
  intros H. destruct bytes as [|b [|c rest]]; [done|by unfold two_slashes in H; repeat case_match|].
  assert (b = 47) as -> by (unfold two_slashes in H; by repeat case_match).
  assert (c = 47) as -> by (unfold two_slashes in H; by repeat case_match).
  unfold unquote. cbn. destruct (ascii_run rest). done.
Qed.

(** [value] takes the browser nowhere else, however often its escapes are decoded: one
    slash first, no backslash and no control character. *)
Definition stays_on_site (bytes : list N) : bool :=
  one_slash bytes && negb (two_slashes bytes) && negb (has_byte 92 bytes) && negb (has_control_bytes bytes).

Lemma has_byte_in b bytes : has_byte b bytes = true <-> b ∈ bytes.
Proof.
  unfold has_byte. rewrite existsb_exists. split.
  - intros (c&Hc%list_elem_of_In&->%N.eqb_eq). done.
  - intros H. exists b. by rewrite <-list_elem_of_In, N.eqb_refl.
Qed.

Lemma has_control_in bytes :
  has_control_bytes bytes = true <-> exists b, b ∈ bytes /\ (b < 32 \/ b = 127).
Proof.
  unfold has_control_bytes. rewrite existsb_exists. split.
  - intros (b&Hb%list_elem_of_In&Hc). exists b. split; [done|].
    apply orb_true_iff in Hc as [?%N.ltb_lt|?%N.eqb_eq]; auto.
  - intros (b&Hb&Hc). exists b. rewrite <-list_elem_of_In. split; [done|].
    apply orb_true_iff. rewrite N.ltb_lt, N.eqb_eq. done.
Qed.

(** What is wrong before decoding is wrong afterwards. *)
Lemma unquote_stays bytes :
  one_slash bytes = true -> stays_on_site (unquote bytes) = true -> stays_on_site bytes = true.
Proof.
  intros H1 H. unfold stays_on_site in *. rewrite H1.
  apply andb_true_iff in H as [H Hc%negb_true_iff]. apply andb_true_iff in H as [H Hb%negb_true_iff].
  apply andb_true_iff in H as [_ H2%negb_true_iff]. cbn [andb].
  assert (two_slashes bytes = false) as ->.
  { destruct (two_slashes bytes) eqn:E; [|done]. by rewrite unquote_two_slashes in H2. }
  assert (has_byte 92 bytes = false) as ->.
  { destruct (has_byte 92 bytes) eqn:E; [|done]. apply has_byte_in in E.
    rewrite <-Hb. symmetry. apply has_byte_in. by apply in_unquote. }
  assert (has_control_bytes bytes = false) as ->; [|done].
  destruct (has_control_bytes bytes) eqn:E; [|done]. apply has_control_in in E as (b&Hin&Hlt).
  rewrite <-Hc. symmetry. apply has_control_in. exists b. split; [|done]. apply in_unquote; [lia|lia| |done].
  unfold hex_val. repeat match goal with |- context [?x <=? ?y] => destruct (N.leb_spec x y) end; (done || lia).
Qed.

Lemma decode_candidate_stays n bytes :
  one_slash bytes = true -> stays_on_site (decode_candidate n bytes) = true ->
  forall k, (k <= n)%nat -> stays_on_site (Nat.iter k unquote bytes) = true.
Proof.
  revert bytes; induction n as [|n IH]; intros bytes H1 H k Hk.
  { by replace k with 0%nat by lia. }
  cbn [decode_candidate] in H. case_bool_decide as E.
  - assert (Nat.iter k unquote bytes = bytes) as ->; [|done].
    clear -E. induction k as [|k IH]; [done|]. simpl. by rewrite IH.
  - pose proof (IH (unquote bytes) (unquote_one_slash _ H1) H) as Hn.
    destruct k as [|k].
    + apply unquote_stays; [done|]. by apply (Hn 0%nat); lia.
    + rewrite Nat.iter_succ_r. by apply Hn; lia.
Qed.

Lemma decode_one_slash n bytes : one_slash bytes = true -> one_slash (decode_candidate n bytes) = true.
Proof.
  revert bytes; induction n as [|n IH]; intros bytes H; simpl; [done|].
  case_bool_decide; [done|]. by apply IH, unquote_one_slash.
Qed.

(** ** What splitting sees *)

Lemma length_bytes_of s : length (bytes_of s) = String.length s.
Proof. unfold bytes_of. rewrite length_fmap. induction s; simpl; congruence. Qed.

Lemma length_lstrip fuel bytes : (length (lstrip_bytes fuel bytes) <= length bytes)%nat.
Proof.
  revert bytes; induction fuel as [|fuel IH]; intros bytes; simpl; [done|].
  destruct (skip_blank bytes) as [rest|] eqn:E; [|done]. etransitivity; [apply IH|].
  unfold skip_blank in E. repeat (case_match; simplify_eq; simpl; try lia).
Qed.

Lemma length_rstrip fuel bytes : (length (rstrip_bytes fuel bytes) <= length bytes)%nat.
Proof.
  revert bytes; induction fuel as [|fuel IH]; intros bytes; simpl; [done|].
  destruct (blank_suffix bytes); [|done]. etransitivity; [apply IH|]. rewrite length_take. lia.
Qed.

(** A stripped text does not start with a blank. *)
Lemma stripped_head s rest : strip s = s -> bytes_of s <> 32 :: rest.
Proof.
  intros Hs E. apply (f_equal String.length) in Hs. unfold strip in Hs.
  rewrite <-(length_bytes_of s), E in Hs. cbn [length lstrip_bytes skip_blank] in Hs.
  change (is_ascii_space 32) with true in Hs. cbv iota in Hs.
  assert (forall l, String.length (String.string_of_list_ascii l) = length l) as Hl
    by (intros l; induction l; simpl; congruence).
  rewrite Hl, length_fmap in Hs.
  pose proof (length_rstrip (S (length rest)) (lstrip_bytes (length rest) rest)).
  pose proof (length_lstrip (length rest) rest). lia.
Qed.

Lemma clean_urlsplit bytes :
  has_control_bytes bytes = false -> (forall rest, bytes <> 32 :: rest) ->
  List.filter (fun b => negb ((b =? 9) || (b =? 10) || (b =? 13))) (lstrip_c0 bytes) = bytes.
Proof.
  intros Hc Hs. assert (forall b, b ∈ bytes -> 32 <= b) as Hge.
  { intros b Hb. apply N.le_ngt. intros Hlt. apply not_true_iff_false in Hc. apply Hc, has_control_in. eauto. }
  assert (lstrip_c0 bytes = bytes) as ->.
  { destruct bytes as [|b rest]; [done|]. simpl. destruct (N.leb_spec b 32) as [Hb|]; [|done].
    pose proof (Hge b ltac:(by left)). destruct (Hs rest). f_equal. lia. }
  apply filterb_all. intros b Hb. specialize (Hge b Hb).
  destruct (N.eqb_spec b 9), (N.eqb_spec b 10), (N.eqb_spec b 13); (done || lia).
Qed.

Lemma split_scheme_none bytes scheme rest :
  split_scheme bytes = (scheme, rest) -> scheme = [] -> rest = bytes.
Proof.
  unfold split_scheme. destruct (span _ bytes) as [before after]. intros H ->.
  destruct before, after; [by injection H|by injection H|by injection H|].
  destruct (is_alpha _ && _); [discriminate H|by injection H].
Qed.

Lemma two_slashes_one bytes : two_slashes bytes = true -> one_slash bytes = true.
Proof.
  destruct bytes as [|b bytes]; [done|]. unfold two_slashes, one_slash. intros H.
  destruct (N.eq_dec b 47) as [->|Hb]; [done|]. exfalso. by repeat case_match.
Qed.

Lemma path_slash host_ok bytes u :
  has_control_bytes bytes = false -> (forall rest, bytes <> 32 :: rest) ->
  urlsplit host_ok bytes = Ok u -> leaves_site u = false -> one_slash bytes = true.
Proof.
  intros Hc Hs H Hu. unfold urlsplit in H. rewrite clean_urlsplit in H by done.
  unfold leaves_site in Hu. apply orb_false_iff in Hu as [Hu _].
  apply orb_false_iff in Hu as [Hu Hp%negb_false_iff].
  apply orb_false_iff in Hu as [Hsch%negb_false_iff _].
  destruct (split_scheme bytes) as [scheme rest] eqn:Es.
  assert (rest = bytes) as ->.
  { apply (split_scheme_none bytes scheme); [done|].
    destruct (if two_slashes rest then _ else _). inv_ok H. simpl in Hsch. by destruct scheme. }
  destruct (two_slashes bytes) eqn:E2; [by apply two_slashes_one|].
  inv_ok H. cbn [url_path] in Hp. destruct bytes as [|b bytes]; [done|]. cbn [span] in Hp.
  destruct (negb ((b =? 35) || (b =? 63))); [|discriminate Hp].
  destruct (span (fun b => negb ((b =? 35) || (b =? 63))) bytes). exact Hp.
Qed.

(** C40: The place a login returns to is the fallback, or the requested text itself when
    it is a path of this site: it starts with exactly one slash and holds no backslash
    and no control character, and neither does what its percent escapes decode to, up to
    three times.  The only other outcome is the [ValueError] with which [urlsplit] refuses
    a malformed host, and there is a text that has it. *)
Theorem return_to_is_internal host_ok value fallback maximum_length :
  match validate_internal_return_to host_ok value fallback maximum_length with
  | Ok v => v = fallback \/
            value = Some v /\
            forall k, (k <= 3)%nat -> stays_on_site (Nat.iter k unquote (bytes_of v)) = true
  | Raise e => e = ValueError
  end /\
  validate_internal_return_to host_ok (Some "http://[x") fallback 2048 = Raise ValueError.
Proof.
  split; [|reflexivity]. unfold validate_internal_return_to.
  destruct value as [v|]; [|by left]. destruct (is_empty v); [by left|].
  destruct (_ || negb (bool_decide (v = strip v))) eqn:Estrip; [by left|].
  apply orb_false_iff in Estrip as [_ Estrip%negb_false_iff%bool_decide_eq_true].
  destruct (has_control v) eqn:Ectl; [by left|]. cbv zeta.
  set (c := decode_candidate 3 (bytes_of v)).
  destruct (_ || has_byte 92 c) eqn:Ec; [by left|]. apply orb_false_iff in Ec as [Ec2 Ecb].
  destruct (has_control_bytes c) eqn:Ecc; [by left|].
  assert (forall b e, urlsplit host_ok b = Raise e -> e = ValueError) as Herr.
  { clear. intros b e H. unfold urlsplit in H. destruct (split_scheme _) as [? r].
    destruct (if two_slashes r then _ else _). unfold raise_if in H.
    destruct (xorb _ _); simpl in H; [by simplify_eq|]. by destruct (_ && _); simpl in H; simplify_eq. }
  destruct (urlsplit host_ok c) as [parsed|e] eqn:Eu; cbn; [|by apply Herr in Eu].
  destruct (leaves_site parsed) eqn:El; [by left|].
  destruct (urlsplit host_ok (bytes_of v)) as [original|e] eqn:Eo; cbn; [|by apply Herr in Eo].
  destruct (leaves_site original) eqn:Elo; [by left|]. right. split; [done|].
  assert (one_slash (bytes_of v) = true) as H1.
  { apply (path_slash host_ok _ original); try done. intros rest. by apply stripped_head. }
  apply decode_candidate_stays; [done|]. fold c. unfold stays_on_site. rewrite Ec2, Ecb, Ecc.
  cbn [negb]. rewrite !andb_true_r. apply decode_one_slash. done.
Qed.
