(* ===== verification/Identity.v ===== *)
(** [packages/identity/service.py]: logins, sessions, the guard of every change, realtime
    tickets, saved items and the deletion of an account. *)
From S2P Require Import Prelude Sha256 PyTime PyDecimal PyFloat Json IdentityModels ReturnTo.
#[local] Open Scope Z_scope.
#[local] Notation Repo := InMemoryIdentityRepository.

(** ** Policy and helpers *)

(* @ packages/identity/service.py 52-61 IdentityPolicy *)
Record IdentityPolicy := mk_IdentityPolicy {
  ip_app_base_url : string;
  ip_oauth_callback_path : string;
  ip_default_return_to : string;
  ip_session_ttl : timedelta;
  ip_oauth_state_ttl : timedelta;
  ip_realtime_ticket_ttl : timedelta;
  ip_recent_authentication_window : timedelta;
  ip_operator_bootstrap_emails : list string
}.

(** [s.rstrip("/")] *)
Fixpoint drop_slashes (rev : list ascii) : list ascii :=
  match rev with c :: rest => if decide (c = ascii_of_N 47) then drop_slashes rest else rev | [] => [] end.
Definition rstrip_slash (s : string) : string :=
  String.string_of_list_ascii (reverse (drop_slashes (reverse (String.list_ascii_of_string s)))).

(* @ packages/identity/service.py 99-101 IdentityPolicy.allowed_origin *)
Definition allowed_origin (p : IdentityPolicy) : string := rstrip_slash (ip_app_base_url p).
(* @ packages/identity/service.py 103-105 IdentityPolicy.oauth_redirect_uri *)
Definition oauth_redirect_uri (p : IdentityPolicy) : string := allowed_origin p +:+ ip_oauth_callback_path p.

(* @ packages/identity/security.py 35-36 token_hash *)
Definition token_hash (value : string) : string := sha256_hex value.

(* @ packages/identity/security.py 53-54 constant_time_equal *)
Definition constant_time_equal (left right : string) : bool := bool_decide (left = right).

(* @ packages/identity/security.py 108-112 CursorPosition *)
Record CursorPosition := mk_CursorPosition {
  cp_saved_at : datetime;
  cp_target_id : string;
  cp_saved_type : SavedType
}.

(** The cursor of a page is held decoded. *)
(* @ packages/identity/models.py 149-154 SavedPage *)
Record SavedPage := mk_SavedPage {
  sp_items : list SavedItem;
  sp_next_cursor : option CursorPosition;
  sp_has_more : bool;
  sp_limit : Z
}.

(** The repository and the catalog, and how often the clock was read and a token drawn. *)
Record World := mk_World {
  w_repo : Repo;
  w_catalog : InMemoryTargetCatalog;
  w_reads : nat;
  w_tokens : nat
}.

Definition set_repo (r : Repo) (w : World) : World := mk_World r (w_catalog w) (w_reads w) (w_tokens w).

(** A call of the repository; it takes its lock for the time of the call. *)
Definition on_repo {A} (m : M Repo A) : M World A := fun w =>
  ((m (w_repo w)).1, set_repo (m (w_repo w)).2 w).

(** The header fields and the cookies of a request. *)
Record credentials := mk_credentials {
  cr_session_token : option string;
  cr_origin : option string;
  cr_csrf_token : option string;
  cr_csrf_cookie : option string
}.

(** [1 <= len(s) <= n] *)
Definition len_within (n : Z) (s : string) : bool := (1 <=? py_len s) && (py_len s <=? n).

(* @ packages/identity/service.py 633-638 IdentityService._validate_target_id *)
Definition validate_target_id (target_id : string) : res unit :=
  _ ← raise_if (negb (len_within 128 target_id)) InvalidRequest;
  raise_if (existsb (fun b => (b <? 32) || (b =? 47) || (b =? 92))%N (bytes_of target_id)) InvalidRequest.

(* @ packages/identity/service.py 555-595 IdentityService._project_saved *)
Definition project_saved (catalog : InMemoryTargetCatalog) (record : SavedRecord) (roles : list Role) : SavedItem :=
  match get_target (sd_saved_type record) (sd_target_id record) catalog with
  | None =>
      mk_SavedItem (sd_saved_type record) (sd_target_id record) (sd_display_name_snapshot record)
        (sd_saved_at record) UNAVAILABLE (Some "RESOURCE_NOT_FOUND") None
  | Some target =>
      if match tg_required_role target with Some role => negb (bool_decide (role ∈ roles)) | None => false end then
        mk_SavedItem (sd_saved_type record) (sd_target_id record) (sd_display_name_snapshot record)
          (sd_saved_at record) UNAVAILABLE (Some "FEATURE_NOT_ENTITLED") None
      else if bool_decide (tg_availability target = UNAVAILABLE) then
        mk_SavedItem (sd_saved_type record) (sd_target_id record) (tg_display_name target)
          (sd_saved_at record) UNAVAILABLE
          (Some match tg_unavailable_reason target with
                | Some reason => if is_empty reason then "RESOURCE_NOT_FOUND" else reason
                | None => "RESOURCE_NOT_FOUND"
                end) None
      else
        mk_SavedItem (sd_saved_type record) (sd_target_id record) (tg_display_name target)
          (sd_saved_at record) AVAILABLE None (tg_current_state target)
  end.

(* @ packages/identity/service.py 597-604 IdentityService._is_after *)
Definition is_after (record : SavedRecord) (position : CursorPosition) : bool :=
  if negb (dt_eqb (sd_saved_at record) (cp_saved_at position))
  then dt_lt (sd_saved_at record) (cp_saved_at position)
  else pylt (cp_target_id position, SavedType_value (cp_saved_type position))
            (sd_target_id record, SavedType_value (sd_saved_type record)).

Section service.
Context (policy : IdentityPolicy).
(** The [i]-th reading of the clock, and the [i]-th token, of so many random bytes. *)
Context (clock : nat -> datetime) (token : nat -> Z -> string).
(** [str.casefold], and the standard library's test of a host. *)
Context (casefold : string -> string) (host_ok : list N -> bool).
(** The OAuth provider: [exchange_code] answers [None] when it raises
    [OAuthProviderError]. *)
Context (authorization_url : string -> string -> string) (exchange_code : string -> string -> option GoogleIdentity).

Definition now : M World datetime := fun w =>
  (Ok (clock (w_reads w)), mk_World (w_repo w) (w_catalog w) (S (w_reads w)) (w_tokens w)).
Definition create (number_of_bytes : Z) : M World string := fun w =>
  (Ok (token (w_tokens w) number_of_bytes), mk_World (w_repo w) (w_catalog w) (w_reads w) (S (w_tokens w))).

(* @ packages/identity/security.py 39-40 normalize_email *)
Definition normalize_email (value : string) : string := casefold (strip value).

(* @ packages/identity/service.py 606-609 IdentityService._is_bootstrap_operator *)
Definition is_bootstrap_operator (identity : GoogleIdentity) : bool :=
  match gi_email identity with
  | Some email => gi_email_verified identity &&
                  bool_decide (normalize_email email ∈ ip_operator_bootstrap_emails policy)
  | None => false
  end.

(* @ packages/identity/service.py 611-631 IdentityService._validate_google_identity *)
Definition validate_google_identity (identity : GoogleIdentity) : res unit :=
  _ ← raise_if (negb (len_within 255 (gi_subject identity)) ||
                negb (bool_decide (gi_subject identity = strip (gi_subject identity)))) OAuthCallbackRejected;
  _ ← raise_if (negb (len_within 200 (strip (gi_display_name identity)))) OAuthCallbackRejected;
  _ ← match gi_email identity with
      | Some email =>
          let normalized_email := normalize_email email in
          raise_if (negb (len_within 320 normalized_email) || negb (has_byte 64 (bytes_of normalized_email)) ||
                    has_space normalized_email) OAuthCallbackRejected
      | None => Ok tt
      end;
  raise_if (existsb has_control ([gi_subject identity; gi_display_name identity] ++
                                 match gi_email identity with Some email => [email] | None => [] end))
    OAuthCallbackRejected.

(** ** Login *)

(* @ packages/identity/service.py 128-152 IdentityService.begin_google_login *)
Definition begin_google_login (return_to : option string) : M World OAuthLoginStart :=
  time ← now;
  safe_return_to ← lift (validate_internal_return_to host_ok return_to (ip_default_return_to policy) 2048);
  _ ← on_repo (purge_expired time);
  raw_state ← create 32;
  browser_nonce ← create 32;
  let expires_at := dt_add time (ip_oauth_state_ttl policy) in
  _ ← on_repo (store_oauth_state
                 (mk_OAuthStateRecord (token_hash raw_state) (token_hash browser_nonce) safe_return_to time
                    expires_at None));
  mret (mk_OAuthLoginStart (authorization_url raw_state (oauth_redirect_uri policy)) browser_nonce expires_at).

Definition empty_or_long (n : Z) (s : string) : bool := negb (len_within n s).

(* @ packages/identity/service.py 154-223 IdentityService.complete_google_login *)
Definition complete_google_login (code state browser_nonce : string) (current_session_token : option string)
    : M World LoginCompletion :=
  if empty_or_long 2048 code || empty_or_long 512 state || empty_or_long 512 browser_nonce
  then throw OAuthCallbackRejected
  else
    time ← now;
    oauth_state ← on_repo (consume_oauth_state (token_hash state) (token_hash browser_nonce) time);
    match oauth_state with
    | None => throw OAuthCallbackRejected
    | Some oauth_state =>
        match exchange_code code (oauth_redirect_uri policy) with
        | None => throw OAuthCallbackRejected
        | Some identity =>
            _ ← lift (validate_google_identity identity);
            let identity := mk_GoogleIdentity (gi_subject identity) (strip (gi_display_name identity))
                              (normalize_email <$> gi_email identity) (gi_email_verified identity) in
            user_token ← create 18;
            user ← on_repo (upsert_user ("usr_" +:+ user_token) identity time);
            _ ← on_repo (add_role (us_user_id user) ROLE_USER);
            _ ← (if is_bootstrap_operator identity then on_repo (add_role (us_user_id user) ROLE_OPERATOR)
                 else mret tt);
            _ ← match current_session_token with
                | Some current => if is_empty current then mret tt
                                  else on_repo (revoke_session (token_hash current) time)
                | None => mret tt
                end;
            raw_session_token ← create 48;
            raw_csrf_token ← create 32;
            let expires_at := dt_add time (ip_session_ttl policy) in
            _ ← on_repo (store_session
                           (mk_SessionRecord (token_hash raw_session_token) (us_user_id user)
                              (token_hash raw_csrf_token) time expires_at time None));
            roles ← on_repo (get_roles (us_user_id user));
            mret (mk_LoginCompletion raw_session_token raw_csrf_token expires_at (os_return_to oauth_state)
                    user roles)
        end
    end.

(** ** Sessions *)

(** [record.revoked_at is None and record.expires_at > now] *)
Definition session_live (time : datetime) (s : SessionRecord) : bool :=
  match se_revoked_at s with None => negb (dt_le (se_expires_at s) time) | Some _ => false end.

(* @ packages/identity/service.py 239-262 IdentityService._authenticate_session_hash *)
Definition authenticate_session_hash (session_token_hash : string) : M World (option SessionPrincipal) :=
  time ← now;
  record ← on_repo (get_session session_token_hash);
  match record with
  | None => mret None
  | Some record =>
      match se_revoked_at record with
      | Some _ => mret None
      | None =>
          if dt_le (se_expires_at record) time then
            _ ← on_repo (revoke_session session_token_hash time); mret None
          else
            user ← on_repo (get_user (se_user_id record));
            match user with
            | None => mret None
            | Some user =>
                roles ← on_repo (get_roles (us_user_id user));
                if bool_decide (ROLE_USER ∉ roles) then mret None
                else mret (Some (mk_SessionPrincipal session_token_hash user roles
                                   (se_authenticated_at record) (se_expires_at record)))
            end
      end
  end.

(* @ packages/identity/service.py 225-228 IdentityService.authenticate *)
Definition authenticate (session_token : option string) : M World (option SessionPrincipal) :=
  match session_token with
  | Some t => if is_empty t || (512 <? py_len t) then mret None else authenticate_session_hash (token_hash t)
  | None => mret None
  end.

(* @ packages/identity/service.py 230-237 IdentityService.refresh_principal *)
Definition refresh_principal (principal : SessionPrincipal) : M World (option SessionPrincipal) :=
  refreshed ← authenticate_session_hash (pr_session_token_hash principal);
  match refreshed with
  | Some fresh =>
      if bool_decide (us_user_id (pr_user fresh) <> us_user_id (pr_user principal)) then mret None
      else mret (Some fresh)
  | None => mret None
  end.

(* @ packages/identity/service.py 264-268 IdentityService.require_authenticated *)
Definition require_authenticated (session_token : option string) : M World SessionPrincipal :=
  principal ← authenticate session_token;
  match principal with Some p => mret p | None => throw AuthenticationRequired end.

(* @ packages/identity/service.py 270-274 IdentityService.require_operator *)
Definition require_operator (session_token : option string) : M World SessionPrincipal :=
  principal ← require_authenticated session_token;
  if bool_decide (ROLE_OPERATOR ∈ pr_roles principal) then mret principal else throw FeatureNotEntitled.

(* @ packages/identity/service.py 525-553 IdentityService._validate_origin_and_csrf *)
Definition validate_origin_and_csrf (principal : option SessionPrincipal) (c : credentials)
    (allow_without_session : bool) : M World unit :=
  match cr_origin c with
  | None => throw CsrfValidationFailed
  | Some origin =>
      if negb (constant_time_equal origin (allowed_origin policy)) then throw CsrfValidationFailed
      else
        match cr_csrf_token c with
        | None => throw CsrfValidationFailed
        | Some csrf_token =>
            if is_empty csrf_token || (512 <? py_len csrf_token) then throw CsrfValidationFailed
            else if match cr_csrf_cookie c with
                    | Some cookie => negb (constant_time_equal csrf_token cookie)
                    | None => false
                    end then throw CsrfValidationFailed
            else
              match principal with
              | None => if allow_without_session then mret tt else throw AuthenticationRequired
              | Some p =>
                  match cr_csrf_cookie c with
                  | None => throw CsrfValidationFailed
                  | Some _ =>
                      record ← on_repo (get_session (pr_session_token_hash p));
                      match record with
                      | None => throw CsrfValidationFailed
                      | Some record =>
                          match se_revoked_at record with
                          | Some _ => throw CsrfValidationFailed
                          | None =>
                              time ← now;
                              if dt_le (se_expires_at record) time ||
                                 negb (constant_time_equal (se_csrf_token_hash record) (token_hash csrf_token))
                              then throw CsrfValidationFailed else mret tt
                          end
                      end
                  end
              end
        end
  end.

(* @ packages/identity/service.py 507-523 IdentityService._authorize_mutation *)
Definition authorize_mutation (c : credentials) : M World SessionPrincipal :=
  principal ← require_authenticated (cr_session_token c);
  _ ← validate_origin_and_csrf (Some principal) c false;
  mret principal.

(* @ packages/identity/service.py 276-298 IdentityService.authorize_operator_command *)
Definition authorize_operator_command (c : credentials) : M World SessionPrincipal :=
  principal ← require_operator (cr_session_token c);
  _ ← validate_origin_and_csrf (Some principal) c false;
  mret principal.

(* @ packages/identity/service.py 300-319 IdentityService.authorize_question *)
Definition authorize_question (c : credentials) : M World SessionPrincipal := authorize_mutation c.

(* @ packages/identity/service.py 321-338 IdentityService.logout *)
Definition logout (c : credentials) : M World unit :=
  principal ← authenticate (cr_session_token c);
  _ ← validate_origin_and_csrf principal c true;
  match cr_session_token c with
  | Some t => if is_empty t then mret tt
              else time ← now; on_repo (revoke_session (token_hash t) time)
  | None => mret tt
  end.

(** ** Realtime tickets *)

(* @ packages/identity/service.py 340-367 IdentityService.issue_realtime_ticket *)
Definition issue_realtime_ticket (c : credentials) : M World RealtimeTicket :=
  principal ← authorize_mutation c;
  time ← now;
  raw_ticket ← create 32;
  let expires_at := dt_add time (ip_realtime_ticket_ttl policy) in
  _ ← on_repo (store_realtime_ticket
                 (mk_RealtimeTicketRecord (token_hash raw_ticket) (pr_session_token_hash principal)
                    (us_user_id (pr_user principal)) (allowed_origin policy) time expires_at None));
  mret (mk_RealtimeTicket raw_ticket expires_at).

(* @ packages/identity/service.py 369-387 IdentityService.consume_realtime_ticket *)
Definition consume_realtime_ticket (ticket origin : string) : M World SessionPrincipal :=
  if negb (constant_time_equal origin (allowed_origin policy)) then throw AuthenticationRequired
  else
    time ← now;
    consumed ← on_repo (consume_ticket (token_hash ticket) origin time);
    match consumed with
    | None => throw AuthenticationRequired
    | Some consumed =>
        principal ← authenticate_session_hash (rt_session_token_hash consumed);
        match principal with
        | None => throw AuthenticationRequired
        | Some p =>
            if bool_decide (us_user_id (pr_user p) <> rt_user_id consumed) then throw AuthenticationRequired
            else mret p
        end
    end.

(** ** Saved items *)

Definition target_catalog : M World InMemoryTargetCatalog := fun w => (Ok (w_catalog w), w).

(* @ packages/identity/service.py 389-420 IdentityService.save_item *)
Definition save_item (c : credentials) (saved_type : SavedType) (target_id : string) : M World SavedMutation :=
  principal ← authorize_mutation c;
  _ ← lift (validate_target_id target_id);
  catalog ← target_catalog;
  match get_target saved_type target_id catalog with
  | None => throw ResourceNotFound
  | Some target =>
      if bool_decide (tg_availability target = UNAVAILABLE) then throw ResourceNotFound
      else if match tg_required_role target with
              | Some role => bool_decide (role ∉ pr_roles principal)
              | None => false
              end then throw FeatureNotEntitled
      else
        time ← now;
        record ← on_repo (upsert_saved (mk_SavedRecord (us_user_id (pr_user principal)) saved_type target_id
                                          (tg_display_name target) time));
        mret (mk_SavedMutation saved_type target_id true (Some (sd_saved_at record)))
  end.

(* @ packages/identity/service.py 422-444 IdentityService.unsave_item *)
Definition unsave_item (c : credentials) (saved_type : SavedType) (target_id : string) : M World SavedMutation :=
  principal ← authorize_mutation c;
  _ ← lift (validate_target_id target_id);
  _ ← on_repo (delete_saved (us_user_id (pr_user principal)) saved_type target_id);
  mret (mk_SavedMutation saved_type target_id false None).

(** The records of a page, the position of the next one, and whether there is one. *)
Definition page_of (records : list SavedRecord) (position : option CursorPosition) (limit : Z)
    : list SavedRecord * option CursorPosition * bool :=
  let records := match position with
                 | Some p => List.filter (fun record => is_after record p) records
                 | None => records
                 end in
  let selected := take (Z.to_nat (limit + 1)) records in
  let has_more := limit <? Z.of_nat (length selected) in
  let visible := take (Z.to_nat limit) selected in
  let next := if has_more
              then (fun s => mk_CursorPosition (sd_saved_at s) (sd_target_id s) (sd_saved_type s)) <$> last visible
              else None in
  (visible, next, has_more).

(* @ packages/identity/service.py 446-485 IdentityService.list_saved_items *)
Definition list_saved_items (session_token : option string) (saved_type : option SavedType)
    (position : option CursorPosition) (limit : Z) : M World SavedPage :=
  principal ← require_authenticated session_token;
  _ ← lift (raise_if (negb ((1 <=? limit) && (limit <=? 100))) InvalidRequest);
  records ← on_repo (list_saved (us_user_id (pr_user principal)) saved_type);
  let '(visible, next, has_more) := page_of records position limit in
  catalog ← target_catalog;
  mret (mk_SavedPage ((fun record => project_saved catalog record (pr_roles principal)) <$> visible)
          next has_more limit).

(** ** Account deletion *)

(* @ packages/identity/service.py 487-505 IdentityService.delete_account *)
Definition delete_account (c : credentials) : M World unit :=
  principal ← authorize_mutation c;
  time ← now;
  if ip_recent_authentication_window policy <? dt_sub time (pr_authenticated_at principal)
  then throw RecentAuthenticationRequired
  else
    deleted ← on_repo (repo_delete_account (us_user_id (pr_user principal)));
    if negb deleted then throw AuthenticationRequired else mret tt.

(** ** What a request must show *)

(** A repository, or the same one with one expired session marked. *)
Inductive lapsed (r : Repo) : Repo -> Prop :=
  | lapsed_none : lapsed r r
  | lapsed_session h s time :
      dget h (id_sessions r) = Some s -> se_revoked_at s = None -> dt_le (se_expires_at s) time = true ->
      lapsed r (set_sessions (dset h (revoked time s) (id_sessions r)) r).

(** The principal of a session, alive at this reading of the clock. *)
Definition alive (h : string) (reading : nat) (r : Repo) (p : SessionPrincipal) : Prop :=
  exists s, dget h (id_sessions r) = Some s /\ se_revoked_at s = None /\
    dt_lt (clock reading) (se_expires_at s) = true /\
    dget (se_user_id s) (id_users r) = Some (pr_user p) /\
    pr_roles p = default [] (dget (us_user_id (pr_user p)) (id_roles r)) /\ ROLE_USER ∈ pr_roles p /\
    pr_session_token_hash p = h /\ pr_authenticated_at p = se_authenticated_at s /\
    pr_expires_at p = se_expires_at s.

Definition tick (n : nat) (w : World) : World := mk_World (w_repo w) (w_catalog w) (n + w_reads w) (w_tokens w).

Lemma authenticate_hash_cases h w :
  match authenticate_session_hash h w with
  | (Ok (Some p), w') => w' = tick 1 w /\ alive h (w_reads w) (w_repo w) p
  | (Ok None, w') => exists r', w' = set_repo r' (tick 1 w) /\ lapsed (w_repo w) r'
  | (Raise _, _) => False
  end.
Proof.
  destruct w as [r cat reads tokens].
  cbv [authenticate_session_hash mbind M_bind now on_repo set_repo get_session get_user get_roles mret M_ret tick].
  cbn [fst snd w_repo w_catalog w_reads w_tokens].
  destruct (dget h (id_sessions r)) as [s|] eqn:Es; [|cbn; eexists; split; [reflexivity|constructor]].
  destruct (se_revoked_at s) eqn:Er; [cbn; eexists; split; [reflexivity|constructor]|].
  destruct (dt_le (se_expires_at s) (clock reads)) eqn:Ee.
  { unfold revoke_session. cbn [fst snd w_repo w_catalog w_reads w_tokens]. rewrite Es, Er.
    cbn. eexists; split; [reflexivity|by eapply lapsed_session]. }
  cbn [fst snd w_repo w_catalog w_reads w_tokens].
  destruct (dget (se_user_id s) (id_users r)) as [u|] eqn:Eu; [|cbn; eexists; split; [reflexivity|constructor]].
  cbn [fst snd w_repo w_catalog w_reads w_tokens].
  case_bool_decide as Ero; [cbn; eexists; split; [reflexivity|constructor]|].
  split; [done|]. exists s. cbn. split_and!; try done.
  - unfold dt_lt. rewrite pylt_pyle. apply negb_true_iff. exact Ee.
Qed.

Lemma authenticate_cases t w :
  match authenticate t w with
  | (Ok (Some p), w') => w' = tick 1 w /\ exists s, t = Some s /\ is_empty s = false /\ alive (token_hash s) (w_reads w) (w_repo w) p
  | (Ok None, w') => exists r' n, w' = set_repo r' (tick n w) /\ lapsed (w_repo w) r'
  | (Raise _, _) => False
  end.
Proof.
  unfold authenticate.
  assert (exists r' n, w = set_repo r' (tick n w) /\ lapsed (w_repo w) r') as Hn.
  { exists (w_repo w), 0%nat. split; [by destruct w|constructor]. }
  destruct t as [s|]; [|exact Hn]. destruct (is_empty s || _) eqn:E; [exact Hn|].
  apply orb_false_iff in E as [E _]. pose proof (authenticate_hash_cases (token_hash s) w) as H.
  destruct (authenticate_session_hash (token_hash s) w) as [[[p|]|e] w']; [| |done].
  - destruct H as [-> H]. split; [done|]. by exists s.
  - destruct H as (r'&->&H). by exists r', 1%nat.
Qed.

(** What a request shows that may change something: a session that is alive, twice; the
    site's own origin; and the same CSRF token in a header and a cookie, whose hash was
    filed with the session. *)
Definition authorised (c : credentials) (w : World) (p : SessionPrincipal) : Prop :=
  exists t csrf s,
    cr_session_token c = Some t /\ cr_origin c = Some (allowed_origin policy) /\
    cr_csrf_token c = Some csrf /\ cr_csrf_cookie c = Some csrf /\ csrf <> "" /\
    alive (token_hash t) (w_reads w) (w_repo w) p /\
    dget (token_hash t) (id_sessions (w_repo w)) = Some s /\
    dt_lt (clock (S (w_reads w))) (se_expires_at s) = true /\
    se_csrf_token_hash s = token_hash csrf.

Lemma csrf_cases p c allow w :
  match validate_origin_and_csrf (Some p) c allow w with
  | (Ok _, w') =>
      w' = tick 1 w /\ exists csrf s, cr_origin c = Some (allowed_origin policy) /\
      cr_csrf_token c = Some csrf /\ cr_csrf_cookie c = Some csrf /\ csrf <> "" /\
      dget (pr_session_token_hash p) (id_sessions (w_repo w)) = Some s /\
      dt_lt (clock (w_reads w)) (se_expires_at s) = true /\ se_csrf_token_hash s = token_hash csrf
  | (Raise e, w') => e = CsrfValidationFailed /\ exists n, w' = tick n w
  end.
Proof.
  assert (exists n, w = tick n w) as Hn by (exists 0%nat; by destruct w).
  unfold validate_origin_and_csrf, throw, mret, M_ret.
  destruct (cr_origin c) as [origin|]; [|done].
  unfold constant_time_equal at 1. case_bool_decide as Eo; [|done]. cbn [negb].
  destruct (cr_csrf_token c) as [csrf|]; [|done]. destruct (is_empty csrf || _) eqn:Ee; [done|].
  destruct (cr_csrf_cookie c) as [cookie|]; [|done].
  unfold constant_time_equal at 1. case_bool_decide as Ek; [|done]. cbn [negb]. subst origin cookie.
  destruct w as [r cat reads tokens]. cbv [mbind M_bind on_repo get_session set_repo now].
  cbn [fst snd w_repo w_catalog w_reads w_tokens].
  destruct (dget (pr_session_token_hash p) (id_sessions r)) as [s|] eqn:Es; [|done].
  destruct (se_revoked_at s); [done|].
  cbn [fst snd w_repo w_catalog w_reads w_tokens].
  assert (exists n, mk_World r cat (S reads) tokens = tick n (mk_World r cat reads tokens)) as Hn' by by exists 1%nat.
  destruct (dt_le _ _) eqn:El; cbn [orb]; [done|].
  unfold constant_time_equal. case_bool_decide as Eh; cbn [negb]; [|done].
  split; [done|]. exists csrf, s. split_and!; try done.
  - intros ->. discriminate Ee.
  - unfold dt_lt. rewrite pylt_pyle. apply negb_true_iff. exact El.
Qed.

Lemma authorize_cases c w :
  match authorize_mutation c w with
  | (Ok p, w') => w' = tick 2 w /\ authorised c w p
  | (Raise _, w') => exists r' n, w' = set_repo r' (tick n w) /\ lapsed (w_repo w) r'
  end.
Proof.
  unfold authorize_mutation, require_authenticated. cbv [mbind M_bind].
  pose proof (authenticate_cases (cr_session_token c) w) as H.
  destruct (authenticate (cr_session_token c) w) as [[[p|]|e] w1]; [| |done].
  - destruct H as (->&t&Et&_&Ha). cbn [mret M_ret].
    pose proof (csrf_cases p c false (tick 1 w)) as Hc.
    destruct (validate_origin_and_csrf (Some p) c false (tick 1 w)) as [[u|e] w2].
    + destruct Hc as (->&csrf&s&?&?&?&?&Es&?&?). split; [by destruct w|].
      exists t, csrf, s. assert (pr_session_token_hash p = token_hash t) as Eh by (destruct Ha as (?&Ha); apply Ha).
      rewrite Eh in Es. done.
    + destruct Hc as (_&n&->). exists (w_repo w), (n + 1)%nat. split; [|constructor].
      destruct w. unfold set_repo, tick. cbn. f_equal. lia.
  - destruct H as (r'&n&->&H). by exists r', n.
Qed.

(** ** Changes *)

Inductive change :=
  | ChSave (saved_type : SavedType) (target_id : string)
  | ChUnsave (saved_type : SavedType) (target_id : string)
  | ChTicket
  | ChDelete
  | ChQuestion
  | ChOperator.

Inductive answer := AnsSaved (m : SavedMutation) | AnsTicket (t : RealtimeTicket) | AnsPrincipal (p : SessionPrincipal) | AnsDone.

Definition perform (k : change) (c : credentials) : M World answer :=
  match k with
  | ChSave saved_type target_id => m ← save_item c saved_type target_id; mret (AnsSaved m)
  | ChUnsave saved_type target_id => m ← unsave_item c saved_type target_id; mret (AnsSaved m)
  | ChTicket => t ← issue_realtime_ticket c; mret (AnsTicket t)
  | ChDelete => _ ← delete_account c; mret AnsDone
  | ChQuestion => p ← authorize_question c; mret (AnsPrincipal p)
  | ChOperator => p ← authorize_operator_command c; mret (AnsPrincipal p)
  end.

(** What else a change asks for. *)
Definition permitted (k : change) (w : World) (p : SessionPrincipal) : Prop :=
  match k with
  | ChSave saved_type target_id =>
      validate_target_id target_id = Ok tt /\
      exists target, get_target saved_type target_id (w_catalog w) = Some target /\
        tg_availability target = AVAILABLE /\
        (forall role, tg_required_role target = Some role -> role ∈ pr_roles p)
  | ChUnsave _ target_id => validate_target_id target_id = Ok tt
  | ChDelete => dt_sub (clock (2 + w_reads w)) (pr_authenticated_at p) <= ip_recent_authentication_window policy
  | ChOperator => ROLE_OPERATOR ∈ pr_roles p
  | ChTicket | ChQuestion => True
  end.

Definition issued_ticket (w : World) (p : SessionPrincipal) : RealtimeTicketRecord :=
  let time := clock (2 + w_reads w) in
  mk_RealtimeTicketRecord (token_hash (token (w_tokens w) 32)) (pr_session_token_hash p) (us_user_id (pr_user p))
    (allowed_origin policy) time (dt_add time (ip_realtime_ticket_ttl policy)) None.

Definition saved_record (saved_type : SavedType) (target_id : string) (w : World) (p : SessionPrincipal) : SavedRecord :=
  mk_SavedRecord (us_user_id (pr_user p)) saved_type target_id
    (match get_target saved_type target_id (w_catalog w) with Some t => tg_display_name t | None => "" end)
    (clock (2 + w_reads w)).

(** What it does to the repository. *)
Definition changed (k : change) (w : World) (p : SessionPrincipal) : Repo :=
  let r := w_repo w in
  match k with
  | ChSave saved_type target_id =>
      let record := saved_record saved_type target_id w p in
      if dmem (saved_key record) (id_saved r) then r
      else set_saved (dset (saved_key record) record (id_saved r)) r
  | ChUnsave saved_type target_id =>
      set_saved (ddel (us_user_id (pr_user p), saved_type, target_id) (id_saved r)) r
  | ChTicket => set_tickets (dset (rt_ticket_hash (issued_ticket w p)) (issued_ticket w p) (id_tickets r)) r
  | ChDelete => (repo_delete_account (us_user_id (pr_user p)) r).2
  | ChQuestion | ChOperator => r
  end.

Lemma repo_set_repo r n w : w_repo (set_repo r (tick n w)) = r.
Proof. done. Qed.

Ltac run_world :=
  cbv [mbind M_bind mret M_ret lift throw on_repo set_repo now create target_catalog tick];
  cbn [fst snd w_repo w_catalog w_reads w_tokens Nat.add].

(** After the guard. *)
Lemma guarded_bind {A} c w (f : SessionPrincipal -> M World A) (P : res A * World -> Prop) :
  (forall p, authorised c w p -> P (f p (tick 2 w))) ->
  (forall e w', lapsed (w_repo w) (w_repo w') -> P (Raise e, w')) ->
  P ((authorize_mutation c ≫= f) w).
Proof.
  intros Hok Hraise. cbv [mbind M_bind]. pose proof (authorize_cases c w) as H.
  destruct (authorize_mutation c w) as [[p|e] w'].
  - destruct H as [-> H]. by apply Hok.
  - destruct H as (r'&n&->&H). by apply Hraise.
Qed.

Lemma operator_cases c w :
  match authorize_operator_command c w with
  | (Ok p, w') => w' = tick 2 w /\ authorised c w p /\ ROLE_OPERATOR ∈ pr_roles p
  | (Raise _, w') => exists r' n, w' = set_repo r' (tick n w) /\ lapsed (w_repo w) r'
  end.
Proof.
  pose proof (authorize_cases c w) as H. revert H.
  unfold authorize_operator_command, authorize_mutation, require_operator, require_authenticated. cbv [mbind M_bind].
  pose proof (authenticate_cases (cr_session_token c) w) as Ha.
  destruct (authenticate (cr_session_token c) w) as [[[p|]|e] w1]; [|done|done].
  cbv [mret M_ret]. intros H. case_bool_decide as Er.
  - destruct (validate_origin_and_csrf (Some p) c false w1) as [[u|e] w2]; [|done]. by destruct H.
  - destruct Ha as (->&_). exists (w_repo w), 1%nat. split; [by destruct w|constructor].
Qed.

(** The account of an authorised principal. *)
Lemma authorised_user c w p :
  authorised c w p -> exists i, dget i (id_users (w_repo w)) = Some (pr_user p).
Proof. intros (t&csrf&s&_&_&_&_&_&(s'&_&_&_&Hu&_)&_). by eexists. Qed.

Definition outcome_ok {A} (k : change) (c : credentials) (w : World) (x : res A * World) : Prop :=
  match x with
  | (Ok _, w') => exists p, authorised c w p /\ permitted k w p /\ w_repo w' = changed k w p
  | (Raise _, w') => lapsed (w_repo w) (w_repo w')
  end.

Lemma outcome_ok_map {A B} k c w (m : M World A) (f : A -> B) :
  outcome_ok k c w (m w) -> outcome_ok k c w ((x ← m; mret (f x)) w).
Proof. cbv [mbind M_bind mret M_ret]. by destruct (m w) as [[a|e] w']. Qed.

Lemma lapsed_refl_raise {A} k c w w' e :
  w_repo w' = w_repo w -> outcome_ok (A := A) k c w (Raise e, w').
Proof. simpl. intros ->. constructor. Qed.

Ltac refused := apply lapsed_refl_raise; reflexivity.

Lemma save_outcome c t i w : outcome_ok (ChSave t i) c w (save_item c t i w).
Proof.
  unfold save_item. apply guarded_bind; [|done]. intros p Hp. run_world.
  destruct (validate_target_id i) as [[]|e] eqn:Ei; [|refused].
  destruct (get_target t i (w_catalog w)) as [target|] eqn:Et; [|refused].
  case_bool_decide as Ea; [refused|].
  destruct (match tg_required_role target with Some _ => _ | None => _ end) eqn:Er; [refused|].
  set (record := mk_SavedRecord _ _ _ _ _).
  assert (permitted (ChSave t i) w p) as Hperm.
  { split; [done|]. exists target. split_and!; [done|by destruct (tg_availability target)|].
    intros role Hrole. rewrite Hrole in Er. apply bool_decide_eq_false in Er.
    by destruct (decide (role ∈ pr_roles p)). }
  assert (saved_record t i w p = record) as Erec by (unfold saved_record; by rewrite Et).
  unfold upsert_saved. cbn [fst snd w_repo].
  destruct (dget (saved_key record) (id_saved (w_repo w))) eqn:Ed; cbn [fst snd outcome_ok];
    (exists p; split_and!; [done|done|cbn [changed fst snd w_repo]; unfold dmem; rewrite Erec, Ed; reflexivity]).
Qed.

Lemma unsave_outcome c t i w : outcome_ok (ChUnsave t i) c w (unsave_item c t i w).
Proof.
  unfold unsave_item. apply guarded_bind; [|done]. intros p Hp. run_world.
  destruct (validate_target_id i) as [[]|e] eqn:Ei; [|refused]. by exists p.
Qed.

Lemma ticket_outcome c w : outcome_ok ChTicket c w (issue_realtime_ticket c w).
Proof.
  unfold issue_realtime_ticket. apply guarded_bind; [|done]. intros p Hp. run_world. by exists p.
Qed.

Lemma delete_outcome c w : outcome_ok ChDelete c w (delete_account c w).
Proof.
  unfold delete_account. apply guarded_bind; [|done]. intros p Hp. run_world.
  destruct (Z.ltb_spec (ip_recent_authentication_window policy)
              (dt_sub (clock (S (S (w_reads w)))) (pr_authenticated_at p))) as [Hl|Hl]; [refused|].
  cbn [w_repo fst snd]. unfold repo_delete_account at 1.
  destruct (dget (us_user_id (pr_user p)) (id_users (w_repo w))) as [u|] eqn:Eu; cbn [negb fst snd].
  - exists p. split_and!; done.
  - apply lapsed_refl_raise. cbn. unfold repo_delete_account. by rewrite Eu.
Qed.

Lemma perform_outcome k c w : outcome_ok k c w (perform k c w).
Proof.
  destruct k as [t i|t i| | | |]; cbn [perform].
  - apply outcome_ok_map, save_outcome.
  - apply outcome_ok_map, unsave_outcome.
  - apply outcome_ok_map, ticket_outcome.
  - apply outcome_ok_map, delete_outcome.
  - apply outcome_ok_map. pose proof (authorize_cases c w) as H. unfold authorize_question.
    destruct (authorize_mutation c w) as [[p|e] w']; [destruct H as [-> H]; by exists p|].
    by destruct H as (r'&n&->&H).
  - apply outcome_ok_map. pose proof (operator_cases c w) as H.
    destruct (authorize_operator_command c w) as [[p|e] w']; [destruct H as (->&H&Hr); by exists p|].
    by destruct H as (r'&n&->&H).
Qed.

(** C38: Nothing is changed for a request that does not show all of: a session that is
    alive with its account, the site's own origin, and one CSRF token in header and cookie
    whose hash the session filed; a save also needs an available target the user is
    entitled to, a deletion a recent login and an operator's command the role.  With them
    the change is exactly the one asked for; a refusal leaves the repository as it was,
    but for an expired session that is marked as revoked. *)
Theorem changes_are_guarded k c w :
  match perform k c w with
  | (Ok _, w') => exists p, authorised c w p /\ permitted k w p /\ w_repo w' = changed k w p
  | (Raise _, w') => lapsed (w_repo w) (w_repo w')
  end.
Proof. exact (perform_outcome k c w). Qed.

(** ** Well-formed repositories *)

Lemma revoke_session_users h time r : id_users (revoke_session h time r).2 = id_users r.
Proof. unfold revoke_session. by repeat case_match. Qed.

Lemma tickets_frame r time :
  (forall h n, id_tickets (consume_oauth_state h n time r).2 = id_tickets r) /\
  (forall i identity, id_tickets (upsert_user i identity time r).2 = id_tickets r) /\
  (forall u role, id_tickets (add_role u role r).2 = id_tickets r) /\
  (forall h, id_tickets (revoke_session h time r).2 = id_tickets r).
Proof.
  unfold consume_oauth_state, upsert_user, add_role, revoke_session.
  split_and!; intros; repeat case_match; reflexivity.
Qed.

Section keeps.
(** A fact about the tickets that the calls below keep as well. *)
Context (I : Repo -> Prop) (I_tickets : forall r r', id_tickets r' = id_tickets r -> I r -> I r').

Definition good (r : Repo) : Prop := identity_ok r /\ I r.

(** From a good repository with [P] the call leaves a good one, with [Q] of what it
    returns. *)
Definition keeps {A} (P : Repo -> Prop) (m : M World A) (Q : A -> Repo -> Prop) : Prop :=
  forall w, good (w_repo w) -> P (w_repo w) ->
  good (w_repo (m w).2) /\ forall a, (m w).1 = Ok a -> Q a (w_repo (m w).2).

Definition anything : Repo -> Prop := fun _ => True.
Definition has_account (u : string) : Repo -> Prop := fun r => is_Some (dget u (id_users r)).

Lemma repo_keeps_bind {A B} P (m : M World A) (f : A -> M World B) Q R :
  keeps P m Q -> (forall a, keeps (Q a) (f a) R) -> keeps P (m ≫= f) R.
Proof.
  intros Hm Hf w Hw HP. destruct (Hm w Hw HP) as [Hok HQ]. cbv [mbind M_bind].
  destruct (m w) as [[a|e] w']; [|done]. by apply Hf, HQ.
Qed.

Lemma repo_keeps_ret {A} (P : Repo -> Prop) (a : A) : keeps P (mret a) (fun _ => P).
Proof. by intros w Hw HP. Qed.

Lemma repo_keeps_throw {A} P e (Q : A -> Repo -> Prop) : keeps P (throw e) Q.
Proof. by intros w Hw HP. Qed.

Lemma repo_keeps_lift {A} (P : Repo -> Prop) (x : res A) : keeps P (lift x) (fun _ => P).
Proof. by intros w Hw HP. Qed.

Lemma keeps_now (P : Repo -> Prop) : keeps P now (fun _ => P).
Proof. by intros w Hw HP. Qed.

Lemma keeps_create n (P : Repo -> Prop) : keeps P (create n) (fun _ => P).
Proof. by intros w Hw HP. Qed.

(** A call of the repository that leaves the tickets alone. *)
Lemma keeps_repo {A} (P : Repo -> Prop) (m : M Repo A) (Q : A -> Repo -> Prop) :
  (forall r, identity_ok r -> P r -> identity_ok (m r).2 /\ id_tickets (m r).2 = id_tickets r /\
     forall a, (m r).1 = Ok a -> Q a (m r).2) ->
  keeps P (on_repo m) Q.
Proof.
  intros H w [Hw HI] HP. destruct (H _ Hw HP) as (Hok&Ht&HQ). split; [|exact HQ].
  split; [exact Hok|]. by eapply I_tickets.
Qed.

Lemma keeps_repo_frame {A} (P : Repo -> Prop) (m : M Repo A) :
  (forall r, identity_ok r -> identity_ok (m r).2) -> (forall r, id_tickets (m r).2 = id_tickets r) ->
  (forall r, P r -> P (m r).2) -> keeps P (on_repo m) (fun _ => P).
Proof. intros Hm Ht HP. apply keeps_repo. intros r Hr Hp. split_and!; auto. Qed.

Lemma keeps_begin return_to :
  (forall time r, identity_ok r -> I r -> I (purge_expired time r).2) ->
  keeps anything (begin_google_login return_to) (fun _ => anything).
Proof.
  intros Hpurge. unfold begin_google_login. eapply repo_keeps_bind; [apply keeps_now|]. intros time.
  eapply repo_keeps_bind; [apply repo_keeps_lift|]. intros back.
  eapply (repo_keeps_bind _ _ _ (fun _ => anything)).
  { intros w [Hw HI] _. split; [|done]. split; [by apply purge_expired_ok|by apply Hpurge]. }
  intros ?. eapply repo_keeps_bind; [apply keeps_create|]. intros state.
  eapply repo_keeps_bind; [apply keeps_create|]. intros nonce.
  eapply repo_keeps_bind; [by apply (keeps_repo_frame anything); [apply store_oauth_state_ok|..]|]. intros ?.
  apply repo_keeps_ret.
Qed.

Lemma upsert_user_account i identity time r u :
  identity_ok r -> (upsert_user i identity time r).1 = Ok u ->
  has_account (us_user_id u) (upsert_user i identity time r).2.
Proof.
  intros Hr. unfold upsert_user, has_account.
  destruct (dget _ (id_user_ids_by_subject r)) as [e|].
  - destruct (dget e (id_users r)) as [user|] eqn:Eu; [|done]. intros [= <-]. cbn.
    rewrite (proj2 (io_users _ Hr) _ _ Eu). by rewrite dget_dset_eq.
  - destruct (dmem i (id_users r)); [done|]. intros [= <-]. cbn. by rewrite dget_dset_eq.
Qed.

Lemma keeps_complete code state nonce current :
  keeps anything (complete_google_login code state nonce current) (fun _ => anything).
Proof.
  unfold complete_google_login. destruct (_ || empty_or_long 512 nonce); [apply repo_keeps_throw|].
  eapply repo_keeps_bind; [apply keeps_now|]. intros time. pose proof (fun r => tickets_frame r time) as Ht.
  eapply repo_keeps_bind.
  { apply (keeps_repo_frame anything); [intros; by apply consume_oauth_state_ok|intros r; apply Ht|done]. }
  intros [oauth|]; [|apply repo_keeps_throw]. destruct (exchange_code _ _) as [identity|]; [|apply repo_keeps_throw].
  eapply repo_keeps_bind; [apply repo_keeps_lift|]. intros ?. cbv zeta.
  eapply repo_keeps_bind; [apply keeps_create|]. intros fresh.
  eapply (repo_keeps_bind _ _ _ (fun user => has_account (us_user_id user))).
  { apply keeps_repo. intros r Hr _. split_and!; [by apply upsert_user_ok|apply Ht|].
    intros u. by apply upsert_user_account. }
  intros user. set (Q := has_account (us_user_id user)).
  assert (forall role, keeps Q (on_repo (add_role (us_user_id user) role)) (fun _ => Q)) as Hadd.
  { intros role. apply keeps_repo_frame; [intros; by apply add_role_ok|intros r; apply Ht|].
    intros r. unfold Q, add_role, has_account. by destruct (negb _). }
  eapply repo_keeps_bind; [apply Hadd|]. intros ?.
  eapply (repo_keeps_bind _ _ _ (fun _ => Q)); [destruct (is_bootstrap_operator _); [apply Hadd|apply repo_keeps_ret]|].
  intros ?. eapply (repo_keeps_bind _ _ _ (fun _ => Q)).
  { destruct current as [t|]; [destruct (is_empty t)|]; [apply repo_keeps_ret| |apply repo_keeps_ret].
    apply keeps_repo_frame; [intros; by apply revoke_session_ok|intros r; apply Ht|].
    intros r. unfold Q, has_account. by rewrite revoke_session_users. }
  intros ?. eapply repo_keeps_bind; [apply keeps_create|]. intros session.
  eapply repo_keeps_bind; [apply keeps_create|]. intros csrf.
  eapply (repo_keeps_bind _ _ _ (fun _ => anything)).
  { apply keeps_repo. intros r Hr Hu. split_and!; [by apply store_session_ok|done|done]. }
  intros ?. eapply repo_keeps_bind; [by apply (keeps_repo_frame anything)|]. intros roles. apply repo_keeps_ret.
Qed.
End keeps.

Lemma lapsed_ok r r' : identity_ok r -> lapsed r r' -> identity_ok r'.
Proof.
  intros Hr [|h s time Es Er Ee]; [done|]. pose proof (revoke_session_ok h time r Hr) as H.
  unfold revoke_session in H. by rewrite Es, Er in H.
Qed.

Lemma authenticate_hash_ok h w : identity_ok (w_repo w) -> identity_ok (w_repo (authenticate_session_hash h w).2).
Proof.
  intros Hw. pose proof (authenticate_hash_cases h w) as H.
  destruct (authenticate_session_hash h w) as [[[p|]|e] w']; [by destruct H as [-> _]| |done].
  destruct H as (r'&->&H). by eapply lapsed_ok.
Qed.

Lemma authenticate_ok t w : identity_ok (w_repo w) -> identity_ok (w_repo (authenticate t w).2).
Proof.
  intros Hw. unfold authenticate. destruct t as [t|]; [|done]. destruct (_ || _); [done|].
  by apply authenticate_hash_ok.
Qed.

Lemma authorised_account c w p :
  identity_ok (w_repo w) -> authorised c w p -> has_account (us_user_id (pr_user p)) (w_repo w).
Proof.
  intros Hw (i&Hi)%authorised_user. unfold has_account. by rewrite (proj2 (io_users _ Hw) _ _ Hi), Hi.
Qed.

Lemma outcome_identity_ok {A} k c w (x : res A * World) :
  identity_ok (w_repo w) -> outcome_ok k c w x -> identity_ok (w_repo x.2).
Proof.
  intros Hw. destruct x as [[a|e] w']; cbn; [|by apply lapsed_ok]. intros (p&Hp&_&->).
  pose proof (authorised_account c w p Hw Hp) as Hu. destruct k; cbn [changed]; try done.
  - unfold dmem. destruct (dget _ (id_saved (w_repo w))) eqn:E; [done|].
    pose proof (upsert_saved_ok (saved_record saved_type target_id w p) (w_repo w) Hw Hu) as H.
    unfold upsert_saved in H. by rewrite E in H.
  - by apply (delete_saved_ok (us_user_id (pr_user p)) saved_type target_id).
  - by apply (store_ticket_ok (issued_ticket w p)).
  - by apply delete_account_ok.
Qed.

(** ** The life of a service *)

Inductive action :=
  | ActBegin (return_to : option string)
  | ActComplete (code state browser_nonce : string) (current : option string)
  | ActAuthenticate (session_token : option string)
  | ActRefresh (principal : SessionPrincipal)
  | ActLogout (c : credentials)
  | ActPerform (k : change) (c : credentials)
  | ActConsume (ticket origin : string)
  | ActList (session_token : option string) (saved_type : option SavedType)
            (position : option CursorPosition) (limit : Z)
  | ActCatalog (catalog : InMemoryTargetCatalog).

Definition after (w : World) (a : action) : World :=
  match a with
  | ActBegin return_to => (begin_google_login return_to w).2
  | ActComplete code state nonce current => (complete_google_login code state nonce current w).2
  | ActAuthenticate t => (authenticate t w).2
  | ActRefresh p => (refresh_principal p w).2
  | ActLogout c => (logout c w).2
  | ActPerform k c => (perform k c w).2
  | ActConsume ticket origin => (consume_realtime_ticket ticket origin w).2
  | ActList t saved_type position limit => (list_saved_items t saved_type position limit w).2
  | ActCatalog catalog => mk_World (w_repo w) catalog (w_reads w) (w_tokens w)
  end.

Definition start (catalog : InMemoryTargetCatalog) : World := mk_World empty_identity catalog 0 0.
Definition run (actions : list action) (w : World) : World := fold_left after actions w.

(** How often a ticket was handed out, and how often it admitted somebody. *)
Definition issues (h : string) (w : World) (a : action) : nat :=
  match a with
  | ActPerform ChTicket c =>
      match (issue_realtime_ticket c w).1 with
      | Ok t => if decide (token_hash (tk_ticket t) = h) then 1 else 0
      | Raise _ => 0
      end
  | _ => 0
  end.
Definition admits (h : string) (w : World) (a : action) : nat :=
  match a with
  | ActConsume ticket origin =>
      match (consume_realtime_ticket ticket origin w).1 with
      | Ok _ => if decide (token_hash ticket = h) then 1 else 0
      | Raise _ => 0
      end
  | _ => 0
  end.
Fixpoint total (count : World -> action -> nat) (actions : list action) (w : World) : nat :=
  match actions with
  | [] => 0
  | a :: actions => count w a + total count actions (after w a)
  end.

(** A ticket that may still be used. *)
Definition unused (h : string) (r : Repo) : nat :=
  match dget h (id_tickets r) with
  | Some t => match rt_consumed_at t with None => 1 | Some _ => 0 end
  | None => 0
  end.

Lemma unused_tickets h n r r' : id_tickets r' = id_tickets r -> (unused h r <= n -> unused h r' <= n)%nat.
Proof. unfold unused. by intros ->. Qed.

Lemma unused_dfilter h keep r tickets :
  identity_ok r -> tickets = dfilter keep (id_tickets r) ->
  (match dget h tickets with
   | Some t => match rt_consumed_at t with None => 1 | Some _ => 0 end
   | None => 0
   end <= unused h r)%nat.
Proof.
  intros Hr ->. unfold unused. rewrite dget_dfilter by apply Hr.
  destruct (dget h (id_tickets r)) as [t|]; [|done]. destruct (keep t); [done|lia].
Qed.

Lemma lapsed_tickets r r' : lapsed r r' -> id_tickets r' = id_tickets r.
Proof. by destruct 1. Qed.

Lemma authenticate_hash_tickets h w :
  id_tickets (w_repo (authenticate_session_hash h w).2) = id_tickets (w_repo w).
Proof.
  pose proof (authenticate_hash_cases h w) as H.
  destruct (authenticate_session_hash h w) as [[[p|]|e] w']; [by destruct H as [-> _]| |done].
  destruct H as (r'&->&H). by apply lapsed_tickets.
Qed.

Lemma authenticate_tickets t w : id_tickets (w_repo (authenticate t w).2) = id_tickets (w_repo w).
Proof.
  unfold authenticate. destruct t as [t|]; [|done]. destruct (_ || _); [done|].
  apply authenticate_hash_tickets.
Qed.

Lemma csrf_none c allow w : (validate_origin_and_csrf None c allow w).2 = w.
Proof. unfold validate_origin_and_csrf, throw, mret, M_ret. by repeat case_match. Qed.

Lemma logout_repo c w :
  exists r', lapsed (w_repo w) r' /\
    (w_repo (logout c w).2 = r' \/ exists h time, w_repo (logout c w).2 = (revoke_session h time r').2).
Proof.
  unfold logout. cbv [mbind M_bind]. pose proof (authenticate_cases (cr_session_token c) w) as H.
  assert (exists r', lapsed (w_repo w) r' /\ w_repo (authenticate (cr_session_token c) w).2 = r' /\
    forall p, (authenticate (cr_session_token c) w).1 = Ok p ->
      exists n, (validate_origin_and_csrf p c true (authenticate (cr_session_token c) w).2).2 =
                tick n (authenticate (cr_session_token c) w).2) as (r'&Hl&Er&Hv).
  { destruct (authenticate (cr_session_token c) w) as [[[p|]|e] w1]; [| |done].
    - destruct H as [-> _]. exists (w_repo w). split_and!; [constructor|done|]. intros q [= <-]. cbn [snd].
      pose proof (csrf_cases p c true (tick 1 w)) as Hc.
      destruct (validate_origin_and_csrf (Some p) c true (tick 1 w)) as [[u|e] w2]; [exists 1%nat|]; apply Hc.
    - destruct H as (r'&n&->&H). exists r'. split_and!; [done|done|]. intros q [= <-]. exists 0%nat.
      rewrite csrf_none. by destruct w. }
  exists r'. split; [done|]. revert Er Hv. clear H.
  destruct (authenticate (cr_session_token c) w) as [[p|e] w1]; cbn [fst snd]; intros Er Hv; [|by left].
  destruct (Hv p eq_refl) as (n&Hn). destruct (validate_origin_and_csrf p c true w1) as [[u|e] w2];
    cbn [snd] in Hn; subst w2; [|by left].
  destruct (cr_session_token c) as [t|]; [|by left]. destruct (is_empty t); [by left|].
  right. cbn. rewrite Er. by eexists _, _.
Qed.

Lemma refresh_world p w : (refresh_principal p w).2 = (authenticate_session_hash (pr_session_token_hash p) w).2.
Proof.
  unfold refresh_principal. cbv [mbind M_bind].
  destruct (authenticate_session_hash _ w) as [[[q|]|e] w']; [|done|done]. by case_bool_decide.
Qed.

Lemma list_world t saved_type position limit w :
  w_repo (list_saved_items t saved_type position limit w).2 = w_repo (authenticate t w).2.
Proof.
  unfold list_saved_items, require_authenticated. cbv [mbind M_bind].
  destruct (authenticate t w) as [[[p|]|e] w']; [|done|done]. run_world.
  destruct (raise_if _ _); [|done]. unfold list_saved. cbn [fst snd]. by destruct (page_of _ _ _) as [[??]?].
Qed.

(** Using a ticket: the ticket is marked, then its session is looked at. *)
Lemma consume_cases ticket origin w :
  match consume_realtime_ticket ticket origin w with
  | (Ok p, w') =>
      origin = allowed_origin policy /\
      (exists t, dget (token_hash ticket) (id_tickets (w_repo w)) = Some t /\ rt_consumed_at t = None /\
        rt_origin t = origin /\ dt_lt (clock (w_reads w)) (rt_expires_at t) = true /\
        alive (rt_session_token_hash t) (S (w_reads w)) (w_repo w) p /\ us_user_id (pr_user p) = rt_user_id t) /\
      w_repo w' = (consume_ticket (token_hash ticket) origin (clock (w_reads w)) (w_repo w)).2
  | (Raise e, w') =>
      e = AuthenticationRequired /\
      (w_repo w' = w_repo w \/
      lapsed (consume_ticket (token_hash ticket) origin (clock (w_reads w)) (w_repo w)).2 (w_repo w'))
  end.
Proof.
  unfold consume_realtime_ticket, constant_time_equal. case_bool_decide as Eo; cbn [negb]; [|split; [done|by left]].
  run_world. destruct (dget (token_hash ticket) (id_tickets (w_repo w))) as [t|] eqn:Et;
    [|unfold consume_ticket; rewrite Et; split; [done|by left]].
  unfold consume_ticket. rewrite Et.
  destruct (ticket_live (clock (w_reads w)) t) eqn:El; cbn [negb]; [|split; [done|by left]].
  case_bool_decide as Eto; cbn [negb]; [|split; [done|by left]]. cbn [fst snd].
  set (r := set_tickets _ (w_repo w)). set (w1 := mk_World r _ _ _).
  pose proof (authenticate_hash_cases (rt_session_token_hash t) w1) as H. cbn [rt_session_token_hash].
  destruct (authenticate_session_hash (rt_session_token_hash t) w1) as [[[p|]|e] w2]; [| |done].
  - destruct H as [-> H]. case_bool_decide as Eu; [split; [done|right; constructor]|].
    split_and!; [done| |done]. exists t. unfold ticket_live in El. destruct (rt_consumed_at t) eqn:Ec; [done|].
    split_and!; try done.
    + unfold dt_lt. by rewrite pylt_pyle.
  - split; [done|right]. destruct H as (r'&->&H). exact H.
Qed.

Lemma service_after_ok w a : identity_ok (w_repo w) -> identity_ok (w_repo (after w a)).
Proof.
  intros Hw. destruct a as [back|code state nonce cur|t|p|c|k c|ticket origin|t ty pos lim|catalog]; cbn [after].
  - by apply (keeps_begin (fun _ => True) ltac:(done) back ltac:(done)).
  - by apply (keeps_complete (fun _ => True) ltac:(done)).
  - by apply authenticate_ok.
  - rewrite refresh_world. by apply authenticate_hash_ok.
  - destruct (logout_repo c w) as (r'&Hl&[->|(h&time&->)]); [by eapply lapsed_ok|].
    apply revoke_session_ok. by eapply lapsed_ok.
  - eapply outcome_identity_ok; [exact Hw|]. apply perform_outcome.
  - pose proof (consume_cases ticket origin w) as H. pose proof (consume_ticket_ok (token_hash ticket) origin
      (clock (w_reads w)) (w_repo w) Hw) as Hok.
    destruct (consume_realtime_ticket ticket origin w) as [[p|e] w'].
    + destruct H as (_&_&H). cbn [snd]. by rewrite H.
    + cbn [snd]. destruct H as [_ [H|H]]; [by rewrite H|]. by eapply lapsed_ok.
  - rewrite list_world. by apply authenticate_ok.
  - done.
Qed.

Lemma service_run_ok actions w : identity_ok (w_repo w) -> identity_ok (w_repo (run actions w)).
Proof. revert w; induction actions as [|a actions IH]; intros w Hw; [done|]. apply IH. by apply service_after_ok. Qed.

Lemma ticket_answer c w t :
  (issue_realtime_ticket c w).1 = Ok t -> tk_ticket t = token (w_tokens w) 32.
Proof.
  apply (guarded_bind c w _ (fun x => x.1 = Ok t -> tk_ticket t = token (w_tokens w) 32)).
  - intros p _. run_world. by intros [= <-].
  - done.
Qed.

Lemma perform_unused h k c w :
  identity_ok (w_repo w) ->
  (unused h (w_repo (perform k c w).2) <= unused h (w_repo w) + issues h w (ActPerform k c))%nat.
Proof.
  intros Hw. pose proof (perform_outcome k c w) as H. destruct (perform k c w) as [[x|e] w'] eqn:E; cbn [outcome_ok snd] in *.
  - destruct H as (p&_&_&->). destruct k; cbn [changed issues]; try lia.
    + unfold unused. case_goal; cbn; lia.
    + unfold unused. cbn. lia.
    + assert (exists t, (issue_realtime_ticket c w).1 = Ok t) as (t&Ht).
      { cbn [perform] in E. cbv [mbind M_bind] in E. destruct (issue_realtime_ticket c w) as [[t|e] ?]; [by exists t|done]. }
      rewrite Ht. apply ticket_answer in Ht. rewrite Ht. unfold unused at 1. cbn [set_tickets id_tickets].
      rewrite dget_dset. unfold issued_ticket at 1. cbn [rt_ticket_hash].
      case_decide as Eh; [rewrite decide_True by done; case_match; lia|].
      rewrite decide_False by done. rewrite Nat.add_0_r. done.
    + unfold repo_delete_account. destruct (dget _ (id_users (w_repo w))); [|simpl; lia]. rewrite Nat.add_0_r.
      by eapply unused_dfilter.
  - unfold unused. rewrite (lapsed_tickets _ _ H). lia.
Qed.

Lemma consume_unused h ticket origin w :
  (unused h (w_repo (consume_realtime_ticket ticket origin w).2) + admits h w (ActConsume ticket origin)
   <= unused h (w_repo w))%nat.
Proof.
  cbn [admits]. pose proof (consume_cases ticket origin w) as H.
  assert (forall origin, unused h (consume_ticket (token_hash ticket) origin (clock (w_reads w)) (w_repo w)).2 <=
          unused h (w_repo w))%nat as Hle.
  { intros o. unfold consume_ticket, unused. destruct (dget (token_hash ticket) (id_tickets (w_repo w))) eqn:Et; [|done].
    repeat (case_goal; try done). all: cbn in *; rewrite ?dget_dset in *; repeat (case_decide; simplify_eq; try done);
      repeat case_match; simplify_eq; try done; lia. }
  destruct (consume_realtime_ticket ticket origin w) as [[p|e] w']; cbn [fst snd] in *.
  - destruct H as (->&(t&Et&Ec&Eo&El&_)&->). case_decide as E; [subst h|specialize (Hle (allowed_origin policy)); lia].
    unfold unused, consume_ticket. rewrite Et. unfold ticket_live. rewrite Ec.
    unfold dt_lt in El. rewrite pylt_pyle in El. change (pyle _ _) with (dt_le (rt_expires_at t) (clock (w_reads w))) in El.
    rewrite El, (bool_decide_eq_true_2 _ Eo). cbn. by rewrite dget_dset_eq.
  - rewrite Nat.add_0_r. destruct H as [_ [->|H]]; [done|]. unfold unused. rewrite (lapsed_tickets _ _ H). apply Hle.
Qed.

(** One more action: tickets are not made out of thin air. *)
Lemma unused_step h w a :
  identity_ok (w_repo w) ->
  (unused h (w_repo (after w a)) + admits h w a <= unused h (w_repo w) + issues h w a)%nat.
Proof.
  intros Hw. destruct a as [back|code state nonce cur|t|p|c|k c|ticket origin|t ty pos lim|catalog];
    try (cbn [after admits issues]; rewrite !Nat.add_0_r).
  - apply (keeps_begin (fun r => unused h r <= unused h (w_repo w))%nat (unused_tickets h _)); [|done|done].
    intros time r Hr H. etransitivity; [|exact H]. by eapply unused_dfilter.
  - by apply (keeps_complete (fun r => unused h r <= unused h (w_repo w))%nat (unused_tickets h _)).
  - unfold unused. by rewrite authenticate_tickets.
  - unfold unused. by rewrite refresh_world, authenticate_hash_tickets.
  - unfold unused. destruct (logout_repo c w) as (r'&Hl%lapsed_tickets&[->|(h'&time&->)]); [by rewrite Hl|].
    by rewrite (proj2 (proj2 (proj2 (tickets_frame r' time)))), Hl.
  - by apply perform_unused.
  - apply consume_unused.
  - unfold unused. by rewrite list_world, authenticate_tickets.
  - done.
Qed.

Lemma unused_run h actions w :
  identity_ok (w_repo w) ->
  (unused h (w_repo (run actions w)) + total (admits h) actions w <= unused h (w_repo w) + total (issues h) actions w)%nat.
Proof.
  revert w; induction actions as [|a actions IH]; intros w Hw; cbn [run fold_left total]; [lia|].
  pose proof (unused_step h w a Hw). specialize (IH (after w a) (service_after_ok _ _ Hw)). unfold run in IH. lia.
Qed.

(** C39: Whatever is asked of the service, in whatever order, the repository stays
    well formed: records are filed under their own keys, the subject index and the users
    mirror each other, every account has its roles, and sessions, tickets and saved items
    belong to accounts that exist. *)
Theorem identity_well_formed catalog actions : identity_ok (w_repo (run actions (start catalog))).
Proof. apply service_run_ok, empty_identity_ok. Qed.

(** A realtime ticket admits at most as often as it was handed out, whatever the
    service does in between.  It admits only at the site's own origin, before it expires,
    and as the user of its session, while that session is alive; everybody else is told
    to authenticate. *)
Theorem tickets_admit_once catalog actions ticket origin :
  let w := run actions (start catalog) in
  (total (admits (token_hash ticket)) actions (start catalog) <=
   total (issues (token_hash ticket)) actions (start catalog))%nat /\
  match consume_realtime_ticket ticket origin w with
  | (Ok p, _) =>
      origin = allowed_origin policy /\
      exists t, dget (token_hash ticket) (id_tickets (w_repo w)) = Some t /\ rt_consumed_at t = None /\
        rt_origin t = origin /\ dt_lt (clock (w_reads w)) (rt_expires_at t) = true /\
        alive (rt_session_token_hash t) (S (w_reads w)) (w_repo w) p /\ us_user_id (pr_user p) = rt_user_id t
  | (Raise e, _) => e = AuthenticationRequired
  end.
Proof.
  intros w. split.
  - pose proof (unused_run (token_hash ticket) actions (start catalog) empty_identity_ok) as H.
    change (unused (token_hash ticket) (w_repo (start catalog))) with 0%nat in H. lia.
  - pose proof (consume_cases ticket origin w) as H. destruct (consume_realtime_ticket ticket origin w) as [[p|e] w'];
      [by destruct H as (?&?&_)|apply H].
Qed.

(** ** Deletion *)

Lemma authenticate_missing t w :
  dget (token_hash t) (id_sessions (w_repo w)) = None -> (authenticate (Some t) w).1 = Ok None.
Proof.
  intros E. unfold authenticate. destruct (_ || _); [done|]. pose proof (authenticate_hash_cases (token_hash t) w) as H.
  destruct (authenticate_session_hash (token_hash t) w) as [[[p|]|e] w']; [|done|done].
  destruct H as (_&s&Es&_). congruence.
Qed.

(** The repository holds nothing of the account. *)
Record forgotten (u : string) (r : Repo) : Prop := {
  fg_user : dget u (id_users r) = None;
  fg_roles : dget u (id_roles r) = None;
  fg_subject : forall s, dget s (id_user_ids_by_subject r) <> Some u;
  fg_session : Forall (fun s => se_user_id s <> u) (dvalues (id_sessions r));
  fg_ticket : Forall (fun t => rt_user_id t <> u) (dvalues (id_tickets r));
  fg_saved : Forall (fun s => sd_user_id s <> u) (dvalues (id_saved r))
}.

(** The repositories agree on everything of the other accounts. *)
Record same_others (u : string) (r r' : Repo) : Prop := {
  so_user : forall v, v <> u -> dget v (id_users r') = dget v (id_users r);
  so_roles : forall v, v <> u -> dget v (id_roles r') = dget v (id_roles r);
  so_session : forall h s, se_user_id s <> u -> dget h (id_sessions r') = Some s <-> dget h (id_sessions r) = Some s;
  so_ticket : forall h t, rt_user_id t <> u -> dget h (id_tickets r') = Some t <-> dget h (id_tickets r) = Some t;
  so_saved : forall k s, sd_user_id s <> u -> dget k (id_saved r') = Some s <-> dget k (id_saved r) = Some s;
  so_states : id_oauth_states r' = id_oauth_states r
}.

Lemma Forall_values {K V} `{EqDecision K} (d : dict K V) (P : V -> Prop) :
  NoDup (dkeys d) -> (forall k v, dget k d = Some v -> P v) -> Forall P (dvalues d).
Proof.
  intros Hd H. apply Forall_forall. intros v (kv&->&Hin)%list_elem_of_fmap. destruct kv as [k x].
  apply (H k). by apply elem_dget.
Qed.

Lemma delete_forgets u r :
  identity_ok r -> is_Some (dget u (id_users r)) -> forgotten u (repo_delete_account u r).2.
Proof.
  intros Hr [user Hu]. pose proof (delete_account_ok u r Hr) as Hr'. revert Hr'. unfold repo_delete_account.
  rewrite Hu. cbn [snd]. intros Hr'. assert (dget u (ddel u (id_users r)) = None) as Hn by apply dget_ddel_eq, Hr.
  split; cbn; [done|apply dget_ddel_eq, Hr| | | |].
  - intros s Es. apply (io_subject _ Hr') in Es as (w&Hw&_). cbn in Hw. congruence.
  - apply Forall_values; [apply (io_sessions _ Hr')|]. intros h s [v Hv]%(io_session _ Hr'). cbn in Hv. congruence.
  - apply Forall_values; [apply (io_tickets _ Hr')|]. intros h s [v Hv]%(io_ticket _ Hr'). cbn in Hv. congruence.
  - apply Forall_values; [apply (io_saveds _ Hr')|]. intros h s [v Hv]%(io_saved _ Hr'). cbn in Hv. congruence.
Qed.

Lemma delete_same_others u r : identity_ok r -> same_others u r (repo_delete_account u r).2.
Proof.
  intros Hr. unfold repo_delete_account. destruct (dget u (id_users r)) as [user|]; [|done]. cbn [snd].
  assert (forall {K V} `{EqDecision K} (d : dict K V) (owner : V -> string) k v,
    NoDup (dkeys d) -> owner v <> u ->
    dget k (dfilter (fun x => negb (bool_decide (owner x = u))) d) = Some v <-> dget k d = Some v) as Hf.
  { intros K V ? d owner k v Hd Hv. rewrite dget_dfilter_Some by done.
    split; [by intros [? _]|]. intros E. split; [done|]. by rewrite bool_decide_eq_false_2. }
  split; cbn; intros; try (by apply dget_ddel_ne); try done; apply Hf; try done; apply Hr.
Qed.

(** Deleting an account leaves nothing of it, no user, subject, role, session, ticket
    or saved item, and nothing of the other accounts changes; none of its session tokens
    authenticates any more.  The call asks for what every change asks for and a recent
    login; otherwise it deletes nothing. *)
Theorem deleted_accounts_leave_nothing catalog actions c :
  let w := run actions (start catalog) in
  match delete_account c w with
  | (Ok _, w') =>
      exists p, authorised c w p /\
        dt_sub (clock (2 + w_reads w)) (pr_authenticated_at p) <= ip_recent_authentication_window policy /\
        let u := us_user_id (pr_user p) in
        forgotten u (w_repo w') /\ same_others u (w_repo w) (w_repo w') /\
        forall t s, dget (token_hash t) (id_sessions (w_repo w)) = Some s -> se_user_id s = u ->
          (authenticate (Some t) w').1 = Ok None
  | (Raise _, w') => lapsed (w_repo w) (w_repo w')
  end.
Proof.
  intros w. assert (identity_ok (w_repo w)) as Hw by apply service_run_ok, empty_identity_ok.
  pose proof (delete_outcome c w) as H. destruct (delete_account c w) as [[x|e] w']; [|exact H].
  destruct H as (p&Hp&Hperm&E). exists p. split; [done|]. split; [exact Hperm|]. cbv zeta. cbn [changed] in E. rewrite E.
  assert (identity_ok (w_repo w')) as Hw' by (rewrite E; by apply delete_account_ok).
  pose proof (delete_forgets (us_user_id (pr_user p)) (w_repo w) Hw (authorised_account c w p Hw Hp)) as Hf.
  split; [exact Hf|]. split; [by apply delete_same_others|].
  intros t s Hs Hu. apply authenticate_missing. rewrite E.
  destruct (dget (token_hash t) (id_sessions (repo_delete_account _ (w_repo w)).2)) as [s'|] eqn:Es'; [|done]. exfalso.
  pose proof (fg_session _ _ Hf) as Hfs. rewrite Forall_forall in Hfs.
  assert (s' = s) as ->.
  { destruct (decide (se_user_id s' = us_user_id (pr_user p))) as [Eu|Hne].
    - exfalso. apply (Hfs s'); [|exact Eu]. apply dget_elem in Es'. by apply (list_elem_of_fmap_2 snd) in Es'.
    - apply (so_session _ _ _ (delete_same_others (us_user_id (pr_user p)) (w_repo w) Hw)) in Es'; [congruence|done]. }
  apply (Hfs s); [|exact Hu]. apply dget_elem in Es'. by apply (list_elem_of_fmap_2 snd) in Es'.
Qed.

(** ** The saved list, page by page *)

(** Newest first; at the same instant by target and type. *)
Definition list_key (s : SavedRecord) : Z * (string * string) :=
  (- instant (sd_saved_at s), (sd_target_id s, SavedType_value (sd_saved_type s))).

Definition position_of (s : SavedRecord) : CursorPosition :=
  mk_CursorPosition (sd_saved_at s) (sd_target_id s) (sd_saved_type s).

Lemma is_after_key x y : is_after y (position_of x) = pylt (list_key x) (list_key y).
Proof.
  change (pylt (list_key x) (list_key y)) with
    (match lex (Z.compare (- instant (sd_saved_at x)) (- instant (sd_saved_at y)))
             (pycmp (sd_target_id x, SavedType_value (sd_saved_type x))
                    (sd_target_id y, SavedType_value (sd_saved_type y))) with Lt => true | _ => false end).
  unfold is_after, position_of. cbn [cp_saved_at cp_target_id cp_saved_type].
  unfold dt_eqb. rewrite dt_lt_Z.
  destruct (Z.eqb_spec (instant (sd_saved_at y)) (instant (sd_saved_at x))) as [E|E]; cbn [negb].
  - rewrite E, Z.compare_refl. reflexivity.
  - destruct (Z.compare_spec (- instant (sd_saved_at x)) (- instant (sd_saved_at y))); cbn [lex];
      [lia|apply Z.ltb_lt; lia|apply Z.ltb_ge; lia].
Qed.

Definition stored_saved (u : string) (saved_type : option SavedType) (r : Repo) : list SavedRecord :=
  List.filter (fun s => bool_decide (sd_user_id s = u) &&
                        match saved_type with None => true | Some t => bool_decide (sd_saved_type s = t) end)
    (dvalues (id_saved r)).

Definition saved_list (u : string) (saved_type : option SavedType) (r : Repo) : list SavedRecord :=
  sorted_by list_key (stored_saved u saved_type r).

Lemma SavedType_value_inj t t' : SavedType_value t = SavedType_value t' -> t = t'.
Proof. by destruct t, t'. Qed.

Lemma list_keys_distinct u saved_type r : identity_ok r -> NoDup (list_key <$> stored_saved u saved_type r).
Proof.
  intros Hr. assert (NoDup (saved_key <$> stored_saved u saved_type r)) as H.
  { apply NoDup_key_filterb. apply keyed_NoDup, Hr. }
  assert (Forall (fun s => sd_user_id s = u) (stored_saved u saved_type r)) as Hu.
  { apply Forall_forall. intros s [_ [Hs%bool_decide_eq_true _]%andb_true_iff]%elem_of_filterb. done. }
  revert H Hu. generalize (stored_saved u saved_type r). clear. induction l as [|x l IH]; [constructor|].
  intros [Hx Hl]%NoDup_cons [Hxu Hlu]%Forall_cons. apply NoDup_cons. split; [|by apply IH].
  intros (y&E&Hy)%list_elem_of_fmap. apply Hx. apply list_elem_of_fmap. exists y. split; [|done].
  rewrite Forall_forall in Hlu. unfold saved_key, list_key in *. injection E as _ E1 E2%SavedType_value_inj.
  rewrite Hxu, (Hlu y Hy). congruence.
Qed.

Lemma list_saved_spec u saved_type r :
  identity_ok r -> list_saved u saved_type r = (Ok (saved_list u saved_type r), r).
Proof.
  intros Hr. unfold list_saved, saved_list. fold (stored_saved u saved_type r). f_equal. f_equal.
  apply (sorted_by_twice (fun s => (sd_target_id s, SavedType_value (sd_saved_type s)))).
  intros x y Hx Hy E. apply pycmp_eq in E.
  exact (NoDup_key_inj list_key _ x y (list_keys_distinct u saved_type r Hr) Hx Hy E).
Qed.

(** What follows a record of the list is what the cursor at it lets through. *)
Lemma after_position pre x l :
  StronglySorted (key_le list_key) (pre ++ x :: l) -> NoDup (list_key <$> pre ++ x :: l) ->
  List.filter (fun record => is_after record (position_of x)) (pre ++ x :: l) = l.
Proof.
  intros Hs Hnd. rewrite List.filter_app. simpl. rewrite is_after_key, pylt_irrefl.
  rewrite (filterb_none _ pre), (filterb_all _ l); [done| |].
  - intros y Hy. rewrite is_after_key. rewrite pylt_pyle. apply negb_true_iff, not_true_iff_false. intros Hle.
    apply StronglySorted_app in Hs as (_&_&Hs). apply StronglySorted_inv in Hs as [_ Hx].
    rewrite Forall_forall in Hx. specialize (Hx y Hy).
    assert (list_key x = list_key y) as E.
    { apply pycmp_eq. unfold key_le, pyle in Hx, Hle. rewrite (pycmp_opp (list_key x)) in Hle.
      by destruct (pycmp (list_key x) (list_key y)). }
    rewrite fmap_app in Hnd. apply NoDup_app in Hnd as (_&_&Hnd). apply NoDup_cons in Hnd as [Hnot _].
    apply Hnot. apply list_elem_of_fmap. by exists y.
  - intros y Hy. rewrite is_after_key, pylt_pyle. apply negb_false_iff.
    apply list_elem_of_split in Hy as (l1&l2&->).
    rewrite <-app_assoc in Hs. apply StronglySorted_app in Hs as (_&_&Hs). simpl in Hs.
    apply StronglySorted_inv in Hs as [_ Hy]. rewrite Forall_forall in Hy.
    apply (Hy x). apply elem_of_app. right. by left.
Qed.

Lemma page_of_drop records position limit n :
  1 <= limit ->
  match position with
  | Some p => List.filter (fun record => is_after record p) records
  | None => records
  end = drop n records ->
  page_of records position limit =
    (take (Z.to_nat limit) (drop n records),
     (if Z.of_nat n + limit <? Z.of_nat (length records)
      then position_of <$> last (take (Z.to_nat limit) (drop n records)) else None),
     Z.of_nat n + limit <? Z.of_nat (length records)).
Proof.
  intros Hl E. unfold page_of. rewrite E, take_take, length_take, length_drop.
  replace (Z.to_nat limit `min` Z.to_nat (limit + 1))%nat with (Z.to_nat limit) by lia.
  assert ((limit <? Z.of_nat (Z.to_nat (limit + 1) `min` (length records - n))) =
          (Z.of_nat n + limit <? Z.of_nat (length records))) as ->; [|done].
  destruct (Z.ltb_spec (Z.of_nat n + limit) (Z.of_nat (length records))); [apply Z.ltb_lt|apply Z.ltb_ge]; lia.
Qed.

(** The whole list, by following the cursors from the first page on. *)
Fixpoint follow_saved (fuel : nat) (session_token : option string) (saved_type : option SavedType)
    (position : option CursorPosition) (limit : Z) : M World (list SavedItem) :=
  match fuel with
  | O => throw OutOfFuel
  | S fuel =>
      page ← list_saved_items session_token saved_type position limit;
      match sp_next_cursor page with
      | None => mret (sp_items page)
      | Some p => rest ← follow_saved fuel session_token saved_type (Some p) limit; mret (sp_items page ++ rest)
      end
  end.

Lemma authenticate_alive t w p :
  is_empty t = false -> py_len t <= 512 -> alive (token_hash t) (w_reads w) (w_repo w) p ->
  authenticate (Some t) w = (Ok (Some p), tick 1 w).
Proof.
  intros He Hl (s&Es&Er&Ee&Eu&Ero&Hin&Eh&Ea&Ex). unfold authenticate. rewrite He. cbn [orb].
  rewrite (proj2 (Z.ltb_ge _ _) Hl). destruct w as [r cat reads tokens]. unfold authenticate_session_hash. run_world.
  cbn [w_repo w_reads] in *.
  unfold get_session. cbn [fst snd]. rewrite Es, Er. unfold dt_lt in Ee. rewrite pylt_pyle in Ee.
  apply negb_true_iff in Ee. unfold dt_le. rewrite Ee. unfold get_user. cbn [fst snd w_repo]. rewrite Eu.
  unfold get_roles. cbn [fst snd w_repo]. rewrite <-Ero, bool_decide_eq_false_2 by tauto. cbn. do 3 f_equal.
  destruct p. cbn in *. by subst.
Qed.

Lemma list_saved_items_page t p w saved_type position limit n :
  let records := saved_list (us_user_id (pr_user p)) saved_type (w_repo w) in
  identity_ok (w_repo w) -> is_empty t = false -> py_len t <= 512 ->
  alive (token_hash t) (w_reads w) (w_repo w) p -> 1 <= limit <= 100 ->
  match position with
  | Some c => List.filter (fun record => is_after record c) records
  | None => records
  end = drop n records ->
  list_saved_items (Some t) saved_type position limit w =
    (Ok (mk_SavedPage ((fun record => project_saved (w_catalog w) record (pr_roles p)) <$>
                         take (Z.to_nat limit) (drop n records))
           (if Z.of_nat n + limit <? Z.of_nat (length records)
            then position_of <$> last (take (Z.to_nat limit) (drop n records)) else None)
           (Z.of_nat n + limit <? Z.of_nat (length records)) limit), tick 1 w).
Proof.
  intros records Hw He Hl Ha Hlim Hpos. unfold list_saved_items, require_authenticated. cbv [mbind M_bind].
  rewrite (authenticate_alive t w p) by done. cbv [mret M_ret lift].
  rewrite (proj2 (Z.leb_le 1 limit)), (proj2 (Z.leb_le limit 100)) by lia. cbn [andb negb raise_if].
  unfold on_repo. rewrite (list_saved_spec _ _ (w_repo (tick 1 w)) Hw). cbn [fst snd].
  change (w_repo (tick 1 w)) with (w_repo w). fold records.
  rewrite (page_of_drop records position limit n); [|lia|exact Hpos]. destruct w; reflexivity.
Qed.

Lemma follow_saved_from t p saved_type limit fuel :
  is_empty t = false -> py_len t <= 512 -> 1 <= limit <= 100 ->
  forall n position w,
  let records := saved_list (us_user_id (pr_user p)) saved_type (w_repo w) in
  identity_ok (w_repo w) -> (length records - n < fuel)%nat ->
  (forall k, (k < fuel)%nat -> alive (token_hash t) (k + w_reads w) (w_repo w) p) ->
  match position with
  | Some c => List.filter (fun record => is_after record c) records
  | None => records
  end = drop n records ->
  (follow_saved fuel (Some t) saved_type position limit w).1 =
    Ok ((fun record => project_saved (w_catalog w) record (pr_roles p)) <$> drop n records).
Proof.
  intros He Hl Hlim. induction fuel as [|fuel IH]; intros n position w records Hw Hf Ha Hpos; [lia|].
  cbn [follow_saved]. cbv [mbind M_bind].
  rewrite (list_saved_items_page t p w saved_type position limit n); try done; [|by apply (Ha 0%nat); lia].
  fold records. cbn [sp_next_cursor sp_items].
  destruct (Z.ltb_spec (Z.of_nat n + limit) (Z.of_nat (length records))) as [Hlt|Hge].
  - set (m := (n + Z.to_nat limit)%nat). assert (m < length records)%nat as Hm by lia.
    destruct (lookup_lt_is_Some_2 records (pred m)) as [x Hx]; [lia|].
    assert (records = take (pred m) records ++ x :: drop m records) as E.
    { rewrite <-(take_drop_middle records (pred m) x Hx) at 1. do 2 f_equal. by replace (S (pred m)) with m by lia. }
    assert (last (take (Z.to_nat limit) (drop n records)) = Some x) as ->.
    { rewrite last_lookup, length_take, length_drop, lookup_take_lt, lookup_drop by lia.
      by replace (n + pred (Z.to_nat limit `min` (length records - n)))%nat with (pred m) by lia. }
    cbn [fmap option_fmap option_map].
    specialize (IH m (Some (position_of x)) (tick 1 w)). cbv zeta in IH. cbn [w_repo w_catalog w_reads tick] in IH.
    fold records in IH. destruct (follow_saved fuel (Some t) saved_type (Some (position_of x)) limit (tick 1 w)) as [o w2].
    cbn [fst] in IH. rewrite IH; [|done|lia| |].
    + cbn. f_equal. rewrite <-fmap_app. f_equal.
      rewrite <-(take_drop (Z.to_nat limit) (drop n records)) at 2. by rewrite drop_drop.
    + intros k Hk. replace (k + (1 + w_reads w))%nat with (S k + w_reads w)%nat by lia. apply Ha. lia.
    + pose proof (sorted_by_sorted list_key (stored_saved (us_user_id (pr_user p)) saved_type (w_repo w))) as Hs.
      fold (saved_list (us_user_id (pr_user p)) saved_type (w_repo w)) in Hs. fold records in Hs.
      assert (NoDup (list_key <$> records)) as Hnd.
      { unfold records, saved_list. rewrite (fmap_Permutation _ _ _ (sorted_by_perm _ _)). by apply list_keys_distinct. }
      rewrite E in Hs, Hnd |- * at 1. rewrite after_position by done. done.
  - cbn. do 2 f_equal. apply take_ge. rewrite length_drop. lia.
Qed.

Lemma authenticated_alive t w p k :
  (authenticate (Some t) (tick k w)).1 = Ok (Some p) -> alive (token_hash t) (k + w_reads w) (w_repo w) p.
Proof.
  intros E. pose proof (authenticate_cases (Some t) (tick k w)) as H.
  destruct (authenticate (Some t) (tick k w)) as [[[q|]|e] w']; cbn [fst] in E; try discriminate E.
  injection E as ->. by destruct H as (_&s&[= <-]&_&H).
Qed.

(** Following the cursors of the saved list from the first page on shows every saved
    item of the user once, newest first and at the same instant by target and type, each
    as the catalog has it now; pages of any size the service accepts, while the session
    lives. *)
Theorem saved_list_pages_through catalog actions t p saved_type limit :
  let w := run actions (start catalog) in
  let records := saved_list (us_user_id (pr_user p)) saved_type (w_repo w) in
  is_empty t = false -> py_len t <= 512 -> 1 <= limit <= 100 ->
  (forall k, (k <= length records)%nat -> alive (token_hash t) (k + w_reads w) (w_repo w) p) ->
  (follow_saved (S (length records)) (Some t) saved_type None limit w).1 =
    Ok ((fun record => project_saved (w_catalog w) record (pr_roles p)) <$> records) /\
  records ≡ₚ stored_saved (us_user_id (pr_user p)) saved_type (w_repo w) /\
  NoDup (saved_key <$> records) /\ StronglySorted (key_le list_key) records.
Proof.
  intros w records He Hl Hlim Ha. assert (identity_ok (w_repo w)) as Hw by apply service_run_ok, empty_identity_ok.
  split_and!.
  - apply (follow_saved_from t p saved_type limit _ He Hl Hlim 0); try done; [fold records; lia|].
    intros k Hk. apply Ha. lia.
  - apply sorted_by_perm.
  - unfold records, saved_list. rewrite (fmap_Permutation _ _ _ (sorted_by_perm _ _)).
    apply NoDup_key_filterb. apply keyed_NoDup, Hw.
  - apply sorted_by_sorted.
Qed.
End service.

(** ** A concrete service *)

Definition demo_policy : IdentityPolicy :=
  mk_IdentityPolicy "https://day.example/" "/api/auth/google/callback" "/today" (hours 8) (minutes 10) (seconds 30)
    (minutes 10) [].
Definition demo_clock (n : nat) : datetime :=
  mk_datetime ((ymd2ord 2026 8 14 - 1) * us_per_day + seconds (Z.of_nat n)) (Some 0).
Definition demo_token (n : nat) (number_of_bytes : Z) : string := "t" +:+ str_Z (Z.of_nat n).
Definition demo_exchange (code redirect_uri : string) : option GoogleIdentity :=
  Some (mk_GoogleIdentity "subject-1" " Ada " (Some "ada@day.example") true).
Definition demo_target (target_id : string) : TargetRecord :=
  mk_TargetRecord SAVED_THEME target_id ("Theme " +:+ target_id) AVAILABLE None None None.
Definition demo_catalog : InMemoryTargetCatalog := catalog_of [demo_target "a"; demo_target "b"].
Definition demo_credentials : credentials :=
  mk_credentials (Some "t3") (Some "https://day.example") (Some "t4") (Some "t4").
Definition demo_actions : list action :=
  [ActBegin (Some "/saved"); ActComplete "code" "t0" "t1" None;
   ActPerform (ChSave SAVED_THEME "a") demo_credentials; ActPerform (ChSave SAVED_THEME "b") demo_credentials;
   ActPerform ChTicket demo_credentials].

#[local] Abbreviation demo_run :=
  (run demo_policy demo_clock demo_token id (fun _ => true) (fun state _ => state) demo_exchange demo_actions
     (start demo_catalog)).
#[local] Abbreviation demo_auth w := (authenticate demo_clock (Some "t3") w).

Definition demo_principal : SessionPrincipal :=
  match (demo_auth demo_run).1 with
  | Ok (Some p) => p
  | _ => mk_SessionPrincipal "" (mk_User "" "" "" None false (demo_clock 0) (demo_clock 0)) [] (demo_clock 0) (demo_clock 0)
  end.

Example demo_ticket_admits :
  is_ok (consume_realtime_ticket demo_policy demo_clock "t5" "https://day.example" demo_run).1 = true /\
  is_ok (consume_realtime_ticket demo_policy demo_clock "t5" "https://day.example"
           (consume_realtime_ticket demo_policy demo_clock "t5" "https://day.example" demo_run).2).1 = false.
Proof. split; vm_compute; reflexivity. Qed.

Example demo_deletes : is_ok (delete_account demo_policy demo_clock demo_credentials demo_run).1 = true.
Proof. vm_compute. reflexivity. Qed.

Lemma demo_alive k :
  (k <= 2)%nat -> alive demo_clock (token_hash "t3") (k + w_reads demo_run) (w_repo demo_run) demo_principal.
Proof.
  intros Hk. apply (authenticated_alive demo_clock "t3" demo_run demo_principal k).
  destruct k as [|[|[|k]]]; [vm_compute; reflexivity..|lia].
Qed.

Lemma saved_list_pages_through_witness :
  (follow_saved demo_clock 3 (Some "t3") None None 1 demo_run).1 =
    Ok [mk_SavedItem SAVED_THEME "b" "Theme b" (demo_clock 7) AVAILABLE None None;
        mk_SavedItem SAVED_THEME "a" "Theme a" (demo_clock 4) AVAILABLE None None].
Proof.
  pose proof (saved_list_pages_through demo_policy demo_clock demo_token id (fun _ => true) (fun state _ => state)
                demo_exchange demo_catalog demo_actions "t3" demo_principal None 1) as H.
  cbv zeta in H.
  assert (length (saved_list (us_user_id (pr_user demo_principal)) None (w_repo demo_run)) = 2%nat) as El
    by (vm_compute; reflexivity).
  rewrite El in H. destruct H as [H _]; [reflexivity|vm_compute; discriminate|lia|exact demo_alive|].
  rewrite H. vm_compute. reflexivity.
Defined.
